(* ===== verification/_CoqProject ===== *)
-Q . S2P
Prelude.v
Strings.v
Types.v
Images.v
Schema.v
Access.v
Proto.v
Dn.v
SchemaManager.v
Subschema.v
Filters.v
Attributes.v
Search.v
LdapWrite.v
Session.v
Database.v
SqlConfig.v
SqlGroups.v
SqlUsers.v
SqlOps.v
SqlLists.v
Opaque.v
AuthTokens.v
AuthService.v
Startup.v
GraphqlQuery.v
GraphqlInput.v
GraphqlMutation.v
Confinement.v
GraphqlSql.v
Accounts.v
System.v
Relational.v
Migrations.v
MigratedDb.v
MigratedTables.v
MigratedSound.v
MigratedData.v
LdapServer.v
Config.v
Boot.v
Kerberos.v
KerberosManager.v
Keycloak.v
Wire.v
SetPassword.v
MigrationTool.v
WebApp.v
WebForms.v
WebSite.v
WebCreate.v
