(* ===== verification/Prelude.v ===== *)
(** * Klldap: a verification library for the KLLDAP directory server

    KLLDAP is a directory of users and groups in an SQL database, served over LDAP,
    GraphQL and HTTP.  This library models the server from the three front ends down to
    the tables and proves what makes it correct.

    ** The program and its model

    A connection is served by [crates/ldap]: a message is decoded by ldap3_proto,
    dispatched by [LdapHandler::handle_ldap_message] ([handler.rs]), and answered with
    responses.  The only state of a session is the identity its last bind established.
    A web client logs in through [server/src/auth_service.rs], which hands out a JWT and
    a refresh token, and sends GraphQL requests ([crates/graphql-server]) under the
    identity the JWT proves.  Both reach the data through the traits of
    [crates/domain-handlers/src/handler.rs], filtered by [crates/access-control]
    according to that identity.  [crates/sql-backend-handler] implements the traits on
    the database.  [server/src/main.rs] prepares the database and starts the servers.

    - [Prelude]: Rust's [Result], [collect], the state-and-error monad [io] (an
      [async fn(&self) -> Result] over a store), tactics and shared lemmas.
    - [Strings]: the [str] operations the server calls, on strings of bytes.
    - [Types]: identifiers, attribute values, users, groups, requests, filters, errors
      ([crates/auth/src/lib.rs], [crates/domain/src], [crates/domain-model/src/error.rs]).
    - [Images]: avatars ([crates/domain/src/images.rs]).
    - [Schema]: the attribute tables and lookup by name or alias ([crates/schema/src]).
    - [Access]: permissions, the traits as the class [BackendHandler], and who gets
      which part of the backend ([crates/auth/src/access_control.rs],
      [crates/access-control/src/lib.rs]).
    - [Proto]: messages, result codes, response builders.
    - [Dn], [SchemaManager], [Subschema], [Filters], [Attributes]: one file each of
      [crates/ldap/src]: [dn.rs], [schema/], [search/subschema.rs],
      [search/filters.rs], [attributes.rs].
    - [Search]: [search/scope.rs], [results.rs], [root_dse.rs], [search/handler.rs],
      [compare.rs].
    - [LdapWrite]: [password.rs], [modify.rs], [create.rs], [delete.rs].
    - [Session]: [handler.rs], every message.
    - [Database]: the tables, their constraints, statements and transactions, with
      faults at any statement.
    - [SqlConfig]: stored values, settings, schema and POSIX numbers;
      [SqlGroups], [SqlUsers]: the operations on groups, users and memberships;
      [SqlOps]: all writing operations in any sequence; [SqlLists]: the translation of
      filters to SQL and the two list operations.  [SqlLists.sql_backend] is the
      instance of [BackendHandler].
    - [Opaque]: passwords ([sql_opaque_handler.rs], [crates/auth/src/opaque.rs]), and
      [full_backend], the backend with its login and registration.
    - [AuthTokens]: the tables of sessions ([sql_tcp_backend_handler.rs],
      [jwt_sql_tables.rs], [db_cleaner.rs]); [AuthService]: the routes of
      [auth_service.rs] over the state [Web] of the server, the tables and the list of
      revoked JWTs in memory, and the step relation of its requests.
    - [Startup]: [set_up_server] of [main.rs], the server key of [configuration.rs] and
      its record in [sql_tables.rs].
    - [GraphqlQuery], [GraphqlInput], [GraphqlMutation]: [query/], [mutation/helpers.rs]
      and [mutation/mod.rs] of [crates/graphql-server/src].
    - [LdapServer]: the connections of [server/src/ldap_server.rs] around [Session], and
      the checks of [healthcheck.rs].
    - [Config]: [server/src/configuration.rs] and [cli.rs]; [Boot]: the command [run] of
      [main.rs], from the database to the running server.
    - [Kerberos]: [ffi.rs] and [lib.rs] of [crates/kerberos/src], with the C objects that
      are alive; [KerberosManager]: [bin/kerberos_manager.rs], over the files of the
      machine and a log of what it asks the system; [Keycloak]: [keycloak_config.rs],
      [keycloak_client.rs] and the GraphQL operations over them, with the requests sent.
    - [Wire]: what the clients of the server send and how its routes answer it, with
      [configure_server] of [auth_service.rs]; [SetPassword]: the program of
      [set-password/src]; [MigrationTool]: the program of [migration-tool/src], over the
      answers of its operator and of the servers.
    - [WebApp]: what the components of the web front end share ([app/src/infra]): calls,
      cookies, the counter of running tasks, and how a component runs: what the page
      rendered last offers, what the user types, futures that end in any order.
      [WebForms]: the forms to log in and out, to change and reset a password and to
      create a user, and the application ([app/src/components]).  [WebSite]: the server
      behind the browser's cookies; [WebCreate]: runs of the form that creates users.
    - [Accounts], [Confinement], [GraphqlSql], [System]: no new code, but what holds of
      the SQL operations one after another and of the front ends composed with them.
    - [Relational]: databases whose tables change: a catalog of tables with columns,
      keys, foreign keys and rows, the statements on it, connections and transactions.
      [Migrations]: [sql_migrations.rs], [init_table] of [sql_tables.rs] and of
      [jwt_sql_tables.rs], and [setup_sql_tables] of [main.rs].  [MigratedDb],
      [MigratedTables], [MigratedSound], [MigratedData]: what they guarantee, in the
      order: accounts, table definitions, the link to [Database], attributes.

    A definition has the name of the Rust function it translates where Rocq allows it;
    those of the SQL backend that implement a trait method carry the prefix [sql_],
    GraphQL resolvers [query_] or the suffix [_mutation] where a backend operation has
    their name.  Parts of a long function that are named here are small definitions the
    translation of the whole function composes.

    ** What is shown

    - The whole system ([System], [Confinement]): through any use of the three front
      ends, cleanups and restarts, references between tables resolve, unique columns are
      unique, built-in groups stay, nobody is both administrator and disabled, and the
      list of organizational units is well formed; a user without administration rights
      changes only its own entry (and passwords, if a password manager).
    - Authentication ([Access], [Session], [Opaque], [AuthService]): the identity of an
      LDAP session comes from a bind the backend accepted; an unbound session learns and
      changes nothing; the rights are exactly those the groups name; a disabled user
      cannot log in; a registered password is the one accepted; a JWT lives for a day
      with the rights of its user, and a logout ends it for good; a reset token works
      once; revoked hashes survive the signed column.
    - Startup ([Startup], [Config], [Boot]): a server that starts has its groups and an
      administrator who can log in, also on a database that was just upgraded; it
      refuses a changed key without touching anything; a restart finds the same key.
    - Connections ([LdapServer]): every request is answered under its id by exactly one
      final response after the entries; a connection is a session of [Session]; the
      server passes its own health check.
    - Migrations ([MigratedDb], [MigratedSound], [MigratedData]): on engines that roll back
      the definition of tables an interrupted upgrade resumes where it stopped; accounts and memberships survive; a database of any
      version becomes, through [MigratedSound.load_tables], tables that satisfy the
      integrity [SqlOps] and [System] start from; a new database is set up; profiles
      become attributes exactly.
    - Reading ([Filters], [Search], [Attributes], [SchemaManager], [Subschema],
      [GraphqlSql]): converted filters mean what the LDAP filters mean and fail only
      where a leaf fails; a regular user sees itself and the stored groups it is a member
      of; entries are built without panics; wildcard expansion is independent of hash
      order; the query [users] answers exactly the users whose rows satisfy the filter.
    - Names ([Dn]): DNs of users and groups round-trip; the subtree test is the suffix
      order.
    - Writing ([LdapWrite], [GraphqlInput], [GraphqlSql], [Images]): SSH keys are added
      and removed exactly; a user created under a DN stays under it; deprecated and
      listed attributes are merged; GraphQL stores only values of the declared type
      where the caller may write; POSIX settings are read back and keep numbers in
      range; avatars are bounded.
    - Storage ([SqlConfig], [SqlOps], [Accounts]): stored values are read back, and so is
      a user that was created; free POSIX numbers are found, and those of users stay
      distinct; a failed operation changes no table; integrity, the built-in groups and
      the exclusion of administrators and disabled users hold through every sequence of
      operations; only deleting its last member's account empties the administrators'
      group.
    - Listing ([SqlLists]): the SQL backend satisfies the laws [Search.ListerLaws] the
      LDAP layer is proved against; filters that come from LDAP never panic in the
      translation; [list_users] and [list_groups] list what satisfies the filter, in
      order, and agree with [get_user_details] and [get_group_details].
    - Kerberos and Keycloak ([Kerberos], [KerberosManager], [Keycloak]): C objects are
      used while alive and freed once, but for the leaks named (principals of a password
      with a NUL byte, arrays of keys); a synchronisation that succeeds set the password;
      the manager leaves an existing KDC database alone, and the access list as it was, if
      that passes its check, repaired with the line of the administrator and the entries
      of others, or made from the template; a push sends exactly the documented requests, and none after a realm was
      found to exist.
    - Tools ([SetPassword], [MigrationTool]): a password the tool changed is the one a
      bind accepts; the migration tool asks for exactly the users, groups and
      memberships that are missing, again only when the operator retries, but never gets
      past its login.
    - Web front end ([WebForms], [WebSite], [WebCreate]): the counter of running tasks is
      exact; the login form reports only identities the server answered its requests of
      that run with; the own password is changed only after the old one was accepted; the
      form that creates users panics only on a picture's text that its log cuts inside a
      character; the page of a reset mail waits for ever.
    - Behaviour the code has and its authors may not want is stated as theorems too:
      [Session.session_panics_exactly], [Session.failed_bind_identity],
      [Search.non_ou_child_is_container], [Dn.ou_in_base_rejects_users],
      [Dn.unescaped_id_is_lost],
      [SqlOps.last_admin_account_can_be_deleted], [SqlOps.exclusion_check_races],
      [Opaque.login_data_registers], [AuthService.refresh_ignores_expiry],
      [AuthService.deleted_user_keeps_session], [MigratedData.alias_normalized],
      [MigratedData.v12_fails_where_errors_abort], [MigratedData.half_upgrade_is_stuck],
      [Config.host_options_ignored],
      [LdapServer.timeouts_are_healthy], [Kerberos.keytab_query_injection],
      [KerberosManager.star_in_target_counts], [Keycloak.unanswered_check_overwrites],
      [Keycloak.admin_password_sent_to_given_url], [Keycloak.realm_json_users_dn],
      [MigrationTool.migration_never_logs_in],
      [MigrationTool.capital_letters_lose_memberships],
      [MigrationTool.capital_domain_panics], [WebSite.mailed_reset_never_ends],
      [WebSite.second_click_possible], [WebSite.edited_password_refused],
      [WebCreate.accented_picture_panics].

    ** Conventions and bounds

    - A panic is an [Err]: of the [result] where the function is pure, of the session
      step in [Session], [WebError], [GqlError] or [StartError] above.  Errors are
      values; [?] is [let?], respectively [let!].
    - Code the repository only links to is a class argument: [Types.Extern] (chrono,
      uuid, base64, serde_json, bincode, image codecs, Unicode), [Proto.LdapExtern]
      (clock, environment), [Database.SqlExtern] (engine and driver),
      [Relational.EngineExtern] (what the migrations notice of an engine),
      [Opaque.OpaqueExtern] (opaque-ke, orion), [AuthTokens.TokenExtern] (hash and
      random strings), [AuthService.WebExtern] (JWT), [GraphqlQuery.GraphqlExtern],
      [Images.ImageExtern], [Startup.StartExtern] (key derivation),
      [Kerberos.KadmExtern] (libkrb5, libkadm5, kadmin.local),
      [KerberosManager.MachineExtern] (operating system, toml, minijinja),
      [Keycloak.KeycloakExtern] (what Keycloak answers, serde_json, toml),
      [SetPassword.UrlExtern] (URLs), [MigrationTool.MigrationExtern] (networks, replies
      of the foreign LDAP server, decoding of GraphQL replies), [WebApp.BrowserExtern]
      (cookies, the crates in the browser).  The laws a theorem uses are the classes [UnicodeLaws], [JsonLaws], [SqlLaws], [OpaqueLaws],
      [TokenLaws], [ClockLaws], [WebLaws], [ImageLaws], [StartLaws], [PosixJsonLaws],
      [CookieLaws], [JwtParseLaws], each with a concrete instance.
    - The order in which a [HashSet] is iterated is an argument; a [BTreeMap] is a map
      iterated in key order; ORDER BY is a stable sort.
    - An [i64] is an integer in [Z]; parsing checks the range, and the casts between
      [u64], [i64] and [i32] are written out where the code has them.
    - Loops: [Strings.trim_loop] takes the length of the string as fuel, since every
      turn removes a byte; [Strings.dec_digits] takes the number of decimal digits a
      number can have; [SqlConfig.find_free_number] takes the number of candidates, and
      [SqlConfig.next_uid_number_least] shows that it always ends with a number or the
      error.  The dialogues of [MigrationTool] end only when the operator's answers do, or
      before: they take the number of answers and one as fuel, and the lemmas [*_fuel]
      of that file show that more changes nothing.  The other recursions are structural.
    - A transaction runs alone, as in the serializable case, and a request of a front
      end is one step; operations of different callers are interleaved between
      transactions in [SqlOps.exclusion_check_races].  Whether the definition of a
      table is part of a transaction, as in SQLite and PostgreSQL, or commits it, as in
      MySQL and MariaDB, is a property of the engine ([Relational.ddl_commits]); whether an
      error ends the transaction is another ([Relational.errors_abort]).

    ** What is not modelled

    Accepting connections, TLS, mails, logging, what figment and clap do and the two
    commands that send a test mail or print a schema are set-up of libraries.  Mails
    are recorded, not sent, and so are the Kerberos calls of [LdapWrite] and
    [GraphqlMutation], which [Kerberos] models on their own: the KDC and the database
    share no state.  Of the web front end ([app/])
    the other pages are left out: tables, details and settings, which send one GraphQL
    request per button and show its answer; and of the forms their layout.
    What the tools print is left out. *)

From Stdlib Require Export ZArith Lia Bool.
From Stdlib Require Import Ascii String.
From Stdlib Require Export Ascii.
From stdpp Require Export base list strings gmap.

Declare Scope klldap_scope.
Delimit Scope klldap_scope with klldap.

(** ** Rust's [Result] *)

Inductive result (E A : Type) : Type :=
| Ok (a : A)
| Err (e : E).
Arguments Ok {E A} a.
Arguments Err {E A} e.

Definition result_bind {E A B} (r : result E A) (k : A -> result E B) : result E B :=
  match r with
  | Ok a => k a
  | Err e => Err e
  end.

Definition map_ok {E A B} (f : A -> B) (r : result E A) : result E B :=
  match r with
  | Ok a => Ok (f a)
  | Err e => Err e
  end.

Definition map_err {E E' A} (f : E -> E') (r : result E A) : result E' A :=
  match r with
  | Ok a => Ok a
  | Err e => Err (f e)
  end.

Definition ok_or {E A} (o : option A) (e : E) : result E A :=
  match o with
  | Some a => Ok a
  | None => Err e
  end.

Definition ok_option {E A} (r : result E A) : option A :=
  match r with
  | Ok a => Some a
  | Err _ => None
  end.

Definition is_ok {E A} (r : result E A) : bool :=
  match r with
  | Ok _ => true
  | Err _ => false
  end.

Definition unwrap_or {E A} (r : result E A) (d : A) : A :=
  match r with
  | Ok a => a
  | Err _ => d
  end.

Notation "'let?' x ':=' e 'in' k" := (result_bind e (fun x => k))
  (at level 200, x pattern, e at level 100, k at level 200, right associativity) : klldap_scope.

Open Scope klldap_scope.

(** [Iterator<Item = Result<..>>::collect::<Result<Vec<_>>>]: the values, or the
    first error. *)
Fixpoint collect {E A} (l : list (result E A)) : result E (list A) :=
  match l with
  | [] => Ok []
  | r :: l' => let? a := r in let? l'' := collect l' in Ok (a :: l'')
  end.

(** ** Tactics and hint databases of the development *)

Create HintDb klldap.

(** Split every [if]/[match] of the goal or of a hypothesis, close the absurd
    branches. *)
Ltac crush_match :=
  intros; repeat (case_match; simplify_eq/=; try done); simplify_eq/=; try done.

(** Turn boolean facts into propositions. *)
Ltac bool_to_prop :=
  repeat match goal with
  | H : _ && _ = true |- _ => apply andb_prop in H; destruct H
  | H : negb _ = true |- _ => apply negb_true_iff in H
  | H : _ || _ = false |- _ => apply orb_false_iff in H; destruct H
  | H : String.eqb _ _ = true |- _ => apply String.eqb_eq in H
  | H : String.eqb _ _ = false |- _ => apply String.eqb_neq in H
  | H : Z.eqb _ _ = true |- _ => apply Z.eqb_eq in H
  | H : Z.eqb _ _ = false |- _ => apply Z.eqb_neq in H
  | H : Z.leb _ _ = true |- _ => apply Z.leb_le in H
  | H : Z.leb _ _ = false |- _ => apply Z.leb_gt in H
  | H : Z.ltb _ _ = true |- _ => apply Z.ltb_lt in H
  | H : Z.ltb _ _ = false |- _ => apply Z.ltb_ge in H
  end.

(** ** Generic lemmas *)

Lemma result_bind_Ok {E A B} (r : result E A) (k : A -> result E B) b :
  result_bind r k = Ok b <-> exists a, r = Ok a /\ k a = Ok b.
Proof. destruct r; naive_solver. Qed.

Lemma ok_or_Ok {E A} (o : option A) (e : E) a : ok_or o e = Ok a <-> o = Some a.
Proof. destruct o; naive_solver. Qed.

Lemma collect_Ok {E A} (l : list (result E A)) (xs : list A) :
  collect l = Ok xs <-> Forall2 (fun r a => r = Ok a) l xs.
Proof.
  revert xs; induction l as [|r l IH]; intros xs; simpl.
  - split; [intros [= <-]; constructor | by inversion 1].
  - rewrite result_bind_Ok. split.
    + intros (a & -> & Hr). apply result_bind_Ok in Hr as (l' & Hl & [= <-]).
      constructor; [done | by apply IH].
    + inversion 1 as [|? a ? l' ? Hl]; subst. exists a. split; [done|].
      by rewrite (proj2 (IH l') Hl).
Qed.

Lemma collect_map_Ok {E A B} (f : A -> result E B) (l : list A) (xs : list B) :
  collect (map f l) = Ok xs <-> Forall2 (fun a b => f a = Ok b) l xs.
Proof.
  rewrite collect_Ok. split.
  - revert xs. induction l; intros xs; inversion 1; subst; constructor; auto.
  - induction 1; constructor; auto.
Qed.

Lemma collect_is_ok {E A} (l : list (result E A)) :
  is_ok (collect l) = forallb is_ok l.
Proof.
  induction l as [|[a|e] l IH]; simpl; [done| |done].
  by destruct (collect l).
Qed.

Lemma forallb_Forall {A} (p : A -> bool) l :
  forallb p l = true <-> Forall (fun x => p x = true) l.
Proof. rewrite forallb_forall, Forall_forall. setoid_rewrite list_elem_of_In. done. Qed.

Lemma existsb_elem {A} (p : A -> bool) l :
  existsb p l = true <-> exists x, x ∈ l /\ p x = true.
Proof. rewrite existsb_exists. setoid_rewrite list_elem_of_In. done. Qed.

Lemma existsb_not_elem {A} (p : A -> bool) l :
  existsb p l = false <-> forall x, x ∈ l -> p x = false.
Proof.
  rewrite <- not_true_iff_false, existsb_elem. split.
  - intros H x Hx. destruct (p x) eqn:E; [exfalso; eauto | done].
  - intros H (x & Hx & E). rewrite (H x Hx) in E. done.
Qed.

(** ** State and errors: an [async fn(&self, ..) -> Result<A, E>] over a store [S] *)

Definition io (S E A : Type) : Type := S -> result E A * S.

Definition io_ret {S E A} (a : A) : io S E A := fun s => (Ok a, s).

Definition io_fail {S E A} (e : E) : io S E A := fun s => (Err e, s).

Definition io_bind {S E A B} (m : io S E A) (k : A -> io S E B) : io S E B :=
  fun s => match m s with
           | (Ok a, s') => k a s'
           | (Err e, s') => (Err e, s')
           end.

Definition io_lift {S E A} (r : result E A) : io S E A := fun s => (r, s).

(** [.await.map_err(f)?] *)
Definition io_map_err {S E E' A} (f : E -> E') (m : io S E A) : io S E' A :=
  fun s => let '(r, s') := m s in (map_err f r, s').

(** The result of a call as a value: [match call.await { Ok(..) => .., Err(..) => .. }] *)
Definition io_try {S E E' A} (m : io S E A) : io S E' (result E A) :=
  fun s => let '(r, s') := m s in (Ok r, s').

Notation "'let!' x ':=' m 'in' k" := (io_bind m (fun x => k))
  (at level 200, x pattern, m at level 100, k at level 200, right associativity) : klldap_scope.

Fixpoint io_iter {S E A} (f : A -> io S E unit) (l : list A) : io S E unit :=
  match l with
  | [] => io_ret tt
  | a :: l' => let! _ := f a in io_iter f l'
  end.

(** A computation that leaves the observation [obs] of the store as it is. *)
Definition preserves {S E A D} (obs : S -> D) (m : io S E A) : Prop :=
  forall s, obs (snd (m s)) = obs s.

Section Preserves.
Context {S E D : Type} (obs : S -> D).

Lemma preserves_ret {A} (a : A) : preserves obs (io_ret (E:=E) a).
Proof. done. Qed.

Lemma preserves_fail {A} (e : E) : preserves obs (io_fail (A:=A) e).
Proof. done. Qed.

Lemma preserves_lift {A} (r : result E A) : preserves obs (io_lift r).
Proof. done. Qed.

Lemma preserves_bind {A B} (m : io S E A) (k : A -> io S E B) :
  preserves obs m -> (forall a, preserves obs (k a)) -> preserves obs (io_bind m k).
Proof.
  intros Hm Hk s. unfold io_bind. specialize (Hm s). destruct (m s) as [[a|e] s']; simpl in *.
  - by rewrite Hk.
  - done.
Qed.

Lemma preserves_map_err {E' A} (f : E -> E') (m : io S E A) :
  preserves obs m -> preserves obs (io_map_err f m).
Proof. intros Hm s. unfold io_map_err. specialize (Hm s). by destruct (m s). Qed.

Lemma preserves_try {E' A} (m : io S E A) :
  preserves obs m -> preserves obs (io_try (E':=E') m).
Proof. intros Hm s. unfold io_try. specialize (Hm s). by destruct (m s). Qed.

Lemma preserves_iter {A} (f : A -> io S E unit) l :
  (forall a, preserves obs (f a)) -> preserves obs (io_iter f l).
Proof. intros Hf. induction l; simpl; [done|]. by apply preserves_bind. Qed.
End Preserves.

#[export] Hint Resolve preserves_ret preserves_fail preserves_lift preserves_bind
  preserves_map_err preserves_try preserves_iter : klldap.

(** Inversion of successful computations. *)
Lemma io_bind_Ok {S E A B} (m : io S E A) (k : A -> io S E B) s b s' :
  io_bind m k s = (Ok b, s') <-> exists a s1, m s = (Ok a, s1) /\ k a s1 = (Ok b, s').
Proof. unfold io_bind. destruct (m s) as [[a|e] s1]; naive_solver. Qed.

Lemma io_bind_step {S E A B} (m : io S E A) (k : A -> io S E B) s a s1 :
  m s = (Ok a, s1) -> io_bind m k s = k a s1.
Proof. unfold io_bind. by intros ->. Qed.

Lemma io_map_err_Ok {S E E' A} (f : E -> E') (m : io S E A) s a s' :
  io_map_err f m s = (Ok a, s') <-> m s = (Ok a, s').
Proof. unfold io_map_err. destruct (m s) as [[]]; naive_solver. Qed.

Lemma io_ret_Ok {S E A} (a b : A) (s s' : S) :
  io_ret (E:=E) a s = (Ok b, s') <-> a = b /\ s = s'.
Proof. unfold io_ret. naive_solver. Qed.

Lemma io_lift_Ok {S E A} (r : result E A) b (s s' : S) :
  io_lift r s = (Ok b, s') <-> r = Ok b /\ s = s'.
Proof. unfold io_lift. naive_solver. Qed.

Lemma map_err_Ok {E E' A} (f : E -> E') (r : result E A) a : map_err f r = Ok a <-> r = Ok a.
Proof. destruct r; naive_solver. Qed.

Lemma map_ok_Ok {E A B} (f : A -> B) (r : result E A) b :
  map_ok f r = Ok b <-> exists a, r = Ok a /\ f a = b.
Proof. destruct r; naive_solver. Qed.

(** Open a hypothesis that a computation succeeded, binding by binding. *)
Ltac io_inv H :=
  lazymatch type of H with
  | io_bind _ _ _ = (Ok _, _) =>
      let a := fresh "a" in let s := fresh "s" in let H1 := fresh "Hm" in
      apply io_bind_Ok in H; destruct H as (a & s & H1 & H); io_inv H1; io_inv H
  | io_map_err _ _ _ = (Ok _, _) => apply io_map_err_Ok in H; io_inv H
  | io_ret _ _ = (Ok _, _) => apply io_ret_Ok in H; destruct H as [? ?]; simplify_eq
  | io_lift _ _ = (Ok _, _) => apply io_lift_Ok in H; destruct H as [H ?]; simplify_eq
  | io_fail _ _ = (Ok _, _) => discriminate H
  | _ => idtac
  end.

(** Show that a computation preserves an observation, following its structure. *)
Ltac preserves_step :=
  match goal with
  | |- preserves _ (io_ret _) => apply preserves_ret
  | |- preserves _ (io_fail _) => apply preserves_fail
  | |- preserves _ (io_lift _) => apply preserves_lift
  | |- preserves _ (io_bind _ _) => apply preserves_bind; [|intros ?]
  | |- preserves _ (io_map_err _ _) => apply preserves_map_err
  | |- preserves _ (io_try _) => apply preserves_try
  | |- preserves _ (io_iter _ _) => apply preserves_iter; intros ?
  | |- preserves _ (match ?x with _ => _ end) => destruct x eqn:?
  | |- preserves _ (let _ := _ in _) => cbv zeta
  end.

Ltac solve_preserves := repeat preserves_step; eauto with klldap.
