(* ===== verification/Strings.v ===== *)
(** * Rust's [str] operations

    A Rust [String] is the list of its UTF-8 bytes.  This file writes out the
    operations of the standard library the server calls on strings
    ([to_ascii_lowercase], [eq_ignore_ascii_case], [split], [trim], [join],
    [contains], [starts_with], [ends_with], [parse::<i64>], [i64::to_string],
    [from_utf8]) with the lemmas the other files use. *)

From S2P Require Import Prelude.


(** ** Case *)

Definition byte_of (c : ascii) : Z := Z.of_nat (nat_of_ascii c).

Definition lower_byte (c : ascii) : ascii :=
  let n := nat_of_ascii c in
  if (65 <=? n)%nat && (n <=? 90)%nat then ascii_of_nat (n + 32) else c.

Fixpoint to_ascii_lowercase (s : string) : string :=
  match s with
  | "" => ""
  | String c s' => String (lower_byte c) (to_ascii_lowercase s')
  end.

Definition eq_ignore_ascii_case (a b : string) : bool :=
  String.eqb (to_ascii_lowercase a) (to_ascii_lowercase b).

Fixpoint is_ascii (s : string) : bool :=
  match s with
  | "" => true
  | String c s' => (nat_of_ascii c <? 128)%nat && is_ascii s'
  end.

(** ** Searching *)

Fixpoint contains_char (c : ascii) (s : string) : bool :=
  match s with
  | "" => false
  | String d s' => Ascii.eqb c d || contains_char c s'
  end.

Fixpoint starts_with (p s : string) : bool :=
  match p, s with
  | "", _ => true
  | String c p', String d s' => Ascii.eqb c d && starts_with p' s'
  | String _ _, "" => false
  end.

Fixpoint ends_with (p s : string) : bool :=
  String.eqb p s ||
  match s with
  | "" => false
  | String _ s' => ends_with p s'
  end.

(** [&s[n..]] *)
Fixpoint drop_bytes (n : nat) (s : string) : string :=
  match n, s with
  | O, _ => s
  | S n', String _ s' => drop_bytes n' s'
  | S _, "" => ""
  end.

(** [s.contains(p)] *)
Fixpoint contains_str (p s : string) : bool :=
  starts_with p s ||
  match s with
  | "" => false
  | String _ s' => contains_str p s'
  end.

(** ** Splitting and joining *)

(** [s.split(c)]: the pieces between the separators, at least one. *)
Fixpoint split_on (c : ascii) (s : string) : list string :=
  match s with
  | "" => [""]
  | String d s' =>
      if Ascii.eqb c d then "" :: split_on c s'
      else match split_on c s' with
           | [] => [String d ""]
           | w :: ws => String d w :: ws
           end
  end.

(** [s.split_once(c)], which is also what [s.splitn(2, c)] splits into *)
Fixpoint split_once (c : ascii) (s : string) : option (string * string) :=
  match s with
  | "" => None
  | String d s' =>
      if Ascii.eqb c d then Some ("", s')
      else '(a, b) ← split_once c s'; Some (String d a, b)
  end.

(** [l.join(sep)] *)
Fixpoint join (sep : string) (l : list string) : string :=
  match l with
  | [] => ""
  | [w] => w
  | w :: ws => w +:+ (sep +:+ join sep ws)
  end.

(** ** Trimming: [str::trim] removes the characters of the Unicode property
    [White_Space], here by their UTF-8 encodings of one, two and three bytes. *)

Definition ws1 (a : ascii) : bool :=
  let n := nat_of_ascii a in ((9 <=? n)%nat && (n <=? 13)%nat) || (n =? 32)%nat.

Definition ws2 (a b : ascii) : bool :=
  (nat_of_ascii a =? 194)%nat && ((nat_of_ascii b =? 133)%nat || (nat_of_ascii b =? 160)%nat).

Definition ws3 (a b c : ascii) : bool :=
  let x := nat_of_ascii a in let y := nat_of_ascii b in let z := nat_of_ascii c in
  ((x =? 225)%nat && (y =? 154)%nat && (z =? 128)%nat)
  || ((x =? 226)%nat && (y =? 128)%nat &&
      (((128 <=? z)%nat && (z <=? 138)%nat) || (z =? 168)%nat || (z =? 169)%nat || (z =? 175)%nat))
  || ((x =? 226)%nat && (y =? 129)%nat && (z =? 159)%nat)
  || ((x =? 227)%nat && (y =? 128)%nat && (z =? 128)%nat).

(** The length in bytes of the white-space character at the head of [s], 0 when
    there is none; [ws_len_rev] is the same on a reversed string, where the
    encodings are met backwards. *)
Definition ws_len (s : string) : nat :=
  match s with
  | "" => 0
  | String a s1 =>
      if ws1 a then 1 else
      match s1 with
      | "" => 0
      | String b s2 =>
          if ws2 a b then 2 else
          match s2 with "" => 0 | String c _ => if ws3 a b c then 3 else 0 end
      end
  end.

Definition ws_len_rev (s : string) : nat :=
  match s with
  | "" => 0
  | String a s1 =>
      if ws1 a then 1 else
      match s1 with
      | "" => 0
      | String b s2 =>
          if ws2 b a then 2 else
          match s2 with "" => 0 | String c _ => if ws3 c b a then 3 else 0 end
      end
  end.

Fixpoint trim_loop (wl : string -> nat) (fuel : nat) (s : string) : string :=
  match fuel with
  | O => s
  | S f => match wl s with O => s | n => trim_loop wl f (drop_bytes n s) end
  end.

(** Each turn of the loop removes a byte, so the length is fuel enough. *)
Definition trim_start (s : string) : string := trim_loop ws_len (String.length s) s.

Definition trim_start_rev (s : string) : string := trim_loop ws_len_rev (String.length s) s.

Definition trim_end (s : string) : string := String.rev (trim_start_rev (String.rev s)).

Definition trim (s : string) : string := trim_end (trim_start s).

(** ** Decimal integers *)

Definition i64_min : Z := -9223372036854775808.
Definition i64_max : Z := 9223372036854775807.
Definition i32_min : Z := -2147483648.
Definition i32_max : Z := 2147483647.
Definition in_i64 (z : Z) : bool := (i64_min <=? z)%Z && (z <=? i64_max)%Z.
Definition in_i32 (z : Z) : bool := (i32_min <=? z)%Z && (z <=? i32_max)%Z.

Definition digit_char (d : Z) : ascii := ascii_of_nat (48 + Z.to_nat d).

Definition digit_value (c : ascii) : option Z :=
  let n := nat_of_ascii c in
  if (48 <=? n)%nat && (n <=? 57)%nat then Some (Z.of_nat (n - 48)) else None.

Fixpoint dec_digits (fuel : nat) (n : Z) (acc : string) : string :=
  match fuel with
  | O => acc
  | S f =>
      let acc' := String (digit_char (n mod 10)) acc in
      if (n / 10 =? 0)%Z then acc' else dec_digits f (n / 10) acc'
  end.

(** [i64::to_string]: 20 digits are enough for every 64-bit number. *)
Definition int_to_string (z : Z) : string :=
  if (z <? 0)%Z then String "-" (dec_digits 20 (- z) "") else dec_digits 20 z "".

Fixpoint digits_value (s : string) (acc : Z) : option Z :=
  match s with
  | "" => Some acc
  | String c s' =>
      match digit_value c with
      | Some d => digits_value s' (10 * acc + d)
      | None => None
      end
  end.

Definition unsigned_value (s : string) : option Z :=
  match s with
  | "" => None
  | _ => digits_value s 0
  end.

Definition signed_value (s : string) : option Z :=
  match s with
  | String "-" s' => Z.opp <$> unsigned_value s'
  | String "+" s' => unsigned_value s'
  | _ => unsigned_value s
  end.

(** [str::parse::<i64>] and [str::parse::<i32>]: an optional sign, digits, and
    an error on overflow. *)
Definition parse_i64 (s : string) : option Z :=
  match signed_value s with
  | Some z => if in_i64 z then Some z else None
  | None => None
  end.

Definition parse_i32 (s : string) : option Z :=
  match signed_value s with
  | Some z => if in_i32 z then Some z else None
  | None => None
  end.

(** A double quote, and a string between two. *)
Definition dq : string := String (ascii_of_nat 34) "".
Definition quoted (s : string) : string := dq +:+ (s +:+ dq).

(** ** UTF-8: [std::str::from_utf8] *)

Definition cont_byte (c : ascii) : bool :=
  let n := nat_of_ascii c in (128 <=? n)%nat && (n <=? 191)%nat.

Definition in_range (lo hi : nat) (c : ascii) : bool :=
  let n := nat_of_ascii c in (lo <=? n)%nat && (n <=? hi)%nat.

Fixpoint utf8_valid (s : string) : bool :=
  match s with
  | "" => true
  | String a s1 =>
      if in_range 0 127 a then utf8_valid s1 else
      match s1 with
      | "" => false
      | String b s2 =>
          if in_range 194 223 a then cont_byte b && utf8_valid s2 else
          match s2 with
          | "" => false
          | String c s3 =>
              if in_range 224 224 a then in_range 160 191 b && cont_byte c && utf8_valid s3
              else if in_range 237 237 a then in_range 128 159 b && cont_byte c && utf8_valid s3
              else if in_range 225 239 a then cont_byte b && cont_byte c && utf8_valid s3
              else match s3 with
              | "" => false
              | String d s4 =>
                  let tail := cont_byte c && cont_byte d && utf8_valid s4 in
                  if in_range 240 240 a then in_range 144 191 b && tail
                  else if in_range 241 243 a then cont_byte b && tail
                  else if in_range 244 244 a then in_range 128 143 b && tail
                  else false
              end
          end
      end
  end.

Definition from_utf8 (s : string) : option string :=
  if utf8_valid s then Some s else None.

(** [s.chars()], each character as its bytes *)
Definition char_length (c : ascii) : nat :=
  if in_range 0 191 c then 1 else if in_range 192 223 c then 2 else if in_range 224 239 c then 3 else 4.

Fixpoint chars_loop (fuel : nat) (s : string) : list string :=
  match fuel, s with
  | S fuel', String c _ =>
      String.substring 0 (char_length c) s :: chars_loop fuel' (drop_bytes (char_length c) s)
  | _, _ => []
  end.

Definition chars (s : string) : list string := chars_loop (String.length s) s.

(** ** Lemmas: case *)

Lemma lower_byte_idemp c : lower_byte (lower_byte c) = lower_byte c.
Proof. by destruct c as [[] [] [] [] [] [] [] []]. Qed.

Lemma lower_idemp s : to_ascii_lowercase (to_ascii_lowercase s) = to_ascii_lowercase s.
Proof. induction s; simpl; f_equal; auto using lower_byte_idemp. Qed.

Lemma app_cons_str c a b : String c a +:+ b = String c (a +:+ b).
Proof. done. Qed.

Lemma app_nil_str b : "" +:+ b = b.
Proof. done. Qed.

(** Simplification that also steps through [+:+]. *)
Ltac str_simpl := repeat (progress (rewrite ?app_cons_str, ?app_nil_str in *; simpl in *)).

Lemma lower_app a b :
  to_ascii_lowercase (a +:+ b) = to_ascii_lowercase a +:+ to_ascii_lowercase b.
Proof. induction a as [|c a IH]; str_simpl; [done|]. by rewrite IH. Qed.

(** A byte that is neither an upper- nor a lower-case letter. *)
Definition caseless (c : ascii) : bool :=
  let n := nat_of_ascii c in
  negb ((65 <=? n)%nat && (n <=? 90)%nat) && negb ((97 <=? n)%nat && (n <=? 122)%nat).

Lemma lower_byte_caseless c d : caseless c = true -> Ascii.eqb c (lower_byte d) = Ascii.eqb c d.
Proof.
  unfold caseless, lower_byte. intros Hc. case_match eqn:Hd; [|done].
  apply andb_prop in Hc as [Hu%negb_true_iff Hl%negb_true_iff].
  assert (nat_of_ascii (ascii_of_nat (nat_of_ascii d + 32)) = nat_of_ascii d + 32)%nat as Hn.
  { apply nat_ascii_embedding. apply andb_prop in Hd as [? Hd%Nat.leb_le]. lia. }
  transitivity false; [|symmetry]; apply Ascii.eqb_neq; intros ->.
  - rewrite Hn in Hl. apply andb_prop in Hd as [H1%Nat.leb_le H2%Nat.leb_le].
    apply andb_false_iff in Hl as [Hl%Nat.leb_gt|Hl%Nat.leb_gt]; lia.
  - by rewrite Hd in Hu.
Qed.

Lemma contains_lower c s :
  caseless c = true -> contains_char c (to_ascii_lowercase s) = contains_char c s.
Proof.
  intros Hc. induction s as [|d s IH]; simpl; [done|].
  by rewrite lower_byte_caseless, IH.
Qed.

Lemma lower_caseless_id c : caseless c = true -> lower_byte c = c.
Proof. by destruct c as [[] [] [] [] [] [] [] []]. Qed.

Lemma eq_ignore_refl s : eq_ignore_ascii_case s s = true.
Proof. apply String.eqb_refl. Qed.

Lemma eq_ignore_iff a b :
  eq_ignore_ascii_case a b = true <-> to_ascii_lowercase a = to_ascii_lowercase b.
Proof. apply String.eqb_eq. Qed.

#[export] Hint Rewrite lower_idemp lower_app eq_ignore_refl String.eqb_refl : klldap.

(** ** Lemmas: searching *)

Lemma contains_app c a b :
  contains_char c (a +:+ b) = contains_char c a || contains_char c b.
Proof. induction a as [|d a IH]; str_simpl; [done|]. by rewrite IH, orb_assoc. Qed.

Lemma app_empty_r s : s +:+ "" = s.
Proof. induction s as [|c s IH]; str_simpl; [done|]. by rewrite IH. Qed.

Lemma app_assoc_str a b c : (a +:+ b) +:+ c = a +:+ (b +:+ c).
Proof. induction a as [|d a IH]; str_simpl; [done|]. by rewrite IH. Qed.

Lemma starts_with_iff p s : starts_with p s = true <-> exists t, s = p +:+ t.
Proof.
  revert s; induction p as [|c p IH]; intros s; simpl.
  - split; [by exists s | done].
  - destruct s as [|d s].
    + split; [done | intros (t & Ht); str_simpl; done].
    + rewrite andb_true_iff, IH, Ascii.eqb_eq. split.
      * intros (<- & t & ->). by exists t.
      * intros (t & Ht). str_simpl. simplify_eq. eauto.
Qed.

Lemma ends_with_iff p s : ends_with p s = true <-> exists t, s = t +:+ p.
Proof.
  induction s as [|d s IH]; simpl.
  - rewrite orb_false_r, String.eqb_eq. split; [intros ->; by exists ""|].
    intros ([|] & Ht); str_simpl; [done|by simplify_eq].
  - rewrite orb_true_iff, String.eqb_eq, IH. split.
    + intros [-> | (t & ->)]; [by exists ""|by exists (String d t)].
    + intros ([|e t] & Ht); str_simpl; [by left|]. simplify_eq. right. by exists t.
Qed.

Lemma drop_bytes_app p s : drop_bytes (String.length p) (p +:+ s) = s.
Proof. induction p; str_simpl; done. Qed.

(** ** Lemmas: splitting and joining *)

Lemma split_on_not_nil c s : split_on c s <> [].
Proof. destruct s; simpl; [done|]. by repeat case_match. Qed.

Lemma split_on_no_sep c s : contains_char c s = false -> split_on c s = [s].
Proof.
  induction s as [|d s IH]; simpl; [done|]. intros [Hd Hs]%orb_false_iff.
  by rewrite Hd, IH.
Qed.

Lemma split_on_app c w s :
  contains_char c w = false -> split_on c (w +:+ String c s) = w :: split_on c s.
Proof.
  induction w as [|d w IH]; str_simpl; intros Hw.
  - by rewrite (proj2 (Ascii.eqb_eq c c) eq_refl).
  - apply orb_false_iff in Hw as [Hd Hw]. by rewrite Hd, (IH Hw).
Qed.

Lemma split_join c l :
  l <> [] -> Forall (fun w => contains_char c w = false) l ->
  split_on c (join (String c "") l) = l.
Proof.
  intros Hne Hl. induction Hl as [|w ws Hw Hws IH]; [done|].
  destruct ws as [|w' ws]; [by apply split_on_no_sep|].
  change (join _ (w :: w' :: ws)) with (w +:+ String c (join (String c "") (w' :: ws))).
  rewrite split_on_app by done. by rewrite IH.
Qed.

Lemma split_on_pieces c s : Forall (fun w => contains_char c w = false) (split_on c s).
Proof.
  induction s as [|d s IH]; simpl; [by repeat constructor|].
  destruct (Ascii.eqb c d) eqn:E; [by constructor|].
  destruct (split_on c s) as [|w ws]; inversion IH; subst; constructor; simpl; auto;
    try constructor; by rewrite E.
Qed.

Lemma join_split c s : join (String c "") (split_on c s) = s.
Proof.
  induction s as [|d s IH]; simpl; [done|].
  pose proof (split_on_not_nil c s) as Hn.
  destruct (Ascii.eqb c d) eqn:E.
  - apply Ascii.eqb_eq in E as <-. destruct (split_on c s); [done|].
    rewrite <- IH. done.
  - destruct (split_on c s) as [|w [|w' ws]]; str_simpl; [done|by f_equal|].
    by f_equal.
Qed.

(** A piece contains no byte the whole string lacks. *)
Lemma split_on_other d c s w :
  contains_char d s = false -> w ∈ split_on c s -> contains_char d w = false.
Proof.
  intros Hs Hw. rewrite <- (join_split c s) in Hs.
  induction (split_on c s) as [|x [|y l] IH]; [by inversion Hw| |].
  - apply list_elem_of_singleton in Hw as ->. done.
  - change (join _ (x :: y :: l)) with (x +:+ String c (join (String c "") (y :: l))) in Hs.
    rewrite contains_app in Hs. cbn [contains_char] in Hs.
    apply orb_false_iff in Hs as [Hx [_ Hr]%orb_false_iff].
    apply elem_of_cons in Hw as [->|Hw]; auto.
Qed.

Lemma contains_join d c l :
  contains_char d (join (String c "") l) = true ->
  Ascii.eqb d c = true \/ existsb (contains_char d) l = true.
Proof.
  induction l as [|w [|w' ws] IH]; [done| |].
  - cbn. rewrite orb_false_r. auto.
  - change (join _ (w :: w' :: ws)) with (w +:+ String c (join (String c "") (w' :: ws))).
    rewrite contains_app. cbn [contains_char existsb].
    intros [Hw|[Hc|Hj]%orb_true_iff]%orb_true_iff; auto.
    + right. by rewrite Hw.
    + destruct (IH Hj) as [?|He]; auto. right. cbn [existsb] in He. by rewrite He, !orb_true_r.
Qed.

Lemma lower_join c l :
  caseless c = true ->
  to_ascii_lowercase (join (String c "") l) = join (String c "") (map to_ascii_lowercase l).
Proof.
  intros Hc. induction l as [|w [|w' ws] IH]; [done..|].
  change (join _ (w :: w' :: ws)) with (w +:+ String c (join (String c "") (w' :: ws))).
  rewrite lower_app. cbn [to_ascii_lowercase]. rewrite IH, lower_caseless_id by done. done.
Qed.

(** ** Lemmas: reversal *)

Lemma rev_app_spec a b : String.rev_app a b = String.rev a +:+ b.
Proof.
  unfold String.rev. revert b. induction a as [|c a IH]; intros b; str_simpl; [done|].
  rewrite (IH (String c b)), (IH (String c "")), app_assoc_str. by str_simpl.
Qed.

Lemma rev_cons c s : String.rev (String c s) = String.rev s +:+ String c "".
Proof. unfold String.rev at 1. simpl. apply rev_app_spec. Qed.

Lemma rev_app_distr_str a b : String.rev (a +:+ b) = String.rev b +:+ String.rev a.
Proof.
  induction a as [|c a IH]; str_simpl.
  - by rewrite app_empty_r.
  - by rewrite !rev_cons, IH, app_assoc_str.
Qed.

Lemma rev_involutive_str s : String.rev (String.rev s) = s.
Proof.
  induction s as [|c s IH]; [done|]. rewrite rev_cons, rev_app_distr_str, IH. done.
Qed.

(** ** Lemmas: trimming *)

Lemma drop_bytes_suffix n s : exists u, s = u +:+ drop_bytes n s.
Proof.
  revert s; induction n as [|n IH]; intros s; [by exists ""|].
  destruct s as [|c s]; [by exists ""|]. destruct (IH s) as [u Hu].
  exists (String c u). str_simpl. congruence.
Qed.

Section TrimLoop.
Context (wl : string -> nat).
Context (wl_bound : forall s, (wl s <= String.length s)%nat).

Lemma drop_bytes_length n s :
  (n <= String.length s)%nat -> (String.length (drop_bytes n s) = String.length s - n)%nat.
Proof. revert s; induction n; intros [|c s]; simpl; try lia. intros. apply IHn. lia. Qed.

Lemma trim_loop_done fuel s :
  (String.length s <= fuel)%nat -> wl (trim_loop wl fuel s) = 0%nat.
Proof.
  revert s; induction fuel as [|f IH]; intros s Hs; cbn [trim_loop].
  - pose proof (wl_bound s). lia.
  - destruct (wl s) as [|n] eqn:E; [done|]. apply IH.
    pose proof (wl_bound s). rewrite drop_bytes_length; lia.
Qed.

Lemma trim_loop_id fuel s : wl s = 0%nat -> trim_loop wl fuel s = s.
Proof. destruct fuel; simpl; [done|]. by intros ->. Qed.

Lemma trim_loop_suffix fuel s : exists u, s = u +:+ trim_loop wl fuel s.
Proof.
  revert s; induction fuel as [|f IH]; intros s; cbn [trim_loop]; [by exists ""|].
  destruct (wl s) as [|n]; [by exists ""|].
  destruct (drop_bytes_suffix (S n) s) as [u Hu], (IH (drop_bytes (S n) s)) as [v Hv].
  exists (u +:+ v). rewrite app_assoc_str, <- Hv. done.
Qed.
End TrimLoop.

Lemma ws_len_bound s : (ws_len s <= String.length s)%nat.
Proof. unfold ws_len. destruct s as [|a [|b [|c s]]]; simpl; repeat case_match; lia. Qed.

Lemma ws_len_rev_bound s : (ws_len_rev s <= String.length s)%nat.
Proof. unfold ws_len_rev. destruct s as [|a [|b [|c s]]]; simpl; repeat case_match; lia. Qed.

(** A prefix of a string that starts with no white space starts with none. *)
Lemma ws_len_prefix p t : ws_len (p +:+ t) = 0%nat -> ws_len p = 0%nat.
Proof.
  unfold ws_len. destruct p as [|a [|b [|c p]]]; str_simpl; try done;
    repeat case_match; done.
Qed.

Lemma trim_infix s : exists u v, s = u +:+ (trim s +:+ v).
Proof.
  unfold trim, trim_end, trim_start, trim_start_rev.
  destruct (trim_loop_suffix ws_len (String.length s) s) as [u Hu].
  set (t := trim_loop ws_len (String.length s) s) in *.
  destruct (trim_loop_suffix ws_len_rev (String.length (String.rev t)) (String.rev t)) as [v Hv].
  exists u, (String.rev v). rewrite <- rev_app_distr_str, <- Hv, rev_involutive_str. done.
Qed.

Lemma trim_head s : ws_len (trim s) = 0%nat.
Proof.
  unfold trim, trim_end, trim_start_rev.
  destruct (trim_loop_suffix ws_len_rev (String.length (String.rev (trim_start s)))
    (String.rev (trim_start s))) as [v Hv].
  apply (ws_len_prefix _ (String.rev v)).
  rewrite <- rev_app_distr_str, <- Hv, rev_involutive_str.
  apply trim_loop_done; [apply ws_len_bound|done].
Qed.

(** [trim] is idempotent. *)
Lemma trim_idemp s : trim (trim s) = trim s.
Proof.
  unfold trim at 1, trim_start. rewrite trim_loop_id by apply trim_head.
  unfold trim, trim_end, trim_start_rev. rewrite rev_involutive_str.
  rewrite trim_loop_id; [done|]. apply trim_loop_done; [apply ws_len_rev_bound|done].
Qed.

Lemma contains_trim c s : contains_char c s = false -> contains_char c (trim s) = false.
Proof.
  destruct (trim_infix s) as (u & v & Hs). intros H. rewrite Hs, !contains_app in H.
  by apply orb_false_iff in H as [_ [? _]%orb_false_iff].
Qed.

Definition is_lower (s : string) : bool := String.eqb (to_ascii_lowercase s) s.

Lemma is_lower_app a b : is_lower (a +:+ b) = is_lower a && is_lower b.
Proof.
  unfold is_lower. induction a as [|c a IH]; str_simpl; [done|].
  rewrite IH. destruct (Ascii.eqb (lower_byte c) c); done.
Qed.

Lemma is_lower_trim s : is_lower s = true -> is_lower (trim s) = true.
Proof.
  destruct (trim_infix s) as (u & v & Hs). intros H. rewrite Hs, !is_lower_app in H.
  by bool_to_prop.
Qed.

Lemma is_lower_lower s : is_lower (to_ascii_lowercase s) = true.
Proof. unfold is_lower. rewrite lower_idemp. apply String.eqb_refl. Qed.

Lemma is_lower_eq s : is_lower s = true -> to_ascii_lowercase s = s.
Proof. apply String.eqb_eq. Qed.

Lemma is_lower_split c s : is_lower s = true -> Forall (fun w => is_lower w = true) (split_on c s).
Proof.
  intros H. rewrite <- (join_split c s) in H.
  induction (split_on c s) as [|w [|w' ws] IH]; [constructor|by repeat constructor|].
  change (join _ (w :: w' :: ws)) with (w +:+ String c (join (String c "") (w' :: ws))) in H.
  rewrite is_lower_app in H. apply andb_prop in H as [Hw Hr].
  constructor; [done|]. apply IH. change (String c ?x) with (String c "" +:+ x) in Hr.
  rewrite is_lower_app in Hr. by bool_to_prop.
Qed.

#[export] Hint Rewrite trim_idemp : klldap.
#[export] Hint Resolve is_lower_lower is_lower_trim contains_trim : klldap.

(** ** Lemmas: decimal integers *)

Lemma digit_value_char d : (0 <= d < 10)%Z -> digit_value (digit_char d) = Some d.
Proof.
  intros Hd. unfold digit_value, digit_char. rewrite nat_ascii_embedding by lia.
  rewrite (proj2 (Nat.leb_le _ _)), (proj2 (Nat.leb_le _ _)) by lia. simpl.
  f_equal. lia.
Qed.

(** Reading the digits of [n] continues with the accumulator [acc * 10^k + n]. *)
Lemma dec_digits_value fuel n acc tail :
  (0 <= n < 10 ^ Z.of_nat fuel)%Z -> (0 < fuel)%nat ->
  exists k, (0 < k)%Z /\
    digits_value (dec_digits fuel n tail) acc = digits_value tail (acc * 10 ^ k + n)%Z.
Proof.
  revert n tail. induction fuel as [|f IH]; intros n tail Hn Hf; [lia|].
  pose proof (Z.mod_pos_bound n 10 ltac:(lia)) as Hm.
  pose proof (Z.div_mod n 10 ltac:(lia)) as Hdm.
  cbn [dec_digits]. destruct (n / 10 =? 0)%Z eqn:E; bool_to_prop.
  - exists 1%Z. split; [lia|]. cbn [digits_value]. rewrite digit_value_char by done.
    f_equal. lia.
  - assert (0 <= n / 10 < 10 ^ Z.of_nat f)%Z as Hq.
    { split; [apply Z.div_pos; lia|]. apply Z.div_lt_upper_bound; [lia|].
      rewrite Nat2Z.inj_succ, Z.pow_succ_r in Hn by lia. lia. }
    destruct f as [|f']; [simpl in Hq; lia|].
    destruct (IH (n / 10)%Z (String (digit_char (n mod 10)) tail) Hq ltac:(lia)) as (k & Hk & ->).
    exists (k + 1)%Z. split; [lia|]. cbn [digits_value]. rewrite digit_value_char by done.
    f_equal. rewrite Z.pow_add_r by lia. lia.
Qed.

(** The first character of a number without sign is a digit. *)
Lemma dec_digits_head fuel n c acc :
  (exists d, (0 <= d < 10)%Z /\ c = digit_char d) ->
  exists d t, (0 <= d < 10)%Z /\ dec_digits fuel n (String c acc) = String (digit_char d) t.
Proof.
  revert n c acc. induction fuel as [|f IH]; intros n c acc (d & Hd & ->); simpl; [eauto|].
  pose proof (Z.mod_pos_bound n 10 ltac:(lia)) as Hm.
  case_match; [eauto|]. apply IH. eauto.
Qed.

Lemma dec_digits_start f n :
  exists d t, (0 <= d < 10)%Z /\ dec_digits (S f) n "" = String (digit_char d) t.
Proof.
  pose proof (Z.mod_pos_bound n 10 ltac:(lia)) as Hm. cbn [dec_digits].
  case_match; [eauto|]. apply dec_digits_head. eauto.
Qed.

Lemma dec_digits_value0 n :
  (0 <= n < 10 ^ 20)%Z -> unsigned_value (dec_digits 20 n "") = Some n.
Proof.
  intros Hn. destruct (dec_digits_value 20 n 0 "" Hn ltac:(lia)) as (k & _ & H).
  unfold unsigned_value. rewrite H. cbn [digits_value].
  by destruct (dec_digits_start 19 n) as (d & t & _ & ->).
Qed.

Lemma signed_value_digits n :
  signed_value (dec_digits 20 n "") = unsigned_value (dec_digits 20 n "").
Proof.
  destruct (dec_digits_start 19 n) as (d & t & Hd & ->).
  assert (d ∈ [0; 1; 2; 3; 4; 5; 6; 7; 8; 9]%Z) as Hin by (rewrite !elem_of_cons; lia).
  repeat (apply elem_of_cons in Hin as [->|Hin]; [done|]). by inversion Hin.
Qed.

Lemma parse_print_i64 z : in_i64 z = true -> parse_i64 (int_to_string z) = Some z.
Proof.
  intros Hz. assert (-(2^63) <= z < 2^63)%Z as Hb.
  { unfold in_i64, i64_min, i64_max in Hz. bool_to_prop. lia. }
  unfold parse_i64, int_to_string. destruct (z <? 0)%Z eqn:E; bool_to_prop.
  - cbn [signed_value]. rewrite dec_digits_value0 by lia. simpl.
    replace (- - z)%Z with z by lia. by rewrite Hz.
  - rewrite signed_value_digits, dec_digits_value0 by lia. by rewrite Hz.
Qed.

Lemma parse_i64_range s z : parse_i64 s = Some z -> in_i64 z = true.
Proof. unfold parse_i64. crush_match. Qed.

(** Printing is injective on 64-bit integers. *)
Lemma int_to_string_inj a b :
  in_i64 a = true -> in_i64 b = true -> int_to_string a = int_to_string b -> a = b.
Proof.
  intros Ha Hb H. apply parse_print_i64 in Ha, Hb. rewrite H in Ha. congruence.
Qed.

(** ** Lemmas: UTF-8 *)

Lemma is_ascii_utf8 s : is_ascii s = true -> utf8_valid s = true.
Proof.
  induction s as [|a s IH]; [done|]. cbn [is_ascii utf8_valid]. intros H.
  apply andb_prop in H as [Ha%Nat.ltb_lt Hs]. unfold in_range at 1.
  rewrite (proj2 (Nat.leb_le _ _)), (proj2 (Nat.leb_le _ _)) by lia. simpl. auto.
Qed.

Lemma digit_char_ascii d : (0 <= d < 10)%Z -> (nat_of_ascii (digit_char d) < 128)%nat.
Proof. intros. unfold digit_char. rewrite nat_ascii_embedding; lia. Qed.

Lemma dec_digits_ascii fuel n acc : is_ascii acc = true -> is_ascii (dec_digits fuel n acc) = true.
Proof.
  revert n acc. induction fuel as [|f IH]; intros n acc Ha; simpl; [done|].
  pose proof (Z.mod_pos_bound n 10 ltac:(lia)) as Hm.
  assert (is_ascii (String (digit_char (n mod 10)) acc) = true) as H.
  { cbn [is_ascii]. rewrite (proj2 (Nat.ltb_lt _ _)); [done|]. by apply digit_char_ascii. }
  case_match; auto.
Qed.

Lemma int_to_string_ascii z : is_ascii (int_to_string z) = true.
Proof.
  unfold int_to_string. case_match; [cbn [is_ascii]|]; by rewrite ?dec_digits_ascii.
Qed.

Lemma from_utf8_int z : from_utf8 (int_to_string z) = Some (int_to_string z).
Proof. unfold from_utf8. by rewrite is_ascii_utf8 by apply int_to_string_ascii. Qed.

Lemma is_ascii_app a b : is_ascii (a +:+ b) = is_ascii a && is_ascii b.
Proof. induction a as [|c a IH]; str_simpl; [done|]. by rewrite IH, andb_assoc. Qed.

(** ** Lemmas: the text of a number has no white space *)

Fixpoint visible (s : string) : bool :=
  match s with
  | "" => true
  | String c s' => (33 <=? nat_of_ascii c)%nat && (nat_of_ascii c <? 128)%nat && visible s'
  end.

Lemma visible_app a b : visible (a +:+ b) = visible a && visible b.
Proof. induction a as [|c a IH]; str_simpl; [done|]. simpl. by rewrite IH, andb_assoc. Qed.

Lemma visible_rev s : visible (String.rev s) = visible s.
Proof.
  induction s as [|c s IH]; [done|]. rewrite rev_cons, visible_app, IH. simpl.
  by rewrite andb_true_r, andb_comm.
Qed.

Lemma visible_head c : (33 <=? nat_of_ascii c)%nat && (nat_of_ascii c <? 128)%nat = true ->
  ws1 c = false /\ forall x y, ws2 c x = false /\ ws2 x c = false /\ ws3 c x y = false /\ ws3 x y c = false.
Proof. destruct c as [[] [] [] [] [] [] [] []]; try done; intros _; split; try done;
  intros x y; unfold ws2, ws3; split_and!; simpl; rewrite ?andb_false_r; done. Qed.

Lemma ws_len_visible c s : (33 <=? nat_of_ascii c)%nat && (nat_of_ascii c <? 128)%nat = true ->
  ws_len (String c s) = 0%nat /\ ws_len_rev (String c s) = 0%nat.
Proof.
  intros [Hc1 Hc2]%visible_head. cbn [ws_len ws_len_rev]. rewrite Hc1. destruct s as [|d [|e s]]; [done|..].
  - by destruct (Hc2 d d) as (-> & -> & _).
  - destruct (Hc2 d e) as (-> & -> & -> & _). destruct (Hc2 e d) as (_ & _ & _ & ->). done.
Qed.

(** Text that neither starts nor ends with white space. *)
Lemma trim_edges s : ws_len s = 0%nat -> ws_len_rev (String.rev s) = 0%nat -> trim s = s.
Proof.
  intros Hs Hr. unfold trim, trim_end, trim_start, trim_start_rev.
  rewrite (trim_loop_id ws_len) by done. rewrite (trim_loop_id ws_len_rev) by done. apply rev_involutive_str.
Qed.

Lemma visible_edges s : visible s = true -> ws_len s = 0%nat /\ ws_len_rev s = 0%nat.
Proof. destruct s as [|c s]; [done|]. cbn [visible]. intros [Hc _]%andb_prop. by apply ws_len_visible. Qed.

Lemma trim_visible s : visible s = true -> trim s = s.
Proof. intros Hs. apply trim_edges; apply visible_edges; [done|by rewrite visible_rev]. Qed.

Lemma trim_last s : ws_len_rev (String.rev (trim s)) = 0%nat.
Proof.
  unfold trim, trim_end, trim_start_rev. rewrite rev_involutive_str.
  apply trim_loop_done; [apply ws_len_rev_bound|done].
Qed.

Lemma digit_char_visible d : (0 <= d < 10)%Z ->
  (33 <=? nat_of_ascii (digit_char d))%nat && (nat_of_ascii (digit_char d) <? 128)%nat = true.
Proof.
  intros Hd. unfold digit_char. rewrite nat_ascii_embedding by lia.
  apply andb_true_intro. rewrite Nat.leb_le, Nat.ltb_lt. lia.
Qed.

Lemma dec_digits_visible fuel : forall n acc, visible acc = true -> visible (dec_digits fuel n acc) = true.
Proof.
  induction fuel as [|f IH]; intros n acc Ha; simpl; [done|].
  pose proof (Z.mod_pos_bound n 10 ltac:(lia)) as Hm.
  assert (visible (String (digit_char (n mod 10)) acc) = true) as H.
  { cbn [visible]. by rewrite digit_char_visible. }
  case_match; auto.
Qed.

Lemma trim_int z : trim (int_to_string z) = int_to_string z.
Proof.
  apply trim_visible. unfold int_to_string. case_match; [cbn [visible]|]; by rewrite dec_digits_visible.
Qed.
