(* ===== verification/Types.v ===== *)
(** * The domain types

    [crates/auth/src/lib.rs] (case-insensitive identifiers),
    [crates/domain/src/types.rs] (attribute values, users, groups),
    [crates/domain/src/requests.rs], [crates/domain-model/src/error.rs],
    [crates/domain-handlers/src/handler.rs] (request filters, POSIX settings),
    and [crates/schema/src/schema.rs]'s [AttributeType].

    The crates the server links against (chrono, uuid, base64, serde_json,
    bincode, the image codecs, the Unicode tables) are the operations of the
    class [Extern]: every definition that calls one takes the class as an
    argument. *)

From S2P Require Import Prelude Strings.


(** ** Case-insensitive identifiers (crates/auth/src/lib.rs, module [types]) *)

(** [CaseInsensitiveString::new]: the stored string is the ASCII-lowercased one. *)
Definition CaseInsensitiveString_new (s : string) : string := to_ascii_lowercase s.

Record UserId := MkUserId { user_id_str : string }.

Definition UserId_new (s : string) : UserId := MkUserId (CaseInsensitiveString_new s).

#[export] Instance UserId_eq_dec : EqDecision UserId.
Proof. solve_decision. Defined.

#[export] Instance UserId_countable : Countable UserId.
Proof. refine (inj_countable' user_id_str MkUserId _). by intros []. Defined.

Record AttributeName := MkAttributeName { attribute_name_str : string }.

Definition AttributeName_from (s : string) : AttributeName :=
  MkAttributeName (CaseInsensitiveString_new s).

#[export] Instance AttributeName_eq_dec : EqDecision AttributeName.
Proof. solve_decision. Defined.

#[export] Instance AttributeName_countable : Countable AttributeName.
Proof. refine (inj_countable' attribute_name_str MkAttributeName _). by intros []. Defined.

Definition attribute_name_eqb (a b : AttributeName) : bool :=
  String.eqb (attribute_name_str a) (attribute_name_str b).

Definition user_id_eqb (a b : UserId) : bool := String.eqb (user_id_str a) (user_id_str b).

Lemma user_id_eqb_eq a b : user_id_eqb a b = true <-> a = b.
Proof.
  destruct a as [a], b as [b]. unfold user_id_eqb. simpl. rewrite String.eqb_eq.
  split; [by intros -> | by intros [=]].
Qed.

(** Identifiers whose spelling is kept and which compare without case. *)
Record GroupName := MkGroupName { group_name_str : string }.
Record Email := MkEmail { email_str : string }.
Record LdapObjectClass := MkLdapObjectClass { object_class_str : string }.

#[export] Instance GroupName_eq_dec : EqDecision GroupName.
Proof. solve_decision. Defined.
#[export] Instance Email_eq_dec : EqDecision Email.
Proof. solve_decision. Defined.
#[export] Instance LdapObjectClass_eq_dec : EqDecision LdapObjectClass.
Proof. solve_decision. Defined.

(** A [chrono::NaiveDateTime] is the number of nanoseconds since the epoch, a
    [GroupId] an [i32], a [Uuid] and an [Avatar] their text and bytes. *)
Abbreviation NaiveDateTime := Z (only parsing).
Abbreviation GroupId := Z (only parsing).
Abbreviation Uuid := string (only parsing).

(** ** Attribute values *)

Inductive AttributeType : Type :=
| TString
| TInteger
| TAvatar
| TDateTime.

#[export] Instance AttributeType_eq_dec : EqDecision AttributeType.
Proof. solve_decision. Defined.

Record Avatar := MkAvatar { avatar_bytes : string }.

#[export] Instance Avatar_eq_dec : EqDecision Avatar.
Proof. solve_decision. Defined.

Definition Avatar_null : Avatar := MkAvatar "".

Inductive Cardinality (T : Type) : Type :=
| Singleton (v : T)
| Unbounded (l : list T).
Arguments Singleton {T} v.
Arguments Unbounded {T} l.

#[export] Instance Cardinality_eq_dec {T} `{EqDecision T} : EqDecision (Cardinality T).
Proof. solve_decision. Defined.

Definition into_vec {T} (c : Cardinality T) : list T :=
  match c with
  | Singleton v => [v]
  | Unbounded l => l
  end.

Inductive AttributeValue : Type :=
| VString (c : Cardinality string)
| VInteger (c : Cardinality Z)
| VAvatar (c : Cardinality Avatar)
| VDateTime (c : Cardinality NaiveDateTime).

#[export] Instance AttributeValue_eq_dec : EqDecision AttributeValue.
Proof. solve_decision. Defined.

Definition get_attribute_type_of (v : AttributeValue) : AttributeType :=
  match v with
  | VString _ => TString
  | VInteger _ => TInteger
  | VAvatar _ => TAvatar
  | VDateTime _ => TDateTime
  end.

Definition as_str (v : AttributeValue) : option string :=
  match v with
  | VString (Singleton s) => Some s
  | _ => None
  end.

Record Attribute := MkAttribute { attr_name : AttributeName; attr_value : AttributeValue }.

#[export] Instance Attribute_eq_dec : EqDecision Attribute.
Proof. solve_decision. Defined.

(** ** Users and groups *)

Record User := MkUser {
  u_user_id : UserId;
  u_email : Email;
  u_display_name : option string;
  u_creation_date : NaiveDateTime;
  u_uuid : Uuid;
  u_attributes : list Attribute;
  u_modified_date : NaiveDateTime;
  u_password_modified_date : NaiveDateTime;
  u_krb_principal_name : option string
}.

Definition user_with_attributes (u : User) (attrs : list Attribute) : User :=
  MkUser (u_user_id u) (u_email u) (u_display_name u) (u_creation_date u) (u_uuid u)
    attrs (u_modified_date u) (u_password_modified_date u) (u_krb_principal_name u).

(** [User::materialize_protected_fields] *)
Definition materialize_protected_fields (u : User) : User :=
  match u_krb_principal_name u with
  | Some principal =>
      if String.eqb principal "" then u
      else user_with_attributes u
        (u_attributes u ++
         [MkAttribute (AttributeName_from "krbprincipalname") (VString (Unbounded [principal]))])
  | None => u
  end.

Record GroupMember := MkGroupMember { gm_user_id : UserId; gm_ou : string }.

Record Group := MkGroup {
  g_id : GroupId;
  g_display_name : GroupName;
  g_creation_date : NaiveDateTime;
  g_uuid : Uuid;
  g_users : list GroupMember;
  g_attributes : list Attribute;
  g_modified_date : NaiveDateTime
}.

Record GroupDetails := MkGroupDetails {
  gd_group_id : GroupId;
  gd_display_name : GroupName;
  gd_creation_date : NaiveDateTime;
  gd_uuid : Uuid;
  gd_attributes : list Attribute;
  gd_modified_date : NaiveDateTime
}.

Record UserAndGroups := MkUserAndGroups { uag_user : User; uag_groups : option (list GroupDetails) }.

Definition BUILTIN_GROUPS : list string :=
  ["lldap_admin"; "lldap_password_manager"; "lldap_strict_readonly"; "lldap_disabled";
   "lldap_sudohost"].

Definition is_builtin_group (name : string) : bool :=
  existsb (fun g => String.eqb g name) BUILTIN_GROUPS.

(** ** Requests *)

Record CreateUserRequest := MkCreateUserRequest {
  cu_user_id : UserId;
  cu_email : Email;
  cu_display_name : option string;
  cu_attributes : list Attribute
}.

Record UpdateUserRequest := MkUpdateUserRequest {
  uu_user_id : UserId;
  uu_email : option Email;
  uu_display_name : option string;
  uu_delete_attributes : list AttributeName;
  uu_insert_attributes : list Attribute
}.

Record CreateGroupRequest := MkCreateGroupRequest {
  cg_display_name : GroupName;
  cg_attributes : list Attribute
}.

Record UpdateGroupRequest := MkUpdateGroupRequest {
  ug_group_id : GroupId;
  ug_display_name : option GroupName;
  ug_delete_attributes : list AttributeName;
  ug_insert_attributes : list Attribute
}.

Record CreateAttributeRequest := MkCreateAttributeRequest {
  ca_name : AttributeName;
  ca_attribute_type : AttributeType;
  ca_is_list : bool;
  ca_is_visible : bool;
  ca_is_editable : bool
}.

Record BindRequest := MkBindRequest { br_name : UserId; br_password : string }.

(** ** Errors *)

(** The [sea_orm::DbErr] values the code builds or tells apart: a custom message
    and everything else the driver reports. *)
Inductive DbErr : Type :=
| DbCustom (msg : string)
| RecordNotUpdated
| DbQuery (msg : string).

Inductive DomainError : Type :=
| AuthenticationError (msg : string)
| DatabaseError (e : DbErr)
| DatabaseTransactionError (e : DbErr)
| AuthenticationProtocolError (msg : string)
| UnknownCryptoError
| BinarySerializationError
| Base64DecodeError
| EntityNotFound (msg : string)
| InternalError (msg : string).

#[export] Instance DbErr_eq_dec : EqDecision DbErr.
Proof. solve_decision. Defined.
#[export] Instance DomainError_eq_dec : EqDecision DomainError.
Proof. solve_decision. Defined.

Abbreviation Result A := (result DomainError A) (only parsing).

(** ** Code outside the repository *)

Class Extern := {
  (** Rust's Unicode tables: [chars().flat_map(char::to_lowercase)] and
      [str::to_lowercase]. *)
  chars_to_lowercase : string -> string;
  str_to_lowercase : string -> string;
  (** chrono: RFC 3339 parsing, GeneralizedTime printing. *)
  parse_from_rfc3339 : string -> option NaiveDateTime;
  generalized_time : NaiveDateTime -> string;
  (** base64, the image codecs behind [images::process_avatar_input]. *)
  base64_decode : string -> option string;
  process_avatar_input : string -> option string;
  (** uuid: parse to canonical text, name-based UUIDs. *)
  uuid_parse : string -> option Uuid;
  uuid_v3_x500 : string -> NaiveDateTime -> Uuid;
  uuid_v5_dns : string -> Uuid;
  (** serde_json on string lists, bincode on dates. *)
  json_to_vec : list string -> string;
  json_from_slice : string -> option (list string);
  bincode_datetime : string -> option NaiveDateTime;
  bincode_datetimes : string -> option (list NaiveDateTime);
  (** [Debug] (plain and pretty) and [Display] renderings used inside error
      messages. *)
  debug_error : DomainError -> string;
  debug_error_pretty : DomainError -> string;
  display_error : DomainError -> string
}.

(** What the development relies on of the Unicode tables: on ASCII text both
    operations are the ASCII one. *)
Class UnicodeLaws `{Extern} := {
  chars_to_lowercase_ascii s : is_ascii s = true -> chars_to_lowercase s = to_ascii_lowercase s;
  str_to_lowercase_ascii s : is_ascii s = true -> str_to_lowercase s = to_ascii_lowercase s
}.

(** serde_json reads back the string lists it wrote. *)
Class JsonLaws `{Extern} := {
  json_roundtrip l : json_from_slice (json_to_vec l) = Some l
}.

Section Comparable.
Context `{Extern}.

(** [compare_str_case_insensitive]: the characters lowercased one by one, then
    compared in code point order, which UTF-8 keeps as byte order. *)
Definition compare_str_case_insensitive (s1 s2 : string) : comparison :=
  String.compare (chars_to_lowercase s1) (chars_to_lowercase s2).

Definition group_name_eqb (a b : GroupName) : bool :=
  match compare_str_case_insensitive (group_name_str a) (group_name_str b) with
  | Eq => true
  | _ => false
  end.

(** [Avatar::new]: conversion failures give the empty avatar. *)
Definition Avatar_new (bytes : string) : Avatar :=
  match process_avatar_input bytes with
  | Some jpeg => MkAvatar jpeg
  | None => MkAvatar ""
  end.

Definition Uuid_from_name_and_date (name : string) (creation_date : NaiveDateTime) : Uuid :=
  uuid_v3_x500 name creation_date.

Definition Uuid_try_from (s : string) : option Uuid := uuid_parse s.

Lemma group_name_eqb_iff a b :
  group_name_eqb a b = true <->
  chars_to_lowercase (group_name_str a) = chars_to_lowercase (group_name_str b).
Proof.
  unfold group_name_eqb, compare_str_case_insensitive.
  set (x := chars_to_lowercase _). set (y := chars_to_lowercase _).
  pose proof (String.compare_eq_iff x y) as Hc.
  assert (String.compare x x = Eq) as Hr.
  { clear. induction x as [|c x IH]; [done|]. simpl.
    unfold Ascii.compare. by rewrite N.compare_refl. }
  destruct (String.compare x y) eqn:E; split; try done; intros Hxy; try (by apply Hc); congruence.
Qed.

Lemma group_name_eqb_refl a : group_name_eqb a a = true.
Proof. by apply group_name_eqb_iff. Qed.

Lemma group_name_eqb_ascii `{!UnicodeLaws} a b :
  is_ascii (group_name_str a) = true -> is_ascii (group_name_str b) = true ->
  group_name_eqb a b = true <->
  to_ascii_lowercase (group_name_str a) = to_ascii_lowercase (group_name_str b).
Proof. intros Ha Hb. by rewrite group_name_eqb_iff, !chars_to_lowercase_ascii. Qed.
End Comparable.

(** ** Parsing attribute values (crates/domain/src/deserialize.rs) *)

Section Deserialize.
Context `{Extern}.

Definition parse_int (value : string) : result string Z :=
  ok_or (parse_i64 value) ("Invalid integer value " +:+ value).

Definition parse_date (value : string) : result string NaiveDateTime :=
  ok_or (parse_from_rfc3339 value) ("Invalid date value " +:+ value).

Definition parse_avatar (value : string) : result string Avatar :=
  if String.eqb value "" then Ok Avatar_null
  else
    let? raw_bytes := ok_or (base64_decode value) "Invalid base64 data for avatar" in
    let? jpeg_bytes := ok_or (process_avatar_input raw_bytes) "Failed to process avatar" in
    Ok (Avatar_new jpeg_bytes).

Definition deserialize_attribute_value (value : list string) (typ : AttributeType)
    (is_list : bool) : result string AttributeValue :=
  if negb is_list && negb (length value =? 1)%nat then
    Err "Attribute is not a list, but multiple values were provided"
  else
    match typ, is_list with
    | TString, false => Ok (VString (Singleton (hd "" value)))
    | TString, true => Ok (VString (Unbounded value))
    | TInteger, false =>
        let? v := parse_int (hd "" value) in Ok (VInteger (Singleton v))
    | TInteger, true =>
        let? l := collect (map parse_int value) in Ok (VInteger (Unbounded l))
    | TDateTime, false =>
        let? v := parse_date (hd "" value) in Ok (VDateTime (Singleton v))
    | TDateTime, true =>
        let? l := collect (map parse_date value) in Ok (VDateTime (Unbounded l))
    | TAvatar, false =>
        let? v := parse_avatar (hd "" value) in Ok (VAvatar (Singleton v))
    | TAvatar, true =>
        let? l := collect (map parse_avatar value) in Ok (VAvatar (Unbounded l))
    end.

(** A parsed value has the requested type and cardinality. *)
Definition value_matches (typ : AttributeType) (is_list : bool) (v : AttributeValue) : bool :=
  match typ, v with
  | TString, VString (Singleton _) | TInteger, VInteger (Singleton _)
  | TAvatar, VAvatar (Singleton _) | TDateTime, VDateTime (Singleton _) => negb is_list
  | TString, VString (Unbounded _) | TInteger, VInteger (Unbounded _)
  | TAvatar, VAvatar (Unbounded _) | TDateTime, VDateTime (Unbounded _) => is_list
  | _, _ => false
  end.

Lemma deserialize_value_matches value typ is_list v :
  deserialize_attribute_value value typ is_list = Ok v -> value_matches typ is_list v = true.
Proof.
  unfold deserialize_attribute_value. case_match; [done|].
  destruct typ, is_list; intros Hv; rewrite ?result_bind_Ok in Hv;
    try (destruct Hv as (? & _ & Hv)); by simplify_eq.
Qed.
End Deserialize.

(** ** Request filters (crates/domain-handlers/src/handler.rs) *)

Record SubStringFilter := MkSubStringFilter {
  sf_initial : option string;
  sf_any : list string;
  sf_final : option string
}.

(** [SubStringFilter::to_sql_filter]: the LIKE pattern. *)
Definition to_sql_filter (f : SubStringFilter) : string :=
  from_option to_ascii_lowercase "" (sf_initial f) +:+
  ("%" +:+
   (fold_right (fun part acc => to_ascii_lowercase part +:+ ("%" +:+ acc)) "" (sf_any f) +:+
    from_option to_ascii_lowercase "" (sf_final f))).

(** [users::Column] (crates/domain-model/src/model/users.rs) *)
Inductive UserColumn : Type :=
| ColUserId | ColEmail | ColLowercaseEmail | ColDisplayName | ColCreationDate
| ColPasswordHash | ColTotpSecret | ColMfaType | ColUuid | ColModifiedDate
| ColPasswordModifiedDate | ColKrbPrincipalName.

#[export] Instance UserColumn_eq_dec : EqDecision UserColumn.
Proof. solve_decision. Defined.

Inductive UserRequestFilter : Type :=
| UTrue
| UFalse
| UAnd (fs : list UserRequestFilter)
| UOr (fs : list UserRequestFilter)
| UNot (f : UserRequestFilter)
| UUserId (id : UserId)
| UUserIdSubString (f : SubStringFilter)
| UEquality (c : UserColumn) (v : string)
| UAttributeEquality (n : AttributeName) (v : AttributeValue)
| USubString (c : UserColumn) (f : SubStringFilter)
| UMemberOf (g : GroupName)
| UMemberOfId (g : GroupId)
| UCustomAttributePresent (n : AttributeName)
| UGreaterOrEqual (c : UserColumn) (v : string)
| ULessOrEqual (c : UserColumn) (v : string)
| UAttributeGreaterOrEqual (n : AttributeName) (v : string)
| UAttributeLessOrEqual (n : AttributeName) (v : string)
| UAttributeSubString (n : AttributeName) (f : SubStringFilter).

Inductive GroupRequestFilter : Type :=
| GTrue
| GFalse
| GAnd (fs : list GroupRequestFilter)
| GOr (fs : list GroupRequestFilter)
| GNot (f : GroupRequestFilter)
| GDisplayName (n : GroupName)
| GDisplayNameSubString (f : SubStringFilter)
| GUuid (u : Uuid)
| GGroupId (g : GroupId)
| GMember (u : UserId)
| GAttributeEquality (n : AttributeName) (v : AttributeValue)
| GCustomAttributePresent (n : AttributeName)
| GGreaterOrEqual (c : string) (v : string)
| GLessOrEqual (c : string) (v : string)
| GAttributeGreaterOrEqual (n : AttributeName) (v : string)
| GAttributeLessOrEqual (n : AttributeName) (v : string)
| GAttributeSubString (n : AttributeName) (f : SubStringFilter).

Record PosixSettings := MkPosixSettings {
  user_uidnumber_assign : bool;
  user_uidnumber_start : Z;
  user_uidnumber_max : Z;
  user_gidnumber_assign : bool;
  user_gidnumber_start : Z;
  user_loginshell_assign : bool;
  user_loginshell_default : string;
  user_homedirectory_assign : bool;
  user_homedirectory_prefix : string;
  group_gidnumber_assign : bool;
  group_gidnumber_start : Z;
  group_gidnumber_max : Z
}.

(** [PosixSettings::default] *)
Definition PosixSettings_default : PosixSettings :=
  MkPosixSettings false 0 0 false 0 false "" false "" false 0 0.

(** ** A concrete environment, for evaluating the definitions *)

Definition demo_extern : Extern := {|
  chars_to_lowercase := to_ascii_lowercase;
  str_to_lowercase := to_ascii_lowercase;
  parse_from_rfc3339 := fun _ => None;
  generalized_time := int_to_string;
  base64_decode := Some;
  process_avatar_input := Some;
  uuid_parse := fun s => Some s;
  uuid_v3_x500 := fun n d => n +:+ ("-" +:+ int_to_string d);
  uuid_v5_dns := fun s => s;
  json_to_vec := join "|";
  json_from_slice := fun s => Some (split_on "|" s);
  bincode_datetime := fun _ => None;
  bincode_datetimes := fun _ => None;
  debug_error := fun _ => "error";
  debug_error_pretty := fun _ => "error";
  display_error := fun _ => "error"
|}.

#[export] Instance demo_unicode : @UnicodeLaws demo_extern.
Proof. split; done. Qed.
