(* ===== verification/Images.v ===== *)
(** * Avatars

    [crates/domain/src/images.rs]: checking and converting the image a user uploads, and
    the check of stored bytes.  The codecs of the crate [image] are parameters.  The
    other files see the conversion as the operation [process_avatar_input] of [Extern]. *)

From S2P Require Import Prelude Strings Types.

Inductive ImageFormat : Type := Jpeg | Png | Bmp | OtherFormat (name : string).

(** Reading and writing images: the format of the bytes (an error, or none recognised),
    the decoder, the dimensions of an image and the JPEG encoder. *)
Class ImageExtern := {
  Image : Type;
  guessed_format : string -> result string (option ImageFormat);
  decode : string -> result string Image;
  width : Image -> Z;
  height : Image -> Z;
  encode_jpeg : Z -> Image -> result string string
}.

(** A JPEG file starts with its marker. *)
Class ImageLaws `{ImageExtern} := {
  jpeg_marker q img bytes : encode_jpeg q img = Ok bytes ->
    exists rest, bytes = String (ascii_of_nat 255) (String (ascii_of_nat 216) rest)
}.

Definition MAX_AVATAR_SIZE : Z := 512.
Definition TARGET_AVATAR_SIZE : Z := MAX_AVATAR_SIZE.
Definition JPEG_QUALITY : Z := 82.
Definition MAX_AVATAR_JPEG_SIZE : Z := 512 * 1024.

Inductive AvatarError : Type :=
| WrongDimensions (w h : Z)
| UnsupportedFormat
| TooLarge (size : Z)
| InvalidImage (msg : string).

(** [bytes.len()] *)
Definition byte_len (s : string) : Z := Z.of_nat (String.length s).

Section Avatars.
Context `{ImageExtern}.

Definition max_input_size (format : ImageFormat) : Z :=
  match format with Bmp => 2 * 1024 * 1024 | _ => MAX_AVATAR_JPEG_SIZE end.

Definition process_avatar (input : string) : result AvatarError string :=
  if String.eqb input "" then Ok ""
  else
    let? guessed := map_err InvalidImage (guessed_format input) in
    let? format := ok_or guessed UnsupportedFormat in
    match format with
    | OtherFormat _ => Err UnsupportedFormat
    | _ =>
        if (max_input_size format <? byte_len input)%Z then Err (TooLarge (byte_len input))
        else
          let? img := map_err InvalidImage (decode input) in
          if (TARGET_AVATAR_SIZE <? width img)%Z || (TARGET_AVATAR_SIZE <? height img)%Z then
            Err (WrongDimensions (width img) (height img))
          else
            let? jpeg_bytes := map_err InvalidImage (encode_jpeg JPEG_QUALITY img) in
            if (MAX_AVATAR_JPEG_SIZE <? byte_len jpeg_bytes)%Z then Err (TooLarge (byte_len jpeg_bytes))
            else Ok jpeg_bytes
    end.

Definition bytes_text (l : list nat) : string := fold_right (fun n s => String (ascii_of_nat n) s) "" l.

Definition validate_stored_avatar_bytes (bytes : string) : result AvatarError unit :=
  if String.eqb bytes "" then Ok tt
  else if (MAX_AVATAR_JPEG_SIZE <? byte_len bytes)%Z then Err (TooLarge (byte_len bytes))
  else if starts_with (bytes_text [255; 216]) bytes then Ok tt
  else if (4 <=? byte_len bytes)%Z
          && (starts_with (bytes_text [137; 80; 78; 71]) bytes || starts_with (bytes_text [66; 77]) bytes) then Ok tt
  else Err (InvalidImage "Stored avatar is not a valid JPEG, PNG, or BMP").

Definition is_valid_avatar_dimensions (w h : Z) : bool :=
  (w <=? TARGET_AVATAR_SIZE)%Z && (h <=? TARGET_AVATAR_SIZE)%Z.
End Avatars.

(** What [process_avatar_input] makes of an upload is empty exactly when the upload
    is, or the JPEG encoding of an image within 512 by 512 pixels; it is at most 512 KiB
    long, and the check of stored bytes accepts it. *)
Theorem processed_avatar_bounds `{ImageExtern, !ImageLaws} input out :
  process_avatar input = Ok out ->
  (byte_len out <= 524288)%Z /\ validate_stored_avatar_bytes out = Ok tt /\
  ((input = "" /\ out = "") \/
   exists img, decode input = Ok img /\ is_valid_avatar_dimensions (width img) (height img) = true /\
     encode_jpeg JPEG_QUALITY img = Ok out /\ out <> "").
Proof.
  unfold process_avatar. destruct (String.eqb_spec input "") as [->|Hne]; [intros [= <-]; split_and!; [done..|by left]|].
  intros (g & _ & Hp)%result_bind_Ok. apply result_bind_Ok in Hp as (format & _ & Hp).
  assert (exists img, decode input = Ok img /\ encode_jpeg JPEG_QUALITY img = Ok out /\
    is_valid_avatar_dimensions (width img) (height img) = true /\ (byte_len out <= MAX_AVATAR_JPEG_SIZE)%Z)
    as (img & Hd & He & Hdim & Hlen).
  { destruct format; try done; destruct (_ <? _)%Z eqn:? in Hp; try done;
      apply result_bind_Ok in Hp as (img & Hd%map_err_Ok & Hp); exists img;
      destruct (_ || _) eqn:Edim in Hp; try done; apply orb_false_iff in Edim as [Hw Hh];
      apply result_bind_Ok in Hp as (b & Hb%map_err_Ok & Hp); destruct (_ <? _)%Z eqn:El in Hp; try done;
      injection Hp as ->; apply Z.ltb_ge in Hw, Hh, El; unfold is_valid_avatar_dimensions;
      rewrite andb_true_iff, !Z.leb_le; done. }
  destruct (jpeg_marker _ _ _ He) as [rest Hout]. split_and!; [done| |].
  - unfold validate_stored_avatar_bytes. rewrite (proj2 (Z.ltb_ge _ _) Hlen), Hout. done.
  - right. exists img. rewrite Hout in *. naive_solver.
Qed.

Definition demo_images : ImageExtern := {|
  Image := Z * Z;
  guessed_format := fun s => Ok (if starts_with "P" s then Some Png else None);
  decode := fun s => Ok (byte_len s, 100%Z);
  width := fst;
  height := snd;
  encode_jpeg := fun _ _ => Ok (bytes_text [255; 216; 1])
|}.

#[export] Instance demo_image_laws : @ImageLaws demo_images.
Proof. constructor. intros q img bytes [= <-]. eexists. reflexivity. Qed.

Lemma processed_avatar_bounds_witness :
  @process_avatar demo_images "GIF" = Err UnsupportedFormat /\
  validate_stored_avatar_bytes (bytes_text [255; 216; 1]) = Ok tt.
Proof.
  split; [reflexivity|].
  exact (proj1 (proj2 (@processed_avatar_bounds demo_images _ "PNG" (bytes_text [255; 216; 1]) eq_refl))).
Defined.
