(* ===== verification/Schema.v ===== *)
(** * The schema

    [crates/schema/src/schema.rs] (attribute descriptions and their lookup by name
    or alias) and [crates/schema/src/public_schema.rs] ([PublicSchema::get], the
    table of hard-coded attributes, and its accessors). *)

From S2P Require Import Prelude Strings Types.


Record AttributeSchema := MkAttributeSchema {
  as_name : string;
  as_aliases : list string;
  as_attribute_type : AttributeType;
  as_is_list : bool;
  as_is_visible : bool;
  as_is_editable : bool;
  as_is_hardcoded : bool;
  as_is_readonly : bool
}.

Record AttributeList := MkAttributeList { attributes : list AttributeSchema }.

Record Schema := MkSchema {
  s_user_attributes : AttributeList;
  s_group_attributes : AttributeList;
  s_system_attributes : AttributeList;
  s_posix_settings : PosixSettings;
  s_extra_user_object_classes : list string;
  s_extra_group_object_classes : list string
}.

(** [AttributeList::get_by_name_or_alias]: the first attribute whose name or one of
    whose aliases is [name], without case. *)
Definition matches_name (a : AttributeSchema) (name : string) : bool :=
  eq_ignore_ascii_case (as_name a) name ||
  existsb (fun alias => eq_ignore_ascii_case alias name) (as_aliases a).

Definition get_by_name_or_alias (l : AttributeList) (name : string) : option AttributeSchema :=
  find (fun a => matches_name a name) (attributes l).

Definition get_attribute_schema (l : AttributeList) (name : string) : option AttributeSchema :=
  get_by_name_or_alias l name.

Definition get_attribute_type (l : AttributeList) (name : string) : option (AttributeType * bool) :=
  (fun a => (as_attribute_type a, as_is_list a)) <$> get_by_name_or_alias l name.

Definition format_for_ldap_schema_description (l : AttributeList) : string :=
  join " $ " (map as_name (attributes l)).

Definition resolve_canonical_name (l : AttributeList) (name_or_alias : string) : option string :=
  as_name <$> get_by_name_or_alias l name_or_alias.

(** [PublicSchema] is a wrapper around [Schema]. *)
Abbreviation PublicSchema := Schema (only parsing).

Definition core_user_attributes : list AttributeSchema :=
  [MkAttributeSchema "avatar" ["jpegphoto"; "jpegPhoto"] TAvatar false true true true false;
   MkAttributeSchema "creationdate" ["creation_date"; "createTimestamp"] TDateTime false true false true true;
   MkAttributeSchema "displayname" ["display_name"; "cn"] TString false true true true false;
   MkAttributeSchema "firstname" ["first_name"; "givenName"] TString false true true true false;
   MkAttributeSchema "lastname" ["last_name"; "sn"] TString false true true true false;
   MkAttributeSchema "mail" ["email"] TString false true true true false;
   MkAttributeSchema "modifieddate" ["modified_date"; "modifyTimestamp"] TDateTime false true false true true;
   MkAttributeSchema "passwordmodifieddate" ["password_modified_date"; "pwdChangedTime"] TDateTime false true false true true;
   MkAttributeSchema "userid" ["user_id"; "uid"; "id"] TString false true false true true;
   MkAttributeSchema "uuid" ["entryuuid"; "entryUUID"] TString false true false true true].

Definition posix_user_attributes : list AttributeSchema :=
  [MkAttributeSchema "uidnumber" ["uid_number"; "uidNumber"] TInteger false true false true false;
   MkAttributeSchema "gidnumber" ["gid_number"; "gidNumber"] TInteger false true false true false;
   MkAttributeSchema "homedirectory" ["home_directory"; "homeDirectory"] TString false true false true false;
   MkAttributeSchema "loginshell" ["login_shell"; "loginShell"] TString false true false true false;
   MkAttributeSchema "kerberossync" ["kerberos_sync"; "kerberosSync"] TInteger false true false true false;
   MkAttributeSchema "krbprincipalname" ["krb_principal_name"; "krbPrincipalName"] TString false false false true true;
   MkAttributeSchema "sshpublickey" ["sshPublicKey"; "ssHPublicKey"] TString true true true true false;
   MkAttributeSchema "ou" ["organizationalunit"; "organizationalUnit"] TString false true false true true].

Definition hardcoded_group_attributes : list AttributeSchema :=
  [MkAttributeSchema "groupid" ["group_id"] TInteger false true false true true;
   MkAttributeSchema "creationdate" ["creation_date"; "createTimestamp"] TDateTime false true false true true;
   MkAttributeSchema "modifieddate" ["modified_date"; "modifyTimestamp"] TDateTime false true false true true;
   MkAttributeSchema "uuid" ["entryuuid"; "entryUUID"] TString false true false true true;
   MkAttributeSchema "displayname" ["display_name"; "cn"] TString false true true true false;
   MkAttributeSchema "ou" ["organizationalunit"; "organizationalUnit"] TString false true false true true;
   MkAttributeSchema "gidnumber" ["gid_number"; "gidNumber"] TInteger false true false true false].

Definition hardcoded_system_attributes : list AttributeSchema :=
  [MkAttributeSchema "allowedous" ["allowedOUs"; "AllowedOUs"] TString true false false true true].

Definition hardcoded_posix_settings : PosixSettings :=
  MkPosixSettings false 3001 3999 false 3001 false "/bin/bash" false "/home" false 3001 3999.

Definition PublicSchema_get : PublicSchema := {|
  s_user_attributes := MkAttributeList (core_user_attributes ++ posix_user_attributes);
  s_group_attributes := MkAttributeList hardcoded_group_attributes;
  s_system_attributes := MkAttributeList hardcoded_system_attributes;
  s_posix_settings := hardcoded_posix_settings;
  s_extra_user_object_classes := ["inetOrgPerson"; "posixAccount"; "ldapPublicKey"];
  s_extra_group_object_classes := ["posixGroup"]
|}.

Definition resolve_user_canonical_name (s : PublicSchema) (name_or_alias : string) : option string :=
  resolve_canonical_name (s_user_attributes s) name_or_alias.

Definition resolve_group_canonical_name (s : PublicSchema) (name_or_alias : string) : option string :=
  resolve_canonical_name (s_group_attributes s) name_or_alias.

(** ** Lemmas *)

Lemma matches_name_lower a n : matches_name a (to_ascii_lowercase n) = matches_name a n.
Proof.
  unfold matches_name, eq_ignore_ascii_case. rewrite lower_idemp. done.
Qed.

(** Lookup does not depend on the case of the name. *)
Lemma get_by_name_or_alias_case l n m :
  to_ascii_lowercase n = to_ascii_lowercase m ->
  get_by_name_or_alias l n = get_by_name_or_alias l m.
Proof.
  intros Hnm. unfold get_by_name_or_alias. induction (attributes l) as [|a as' IH]; [done|].
  simpl. rewrite IH, <- (matches_name_lower a n), <- (matches_name_lower a m), Hnm. done.
Qed.

Lemma get_by_name_or_alias_Some l n a :
  get_by_name_or_alias l n = Some a -> a ∈ attributes l /\ matches_name a n = true.
Proof. unfold get_by_name_or_alias. intros [H1 H2]%find_some. by rewrite list_elem_of_In. Qed.

(** The names an attribute answers to, lowercased. *)
Definition names_of (a : AttributeSchema) : list string :=
  map to_ascii_lowercase (as_name a :: as_aliases a).

Lemma matches_name_iff a n :
  matches_name a n = true <-> to_ascii_lowercase n ∈ names_of a.
Proof.
  unfold matches_name, names_of. rewrite orb_true_iff, existsb_elem, eq_ignore_iff. simpl.
  rewrite elem_of_cons, list_elem_of_fmap. setoid_rewrite eq_ignore_iff.
  split; intros [E|E]; naive_solver.
Qed.

#[export] Instance AttributeSchema_eq_dec : EqDecision AttributeSchema.
Proof. solve_decision. Defined.

(** Every attribute of the list is the one its own name resolves to. *)
Definition self_resolving (l : AttributeList) : bool :=
  forallb (fun a => bool_decide (get_by_name_or_alias l (as_name a) = Some a)) (attributes l).

Lemma self_resolving_canonical l n a :
  self_resolving l = true ->
  get_by_name_or_alias l n = Some a -> get_by_name_or_alias l (as_name a) = Some a.
Proof.
  intros Hl Ha. apply get_by_name_or_alias_Some in Ha as [Ha _].
  unfold self_resolving in Hl. rewrite forallb_Forall, Forall_forall in Hl.
  specialize (Hl a Ha). by apply bool_decide_eq_true in Hl.
Qed.

Lemma public_user_self_resolving : self_resolving (s_user_attributes PublicSchema_get) = true.
Proof. vm_compute. done. Qed.

Lemma public_group_self_resolving : self_resolving (s_group_attributes PublicSchema_get) = true.
Proof. vm_compute. done. Qed.
