(* ===== verification/Access.v ===== *)
(** * Access control

    [crates/auth/src/access_control.rs] (permissions),
    [crates/domain-handlers/src/handler.rs] (the traits a backend implements) and
    [crates/access-control/src/lib.rs] (which part of the backend a caller gets).
    [BackendHandler] is the interface: the LDAP layer is written against it, and
    the SQL backend implements it. *)

From S2P Require Import Prelude Strings Types Schema.


(** ** Permissions *)

Inductive Permission : Type :=
| Admin
| PasswordManager
| Readonly
| Regular.

#[export] Instance Permission_eq_dec : EqDecision Permission.
Proof. solve_decision. Defined.

Definition permission_eqb (a b : Permission) : bool :=
  match a, b with
  | Admin, Admin | PasswordManager, PasswordManager
  | Readonly, Readonly | Regular, Regular => true
  | _, _ => false
  end.

Record ValidationResults := MkValidationResults { vr_user : UserId; vr_permission : Permission }.

Definition is_admin (v : ValidationResults) : bool := permission_eqb (vr_permission v) Admin.

Definition can_read_all (v : ValidationResults) : bool :=
  permission_eqb (vr_permission v) Admin
  || permission_eqb (vr_permission v) Readonly
  || permission_eqb (vr_permission v) PasswordManager.

Definition can_read (v : ValidationResults) (user : UserId) : bool :=
  permission_eqb (vr_permission v) Admin
  || permission_eqb (vr_permission v) PasswordManager
  || permission_eqb (vr_permission v) Readonly
  || user_id_eqb (vr_user v) user.

Definition can_change_password (v : ValidationResults) (user : UserId) (user_is_admin : bool) : bool :=
  permission_eqb (vr_permission v) Admin
  || (permission_eqb (vr_permission v) PasswordManager && negb user_is_admin)
  || user_id_eqb (vr_user v) user.

Definition can_write (v : ValidationResults) (user : UserId) : bool :=
  permission_eqb (vr_permission v) Admin || user_id_eqb (vr_user v) user.

(** ** The backend interface *)

(** The methods of the backend traits ([LoginHandler], [UserListerBackendHandler],
    [GroupListerBackendHandler], [UserBackendHandler], [GroupBackendHandler],
    [SchemaBackendHandler], [SystemConfigBackendHandler], [OpaqueHandler]'s
    password registration) over a store [S].  [register_password] is the
    registration exchange run by [change_password]; [sync_kerberos_principal] and
    [delete_kerberos_principal] are the KDC calls of crates/kerberos. *)
Class BackendHandler (S : Type) := {
  bind : BindRequest -> io S DomainError unit;
  list_users : option UserRequestFilter -> bool -> io S DomainError (list UserAndGroups);
  list_groups : option GroupRequestFilter -> io S DomainError (list Group);
  get_user_details : UserId -> io S DomainError User;
  get_user_groups : UserId -> io S DomainError (list GroupDetails);
  get_group_details : GroupId -> io S DomainError GroupDetails;
  get_schema : io S DomainError PublicSchema;
  get_allowed_ous : io S DomainError (list string);
  create_user : CreateUserRequest -> io S DomainError unit;
  update_user : UpdateUserRequest -> io S DomainError unit;
  delete_user : UserId -> io S DomainError unit;
  add_user_to_group : UserId -> GroupId -> io S DomainError unit;
  remove_user_from_group : UserId -> GroupId -> io S DomainError unit;
  create_group : CreateGroupRequest -> io S DomainError GroupId;
  update_group : UpdateGroupRequest -> io S DomainError unit;
  delete_group : GroupId -> io S DomainError unit;
  register_password : UserId -> string -> io S DomainError unit;
  ensure_kerberos_principal_consistency : UserId -> bool -> io S DomainError unit;
  sync_kerberos_principal : string -> string -> io S DomainError unit;
  delete_kerberos_principal : string -> io S DomainError unit
}.

(** ** [AccessControlledBackendHandler] *)

Section AccessControlled.
Context `{Extern} {S : Type} (handler : BackendHandler S).

Definition get_schema_only_handler (_ : ValidationResults) : option (BackendHandler S) :=
  Some handler.

Definition get_admin_handler (v : ValidationResults) : option (BackendHandler S) :=
  if is_admin v then Some handler else None.

Definition get_readonly_handler (v : ValidationResults) : option (BackendHandler S) :=
  if can_read_all v then Some handler else None.

Definition get_writeable_handler (v : ValidationResults) (user_id : UserId)
  : option (BackendHandler S) :=
  if can_write v user_id then Some handler else None.

Definition get_readable_handler (v : ValidationResults) (user_id : UserId)
  : option (BackendHandler S) :=
  if can_read v user_id then Some handler else None.

(** [UserRestrictedListerBackendHandler]: the backend seen through a user filter. *)
Record UserRestrictedLister := MkRestrictedLister {
  rl_handler : BackendHandler S;
  rl_user_filter : option UserId
}.

Definition get_user_restricted_lister_handler (v : ValidationResults) : UserRestrictedLister :=
  MkRestrictedLister handler (if can_read_all v then None else Some (vr_user v)).

Definition get_permissions_from_groups (user_id : UserId) (groups : list GroupName)
  : ValidationResults :=
  let is_in_group name := existsb (fun g => group_name_eqb g (MkGroupName name)) groups in
  MkValidationResults user_id
    (if is_in_group "lldap_admin" then Admin
     else if is_in_group "lldap_password_manager" then PasswordManager
     else if is_in_group "lldap_strict_readonly" then Readonly
     else Regular).

Definition get_permissions_for_user (user_id : UserId) : io S DomainError ValidationResults :=
  let! user_groups := get_user_groups user_id in
  io_ret (get_permissions_from_groups user_id (map gd_display_name user_groups)).
End AccessControlled.

Arguments UserRestrictedLister : clear implicits.
Arguments MkRestrictedLister {S} _ _.
Arguments rl_handler {S} _.
Arguments rl_user_filter {S} _.

Section RestrictedLister.
Context {S : Type} (lister : UserRestrictedLister S).

(** [get_schema]: unprivileged callers see the visible attributes only. *)
Definition retain_visible (l : AttributeList) : AttributeList :=
  MkAttributeList (List.filter as_is_visible (attributes l)).

Definition restricted_get_schema : io S DomainError PublicSchema :=
  let! s := @get_schema S (rl_handler lister) in
  io_ret match rl_user_filter lister with
  | Some _ => MkSchema (retain_visible (s_user_attributes s)) (retain_visible (s_group_attributes s))
                (s_system_attributes s) (s_posix_settings s)
                (s_extra_user_object_classes s) (s_extra_group_object_classes s)
  | None => s
  end.

Definition restrict_user_filter (filters : option UserRequestFilter)
  : option UserRequestFilter :=
  match filters, UUserId <$> rl_user_filter lister with
  | None, None => None
  | None, u => u
  | f, None => f
  | Some f, Some u => Some (UAnd [f; u])
  end.

Definition restricted_list_users (filters : option UserRequestFilter) (get_groups : bool)
  : io S DomainError (list UserAndGroups) :=
  @list_users S (rl_handler lister) (restrict_user_filter filters) get_groups.

Definition restrict_group_filter (filters : option GroupRequestFilter)
  : option GroupRequestFilter :=
  match filters, GMember <$> rl_user_filter lister with
  | None, None => None
  | None, u => u
  | f, None => f
  | Some f, Some u => Some (GAnd [f; u])
  end.

Definition restricted_list_groups (filters : option GroupRequestFilter)
  : io S DomainError (list Group) :=
  @list_groups S (rl_handler lister) (restrict_group_filter filters).
End RestrictedLister.

(** ** Properties *)

Section Permissions.
Context `{Extern}.

(** Membership without case, as [get_permissions_from_groups] tests it. *)
Definition in_group (groups : list GroupName) (name : string) : bool :=
  existsb (fun g => group_name_eqb g (MkGroupName name)) groups.

Lemma permission_by_group u groups :
  vr_permission (get_permissions_from_groups u groups) =
  if in_group groups "lldap_admin" then Admin
  else if in_group groups "lldap_password_manager" then PasswordManager
  else if in_group groups "lldap_strict_readonly" then Readonly
  else Regular.
Proof. done. Qed.

Lemma in_group_mono groups groups' name :
  groups ⊆ groups' -> in_group groups name = true -> in_group groups' name = true.
Proof. unfold in_group. rewrite !existsb_elem. intros Hsub (g & Hg & He). eauto. Qed.

(** What the groups of the caller grant: read-all to members of one of the three
    groups, writes to others' entries to administrators only, and passwords of
    others to administrators and, for non-administrators, password managers. *)
Lemma permission_matrix u groups other other_is_admin :
  let v := get_permissions_from_groups u groups in
  can_read_all v = in_group groups "lldap_admin" || in_group groups "lldap_password_manager"
                   || in_group groups "lldap_strict_readonly" /\
  can_read v other = can_read_all v || user_id_eqb u other /\
  can_write v other = in_group groups "lldap_admin" || user_id_eqb u other /\
  can_change_password v other other_is_admin =
    in_group groups "lldap_admin" || (in_group groups "lldap_password_manager" && negb other_is_admin)
    || user_id_eqb u other.
Proof.
  intros v. unfold can_read_all, can_read, can_write, can_change_password. subst v.
  rewrite !permission_by_group. cbn [vr_user get_permissions_from_groups].
  destruct (in_group groups "lldap_admin"), (in_group groups "lldap_password_manager"),
    (in_group groups "lldap_strict_readonly"), (user_id_eqb u other), other_is_admin; done.
Qed.
End Permissions.

(** The rights a session gets are exactly those its groups name (compared without
    case), whichever of the groups comes first: reading everything with any of the
    three special groups, writing others' entries with [lldap_admin] only, setting
    others' passwords with [lldap_admin], or with [lldap_password_manager] unless
    the other is an administrator; one's own entry always. *)
Theorem permissions_from_groups `{Extern} u groups other other_is_admin :
  let v := get_permissions_from_groups u groups in
  can_read v other = in_group groups "lldap_admin" || in_group groups "lldap_password_manager"
                     || in_group groups "lldap_strict_readonly" || user_id_eqb u other /\
  can_write v other = in_group groups "lldap_admin" || user_id_eqb u other /\
  can_change_password v other other_is_admin =
    in_group groups "lldap_admin" || (in_group groups "lldap_password_manager" && negb other_is_admin)
    || user_id_eqb u other.
Proof.
  intros v. destruct (permission_matrix u groups other other_is_admin) as (H1 & H2 & H3 & H4).
  fold v in H1, H2, H3, H4. by rewrite H2, H1, H3, H4.
Qed.

(** Joining more groups never takes a right away. *)
Theorem permissions_monotone `{Extern} u groups groups' other other_is_admin :
  groups ⊆ groups' ->
  let v := get_permissions_from_groups u groups in
  let v' := get_permissions_from_groups u groups' in
  (can_read v other = true -> can_read v' other = true) /\
  (can_write v other = true -> can_write v' other = true) /\
  (can_change_password v other other_is_admin = true ->
   can_change_password v' other other_is_admin = true).
Proof.
  intros Hsub v v'.
  destruct (permission_matrix u groups other other_is_admin) as (H1 & H2 & H3 & H4).
  destruct (permission_matrix u groups' other other_is_admin) as (H1' & H2' & H3' & H4').
  fold v in H1, H2, H3, H4. fold v' in H1', H2', H3', H4'. rewrite H2, H1, H3, H4, H2', H1', H3', H4'.
  pose proof (fun n => in_group_mono groups groups' n Hsub) as Hm.
  rewrite !orb_true_iff, !andb_true_iff. intuition auto.
Qed.

Lemma permissions_monotone_witness :
  can_read (@get_permissions_from_groups demo_extern (MkUserId "bob")
    [MkGroupName "LLDAP_Strict_Readonly"; MkGroupName "lldap_disabled"]) (MkUserId "eve") = true.
Proof.
  apply (proj1 (@permissions_monotone demo_extern (MkUserId "bob") [MkGroupName "LLDAP_Strict_Readonly"]
    [MkGroupName "LLDAP_Strict_Readonly"; MkGroupName "lldap_disabled"] (MkUserId "eve") false
    ltac:(intros x Hx; apply list_elem_of_singleton in Hx as ->; by left))).
  vm_compute. reflexivity.
Defined.
