(* ===== verification/Proto.v ===== *)
(** * LDAP messages

    The data types of the [ldap3_proto] crate as the server uses them, the error
    type of [crates/ldap/src/core/error.rs] and the response builders of
    [crates/ldap/src/handler.rs], [delete.rs] and [search/mod.rs]. *)

From S2P Require Import Prelude Strings Types.


(** The result codes the server produces. *)
Inductive LdapResultCode : Type :=
| Success | OperationsError | ProtocolError | CompareFalse | CompareTrue
| ConstraintViolation | InvalidAttributeSyntax | NoSuchObject | InvalidDNSyntax
| InappropriateAuthentication | InvalidCredentials | InsufficentAccessRights
| UnwillingToPerform | NamingViolation | Other.

#[export] Instance LdapResultCode_eq_dec : EqDecision LdapResultCode.
Proof. solve_decision. Defined.

Record LdapError := MkLdapError { code : LdapResultCode; message : string }.

#[export] Instance LdapError_eq_dec : EqDecision LdapError.
Proof. solve_decision. Defined.

Abbreviation LdapResult A := (result LdapError A) (only parsing).

(** How a handler may stop early: with an error that becomes a response, or by a
    panic that does not. *)
Inductive failure : Type :=
| Fail (e : LdapError)
| Panicked (msg : string).

Inductive LdapSearchScope : Type :=
| ScopeBase
| ScopeOneLevel
| ScopeSubtree
| ScopeChildren.

#[export] Instance LdapSearchScope_eq_dec : EqDecision LdapSearchScope.
Proof. solve_decision. Defined.

Definition scope_eqb (a b : LdapSearchScope) : bool := bool_decide (a = b).

Inductive LdapFilter : Type :=
| LAnd (fs : list LdapFilter)
| LOr (fs : list LdapFilter)
| LNot (f : LdapFilter)
| LEquality (field value : string)
| LSubstring (field : string) (f : SubStringFilter)
| LGreaterOrEqual (field value : string)
| LLessOrEqual (field value : string)
| LPresent (field : string)
| LApprox (field value : string)
| LExtensible (assertion : string).

(** Induction through the nested lists of sub-filters. *)
Section LdapFilterInd.
Context (P : LdapFilter -> Prop).
Context (HAnd : forall fs, Forall P fs -> P (LAnd fs)).
Context (HOr : forall fs, Forall P fs -> P (LOr fs)).
Context (HNot : forall f, P f -> P (LNot f)).
Context (HEq : forall a v, P (LEquality a v)).
Context (HSub : forall a v, P (LSubstring a v)).
Context (HGe : forall a v, P (LGreaterOrEqual a v)).
Context (HLe : forall a v, P (LLessOrEqual a v)).
Context (HPres : forall a, P (LPresent a)).
Context (HAppr : forall a v, P (LApprox a v)).
Context (HExt : forall a, P (LExtensible a)).

Fixpoint LdapFilter_ind' (f : LdapFilter) : P f :=
  let fix go (fs : list LdapFilter) : Forall P fs :=
    match fs with
    | [] => Forall_nil_2 P
    | g :: gs => Forall_cons_2 P g gs (LdapFilter_ind' g) (go gs)
    end in
  match f with
  | LAnd fs => HAnd fs (go fs)
  | LOr fs => HOr fs (go fs)
  | LNot g => HNot g (LdapFilter_ind' g)
  | LEquality a v => HEq a v
  | LSubstring a v => HSub a v
  | LGreaterOrEqual a v => HGe a v
  | LLessOrEqual a v => HLe a v
  | LPresent a => HPres a
  | LApprox a v => HAppr a v
  | LExtensible a => HExt a
  end.
End LdapFilterInd.

Record LdapPartialAttribute := MkPartialAttribute { atype : string; vals : list string }.

Record LdapSearchResultEntry := MkSearchResultEntry {
  e_dn : string;
  e_attributes : list LdapPartialAttribute
}.

Record LdapSearchRequest := MkSearchRequest {
  sr_base : string;
  sr_scope : LdapSearchScope;
  sr_filter : LdapFilter;
  sr_attrs : list string
}.

Inductive LdapBindCred : Type :=
| Simple (password : string)
| Sasl.

Record LdapBindRequest := MkLdapBindRequest { lb_dn : string; lb_cred : LdapBindCred }.

Inductive LdapModifyType : Type :=
| MAdd
| MDelete
| MReplace.

#[export] Instance LdapModifyType_eq_dec : EqDecision LdapModifyType.
Proof. solve_decision. Defined.

Record LdapModify := MkLdapModify {
  lm_operation : LdapModifyType;
  lm_modification : LdapPartialAttribute
}.

Record LdapModifyRequest := MkLdapModifyRequest { mr_dn : string; mr_changes : list LdapModify }.

Record LdapAddRequest := MkLdapAddRequest { ar_dn : string; ar_attributes : list LdapPartialAttribute }.

Record LdapCompareRequest := MkLdapCompareRequest {
  cr_dn : string;
  cr_atype : string;
  cr_val : string
}.

Record LdapPasswordModifyRequest := MkPasswordModifyRequest {
  pm_user_identity : option string;
  pm_new_password : option string
}.

(** An extended request: its OID and the outcome of decoding it as a password
    modification ([LdapPasswordModifyRequest::try_from]). *)
Record LdapExtendedRequest := MkExtendedRequest {
  er_name : string;
  er_password_modify : result string LdapPasswordModifyRequest
}.

Definition OID_PASSWORD_MODIFY : string := "1.3.6.1.4.1.4203.1.11.1".
Definition OID_WHOAMI : string := "1.3.6.1.4.1.4203.1.11.3".

Record LdapResultOp := MkLdapResultOp {
  r_code : LdapResultCode;
  r_matcheddn : string;
  r_message : string
}.

Inductive LdapOp : Type :=
| OpBindRequest (r : LdapBindRequest)
| OpBindResponse (r : LdapResultOp)
| OpUnbindRequest
| OpSearchRequest (r : LdapSearchRequest)
| OpSearchResultEntry (e : LdapSearchResultEntry)
| OpSearchResultDone (r : LdapResultOp)
| OpModifyRequest (r : LdapModifyRequest)
| OpModifyResponse (r : LdapResultOp)
| OpAddRequest (r : LdapAddRequest)
| OpAddResponse (r : LdapResultOp)
| OpDelRequest (dn : string)
| OpDelResponse (r : LdapResultOp)
| OpCompareRequest (r : LdapCompareRequest)
| OpCompareResult (r : LdapResultOp)
| OpExtendedRequest (r : LdapExtendedRequest)
| OpExtendedResponse (r : LdapResultOp)
(** the operations the server does not handle *)
| OpOther (name : string).

(** What the LDAP layer takes from its environment: renderings that only occur in
    error messages (the derived [Debug] of a filter, an operation and an attribute name, the
    errors of the uuid crate and of UTF-8 decoding), [str::to_uppercase], the current time as
    a GeneralizedTime, the crate version, and the variable
    [LLDAP_KERB_REALM_NAME]. *)
Class LdapExtern := {
  debug_filter : LdapFilter -> string;
  debug_op : LdapOp -> string;
  debug_attribute_name : AttributeName -> string;
  uuid_error : string -> string;
  utf8_error : string -> string;
  str_to_uppercase : string -> string;
  utc_now_generalized : string;
  cargo_pkg_version : string;
  env_kerb_realm_name : option string
}.

Definition demo_ldap_extern : LdapExtern := {|
  debug_filter := fun _ => "filter";
  debug_op := fun _ => "op";
  debug_attribute_name := attribute_name_str;
  uuid_error := fun _ => "invalid uuid";
  utf8_error := fun _ => "invalid utf-8";
  str_to_uppercase := id;
  utc_now_generalized := "20260101000000Z";
  cargo_pkg_version := "0.0.0";
  env_kerb_realm_name := None
|}.

(** ** Response builders *)

Definition make_add_response (c : LdapResultCode) (m : string) : LdapOp :=
  OpAddResponse (MkLdapResultOp c "" m).

Definition make_extended_response (c : LdapResultCode) (m : string) : LdapOp :=
  OpExtendedResponse (MkLdapResultOp c "" m).

Definition make_modify_response (c : LdapResultCode) (m : string) : LdapOp :=
  OpModifyResponse (MkLdapResultOp c "" m).

Definition make_del_response (c : LdapResultCode) (m : string) : LdapOp :=
  OpDelResponse (MkLdapResultOp c "" m).

Definition make_search_error (c : LdapResultCode) (m : string) : LdapOp :=
  OpSearchResultDone (MkLdapResultOp c "" m).

Definition make_search_success : LdapOp := make_search_error Success "".

Definition make_search_request (base : string) (filter : LdapFilter) (attrs : list string)
  : LdapSearchRequest := MkSearchRequest base ScopeSubtree filter attrs.
