(* ===== verification/Dn.v ===== *)
(** * Distinguished names and organizational units

    [crates/ldap/src/dn.rs] and [LdapInfo::new] of [crates/ldap/src/core/utils.rs]:
    parsing a DN into its (attribute, value) pairs, the internal form of an OU
    chain, the decision whether a DN names a user or a group, and the
    construction of user and group DNs. *)

From S2P Require Import Prelude Strings Types Proto.


Definition DEFAULT_PRIMARY_USER_OU : string := "people".
Definition DEFAULT_PRIMARY_GROUP_OU : string := "groups".

Abbreviation rdn := (string * string)%type (only parsing).

(** ** OU chains *)

Definition is_ou_rdn (p : rdn) : bool := eq_ignore_ascii_case (fst p) "ou".

Definition ldap_rdn_chain_to_internal_ou (rdn_chain : list rdn) : string :=
  let ous := rev (map snd (List.filter is_ou_rdn rdn_chain)) in
  match ous with
  | [] => ""
  | _ => join "\" ous
  end.

Definition get_internal_ou_from_dn_parts (dn_parts : list rdn) : string :=
  ldap_rdn_chain_to_internal_ou (List.filter is_ou_rdn dn_parts).

Definition get_direct_child_ous (parent_internal_ou : string) (allowed_ous : list string)
  : list string :=
  let parent_l := to_ascii_lowercase parent_internal_ou in
  List.filter (fun ou =>
    let ou_l := to_ascii_lowercase ou in
    if String.eqb parent_l "" then negb (contains_char "\" ou_l)
    else if starts_with (parent_l +:+ "\") ou_l then
      negb (contains_char "\" (drop_bytes (String.length parent_l + 1) ou_l))
    else false) allowed_ous.

Definition internal_ou_to_ldap_rdn_chain (ou : string) : list rdn :=
  if String.eqb (trim ou) "" then []
  else
    List.map (fun part => ("ou", part))
      (List.filter (fun part => negb (String.eqb part ""))
        (map trim (rev (split_on "\" ou)))).

Definition is_container_dn (dn_parts base_dn : list rdn) (allowed_ous : list string) : bool :=
  let ou_chain := List.filter is_ou_rdn dn_parts in
  let internal_ou := ldap_rdn_chain_to_internal_ou ou_chain in
  let is_allowed := existsb (fun allowed => eq_ignore_ascii_case allowed internal_ou) allowed_ous in
  is_allowed && (length dn_parts =? length base_dn + length ou_chain)%nat.

(** The comparison of one component in [is_subtree]. *)
Definition rdn_eqb (a b : rdn) : bool :=
  eq_ignore_ascii_case (fst a) (fst b) && eq_ignore_ascii_case (snd a) (snd b).

Definition is_subtree (subtree base_tree : list rdn) : bool :=
  match base_tree with
  | [] => true
  | _ =>
      if (length subtree <? length base_tree)%nat then false
      else
        let offset := (length subtree - length base_tree)%nat in
        forallb (fun '(a, b) => rdn_eqb a b) (zip (drop offset subtree) base_tree)
  end.

(** ** Parsing *)

Definition make_dn_pair (elems : list string) : LdapResult rdn :=
  map_err (MkLdapError InvalidDNSyntax)
    match elems with
    | [] => Err "Empty DN element"
    | [_] => Err "Missing DN value"
    | [k; v] => Ok (k, v)
    | k :: v :: e :: _ =>
        Err ("Too many elements in distinguished name: " +:+ quoted k +:+ ", " +:+ quoted v +:+
             ", " +:+ quoted e)
    end.

Definition parse_distinguished_name (dn : string) : LdapResult (list rdn) :=
  let lower_dn := to_ascii_lowercase dn in
  collect (map (fun s => make_dn_pair (map trim (split_on "=" s))) (split_on "," lower_dn)).

(** ** What a DN names *)

Inductive UserOrGroupName : Type :=
| NUser (id : UserId)
| NGroup (name : GroupName)
| BadSubStree
| UnexpectedFormat
| InvalidSyntax (e : LdapError).

Definition into_ldap_error (n : UserOrGroupName) (input expected_format : string) : LdapError :=
  match n with
  | BadSubStree => MkLdapError InvalidDNSyntax "Not a subtree of the base tree"
  | InvalidSyntax err => err
  | UnexpectedFormat | NUser _ | NGroup _ =>
      MkLdapError InvalidDNSyntax
        ("Unexpected DN format. Got " +:+ quoted input +:+ ", expected: " +:+ expected_format)
  end.

Definition get_user_or_group_id_from_distinguished_name (dn : string) (base_tree : list rdn)
  : UserOrGroupName :=
  match parse_distinguished_name dn with
  | Err e => InvalidSyntax e
  | Ok parts =>
      if negb (is_subtree parts base_tree) then BadSubStree
      else
        let ou_chain := List.filter is_ou_rdn parts in
        let primary_ou := from_option (fun p => to_ascii_lowercase (snd p)) "" (last ou_chain) in
        match parts with
        | (k, v) :: _ =>
            if (length parts =? length base_tree + length ou_chain + 1)%nat then
              let rdn_type := to_ascii_lowercase k in
              let is_user_ou :=
                String.eqb primary_ou DEFAULT_PRIMARY_USER_OU || String.eqb primary_ou "" in
              if String.eqb rdn_type "uid" || (String.eqb rdn_type "cn" && is_user_ou) then
                NUser (UserId_new v)
              else if String.eqb rdn_type "cn" && negb is_user_ou then NGroup (MkGroupName v)
              else UnexpectedFormat
            else UnexpectedFormat
        | [] => UnexpectedFormat
        end
  end.

Definition get_user_id_from_distinguished_name (dn : string) (base_tree : list rdn)
    (base_dn_str : string) : LdapResult UserId :=
  match get_user_or_group_id_from_distinguished_name dn base_tree with
  | NUser user_id => Ok user_id
  | err => Err (into_ldap_error err dn (quoted ("uid=id,ou=...," +:+ base_dn_str)))
  end.

Definition get_group_id_from_distinguished_name (dn : string) (base_tree : list rdn)
    (base_dn_str : string) : LdapResult GroupName :=
  match get_user_or_group_id_from_distinguished_name dn base_tree with
  | NGroup group_name => Ok group_name
  | err => Err (into_ldap_error err dn (quoted ("cn=id,ou=any-allowed-ou,..." +:+ base_dn_str)))
  end.

Definition looks_like_distinguished_name (dn : string) : bool :=
  contains_char "=" dn || contains_char "," dn.

Definition get_user_id_from_distinguished_name_or_plain_name (dn : string) (base_tree : list rdn)
    (base_dn_str : string) : LdapResult UserId :=
  if negb (looks_like_distinguished_name dn) then Ok (UserId_new dn)
  else get_user_id_from_distinguished_name dn base_tree base_dn_str.

Definition get_group_id_from_distinguished_name_or_plain_name (dn : string) (base_tree : list rdn)
    (base_dn_str : string) : LdapResult GroupName :=
  if negb (looks_like_distinguished_name dn) then Ok (MkGroupName dn)
  else get_group_id_from_distinguished_name dn base_tree base_dn_str.

(** ** Building DNs *)

Definition format_rdn (p : rdn) : string := fst p +:+ ("=" +:+ snd p).

Definition build_user_dn (user_id : UserId) (internal_ou base_dn_str : string) : string :=
  let ou_part := join "," (map format_rdn (internal_ou_to_ldap_rdn_chain internal_ou)) in
  if String.eqb ou_part "" then "uid=" +:+ user_id_str user_id +:+ "," +:+ base_dn_str
  else "uid=" +:+ user_id_str user_id +:+ "," +:+ (ou_part +:+ "," +:+ base_dn_str).

Definition build_group_dn (group_name : GroupName) (internal_ou base_dn_str : string) : string :=
  let ou_part := join "," (map format_rdn (internal_ou_to_ldap_rdn_chain internal_ou)) in
  if String.eqb ou_part "" then "cn=" +:+ group_name_str group_name +:+ "," +:+ base_dn_str
  else "cn=" +:+ group_name_str group_name +:+ "," +:+ (ou_part +:+ "," +:+ base_dn_str).

(** ** [LdapInfo] *)

Record LdapInfo := MkLdapInfo {
  base_dn : list rdn;
  base_dn_str : string;
  ignored_user_attributes : list AttributeName;
  ignored_group_attributes : list AttributeName
}.

Definition LdapInfo_new (dn : string) (iu ig : list AttributeName) : LdapResult LdapInfo :=
  let? b := parse_distinguished_name (to_ascii_lowercase dn) in
  Ok (MkLdapInfo b (join "," (map format_rdn b)) iu ig).

Example parse_ex :
  parse_distinguished_name "uid=Bob, ou=people,dc=Example,dc=com" =
  Ok [("uid", "bob"); ("ou", "people"); ("dc", "example"); ("dc", "com")].
Proof. vm_compute. done. Qed.

Example id_ex :
  get_user_or_group_id_from_distinguished_name "cn=admins,ou=groups,dc=example,dc=com"
    [("dc", "example"); ("dc", "com")] = NGroup (MkGroupName "admins").
Proof. vm_compute. done. Qed.

(** ** Subtrees *)

Lemma rdn_eqb_iff a b :
  rdn_eqb a b = true <->
  to_ascii_lowercase (fst a) = to_ascii_lowercase (fst b) /\
  to_ascii_lowercase (snd a) = to_ascii_lowercase (snd b).
Proof. unfold rdn_eqb. by rewrite andb_true_iff, !eq_ignore_iff. Qed.

Lemma rdn_eqb_refl a : rdn_eqb a a = true.
Proof. by apply rdn_eqb_iff. Qed.

Lemma rdn_eqb_trans a b c : rdn_eqb a b = true -> rdn_eqb b c = true -> rdn_eqb a c = true.
Proof. rewrite !rdn_eqb_iff. intros [-> ->] [-> ->]. done. Qed.

#[export] Hint Resolve rdn_eqb_refl rdn_eqb_trans : klldap.

Lemma forallb_zip_Forall2 {A B} (p : A -> B -> bool) l k :
  length l = length k ->
  forallb (fun '(a, b) => p a b) (zip l k) = true <-> Forall2 (fun a b => p a b = true) l k.
Proof.
  revert k; induction l as [|x l IH]; intros [|y k] Hl; simpl in *; try lia.
  - split; [constructor | done].
  - rewrite andb_true_iff, IH by lia. split; [intros [??]; by constructor | by inversion 1].
Qed.

(** [is_subtree] holds exactly when the base is, component-wise and without case, a
    suffix of the DN. *)
Lemma is_subtree_suffix s b :
  is_subtree s b = true <->
  exists pre suf, s = pre ++ suf /\ Forall2 (fun x y => rdn_eqb x y = true) suf b.
Proof.
  unfold is_subtree. destruct b as [|x b].
  { split; [intros _; exists s, []; by rewrite app_nil_r | done]. }
  set (base := x :: b). destruct (length s <? length base)%nat eqn:E.
  - apply Nat.ltb_lt in E. split; [done|]. intros (pre & suf & -> & HF).
    apply Forall2_length in HF. rewrite length_app in E. lia.
  - apply Nat.ltb_ge in E. rewrite forallb_zip_Forall2.
    2: { rewrite length_drop. lia. }
    split.
    + intros HF. eexists (take (length s - length base) s), _. by rewrite take_drop.
    + intros (pre & suf & -> & HF). pose proof (Forall2_length _ _ _ HF) as Hl.
      rewrite length_app. replace (length pre + length suf - length base)%nat with (length pre) by lia.
      by rewrite drop_app_length.
Qed.

Lemma is_subtree_refl s : is_subtree s s = true.
Proof.
  apply is_subtree_suffix. exists [], s. split; [done|].
  induction s; [constructor|]. constructor; auto with klldap.
Qed.

Lemma is_subtree_trans a b c :
  is_subtree a b = true -> is_subtree b c = true -> is_subtree a c = true.
Proof.
  rewrite !is_subtree_suffix. intros (p1 & s1 & -> & H1) (p2 & s2 & -> & H2).
  apply Forall2_app_inv_r in H1 as (q & t & Hq & Ht & ->).
  exists (p1 ++ q), t. split; [by rewrite app_assoc|].
  clear Hq. revert s2 H2 Ht. induction c as [|z c IH] in t |- *; intros s2 H2 Ht.
  - inversion H2; subst. inversion Ht. constructor.
  - inversion H2; subst. inversion Ht; subst. constructor; [by eauto with klldap|]. by eapply IH.
Qed.

Lemma is_subtree_app pre base : is_subtree (pre ++ base) base = true.
Proof.
  apply is_subtree_suffix. exists pre, base. split; [done|].
  induction base; [constructor|]. constructor; auto with klldap.
Qed.

(** ** Parsing and printing *)

(** What a component of a parsed DN looks like: trimmed, lowercase, free of the
    separators. *)
Definition wf_component (s : string) : bool :=
  String.eqb (trim s) s && is_lower s && negb (contains_char "," s) && negb (contains_char "=" s).

Definition wf_rdn (p : rdn) : bool := wf_component (fst p) && wf_component (snd p).

Definition print_dn (parts : list rdn) : string := join "," (map format_rdn parts).

Lemma split_format_rdn k v :
  contains_char "=" k = false -> contains_char "=" v = false ->
  split_on "=" (format_rdn (k, v)) = [k; v].
Proof.
  intros Hk Hv. unfold format_rdn. simpl. change ("=" +:+ v) with (String "=" v).
  by rewrite split_on_app, split_on_no_sep.
Qed.

Lemma wf_component_facts s :
  wf_component s = true ->
  trim s = s /\ is_lower s = true /\ contains_char "," s = false /\ contains_char "=" s = false.
Proof. unfold wf_component. intros. bool_to_prop. done. Qed.

Lemma format_rdn_no_comma p : wf_rdn p = true -> contains_char "," (format_rdn p) = false.
Proof.
  unfold wf_rdn. intros [Hk%wf_component_facts Hv%wf_component_facts]%andb_prop.
  unfold format_rdn. rewrite contains_app. change ("=" +:+ snd p) with (String "=" (snd p)).
  cbn [contains_char]. destruct_and!.
  by repeat match goal with H : contains_char "," _ = false |- _ => rewrite H; clear H end.
Qed.

Lemma format_rdn_lower p : wf_rdn p = true -> is_lower (format_rdn p) = true.
Proof.
  unfold wf_rdn. intros [Hk%wf_component_facts Hv%wf_component_facts]%andb_prop.
  unfold format_rdn. rewrite !is_lower_app. destruct_and!.
  by repeat match goal with H : is_lower _ = true |- _ => rewrite H; clear H end.
Qed.

Lemma is_lower_join c l :
  lower_byte c = c -> Forall (fun w => is_lower w = true) l ->
  is_lower (join (String c "") l) = true.
Proof.
  intros Hc Hl. induction Hl as [|w ws Hw Hws IH]; [done|].
  destruct ws as [|w' ws]; [done|].
  change (join _ (w :: w' :: ws)) with (w +:+ (String c "" +:+ join (String c "") (w' :: ws))).
  rewrite !is_lower_app, Hw, IH. unfold is_lower. simpl. rewrite Hc.
  by rewrite Ascii.eqb_refl.
Qed.

Lemma parse_print parts :
  parts <> [] -> Forall (fun p => wf_rdn p = true) parts ->
  parse_distinguished_name (print_dn parts) = Ok parts.
Proof.
  intros Hne Hwf. unfold parse_distinguished_name, print_dn.
  assert (is_lower (join "," (map format_rdn parts)) = true) as Hlow.
  { apply is_lower_join; [done|]. apply Forall_fmap. eapply Forall_impl; [exact Hwf|].
    intros p Hp. by apply format_rdn_lower. }
  rewrite is_lower_eq by done. rewrite split_join.
  - apply collect_map_Ok. clear Hne Hlow. induction Hwf as [|[k v] ps Hp Hps IH]; [constructor|].
    constructor; [|done]. unfold wf_rdn in Hp. simpl in Hp.
    apply andb_prop in Hp as [Hk%wf_component_facts Hv%wf_component_facts]. destruct_and!.
    rewrite split_format_rdn by done. cbn [map].
    by repeat match goal with H : trim _ = _ |- _ => rewrite H; clear H end.
  - by destruct parts.
  - apply Forall_fmap. eapply Forall_impl; [exact Hwf|]. intros p Hp. by apply format_rdn_no_comma.
Qed.

Lemma make_dn_pair_Ok l p : make_dn_pair l = Ok p -> l = [fst p; snd p].
Proof. unfold make_dn_pair. destruct l as [|k [|v [|e l]]]; simpl; try done. by intros [= <-]. Qed.

Lemma parse_wf dn parts :
  parse_distinguished_name dn = Ok parts ->
  parts <> [] /\ Forall (fun p => wf_rdn p = true) parts.
Proof.
  unfold parse_distinguished_name. rewrite collect_map_Ok. intros HF. split.
  { intros ->. inversion HF as [Hn|]. symmetry in Hn. by apply split_on_not_nil in Hn. }
  pose proof (split_on_pieces "," (to_ascii_lowercase dn)) as Hc.
  pose proof (is_lower_split "," _ (is_lower_lower dn)) as Hl.
  induction HF as [|s p ss ps Hp HF IH]; [constructor|].
  inversion Hc as [|? ? Hcs Hcss]; subst. inversion Hl as [|? ? Hls Hlss]; subst.
  constructor; [|auto]. apply make_dn_pair_Ok in Hp.
  assert (Forall (fun w => wf_component w = true) (map trim (split_on "=" s))) as Hall.
  { apply Forall_fmap, Forall_forall. intros w Hw. unfold wf_component, compose.
    rewrite trim_idemp, String.eqb_refl. simpl.
    pose proof (is_lower_split "=" s Hls) as Hl'. rewrite Forall_forall in Hl'.
    pose proof (split_on_pieces "=" s) as He. rewrite Forall_forall in He.
    pose proof (split_on_other "," "=" s w Hcs Hw) as Hcw.
    by rewrite is_lower_trim, (contains_trim "="), (contains_trim ",") by auto. }
  rewrite Hp in Hall. unfold wf_rdn. inversion Hall as [|? ? Hk Hr]; subst.
  inversion Hr; subst. by rewrite Hk.
Qed.

(** ** OU chains: internal form and RDN form *)

(** A segment of an internal OU: a non-empty component without the separator. *)
Definition wf_segment (s : string) : bool :=
  negb (String.eqb s "") && wf_component s && negb (contains_char "\" s).

(** An internal OU string: empty, or well-formed segments separated by
    backslashes. *)
Definition wf_ou (ou : string) : bool :=
  String.eqb ou "" ||
  (negb (String.eqb (trim ou) "") && forallb wf_segment (split_on "\" ou)).

Lemma wf_segment_facts s :
  wf_segment s = true -> s <> "" /\ wf_component s = true /\ contains_char "\" s = false.
Proof. unfold wf_segment. intros. bool_to_prop. done. Qed.

Lemma chain_of_segments ou :
  wf_ou ou = true -> ou <> "" ->
  internal_ou_to_ldap_rdn_chain ou = map (pair "ou") (rev (split_on "\" ou)).
Proof.
  unfold wf_ou. intros [?%String.eqb_eq|Hou]%orb_true_iff Hne; [done|].
  apply andb_prop in Hou as [Ht%negb_true_iff Hs].
  unfold internal_ou_to_ldap_rdn_chain. rewrite Ht. f_equal.
  assert (Forall (fun s => wf_segment s = true) (rev (split_on "\" ou))) as HF.
  { apply Forall_rev. by apply forallb_Forall. }
  induction HF as [|s ss Hs' HF IH]; [done|].
  apply wf_segment_facts in Hs' as (Hn & Hw & _). apply wf_component_facts in Hw as (Htr & _).
  cbn [map List.filter]. rewrite Htr, (proj2 (String.eqb_neq s "")) by done. simpl. by f_equal.
Qed.

Lemma chain_empty : internal_ou_to_ldap_rdn_chain "" = [].
Proof. done. Qed.

Lemma filter_ou_pairs l : List.filter is_ou_rdn (map (pair "ou") l) = map (pair "ou") l.
Proof. induction l; simpl; [done|]. by f_equal. Qed.

Lemma ou_chain_roundtrip ou :
  wf_ou ou = true -> ldap_rdn_chain_to_internal_ou (internal_ou_to_ldap_rdn_chain ou) = ou.
Proof.
  intros Hwf. destruct (decide (ou = "")) as [->|Hne]; [done|].
  rewrite chain_of_segments by done. unfold ldap_rdn_chain_to_internal_ou.
  rewrite filter_ou_pairs, map_map. cbn [snd]. rewrite map_id, rev_involutive.
  pose proof (join_split "\" ou) as Hj. pose proof (split_on_not_nil "\" ou) as Hn.
  destruct (split_on "\" ou); [done|]. exact Hj.
Qed.

Lemma chain_wf ou :
  wf_ou ou = true -> Forall (fun p => wf_rdn p = true) (internal_ou_to_ldap_rdn_chain ou).
Proof.
  intros Hwf. destruct (decide (ou = "")) as [->|Hne]; [constructor|].
  rewrite chain_of_segments by done. apply Forall_fmap, Forall_rev.
  unfold wf_ou in Hwf. apply orb_true_iff in Hwf as [?%String.eqb_eq|Hwf]; [done|].
  apply andb_prop in Hwf as [_ Hs]. apply forallb_Forall in Hs.
  eapply Forall_impl; [exact Hs|]. intros s Hs'. unfold compose, wf_rdn. simpl.
  by apply wf_segment_facts in Hs' as (_ & -> & _).
Qed.

Lemma chain_all_ou ou : Forall (fun p => is_ou_rdn p = true) (internal_ou_to_ldap_rdn_chain ou).
Proof.
  unfold internal_ou_to_ldap_rdn_chain. case_match; [constructor|].
  apply Forall_fmap, Forall_forall. done.
Qed.

(** ** User and group DNs *)

Definition no_ou (parts : list rdn) : bool := forallb (fun p => negb (is_ou_rdn p)) parts.

Lemma join_cons sep w ws : ws <> [] -> join sep (w :: ws) = w +:+ (sep +:+ join sep ws).
Proof. by destruct ws. Qed.

Lemma join_app sep l1 l2 :
  l1 <> [] -> l2 <> [] -> join sep (l1 ++ l2) = join sep l1 +:+ (sep +:+ join sep l2).
Proof.
  intros H1 H2. induction l1 as [|w ws IH]; [done|].
  destruct ws as [|w' ws].
  { change ([w] ++ l2) with (w :: l2). by rewrite join_cons. }
  rewrite <- app_comm_cons, !join_cons, IH by done. by rewrite !app_assoc_str.
Qed.

Lemma format_rdn_nonempty p : format_rdn p <> "".
Proof. unfold format_rdn. by destruct (fst p). Qed.

Lemma print_dn_nonempty parts : parts <> [] -> print_dn parts <> "".
Proof.
  destruct parts as [|p ps]; [done|]. intros _. unfold print_dn.
  pose proof (format_rdn_nonempty p). destruct ps; [done|]. rewrite fmap_cons, join_cons by done.
  by destruct (format_rdn p).
Qed.

(** The DN of an entry [k=v] in the OU [ou] under [base], as its parts. *)
Definition entry_parts (k v ou : string) (base : list rdn) : list rdn :=
  (k, v) :: internal_ou_to_ldap_rdn_chain ou ++ base.

Lemma build_dn_parts k v ou base :
  base <> [] ->
  let ou_part := join "," (map format_rdn (internal_ou_to_ldap_rdn_chain ou)) in
  (if String.eqb ou_part "" then k +:+ ("=" +:+ (v +:+ ("," +:+ print_dn base)))
   else k +:+ ("=" +:+ (v +:+ ("," +:+ (ou_part +:+ ("," +:+ print_dn base)))))) =
  print_dn (entry_parts k v ou base).
Proof.
  intros Hb ou_part. unfold entry_parts, print_dn at 3. rewrite fmap_cons.
  rewrite join_cons by (intros Hn%(f_equal length); rewrite length_fmap, length_app in Hn;
    destruct base; simpl in Hn; [done|lia]).
  destruct (internal_ou_to_ldap_rdn_chain ou) as [|c cs] eqn:E.
  - subst ou_part. change (format_rdn (k, v)) with (k +:+ ("=" +:+ v)).
    by rewrite !app_assoc_str.
  - pose proof (print_dn_nonempty (c :: cs) ltac:(done)) as Hn.
    assert (ou_part = print_dn (c :: cs)) as -> by done.
    rewrite (proj2 (String.eqb_neq _ _)) by done.
    rewrite fmap_app, join_app by (by destruct base).
    change (format_rdn (k, v)) with (k +:+ ("=" +:+ v)). by rewrite !app_assoc_str.
Qed.

Lemma build_user_dn_print u ou base :
  base <> [] ->
  build_user_dn u ou (print_dn base) = print_dn (entry_parts "uid" (user_id_str u) ou base).
Proof. intros Hb. rewrite <- (build_dn_parts "uid" _ ou base Hb). done. Qed.

Lemma build_group_dn_print g ou base :
  base <> [] ->
  build_group_dn g ou (print_dn base) = print_dn (entry_parts "cn" (group_name_str g) ou base).
Proof. intros Hb. rewrite <- (build_dn_parts "cn" _ ou base Hb). done. Qed.

(** A base DN as [LdapInfo::new] makes it: non-empty, well-formed parts. *)
Definition wf_base (base : list rdn) : bool :=
  negb (length base =? 0)%nat && forallb wf_rdn base.

Lemma wf_base_facts base :
  wf_base base = true -> base <> [] /\ Forall (fun p => wf_rdn p = true) base.
Proof.
  unfold wf_base. rewrite <- forallb_Forall. intros [Hn Hf]%andb_prop. split; [|done].
  by intros ->.
Qed.

Lemma parse_entry k v ou base :
  wf_rdn (k, v) = true -> wf_ou ou = true -> wf_base base = true ->
  parse_distinguished_name (print_dn (entry_parts k v ou base)) = Ok (entry_parts k v ou base).
Proof.
  intros Hkv Hou [_ Hb]%wf_base_facts. apply parse_print; [done|].
  constructor; [done|]. apply Forall_app. split; [by apply chain_wf|done].
Qed.

Lemma filter_ou_all l : Forall (fun p => is_ou_rdn p = true) l -> List.filter is_ou_rdn l = l.
Proof. induction 1 as [|x l Hx _ IH]; simpl; [done|]. by rewrite Hx, IH. Qed.

Lemma filter_ou_none l : no_ou l = true -> List.filter is_ou_rdn l = [].
Proof.
  unfold no_ou. induction l as [|x l IH]; simpl; [done|].
  intros [Hx%negb_true_iff Hl]%andb_prop. by rewrite Hx, IH.
Qed.

Lemma filter_entry_parts k v ou base :
  is_ou_rdn (k, v) = false ->
  List.filter is_ou_rdn (entry_parts k v ou base) =
  internal_ou_to_ldap_rdn_chain ou ++ List.filter is_ou_rdn base.
Proof.
  intros Hk. unfold entry_parts. cbn [List.filter]. rewrite Hk, List.filter_app.
  by rewrite filter_ou_all by apply chain_all_ou.
Qed.

(** The top-level OU of an internal OU string: its first segment. *)
Definition top_ou (ou : string) : string := hd "" (split_on "\" ou).

Lemma last_chain ou :
  wf_ou ou = true -> ou <> "" ->
  last (internal_ou_to_ldap_rdn_chain ou) = Some ("ou", top_ou ou).
Proof.
  intros Hwf Hne. rewrite chain_of_segments by done. unfold top_ou.
  pose proof (split_on_not_nil "\" ou). destruct (split_on "\" ou) as [|s ss]; [done|].
  cbn [rev hd]. rewrite map_app. cbn [map]. by rewrite last_snoc.
Qed.

Lemma top_ou_lower ou : wf_ou ou = true -> to_ascii_lowercase (top_ou ou) = top_ou ou.
Proof.
  intros Hwf. unfold top_ou. unfold wf_ou in Hwf.
  apply orb_true_iff in Hwf as [->%String.eqb_eq|Hwf]; [done|].
  apply andb_prop in Hwf as [_ Hs]. destruct (split_on "\" ou) as [|s ss]; [done|].
  simpl in *. apply andb_prop in Hs as [(_ & (_ & Hl & _)%wf_component_facts & _)%wf_segment_facts _].
  by apply is_lower_eq.
Qed.

(** Classifying the DN of an entry under a base without [ou] components. *)
Lemma classify_entry k v ou base :
  wf_rdn (k, v) = true -> wf_ou ou = true -> wf_base base = true -> no_ou base = true ->
  is_ou_rdn (k, v) = false ->
  get_user_or_group_id_from_distinguished_name (print_dn (entry_parts k v ou base)) base =
  let is_user_ou := String.eqb (top_ou ou) "people" || String.eqb (top_ou ou) "" in
  if String.eqb k "uid" || (String.eqb k "cn" && is_user_ou) then NUser (UserId_new v)
  else if String.eqb k "cn" && negb is_user_ou then NGroup (MkGroupName v)
  else UnexpectedFormat.
Proof.
  intros Hkv Hou Hb Hno Hk. unfold get_user_or_group_id_from_distinguished_name.
  rewrite parse_entry by done. change (entry_parts k v ou base) with
    (((k, v) :: internal_ou_to_ldap_rdn_chain ou) ++ base) at 1.
  rewrite is_subtree_app. cbn [negb].
  rewrite filter_entry_parts, filter_ou_none, app_nil_r by done.
  assert (from_option (fun p => to_ascii_lowercase (snd p)) ""
    (last (internal_ou_to_ldap_rdn_chain ou)) = top_ou ou) as ->.
  { destruct (decide (ou = "")) as [->|Hne]; [done|].
    rewrite last_chain by done. by apply top_ou_lower. }
  unfold entry_parts at 1. cbv beta iota.
  rewrite (proj2 (Nat.eqb_eq _ _))
    by (unfold entry_parts; simpl; rewrite length_app; lia).
  unfold wf_rdn in Hkv. simpl in Hkv. apply andb_prop in Hkv as [(_ & Hl & _)%wf_component_facts _].
  by rewrite (is_lower_eq k).
Qed.

Lemma LdapInfo_new_wf dn iu ig info :
  LdapInfo_new dn iu ig = Ok info ->
  wf_base (base_dn info) = true /\ base_dn_str info = print_dn (base_dn info).
Proof.
  unfold LdapInfo_new. intros (b & [Hne Hwf]%parse_wf & [= <-])%result_bind_Ok.
  split; [|done]. simpl. unfold wf_base. apply forallb_Forall in Hwf. rewrite Hwf.
  by destruct b.
Qed.

Lemma print_dn_lower parts :
  Forall (fun p => wf_rdn p = true) parts -> to_ascii_lowercase (print_dn parts) = print_dn parts.
Proof.
  intros Hwf. apply is_lower_eq, is_lower_join; [done|]. apply Forall_fmap.
  eapply Forall_impl; [exact Hwf|]. intros p Hp. by apply format_rdn_lower.
Qed.

Lemma entry_dn_lower k v ou base :
  wf_rdn (k, v) = true -> wf_ou ou = true -> wf_base base = true ->
  to_ascii_lowercase (print_dn (entry_parts k v ou base)) = print_dn (entry_parts k v ou base).
Proof.
  intros Hkv Hou [_ Hb]%wf_base_facts. apply print_dn_lower. constructor; [done|].
  apply Forall_app. split; [by apply chain_wf|done].
Qed.

Lemma entry_dn_looks_like_dn k v ou base :
  base <> [] -> looks_like_distinguished_name (print_dn (entry_parts k v ou base)) = true.
Proof.
  intros Hb. unfold looks_like_distinguished_name, print_dn, entry_parts. rewrite fmap_cons.
  assert (contains_char "=" (format_rdn (k, v)) = true) as He.
  { unfold format_rdn. rewrite !contains_app. simpl. by rewrite orb_true_r. }
  rewrite join_cons by (intros Hn%(f_equal length); rewrite length_fmap, length_app in Hn;
    destruct base; simpl in Hn; [done|lia]).
  by rewrite contains_app, He.
Qed.

Lemma UserId_new_wf u : wf_component (user_id_str u) = true -> UserId_new (user_id_str u) = u.
Proof.
  destruct u as [s]. intros (_ & Hl & _)%wf_component_facts.
  unfold UserId_new, CaseInsensitiveString_new. f_equal. by apply is_lower_eq.
Qed.

(** The DN of a user is read back as the user. *)
Lemma user_dn_read_back u ou base :
  wf_component (user_id_str u) = true -> wf_ou ou = true ->
  wf_base base = true -> no_ou base = true ->
  get_user_or_group_id_from_distinguished_name (build_user_dn u ou (print_dn base)) base = NUser u.
Proof.
  intros Hu Hou Hb Hno. pose proof (wf_base_facts base Hb) as [Hne _].
  assert (wf_rdn ("uid", user_id_str u) = true) as Hr by (unfold wf_rdn; simpl; by rewrite Hu).
  rewrite build_user_dn_print, classify_entry by done. cbn -[String.eqb].
  rewrite String.eqb_refl. simpl. by rewrite UserId_new_wf.
Qed.

Lemma group_dn_read_back g ou base :
  wf_component (group_name_str g) = true -> wf_ou ou = true ->
  wf_base base = true -> no_ou base = true ->
  get_user_or_group_id_from_distinguished_name (build_group_dn g ou (print_dn base)) base =
  if String.eqb (top_ou ou) "people" || String.eqb (top_ou ou) ""
  then NUser (UserId_new (group_name_str g)) else NGroup g.
Proof.
  intros Hg Hou Hb Hno. pose proof (wf_base_facts base Hb) as [Hne _].
  assert (wf_rdn ("cn", group_name_str g) = true) as Hr by (unfold wf_rdn; simpl; by rewrite Hg).
  rewrite build_group_dn_print, classify_entry by done. cbn -[String.eqb top_ou].
  change (String.eqb "cn" "uid") with false. change (String.eqb "cn" "cn") with true.
  destruct g. simpl. by destruct (_ || _).
Qed.

(** ** Properties *)

(** Parsing a DN yields trimmed, lowercase components free of separators, and
    printing them and parsing again gives the same parts: the parsed form is a
    normal form. *)
Theorem dn_parse_normal_form dn parts :
  parse_distinguished_name dn = Ok parts ->
  Forall (fun p => wf_rdn p = true) parts /\
  parse_distinguished_name (print_dn parts) = Ok parts.
Proof. intros [Hne Hwf]%parse_wf. split; [done|]. by apply parse_print. Qed.

Lemma dn_parse_normal_form_witness :
  parse_distinguished_name "UID=Bob , OU=People,dc=Example" =
    Ok [("uid", "bob"); ("ou", "people"); ("dc", "example")] /\
  parse_distinguished_name "uid=bob,ou=people,dc=example" =
    Ok [("uid", "bob"); ("ou", "people"); ("dc", "example")].
Proof.
  split; [vm_compute; reflexivity|].
  exact (proj2 (dn_parse_normal_form "UID=Bob , OU=People,dc=Example" _ eq_refl)).
Defined.

(** C21: the DN [build_user_dn] builds for a user in an OU is read back as that user by
    [get_user_id_from_distinguished_name], and its OU part as that OU, provided the user id
    and the levels of the OU are well-formed DN components ([wf_component]: lower case,
    without surrounding white space, comma or equals sign; a level of the OU is not empty),
    and the base DN is well-formed and has no [ou] component.  Ids with a comma or an
    equals sign, which the server accepts, are not escaped: [unescaped_id_is_lost]. *)
Theorem user_dn_roundtrip u ou base :
  wf_component (user_id_str u) = true -> wf_ou ou = true ->
  wf_base base = true -> no_ou base = true ->
  let dn := build_user_dn u ou (print_dn base) in
  get_user_id_from_distinguished_name dn base (print_dn base) = Ok u /\
  map_ok get_internal_ou_from_dn_parts (parse_distinguished_name dn) = Ok ou.
Proof.
  intros Hu Hou Hb Hno dn. pose proof (wf_base_facts base Hb) as [Hne _]. split.
  - unfold get_user_id_from_distinguished_name. subst dn. by rewrite user_dn_read_back.
  - assert (wf_rdn ("uid", user_id_str u) = true) as Hr by (unfold wf_rdn; simpl; by rewrite Hu).
    subst dn. rewrite build_user_dn_print, parse_entry by done. simpl. f_equal.
    unfold get_internal_ou_from_dn_parts.
    rewrite filter_entry_parts, filter_ou_none, app_nil_r by done. by apply ou_chain_roundtrip.
Qed.

(** An id with a separator makes a DN that is not read back: it is no DN at all, or
    that of another user. *)
Example unescaped_id_is_lost :
  get_user_id_from_distinguished_name (build_user_dn (MkUserId "smith,john") "people" "dc=com")
    [("dc", "com")] "dc=com" <> Ok (MkUserId "smith,john") /\
  get_user_id_from_distinguished_name (build_user_dn (MkUserId "a=b") "people" "dc=com")
    [("dc", "com")] "dc=com" <> Ok (MkUserId "a=b") /\
  get_user_id_from_distinguished_name (build_user_dn (MkUserId "bob,ou=x") "people" "dc=com")
    [("dc", "com")] "dc=com" = Ok (MkUserId "bob").
Proof. vm_compute. by split_and!. Qed.

Lemma user_dn_roundtrip_witness :
  get_user_id_from_distinguished_name "uid=bob,ou=floor1,ou=office,dc=example,dc=com"
    [("dc", "example"); ("dc", "com")] "dc=example,dc=com" = Ok (MkUserId "bob").
Proof.
  exact (proj1 (user_dn_roundtrip (MkUserId "bob") "office\floor1" [("dc", "example"); ("dc", "com")]
    eq_refl eq_refl eq_refl eq_refl)).
Defined.

(** The DN [build_group_dn] builds for a group is read back as that group when
    the group's top-level OU is neither empty nor [people]; with [people] (or no
    OU) the same DN is read as a user. *)
Theorem group_dn_roundtrip g ou base :
  wf_component (group_name_str g) = true -> wf_ou ou = true ->
  wf_base base = true -> no_ou base = true ->
  get_user_or_group_id_from_distinguished_name (build_group_dn g ou (print_dn base)) base =
  if String.eqb (top_ou ou) "people" || String.eqb (top_ou ou) ""
  then NUser (UserId_new (group_name_str g)) else NGroup g.
Proof. apply group_dn_read_back. Qed.

Lemma group_dn_roundtrip_witness :
  get_user_or_group_id_from_distinguished_name "cn=admins,ou=groups,dc=example,dc=com"
    [("dc", "example"); ("dc", "com")] = NGroup (MkGroupName "admins").
Proof.
  exact (group_dn_roundtrip (MkGroupName "admins") "groups" [("dc", "example"); ("dc", "com")]
    eq_refl eq_refl eq_refl eq_refl).
Defined.

(** When the configured base DN itself has an [ou] component, the DN the server
    builds for a user is never recognised: the [ou] components of the base are
    counted twice, and every user DN is an unexpected format. *)
Theorem ou_in_base_rejects_users u ou base :
  wf_component (user_id_str u) = true -> wf_ou ou = true ->
  wf_base base = true -> no_ou base = false ->
  get_user_or_group_id_from_distinguished_name (build_user_dn u ou (print_dn base)) base =
  UnexpectedFormat.
Proof.
  intros Hu Hou Hb Hno. pose proof (wf_base_facts base Hb) as [Hne _].
  assert (wf_rdn ("uid", user_id_str u) = true) as Hr by (unfold wf_rdn; simpl; by rewrite Hu).
  rewrite build_user_dn_print by done. unfold get_user_or_group_id_from_distinguished_name.
  rewrite parse_entry by done. change (entry_parts ?k ?v ou base) with
    (((k, v) :: internal_ou_to_ldap_rdn_chain ou) ++ base) at 1.
  rewrite is_subtree_app. cbn [negb]. rewrite filter_entry_parts by done.
  unfold entry_parts at 1. cbv beta iota. rewrite (proj2 (Nat.eqb_neq _ _)); [done|].
  unfold entry_parts. simpl. rewrite !length_app.
  assert (List.filter is_ou_rdn base <> []) as Hf.
  { intros Hf. apply not_true_iff_false in Hno. apply Hno. unfold no_ou. clear -Hf.
    induction base as [|x base IH]; simpl in *; [done|].
    destruct (is_ou_rdn x); [done|]. simpl. auto. }
  destruct (List.filter is_ou_rdn base); [done|]. simpl. lia.
Qed.

Lemma ou_in_base_rejects_users_witness :
  get_user_or_group_id_from_distinguished_name "uid=bob,ou=people,ou=corp,dc=com"
    [("ou", "corp"); ("dc", "com")] = UnexpectedFormat.
Proof.
  exact (ou_in_base_rejects_users (MkUserId "bob") "people" [("ou", "corp"); ("dc", "com")]
    eq_refl eq_refl eq_refl eq_refl).
Defined.

(** [is_subtree] decides exactly "the base is a suffix of the DN, component by
    component and without case", and is reflexive and transitive. *)
Theorem is_subtree_spec a b c :
  (is_subtree a b = true <->
   exists pre suf, a = pre ++ suf /\ Forall2 (fun x y => rdn_eqb x y = true) suf b) /\
  is_subtree a a = true /\
  (is_subtree a b && is_subtree b c = true -> is_subtree a c = true).
Proof.
  split; [apply is_subtree_suffix|]. split; [apply is_subtree_refl|].
  intros [H1 H2]%andb_prop. by eapply is_subtree_trans.
Qed.

Lemma is_subtree_spec_witness :
  is_subtree [("uid", "bob"); ("ou", "people"); ("dc", "com")] [("DC", "com")] = true.
Proof.
  apply (proj2 (proj2 (is_subtree_spec _ [("ou", "people"); ("dc", "com")] _))).
  vm_compute. reflexivity.
Defined.

(** [get_direct_child_ous] returns, in order, exactly the allowed OUs one level
    below the parent: those that are the parent, a backslash and one more segment,
    without case (for the root: those without a backslash). *)
Theorem direct_child_ous_spec parent allowed ou :
  ou ∈ get_direct_child_ous parent allowed <->
  ou ∈ allowed /\
  exists seg, contains_char "\" seg = false /\
    to_ascii_lowercase ou =
    (if String.eqb parent "" then seg else to_ascii_lowercase parent +:+ ("\" +:+ seg)).
Proof.
  unfold get_direct_child_ous. rewrite list_elem_of_In, filter_In, <- list_elem_of_In.
  apply and_iff_compat_l.
  assert (String.eqb (to_ascii_lowercase parent) "" = String.eqb parent "") as -> by (by destruct parent).
  destruct (String.eqb parent "") eqn:E.
  - rewrite negb_true_iff. split; [by eexists | by intros (seg & ? & ->)].
  - destruct (starts_with _ _) eqn:Hs.
    + apply starts_with_iff in Hs as [t Ht]. rewrite Ht, negb_true_iff.
      assert (drop_bytes (String.length (to_ascii_lowercase parent) + 1)
        ((to_ascii_lowercase parent +:+ "\") +:+ t) = t) as ->.
      { clear. rewrite app_assoc_str. induction (to_ascii_lowercase parent); simpl; done. }
      rewrite app_assoc_str. split; [eauto|]. intros (seg & Hseg & Heq).
      apply (inj (String.append _)) in Heq. cbn in Heq. by simplify_eq.
    + split; [done|]. intros (seg & _ & Heq). exfalso. apply not_true_iff_false in Hs. apply Hs.
      apply starts_with_iff. exists seg. by rewrite Heq, app_assoc_str.
Qed.
