(* ===== verification/SchemaManager.v ===== *)
(** * The LDAP schema manager

    [crates/ldap/src/schema/definitions.rs] and [manager.rs] (name resolution,
    field mapping, expansion of the requested attribute list), and
    [get_preferred_ldap_name] of [crates/ldap/src/attributes.rs].

    The [HashMap] from lowercase names is a [gmap]; the [BTreeMap] of expanded
    attributes is a [gmap] whose iteration ([btree_iter]) is in key order.  The
    iteration order of a [HashSet] is unspecified in Rust: the expansion takes the
    order of [always_operational] as an argument, and [expand_order_irrelevant]
    shows that the result does not depend on it. *)

From S2P Require Import Prelude Strings Types Schema.


(** ** Definitions *)

Inductive LogicalAttr : Type :=
| LgObjectClass
| LgMemberOf
| LgDn
| LgEntryDn
| LgPrimary (c : UserColumn)
| LgCustom (internal : string) (t : AttributeType) (is_list : bool)
| LgOperational.

#[export] Instance LogicalAttr_eq_dec : EqDecision LogicalAttr.
Proof. solve_decision. Defined.

Record ExpandedAttributes := MkExpandedAttributes {
  attribute_keys : gmap AttributeName string;
  include_custom_attributes : bool;
  include_operational_attributes : bool
}.

Inductive UserFieldType : Type :=
| UfNoMatch
| UfObjectClass
| UfMemberOf
| UfDn
| UfEntryDn
| UfEntryUuid
| UfPrimaryField (c : UserColumn)
| UfAttribute (n : AttributeName) (t : AttributeType) (is_list : bool).

#[export] Instance UserFieldType_eq_dec : EqDecision UserFieldType.
Proof. solve_decision. Defined.

Inductive GroupFieldType : Type :=
| GfNoMatch
| GfGroupId
| GfDisplayName
| GfCreationDate
| GfModifiedDate
| GfObjectClass
| GfDn
| GfEntryDn
| GfEntryUuid
| GfUniqueMember
| GfMember
| GfMemberOf
| GfUuid
| GfAttribute (n : AttributeName) (t : AttributeType) (is_list : bool).

#[export] Instance GroupFieldType_eq_dec : EqDecision GroupFieldType.
Proof. solve_decision. Defined.

(** ** Preferred names *)

Definition str_mem (s : string) (l : list string) : bool := existsb (String.eqb s) l.

Definition STANDARD_LDAP_NAMES : list string :=
  ["cn"; "sn"; "givenname"; "uid"; "mail"; "ou"; "dc"; "o"; "c"; "l"; "st"; "title";
   "description"; "member"; "uniquemember"; "memberof"; "createtimestamp";
   "modifytimestamp"; "pwdchangedtime"; "entryuuid"; "hassubordinates";
   "structuralobjectclass"; "subschemasubentry"; "uidnumber"; "gidnumber";
   "homedirectory"; "loginshell"; "sshpublickey"; "krbprincipalname"; "jpegphoto";
   "avatar"; "loginDisabled"; "sudoHost"].

(** The first alias that is a standard LDAP name, else the name itself. *)
Definition get_preferred_ldap_name (attr : AttributeSchema) : string :=
  from_option id (as_name attr)
    (find (fun alias => str_mem (to_ascii_lowercase alias) STANDARD_LDAP_NAMES) (as_aliases attr)).

(** ** Construction *)

Abbreviation attribute_map := (gmap string (LogicalAttr * string)) (only parsing).

(** The closure [register]: the canonical name and every alias, lowercased, lead to
    the entry; a later registration replaces an earlier one. *)
Definition register (m : attribute_map) (logical : LogicalAttr) (canonical : string)
    (aliases : list string) : attribute_map :=
  let lower_canonical := to_ascii_lowercase canonical in
  fold_left (fun m alias =>
      let lower_alias := to_ascii_lowercase alias in
      if String.eqb lower_alias lower_canonical then m
      else <[lower_alias := (logical, canonical)]> m)
    aliases (<[lower_canonical := (logical, canonical)]> m).

Definition core_attrs : list (LogicalAttr * string * list string) :=
  [(LgObjectClass, "objectClass", []);
   (LgMemberOf, "memberOf", ["ismemberof"]);
   (LgDn, "dn", ["distinguishedname"]);
   (LgEntryDn, "entryDN", []);
   (LgOperational, "hasSubordinates", []);
   (LgOperational, "structuralObjectClass", []);
   (LgOperational, "subschemaSubentry", []);
   (LgOperational, "createTimestamp", ["creationdate"; "creation_date"; "creationtimestamp"]);
   (LgOperational, "modifyTimestamp", ["modifieddate"; "modified_date"; "modifydate"]);
   (LgOperational, "pwdChangedTime", ["passwordmodifieddate"; "password_modified_date"]);
   (LgOperational, "creatorsName", []);
   (LgOperational, "modifiersName", []);
   (LgOperational, "entryUUID", ["uuid"]);
   (LgOperational, "loginDisabled", ["loginDisabled"]);
   (LgOperational, "sudoHost", ["sudoHost"])].

Definition determine_logical_attr (attr : AttributeSchema) (preferred : string) : LogicalAttr :=
  let lower := to_ascii_lowercase preferred in
  if str_mem lower ["hassubordinates"; "structuralobjectclass"; "subschemasubentry";
                    "entryuuid"; "uuid"; "memberof"; "ismemberof"] then LgOperational
  else if str_mem lower ["uid"; "user_id"; "id"; "userid"] then LgPrimary ColUserId
  else if str_mem lower ["mail"; "email"] then LgPrimary ColEmail
  else if str_mem lower ["cn"; "displayname"; "display_name"] then LgPrimary ColDisplayName
  else if str_mem lower ["krbprincipalname"; "krb_principal_name"] then LgPrimary ColKrbPrincipalName
  else if str_mem lower ["createtimestamp"; "creationdate"; "creation_date"; "creationtimestamp"]
       then LgPrimary ColCreationDate
  else if str_mem lower ["modifytimestamp"; "modifieddate"; "modified_date"; "modifydate"]
       then LgPrimary ColModifiedDate
  else if str_mem lower ["pwdchangedtime"; "passwordmodifieddate"; "password_modified_date"]
       then LgPrimary ColPasswordModifiedDate
  else LgCustom (as_name attr) (as_attribute_type attr) (as_is_list attr).

Definition register_schema_attribute (m : attribute_map) (attr : AttributeSchema) : attribute_map :=
  let preferred := get_preferred_ldap_name attr in
  register m (determine_logical_attr attr preferred) preferred (as_aliases attr).

Record SchemaManager := MkSchemaManager { sm_attribute_map : attribute_map }.

Definition SchemaManager_new (schema : PublicSchema) : SchemaManager :=
  let m := fold_left (fun m '(logical, canonical, aliases) => register m logical canonical aliases)
             core_attrs ∅ in
  let m := fold_left register_schema_attribute (attributes (s_user_attributes schema)) m in
  MkSchemaManager
    (fold_left register_schema_attribute (attributes (s_group_attributes schema)) m).

Definition get_schema_manager : SchemaManager := SchemaManager_new PublicSchema_get.

(** The map is large: the tactics leave it folded. *)
#[global] Opaque get_schema_manager.

(** ** Resolution *)

Definition resolve_attribute (sm : SchemaManager) (name : string) : option (LogicalAttr * string) :=
  sm_attribute_map sm !! to_ascii_lowercase name.

Definition get_canonical_name (sm : SchemaManager) (name : string) : string :=
  from_option snd name (resolve_attribute sm name).

Definition is_operational (sm : SchemaManager) (name : string) : bool :=
  match resolve_attribute sm name with
  | Some (LgOperational, _) => true
  | _ => false
  end.

(** ** Field mapping *)

Definition is_entry_uuid (field : string) : bool :=
  eq_ignore_ascii_case field "entryuuid" || eq_ignore_ascii_case field "uuid".

Definition map_user_field (sm : SchemaManager) (field : AttributeName) (schema : PublicSchema)
  : UserFieldType :=
  let f := attribute_name_str field in
  match resolve_attribute sm f with
  | Some (logical, _) =>
      match logical with
      | LgObjectClass => UfObjectClass
      | LgMemberOf => UfMemberOf
      | LgDn => UfDn
      | LgEntryDn => UfEntryDn
      | LgPrimary col => UfPrimaryField col
      | LgCustom internal t is_list => UfAttribute (AttributeName_from internal) t is_list
      | LgOperational => if is_entry_uuid f then UfEntryUuid else UfNoMatch
      end
  | None =>
      match get_attribute_type (s_user_attributes schema) f with
      | Some (t, is_list) => UfAttribute field t is_list
      | None => UfNoMatch
      end
  end.

Definition map_group_field (sm : SchemaManager) (field : AttributeName) (schema : PublicSchema)
  : GroupFieldType :=
  let f := attribute_name_str field in
  match resolve_attribute sm f with
  | Some (logical, _) =>
      match logical with
      | LgObjectClass => GfObjectClass
      | LgMemberOf => GfMemberOf
      | LgDn => GfDn
      | LgEntryDn => GfEntryDn
      | LgPrimary col =>
          match col with
          | ColCreationDate => GfCreationDate
          | ColModifiedDate => GfModifiedDate
          | ColUuid => GfUuid
          | ColDisplayName => GfDisplayName
          | _ => GfNoMatch
          end
      | LgCustom internal t is_list => GfAttribute (AttributeName_from internal) t is_list
      | LgOperational => if is_entry_uuid f then GfEntryUuid else GfNoMatch
      end
  | None =>
      if eq_ignore_ascii_case f "member" then GfMember
      else if eq_ignore_ascii_case f "uniquemember" then GfUniqueMember
      else match get_attribute_type (s_group_attributes schema) f with
           | Some (t, is_list) => GfAttribute field t is_list
           | None => GfNoMatch
           end
  end.

(** ** Expansion of the requested attributes *)

Definition always_operational : list string :=
  ["hassubordinates"; "structuralobjectclass"; "subschemasubentry"; "createtimestamp";
   "modifytimestamp"; "pwdchangedtime"; "entryuuid"; "entrydn"; "memberof"; "creatorsname";
   "modifiersname"].

Definition ignore_on_plus : list string :=
  ["attributetypes"; "objectclasses"; "matchingrules"; "ldapsyntaxes"; "matchingruleuse";
   "creatorsname"; "modifiersname"; "namingcontexts"; "supportedcontrol"; "supportedextension";
   "supportedfeatures"; "supportedldapversion"; "supportedsaslmechanisms"; "vendorname";
   "vendorversion"; "altserver"; "ref"; "queryid"].

Definition contains_ignore_case (name : string) (keys : list string) : bool :=
  existsb (fun k => eq_ignore_ascii_case k name) keys.

Definition push_new (keys : list string) (name : string) : list string :=
  if contains_ignore_case name keys then keys else keys ++ [name].

(** [retain(|k| seen.insert(k.to_ascii_lowercase()))] *)
Fixpoint retain_first (seen : list string) (keys : list string) : list string :=
  match keys with
  | [] => []
  | k :: keys' =>
      if str_mem (to_ascii_lowercase k) seen then retain_first seen keys'
      else k :: retain_first (to_ascii_lowercase k :: seen) keys'
  end.

(** One turn of the loop over the schema's attributes: the preferred name goes to
    the standard or to the operational keys. *)
Definition classify_key (sm : SchemaManager) (keys : list string * list string)
    (attr : AttributeSchema) : list string * list string :=
  let '(standard, operational) := keys in
  let preferred_name := get_preferred_ldap_name attr in
  match resolve_attribute sm preferred_name with
  | Some (logical, _) =>
      if bool_decide (logical = LgOperational)
         || str_mem (to_ascii_lowercase preferred_name) always_operational
      then (standard, push_new operational preferred_name)
      else (push_new standard preferred_name, operational)
  | None => (push_new standard preferred_name, operational)
  end.

(** The standard and operational keys of a schema; [order] is the iteration order
    of the set [always_operational]. *)
Definition schema_keys (sm : SchemaManager) (schema : PublicSchema) (order : list string)
  : list string * list string :=
  let '(standard, operational) :=
    fold_left (classify_key sm)
      (attributes (s_user_attributes schema) ++ attributes (s_group_attributes schema)) ([], []) in
  let operational := fold_left push_new order operational in
  let standard :=
    List.filter (fun k => negb (str_mem (to_ascii_lowercase k) always_operational)) standard in
  let standard := push_new standard "objectClass" in
  (retain_first [] standard,
   List.filter (fun k => negb (str_mem k ignore_on_plus)) (retain_first [] operational)).

(** Names that are not attributes: wildcards and the schema-only names. *)
Definition is_requestable (s : string) : bool :=
  let lower := to_ascii_lowercase s in
  negb (String.eqb lower "*") && negb (String.eqb lower "+") && negb (String.eqb lower "1.1")
  && negb (str_mem lower ignore_on_plus).

Definition insert_key (m : gmap AttributeName string) (s : string) : gmap AttributeName string :=
  <[AttributeName_from s := s]> m.

Definition expand_attribute_wildcards (sm : SchemaManager) (order : list string)
    (ldap_attributes : list string) (schema : PublicSchema) : ExpandedAttributes :=
  let '(standard, operational) := schema_keys sm schema order in
  let out := fold_left (fun m s => insert_key m (get_canonical_name sm s))
               (List.filter is_requestable ldap_attributes) ∅ in
  let has_star := str_mem "*" ldap_attributes || (length ldap_attributes =? 0)%nat in
  let has_plus := str_mem "+" ldap_attributes in
  let out := if has_star || has_plus then fold_left insert_key standard out else out in
  let out := if has_plus then fold_left insert_key operational out else out in
  let has_explicit_operational :=
    existsb (fun k => is_operational sm (attribute_name_str k)
                      || str_mem (to_ascii_lowercase (attribute_name_str k)) always_operational)
      (map_to_list out).*1 in
  MkExpandedAttributes out (has_star || has_plus) (has_plus || has_explicit_operational).

(** Iteration over a [BTreeMap]: the entries in the order of their keys. *)
Definition str_leb (a b : string) : bool :=
  match String.compare a b with
  | Gt => false
  | _ => true
  end.

Fixpoint insert_by_key {A} (x : AttributeName * A) (l : list (AttributeName * A))
  : list (AttributeName * A) :=
  match l with
  | [] => [x]
  | y :: l' =>
      if str_leb (attribute_name_str (fst x)) (attribute_name_str (fst y)) then x :: l
      else y :: insert_by_key x l'
  end.

Definition btree_iter {A} (m : gmap AttributeName A) : list (AttributeName * A) :=
  fold_right insert_by_key [] (map_to_list m).

(** ** Lemmas *)

Lemma str_mem_elem s l : str_mem s l = true <-> s ∈ l.
Proof.
  unfold str_mem. rewrite existsb_elem. setoid_rewrite String.eqb_eq. naive_solver.
Qed.

Lemma str_mem_not_elem s l : str_mem s l = false <-> s ∉ l.
Proof. rewrite <- not_true_iff_false, str_mem_elem. done. Qed.

Lemma resolve_attribute_case sm n m :
  to_ascii_lowercase n = to_ascii_lowercase m -> resolve_attribute sm n = resolve_attribute sm m.
Proof. unfold resolve_attribute. by intros ->. Qed.

Lemma AttributeName_from_inj_lower a b :
  AttributeName_from a = AttributeName_from b <-> to_ascii_lowercase a = to_ascii_lowercase b.
Proof. unfold AttributeName_from, CaseInsensitiveString_new. split; [by intros [=] | by intros ->]. Qed.

Lemma contains_ignore_case_iff n keys :
  contains_ignore_case n keys = true <-> to_ascii_lowercase n ∈ map to_ascii_lowercase keys.
Proof.
  unfold contains_ignore_case. rewrite existsb_elem, list_elem_of_fmap.
  setoid_rewrite eq_ignore_iff. naive_solver.
Qed.

(** Keys that are distinct without case. *)
Definition distinct_keys (keys : list string) : Prop := NoDup (map to_ascii_lowercase keys).

Lemma push_new_distinct keys n : distinct_keys keys -> distinct_keys (push_new keys n).
Proof.
  unfold push_new, distinct_keys. intros Hk. case_match eqn:E; [done|].
  apply not_true_iff_false in E. rewrite contains_ignore_case_iff in E.
  rewrite map_app. apply NoDup_app. split; [done|]. split; [|apply NoDup_singleton].
  intros x Hx ->%list_elem_of_singleton. done.
Qed.

#[export] Hint Resolve push_new_distinct : klldap.

Lemma fold_push_new_distinct l keys : distinct_keys keys -> distinct_keys (fold_left push_new l keys).
Proof. revert keys. induction l; simpl; auto with klldap. Qed.

(** On names distinct from each other, the loop appends the new ones. *)
Lemma fold_push_new l keys :
  distinct_keys l ->
  fold_left push_new l keys =
  keys ++ List.filter (fun n => negb (contains_ignore_case n keys)) l.
Proof.
  revert keys. induction l as [|n l IH]; intros keys Hl; simpl; [by rewrite app_nil_r|].
  inversion Hl as [|?? Hn Hl']; subst. rewrite IH by done. unfold push_new.
  destruct (contains_ignore_case n keys) eqn:E; simpl; [done|].
  rewrite <- app_assoc. simpl. do 2 f_equal. apply filter_ext_in. intros x Hx.
  f_equal. unfold contains_ignore_case. rewrite existsb_app. simpl.
  assert (eq_ignore_ascii_case n x = false) as ->.
  { apply not_true_iff_false. rewrite eq_ignore_iff. intros Heq. apply Hn. rewrite Heq.
    apply list_elem_of_fmap. exists x. split; [done|]. by apply list_elem_of_In. }
  by rewrite orb_false_r.
Qed.

Lemma retain_first_distinct seen keys :
  distinct_keys keys -> (forall k, k ∈ map to_ascii_lowercase keys -> k ∉ seen) ->
  retain_first seen keys = keys.
Proof.
  revert seen. induction keys as [|k keys IH]; intros seen Hk Hs; simpl; [done|].
  inversion Hk as [|?? Hn Hk']; subst.
  rewrite (proj2 (str_mem_not_elem _ _)) by (apply Hs; by left).
  f_equal. apply IH; [done|]. intros x Hx [->|Hx']%elem_of_cons; [done|].
  eapply Hs; [|exact Hx']. by right.
Qed.

Lemma classify_key_distinct sm keys a :
  distinct_keys keys.1 /\ distinct_keys keys.2 ->
  distinct_keys (classify_key sm keys a).1 /\ distinct_keys (classify_key sm keys a).2.
Proof.
  destruct keys as [st op]. intros [H1 H2]. unfold classify_key.
  repeat case_match; simpl in *; auto with klldap.
Qed.

Lemma fold_classify_distinct sm l keys :
  distinct_keys keys.1 /\ distinct_keys keys.2 ->
  distinct_keys (fold_left (classify_key sm) l keys).1 /\
  distinct_keys (fold_left (classify_key sm) l keys).2.
Proof. revert keys. induction l; simpl; auto using classify_key_distinct. Qed.

Lemma distinct_keys_filter p keys : distinct_keys keys -> distinct_keys (List.filter p keys).
Proof.
  unfold distinct_keys. induction keys as [|k keys IH]; simpl; [done|].
  inversion 1 as [|?? Hn Hk]; subst. case_match; simpl; [|auto]. constructor; [|auto].
  intros (x & Hx & Hin)%list_elem_of_fmap. apply Hn, list_elem_of_fmap. exists x. split; [done|].
  apply list_elem_of_In. apply list_elem_of_In, filter_In in Hin. tauto.
Qed.

#[export] Instance distinct_keys_proper : Proper ((≡ₚ) ==> iff) distinct_keys.
Proof. intros l l' Hl. unfold distinct_keys. apply NoDup_Permutation_proper. by rewrite Hl. Qed.

#[export] Instance list_filter_proper {A} (p : A -> bool) : Proper ((≡ₚ) ==> (≡ₚ)) (List.filter p).
Proof.
  induction 1; simpl; [done | by case_match; [constructor|] | | by etrans].
  repeat case_match; try done. constructor.
Qed.

(** What a loop of insertions leaves under a key: the last name inserted there. *)
Lemma fold_insert_lookup l m k :
  fold_left insert_key l m !! k =
  match find (fun s => bool_decide (AttributeName_from s = k)) (rev l) with
  | Some s => Some s
  | None => m !! k
  end.
Proof.
  induction l as [|s l IH] using rev_ind; [done|].
  rewrite fold_left_app, rev_app_distr. simpl. unfold insert_key at 1.
  case_bool_decide as E; [subst; by rewrite lookup_insert_eq|]. by rewrite lookup_insert_ne.
Qed.

Lemma fold_insert_dom l m k :
  is_Some (fold_left insert_key l m !! k) <->
  k ∈ map AttributeName_from l \/ is_Some (m !! k).
Proof.
  revert m. induction l as [|s l IH]; intros m; simpl; [set_solver|].
  rewrite IH. unfold insert_key. rewrite lookup_insert_is_Some, elem_of_cons.
  destruct (decide (AttributeName_from s = k)); naive_solver.
Qed.

Lemma find_distinct_perm l l' k :
  distinct_keys l -> l ≡ₚ l' ->
  find (fun s => bool_decide (AttributeName_from s = k)) l =
  find (fun s => bool_decide (AttributeName_from s = k)) l'.
Proof.
  intros Hd Hl. induction Hl as [|x l l' Hl IH|x y l|l l' l'' H1 IH1 H2 IH2]; simpl; [done| | |].
  - inversion Hd; subst. by rewrite IH.
  - repeat case_bool_decide; try done. subst. exfalso. unfold distinct_keys in Hd. simpl in Hd.
    apply NoDup_cons in Hd as [Hd _]. apply Hd.
    match goal with H : AttributeName_from _ = AttributeName_from _ |- _ =>
      apply AttributeName_from_inj_lower in H; rewrite H end. set_solver.
  - rewrite IH1 by done. apply IH2. by rewrite <- H1.
Qed.

Lemma fold_insert_perm l l' m :
  distinct_keys l -> l ≡ₚ l' -> fold_left insert_key l m = fold_left insert_key l' m.
Proof.
  intros Hd Hl. apply map_eq. intros k. rewrite !fold_insert_lookup.
  rewrite (find_distinct_perm (rev l) (rev l')); [done | |].
  - by rewrite <- Permutation_rev.
  - by rewrite <- !Permutation_rev.
Qed.

Lemma always_operational_distinct : distinct_keys always_operational.
Proof. unfold distinct_keys. apply (bool_decide_unpack _). vm_compute. done. Qed.

Lemma schema_keys_distinct sm schema order :
  distinct_keys (schema_keys sm schema order).2.
Proof.
  unfold schema_keys.
  pose proof (fold_classify_distinct sm
    (attributes (s_user_attributes schema) ++ attributes (s_group_attributes schema)) ([], [])) as Hc.
  destruct (fold_left _ _ _) as [st op]. simpl in *. apply distinct_keys_filter.
  destruct Hc as [_ Hop]; [split; constructor|].
  rewrite retain_first_distinct; [by apply fold_push_new_distinct | | set_solver].
  by apply fold_push_new_distinct.
Qed.

Lemma schema_keys_order sm schema order :
  order ≡ₚ always_operational ->
  (schema_keys sm schema order).1 = (schema_keys sm schema always_operational).1 /\
  (schema_keys sm schema order).2 ≡ₚ (schema_keys sm schema always_operational).2.
Proof.
  intros Ho. unfold schema_keys.
  pose proof (fold_classify_distinct sm
    (attributes (s_user_attributes schema) ++ attributes (s_group_attributes schema)) ([], [])) as Hc.
  destruct (fold_left _ _ _) as [st op]. cbn [fst snd] in *. split; [done|].
  destruct Hc as [_ Hop]; [split; constructor|].
  pose proof always_operational_distinct as Ha.
  rewrite !retain_first_distinct; [| by apply fold_push_new_distinct | set_solver
    | by apply fold_push_new_distinct | set_solver].
  assert (distinct_keys order) by (by rewrite Ho).
  rewrite !fold_push_new by done. by rewrite Ho.
Qed.

(** The keys a search for the deployed schema knows. *)
Definition standard_names : list string :=
  ["jpegphoto"; "cn"; "givenname"; "sn"; "mail"; "uid"; "uidnumber"; "gidnumber";
   "homedirectory"; "loginshell"; "kerberossync"; "krbprincipalname"; "sshpublickey"; "ou";
   "groupid"; "objectclass"].

Definition operational_names : list string :=
  ["createtimestamp"; "modifytimestamp"; "pwdchangedtime"; "entryuuid"; "hassubordinates";
   "structuralobjectclass"; "subschemasubentry"; "entrydn"; "memberof"].

Lemma public_schema_keys :
  map to_ascii_lowercase (schema_keys get_schema_manager PublicSchema_get always_operational).1 =
    standard_names /\
  map to_ascii_lowercase (schema_keys get_schema_manager PublicSchema_get always_operational).2 =
    operational_names.
Proof. vm_compute. done. Qed.

(** No canonical name of the deployed schema is a wildcard. *)
Definition not_wildcard (s : string) : bool :=
  negb (str_mem (to_ascii_lowercase s) ["*"; "+"; "1.1"]).

Lemma public_canonical_not_wildcard :
  forallb (fun p => not_wildcard (snd (snd p)))
    (map_to_list (sm_attribute_map get_schema_manager)) = true.
Proof. vm_compute. done. Qed.

Lemma canonical_not_wildcard s :
  is_requestable s = true -> not_wildcard (get_canonical_name get_schema_manager s) = true.
Proof.
  intros Hs. unfold get_canonical_name, resolve_attribute.
  destruct (sm_attribute_map get_schema_manager !! to_ascii_lowercase s) as [p|] eqn:E; simpl.
  - pose proof public_canonical_not_wildcard as Hp.
    rewrite forallb_Forall, Forall_forall in Hp.
    apply (Hp (to_ascii_lowercase s, p)). by apply elem_of_map_to_list.
  - unfold is_requestable, not_wildcard in *. bool_to_prop. simpl.
    rewrite !(proj2 (String.eqb_neq _ _)) by done. done.
Qed.

Lemma map_AttributeName_from l :
  map AttributeName_from l = map MkAttributeName (map to_ascii_lowercase l).
Proof. by rewrite map_map. Qed.

Lemma known_names_not_wildcard n :
  n ∈ standard_names ++ operational_names -> n ∉ ["*"; "+"; "1.1"].
Proof.
  assert (forallb (fun n => negb (str_mem n ["*"; "+"; "1.1"]))
    (standard_names ++ operational_names) = true) as H by (vm_compute; reflexivity).
  rewrite forallb_Forall, Forall_forall in H. intros Hn. specialize (H n Hn).
  apply negb_true_iff in H. by apply str_mem_not_elem in H.
Qed.

Lemma elem_map_AttributeName_from k l :
  k ∈ map AttributeName_from l <-> attribute_name_str k ∈ map to_ascii_lowercase l.
Proof.
  rewrite map_AttributeName_from. destruct k as [n]. rewrite list_elem_of_fmap. simpl. split.
  - intros (y & [= ->] & Hy). done.
  - eauto.
Qed.

Lemma fold_left_map {A B C} (f : A -> B -> A) (g : C -> B) l a :
  fold_left f (map g l) a = fold_left (fun a c => f a (g c)) l a.
Proof. revert a. induction l; simpl; auto. Qed.

Lemma requested_keys_dom sm attrs k :
  is_Some (fold_left (fun m s => insert_key m (get_canonical_name sm s))
    (List.filter is_requestable attrs) ∅ !! k) <->
  exists s, s ∈ attrs /\ is_requestable s = true /\ k = AttributeName_from (get_canonical_name sm s).
Proof.
  rewrite <- (fold_left_map insert_key), fold_insert_dom, lookup_empty, map_map, list_elem_of_fmap.
  split.
  - intros [(s & -> & Hs)|[? [=]]]. apply list_elem_of_In, filter_In in Hs as [Hs ?].
    exists s. by rewrite list_elem_of_In.
  - intros (s & Hs & Hr & ->). left. exists s. split; [done|].
    apply list_elem_of_In, filter_In. by rewrite <- list_elem_of_In.
Qed.

(** The keys of an expansion, for any manager and schema. *)
Lemma expand_keys_dom sm order attrs schema k :
  let keys := attribute_keys (expand_attribute_wildcards sm order attrs schema) in
  is_Some (keys !! k) <->
  (exists s, s ∈ attrs /\ is_requestable s = true /\
     k = AttributeName_from (get_canonical_name sm s)) \/
  (str_mem "*" attrs || (length attrs =? 0)%nat || str_mem "+" attrs = true /\
   attribute_name_str k ∈ map to_ascii_lowercase (schema_keys sm schema order).1) \/
  (str_mem "+" attrs = true /\
   attribute_name_str k ∈ map to_ascii_lowercase (schema_keys sm schema order).2).
Proof.
  intros keys. subst keys. unfold expand_attribute_wildcards.
  destruct (schema_keys _ _ _) as [st op]. cbn [fst snd attribute_keys].
  rewrite <- !elem_map_AttributeName_from, <- requested_keys_dom.
  destruct (str_mem "+" attrs); rewrite ?orb_true_r, ?orb_false_r;
    [|case_match]; rewrite ?fold_insert_dom; intuition congruence.
Qed.

Lemma expanded_key_not_wildcard attrs k :
  is_Some (attribute_keys (expand_attribute_wildcards get_schema_manager always_operational attrs
    PublicSchema_get) !! k) -> attribute_name_str k ∉ ["*"; "+"; "1.1"].
Proof.
  intros Hk%expand_keys_dom. destruct public_schema_keys as [E1 E2]. rewrite E1, E2 in Hk.
  destruct Hk as [(s & _ & Hs & ->)|[[_ Hk]|[_ Hk]]].
  - apply canonical_not_wildcard, negb_true_iff, str_mem_not_elem in Hs. exact Hs.
  - apply known_names_not_wildcard, elem_of_app. by left.
  - apply known_names_not_wildcard, elem_of_app. by right.
Qed.

(** ** Properties *)

(** The expansion of the requested attributes does not depend on the order in
    which the hash set of always-operational names is iterated. *)
Theorem expand_order_irrelevant sm order order' attrs schema :
  order ≡ₚ always_operational -> order' ≡ₚ always_operational ->
  expand_attribute_wildcards sm order attrs schema =
  expand_attribute_wildcards sm order' attrs schema.
Proof.
  intros Ho Ho'. unfold expand_attribute_wildcards.
  pose proof (schema_keys_order sm schema order Ho) as [H1 H2].
  pose proof (schema_keys_order sm schema order' Ho') as [H1' H2'].
  pose proof (schema_keys_distinct sm schema order) as Hd.
  destruct (schema_keys sm schema order) as [st op], (schema_keys sm schema order') as [st' op'].
  cbn [fst snd] in *. subst st st'. rewrite <- H2' in H2.
  case_match; [|done]. by rewrite (fold_insert_perm op op').
Qed.

Lemma expand_order_irrelevant_witness :
  expand_attribute_wildcards get_schema_manager (rev always_operational) ["+"] PublicSchema_get =
  expand_attribute_wildcards get_schema_manager always_operational ["+"] PublicSchema_get.
Proof.
  apply expand_order_irrelevant; [|done]. symmetry. apply Permutation_rev.
Defined.

(** On the deployed schema, the expanded keys are exactly the canonical names of
    the requested attributes, the standard attributes when [*], [+] or nothing is
    requested, and the operational ones when [+] is; and no wildcard is ever left
    among them, so the attribute getters never see one. *)
Theorem expand_public_spec attrs k :
  let keys := attribute_keys
    (expand_attribute_wildcards get_schema_manager always_operational attrs PublicSchema_get) in
  let wants_all := str_mem "*" attrs || (length attrs =? 0)%nat || str_mem "+" attrs in
  (is_Some (keys !! k) <->
   (exists s, s ∈ attrs /\ is_requestable s = true /\
      k = AttributeName_from (get_canonical_name get_schema_manager s)) \/
   (wants_all = true /\ attribute_name_str k ∈ standard_names) \/
   (str_mem "+" attrs = true /\ attribute_name_str k ∈ operational_names)) /\
  (is_Some (keys !! k) -> attribute_name_str k ∉ ["*"; "+"; "1.1"]).
Proof.
  intros keys wants_all.
  pose proof (expand_keys_dom get_schema_manager always_operational attrs PublicSchema_get k) as Hiff.
  cbv zeta in Hiff. destruct public_schema_keys as [E1 E2]. rewrite E1, E2 in Hiff.
  split; [exact Hiff|]. apply expanded_key_not_wildcard.
Qed.

Lemma expand_public_spec_witness :
  attribute_name_str (MkAttributeName "uid") ∉ ["*"; "+"; "1.1"].
Proof.
  apply (proj2 (expand_public_spec ["*"] (MkAttributeName "uid"))).
  vm_compute. eauto.
Defined.
