(* ===== verification/Subschema.v ===== *)
(** * The subschema entry

    [crates/ldap/src/search/subschema.rs]: the [cn=Subschema] entry, whose attribute
    types are the fixed ones below plus one per attribute of the schema that has no
    fixed description.  The current time is [utc_now_generalized] of
    [LdapExtern]. *)

From S2P Require Import Prelude Strings Types Schema Proto SchemaManager.


Definition core_entries : list (string * string) :=
  [("2.5.4.0",
    "( 2.5.4.0 NAME 'objectClass' DESC 'RFC4512' EQUALITY objectIdentifierMatch SYNTAX 1.3.6.1.4.1.1466.115.121.1.38 )");
   ("2.5.4.3",
    "( 2.5.4.3 NAME ( 'cn' 'commonName' 'displayname' 'display_name' ) DESC 'RFC4519' EQUALITY caseIgnoreMatch SUBSTR caseIgnoreSubstringsMatch SYNTAX 1.3.6.1.4.1.1466.115.121.1.15{256} SINGLE-VALUE )");
   ("2.5.4.4",
    "( 2.5.4.4 NAME ( 'sn' 'surname' 'lastname' 'last_name' ) DESC 'RFC2256' EQUALITY caseIgnoreMatch SUBSTR caseIgnoreSubstringsMatch SYNTAX 1.3.6.1.4.1.1466.115.121.1.15{256} SINGLE-VALUE )");
   ("0.9.2342.19200300.100.1.1",
    "( 0.9.2342.19200300.100.1.1 NAME ( 'uid' 'user_id' 'userid' 'id' ) DESC 'User identifier' EQUALITY caseIgnoreMatch SUBSTR caseIgnoreSubstringsMatch SYNTAX 1.3.6.1.4.1.1466.115.121.1.15{256} SINGLE-VALUE )")].

Definition std_entries : list (string * string) :=
  [("2.5.4.42",
    "( 2.5.4.42 NAME ( 'givenName' 'givenname' 'firstname' 'first_name' ) DESC 'RFC4519 givenName' EQUALITY caseIgnoreMatch SUBSTR caseIgnoreSubstringsMatch SYNTAX 1.3.6.1.4.1.1466.115.121.1.15{256} SINGLE-VALUE )");
   ("0.9.2342.19200300.100.1.3",
    "( 0.9.2342.19200300.100.1.3 NAME ( 'mail' 'email' 'rfc822Mailbox' ) DESC 'RFC1274/2307 mail' EQUALITY caseIgnoreMatch SUBSTR caseIgnoreSubstringsMatch SYNTAX 1.3.6.1.4.1.1466.115.121.1.15{256} SINGLE-VALUE )");
   ("2.5.4.11",
    "( 2.5.4.11 NAME ( 'ou' 'organizationalUnit' 'organizationalunit' 'organizationalUnitName' ) DESC 'RFC4519 ou' EQUALITY caseIgnoreMatch SUBSTR caseIgnoreSubstringsMatch SYNTAX 1.3.6.1.4.1.1466.115.121.1.15{256} SINGLE-VALUE )");
   ("1.3.6.1.1.1.1.0",
    "( 1.3.6.1.1.1.1.0 NAME ( 'uidNumber' 'uidnumber' 'uid_number' 'uidNumber' ) DESC 'RFC2307 uidNumber' EQUALITY integerMatch SYNTAX 1.3.6.1.4.1.1466.115.121.1.27 SINGLE-VALUE )");
   ("1.3.6.1.1.1.1.1",
    "( 1.3.6.1.1.1.1.1 NAME ( 'gidNumber' 'gidnumber' 'gid_number' 'gidNumber' ) DESC 'RFC2307 gidNumber' EQUALITY integerMatch SYNTAX 1.3.6.1.4.1.1466.115.121.1.27 SINGLE-VALUE )");
   ("1.3.6.1.1.1.1.3",
    "( 1.3.6.1.1.1.1.3 NAME ( 'homeDirectory' 'homedirectory' 'home_directory' 'homeDirectory' ) DESC 'RFC2307 homeDirectory' EQUALITY caseIgnoreMatch SYNTAX 1.3.6.1.4.1.1466.115.121.1.15{256} SINGLE-VALUE )");
   ("1.3.6.1.1.1.1.4",
    "( 1.3.6.1.1.1.1.4 NAME ( 'loginShell' 'loginshell' 'login_shell' 'loginShell' ) DESC 'RFC2307 loginShell' EQUALITY caseIgnoreMatch SYNTAX 1.3.6.1.4.1.1466.115.121.1.15{256} SINGLE-VALUE )");
   ("1.3.6.1.1.1.1.8",
    "( 1.3.6.1.1.1.1.8 NAME ( 'sshPublicKey' 'sshpublickey' 'sshPublicKey' 'ssHPublicKey' ) DESC 'OpenSSH/LDAP sshPublicKey' EQUALITY caseIgnoreMatch SYNTAX 1.3.6.1.4.1.1466.115.121.1.15 )");
   ("1.3.6.1.4.1.5322.1.1.2",
    "( 1.3.6.1.4.1.5322.1.1.2 NAME ( 'krbPrincipalName' 'krb_principal_name' 'krbPrincipalName' ) DESC 'Kerberos principal name' EQUALITY caseIgnoreMatch SUBSTR caseIgnoreSubstringsMatch SYNTAX 1.3.6.1.4.1.1466.115.121.1.15{256} SINGLE-VALUE NO-USER-MODIFICATION USAGE directoryOperation )");
   ("0.9.2342.19200300.100.1.60",
    "( 0.9.2342.19200300.100.1.60 NAME ( 'jpegPhoto' 'jpegphoto' 'avatar' ) DESC 'RFC2798 jpegPhoto' EQUALITY caseIgnoreMatch SYNTAX 1.3.6.1.4.1.1466.115.121.1.28 )")].

Definition op_entries : list (string * string) :=
  [("1.3.6.1.1.16.4",
    "( 1.3.6.1.1.16.4 NAME ( 'entryUUID' 'uuid' ) DESC 'UUID' EQUALITY UUIDMatch ORDERING UUIDOrderingMatch SYNTAX 1.3.6.1.1.16.1 SINGLE-VALUE NO-USER-MODIFICATION USAGE directoryOperation )");
   ("2.5.18.1",
    "( 2.5.18.1 NAME ( 'createTimestamp' 'creationdate' 'creation_date' 'creationTimestamp' ) DESC 'RFC4512' EQUALITY generalizedTimeMatch ORDERING generalizedTimeOrderingMatch SYNTAX 1.3.6.1.4.1.1466.115.121.1.24 SINGLE-VALUE NO-USER-MODIFICATION USAGE directoryOperation )");
   ("2.5.18.2",
    "( 2.5.18.2 NAME ( 'modifyTimestamp' 'modifieddate' 'modified_date' 'modifydate' 'modifyTimestamp' ) DESC 'RFC4512' EQUALITY generalizedTimeMatch ORDERING generalizedTimeOrderingMatch SYNTAX 1.3.6.1.4.1.1466.115.121.1.24 SINGLE-VALUE NO-USER-MODIFICATION USAGE directoryOperation )");
   ("2.5.18.3",
    "( 2.5.18.3 NAME 'creatorsName' DESC 'RFC4512' EQUALITY distinguishedNameMatch SYNTAX 1.3.6.1.4.1.1466.115.121.1.12 SINGLE-VALUE NO-USER-MODIFICATION USAGE directoryOperation )");
   ("2.5.18.4",
    "( 2.5.18.4 NAME 'modifiersName' DESC 'RFC4512' EQUALITY distinguishedNameMatch SYNTAX 1.3.6.1.4.1.1466.115.121.1.12 SINGLE-VALUE NO-USER-MODIFICATION USAGE directoryOperation )");
   ("1.2.840.113556.1.2.102",
    "( 1.2.840.113556.1.2.102 NAME 'memberOf' DESC 'Group membership' EQUALITY distinguishedNameMatch SYNTAX 1.3.6.1.4.1.1466.115.121.1.12 NO-USER-MODIFICATION USAGE dSAOperation )");
   ("1.3.6.1.4.1.1466.101.120.6",
    "( 1.3.6.1.4.1.1466.101.120.6 NAME 'hasSubordinates' DESC 'X.500 Has Subordinates' EQUALITY booleanMatch SYNTAX 1.3.6.1.4.1.1466.115.121.1.7 SINGLE-VALUE NO-USER-MODIFICATION USAGE directoryOperation )");
   ("2.5.21.1",
    "( 2.5.21.1 NAME 'structuralObjectClass' DESC 'X.500 Structural Object Class' EQUALITY objectIdentifierMatch SYNTAX 1.3.6.1.4.1.1466.115.121.1.38 SINGLE-VALUE NO-USER-MODIFICATION USAGE directoryOperation )");
   ("2.5.21.2",
    "( 2.5.21.2 NAME 'subschemaSubentry' DESC 'X.500 Subschema Subentry' EQUALITY distinguishedNameMatch SYNTAX 1.3.6.1.4.1.1466.115.121.1.12 SINGLE-VALUE NO-USER-MODIFICATION USAGE directoryOperation )");
   ("1.3.6.1.4.1.42.2.27.8.1.16",
    "( 1.3.6.1.4.1.42.2.27.8.1.16 NAME ( 'pwdChangedTime' 'passwordmodifieddate' 'password_modified_date' ) DESC 'Password last changed time' EQUALITY generalizedTimeMatch SYNTAX 1.3.6.1.4.1.1466.115.121.1.24 SINGLE-VALUE NO-USER-MODIFICATION USAGE dSAOperation )");
   ("1.3.6.1.4.1.15953.9.1.2",
    "( 1.3.6.1.4.1.15953.9.1.2 NAME ( 'sudoHost' 'sudohost' ) DESC 'Host(s) who may run sudo (from sudoers LDAP schema; synthesized by lldap_sudohost group membership)' EQUALITY caseExactIA5Match SUBSTR caseExactIA5SubstringsMatch SYNTAX 1.3.6.1.4.1.1466.115.121.1.26 NO-USER-MODIFICATION USAGE directoryOperation )");
   ("2.16.840.1.113719.1.1.4.1.7",
    "( 2.16.840.1.113719.1.1.4.1.7 NAME ( 'loginDisabled' 'logindisabled' ) DESC 'NDS/eDirectory loginDisabled (SSSD nds policy / account disable; synthesized by lldap_disabled group membership)' EQUALITY caseIgnoreMatch SYNTAX 1.3.6.1.4.1.1466.115.121.1.15 SINGLE-VALUE NO-USER-MODIFICATION USAGE directoryOperation )")].

Definition static_covered_attrs : list string :=
  ["avatar"; "creationdate"; "displayname"; "firstname"; "lastname"; "mail"; "modifieddate";
   "passwordmodifieddate"; "userid"; "uuid"; "uidnumber"; "gidnumber"; "homedirectory";
   "loginshell"; "krbprincipalname"; "sshpublickey"; "ou"; "logindisabled"; "sudohost"].

Definition attr_type_to_ldap_syntax (attr : AttributeSchema) : string * bool * bool :=
  let syntax := match as_attribute_type attr with
                | TString => "1.3.6.1.4.1.1466.115.121.1.15"
                | TInteger => "1.3.6.1.4.1.1466.115.121.1.27"
                | TDateTime => "1.3.6.1.4.1.1466.115.121.1.24"
                | TAvatar => "1.3.6.1.4.1.1466.115.121.1.28"
                end in
  let name_lower := to_ascii_lowercase (as_name attr) in
  let is_operational := as_is_readonly attr ||
    str_mem name_lower ["creationdate"; "modifieddate"; "passwordmodifieddate"; "uuid"; "entryuuid"] in
  (syntax, negb (as_is_list attr), is_operational).

(** Push the entries whose OID was not seen. *)
Definition push_entries (st : list string * list string) (entries : list (string * string))
  : list string * list string :=
  fold_left (fun '(types, seen) '(oid, entry) =>
    if str_mem oid seen then (types, seen) else (types ++ [entry], oid :: seen)) entries st.

Definition single_quoted (s : string) : string := "'" +:+ s +:+ "'".

(** The OID of a dynamic attribute and the next value of the counter. *)
Definition dynamic_oid (name : string) (custom_oid_counter : Z) : string * Z :=
  if String.eqb name "avatar" then ("10.0", custom_oid_counter)
  else if String.eqb name "sshpublickey" then ("10.1", custom_oid_counter)
  else if String.eqb name "kerberossync" then ("1.3.6.1.4.1.5322.1.1.1", custom_oid_counter)
  else if String.eqb name "groupid" then ("10.2", custom_oid_counter)
  else ("10." +:+ int_to_string custom_oid_counter, custom_oid_counter + 1)%Z.

Definition dynamic_entry (attr : AttributeSchema) (oid : string) : string :=
  let preferred := get_preferred_ldap_name attr in
  let '(syntax, is_single, is_operational) := attr_type_to_ldap_syntax attr in
  let single_str := if is_single then " SINGLE-VALUE" else "" in
  let op_str := if is_operational then " NO-USER-MODIFICATION USAGE directoryOperation" else "" in
  let equality := match as_attribute_type attr with
                  | TInteger => "integerMatch"
                  | TDateTime => "generalizedTimeMatch"
                  | _ => "caseIgnoreMatch"
                  end in
  let name_list := join " " (single_quoted preferred ::
    map single_quoted (List.filter (fun a => negb (String.eqb a preferred)) (as_aliases attr))) in
  let desc := "LLDAP " +:+ as_name attr +:+ " (" +:+ (if as_is_list attr then "multi" else "single")
              +:+ ")" in
  "( " +:+ oid +:+ " NAME ( " +:+ name_list +:+ " ) DESC '" +:+ desc +:+ "' EQUALITY " +:+ equality
  +:+ " SYNTAX " +:+ syntax +:+ single_str +:+ op_str +:+ " )".

(** One turn of the loop over the schema's attributes; the counter is a [u32] that
    starts at 100. *)
Definition push_dynamic (st : list string * list string * Z) (attr : AttributeSchema)
  : list string * list string * Z :=
  let '(types, seen, counter) := st in
  if str_mem (as_name attr) static_covered_attrs then st
  else
    let '(oid, counter') := dynamic_oid (as_name attr) counter in
    (types ++ [dynamic_entry attr oid], oid :: seen, counter').

(** The attribute type descriptions and the OIDs seen, newest first. *)
Definition subschema_attribute_types (schema : PublicSchema) : list string * list string :=
  let st := push_entries (push_entries ([], []) core_entries) std_entries in
  let '(types, seen, _) :=
    fold_left push_dynamic
      (attributes (s_user_attributes schema) ++ attributes (s_group_attributes schema))
      (st, 100%Z) in
  push_entries (types, seen) op_entries.

Definition subschema_operational_names : list string :=
  ["createtimestamp"; "creationdate"; "creation_date"; "modifytimestamp"; "modifieddate";
   "modified_date"; "pwdchangedtime"; "passwordmodifieddate"; "password_modified_date";
   "entryuuid"; "uuid"; "memberof"; "hassubordinates"; "structuralobjectclass";
   "subschemasubentry"].

(** Push a name whose lowercase form was not seen. *)
Definition push_may (st : list string * list string) (name : string) : list string * list string :=
  let '(may, seen) := st in
  let lower := to_ascii_lowercase name in
  if str_mem lower seen then st else (may ++ [name], lower :: seen).

Definition inet_may (schema : PublicSchema) : list string :=
  let st := fold_left push_may ["cn"; "sn"; "givenName"; "displayName"; "uid"; "mail"] ([], []) in
  let st := fold_left (fun st attr =>
      let pref := get_preferred_ldap_name attr in
      if str_mem (to_ascii_lowercase pref) subschema_operational_names then st else push_may st pref)
    (attributes (s_user_attributes schema)) st in
  fst (fold_left push_may
    ["createTimestamp"; "modifyTimestamp"; "pwdChangedTime"; "memberOf"; "loginDisabled"; "sudoHost"] st).

Definition subschema_ldap_syntaxes : list string :=
  ["( 1.3.6.1.1.16.1 DESC 'UUID' )";
   "( 1.3.6.1.4.1.1466.115.121.1.3 DESC 'Attribute Type Description' )";
   "( 1.3.6.1.4.1.1466.115.121.1.12 DESC 'Distinguished Name' )";
   "( 1.3.6.1.4.1.1466.115.121.1.15 DESC 'Directory String' )";
   "( 1.3.6.1.4.1.1466.115.121.1.24 DESC 'Generalized Time' )";
   "( 1.3.6.1.4.1.1466.115.121.1.27 DESC 'Integer' )";
   "( 1.3.6.1.4.1.1466.115.121.1.28 DESC 'JPEG' X-NOT-HUMAN-READABLE 'TRUE' )";
   "( 1.3.6.1.4.1.1466.115.121.1.34 DESC 'Name And Optional UID' )";
   "( 1.3.6.1.4.1.1466.115.121.1.37 DESC 'Object Class Description' )";
   "( 1.3.6.1.4.1.1466.115.121.1.38 DESC 'OID' )";
   "( 1.3.6.1.4.1.1466.115.121.1.54 DESC 'LDAP Syntax Description' )";
   "( 1.3.6.1.4.1.1466.115.121.1.58 DESC 'Substring Assertion' )"].

Definition subschema_matching_rules : list string :=
  ["( 1.3.6.1.1.16.2 NAME 'UUIDMatch' SYNTAX 1.3.6.1.1.16.1 )";
   "( 1.3.6.1.1.16.3 NAME 'UUIDOrderingMatch' SYNTAX 1.3.6.1.1.16.1 )";
   "( 2.5.13.0 NAME 'objectIdentifierMatch' SYNTAX 1.3.6.1.4.1.1466.115.121.1.38 )";
   "( 2.5.13.1 NAME 'distinguishedNameMatch' SYNTAX 1.3.6.1.4.1.1466.115.121.1.12 )";
   "( 2.5.13.2 NAME 'caseIgnoreMatch' SYNTAX 1.3.6.1.4.1.1466.115.121.1.15 )";
   "( 2.5.13.4 NAME 'caseIgnoreSubstringsMatch' SYNTAX 1.3.6.1.4.1.1466.115.121.1.58 )";
   "( 2.5.13.23 NAME 'uniqueMemberMatch' SYNTAX 1.3.6.1.4.1.1466.115.121.1.34 )";
   "( 2.5.13.27 NAME 'generalizedTimeMatch' SYNTAX 1.3.6.1.4.1.1466.115.121.1.24 )";
   "( 2.5.13.28 NAME 'generalizedTimeOrderingMatch' SYNTAX 1.3.6.1.4.1.1466.115.121.1.24 )";
   "( 2.5.13.30 NAME 'objectIdentifierFirstComponentMatch' SYNTAX 1.3.6.1.4.1.1466.115.121.1.38 )"].

Definition posix_user_may : string :=
  "userPassword $ loginShell $ gecos $ description $ sshPublicKey $ avatar $ kerberosSync $ loginDisabled $ sudoHost".

Definition posix_group_may : string := "userPassword $ memberUid $ description $ gidNumber".

Definition subschema_object_classes (schema : PublicSchema) : list string :=
  ["( 2.5.6.0 NAME 'top' DESC 'RFC4512' ABSTRACT MUST objectClass )";
   "( 2.5.6.6 NAME 'person' DESC 'RFC4519' STRUCTURAL MUST ( cn $ sn $ objectClass ) MAY ( userPassword $ telephoneNumber $ seeAlso $ description $ givenName $ mail ) )";
   "( 2.5.6.7 NAME 'organizationalPerson' DESC 'RFC4519' STRUCTURAL SUP person MAY ( title $ ou $ o $ l $ st $ postalAddress ) )";
   "( 1.3.6.1.1.3.1 NAME 'inetOrgPerson' DESC 'RFC2798' STRUCTURAL SUP organizationalPerson MUST ( cn $ sn $ objectClass ) MAY ( " +:+ join " $ " (inet_may schema) +:+ " ) )";
   "( 1.3.6.1.1.1.2.0 NAME 'posixAccount' DESC 'RFC2307' STRUCTURAL MUST ( cn $ uid $ uidNumber $ gidNumber $ homeDirectory $ objectClass ) MAY ( " +:+ posix_user_may +:+ " ) )";
   "( 2.5.6.9 NAME 'groupOfNames' DESC 'RFC4519' STRUCTURAL MUST ( member $ cn $ objectClass ) MAY ( businessCategory $ seeAlso $ owner $ ou $ o $ description ) )";
   "( 2.5.6.17 NAME 'groupOfUniqueNames' DESC 'RFC4519' STRUCTURAL MUST ( uniqueMember $ cn $ objectClass ) MAY ( businessCategory $ seeAlso $ owner $ ou $ o $ description ) )";
   "( 1.3.6.1.1.1.2.2 NAME 'posixGroup' DESC 'RFC2307' STRUCTURAL MUST ( cn $ gidNumber $ objectClass ) MAY ( " +:+ posix_group_may +:+ " ) )";
   "( 1.3.6.1.4.1.24552.500.1.1.2.0 NAME 'ldapPublicKey' SUP top AUXILIARY DESC 'OpenSSH LPK auxiliary object class for SSH public keys' MAY sshPublicKey )"].

Definition make_ldap_subschema_entry `{LdapExtern} (base_dn_str : string) : LdapOp :=
  let schema := PublicSchema_get in
  let full_subschema_dn := "cn=Subschema," +:+ base_dn_str in
  OpSearchResultEntry (MkSearchResultEntry full_subschema_dn
    [MkPartialAttribute "structuralObjectClass" ["subentry"];
     MkPartialAttribute "objectClass" ["top"; "subentry"; "subschema"; "extensibleObject"];
     MkPartialAttribute "cn" ["Subschema"];
     MkPartialAttribute "createTimestamp" [utc_now_generalized];
     MkPartialAttribute "modifyTimestamp" [utc_now_generalized];
     MkPartialAttribute "ldapSyntaxes" subschema_ldap_syntaxes;
     MkPartialAttribute "matchingRules" subschema_matching_rules;
     MkPartialAttribute "attributeTypes" (fst (subschema_attribute_types schema));
     MkPartialAttribute "objectClasses" (subschema_object_classes schema);
     MkPartialAttribute "subschemaSubentry" [full_subschema_dn]]).

(** Whether a description is the one of an OID, and whether it lists a name (names
    are compared without case). *)
Definition describes (oid description : string) : bool :=
  starts_with ("( " +:+ oid +:+ " NAME ") description.

Definition lists_name (name description : string) : bool :=
  contains_str (to_ascii_lowercase (single_quoted name)) (to_ascii_lowercase description).

(** ** Properties *)

(** In the published subschema every OID is described exactly once, and every
    attribute of the deployed schema is listed, by its preferred name and by each
    of its aliases, in some description. *)
Theorem subschema_well_formed :
  let types := fst (subschema_attribute_types PublicSchema_get) in
  let oids := rev (snd (subschema_attribute_types PublicSchema_get)) in
  NoDup oids /\
  Forall2 (fun oid d => describes oid d = true) oids types /\
  Forall (fun a => Forall (fun n => existsb (lists_name n) types = true)
                     (get_preferred_ldap_name a :: as_aliases a))
    (attributes (s_user_attributes PublicSchema_get) ++
     attributes (s_group_attributes PublicSchema_get)).
Proof.
  intros types oids. split; [|split].
  - apply (bool_decide_unpack _). vm_compute. exact I.
  - assert (length oids = length types /\
      forallb (fun p => describes (fst p) (snd p)) (zip oids types) = true) as [Hl Hf]
      by (vm_compute; done).
    clearbody types oids. revert types Hl Hf.
    induction oids as [|o oids IH]; intros [|d types] Hl Hf; simpl in *; try discriminate Hl;
      [constructor|].
    apply andb_prop in Hf as [Hd Hf]. constructor; [done|]. apply IH; [lia|done].
  - assert (forallb (fun a => forallb (fun n => existsb (lists_name n) types)
      (get_preferred_ldap_name a :: as_aliases a))
      (attributes (s_user_attributes PublicSchema_get) ++
       attributes (s_group_attributes PublicSchema_get)) = true) as Hf by (vm_compute; reflexivity).
    apply forallb_Forall in Hf. eapply Forall_impl; [exact Hf|]. intros a Ha.
    by apply forallb_Forall.
Qed.
