(* ===== verification/Filters.v ===== *)
(** * Conversion of LDAP filters

    [crates/ldap/src/search/filters.rs]: an LDAP filter becomes a
    [UserRequestFilter] or a [GroupRequestFilter].  The boolean combinators are the
    same code for both, simplifying on the way (constants are dropped, nested
    conjunctions flattened, singletons unwrapped); here they are written once,
    over the class [FilterAlgebra] that both filter types implement.

    The meaning of a filter is a value of Kleene's three-valued logic, as in SQL
    and in RFC 4511: the theorems show that the conversion keeps the meaning of the
    filter whatever its leaves mean, and that it fails exactly when a leaf fails. *)

From S2P Require Import Prelude Strings Types Schema Proto Dn SchemaManager.


(** ** The boolean structure shared by both filter types *)

Class FilterAlgebra (F : Type) := {
  f_true : F;
  f_false : F;
  f_and : list F -> F;
  f_or : list F -> F;
  f_not : F -> F;
  f_is_true : F -> bool;
  f_is_false : F -> bool;
  f_as_and : F -> option (list F);
  f_as_or : F -> option (list F)
}.

#[export] Instance user_filter_algebra : FilterAlgebra UserRequestFilter := {|
  f_true := UTrue;
  f_false := UFalse;
  f_and := UAnd;
  f_or := UOr;
  f_not := UNot;
  f_is_true f := match f with UTrue => true | _ => false end;
  f_is_false f := match f with UFalse => true | _ => false end;
  f_as_and f := match f with UAnd v => Some v | _ => None end;
  f_as_or f := match f with UOr v => Some v | _ => None end
|}.

#[export] Instance group_filter_algebra : FilterAlgebra GroupRequestFilter := {|
  f_true := GTrue;
  f_false := GFalse;
  f_and := GAnd;
  f_or := GOr;
  f_not := GNot;
  f_is_true f := match f with GTrue => true | _ => false end;
  f_is_false f := match f with GFalse => true | _ => false end;
  f_as_and f := match f with GAnd v => Some v | _ => None end;
  f_as_or f := match f with GOr v => Some v | _ => None end
|}.

Section Combine.
Context {F : Type} `{FilterAlgebra F}.

(** The shared body of the [And] and [Or] branches: drop the neutral element,
    splice nested nodes of the same kind, stop at the first error. *)
Definition combine (neutral : F -> bool) (splice : F -> option (list F))
    (unit : F) (node : list F -> F) (rs : list (LdapResult F)) : LdapResult F :=
  let kept := List.filter (fun r => match r with Ok f => negb (neutral f) | Err _ => true end) rs in
  let flat := flat_map (fun r => match r with
                                 | Ok f => match splice f with
                                           | Some v => map Ok v
                                           | None => [Ok f]
                                           end
                                 | Err e => [Err e]
                                 end) kept in
  let? res := collect flat in
  Ok match res with
     | [] => unit
     | [f] => f
     | _ => node res
     end.

Definition combine_and (rs : list (LdapResult F)) : LdapResult F :=
  combine f_is_true f_as_and f_true f_and rs.

Definition combine_or (rs : list (LdapResult F)) : LdapResult F :=
  combine f_is_false f_as_or f_false f_or rs.

Definition combine_not (r : LdapResult F) : LdapResult F :=
  let? f := r in
  Ok (if f_is_true f then f_false else if f_is_false f then f_true else f_not f).
End Combine.

Section Convert.
Context `{Extern, LdapExtern}.
Context (ldap_info : LdapInfo) (schema : PublicSchema).

Definition unwilling {A} (m : string) : LdapResult A := Err (MkLdapError UnwillingToPerform m).

(** ** User filters *)

Definition get_user_attribute_equality_filter (field : AttributeName) (typ : AttributeType)
    (is_list : bool) (value : string) : UserRequestFilter :=
  let value_lc := to_ascii_lowercase value in
  match deserialize_attribute_value [value] typ is_list,
        deserialize_attribute_value [value_lc] typ is_list with
  | Ok v, Ok v_lc => UOr [UAttributeEquality field v; UAttributeEquality field v_lc]
  | _, _ => UFalse
  end.

Definition user_objectclass_filter (value : string) : UserRequestFilter :=
  let v := to_ascii_lowercase value in
  let standard_user_classes :=
    ["top"; "person"; "inetorgperson"; "posixaccount"; "ldappublickey"] in
  let extra_classes := map to_ascii_lowercase (s_extra_user_object_classes schema) in
  if str_mem v standard_user_classes || str_mem v extra_classes then UTrue else UFalse.

Definition user_equality_filter (field_name value : string) : LdapResult UserRequestFilter :=
  let field := AttributeName_from field_name in
  let value_lc := to_ascii_lowercase value in
  let fname := attribute_name_str field in
  if eq_ignore_ascii_case fname "logindisabled" then
    Ok (if str_mem value_lc ["true"; "1"; "yes"] then UMemberOf (MkGroupName "lldap_disabled")
        else UFalse)
  else if eq_ignore_ascii_case fname "sudohost" then
    Ok (if str_mem value_lc ["*"; "all"; "true"; "1"] then UMemberOf (MkGroupName "lldap_sudohost")
        else UFalse)
  else
    match map_user_field get_schema_manager field schema with
    | UfPrimaryField ColUserId => Ok (UUserId (UserId_new value_lc))
    | UfPrimaryField ColEmail => Ok (UEquality ColLowercaseEmail value_lc)
    | UfPrimaryField field => Ok (UEquality field value_lc)
    | UfAttribute field typ is_list =>
        Ok (get_user_attribute_equality_filter field typ is_list value)
    | UfNoMatch => Ok UFalse
    | UfObjectClass => Ok (UAnd [])
    | UfMemberOf =>
        Ok match get_group_id_from_distinguished_name_or_plain_name value_lc
                   (base_dn ldap_info) (base_dn_str ldap_info) with
           | Ok g => UMemberOf g
           | Err _ => UFalse
           end
    | UfEntryDn | UfDn =>
        Ok match get_user_id_from_distinguished_name_or_plain_name value_lc
                   (base_dn ldap_info) (base_dn_str ldap_info) with
           | Ok u => UUserId u
           | Err _ => UFalse
           end
    | UfEntryUuid =>
        match Uuid_try_from value with
        | Some _ => Ok (UEquality ColUuid value)
        | None => Err (MkLdapError Other ("Invalid UUID in filter: " +:+ uuid_error value))
        end
    end.

Definition is_date_column (c : UserColumn) : bool :=
  match c with
  | ColCreationDate | ColModifiedDate | ColPasswordModifiedDate => true
  | _ => false
  end.

Definition user_ge_filter (field_name value : string) : LdapResult UserRequestFilter :=
  let field := AttributeName_from field_name in
  let unsupported := unwilling
    ("GreaterOrEqual not supported on this attribute: " +:+ attribute_name_str field) in
  match map_user_field get_schema_manager field schema with
  | UfPrimaryField f => if is_date_column f then Ok (UGreaterOrEqual f value) else unsupported
  | UfAttribute name TDateTime _ => Ok (UAttributeGreaterOrEqual name value)
  | _ => unsupported
  end.

Definition user_le_filter (field_name value : string) : LdapResult UserRequestFilter :=
  let field := AttributeName_from field_name in
  let unsupported := unwilling
    ("LessOrEqual not supported on this attribute: " +:+ attribute_name_str field) in
  match map_user_field get_schema_manager field schema with
  | UfPrimaryField f => if is_date_column f then Ok (ULessOrEqual f value) else unsupported
  | UfAttribute name TDateTime _ => Ok (UAttributeLessOrEqual name value)
  | _ => unsupported
  end.

Definition user_present_filter (field_name : string) : UserRequestFilter :=
  let field := AttributeName_from field_name in
  let fname := attribute_name_str field in
  if eq_ignore_ascii_case fname "logindisabled" then UMemberOf (MkGroupName "lldap_disabled")
  else if eq_ignore_ascii_case fname "sudohost" then UMemberOf (MkGroupName "lldap_sudohost")
  else match map_user_field get_schema_manager field schema with
       | UfAttribute name _ _ => UCustomAttributePresent name
       | UfNoMatch => UFalse
       | _ => UTrue
       end.

Definition user_substring_filter (field_name : string) (f : SubStringFilter)
  : LdapResult UserRequestFilter :=
  let field := AttributeName_from field_name in
  let unsupported := unwilling
    ("Unsupported user attribute for substring filter: " +:+ debug_attribute_name field) in
  match map_user_field get_schema_manager field schema with
  | UfPrimaryField ColUserId => Ok (UUserIdSubString f)
  | UfAttribute name TString _ => Ok (UAttributeSubString name f)
  | UfAttribute _ _ _ => unsupported
  | UfObjectClass | UfMemberOf | UfDn | UfEntryDn | UfEntryUuid
  | UfPrimaryField ColCreationDate | UfPrimaryField ColUuid => unsupported
  | UfNoMatch => Ok UFalse
  | UfPrimaryField ColEmail => Ok (USubString ColLowercaseEmail f)
  | UfPrimaryField field => Ok (USubString field f)
  end.

Fixpoint convert_user_filter (filter : LdapFilter) : LdapResult UserRequestFilter :=
  match filter with
  | LEquality field value =>
      if eq_ignore_ascii_case field "objectclass" then Ok (user_objectclass_filter value)
      else user_equality_filter field value
  | LAnd filters => combine_and (map convert_user_filter filters)
  | LOr filters => combine_or (map convert_user_filter filters)
  | LNot f => combine_not (convert_user_filter f)
  | LGreaterOrEqual field value => user_ge_filter field value
  | LLessOrEqual field value => user_le_filter field value
  | LPresent field => Ok (user_present_filter field)
  | LSubstring field f => user_substring_filter field f
  | LApprox _ _ | LExtensible _ => unwilling ("Unsupported user filter: " +:+ debug_filter filter)
  end.

(** ** Group filters *)

Definition get_group_attribute_equality_filter (field : AttributeName) (typ : AttributeType)
    (is_list : bool) (value : string) : GroupRequestFilter :=
  let value_lc := to_ascii_lowercase value in
  match deserialize_attribute_value [value] typ is_list,
        deserialize_attribute_value [value_lc] typ is_list with
  | Ok v, Ok v_lc => GOr [GAttributeEquality field v; GAttributeEquality field v_lc]
  | _, _ => GFalse
  end.

Definition group_objectclass_filter (value : string) : GroupRequestFilter :=
  let v := to_ascii_lowercase value in
  let extra_classes := map to_ascii_lowercase (s_extra_group_object_classes schema) in
  if str_mem v ["groupofuniquenames"; "groupofnames"; "posixgroup"] || str_mem v extra_classes
  then GTrue else GFalse.

Definition group_equality_filter (field_name value : string) : LdapResult GroupRequestFilter :=
  let field := AttributeName_from field_name in
  let value_lc := to_ascii_lowercase value in
  match map_group_field get_schema_manager field schema with
  | GfGroupId =>
      Ok match parse_i32 value_lc with
         | Some id => GGroupId id
         | None => GFalse
         end
  | GfDisplayName => Ok (GDisplayName (MkGroupName value_lc))
  | GfUuid =>
      match Uuid_try_from value_lc with
      | Some u => Ok (GUuid u)
      | None => Err (MkLdapError Other ("Invalid UUID: " +:+ uuid_error value_lc))
      end
  | GfMember | GfUniqueMember | GfMemberOf =>
      Ok match get_user_id_from_distinguished_name_or_plain_name value_lc
                 (base_dn ldap_info) (base_dn_str ldap_info) with
         | Ok u => GMember u
         | Err _ => GFalse
         end
  | GfObjectClass => Ok (GAnd [])
  | GfDn | GfEntryDn =>
      Ok match get_group_id_from_distinguished_name_or_plain_name value_lc
                 (base_dn ldap_info) (base_dn_str ldap_info) with
         | Ok g => GDisplayName g
         | Err _ => GFalse
         end
  | GfEntryUuid =>
      match Uuid_try_from value with
      | Some u => Ok (GUuid u)
      | None => Err (MkLdapError Other ("Invalid UUID in filter: " +:+ uuid_error value))
      end
  | GfNoMatch => Ok GFalse
  | GfAttribute field typ is_list =>
      Ok (get_group_attribute_equality_filter field typ is_list value)
  | GfCreationDate => unwilling "Creation date filter for groups not supported"
  | GfModifiedDate => unwilling "Modified date filter for groups not supported"
  end.

Definition group_timestamp_column (field : AttributeName) : string :=
  from_option id (attribute_name_str field)
    (resolve_group_canonical_name schema (attribute_name_str field)).

Definition group_ge_filter (field_name value : string) : LdapResult GroupRequestFilter :=
  let field := AttributeName_from field_name in
  match map_group_field get_schema_manager field schema with
  | GfCreationDate | GfModifiedDate => Ok (GGreaterOrEqual (group_timestamp_column field) value)
  | GfAttribute name TDateTime _ => Ok (GAttributeGreaterOrEqual name value)
  | _ => unwilling ("GreaterOrEqual is only supported on timestamp attributes for groups (got: "
                    +:+ attribute_name_str field +:+ ")")
  end.

Definition group_le_filter (field_name value : string) : LdapResult GroupRequestFilter :=
  let field := AttributeName_from field_name in
  match map_group_field get_schema_manager field schema with
  | GfCreationDate | GfModifiedDate => Ok (GLessOrEqual (group_timestamp_column field) value)
  | GfAttribute name TDateTime _ => Ok (GAttributeLessOrEqual name value)
  | _ => unwilling ("LessOrEqual is only supported on timestamp attributes for groups (got: "
                    +:+ attribute_name_str field +:+ ")")
  end.

Definition group_present_filter (field_name : string) : GroupRequestFilter :=
  let field := AttributeName_from field_name in
  match map_group_field get_schema_manager field schema with
  | GfAttribute name _ _ => GCustomAttributePresent name
  | GfNoMatch => GFalse
  | _ => GTrue
  end.

Definition group_substring_filter (field_name : string) (f : SubStringFilter)
  : LdapResult GroupRequestFilter :=
  let field := AttributeName_from field_name in
  match map_group_field get_schema_manager field schema with
  | GfDisplayName => Ok (GDisplayNameSubString f)
  | GfAttribute name TString _ => Ok (GAttributeSubString name f)
  | GfNoMatch => Ok GFalse
  | _ => unwilling ("Unsupported group attribute for substring filter: "
                    +:+ quoted (attribute_name_str field))
  end.

Fixpoint convert_group_filter (filter : LdapFilter) : LdapResult GroupRequestFilter :=
  match filter with
  | LEquality field value =>
      if eq_ignore_ascii_case field "objectclass" then Ok (group_objectclass_filter value)
      else group_equality_filter field value
  | LGreaterOrEqual field value => group_ge_filter field value
  | LLessOrEqual field value => group_le_filter field value
  | LAnd filters => combine_and (map convert_group_filter filters)
  | LOr filters => combine_or (map convert_group_filter filters)
  | LNot f => combine_not (convert_group_filter f)
  | LPresent field => Ok (group_present_filter field)
  | LSubstring field f => group_substring_filter field f
  | LApprox _ _ | LExtensible _ => unwilling ("Unsupported group filter: " +:+ debug_filter filter)
  end.
End Convert.

(** ** Three-valued meaning of filters *)

(** True, false, or (with [None]) unknown. *)
Abbreviation tri := (option bool) (only parsing).

Definition not3 (a : tri) : tri := negb <$> a.

Definition and3 (a b : tri) : tri :=
  match a, b with
  | Some false, _ | _, Some false => Some false
  | Some true, Some true => Some true
  | _, _ => None
  end.

Definition or3 (a b : tri) : tri :=
  match a, b with
  | Some true, _ | _, Some true => Some true
  | Some false, Some false => Some false
  | _, _ => None
  end.

Definition all3 (l : list tri) : tri := fold_right and3 (Some true) l.
Definition any3 (l : list tri) : tri := fold_right or3 (Some false) l.

Lemma and3_assoc a b c : and3 a (and3 b c) = and3 (and3 a b) c.
Proof. by destruct a as [[]|], b as [[]|], c as [[]|]. Qed.

Lemma or3_assoc a b c : or3 a (or3 b c) = or3 (or3 a b) c.
Proof. by destruct a as [[]|], b as [[]|], c as [[]|]. Qed.

Lemma all3_app l k : all3 (l ++ k) = and3 (all3 l) (all3 k).
Proof.
  induction l as [|a l IH]; simpl.
  - by destruct (all3 k) as [[]|].
  - by rewrite IH, and3_assoc.
Qed.

Lemma any3_app l k : any3 (l ++ k) = or3 (any3 l) (any3 k).
Proof.
  induction l as [|a l IH]; simpl.
  - by destruct (any3 k) as [[]|].
  - by rewrite IH, or3_assoc.
Qed.

(** The meaning of a request filter, given the meaning of its atoms. *)
Fixpoint eval_user (atom : UserRequestFilter -> tri) (f : UserRequestFilter) : tri :=
  match f with
  | UTrue => Some true
  | UFalse => Some false
  | UAnd fs => all3 (map (eval_user atom) fs)
  | UOr fs => any3 (map (eval_user atom) fs)
  | UNot g => not3 (eval_user atom g)
  | _ => atom f
  end.

Fixpoint eval_group (atom : GroupRequestFilter -> tri) (f : GroupRequestFilter) : tri :=
  match f with
  | GTrue => Some true
  | GFalse => Some false
  | GAnd fs => all3 (map (eval_group atom) fs)
  | GOr fs => any3 (map (eval_group atom) fs)
  | GNot g => not3 (eval_group atom g)
  | _ => atom f
  end.

(** The meaning of an LDAP filter (RFC 4511, 4.5.1.7), given that of its leaves. *)
Fixpoint ldap_meaning (leaf : LdapFilter -> tri) (f : LdapFilter) : tri :=
  match f with
  | LAnd fs => all3 (map (ldap_meaning leaf) fs)
  | LOr fs => any3 (map (ldap_meaning leaf) fs)
  | LNot g => not3 (ldap_meaning leaf g)
  | _ => leaf f
  end.

Fixpoint leaves (f : LdapFilter) : list LdapFilter :=
  match f with
  | LAnd fs | LOr fs => flat_map leaves fs
  | LNot g => leaves g
  | _ => [f]
  end.

(** What the combinators rely on: the tests recognise the constructors, and the
    meaning is compositional. *)
Class FilterSemantics {F} `{FilterAlgebra F} (m : F -> tri) := {
  sem_is_true f : f_is_true f = true -> f = f_true;
  sem_is_false f : f_is_false f = true -> f = f_false;
  sem_as_and f v : f_as_and f = Some v -> f = f_and v;
  sem_as_or f v : f_as_or f = Some v -> f = f_or v;
  sem_true : m f_true = Some true;
  sem_false : m f_false = Some false;
  sem_and fs : m (f_and fs) = all3 (map m fs);
  sem_or fs : m (f_or fs) = any3 (map m fs);
  sem_not f : m (f_not f) = not3 (m f)
}.

#[export] Instance user_semantics atom : FilterSemantics (eval_user atom).
Proof. by split; try intros []; simpl; intros; simplify_eq. Qed.

#[export] Instance group_semantics atom : FilterSemantics (eval_group atom).
Proof. by split; try intros []; simpl; intros; simplify_eq. Qed.

Section Combined.
Context {F : Type} `{FilterAlgebra F} (m : F -> tri).

(** The shared body keeps the meaning for any operation [op] with unit [e] that
    [op]-lists are read with. *)
Lemma combine_meaning neutral splice unit node (op : list tri -> tri) rs fs g :
  (forall f, neutral f = true -> m f = op []) ->
  (forall f v, splice f = Some v -> m f = op (map m v)) ->
  m unit = op [] -> (forall v, m (node v) = op (map m v)) -> (forall x, op [x] = x) ->
  (forall l k l' k', op l = op l' -> op k = op k' -> op (l ++ k) = op (l' ++ k')) ->
  Forall2 (fun r f => r = Ok f) rs fs ->
  combine neutral splice unit node rs = Ok g -> m g = op (map m fs).
Proof.
  intros Hn Hs Hu Hnode Hsing Hcong HF (res & Hres & [= <-])%result_bind_Ok.
  assert (op (map m res) = op (map m fs)) as <-.
  { clear Hnode Hu. revert res Hres. induction HF as [|r f rs fs -> HF IH]; simpl.
    { by intros ? [= <-]. }
    destruct (neutral f) eqn:En; simpl.
    { intros res Hres. apply (Hcong [] (map m res) [m f] (map m fs)); [|by apply IH].
      by rewrite Hsing, Hn. }
    intros res Hres. apply collect_Ok in Hres.
    apply Forall2_app_inv_l in Hres as (r1 & r2 & H1 & H2%collect_Ok & ->).
    rewrite map_app. apply (Hcong (map m r1) (map m r2) [m f] (map m fs)); [|by apply IH].
    rewrite Hsing. destruct (splice f) as [v|] eqn:E.
    - apply collect_Ok, collect_map_Ok in H1. rewrite (Hs f v E).
      assert (v = r1) as -> by (clear E; induction H1; by simplify_eq/=). done.
    - inversion H1 as [|???? [= ->] HN]; subst. inversion HN; subst. apply Hsing. }
  destruct res as [|f [|g res]]; [done | | by rewrite Hnode]. simpl. by rewrite Hsing.
Qed.

Lemma combine_is_ok neutral splice unit node (rs : list (LdapResult F)) :
  is_ok (combine neutral splice unit node rs) = forallb is_ok rs.
Proof.
  unfold combine. set (flat := flat_map _ _).
  assert (is_ok (collect flat) = forallb is_ok rs) as <-.
  { rewrite collect_is_ok. subst flat. induction rs as [|[f|e] rs IH]; simpl; [done| |done].
    destruct (neutral f); simpl; [done|]. rewrite forallb_app, IH.
    destruct (splice f) as [v|]; simpl; [|done].
    replace (forallb is_ok (map Ok v)) with true; [done|]. by induction v. }
  by destruct (collect flat).
Qed.

Context `{!FilterSemantics m}.

Lemma combine_and_meaning rs fs g :
  Forall2 (fun r f => r = Ok f) rs fs -> combine_and rs = Ok g -> m g = all3 (map m fs).
Proof.
  apply combine_meaning; simpl.
  - intros f ->%sem_is_true. apply sem_true.
  - intros f v ->%sem_as_and. apply sem_and.
  - apply sem_true.
  - apply sem_and.
  - by intros [[]|].
  - intros. by rewrite !all3_app; f_equal.
Qed.

Lemma combine_or_meaning rs fs g :
  Forall2 (fun r f => r = Ok f) rs fs -> combine_or rs = Ok g -> m g = any3 (map m fs).
Proof.
  apply combine_meaning; simpl.
  - intros f ->%sem_is_false. apply sem_false.
  - intros f v ->%sem_as_or. apply sem_or.
  - apply sem_false.
  - apply sem_or.
  - by intros [[]|].
  - intros. by rewrite !any3_app; f_equal.
Qed.

Lemma combine_not_meaning f g : combine_not (Ok f) = Ok g -> m g = not3 (m f).
Proof.
  unfold combine_not. simpl. intros [= <-].
  destruct (f_is_true f) eqn:E1; [apply sem_is_true in E1 as ->; by rewrite sem_true, sem_false|].
  destruct (f_is_false f) eqn:E2; [apply sem_is_false in E2 as ->; by rewrite sem_true, sem_false|].
  apply sem_not.
Qed.
End Combined.

(** A conversion that treats the connectives with the shared combinators. *)
Class Conversion {F} `{FilterAlgebra F} (conv : LdapFilter -> LdapResult F) := {
  conv_and fs : conv (LAnd fs) = combine_and (map conv fs);
  conv_or fs : conv (LOr fs) = combine_or (map conv fs);
  conv_not f : conv (LNot f) = combine_not (conv f)
}.

#[export] Instance user_conversion `{Extern, LdapExtern} info schema :
  Conversion (convert_user_filter info schema).
Proof. done. Qed.

#[export] Instance group_conversion `{Extern, LdapExtern} info schema :
  Conversion (convert_group_filter info schema).
Proof. done. Qed.

Section Conversions.
Context {F : Type} `{FilterAlgebra F} (conv : LdapFilter -> LdapResult F) `{!Conversion conv}.

Lemma conversion_is_ok f : is_ok (conv f) = forallb (fun l => is_ok (conv l)) (leaves f).
Proof.
  assert (forall fs, Forall (fun f => is_ok (conv f) = forallb (fun l => is_ok (conv l)) (leaves f)) fs ->
    forallb is_ok (map conv fs) = forallb (fun l => is_ok (conv l)) (flat_map leaves fs)) as Hfs.
  { induction 1 as [|f' fs Hf _ IH]; simpl; [done|]. by rewrite forallb_app, Hf, IH. }
  induction f as [fs IH|fs IH|f IH| | | | | | | ] using LdapFilter_ind'; simpl;
    rewrite ?andb_true_r; try done.
  - rewrite conv_and. unfold combine_and. by rewrite combine_is_ok, Hfs.
  - rewrite conv_or. unfold combine_or. by rewrite combine_is_ok, Hfs.
  - rewrite conv_not, <- IH. by destruct (conv f).
Qed.

(** The meaning the conversion gives to a leaf. *)
Definition leaf_meaning (m : F -> tri) (l : LdapFilter) : tri :=
  match conv l with
  | Ok g => m g
  | Err _ => None
  end.

Lemma conversion_meaning (m : F -> tri) `{!FilterSemantics m} f g :
  conv f = Ok g -> m g = ldap_meaning (leaf_meaning m) f.
Proof.
  assert (forall fs, Forall (fun f => forall g, conv f = Ok g ->
      m g = ldap_meaning (leaf_meaning m) f) fs ->
    forallb is_ok (map conv fs) = true ->
    exists gs, Forall2 (fun r g => r = Ok g) (map conv fs) gs /\
      map m gs = map (ldap_meaning (leaf_meaning m)) fs) as Hfs.
  { induction 1 as [|f' fs Hf _ IH]; simpl; [exists []; split; [constructor|done]|].
    intros [Hok1 (gs & HF & Hm)%IH]%andb_prop. destruct (conv f') as [g'|] eqn:E; [|done].
    exists (g' :: gs). split; [by constructor|]. simpl. by rewrite Hm, (Hf g'). }
  revert g. induction f as [fs IH|fs IH|f IH| | | | | | | ] using LdapFilter_ind'; intros g Hg; simpl;
    try (unfold leaf_meaning; by rewrite Hg).
  - rewrite conv_and in Hg. pose proof (f_equal is_ok Hg) as Hok.
    unfold combine_and in Hok. rewrite combine_is_ok in Hok.
    destruct (Hfs fs IH Hok) as (gs & HF & <-). by eapply combine_and_meaning.
  - rewrite conv_or in Hg. pose proof (f_equal is_ok Hg) as Hok.
    unfold combine_or in Hok. rewrite combine_is_ok in Hok.
    destruct (Hfs fs IH Hok) as (gs & HF & <-). by eapply combine_or_meaning.
  - rewrite conv_not in Hg. destruct (conv f) as [h|] eqn:E; [|done].
    rewrite <- (IH h eq_refl). by apply combine_not_meaning.
Qed.
End Conversions.

(** ** Properties that every atom of a converted filter has *)

Section Atoms.
Context {F : Type} `{FilterAlgebra F} (P : F -> Prop).

Lemma combine_forall neutral splice unit node (rs : list (LdapResult F)) g :
  P unit -> (forall v, P (node v) <-> Forall P v) ->
  (forall f v, splice f = Some v -> f = node v) ->
  Forall (fun r => forall f, r = Ok f -> P f) rs ->
  combine neutral splice unit node rs = Ok g -> P g.
Proof.
  intros Hu Hnode Hs Hrs (res & Hres & [= <-])%result_bind_Ok.
  assert (Forall P res) as HP.
  { revert res Hres. induction Hrs as [|r rs Hr _ IH]; simpl; [by intros ? [= <-]|].
    destruct r as [f|e]; simpl; [|done]. destruct (neutral f); simpl; [done|].
    intros res Hres%collect_Ok.
    apply Forall2_app_inv_l in Hres as (r1 & r2 & H1 & H2%collect_Ok & ->).
    apply Forall_app. split; [|by apply IH]. specialize (Hr f eq_refl).
    destruct (splice f) as [v|] eqn:E.
    - apply collect_Ok, collect_map_Ok in H1. apply Hs in E as ->. apply Hnode in Hr.
      clear -H1 Hr. induction H1; [constructor|]. inversion Hr. simplify_eq. constructor; auto.
    - inversion H1 as [|???? [= ->] HN]; subst. inversion HN; subst. by constructor. }
  destruct res as [|f [|f' res]]; [done | by inversion HP | by apply Hnode].
Qed.

(** A property of filters that looks at the atoms only. *)
Class AtomProperty := {
  ap_true : P f_true;
  ap_false : P f_false;
  ap_and v : P (f_and v) <-> Forall P v;
  ap_or v : P (f_or v) <-> Forall P v;
  ap_not f : P (f_not f) <-> P f
}.

Context `{!AtomProperty} (conv : LdapFilter -> LdapResult F) `{!Conversion conv}.
Context (m : F -> tri) `{!FilterSemantics m}.

Lemma conversion_forall f g :
  (forall l g, l ∈ leaves f -> conv l = Ok g -> P g) -> conv f = Ok g -> P g.
Proof.
  assert (forall fs, Forall (fun f => forall g,
      (forall l g, l ∈ leaves f -> conv l = Ok g -> P g) -> conv f = Ok g -> P g) fs ->
    (forall l g, l ∈ flat_map leaves fs -> conv l = Ok g -> P g) ->
    Forall (fun r => forall f, r = Ok f -> P f) (map conv fs)) as Hfs.
  { induction 1 as [|f' fs Hf _ IH]; simpl; [constructor|]. intros Hl. constructor.
    - intros f0 Hf0. eapply Hf; [|exact Hf0]. intros l g' Hin. apply Hl, elem_of_app. by left.
    - apply IH. intros l g' Hin. apply Hl, elem_of_app. by right. }
  revert g. induction f as [fs IH|fs IH|f IH| | | | | | | ] using LdapFilter_ind'; intros g' Hl Hg;
    try (eapply Hl; [by left | exact Hg]).
  - rewrite conv_and in Hg. eapply combine_forall; [| | | |exact Hg].
    { apply ap_true. } { apply ap_and. } { apply sem_as_and. } by apply Hfs.
  - rewrite conv_or in Hg. eapply combine_forall; [| | | |exact Hg].
    { apply ap_false. } { apply ap_or. } { apply sem_as_or. } by apply Hfs.
  - rewrite conv_not in Hg. destruct (conv f) as [h|] eqn:E; [|done]. simpl in Hg.
    specialize (IH h Hl eq_refl). simplify_eq.
    repeat case_match; [apply ap_false | apply ap_true | by apply ap_not].
Qed.
End Atoms.

(** The atoms [get_user_filter_expr] can translate and an LDAP client may ask about:
    no secret column, the user id only through its own filter, order comparisons
    on the date columns only. *)
Definition queryable_column (c : UserColumn) : bool :=
  match c with
  | ColPasswordHash | ColTotpSecret | ColMfaType | ColUserId | ColEmail => false
  | _ => true
  end.

Fixpoint safe_user_filter (f : UserRequestFilter) : bool :=
  match f with
  | UAnd fs | UOr fs => forallb safe_user_filter fs
  | UNot g => safe_user_filter g
  | UEquality c _ | USubString c _ => queryable_column c
  | UGreaterOrEqual c _ | ULessOrEqual c _ => is_date_column c
  | _ => true
  end.

#[export] Instance safe_atom_property : AtomProperty (fun f => safe_user_filter f = true).
Proof. split; simpl; try done; intros; apply forallb_Forall. Qed.

(** The primary columns the deployed manager maps names to. *)
Definition mapped_columns : list UserColumn :=
  [ColUserId; ColEmail; ColDisplayName; ColKrbPrincipalName; ColCreationDate; ColModifiedDate;
   ColPasswordModifiedDate].

Definition primary_columns_in (cs : list UserColumn) (sm : SchemaManager) : bool :=
  forallb (fun p => match fst (snd p) with
                    | LgPrimary c => bool_decide (c ∈ cs)
                    | _ => true
                    end) (map_to_list (sm_attribute_map sm)).

Lemma public_primary_columns : primary_columns_in mapped_columns get_schema_manager = true.
Proof. vm_compute. done. Qed.

Lemma map_user_field_columns cs sm n schema c :
  primary_columns_in cs sm = true -> map_user_field sm n schema = UfPrimaryField c -> c ∈ cs.
Proof.
  unfold map_user_field, resolve_attribute. intros Hp.
  destruct (sm_attribute_map sm !! _) as [[lg cn]|] eqn:E; [|crush_match].
  destruct lg as [| | | |c'| |]; intros Hf; simplify_eq; [|by destruct (is_entry_uuid _)].
  unfold primary_columns_in in Hp. rewrite forallb_Forall, Forall_forall in Hp.
  apply elem_of_map_to_list in E. specialize (Hp _ E). simpl in Hp. by apply bool_decide_eq_true in Hp.
Qed.

(** Abstract the field a name is mapped to, keeping what is known of its column. *)
Ltac abstract_user_field :=
  match goal with
  | |- context [map_user_field get_schema_manager ?n ?s] =>
      let Hc := fresh "Hc" in
      assert (forall c, map_user_field get_schema_manager n s = UfPrimaryField c ->
        c ∈ mapped_columns) as Hc
        by (intros c; apply map_user_field_columns, public_primary_columns);
      revert Hc; generalize (map_user_field get_schema_manager n s);
      let r := fresh "r" in intros r Hc; unfold mapped_columns in Hc
  end.

Section Leaves.
Context `{Extern, LdapExtern} (info : LdapInfo) (schema : PublicSchema).

Lemma user_equality_safe n v g :
  user_equality_filter info schema n v = Ok g -> safe_user_filter g = true.
Proof.
  unfold user_equality_filter. abstract_user_field.
  case_match; [intros [= <-]; by case_match|]. case_match; [intros [= <-]; by case_match|].
  destruct r as [| | | | | |c|] eqn:E; try (intros [= <-]; by repeat case_match).
  - case_match; by intros [= <-].
  - specialize (Hc c eq_refl). destruct c; intros [= <-]; simpl; try done; set_solver.
  - intros [= <-]. unfold get_user_attribute_equality_filter. by repeat case_match.
Qed.

Lemma user_substring_safe n v g :
  user_substring_filter schema n v = Ok g -> safe_user_filter g = true.
Proof.
  unfold user_substring_filter. abstract_user_field.
  destruct r as [| | | | | |c|? []] eqn:E; try (by intros [= <-]); try done.
  specialize (Hc c eq_refl). destruct c; intros [= <-]; simpl; try done; set_solver.
Qed.

Lemma user_order_safe n v g :
  user_ge_filter schema n v = Ok g \/ user_le_filter schema n v = Ok g ->
  safe_user_filter g = true.
Proof.
  unfold user_ge_filter, user_le_filter. abstract_user_field.
  destruct r as [| | | | | |c|? []]; intros [Hg|Hg]; try done;
    try (destruct (is_date_column c) eqn:E; try done); by simplify_eq.
Qed.

Lemma user_present_safe n : safe_user_filter (user_present_filter schema n) = true.
Proof. unfold user_present_filter. abstract_user_field. by repeat case_match. Qed.

Definition is_leaf (l : LdapFilter) : bool :=
  match l with LAnd _ | LOr _ | LNot _ => false | _ => true end.

Lemma leaves_are_leaves f : Forall (fun l => is_leaf l = true) (leaves f).
Proof.
  assert (forall fs, Forall (fun f => Forall (fun l => is_leaf l = true) (leaves f)) fs ->
    Forall (fun l => is_leaf l = true) (flat_map leaves fs)) as Hfs.
  { induction 1; simpl; [constructor | by apply Forall_app]. }
  induction f using LdapFilter_ind'; cbn [leaves]; auto.
Qed.

Lemma leaf_filter_safe l g :
  is_leaf l = true -> convert_user_filter info schema l = Ok g -> safe_user_filter g = true.
Proof.
  intros Hl. destruct l as [| | |n v|n f|n v|n v|n| |]; cbn [convert_user_filter];
    try discriminate Hl.
  - case_match; [|apply user_equality_safe].
    intros [= <-]. unfold user_objectclass_filter. by case_match.
  - apply user_substring_safe.
  - intros Hg. eapply user_order_safe. by left.
  - intros Hg. eapply user_order_safe. by right.
  - intros [= <-]. apply user_present_safe.
  - discriminate.
  - discriminate.
Qed.
End Leaves.

(** ** Properties *)

Lemma converted_filter_safe `{Extern, LdapExtern} info schema f g :
  convert_user_filter info schema f = Ok g -> safe_user_filter g = true.
Proof.
  apply (conversion_forall (fun f => safe_user_filter f = true) _ (eval_user (fun _ => None))).
  intros l g' Hl. apply leaf_filter_safe.
  pose proof (leaves_are_leaves f) as Hf. rewrite Forall_forall in Hf. by apply Hf.
Qed.

(** C4: the user filter an LDAP filter is converted to has the meaning of the LDAP
    filter, in Kleene's logic and for every meaning of its atoms: dropping
    constants, flattening and unwrapping change nothing. *)
Theorem user_filter_equivalence `{Extern, LdapExtern} info schema atom f g :
  convert_user_filter info schema f = Ok g ->
  eval_user atom g =
  ldap_meaning (leaf_meaning (convert_user_filter info schema) (eval_user atom)) f.
Proof. exact (conversion_meaning _ _ f g). Qed.

Definition demo_info : LdapInfo := MkLdapInfo [("dc", "com")] "dc=com" [] [].

Definition demo_filter : LdapFilter :=
  LAnd [LEquality "objectClass" "person"; LAnd [LEquality "uid" "Bob"; LPresent "sudoHost"];
        LNot (LEquality "objectClass" "printer")].

Lemma user_filter_equivalence_witness :
  eval_user (fun _ => None) (UAnd [UUserId (MkUserId "bob"); UMemberOf (MkGroupName "lldap_sudohost")])
  = None.
Proof.
  assert (@convert_user_filter demo_extern demo_ldap_extern demo_info PublicSchema_get demo_filter =
    Ok (UAnd [UUserId (MkUserId "bob"); UMemberOf (MkGroupName "lldap_sudohost")])) as Hc
    by (vm_compute; reflexivity).
  rewrite (@user_filter_equivalence demo_extern demo_ldap_extern demo_info PublicSchema_get
    (fun _ => None) _ _ Hc). vm_compute. reflexivity.
Defined.

(** Likewise for group filters. *)
Theorem group_filter_equivalence `{Extern, LdapExtern} info schema atom f g :
  convert_group_filter info schema f = Ok g ->
  eval_group atom g =
  ldap_meaning (leaf_meaning (convert_group_filter info schema) (eval_group atom)) f.
Proof. exact (conversion_meaning _ _ f g). Qed.

Lemma group_filter_equivalence_witness :
  eval_group (fun _ => Some true) (GNot (GMember (MkUserId "bob"))) = Some false.
Proof.
  assert (@convert_group_filter demo_extern demo_ldap_extern demo_info PublicSchema_get
    (LOr [LNot (LEquality "member" "Bob"); LEquality "objectClass" "printer"]) =
    Ok (GNot (GMember (MkUserId "bob")))) as Hc by (vm_compute; reflexivity).
  rewrite (@group_filter_equivalence demo_extern demo_ldap_extern demo_info PublicSchema_get
    (fun _ => Some true) _ _ Hc). vm_compute. reflexivity.
Defined.

(** A filter is rejected exactly when one of its leaves is: no error is hidden by
    the simplifications and none appears. *)
Theorem filter_conversion_total `{Extern, LdapExtern} info schema f :
  is_ok (convert_user_filter info schema f) =
    forallb (fun l => is_ok (convert_user_filter info schema l)) (leaves f) /\
  is_ok (convert_group_filter info schema f) =
    forallb (fun l => is_ok (convert_group_filter info schema l)) (leaves f).
Proof. split; apply (conversion_is_ok _). Qed.

(** Whatever filter a client sends, the converted user filter never looks at the
    password hash, the TOTP secret or the MFA type, and contains none of the
    comparisons the SQL translation panics on. *)
Theorem converted_user_filter_safe `{Extern, LdapExtern} info schema f g :
  convert_user_filter info schema f = Ok g -> safe_user_filter g = true.
Proof. apply converted_filter_safe. Qed.

Lemma converted_user_filter_safe_witness :
  safe_user_filter (UGreaterOrEqual ColModifiedDate "2026") = true.
Proof.
  exact (@converted_user_filter_safe demo_extern demo_ldap_extern demo_info PublicSchema_get
    (LGreaterOrEqual "modifyTimestamp" "2026") _ eq_refl).
Defined.
