(* ===== verification/Attributes.v ===== *)
(** * Attribute values and search result entries

    [crates/ldap/src/attributes.rs]: the value of an LDAP attribute of a user or a
    group, and the search result entry built from an expanded attribute list.  A
    Rust panic is the [Err] of the result; [None] is "no such attribute". *)

From S2P Require Import Prelude Strings Types Schema Proto Dn SchemaManager Filters.


(** Code that may panic. *)
Abbreviation panics A := (result string A) (only parsing).

Section Attributes.
Context `{Extern}.

Definition to_generalized_time (dt : NaiveDateTime) : string := generalized_time dt.

Definition get_custom_attribute (attributes : list Attribute) (attribute_name : AttributeName)
  : option (list string) :=
  (fun attribute =>
     match attr_value attribute with
     | VString (Singleton s) => [s]
     | VString (Unbounded l) => l
     | VInteger (Singleton i) => [int_to_string i]
     | VInteger (Unbounded l) => map int_to_string l
     | VAvatar (Singleton p) => [avatar_bytes p]
     | VAvatar (Unbounded l) => map avatar_bytes l
     | VDateTime (Singleton dt) => [to_generalized_time dt]
     | VDateTime (Unbounded l) => map to_generalized_time l
     end) <$> find (fun a => attribute_name_eqb (attr_name a) attribute_name) attributes.

Definition find_ou (attributes : list Attribute) : option Attribute :=
  find (fun a => eq_ignore_ascii_case (attribute_name_str (attr_name a)) "ou") attributes.

Definition get_ou_from_attributes (attributes : list Attribute) (default : string) : string :=
  match find_ou attributes with
  | Some a =>
      match attr_value a with
      | VString (Singleton s) => s
      | VString (Unbounded (s :: _)) => s
      | _ => default
      end
  | None => default
  end.

Definition partial_attribute_present (attrs : list LdapPartialAttribute) (lower : string) : bool :=
  existsb (fun a => String.eqb (to_ascii_lowercase (atype a)) lower) attrs.

Definition inject_operational_attributes (attrs : list LdapPartialAttribute)
    (structural_class base_dn_str : string) : list LdapPartialAttribute :=
  let add lower atype value :=
    if partial_attribute_present attrs lower then [] else [MkPartialAttribute atype [value]] in
  attrs
  ++ add "hassubordinates" "hasSubordinates" "FALSE"
  ++ add "structuralobjectclass" "structuralObjectClass" structural_class
  ++ add "subschemasubentry" "subschemaSubentry" ("cn=Subschema," +:+ base_dn_str)
  ++ add "creatorsname" "creatorsName" ("cn=admin,ou=people," +:+ base_dn_str)
  ++ add "modifiersname" "modifiersName" ("cn=admin,ou=people," +:+ base_dn_str).

Definition get_default_user_object_classes_bytes (schema : PublicSchema) : list string :=
  ["top"; "person"] ++ s_extra_user_object_classes schema.

Definition get_default_group_object_classes_bytes (schema : PublicSchema) : list string :=
  ["groupOfUniqueNames"; "groupOfNames"] ++ s_extra_group_object_classes schema.

Definition get_user_ou (user : User) : string :=
  get_ou_from_attributes (u_attributes user) DEFAULT_PRIMARY_USER_OU.

Definition get_group_ou (group : Group) : string :=
  get_ou_from_attributes (g_attributes group) DEFAULT_PRIMARY_GROUP_OU.

(** ** Users *)

(** The OU of a group a user belongs to, as [memberOf] computes it. *)
Definition member_of_group_ou (group : GroupDetails) : string :=
  match find_ou (gd_attributes group) with
  | Some a => from_option id DEFAULT_PRIMARY_GROUP_OU (as_str (attr_value a))
  | None => DEFAULT_PRIMARY_GROUP_OU
  end.

Definition member_of_values (groups : option (list GroupDetails)) (base_dn_str : string)
  : list string :=
  map (fun group => build_group_dn (gd_display_name group) (member_of_group_ou group) base_dn_str)
    (from_option id [] groups).

Definition in_named_group (groups : option (list GroupDetails)) (name : string) : bool :=
  existsb (fun g => String.eqb (group_name_str (gd_display_name g)) name) (from_option id [] groups).

Definition get_primary_field (user : User) (c : UserColumn) : panics (option (list string)) :=
  match c with
  | ColUserId => Ok (Some [user_id_str (u_user_id user)])
  | ColEmail => Ok (Some [email_str (u_email user)])
  | ColLowercaseEmail | ColPasswordHash | ColTotpSecret | ColMfaType => Err "Should not get here"
  | ColUuid => Ok (Some [u_uuid user])
  | ColDisplayName => Ok ((fun s => [s]) <$> u_display_name user)
  | ColCreationDate => Ok (Some [to_generalized_time (u_creation_date user)])
  | ColModifiedDate => Ok (Some [to_generalized_time (u_modified_date user)])
  | ColPasswordModifiedDate => Ok (Some [to_generalized_time (u_password_modified_date user)])
  | ColKrbPrincipalName => Ok ((fun s => [s]) <$> u_krb_principal_name user)
  end.

Definition is_star (s : string) : bool := String.eqb s "*".

Definition get_unmapped_user_attribute (user : User) (attribute : AttributeName)
    (groups : option (list GroupDetails)) (ignored : list AttributeName)
  : panics (option (list string)) :=
  let s := attribute_name_str attribute in
  if String.eqb s "1.1" || String.eqb s "+" then Ok None
  else if is_star s then Err ("Matched " +:+ s +:+ ", * should have been expanded")
  else if eq_ignore_ascii_case s "logindisabled" then
    Ok (if in_named_group groups "lldap_disabled" then Some ["TRUE"] else None)
  else if eq_ignore_ascii_case s "sudohost" then
    Ok (if in_named_group groups "lldap_sudohost" then Some ["ALL"] else None)
  else if existsb (attribute_name_eqb attribute) ignored then Ok None
  else Ok (get_custom_attribute (u_attributes user) attribute).

(** A single empty value counts as absent. *)
Definition drop_empty_value (values : option (list string)) : option (list string) :=
  match values with
  | Some [v] => if String.eqb v "" then None else Some [v]
  | _ => values
  end.

Definition get_user_attribute (user : User) (attribute : AttributeName) (base_dn_str : string)
    (groups : option (list GroupDetails)) (ignored_user_attributes : list AttributeName)
    (schema : PublicSchema) : panics (option (list string)) :=
  let attribute := AttributeName_from (attribute_name_str attribute) in
  map_ok drop_empty_value
    match map_user_field get_schema_manager attribute schema with
    | UfObjectClass => Ok (Some (get_default_user_object_classes_bytes schema))
    | UfDn => Ok None
    | UfEntryDn => Ok (Some [build_user_dn (u_user_id user) (get_user_ou user) base_dn_str])
    | UfEntryUuid => Ok (Some [u_uuid user])
    | UfMemberOf => Ok (Some (member_of_values groups base_dn_str))
    | UfPrimaryField c => get_primary_field user c
    | UfAttribute attr _ _ => Ok (get_custom_attribute (u_attributes user) attr)
    | UfNoMatch => get_unmapped_user_attribute user attribute groups ignored_user_attributes
    end.

(** ** Groups *)

(** A [BTreeSet] of strings: sorted, without duplicates. *)
Fixpoint btree_set_insert (x : string) (l : list string) : list string :=
  match l with
  | [] => [x]
  | y :: l' =>
      match String.compare x y with
      | Lt => x :: l
      | Eq => l
      | Gt => y :: btree_set_insert x l'
      end
  end.

Definition member_values (group : Group) (user_filter : option UserId) (base_dn_str : string)
  : list string :=
  fold_left (fun l s => btree_set_insert s l)
    (map (fun u => build_user_dn (gm_user_id u) (gm_ou u) base_dn_str)
      (List.filter (fun u => from_option (user_id_eqb (gm_user_id u)) true user_filter)
        (g_users group))) [].

Definition get_unmapped_group_attribute (group : Group) (attribute : AttributeName)
    (ignored : list AttributeName) : panics (option (list string)) :=
  let s := attribute_name_str attribute in
  if String.eqb s "1.1" || String.eqb s "+" then Ok None
  else if is_star s then Err ("Matched " +:+ s +:+ ", * should have been expanded")
  else if existsb (attribute_name_eqb attribute) ignored then Ok None
  else Ok (get_custom_attribute (g_attributes group) attribute).

Definition get_group_attribute (group : Group) (base_dn_str : string) (attribute : AttributeName)
    (user_filter : option UserId) (ignored_group_attributes : list AttributeName)
    (schema : PublicSchema) : panics (option (list string)) :=
  map_ok drop_empty_value
    match map_group_field get_schema_manager attribute schema with
    | GfObjectClass => Ok (Some (get_default_group_object_classes_bytes schema))
    | GfDn => Ok None
    | GfEntryDn => Ok (Some [build_group_dn (g_display_name group) (get_group_ou group) base_dn_str])
    | GfEntryUuid => Ok (Some [g_uuid group])
    | GfGroupId => Ok (Some [int_to_string (g_id group)])
    | GfDisplayName => Ok (Some [group_name_str (g_display_name group)])
    | GfCreationDate => Ok (Some [to_generalized_time (g_creation_date group)])
    | GfModifiedDate => Ok (Some [to_generalized_time (g_modified_date group)])
    | GfMember | GfUniqueMember => Ok (Some (member_values group user_filter base_dn_str))
    | GfMemberOf => Ok None
    | GfUuid => Ok (Some [g_uuid group])
    | GfAttribute attr _ _ => Ok (get_custom_attribute (g_attributes group) attr)
    | GfNoMatch => get_unmapped_group_attribute group attribute ignored_group_attributes
    end.

(** ** Search result entries *)

(** [attribute_keys.extend(custom_to_add)] *)
Definition add_custom_keys (known : AttributeList) (own : list Attribute)
    (expanded : ExpandedAttributes) : gmap AttributeName string :=
  let standardized := flat_map (fun a => as_name a :: as_aliases a) (attributes known) in
  if include_custom_attributes expanded then
    fold_left (fun m a => <[attr_name a := attribute_name_str (attr_name a)]> m)
      (List.filter (fun a => negb (str_mem (attribute_name_str (attr_name a)) standardized)) own)
      (attribute_keys expanded)
  else attribute_keys expanded.

(** [retain(|attr| seen.insert(attr.atype.clone()))] *)
Fixpoint retain_first_atype (seen : list string) (attrs : list LdapPartialAttribute)
  : list LdapPartialAttribute :=
  match attrs with
  | [] => []
  | a :: attrs' =>
      if str_mem (atype a) seen then retain_first_atype seen attrs'
      else a :: retain_first_atype (atype a :: seen) attrs'
  end.

(** The iterator over the keys: drop the operational ones unless wanted, keep
    those that have a value. *)
Definition entry_attributes (value : AttributeName -> panics (option (list string)))
    (keys : gmap AttributeName string) (include_operational : bool) (structural_class base_dn_str : string)
  : panics (list LdapPartialAttribute) :=
  let wanted := List.filter (fun p =>
    negb (is_operational get_schema_manager (attribute_name_str (fst p))) || include_operational)
    (btree_iter keys) in
  let? values := collect (map (fun p => map_ok (fun v => (snd p, v)) (value (fst p))) wanted) in
  let attrs := omap (fun p => (fun v => MkPartialAttribute (fst p) v) <$> snd p) values in
  let attrs := if include_operational
               then inject_operational_attributes attrs structural_class base_dn_str else attrs in
  Ok (retain_first_atype [] attrs).

Definition make_ldap_search_user_result_entry (user : User) (base_dn_str : string)
    (expanded : ExpandedAttributes) (groups : option (list GroupDetails))
    (ignored_user_attributes : list AttributeName) (schema : PublicSchema)
  : panics LdapSearchResultEntry :=
  let keys := add_custom_keys (s_user_attributes schema) (u_attributes user) expanded in
  let? attrs := entry_attributes
    (fun a => get_user_attribute user a base_dn_str groups ignored_user_attributes schema)
    keys (include_operational_attributes expanded) "inetOrgPerson" base_dn_str in
  Ok (MkSearchResultEntry (build_user_dn (u_user_id user) (get_user_ou user) base_dn_str) attrs).

Definition make_ldap_search_group_result_entry (group : Group) (base_dn_str : string)
    (expanded : ExpandedAttributes) (user_filter : option UserId)
    (ignored_group_attributes : list AttributeName) (schema : PublicSchema)
  : panics LdapSearchResultEntry :=
  let keys := add_custom_keys (s_group_attributes schema) (g_attributes group) expanded in
  let? attrs := entry_attributes
    (fun a => get_group_attribute group base_dn_str a user_filter ignored_group_attributes schema)
    keys (include_operational_attributes expanded) "groupOfUniqueNames" base_dn_str in
  Ok (MkSearchResultEntry (build_group_dn (g_display_name group) (get_group_ou group) base_dn_str) attrs).
End Attributes.

(** ** Lemmas *)

Lemma insert_by_key_perm {A} (x : AttributeName * A) l : insert_by_key x l ≡ₚ x :: l.
Proof.
  induction l as [|y l IH]; simpl; [done|]. case_match; [done|]. rewrite IH. constructor.
Qed.

Lemma btree_iter_perm {A} (m : gmap AttributeName A) : btree_iter m ≡ₚ map_to_list m.
Proof.
  unfold btree_iter. induction (map_to_list m) as [|x l IH]; simpl; [done|].
  by rewrite insert_by_key_perm, IH.
Qed.

Lemma elem_of_btree_iter {A} (m : gmap AttributeName A) k v : (k, v) ∈ btree_iter m <-> m !! k = Some v.
Proof. by rewrite btree_iter_perm, elem_of_map_to_list. Qed.

Lemma lower_star s : to_ascii_lowercase s = "*" -> s = "*".
Proof.
  destruct s as [|c [|d s]]; simpl; intros Hs; simplify_eq.
  by destruct c as [[] [] [] [] [] [] [] []].
Qed.

Lemma retain_first_atype_NoDup seen attrs :
  NoDup (map atype (retain_first_atype seen attrs)) /\
  forall a, a ∈ retain_first_atype seen attrs -> atype a ∉ seen.
Proof.
  revert seen. induction attrs as [|a attrs IH]; intros seen; simpl; [split; [constructor|set_solver]|].
  destruct (str_mem (atype a) seen) eqn:E; [apply IH|]. apply str_mem_not_elem in E.
  destruct (IH (atype a :: seen)) as [H1 H2]. simpl. split.
  - constructor; [|done]. intros (x & Hx & Hin)%list_elem_of_fmap. apply H2 in Hin.
    rewrite Hx in Hin. set_solver.
  - intros x [->|Hx]%elem_of_cons; [done|]. apply H2 in Hx. set_solver.
Qed.

Section AttributeLemmas.
Context `{Extern}.

Lemma get_user_attribute_total user a dn groups ignored schema :
  attribute_name_str a <> "*" -> is_ok (get_user_attribute user a dn groups ignored schema) = true.
Proof.
  intros Ha. unfold get_user_attribute. abstract_user_field.
  assert (forall r : result string (option (list string)),
    is_ok r = true -> is_ok (map_ok drop_empty_value r) = true) as Hok by (by intros []).
  apply Hok. destruct r as [| | | | | |c|]; try done.
  - unfold get_unmapped_user_attribute. simpl. case_match; [done|].
    unfold is_star. rewrite (proj2 (String.eqb_neq _ _)) by (intros E; by apply Ha, lower_star).
    by repeat case_match.
  - specialize (Hc c eq_refl). destruct c; try done; set_solver.
Qed.

Lemma get_group_attribute_total group a dn uf ignored schema :
  attribute_name_str a <> "*" -> is_ok (get_group_attribute group dn a uf ignored schema) = true.
Proof.
  intros Ha. unfold get_group_attribute.
  generalize (map_group_field get_schema_manager a schema). intros r.
  assert (forall r : result string (option (list string)),
    is_ok r = true -> is_ok (map_ok drop_empty_value r) = true) as Hok by (by intros []).
  apply Hok. destruct r; try done. unfold get_unmapped_group_attribute.
  case_match; [done|]. unfold is_star. rewrite (proj2 (String.eqb_neq _ _)) by done.
  by repeat case_match.
Qed.

Lemma add_custom_keys_dom known own expanded k :
  is_Some (add_custom_keys known own expanded !! k) ->
  is_Some (attribute_keys expanded !! k) \/ exists a, a ∈ own /\ attr_name a = k.
Proof.
  unfold add_custom_keys. case_match; [|by left]. set (l := List.filter _ own).
  assert (forall a, a ∈ l -> a ∈ own) as Hl.
  { intros a Ha. apply list_elem_of_In, filter_In in Ha as [Ha _]. by apply list_elem_of_In. }
  clearbody l. revert Hl. generalize (attribute_keys expanded).
  induction l as [|a l IH]; simpl; intros m Hl Hk; [by left|].
  destruct (IH _ (fun a Ha => Hl a ltac:(by right)) Hk) as [Hm|?]; [|by right].
  apply lookup_insert_is_Some in Hm as [<-|[_ Hm]]; [right|by left].
  exists a. split; [apply Hl; by left|done].
Qed.

Lemma entry_attributes_total value keys op cls dn :
  (forall k, is_Some (keys !! k) -> is_ok (value k) = true) ->
  exists attrs, entry_attributes value keys op cls dn = Ok attrs /\ NoDup (map atype attrs).
Proof.
  intros Hv. unfold entry_attributes. set (l := List.filter _ _).
  assert (is_ok (collect (map (fun p => map_ok (fun v => (snd p, v)) (value (fst p))) l)) = true) as Hok.
  { rewrite collect_is_ok. apply forallb_forall. intros r (p & <- & Hp)%in_map_iff.
    apply filter_In in Hp as [Hp _]. destruct p as [k v]. apply list_elem_of_In in Hp.
    apply elem_of_btree_iter in Hp. specialize (Hv k (mk_is_Some _ _ Hp)). simpl.
    by destruct (value k). }
  destruct (collect _) as [values|]; [|done]. simpl. eexists. split; [done|].
  apply retain_first_atype_NoDup.
Qed.
End AttributeLemmas.

(** No stored attribute is named like the wildcard. *)
Definition no_star_attribute (attrs : list Attribute) : Prop :=
  Forall (fun a => attribute_name_str (attr_name a) <> "*") attrs.

Lemma expanded_keys_not_star attrs own known k :
  let expanded := expand_attribute_wildcards get_schema_manager always_operational attrs PublicSchema_get in
  no_star_attribute own -> is_Some (add_custom_keys known own expanded !! k) ->
  attribute_name_str k <> "*".
Proof.
  intros expanded Hown [Hk|(a & Ha & <-)]%add_custom_keys_dom.
  - apply expanded_key_not_wildcard in Hk. set_solver.
  - unfold no_star_attribute in Hown. rewrite Forall_forall in Hown. by apply Hown.
Qed.

(** The search entries of users and groups are always built. *)
Lemma user_entry_built `{Extern} user base requested groups ignored :
  no_star_attribute (u_attributes user) ->
  exists attrs,
    make_ldap_search_user_result_entry user base
      (expand_attribute_wildcards get_schema_manager always_operational requested PublicSchema_get)
      groups ignored PublicSchema_get =
    Ok (MkSearchResultEntry (build_user_dn (u_user_id user) (get_user_ou user) base) attrs) /\
    NoDup (map atype attrs).
Proof.
  intros Hstar. unfold make_ldap_search_user_result_entry.
  edestruct (entry_attributes_total (fun a => get_user_attribute user a base groups ignored PublicSchema_get))
    as (attrs & -> & Hnd).
  - intros k Hk. by eapply get_user_attribute_total, expanded_keys_not_star.
  - by exists attrs.
Qed.

Lemma group_entry_built `{Extern} group base requested user_filter ignored :
  no_star_attribute (g_attributes group) ->
  exists attrs,
    make_ldap_search_group_result_entry group base
      (expand_attribute_wildcards get_schema_manager always_operational requested PublicSchema_get)
      user_filter ignored PublicSchema_get =
    Ok (MkSearchResultEntry (build_group_dn (g_display_name group) (get_group_ou group) base) attrs) /\
    NoDup (map atype attrs).
Proof.
  intros Hstar. unfold make_ldap_search_group_result_entry.
  edestruct (entry_attributes_total
    (fun a => get_group_attribute group base a user_filter ignored PublicSchema_get))
    as (attrs & -> & Hnd).
  - intros k Hk. by eapply get_group_attribute_total, expanded_keys_not_star.
  - by exists attrs.
Qed.

(** ** Properties *)

(** Building the search entry of a user never panics, whatever attributes are
    requested: it yields the user's DN and a list in which every attribute type
    occurs once. *)
Theorem user_entry_total `{Extern} user base requested groups ignored :
  no_star_attribute (u_attributes user) ->
  exists attrs,
    make_ldap_search_user_result_entry user base
      (expand_attribute_wildcards get_schema_manager always_operational requested PublicSchema_get)
      groups ignored PublicSchema_get =
    Ok (MkSearchResultEntry (build_user_dn (u_user_id user) (get_user_ou user) base) attrs) /\
    NoDup (map atype attrs).
Proof. apply user_entry_built. Qed.

Definition demo_user : User :=
  MkUser (MkUserId "bob") (MkEmail "bob@x.org") None 0 "u-1"
    [MkAttribute (MkAttributeName "ou") (VString (Singleton "people"))] 0 0 None.

Lemma user_entry_total_witness :
  exists attrs,
    @make_ldap_search_user_result_entry demo_extern demo_user "dc=com"
      (expand_attribute_wildcards get_schema_manager always_operational ["*"; "+"] PublicSchema_get)
      None [] PublicSchema_get = Ok (MkSearchResultEntry "uid=bob,ou=people,dc=com" attrs) /\
    NoDup (map atype attrs).
Proof. apply (@user_entry_total demo_extern). by repeat constructor. Defined.

(** Likewise for the search entry of a group. *)
Theorem group_entry_total `{Extern} group base requested user_filter ignored :
  no_star_attribute (g_attributes group) ->
  exists attrs,
    make_ldap_search_group_result_entry group base
      (expand_attribute_wildcards get_schema_manager always_operational requested PublicSchema_get)
      user_filter ignored PublicSchema_get =
    Ok (MkSearchResultEntry (build_group_dn (g_display_name group) (get_group_ou group) base) attrs) /\
    NoDup (map atype attrs).
Proof. apply group_entry_built. Qed.

Lemma group_entry_total_witness :
  exists attrs,
    @make_ldap_search_group_result_entry demo_extern (MkGroup 1 (MkGroupName "dev") 0 "g-1" [] [] 0)
      "dc=com"
      (expand_attribute_wildcards get_schema_manager always_operational ["member"] PublicSchema_get)
      None [] PublicSchema_get = Ok (MkSearchResultEntry "cn=dev,ou=groups,dc=com" attrs) /\
    NoDup (map atype attrs).
Proof. apply (@group_entry_total demo_extern). by repeat constructor. Defined.

Lemma memberof_field schema n :
  to_ascii_lowercase n = "memberof" ->
  map_user_field get_schema_manager (AttributeName_from n) schema = UfMemberOf.
Proof.
  intros Hn. unfold map_user_field, AttributeName_from, CaseInsensitiveString_new. rewrite Hn.
  by replace (resolve_attribute get_schema_manager _) with (Some (LgMemberOf, "memberOf"))
    by (vm_compute; reflexivity).
Qed.

Lemma member_field schema n :
  to_ascii_lowercase n = "member" ->
  map_group_field get_schema_manager (AttributeName_from n) schema = GfMember.
Proof.
  intros Hn. unfold map_group_field, AttributeName_from, CaseInsensitiveString_new. rewrite Hn.
  by replace (resolve_attribute get_schema_manager _) with (@None (LogicalAttr * string))
    by (vm_compute; reflexivity).
Qed.

(** The DN a user's [memberOf] attribute reports for a group selects exactly that
    group when it is used in a [memberOf] filter, and the DN a group's [member]
    attribute reports for a user selects that user in a [member] filter. *)
Theorem reported_dns_are_filters `{Extern, LdapExtern} info schema group gu u ou :
  let base := base_dn info in
  wf_base base = true -> no_ou base = true -> base_dn_str info = print_dn base ->
  wf_component (group_name_str (gd_display_name gu)) = true ->
  wf_ou (member_of_group_ou gu) = true ->
  String.eqb (top_ou (member_of_group_ou gu)) "people" ||
    String.eqb (top_ou (member_of_group_ou gu)) "" = false ->
  wf_component (user_id_str u) = true -> wf_ou ou = true ->
  g_users group = [MkGroupMember u ou] ->
  (exists dn, member_of_values (Some [gu]) (base_dn_str info) = [dn] /\
     convert_user_filter info schema (LEquality "memberOf" dn) = Ok (UMemberOf (gd_display_name gu))) /\
  (exists dn, member_values group None (base_dn_str info) = [dn] /\
     convert_group_filter info schema (LEquality "member" dn) = Ok (GMember u)).
Proof.
  intros base Hb Hno Hstr Hg Hgou Htop Hu Hou Hus. pose proof (wf_base_facts base Hb) as [Hne _].
  assert (wf_rdn ("cn", group_name_str (gd_display_name gu)) = true) as Hr1
    by (unfold wf_rdn; simpl; by rewrite Hg).
  assert (wf_rdn ("uid", user_id_str u) = true) as Hr2 by (unfold wf_rdn; simpl; by rewrite Hu).
  subst base. split; eexists; (split; [unfold member_values; rewrite ?Hus; reflexivity|]);
    rewrite Hstr; cbn [convert_user_filter convert_group_filter gm_user_id gm_ou].
  - change (eq_ignore_ascii_case "memberOf" "objectclass") with false. cbv iota.
    unfold user_equality_filter. rewrite memberof_field by done.
    change (eq_ignore_ascii_case (attribute_name_str (AttributeName_from "memberOf")) "logindisabled")
      with false.
    change (eq_ignore_ascii_case (attribute_name_str (AttributeName_from "memberOf")) "sudohost")
      with false. cbv iota. unfold get_group_id_from_distinguished_name_or_plain_name,
      get_group_id_from_distinguished_name.
    pose proof (group_dn_read_back _ _ _ Hg Hgou Hb Hno) as Hback. rewrite Htop in Hback.
    rewrite build_group_dn_print in * by done. rewrite entry_dn_lower, entry_dn_looks_like_dn by done.
    simpl. by rewrite Hback.
  - change (eq_ignore_ascii_case "member" "objectclass") with false. cbv iota.
    unfold group_equality_filter. rewrite member_field by done.
    unfold get_user_id_from_distinguished_name_or_plain_name, get_user_id_from_distinguished_name.
    pose proof (user_dn_read_back _ _ _ Hu Hou Hb Hno) as Hback.
    rewrite build_user_dn_print in * by done. rewrite entry_dn_lower, entry_dn_looks_like_dn by done.
    simpl. by rewrite Hback.
Qed.

Lemma reported_dns_are_filters_witness :
  exists dn, member_of_values (Some [MkGroupDetails 1 (MkGroupName "dev") 0 "g" [] 0]) "dc=com" = [dn] /\
    @convert_user_filter demo_extern demo_ldap_extern demo_info PublicSchema_get
      (LEquality "memberOf" dn) = Ok (UMemberOf (MkGroupName "dev")).
Proof.
  exact (proj1 (@reported_dns_are_filters demo_extern demo_ldap_extern demo_info PublicSchema_get
    (MkGroup 1 (MkGroupName "dev") 0 "g-1" [MkGroupMember (MkUserId "bob") "people"] [] 0)
    (MkGroupDetails 1 (MkGroupName "dev") 0 "g" [] 0) (MkUserId "bob") "people"
    eq_refl eq_refl eq_refl eq_refl eq_refl eq_refl eq_refl eq_refl eq_refl)).
Defined.
