(* ===== verification/Search.v ===== *)
(** * Searching

    [crates/ldap/src/search/scope.rs], [root_dse.rs], [results.rs], [handler.rs],
    [crates/ldap/src/core/user.rs] and [group.rs], and [crates/ldap/src/compare.rs].
    The backend is seen through its two listing functions, as in the source, where
    they are those of [UserRestrictedListerBackendHandler]. *)

From S2P Require Import Prelude Strings Types Schema Access Proto Dn SchemaManager Filters Attributes.


(** ** Scopes (scope.rs) *)

Inductive SearchScope : Type :=
| SRoot
| SContainer
| SLeafUser
| SLeafGroup
| SInvalid
| SUnknown.

#[export] Instance SearchScope_eq_dec : EqDecision SearchScope.
Proof. solve_decision. Defined.

Definition get_search_scope (base_dn dn_parts : list rdn) (ldap_scope : LdapSearchScope)
    (allowed_ous : list string) : SearchScope :=
  if negb (is_subtree dn_parts base_dn) then SInvalid
  else if bool_decide (dn_parts = base_dn) then SRoot
  else if (scope_eqb ldap_scope ScopeOneLevel || scope_eqb ldap_scope ScopeSubtree)
          && (length dn_parts =? length base_dn + 1)%nat then SContainer
  else
    let fallback := if is_container_dn dn_parts base_dn allowed_ous then SContainer else SUnknown in
    if scope_eqb ldap_scope ScopeBase && (length base_dn <? length dn_parts)%nat then
      match get_user_or_group_id_from_distinguished_name (join "," (map format_rdn dn_parts)) base_dn with
      | NUser _ => SLeafUser
      | NGroup _ => SLeafGroup
      | _ => fallback
      end
    else fallback.

Fixpoint ou_matches_filter (ou_str : string) (filter : LdapFilter) : bool :=
  match filter with
  | LEquality field value =>
      let f := to_ascii_lowercase field in
      let v := to_ascii_lowercase value in
      if String.eqb f "ou" then String.eqb (to_ascii_lowercase ou_str) v
      else if String.eqb f "objectclass" then String.eqb v "organizationalunit" || String.eqb v "top"
      else true
  | LPresent field =>
      str_mem (to_ascii_lowercase field) ["ou"; "objectclass"; "hassubordinates"; "structuralobjectclass"]
  | LAnd filters => forallb (ou_matches_filter ou_str) filters
  | LOr filters => existsb (ou_matches_filter ou_str) filters
  | LNot f => negb (ou_matches_filter ou_str f)
  | _ => true
  end.

Section Search.
Context `{Extern, LdapExtern}.

Definition make_ou_entry (ou_str base_dn_str : string) (include_operational_attributes : bool)
  : LdapSearchResultEntry :=
  let rdn_chain := internal_ou_to_ldap_rdn_chain ou_str in
  let ou_part := join "," (map format_rdn rdn_chain) in
  let dn := if String.eqb ou_part "" then base_dn_str else ou_part +:+ ("," +:+ base_dn_str) in
  let leaf_ou_val := from_option snd DEFAULT_PRIMARY_USER_OU (head rdn_chain) in
  MkSearchResultEntry dn
    ([MkPartialAttribute "objectClass" ["top"; "organizationalUnit"];
      MkPartialAttribute "ou" [leaf_ou_val]]
     ++ (if include_operational_attributes
         then [MkPartialAttribute "hasSubordinates" ["TRUE"];
               MkPartialAttribute "structuralObjectClass" ["organizationalUnit"];
               MkPartialAttribute "subschemaSubentry" ["cn=Subschema," +:+ base_dn_str];
               MkPartialAttribute "entryUUID" [uuid_v5_dns dn]]
         else [])).

Definition build_ou_entries (allowed_ous : list string) (base_dn_str : string)
    (include_operational_attributes : bool) : list LdapOp :=
  map (fun ou_str =>
    OpSearchResultEntry (make_ou_entry ou_str base_dn_str include_operational_attributes)) allowed_ous.

(** ** Root DSE and subschema requests (root_dse.rs) *)

Definition root_dse_realm (base_dn : string) : string :=
  let domain := str_to_lowercase
    (join "." (omap (fun part => if starts_with "dc=" part then Some (drop_bytes 3 part) else None)
      (split_on "," base_dn))) in
  str_to_uppercase
    match env_kerb_realm_name with
    | Some s => if String.eqb s "" then str_to_uppercase domain else s
    | None => str_to_uppercase domain
    end.

Definition root_dse_response (base_dn : string) : LdapOp :=
  let realm := root_dse_realm base_dn in
  let full_subschema_dn := "cn=Subschema," +:+ base_dn in
  OpSearchResultEntry (MkSearchResultEntry ""
    [MkPartialAttribute "objectClass" ["top"];
     MkPartialAttribute "vendorName" ["LLDAP"];
     MkPartialAttribute "vendorVersion" ["lldap_" +:+ cargo_pkg_version];
     MkPartialAttribute "supportedLDAPVersion" ["3"];
     MkPartialAttribute "supportedExtension" [OID_PASSWORD_MODIFY; OID_WHOAMI];
     MkPartialAttribute "supportedControl" ["1.2.840.113556.1.4.319"; "1.3.6.1.4.1.4203.1.9.1"];
     MkPartialAttribute "defaultNamingContext" [base_dn];
     MkPartialAttribute "namingContexts" [base_dn];
     MkPartialAttribute "schemaNamingContext" [full_subschema_dn];
     MkPartialAttribute "configurationNamingContext" [base_dn];
     MkPartialAttribute "isGlobalCatalogReady" ["false"];
     MkPartialAttribute "subschemaSubentry" [full_subschema_dn];
     MkPartialAttribute "krb5RealmName" [realm];
     MkPartialAttribute "supportedSASLMechanisms" ["GSSAPI"; "GSS-SPNEGO"; "DIGEST-MD5"];
     MkPartialAttribute "defaultRealm" [realm]]).

Definition is_root_dse_request (request : LdapSearchRequest) : bool :=
  String.eqb (sr_base request) "" && scope_eqb (sr_scope request) ScopeBase
  && match sr_filter request with
     | LPresent attr => eq_ignore_ascii_case attr "objectclass"
     | _ => false
     end.

Definition is_subschema_entry_request (request : LdapSearchRequest) : bool :=
  contains_str "cn=subschema" (to_ascii_lowercase (sr_base request))
  && (scope_eqb (sr_scope request) ScopeBase || scope_eqb (sr_scope request) ScopeSubtree)
  && match sr_filter request with
     | LPresent attr => eq_ignore_ascii_case attr "objectclass"
     | LEquality attr val =>
         eq_ignore_ascii_case attr "objectclass"
         && (String.eqb val "*" || eq_ignore_ascii_case val "top"
             || eq_ignore_ascii_case val "subschema")
     | LAnd filters | LOr filters =>
         existsb (fun f => match f with
                           | LEquality a _ => eq_ignore_ascii_case a "objectclass"
                           | _ => false
                           end) filters
     | _ => true
     end.

(** ** Results (results.rs); the hash set's iteration order is irrelevant, see
    [expand_order_irrelevant] *)

Definition expand (attributes : list string) (schema : PublicSchema) : ExpandedAttributes :=
  expand_attribute_wildcards get_schema_manager always_operational attributes schema.

Definition convert_users_to_ldap_op (users : list UserAndGroups) (attributes : list string)
    (ldap_info : LdapInfo) (schema : PublicSchema) : panics (list LdapOp) :=
  let expanded_attributes := expand attributes schema in
  collect (map (fun u => map_ok OpSearchResultEntry
    (make_ldap_search_user_result_entry (uag_user u) (base_dn_str ldap_info) expanded_attributes
      (uag_groups u) (ignored_user_attributes ldap_info) schema)) users).

Definition convert_groups_to_ldap_op (groups : list Group) (attributes : list string)
    (ldap_info : LdapInfo) (user_filter : option UserId) (schema : PublicSchema)
  : panics (list LdapOp) :=
  let expanded_attributes := expand attributes schema in
  collect (map (fun g => map_ok OpSearchResultEntry
    (make_ldap_search_group_result_entry g (base_dn_str ldap_info) expanded_attributes
      user_filter (ignored_group_attributes ldap_info) schema)) groups).

(** ** Listing (core/user.rs, core/group.rs) *)

Context {S : Type}.
Context (list_users_fn : option UserRequestFilter -> bool -> io S DomainError (list UserAndGroups)).
Context (list_groups_fn : option GroupRequestFilter -> io S DomainError (list Group)).
Context (ldap_info : LdapInfo).

Definition get_user_list (ldap_filter : LdapFilter) (request_groups : bool) (base : string)
    (schema : PublicSchema) : io S LdapError (list UserAndGroups) :=
  let! filters := io_lift (convert_user_filter ldap_info schema ldap_filter) in
  io_map_err (fun e => MkLdapError Other
      ("Error while searching user " +:+ quoted base +:+ ": " +:+ display_error e))
    (list_users_fn (Some filters) request_groups).

Definition get_groups_list (ldap_filter : LdapFilter) (base : string) (schema : PublicSchema)
  : io S LdapError (list Group) :=
  let! filters := io_lift (convert_group_filter ldap_info schema ldap_filter) in
  io_map_err (fun e => MkLdapError Other
      ("Error while listing groups " +:+ quoted base +:+ ": " +:+ display_error e))
    (list_groups_fn (Some filters)).

(** ** [do_search] (handler.rs) *)

Definition includes_operational (attrs : list string) : bool :=
  existsb (fun a => String.eqb a "+" ||
    existsb (eq_ignore_ascii_case a)
      ["hassubordinates"; "structuralobjectclass"; "subschemasubentry"; "createtimestamp";
       "modifytimestamp"; "pwdchangedtime"; "entryuuid"; "memberof"]) attrs.

Definition find_rdn_value (key default : string) (parts : list rdn) : string :=
  from_option snd default (find (fun p => eq_ignore_ascii_case (fst p) key) parts).

Definition root_entry : LdapSearchResultEntry :=
  MkSearchResultEntry (base_dn_str ldap_info)
    [MkPartialAttribute "objectClass" ["top"; "dcObject"; "organization"];
     MkPartialAttribute "dc" [find_rdn_value "dc" "lldap" (base_dn ldap_info)];
     MkPartialAttribute "o" [find_rdn_value "o" "lldap Directory" (base_dn ldap_info)];
     MkPartialAttribute "hasSubordinates" ["TRUE"];
     MkPartialAttribute "structuralObjectClass" ["organization"];
     MkPartialAttribute "subschemaSubentry" ["cn=Subschema," +:+ base_dn_str ldap_info]].

Definition io_panics {A} (r : panics A) : io S failure A := io_lift (map_err Panicked r).
Definition io_fallible {A} (m : io S LdapError A) : io S failure A := io_map_err Fail m.

(** The users, respectively the groups, a filter selects, as search entries. *)
Definition search_users (request : LdapSearchRequest) (filter : LdapFilter)
  : io S failure (list LdapOp) :=
  let! users := io_fallible (get_user_list filter true (sr_base request) PublicSchema_get) in
  io_panics (convert_users_to_ldap_op users (sr_attrs request) ldap_info PublicSchema_get).

Definition search_groups (request : LdapSearchRequest) (filter : LdapFilter)
  : io S failure (list LdapOp) :=
  let! groups := io_fallible (get_groups_list filter (sr_base request) PublicSchema_get) in
  io_panics (convert_groups_to_ldap_op groups (sr_attrs request) ldap_info None PublicSchema_get).

Definition search_root (request : LdapSearchRequest) (allowed_ous : list string)
  : io S failure (list LdapOp) :=
  if scope_eqb (sr_scope request) ScopeBase
  then io_ret [OpSearchResultEntry root_entry; make_search_success]
  else
    let top_level_ous := get_direct_child_ous "" allowed_ous in
    let ous_to_add :=
      if scope_eqb (sr_scope request) ScopeSubtree then allowed_ous else top_level_ous in
    let ous_to_add := List.filter (fun ou => ou_matches_filter ou (sr_filter request)) ous_to_add in
    let results := build_ou_entries ous_to_add (base_dn_str ldap_info)
                     (includes_operational (sr_attrs request)) in
    if scope_eqb (sr_scope request) ScopeSubtree then
      let! user_ops := search_users request (sr_filter request) in
      let! group_ops := search_groups request (sr_filter request) in
      io_ret ((results ++ user_ops) ++ group_ops ++ [make_search_success])
    else io_ret (results ++ [make_search_success]).

Definition under_base (request : LdapSearchRequest) (expected_rdn_count : nat) (op : LdapOp) : bool :=
  match op with
  | OpSearchResultEntry e =>
      match parse_distinguished_name (e_dn e) with
      | Ok parts =>
          let under := ends_with (to_ascii_lowercase (sr_base request)) (to_ascii_lowercase (e_dn e)) in
          if scope_eqb (sr_scope request) ScopeOneLevel
          then under && (length parts =? expected_rdn_count)%nat
          else under
      | Err _ => false
      end
  | _ => true
  end.

Definition search_container (request : LdapSearchRequest) (dn_parts : list rdn)
    (allowed_ous : list string) : io S failure (list LdapOp) :=
  let include_op := includes_operational (sr_attrs request) in
  let internal_ou := get_internal_ou_from_dn_parts dn_parts in
  if scope_eqb (sr_scope request) ScopeBase then
    io_ret ((if ou_matches_filter internal_ou (sr_filter request)
             then [OpSearchResultEntry (make_ou_entry internal_ou (base_dn_str ldap_info) include_op)]
             else []) ++ [make_search_success])
  else
    let child_ous :=
      if scope_eqb (sr_scope request) ScopeOneLevel then get_direct_child_ous internal_ou allowed_ous
      else
        let curr_l := to_ascii_lowercase internal_ou in
        List.filter (fun ou => negb (String.eqb curr_l "")
                               && starts_with (curr_l +:+ "\") (to_ascii_lowercase ou)) allowed_ous in
    let child_ous := List.filter (fun ou => ou_matches_filter ou (sr_filter request)) child_ous in
    let results := build_ou_entries child_ous (base_dn_str ldap_info) include_op in
    let! user_ops := search_users request (sr_filter request) in
    let! group_ops := search_groups request (sr_filter request) in
    let keep := List.filter (under_base request (length dn_parts + 1)) in
    io_ret ((results ++ keep user_ops) ++ keep group_ops ++ [make_search_success]).

Definition is_entry_at (base : string) (op : LdapOp) : bool :=
  match op with
  | OpSearchResultEntry e => String.eqb (to_ascii_lowercase (e_dn e)) (to_ascii_lowercase base)
  | _ => true
  end.

Definition no_such_object {A} : io S failure A := io_fail (Fail (MkLdapError NoSuchObject "")).

Definition search_leaf_user (request : LdapSearchRequest) : io S failure (list LdapOp) :=
  match get_user_id_from_distinguished_name (sr_base request) (base_dn ldap_info)
          (base_dn_str ldap_info) with
  | Err _ => io_ret [make_search_success]
  | Ok user_id =>
      let specific_filter := LEquality "uid" (user_id_str user_id) in
      let! exists_users :=
        io_fallible (get_user_list specific_filter true (sr_base request) PublicSchema_get) in
      match exists_users with
      | [] => no_such_object
      | _ =>
          let! ops := search_users request (sr_filter request) in
          io_ret (List.filter (is_entry_at (sr_base request)) ops ++ [make_search_success])
      end
  end.

Definition search_leaf_group (request : LdapSearchRequest) : io S failure (list LdapOp) :=
  match get_group_id_from_distinguished_name (sr_base request) (base_dn ldap_info)
          (base_dn_str ldap_info) with
  | Err _ => io_ret [make_search_success]
  | Ok group_name =>
      let group_rdn_attr := get_canonical_name get_schema_manager "cn" in
      let specific_filter := LEquality group_rdn_attr (group_name_str group_name) in
      let! exists_groups :=
        io_fallible (get_groups_list specific_filter (sr_base request) PublicSchema_get) in
      match exists_groups with
      | [] => no_such_object
      | _ =>
          let! ops := search_groups request (sr_filter request) in
          io_ret (List.filter (is_entry_at (sr_base request)) ops ++ [make_search_success])
      end
  end.

Definition do_search (request : LdapSearchRequest) (allowed_ous : list string)
  : io S failure (list LdapOp) :=
  match parse_distinguished_name (sr_base request) with
  | Err _ => io_ret [make_search_success]
  | Ok dn_parts =>
      match get_search_scope (base_dn ldap_info) dn_parts (sr_scope request) allowed_ous with
      | SRoot => search_root request allowed_ous
      | SContainer => search_container request dn_parts allowed_ous
      | SLeafUser => search_leaf_user request
      | SLeafGroup => search_leaf_group request
      | SInvalid | SUnknown => io_ret [make_search_success]
      end
  end.
End Search.

(** ** Compare (compare.rs) *)

Definition entries_of (ops : list LdapOp) : list LdapSearchResultEntry :=
  omap (fun op => match op with OpSearchResultEntry e => Some e | _ => None end) ops.

Definition compare (request : LdapCompareRequest) (search_results : list LdapOp) (base_dn : string)
  : list LdapOp :=
  let attr_name := AttributeName_from (cr_atype request) in
  match find (fun e => eq_ignore_ascii_case (e_dn e) (cr_dn request)) (entries_of search_results) with
  | Some entry =>
      let attribute_exists := existsb (fun attr =>
        attribute_name_eqb (AttributeName_from (atype attr)) attr_name
        && str_mem (cr_val request) (vals attr)) (e_attributes entry) in
      [OpCompareResult (MkLdapResultOp (if attribute_exists then CompareTrue else CompareFalse)
        (cr_dn request) "")]
  | None => [OpCompareResult (MkLdapResultOp NoSuchObject base_dn "")]
  end.

(** ** Where the entries of a search come from *)

Section SearchLemmas.
Context `{Extern, LdapExtern} {S : Type}.
Context (lu : option UserRequestFilter -> bool -> io S DomainError (list UserAndGroups)).
Context (lg : option GroupRequestFilter -> io S DomainError (list Group)).
Context (info : LdapInfo).

(** A property of the backend's state that listing keeps: that it is the state the
    search began in, for a backend whose listings only read. *)
Context (Inv : S -> Prop).
Context (lu_keeps : forall f gg s us s', Inv s -> lu f gg s = (Ok us, s') -> Inv s').
Context (lg_keeps : forall f s gs s', Inv s -> lg f s = (Ok gs, s') -> Inv s').

(** The entry of a user, respectively a group, the backend listed for some filter. *)
Definition listed_user (e : LdapSearchResultEntry) : Prop :=
  exists f s s' us u, Inv s /\ lu (Some f) true s = (Ok us, s') /\ u ∈ us /\
    e_dn e = build_user_dn (u_user_id (uag_user u)) (get_user_ou (uag_user u)) (base_dn_str info).

Definition listed_group (e : LdapSearchResultEntry) : Prop :=
  exists f s s' gs g, Inv s /\ lg (Some f) s = (Ok gs, s') /\ g ∈ gs /\
    e_dn e = build_group_dn (g_display_name g) (get_group_ou g) (base_dn_str info).

Definition is_ou_entry (e : LdapSearchResultEntry) : Prop :=
  exists ou op, e = make_ou_entry ou (base_dn_str info) op.

(** A list of entries that all satisfy [P]. *)
Definition entries_in (P : LdapSearchResultEntry -> Prop) (ops : list LdapOp) : Prop :=
  Forall (fun op => exists e, op = OpSearchResultEntry e /\ P e) ops.

Lemma entries_in_filter P p ops : entries_in P ops -> entries_in P (List.filter p ops).
Proof.
  unfold entries_in. induction 1; simpl; [constructor|]. case_match; [by constructor|done].
Qed.

Lemma entries_in_impl (P Q : LdapSearchResultEntry -> Prop) ops :
  (forall e, P e -> Q e) -> entries_in P ops -> entries_in Q ops.
Proof. intros HPQ Hops. eapply Forall_impl; [exact Hops|]. naive_solver. Qed.

Lemma convert_users_entries users attrs ops :
  convert_users_to_ldap_op users attrs info PublicSchema_get = Ok ops ->
  entries_in (fun e => exists u, u ∈ users /\
    e_dn e = build_user_dn (u_user_id (uag_user u)) (get_user_ou (uag_user u)) (base_dn_str info)) ops.
Proof.
  unfold convert_users_to_ldap_op. generalize (expand attrs PublicSchema_get) as ex. intros ex HF%collect_map_Ok.
  induction HF as [|u op users ops Hop HF IH]; constructor.
  - apply map_ok_Ok in Hop as (e & He & <-). exists e. split; [done|]. exists u. split; [by left|].
    unfold make_ldap_search_user_result_entry in He. by apply result_bind_Ok in He as (a & _ & [= <-]).
  - eapply entries_in_impl; [|exact IH]. intros e (x & Hx & He). exists x. split; [by right|done].
Qed.

Lemma convert_groups_entries groups attrs uf ops :
  convert_groups_to_ldap_op groups attrs info uf PublicSchema_get = Ok ops ->
  entries_in (fun e => exists g, g ∈ groups /\
    e_dn e = build_group_dn (g_display_name g) (get_group_ou g) (base_dn_str info)) ops.
Proof.
  unfold convert_groups_to_ldap_op. generalize (expand attrs PublicSchema_get) as ex. intros ex HF%collect_map_Ok.
  induction HF as [|u op users ops Hop HF IH]; constructor.
  - apply map_ok_Ok in Hop as (e & He & <-). exists e. split; [done|]. exists u. split; [by left|].
    unfold make_ldap_search_group_result_entry in He. by apply result_bind_Ok in He as (a & _ & [= <-]).
  - eapply entries_in_impl; [|exact IH]. intros e (x & Hx & He). exists x. split; [by right|done].
Qed.

Lemma search_users_entries req f s ops s' :
  Inv s -> search_users lu info req f s = (Ok ops, s') -> Inv s' /\ entries_in listed_user ops.
Proof.
  intros Hi Hs. unfold search_users, io_fallible, get_user_list, io_panics in Hs. io_inv Hs.
  apply map_err_Ok, convert_users_entries in Hs. split; [eauto|]. eapply entries_in_impl; [|exact Hs].
  intros e (u & Hu & He). by repeat eexists.
Qed.

Lemma search_groups_entries req f s ops s' :
  Inv s -> search_groups lg info req f s = (Ok ops, s') -> Inv s' /\ entries_in listed_group ops.
Proof.
  intros Hi Hs. unfold search_groups, io_fallible, get_groups_list, io_panics in Hs. io_inv Hs.
  apply map_err_Ok, convert_groups_entries in Hs. split; [eauto|]. eapply entries_in_impl; [|exact Hs].
  intros e (u & Hu & He). by repeat eexists.
Qed.

Lemma ou_entries ous op : entries_in is_ou_entry (build_ou_entries ous (base_dn_str info) op).
Proof.
  unfold entries_in, build_ou_entries. induction ous; simpl; constructor; [|done].
  eexists. split; [done|]. by repeat eexists.
Qed.

(** What an entry of a search result is. *)
Definition search_entry (e : LdapSearchResultEntry) : Prop :=
  e = root_entry info \/ is_ou_entry e \/ listed_user e \/ listed_group e.

Lemma entries_as_search (P : LdapSearchResultEntry -> Prop) l :
  (forall e, P e -> is_ou_entry e \/ listed_user e \/ listed_group e) ->
  entries_in P l -> entries_in search_entry l.
Proof. intros HP. apply entries_in_impl. unfold search_entry. naive_solver. Qed.

Lemma users_as_search req f s ops s' :
  Inv s -> search_users lu info req f s = (Ok ops, s') -> Inv s' /\ entries_in search_entry ops.
Proof.
  intros Hi (Hi' & Ho)%search_users_entries; [|done]. split; [done|].
  eapply entries_as_search; [|exact Ho]. tauto.
Qed.

Lemma groups_as_search req f s ops s' :
  Inv s -> search_groups lg info req f s = (Ok ops, s') -> Inv s' /\ entries_in search_entry ops.
Proof.
  intros Hi (Hi' & Ho)%search_groups_entries; [|done]. split; [done|].
  eapply entries_as_search; [|exact Ho]. tauto.
Qed.

Lemma ous_as_search ous op : entries_in search_entry (build_ou_entries ous (base_dn_str info) op).
Proof. eapply entries_as_search; [|apply ou_entries]. tauto. Qed.

Lemma search_root_shape req ous s ops s' :
  Inv s -> search_root lu lg info req ous s = (Ok ops, s') ->
  exists l, ops = l ++ [make_search_success] /\ entries_in search_entry l.
Proof.
  unfold search_root. intros Hi Hs. case_match.
  { io_inv Hs. exists [OpSearchResultEntry (root_entry info)]. split; [done|].
    constructor; [|constructor]. eexists. split; [done|]. by left. }
  case_match; io_inv Hs.
  - apply users_as_search in Hm as [Hi1 Hu]; [|done]. apply groups_as_search in Hm0 as [_ Hg]; [|done].
    eexists. split; [apply app_assoc|].
    apply Forall_app. split; [apply Forall_app; split; [apply ous_as_search|done]|done].
  - eexists. split; [done|]. apply ous_as_search.
Qed.

Lemma search_container_shape req parts ous s ops s' :
  Inv s -> search_container lu lg info req parts ous s = (Ok ops, s') ->
  exists l, ops = l ++ [make_search_success] /\ entries_in search_entry l.
Proof.
  unfold search_container. intros Hi Hs. case_match.
  { io_inv Hs. eexists. split; [done|]. case_match; [|constructor]. constructor; [|constructor].
    eexists. split; [done|]. right. left. by repeat eexists. }
  io_inv Hs. apply users_as_search in Hm as [Hi1 Hu]; [|done].
  apply groups_as_search in Hm0 as [_ Hg]; [|done]. eexists. split; [apply app_assoc|].
  apply Forall_app. split; [apply Forall_app; split; [apply ous_as_search|]|]; by apply entries_in_filter.
Qed.

(** The lookups that decide whether the entry exists keep the invariant too. *)
Lemma user_lookup_keeps f gg b sc s us s' :
  Inv s -> io_fallible (get_user_list lu info f gg b sc) s = (Ok us, s') -> Inv s'.
Proof. unfold io_fallible, get_user_list. intros Hi Hs. io_inv Hs. eauto. Qed.

Lemma group_lookup_keeps f b sc s gs s' :
  Inv s -> io_fallible (get_groups_list lg info f b sc) s = (Ok gs, s') -> Inv s'.
Proof. unfold io_fallible, get_groups_list. intros Hi Hs. io_inv Hs. eauto. Qed.

Lemma search_leaf_shape req s ops s' :
  Inv s ->
  search_leaf_user lu info req s = (Ok ops, s') \/ search_leaf_group lg info req s = (Ok ops, s') ->
  exists l, ops = l ++ [make_search_success] /\
    entries_in (fun e => search_entry e /\
      to_ascii_lowercase (e_dn e) = to_ascii_lowercase (sr_base req)) l.
Proof.
  intros Hi. assert (forall l, entries_in search_entry l -> entries_in (fun e => search_entry e /\
      to_ascii_lowercase (e_dn e) = to_ascii_lowercase (sr_base req))
    (List.filter (is_entry_at (sr_base req)) l)) as Hat.
  { induction 1 as [|op l (e & -> & He) _ IH]; simpl; [constructor|].
    case_match eqn:E; [|done]. apply String.eqb_eq in E. constructor; [|done]. eauto. }
  intros [Hs|Hs]; [unfold search_leaf_user in Hs|unfold search_leaf_group in Hs];
    (case_match; [|io_inv Hs; exists []; split; [done|constructor]]);
    cbv zeta in Hs; apply io_bind_Ok in Hs as (ex & s1 & Hex & Hs);
    [apply user_lookup_keeps in Hex; [|exact Hi]|apply group_lookup_keeps in Hex; [|exact Hi]];
    (destruct ex; [discriminate Hs|]); io_inv Hs; (eexists; split; [reflexivity|]); apply Hat.
  - by eapply users_as_search.
  - by eapply groups_as_search.
Qed.

Lemma do_search_shape req ous s ops s' :
  Inv s -> do_search lu lg info req ous s = (Ok ops, s') ->
  exists l, ops = l ++ [make_search_success] /\ entries_in search_entry l.
Proof.
  intros Hi. assert (forall (s0 s1 : S) ops', io_ret (E:=failure) [make_search_success] s0 = (Ok ops', s1) ->
    exists l, ops' = l ++ [make_search_success] /\ entries_in search_entry l) as Hempty.
  { intros s0 s1 ops' Hs. io_inv Hs. exists []. split; [done|constructor]. }
  unfold do_search. intros Hs. case_match; [|by eapply Hempty].
  case_match; try (by eapply Hempty).
  - by eapply search_root_shape.
  - by eapply search_container_shape.
  - destruct (search_leaf_shape req s ops s') as (l & -> & Hl); [done|by left|].
    exists l. split; [done|]. eapply entries_in_impl; [|exact Hl]. naive_solver.
  - destruct (search_leaf_shape req s ops s') as (l & -> & Hl); [done|by right|].
    exists l. split; [done|]. eapply entries_in_impl; [|exact Hl]. naive_solver.
Qed.
End SearchLemmas.

(** ** The listing contract a backend offers *)

(** A backend's state shows a directory: the ids of its users, and who is a member of
    the group of an id and name.  Listing only reads it; every user (group) listed
    for a filter is one of the directory and satisfies the filter, for a meaning of the
    atoms in which [UserId] and [Member] test the user id and the membership. *)
Class ListerLaws {S V} (h : BackendHandler S) (view : S -> V) (has_user : V -> UserId -> Prop)
    (has_member : V -> GroupId -> GroupName -> UserId -> Prop) := {
  list_users_reads f gg s us s' :
    list_users (BackendHandler := h) f gg s = (Ok us, s') -> view s' = view s;
  list_groups_reads f s gs s' :
    list_groups (BackendHandler := h) f s = (Ok gs, s') -> view s' = view s;
  list_users_sound s f gg us s' :
    list_users (BackendHandler := h) (Some f) gg s = (Ok us, s') ->
    Forall (fun u => has_user (view s) (u_user_id (uag_user u)) /\ exists atom,
      (forall id, atom (UUserId id) = Some (user_id_eqb (u_user_id (uag_user u)) id)) /\
      eval_user atom f = Some true) us;
  list_groups_sound s f gs s' :
    list_groups (BackendHandler := h) (Some f) s = (Ok gs, s') ->
    Forall (fun g =>
      Forall (fun m => has_member (view s) (g_id g) (g_display_name g) (gm_user_id m)) (g_users g) /\
      exists atom,
      (forall id, atom (GMember id) =
        Some (existsb (fun m => user_id_eqb (gm_user_id m) id) (g_users g))) /\
      eval_group atom f = Some true) gs
}.

Lemma and3_true a b : and3 a b = Some true <-> a = Some true /\ b = Some true.
Proof. destruct a as [[]|], b as [[]|]; naive_solver. Qed.

Section Restricted.
Context `{Extern, LdapExtern} {S V : Type} (lister : UserRestrictedLister S).
Context {view : S -> V} {has_user : V -> UserId -> Prop}.
Context {has_member : V -> GroupId -> GroupName -> UserId -> Prop}.
Context `{!ListerLaws (rl_handler lister) view has_user has_member}.
Context (me : UserId) (Hme : rl_user_filter lister = Some me).

Lemma restricted_users_are_me f gg s us s' :
  restricted_list_users lister (Some f) gg s = (Ok us, s') ->
  Forall (fun u => u_user_id (uag_user u) = me /\ has_user (view s) me) us.
Proof.
  unfold restricted_list_users, restrict_user_filter. rewrite Hme. simpl.
  intros Hs%list_users_sound. eapply Forall_impl; [exact Hs|].
  intros u (Hst & atom & Hid & Ha). simpl in Ha. rewrite !and3_true, Hid in Ha.
  destruct Ha as (_ & [= Ha] & _). apply user_id_eqb_eq in Ha. by rewrite Ha in *.
Qed.

Lemma restricted_groups_are_mine f s gs s' :
  restricted_list_groups lister (Some f) s = (Ok gs, s') ->
  Forall (fun g => has_member (view s) (g_id g) (g_display_name g) me) gs.
Proof.
  unfold restricted_list_groups, restrict_group_filter. rewrite Hme. simpl.
  intros Hs%list_groups_sound. eapply Forall_impl; [exact Hs|].
  intros g (Hst & atom & Hid & Ha). simpl in Ha. rewrite !and3_true, Hid in Ha.
  destruct Ha as (_ & [= Ha] & _). apply existsb_elem in Ha as (m & Hm & Hu).
  apply user_id_eqb_eq in Hu. rewrite Forall_forall in Hst. rewrite <- Hu. by apply Hst.
Qed.

(** What a search through a restricted lister answers: besides the root and the OU
    containers, the entry of the user itself, and entries of groups of the directory
    it is a member of. *)
Lemma restricted_search_entries info req ous s s' ops e :
  do_search (restricted_list_users lister) (restricted_list_groups lister) info req ous s = (Ok ops, s') ->
  e ∈ entries_of ops ->
  e = root_entry info \/ is_ou_entry info e \/
  (has_user (view s) me /\ exists ou, e_dn e = build_user_dn me ou (base_dn_str info)) \/
  (exists gid name ou, has_member (view s) gid name me /\
     e_dn e = build_group_dn name ou (base_dn_str info)).
Proof.
  intros Hs He. apply (do_search_shape _ _ _ (fun s0 => view s0 = view s)) in Hs as (l & -> & Hl);
    [|intros f gg s0 us s1 <- Hl; exact (list_users_reads (ListerLaws := ListerLaws0) _ _ _ _ _ Hl)
     |intros f s0 gs s1 <- Hl; exact (list_groups_reads (ListerLaws := ListerLaws0) _ _ _ _ Hl)|done].
  unfold entries_of in He. rewrite omap_app in He. simpl in He. rewrite app_nil_r in He.
  induction Hl as [|op l (e' & -> & He') _ IH]; simpl in *; [by apply elem_of_nil in He|].
  apply elem_of_cons in He as [->|He]; [|auto].
  destruct He' as [?|[?|[(f & s0 & s1 & us & u & Hi & Hu & Hin & Hdn)|(f & s0 & s1 & gs & g & Hi & Hg & Hin & Hdn)]]];
    auto; right; right; [left|right].
  - apply restricted_users_are_me in Hu. rewrite Forall_forall in Hu. rewrite <- Hi.
    destruct (Hu u Hin) as [Hme' Hst]. rewrite Hme' in Hdn. eauto.
  - apply restricted_groups_are_mine in Hg. rewrite Forall_forall in Hg. rewrite <- Hi. eauto 8.
Qed.
End Restricted.

(** ** Properties *)

(** A successful search answers with entries only, closed by exactly one
    [SearchResultDone] with code [Success]. *)
Theorem search_answer_shape `{Extern, LdapExtern} {S} lu lg info req ous (s s' : S) ops :
  do_search lu lg info req ous s = (Ok ops, s') ->
  exists entries, ops = map OpSearchResultEntry entries ++ [make_search_success].
Proof.
  intros Hs. apply (do_search_shape _ _ _ (fun _ => True)) in Hs as (l & -> & Hl); [|done..].
  unfold entries_in in Hl.
  assert (exists es, l = map OpSearchResultEntry es) as [es ->]; [|by eexists].
  induction Hl as [|op l (e & -> & _) _ [es ->]]; [by exists [] | by exists (e :: es)].
Qed.

Definition demo_list_users (users : list UserAndGroups) (f : option UserRequestFilter) (gg : bool)
  : io unit DomainError (list UserAndGroups) := io_ret users.
Definition demo_list_groups (f : option GroupRequestFilter) : io unit DomainError (list Group) :=
  io_ret [].

Definition demo_request (base : string) (scope : LdapSearchScope) : LdapSearchRequest :=
  MkSearchRequest base scope (LPresent "objectClass") ["uid"].

Lemma search_answer_shape_witness :
  exists entries,
    [OpSearchResultEntry (MkSearchResultEntry "uid=bob,ou=people,dc=com"
       [MkPartialAttribute "uid" ["bob"]]); make_search_success] =
    map OpSearchResultEntry entries ++ [make_search_success].
Proof.
  apply (@search_answer_shape demo_extern demo_ldap_extern unit
    (demo_list_users [MkUserAndGroups demo_user None]) demo_list_groups demo_info
    (demo_request "ou=people,dc=com" ScopeOneLevel) ["people"; "groups"] tt tt).
  vm_compute. reflexivity.
Defined.

(** A base search at the DN of a user or group returns only entries with exactly
    that DN. *)
Theorem leaf_search_exact `{Extern, LdapExtern} {S} lu lg info req ous (s s' : S) ops parts :
  parse_distinguished_name (sr_base req) = Ok parts ->
  get_search_scope (base_dn info) parts (sr_scope req) ous = SLeafUser \/
  get_search_scope (base_dn info) parts (sr_scope req) ous = SLeafGroup ->
  do_search lu lg info req ous s = (Ok ops, s') ->
  Forall (fun e => to_ascii_lowercase (e_dn e) = to_ascii_lowercase (sr_base req)) (entries_of ops).
Proof.
  intros Hp Hscope Hs. unfold do_search in Hs. rewrite Hp in Hs.
  assert (search_leaf_user lu info req s = (Ok ops, s') \/
    search_leaf_group lg info req s = (Ok ops, s')) as Hleaf
    by (destruct Hscope as [E|E]; rewrite E in Hs; eauto).
  apply (search_leaf_shape lu lg info (fun _ => True)) in Hleaf as (l & -> & Hl); [|done..].
  unfold entries_of. rewrite omap_app. simpl. rewrite app_nil_r.
  clear Hs. induction Hl as [|op l (e & -> & _ & He) _ IH]; simpl; [apply Forall_nil_2|].
  by apply Forall_cons_2.
Qed.

Lemma leaf_search_exact_witness :
  Forall (fun e => to_ascii_lowercase (e_dn e) = "uid=bob,ou=people,dc=com")
    [MkSearchResultEntry "uid=bob,ou=people,dc=com" [MkPartialAttribute "uid" ["bob"]]].
Proof.
  apply (@leaf_search_exact demo_extern demo_ldap_extern unit
    (demo_list_users [MkUserAndGroups demo_user None]) demo_list_groups demo_info
    (demo_request "UID=Bob,ou=people,dc=com" ScopeBase) ["people"; "groups"] tt tt
    [OpSearchResultEntry (MkSearchResultEntry "uid=bob,ou=people,dc=com"
       [MkPartialAttribute "uid" ["bob"]]); make_search_success]
    [("uid", "bob"); ("ou", "people"); ("dc", "com")]); vm_compute; auto.
Defined.

(** A small directory with one user and no groups, to evaluate the definitions on. *)
Definition demo_atom (u : User) (f : UserRequestFilter) : option bool :=
  match f with
  | UUserId id => Some (user_id_eqb (u_user_id u) id)
  | _ => None
  end.

Definition demo_backend (users : list User) : BackendHandler unit := {|
  bind _ := io_fail (AuthenticationError "");
  list_users f _ := io_ret (map (fun u => MkUserAndGroups u (Some []))
    (List.filter (fun u => match f with
                           | Some f => bool_decide (eval_user (demo_atom u) f = Some true)
                           | None => true
                           end) users));
  list_groups _ := io_ret [];
  get_user_details id := io_lift (ok_or (find (fun u => user_id_eqb (u_user_id u) id) users)
    (EntityNotFound ""));
  get_user_groups _ := io_ret [];
  get_group_details _ := io_fail (EntityNotFound "");
  get_schema := io_ret PublicSchema_get;
  get_allowed_ous := io_ret ["people"; "groups"];
  create_user _ := io_fail (InternalError "");
  update_user _ := io_ret tt;
  delete_user _ := io_fail (InternalError "");
  add_user_to_group _ _ := io_fail (InternalError "");
  remove_user_from_group _ _ := io_fail (InternalError "");
  create_group _ := io_fail (InternalError "");
  update_group _ := io_fail (InternalError "");
  delete_group _ := io_fail (InternalError "");
  register_password _ _ := io_ret tt;
  ensure_kerberos_principal_consistency _ _ := io_ret tt;
  sync_kerberos_principal _ _ := io_ret tt;
  delete_kerberos_principal _ := io_ret tt
|}.

#[export] Instance demo_backend_laws users :
  ListerLaws (demo_backend users) id (fun _ u => u ∈ map u_user_id users) (fun _ _ _ _ => False).
Proof.
  split; simpl; intros; match goal with H : io_ret _ _ = _ |- _ => io_inv H end; [done..| |constructor].
  apply Forall_fmap, Forall_forall.
  intros u Hu. apply list_elem_of_In, filter_In in Hu as [Hin Hu]. simpl. split.
  - by apply list_elem_of_fmap_2, list_elem_of_In.
  - exists (demo_atom u). split; [done|]. by apply bool_decide_eq_true in Hu.
Qed.

Definition demo_alice : User :=
  MkUser (MkUserId "alice") (MkEmail "alice@x.org") None 0 "u-2" [] 0 0 None.

(** A one-level search below a child of the base that is no OU (say
    [cn=printers,dc=com]) is answered with the top-level OU entries, which do not
    lie below it: any single extra component is taken for a container. *)
Theorem non_ou_child_is_container `{Extern, LdapExtern} {S} lu lg info p base attrs ous ou (s s' : S) ops :
  parse_distinguished_name base = Ok (p :: base_dn info) ->
  no_ou (p :: base_dn info) = true ->
  ou ∈ ous -> contains_char "\" (to_ascii_lowercase ou) = false ->
  do_search lu lg info (MkSearchRequest base ScopeOneLevel (LPresent "objectClass") attrs) ous s
    = (Ok ops, s') ->
  OpSearchResultEntry (make_ou_entry ou (base_dn_str info) (includes_operational attrs)) ∈ ops.
Proof.
  intros Hp Hno Hou Hbs Hs. unfold do_search in Hs. cbn [sr_base sr_scope sr_filter] in Hs.
  rewrite Hp in Hs.
  assert (get_search_scope (base_dn info) (p :: base_dn info) ScopeOneLevel ous = SContainer) as Hsc.
  { unfold get_search_scope. pose proof (is_subtree_app [p] (base_dn info)) as Hsub.
    simpl in Hsub. rewrite Hsub. cbn [negb].
    rewrite bool_decide_eq_false_2 by (intros E%(f_equal length); simpl in E; lia).
    by rewrite (proj2 (Nat.eqb_eq _ _)) by (simpl; lia). }
  rewrite Hsc in Hs. unfold search_container in Hs. cbn [sr_base sr_scope sr_filter sr_attrs] in Hs.
  assert (get_internal_ou_from_dn_parts (p :: base_dn info) = "") as Hint.
  { unfold get_internal_ou_from_dn_parts. by rewrite filter_ou_none. }
  rewrite Hint in Hs. change (scope_eqb ScopeOneLevel ScopeBase) with false in Hs.
  change (scope_eqb ScopeOneLevel ScopeOneLevel) with true in Hs. cbv zeta iota in Hs. io_inv Hs.
  apply elem_of_app. left. apply elem_of_app. left. apply list_elem_of_fmap.
  exists ou. split; [done|]. apply list_elem_of_In, filter_In. split; [|done].
  apply filter_In. split; [by apply list_elem_of_In|]. simpl. by rewrite Hbs.
Qed.

Lemma non_ou_child_is_container_witness :
  OpSearchResultEntry (@make_ou_entry demo_extern "people" "dc=com" false) ∈
  [OpSearchResultEntry (MkSearchResultEntry "ou=people,dc=com"
     [MkPartialAttribute "objectClass" ["top"; "organizationalUnit"];
      MkPartialAttribute "ou" ["people"]]); make_search_success].
Proof.
  apply (@non_ou_child_is_container demo_extern demo_ldap_extern unit (demo_list_users [])
    demo_list_groups demo_info ("cn", "printers") "cn=printers,dc=com" [] ["people"] "people" tt tt);
    vm_compute; try reflexivity. by left.
Defined.
