(* ===== verification/LdapWrite.v ===== *)
(** * Operations that write

    [crates/ldap/src/password.rs] (bind and password modification), [modify.rs],
    [create.rs] and [delete.rs].  The handlers of [AccessControlledBackendHandler]
    are the options of [Access]; [register_password] of the backend is the OPAQUE
    registration [change_password] runs. *)

From S2P Require Import Prelude Strings Types Schema Access Proto Dn SchemaManager Filters Attributes.


Section Password.
Context `{Extern, LdapExtern} {S : Type} (handler : BackendHandler S) (ldap_info : LdapInfo).

(** ** Bind *)

(** [password::do_bind] *)
Definition authenticate (request : LdapBindRequest) : io S LdapError UserId :=
  if String.eqb (lb_dn request) "" then
    io_fail (MkLdapError InappropriateAuthentication "Anonymous bind not allowed")
  else
    match get_user_id_from_distinguished_name (to_ascii_lowercase (lb_dn request))
            (base_dn ldap_info) (base_dn_str ldap_info) with
    | Err e => io_fail (MkLdapError NamingViolation (message e))
    | Ok user_id =>
        match lb_cred request with
        | Simple password =>
            let! _ := io_map_err (fun _ => MkLdapError InvalidCredentials "")
              (bind (MkBindRequest user_id password)) in
            io_ret user_id
        | Sasl => io_fail (MkLdapError UnwillingToPerform "SASL not supported")
        end
    end.

(** ** Password modification *)

Definition change_password (user : UserId) (password : string) : io S DomainError unit :=
  register_password user password.

Definition kerberos_sync_enabled (user : User) : bool :=
  existsb (fun a => String.eqb (attribute_name_str (attr_name a)) "kerberossync"
                    && bool_decide (attr_value a = VInteger (Singleton 1%Z))) (u_attributes user).

Definition is_lldap_admin (groups : list GroupDetails) : bool :=
  existsb (fun g => group_name_eqb (gd_display_name g) (MkGroupName "lldap_admin")) groups.

Definition cannot_modify_password {A} (v : ValidationResults) (uid : UserId) : io S LdapError A :=
  io_fail (MkLdapError InsufficentAccessRights
    ("User `" +:+ user_id_str (vr_user v) +:+ "` cannot modify the password of user `"
     +:+ user_id_str uid +:+ "`")).

(** [sync_kerberos_principal] and [ensure_kerberos_principal_consistency] after a
    password change: failures are logged only. *)
Definition kerberos_after_password_change (uid : UserId) (password : string) : io S LdapError unit :=
  let! _ := io_try (E' := LdapError) (sync_kerberos_principal (user_id_str uid) password) in
  let! _ := io_try (E' := LdapError) (ensure_kerberos_principal_consistency uid true) in
  io_ret tt.

Definition modify_password_of (credentials : ValidationResults) (uid : UserId) (password : string)
  : io S failure (list LdapOp) :=
  match get_readable_handler handler credentials uid with
  | None => io_fail (Panicked "Unexpected permission error")
  | Some readable =>
      io_map_err Fail
        (let! groups := io_map_err (fun e => MkLdapError OperationsError
             ("Internal error while requesting user's groups: " +:+ debug_error_pretty e))
           (@get_user_groups S readable uid) in
         if negb (can_change_password credentials uid (is_lldap_admin groups))
         then cannot_modify_password credentials uid
         else
           let! _ := io_map_err (fun e => MkLdapError Other
               ("Error while changing the password: " +:+ debug_error_pretty e))
             (change_password uid password) in
           let! user_details := io_map_err (fun e => MkLdapError OperationsError
               ("Failed to fetch user for Kerberos sync: " +:+ display_error e))
             (@get_user_details S readable uid) in
           let! _ := if kerberos_sync_enabled user_details
                     then kerberos_after_password_change uid password else io_ret tt in
           io_ret [make_extended_response Success ""])
  end.

Definition do_password_modification (credentials : ValidationResults)
    (request : LdapPasswordModifyRequest) : io S failure (list LdapOp) :=
  match pm_user_identity request, pm_new_password request with
  | Some user, Some password =>
      match get_user_id_from_distinguished_name (to_ascii_lowercase user)
              (base_dn ldap_info) (base_dn_str ldap_info) with
      | Ok uid => modify_password_of credentials uid password
      | Err e => io_fail (Fail (MkLdapError InvalidDNSyntax ("Invalid username: " +:+ message e)))
      end
  | _, _ => io_fail (Fail (MkLdapError ConstraintViolation "Missing either user_id or password"))
  end.
End Password.

(** ** Modify *)

Definition debug_modify_type (t : LdapModifyType) : string :=
  match t with
  | MAdd => "Add"
  | MDelete => "Delete"
  | MReplace => "Replace"
  end.

(** The four variables one change fills. *)
Record ProfileChange := MkProfileChange {
  pc_email : option Email;
  pc_display_name : option string;
  pc_delete : list AttributeName;
  pc_insert : list Attribute
}.

Definition insert_only (a : Attribute) : ProfileChange := MkProfileChange None None [] [a].
Definition delete_only (n : string) : ProfileChange :=
  MkProfileChange None None [AttributeName_from n] [].

Definition utf8_values (vals : list string) : list string := omap from_utf8 vals.

(** The current keys of a user. *)
Definition existing_ssh_keys (user : User) : list string :=
  match find (fun a => String.eqb (attribute_name_str (attr_name a)) "sshpublickey") (u_attributes user) with
  | Some a => match attr_value a with
              | VString (Unbounded list) => list
              | VString (Singleton s) => [s]
              | _ => []
              end
  | None => []
  end.

(** [for v in new_vals { if !existing.contains(&v) { existing.push(v); } }] *)
Definition add_new_keys (existing new_vals : list string) : list string :=
  fold_left (fun ks v => if str_mem v ks then ks else ks ++ [v]) new_vals existing.

Section Modify.
Context `{Extern, LdapExtern} {S : Type} (handler : BackendHandler S) (ldap_info : LdapInfo).

Definition insert_attribute (name : string) (vals : list string) (t : AttributeType) (is_list : bool)
    (label : string) : LdapResult ProfileChange :=
  let? v := map_err (fun e => MkLdapError ConstraintViolation
      ("Invalid " +:+ label +:+ " value: " +:+ e)) (deserialize_attribute_value vals t is_list) in
  Ok (insert_only (MkAttribute (AttributeName_from name) v)).

(** The attributes [Replace] and [Add] treat alike. *)
Definition set_profile_attribute (atype_lower : string) (vals : list string)
    (fallback : LdapResult ProfileChange) : LdapResult ProfileChange :=
  if str_mem atype_lower ["givenname"; "given_name"] then
    insert_attribute "first_name" vals TString false "first_name"
  else if str_mem atype_lower ["sn"; "surname"] then
    insert_attribute "last_name" vals TString false "last_name"
  else if str_mem atype_lower ["cn"; "commonname"; "displayname"] then
    Ok (MkProfileChange None (Some (hd "" vals)) [] [])
  else if str_mem atype_lower ["mail"; "email"] then
    Ok (MkProfileChange (Some (MkEmail (hd "" vals))) None [] [])
  else if str_mem atype_lower ["avatar"; "jpegphoto"; "jpeg_photo"] then
    insert_attribute "avatar" vals TAvatar false "avatar"
  else fallback.

Definition is_ssh_key_attribute (atype_lower : string) : bool :=
  str_mem atype_lower ["sshpublickey"; "ssh_public_key"].

Definition no_values {A} (atype : string) : LdapResult A :=
  Err (MkLdapError InvalidAttributeSyntax ("No values provided for " +:+ atype)).

Definition replace_change (atype : string) (raw : list string) : LdapResult ProfileChange :=
  let atype_lower := to_ascii_lowercase atype in
  let vals := utf8_values raw in
  if (length vals =? 0)%nat then no_values atype
  else set_profile_attribute atype_lower vals
    (if is_ssh_key_attribute atype_lower then
       insert_attribute "sshpublickey" vals TString true "sshPublicKey"
     else if String.eqb atype_lower "ou" then
       unwilling "Direct modification of 'ou' via LDAP Modify is not supported."
     else unwilling ("Unsupported attribute for LDAP Modify: " +:+ atype +:+
       " (supported: givenName, sn, cn, mail, avatar, sshPublicKey, userPassword)")).

Definition read_current_user (readable : BackendHandler S) (user_id : UserId) : io S LdapError User :=
  io_map_err (fun e => MkLdapError OperationsError
    ("Failed to read current user: " +:+ display_error e)) (@get_user_details S readable user_id).

Definition add_change (readable : BackendHandler S) (user_id : UserId) (atype : string)
    (raw : list string) : io S LdapError ProfileChange :=
  let atype_lower := to_ascii_lowercase atype in
  let new_vals := utf8_values raw in
  if (length new_vals =? 0)%nat then io_lift (no_values atype)
  else if is_ssh_key_attribute atype_lower then
    let! user := read_current_user readable user_id in
    io_lift (insert_attribute "sshpublickey" (add_new_keys (existing_ssh_keys user) new_vals)
      TString true "sshPublicKey")
  else io_lift (set_profile_attribute atype_lower new_vals
    (unwilling ("Add not supported for " +:+ atype))).

Definition delete_change (readable : BackendHandler S) (user_id : UserId) (atype : string)
    (raw : list string) : io S LdapError ProfileChange :=
  let atype_lower := to_ascii_lowercase atype in
  let delete_vals := utf8_values raw in
  if is_ssh_key_attribute atype_lower then
    if (length delete_vals =? 0)%nat then io_ret (delete_only "sshpublickey")
    else
      let! user := read_current_user readable user_id in
      let remaining := List.filter (fun k => negb (str_mem k delete_vals)) (existing_ssh_keys user) in
      if (length remaining =? 0)%nat then io_ret (delete_only "sshpublickey")
      else io_lift (insert_attribute "sshpublickey" remaining TString true "sshPublicKey")
  else if str_mem atype_lower ["givenname"; "given_name"] then io_ret (delete_only "first_name")
  else if str_mem atype_lower ["sn"; "surname"] then io_ret (delete_only "last_name")
  else if str_mem atype_lower ["avatar"; "jpegphoto"; "jpeg_photo"] then io_ret (delete_only "avatar")
  else io_lift (unwilling ("Deletion not supported for " +:+ atype)).

Definition modify_profile (readable writeable : BackendHandler S) (user_id : UserId)
    (credentials : ValidationResults) (user_is_admin : bool) (change : LdapModify)
  : io S LdapError unit :=
  let atype := atype (lm_modification change) in
  let atype_lower := to_ascii_lowercase atype in
  let raw := vals (lm_modification change) in
  if negb (can_change_password credentials user_id user_is_admin) then
    io_fail (MkLdapError InsufficentAccessRights
      ("User `" +:+ user_id_str (vr_user credentials) +:+ "` cannot modify attributes of user `"
       +:+ user_id_str user_id +:+ "`"))
  else if bool_decide (lm_operation change = MDelete)
          && str_mem atype_lower ["mail"; "email"; "cn"; "displayname"; "commonname"] then
    io_fail (MkLdapError InsufficentAccessRights
      ("Deletion of `" +:+ atype +:+
       "` is not allowed via LDAP Modify (use GraphQL or protected path)"))
  else
    let! c := match lm_operation change with
              | MReplace => io_lift (replace_change atype raw)
              | MAdd => add_change readable user_id atype raw
              | MDelete => delete_change readable user_id atype raw
              end in
    io_map_err (fun e => MkLdapError OperationsError
        ("Error while updating user via LDAP Modify: " +:+ debug_error_pretty e))
      (@update_user S writeable
        (MkUpdateUserRequest user_id (pc_email c) (pc_display_name c) (pc_delete c) (pc_insert c))).

(** [lldap_kerberos::sync_kerberos_if_enabled] *)
Definition sync_kerberos_if_enabled (sync_enabled : bool) (user_id plain_password : string)
  : io S DomainError unit :=
  if sync_enabled then sync_kerberos_principal user_id plain_password else io_ret tt.

Definition modify_password (readable : BackendHandler S) (user_id : UserId)
    (credentials : ValidationResults) (user_is_admin : bool) (change : LdapModify)
  : io S LdapError unit :=
  if negb (bool_decide (lm_operation change = MReplace)) then
    io_lift (unwilling ("Unsupported operation: `" +:+ debug_modify_type (lm_operation change)
      +:+ "` for `" +:+ atype (lm_modification change) +:+ "`"))
  else if negb (can_change_password credentials user_id user_is_admin) then
    cannot_modify_password credentials user_id
  else
    match vals (lm_modification change) with
    | [value] =>
        let! _ := io_map_err (fun e => MkLdapError Other
            ("Error while changing the password: " +:+ debug_error_pretty e))
          (change_password handler user_id value) in
        match from_utf8 value with
        | Some plain_pass =>
            let! user := io_try (E' := LdapError) (@get_user_details S readable user_id) in
            match user with
            | Ok user =>
                let! _ := io_try (E' := LdapError) (sync_kerberos_if_enabled
                  (kerberos_sync_enabled user) (user_id_str user_id) plain_pass) in
                io_ret tt
            | Err _ => io_ret tt
            end
        | None => io_ret tt
        end
    | vs => io_fail (MkLdapError InvalidAttributeSyntax
        ("Wrong number of values for password attribute: " +:+ int_to_string (Z.of_nat (length vs))))
    end.

Definition handle_modify_change (readable writeable : BackendHandler S) (user_id : UserId)
    (credentials : ValidationResults) (user_is_admin : bool) (change : LdapModify)
  : io S LdapError unit :=
  if String.eqb (to_ascii_lowercase (atype (lm_modification change))) "userpassword"
  then modify_password readable user_id credentials user_is_admin change
  else modify_profile readable writeable user_id credentials user_is_admin change.

Definition cannot_modify {A} (credentials : ValidationResults) (uid : UserId) (suffix : string)
  : io S LdapError A :=
  io_fail (MkLdapError InsufficentAccessRights
    ("User `" +:+ user_id_str (vr_user credentials) +:+ "` cannot modify user `"
     +:+ user_id_str uid +:+ "`" +:+ suffix)).

(** One turn of the loop over the changes. *)
Definition modify_one (credentials : ValidationResults) (uid : UserId) (change : LdapModify)
  : io S LdapError unit :=
  match get_readable_handler handler credentials uid with
  | None => cannot_modify credentials uid ""
  | Some readable =>
      match get_writeable_handler handler credentials uid with
      | None => cannot_modify credentials uid " (no write permission)"
      | Some writeable =>
          let! groups := io_map_err (fun e => MkLdapError OperationsError
              ("Internal error while requesting user's groups: " +:+ debug_error_pretty e))
            (@get_user_groups S readable uid) in
          handle_modify_change readable writeable uid credentials (is_lldap_admin groups) change
      end
  end.

Definition handle_modify_request (credentials : ValidationResults) (request : LdapModifyRequest)
  : io S LdapError (list LdapOp) :=
  match get_user_id_from_distinguished_name (mr_dn request) (base_dn ldap_info)
          (base_dn_str ldap_info) with
  | Ok uid =>
      let! _ := io_iter (modify_one credentials uid) (mr_changes request) in
      io_ret [make_modify_response Success ""]
  | Err e => io_fail (MkLdapError InvalidDNSyntax ("Invalid username: " +:+ message e))
  end.
End Modify.

(** ** Create *)

Section Create.
Context `{Extern, LdapExtern} {S : Type} (handler : BackendHandler S) (ldap_info : LdapInfo).

Definition expected_entry_dn : string :=
  quoted ("uid=id,ou=people," +:+ base_dn_str ldap_info) +:+ " or " +:+
  quoted ("cn=id,ou=groups," +:+ base_dn_str ldap_info).

Definition parse_attribute (attr : LdapPartialAttribute) : LdapResult (string * string) :=
  match vals attr with
  | [] => Err (MkLdapError ConstraintViolation
            ("Missing value for attribute " +:+ to_ascii_lowercase (atype attr)))
  | [val] => Ok (to_ascii_lowercase (atype attr), val)
  | _ => Err (MkLdapError ConstraintViolation
           ("Expected a single value for attribute " +:+ atype attr))
  end.

(** The map of the request's attributes, with the default [kerberossync] and the OU
    of the DN. *)
Definition creation_attributes (attributes : list LdapPartialAttribute) (internal_ou : string)
  : LdapResult (gmap string string) :=
  let? pairs := collect (map parse_attribute
    (List.filter (fun a => negb (eq_ignore_ascii_case (atype a) "objectclass")) attributes)) in
  let m := fold_left (fun m p => <[fst p := snd p]> m) pairs ∅ in
  let m := match m !! "kerberossync" with
           | Some _ => m
           | None => <["kerberossync" := "0"]> m
           end in
  Ok (<["ou" := internal_ou]> m).

(** [get_attribute(name).transpose()?] *)
Definition get_attribute (m : gmap string string) (name : string) : LdapResult (option string) :=
  match m !! name with
  | None => Ok None
  | Some v =>
      match from_utf8 v with
      | Some s => Ok (Some s)
      | None => Err (MkLdapError ConstraintViolation
                  ("Attribute value is invalid UTF-8: " +:+ utf8_error v))
      end
  end.

(** [get_attribute(a).or_else(|| get_attribute(b)).transpose()?] *)
Definition get_attribute_or (m : gmap string string) (a b : string) : LdapResult (option string) :=
  match m !! a with
  | Some _ => get_attribute m a
  | None => get_attribute m b
  end.

Definition creation_attribute (name label : string) (t : AttributeType) (value : option string)
  : LdapResult (list Attribute) :=
  match value with
  | None => Ok []
  | Some s =>
      let? v := map_err (fun e => MkLdapError ConstraintViolation
          ("Invalid " +:+ label +:+ " value: " +:+ e)) (deserialize_attribute_value [s] t false) in
      Ok [MkAttribute (AttributeName_from name) v]
  end.

(** The request for the backend and whether [kerberossync] is [1]. *)
Definition make_create_user_request (user_id : UserId) (m : gmap string string) (internal_ou : string)
  : LdapResult (CreateUserRequest * bool) :=
  let? first_name := get_attribute m "givenname" in
  let? a1 := creation_attribute "first_name" "first_name" TString first_name in
  let? last_name := get_attribute m "sn" in
  let? a2 := creation_attribute "last_name" "last_name" TString last_name in
  let? avatar := get_attribute_or m "avatar" "jpegphoto" in
  let? a3 := creation_attribute "avatar" "avatar" TAvatar avatar in
  let? a4 := creation_attribute "ou" "ou" TString (Some internal_ou) in
  let? ksync := get_attribute m "kerberossync" in
  let? a5 := match ksync with
             | Some s => creation_attribute "kerberossync" "kerberossync" TInteger (Some s)
             | None => creation_attribute "kerberossync" "default kerberossync" TInteger (Some "0")
             end in
  let? mail := get_attribute_or m "mail" "email" in
  let? cn := get_attribute m "cn" in
  Ok (MkCreateUserRequest user_id (MkEmail (from_option id "" mail)) cn (a1 ++ a2 ++ a3 ++ a4 ++ a5),
      bool_decide (ksync = Some "1")).

Definition create_user_entry (user_id : UserId) (attributes : list LdapPartialAttribute)
    (internal_ou : string) : io S LdapError (list LdapOp) :=
  let! m := io_lift (creation_attributes attributes internal_ou) in
  let! p := io_lift (make_create_user_request user_id m internal_ou) in
  let '(request, kerberossync_enabled) := p in
  let! _ := io_map_err (fun e => MkLdapError OperationsError
      ("Could not create user: " +:+ debug_error_pretty e)) (create_user request) in
  let password := match m !! "userpassword" with
                  | Some pw => Some pw
                  | None => m !! "userPassword"
                  end in
  let! _ := match (if kerberossync_enabled then mbind from_utf8 password else None) with
            | Some plain =>
                let! _ := io_try (E' := LdapError) (sync_kerberos_principal (user_id_str user_id) plain) in
                io_ret tt
            | None => io_ret tt
            end in
  io_ret [make_add_response Success ""].

Definition create_group_entry (group_name : GroupName) (internal_ou : string)
  : io S LdapError (list LdapOp) :=
  let! attrs := io_lift (creation_attribute "ou" "ou" TString (Some internal_ou)) in
  let! _ := io_map_err (fun e => MkLdapError OperationsError
      ("Could not create group: " +:+ debug_error_pretty e))
    (create_group (MkCreateGroupRequest group_name attrs)) in
  io_ret [make_add_response Success ""].

Definition create_user_or_group (request : LdapAddRequest) : io S LdapError (list LdapOp) :=
  let! dn_parts := io_lift (parse_distinguished_name (ar_dn request)) in
  let internal_ou := get_internal_ou_from_dn_parts dn_parts in
  match get_user_or_group_id_from_distinguished_name (ar_dn request) (base_dn ldap_info) with
  | NUser user_id => create_user_entry user_id (ar_attributes request) internal_ou
  | NGroup group_name => create_group_entry group_name internal_ou
  | err => io_fail (into_ldap_error err (ar_dn request) expected_entry_dn)
  end.

(** ** Delete *)

Definition delete_user_entry (user_id : UserId) : io S LdapError (list LdapOp) :=
  let! _ := io_map_err (fun e => match e with
                                 | EntityNotFound _ => MkLdapError NoSuchObject "Could not find user"
                                 | e => MkLdapError OperationsError
                                          ("Error while finding user: " +:+ debug_error e)
                                 end) (get_user_details user_id) in
  let! _ := io_map_err (fun e => MkLdapError OperationsError
      ("Error while deleting user: " +:+ debug_error e)) (delete_user user_id) in
  let! _ := io_try (E' := LdapError) (delete_kerberos_principal (user_id_str user_id)) in
  io_ret [make_del_response Success ""].

Definition delete_group_entry (group_name : GroupName) : io S LdapError (list LdapOp) :=
  let! groups := io_map_err (fun e => MkLdapError OperationsError
      ("Error while finding group: " +:+ debug_error e))
    (list_groups (Some (GDisplayName group_name))) in
  match find (fun g => group_name_eqb (g_display_name g) group_name) groups with
  | None => io_fail (MkLdapError NoSuchObject "Could not find group")
  | Some g =>
      let! _ := io_map_err (fun e => MkLdapError OperationsError
          ("Error while deleting group: " +:+ debug_error e)) (delete_group (g_id g)) in
      io_ret [make_del_response Success ""]
  end.

Definition delete_user_or_group (request : string) : io S LdapError (list LdapOp) :=
  match get_user_or_group_id_from_distinguished_name request (base_dn ldap_info) with
  | NUser user_id => delete_user_entry user_id
  | NGroup group_name => delete_group_entry group_name
  | err => io_fail (into_ldap_error err request expected_entry_dn)
  end.
End Create.

(** ** Lemmas *)

Lemma elem_of_filter_mem k (l dels : list string) :
  k ∈ List.filter (fun x => negb (str_mem x dels)) l <-> k ∈ l /\ k ∉ dels.
Proof.
  rewrite list_elem_of_In, filter_In, <- list_elem_of_In, negb_true_iff. by rewrite str_mem_not_elem.
Qed.

Lemma add_new_keys_spec existing new :
  (forall k, k ∈ add_new_keys existing new <-> k ∈ existing \/ k ∈ new) /\
  existing `prefix_of` add_new_keys existing new /\
  (NoDup existing -> NoDup (add_new_keys existing new)).
Proof.
  unfold add_new_keys. revert existing. induction new as [|v new IH]; intros existing; simpl.
  { split; [set_solver|]. split; [done|tauto]. }
  destruct (str_mem v existing) eqn:E.
  - apply str_mem_elem in E. destruct (IH existing) as (H1 & H2 & H3).
    split; [|done]. intros k. rewrite H1. set_solver.
  - apply str_mem_not_elem in E. destruct (IH (existing ++ [v])) as (H1 & H2 & H3).
    split; [|split].
    + intros k. rewrite H1. set_solver.
    + etrans; [|exact H2]. by apply prefix_app_r.
    + intros Hn. apply H3, NoDup_app. split; [done|]. split; [|apply NoDup_singleton].
      intros x Hx ->%list_elem_of_singleton. done.
Qed.

Lemma utf8_ssh_attribute `{Extern} keys :
  insert_attribute "sshpublickey" keys TString true "sshPublicKey" =
  Ok (insert_only (MkAttribute (AttributeName_from "sshpublickey") (VString (Unbounded keys)))).
Proof. done. Qed.

(** Not one of the attributes whose deletion is refused. *)
Lemma ssh_key_not_protected atype :
  is_ssh_key_attribute atype = true ->
  str_mem atype ["mail"; "email"; "cn"; "displayname"; "commonname"] = false.
Proof.
  unfold is_ssh_key_attribute. rewrite str_mem_elem, str_mem_not_elem. set_solver.
Qed.

(** The update a change of the SSH keys sends to the backend. *)
Definition ssh_key_update (uid : UserId) (keys : list string) : UpdateUserRequest :=
  match keys with
  | [] => MkUpdateUserRequest uid None None [AttributeName_from "sshpublickey"] []
  | _ => MkUpdateUserRequest uid None None []
           [MkAttribute (AttributeName_from "sshpublickey") (VString (Unbounded keys))]
  end.

Section ModifyLemmas.
Context `{Extern, LdapExtern} {S : Type} (readable writeable : BackendHandler S).
Context (uid : UserId) (v : ValidationResults) (adm : bool) (aty : string) (raw : list string).
Context (Hssh : is_ssh_key_attribute (to_ascii_lowercase aty) = true).
Context (Hcan : can_change_password v uid adm = true).
Context (Hraw : utf8_values raw <> []).
Context (user : User) (s s' : S) (Hread : @get_user_details S readable uid s = (Ok user, s')).

Lemma modify_ssh_add :
  exists f, modify_profile readable writeable uid v adm (MkLdapModify MAdd (MkPartialAttribute aty raw)) s =
    io_map_err f (@update_user S writeable
      (ssh_key_update uid (add_new_keys (existing_ssh_keys user) (utf8_values raw)))) s'.
Proof.
  set (keys := add_new_keys (existing_ssh_keys user) (utf8_values raw)).
  assert (add_change readable uid aty raw s =
    (Ok (insert_only (MkAttribute (AttributeName_from "sshpublickey") (VString (Unbounded keys)))), s'))
    as Hadd.
  { unfold add_change. rewrite Hssh. destruct (utf8_values raw) eqn:E; [done|]. cbn [length Nat.eqb].
    erewrite io_bind_step by (apply io_map_err_Ok; exact Hread). done. }
  eexists. unfold modify_profile. cbn [lm_modification lm_operation atype vals]. rewrite Hcan.
  rewrite bool_decide_eq_false_2 by done. cbn [negb andb]. erewrite io_bind_step by exact Hadd.
  destruct (add_new_keys_spec (existing_ssh_keys user) (utf8_values raw)) as [Hin _].
  subst keys. destruct (add_new_keys _ _) as [|k' ks']; [|reflexivity].
  exfalso. destruct (utf8_values raw) as [|k ks]; [done|].
  assert (k ∈ @nil string) as Hk%elem_of_nil; [|done]. apply Hin. right. by left.
Qed.

Lemma modify_ssh_delete :
  exists f, modify_profile readable writeable uid v adm (MkLdapModify MDelete (MkPartialAttribute aty raw)) s =
    io_map_err f (@update_user S writeable
      (ssh_key_update uid (List.filter (fun k => negb (str_mem k (utf8_values raw)))
        (existing_ssh_keys user)))) s'.
Proof.
  eexists. unfold modify_profile. cbn [lm_modification lm_operation atype vals]. rewrite Hcan.
  rewrite ssh_key_not_protected, andb_false_r by done. cbn [negb]. set (l := List.filter _ _).
  assert (delete_change readable uid aty raw s =
    (Ok (match l with
         | [] => delete_only "sshpublickey"
         | _ => insert_only (MkAttribute (AttributeName_from "sshpublickey") (VString (Unbounded l)))
         end), s')) as Hdel.
  { unfold delete_change. rewrite Hssh. subst l. destruct (utf8_values raw) eqn:E; [done|].
    cbn [length Nat.eqb]. erewrite io_bind_step by (apply io_map_err_Ok; exact Hread).
    by destruct (List.filter _ _). }
  erewrite io_bind_step by exact Hdel. destruct l; reflexivity.
Qed.
End ModifyLemmas.

Section CreateLemmas.
Context `{Extern, LdapExtern}.

Lemma creation_attribute_name n label t value l a :
  creation_attribute n label t value = Ok l -> a ∈ l -> attr_name a = AttributeName_from n.
Proof.
  unfold creation_attribute. destruct value; [|intros [= <-] Hx; by apply elem_of_nil in Hx].
  intros (x & _ & [= <-])%result_bind_Ok ->%list_elem_of_singleton. done.
Qed.

Lemma find_ou_skip l1 l2 :
  (forall a, a ∈ l1 -> eq_ignore_ascii_case (attribute_name_str (attr_name a)) "ou" = false) ->
  find_ou (l1 ++ l2) = find_ou l2.
Proof.
  unfold find_ou. induction l1 as [|a l1 IH]; intros Hl; simpl; [done|].
  rewrite Hl by (by left). apply IH. intros b Hb. apply Hl. by right.
Qed.

(** The request carries the id and the OU of the DN. *)
Lemma create_user_request_ou uid m ou req k :
  make_create_user_request uid m ou = Ok (req, k) ->
  cu_user_id req = uid /\ get_ou_from_attributes (cu_attributes req) DEFAULT_PRIMARY_USER_OU = ou.
Proof.
  unfold make_create_user_request.
  intros (fn & _ & (a1 & H1 & (ln & _ & (a2 & H2 & (av & _ & (a3 & H3 & (a4 & H4 & (ks & _ &
    (a5 & _ & (ml & _ & (cn & _ & [= <- <-])%result_bind_Ok)%result_bind_Ok)%result_bind_Ok)%result_bind_Ok)
    %result_bind_Ok)%result_bind_Ok)%result_bind_Ok)%result_bind_Ok)%result_bind_Ok)
    %result_bind_Ok)%result_bind_Ok.
  split; [done|]. cbn [cu_attributes]. unfold get_ou_from_attributes.
  rewrite (find_ou_skip a1), (find_ou_skip a2), (find_ou_skip a3).
  - apply result_bind_Ok in H4 as (x & Hx & [= <-]). apply map_err_Ok in Hx. cbn in Hx. by simplify_eq.
  - intros a Ha. by rewrite (creation_attribute_name _ _ _ _ _ a H3 Ha).
  - intros a Ha. by rewrite (creation_attribute_name _ _ _ _ _ a H2 Ha).
  - intros a Ha. by rewrite (creation_attribute_name _ _ _ _ _ a H1 Ha).
Qed.
End CreateLemmas.

(** ** Properties *)

(** Adding SSH keys keeps the user's keys in place and appends exactly the new
    ones, each once; the backend gets one update with the resulting list. *)
Theorem ssh_keys_added `{Extern} {S} (readable writeable : BackendHandler S)
    uid v adm aty raw user (s s' : S) :
  is_ssh_key_attribute (to_ascii_lowercase aty) = true ->
  can_change_password v uid adm = true -> utf8_values raw <> [] ->
  @get_user_details S readable uid s = (Ok user, s') ->
  exists f keys,
    modify_profile readable writeable uid v adm (MkLdapModify MAdd (MkPartialAttribute aty raw)) s =
      io_map_err f (@update_user S writeable (ssh_key_update uid keys)) s' /\
    (forall k, k ∈ keys <-> k ∈ existing_ssh_keys user \/ k ∈ utf8_values raw) /\
    existing_ssh_keys user `prefix_of` keys /\
    (NoDup (existing_ssh_keys user) -> NoDup keys).
Proof.
  intros Hssh Hcan Hraw Hread.
  destruct (modify_ssh_add readable writeable uid v adm aty raw Hssh Hcan Hraw user s s' Hread) as [f Hf].
  exists f, (add_new_keys (existing_ssh_keys user) (utf8_values raw)). split; [exact Hf|].
  apply add_new_keys_spec.
Qed.

(** Deleting SSH keys leaves exactly the others, in order; when none is left the
    attribute is removed. *)
Theorem ssh_keys_deleted `{Extern} {S} (readable writeable : BackendHandler S)
    uid v adm aty raw user (s s' : S) :
  is_ssh_key_attribute (to_ascii_lowercase aty) = true ->
  can_change_password v uid adm = true -> utf8_values raw <> [] ->
  @get_user_details S readable uid s = (Ok user, s') ->
  exists f keys,
    modify_profile readable writeable uid v adm (MkLdapModify MDelete (MkPartialAttribute aty raw)) s =
      io_map_err f (@update_user S writeable (ssh_key_update uid keys)) s' /\
    keys `sublist_of` existing_ssh_keys user /\
    (forall k, k ∈ keys <-> k ∈ existing_ssh_keys user /\ k ∉ utf8_values raw).
Proof.
  intros Hssh Hcan Hraw Hread.
  destruct (modify_ssh_delete readable writeable uid v adm aty raw Hssh Hcan Hraw user s s' Hread) as [f Hf].
  exists f, (List.filter (fun k => negb (str_mem k (utf8_values raw))) (existing_ssh_keys user)).
  split; [exact Hf|]. split; [|intros k; apply elem_of_filter_mem].
  clear Hf. induction (existing_ssh_keys user) as [|k ks IH]; simpl; [constructor|].
  case_match; [by apply sublist_skip | by apply sublist_cons].
Qed.

(** A user created through LDAP under the DN the server builds for an id and an
    OU is stored with that id and that OU, so the entry is later found under
    exactly the DN it was created with. *)
Theorem created_user_keeps_dn `{Extern, LdapExtern} {S} (h : BackendHandler S) info u ou attrs
    (s s' : S) ops :
  let base := base_dn info in
  wf_base base = true -> no_ou base = true -> base_dn_str info = print_dn base ->
  wf_component (user_id_str u) = true -> wf_ou ou = true ->
  let dn := build_user_dn u ou (base_dn_str info) in
  create_user_or_group h info (MkLdapAddRequest dn attrs) s = (Ok ops, s') ->
  exists req s1 s2, @create_user S h req s1 = (Ok tt, s2) /\ cu_user_id req = u /\
    build_user_dn (cu_user_id req)
      (get_ou_from_attributes (cu_attributes req) DEFAULT_PRIMARY_USER_OU) (base_dn_str info) = dn.
Proof.
  intros base Hb Hno Hstr Hu Hou dn Hs. pose proof (wf_base_facts base Hb) as [Hne _].
  assert (wf_rdn ("uid", user_id_str u) = true) as Hr by (unfold wf_rdn; simpl; by rewrite Hu).
  unfold create_user_or_group in Hs. cbn [ar_dn ar_attributes] in Hs. subst dn base.
  rewrite Hstr, user_dn_read_back in * by done. io_inv Hs.
  rewrite build_user_dn_print, parse_entry in Hm by done. simplify_eq.
  assert (get_internal_ou_from_dn_parts (entry_parts "uid" (user_id_str u) ou (base_dn info)) = ou) as Hint.
  { unfold get_internal_ou_from_dn_parts. rewrite filter_entry_parts, filter_ou_none, app_nil_r by done.
    by apply ou_chain_roundtrip. }
  rewrite Hint in Hs. unfold create_user_entry in Hs. io_inv Hs.
  match goal with H : make_create_user_request _ _ _ = Ok ?p |- _ => destruct p as [req k];
    apply create_user_request_ou in H as [<- Hou'] end.
  io_inv Hs. match goal with H : create_user _ _ = (Ok ?t, _) |- _ => destruct t end.
  do 3 eexists. by split; [eassumption|].
Qed.

(** A backend that records the updates it is sent, to evaluate the definitions on. *)
Record journal := MkJournal { j_user : User; j_updates : list UpdateUserRequest;
                              j_created : list CreateUserRequest }.

Definition journal_backend : BackendHandler journal := {|
  bind _ := io_fail (AuthenticationError "");
  list_users _ _ := fun j => (Ok [MkUserAndGroups (j_user j) None], j);
  list_groups _ := io_ret [];
  get_user_details _ := fun j => (Ok (j_user j), j);
  get_user_groups _ := io_ret [];
  get_group_details _ := io_fail (EntityNotFound "");
  get_schema := io_ret PublicSchema_get;
  get_allowed_ous := io_ret ["people"; "groups"];
  create_user r := fun j => (Ok tt, MkJournal (j_user j) (j_updates j) (r :: j_created j));
  update_user r := fun j => (Ok tt, MkJournal (j_user j) (r :: j_updates j) (j_created j));
  delete_user _ := io_fail (InternalError "");
  add_user_to_group _ _ := io_fail (InternalError "");
  remove_user_from_group _ _ := io_fail (InternalError "");
  create_group _ := io_fail (InternalError "");
  update_group _ := io_fail (InternalError "");
  delete_group _ := io_fail (InternalError "");
  register_password _ _ := io_ret tt;
  ensure_kerberos_principal_consistency _ _ := io_ret tt;
  sync_kerberos_principal _ _ := io_ret tt;
  delete_kerberos_principal _ := io_ret tt
|}.

Definition user_with_keys (keys : list string) : User :=
  MkUser (MkUserId "bob") (MkEmail "") None 0 "u-1"
    [MkAttribute (MkAttributeName "sshpublickey") (VString (Unbounded keys))] 0 0 None.

Definition bob_regular : ValidationResults := MkValidationResults (MkUserId "bob") Regular.

Lemma ssh_keys_added_witness :
  exists f keys,
    @modify_profile demo_extern journal journal_backend journal_backend (MkUserId "bob")
      bob_regular false (MkLdapModify MAdd (MkPartialAttribute "sshPublicKey" ["k2"; "k1"; "k3"]))
      (MkJournal (user_with_keys ["k1"]) [] []) =
    io_map_err f (@update_user journal journal_backend (ssh_key_update (MkUserId "bob") keys))
      (MkJournal (user_with_keys ["k1"]) [] []) /\
    (forall k, k ∈ keys <-> k ∈ ["k1"] \/ k ∈ ["k2"; "k1"; "k3"]) /\
    ["k1"] `prefix_of` keys /\ (NoDup ["k1"] -> NoDup keys).
Proof.
  exact (@ssh_keys_added demo_extern journal journal_backend journal_backend
    (MkUserId "bob") bob_regular false "sshPublicKey" ["k2"; "k1"; "k3"] (user_with_keys ["k1"])
    (MkJournal (user_with_keys ["k1"]) [] []) (MkJournal (user_with_keys ["k1"]) [] [])
    eq_refl eq_refl ltac:(discriminate) eq_refl).
Defined.

Lemma ssh_keys_deleted_witness :
  exists f keys,
    @modify_profile demo_extern journal journal_backend journal_backend (MkUserId "bob")
      bob_regular false (MkLdapModify MDelete (MkPartialAttribute "sshPublicKey" ["k1"]))
      (MkJournal (user_with_keys ["k1"; "k2"]) [] []) =
    io_map_err f (@update_user journal journal_backend (ssh_key_update (MkUserId "bob") keys))
      (MkJournal (user_with_keys ["k1"; "k2"]) [] []) /\
    keys `sublist_of` ["k1"; "k2"] /\ (forall k, k ∈ keys <-> k ∈ ["k1"; "k2"] /\ k ∉ ["k1"]).
Proof.
  exact (@ssh_keys_deleted demo_extern journal journal_backend journal_backend
    (MkUserId "bob") bob_regular false "sshPublicKey" ["k1"] (user_with_keys ["k1"; "k2"])
    (MkJournal (user_with_keys ["k1"; "k2"]) [] []) (MkJournal (user_with_keys ["k1"; "k2"]) [] [])
    eq_refl eq_refl ltac:(discriminate) eq_refl).
Defined.

Lemma created_user_keeps_dn_witness :
  exists req s1 s2, @create_user journal journal_backend req s1 = (Ok tt, s2) /\
    cu_user_id req = MkUserId "eve" /\
    build_user_dn (cu_user_id req) (get_ou_from_attributes (cu_attributes req) "people") "dc=com" =
    "uid=eve,ou=floor1,ou=office,dc=com".
Proof.
  eapply (@created_user_keeps_dn demo_extern demo_ldap_extern journal journal_backend demo_info
    (MkUserId "eve") "office\floor1" [MkPartialAttribute "mail" ["eve@x.org"]]
    (MkJournal (user_with_keys []) [] [])); vm_compute; reflexivity.
Defined.
