(* ===== verification/Session.v ===== *)
(** * LDAP sessions

    [crates/ldap/src/handler.rs]: the handler of one connection, whose only state is
    the identity [user_info] the last bind established, next to the store of the
    backend.  A handler's panic ends the connection and is the [Err] of the
    computation. *)

From S2P Require Import Prelude Strings Types Schema Access Proto Dn SchemaManager Filters Attributes.
From S2P Require Import Search Subschema LdapWrite.


Section Handler.
Context `{Extern, LdapExtern} {S : Type} (handler : BackendHandler S) (ldap_info : LdapInfo).

Abbreviation session := (option ValidationResults) (only parsing).

(** [.unwrap_or_else(|e| vec![make(e.code, e.message)])] *)
Definition respond (make : LdapResultCode -> string -> LdapOp) (m : io S failure (list LdapOp))
  : io S string (list LdapOp) :=
  fun s => match m s with
           | (Ok ops, s') => (Ok ops, s')
           | (Err (Fail e), s') => (Ok [make (code e) (message e)], s')
           | (Err (Panicked msg), s') => (Err msg, s')
           end.

Definition unbound_response : list LdapOp :=
  [make_extended_response InsufficentAccessRights "No user currently bound"].

(** ** Search and compare *)

Definition session_search (user_info : session) (request : LdapSearchRequest)
  : io S failure (list LdapOp) :=
  match user_info with
  | None => io_fail (Fail (MkLdapError InsufficentAccessRights "No user currently bound"))
  | Some v =>
      let lister := get_user_restricted_lister_handler handler v in
      let! allowed := io_try get_allowed_ous in
      let allowed_ous := unwrap_or allowed ["people"; "groups"] in
      do_search (restricted_list_users lister) (restricted_list_groups lister) ldap_info request
        allowed_ous
  end.

Definition do_search_or_dse (user_info : session) (request : LdapSearchRequest)
  : io S failure (list LdapOp) :=
  if is_root_dse_request request then
    io_ret [root_dse_response (base_dn_str ldap_info); make_search_success]
  else if is_subschema_entry_request request then
    io_ret [make_ldap_subschema_entry (base_dn_str ldap_info); make_search_success]
  else session_search user_info request.

Definition do_compare (user_info : session) (request : LdapCompareRequest)
  : io S failure (list LdapOp) :=
  let req := make_search_request (base_dn_str ldap_info) (LEquality "dn" (cr_dn request))
               [cr_atype request] in
  let! results := session_search user_info req in
  io_ret (compare request results (base_dn_str ldap_info)).

(** ** Bind *)

Definition make_bind_response (c : LdapResultCode) (m : string) : list LdapOp :=
  [OpBindResponse (MkLdapResultOp c "" m)].

(** The OU the bind DN names. *)
Definition provided_ou (dn : string) : string :=
  match parse_distinguished_name (to_ascii_lowercase dn) with
  | Ok parts => get_internal_ou_from_dn_parts parts
  | Err _ => ""
  end.

Definition do_bind (user_info : session) (request : LdapBindRequest)
  : io S string (session * list LdapOp) :=
  let! auth := io_try (E' := string) (authenticate handler ldap_info request) in
  match auth with
  | Err err => io_ret (user_info, make_bind_response (code err) (message err))
  | Ok user_id =>
      let! details := io_try (E' := string) (get_user_details user_id) in
      match details with
      | Err _ => io_ret (user_info, make_bind_response InvalidCredentials "")
      | Ok user =>
          if eq_ignore_ascii_case (provided_ou (lb_dn request)) (get_user_ou user) then
            let! permissions := io_try (E' := string) (get_permissions_for_user handler user_id) in
            io_ret (ok_option permissions, make_bind_response Success "")
          else io_ret (user_info, make_bind_response InvalidCredentials "")
      end
  end.

(** ** Extended requests *)

Definition do_whoami (v : ValidationResults) : io S failure (list LdapOp) :=
  let user_id := vr_user v in
  let! users := io_try (E' := failure) (get_user_list (@list_users S handler) ldap_info
    (LEquality "uid" (user_id_str user_id)) false (base_dn_str ldap_info) PublicSchema_get) in
  let user_ou := match unwrap_or users [] with
                 | uag :: _ => get_user_ou (uag_user uag)
                 | [] => DEFAULT_PRIMARY_USER_OU
                 end in
  io_ret [make_extended_response Success ("dn:" +:+ build_user_dn user_id user_ou (base_dn_str ldap_info))].

Definition do_extended_request (user_info : session) (request : LdapExtendedRequest)
  : io S failure (list LdapOp) :=
  if String.eqb (er_name request) OID_PASSWORD_MODIFY then
    match er_password_modify request with
    | Ok password_request =>
        match user_info with
        | None => io_ret unbound_response
        | Some v => do_password_modification handler ldap_info v password_request
        end
    | Err e => io_ret [make_extended_response ProtocolError
                 ("Error while parsing password modify request: " +:+ e)]
    end
  else if String.eqb (er_name request) OID_WHOAMI then
    match user_info with
    | None => io_ret unbound_response
    | Some v => do_whoami v
    end
  else io_ret [make_extended_response UnwillingToPerform
         ("Unsupported extended operation: " +:+ er_name request)].

(** ** Writes *)

Definition do_modify_request (user_info : session) (request : LdapModifyRequest)
  : io S failure (list LdapOp) :=
  match user_info with
  | None => io_ret unbound_response
  | Some v => io_map_err Fail (handle_modify_request handler ldap_info v request)
  end.

(** The admin handler of the bound user, if any. *)
Definition admin_handler (user_info : session) : option (BackendHandler S) :=
  mbind (get_admin_handler handler) user_info.

Definition unauthorized_write {A} : io S failure A :=
  io_fail (Fail (MkLdapError InsufficentAccessRights "Unauthorized write")).

Definition session_create (user_info : session) (request : LdapAddRequest)
  : io S failure (list LdapOp) :=
  match admin_handler user_info with
  | None => unauthorized_write
  | Some h => io_map_err Fail (create_user_or_group h ldap_info request)
  end.

Definition session_delete (user_info : session) (request : string) : io S failure (list LdapOp) :=
  match admin_handler user_info with
  | None => unauthorized_write
  | Some h => io_map_err Fail (delete_user_or_group h ldap_info request)
  end.

(** ** Dispatch *)

(** The identity afterwards and the answer; no answer closes the connection. *)
Definition handle_ldap_message (user_info : session) (op : LdapOp)
  : io S string (session * option (list LdapOp)) :=
  let keep (m : io S string (list LdapOp)) := let! ops := m in io_ret (user_info, Some ops) in
  match op with
  | OpBindRequest request =>
      let! r := do_bind user_info request in io_ret (fst r, Some (snd r))
  | OpSearchRequest request => keep (respond make_search_error (do_search_or_dse user_info request))
  | OpUnbindRequest => io_ret (None, None)
  | OpModifyRequest request => keep (respond make_modify_response (do_modify_request user_info request))
  | OpExtendedRequest request =>
      keep (respond make_extended_response (do_extended_request user_info request))
  | OpAddRequest request => keep (respond make_add_response (session_create user_info request))
  | OpDelRequest request => keep (respond make_del_response (session_delete user_info request))
  | OpCompareRequest request => keep (respond make_search_error (do_compare user_info request))
  | op => io_ret (user_info, Some [make_extended_response UnwillingToPerform
            ("Unsupported operation: " +:+ debug_op op)])
  end.
End Handler.

(** ** What reads and writes may touch *)

(** An observation of the store that no read of the backend changes. *)
Class ReadsPreserve {S D} (h : BackendHandler S) (obs : S -> D) := {
  rp_bind r : preserves obs (@bind S h r);
  rp_list_users f g : preserves obs (@list_users S h f g);
  rp_list_groups f : preserves obs (@list_groups S h f);
  rp_user_details u : preserves obs (@get_user_details S h u);
  rp_user_groups u : preserves obs (@get_user_groups S h u);
  rp_allowed_ous : preserves obs (@get_allowed_ous S h)
}.

#[export] Hint Resolve rp_bind rp_list_users rp_list_groups rp_user_details rp_user_groups
  rp_allowed_ous : klldap.

(** ... and that is not changed by updates of [me], nor by password writes for [me]
    or, when [any_password] is set, for anybody. *)
Class ConfinedWrites {S D} (h : BackendHandler S) (obs : S -> D) (me : UserId) (any_password : bool) := {
  cw_update r : uu_user_id r = me -> preserves obs (@update_user S h r);
  cw_password u p : u = me \/ any_password = true -> preserves obs (@register_password S h u p);
  cw_sync u p : u = me \/ any_password = true -> preserves obs (@sync_kerberos_principal S h (user_id_str u) p);
  cw_ensure u b : u = me \/ any_password = true ->
    preserves obs (@ensure_kerberos_principal_consistency S h u b)
}.

Section Preservation.
Context `{Extern, LdapExtern} {S D : Type} (h : BackendHandler S) (info : LdapInfo) (obs : S -> D).
Context `{!ReadsPreserve h obs}.

Lemma preserves_respond make m : preserves obs m -> preserves obs (respond make m).
Proof. intros Hm s. unfold respond. specialize (Hm s). by destruct (m s) as [[|[]]]. Qed.

Lemma search_preserves lu lg req ous :
  (forall f g, preserves obs (lu f g)) -> (forall f, preserves obs (lg f)) ->
  preserves obs (do_search (S:=S) lu lg info req ous).
Proof.
  intros Hu Hg.
  assert (forall f b sch, preserves obs (get_user_list lu info f true b sch)) as Hul
    by (intros; unfold get_user_list; solve_preserves).
  assert (forall f b sch, preserves obs (get_groups_list lg info f b sch)) as Hgl
    by (intros; unfold get_groups_list; solve_preserves).
  assert (forall f, preserves obs (search_users lu info req f)) as Hsu
    by (intros; unfold search_users, io_fallible, io_panics; solve_preserves).
  assert (forall f, preserves obs (search_groups lg info req f)) as Hsg
    by (intros; unfold search_groups, io_fallible, io_panics; solve_preserves).
  unfold do_search, search_root, search_container, search_leaf_user, search_leaf_group,
    io_fallible, no_such_object. solve_preserves.
Qed.

Lemma session_search_preserves ui req : preserves obs (session_search h info ui req).
Proof.
  unfold session_search. repeat preserves_step; eauto with klldap.
  apply search_preserves; intros; unfold restricted_list_users, restricted_list_groups; eauto with klldap.
Qed.

Lemma do_bind_preserves ui req : preserves obs (do_bind h info ui req).
Proof. unfold do_bind, authenticate, get_permissions_for_user. solve_preserves. Qed.

Lemma whoami_preserves v : preserves obs (do_whoami h info v).
Proof. unfold do_whoami, get_user_list. solve_preserves. Qed.

Context (v : ValidationResults) (Hadmin : is_admin v = false).
Context `{!ConfinedWrites h obs (vr_user v) (permission_eqb (vr_permission v) PasswordManager)}.

Lemma can_write_self u : can_write v u = true -> u = vr_user v.
Proof.
  unfold can_write. unfold is_admin in Hadmin. rewrite Hadmin. simpl.
  intros Hu%user_id_eqb_eq. done.
Qed.

Lemma can_change_password_confined u adm :
  can_change_password v u adm = true ->
  u = vr_user v \/ permission_eqb (vr_permission v) PasswordManager = true.
Proof.
  unfold can_change_password. unfold is_admin in Hadmin. rewrite Hadmin. simpl.
  intros [[Hp _]%andb_prop|Hu%user_id_eqb_eq]%orb_prop; auto.
Qed.

Lemma readable_is_handler u r : get_readable_handler h v u = Some r -> r = h.
Proof. unfold get_readable_handler. case_match; congruence. Qed.

Lemma writeable_is_self u r : get_writeable_handler h v u = Some r -> r = h /\ u = vr_user v.
Proof. unfold get_writeable_handler. case_match eqn:E; [|done]. apply can_write_self in E. naive_solver. Qed.

Lemma password_modification_preserves req :
  preserves obs (do_password_modification h info v req).
Proof.
  unfold do_password_modification, modify_password_of, cannot_modify_password, change_password,
    kerberos_after_password_change.
  repeat preserves_step;
    match goal with Hr : get_readable_handler _ _ _ = Some _ |- _ =>
      apply readable_is_handler in Hr; subst end; eauto with klldap;
    match goal with Hn : negb (can_change_password _ _ _) = false |- _ =>
      apply negb_false_iff, can_change_password_confined in Hn end;
    eauto using cw_password, cw_sync, cw_ensure.
Qed.

Lemma modify_preserves req : preserves obs (handle_modify_request h info v req).
Proof.
  unfold handle_modify_request. repeat preserves_step. unfold modify_one, cannot_modify.
  repeat preserves_step;
    match goal with
    | Hr : get_readable_handler _ _ _ = Some _, Hw : get_writeable_handler _ _ _ = Some _ |- _ =>
        apply readable_is_handler in Hr; apply writeable_is_self in Hw as [-> ->]; subst
    end; eauto with klldap.
  unfold handle_modify_change, modify_password, modify_profile, cannot_modify_password,
    change_password, sync_kerberos_if_enabled, add_change, delete_change, read_current_user.
  repeat preserves_step; eauto using cw_password, cw_sync, cw_update with klldap.
Qed.

Lemma message_preserves op : preserves obs (handle_ldap_message h info (Some v) op).
Proof.
  unfold handle_ldap_message. destruct op; cbv zeta; repeat preserves_step;
    try apply preserves_respond; try apply do_bind_preserves.
  - unfold do_search_or_dse. repeat preserves_step. apply session_search_preserves.
  - unfold do_modify_request. repeat preserves_step. apply modify_preserves.
  - unfold session_create, admin_handler, get_admin_handler. simpl. rewrite Hadmin.
    apply preserves_fail.
  - unfold session_delete, admin_handler, get_admin_handler. simpl. rewrite Hadmin.
    apply preserves_fail.
  - unfold do_compare. repeat preserves_step. apply session_search_preserves.
  - unfold do_extended_request. repeat preserves_step.
    + apply password_modification_preserves.
    + apply whoami_preserves.
Qed.
End Preservation.

(** ** Panics *)

(** A computation that may fail but never panics. *)
Definition panic_free {S A} (m : io S failure A) : Prop :=
  forall s msg s', m s <> (Err (Panicked msg), s').

Lemma panic_free_bind {S A B} (m : io S failure A) (k : A -> io S failure B) :
  panic_free m -> (forall s a s', m s = (Ok a, s') -> panic_free (k a)) -> panic_free (io_bind m k).
Proof.
  intros Hm Hk s msg s'. unfold io_bind. destruct (m s) as [[a|e] s1] eqn:E.
  - by eapply Hk.
  - intros [= -> ->]. by eapply Hm.
Qed.

Lemma panic_free_fallible {S A} (m : io S LdapError A) : panic_free (io_map_err Fail m).
Proof. intros s msg s'. unfold io_map_err. by destruct (m s) as [[]]. Qed.

Lemma panic_free_ret {S A} (a : A) : panic_free (S:=S) (io_ret a).
Proof. done. Qed.

Lemma panic_free_fail {S A} (e : LdapError) : panic_free (S:=S) (A:=A) (io_fail (Fail e)).
Proof. done. Qed.

Lemma panic_free_try {S E A} (m : io S E A) : panic_free (io_try m).
Proof. intros s msg s'. unfold io_try. by destruct (m s). Qed.

Lemma panic_free_respond {S} make (m : io S failure (list LdapOp)) s :
  panic_free m -> is_ok (fst (respond make m s)) = true.
Proof.
  intros Hm. unfold respond. destruct (m s) as [[|[|msg]] s'] eqn:E; try done. by destruct (Hm s msg s').
Qed.

Section PanicFree.
Context `{Extern, LdapExtern} {S : Type} (info : LdapInfo).
Context (lu : option UserRequestFilter -> bool -> io S DomainError (list UserAndGroups)).
Context (lg : option GroupRequestFilter -> io S DomainError (list Group)).
Context (Hlu : forall f g s us s', lu f g s = (Ok us, s') ->
  Forall (fun u => no_star_attribute (u_attributes (uag_user u))) us).
Context (Hlg : forall f s gs s', lg f s = (Ok gs, s') ->
  Forall (fun g => no_star_attribute (g_attributes g)) gs).

Lemma search_users_panic_free req f : panic_free (search_users lu info req f).
Proof.
  unfold search_users, io_fallible. apply panic_free_bind; [apply panic_free_fallible|].
  intros s us s' Hs. apply io_map_err_Ok in Hs. unfold get_user_list in Hs. io_inv Hs.
  apply Hlu in Hs. intros s1 msg s2. unfold io_panics, io_lift, convert_users_to_ldap_op.
  assert (is_ok (collect (map (fun u => map_ok OpSearchResultEntry
    (make_ldap_search_user_result_entry (uag_user u) (base_dn_str info)
      (expand (sr_attrs req) PublicSchema_get) (uag_groups u) (ignored_user_attributes info)
      PublicSchema_get)) us)) = true) as Hok.
  { rewrite collect_is_ok. clear -Hs. induction Hs as [|u us Hu _ IH]; [done|]. cbn [map forallb].
    edestruct (user_entry_built (uag_user u) (base_dn_str info) (sr_attrs req) (uag_groups u)
      (ignored_user_attributes info) Hu) as (attrs & He & _).
    unfold expand. rewrite He. exact IH. }
  by destruct (collect _).
Qed.

Lemma search_groups_panic_free req f : panic_free (search_groups lg info req f).
Proof.
  unfold search_groups, io_fallible. apply panic_free_bind; [apply panic_free_fallible|].
  intros s us s' Hs. apply io_map_err_Ok in Hs. unfold get_groups_list in Hs. io_inv Hs.
  apply Hlg in Hs. intros s1 msg s2. unfold io_panics, io_lift, convert_groups_to_ldap_op.
  assert (is_ok (collect (map (fun g => map_ok OpSearchResultEntry
    (make_ldap_search_group_result_entry g (base_dn_str info)
      (expand (sr_attrs req) PublicSchema_get) None (ignored_group_attributes info)
      PublicSchema_get)) us)) = true) as Hok.
  { rewrite collect_is_ok. clear -Hs. induction Hs as [|g us Hu _ IH]; [done|]. cbn [map forallb].
    edestruct (group_entry_built g (base_dn_str info) (sr_attrs req) None
      (ignored_group_attributes info) Hu) as (attrs & He & _).
    unfold expand. rewrite He. exact IH. }
  by destruct (collect _).
Qed.

Lemma do_search_panic_free req ous : panic_free (do_search lu lg info req ous).
Proof.
  unfold do_search, search_root, search_container, search_leaf_user, search_leaf_group,
    no_such_object, io_fallible.
  repeat lazymatch goal with
         | |- panic_free (match ?x with _ => _ end) => destruct x
         | |- panic_free (let _ := _ in _) => cbv zeta
         | |- panic_free (search_users _ _ _ _) => apply search_users_panic_free
         | |- panic_free (search_groups _ _ _ _) => apply search_groups_panic_free
         | |- panic_free (io_map_err Fail _) => apply panic_free_fallible
         | |- panic_free (io_bind _ _) => apply panic_free_bind; [|intros ? ? ? _]
         | |- panic_free _ => done
         end.
Qed.
End PanicFree.

(** ** Sessions over time *)

Section Traces.
Context `{Extern, LdapExtern} {S : Type} (h : BackendHandler S) (info : LdapInfo).

(** The messages handled so far, the identity, the store.  Between two messages the
    store may be changed in any way by other connections. *)
Inductive session_trace : list LdapOp -> option ValidationResults -> S -> Prop :=
| trace_start s : session_trace [] None s
| trace_message ops ui s op ui' answer s' :
    session_trace ops ui s ->
    handle_ldap_message h info ui op s = (Ok (ui', answer), s') ->
    session_trace (ops ++ [op]) ui' s'
| trace_others ops ui s s' : session_trace ops ui s -> session_trace ops ui s'.

(** A bind request the backend accepted for [v]'s user, in the user's own OU. *)
Definition authenticated_by (r : LdapBindRequest) (v : ValidationResults) : Prop :=
  exists password user groups s1 s2 s3 s4 s5 s6,
    lb_cred r = Simple password /\
    get_user_id_from_distinguished_name (to_ascii_lowercase (lb_dn r)) (base_dn info)
      (base_dn_str info) = Ok (vr_user v) /\
    @bind S h (MkBindRequest (vr_user v) password) s1 = (Ok tt, s2) /\
    @get_user_details S h (vr_user v) s3 = (Ok user, s4) /\
    eq_ignore_ascii_case (provided_ou (lb_dn r)) (get_user_ou user) = true /\
    @get_user_groups S h (vr_user v) s5 = (Ok groups, s6) /\
    v = get_permissions_from_groups (vr_user v) (map gd_display_name groups).

Lemma authenticate_Ok r s u s' :
  authenticate h info r s = (Ok u, s') ->
  exists password, lb_cred r = Simple password /\
    get_user_id_from_distinguished_name (to_ascii_lowercase (lb_dn r)) (base_dn info)
      (base_dn_str info) = Ok u /\
    @bind S h (MkBindRequest u password) s = (Ok tt, s').
Proof.
  unfold authenticate. intros Hs. case_match; [by io_inv Hs|].
  case_match; [|by io_inv Hs]. case_match; io_inv Hs.
  match goal with H : bind _ _ = (Ok ?t, _) |- _ => destruct t end. eauto.
Qed.

Lemma do_bind_identity ui r s v ops s' :
  do_bind h info ui r s = (Ok (Some v, ops), s') -> authenticated_by r v \/ ui = Some v.
Proof.
  unfold do_bind, io_try, io_bind.
  destruct (authenticate h info r s) as [[u|e] s1] eqn:E1; [|unfold io_ret; naive_solver].
  destruct (get_user_details u s1) as [[user|e] s2] eqn:E2; [|unfold io_ret; naive_solver].
  destruct (eq_ignore_ascii_case _ _) eqn:E3; [|unfold io_ret; naive_solver].
  unfold get_permissions_for_user, io_bind.
  destruct (get_user_groups u s2) as [[groups|e] s3] eqn:E4; unfold io_ret; simpl; intros Hs;
    simplify_eq/=. left. apply authenticate_Ok in E1 as (pw & Hc & Hu & Hb).
  exists pw, user, groups. do 6 eexists. by repeat split_and!; try eassumption.
Qed.

Lemma message_identity ui op s v ans s' :
  handle_ldap_message h info ui op s = (Ok (Some v, ans), s') ->
  (exists r, op = OpBindRequest r /\ authenticated_by r v) \/ ui = Some v.
Proof.
  assert (forall m : io S string (list LdapOp),
    (let! ops := m in io_ret (ui, Some ops)) s = (Ok (Some v, ans), s') -> ui = Some v) as Hkeep.
  { intros m Hm. by io_inv Hm. }
  unfold handle_ldap_message. destruct op as [r| | | | | | | | | | | | | | | | ]; cbv zeta; intros Hs;
    try (right; exact (Hkeep _ Hs)); try (by io_inv Hs; auto).
  apply io_bind_Ok in Hs as ([ui' ops] & s1 & Hb & Hs). io_inv Hs. simpl in *. subst.
  apply do_bind_identity in Hb as [?|?]; eauto.
Qed.
End Traces.

(** ** Properties *)

(** C16: an unbound session can neither read nor write the directory: for every
    message but a bind, the answer and the (still empty) identity are the same
    whatever the store holds, and the store is left as it is. *)
Theorem unbound_noninterference `{Extern, LdapExtern} {S} (h : BackendHandler S) info op :
  match op with OpBindRequest _ => False | _ => True end ->
  exists answer, forall s : S, handle_ldap_message h info None op s = (Ok (None, answer), s).
Proof.
  destruct op; intros Hop; try done; cbn [handle_ldap_message];
    unfold do_search_or_dse, do_modify_request, do_extended_request, session_create, session_delete,
      do_compare, session_search, respond, io_bind, io_ret, io_fail; simpl;
    repeat case_match; simplify_eq/=; eauto.
Qed.

Lemma unbound_noninterference_witness :
  exists answer, forall s,
    @handle_ldap_message demo_extern demo_ldap_extern journal journal_backend demo_info None
      (OpDelRequest "uid=bob,ou=people,dc=com") s = (Ok (None, answer), s).
Proof.
  exact (@unbound_noninterference demo_extern demo_ldap_extern journal journal_backend demo_info
    (OpDelRequest "uid=bob,ou=people,dc=com") I).
Defined.

(** Whatever a session of a non-administrator sends, an observation of the store
    that reads leave alone changes only through updates of that user's own entry
    and password writes for that user (for any user, when the session is a password
    manager's). *)
Theorem nonadmin_writes_confined `{Extern, LdapExtern} {S D} (h : BackendHandler S) info (obs : S -> D)
    `{!ReadsPreserve h obs} v
    `{!ConfinedWrites h obs (vr_user v) (permission_eqb (vr_permission v) PasswordManager)} op s :
  is_admin v = false ->
  obs (snd (handle_ldap_message h info (Some v) op s)) = obs s.
Proof. intros Hv. by apply message_preserves. Qed.

#[export] Instance journal_reads : ReadsPreserve journal_backend j_created.
Proof. by split. Qed.
#[export] Instance journal_writes me pm : ConfinedWrites journal_backend j_created me pm.
Proof. by split. Qed.

Lemma nonadmin_writes_confined_witness :
  j_created (snd (@handle_ldap_message demo_extern demo_ldap_extern journal journal_backend demo_info
    (Some bob_regular) (OpAddRequest (MkLdapAddRequest "uid=eve,ou=people,dc=com" []))
    (MkJournal (user_with_keys []) [] []))) = [].
Proof.
  exact (@nonadmin_writes_confined demo_extern demo_ldap_extern journal _ journal_backend demo_info
    j_created _ bob_regular _ _ (MkJournal (user_with_keys []) [] []) eq_refl).
Defined.

(** C5: however a session goes, and whatever other connections do meanwhile, the
    identity it acts under was established by a bind request of the session whose
    password the backend accepted for that very user, whose DN named the user's
    own OU, and whose permissions are those of the user's groups at that time. *)
Theorem session_identity_authenticated `{Extern, LdapExtern} {S} (h : BackendHandler S) info ops v s :
  session_trace h info ops (Some v) s ->
  exists r, OpBindRequest r ∈ ops /\ authenticated_by h info r v.
Proof.
  intros Ht. remember (Some v) as ui eqn:Hui. revert v Hui.
  induction Ht as [s|ops ui s op ui' ans s' Ht IH Hs|ops ui s s' Ht IH]; intros v Hui; subst; [done| |auto].
  apply message_identity in Hs as [(r & -> & Hr)| ->].
  - exists r. split; [set_solver|done].
  - destruct (IH v eq_refl) as (r & Hin & Hr). exists r. split; [set_solver|done].
Qed.

(** A backend that accepts one password. *)
Definition login_backend : BackendHandler unit := {|
  bind r := if String.eqb (br_password r) "secret" then io_ret tt else io_fail (AuthenticationError "");
  list_users := @list_users unit (demo_backend []);
  list_groups := @list_groups unit (demo_backend []);
  get_user_details id := io_ret demo_user;
  get_user_groups _ := io_ret [];
  get_group_details := @get_group_details unit (demo_backend []);
  get_schema := @get_schema unit (demo_backend []);
  get_allowed_ous := @get_allowed_ous unit (demo_backend []);
  create_user := @create_user unit (demo_backend []);
  update_user := @update_user unit (demo_backend []);
  delete_user := @delete_user unit (demo_backend []);
  add_user_to_group := @add_user_to_group unit (demo_backend []);
  remove_user_from_group := @remove_user_from_group unit (demo_backend []);
  create_group := @create_group unit (demo_backend []);
  update_group := @update_group unit (demo_backend []);
  delete_group := @delete_group unit (demo_backend []);
  register_password := @register_password unit (demo_backend []);
  ensure_kerberos_principal_consistency := @ensure_kerberos_principal_consistency unit (demo_backend []);
  sync_kerberos_principal := @sync_kerberos_principal unit (demo_backend []);
  delete_kerberos_principal := @delete_kerberos_principal unit (demo_backend [])
|}.

Definition demo_bind (password : string) : LdapBindRequest :=
  MkLdapBindRequest "uid=bob,ou=people,dc=com" (Simple password).

Lemma session_identity_authenticated_witness :
  exists r, OpBindRequest r ∈ [OpBindRequest (demo_bind "secret")] /\
    @authenticated_by demo_extern unit login_backend demo_info r bob_regular.
Proof.
  eapply (@session_identity_authenticated demo_extern demo_ldap_extern unit login_backend demo_info
    [OpBindRequest (demo_bind "secret")] bob_regular tt).
  eapply (trace_message _ _ [] None tt); [constructor|]. vm_compute. reflexivity.
Defined.

(** A password modification for a user the bound user may not read. *)
Definition unreadable_password_change (info : LdapInfo) (ui : option ValidationResults) (op : LdapOp)
  : bool :=
  match ui, op with
  | Some v, OpExtendedRequest r =>
      String.eqb (er_name r) OID_PASSWORD_MODIFY &&
      match er_password_modify r with
      | Ok (MkPasswordModifyRequest (Some user) (Some _)) =>
          match get_user_id_from_distinguished_name (to_ascii_lowercase user) (base_dn info)
                  (base_dn_str info) with
          | Ok uid => negb (can_read v uid)
          | Err _ => false
          end
      | _ => false
      end
  | _, _ => false
  end.

Section SessionPanics.
Context `{Extern, LdapExtern} {S : Type} (h : BackendHandler S) (info : LdapInfo).
Context (Hlu : forall f g s us s', @list_users S h f g s = (Ok us, s') ->
  Forall (fun u => no_star_attribute (u_attributes (uag_user u))) us).
Context (Hlg : forall f s gs s', @list_groups S h f s = (Ok gs, s') ->
  Forall (fun g => no_star_attribute (g_attributes g)) gs).

Lemma session_search_panic_free ui req : panic_free (session_search h info ui req).
Proof.
  unfold session_search. destruct ui as [v|]; [|done].
  apply panic_free_bind; [apply panic_free_try|]. intros s0 a s1 _. apply do_search_panic_free.
  - intros f g s us s'. apply Hlu.
  - intros f s gs s'. apply Hlg.
Qed.

Lemma respond_keep_ok make m ui s :
  is_ok (fst ((let! ops := respond make m in io_ret (ui, Some ops)) s :
    result string (option ValidationResults * option (list LdapOp)) * S)) =
  is_ok (fst (respond (S:=S) make m s)).
Proof. unfold io_bind. by destruct (respond make m s) as [[]]. Qed.

Lemma do_bind_ok ui r s : is_ok (fst (do_bind h info ui r s)) = true.
Proof.
  unfold do_bind, io_try, io_bind.
  destruct (authenticate h info r s) as [[u|e] s1]; [|done].
  destruct (get_user_details u s1) as [[user|e] s2]; [|done].
  case_match; [|done]. by destruct (get_permissions_for_user h u s2).
Qed.

Lemma password_modification_ok v r s :
  is_ok (fst (respond make_extended_response (do_password_modification h info v r) s)) =
  negb match r with
       | MkPasswordModifyRequest (Some user) (Some _) =>
           match get_user_id_from_distinguished_name (to_ascii_lowercase user) (base_dn info)
                   (base_dn_str info) with
           | Ok uid => negb (can_read v uid)
           | Err _ => false
           end
       | _ => false
       end.
Proof.
  unfold do_password_modification. destruct r as [[user|] [pw|]]; try done. cbn [pm_user_identity pm_new_password].
  destruct (get_user_id_from_distinguished_name _ _ _) as [uid|]; [|done].
  unfold modify_password_of, get_readable_handler. destruct (can_read v uid); [|done].
  apply panic_free_respond, panic_free_fallible.
Qed.

Lemma extended_ok ui r s :
  is_ok (fst (respond make_extended_response (do_extended_request h info ui r) s)) =
  negb (unreadable_password_change info ui (OpExtendedRequest r)).
Proof.
  unfold do_extended_request, unreadable_password_change.
  destruct (String.eqb (er_name r) OID_PASSWORD_MODIFY) eqn:E1; cbn [andb].
  - destruct (er_password_modify r) as [req|e]; [|by destruct ui].
    destruct ui as [v|]; [|done]. apply password_modification_ok.
  - replace (negb _) with true by (by destruct ui).
    destruct (String.eqb (er_name r) OID_WHOAMI); [|done]. destruct ui as [v|]; [|done].
    apply panic_free_respond. unfold do_whoami. apply panic_free_bind; [apply panic_free_try | done].
Qed.

Lemma message_ok ui op s :
  is_ok (fst (handle_ldap_message h info ui op s)) = negb (unreadable_password_change info ui op).
Proof.
  unfold handle_ldap_message. cbv zeta.
  destruct op; try (by destruct ui); rewrite ?respond_keep_ok, ?extended_ok; try done;
    try (replace (negb _) with true by (by destruct ui); apply panic_free_respond).
  - replace (negb _) with true by (by destruct ui). pose proof (do_bind_ok ui r s) as Hb.
    unfold io_bind. by destruct (do_bind h info ui r s) as [[]].
  - unfold do_search_or_dse. repeat case_match; try done. apply session_search_panic_free.
  - unfold do_modify_request. destruct ui; [apply panic_free_fallible|done].
  - unfold session_create. destruct (admin_handler _ _); [apply panic_free_fallible|done].
  - unfold session_delete. destruct (admin_handler _ _); [apply panic_free_fallible|done].
  - unfold do_compare. apply panic_free_bind; [apply session_search_panic_free|done].
Qed.
End SessionPanics.

(** C40: handling a message panics in exactly one case: a password modification for a
    user the caller may not read (a regular user asking for somebody else), where
    the handler expects a permission it never checked.  Every other message, from
    anybody, is answered. *)
Theorem session_panics_exactly `{Extern, LdapExtern} {S} (h : BackendHandler S) info ui op (s : S) :
  (forall f g s us s', @list_users S h f g s = (Ok us, s') ->
    Forall (fun u => no_star_attribute (u_attributes (uag_user u))) us) ->
  (forall f s gs s', @list_groups S h f s = (Ok gs, s') ->
    Forall (fun g => no_star_attribute (g_attributes g)) gs) ->
  is_ok (fst (handle_ldap_message h info ui op s)) = negb (unreadable_password_change info ui op).
Proof. intros Hlu Hlg. by apply message_ok. Qed.

Lemma session_panics_exactly_witness :
  is_ok (fst (@handle_ldap_message demo_extern demo_ldap_extern unit login_backend demo_info
    (Some bob_regular) (OpExtendedRequest (MkExtendedRequest OID_PASSWORD_MODIFY
      (Ok (MkPasswordModifyRequest (Some "uid=alice,ou=people,dc=com") (Some "pw"))))) tt)) = false.
Proof.
  rewrite (@session_panics_exactly demo_extern demo_ldap_extern unit login_backend demo_info).
  - vm_compute. reflexivity.
  - intros f g s us s' Hs. simpl in Hs. by io_inv Hs.
  - intros f s gs s' Hs. simpl in Hs. by io_inv Hs.
Defined.

(** A bind that fails leaves the session bound as whoever it was bound before; and
    a bind whose permission lookup fails answers [Success] while leaving the session
    unbound. *)
Theorem failed_bind_identity `{Extern, LdapExtern} {S} (h : BackendHandler S) info ui r (s : S) :
  (forall e s1, authenticate h info r s = (Err e, s1) ->
     handle_ldap_message h info ui (OpBindRequest r) s =
     (Ok (ui, Some (make_bind_response (code e) (message e))), s1)) /\
  (forall u user e s1 s2 s3, authenticate h info r s = (Ok u, s1) ->
     @get_user_details S h u s1 = (Ok user, s2) ->
     eq_ignore_ascii_case (provided_ou (lb_dn r)) (get_user_ou user) = true ->
     @get_user_groups S h u s2 = (Err e, s3) ->
     handle_ldap_message h info ui (OpBindRequest r) s =
     (Ok (None, Some (make_bind_response Success "")), s3)).
Proof.
  unfold handle_ldap_message, do_bind, get_permissions_for_user, io_try, io_bind.
  split; [by intros e s1 -> | by intros u user e s1 s2 s3 -> -> -> ->].
Qed.

Lemma failed_bind_identity_witness :
  @handle_ldap_message demo_extern demo_ldap_extern unit login_backend demo_info (Some bob_regular)
    (OpBindRequest (demo_bind "wrong")) tt =
  (Ok (Some bob_regular, Some (make_bind_response InvalidCredentials "")), tt).
Proof.
  apply (proj1 (@failed_bind_identity demo_extern demo_ldap_extern unit login_backend demo_info
    (Some bob_regular) (demo_bind "wrong") tt) (MkLdapError InvalidCredentials "") tt).
  vm_compute. reflexivity.
Defined.
