(* ===== verification/Database.v ===== *)
(** * The database under the SQL backend

    The tables the migrations of [crates/sql-backend-handler/src/sql_migrations.rs]
    create and the entities of [crates/domain-model/src/model] describe, the
    constraints those migrations declare (primary keys, unique indices, foreign
    keys that cascade), the statements the handlers issue, and [transaction].

    The engine and the driver are not part of the repository: when a statement
    fails for reasons of its own ([fault]), what the error of a violated constraint
    says, the identifier an inserted group gets, LIKE, and comparisons between a
    column and a text are operations of the class [SqlExtern]. *)

From S2P Require Import Prelude Strings Types Schema SchemaManager.

(** ** Rows and tables *)

(** [users::Model], without its key *)
Record UserRow := MkUserRow {
  ur_email : Email;
  ur_lowercase_email : string;
  ur_display_name : option string;
  ur_creation_date : NaiveDateTime;
  ur_password_hash : option string;
  ur_totp_secret : option string;
  ur_mfa_type : option string;
  ur_uuid : Uuid;
  ur_modified_date : NaiveDateTime;
  ur_password_modified_date : NaiveDateTime;
  ur_krb_principal_name : option string
}.

(** [groups::Model], without its key *)
Record GroupRow := MkGroupRow {
  gr_display_name : GroupName;
  gr_lowercase_display_name : string;
  gr_creation_date : NaiveDateTime;
  gr_uuid : Uuid;
  gr_modified_date : NaiveDateTime
}.

(** [user_attribute_schema::Model] and [group_attribute_schema::Model], without
    their keys; [sch_aliases] is a JSON text. *)
Record SchemaRow := MkSchemaRow {
  sch_attribute_type : AttributeType;
  sch_is_list : bool;
  sch_is_visible : bool;
  sch_is_editable : bool;
  sch_is_hardcoded : bool;
  sch_is_readonly : bool;
  sch_aliases : string
}.

(** [jwt_refresh_storage::Model], [jwt_storage::Model] and
    [password_reset_tokens::Model], without their keys *)
Record RefreshRow := MkRefreshRow { rr_user_id : UserId; rr_expiry_date : NaiveDateTime }.

Record JwtRow := MkJwtRow {
  jr_user_id : UserId;
  jr_expiry_date : NaiveDateTime;
  jr_blacklisted : bool
}.

Record ResetRow := MkResetRow { sr_user_id : UserId; sr_expiry_date : NaiveDateTime }.

(** The tables of the web sessions, whose rows refer to users and go with them. *)
Record TokenTables := MkTokenTables {
  tt_refresh : gmap Z RefreshRow;
  tt_jwt : gmap Z JwtRow;
  tt_reset : gmap string ResetRow
}.

Record Tables := MkTables {
  t_users : gmap UserId UserRow;
  t_groups : gmap GroupId GroupRow;
  t_memberships : gset (UserId * GroupId);
  t_user_attributes : gmap (UserId * AttributeName) string;
  t_group_attributes : gmap (GroupId * AttributeName) string;
  t_user_attribute_schema : gmap AttributeName SchemaRow;
  t_group_attribute_schema : gmap AttributeName SchemaRow;
  t_user_object_classes : gmap string LdapObjectClass;
  t_group_object_classes : gmap string LdapObjectClass;
  t_system_config : gmap string string;
  t_tokens : TokenTables
}.

Definition with_users (t : Tables) (m : gmap UserId UserRow) : Tables :=
  MkTables m (t_groups t) (t_memberships t) (t_user_attributes t) (t_group_attributes t)
    (t_user_attribute_schema t) (t_group_attribute_schema t) (t_user_object_classes t)
    (t_group_object_classes t) (t_system_config t) (t_tokens t).

Definition with_groups (t : Tables) (m : gmap GroupId GroupRow) : Tables :=
  MkTables (t_users t) m (t_memberships t) (t_user_attributes t) (t_group_attributes t)
    (t_user_attribute_schema t) (t_group_attribute_schema t) (t_user_object_classes t)
    (t_group_object_classes t) (t_system_config t) (t_tokens t).

Definition with_memberships (t : Tables) (m : gset (UserId * GroupId)) : Tables :=
  MkTables (t_users t) (t_groups t) m (t_user_attributes t) (t_group_attributes t)
    (t_user_attribute_schema t) (t_group_attribute_schema t) (t_user_object_classes t)
    (t_group_object_classes t) (t_system_config t) (t_tokens t).

Definition with_user_attributes (t : Tables) (m : gmap (UserId * AttributeName) string) : Tables :=
  MkTables (t_users t) (t_groups t) (t_memberships t) m (t_group_attributes t)
    (t_user_attribute_schema t) (t_group_attribute_schema t) (t_user_object_classes t)
    (t_group_object_classes t) (t_system_config t) (t_tokens t).

Definition with_group_attributes (t : Tables) (m : gmap (GroupId * AttributeName) string) : Tables :=
  MkTables (t_users t) (t_groups t) (t_memberships t) (t_user_attributes t) m
    (t_user_attribute_schema t) (t_group_attribute_schema t) (t_user_object_classes t)
    (t_group_object_classes t) (t_system_config t) (t_tokens t).

Definition with_user_schema (t : Tables) (m : gmap AttributeName SchemaRow) : Tables :=
  MkTables (t_users t) (t_groups t) (t_memberships t) (t_user_attributes t) (t_group_attributes t)
    m (t_group_attribute_schema t) (t_user_object_classes t)
    (t_group_object_classes t) (t_system_config t) (t_tokens t).

Definition with_group_schema (t : Tables) (m : gmap AttributeName SchemaRow) : Tables :=
  MkTables (t_users t) (t_groups t) (t_memberships t) (t_user_attributes t) (t_group_attributes t)
    (t_user_attribute_schema t) m (t_user_object_classes t)
    (t_group_object_classes t) (t_system_config t) (t_tokens t).

Definition with_user_classes (t : Tables) (m : gmap string LdapObjectClass) : Tables :=
  MkTables (t_users t) (t_groups t) (t_memberships t) (t_user_attributes t) (t_group_attributes t)
    (t_user_attribute_schema t) (t_group_attribute_schema t) m
    (t_group_object_classes t) (t_system_config t) (t_tokens t).

Definition with_group_classes (t : Tables) (m : gmap string LdapObjectClass) : Tables :=
  MkTables (t_users t) (t_groups t) (t_memberships t) (t_user_attributes t) (t_group_attributes t)
    (t_user_attribute_schema t) (t_group_attribute_schema t) (t_user_object_classes t)
    m (t_system_config t) (t_tokens t).

Definition with_system_config (t : Tables) (m : gmap string string) : Tables :=
  MkTables (t_users t) (t_groups t) (t_memberships t) (t_user_attributes t) (t_group_attributes t)
    (t_user_attribute_schema t) (t_group_attribute_schema t) (t_user_object_classes t)
    (t_group_object_classes t) m (t_tokens t).

Definition with_tokens (t : Tables) (m : TokenTables) : Tables :=
  MkTables (t_users t) (t_groups t) (t_memberships t) (t_user_attributes t) (t_group_attributes t)
    (t_user_attribute_schema t) (t_group_attribute_schema t) (t_user_object_classes t)
    (t_group_object_classes t) (t_system_config t) m.

(** ** The engine *)

Class SqlExtern := {
  (** The error of the n-th statement the connection executes, if it fails for a
      reason that does not depend on the tables (connection lost, timeout, lock). *)
  fault : nat -> option DbErr;
  (** [chrono::Utc::now] before the n-th statement. *)
  utc_now : nat -> NaiveDateTime;
  (** The driver's errors for a violated constraint and for a column that is not in
      scope. *)
  constraint_error : string -> DbErr;
  unknown_column_error : string -> DbErr;
  (** The key an inserted group gets, given those in use. *)
  fresh_group_id : gset GroupId -> GroupId;
  (** [text LIKE pattern], [LOWER(text)] *)
  sql_like : string -> string -> bool;
  sql_lower : string -> string;
  (** The text of a date column, for [=] and LIKE; a date column and a blob column
      against a text: [>=] and [<=]. *)
  date_text : NaiveDateTime -> string;
  date_gte : NaiveDateTime -> string -> bool;
  date_lte : NaiveDateTime -> string -> bool;
  value_gte : string -> string -> bool;
  value_lte : string -> string -> bool;
  (** serde_json on [PosixSettings]: the text, and the value or the error. *)
  posix_to_json : PosixSettings -> string;
  posix_from_json : string -> result string PosixSettings;
  (** The environment variable LLDAP_LDAP_BASE_DN. *)
  env_ldap_base_dn : option string
}.

(** What the development relies on: the key of an inserted group is not in use. *)
Class SqlLaws `{SqlExtern} := {
  fresh_group_id_new s : fresh_group_id s ∉ s
}.

(** Calls to the Kerberos server, which no transaction undoes. *)
Inductive KdcCall : Type :=
| KdcSync (user password : string)
| KdcDelete (user : string).

(** The store: the tables, the statements executed so far, the calls made. *)
Record Db := MkDb {
  db_tables : Tables;
  db_tick : nat;
  db_kdc : list KdcCall
}.

Section Engine.
Context `{SqlExtern}.

(** A statement: a function on the tables, which it changes only if it succeeds. *)
Definition statement (A : Type) : Type := Tables -> result DbErr (A * Tables).

Definition exec {A} (f : statement A) : io Db DbErr A :=
  fun s =>
    match fault (db_tick s) with
    | Some e => (Err e, MkDb (db_tables s) (S (db_tick s)) (db_kdc s))
    | None =>
        match f (db_tables s) with
        | Ok (a, t) => (Ok a, MkDb t (S (db_tick s)) (db_kdc s))
        | Err e => (Err e, MkDb (db_tables s) (S (db_tick s)) (db_kdc s))
        end
    end.

Definition query {A} (f : Tables -> A) : io Db DbErr A := exec (fun t => Ok (f t, t)).

Definition now {E} : io Db E NaiveDateTime := fun s => (Ok (utc_now (db_tick s)), s).

(** [sea_orm::TransactionTrait::transaction]: BEGIN, the body, then COMMIT or
    ROLLBACK.  [conn] wraps the errors of the first and last statement, [body_err]
    the error of the body.  Nothing of a transaction that does not commit stays in
    the tables. *)
Definition transaction {E E' A} (conn : DbErr -> E') (body_err : E -> E') (body : io Db E A)
  : io Db E' A :=
  fun s =>
    match query (fun _ => tt) s with
    | (Err e, s0) => (Err (conn e), s0)
    | (Ok _, s0) =>
        match body s0 with
        | (Ok a, s1) =>
            match query (fun _ => tt) s1 with
            | (Ok _, s2) => (Ok a, s2)
            | (Err e, s2) => (Err (conn e), MkDb (db_tables s) (db_tick s2) (db_kdc s2))
            end
        | (Err e, s1) =>
            match query (fun _ => tt) s1 with
            | (Ok _, s2) => (Err (body_err e), MkDb (db_tables s) (db_tick s2) (db_kdc s2))
            | (Err e', s2) => (Err (conn e'), MkDb (db_tables s) (db_tick s2) (db_kdc s2))
            end
        end
    end.

(** In code whose errors are [DomainError]s: [exec(..).await?], [query(..).await?]
    and [transaction::<_, _, DomainError>(..).await?]. *)
Definition dexec {A} (f : statement A) : io Db DomainError A := io_map_err DatabaseError (exec f).
Definition dquery {A} (f : Tables -> A) : io Db DomainError A := io_map_err DatabaseError (query f).
Definition dtransaction {A} (body : io Db DomainError A) : io Db DomainError A :=
  transaction DatabaseError id body.

(** A call of crates/kerberos whose result is only logged. *)
Definition kdc_call {E} (c : KdcCall) : io Db E unit :=
  fun s => (Ok tt, MkDb (db_tables s) (db_tick s) (db_kdc s ++ [c])).

(** ** Statements *)

(** ORDER BY: rows that compare equal stay in the order the engine found them. *)
Fixpoint insert_ordered {A} (leb : A -> A -> bool) (x : A) (l : list A) : list A :=
  match l with
  | [] => [x]
  | y :: l' => if leb x y then x :: l else y :: insert_ordered leb x l'
  end.

Definition order_by {A} (leb : A -> A -> bool) (l : list A) : list A :=
  fold_right (insert_ordered leb) [] l.

Definition map_existsb {K A} `{Countable K} (p : K -> A -> bool) (m : gmap K A) : bool :=
  existsb (fun kv => p (fst kv) (snd kv)) (map_to_list m).

Definition violated {A} (what : string) : result DbErr A := Err (constraint_error what).

(** The unique indices of [users]: email, lowercase email, uuid. *)
Definition user_conflict (t : Tables) (id : UserId) (row : UserRow) : bool :=
  map_existsb (fun id' row' => negb (user_id_eqb id' id) &&
    (String.eqb (email_str (ur_email row')) (email_str (ur_email row))
     || String.eqb (ur_lowercase_email row') (ur_lowercase_email row)
     || String.eqb (ur_uuid row') (ur_uuid row))) (t_users t).

Definition insert_user (id : UserId) (row : UserRow) : statement unit := fun t =>
  match t_users t !! id with
  | Some _ => violated "users.user_id"
  | None => if user_conflict t id row then violated "users"
            else Ok (tt, with_users t (<[id := row]> (t_users t)))
  end.

(** [ActiveModel::update]: [change] sets the columns that are [Set]. *)
Definition update_user_row (id : UserId) (change : UserRow -> UserRow) : statement unit := fun t =>
  match t_users t !! id with
  | None => Err RecordNotUpdated
  | Some row => if user_conflict t id (change row) then violated "users"
                else Ok (tt, with_users t (<[id := change row]> (t_users t)))
  end.

(** The cascades of the token tables. *)
Definition without_user_tokens (tk : TokenTables) (id : UserId) : TokenTables :=
  MkTokenTables (filter (fun kv => rr_user_id kv.2 <> id) (tt_refresh tk))
    (filter (fun kv => jr_user_id kv.2 <> id) (tt_jwt tk))
    (filter (fun kv => sr_user_id kv.2 <> id) (tt_reset tk)).

(** The rows deleted; memberships, attributes and tokens go with the user. *)
Definition delete_user_row (id : UserId) : statement nat := fun t =>
  match t_users t !! id with
  | None => Ok (0, t)
  | Some _ =>
      Ok (1, with_tokens (with_memberships (with_user_attributes (with_users t (delete id (t_users t)))
               (filter (fun kv => (kv.1).1 <> id) (t_user_attributes t)))
             (filter (fun m => m.1 <> id) (t_memberships t)))
             (without_user_tokens (t_tokens t) id))
  end.

(** The unique indices of [groups]: display name, lowercase name, uuid. *)
Definition group_conflict (t : Tables) (id : GroupId) (row : GroupRow) : bool :=
  map_existsb (fun id' row' => negb (Z.eqb id' id) &&
    (String.eqb (group_name_str (gr_display_name row')) (group_name_str (gr_display_name row))
     || String.eqb (gr_lowercase_display_name row') (gr_lowercase_display_name row)
     || String.eqb (gr_uuid row') (gr_uuid row))) (t_groups t).

Definition insert_group (row : GroupRow) : statement GroupId := fun t =>
  let id := fresh_group_id (dom (t_groups t)) in
  if group_conflict t id row then violated "groups"
  else Ok (id, with_groups t (<[id := row]> (t_groups t))).

Definition update_group_row (id : GroupId) (change : GroupRow -> GroupRow) : statement unit := fun t =>
  match t_groups t !! id with
  | None => Err RecordNotUpdated
  | Some row => if group_conflict t id (change row) then violated "groups"
                else Ok (tt, with_groups t (<[id := change row]> (t_groups t)))
  end.

Definition delete_group_row (id : GroupId) : statement nat := fun t =>
  match t_groups t !! id with
  | None => Ok (0, t)
  | Some _ =>
      Ok (1, with_memberships (with_group_attributes (with_groups t (delete id (t_groups t)))
               (filter (fun kv => (kv.1).1 <> id) (t_group_attributes t)))
             (filter (fun m => m.2 <> id) (t_memberships t)))
  end.

Definition insert_membership (u : UserId) (g : GroupId) : statement unit := fun t =>
  if bool_decide ((u, g) ∈ t_memberships t) then violated "memberships"
  else match t_users t !! u, t_groups t !! g with
       | Some _, Some _ => Ok (tt, with_memberships t ({[(u, g)]} ∪ t_memberships t))
       | _, _ => violated "MembershipForeignKey"
       end.

Definition delete_membership (u : UserId) (g : GroupId) : statement nat := fun t =>
  if bool_decide ((u, g) ∈ t_memberships t)
  then Ok (1, with_memberships t (t_memberships t ∖ {[(u, g)]}))
  else Ok (0, t).

(** One row of [INSERT INTO user_attributes]; [upsert] is ON CONFLICT .. DO UPDATE. *)
Definition put_user_attribute (upsert : bool) (u : UserId) (n : AttributeName) (v : string)
  : statement unit := fun t =>
  if negb upsert && bool_decide (is_Some (t_user_attributes t !! (u, n))) then violated "user_attributes"
  else match t_users t !! u, t_user_attribute_schema t !! n with
       | Some _, Some _ => Ok (tt, with_user_attributes t (<[(u, n) := v]> (t_user_attributes t)))
       | _, _ => violated "UserAttributeForeignKey"
       end.

Definition put_group_attribute (upsert : bool) (g : GroupId) (n : AttributeName) (v : string)
  : statement unit := fun t =>
  if negb upsert && bool_decide (is_Some (t_group_attributes t !! (g, n))) then violated "group_attributes"
  else match t_groups t !! g, t_group_attribute_schema t !! n with
       | Some _, Some _ => Ok (tt, with_group_attributes t (<[(g, n) := v]> (t_group_attributes t)))
       | _, _ => violated "GroupAttributeForeignKey"
       end.

(** [insert_many]: the rows in order, all or none. *)
Fixpoint put_all {K} (put : K -> string -> statement unit) (rows : list (K * string))
  : statement unit := fun t =>
  match rows with
  | [] => Ok (tt, t)
  | (k, v) :: rows' => let? p := put k v t in put_all put rows' (snd p)
  end.

Definition put_user_attributes (upsert : bool) (u : UserId) (rows : list (AttributeName * string))
  : statement unit := put_all (put_user_attribute upsert u) rows.

Definition put_group_attributes (upsert : bool) (g : GroupId) (rows : list (AttributeName * string))
  : statement unit := put_all (put_group_attribute upsert g) rows.

(** [DELETE FROM user_attributes WHERE user_id = u AND attribute_name IN names], and
    the same without the first condition. *)
Definition delete_user_attributes (u : UserId) (names : list AttributeName) : statement unit := fun t =>
  Ok (tt, with_user_attributes t
    (filter (fun kv => ~ ((kv.1).1 = u /\ (kv.1).2 ∈ names)) (t_user_attributes t))).

Definition delete_group_attributes (g : GroupId) (names : list AttributeName) : statement unit := fun t =>
  Ok (tt, with_group_attributes t
    (filter (fun kv => ~ ((kv.1).1 = g /\ (kv.1).2 ∈ names)) (t_group_attributes t))).

Definition delete_user_attribute_everywhere (n : AttributeName) : statement unit := fun t =>
  Ok (tt, with_user_attributes t (filter (fun kv => (kv.1).2 <> n) (t_user_attributes t))).

Definition delete_group_attribute_everywhere (n : AttributeName) : statement unit := fun t =>
  Ok (tt, with_group_attributes t (filter (fun kv => (kv.1).2 <> n) (t_group_attributes t))).

(** The attribute rows of a user, respectively a group, ordered by name. *)
Definition by_name (x y : AttributeName * string) : bool :=
  str_leb (attribute_name_str (fst x)) (attribute_name_str (fst y)).

Definition rows_of {K} `{EqDecision K} (k : K) (l : list ((K * AttributeName) * string))
  : list (AttributeName * string) :=
  order_by by_name (omap (fun kv =>
    if bool_decide ((kv.1).1 = k) then Some ((kv.1).2, kv.2) else None) l).

Definition user_attribute_rows (t : Tables) (u : UserId) : list (AttributeName * string) :=
  rows_of u (map_to_list (t_user_attributes t)).

Definition group_attribute_rows (t : Tables) (g : GroupId) : list (AttributeName * string) :=
  rows_of g (map_to_list (t_group_attributes t)).

(** Number of memberships of a group. *)
Definition member_count (t : Tables) (g : GroupId) : nat :=
  size (filter (fun m : UserId * GroupId => m.2 = g) (t_memberships t)).

(** [find_linked(UserToGroup)]: the groups a user belongs to, by key. *)
Definition groups_of_user (t : Tables) (u : UserId) : list (GroupId * GroupRow) :=
  map_to_list (filter (fun kv : GroupId * GroupRow => (u, kv.1) ∈ t_memberships t) (t_groups t)).

Definition find_user (t : Tables) (u : UserId) : option UserRow := t_users t !! u.
Definition find_group (t : Tables) (g : GroupId) : option GroupRow := t_groups t !! g.
End Engine.

(** ** Laws of the engine *)

Section EngineLaws.
Context `{SqlExtern}.

Lemma exec_Ok {A} (f : statement A) s a s' :
  exec f s = (Ok a, s') -> f (db_tables s) = Ok (a, db_tables s').
Proof.
  unfold exec. destruct (fault _); [done|]. destruct (f (db_tables s)) as [[a' t]|e]; naive_solver.
Qed.

Lemma exec_Err {A} (f : statement A) s e s' :
  exec f s = (Err e, s') -> db_tables s' = db_tables s.
Proof. unfold exec. crush_match. Qed.

Lemma dexec_Ok {A} (f : statement A) s a s' :
  dexec f s = (Ok a, s') -> f (db_tables s) = Ok (a, db_tables s').
Proof. unfold dexec. rewrite io_map_err_Ok. apply exec_Ok. Qed.

Lemma query_Ok {A} (f : Tables -> A) s a s' :
  query f s = (Ok a, s') -> a = f (db_tables s) /\ db_tables s' = db_tables s.
Proof. intros Hq%exec_Ok. by simplify_eq. Qed.

Lemma dquery_Ok {A} (f : Tables -> A) s a s' :
  dquery f s = (Ok a, s') -> a = f (db_tables s) /\ db_tables s' = db_tables s.
Proof. unfold dquery. rewrite io_map_err_Ok. apply query_Ok. Qed.

Lemma now_Ok {E} s (d : NaiveDateTime) s' : now (E := E) s = (Ok d, s') -> s' = s.
Proof. unfold now. naive_solver. Qed.

Lemma kdc_call_Ok {E} c s a s' : kdc_call (E := E) c s = (Ok a, s') -> db_tables s' = db_tables s.
Proof. unfold kdc_call. naive_solver. Qed.

Lemma query_tables {A} (f : Tables -> A) s : db_tables (snd (query f s)) = db_tables s.
Proof. unfold query, exec. by destruct (fault _). Qed.

(** A committed transaction ran its body on the tables it started from, and left the
    tables the body left. *)
Lemma transaction_Ok {E E' A} conn (body_err : E -> E') (body : io Db E A) s a s' :
  transaction conn body_err body s = (Ok a, s') ->
  exists s0 s1, db_tables s0 = db_tables s /\ body s0 = (Ok a, s1) /\ db_tables s' = db_tables s1.
Proof.
  unfold transaction. pose proof (query_tables (fun _ => tt) s) as H0.
  destruct (query _ s) as [[u|e] s0]; [|done]. simpl in H0.
  destruct (body s0) as [[b|e] s1] eqn:Eb; [|by destruct (query _ s1) as [[]]].
  pose proof (query_tables (fun _ => tt) s1) as H1. destruct (query _ s1) as [[u'|e] s2]; [|done].
  simpl in H1. intros [= -> ->]. eauto.
Qed.

(** ** Atomicity *)

(** A failed call leaves the tables as they were. *)
Definition atomic {E A} (m : io Db E A) : Prop :=
  forall s e s', m s = (Err e, s') -> db_tables s' = db_tables s.

Lemma atomic_transaction {E E' A} conn (body_err : E -> E') (body : io Db E A) :
  atomic (transaction conn body_err body).
Proof.
  intros s e s'. unfold transaction. pose proof (query_tables (fun _ => tt) s) as H0.
  destruct (query _ s) as [[u|e0] s0]; [|by intros [= _ <-]].
  destruct (body s0) as [[b|e1] s1]; destruct (query _ s1) as [[]]; naive_solver.
Qed.

Lemma atomic_exec {A} (f : statement A) : atomic (exec f).
Proof. intros s e s'. apply exec_Err. Qed.

Lemma atomic_map_err {E E' A} (f : E -> E') (m : io Db E A) : atomic m -> atomic (io_map_err f m).
Proof.
  intros Hm s e s'. unfold io_map_err. specialize (Hm s). destruct (m s) as [[a|e'] s1]; [done|].
  simpl. intros [= _ <-]. by eapply Hm.
Qed.

Lemma atomic_dexec {A} (f : statement A) : atomic (dexec f).
Proof. apply atomic_map_err, atomic_exec. Qed.

Lemma atomic_dtransaction {A} (m : io Db DomainError A) : atomic (dtransaction m).
Proof. apply atomic_transaction. Qed.

Lemma atomic_readonly {E A} (m : io Db E A) : preserves db_tables m -> atomic m.
Proof. intros Hm s e s' Hs. by rewrite <- (Hm s), Hs. Qed.

(** Reads before an atomic write. *)
Lemma atomic_bind_read {E A B} (m : io Db E A) (k : A -> io Db E B) :
  preserves db_tables m -> (forall a, atomic (k a)) -> atomic (io_bind m k).
Proof.
  intros Hm Hk s e s'. unfold io_bind. specialize (Hm s). destruct (m s) as [[a|e'] s1]; simpl in Hm.
  - intros Hs. rewrite <- Hm. by eapply Hk.
  - by intros [= _ <-].
Qed.

Lemma atomic_bind_ret {E A B} (m : io Db E A) (f : A -> B) :
  atomic m -> atomic (io_bind m (fun a => io_ret (f a))).
Proof.
  intros Hm s e s'. unfold io_bind. specialize (Hm s). destruct (m s) as [[a|e'] s1]; [done|].
  intros [= <- <-]. by eapply Hm.
Qed.

Lemma preserves_query {A} (f : Tables -> A) : preserves db_tables (query f).
Proof. intros s. apply query_tables. Qed.

Lemma preserves_dquery {A} (f : Tables -> A) : preserves db_tables (dquery f).
Proof. apply preserves_map_err, preserves_query. Qed.

Lemma preserves_now {E} : preserves db_tables (now (E := E)).
Proof. done. Qed.

Lemma preserves_kdc_call {E} c : preserves db_tables (kdc_call (E := E) c).
Proof. done. Qed.

Lemma preserves_transaction {E E' A} conn (body_err : E -> E') (body : io Db E A) :
  preserves db_tables body -> preserves db_tables (transaction conn body_err body).
Proof.
  intros Hb s. destruct (transaction conn body_err body s) as [[a|e] s'] eqn:Et; simpl.
  - apply transaction_Ok in Et as (s0 & s1 & H0 & H1 & ->). specialize (Hb s0). by rewrite H1, H0 in Hb.
  - by eapply atomic_transaction.
Qed.

(** ** Invariants *)

Definition stmt_keeps {A} (I : Tables -> Prop) (f : statement A) : Prop :=
  forall t a t', f t = Ok (a, t') -> I t -> I t'.

Definition keeps {E A} (I : Tables -> Prop) (m : io Db E A) : Prop :=
  forall s, I (db_tables s) -> I (db_tables (snd (m s))).

Section Keeps.
Context (I : Tables -> Prop).

Lemma keeps_read {E A} (m : io Db E A) : preserves db_tables m -> keeps I m.
Proof. intros Hm s Hs. by rewrite Hm. Qed.

Lemma keeps_exec {A} (f : statement A) : stmt_keeps I f -> keeps I (exec f).
Proof.
  intros Hf s Hs. unfold exec. destruct (fault _); [done|].
  destruct (f (db_tables s)) as [[a t]|e] eqn:E; simpl; eauto.
Qed.

Lemma keeps_map_err {E E' A} (f : E -> E') (m : io Db E A) : keeps I m -> keeps I (io_map_err f m).
Proof. intros Hm s Hs. unfold io_map_err. specialize (Hm s Hs). by destruct (m s). Qed.

Lemma keeps_dexec {A} (f : statement A) : stmt_keeps I f -> keeps I (dexec f).
Proof. intros. by apply keeps_map_err, keeps_exec. Qed.

Lemma keeps_bind {E A B} (m : io Db E A) (k : A -> io Db E B) :
  keeps I m -> (forall a, keeps I (k a)) -> keeps I (io_bind m k).
Proof.
  intros Hm Hk s Hs. unfold io_bind. specialize (Hm s Hs). destruct (m s) as [[a|e] s1]; [|done].
  by apply Hk.
Qed.

Lemma keeps_transaction {E E' A} conn (body_err : E -> E') (body : io Db E A) :
  keeps I body -> keeps I (transaction conn body_err body).
Proof.
  intros Hb s Hs. destruct (transaction conn body_err body s) as [[a|e] s'] eqn:Et; simpl.
  - apply transaction_Ok in Et as (s0 & s1 & H0 & H1 & ->).
    specialize (Hb s0). rewrite H1, H0 in Hb. by apply Hb.
  - by rewrite (atomic_transaction _ _ _ _ _ _ Et).
Qed.

Lemma keeps_iter {E A} (f : A -> io Db E unit) l : (forall a, keeps I (f a)) -> keeps I (io_iter f l).
Proof. intros Hf. induction l; simpl; [by intros s|]. by apply keeps_bind. Qed.

Lemma keeps_put_all {K} (put : K -> string -> statement unit) rows :
  (forall k v, stmt_keeps I (put k v)) -> stmt_keeps I (put_all put rows).
Proof.
  intros Hp. induction rows as [|[k v] rows IH]; intros t a t'; simpl; [by intros [= _ <-]|].
  rewrite result_bind_Ok. intros ([u t1] & H1 & H2) Ht. eapply IH; [exact H2|]. by eapply Hp.
Qed.
End Keeps.

Lemma map_existsb_true {K A} `{Countable K} (p : K -> A -> bool) (m : gmap K A) :
  map_existsb p m = true <-> exists k a, m !! k = Some a /\ p k a = true.
Proof.
  unfold map_existsb. rewrite existsb_elem. split.
  - intros ([k a] & Hm%elem_of_map_to_list & Hp). eauto.
  - intros (k & a & Hm & Hp). exists (k, a). by rewrite elem_of_map_to_list.
Qed.

Lemma map_existsb_false {K A} `{Countable K} (p : K -> A -> bool) (m : gmap K A) :
  map_existsb p m = false <-> forall k a, m !! k = Some a -> p k a = false.
Proof.
  rewrite <- not_true_iff_false, map_existsb_true. split.
  - intros Hn k a Hm. destruct (p k a) eqn:E; [exfalso; eauto | done].
  - intros Hn (k & a & Hm & Hp). by rewrite (Hn k a Hm) in Hp.
Qed.
End EngineLaws.

#[export] Hint Resolve preserves_query preserves_dquery preserves_now preserves_kdc_call preserves_transaction : klldap.

(** ** Referential integrity *)

Record integrity (t : Tables) : Prop := {
  member_user u g : (u, g) ∈ t_memberships t -> is_Some (t_users t !! u);
  member_group u g : (u, g) ∈ t_memberships t -> is_Some (t_groups t !! g);
  attribute_user u n v : t_user_attributes t !! (u, n) = Some v -> is_Some (t_users t !! u);
  attribute_user_schema u n v :
    t_user_attributes t !! (u, n) = Some v -> is_Some (t_user_attribute_schema t !! n);
  attribute_group g n v : t_group_attributes t !! (g, n) = Some v -> is_Some (t_groups t !! g);
  attribute_group_schema g n v :
    t_group_attributes t !! (g, n) = Some v -> is_Some (t_group_attribute_schema t !! n);
  emails_unique u1 u2 r1 r2 :
    t_users t !! u1 = Some r1 -> t_users t !! u2 = Some r2 ->
    ur_lowercase_email r1 = ur_lowercase_email r2 -> u1 = u2;
  group_names_unique g1 g2 r1 r2 :
    t_groups t !! g1 = Some r1 -> t_groups t !! g2 = Some r2 ->
    gr_lowercase_display_name r1 = gr_lowercase_display_name r2 -> g1 = g2;
  refresh_user k r : tt_refresh (t_tokens t) !! k = Some r -> is_Some (t_users t !! rr_user_id r);
  jwt_user k r : tt_jwt (t_tokens t) !! k = Some r -> is_Some (t_users t !! jr_user_id r);
  reset_user k r : tt_reset (t_tokens t) !! k = Some r -> is_Some (t_users t !! sr_user_id r);
  display_names_unique g1 g2 r1 r2 :
    t_groups t !! g1 = Some r1 -> t_groups t !! g2 = Some r2 ->
    gr_display_name r1 = gr_display_name r2 -> g1 = g2
}.

Ltac integrity_start :=
  intros ? ? ? Hst [Hmu Hmg Hau Haus Hag Hags Heu Hgn Htr Htj Hts Hdn]; cbv beta zeta in Hst;
  repeat case_match; simplify_eq/=; try done; constructor; simpl; intros *.

Section Integrity.
Context `{SqlExtern}.

Lemma user_conflict_false t id row id' row' :
  user_conflict t id row = false -> t_users t !! id' = Some row' -> id' <> id ->
  ur_lowercase_email row' <> ur_lowercase_email row.
Proof.
  unfold user_conflict. rewrite map_existsb_false. intros Hc Hr Hne Heq.
  assert (user_id_eqb id' id = false) as Hn.
  { destruct id', id. unfold user_id_eqb. simpl. apply String.eqb_neq. congruence. }
  specialize (Hc id' row' Hr). rewrite Hn, Heq, String.eqb_refl in Hc.
  simpl in Hc. by rewrite orb_true_r in Hc.
Qed.

Lemma group_conflict_false t id row id' row' :
  group_conflict t id row = false -> t_groups t !! id' = Some row' -> id' <> id ->
  gr_lowercase_display_name row' <> gr_lowercase_display_name row /\
  gr_display_name row' <> gr_display_name row.
Proof.
  unfold group_conflict. rewrite map_existsb_false. intros Hc Hr Hne%Z.eqb_neq.
  specialize (Hc id' row' Hr). rewrite Hne in Hc. simpl in Hc. bool_to_prop. split; congruence.
Qed.

(** A user row put in the table, where it conflicts with no other. *)
Lemma put_user_integrity t id row :
  user_conflict t id row = false -> integrity t ->
  integrity (with_users t (<[id := row]> (t_users t))).
Proof.
  intros Hc [Hmu Hmg Hau Haus Hag Hags Heu Hgn Htr Htj Hts Hdn]; constructor; simpl; eauto.
  - intros u g Hm. rewrite lookup_insert_is_Some'. eauto.
  - intros u n v Hm. rewrite lookup_insert_is_Some'. eauto.
  - intros u1 u2 r1 r2 [[-> <-]|[Hn1 H1]]%lookup_insert_Some [[-> <-]|[Hn2 H2]]%lookup_insert_Some He.
    + done.
    + by eapply user_conflict_false in Hc; eauto.
    + by eapply user_conflict_false in Hc; eauto.
    + eauto.
  - intros k r Hk. rewrite lookup_insert_is_Some'. eauto.
  - intros k r Hk. rewrite lookup_insert_is_Some'. eauto.
  - intros k r Hk. rewrite lookup_insert_is_Some'. eauto.
Qed.

Lemma put_group_integrity t id row :
  group_conflict t id row = false -> integrity t ->
  integrity (with_groups t (<[id := row]> (t_groups t))).
Proof.
  intros Hc [Hmu Hmg Hau Haus Hag Hags Heu Hgn Htr Htj Hts Hdn]; constructor; simpl; eauto.
  - intros u g Hm. rewrite lookup_insert_is_Some'. eauto.
  - intros u n v Hm. rewrite lookup_insert_is_Some'. eauto.
  - intros u1 u2 r1 r2 [[-> <-]|[Hn1 H1]]%lookup_insert_Some [[-> <-]|[Hn2 H2]]%lookup_insert_Some He.
    + done.
    + by destruct (group_conflict_false _ _ _ _ _ Hc H2 (not_eq_sym Hn2)) as [Hl _].
    + by destruct (group_conflict_false _ _ _ _ _ Hc H1 (not_eq_sym Hn1)) as [Hl _].
    + eauto.
  - intros g1 g2 r1 r2 [[-> <-]|[Hn1 H1]]%lookup_insert_Some [[-> <-]|[Hn2 H2]]%lookup_insert_Some He.
    + done.
    + by destruct (group_conflict_false _ _ _ _ _ Hc H2 (not_eq_sym Hn2)) as [_ Hl].
    + by destruct (group_conflict_false _ _ _ _ _ Hc H1 (not_eq_sym Hn1)) as [_ Hl].
    + eauto.
Qed.

Lemma insert_user_integrity id row : stmt_keeps integrity (insert_user id row).
Proof. intros t a t'. unfold insert_user. crush_match. by apply put_user_integrity. Qed.

Lemma update_user_row_integrity id ch : stmt_keeps integrity (update_user_row id ch).
Proof. intros t a t'. unfold update_user_row. crush_match. by apply put_user_integrity. Qed.

Lemma insert_group_integrity row : stmt_keeps integrity (insert_group row).
Proof. intros t a t'. unfold insert_group. crush_match. by apply put_group_integrity. Qed.

Lemma update_group_row_integrity id ch : stmt_keeps integrity (update_group_row id ch).
Proof. intros t a t'. unfold update_group_row. crush_match. by apply put_group_integrity. Qed.

Lemma delete_user_row_integrity id : stmt_keeps integrity (delete_user_row id).
Proof.
  unfold delete_user_row. integrity_start.
  - intros [Hn Hm]%elem_of_filter. rewrite lookup_delete_ne; eauto.
  - intros [Hn Hm]%elem_of_filter. eauto.
  - intros [Hl Hn]%map_lookup_filter_Some. rewrite lookup_delete_ne; eauto.
  - intros [Hl Hn]%map_lookup_filter_Some. eauto.
  - eauto.
  - eauto.
  - intros [_ H1]%lookup_delete_Some [_ H2]%lookup_delete_Some. eauto.
  - eauto.
  - intros [Hl Hn]%map_lookup_filter_Some. rewrite lookup_delete_ne; eauto.
  - intros [Hl Hn]%map_lookup_filter_Some. rewrite lookup_delete_ne; eauto.
  - intros [Hl Hn]%map_lookup_filter_Some. rewrite lookup_delete_ne; eauto.
  - eauto.
Qed.

Lemma delete_group_row_integrity id : stmt_keeps integrity (delete_group_row id).
Proof.
  unfold delete_group_row. integrity_start.
  - intros [Hn Hm]%elem_of_filter. eauto.
  - intros [Hn Hm]%elem_of_filter. rewrite lookup_delete_ne; eauto.
  - eauto.
  - eauto.
  - intros [Hl Hn]%map_lookup_filter_Some. rewrite lookup_delete_ne; eauto.
  - intros [Hl Hn]%map_lookup_filter_Some. eauto.
  - eauto.
  - intros [_ H1]%lookup_delete_Some [_ H2]%lookup_delete_Some. eauto.
  - eauto.
  - eauto.
  - eauto.
  - intros [_ H1]%lookup_delete_Some [_ H2]%lookup_delete_Some. eauto.
Qed.

Lemma insert_membership_integrity u g : stmt_keeps integrity (insert_membership u g).
Proof.
  unfold insert_membership. integrity_start; try eauto.
  - intros [Hm|Hm]%elem_of_union; [apply elem_of_singleton in Hm; by simplify_eq | eauto].
  - intros [Hm|Hm]%elem_of_union; [apply elem_of_singleton in Hm; by simplify_eq | eauto].
Qed.

Lemma delete_membership_integrity u g : stmt_keeps integrity (delete_membership u g).
Proof.
  unfold delete_membership. integrity_start; try eauto;
    intros [Hm _]%elem_of_difference; eauto.
Qed.

Lemma put_user_attributes_integrity b u rows : stmt_keeps integrity (put_user_attributes b u rows).
Proof.
  apply keeps_put_all. intros n v. unfold put_user_attribute. integrity_start; try eauto;
    intros [[? _]|[_ Hl]]%lookup_insert_Some; simplify_eq; eauto.
Qed.

Lemma put_group_attributes_integrity b g rows : stmt_keeps integrity (put_group_attributes b g rows).
Proof.
  apply keeps_put_all. intros n v. unfold put_group_attribute. integrity_start; try eauto;
    intros [[? _]|[_ Hl]]%lookup_insert_Some; simplify_eq; eauto.
Qed.

Lemma delete_user_attributes_integrity u ns : stmt_keeps integrity (delete_user_attributes u ns).
Proof.
  unfold delete_user_attributes. integrity_start; try eauto;
    intros [Hl _]%map_lookup_filter_Some; eauto.
Qed.

Lemma delete_group_attributes_integrity g ns : stmt_keeps integrity (delete_group_attributes g ns).
Proof.
  unfold delete_group_attributes. integrity_start; try eauto;
    intros [Hl _]%map_lookup_filter_Some; eauto.
Qed.

Lemma delete_user_attribute_everywhere_integrity n :
  stmt_keeps integrity (delete_user_attribute_everywhere n).
Proof.
  unfold delete_user_attribute_everywhere. integrity_start; try eauto;
    intros [Hl _]%map_lookup_filter_Some; eauto.
Qed.

Lemma delete_group_attribute_everywhere_integrity n :
  stmt_keeps integrity (delete_group_attribute_everywhere n).
Proof.
  unfold delete_group_attribute_everywhere. integrity_start; try eauto;
    intros [Hl _]%map_lookup_filter_Some; eauto.
Qed.
End Integrity.

Create HintDb integrity.

#[export] Hint Resolve insert_user_integrity update_user_row_integrity insert_group_integrity
  update_group_row_integrity delete_user_row_integrity delete_group_row_integrity
  insert_membership_integrity delete_membership_integrity put_user_attributes_integrity
  put_group_attributes_integrity delete_user_attributes_integrity delete_group_attributes_integrity
  delete_user_attribute_everywhere_integrity delete_group_attribute_everywhere_integrity : integrity.

(** ** A concrete engine, for evaluating the definitions *)

Definition demo_fresh_id (s : gset GroupId) : GroupId :=
  (1 + fold_right Z.max 0 (elements s))%Z.

Definition demo_sql_extern : SqlExtern := {|
  fault := fun _ => None;
  utc_now := fun n => (1000000000 * Z.of_nat n)%Z;
  constraint_error := DbQuery;
  unknown_column_error := fun c => DbQuery ("no such column: " +:+ c);
  fresh_group_id := demo_fresh_id;
  sql_like := String.eqb;
  sql_lower := to_ascii_lowercase;
  date_text := int_to_string;
  date_gte := fun d s => str_leb s (int_to_string d);
  date_lte := fun d s => str_leb (int_to_string d) s;
  value_gte := fun v s => str_leb s v;
  value_lte := fun v s => str_leb v s;
  posix_to_json := fun _ => "";
  posix_from_json := fun _ => Ok PosixSettings_default;
  env_ldap_base_dn := None
|}.

Lemma fold_max_le x l : x ∈ l -> (x <= fold_right Z.max 0 l)%Z.
Proof. induction 1; simpl; lia. Qed.

#[export] Instance demo_sql_laws : @SqlLaws demo_sql_extern.
Proof.
  constructor. intros s Hs. apply elem_of_elements, fold_max_le in Hs. simpl in Hs.
  unfold demo_fresh_id in Hs at 1. lia.
Qed.
