(* ===== verification/SqlConfig.v ===== *)
(** * Values, settings and schema of the SQL backend

    [crates/domain-model/src/model/deserialize.rs] and [attribute_value_to_db_bytes]
    (how a value becomes the bytes of a column and back),
    [sql_backend_handler.rs] (canonical names), [sql_schema_backend_handler.rs], and
    the settings, POSIX-number and reassignment parts of
    [sql_user_backend_handler.rs]. *)

From S2P Require Import Prelude Strings Types Schema SchemaManager Database.

(** ** Values *)

Section Values.
Context `{Extern}.

(** [dt.and_utc().timestamp()]: whole seconds *)
Definition timestamp (dt : NaiveDateTime) : Z := (dt / 1000000000)%Z.

Definition attribute_value_to_db_bytes (value : AttributeValue) : string :=
  match value with
  | VString (Singleton s) => s
  | VString (Unbounded l) => json_to_vec l
  | VInteger (Singleton i) => int_to_string i
  | VAvatar (Singleton p) => avatar_bytes p
  | VDateTime (Singleton dt) => int_to_string (timestamp dt)
  | _ => ""
  end.

Definition utf8_or (default : string) (bytes : string) : string :=
  from_option id default (from_utf8 bytes).

Definition stored_integer (bytes : string) : Z :=
  from_option id 0%Z (parse_i64 (utf8_or "0" bytes)).

Definition deserialize_stored_value (value : string) (typ : AttributeType) (is_list : bool)
  : AttributeValue :=
  match typ, is_list with
  | TString, false => VString (Singleton (utf8_or "" value))
  | TString, true =>
      match json_from_slice value with
      | Some l => VString (Unbounded l)
      | None => VString (Unbounded [utf8_or "" value])
      end
  | TInteger, false => VInteger (Singleton (stored_integer value))
  | TInteger, true => VInteger (Unbounded [stored_integer value])
  | TDateTime, false => VDateTime (Singleton (from_option id 0%Z (bincode_datetime value)))
  | TDateTime, true => VDateTime (Unbounded (from_option id [] (bincode_datetimes value)))
  | TAvatar, false => VAvatar (Singleton (Avatar_new value))
  | TAvatar, true => VAvatar (Unbounded [Avatar_new value])
  end.

Definition deserialize_attribute (name : AttributeName) (value : string) (schema : AttributeList)
  : Result Attribute :=
  match get_attribute_type schema (attribute_name_str name) with
  | Some (typ, is_list) => Ok (MkAttribute name (deserialize_stored_value value typ is_list))
  | None => Err (InternalError ("Unable to find schema for attribute named '"
              +:+ attribute_name_str name +:+ "'"))
  end.

(** [schema.get_by_name_or_alias(name).map(|s| s.name.clone().into()).unwrap_or(name)] *)
Definition canonical_name (l : AttributeList) (name : AttributeName) : AttributeName :=
  match get_by_name_or_alias l (attribute_name_str name) with
  | Some a => AttributeName_from (as_name a)
  | None => name
  end.

(** The schema these two are given is not looked at. *)
Definition canonical_user_attribute_name (name : AttributeName) : AttributeName :=
  match get_by_name_or_alias (s_user_attributes PublicSchema_get) (attribute_name_str name) with
  | Some a => AttributeName_from (as_name a)
  | None => AttributeName_from (attribute_name_str name)
  end.

Definition canonical_group_attribute_name (name : AttributeName) : AttributeName :=
  match get_by_name_or_alias (s_group_attributes PublicSchema_get) (attribute_name_str name) with
  | Some a => AttributeName_from (as_name a)
  | None => AttributeName_from (attribute_name_str name)
  end.

(** A row read back: deserialized, then given its canonical name. *)
Definition read_attribute (canonical : AttributeName -> AttributeName) (schema : AttributeList)
    (row : AttributeName * string) : Result Attribute :=
  let? a := deserialize_attribute (fst row) (snd row) schema in
  Ok (MkAttribute (canonical (attr_name a)) (attr_value a)).

Definition is_backend_writable_readonly_attribute (name : string) : bool :=
  str_mem name ["ou"; "kerberossync"; "allowedous"; "krb_principal_name"].
End Values.

(** ** Settings *)

Section Config.
Context `{Extern, SqlExtern}.

Definition get_allowed_ous : io Db DomainError (list string) :=
  let! config := dquery (fun t => t_system_config t !! "allowedous") in
  io_ret (from_option id ["people"; "groups"] (json_from_slice (from_option id "[]" config))).

Definition set_system_config (key value : string) : io Db DomainError unit :=
  dexec (fun t => Ok (tt, with_system_config t (<[key := value]> (t_system_config t)))).

Definition get_posix_settings_with_transaction : io Db DomainError PosixSettings :=
  let! config := dquery (fun t => t_system_config t !! "posix_settings") in
  io_lift (map_err (fun e => InternalError ("Failed to parse posix_settings JSON: " +:+ e))
    (posix_from_json (from_option id (posix_to_json PosixSettings_default) config))).

Definition get_posix_settings : io Db DomainError PosixSettings := get_posix_settings_with_transaction.

Definition set_posix_settings (settings : PosixSettings) : io Db DomainError unit :=
  set_system_config "posix_settings" (posix_to_json settings).

(** ** Schema *)

Definition schema_attribute (row : AttributeName * SchemaRow) : AttributeSchema :=
  let r := snd row in
  MkAttributeSchema (attribute_name_str (fst row)) (from_option id [] (json_from_slice (sch_aliases r)))
    (sch_attribute_type r) (sch_is_list r) (sch_is_visible r) (sch_is_editable r)
    (sch_is_hardcoded r) (sch_is_readonly r).

Definition get_user_attributes : io Db DomainError (list AttributeSchema) :=
  let! rows := dquery (fun t => btree_iter (t_user_attribute_schema t)) in
  io_ret (map schema_attribute rows).

Definition get_group_attributes : io Db DomainError (list AttributeSchema) :=
  let! rows := dquery (fun t => btree_iter (t_group_attribute_schema t)) in
  io_ret (map schema_attribute rows).

Definition ordered_classes (m : gmap string LdapObjectClass) : list string :=
  order_by str_leb (map (fun kv => object_class_str (snd kv)) (map_to_list m)).

Definition get_user_object_classes : io Db DomainError (list string) :=
  dquery (fun t => ordered_classes (t_user_object_classes t)).

Definition get_group_object_classes : io Db DomainError (list string) :=
  dquery (fun t => ordered_classes (t_group_object_classes t)).

(** The custom attributes whose name is not taken, after the hard-coded ones. *)
Definition merge_dynamic (static : list AttributeSchema) (dynamic : list AttributeSchema)
  : list AttributeSchema :=
  fold_left (fun full attr =>
    if existsb (fun existing => String.eqb (as_name existing) (as_name attr)) full then full
    else full ++ [attr]) (List.filter (fun a => negb (as_is_hardcoded a)) dynamic) static.

Definition get_schema_with_transaction : io Db DomainError PublicSchema :=
  let! user_attrs := get_user_attributes in
  let! group_attrs := get_group_attributes in
  let! settings := get_posix_settings_with_transaction in
  let! user_classes := get_user_object_classes in
  let! group_classes := get_group_object_classes in
  io_ret (MkSchema
    (MkAttributeList (merge_dynamic (attributes (s_user_attributes PublicSchema_get)) user_attrs))
    (MkAttributeList (merge_dynamic (attributes (s_group_attributes PublicSchema_get)) group_attrs))
    (s_system_attributes PublicSchema_get) settings user_classes group_classes).

Definition sql_get_schema : io Db DomainError PublicSchema := dtransaction get_schema_with_transaction.

Definition custom_schema_row (request : CreateAttributeRequest) : SchemaRow :=
  MkSchemaRow (ca_attribute_type request) (ca_is_list request) (ca_is_visible request)
    (ca_is_editable request) false false "[]".

Definition add_user_attribute (request : CreateAttributeRequest) : io Db DomainError unit :=
  dexec (fun t =>
    match t_user_attribute_schema t !! ca_name request with
    | Some _ => violated "user_attribute_schema"
    | None => Ok (tt, with_user_schema t
        (<[ca_name request := custom_schema_row request]> (t_user_attribute_schema t)))
    end).

Definition add_group_attribute (request : CreateAttributeRequest) : io Db DomainError unit :=
  dexec (fun t =>
    match t_group_attribute_schema t !! ca_name request with
    | Some _ => violated "group_attribute_schema"
    | None => Ok (tt, with_group_schema t
        (<[ca_name request := custom_schema_row request]> (t_group_attribute_schema t)))
    end).

(** Deleting a schema row deletes the values of the attribute with it. *)
Definition delete_user_attribute (name : AttributeName) : io Db DomainError unit :=
  dexec (fun t => Ok (tt, with_user_attributes
    (with_user_schema t (delete name (t_user_attribute_schema t)))
    (filter (fun kv => (kv.1).2 <> name) (t_user_attributes t)))).

Definition delete_group_attribute (name : AttributeName) : io Db DomainError unit :=
  dexec (fun t => Ok (tt, with_group_attributes
    (with_group_schema t (delete name (t_group_attribute_schema t)))
    (filter (fun kv => (kv.1).2 <> name) (t_group_attributes t)))).

Definition add_user_object_class (name : LdapObjectClass) : io Db DomainError unit :=
  dexec (fun t =>
    let key := to_ascii_lowercase (object_class_str name) in
    match t_user_object_classes t !! key with
    | Some _ => violated "user_object_classes"
    | None => Ok (tt, with_user_classes t (<[key := name]> (t_user_object_classes t)))
    end).

Definition add_group_object_class (name : LdapObjectClass) : io Db DomainError unit :=
  dexec (fun t =>
    let key := to_ascii_lowercase (object_class_str name) in
    match t_group_object_classes t !! key with
    | Some _ => violated "group_object_classes"
    | None => Ok (tt, with_group_classes t (<[key := name]> (t_group_object_classes t)))
    end).

Definition delete_user_object_class (name : LdapObjectClass) : io Db DomainError unit :=
  dexec (fun t => Ok (tt, with_user_classes t
    (delete (to_ascii_lowercase (object_class_str name)) (t_user_object_classes t)))).

Definition delete_group_object_class (name : LdapObjectClass) : io Db DomainError unit :=
  dexec (fun t => Ok (tt, with_group_classes t
    (delete (to_ascii_lowercase (object_class_str name)) (t_group_object_classes t)))).

(** ** POSIX numbers *)

Definition uidnumber : AttributeName := AttributeName_from "uidnumber".
Definition gidnumber : AttributeName := AttributeName_from "gidnumber".

(** Some row of the attribute table stores the number. *)
Definition number_stored {K} `{Countable K} (name : AttributeName) (n : Z)
    (m : gmap (K * AttributeName) string) : bool :=
  map_existsb (fun k v => attribute_name_eqb (snd k) name && String.eqb v (int_to_string n)) m.

Definition is_uidnumber_taken (uid : Z) : io Db DomainError bool :=
  dquery (fun t => number_stored uidnumber uid (t_user_attributes t)).

Definition is_gidnumber_taken (gid : Z) : io Db DomainError bool :=
  dquery (fun t => number_stored gidnumber gid (t_group_attributes t)).

(** The loop over the candidates; [fuel] is their number. *)
Fixpoint find_free_number (taken : Z -> io Db DomainError bool) (none_left : DomainError)
    (max candidate : Z) (fuel : nat) : io Db DomainError Z :=
  match fuel with
  | O => io_fail none_left
  | S fuel' =>
      if (candidate <=? max)%Z then
        let! is_taken := taken candidate in
        if (is_taken : bool) then find_free_number taken none_left max (candidate + 1) fuel'
        else io_ret candidate
      else io_fail none_left
  end.

Definition next_available_number (taken : Z -> io Db DomainError bool) (what : string) (start max : Z)
  : io Db DomainError Z :=
  if (max <? start)%Z then
    io_fail (InternalError (what +:+ " start (" +:+ int_to_string start +:+ ") > max ("
      +:+ int_to_string max +:+ ")"))
  else
    find_free_number taken
      (InternalError ("No available " +:+ what +:+ " in range " +:+ int_to_string start +:+ "-"
        +:+ int_to_string max +:+ " (all taken)"))
      max start (Z.to_nat (max - start + 1)).

Definition next_available_uid_number (start max : Z) : io Db DomainError Z :=
  next_available_number is_uidnumber_taken "uidNumber" start max.

Definition next_available_gid_number (start max : Z) : io Db DomainError Z :=
  next_available_number is_gidnumber_taken "gidNumber" start max.

(** ** Reassignment *)

Definition set_user_modified (d : NaiveDateTime) (r : UserRow) : UserRow :=
  MkUserRow (ur_email r) (ur_lowercase_email r) (ur_display_name r) (ur_creation_date r)
    (ur_password_hash r) (ur_totp_secret r) (ur_mfa_type r) (ur_uuid r) d
    (ur_password_modified_date r) (ur_krb_principal_name r).

Definition set_group_modified (d : NaiveDateTime) (r : GroupRow) : GroupRow :=
  MkGroupRow (gr_display_name r) (gr_lowercase_display_name r) (gr_creation_date r) (gr_uuid r) d.

Definition assign_user_attribute (name : AttributeName) (user_value : UserId * string)
  : io Db DomainError unit :=
  let! _ := dexec (put_user_attributes true (fst user_value) [(name, snd user_value)]) in
  let! d := now in
  dexec (update_user_row (fst user_value) (set_user_modified d)).

Definition assign_group_attribute (name : AttributeName) (group_value : GroupId * string)
  : io Db DomainError unit :=
  let! _ := dexec (put_group_attributes true (fst group_value) [(name, snd group_value)]) in
  let! d := now in
  dexec (update_group_row (fst group_value) (set_group_modified d)).

(** [(start..).zip(keys)], each key with the text of its number *)
Fixpoint numbered {K} (start : Z) (keys : list K) : list (K * string) :=
  match keys with
  | [] => []
  | k :: keys' => (k, int_to_string start) :: numbered (start + 1) keys'
  end.

Definition users_by_creation (t : Tables) : list UserId :=
  map fst (order_by (fun x y : UserId * UserRow => (ur_creation_date (snd x) <=? ur_creation_date (snd y))%Z)
    (map_to_list (t_users t))).

Definition groups_by_creation (t : Tables) : list GroupId :=
  map fst (order_by (fun x y : GroupId * GroupRow => (gr_creation_date (snd x) <=? gr_creation_date (snd y))%Z)
    (map_to_list (t_groups t))).

Definition all_users (t : Tables) : list UserId := map fst (map_to_list (t_users t)).

Definition reassign_gid_numbers : io Db DomainError unit :=
  let! settings := get_posix_settings in
  dtransaction
    (if group_gidnumber_assign settings then
       let! groups := dquery groups_by_creation in
       io_iter (assign_group_attribute gidnumber) (numbered (group_gidnumber_start settings) groups)
     else dexec (delete_group_attribute_everywhere gidnumber)).

Definition reassign_user_uid_numbers : io Db DomainError unit :=
  let! settings := get_posix_settings in
  dtransaction
    (if user_uidnumber_assign settings then
       let! users := dquery users_by_creation in
       io_iter (assign_user_attribute uidnumber) (numbered (user_uidnumber_start settings) users)
     else dexec (delete_user_attribute_everywhere uidnumber)).

Definition reassign_user_gid_numbers : io Db DomainError unit :=
  let! settings := get_posix_settings in
  dtransaction
    (if user_gidnumber_assign settings then
       let! users := dquery all_users in
       io_iter (fun u => assign_user_attribute gidnumber
         (u, int_to_string (user_gidnumber_start settings))) users
     else dexec (delete_user_attribute_everywhere gidnumber)).

Definition home_directory (settings : PosixSettings) (u : UserId) : string :=
  user_homedirectory_prefix settings +:+ "/" +:+ user_id_str u.

Definition reassign_user_homedirectories : io Db DomainError unit :=
  let! settings := get_posix_settings in
  dtransaction
    (if user_homedirectory_assign settings then
       let! users := dquery all_users in
       io_iter (fun u => assign_user_attribute (AttributeName_from "homedirectory")
         (u, home_directory settings u)) users
     else dexec (delete_user_attribute_everywhere (AttributeName_from "homedirectory"))).

Definition reassign_user_loginshells : io Db DomainError unit :=
  let! settings := get_posix_settings in
  dtransaction
    (if user_loginshell_assign settings then
       let! users := dquery all_users in
       io_iter (fun u => assign_user_attribute (AttributeName_from "loginshell")
         (u, user_loginshell_default settings)) users
     else dexec (delete_user_attribute_everywhere (AttributeName_from "loginshell"))).
End Config.

(** ** Lemmas *)

Section ConfigLemmas.
Context `{Extern, SqlExtern}.

Lemma preserves_allowed_ous : preserves db_tables get_allowed_ous.
Proof. unfold get_allowed_ous. solve_preserves. Qed.

Lemma preserves_posix_settings : preserves db_tables get_posix_settings_with_transaction.
Proof. unfold get_posix_settings_with_transaction. solve_preserves. Qed.

Lemma preserves_get_schema : preserves db_tables get_schema_with_transaction.
Proof.
  pose proof preserves_posix_settings.
  unfold get_schema_with_transaction, get_user_attributes, get_group_attributes,
    get_user_object_classes, get_group_object_classes. solve_preserves.
Qed.

Lemma preserves_sql_get_schema : preserves db_tables sql_get_schema.
Proof. apply preserves_transaction, preserves_get_schema. Qed.

Lemma preserves_find_free_number taken none_left max start fuel :
  (forall n, preserves db_tables (taken n)) ->
  preserves db_tables (find_free_number taken none_left max start fuel).
Proof.
  intros Ht. revert start. induction fuel as [|fuel IH]; intros start; simpl; [done|].
  case_match; [|done]. apply preserves_bind; [done|]. by intros [].
Qed.

Lemma preserves_next_uid start max : preserves db_tables (next_available_uid_number start max).
Proof.
  unfold next_available_uid_number, next_available_number. case_match; [done|].
  apply preserves_find_free_number. intros n. apply preserves_dquery.
Qed.

Lemma preserves_next_gid start max : preserves db_tables (next_available_gid_number start max).
Proof.
  unfold next_available_gid_number, next_available_number. case_match; [done|].
  apply preserves_find_free_number. intros n. apply preserves_dquery.
Qed.

(** The schema the tables describe. *)
Definition posix_settings_of (t : Tables) : Result PosixSettings :=
  map_err (fun e => InternalError ("Failed to parse posix_settings JSON: " +:+ e))
    (posix_from_json (from_option id (posix_to_json PosixSettings_default)
       (t_system_config t !! "posix_settings"))).

Definition schema_of (t : Tables) : Result PublicSchema :=
  let? settings := posix_settings_of t in
  Ok (MkSchema
    (MkAttributeList (merge_dynamic (attributes (s_user_attributes PublicSchema_get))
       (map schema_attribute (btree_iter (t_user_attribute_schema t)))))
    (MkAttributeList (merge_dynamic (attributes (s_group_attributes PublicSchema_get))
       (map schema_attribute (btree_iter (t_group_attribute_schema t)))))
    (s_system_attributes PublicSchema_get) settings
    (ordered_classes (t_user_object_classes t)) (ordered_classes (t_group_object_classes t))).

Lemma posix_settings_Ok s p s' :
  get_posix_settings_with_transaction s = (Ok p, s') ->
  posix_settings_of (db_tables s) = Ok p /\ db_tables s' = db_tables s.
Proof.
  unfold get_posix_settings_with_transaction. intros Hs. io_inv Hs.
  apply dquery_Ok in Hm as [-> Hm]. unfold posix_settings_of. by rewrite <- Hm in *.
Qed.

Lemma get_schema_Ok s sch s' :
  get_schema_with_transaction s = (Ok sch, s') ->
  schema_of (db_tables s) = Ok sch /\ db_tables s' = db_tables s.
Proof.
  intros Hs. pose proof (preserves_get_schema s) as Hp. rewrite Hs in Hp. simpl in Hp. split; [|done].
  unfold get_schema_with_transaction, get_user_attributes, get_group_attributes,
    get_user_object_classes, get_group_object_classes in Hs. io_inv Hs.
  repeat match goal with
  | Hq : dquery _ _ = (Ok _, _) |- _ => apply dquery_Ok in Hq as [-> Hq]
  | Hq : get_posix_settings_with_transaction _ = (Ok _, _) |- _ => apply posix_settings_Ok in Hq as [? Hq]
  end.
  unfold schema_of. repeat match goal with Hq : db_tables _ = db_tables _ |- _ => rewrite Hq in *; clear Hq end.
  match goal with Hq : posix_settings_of _ = Ok _ |- _ => by rewrite Hq end.
Qed.

Lemma sql_get_schema_Ok s sch s' :
  sql_get_schema s = (Ok sch, s') ->
  schema_of (db_tables s) = Ok sch /\ db_tables s' = db_tables s.
Proof.
  intros (s0 & s1 & H0' & Hb & ->)%transaction_Ok. apply get_schema_Ok in Hb as [Hb ->].
  by rewrite H0' in *.
Qed.

(** ** Numbers *)

Section NoFaults.
Context (no_faults : forall n, fault n = None).

Lemma dquery_runs {A} (f : Tables -> A) s :
  dquery f s = (Ok (f (db_tables s)), MkDb (db_tables s) (S (db_tick s)) (db_kdc s)).
Proof. unfold dquery, io_map_err, query, exec. by rewrite no_faults. Qed.

(** The loop stops at the first number that is free, and fails when none is. *)
Lemma find_free_number_spec (p : Tables -> Z -> bool) none_left max fuel : forall c s,
  (c <= max + 1)%Z -> fuel = Z.to_nat (max - c + 1) ->
  let '(r, s') := find_free_number (fun n => dquery (fun t => p t n)) none_left max c fuel s in
  db_tables s' = db_tables s /\
  match r with
  | Ok n => (c <= n <= max)%Z /\ p (db_tables s) n = false /\
            forall m, (c <= m < n)%Z -> p (db_tables s) m = true
  | Err e => e = none_left /\ forall m, (c <= m <= max)%Z -> p (db_tables s) m = true
  end.
Proof.
  induction fuel as [|fuel IH]; intros c s Hc Hf; simpl.
  - split_and!; [done..|]. intros m Hm. lia.
  - assert (c <= max)%Z as Hle by lia. rewrite (proj2 (Z.leb_le _ _) Hle).
    unfold io_bind. rewrite dquery_runs. destruct (p (db_tables s) c) eqn:Ep.
    + specialize (IH (c + 1)%Z (MkDb (db_tables s) (S (db_tick s)) (db_kdc s))
        ltac:(lia) ltac:(lia)).
      destruct (find_free_number _ _ _ _ _ _) as [[n|e] s']; simpl in IH.
      * destruct IH as (Ht & Hn & Hfree & Hall). split_and!; [done|lia..|done|].
        intros m Hm. destruct (decide (m = c)) as [->|]; [done|]. apply Hall. lia.
      * destruct IH as (Ht & He & Hall). split_and!; [done..|].
        intros m Hm. destruct (decide (m = c)) as [->|]; [done|]. apply Hall. lia.
    + simpl. split_and!; [done|lia..|done|]. intros m Hm. lia.
Qed.
End NoFaults.
End ConfigLemmas.

#[export] Hint Resolve preserves_allowed_ous preserves_posix_settings preserves_get_schema
  preserves_sql_get_schema : klldap.

(** ** Stored values *)

(** Values the encoding keeps: text, lists of text, 64-bit integers, and pictures
    the codec leaves as they are. *)
Definition storable `{Extern} (v : AttributeValue) : Prop :=
  match v with
  | VString (Singleton s) => utf8_valid s = true
  | VString (Unbounded _) => True
  | VInteger (Singleton i) => in_i64 i = true
  | VAvatar (Singleton a) => Avatar_new (avatar_bytes a) = a
  | _ => False
  end.

(** A storable value of the type and cardinality the schema declares is read back
    from its column as it was written. *)
Theorem stored_value_roundtrip `{Extern, !JsonLaws} typ is_list v :
  value_matches typ is_list v = true -> storable v ->
  deserialize_stored_value (attribute_value_to_db_bytes v) typ is_list = v.
Proof.
  intros Hm Hs. destruct v as [[s|l]|[i|l]|[a|l]|[d|l]], typ, is_list; try done; simpl in *.
  - unfold utf8_or, from_utf8. by rewrite Hs.
  - by rewrite json_roundtrip.
  - unfold stored_integer, utf8_or. rewrite from_utf8_int. simpl. by rewrite parse_print_i64.
  - by rewrite Hs.
Qed.

(** A JSON codec that reads back what it writes, for the witness. *)
Fixpoint mark_chars (s tail : string) : string :=
  match s with
  | "" => String ";" tail
  | String c s' => String "x" (String c (mark_chars s' tail))
  end.

Fixpoint unmark (s acc : string) : option (list string) :=
  match s with
  | "" => if String.eqb acc "" then Some [] else None
  | String c s' =>
      if Ascii.eqb c ";" then cons acc <$> unmark s' ""
      else match s' with
           | "" => None
           | String d s'' => unmark s'' (acc +:+ String d "")
           end
  end.

Definition lawful_extern : Extern := {|
  chars_to_lowercase := to_ascii_lowercase;
  str_to_lowercase := to_ascii_lowercase;
  parse_from_rfc3339 := fun _ => None;
  generalized_time := int_to_string;
  base64_decode := Some;
  process_avatar_input := Some;
  uuid_parse := fun s => Some s;
  uuid_v3_x500 := fun n d => n +:+ ("-" +:+ int_to_string d);
  uuid_v5_dns := fun s => s;
  json_to_vec := fold_right mark_chars "";
  json_from_slice := fun s => unmark s "";
  bincode_datetime := fun _ => None;
  bincode_datetimes := fun _ => None;
  debug_error := fun _ => "error";
  debug_error_pretty := fun _ => "error";
  display_error := fun _ => "error"
|}.

Lemma unmark_mark s : forall tail acc,
  unmark (mark_chars s tail) acc = cons (acc +:+ s) <$> unmark tail "".
Proof.
  induction s as [|c s IH]; intros tail acc; simpl.
  - by rewrite app_empty_r.
  - rewrite IH, app_assoc_str. done.
Qed.

#[export] Instance lawful_json : @JsonLaws lawful_extern.
Proof.
  constructor. intros l. induction l as [|s l IH]; [done|]. simpl in *.
  rewrite unmark_mark, IH. done.
Qed.

#[export] Instance lawful_unicode : @UnicodeLaws lawful_extern.
Proof. split; done. Qed.

Lemma stored_value_roundtrip_witness :
  let v := VString (Unbounded ["ssh-ed25519 AAAA"; ""]) in
  @deserialize_stored_value lawful_extern (@attribute_value_to_db_bytes lawful_extern v) TString true = v.
Proof. intros v. apply (@stored_value_roundtrip lawful_extern _ TString true v); [reflexivity | exact I]. Defined.

(** C28: with a connection that does not fail, [next_available_uid_number] terminates
    with the smallest number of the range that no user has, or reports that every
    number of the range is taken; it writes nothing. *)
Theorem next_uid_number_least `{SqlExtern} start max s :
  (forall n, fault n = None) -> (start <= max)%Z ->
  let taken n := number_stored uidnumber n (t_user_attributes (db_tables s)) in
  let '(r, s') := next_available_uid_number start max s in
  db_tables s' = db_tables s /\
  match r with
  | Ok n => (start <= n <= max)%Z /\ taken n = false /\ forall m, (start <= m < n)%Z -> taken m = true
  | Err e => e = InternalError ("No available uidNumber in range " +:+ int_to_string start +:+ "-"
                   +:+ int_to_string max +:+ " (all taken)") /\
             forall m, (start <= m <= max)%Z -> taken m = true
  end.
Proof.
  intros Hf Hle taken. unfold next_available_uid_number, next_available_number.
  rewrite (proj2 (Z.ltb_ge _ _) Hle).
  apply (find_free_number_spec Hf (fun t n => number_stored uidnumber n (t_user_attributes t))); lia.
Qed.

Definition empty_tables : Tables := MkTables ∅ ∅ ∅ ∅ ∅ ∅ ∅ ∅ ∅ ∅ (MkTokenTables ∅ ∅ ∅).

Lemma next_uid_number_least_witness :
  let s := MkDb (with_user_attributes empty_tables
             {[ (MkUserId "bob", uidnumber) := "3001" ]}) 0 [] in
  fst (@next_available_uid_number demo_sql_extern 3001 3002 s) = Ok 3002%Z /\
  number_stored uidnumber 3002 (t_user_attributes (db_tables s)) = false.
Proof.
  intros s.
  pose proof (@next_uid_number_least demo_sql_extern 3001 3002 s (fun _ => eq_refl) ltac:(lia)) as Hw.
  destruct (next_available_uid_number 3001 3002 s) as [r s'] eqn:E.
  assert (r = Ok 3002%Z) as ->.
  { change r with (fst (r, s')). rewrite <- E. vm_compute. reflexivity. }
  destruct Hw as (_ & _ & Hfree & _). split; [reflexivity | exact Hfree].
Defined.
