(* ===== verification/SqlGroups.v ===== *)
(** * Groups in the SQL backend

    [crates/sql-backend-handler/src/sql_group_backend_handler.rs]: reading, creating,
    updating and deleting groups. *)

From S2P Require Import Prelude Strings Types Schema SchemaManager Database SqlConfig.

Section SqlGroups.
Context `{Extern, SqlExtern}.

(** [GroupDetails::from(model)] *)
Definition group_details_of (gid : GroupId) (r : GroupRow) (attrs : list Attribute) : GroupDetails :=
  MkGroupDetails gid (gr_display_name r) (gr_creation_date r) (gr_uuid r) attrs (gr_modified_date r).

Definition sql_get_group_details (group_id : GroupId) : io Db DomainError GroupDetails :=
  let! row := dquery (fun t => find_group t group_id) in
  match row with
  | None => io_fail (EntityNotFound (int_to_string group_id))
  | Some r =>
      let! rows := dquery (fun t => group_attribute_rows t group_id) in
      let! schema := sql_get_schema in
      let! attrs := io_lift (collect (map
        (read_attribute canonical_group_attribute_name (s_group_attributes schema)) rows)) in
      io_ret (group_details_of group_id r attrs)
  end.

Definition has_attribute (name : string) (attrs : list Attribute) : bool :=
  existsb (fun a => String.eqb (attribute_name_str (attr_name a)) name) attrs.

Definition is_number_attribute (name : string) : bool := str_mem name ["uidnumber"; "gidnumber"].

Definition in_number_range (lo hi value : Z) : bool := (lo <=? value)%Z && (value <=? hi)%Z.

Definition number_assigned {A} (value : Z) : io Db DomainError A :=
  io_fail (InternalError ("Number " +:+ int_to_string value +:+
    " is already assigned to another user/group")).

(** The check of one attribute of a request: 0, or a number of the range that nobody
    has. *)
Definition check_group_number (hi : Z) (range_text : string) (a : Attribute) : io Db DomainError unit :=
  let name := attribute_name_str (attr_name a) in
  match attr_value a with
  | VInteger (Singleton value) =>
      if is_number_attribute name then
        if negb (Z.eqb value 0) && negb (in_number_range 3000 hi value) then
          io_fail (InternalError (name +:+ " must be between 3000 and " +:+ range_text))
        else
          let! taken := if String.eqb name "uidnumber" then is_uidnumber_taken value
                        else is_gidnumber_taken value in
          if (taken : bool) then number_assigned value else io_ret tt
      else io_ret tt
  | _ => io_ret tt
  end.

(** A row of a request's attribute, if the schema (or the bypass) has the name. *)
Definition known_group_attribute (schema : PublicSchema) (name : AttributeName) : bool :=
  bool_decide (is_Some (get_attribute_type (s_group_attributes schema) (attribute_name_str name)))
  || is_backend_writable_readonly_attribute (attribute_name_str name).

Definition group_row_of (schema : PublicSchema) (a : Attribute) : AttributeName * string :=
  (canonical_name (s_group_attributes schema) (attr_name a), attribute_value_to_db_bytes (attr_value a)).

Definition new_group_row (schema : PublicSchema) (a : Attribute) : Result (AttributeName * string) :=
  if known_group_attribute schema (attr_name a) then Ok (group_row_of schema a)
  else Err (InternalError ("Group attribute name " +:+ attribute_name_str (attr_name a)
              +:+ " doesn't exist in the schema")).

(** [if !rows.is_empty() { .. }] around a statement *)
Definition unless_empty {A} (l : list A) (m : io Db DomainError unit) : io Db DomainError unit :=
  match l with
  | [] => io_ret tt
  | _ => m
  end.

Definition string_attribute (name value : string) : Attribute :=
  MkAttribute (AttributeName_from name) (VString (Singleton value)).

Definition integer_attribute (name : string) (value : Z) : Attribute :=
  MkAttribute (AttributeName_from name) (VInteger (Singleton value)).

Definition create_group_body (row : GroupRow) (default_ou : string) (attrs : list Attribute)
  : io Db DomainError GroupId :=
  let! schema := get_schema_with_transaction in
  let! settings := get_posix_settings_with_transaction in
  let! _ := io_iter (check_group_number 60000 "60000") attrs in
  let attrs := if has_attribute "ou" attrs then attrs
               else attrs ++ [string_attribute "ou" default_ou] in
  let! attrs :=
    if group_gidnumber_assign settings && negb (has_attribute "gidnumber" attrs) then
      let! next_gid := next_available_gid_number (group_gidnumber_start settings)
                         (group_gidnumber_max settings) in
      io_ret (attrs ++ [integer_attribute "gidnumber" next_gid])
    else io_ret attrs in
  let! group_id := dexec (insert_group row) in
  let! rows := io_lift (collect (map (new_group_row schema) attrs)) in
  let! _ := unless_empty rows (dexec (put_group_attributes false group_id rows)) in
  io_ret group_id.

Definition sql_create_group (request : CreateGroupRequest) : io Db DomainError GroupId :=
  let! d := now in
  let name := group_name_str (cg_display_name request) in
  let row := MkGroupRow (cg_display_name request) (str_to_lowercase name) d
               (Uuid_from_name_and_date name d) d in
  let! allowed_ous := get_allowed_ous in
  dtransaction (create_group_body row (hd "groups" allowed_ous) (cg_attributes request)).

Definition set_group_name (name : option GroupName) (d : NaiveDateTime) (r : GroupRow) : GroupRow :=
  match name with
  | Some n => MkGroupRow n (str_to_lowercase (group_name_str n)) (gr_creation_date r) (gr_uuid r) d
  | None => set_group_modified d r
  end.

Definition removed_group_attribute (schema : PublicSchema) (name : AttributeName) : Result AttributeName :=
  if known_group_attribute schema name then Ok (canonical_name (s_group_attributes schema) name)
  else Err (InternalError ("Group attribute name " +:+ attribute_name_str name +:+
    " doesn't exist in the schema, yet was attempted to be removed from the database")).

Definition update_group_with_transaction (request : UpdateGroupRequest) : io Db DomainError unit :=
  let gid := ug_group_id request in
  let! d := now in
  let! _ := dexec (update_group_row gid (set_group_name (ug_display_name request) d)) in
  let! schema := get_schema_with_transaction in
  let! _ := get_posix_settings_with_transaction in
  let! _ := io_iter (check_group_number 20000 "20000 (or 0 for no limit)")
              (ug_insert_attributes request) in
  let rows := map (group_row_of schema) (ug_insert_attributes request) in
  let! removed := io_lift (collect (map (removed_group_attribute schema) (ug_delete_attributes request))) in
  let! _ := unless_empty removed (dexec (delete_group_attributes gid removed)) in
  unless_empty rows (dexec (put_group_attributes true gid rows)).

Definition sql_update_group (request : UpdateGroupRequest) : io Db DomainError unit :=
  let! _ :=
    match ug_display_name request with
    | Some _ =>
        let! current := sql_get_group_details (ug_group_id request) in
        let name := group_name_str (gd_display_name current) in
        if is_builtin_group name then
          io_fail (InternalError ("Cannot rename built-in group '" +:+ name +:+ "'"))
        else io_ret tt
    | None => io_ret tt
    end in
  dtransaction (update_group_with_transaction request).

Definition sql_delete_group (group_id : GroupId) : io Db DomainError unit :=
  let! details := sql_get_group_details group_id in
  let name := group_name_str (gd_display_name details) in
  if is_builtin_group name then
    io_fail (InternalError ("Cannot delete built-in group '" +:+ name +:+ "'"))
  else
    let! rows_affected := dexec (delete_group_row group_id) in
    if Nat.eqb rows_affected 0 then
      io_fail (EntityNotFound ("No such group: '" +:+ int_to_string group_id +:+ "'"))
    else io_ret tt.
End SqlGroups.
