(* ===== verification/SqlUsers.v ===== *)
(** * Users and memberships in the SQL backend

    [crates/sql-backend-handler/src/sql_user_backend_handler.rs]: reading, creating,
    updating and deleting users, and joining and leaving groups.  The calls to the
    Kerberos server, whose results the code only logs, are recorded in [db_kdc]. *)

From S2P Require Import Prelude Strings Types Schema SchemaManager Proto Database SqlConfig SqlGroups.

(** ** Kerberos principals (crates/kerberos/src/lib.rs) *)

Section Principals.
Context `{Extern, LdapExtern, SqlExtern}.

Definition derive_realm_from_base_dn : string :=
  let base_dn := from_option id "dc=example,dc=com" env_ldap_base_dn in
  let domain := str_to_lowercase
    (join "." (omap (fun part => if starts_with "dc=" part then Some (drop_bytes 3 part) else None)
      (split_on "," base_dn))) in
  str_to_uppercase
    match env_kerb_realm_name with
    | Some s => if String.eqb s "" then str_to_uppercase domain else s
    | None => str_to_uppercase domain
    end.

Definition get_kerberos_principal_name (username : string) : string :=
  username +:+ "@" +:+ derive_realm_from_base_dn.
End Principals.

Section SqlUsers.
Context `{Extern, SqlExtern}.

(** [User::from(model)] *)
Definition user_of_row (id : UserId) (r : UserRow) (attrs : list Attribute) : User :=
  MkUser id (ur_email r) (ur_display_name r) (ur_creation_date r) (ur_uuid r) attrs
    (ur_modified_date r) (ur_password_modified_date r) (ur_krb_principal_name r).

Definition sql_get_user_details (user_id : UserId) : io Db DomainError User :=
  let! row := dquery (fun t => find_user t user_id) in
  match row with
  | None => io_fail (EntityNotFound (user_id_str user_id))
  | Some r =>
      let! rows := dquery (fun t => user_attribute_rows t user_id) in
      let! schema := sql_get_schema in
      let! attrs := io_lift (collect (map
        (read_attribute canonical_user_attribute_name (s_user_attributes schema)) rows)) in
      io_ret (materialize_protected_fields (user_of_row user_id r attrs))
  end.

Definition sql_get_user_groups (user_id : UserId) : io Db DomainError (list GroupDetails) :=
  let! row := dquery (fun t => find_user t user_id) in
  match row with
  | None => io_fail (EntityNotFound (user_id_str user_id))
  | Some _ =>
      let! groups := dquery (fun t => groups_of_user t user_id) in
      io_ret (map (fun g => group_details_of (fst g) (snd g) []) groups)
  end.

(** [to_value]: what an optional display name sets the column to, if anything. *)
Definition to_value (opt_name : option string) (old : option string) : option string :=
  match opt_name with
  | None => old
  | Some name => if String.eqb name "" then None else Some name
  end.

(** ** Updates *)

Definition kerberos_sync_of (value : AttributeValue) : bool :=
  match value with
  | VString (Singleton s) => str_mem (trim s) ["1"; "true"; "TRUE"]
  | VInteger (Singleton i) => Z.eqb i 1
  | _ => false
  end.

Definition user_row_of (schema : PublicSchema) (a : Attribute) : AttributeName * string :=
  (canonical_name (s_user_attributes schema) (attr_name a), attribute_value_to_db_bytes (attr_value a)).

Definition in_user_schema (schema : PublicSchema) (name : AttributeName) : bool :=
  bool_decide (is_Some (get_attribute_type (s_user_attributes schema) (attribute_name_str name))).

Definition updated_user_row (schema : PublicSchema) (a : Attribute) : Result (AttributeName * string) :=
  if in_user_schema schema (attr_name a)
     || is_backend_writable_readonly_attribute (attribute_name_str (attr_name a))
  then Ok (user_row_of schema a)
  else Err (InternalError ("User attribute name " +:+ attribute_name_str (attr_name a)
              +:+ " doesn't exist in the schema")).

(** The rows to write, the names to delete, and whether Kerberos synchronisation is
    turned on or off. *)
Definition compute_user_attribute_changes (insert_attributes : list Attribute)
    (delete_attributes : list AttributeName) (schema : PublicSchema)
  : Result (list (AttributeName * string) * list AttributeName * option bool) :=
  let removed := map canonical_user_attribute_name delete_attributes in
  let kerb := fold_left (fun k a =>
    if String.eqb (attribute_name_str (attr_name a)) "kerberossync"
    then Some (kerberos_sync_of (attr_value a)) else k) insert_attributes None in
  let? rows := collect (map (updated_user_row schema) insert_attributes) in
  Ok (rows,
      List.filter (fun n => negb (existsb (fun r => attribute_name_eqb (fst r) n) rows)) removed,
      kerb).

(** The check of a row to write: numbers stay in the range, and a user number is not
    in use. *)
Definition check_user_row (row : AttributeName * string) : io Db DomainError unit :=
  let name := attribute_name_str (fst row) in
  match from_utf8 (snd row) with
  | None => io_ret tt
  | Some s =>
      let value := from_option id 0%Z (parse_i64 (trim s)) in
      if is_number_attribute name then
        if negb (in_number_range 3000 60000 value) then
          io_fail (InternalError (name +:+ " must be between 3000 and 60000"))
        else if String.eqb name "uidnumber" then
          let! taken := is_uidnumber_taken value in
          if (taken : bool) then number_assigned value else io_ret tt
        else io_ret tt
      else io_ret tt
  end.

Definition set_user_profile (request : UpdateUserRequest) (d : NaiveDateTime) (r : UserRow) : UserRow :=
  MkUserRow
    (from_option id (ur_email r) (uu_email request))
    (from_option (fun e => str_to_lowercase (email_str e)) (ur_lowercase_email r) (uu_email request))
    (to_value (uu_display_name request) (ur_display_name r))
    (ur_creation_date r) (ur_password_hash r) (ur_totp_secret r) (ur_mfa_type r) (ur_uuid r) d
    (ur_password_modified_date r) (ur_krb_principal_name r).

Definition set_krb_principal (principal : option string) (d : NaiveDateTime) (r : UserRow) : UserRow :=
  MkUserRow (ur_email r) (ur_lowercase_email r) (ur_display_name r) (ur_creation_date r)
    (ur_password_hash r) (ur_totp_secret r) (ur_mfa_type r) (ur_uuid r) d
    (ur_password_modified_date r) principal.

Definition update_user_with_transaction (request : UpdateUserRequest) : io Db DomainError unit :=
  let uid := uu_user_id request in
  let! schema := get_schema_with_transaction in
  let! changes := io_lift (compute_user_attribute_changes (uu_insert_attributes request)
                    (uu_delete_attributes request) schema) in
  let '(rows, removed, kerb_sync_enabled) := changes in
  let! d := now in
  let! _ := get_posix_settings_with_transaction in
  let! _ := io_iter check_user_row rows in
  let! _ := dexec (update_user_row uid (set_user_profile request d)) in
  let! _ := unless_empty removed (dexec (delete_user_attributes uid removed)) in
  let! _ := unless_empty rows (dexec (put_user_attributes true uid rows)) in
  match kerb_sync_enabled with
  | Some false =>
      let! _ := dexec (update_user_row uid (set_krb_principal None d)) in
      kdc_call (KdcDelete (user_id_str uid))
  | _ => io_ret tt
  end.

Definition sql_update_user (request : UpdateUserRequest) : io Db DomainError unit :=
  dtransaction (update_user_with_transaction request).

(** ** Creation *)

(** The check of one attribute of a creation request. *)
Definition check_new_user_number (a : Attribute) : io Db DomainError unit :=
  let name := attribute_name_str (attr_name a) in
  match attr_value a with
  | VInteger (Singleton value) =>
      if is_number_attribute name then
        if negb (Z.eqb value 0) && negb (in_number_range 3000 60000 value) then
          io_fail (InternalError (name +:+ " must be between 3000 and 60000"))
        else if String.eqb name "uidnumber" then
          let! taken := is_uidnumber_taken value in
          if (taken : bool) then number_assigned value else io_ret tt
        else io_ret tt
      else io_ret tt
  | _ => io_ret tt
  end.

(** The attribute appended unless the settings are off or the request has it. *)
Definition push_default (assign : bool) (name : string) (a : Attribute) (attrs : list Attribute)
  : list Attribute :=
  if assign && negb (has_attribute name attrs) then attrs ++ [a] else attrs.

Definition assign_uid_number (settings : PosixSettings) (attrs : list Attribute)
  : io Db DomainError (list Attribute) :=
  if user_uidnumber_assign settings && negb (has_attribute "uidnumber" attrs) then
    let! next_uid := next_available_uid_number (user_uidnumber_start settings)
                       (user_uidnumber_max settings) in
    io_ret (attrs ++ [integer_attribute "uidnumber" next_uid])
  else io_ret attrs.

Definition push_posix_defaults (settings : PosixSettings) (user_id : UserId) (attrs : list Attribute)
  : list Attribute :=
  let attrs := push_default (user_gidnumber_assign settings) "gidnumber"
    (integer_attribute "gidnumber" (user_gidnumber_start settings)) attrs in
  let attrs := push_default (user_loginshell_assign settings) "loginshell"
    (string_attribute "loginshell" (user_loginshell_default settings)) attrs in
  push_default (user_homedirectory_assign settings) "homedirectory"
    (string_attribute "homedirectory" (home_directory settings user_id)) attrs.

Definition create_user_body (user_id : UserId) (row : UserRow) (attrs : list Attribute)
  : io Db DomainError unit :=
  let! schema := get_schema_with_transaction in
  let! settings := get_posix_settings_with_transaction in
  let! _ := io_iter check_new_user_number attrs in
  let! attrs := assign_uid_number settings attrs in
  let attrs := push_posix_defaults settings user_id attrs in
  let! _ := dexec (insert_user user_id row) in
  let rows := map (user_row_of schema)
    (List.filter (fun a => in_user_schema schema (attr_name a)) attrs) in
  unless_empty rows (dexec (put_user_attributes false user_id rows)).

Definition sql_create_user (request : CreateUserRequest) : io Db DomainError unit :=
  let uid := cu_user_id request in
  let! d := now in
  let row := MkUserRow (cu_email request) (str_to_lowercase (email_str (cu_email request)))
    (to_value (cu_display_name request) None) d None None None
    (Uuid_from_name_and_date (user_id_str uid) d) d d None in
  let! allowed_ous := get_allowed_ous in
  let attrs := push_default true "ou" (string_attribute "ou" (hd "people" allowed_ous))
                 (cu_attributes request) in
  dtransaction (create_user_body uid row attrs).

Definition sql_delete_user (user_id : UserId) : io Db DomainError unit :=
  let! _ := kdc_call (KdcDelete (user_id_str user_id)) in
  let! rows_affected := dexec (delete_user_row user_id) in
  if Nat.eqb rows_affected 0 then
    io_fail (EntityNotFound ("No such user: '" +:+ user_id_str user_id +:+ "'"))
  else io_ret tt.

(** ** Memberships *)

Definition in_named (name : string) (groups : list GroupDetails) : bool :=
  existsb (fun g => group_name_eqb (gd_display_name g) (MkGroupName name)) groups.

(** The reads and the check that come before the transaction of [add_user_to_group]. *)
Definition check_exclusion (user_id : UserId) (group_id : GroupId) : io Db DomainError unit :=
  let! user_groups := sql_get_user_groups user_id in
  let! target := sql_get_group_details group_id in
  let target_name := group_name_str (gd_display_name target) in
  if (String.eqb target_name "lldap_admin" && in_named "lldap_disabled" user_groups)
     || (String.eqb target_name "lldap_disabled" && in_named "lldap_admin" user_groups) then
    io_fail (InternalError "A user cannot be in both lldap_admin and lldap_disabled groups")
  else io_ret tt.

Definition touch_group (group_id : GroupId) : io Db DbErr unit :=
  let! d := now in
  exec (update_group_row group_id (set_group_modified d)).

Definition join_group (user_id : UserId) (group_id : GroupId) : io Db DomainError unit :=
  transaction DatabaseTransactionError DatabaseTransactionError
    (let! _ := exec (insert_membership user_id group_id) in
     touch_group group_id).

Definition sql_add_user_to_group (user_id : UserId) (group_id : GroupId) : io Db DomainError unit :=
  let! _ := check_exclusion user_id group_id in
  join_group user_id group_id.

Definition leave_error (e : DbErr) : DomainError :=
  match e with
  | DbCustom msg => EntityNotFound msg
  | e => DatabaseError e
  end.

Definition leave_group (user_id : UserId) (group_id : GroupId) : io Db DbErr unit :=
  let! group_details := query (fun t => find_group t group_id) in
  let! _ :=
    match group_details with
    | Some g =>
        if String.eqb (group_name_str (gr_display_name g)) "lldap_admin" then
          let! current_count := query (fun t => member_count t group_id) in
          if (current_count <=? 1)%nat then
            io_fail (DbCustom "Cannot remove the last member of lldap_admin")
          else io_ret tt
        else io_ret tt
    | None => io_ret tt
    end in
  let! rows_affected := exec (delete_membership user_id group_id) in
  if Nat.eqb rows_affected 0 then
    io_fail (DbCustom ("No such membership: '" +:+ user_id_str user_id +:+ "' -> "
      +:+ int_to_string group_id))
  else touch_group group_id.

Definition sql_remove_user_from_group (user_id : UserId) (group_id : GroupId) : io Db DomainError unit :=
  transaction leave_error leave_error (leave_group user_id group_id).
End SqlUsers.

(** ** [ensure_kerberos_principal_consistency] *)

Section Consistency.
Context `{Extern, LdapExtern, SqlExtern}.

Definition sql_ensure_kerberos_principal_consistency (user_id : UserId) (enabled : bool)
  : io Db DomainError unit :=
  let! d := now in
  let principal := if enabled then Some (get_kerberos_principal_name (user_id_str user_id)) else None in
  dexec (update_user_row user_id (set_krb_principal principal d)).
End Consistency.
