(* ===== verification/SqlOps.v ===== *)
(** * What the SQL backend guarantees

    Every operation of the backend that writes, as one type [SqlOp], run one after
    another with faults of the connection anywhere.  The theorems: an operation that
    fails changes no table; referential integrity, the built-in groups and the
    exclusion between administrators and disabled users hold through any sequence of
    operations; and only deleting its last member empties the administrators' group. *)

From S2P Require Import Prelude Strings Types Schema SchemaManager Proto Database SqlConfig SqlGroups SqlUsers.

Inductive SqlOp : Type :=
| CreateUser (r : CreateUserRequest)
| UpdateUser (r : UpdateUserRequest)
| DeleteUser (u : UserId)
| AddUserToGroup (u : UserId) (g : GroupId)
| RemoveUserFromGroup (u : UserId) (g : GroupId)
| CreateGroup (r : CreateGroupRequest)
| UpdateGroup (r : UpdateGroupRequest)
| DeleteGroup (g : GroupId)
| EnsureKerberos (u : UserId) (enabled : bool)
| SetSystemConfig (key value : string)
| SetPosixSettings (p : PosixSettings)
| ReassignGidNumbers
| ReassignUserUidNumbers
| ReassignUserGidNumbers
| ReassignUserHomedirectories
| ReassignUserLoginshells
| AddUserAttribute (r : CreateAttributeRequest)
| AddGroupAttribute (r : CreateAttributeRequest)
| DeleteUserAttribute (n : AttributeName)
| DeleteGroupAttribute (n : AttributeName)
| AddUserObjectClass (c : LdapObjectClass)
| AddGroupObjectClass (c : LdapObjectClass)
| DeleteUserObjectClass (c : LdapObjectClass)
| DeleteGroupObjectClass (c : LdapObjectClass).

Section Ops.
Context `{Extern, LdapExtern, SqlExtern}.

Definition run (op : SqlOp) : io Db DomainError unit :=
  match op with
  | CreateUser r => sql_create_user r
  | UpdateUser r => sql_update_user r
  | DeleteUser u => sql_delete_user u
  | AddUserToGroup u g => sql_add_user_to_group u g
  | RemoveUserFromGroup u g => sql_remove_user_from_group u g
  | CreateGroup r => let! _ := sql_create_group r in io_ret tt
  | UpdateGroup r => sql_update_group r
  | DeleteGroup g => sql_delete_group g
  | EnsureKerberos u b => sql_ensure_kerberos_principal_consistency u b
  | SetSystemConfig k v => set_system_config k v
  | SetPosixSettings p => set_posix_settings p
  | ReassignGidNumbers => reassign_gid_numbers
  | ReassignUserUidNumbers => reassign_user_uid_numbers
  | ReassignUserGidNumbers => reassign_user_gid_numbers
  | ReassignUserHomedirectories => reassign_user_homedirectories
  | ReassignUserLoginshells => reassign_user_loginshells
  | AddUserAttribute r => add_user_attribute r
  | AddGroupAttribute r => add_group_attribute r
  | DeleteUserAttribute n => delete_user_attribute n
  | DeleteGroupAttribute n => delete_group_attribute n
  | AddUserObjectClass c => add_user_object_class c
  | AddGroupObjectClass c => add_group_object_class c
  | DeleteUserObjectClass c => delete_user_object_class c
  | DeleteGroupObjectClass c => delete_group_object_class c
  end.

(** Operations one after another, each on the store the one before left, whatever
    its result. *)
Definition run_all (ops : list SqlOp) (s : Db) : Db := fold_left (fun s op => snd (run op s)) ops s.

Lemma run_all_invariant (I : Tables -> Prop) :
  (forall op s, I (db_tables s) -> I (db_tables (snd (run op s)))) ->
  forall ops s, I (db_tables s) -> I (db_tables (run_all ops s)).
Proof. intros Hop ops. induction ops as [|op ops IH]; intros s Hs; simpl; [done|]. apply IH. by apply Hop. Qed.

(** ** Reads *)

Lemma preserves_group_details g : preserves db_tables (sql_get_group_details g).
Proof. unfold sql_get_group_details. solve_preserves. Qed.

Lemma preserves_user_groups u : preserves db_tables (sql_get_user_groups u).
Proof. unfold sql_get_user_groups. solve_preserves. Qed.

Lemma preserves_check_exclusion u g : preserves db_tables (check_exclusion u g).
Proof.
  pose proof preserves_group_details. pose proof preserves_user_groups.
  unfold check_exclusion. solve_preserves.
Qed.

Lemma preserves_check_group_number hi txt a : preserves db_tables (check_group_number hi txt a).
Proof. unfold check_group_number, is_uidnumber_taken, is_gidnumber_taken. solve_preserves. Qed.

Lemma preserves_check_user_row r : preserves db_tables (check_user_row r).
Proof. unfold check_user_row, is_uidnumber_taken. solve_preserves. Qed.

Lemma preserves_check_new_user_number a : preserves db_tables (check_new_user_number a).
Proof. unfold check_new_user_number, is_uidnumber_taken. solve_preserves. Qed.

Lemma preserves_assign_uid_number p attrs : preserves db_tables (assign_uid_number p attrs).
Proof. pose proof preserves_next_uid. unfold assign_uid_number. solve_preserves. Qed.

Lemma group_details_Ok g s d s' :
  sql_get_group_details g s = (Ok d, s') ->
  db_tables s' = db_tables s /\
  exists r, t_groups (db_tables s) !! g = Some r /\ gd_display_name d = gr_display_name r.
Proof.
  intros Hs. pose proof (preserves_group_details g s) as Hp. rewrite Hs in Hp. split; [done|].
  unfold sql_get_group_details in Hs. io_inv Hs. apply dquery_Ok in Hm as [-> _].
  destruct (find_group _ _) as [r|] eqn:Er; [|done]. io_inv Hs. by exists r.
Qed.

Lemma user_groups_Ok u s gs s' :
  sql_get_user_groups u s = (Ok gs, s') ->
  db_tables s' = db_tables s /\
  forall g r, (u, g) ∈ t_memberships (db_tables s) -> t_groups (db_tables s) !! g = Some r ->
  exists d, d ∈ gs /\ gd_display_name d = gr_display_name r.
Proof.
  intros Hs. pose proof (preserves_user_groups u s) as Hp. rewrite Hs in Hp. split; [done|].
  unfold sql_get_user_groups in Hs. io_inv Hs. apply dquery_Ok in Hm as [-> Hm].
  destruct (find_user _ _); [|done]. io_inv Hs. apply dquery_Ok in Hm0 as [-> _].
  intros g r Hg Hr. rewrite Hm. exists (group_details_of g r []). split; [|done].
  apply list_elem_of_fmap. exists (g, r). split; [done|].
  apply elem_of_map_to_list, map_lookup_filter_Some. done.
Qed.
End Ops.

#[export] Hint Resolve preserves_group_details preserves_user_groups preserves_check_exclusion
  preserves_check_group_number preserves_check_user_row preserves_check_new_user_number
  preserves_assign_uid_number preserves_next_gid : klldap.

(** ** Atomicity *)

(** Reads, then a write that either happens or not. *)
Ltac solve_atomic :=
  repeat match goal with
  | |- atomic (dexec _) => apply atomic_dexec
  | |- atomic (dtransaction _) => apply atomic_dtransaction
  | |- atomic (transaction _ _ _) => apply atomic_transaction
  | |- atomic (io_fail _) => apply atomic_readonly, preserves_fail
  | |- atomic (match ?x with _ => _ end) => destruct x
  | |- atomic (io_bind _ _) => apply atomic_bind_read; [solve [solve_preserves] | intros ?]
  end.

(** Follow the writes of an operation with an invariant of its statements. *)
Ltac keeps_step :=
  match goal with
  | |- keeps _ (io_bind _ _) => apply keeps_bind; [|intros ?]
  | |- keeps _ (dexec _) => apply keeps_dexec
  | |- keeps _ (exec _) => apply keeps_exec
  | |- keeps _ (dtransaction _) => apply keeps_transaction
  | |- keeps _ (transaction _ _ _) => apply keeps_transaction
  | |- keeps _ (io_iter _ _) => apply keeps_iter; intros ?
  | |- keeps _ (unless_empty _ _) => unfold unless_empty
  | |- keeps _ (match ?x with _ => _ end) => destruct x
  | |- keeps _ (let _ := _ in _) => cbv zeta
  | |- keeps _ _ => apply keeps_read; solve [solve_preserves]
  end.

Section Guarantees.
Context `{Extern, LdapExtern, SqlExtern}.

Lemma atomic_deletion (f : statement nat) e :
  (forall t t', f t = Ok (0, t') -> t' = t) ->
  atomic (let! n := dexec f in if Nat.eqb n 0 then io_fail e else io_ret tt).
Proof.
  intros Hf s e' s'. unfold io_bind. destruct (dexec f s) as [[n|e1] s1] eqn:Ed.
  - apply dexec_Ok in Ed. destruct (Nat.eqb_spec n 0) as [->|]; [|done].
    intros [= _ <-]. by apply Hf.
  - intros [= _ <-]. by apply (atomic_dexec _ _ _ _ Ed).
Qed.

Lemma run_atomic op : atomic (run op).
Proof.
  destruct op; simpl;
    unfold sql_create_user, sql_update_user, sql_delete_user, sql_add_user_to_group, join_group,
      sql_remove_user_from_group, sql_create_group, sql_update_group, sql_delete_group,
      sql_ensure_kerberos_principal_consistency, set_posix_settings, set_system_config,
      reassign_gid_numbers, reassign_user_uid_numbers, reassign_user_gid_numbers,
      reassign_user_homedirectories, reassign_user_loginshells, add_user_attribute,
      add_group_attribute, delete_user_attribute, delete_group_attribute, add_user_object_class,
      add_group_object_class, delete_user_object_class, delete_group_object_class, get_posix_settings;
    try (solve [solve_atomic]).
  - apply atomic_bind_read; [done|]. intros []. apply atomic_deletion.
    unfold delete_user_row. crush_match.
  - apply atomic_bind_ret. solve_atomic.
  - apply atomic_bind_read; [solve_preserves|]. intros d. case_match; [by apply atomic_readonly|].
    apply atomic_deletion. unfold delete_group_row. crush_match.
Qed.

(** ** Integrity *)

Lemma config_integrity k v :
  stmt_keeps integrity (fun t => Ok (tt, with_system_config t (<[k := v]> (t_system_config t)))).
Proof. integrity_start; eauto. Qed.

Lemma add_user_schema_integrity r : keeps integrity (add_user_attribute r).
Proof.
  apply keeps_dexec. integrity_start; eauto. intros Hl. rewrite lookup_insert_is_Some'. eauto.
Qed.

Lemma add_group_schema_integrity r : keeps integrity (add_group_attribute r).
Proof.
  apply keeps_dexec. integrity_start; eauto. intros Hl. rewrite lookup_insert_is_Some'. eauto.
Qed.

Lemma delete_user_schema_integrity n : keeps integrity (delete_user_attribute n).
Proof.
  apply keeps_dexec. integrity_start; eauto; intros [Hl Hn]%map_lookup_filter_Some; eauto.
  rewrite lookup_delete_ne; eauto.
Qed.

Lemma delete_group_schema_integrity n : keeps integrity (delete_group_attribute n).
Proof.
  apply keeps_dexec. integrity_start; eauto; intros [Hl Hn]%map_lookup_filter_Some; eauto.
  rewrite lookup_delete_ne; eauto.
Qed.

Lemma object_classes_integrity c :
  keeps integrity (add_user_object_class c) /\ keeps integrity (add_group_object_class c) /\
  keeps integrity (delete_user_object_class c) /\ keeps integrity (delete_group_object_class c).
Proof. split_and!; apply keeps_dexec; integrity_start; eauto. Qed.

Lemma assign_user_integrity n uv : keeps integrity (assign_user_attribute n uv).
Proof. unfold assign_user_attribute. repeat keeps_step; auto with integrity. Qed.

Lemma assign_group_integrity n gv : keeps integrity (assign_group_attribute n gv).
Proof. unfold assign_group_attribute. repeat keeps_step; auto with integrity. Qed.

Lemma create_group_integrity r : keeps integrity (sql_create_group r).
Proof. unfold sql_create_group, create_group_body. repeat keeps_step; auto with integrity. Qed.

Lemma update_group_integrity r : keeps integrity (sql_update_group r).
Proof.
  unfold sql_update_group, update_group_with_transaction. repeat keeps_step; auto with integrity.
Qed.

Lemma create_user_integrity r : keeps integrity (sql_create_user r).
Proof. unfold sql_create_user, create_user_body. repeat keeps_step; auto with integrity. Qed.

Lemma update_user_integrity r : keeps integrity (sql_update_user r).
Proof.
  unfold sql_update_user, update_user_with_transaction. repeat keeps_step; auto with integrity.
Qed.

Lemma run_integrity op : keeps integrity (run op).
Proof.
  pose proof assign_user_integrity. pose proof assign_group_integrity.
  destruct op; simpl;
    auto using create_user_integrity, update_user_integrity, update_group_integrity,
      add_user_schema_integrity, add_group_schema_integrity, delete_user_schema_integrity,
      delete_group_schema_integrity;
    try (apply object_classes_integrity);
    try (apply keeps_bind; [apply create_group_integrity | by intros _ s]);
    unfold sql_delete_user, sql_add_user_to_group, join_group, sql_remove_user_from_group, leave_group,
      touch_group, sql_delete_group, sql_ensure_kerberos_principal_consistency, set_posix_settings,
      set_system_config, reassign_gid_numbers, reassign_user_uid_numbers, reassign_user_gid_numbers,
      reassign_user_homedirectories, reassign_user_loginshells, get_posix_settings;
    repeat keeps_step; auto using config_integrity with integrity.
Qed.
End Guarantees.

(** ** Names of groups *)

Definition name_at (t : Tables) (g : GroupId) : option GroupName := gr_display_name <$> t_groups t !! g.

(** The members of a group. *)
Definition is_member (t : Tables) (u : UserId) (g : GroupId) : Prop := (u, g) ∈ t_memberships t.

Definition has_member (t : Tables) (g : GroupId) : Prop := exists u, is_member t u g.

(** Statements that leave an observation of the tables alone. *)
Definition stmt_frame {D A} (obs : Tables -> D) (f : statement A) : Prop :=
  forall t a t', f t = Ok (a, t') -> obs t' = obs t.

Lemma stmt_frame_keeps {D A} (obs : Tables -> D) (P : D -> Prop) (f : statement A) :
  stmt_frame obs f -> stmt_keeps (fun t => P (obs t)) f.
Proof. intros Hf t a t' Hs. by rewrite (Hf _ _ _ Hs). Qed.

Section Frames.
Context `{Extern, SqlExtern}.

Lemma put_all_frame {D K} (obs : Tables -> D) (put : K -> string -> statement unit) rows :
  (forall k v, stmt_frame obs (put k v)) -> stmt_frame obs (put_all put rows).
Proof.
  intros Hp. induction rows as [|[k v] rows IH]; intros t a t'; simpl; [by intros [= _ <-]|].
  rewrite result_bind_Ok. intros ([u t1] & H1 & H2). rewrite (IH _ _ _ H2). by eapply Hp.
Qed.

(** Groups and memberships, as the statements on other tables leave them. *)
Definition group_tables (t : Tables) : gmap GroupId GroupRow * gset (UserId * GroupId) :=
  (t_groups t, t_memberships t).

Lemma insert_user_frame id row : stmt_frame group_tables (insert_user id row).
Proof. intros t a t'. unfold insert_user. crush_match. Qed.

Lemma update_user_row_frame id ch : stmt_frame group_tables (update_user_row id ch).
Proof. intros t a t'. unfold update_user_row. crush_match. Qed.

Lemma put_user_attributes_frame b u rows : stmt_frame group_tables (put_user_attributes b u rows).
Proof. apply put_all_frame. intros n v t a t'. unfold put_user_attribute. crush_match. Qed.

Lemma put_group_attributes_frame b g rows : stmt_frame group_tables (put_group_attributes b g rows).
Proof. apply put_all_frame. intros n v t a t'. unfold put_group_attribute. crush_match. Qed.

Lemma delete_user_attributes_frame u ns : stmt_frame group_tables (delete_user_attributes u ns).
Proof. intros t a t'. unfold delete_user_attributes. crush_match. Qed.

Lemma delete_group_attributes_frame g ns : stmt_frame group_tables (delete_group_attributes g ns).
Proof. intros t a t'. unfold delete_group_attributes. crush_match. Qed.

Lemma delete_user_everywhere_frame n : stmt_frame group_tables (delete_user_attribute_everywhere n).
Proof. intros t a t'. unfold delete_user_attribute_everywhere. crush_match. Qed.

Lemma delete_group_everywhere_frame n : stmt_frame group_tables (delete_group_attribute_everywhere n).
Proof. intros t a t'. unfold delete_group_attribute_everywhere. crush_match. Qed.
End Frames.

(** The statements that write groups or memberships, and what they must not do, for a
    property of those two tables to be kept by every operation. *)
Class GroupInvariant `{Extern, SqlExtern} (P : gmap GroupId GroupRow * gset (UserId * GroupId) -> Prop) := {
  touch_keeps g d : stmt_keeps (fun t => P (group_tables t)) (update_group_row g (set_group_modified d));
  insert_group_keeps r : stmt_keeps (fun t => P (group_tables t)) (insert_group r)
}.

Create HintDb frames.

#[export] Hint Resolve insert_user_frame update_user_row_frame put_user_attributes_frame
  put_group_attributes_frame delete_user_attributes_frame delete_group_attributes_frame
  delete_user_everywhere_frame delete_group_everywhere_frame : frames.

Section GroupInvariants.
Context `{Extern, LdapExtern, SqlExtern}.
Context (P : gmap GroupId GroupRow * gset (UserId * GroupId) -> Prop).

Lemma frame_keeps {A} (f : statement A) :
  stmt_frame group_tables f -> stmt_keeps (fun t => P (group_tables t)) f.
Proof. apply stmt_frame_keeps. Qed.

Lemma update_group_keeps r :
  (forall d, stmt_keeps (fun t => P (group_tables t))
     (update_group_row (ug_group_id r) (set_group_name (ug_display_name r) d))) ->
  keeps (fun t => P (group_tables t)) (sql_update_group r).
Proof.
  intros Hu. unfold sql_update_group, update_group_with_transaction.
  repeat keeps_step; auto using frame_keeps with frames.
Qed.

(** Operations that neither rename nor delete groups, nor write memberships. *)
Definition is_group_write (op : SqlOp) : bool :=
  match op with
  | DeleteUser _ | AddUserToGroup _ _ | RemoveUserFromGroup _ _ | UpdateGroup _ | DeleteGroup _ => true
  | _ => false
  end.

Lemma other_ops_keep op `{!GroupInvariant P} :
  is_group_write op = false -> keeps (fun t => P (group_tables t)) (run op).
Proof.
  assert (forall n uv, keeps (fun t => P (group_tables t)) (assign_user_attribute n uv)).
  { intros. unfold assign_user_attribute. repeat keeps_step; auto using frame_keeps with frames. }
  assert (forall n gv, keeps (fun t => P (group_tables t)) (assign_group_attribute n gv)).
  { intros. unfold assign_group_attribute. repeat keeps_step; auto using frame_keeps with frames.
    apply touch_keeps. }
  destruct op; simpl; try done; intros _;
    unfold sql_create_user, create_user_body, sql_update_user, update_user_with_transaction,
      sql_create_group, create_group_body, sql_ensure_kerberos_principal_consistency, set_posix_settings,
      set_system_config, reassign_gid_numbers, reassign_user_uid_numbers, reassign_user_gid_numbers,
      reassign_user_homedirectories, reassign_user_loginshells, get_posix_settings, add_user_attribute,
      add_group_attribute, delete_user_attribute, delete_group_attribute, add_user_object_class,
      add_group_object_class, delete_user_object_class, delete_group_object_class;
    repeat keeps_step; try apply insert_group_keeps; auto using frame_keeps with frames;
    intros ? ? ? Ht; cbv beta zeta in Ht; repeat case_match; by simplify_eq/=.
Qed.
End GroupInvariants.

Section Named.
Context `{Extern, LdapExtern, SqlExtern, !SqlLaws}.
Context (g : GroupId) (n : GroupName).

Definition named (gt : gmap GroupId GroupRow * gset (UserId * GroupId)) : Prop :=
  gr_display_name <$> gt.1 !! g = Some n.

Lemma update_row_named id ch :
  (id = g -> forall r, gr_display_name (ch r) = gr_display_name r) ->
  stmt_keeps (fun t => named (group_tables t)) (update_group_row id ch).
Proof.
  intros Hch t a t'. unfold update_group_row, named, group_tables. crush_match.
  destruct (decide (id = g)) as [->|Hne].
  - simplify_map_eq. by rewrite Hch.
  - by rewrite lookup_insert_ne.
Qed.

#[export] Instance named_invariant : GroupInvariant named.
Proof.
  constructor.
  - intros id d. by apply update_row_named.
  - intros r t a t'. unfold insert_group, named, group_tables. crush_match.
    rewrite lookup_insert_ne; [done|]. intros Heq.
    apply (fresh_group_id_new (dom (t_groups t))). rewrite Heq. apply elem_of_dom.
    by destruct (t_groups t !! g).
Qed.

(** Reading the name of the group before a write. *)
Lemma group_details_named s d s' :
  sql_get_group_details g s = (Ok d, s') -> named (group_tables (db_tables s)) -> gd_display_name d = n.
Proof.
  intros (_ & r & Hr & ->)%group_details_Ok Hn. unfold named, group_tables in Hn.
  simpl in Hn. rewrite Hr in Hn. by simplify_eq/=.
Qed.

Lemma run_named op :
  is_builtin_group (group_name_str n) = true -> keeps (fun t => named (group_tables t)) (run op).
Proof.
  intros Hb. destruct (is_group_write op) eqn:Hw; [|apply (other_ops_keep named op); done].
  destruct op as [| |u|u g'|u g'| |r|g'| | | | | | | | | | | | | | | |]; try done; simpl.
  - unfold sql_delete_user. repeat keeps_step. unfold delete_user_row.
    intros ? ? ? Ht. crush_match.
  - unfold sql_add_user_to_group, join_group, touch_group. repeat keeps_step; [|by apply update_row_named].
    unfold insert_membership. intros ? ? ? Ht. crush_match.
  - unfold sql_remove_user_from_group, leave_group, touch_group.
    repeat keeps_step; [|by apply update_row_named]. unfold delete_membership. intros ? ? ? Ht. crush_match.
  - destruct (decide (ug_group_id r = g)) as [Hg|Hne].
    + destruct (ug_display_name r) as [m|] eqn:Hm.
      * intros s Hs. unfold sql_update_group. rewrite Hm, Hg. unfold io_bind at 1 2.
        pose proof (preserves_group_details g s) as Hp.
        destruct (sql_get_group_details g s) as [[d|e] s1] eqn:Ed; simpl in *; [|by rewrite Hp].
        rewrite (group_details_named _ _ _ Ed Hs), Hb. simpl. by rewrite Hp.
      * apply (update_group_keeps named). intros d. apply update_row_named. by rewrite Hm.
    + apply (update_group_keeps named). intros d. by apply update_row_named.
  - destruct (decide (g' = g)) as [->|Hne].
    + intros s Hs. unfold sql_delete_group, io_bind at 1.
      pose proof (preserves_group_details g s) as Hp.
      destruct (sql_get_group_details g s) as [[d|e] s1] eqn:Ed; simpl in *; [|by rewrite Hp].
      rewrite (group_details_named _ _ _ Ed Hs), Hb. simpl. by rewrite Hp.
    + unfold sql_delete_group. repeat keeps_step. intros ? ? ?. unfold delete_group_row, named.
      crush_match. by rewrite lookup_delete_ne.
Qed.
End Named.

(** ** Memberships *)

Section Memberships.
Context `{Extern, LdapExtern, SqlExtern, !SqlLaws}.

(** Properties of the memberships alone. *)
Lemma update_row_memberships (Q : gset (UserId * GroupId) -> Prop) id ch :
  stmt_keeps (fun t => Q (snd (group_tables t))) (update_group_row id ch).
Proof. intros t a t'. unfold update_group_row. crush_match. Qed.

#[export] Instance membership_invariant (Q : gset (UserId * GroupId) -> Prop) :
  GroupInvariant (fun gt => Q (snd gt)).
Proof.
  constructor.
  - intros. apply update_row_memberships.
  - intros r t a t'. unfold insert_group. crush_match.
Qed.

Definition memberships_keep (Q : gset (UserId * GroupId) -> Prop) {E A} (m : io Db E A) : Prop :=
  keeps (fun t => Q (t_memberships t)) m.

Lemma other_ops_memberships Q op : is_group_write op = false -> memberships_keep Q (run op).
Proof. intros Hop. exact (other_ops_keep (fun gt => Q (snd gt)) op Hop). Qed.

Lemma update_group_memberships Q r : memberships_keep Q (run (UpdateGroup r)).
Proof.
  refine (update_group_keeps (fun gt => Q (snd gt)) r _). intros d. apply update_row_memberships.
Qed.

Lemma touch_group_memberships Q g : memberships_keep Q (touch_group g).
Proof. unfold touch_group, memberships_keep. repeat keeps_step. apply update_row_memberships. Qed.

(** Joining and leaving, on the success path. *)
Lemma insert_membership_Ok u g t a t' :
  insert_membership u g t = Ok (a, t') -> t_memberships t' = {[(u, g)]} ∪ t_memberships t.
Proof. unfold insert_membership. crush_match. Qed.

Lemma delete_membership_Ok u g t n t' :
  delete_membership u g t = Ok (n, t') -> n <> 0 -> t_memberships t' = t_memberships t ∖ {[(u, g)]}.
Proof. unfold delete_membership. crush_match. Qed.

Lemma join_group_Ok u g s a s' :
  join_group u g s = (Ok a, s') ->
  t_memberships (db_tables s') = {[(u, g)]} ∪ t_memberships (db_tables s).
Proof.
  intros (s0 & s1 & H0' & Hb & ->)%transaction_Ok. io_inv Hb. apply exec_Ok in Hm.
  pose proof (touch_group_memberships (fun m => m = t_memberships (db_tables s2)) g s2 eq_refl) as Ht.
  rewrite Hb in Ht. simpl in Ht. rewrite Ht, <- H0'. by eapply insert_membership_Ok.
Qed.

Lemma leave_group_Ok u g s a s' :
  sql_remove_user_from_group u g s = (Ok a, s') ->
  (forall r, t_groups (db_tables s) !! g = Some r -> group_name_str (gr_display_name r) = "lldap_admin" ->
     1 < member_count (db_tables s) g) /\
  t_memberships (db_tables s') = t_memberships (db_tables s) ∖ {[(u, g)]}.
Proof.
  intros (s0 & s1 & H0' & Hb & ->)%transaction_Ok. unfold leave_group in Hb. io_inv Hb.
  apply query_Ok in Hm as [-> Hm]. apply exec_Ok in Hm1. rewrite <- H0'.
  assert (db_tables s3 = db_tables s2 /\
    (forall r, t_groups (db_tables s2) !! g = Some r ->
       group_name_str (gr_display_name r) = "lldap_admin" -> 1 < member_count (db_tables s2) g)) as [Heq Hc].
  { unfold find_group in Hm0. rewrite <- Hm in Hm0.
    destruct (t_groups (db_tables s2) !! g) as [r|] eqn:Er.
    - destruct (String.eqb _ _) eqn:En.
      + apply io_bind_Ok in Hm0 as (cnt & s5 & Hq & Hm0). apply query_Ok in Hq as [-> Hq].
        destruct (_ <=? 1)%nat eqn:El; io_inv Hm0. apply Nat.leb_gt in El. done.
      + io_inv Hm0. split; [done|]. intros r' [= <-] Hr'. apply String.eqb_neq in En. done.
    - io_inv Hm0. split; [done|]. by intros ? [=]. }
  rewrite <- Hm. split; [done|].
  destruct (Nat.eqb_spec a2 0) as [->|Hn]; [io_inv Hb|].
  pose proof (touch_group_memberships (fun m => m = t_memberships (db_tables s4)) g s4 eq_refl) as Ht.
  rewrite Hb in Ht. simpl in Ht. rewrite Ht, <- Heq. by eapply delete_membership_Ok.
Qed.

(** Deletions only take memberships away. *)
Lemma deletions_shrink Q op :
  (forall m m', m' ⊆ m -> Q m -> Q m') ->
  match op with DeleteUser _ | DeleteGroup _ | RemoveUserFromGroup _ _ => True | _ => False end ->
  memberships_keep Q (run op).
Proof.
  intros HQ Hop. unfold memberships_keep.
  destruct op; try done; simpl.
  - unfold sql_delete_user. repeat keeps_step. intros t a1 t'. unfold delete_user_row. crush_match.
    eapply HQ; [|done]. set_solver.
  - intros s Hs. destruct (sql_remove_user_from_group u g s) as [[a|e] s'] eqn:E.
    + apply leave_group_Ok in E as [_ E]. simpl. rewrite E. eapply HQ; [|done]. set_solver.
    + simpl. by rewrite (run_atomic (RemoveUserFromGroup u g) _ _ _ E).
  - unfold sql_delete_group. repeat keeps_step. intros t a1 t'. unfold delete_group_row. crush_match.
    eapply HQ; [|done]. set_solver.
Qed.

Lemma in_named_elem nm gs d :
  d ∈ gs -> gd_display_name d = MkGroupName nm -> in_named nm gs = true.
Proof.
  intros Hd Hn. apply existsb_elem. exists d. rewrite Hn. split; [done|]. apply group_name_eqb_refl.
Qed.

(** A check that passed: no conflicting membership. *)
Lemma check_exclusion_Ok u g s a s' :
  check_exclusion u g s = (Ok a, s') ->
  db_tables s' = db_tables s /\
  forall g' n n', is_member (db_tables s) u g' ->
    name_at (db_tables s) g = Some (MkGroupName n) -> name_at (db_tables s) g' = Some (MkGroupName n') ->
    ~ (n = "lldap_admin" /\ n' = "lldap_disabled") /\ ~ (n = "lldap_disabled" /\ n' = "lldap_admin").
Proof.
  intros Hs. pose proof (preserves_check_exclusion u g s) as Hp. rewrite Hs in Hp. split; [done|].
  unfold check_exclusion in Hs. apply io_bind_Ok in Hs as (gs & s1 & Hg & Hs).
  apply io_bind_Ok in Hs as (d & s2 & Hd & Hs).
  apply user_groups_Ok in Hg as [H1' Hg]. apply group_details_Ok in Hd as (_ & r & Hr & Hd).
  rewrite H1' in Hr. intros g' n n' Hm Hn Hn'. unfold name_at in Hn, Hn'. rewrite Hr in Hn.
  destruct (t_groups (db_tables s) !! g') as [r'|] eqn:Er'; [|done]. simplify_eq/=.
  destruct (Hg g' r' Hm Er') as (d' & Hin & Hd'). rewrite Hd, Hn in Hs. simpl in Hs.
  rewrite Hn' in Hd'. split; intros [-> ->]; rewrite (in_named_elem _ _ _ Hin Hd') in Hs; by simpl in Hs.
Qed.

Section Admins.
Context (admins disabled : GroupId).

Definition exclusive (m : gset (UserId * GroupId)) : Prop :=
  forall u, ~ ((u, admins) ∈ m /\ (u, disabled) ∈ m).

Lemma run_exclusive op s :
  name_at (db_tables s) admins = Some (MkGroupName "lldap_admin") ->
  name_at (db_tables s) disabled = Some (MkGroupName "lldap_disabled") ->
  exclusive (t_memberships (db_tables s)) ->
  exclusive (t_memberships (db_tables (snd (run op s)))).
Proof.
  intros Ha Hd Hx. destruct (is_group_write op) eqn:Hw; [|by apply other_ops_memberships].
  assert (forall m m', m' ⊆ m -> exclusive m -> exclusive m') as Hsub by (unfold exclusive; set_solver).
  destruct op as [| | |u g| | |r| | | | | | | | | | | | | | | | |]; try done;
    try (by apply (deletions_shrink _ _ Hsub)).
  - destruct (run (AddUserToGroup u g) s) as [[[]|e] s'] eqn:E;
      [|by simpl; rewrite (run_atomic _ _ _ _ E)].
    simpl. apply io_bind_Ok in E as ([] & s1 & Hc & Hj).
    apply check_exclusion_Ok in Hc as [Hs1 Hc]. apply join_group_Ok in Hj. rewrite Hj, Hs1.
    intros v [[Hv1%elem_of_singleton|Hv1]%elem_of_union [Hv2%elem_of_singleton|Hv2]%elem_of_union];
      simplify_eq.
    + congruence.
    + destruct (Hc disabled _ _ Hv2 Ha Hd) as [Hn _]. by apply Hn.
    + destruct (Hc admins _ _ Hv1 Hd Ha) as [_ Hn]. by apply Hn.
    + by apply (Hx v).
  - by apply update_group_memberships.
Qed.

(** Two different members outlive one removal. *)
Lemma member_count_other t u : 1 < member_count t admins -> exists v, v <> u /\ is_member t v admins.
Proof.
  unfold member_count, is_member. intros Hc.
  destruct (set_choose_or_empty (filter (fun m : UserId * GroupId => m.2 = admins) (t_memberships t)
    ∖ {[(u, admins)]})) as [[[v g] [[Hg Hv]%elem_of_filter Hne]%elem_of_difference]|He].
  { simpl in Hg. subst g. exists v. split; [|done]. intros ->. by apply Hne, elem_of_singleton. }
  exfalso.
  assert (filter (fun m : UserId * GroupId => m.2 = admins) (t_memberships t) ⊆ {[(u, admins)]}) as Hsub.
  { intros m Hm. apply elem_of_singleton. destruct (decide (m = (u, admins))) as [|Hne]; [done|].
    exfalso. apply (not_elem_of_empty (C := gset (UserId * GroupId)) m), He, elem_of_difference.
    by rewrite elem_of_singleton. }
  apply subseteq_size in Hsub. rewrite size_singleton in Hsub. lia.
Qed.

Lemma delete_rows_Ok u g t n t' :
  n <> 0 ->
  (delete_user_row u t = Ok (n, t') ->
   t_memberships t' = filter (fun m : UserId * GroupId => m.1 <> u) (t_memberships t)) /\
  (delete_group_row g t = Ok (n, t') ->
   t_memberships t' = filter (fun m : UserId * GroupId => m.2 <> g) (t_memberships t)).
Proof. unfold delete_user_row, delete_group_row. split; crush_match. Qed.

Lemma delete_user_Ok u s a s' :
  sql_delete_user u s = (Ok a, s') ->
  t_memberships (db_tables s') = filter (fun m : UserId * GroupId => m.1 <> u) (t_memberships (db_tables s)).
Proof.
  unfold sql_delete_user. intros Hs. apply io_bind_Ok in Hs as ([] & s1 & Hk%kdc_call_Ok & Hs).
  apply io_bind_Ok in Hs as (n & s2 & Hd%dexec_Ok & Hs). rewrite Hk in Hd.
  destruct (Nat.eqb_spec n 0) as [->|Hn]; io_inv Hs. by eapply (delete_rows_Ok u 0%Z).
Qed.

Lemma delete_group_Ok g s a s' :
  sql_delete_group g s = (Ok a, s') ->
  (forall n, name_at (db_tables s) g = Some n -> is_builtin_group (group_name_str n) = false) /\
  t_memberships (db_tables s') = filter (fun m : UserId * GroupId => m.2 <> g) (t_memberships (db_tables s)).
Proof.
  unfold sql_delete_group. intros Hs. apply io_bind_Ok in Hs as (d & s1 & Hd & Hs).
  apply group_details_Ok in Hd as (H1' & r & Hr & Hd). rewrite Hd in Hs.
  destruct (is_builtin_group _) eqn:Hb; [done|].
  apply io_bind_Ok in Hs as (n & s2 & Hx%dexec_Ok & Hs). rewrite H1' in Hx.
  destruct (Nat.eqb_spec n 0) as [->|Hn]; io_inv Hs. split.
  - intros n'. unfold name_at. rewrite Hr. by intros [= <-].
  - by eapply (delete_rows_Ok (MkUserId "") g).
Qed.

Lemma run_has_member op s :
  name_at (db_tables s) admins = Some (MkGroupName "lldap_admin") ->
  has_member (db_tables s) admins ->
  (forall u, op = DeleteUser u -> exists v, v <> u /\ is_member (db_tables s) v admins) ->
  has_member (db_tables (snd (run op s))) admins.
Proof.
  intros Ha [u Hu] Hop. unfold has_member, is_member in *.
  destruct (is_group_write op) eqn:Hw;
    [|by apply (other_ops_memberships (fun m => exists u, (u, admins) ∈ m)); [|exists u]].
  destruct (run op s) as [[[]|e] s'] eqn:E; simpl; [|rewrite (run_atomic _ _ _ _ E); eauto].
  destruct op as [| |w|w g|w g| |r|g| | | | | | | | | | | | | | | |]; try done; simpl in E.
  - destruct (Hop w eq_refl) as (v & Hne & Hv). exists v. rewrite (delete_user_Ok _ _ _ _ E).
    by apply elem_of_filter.
  - apply io_bind_Ok in E as ([] & s1 & Hc & Hj). apply check_exclusion_Ok in Hc as [Hs1 _].
    exists u. rewrite (join_group_Ok _ _ _ _ _ Hj), Hs1. by apply elem_of_union_r.
  - apply leave_group_Ok in E as [Hc E]. rewrite E.
    destruct (decide (g = admins)) as [->|Hne].
    + unfold name_at in Ha. destruct (t_groups (db_tables s) !! admins) as [r|] eqn:Er; [|done].
      simplify_eq/=. destruct (member_count_other (db_tables s) w) as (v & Hne & Hv).
      { apply (Hc r); [done|]. by rewrite Ha. }
      exists v. apply elem_of_difference. split; [done|]. rewrite elem_of_singleton. congruence.
    + exists u. apply elem_of_difference. split; [done|]. rewrite elem_of_singleton. congruence.
  - pose proof (update_group_memberships (fun m => exists u, (u, admins) ∈ m) r s) as Hk.
    simpl in Hk. rewrite E in Hk. apply Hk. eauto.
  - apply delete_group_Ok in E as [Hb E]. rewrite E. exists u. apply elem_of_filter. split; [|done].
    simpl. intros <-. by apply Hb in Ha.
Qed.
End Admins.
End Memberships.

(** ** A store to evaluate on *)

(** The schema rows the migrations write for the hard-coded attributes. *)
Definition seeded_schema (l : AttributeList) : gmap AttributeName SchemaRow :=
  list_to_map (map (fun a => (AttributeName_from (as_name a),
    MkSchemaRow (as_attribute_type a) (as_is_list a) (as_is_visible a) (as_is_editable a) true
      (as_is_readonly a) "[]")) (attributes l)).

Definition demo_group (name : string) : GroupRow :=
  MkGroupRow (MkGroupName name) (to_ascii_lowercase name) 0 name 0.

Definition demo_user_row (name : string) : UserRow :=
  MkUserRow (MkEmail (name +:+ "@x.org")) (name +:+ "@x.org") None 0 (Some (name +:+ "-password")) None None
    name 0 0 None.

Definition demo_db : Db := MkDb {|
  t_users := {[ MkUserId "bob" := demo_user_row "bob"; MkUserId "eve" := demo_user_row "eve" ]};
  t_groups := {[ 1%Z := demo_group "lldap_admin"; 2%Z := demo_group "lldap_disabled" ]};
  t_memberships := {[ (MkUserId "bob", 1%Z); (MkUserId "eve", 2%Z) ]};
  t_user_attributes := {[ (MkUserId "bob", uidnumber) := "3001" ]};
  t_group_attributes := ∅;
  t_user_attribute_schema := seeded_schema (s_user_attributes PublicSchema_get);
  t_group_attribute_schema := seeded_schema (s_group_attributes PublicSchema_get);
  t_user_object_classes := ∅;
  t_group_object_classes := ∅;
  t_system_config := ∅;
  t_tokens := MkTokenTables ∅ ∅ ∅
|} 0 [].

(** Cases of a lookup in a map that is written out. *)
Ltac open_lookups :=
  repeat match goal with
  | H : <[_ := _]> _ !! _ = Some _ |- _ => apply lookup_insert_Some in H as [[? ?]|[? H]]; simplify_eq
  | H : {[_ := _]} !! _ = Some _ |- _ => apply lookup_singleton_Some in H as [? ?]; simplify_eq
  | H : ∅ !! _ = Some _ |- _ => by apply lookup_empty_Some in H
  end.
Lemma demo_db_integrity : integrity (db_tables demo_db).
Proof.
  constructor; cbn [t_users t_groups t_memberships t_user_attributes t_group_attributes
    t_user_attribute_schema t_group_attribute_schema t_tokens
    tt_refresh tt_jwt tt_reset db_tables demo_db]; intros *.
  - intros Hm. assert (u = MkUserId "bob" \/ u = MkUserId "eve") as [->| ->] by set_solver; by eexists.
  - intros Hm. assert (g = 1%Z \/ g = 2%Z) as [->| ->] by set_solver; by eexists.
  - intros H1. open_lookups; by eexists.
  - intros H1. open_lookups; by eexists.
  - intros H1. open_lookups; by eexists.
  - intros H1. open_lookups; by eexists.
  - intros H1 H2 He. open_lookups; done.
  - intros H1 H2 He. open_lookups; done.
  - intros H1. open_lookups; by eexists.
  - intros H1. open_lookups; by eexists.
  - intros H1. open_lookups; by eexists.
  - intros H1 H2 He. open_lookups; done.
Qed.

Definition demo_run (op : SqlOp) : io Db DomainError unit :=
  @run lawful_extern demo_ldap_extern demo_sql_extern op.

Definition demo_run_all (ops : list SqlOp) : Db -> Db :=
  @run_all lawful_extern demo_ldap_extern demo_sql_extern ops.

(** ** Theorems *)

(** C3: an operation that reports an error, whether a check refused it, a constraint
    was violated or the connection failed at any of its statements, has changed no
    table. *)
Theorem failed_operation_changes_nothing `{Extern, LdapExtern, SqlExtern} op s e s' :
  run op s = (Err e, s') -> db_tables s' = db_tables s.
Proof. apply run_atomic. Qed.

Lemma failed_operation_changes_nothing_witness :
  let op := RemoveUserFromGroup (MkUserId "bob") 1 in
  let s' := snd (demo_run op demo_db) in
  fst (demo_run op demo_db) = Err (EntityNotFound "Cannot remove the last member of lldap_admin") /\
  db_tables s' = db_tables demo_db.
Proof.
  split; [vm_compute; reflexivity|].
  apply (@failed_operation_changes_nothing lawful_extern demo_ldap_extern demo_sql_extern
    (RemoveUserFromGroup (MkUserId "bob") 1) demo_db
    (EntityNotFound "Cannot remove the last member of lldap_admin")).
  vm_compute. reflexivity.
Defined.

(** Whatever operations run, failing or not, memberships refer to users and groups
    that exist, attributes to entries and schema rows that exist, and no two users
    share an e-mail address nor two groups a name, without case. *)
Theorem integrity_always `{Extern, LdapExtern, SqlExtern} ops s :
  integrity (db_tables s) -> integrity (db_tables (run_all ops s)).
Proof. apply run_all_invariant. intros op s'. apply run_integrity. Qed.

Lemma empty_integrity : integrity empty_tables.
Proof. by constructor. Qed.

Lemma integrity_always_witness :
  integrity (db_tables (demo_run_all [CreateGroup (MkCreateGroupRequest (MkGroupName "Staff") []);
    DeleteUser (MkUserId "bob")] (MkDb empty_tables 0 []))).
Proof.
  apply (@integrity_always lawful_extern demo_ldap_extern demo_sql_extern). exact empty_integrity.
Defined.

(** A built-in group keeps its identifier and its exact name whatever operations
    run: no deletion, rename, creation or fault makes it disappear. *)
Theorem builtin_groups_permanent `{Extern, LdapExtern, SqlExtern, !SqlLaws} ops s g n :
  name_at (db_tables s) g = Some n -> is_builtin_group (group_name_str n) = true ->
  name_at (db_tables (run_all ops s)) g = Some n.
Proof.
  intros Hn Hb. apply (run_all_invariant (fun t => name_at t g = Some n)); [|done].
  intros op s'. by apply run_named.
Qed.

Lemma builtin_groups_permanent_witness :
  name_at (db_tables (demo_run_all [DeleteGroup 1;
    UpdateGroup (MkUpdateGroupRequest 1 (Some (MkGroupName "staff")) [] [])] demo_db)) 1 =
  Some (MkGroupName "lldap_admin").
Proof.
  apply (@builtin_groups_permanent lawful_extern demo_ldap_extern demo_sql_extern _ _ demo_db);
    vm_compute; reflexivity.
Defined.

(** No sequence of operations puts a user in both [lldap_admin] and
    [lldap_disabled]. *)
Theorem admin_disabled_exclusive `{Extern, LdapExtern, SqlExtern, !SqlLaws} ops s admins disabled u :
  name_at (db_tables s) admins = Some (MkGroupName "lldap_admin") ->
  name_at (db_tables s) disabled = Some (MkGroupName "lldap_disabled") ->
  (forall v, ~ (is_member (db_tables s) v admins /\ is_member (db_tables s) v disabled)) ->
  ~ (is_member (db_tables (run_all ops s)) u admins /\ is_member (db_tables (run_all ops s)) u disabled).
Proof.
  intros Ha Hd Hx.
  pose proof (run_all_invariant (fun t => name_at t admins = Some (MkGroupName "lldap_admin") /\
    name_at t disabled = Some (MkGroupName "lldap_disabled") /\
    exclusive admins disabled (t_memberships t))) as Hinv.
  destruct (Hinv) with (ops := ops) (s := s) as (_ & _ & Hr); [|done|apply Hr].
  intros op s' (Ha' & Hd' & Hx').
  split_and!; [by apply run_named | by apply run_named | by apply run_exclusive].
Qed.

Lemma admin_disabled_exclusive_witness :
  ~ (is_member (db_tables (demo_run_all [AddUserToGroup (MkUserId "bob") 2] demo_db)) (MkUserId "bob") 1 /\
     is_member (db_tables (demo_run_all [AddUserToGroup (MkUserId "bob") 2] demo_db)) (MkUserId "bob") 2).
Proof.
  apply (@admin_disabled_exclusive lawful_extern demo_ldap_extern demo_sql_extern _ _ demo_db 1 2).
  - vm_compute. reflexivity.
  - vm_compute. reflexivity.
  - intros v [Hv1 Hv2]. unfold is_member in *. simpl in *. set_solver.
Defined.

(** C18: an operation can empty the administrators' group only by deleting its last
    member's account. *)
Theorem administrators_remain `{Extern, LdapExtern, SqlExtern} op s admins :
  name_at (db_tables s) admins = Some (MkGroupName "lldap_admin") ->
  has_member (db_tables s) admins ->
  (forall u, op = DeleteUser u -> exists v, v <> u /\ is_member (db_tables s) v admins) ->
  has_member (db_tables (snd (run op s))) admins.
Proof. apply run_has_member. Qed.

Lemma administrators_remain_witness :
  has_member (db_tables (snd (demo_run (RemoveUserFromGroup (MkUserId "bob") 1) demo_db))) 1.
Proof.
  apply (@administrators_remain lawful_extern demo_ldap_extern demo_sql_extern).
  - vm_compute. reflexivity.
  - exists (MkUserId "bob"). unfold is_member. simpl. set_solver.
  - discriminate.
Defined.

(** ** Where the guarantees end *)

(** Deleting an account is not subject to the protection of the last administrator. *)
Example last_admin_account_can_be_deleted :
  fst (demo_run (DeleteUser (MkUserId "bob")) demo_db) = Ok tt /\
  forallb (fun m => negb (Z.eqb (snd m) 1))
    (elements (t_memberships (db_tables (snd (demo_run (DeleteUser (MkUserId "bob")) demo_db))))) = true.
Proof. split; vm_compute; reflexivity. Qed.

(** The exclusion is checked before the transaction that inserts the membership: two
    requests whose checks both come first put a user in both groups. *)
Example exclusion_check_races :
  let check g s := snd (@check_exclusion lawful_extern demo_sql_extern (MkUserId "eve") g s) in
  let join g s := snd (@join_group demo_sql_extern (MkUserId "eve") g s) in
  let start := snd (demo_run (RemoveUserFromGroup (MkUserId "eve") 2) demo_db) in
  let both := join 2%Z (join 1%Z (check 2%Z (check 1%Z start))) in
  is_ok (fst (@check_exclusion lawful_extern demo_sql_extern (MkUserId "eve") 2 (check 1%Z start))) = true /\
  bool_decide ((MkUserId "eve", 1%Z) ∈ t_memberships (db_tables both)) = true /\
  bool_decide ((MkUserId "eve", 2%Z) ∈ t_memberships (db_tables both)) = true.
Proof. cbv zeta. split_and!; vm_compute; reflexivity. Qed.
