(* ===== verification/SqlLists.v ===== *)
(** * Listing users and groups in the SQL backend

    The translation of request filters to SQL conditions and the two list operations
    of [sql_user_backend_handler.rs] and [sql_group_backend_handler.rs].  A condition
    is kept as data ([UserCond], [GroupCond]) and evaluated on a row in SQL's
    three-valued logic.  The backend interface the LDAP layer is proved against is
    implemented here, and what a search finds through it is stated on the tables. *)

From Stdlib Require Import Sorting.Sorted.
From S2P Require Import Prelude Strings Types Schema SchemaManager Proto Dn Filters Access Search.
From S2P Require Import Database SqlConfig SqlGroups SqlUsers SqlOps.

(** ** Ordering *)

Lemma ascii_compare_trans_lt a b c :
  Ascii.compare a b = Lt -> Ascii.compare b c = Lt -> Ascii.compare a c = Lt.
Proof. unfold Ascii.compare. rewrite !N.compare_lt_iff. lia. Qed.

Lemma ascii_compare_eq a b : Ascii.compare a b = Eq <-> a = b.
Proof.
  unfold Ascii.compare. rewrite N.compare_eq_iff. split; [|by intros ->].
  intros Hn. rewrite <- (ascii_N_embedding a), <- (ascii_N_embedding b). by rewrite Hn.
Qed.

Lemma str_compare_refl s : String.compare s s = Eq.
Proof. induction s as [|c s IH]; [done|]. simpl. by rewrite (proj2 (ascii_compare_eq c c) eq_refl). Qed.

Lemma str_compare_eq a b : String.compare a b = Eq <-> a = b.
Proof. split; [apply String.compare_eq_iff|]. intros ->. apply str_compare_refl. Qed.

Lemma str_compare_lt_trans a : forall b c,
  String.compare a b = Lt -> String.compare b c = Lt -> String.compare a c = Lt.
Proof.
  induction a as [|x a IH]; intros [|y b] [|z c]; simpl; try done.
  destruct (Ascii.compare x y) eqn:Exy; [apply ascii_compare_eq in Exy as ->| |done].
  - destruct (Ascii.compare y z) eqn:Eyz; [|done..]. apply IH.
  - intros _. destruct (Ascii.compare y z) eqn:Eyz; [apply ascii_compare_eq in Eyz as ->| |done].
    + by rewrite Exy.
    + by rewrite (ascii_compare_trans_lt _ _ _ Exy Eyz).
Qed.

Lemma str_leb_total a b : str_leb a b = true \/ str_leb b a = true.
Proof.
  unfold str_leb. rewrite (String.compare_antisym b a). destruct (String.compare a b); naive_solver.
Qed.

Lemma str_leb_trans a b c : str_leb a b = true -> str_leb b c = true -> str_leb a c = true.
Proof.
  unfold str_leb.
  destruct (String.compare a b) eqn:Eab; [apply str_compare_eq in Eab as ->; done| |done].
  destruct (String.compare b c) eqn:Ebc; [apply str_compare_eq in Ebc as <-; by rewrite Eab| |done].
  by rewrite (str_compare_lt_trans _ _ _ Eab Ebc).
Qed.

Lemma str_leb_antisym a b : str_leb a b = true -> str_leb b a = true -> a = b.
Proof.
  unfold str_leb. rewrite (String.compare_antisym b a).
  destruct (String.compare a b) eqn:E; try done. by apply str_compare_eq in E.
Qed.

(** Sorting by a key. *)
Section OrderBy.
Context {A : Type} (leb : A -> A -> bool).

Lemma insert_ordered_perm x l : insert_ordered leb x l ≡ₚ x :: l.
Proof. induction l as [|y l IH]; simpl; [done|]. case_match; [done|]. rewrite IH. constructor. Qed.

Lemma order_by_perm l : order_by leb l ≡ₚ l.
Proof. induction l as [|x l IH]; simpl; [done|]. by rewrite insert_ordered_perm, IH. Qed.

Context (leb_total : forall x y, leb x y = true \/ leb y x = true).
Context (leb_trans : forall x y z, leb x y = true -> leb y z = true -> leb x z = true).

Abbreviation ordered := (StronglySorted (fun x y => leb x y = true)) (only parsing).

Lemma insert_ordered_sorted x l : ordered l -> ordered (insert_ordered leb x l).
Proof.
  induction 1 as [|y l Hl IH Hy]; simpl; [repeat constructor|].
  destruct (leb x y) eqn:E.
  - constructor; [by constructor|]. constructor; [done|]. eapply Forall_impl; [exact Hy|]. eauto.
  - constructor; [done|]. rewrite insert_ordered_perm. constructor; [|done].
    destruct (leb_total x y); congruence.
Qed.

Lemma order_by_sorted l : ordered (order_by leb l).
Proof. induction l; simpl; [constructor|]. by apply insert_ordered_sorted. Qed.

Lemma insert_ordered_head x l : Forall (fun y => leb x y = true) l -> insert_ordered leb x l = x :: l.
Proof. destruct 1 as [|y l Hy]; simpl; [done|]. by rewrite Hy. Qed.

(** Selecting rows before or after sorting is the same. *)
Lemma filter_insert_ordered (p : A -> bool) x l :
  ordered l ->
  List.filter p (insert_ordered leb x l) =
  if p x then insert_ordered leb x (List.filter p l) else List.filter p l.
Proof.
  induction 1 as [|y l Hl IH Hy]; simpl; [by destruct (p x)|].
  destruct (leb x y) eqn:E; simpl.
  - destruct (p x) eqn:Px; [|done]. destruct (p y) eqn:Py; simpl; [by rewrite E|].
    rewrite insert_ordered_head; [done|]. apply Forall_forall. intros z Hz%list_elem_of_In.
    apply filter_In in Hz as [Hz%list_elem_of_In _]. rewrite Forall_forall in Hy. eauto.
  - rewrite IH. destruct (p x), (p y); simpl; rewrite ?E; done.
Qed.

Lemma filter_order_by (p : A -> bool) l :
  List.filter p (order_by leb l) = order_by leb (List.filter p l).
Proof.
  induction l as [|x l IH]; simpl; [done|].
  rewrite filter_insert_ordered by apply order_by_sorted. rewrite IH. by destruct (p x).
Qed.
End OrderBy.

Lemma order_by_map {A B} (f : A -> B) leb l :
  order_by leb (map f l) = map f (order_by (fun x y => leb (f x) (f y)) l).
Proof.
  induction l as [|x l IH]; simpl; [done|]. rewrite IH. generalize (order_by (fun x y => leb (f x) (f y)) l).
  clear. intros l. induction l as [|y l IH]; simpl; [done|]. destruct (leb (f x) (f y)); simpl; [done|].
  by rewrite IH.
Qed.

(** ** Attaching rows *)

Fixpoint take_while {A} (p : A -> bool) (l : list A) : list A :=
  match l with
  | [] => []
  | x :: l' => if p x then x :: take_while p l' else []
  end.

Fixpoint drop_while {A} (p : A -> bool) (l : list A) : list A :=
  match l with
  | [] => []
  | x :: l' => if p x then drop_while p l' else l
  end.

(** The loop over the entries, each taking its rows off the front of the iterator
    ([take_while_ref]). *)
Fixpoint attach {U R} (mine : U -> R -> bool) (entries : list U) (rows : list R) : list (U * list R) :=
  match entries with
  | [] => []
  | u :: entries' =>
      (u, take_while (mine u) rows) :: attach mine entries' (drop_while (mine u) rows)
  end.

(** ** Conditions *)

(** What a subquery on the attribute table asks of the value. *)
Inductive ValueTest : Type :=
| AnyValue
| ValueEq (bytes : string)
| ValueLike (pattern : string)
| ValueGte (text : string)
| ValueLte (text : string).

Inductive UserCond : Type :=
| CConst (b : bool)
| CAll (cs : list UserCond)
| CAny (cs : list UserCond)
| CNot (c : UserCond)
| CUserId (id : UserId)
| CColumnEq (c : UserColumn) (v : string)
| CUserIdLike (pattern : string)
| CLowerLike (c : UserColumn) (pattern : string)
| CDateGte (c : UserColumn) (v : string)
| CDateLte (c : UserColumn) (v : string)
| CAttribute (n : AttributeName) (test : ValueTest)
| CInGroupNamed (lowercase_name : string)
| CInGroupId (g : GroupId)
| CGroupAttribute (n : AttributeName) (test : ValueTest).

Inductive GroupCond : Type :=
| GConst (b : bool)
| GAll (cs : list GroupCond)
| GAny (cs : list GroupCond)
| GCNot (c : GroupCond)
| GLowerNameEq (v : string)
| GIdEq (g : GroupId)
| GUuidEq (v : string)
| GHasMember (u : UserId)
| GLowerNameLike (pattern : string)
| GCreationGte (v : string)
| GCreationLte (v : string)
| GModifiedGte (v : string)
| GModifiedLte (v : string)
| GAttribute (n : AttributeName) (test : ValueTest).

Section Conditions.
Context `{Extern, SqlExtern}.

(** [get_user_filter_expr]; [Err] is a panic. *)
Fixpoint get_user_filter_expr (filter : UserRequestFilter) : result string UserCond :=
  match filter with
  | UTrue => Ok (CConst true)
  | UFalse => Ok (CConst false)
  | UAnd [] => Ok (CConst true)
  | UAnd fs => let? cs := collect (map get_user_filter_expr fs) in Ok (CAll cs)
  | UOr [] => Ok (CConst false)
  | UOr fs => let? cs := collect (map get_user_filter_expr fs) in Ok (CAny cs)
  | UNot f => let? c := get_user_filter_expr f in Ok (CNot c)
  | UUserId user_id => Ok (CUserId user_id)
  | UEquality column value =>
      match column with
      | ColUserId => Err "User id should be wrapped"
      | ColEmail => Ok (CColumnEq ColLowercaseEmail (str_to_lowercase value))
      | _ => Ok (CColumnEq column value)
      end
  | UAttributeEquality n v => Ok (CAttribute n (ValueEq (attribute_value_to_db_bytes v)))
  | UMemberOf group => Ok (CInGroupNamed (str_to_lowercase (group_name_str group)))
  | UMemberOfId g => Ok (CInGroupId g)
  | UUserIdSubString f => Ok (CUserIdLike (to_sql_filter f))
  | USubString c f => Ok (CLowerLike c (to_sql_filter f))
  | UCustomAttributePresent n => Ok (CAttribute n AnyValue)
  | UGreaterOrEqual c v =>
      match c with
      | ColCreationDate | ColModifiedDate | ColPasswordModifiedDate => Ok (CDateGte c v)
      | _ => Err "GreaterOrEqual only supported on date columns"
      end
  | ULessOrEqual c v =>
      match c with
      | ColCreationDate | ColModifiedDate | ColPasswordModifiedDate => Ok (CDateLte c v)
      | _ => Err "LessOrEqual only supported on date columns"
      end
  | UAttributeGreaterOrEqual n v => Ok (CGroupAttribute n (ValueGte v))
  | UAttributeLessOrEqual n v => Ok (CGroupAttribute n (ValueLte v))
  | UAttributeSubString n f => Ok (CAttribute n (ValueLike (to_sql_filter f)))
  end.

Fixpoint get_group_filter_expr (filter : GroupRequestFilter) : GroupCond :=
  match filter with
  | GTrue => GConst true
  | GFalse => GConst false
  | GAnd [] => GConst true
  | GAnd fs => GAll (map get_group_filter_expr fs)
  | GOr [] => GConst false
  | GOr fs => GAny (map get_group_filter_expr fs)
  | GNot f => GCNot (get_group_filter_expr f)
  | GDisplayName name => GLowerNameEq (str_to_lowercase (group_name_str name))
  | GGroupId id => GIdEq id
  | GUuid uuid => GUuidEq uuid
  | GMember user => GHasMember user
  | GDisplayNameSubString f => GLowerNameLike (to_sql_filter f)
  | GAttributeEquality n v => GAttribute n (ValueEq (attribute_value_to_db_bytes v))
  | GCustomAttributePresent n => GAttribute n AnyValue
  | GGreaterOrEqual c v =>
      let col := to_ascii_lowercase c in
      if String.eqb col "creationdate" then GCreationGte v
      else if String.eqb col "modifieddate" then GModifiedGte v
      else GConst false
  | GLessOrEqual c v =>
      let col := to_ascii_lowercase c in
      if String.eqb col "creationdate" then GCreationLte v
      else if String.eqb col "modifieddate" then GModifiedLte v
      else GConst false
  | GAttributeGreaterOrEqual n v => GAttribute n (ValueGte v)
  | GAttributeLessOrEqual n v => GAttribute n (ValueLte v)
  | GAttributeSubString n f => GAttribute n (ValueLike (to_sql_filter f))
  end.

(** ** Evaluation on a row *)

Definition test_value (test : ValueTest) (v : string) : bool :=
  match test with
  | AnyValue => true
  | ValueEq bytes => String.eqb v bytes
  | ValueLike pattern => sql_like (sql_lower v) pattern
  | ValueGte text => value_gte v text
  | ValueLte text => value_lte v text
  end.

(** The text of a column, NULL as [None]. *)
Definition column_text (id : UserId) (r : UserRow) (c : UserColumn) : option string :=
  match c with
  | ColUserId => Some (user_id_str id)
  | ColEmail => Some (email_str (ur_email r))
  | ColLowercaseEmail => Some (ur_lowercase_email r)
  | ColDisplayName => ur_display_name r
  | ColCreationDate => Some (date_text (ur_creation_date r))
  | ColPasswordHash => ur_password_hash r
  | ColTotpSecret => ur_totp_secret r
  | ColMfaType => ur_mfa_type r
  | ColUuid => Some (ur_uuid r)
  | ColModifiedDate => Some (date_text (ur_modified_date r))
  | ColPasswordModifiedDate => Some (date_text (ur_password_modified_date r))
  | ColKrbPrincipalName => ur_krb_principal_name r
  end.

Definition date_column (r : UserRow) (c : UserColumn) : NaiveDateTime :=
  match c with
  | ColModifiedDate => ur_modified_date r
  | ColPasswordModifiedDate => ur_password_modified_date r
  | _ => ur_creation_date r
  end.

Definition has_attribute_row {K} `{Countable K} (m : gmap (K * AttributeName) string) (k : K)
    (n : AttributeName) (test : ValueTest) : bool :=
  match m !! (k, n) with
  | Some v => test_value test v
  | None => false
  end.

Fixpoint eval_user_cond (t : Tables) (id : UserId) (r : UserRow) (c : UserCond) : tri :=
  match c with
  | CConst b => Some b
  | CAll cs => all3 (map (eval_user_cond t id r) cs)
  | CAny cs => any3 (map (eval_user_cond t id r) cs)
  | CNot c' => not3 (eval_user_cond t id r c')
  | CUserId u => Some (user_id_eqb id u)
  | CColumnEq col v => (fun x => String.eqb x v) <$> column_text id r col
  | CUserIdLike p => Some (sql_like (user_id_str id) p)
  | CLowerLike col p => (fun x => sql_like (sql_lower x) p) <$> column_text id r col
  | CDateGte col v => Some (date_gte (date_column r col) v)
  | CDateLte col v => Some (date_lte (date_column r col) v)
  | CAttribute n test => Some (has_attribute_row (t_user_attributes t) id n test)
  | CInGroupNamed name =>
      Some (existsb (fun g => String.eqb (gr_lowercase_display_name (snd g)) name) (groups_of_user t id))
  | CInGroupId gid => Some (existsb (fun g => Z.eqb (fst g) gid) (groups_of_user t id))
  | CGroupAttribute _ _ => None
  end.

(** The condition refers to [groups.group_id], a table the query on users does not
    have in scope: the engine refuses it. *)
Fixpoint out_of_scope (c : UserCond) : bool :=
  match c with
  | CAll cs | CAny cs => existsb out_of_scope cs
  | CNot c' => out_of_scope c'
  | CGroupAttribute _ _ => true
  | _ => false
  end.

Fixpoint eval_group_cond (t : Tables) (g : GroupId) (r : GroupRow) (c : GroupCond) : tri :=
  match c with
  | GConst b => Some b
  | GAll cs => all3 (map (eval_group_cond t g r) cs)
  | GAny cs => any3 (map (eval_group_cond t g r) cs)
  | GCNot c' => not3 (eval_group_cond t g r c')
  | GLowerNameEq v => Some (String.eqb (gr_lowercase_display_name r) v)
  | GIdEq g' => Some (Z.eqb g g')
  | GUuidEq v => Some (String.eqb (gr_uuid r) v)
  | GHasMember u => Some (bool_decide ((u, g) ∈ t_memberships t))
  | GLowerNameLike p => Some (sql_like (sql_lower (gr_lowercase_display_name r)) p)
  | GCreationGte v => Some (date_gte (gr_creation_date r) v)
  | GCreationLte v => Some (date_lte (gr_creation_date r) v)
  | GModifiedGte v => Some (date_gte (gr_modified_date r) v)
  | GModifiedLte v => Some (date_lte (gr_modified_date r) v)
  | GAttribute n test => Some (has_attribute_row (t_group_attributes t) g n test)
  end.

Definition selects (x : tri) : bool := match x with Some true => true | _ => false end.

(** ** [list_users] *)

Definition user_id_leb (a b : UserId) : bool := str_leb (user_id_str a) (user_id_str b).

Definition select_users (cond : UserCond) (t : Tables) : list (UserId * UserRow) :=
  order_by (fun x y => user_id_leb (fst x) (fst y))
    (List.filter (fun u => selects (eval_user_cond t (fst u) (snd u) cond)) (map_to_list (t_users t))).

(** The groups of a selected user, by name. *)
Definition linked_groups (t : Tables) (u : UserId) : list GroupDetails :=
  map (fun g => group_details_of (fst g) (snd g) [])
    (order_by (fun x y => str_leb (group_name_str (gr_display_name (snd x)))
                                  (group_name_str (gr_display_name (snd y)))) (groups_of_user t u)).

(** The attribute rows of the selected users, ordered by user, then name. *)
Definition select_user_attributes (cond : UserCond) (t : Tables)
  : list ((UserId * AttributeName) * string) :=
  order_by (fun x y => user_id_leb (fst (fst x)) (fst (fst y)))
    (order_by (fun x y => str_leb (attribute_name_str (snd (fst x))) (attribute_name_str (snd (fst y))))
      (List.filter (fun row => match t_users t !! fst (fst row) with
                               | Some r => selects (eval_user_cond t (fst (fst row)) r cond)
                               | None => false
                               end) (map_to_list (t_user_attributes t)))).

(** A SELECT with the condition. *)
Definition user_query {A} (cond : UserCond) (f : Tables -> A) : io Db DomainError A :=
  dexec (fun t => if out_of_scope cond then Err (unknown_column_error "groups.group_id") else Ok (f t, t)).

Definition read_user (schema : PublicSchema) (u : UserId * UserRow) (rows : list (AttributeName * string))
  : Result User :=
  let? attrs := collect (map (read_attribute canonical_user_attribute_name (s_user_attributes schema)) rows) in
  Ok (materialize_protected_fields (user_of_row (fst u) (snd u) attrs)).

Definition list_users_where (cond : UserCond) : io Db DomainError (list UserAndGroups) :=
  let! users := user_query cond (fun t =>
    map (fun u => (u, linked_groups t (fst u))) (select_users cond t)) in
  let! rows := user_query cond (select_user_attributes cond) in
  let! schema := sql_get_schema in
  io_lift (collect (map (fun ug =>
      let '(u, groups, mine) := ug in
      map_ok (fun user => MkUserAndGroups user (Some groups))
        (read_user schema u (map (fun row => (snd (fst row), snd row)) mine)))
    (attach (fun ug row => user_id_eqb (fst (fst row)) (fst (fst ug))) users rows))).

(** [Err] is a panic while the condition is built. *)
Definition sql_list_users (filters : option UserRequestFilter) (get_groups : bool)
  : result string (io Db DomainError (list UserAndGroups)) :=
  let? cond := match filters with
               | Some f => get_user_filter_expr f
               | None => Ok (CConst true)
               end in
  Ok (list_users_where cond).

(** ** [list_groups] *)

Definition select_groups (cond : GroupCond) (t : Tables) : list (GroupId * GroupRow) :=
  order_by (fun x y => Z.leb (fst x) (fst y))
    (List.filter (fun g => selects (eval_group_cond t (fst g) (snd g) cond)) (map_to_list (t_groups t))).

Definition members_of (t : Tables) (g : GroupId) : list UserId :=
  omap (fun m : UserId * GroupId => if Z.eqb (snd m) g then Some (fst m) else None)
    (elements (t_memberships t)).

(** The stored OU of the users asked for, where it is text. *)
Definition user_ous (users : list UserId) (t : Tables) : gmap UserId string :=
  list_to_map (omap (fun row : (UserId * AttributeName) * string =>
    if existsb (user_id_eqb (fst (fst row))) users
       && String.eqb (attribute_name_str (snd (fst row))) "ou"
    then (fun ou => (fst (fst row), ou)) <$> from_utf8 (snd row) else None)
    (map_to_list (t_user_attributes t))).

(** The first occurrence of every member, with its OU. *)
Fixpoint unique_members (ous : gmap UserId string) (seen members : list UserId) : list GroupMember :=
  match members with
  | [] => []
  | u :: members' =>
      if existsb (user_id_eqb u) seen then unique_members ous seen members'
      else MkGroupMember u (from_option id "people" (ous !! u)) :: unique_members ous (u :: seen) members'
  end.

Definition group_of_row (gid : GroupId) (r : GroupRow) (users : list GroupMember) (attrs : list Attribute)
  : Group :=
  MkGroup gid (gr_display_name r) (gr_creation_date r) (gr_uuid r) users attrs (gr_modified_date r).

Definition select_group_attributes (cond : GroupCond) (t : Tables)
  : list ((GroupId * AttributeName) * string) :=
  order_by (fun x y => Z.leb (fst (fst x)) (fst (fst y)))
    (order_by (fun x y => str_leb (attribute_name_str (snd (fst x))) (attribute_name_str (snd (fst y))))
      (List.filter (fun row => match t_groups t !! fst (fst row) with
                               | Some r => selects (eval_group_cond t (fst (fst row)) r cond)
                               | None => false
                               end) (map_to_list (t_group_attributes t)))).

Definition read_group (schema : PublicSchema) (ous : gmap UserId string)
    (g : (GroupId * GroupRow) * list UserId) (rows : list (AttributeName * string)) : Result Group :=
  let? attrs := collect (map (read_attribute canonical_group_attribute_name (s_group_attributes schema)) rows) in
  Ok (group_of_row (fst (fst g)) (snd (fst g)) (unique_members ous [] (snd g)) attrs).

(** [groups.sort_by(|g1, g2| g1.display_name.cmp(&g2.display_name))] *)
Definition group_name_leb (x y : Group) : bool :=
  match compare_str_case_insensitive (group_name_str (g_display_name x))
          (group_name_str (g_display_name y)) with
  | Gt => false
  | _ => true
  end.

Definition sql_list_groups (filters : option GroupRequestFilter) : io Db DomainError (list Group) :=
  let cond := from_option get_group_filter_expr (GConst true) filters in
  let! results := dquery (fun t => map (fun g => (g, members_of t (fst g))) (select_groups cond t)) in
  let all_user_ids := concat (map snd results) in
  let! ous := match all_user_ids with
              | [] => io_ret ∅
              | _ => dquery (user_ous all_user_ids)
              end in
  let! schema := sql_get_schema in
  let! rows := dquery (select_group_attributes cond) in
  let! groups := io_lift (collect (map (fun gr =>
      read_group schema ous (fst gr) (map (fun row => (snd (fst row), snd row)) (snd gr)))
    (attach (fun g row => Z.eqb (fst (fst row)) (fst (fst g))) results rows))) in
  io_ret (order_by group_name_leb groups).
End Conditions.

(** ** The backend interface, implemented *)

Section Backend.
Context `{Extern, LdapExtern, SqlExtern}.

(** Login and password registration run the OPAQUE protocol on the user's row; the
    Kerberos server answers as it does. *)
Context (login : BindRequest -> io Db DomainError unit).
Context (registration : UserId -> string -> io Db DomainError unit).
Context (kdc_answer : KdcCall -> result DomainError unit).

Definition kdc (c : KdcCall) : io Db DomainError unit :=
  let! _ := kdc_call c in io_lift (kdc_answer c).

(** A panic while a condition is built has no place in the interface's result type; it
    is an error whose text is the panic's.  [safe_filter_expr] shows
    which filters cannot cause one. *)
Definition list_users_or_panic (filters : option UserRequestFilter) (get_groups : bool)
  : io Db DomainError (list UserAndGroups) :=
  match sql_list_users filters get_groups with
  | Ok m => m
  | Err msg => io_fail (InternalError msg)
  end.

Definition sql_backend : BackendHandler Db := {|
  Access.bind := login;
  Access.list_users := list_users_or_panic;
  Access.list_groups := sql_list_groups;
  Access.get_user_details := sql_get_user_details;
  Access.get_user_groups := sql_get_user_groups;
  Access.get_group_details := sql_get_group_details;
  Access.get_schema := sql_get_schema;
  Access.get_allowed_ous := SqlConfig.get_allowed_ous;
  Access.create_user := sql_create_user;
  Access.update_user := sql_update_user;
  Access.delete_user := sql_delete_user;
  Access.add_user_to_group := sql_add_user_to_group;
  Access.remove_user_from_group := sql_remove_user_from_group;
  Access.create_group := sql_create_group;
  Access.update_group := sql_update_group;
  Access.delete_group := sql_delete_group;
  Access.register_password := registration;
  Access.ensure_kerberos_principal_consistency := sql_ensure_kerberos_principal_consistency;
  Access.sync_kerberos_principal := fun u p => kdc (KdcSync u p);
  Access.delete_kerberos_principal := fun u => kdc (KdcDelete u)
|}.
End Backend.

(** ** Filters and conditions *)

Definition user_atom_filter (f : UserRequestFilter) : bool :=
  match f with UAnd _ | UOr _ | UNot _ => false | _ => true end.

Definition group_atom_filter (f : GroupRequestFilter) : bool :=
  match f with GAnd _ | GOr _ | GNot _ => false | _ => true end.

Section UserFilterInd.
Context (P : UserRequestFilter -> Prop).
Context (HAnd : forall fs, Forall P fs -> P (UAnd fs)) (HOr : forall fs, Forall P fs -> P (UOr fs)).
Context (HNot : forall f, P f -> P (UNot f)) (HAtom : forall f, user_atom_filter f = true -> P f).

Fixpoint UserRequestFilter_ind' (f : UserRequestFilter) : P f :=
  let fix go (fs : list UserRequestFilter) : Forall P fs :=
    match fs with
    | [] => Forall_nil_2 P
    | g :: gs => Forall_cons_2 P g gs (UserRequestFilter_ind' g) (go gs)
    end in
  match f as f0 return (user_atom_filter f0 = true -> P f0) -> P f0 with
  | UAnd fs => fun _ => HAnd fs (go fs)
  | UOr fs => fun _ => HOr fs (go fs)
  | UNot g => fun _ => HNot g (UserRequestFilter_ind' g)
  | _ => fun Hf => Hf eq_refl
  end (HAtom f).
End UserFilterInd.

Section GroupFilterInd.
Context (P : GroupRequestFilter -> Prop).
Context (HAnd : forall fs, Forall P fs -> P (GAnd fs)) (HOr : forall fs, Forall P fs -> P (GOr fs)).
Context (HNot : forall f, P f -> P (GNot f)) (HAtom : forall f, group_atom_filter f = true -> P f).

Fixpoint GroupRequestFilter_ind' (f : GroupRequestFilter) : P f :=
  let fix go (fs : list GroupRequestFilter) : Forall P fs :=
    match fs with
    | [] => Forall_nil_2 P
    | g :: gs => Forall_cons_2 P g gs (GroupRequestFilter_ind' g) (go gs)
    end in
  match f as f0 return (group_atom_filter f0 = true -> P f0) -> P f0 with
  | GAnd fs => fun _ => HAnd fs (go fs)
  | GOr fs => fun _ => HOr fs (go fs)
  | GNot g => fun _ => HNot g (GroupRequestFilter_ind' g)
  | _ => fun Hf => Hf eq_refl
  end (HAtom f).
End GroupFilterInd.

Section Translation.
Context `{Extern, SqlExtern}.

(** What an atom says of a row: the condition it becomes. *)
Definition user_atom (t : Tables) (id : UserId) (r : UserRow) (f : UserRequestFilter) : tri :=
  match get_user_filter_expr f with
  | Ok c => eval_user_cond t id r c
  | Err _ => None
  end.

Definition group_atom (t : Tables) (g : GroupId) (r : GroupRow) (f : GroupRequestFilter) : tri :=
  eval_group_cond t g r (get_group_filter_expr f).

(** What an atom of a group filter says of a stored group. *)
Definition group_says (t : Tables) (gid : GroupId) (r : GroupRow) (f : GroupRequestFilter) : tri :=
  let value n := t_group_attributes t !! (gid, n) in
  let tests n p := Some (match value n with Some v => p v | None => false end) in
  let date c created modified :=
    if String.eqb (to_ascii_lowercase c) "creationdate" then Some created
    else if String.eqb (to_ascii_lowercase c) "modifieddate" then Some modified else Some false in
  match f with
  | GDisplayName n => Some (String.eqb (gr_lowercase_display_name r) (str_to_lowercase (group_name_str n)))
  | GDisplayNameSubString f =>
      Some (sql_like (sql_lower (gr_lowercase_display_name r)) (to_sql_filter f))
  | GUuid u => Some (String.eqb (gr_uuid r) u)
  | GGroupId g => Some (Z.eqb gid g)
  | GMember u => Some (bool_decide ((u, gid) ∈ t_memberships t))
  | GAttributeEquality n v => Some (bool_decide (value n = Some (attribute_value_to_db_bytes v)))
  | GCustomAttributePresent n => Some (bool_decide (is_Some (value n)))
  | GAttributeSubString n f => tests n (fun v => sql_like (sql_lower v) (to_sql_filter f))
  | GAttributeGreaterOrEqual n x => tests n (fun v => value_gte v x)
  | GAttributeLessOrEqual n x => tests n (fun v => value_lte v x)
  | GGreaterOrEqual c v => date c (date_gte (gr_creation_date r) v) (date_gte (gr_modified_date r) v)
  | GLessOrEqual c v => date c (date_lte (gr_creation_date r) v) (date_lte (gr_modified_date r) v)
  | GTrue | GFalse | GAnd _ | GOr _ | GNot _ => None
  end.

Lemma user_and_expr fs c :
  get_user_filter_expr (UAnd fs) = Ok c ->
  exists cs, collect (map get_user_filter_expr fs) = Ok cs /\
    forall t id r, eval_user_cond t id r c = all3 (map (eval_user_cond t id r) cs).
Proof.
  destruct fs as [|f fs]; [intros [= <-]; by exists []|].
  intros Hc. change (get_user_filter_expr (UAnd (f :: fs))) with
    (let? cs := collect (map get_user_filter_expr (f :: fs)) in Ok (CAll cs)) in Hc.
  apply result_bind_Ok in Hc as (cs & Hcs & [= <-]). by exists cs.
Qed.

Lemma user_or_expr fs c :
  get_user_filter_expr (UOr fs) = Ok c ->
  exists cs, collect (map get_user_filter_expr fs) = Ok cs /\
    forall t id r, eval_user_cond t id r c = any3 (map (eval_user_cond t id r) cs).
Proof.
  destruct fs as [|f fs]; [intros [= <-]; by exists []|].
  intros Hc. change (get_user_filter_expr (UOr (f :: fs))) with
    (let? cs := collect (map get_user_filter_expr (f :: fs)) in Ok (CAny cs)) in Hc.
  apply result_bind_Ok in Hc as (cs & Hcs & [= <-]). by exists cs.
Qed.

Lemma map_eval_eq {F C} (conv : F -> result string C) (ef : F -> tri) (ec : C -> tri) fs cs :
  Forall (fun f => forall c, conv f = Ok c -> ec c = ef f) fs ->
  collect (map conv fs) = Ok cs -> map ec cs = map ef fs.
Proof.
  intros Hfs Hcs. apply collect_map_Ok in Hcs. induction Hcs as [|f c fs cs Hc Hcs IH]; [done|].
  inversion Hfs; subst. simpl. f_equal; auto.
Qed.

(** The SQL condition means what the filter means. *)
Lemma user_expr_meaning t id r f : forall c,
  get_user_filter_expr f = Ok c -> eval_user_cond t id r c = eval_user (user_atom t id r) f.
Proof.
  induction f as [fs IH|fs IH|f IH|f Hf] using UserRequestFilter_ind'; intros c Hc.
  - apply user_and_expr in Hc as (cs & Hcs & ->). simpl. f_equal. by eapply map_eval_eq.
  - apply user_or_expr in Hc as (cs & Hcs & ->). simpl. f_equal. by eapply map_eval_eq.
  - simpl in Hc. apply result_bind_Ok in Hc as (c' & Hc' & [= <-]). simpl. by rewrite (IH _ Hc').
  - assert (eval_user (user_atom t id r) f = user_atom t id r f) as -> by by destruct f.
    unfold user_atom. by rewrite Hc.
Qed.

Lemma group_expr_meaning t g r f :
  eval_group_cond t g r (get_group_filter_expr f) = eval_group (group_atom t g r) f.
Proof.
  induction f as [fs IH|fs IH|f IH|f Hf] using GroupRequestFilter_ind'.
  - assert (map (eval_group_cond t g r) (map get_group_filter_expr fs) =
      map (eval_group (group_atom t g r)) fs) as Hm.
    { rewrite map_map. apply map_ext_Forall. done. }
    destruct fs as [|f0 fs]; [done|].
    change (eval_group_cond t g r (get_group_filter_expr (GAnd (f0 :: fs)))) with
      (all3 (map (eval_group_cond t g r) (map get_group_filter_expr (f0 :: fs)))). by rewrite Hm.
  - assert (map (eval_group_cond t g r) (map get_group_filter_expr fs) =
      map (eval_group (group_atom t g r)) fs) as Hm.
    { rewrite map_map. apply map_ext_Forall. done. }
    destruct fs as [|f0 fs]; [done|].
    change (eval_group_cond t g r (get_group_filter_expr (GOr (f0 :: fs)))) with
      (any3 (map (eval_group_cond t g r) (map get_group_filter_expr (f0 :: fs)))). by rewrite Hm.
  - simpl. by rewrite IH.
  - by destruct f.
Qed.

Lemma group_atom_says t gid r f :
  group_atom_filter f = true -> eval_group (group_atom t gid r) f = eval_group (group_says t gid r) f.
Proof.
  destruct f as [| | | | | | | | | |n v|n| | | | |]; intros Hf; try done; unfold group_atom; simpl;
    try (repeat case_match; done); unfold has_attribute_row, test_value.
  - destruct (t_group_attributes t !! (gid, n)) as [w|]; [|by rewrite bool_decide_eq_false_2].
    destruct (String.eqb_spec w (attribute_value_to_db_bytes v)) as [->|Hn].
    + by rewrite bool_decide_eq_true_2.
    + rewrite bool_decide_eq_false_2; [done|]. by intros [= ->].
  - destruct (t_group_attributes t !! (gid, n)); [by rewrite bool_decide_eq_true_2; [|eexists]|].
    rewrite bool_decide_eq_false_2; [done|]. by intros [? ?].
Qed.

Lemma eval_group_says t gid r f :
  eval_group (group_atom t gid r) f = eval_group (group_says t gid r) f.
Proof.
  induction f as [fs IH|fs IH|f IH|f Hf] using GroupRequestFilter_ind'; simpl.
  - f_equal. by apply map_ext_Forall.
  - f_equal. by apply map_ext_Forall.
  - by rewrite IH.
  - by apply group_atom_says.
Qed.

(** A filter without the comparisons the code panics on, and without comparisons of the
    password and second-factor columns, is translated. *)
Fixpoint answerable (f : UserRequestFilter) : bool :=
  match f with
  | UAnd fs | UOr fs => forallb answerable fs
  | UNot g => answerable g
  | UEquality c _ => queryable_column c || bool_decide (c = ColEmail)
  | USubString c _ => queryable_column c
  | UGreaterOrEqual c _ | ULessOrEqual c _ => is_date_column c
  | _ => true
  end.

Lemma answerable_expr f : answerable f = true -> exists c, get_user_filter_expr f = Ok c.
Proof.
  assert (forall fs, Forall (fun f => answerable f = true -> exists c, get_user_filter_expr f = Ok c) fs ->
    forallb answerable fs = true -> exists cs, collect (map get_user_filter_expr fs) = Ok cs) as Hl.
  { intros fs Hfs Hs. induction Hfs as [|f1 fs Hf Hfs IH]; [by exists []|]. simpl in Hs.
    apply andb_prop in Hs as [Hs1 Hs2]. destruct (Hf Hs1) as [c Hc], (IH Hs2) as [cs Hcs].
    exists (c :: cs). simpl. by rewrite Hc, Hcs. }
  induction f as [fs IH|fs IH|f IH|f Hf] using UserRequestFilter_ind'; intros Hs.
  - destruct (Hl fs IH Hs) as [cs Hcs]. destruct fs as [|f0 fs]; [by eexists|]. exists (CAll cs).
    change (get_user_filter_expr (UAnd (f0 :: fs))) with
      (let? cs := collect (map get_user_filter_expr (f0 :: fs)) in Ok (CAll cs)). by rewrite Hcs.
  - destruct (Hl fs IH Hs) as [cs Hcs]. destruct fs as [|f0 fs]; [by eexists|]. exists (CAny cs).
    change (get_user_filter_expr (UOr (f0 :: fs))) with
      (let? cs := collect (map get_user_filter_expr (f0 :: fs)) in Ok (CAny cs)). by rewrite Hcs.
  - simpl in *. destruct (IH Hs) as [c Hc]. exists (CNot c). by rewrite Hc.
  - destruct f as [| | | | | | |c v| | | | | |c v|c v| | |]; try done; try (by eexists);
      destruct c; try done; by eexists.
Qed.
Lemma safe_filter_expr f : safe_user_filter f = true -> exists c, get_user_filter_expr f = Ok c.
Proof.
  intros Hf. apply answerable_expr. revert Hf.
  induction f as [fs IH|fs IH|f IH|f Hf] using UserRequestFilter_ind'; simpl; intros Hs; auto.
  1-2: rewrite forallb_Forall in *; induction IH; inversion Hs; subst; constructor; auto.
  destruct f; try done. simpl in *. by rewrite Hs.
Qed.
End Translation.

(** ** Attaching rows in order gives every entry its own *)

Section Grouping.
Context {K U R : Type} `{EqDecision K} (kleb : K -> K -> bool) (key : R -> K).
Context (kleb_trans : forall a b c, kleb a b = true -> kleb b c = true -> kleb a c = true).
Context (kleb_antisym : forall a b, kleb a b = true -> kleb b a = true -> a = b).
Context (kleb_total : forall a b, kleb a b = true \/ kleb b a = true).

Definition group_of (l : list R) (k : K) : list R := List.filter (fun x => bool_decide (key x = k)) l.

Lemma elem_of_group l k x : x ∈ group_of l k <-> x ∈ l /\ key x = k.
Proof.
  unfold group_of. rewrite list_elem_of_In, filter_In, <- list_elem_of_In.
  by rewrite bool_decide_eq_true.
Qed.

Abbreviation strictly := (StronglySorted (fun a b : K => kleb a b = true /\ a <> b)) (only parsing).

Lemma insert_ordered_skip (x : R) (g rest : list R) :
  Forall (fun y => kleb (key x) (key y) = false) g ->
  insert_ordered (fun x y => kleb (key x) (key y)) x (g ++ rest) =
  g ++ insert_ordered (fun x y => kleb (key x) (key y)) x rest.
Proof. induction 1 as [|y g Hy Hg IH]; simpl; [done|]. by rewrite Hy, IH. Qed.

Lemma group_of_other x l k : key x <> k -> group_of (x :: l) k = group_of l k.
Proof. intros Hk. unfold group_of. simpl. by rewrite bool_decide_eq_false_2. Qed.

Lemma groups_of_others x l ks :
  key x ∉ ks -> map (group_of (x :: l)) ks = map (group_of l) ks.
Proof.
  intros Hx. apply map_ext_in. intros k Hk%list_elem_of_In. apply group_of_other. by intros <-.
Qed.

Lemma insert_in_groups x l ks :
  strictly ks -> key x ∈ ks ->
  insert_ordered (fun x y => kleb (key x) (key y)) x (concat (map (group_of l) ks)) =
  concat (map (group_of (x :: l)) ks).
Proof.
  induction 1 as [|k ks Hks IH Hk]; intros Hx; [by apply not_elem_of_nil in Hx|]. simpl.
  rewrite Forall_forall in Hk. destruct (decide (key x = k)) as [<-|Hne].
  - rewrite insert_ordered_head.
    + unfold group_of at 3. simpl. rewrite bool_decide_eq_true_2 by done. simpl.
      rewrite groups_of_others; [done|]. intros Hin. by destruct (Hk _ Hin) as [_ []].
    + apply Forall_forall. intros y. rewrite elem_of_app. intros [Hy|Hy].
      * apply elem_of_group in Hy as [_ ->]. by destruct (kleb_total (key x) (key x)).
      * apply list_elem_of_In, in_concat in Hy as (g & Hg & Hy%list_elem_of_In).
        apply list_elem_of_In, list_elem_of_fmap in Hg as (k & -> & Hin).
        apply elem_of_group in Hy as [_ ->]. by apply Hk.
  - apply elem_of_cons in Hx as [Hx|Hx]; [done|]. rewrite insert_ordered_skip, IH by
      (done || (apply Forall_forall; intros y [_ ->]%elem_of_group;
                destruct (kleb (key x) k) eqn:E; [|done]; destruct (Hk _ Hx) as [Hlt _];
                exfalso; by apply Hne, kleb_antisym)).
    f_equal. symmetry. by apply group_of_other.
Qed.

Lemma order_by_groups l ks :
  strictly ks -> (forall x, x ∈ l -> key x ∈ ks) ->
  order_by (fun x y => kleb (key x) (key y)) l = concat (map (group_of l) ks).
Proof.
  intros Hks. induction l as [|x l IH]; intros Hl; simpl.
  - clear Hl. induction ks as [|k ks IH]; simpl; [done|]. inversion Hks; auto.
  - rewrite IH by (intros y Hy; apply Hl; by right). apply insert_in_groups; [done|]. apply Hl. by left.
Qed.

Context (ekey : U -> K) (mine : U -> R -> bool).
Context (mine_spec : forall u x, mine u x = bool_decide (key x = ekey u)).

Lemma take_drop_group u (g rest : list R) :
  Forall (fun x => key x = ekey u) g -> Forall (fun x => key x <> ekey u) rest ->
  take_while (mine u) (g ++ rest) = g /\ drop_while (mine u) (g ++ rest) = rest.
Proof.
  intros Hg Hr. induction Hg as [|x g Hx Hg IH]; simpl.
  - destruct Hr as [|x rest Hx]; [done|]. simpl. by rewrite mine_spec, bool_decide_eq_false_2.
  - rewrite mine_spec, bool_decide_eq_true_2 by done. destruct IH as [-> ->]. done.
Qed.

(** Sorted rows attached to sorted entries. *)
Lemma attach_groups l entries :
  NoDup (map ekey entries) ->
  attach mine entries (concat (map (group_of l) (map ekey entries))) =
  map (fun u => (u, group_of l (ekey u))) entries.
Proof.
  induction entries as [|u us IH]; intros Hnd; simpl; [done|].
  apply NoDup_cons in Hnd as [Hu Hnd].
  destruct (take_drop_group u (group_of l (ekey u)) (concat (map (group_of l) (map ekey us)))) as [-> ->].
  - apply Forall_forall. by intros x [_ Hx]%elem_of_group.
  - apply Forall_forall. intros x Hx%list_elem_of_In.
    apply in_concat in Hx as (g & Hg%list_elem_of_In & Hx%list_elem_of_In).
    apply list_elem_of_fmap in Hg as (k & -> & Hk). apply elem_of_group in Hx as [_ ->]. by intros ->.
  - by rewrite IH.
Qed.
End Grouping.

Lemma NoDup_map_filter {A B} (f : A -> B) (p : A -> bool) l :
  NoDup (map f l) -> NoDup (map f (List.filter p l)).
Proof.
  induction l as [|x l IH]; simpl; [done|]. rewrite NoDup_cons. intros [Hx Hl].
  destruct (p x); simpl; [|by apply IH]. apply NoDup_cons. split; [|by apply IH].
  intros Hin. apply Hx. apply list_elem_of_fmap in Hin as (y & Hy & Hin).
  apply list_elem_of_fmap. exists y. split; [done|].
  apply list_elem_of_In, filter_In in Hin as [Hin _]. by apply list_elem_of_In.
Qed.

Lemma sorted_strictly {A K} (f : A -> K) (kleb : K -> K -> bool) l :
  StronglySorted (fun x y => kleb (f x) (f y) = true) l -> NoDup (map f l) ->
  StronglySorted (fun a b => kleb a b = true /\ a <> b) (map f l).
Proof.
  induction 1 as [|x l Hl IH Hx]; simpl; [constructor|]. rewrite NoDup_cons. intros [Hn Hnd].
  constructor; [by apply IH|]. apply Forall_forall. intros k Hk.
  apply list_elem_of_fmap in Hk as (y & -> & Hy). rewrite Forall_forall in Hx. split; [by apply Hx|].
  intros Heq. apply Hn. rewrite Heq. by apply list_elem_of_fmap_2.
Qed.

Lemma filter_filter_true {A} (p q : A -> bool) l :
  (forall x, x ∈ l -> p x = true -> q x = true) -> List.filter p (List.filter q l) = List.filter p l.
Proof.
  induction l as [|x l IH]; intros Hl; simpl; [done|].
  assert (List.filter p (List.filter q l) = List.filter p l) as E by (apply IH; intros; apply Hl; [by right|done]).
  destruct (q x) eqn:Eq; simpl; [by rewrite E|]. destruct (p x) eqn:Ep; [|done].
  rewrite (Hl x) in Eq; [done| by left |done].
Qed.

Lemma Forall2_impl_elem {A B} (P Q : A -> B -> Prop) l k :
  (forall x y, x ∈ l -> P x y -> Q x y) -> Forall2 P l k -> Forall2 Q l k.
Proof.
  intros HPQ HP. induction HP as [|x y l k Hx Hl IH]; constructor.
  - apply HPQ; [by left | done].
  - apply IH. intros a b Ha. apply HPQ. by right.
Qed.

Lemma Forall2_elem_r {A B} (P : A -> B -> Prop) l k y :
  Forall2 P l k -> y ∈ k -> exists x, x ∈ l /\ P x y.
Proof.
  induction 1 as [|x z l k Hx Hl IH]; [by intros ?%not_elem_of_nil|].
  rewrite elem_of_cons. intros [->|Hy]; [exists x; split; [by left | done]|].
  destruct (IH Hy) as (w & Hw & Hp). exists w. split; [by right | done].
Qed.

Lemma Forall2_elem_l {A B} (P : A -> B -> Prop) l k x :
  Forall2 P l k -> x ∈ l -> exists y, y ∈ k /\ P x y.
Proof. intros Hl%Forall2_flip Hx. destruct (Forall2_elem_r _ _ _ _ Hl Hx) as (y & Hy & Hp). by exists y. Qed.

Lemma omap_filter_map {A B} (p : A -> bool) (f : A -> B) l :
  omap (fun x => if p x then Some (f x) else None) l = map f (List.filter p l).
Proof. induction l as [|x l IH]; simpl; [done|]. destruct (p x); simpl; [f_equal|]; exact IH. Qed.

Section ListUsers.
Context `{Extern, SqlExtern}.

Definition row_name_leb {K} (x y : (K * AttributeName) * string) : bool :=
  str_leb (attribute_name_str (snd (fst x))) (attribute_name_str (snd (fst y))).

(** The rows attached to a selected entry are that entry's rows. *)
Lemma group_rows {K} `{EqDecision K} (all : list ((K * AttributeName) * string)) (sel : K -> bool) k :
  sel k = true ->
  map (fun row => (snd (fst row), snd row))
    (group_of (fun row => fst (fst row))
       (order_by row_name_leb (List.filter (fun row => sel (fst (fst row))) all)) k) =
  rows_of k all.
Proof.
  intros Hk. unfold group_of, rows_of.
  rewrite filter_order_by by (intros; unfold row_name_leb; eauto using str_leb_total, str_leb_trans).
  rewrite filter_filter_true by (intros x _ Hx%bool_decide_eq_true; by rewrite Hx).
  rewrite (omap_filter_map (fun kv : (K * AttributeName) * string => bool_decide (kv.1.1 = k))
    (fun kv => (kv.1.2, kv.2))).
  by rewrite order_by_map.
Qed.

Lemma user_id_leb_facts :
  (forall a b, user_id_leb a b = true \/ user_id_leb b a = true) /\
  (forall a b c, user_id_leb a b = true -> user_id_leb b c = true -> user_id_leb a c = true) /\
  (forall a b, user_id_leb a b = true -> user_id_leb b a = true -> a = b).
Proof.
  unfold user_id_leb. split_and!; eauto using str_leb_total, str_leb_trans.
  intros [a] [b] Hab Hba. f_equal. by apply str_leb_antisym.
Qed.

Lemma select_users_spec cond t u :
  u ∈ select_users cond t <->
  t_users t !! fst u = Some (snd u) /\ eval_user_cond t (fst u) (snd u) cond = Some true.
Proof.
  unfold select_users. rewrite order_by_perm, list_elem_of_In, filter_In, <- list_elem_of_In.
  destruct u as [id r]. rewrite elem_of_map_to_list. simpl. unfold selects.
  destruct (eval_user_cond t id r cond) as [[]|]; naive_solver.
Qed.

Lemma select_users_keys cond t :
  StronglySorted (fun a b => user_id_leb a b = true /\ a <> b) (map fst (select_users cond t)).
Proof.
  destruct user_id_leb_facts as (Htot & Htr & _). unfold select_users.
  apply sorted_strictly.
  - apply order_by_sorted; [intros; apply Htot | intros ? ? ?; apply Htr].
  - rewrite order_by_perm. apply NoDup_map_filter, NoDup_fst_map_to_list.
Qed.

Lemma strictly_NoDup {K} (kleb : K -> K -> bool) l :
  StronglySorted (fun a b => kleb a b = true /\ a <> b) l -> NoDup l.
Proof.
  induction 1 as [|x l Hl IH Hx]; constructor; [|done]. intros Hin. rewrite Forall_forall in Hx.
  by destruct (Hx _ Hin).
Qed.

(** The rows of the second query, grouped. *)
Lemma select_attributes_grouped cond t :
  select_user_attributes cond t =
  concat (map (group_of (fun row => fst (fst row))
    (order_by row_name_leb (List.filter (fun row => match t_users t !! fst (fst row) with
                               | Some r => selects (eval_user_cond t (fst (fst row)) r cond)
                               | None => false
                               end) (map_to_list (t_user_attributes t)))))
    (map fst (select_users cond t))).
Proof.
  destruct user_id_leb_facts as (Htot & Htr & Has). unfold select_user_attributes.
  apply (order_by_groups user_id_leb); [done..|apply select_users_keys|].
  intros [[u n] v]. rewrite order_by_perm, list_elem_of_In, filter_In. simpl. intros [_ Hs].
  destruct (t_users t !! u) as [r|] eqn:Er; [|done].
  apply list_elem_of_fmap. exists (u, r). split; [done|]. apply select_users_spec. split; [done|].
  simpl. destruct (eval_user_cond t u r cond) as [[]|]; done.
Qed.

Lemma user_query_Ok {A} cond (f : Tables -> A) s a s' :
  user_query cond f s = (Ok a, s') -> a = f (db_tables s) /\ db_tables s' = db_tables s.
Proof. intros Hq%dexec_Ok. destruct (out_of_scope cond); by simplify_eq/=. Qed.

Lemma user_id_eqb_decide a b : user_id_eqb a b = bool_decide (a = b).
Proof. apply Bool.eq_iff_eq_true. by rewrite user_id_eqb_eq, bool_decide_eq_true. Qed.

Lemma read_user_id schema u rows user : read_user schema u rows = Ok user -> u_user_id user = fst u.
Proof.
  unfold read_user. intros Hu. apply result_bind_Ok in Hu as (attrs & _ & [= <-]).
  unfold materialize_protected_fields. simpl. repeat case_match; done.
Qed.

(** A listing that succeeds: the selected users in order, each read from its own rows. *)
Lemma list_users_where_Ok cond s us s' :
  list_users_where cond s = (Ok us, s') ->
  exists schema, schema_of (db_tables s) = Ok schema /\
  Forall2 (fun u ug =>
      read_user schema u (user_attribute_rows (db_tables s) (fst u)) = Ok (uag_user ug) /\
      uag_groups ug = Some (linked_groups (db_tables s) (fst u)))
    (select_users cond (db_tables s)) us.
Proof.
  unfold list_users_where. intros Hs. apply io_bind_Ok in Hs as (users & s1 & Hu & Hs).
  apply io_bind_Ok in Hs as (rows & s2 & Hr & Hs). apply io_bind_Ok in Hs as (schema & s3 & Hsch & Hs).
  apply user_query_Ok in Hu as [-> H1']. apply user_query_Ok in Hr as [-> H2'].
  apply sql_get_schema_Ok in Hsch as [Hsch _]. apply io_lift_Ok in Hs as [Hs _].
  rewrite H2', H1' in Hsch. rewrite H1' in Hs. exists schema. split; [done|].
  rewrite select_attributes_grouped in Hs. set (t := db_tables s) in *.
  pose proof (strictly_NoDup _ _ (select_users_keys cond t)) as Hnd.
  set (entries := map (fun u : UserId * UserRow => (u, linked_groups t u.1)) (select_users cond t)) in *.
  assert (map fst (select_users cond t) = map (fun ug : (UserId * UserRow) * list GroupDetails => fst (fst ug)) entries)
    as Hkeys by (subst entries; by rewrite map_map).
  rewrite Hkeys in Hs, Hnd. rewrite (attach_groups _ _ _ (fun u x => user_id_eqb_decide _ _) _ _ Hnd) in Hs.
  rewrite map_map in Hs. unfold entries in Hs. rewrite map_map in Hs. apply collect_map_Ok in Hs.
  eapply Forall2_impl_elem; [|exact Hs]. intros [id r] ug Hu Hug. simpl in Hug.
  apply map_ok_Ok in Hug as (user & Hread & <-). split; [|done]. simpl.
  apply select_users_spec in Hu as [Hl He]. simpl in Hl, He.
  rewrite (group_rows _ (fun id => match t_users t !! id with
    | Some r => selects (eval_user_cond t id r cond) | None => false end) id) in Hread; [done|].
  by rewrite Hl, He.
Qed.

(** The ids of the users listed. *)
Definition listed_ids (us : list UserAndGroups) : list UserId := map (fun ug => u_user_id (uag_user ug)) us.

Lemma list_users_where_ids cond s us s' :
  list_users_where cond s = (Ok us, s') -> listed_ids us = map fst (select_users cond (db_tables s)).
Proof.
  intros (schema & _ & Hus)%list_users_where_Ok.
  induction Hus as [|u ug sel us [Hu _] Hus IH]; simpl; [done|]. f_equal; [|done]. by eapply read_user_id.
Qed.

Lemma selected_ids f cond t id :
  get_user_filter_expr f = Ok cond ->
  id ∈ map fst (select_users cond t) <->
  exists r, t_users t !! id = Some r /\ eval_user (user_atom t id r) f = Some true.
Proof.
  intros Hc. rewrite list_elem_of_fmap. setoid_rewrite select_users_spec. split.
  - intros ([id' r] & -> & Hr & He). exists r. by rewrite <- (user_expr_meaning _ _ _ _ _ Hc).
  - intros (r & Hr & He). exists (id, r). by rewrite (user_expr_meaning _ _ _ _ _ Hc).
Qed.

(** ** [list_groups], the same way *)

Lemma group_name_leb_str x y :
  group_name_leb x y = str_leb (chars_to_lowercase (group_name_str (g_display_name x)))
    (chars_to_lowercase (group_name_str (g_display_name y))).
Proof. unfold group_name_leb, compare_str_case_insensitive, str_leb. by case_match. Qed.

Lemma group_name_leb_total x y : group_name_leb x y = true \/ group_name_leb y x = true.
Proof. rewrite !group_name_leb_str. apply str_leb_total. Qed.

Lemma group_name_leb_trans x y z :
  group_name_leb x y = true -> group_name_leb y z = true -> group_name_leb x z = true.
Proof. rewrite !group_name_leb_str. apply str_leb_trans. Qed.

Lemma Z_leb_facts :
  (forall a b, Z.leb a b = true \/ Z.leb b a = true) /\
  (forall a b c, Z.leb a b = true -> Z.leb b c = true -> Z.leb a c = true) /\
  (forall a b, Z.leb a b = true -> Z.leb b a = true -> a = b).
Proof. split_and!; intros *; rewrite ?Z.leb_le; lia. Qed.

Lemma select_groups_spec cond t g :
  g ∈ select_groups cond t <->
  t_groups t !! fst g = Some (snd g) /\ eval_group_cond t (fst g) (snd g) cond = Some true.
Proof.
  unfold select_groups. rewrite order_by_perm, list_elem_of_In, filter_In, <- list_elem_of_In.
  destruct g as [gid r]. rewrite elem_of_map_to_list. simpl. unfold selects.
  destruct (eval_group_cond t gid r cond) as [[]|]; naive_solver.
Qed.

Lemma select_groups_keys cond t :
  StronglySorted (fun a b => Z.leb a b = true /\ a <> b) (map fst (select_groups cond t)).
Proof.
  destruct Z_leb_facts as (Htot & Htr & _). unfold select_groups.
  apply sorted_strictly.
  - apply order_by_sorted; [intros; apply Htot | intros ? ? ?; apply Htr].
  - rewrite order_by_perm. apply NoDup_map_filter, NoDup_fst_map_to_list.
Qed.

Lemma select_group_attributes_grouped cond t :
  select_group_attributes cond t =
  concat (map (group_of (fun row => fst (fst row))
    (order_by row_name_leb (List.filter (fun row => match t_groups t !! fst (fst row) with
                               | Some r => selects (eval_group_cond t (fst (fst row)) r cond)
                               | None => false
                               end) (map_to_list (t_group_attributes t)))))
    (map fst (select_groups cond t))).
Proof.
  destruct Z_leb_facts as (Htot & Htr & Has). unfold select_group_attributes.
  apply (order_by_groups Z.leb); [done..|apply select_groups_keys|].
  intros [[g n] v]. rewrite order_by_perm, list_elem_of_In, filter_In. simpl. intros [_ Hs].
  destruct (t_groups t !! g) as [r|] eqn:Er; [|done].
  apply list_elem_of_fmap. exists (g, r). split; [done|]. apply select_groups_spec. split; [done|].
  simpl. destruct (eval_group_cond t g r cond) as [[]|]; done.
Qed.

Lemma Z_eqb_decide (a b : GroupId) : Z.eqb a b = bool_decide (a = b).
Proof. apply Bool.eq_iff_eq_true. by rewrite Z.eqb_eq, bool_decide_eq_true. Qed.

(** The OUs the second query of [list_groups] finds. *)
Definition all_members (cond : GroupCond) (t : Tables) : list UserId :=
  concat (map (fun g => members_of t (fst g)) (select_groups cond t)).

(** A listing that succeeds: the selected groups, each read from its own rows, sorted by
    name at the end. *)
Lemma sql_list_groups_read f s gs s' :
  sql_list_groups (Some f) s = (Ok gs, s') ->
  let t := db_tables s in let cond := get_group_filter_expr f in
  exists schema gs0, schema_of t = Ok schema /\ gs = order_by group_name_leb gs0 /\
  Forall2 (fun g x => read_group schema (user_ous (all_members cond t) t) (g, members_of t (fst g))
      (group_attribute_rows t (fst g)) = Ok x)
    (select_groups cond t) gs0.
Proof.
  intros Hs t cond. unfold sql_list_groups in Hs. cbn [from_option] in Hs. fold cond in Hs.
  apply io_bind_Ok in Hs as (results & s1 & Hr & Hs).
  apply io_bind_Ok in Hs as (ous & s2 & Hous & Hs). apply io_bind_Ok in Hs as (schema & s3 & Hsch & Hs).
  apply io_bind_Ok in Hs as (rows & s4 & Hrows & Hs). apply io_bind_Ok in Hs as (groups & s5 & Hg & Hs).
  apply io_ret_Ok in Hs as [<- _]. apply io_lift_Ok in Hg as [Hg _].
  apply dquery_Ok in Hr as [-> H1']. fold t in Hg, Hous.
  set (entries := map (fun g : GroupId * GroupRow => (g, members_of t (fst g))) (select_groups cond t)) in *.
  assert (concat (map snd entries) = all_members cond t) as Hall
    by (unfold entries, all_members; by rewrite map_map).
  rewrite Hall in Hous.
  assert (ous = user_ous (all_members cond t) t /\ db_tables s2 = t) as [-> H2'].
  { destruct (all_members cond t) eqn:E.
    - io_inv Hous. split; [|done]. unfold user_ous. simpl.
      clear. induction (map_to_list _); simpl; done.
    - apply dquery_Ok in Hous as [-> ->]. by rewrite H1'. }
  apply sql_get_schema_Ok in Hsch as [Hsch H3']. rewrite H2' in Hsch, H3'.
  apply dquery_Ok in Hrows as [-> _]. rewrite H3' in Hg. exists schema, groups. split_and!; [done..|].
  rewrite select_group_attributes_grouped in Hg.
  pose proof (strictly_NoDup _ _ (select_groups_keys cond t)) as Hnd.
  assert (map fst (select_groups cond t) = map (fun e : (GroupId * GroupRow) * list UserId => fst (fst e)) entries)
    as Hkeys by (subst entries; by rewrite map_map).
  rewrite Hkeys in Hg, Hnd. rewrite (attach_groups _ _ _ (fun u x => Z_eqb_decide _ _) _ _ Hnd) in Hg.
  rewrite map_map in Hg. unfold entries in Hg. rewrite map_map in Hg. apply collect_map_Ok in Hg.
  eapply Forall2_impl_elem; [|exact Hg]. intros [gid r] x Hx Hread. cbn [fst snd] in *.
  apply select_groups_spec in Hx as [Hl He]. cbn [fst snd] in *.
  rewrite (group_rows _ (fun gid => match t_groups t !! gid with
    | Some r => selects (eval_group_cond t gid r cond) | None => false end) gid) in Hread; [done|].
  by rewrite Hl, He.
Qed.

Lemma read_group_id schema ous g rows x : read_group schema ous g rows = Ok x -> g_id x = fst (fst g).
Proof. unfold read_group. intros Hx. by apply result_bind_Ok in Hx as (attrs & _ & [= <-]). Qed.

(** With a connection that does not fail, reads give what the tables say. *)
Section NoFaults.
Context (no_faults : forall n, fault n = None).

Definition tick (s : Db) : Db := MkDb (db_tables s) (S (db_tick s)) (db_kdc s).

Lemma query_runs {A} (f : Tables -> A) s : query f s = (Ok (f (db_tables s)), tick s).
Proof. unfold query, exec. by rewrite no_faults. Qed.

Lemma dtransaction_runs {A} (body : io Db DomainError A) s :
  fst (dtransaction body s) = fst (body (tick s)).
Proof.
  unfold dtransaction, transaction. rewrite query_runs.
  destruct (body (tick s)) as [[a|e] s1]; by rewrite query_runs.
Qed.

Lemma get_schema_runs s : fst (get_schema_with_transaction s) = schema_of (db_tables s).
Proof.
  unfold get_schema_with_transaction, get_user_attributes, get_group_attributes,
    get_posix_settings_with_transaction, get_user_object_classes, get_group_object_classes,
    schema_of, posix_settings_of, io_bind, io_ret, io_lift.
  repeat (rewrite (dquery_runs no_faults); cbn [map_err]). simpl.
  destruct (posix_from_json _) as [p|e]; [|done]. simpl.
  repeat (rewrite (dquery_runs no_faults); simpl). done.
Qed.

Lemma get_user_details_runs id r s schema :
  t_users (db_tables s) !! id = Some r -> schema_of (db_tables s) = Ok schema ->
  fst (sql_get_user_details id s) = read_user schema (id, r) (user_attribute_rows (db_tables s) id).
Proof.
  intros Hr Hsch. unfold sql_get_user_details, io_bind. rewrite (dquery_runs no_faults).
  unfold find_user. rewrite Hr, (dquery_runs no_faults). simpl.
  set (s2 := MkDb _ _ _).
  pose proof (dtransaction_runs get_schema_with_transaction s2) as Hd. rewrite get_schema_runs in Hd.
  simpl in Hd. rewrite Hsch in Hd. fold sql_get_schema in Hd.
  destruct (sql_get_schema s2) as [[sch|e] s3]; simplify_eq/=.
  unfold read_user, io_lift. by destruct (collect _).
Qed.

Lemma get_group_details_runs gid r s schema :
  t_groups (db_tables s) !! gid = Some r -> schema_of (db_tables s) = Ok schema ->
  fst (sql_get_group_details gid s) =
    let? attrs := collect (map
      (read_attribute canonical_group_attribute_name (s_group_attributes schema))
      (group_attribute_rows (db_tables s) gid)) in
    Ok (group_details_of gid r attrs).
Proof.
  intros Hr Hsch. unfold sql_get_group_details, io_bind. rewrite (dquery_runs no_faults).
  unfold find_group. rewrite Hr, (dquery_runs no_faults). simpl.
  set (s2 := MkDb _ _ _).
  pose proof (dtransaction_runs get_schema_with_transaction s2) as Hd. rewrite get_schema_runs in Hd.
  simpl in Hd. rewrite Hsch in Hd. fold sql_get_schema in Hd.
  destruct (sql_get_schema s2) as [[sch|e] s3]; simplify_eq/=.
  unfold io_lift. by destruct (collect _).
Qed.
End NoFaults.
End ListUsers.

(** ** The interface's laws *)

Section Laws.
Context `{Extern, LdapExtern, SqlExtern}.

Lemma attach_fst {U R} (mine : U -> R -> bool) entries rows : map fst (attach mine entries rows) = entries.
Proof. revert rows. induction entries; intros rows; simpl; [done|]. by f_equal. Qed.

Lemma user_id_seen v seen : existsb (user_id_eqb v) seen = bool_decide (v ∈ seen).
Proof.
  apply Bool.eq_iff_eq_true. rewrite bool_decide_eq_true, existsb_elem.
  setoid_rewrite user_id_eqb_eq. naive_solver.
Qed.

(** Every member not seen before, once, with its OU. *)
Lemma unique_members_spec ous members u ou : forall seen,
  MkGroupMember u ou ∈ unique_members ous seen members <->
  u ∈ members /\ u ∉ seen /\ ou = default "people" (ous !! u).
Proof.
  induction members as [|v members IH]; intros seen; simpl; [set_solver|].
  rewrite user_id_seen. case_bool_decide as Hv; rewrite ?elem_of_cons, IH, ?elem_of_cons; [naive_solver|].
  destruct (decide (u = v)) as [->|]; naive_solver.
Qed.

Lemma unique_members_ids ous members u seen :
  u ∈ map gm_user_id (unique_members ous seen members) <-> u ∈ members /\ u ∉ seen.
Proof.
  rewrite list_elem_of_fmap. split.
  - intros ([u' ou] & -> & Hm). by apply unique_members_spec in Hm as (? & ? & _).
  - intros [Hu Hs]. exists (MkGroupMember u (default "people" (ous !! u))).
    by rewrite unique_members_spec.
Qed.

Lemma unique_members_NoDup ous members : forall seen,
  NoDup (map gm_user_id (unique_members ous seen members)).
Proof.
  induction members as [|v members IH]; intros seen; simpl; [constructor|].
  rewrite user_id_seen. case_bool_decide; [done|]. simpl. constructor; [|done].
  rewrite unique_members_ids. set_solver.
Qed.

(** The OU of a user, if it asked for it: its attribute [ou], where it is text. *)
Definition ou_name : AttributeName := MkAttributeName "ou".

Lemma user_ous_lookup users t u :
  u ∈ users -> user_ous users t !! u = t_user_attributes t !! (u, ou_name) ≫= from_utf8.
Proof.
  intros Hu. apply option_eq. intros ou. unfold user_ous. rewrite <- elem_of_list_to_map.
  - rewrite list_elem_of_omap. split.
    + intros ([[u' [n]] v] & Hin%elem_of_map_to_list & Hv). simpl in Hv.
      destruct (existsb _ _ && String.eqb n "ou") eqn:E; [|done].
      apply andb_true_iff in E as [_ ->%String.eqb_eq].
      destruct (from_utf8 v) eqn:Ev; simplify_eq/=. unfold ou_name. by rewrite Hin.
    + intros Ho. apply bind_Some in Ho as (v & Hv & Ho).
      exists ((u, ou_name), v). rewrite elem_of_map_to_list. split; [done|]. simpl.
      rewrite user_id_seen, bool_decide_eq_true_2 by done. simpl. by rewrite Ho.
  - pose proof (NoDup_fst_map_to_list (t_user_attributes t)) as Hnd.
    induction (map_to_list (t_user_attributes t)) as [|[[v n] x] l IH]; [constructor|]. simpl in *.
    apply NoDup_cons in Hnd as [Hn Hnd]. specialize (IH Hnd).
    destruct (existsb _ _ && String.eqb (attribute_name_str n) "ou") eqn:E; [|done].
    destruct (from_utf8 x); [|done]. simpl. constructor; [|done]. intros Hin. apply Hn.
    apply andb_true_iff in E as [_ E%String.eqb_eq].
    apply list_elem_of_fmap in Hin as ([v' o'] & Heq & Hin). simpl in Heq. subst v'.
    apply list_elem_of_omap in Hin as ([[w [m]] y] & Hy & Hs). simpl in Hs.
    destruct (existsb (user_id_eqb w) users && String.eqb m "ou") eqn:E'; [|done].
    apply andb_true_iff in E' as [_ ->%String.eqb_eq]. destruct (from_utf8 y); simplify_eq/=.
    apply list_elem_of_fmap. eexists. split; [|exact Hy]. destruct n. simpl in *. by subst.
Qed.

Lemma members_of_spec t g u : u ∈ members_of t g <-> (u, g) ∈ t_memberships t.
Proof.
  unfold members_of. rewrite list_elem_of_omap. split.
  - intros ([v g'] & Hm%elem_of_elements & Hs). simpl in Hs.
    destruct (Z.eqb_spec g' g) as [->|]; by simplify_eq.
  - intros Hm. exists (u, g). rewrite elem_of_elements. simpl. by rewrite Z.eqb_refl.
Qed.

(** A group that was listed: its row, selected by the condition, and its members. *)
Lemma sql_list_groups_Ok f s gs s' :
  sql_list_groups (Some f) s = (Ok gs, s') ->
  Forall (fun g => exists r, t_groups (db_tables s) !! g_id g = Some r /\
    g_display_name g = gr_display_name r /\
    eval_group_cond (db_tables s) (g_id g) r (get_group_filter_expr f) = Some true /\
    forall u, u ∈ map gm_user_id (g_users g) <-> (u, g_id g) ∈ t_memberships (db_tables s)) gs.
Proof.
  intros (schema & gs0 & _ & -> & Hgs)%sql_list_groups_read.
  apply Forall_forall. intros g Hin. rewrite order_by_perm in Hin.
  destruct (Forall2_elem_r _ _ _ _ Hgs Hin) as ([gid r] & Hg & Hread). cbn [fst snd] in Hread.
  apply select_groups_spec in Hg as [Hl He]. cbn [fst snd] in *.
  apply result_bind_Ok in Hread as (attrs & _ & [= <-]). exists r. simpl. split_and!; [done..|].
  intros u. rewrite unique_members_ids, members_of_spec. set_solver.
Qed.

(** Listing only reads. *)
Lemma preserves_user_query {A} cond (f : Tables -> A) : preserves db_tables (user_query cond f).
Proof.
  intros s. unfold user_query, dexec, io_map_err, exec. destruct (fault _); [done|].
  by destruct (out_of_scope cond).
Qed.

Lemma preserves_where cond : preserves db_tables (list_users_where cond).
Proof. pose proof @preserves_user_query. unfold list_users_where. solve_preserves. Qed.

Lemma preserves_list_users f g : preserves db_tables (list_users_or_panic f g).
Proof.
  pose proof preserves_where. unfold list_users_or_panic, sql_list_users. destruct f as [f|]; simpl.
  - destruct (get_user_filter_expr f); simpl; [done|]. solve_preserves.
  - done.
Qed.

Lemma preserves_list_groups f : preserves db_tables (sql_list_groups f).
Proof. unfold sql_list_groups. solve_preserves. Qed.

Lemma preserves_run {A} (m : io Db DomainError A) s r s' :
  preserves db_tables m -> m s = (r, s') -> db_tables s' = db_tables s.
Proof. intros Hp Hm. specialize (Hp s). by rewrite Hm in Hp. Qed.

Context (login : BindRequest -> io Db DomainError unit).
Context (registration : UserId -> string -> io Db DomainError unit).
Context (kdc_answer : KdcCall -> result DomainError unit).

(** The directory a database holds: its user rows, and the memberships of its groups. *)
Definition stored_user (t : Tables) (u : UserId) : Prop := is_Some (t_users t !! u).

Definition stored_member (t : Tables) (gid : GroupId) (name : GroupName) (u : UserId) : Prop :=
  exists r, t_groups t !! gid = Some r /\ gr_display_name r = name /\ (u, gid) ∈ t_memberships t.

#[export] Instance sql_lister_laws :
  ListerLaws (sql_backend login registration kdc_answer) db_tables stored_user stored_member.
Proof.
  constructor; simpl.
  - intros f gg s us s'. apply preserves_run, preserves_list_users.
  - intros f s gs s'. apply preserves_run, preserves_list_groups.
  - unfold list_users_or_panic. intros s f gg us s' Hl.
    destruct (sql_list_users (Some f) gg) as [m|e] eqn:Em; [|done].
    apply result_bind_Ok in Em as (cond & Hc & [= <-]).
    apply list_users_where_Ok in Hl as (schema & _ & Hus). apply Forall_forall. intros ug Hin.
    destruct (Forall2_elem_r _ _ _ _ Hus Hin) as ([id r] & Hu & Hread & _).
    apply select_users_spec in Hu as [Hr He]. simpl in *. rewrite (read_user_id _ _ _ _ Hread).
    split; [by eexists|]. exists (user_atom (db_tables s) id r).
    by rewrite <- (user_expr_meaning _ _ _ _ _ Hc).
  - intros s f gs s' Hl. apply sql_list_groups_Ok in Hl. eapply Forall_impl; [exact Hl|].
    intros g (r & Hr & Hn & He & Hm). split.
    + apply Forall_forall. intros m Hin. exists r. split_and!; [done..|].
      apply Hm. by apply list_elem_of_fmap_2.
    + exists (group_atom (db_tables s) (g_id g) r). rewrite <- group_expr_meaning. split; [|done].
      intros id. unfold group_atom. simpl. f_equal. apply Bool.eq_iff_eq_true.
      rewrite bool_decide_eq_true, <- Hm, existsb_elem, list_elem_of_fmap.
      setoid_rewrite user_id_eqb_eq. naive_solver.
Qed.

(** Translating what a restricted lister passes on. *)
Lemma restricted_filter_expr v f gg :
  safe_user_filter f = true ->
  exists m, sql_list_users (restrict_user_filter
    (get_user_restricted_lister_handler (sql_backend login registration kdc_answer) v) (Some f)) gg = Ok m.
Proof.
  intros Hs. unfold restrict_user_filter, get_user_restricted_lister_handler. simpl.
  assert (forall g, safe_user_filter g = true -> exists m, sql_list_users (Some g) gg = Ok m) as Hg.
  { intros g Hg. destruct (safe_filter_expr g Hg) as [c Hc]. exists (list_users_where c).
    unfold sql_list_users. by rewrite Hc. }
  destruct (can_read_all v); simpl; apply Hg; [done|]. simpl. by rewrite Hs.
Qed.
End Laws.

(** C17: a search by a caller who may read only itself, through the SQL backend, returns,
    besides the root and the OU containers, the entry of that very user, if it is
    stored, and entries under the names of stored groups the user is a member of in the
    database the search began with. *)
Theorem regular_search_confined `{Extern, LdapExtern, SqlExtern} login registration kdc_answer
    v info req ous (s s' : Db) ops e :
  can_read_all v = false ->
  let lister := get_user_restricted_lister_handler (sql_backend login registration kdc_answer) v in
  do_search (restricted_list_users lister) (restricted_list_groups lister) info req ous s = (Ok ops, s') ->
  e ∈ entries_of ops ->
  e = root_entry info \/ is_ou_entry info e \/
  (is_Some (t_users (db_tables s) !! vr_user v) /\
     exists ou, e_dn e = build_user_dn (vr_user v) ou (base_dn_str info)) \/
  (exists gid r ou, t_groups (db_tables s) !! gid = Some r /\
     (vr_user v, gid) ∈ t_memberships (db_tables s) /\
     e_dn e = build_group_dn (gr_display_name r) ou (base_dn_str info)).
Proof.
  intros Hv lister Hs He.
  assert (rl_user_filter lister = Some (vr_user v)) as Hf by (subst lister; simpl; by rewrite Hv).
  apply (restricted_search_entries lister _ Hf) with (e := e) in Hs; [|done].
  destruct Hs as [?|[?|[[Hu Hdn]|(gid & name & ou & (r & Hr & <- & Hm) & Hdn)]]]; auto 8.
  do 3 right. by exists gid, r, ou.
Qed.

Lemma regular_search_confined_witness :
  let e := MkSearchResultEntry "cn=lldap_admin,ou=groups,dc=com" [MkPartialAttribute "cn" ["lldap_admin"]] in
  e = root_entry demo_info \/ @is_ou_entry lawful_extern demo_info e \/
  (is_Some (t_users (db_tables demo_db) !! MkUserId "bob") /\
     exists ou, e_dn e = build_user_dn (MkUserId "bob") ou "dc=com") \/
  (exists gid r ou, t_groups (db_tables demo_db) !! gid = Some r /\
     (MkUserId "bob", gid) ∈ t_memberships (db_tables demo_db) /\
     e_dn e = build_group_dn (gr_display_name r) ou "dc=com").
Proof.
  set (m := @do_search lawful_extern demo_ldap_extern Db
    (restricted_list_users (get_user_restricted_lister_handler
      (@sql_backend lawful_extern demo_ldap_extern demo_sql_extern
         (fun _ => io_ret tt) (fun _ _ => io_ret tt) (fun _ => Ok tt))
      (MkValidationResults (MkUserId "bob") Regular)))
    (restricted_list_groups (get_user_restricted_lister_handler
      (@sql_backend lawful_extern demo_ldap_extern demo_sql_extern
         (fun _ => io_ret tt) (fun _ _ => io_ret tt) (fun _ => Ok tt))
      (MkValidationResults (MkUserId "bob") Regular)))
    demo_info (MkSearchRequest "ou=groups,dc=com" ScopeOneLevel (LPresent "cn") ["cn"]) ["groups"] demo_db).
  exact (@regular_search_confined lawful_extern demo_ldap_extern demo_sql_extern
    (fun _ => io_ret tt) (fun _ _ => io_ret tt) (fun _ => Ok tt)
    (MkValidationResults (MkUserId "bob") Regular)
    demo_info (MkSearchRequest "ou=groups,dc=com" ScopeOneLevel (LPresent "cn") ["cn"]) ["groups"]
    demo_db (snd m)
    [OpSearchResultEntry (MkSearchResultEntry "cn=lldap_admin,ou=groups,dc=com"
      [MkPartialAttribute "cn" ["lldap_admin"]]); make_search_success]
    (MkSearchResultEntry "cn=lldap_admin,ou=groups,dc=com" [MkPartialAttribute "cn" ["lldap_admin"]])
    eq_refl ltac:(vm_compute; reflexivity) ltac:(vm_compute; by left)).
Defined.

(** C25: [list_groups] returns the stored groups that satisfy the filter, each once and by
    name; although it reads the attributes of all of them in one query and deals them out
    with [take_while_ref], every group it returns is exactly the one [get_group_details]
    reads; and with it come its members, each once, with the OU stored for them or
    [people]. *)
Theorem list_groups_agrees_with_details `{Extern, SqlExtern} f s gs s' :
  (forall n, fault n = None) ->
  sql_list_groups (Some f) s = (Ok gs, s') ->
  let t := db_tables s in
  StronglySorted (fun a b => group_name_leb a b = true) gs /\ NoDup (map g_id gs) /\
  (forall gid, gid ∈ map g_id gs <->
     exists r, t_groups t !! gid = Some r /\ eval_group (group_says t gid r) f = Some true) /\
  forall g, g ∈ gs ->
    fst (sql_get_group_details (g_id g) s) = Ok (MkGroupDetails (g_id g) (g_display_name g)
      (g_creation_date g) (g_uuid g) (g_attributes g) (g_modified_date g)) /\
    NoDup (map gm_user_id (g_users g)) /\
    forall u ou, MkGroupMember u ou ∈ g_users g <->
      (u, g_id g) ∈ t_memberships t /\
      ou = default "people" (t_user_attributes t !! (u, MkAttributeName "ou") ≫= from_utf8).
Proof.
  intros Hnf Hl t. apply sql_list_groups_read in Hl as (schema & gs0 & Hsch & -> & Hgs). fold t in Hsch, Hgs.
  set (cond := get_group_filter_expr f) in *.
  assert (map g_id gs0 = map fst (select_groups cond t)) as Hids.
  { clear -Hgs. induction Hgs as [|g x l xs Hx _ IH]; simpl; [done|]. f_equal; [|done].
    by apply read_group_id in Hx. }
  split_and!.
  - apply order_by_sorted; [apply group_name_leb_total|apply group_name_leb_trans].
  - rewrite order_by_perm, Hids. apply (strictly_NoDup Z.leb), select_groups_keys.
  - intros gid. rewrite order_by_perm, Hids, list_elem_of_fmap. setoid_rewrite select_groups_spec.
    setoid_rewrite <- eval_group_says. split.
    + intros ([gid' r] & -> & Hr & He). exists r. by rewrite <- group_expr_meaning.
    + intros (r & Hr & He). exists (gid, r). unfold cond. by rewrite group_expr_meaning.
  - intros g Hin. rewrite order_by_perm in Hin.
    destruct (Forall2_elem_r _ _ _ _ Hgs Hin) as ([gid r] & Hg & Hread).
    pose proof Hg as [Hr _]%select_groups_spec. cbn [fst snd] in *.
    apply result_bind_Ok in Hread as (attrs & Ha & [= <-]). simpl.
    rewrite (get_group_details_runs Hnf gid r s schema Hr Hsch). fold t. rewrite Ha. split_and!; [done| |].
    + apply unique_members_NoDup.
    + intros u ou. rewrite unique_members_spec, members_of_spec.
      split; [intros (Hm & _ & ->)|intros [Hm ->]; split_and!; [done|set_solver|]];
        (rewrite user_ous_lookup; [done|]); apply list_elem_of_In, in_concat;
        (exists (members_of t gid); split; apply list_elem_of_In; [|by apply members_of_spec]);
        by apply (list_elem_of_fmap_2 (fun g => members_of t (fst g)) _ (gid, r)).
Qed.

Lemma list_groups_agrees_with_details_witness :
  fst (@sql_get_group_details lawful_extern demo_sql_extern 1%Z demo_db) =
  Ok (MkGroupDetails 1 (MkGroupName "lldap_admin") 0 "lldap_admin" [] 0).
Proof.
  pose (g := MkGroup 1 (MkGroupName "lldap_admin") 0 "lldap_admin" [MkGroupMember (MkUserId "bob") "people"] [] 0).
  pose (m := @sql_list_groups lawful_extern demo_sql_extern (Some (GMember (MkUserId "bob"))) demo_db).
  refine (proj1 (proj2 (proj2 (proj2 (@list_groups_agrees_with_details lawful_extern demo_sql_extern
    (GMember (MkUserId "bob")) demo_db [g] (snd m) (fun _ => eq_refl) _))) g (list_elem_of_here _ _))).
  vm_compute. reflexivity.
Defined.

(** No LDAP search can make the SQL translation panic: a filter that converts is
    translated, also with the restriction an unprivileged session adds to it. *)
Theorem ldap_filters_never_panic_sql `{Extern, LdapExtern, SqlExtern} login registration kdc_answer
    info schema f g v get_groups :
  convert_user_filter info schema f = Ok g ->
  exists m, sql_list_users (restrict_user_filter
    (get_user_restricted_lister_handler (sql_backend login registration kdc_answer) v) (Some g))
    get_groups = Ok m.
Proof. intros Hg. by apply restricted_filter_expr, (converted_filter_safe info schema f). Qed.

Lemma ldap_filters_never_panic_sql_witness :
  exists m, @sql_list_users lawful_extern demo_sql_extern
    (Some (UAnd [UUserId (MkUserId "bob"); UUserId (MkUserId "eve")])) true = Ok m.
Proof.
  apply (@ldap_filters_never_panic_sql lawful_extern demo_ldap_extern demo_sql_extern
    (fun _ => io_ret tt) (fun _ _ => io_ret tt) (fun _ => Ok tt) demo_info PublicSchema_get
    (LEquality "uid" "bob") (UUserId (MkUserId "bob")) (MkValidationResults (MkUserId "eve") Regular) true).
  vm_compute. reflexivity.
Defined.

(** C12: for a filter [get_user_filter_expr] translates, [list_users] returns the users
    whose row satisfies the filter in SQL's three-valued logic, in the order of their
    ids and each once; and although it reads the attributes of all of them in one
    query and deals them out with [take_while], every user it returns is exactly the
    one [get_user_details] reads. *)
Theorem list_users_agrees_with_details `{Extern, SqlExtern} f get_groups m s us s' :
  (forall n, fault n = None) ->
  sql_list_users (Some f) get_groups = Ok m -> m s = (Ok us, s') ->
  StronglySorted (fun a b => user_id_leb a b = true /\ a <> b) (map (fun ug => u_user_id (uag_user ug)) us) /\
  (forall id, id ∈ map (fun ug => u_user_id (uag_user ug)) us <->
     exists r, t_users (db_tables s) !! id = Some r /\
       eval_user (user_atom (db_tables s) id r) f = Some true) /\
  forall ug, ug ∈ us ->
    fst (sql_get_user_details (u_user_id (uag_user ug)) s) = Ok (uag_user ug).
Proof.
  intros Hnf Hl Hm. apply result_bind_Ok in Hl as (cond & Hc & [= <-]).
  pose proof (list_users_where_ids _ _ _ _ Hm) as Hids. unfold listed_ids in Hids.
  apply list_users_where_Ok in Hm as (schema & Hsch & Hus). rewrite Hids. split_and!.
  - apply select_users_keys.
  - intros id. by apply selected_ids.
  - intros ug Hin. destruct (Forall2_elem_r _ _ _ _ Hus Hin) as ([id r] & Hu & Hread & _).
    apply select_users_spec in Hu as [Hr _]. simpl in *. pose proof (read_user_id _ _ _ _ Hread) as ->.
    cbn [fst]. by rewrite (get_user_details_runs Hnf id r s schema Hr Hsch).
Qed.

Lemma list_users_agrees_with_details_witness :
  fst (@sql_get_user_details lawful_extern demo_sql_extern (MkUserId "bob") demo_db) =
  Ok (MkUser (MkUserId "bob") (MkEmail "bob@x.org") None 0 "bob"
        [MkAttribute uidnumber (VInteger (Singleton 3001%Z))] 0 0 None).
Proof.
  pose (ug := MkUserAndGroups (MkUser (MkUserId "bob") (MkEmail "bob@x.org") None 0 "bob"
               [MkAttribute uidnumber (VInteger (Singleton 3001%Z))] 0 0 None)
             (Some [MkGroupDetails 1 (MkGroupName "lldap_admin") 0 "lldap_admin" [] 0])).
  pose (m := @list_users_where lawful_extern demo_sql_extern (CInGroupNamed "lldap_admin")).
  refine (proj2 (proj2 (@list_users_agrees_with_details lawful_extern demo_sql_extern
    (UMemberOf (MkGroupName "LLDAP_Admin")) true m demo_db [ug] (snd (m demo_db))
    (fun _ => eq_refl) eq_refl _)) ug (list_elem_of_here _ _)).
  vm_compute. reflexivity.
Defined.
