(* ===== verification/Opaque.v ===== *)
(** * OPAQUE login and registration

    [crates/sql-backend-handler/src/sql_opaque_handler.rs] with the messages of
    [crates/auth/src/lib.rs] (modules [login] and [registration]), the wrappers of
    [crates/auth/src/opaque.rs] and the trait of [crates/opaque-handler/src/lib.rs].

    The crates opaque-ke (the password-authenticated key exchange), orion (sealing with
    a secret key), bincode and base64 are not part of the repository: they are the
    operations of the class [OpaqueExtern], with what the handler relies on in
    [OpaqueLaws].  [draw] is the operating system's randomness. *)

From S2P Require Import Prelude Strings Types Schema SchemaManager Proto Access Database SqlConfig SqlGroups SqlUsers SqlOps SqlLists.

(** ** The crates *)

Class OpaqueExtern := {
  Coins : Type;
  os_rng : nat -> nat -> Coins;
  (** opaque-ke, with the suite of [opaque.rs]: the values of the protocol *)
  ServerSetup : Type;
  ServerRegistration : Type;
  ClientRegistration : Type;
  RegistrationRequest : Type;
  RegistrationResponse : Type;
  RegistrationUpload : Type;
  ClientLogin : Type;
  ServerLogin : Type;
  CredentialRequest : Type;
  CredentialResponse : Type;
  CredentialFinalization : Type;
  (** its operations; the error is the protocol's *)
  ClientRegistration_start : Coins -> string -> result string (ClientRegistration * RegistrationRequest);
  ClientRegistration_finish :
    ClientRegistration -> Coins -> string -> RegistrationResponse -> result string RegistrationUpload;
  ServerRegistration_start : ServerSetup -> RegistrationRequest -> string -> result string RegistrationResponse;
  ServerRegistration_finish : RegistrationUpload -> ServerRegistration;
  ServerRegistration_serialize : ServerRegistration -> string;
  ServerRegistration_deserialize : string -> result string ServerRegistration;
  ClientLogin_start : Coins -> string -> result string (ClientLogin * CredentialRequest);
  ClientLogin_finish :
    ClientLogin -> Coins -> string -> CredentialResponse -> result string CredentialFinalization;
  ServerLogin_start :
    Coins -> ServerSetup -> option ServerRegistration -> CredentialRequest -> string ->
    result string (ServerLogin * CredentialResponse);
  ServerLogin_finish : ServerLogin -> CredentialFinalization -> result string string;
  private_key_bytes : ServerSetup -> string;
  (** orion *)
  SecretKey : Type;
  SecretKey_from_slice : string -> option SecretKey;
  seal : Coins -> SecretKey -> string -> option string;
  open : SecretKey -> string -> option string;
  (** base64, bincode: the fields of a structure are written one after the other *)
  base64_encode : string -> string;
  bincode_string : string -> string;
  bincode_read_string : string -> option (string * string);
  bincode_server_login : ServerLogin -> option string;
  bincode_read_server_login : string -> option (ServerLogin * string)
}.

(** ** Messages (crates/auth/src/lib.rs) *)

Record login_ServerData `{OpaqueExtern} := MkLoginServerData {
  ld_username : UserId;
  ld_server_login : ServerLogin
}.

Record ClientLoginStartRequest `{OpaqueExtern} := MkClientLoginStartRequest {
  ls_username : UserId;
  ls_login_start_request : CredentialRequest
}.

Record ServerLoginStartResponse `{OpaqueExtern} := MkServerLoginStartResponse {
  lr_server_data : string;
  lr_credential_response : CredentialResponse
}.

Record ClientLoginFinishRequest `{OpaqueExtern} := MkClientLoginFinishRequest {
  lf_server_data : string;
  lf_credential_finalization : CredentialFinalization
}.

Record ClientSimpleLoginRequest := MkClientSimpleLoginRequest {
  sl_username : UserId;
  sl_password : string
}.

Record registration_ServerData := MkRegistrationServerData { rd_username : UserId }.

Record ClientRegistrationStartRequest `{OpaqueExtern} := MkClientRegistrationStartRequest {
  rs_username : UserId;
  rs_registration_start_request : RegistrationRequest
}.

Record ServerRegistrationStartResponse `{OpaqueExtern} := MkServerRegistrationStartResponse {
  rr_server_data : string;
  rr_registration_response : RegistrationResponse
}.

Record ClientRegistrationFinishRequest `{OpaqueExtern} := MkClientRegistrationFinishRequest {
  rf_server_data : string;
  rf_registration_upload : RegistrationUpload
}.

Arguments MkLoginServerData {_} _ _.
Arguments ld_username {_} _.
Arguments ld_server_login {_} _.
Arguments MkClientLoginStartRequest {_} _ _.
Arguments ls_username {_} _.
Arguments ls_login_start_request {_} _.
Arguments MkServerLoginStartResponse {_} _ _.
Arguments lr_server_data {_} _.
Arguments lr_credential_response {_} _.
Arguments MkClientLoginFinishRequest {_} _ _.
Arguments lf_server_data {_} _.
Arguments lf_credential_finalization {_} _.
Arguments MkClientRegistrationStartRequest {_} _ _.
Arguments rs_username {_} _.
Arguments rs_registration_start_request {_} _.
Arguments MkServerRegistrationStartResponse {_} _ _.
Arguments rr_server_data {_} _.
Arguments rr_registration_response {_} _.
Arguments MkClientRegistrationFinishRequest {_} _ _.
Arguments rf_server_data {_} _.
Arguments rf_registration_upload {_} _.

(** [trait OpaqueHandler] *)
Class OpaqueHandler `{OpaqueExtern} (S : Type) := {
  login_start : ClientLoginStartRequest -> io S DomainError ServerLoginStartResponse;
  login_finish : ClientLoginFinishRequest -> io S DomainError UserId;
  registration_start : ClientRegistrationStartRequest -> io S DomainError ServerRegistrationStartResponse;
  registration_finish : ClientRegistrationFinishRequest -> io S DomainError unit
}.

(** ** Wrappers (crates/auth/src/opaque.rs) *)

Inductive AuthenticationFailure : Type := ProtocolError (e : string).

Section Wrappers.
Context `{OpaqueExtern}.

Abbreviation AuthenticationResult A := (result AuthenticationFailure A) (only parsing).

Definition client_start_registration (password : string) (rng : Coins)
  : AuthenticationResult (ClientRegistration * RegistrationRequest) :=
  map_err ProtocolError (ClientRegistration_start rng password).

Definition client_finish_registration (registration_start : ClientRegistration) (password : string)
    (registration_response : RegistrationResponse) (rng : Coins) : AuthenticationResult RegistrationUpload :=
  map_err ProtocolError
    (ClientRegistration_finish registration_start rng password registration_response).

Definition client_start_login (password : string) (rng : Coins)
  : AuthenticationResult (ClientLogin * CredentialRequest) :=
  map_err ProtocolError (ClientLogin_start rng password).

Definition client_finish_login (login_start : ClientLogin) (password : string)
    (login_response : CredentialResponse) (rng : Coins) : AuthenticationResult CredentialFinalization :=
  map_err ProtocolError (ClientLogin_finish login_start rng password login_response).

Definition server_start_registration (server_setup : ServerSetup) (request : RegistrationRequest)
    (username : UserId) : AuthenticationResult RegistrationResponse :=
  map_err ProtocolError (ServerRegistration_start server_setup request (user_id_str username)).

Definition get_password_file (registration_upload : RegistrationUpload) : ServerRegistration :=
  ServerRegistration_finish registration_upload.

Definition server_start_login (rng : Coins) (server_setup : ServerSetup)
    (password_file : option ServerRegistration) (credential_request : CredentialRequest)
    (username : UserId) : AuthenticationResult (ServerLogin * CredentialResponse) :=
  map_err ProtocolError
    (ServerLogin_start rng server_setup password_file credential_request (user_id_str username)).

Definition server_finish_login (login_start : ServerLogin)
    (credential_finalization : CredentialFinalization) : AuthenticationResult string :=
  map_err ProtocolError (ServerLogin_finish login_start credential_finalization).

(** [?] in code whose errors are [DomainError]s *)
Definition from_auth {A} (r : AuthenticationResult A) : Result A :=
  map_err (fun '(ProtocolError e) => AuthenticationProtocolError e) r.

(** [#[derive(Serialize, Deserialize)]] of the two [ServerData], through
    [bincode::serialize] and [bincode::deserialize], which accepts bytes after the
    value; deserialising a [UserId] lowercases it. *)
Definition serialize_login (d : login_ServerData) : option string :=
  bytes ← bincode_server_login (ld_server_login d);
  Some (bincode_string (user_id_str (ld_username d)) +:+ bytes).

Definition deserialize_login (bytes : string) : option login_ServerData :=
  '(name, rest) ← bincode_read_string bytes;
  '(sl, _) ← bincode_read_server_login rest;
  Some (MkLoginServerData (UserId_new name) sl).

Definition serialize_registration (d : registration_ServerData) : option string :=
  Some (bincode_string (user_id_str (rd_username d))).

Definition deserialize_registration (bytes : string) : option registration_ServerData :=
  '(name, _) ← bincode_read_string bytes;
  Some (MkRegistrationServerData (UserId_new name)).
End Wrappers.

(** ** The handler *)

Definition set_password (hash : string) (d : NaiveDateTime) (r : UserRow) : UserRow :=
  MkUserRow (ur_email r) (ur_lowercase_email r) (ur_display_name r) (ur_creation_date r)
    (Some hash) (ur_totp_secret r) (ur_mfa_type r) (ur_uuid r) d d (ur_krb_principal_name r).

(** [SELECT .. FROM groups WHERE display_name = name LIMIT 1] *)
Definition find_group_named (t : Tables) (name : GroupName) : option GroupId :=
  fst <$> head (map_to_list (filter (fun kv : GroupId * GroupRow => gr_display_name kv.2 = name) (t_groups t))).

Section SqlOpaque.
Context `{Extern, SqlExtern, OpaqueExtern} (opaque_setup : ServerSetup).

Definition draw {E} (k : nat) : io Db E Coins := fun s => (Ok (os_rng (db_tick s) k), s).

Definition passwords_match (rng : nat -> Coins) (password_file_bytes clear_password : string)
    (username : UserId) : Result unit :=
  let? client := from_auth (client_start_login clear_password (rng 0)) in
  let? password_file :=
    from_auth (map_err ProtocolError (ServerRegistration_deserialize password_file_bytes)) in
  let? server := from_auth (server_start_login (rng 1) opaque_setup (Some password_file)
                              (snd client) username) in
  let? _ := from_auth (client_finish_login (fst client) clear_password (snd server) (rng 2)) in
  Ok tt.

Definition get_orion_secret_key : Result SecretKey :=
  ok_or (SecretKey_from_slice (private_key_bytes opaque_setup)) UnknownCryptoError.

Definition get_password_file_for_user (user_id : UserId) : io Db DomainError (option string) :=
  dquery (fun t => r ← find_user t user_id; ur_password_hash r).

Definition is_user_disabled (user_id : UserId) : io Db DomainError bool :=
  let! group := dquery (fun t => find_group_named t (MkGroupName "lldap_disabled")) in
  match group with
  | None => io_ret false
  | Some g => dquery (fun t => bool_decide ((user_id, g) ∈ t_memberships t))
  end.

Definition account_disabled {A} : io Db DomainError A :=
  io_fail (AuthenticationError "- Account disabled. Contact administrator.").

Definition sql_bind (request : BindRequest) : io Db DomainError unit :=
  let refused := io_fail (AuthenticationError ("for user " +:+ quoted (user_id_str (br_name request)))) in
  let! disabled := is_user_disabled (br_name request) in
  if (disabled : bool) then account_disabled
  else
    let! password_hash := get_password_file_for_user (br_name request) in
    match password_hash with
    | Some hash =>
        let! rng := fun s => (Ok (os_rng (db_tick s)), s) in
        if is_ok (passwords_match rng hash (br_password request) (br_name request)) then io_ret tt
        else refused
    | None => refused
    end.

(** [orion::aead::seal(&secret_key, &bincode::serialize(..)?)?], in base64 *)
Definition seal_data (coins : Coins) (secret_key : SecretKey) (bytes : option string) : Result string :=
  let? bytes := ok_or bytes BinarySerializationError in
  let? encrypted_state := ok_or (seal coins secret_key bytes) UnknownCryptoError in
  Ok (base64_encode encrypted_state).

(** [bincode::deserialize(&orion::aead::open(&secret_key, &decode(data)?)?)?] *)
Definition open_data {A} (deserialize : string -> option A) (data : string) : Result A :=
  let? secret_key := get_orion_secret_key in
  let? encrypted := ok_or (base64_decode data) Base64DecodeError in
  let? bytes := ok_or (open secret_key encrypted) UnknownCryptoError in
  ok_or (deserialize bytes) BinarySerializationError.

Definition sql_login_start (request : ClientLoginStartRequest)
  : io Db DomainError ServerLoginStartResponse :=
  let user_id := ls_username request in
  let! disabled := is_user_disabled user_id in
  if (disabled : bool) then account_disabled
  else
    let! hash := get_password_file_for_user user_id in
    let! maybe_password_file := io_lift
      match hash with
      | None => Ok None
      | Some bytes =>
          let? f := map_err (fun _ => InternalError ("Corrupted password file for "
                                +:+ user_id_str user_id)) (ServerRegistration_deserialize bytes) in
          Ok (Some f)
      end in
    let! rng := draw 0 in
    let! start_response := io_lift (from_auth (server_start_login rng opaque_setup maybe_password_file
                                      (ls_login_start_request request) user_id)) in
    let! secret_key := io_lift get_orion_secret_key in
    let! coins := draw 1 in
    let! server_data := io_lift (seal_data coins secret_key
      (serialize_login (MkLoginServerData user_id (fst start_response)))) in
    io_ret (MkServerLoginStartResponse server_data (snd start_response)).

Definition sql_login_finish (request : ClientLoginFinishRequest) : io Db DomainError UserId :=
  let! d := io_lift (open_data deserialize_login (lf_server_data request)) in
  let! disabled := is_user_disabled (ld_username d) in
  if (disabled : bool) then account_disabled
  else
    let! _ := io_lift (from_auth (server_finish_login (ld_server_login d)
                         (lf_credential_finalization request))) in
    io_ret (ld_username d).

Definition sql_registration_start (request : ClientRegistrationStartRequest)
  : io Db DomainError ServerRegistrationStartResponse :=
  let! message := io_lift (from_auth (server_start_registration opaque_setup
    (rs_registration_start_request request) (rs_username request))) in
  let! secret_key := io_lift get_orion_secret_key in
  let! coins := draw 1 in
  let! server_data := io_lift (seal_data coins secret_key
    (serialize_registration (MkRegistrationServerData (rs_username request)))) in
  io_ret (MkServerRegistrationStartResponse server_data message).

Definition sql_registration_finish (request : ClientRegistrationFinishRequest)
  : io Db DomainError unit :=
  let! d := io_lift (open_data deserialize_registration (rf_server_data request)) in
  let password_file := get_password_file (rf_registration_upload request) in
  let! d_now := now in
  dexec (update_user_row (rd_username d)
           (set_password (ServerRegistration_serialize password_file) d_now)).

Definition sql_register_password (username : UserId) (password : string) : io Db DomainError unit :=
  let! rng := draw 0 in
  let! start := io_lift (from_auth (client_start_registration password rng)) in
  let! response := sql_registration_start (MkClientRegistrationStartRequest username (snd start)) in
  let! rng := draw 2 in
  let! upload := io_lift (from_auth (client_finish_registration (fst start) password
                            (rr_registration_response response) rng)) in
  sql_registration_finish (MkClientRegistrationFinishRequest (rr_server_data response) upload).

Definition sql_opaque_handler : OpaqueHandler Db := {|
  login_start := sql_login_start;
  login_finish := sql_login_finish;
  registration_start := sql_registration_start;
  registration_finish := sql_registration_finish
|}.
End SqlOpaque.

(** The SQL backend with its own login and registration *)
Definition full_backend `{Extern, LdapExtern, SqlExtern, OpaqueExtern} (setup : ServerSetup)
    (kdc_answer : KdcCall -> result DomainError unit) : BackendHandler Db :=
  sql_backend (sql_bind setup) (sql_register_password setup) kdc_answer.

(** ** What the handler relies on *)

Section Exchanges.
Context `{OpaqueExtern}.

(** A registration and a login of the protocol, client and server honest. *)
Definition registration_exchange (setup : ServerSetup) (id password : string) (c0 c2 : Coins)
  : result string RegistrationUpload :=
  let? client := ClientRegistration_start c0 password in
  let? response := ServerRegistration_start setup (snd client) id in
  ClientRegistration_finish (fst client) c2 password response.

Definition login_exchange (setup : ServerSetup) (id password : string) (file : ServerRegistration)
    (rng : nat -> Coins) : result string CredentialFinalization :=
  let? client := ClientLogin_start (rng 0) password in
  let? server := ServerLogin_start (rng 1) setup (Some file) (snd client) id in
  ClientLogin_finish (fst client) (rng 2) password (snd server).
End Exchanges.

(** A password file made from a password lets in that password and no other (the
    protocol's error with a wrong password, idealised to certainty); what was sealed,
    encoded or serialised is read back. *)
Class OpaqueLaws `{Extern, OpaqueExtern} := {
  login_after_registration setup id pw c0 c2 upload pw' rng :
    registration_exchange setup id pw c0 c2 = Ok upload ->
    is_ok (login_exchange setup id pw' (ServerRegistration_finish upload) rng) = bool_decide (pw' = pw);
  password_file_roundtrip f : ServerRegistration_deserialize (ServerRegistration_serialize f) = Ok f;
  open_sealed c k m b : seal c k m = Some b -> open k b = Some m;
  base64_roundtrip b : base64_decode (base64_encode b) = Some b;
  bincode_string_read s rest : bincode_read_string (bincode_string s +:+ rest) = Some (s, rest)
}.

(** ** Lemmas *)

Definition disabled (t : Tables) (u : UserId) : Prop :=
  exists g, name_at t g = Some (MkGroupName "lldap_disabled") /\ is_member t u g.

Section Lemmas.
Context `{Extern, SqlExtern, OpaqueExtern} (setup : ServerSetup).

Lemma find_group_named_Some t n g : find_group_named t n = Some g -> name_at t g = Some n.
Proof.
  unfold find_group_named, name_at. destruct (map_to_list _) as [|[g' r] l] eqn:E; [done|].
  simpl. intros [= <-].
  assert ((g', r) ∈ (g', r) :: l) as Hin by left. rewrite <- E in Hin.
  apply elem_of_map_to_list, map_lookup_filter_Some in Hin as [Hl Hn]. simpl in Hn. by rewrite Hl, <- Hn.
Qed.

Lemma find_group_named_None t n g : find_group_named t n = None -> name_at t g <> Some n.
Proof.
  unfold find_group_named, name_at. destruct (map_to_list _) as [|[g' r'] l] eqn:E; [|done].
  intros _ Hn. destruct (t_groups t !! g) as [r|] eqn:Er; [|done]. simplify_eq/=.
  apply map_to_list_empty_iff in E. apply (lookup_empty_Some (M := gmap GroupId) g r).
  rewrite <- E. by apply map_lookup_filter_Some.
Qed.

Lemma is_user_disabled_Ok u s b s' :
  is_user_disabled u s = (Ok b, s') ->
  db_tables s' = db_tables s /\ (integrity (db_tables s) -> b = true <-> disabled (db_tables s) u).
Proof.
  unfold is_user_disabled. intros Hs. apply io_bind_Ok in Hs as (g & s1 & [-> H1']%dquery_Ok & Hs).
  destruct (find_group_named _ _) as [g|] eqn:Eg.
  - apply dquery_Ok in Hs as [-> Hs]. rewrite Hs, H1'. split; [done|]. intros Hi.
    rewrite bool_decide_eq_true. pose proof (find_group_named_Some _ _ _ Eg) as Hg. split.
    + by exists g.
    + intros (g' & Hg' & Hm). unfold name_at in Hg, Hg'.
      destruct (t_groups _ !! g) as [r|] eqn:Er; [|done].
      destruct (t_groups _ !! g') as [r'|] eqn:Er'; [|done]. simplify_eq/=.
      assert (g' = g) as -> by (eapply display_names_unique; eauto; congruence). done.
  - apply io_ret_Ok in Hs as [<- <-]. split; [done|]. intros _. split; [done|].
    intros (g & Hg & _). by apply (find_group_named_None _ _ _ Eg) in Hg.
Qed.

Lemma preserves_is_user_disabled u : preserves db_tables (is_user_disabled u).
Proof. unfold is_user_disabled. solve_preserves. Qed.

(** What comes after the check does not run for a disabled user. *)
Lemma disabled_refused {A} u (k : io Db DomainError A) s a s' :
  integrity (db_tables s) -> disabled (db_tables s) u ->
  (let! d := is_user_disabled u in if (d : bool) then account_disabled else k) s <> (Ok a, s').
Proof.
  intros Hi Hd Hs. apply io_bind_Ok in Hs as (b & s1 & [_ Hb]%is_user_disabled_Ok & Hs).
  apply (Hb Hi) in Hd as ->. done.
Qed.
End Lemmas.

(** The rows a registration writes: those of one user, in three columns. *)
Definition with_password (t : Tables) (u : UserId) (row : UserRow) (hash : string) (d : NaiveDateTime)
  : Tables := with_users t (<[u := set_password hash d row]> (t_users t)).

Section Registration.
Context `{Extern, SqlExtern, OpaqueExtern, !OpaqueLaws} (setup : ServerSetup).

Lemma from_auth_Ok {A} (r : result string A) a : from_auth (map_err ProtocolError r) = Ok a <-> r = Ok a.
Proof. unfold from_auth. by rewrite !map_err_Ok. Qed.

(** What was sealed under the handler's key opens to the bytes. *)
Lemma open_seal_data {A} (de : string -> option A) c k bytes data a :
  get_orion_secret_key setup = Ok k -> seal_data c k (Some bytes) = Ok data -> de bytes = Some a ->
  open_data setup de data = Ok a.
Proof.
  intros Hk Hs Hd. unfold seal_data in Hs. simpl in Hs.
  apply result_bind_Ok in Hs as (b & Hb%ok_or_Ok & [= <-]).
  unfold open_data. rewrite Hk. simpl. rewrite base64_roundtrip. simpl.
  rewrite (open_sealed _ _ _ _ Hb). simpl. by rewrite Hd.
Qed.

(** Writing a password, on the success path. *)
Lemma registration_finish_Ok u data upload s a s' :
  open_data setup deserialize_registration data = Ok (MkRegistrationServerData u) ->
  sql_registration_finish setup (MkClientRegistrationFinishRequest data upload) s = (Ok a, s') ->
  exists row d, t_users (db_tables s) !! u = Some row /\
    db_tables s' = with_password (db_tables s) u row
      (ServerRegistration_serialize (get_password_file upload)) d.
Proof.
  intros Ho Hs. unfold sql_registration_finish in Hs. apply io_bind_Ok in Hs as (d & s1 & Hd & Hs).
  apply io_lift_Ok in Hd as [Hd ->]. simpl in Hd. rewrite Ho in Hd. simplify_eq. simpl in Hs.
  apply io_bind_Ok in Hs as (d & s2 & Hn & Hs). apply now_Ok in Hn as ->.
  apply dexec_Ok in Hs. unfold update_user_row in Hs. destruct (t_users _ !! u) as [row|] eqn:Er; [|done].
  case_match; [done|]. injection Hs as _ Ht. exists row, d. by rewrite <- Ht.
Qed.

Lemma registration_data_read u c k data :
  get_orion_secret_key setup = Ok k ->
  seal_data c k (serialize_registration (MkRegistrationServerData u)) = Ok data ->
  open_data setup deserialize_registration data =
  Ok (MkRegistrationServerData (UserId_new (user_id_str u))).
Proof.
  intros Hk Hs. eapply open_seal_data; [done|exact Hs|].
  unfold deserialize_registration. by rewrite <- (app_empty_r (bincode_string _)), bincode_string_read.
Qed.

Lemma register_password_Ok u pw s s' :
  UserId_new (user_id_str u) = u ->
  sql_register_password setup u pw s = (Ok tt, s') ->
  exists row upload c0 c2 d,
    registration_exchange setup (user_id_str u) pw c0 c2 = Ok upload /\
    t_users (db_tables s) !! u = Some row /\
    db_tables s' = with_password (db_tables s) u row
      (ServerRegistration_serialize (get_password_file upload)) d.
Proof.
  intros Hu Hs. unfold sql_register_password in Hs.
  apply io_bind_Ok in Hs as (c0 & s1 & [= <- <-] & Hs).
  apply io_bind_Ok in Hs as (start & s2 & Hc & Hs). apply io_lift_Ok in Hc as [Hc%from_auth_Ok <-].
  apply io_bind_Ok in Hs as (resp & s3 & Hr & Hs). unfold sql_registration_start in Hr. io_inv Hr.
  apply from_auth_Ok in Hm. injection Hm1 as <- <-. simpl in *.
  apply io_bind_Ok in Hs as (c2 & s4 & [= <- <-] & Hs).
  apply io_bind_Ok in Hs as (upload & s5 & Hf & Hs). apply io_lift_Ok in Hf as [Hf%from_auth_Ok <-].
  match goal with Hd : seal_data _ _ _ = Ok _ |- _ => eapply registration_data_read in Hd as Ho; [|done..] end.
  rewrite Hu in Ho. eapply registration_finish_Ok in Hs as (row & d & Hrow & Ht); [|exact Ho].
  exists row, upload, (os_rng (db_tick s) 0), (os_rng (db_tick s) 2), d. split_and!; [|done|done].
  unfold registration_exchange. rewrite Hc. simpl. rewrite Hm. done.
Qed.

Lemma passwords_match_exchange rng f pw u :
  is_ok (passwords_match setup rng (ServerRegistration_serialize f) pw u) =
  is_ok (login_exchange setup (user_id_str u) pw f rng).
Proof.
  unfold passwords_match, login_exchange, client_start_login, server_start_login, client_finish_login,
    from_auth.
  destruct (ClientLogin_start _ _) as [c|e]; [|done]. simpl. rewrite password_file_roundtrip. simpl.
  destruct (ServerLogin_start _ _ _ _ _) as [sv|e]; [|done]. simpl.
  by destruct (ClientLogin_finish _ _ _ _).
Qed.

(** What [bind] answers for a user that is not disabled. *)
Lemma bind_answer u pw s row :
  (forall n, fault n = None) -> integrity (db_tables s) -> ~ disabled (db_tables s) u ->
  t_users (db_tables s) !! u = Some row ->
  exists rng, fst (sql_bind setup (MkBindRequest u pw) s) =
    if from_option (fun hash => is_ok (passwords_match setup rng hash pw u)) false (ur_password_hash row)
    then Ok tt else Err (AuthenticationError ("for user " +:+ quoted (user_id_str u))).
Proof.
  intros Hnf Hi Hd Hrow. unfold sql_bind. cbn [br_name br_password].
  destruct (is_user_disabled u s) as [[b|e] s1] eqn:Eb.
  - pose proof (is_user_disabled_Ok _ _ _ _ Eb) as [H1' Hb]. specialize (Hb Hi).
    rewrite (io_bind_step _ _ _ _ _ Eb). destruct b; [by destruct Hd; apply Hb|].
    unfold get_password_file_for_user.
    rewrite (io_bind_step _ _ _ _ _ (dquery_runs Hnf _ s1)). unfold find_user. rewrite H1', Hrow. simpl.
    destruct (ur_password_hash row) as [hash|]; [|by exists (os_rng 0)].
    exists (os_rng (S (db_tick s1))). unfold io_bind. simpl. by case_match.
  - exfalso. unfold is_user_disabled in Eb. rewrite (io_bind_step _ _ _ _ _ (dquery_runs Hnf _ s)) in Eb.
    destruct (find_group_named _ _); [|done]. by rewrite (dquery_runs Hnf) in Eb.
Qed.
End Registration.

(** Integrity is kept by the handler's one write. *)
Lemma registration_finish_integrity `{Extern, SqlExtern, OpaqueExtern} setup r :
  keeps integrity (sql_registration_finish setup r).
Proof. unfold sql_registration_finish. repeat keeps_step. apply update_user_row_integrity. Qed.

Lemma register_password_integrity `{Extern, SqlExtern, OpaqueExtern} setup u pw :
  keeps integrity (sql_register_password setup u pw).
Proof.
  unfold sql_register_password, sql_registration_start, draw.
  do 5 (apply keeps_bind; [apply keeps_read; by solve_preserves|intros ?]).
  apply registration_finish_integrity.
Qed.

(** ** A concrete protocol, for evaluating the definitions *)

(** A string between marks, and the rest after it. *)
Fixpoint demo_put_string (s : string) : string :=
  match s with
  | EmptyString => "."
  | String c s' => String "s" (String c (demo_put_string s'))
  end.

Fixpoint demo_get_string (b : string) : option (string * string) :=
  match b with
  | String "."%char rest => Some ("", rest)
  | String "s"%char (String c b') => '(s, rest) ← demo_get_string b'; Some (String c s, rest)
  | _ => None
  end.

Lemma demo_get_put s rest : demo_get_string (demo_put_string s +:+ rest) = Some (s, rest).
Proof. induction s as [|c s IH]; [done|]. simpl. by rewrite IH. Qed.

(** The exchange in the clear: the file is the password. *)
Definition demo_opaque_extern : OpaqueExtern := {|
  Coins := unit;
  os_rng := fun _ _ => tt;
  ServerSetup := string;
  ServerRegistration := string;
  ClientRegistration := unit;
  RegistrationRequest := unit;
  RegistrationResponse := unit;
  RegistrationUpload := string;
  ClientLogin := unit;
  ServerLogin := option string;
  CredentialRequest := unit;
  CredentialResponse := option string;
  CredentialFinalization := string;
  ClientRegistration_start := fun _ _ => Ok (tt, tt);
  ClientRegistration_finish := fun _ _ pw _ => Ok pw;
  ServerRegistration_start := fun _ _ _ => Ok tt;
  ServerRegistration_finish := id;
  ServerRegistration_serialize := id;
  ServerRegistration_deserialize := Ok;
  ClientLogin_start := fun _ _ => Ok (tt, tt);
  ClientLogin_finish := fun _ _ pw file => if bool_decide (file = Some pw) then Ok pw else Err "InvalidLogin";
  ServerLogin_start := fun _ _ file _ _ => Ok (file, file);
  ServerLogin_finish := fun file pw => if bool_decide (file = Some pw) then Ok "" else Err "InvalidLogin";
  private_key_bytes := id;
  SecretKey := string;
  SecretKey_from_slice := fun k => if String.eqb k "" then None else Some k;
  seal := fun _ k m => Some (k +:+ m);
  open := fun k b => if starts_with k b then Some (drop_bytes (String.length k) b) else None;
  base64_encode := id;
  bincode_string := demo_put_string;
  bincode_read_string := demo_get_string;
  bincode_server_login := fun sl => Some (from_option demo_put_string "" sl);
  bincode_read_server_login := fun b =>
    match b with
    | EmptyString => Some (None, "")
    | _ => '(f, rest) ← demo_get_string b; Some (Some f, rest)
    end
|}.

#[export] Instance demo_opaque_laws : @OpaqueLaws lawful_extern demo_opaque_extern.
Proof.
  constructor.
  - intros setup id pw c0 c2 upload pw' rng [= <-]. unfold login_exchange. simpl.
    case_bool_decide as E1; case_bool_decide as E2; simplify_eq; done.
  - done.
  - intros c k m b [= <-]. simpl. rewrite (proj2 (starts_with_iff k (k +:+ m))); [|by exists m].
    by rewrite drop_bytes_app.
  - done.
  - apply demo_get_put.
Qed.

Definition demo_register (u pw : string) : io Db DomainError unit :=
  @sql_register_password lawful_extern demo_sql_extern demo_opaque_extern "key" (MkUserId u) pw.

Definition demo_bind (u pw : string) (s : Db) : Result unit :=
  fst (@sql_bind demo_sql_extern demo_opaque_extern "key" (MkBindRequest (MkUserId u) pw) s).

(** ** Theorems *)

(** C10: a member of [lldap_disabled] cannot log in: neither with an LDAP bind or the
    simple login, nor by starting an OPAQUE exchange, nor by finishing one that was
    started before the account was disabled, whatever the client sends. *)
Theorem disabled_cannot_log_in `{Extern, SqlExtern, OpaqueExtern} setup u s :
  integrity (db_tables s) -> disabled (db_tables s) u ->
  (forall pw a s', sql_bind setup (MkBindRequest u pw) s <> (Ok a, s')) /\
  (forall m a s', sql_login_start setup (MkClientLoginStartRequest u m) s <> (Ok a, s')) /\
  (forall r s', sql_login_finish setup r s <> (Ok u, s')).
Proof.
  intros Hi Hd. split_and!; intros *.
  - by apply disabled_refused.
  - by apply disabled_refused.
  - intros Hs. apply io_bind_Ok in Hs as (d & s1 & Hd' & Hs). apply io_lift_Ok in Hd' as [_ <-].
    apply io_bind_Ok in Hs as (b & s2 & Hb & Hs).
    destruct b; [done|]. io_inv Hs.
    apply is_user_disabled_Ok in Hb as [_ Hb]. by apply Hb in Hd.
Qed.

Lemma disabled_cannot_log_in_witness :
  ur_password_hash <$> t_users (db_tables demo_db) !! MkUserId "eve" = Some (Some "eve-password") /\
  demo_bind "eve" "eve-password" demo_db <> Ok tt.
Proof.
  split; [vm_compute; reflexivity|]. unfold demo_bind.
  destruct (sql_bind _ _ demo_db) as [r s'] eqn:E. simpl. intros ->.
  refine (proj1 (@disabled_cannot_log_in lawful_extern demo_sql_extern demo_opaque_extern "key"
    (MkUserId "eve") demo_db demo_db_integrity _) "eve-password" tt s' E).
  exists 2%Z. split; [vm_compute; reflexivity|]. unfold is_member. simpl. set_solver.
Defined.

(** C20: on a database that keeps its integrity and while no statement fails, a password
    that was registered for a user whose identifier is in lower case and who is not
    disabled is the password from then on: [bind] accepts it and refuses every other, and
    the registration changed nothing but the password file and the two modification dates
    of that user.  (A disabled user is refused with the right password, too:
    [disabled_cannot_log_in].) *)
Theorem registered_password_binds `{Extern, SqlExtern, OpaqueExtern, !OpaqueLaws} setup u pw s s' :
  (forall n, fault n = None) -> integrity (db_tables s) -> UserId_new (user_id_str u) = u ->
  ~ disabled (db_tables s) u ->
  sql_register_password setup u pw s = (Ok tt, s') ->
  (exists row hash d, t_users (db_tables s) !! u = Some row /\
     db_tables s' = with_password (db_tables s) u row hash d) /\
  forall pw', fst (sql_bind setup (MkBindRequest u pw') s') =
    if bool_decide (pw' = pw) then Ok tt
    else Err (AuthenticationError ("for user " +:+ quoted (user_id_str u))).
Proof.
  intros Hnf Hi Hu Hd Hr.
  pose proof (register_password_integrity setup u pw s Hi) as Hi'. rewrite Hr in Hi'.
  apply register_password_Ok in Hr as (row & upload & c0 & c2 & d & Hx & Hrow & Ht); [|done].
  split; [by eauto|]. intros pw'. simpl in Hi'.
  destruct (bind_answer setup u pw' s' (set_password
    (ServerRegistration_serialize (get_password_file upload)) d row) Hnf Hi') as [rng ->].
  - by rewrite Ht.
  - rewrite Ht. by apply lookup_insert_eq.
  - simpl. unfold get_password_file. by rewrite passwords_match_exchange, (login_after_registration _ _ _ _ _ _ pw' rng Hx).
Qed.

Lemma registered_password_binds_witness :
  let s' := snd (demo_register "bob" "s3cret" demo_db) in
  demo_bind "bob" "s3cret" s' = Ok tt /\ demo_bind "bob" "S3cret" s' <> Ok tt.
Proof.
  assert (~ disabled (db_tables demo_db) (MkUserId "bob")) as Hd.
  { intros (g & Hn & Hm). unfold is_member in Hm. simpl in Hm.
    assert (g = 1%Z) as -> by set_solver. vm_compute in Hn. discriminate. }
  intros s'.
  assert (demo_register "bob" "s3cret" demo_db = (Ok tt, s')) as Hr.
  { rewrite (surjective_pairing (demo_register "bob" "s3cret" demo_db)). by f_equal. }
  clearbody s'. unfold demo_register in Hr.
  pose proof (proj2 (@registered_password_binds lawful_extern demo_sql_extern demo_opaque_extern _ "key"
    (MkUserId "bob") "s3cret" demo_db s' (fun _ => eq_refl) demo_db_integrity eq_refl Hd Hr)) as Hb.
  split; [exact (Hb "s3cret")|]. unfold demo_bind. rewrite (Hb "S3cret"). discriminate.
Defined.

(** ** Where the guarantees end *)

(** C27: the data a client gets from [login_start], which anyone may call for any user,
    is accepted by [registration_finish] as the data of a registration of that user:
    both are sealed with the same key, the user name comes first in both, and bytes
    after it are ignored.  The password file of the user is then whatever the client
    uploads. *)
Theorem login_data_registers `{Extern, SqlExtern, OpaqueExtern, !OpaqueLaws} setup u m s response s1
    upload s2 :
  UserId_new (user_id_str u) = u ->
  sql_login_start setup (MkClientLoginStartRequest u m) s = (Ok response, s1) ->
  sql_registration_finish setup (MkClientRegistrationFinishRequest (lr_server_data response) upload) s2 =
  dexec (update_user_row u (set_password (ServerRegistration_serialize (get_password_file upload))
    (utc_now (db_tick s2)))) s2.
Proof.
  intros Hu Hs. unfold sql_login_start in Hs. apply io_bind_Ok in Hs as (b & s3 & _ & Hs).
  destruct b; [done|]. io_inv Hs. simpl in *.
  destruct (serialize_login _) as [bytes|] eqn:Eb; [|done].
  unfold sql_registration_finish. cbn [rf_server_data rf_registration_upload].
  rewrite (open_seal_data setup deserialize_registration a4 a3 bytes a5 (MkRegistrationServerData u)); try done.
  unfold serialize_login in Eb. simpl in Eb. apply bind_Some in Eb as (sl & _ & [= <-]).
  unfold deserialize_registration. rewrite bincode_string_read. simpl. by rewrite Hu.
Qed.

(** With no credentials at all, a client of the demonstration protocol sets the password
    of the administrator [bob]. *)
Lemma login_data_registers_witness :
  let start := @sql_login_start demo_sql_extern demo_opaque_extern "key"
    (@MkClientLoginStartRequest demo_opaque_extern (MkUserId "bob") tt) demo_db in
  let data := match fst start with Ok r => lr_server_data r | Err _ => "" end in
  let finish := @sql_registration_finish lawful_extern demo_sql_extern demo_opaque_extern "key"
    (@MkClientRegistrationFinishRequest demo_opaque_extern data "mine") demo_db in
  fst finish = Ok tt /\ demo_bind "bob" "mine" (snd finish) = Ok tt.
Proof.
  intros start data finish. unfold finish, data, start.
  assert (is_ok (fst start) = true) as Hok by (vm_compute; reflexivity). unfold start in Hok.
  destruct (@sql_login_start _ _ _ _ demo_db) as [[r|e] s1] eqn:E; [|discriminate Hok].
  pose proof (@login_data_registers lawful_extern demo_sql_extern demo_opaque_extern _ "key" (MkUserId "bob")
    tt demo_db r s1 "mine" demo_db eq_refl E) as Hf.
  cbn [fst]. rewrite Hf. split; vm_compute; reflexivity.
Defined.
