(* ===== verification/AuthTokens.v ===== *)
(** * Tokens in the database

    [server/src/sql_tcp_backend_handler.rs] (refresh tokens, JWT hashes, password-reset
    tokens) behind the trait of [server/src/tcp_backend_handler.rs], and the cleaner of
    [server/src/db_cleaner.rs].

    Hashes are 64-bit: the code has them as [u64] and the column as [i64], with the
    casts [as_i64] and [as_u64].  [DefaultHasher] and the random characters are the
    operations of the class [TokenExtern]. *)

From S2P Require Import Prelude Strings Types Schema SchemaManager Proto Database SqlConfig SqlGroups SqlUsers SqlOps.

(** ** 64-bit hashes *)

Definition in_u64 (z : Z) : bool := (0 <=? z)%Z && (z <? 18446744073709551616)%Z.

(** [x as i64] of a [u64], [x as u64] of an [i64] *)
Definition as_i64 (x : Z) : Z :=
  if (x <? 9223372036854775808)%Z then x else (x - 18446744073709551616)%Z.

Definition as_u64 (x : Z) : Z := (x mod 18446744073709551616)%Z.

(** Nanoseconds. *)
Definition seconds (n : Z) : Z := (n * 1000000000)%Z.
Definition minutes (n : Z) : Z := seconds (n * 60).
Definition days (n : Z) : Z := seconds (n * 86400).

Class TokenExtern := {
  (** [DefaultHasher] on a string *)
  default_hash : string -> Z;
  (** the k-th character sampled before the n-th statement *)
  sample_alphanumeric : nat -> nat -> ascii
}.

Class TokenLaws `{TokenExtern} := {
  default_hash_u64 s : in_u64 (default_hash s) = true
}.

(** The clock does not go back. *)
Class ClockLaws `{SqlExtern} := {
  utc_now_mono n m : n <= m -> (utc_now n <= utc_now m)%Z
}.

(** ** Statements *)

Section TokenStatements.
Context `{SqlExtern}.

Definition insert_refresh (hash : Z) (row : RefreshRow) : statement unit := fun t =>
  let tk := t_tokens t in
  match tt_refresh tk !! hash, t_users t !! rr_user_id row with
  | None, Some _ => Ok (tt, with_tokens t (MkTokenTables (<[hash := row]> (tt_refresh tk)) (tt_jwt tk) (tt_reset tk)))
  | Some _, _ => violated "jwt_refresh_storage"
  | None, None => violated "JwtRefreshStorageUserForeignKey"
  end.

Definition insert_jwt (hash : Z) (row : JwtRow) : statement unit := fun t =>
  let tk := t_tokens t in
  match tt_jwt tk !! hash, t_users t !! jr_user_id row with
  | None, Some _ => Ok (tt, with_tokens t (MkTokenTables (tt_refresh tk) (<[hash := row]> (tt_jwt tk)) (tt_reset tk)))
  | Some _, _ => violated "jwt_storage"
  | None, None => violated "JwtStorageUserForeignKey"
  end.

Definition insert_reset (token : string) (row : ResetRow) : statement unit := fun t =>
  let tk := t_tokens t in
  match tt_reset tk !! token, t_users t !! sr_user_id row with
  | None, Some _ => Ok (tt, with_tokens t (MkTokenTables (tt_refresh tk) (tt_jwt tk) (<[token := row]> (tt_reset tk))))
  | Some _, _ => violated "password_reset_tokens"
  | None, None => violated "PasswordResetTokensUserForeignKey"
  end.

(** An UPDATE or DELETE on one of the three tables *)
Definition set_refresh (f : gmap Z RefreshRow -> gmap Z RefreshRow) : statement unit := fun t =>
  let tk := t_tokens t in
  Ok (tt, with_tokens t (MkTokenTables (f (tt_refresh tk)) (tt_jwt tk) (tt_reset tk))).

Definition set_jwt (f : gmap Z JwtRow -> gmap Z JwtRow) : statement unit := fun t =>
  let tk := t_tokens t in
  Ok (tt, with_tokens t (MkTokenTables (tt_refresh tk) (f (tt_jwt tk)) (tt_reset tk))).

Definition set_reset (f : gmap string ResetRow -> gmap string ResetRow) : statement unit := fun t =>
  let tk := t_tokens t in
  Ok (tt, with_tokens t (MkTokenTables (tt_refresh tk) (tt_jwt tk) (f (tt_reset tk)))).

(** ** The handler *)

Context `{TokenExtern}.

(** [gen_random_string(len)] *)
Definition gen_random_string (len : nat) : io Db DomainError string := fun s =>
  (Ok (fold_right String "" (map (sample_alphanumeric (db_tick s)) (seq 0 len))), s).

(** The hashes of the rows that satisfy a condition, as [HashSet<u64>]. *)
Definition jwt_hashes (p : JwtRow -> bool) (t : Tables) : gset Z :=
  list_to_set (map (fun kv : Z * JwtRow => as_u64 (fst kv))
    (List.filter (fun kv => p (snd kv)) (map_to_list (tt_jwt (t_tokens t))))).

Definition get_jwt_blacklist : io Db DbErr (gset Z) := query (jwt_hashes jr_blacklisted).

Definition create_refresh_token (user : UserId) : io Db DomainError (string * Z) :=
  let! refresh_token := gen_random_string 100 in
  let refresh_token_hash := default_hash refresh_token in
  let duration := days 30 in
  let! d := now in
  let! _ := dexec (insert_refresh (as_i64 refresh_token_hash) (MkRefreshRow user (d + duration)%Z)) in
  io_ret (refresh_token, duration).

Definition register_jwt (user : UserId) (jwt_hash : Z) (expiry_date : NaiveDateTime)
  : io Db DomainError unit :=
  dexec (insert_jwt (as_i64 jwt_hash) (MkJwtRow user expiry_date false)).

Definition check_token (refresh_token_hash : Z) (user : UserId) : io Db DomainError bool :=
  dquery (fun t => match tt_refresh (t_tokens t) !! as_i64 refresh_token_hash with
                   | Some row => user_id_eqb (rr_user_id row) user
                   | None => false
                   end).

Definition blacklist_row (user : UserId) (row : JwtRow) : JwtRow :=
  if user_id_eqb (jr_user_id row) user then MkJwtRow (jr_user_id row) (jr_expiry_date row) true else row.

Definition blacklist_jwts (user : UserId) : io Db DomainError (gset Z) :=
  let! valid_tokens := dquery (jwt_hashes (fun row =>
    user_id_eqb (jr_user_id row) user && negb (jr_blacklisted row))) in
  let! _ := dexec (set_jwt (fmap (blacklist_row user))) in
  io_ret valid_tokens.

Definition delete_refresh_token (refresh_token_hash : Z) : io Db DomainError unit :=
  dexec (set_refresh (delete (as_i64 refresh_token_hash))).

Definition start_password_reset (user : UserId) : io Db DomainError (option string) :=
  let! row := dquery (fun t => find_user t user) in
  match row with
  | None => io_ret None
  | Some _ =>
      let! token := gen_random_string 100 in
      let duration := minutes 10 in
      let! d := now in
      let! _ := dexec (insert_reset token (MkResetRow user (d + duration)%Z)) in
      io_ret (Some token)
  end.

Definition get_user_id_for_password_reset_token (token : string) : io Db DomainError UserId :=
  let! d := now in
  let! row := dquery (fun t => tt_reset (t_tokens t) !! token) in
  match row with
  | Some r => if (d <? sr_expiry_date r)%Z then io_ret (sr_user_id r)
              else io_fail (EntityNotFound "Invalid reset token")
  | None => io_fail (EntityNotFound "Invalid reset token")
  end.

Definition delete_password_reset_token (token : string) : io Db DomainError unit :=
  let! found := dexec (fun t =>
    match tt_reset (t_tokens t) !! token with
    | None => Ok (false, t)
    | Some _ => map_ok (fun r => (true, snd r)) (set_reset (delete token) t)
    end) in
  if (found : bool) then io_ret tt
  else io_fail (EntityNotFound ("No such password reset token: '" +:+ token +:+ "'")).

(** ** The cleaner *)

(** Each deletion is tried; an error is logged. *)
Definition cleanup_db : io Db DomainError unit :=
  let! d := now in
  let! _ := io_try (dexec (set_refresh (filter (fun kv => ~ (rr_expiry_date kv.2 < d)%Z)))) in
  let! d := now in
  let! _ := io_try (dexec (set_jwt (filter (fun kv => ~ (jr_expiry_date kv.2 < d)%Z)))) in
  let! d := now in
  let! _ := io_try (dexec (set_reset (filter (fun kv => ~ (sr_expiry_date kv.2 < d)%Z)))) in
  io_ret tt.
End TokenStatements.

(** ** Casts *)

Lemma as_i64_in_i64 x : in_u64 x = true -> in_i64 (as_i64 x) = true.
Proof.
  unfold in_u64, in_i64, as_i64, i64_min, i64_max. intros Hx. bool_to_prop.
  case_match; bool_to_prop; rewrite andb_true_iff, !Z.leb_le; lia.
Qed.

Lemma as_u64_as_i64 x : in_u64 x = true -> as_u64 (as_i64 x) = x.
Proof.
  unfold in_u64, as_u64, as_i64. intros Hx. bool_to_prop. case_match; bool_to_prop.
  - by rewrite Z.mod_small.
  - rewrite <- (Z.mod_add _ 1) by lia. rewrite Z.mod_small; lia.
Qed.

Lemma as_i64_as_u64 x : in_i64 x = true -> as_i64 (as_u64 x) = x.
Proof.
  unfold in_i64, as_u64, as_i64, i64_min, i64_max. intros Hx. bool_to_prop.
  destruct (decide (0 <= x)%Z).
  - rewrite Z.mod_small by lia. rewrite (proj2 (Z.ltb_lt _ _)); lia.
  - rewrite <- (Z.mod_add _ 1), Z.mod_small by lia. rewrite (proj2 (Z.ltb_ge _ _)); lia.
Qed.

Lemma as_i64_inj x y : in_u64 x = true -> in_u64 y = true -> as_i64 x = as_i64 y -> x = y.
Proof. intros Hx Hy He. by rewrite <- (as_u64_as_i64 x Hx), He, as_u64_as_i64. Qed.

(** ** Lemmas *)

Lemma preserves_gen_random_string `{TokenExtern} n : preserves db_tables (gen_random_string n).
Proof. done. Qed.

#[export] Hint Resolve preserves_gen_random_string : klldap.

Lemma jwt_hashes_spec p t h :
  h ∈ jwt_hashes p t <-> exists k r, tt_jwt (t_tokens t) !! k = Some r /\ p r = true /\ h = as_u64 k.
Proof.
  unfold jwt_hashes. rewrite elem_of_list_to_set, list_elem_of_fmap. split.
  - intros ([k r] & -> & Hin). rewrite list_elem_of_In, filter_In, <- list_elem_of_In, elem_of_map_to_list in Hin.
    destruct Hin as [Hl Hp]. simpl in *. eauto.
  - intros (k & r & Hl & Hp & ->). exists (k, r). split; [done|].
    by rewrite list_elem_of_In, filter_In, <- list_elem_of_In, elem_of_map_to_list.
Qed.

Section TokenIntegrity.
Context `{SqlExtern}.

Lemma insert_refresh_integrity h r : stmt_keeps integrity (insert_refresh h r).
Proof.
  unfold insert_refresh. integrity_start; eauto.
  intros [[-> <-]|[_ Hl]]%lookup_insert_Some; eauto.
Qed.

Lemma insert_jwt_integrity h r : stmt_keeps integrity (insert_jwt h r).
Proof.
  unfold insert_jwt. integrity_start; eauto.
  intros [[-> <-]|[_ Hl]]%lookup_insert_Some; eauto.
Qed.

Lemma insert_reset_integrity h r : stmt_keeps integrity (insert_reset h r).
Proof.
  unfold insert_reset. integrity_start; eauto.
  intros [[-> <-]|[_ Hl]]%lookup_insert_Some; eauto.
Qed.

Lemma set_refresh_integrity f : (forall m, f m ⊆ m) -> stmt_keeps integrity (set_refresh f).
Proof.
  intros Hf. unfold set_refresh. integrity_start; eauto. intros Hl. eapply Htr, lookup_weaken; eauto.
Qed.

Lemma set_reset_integrity f : (forall m, f m ⊆ m) -> stmt_keeps integrity (set_reset f).
Proof.
  intros Hf. unfold set_reset. integrity_start; eauto. intros Hl. eapply Hts, lookup_weaken; eauto.
Qed.

Lemma set_jwt_integrity f :
  (forall m k r, f m !! k = Some r -> exists r', m !! k = Some r' /\ jr_user_id r' = jr_user_id r) ->
  stmt_keeps integrity (set_jwt f).
Proof.
  intros Hf. unfold set_jwt. integrity_start; eauto. intros Hl.
  apply Hf in Hl as (r' & Hl & <-). eauto.
Qed.

Lemma blacklist_row_user u r : jr_user_id (blacklist_row u r) = jr_user_id r.
Proof. unfold blacklist_row. by case_match. Qed.
End TokenIntegrity.

(** ** The tokens under the other operations *)

Section TokenFrames.
Context `{Extern, LdapExtern, SqlExtern}.

Lemma tokens_put_user_attributes b u rows : stmt_frame t_tokens (put_user_attributes b u rows).
Proof. apply put_all_frame. intros n v t a t'. unfold put_user_attribute. crush_match. Qed.

Lemma tokens_put_group_attributes b g rows : stmt_frame t_tokens (put_group_attributes b g rows).
Proof. apply put_all_frame. intros n v t a t'. unfold put_group_attribute. crush_match. Qed.

(** A statement on another table. *)
Ltac other_table :=
  intros ? ? ? Ht <-;
  first [ by eapply tokens_put_user_attributes | by eapply tokens_put_group_attributes
        | unfold insert_user, update_user_row, insert_group, update_group_row, delete_group_row,
            insert_membership, delete_membership, delete_user_attributes, delete_group_attributes,
            delete_user_attribute_everywhere, delete_group_attribute_everywhere in Ht;
          cbv beta zeta in Ht; repeat case_match; by simplify_eq/= ].

Lemma run_tokens op tk :
  (forall u, op <> DeleteUser u) -> keeps (fun t => t_tokens t = tk) (run op).
Proof.
  intros Hop.
  assert (forall n uv, keeps (fun t => t_tokens t = tk) (assign_user_attribute n uv)).
  { intros. unfold assign_user_attribute. repeat keeps_step; other_table. }
  assert (forall n gv, keeps (fun t => t_tokens t = tk) (assign_group_attribute n gv)).
  { intros. unfold assign_group_attribute. repeat keeps_step; other_table. }
  destruct op; try (by destruct (Hop u)); simpl;
    unfold sql_create_user, create_user_body, sql_update_user, update_user_with_transaction,
      sql_add_user_to_group, join_group, sql_remove_user_from_group, leave_group, touch_group,
      sql_create_group, create_group_body, sql_update_group, update_group_with_transaction,
      sql_delete_group, sql_ensure_kerberos_principal_consistency, set_posix_settings,
      set_system_config, reassign_gid_numbers, reassign_user_uid_numbers, reassign_user_gid_numbers,
      reassign_user_homedirectories, reassign_user_loginshells, get_posix_settings, add_user_attribute,
      add_group_attribute, delete_user_attribute, delete_group_attribute, add_user_object_class,
      add_group_object_class, delete_user_object_class, delete_group_object_class;
    repeat keeps_step; auto; other_table.
Qed.

(** Deleting an account takes its tokens away, and no others. *)
Lemma delete_user_jwt v k r s :
  tt_jwt (t_tokens (db_tables s)) !! k = Some r -> jr_user_id r <> v ->
  tt_jwt (t_tokens (db_tables (snd (run (DeleteUser v) s)))) !! k = Some r.
Proof.
  intros Hk Hne. apply (fun H => H s Hk).
  change (keeps (fun t => tt_jwt (t_tokens t) !! k = Some r) (run (DeleteUser v))). simpl.
  unfold sql_delete_user. repeat keeps_step. intros t n t' Ht Hl. unfold delete_user_row in Ht.
  case_match; simplify_eq/=; [|done]. by apply map_lookup_filter_Some.
Qed.
End TokenFrames.

(** ** The clock *)

(** An operation never goes back to an earlier statement, so time never goes back. *)
Definition advances {E A} (m : io Db E A) : Prop := forall s, db_tick s <= db_tick (snd (m s)).

Section Advances.
Context `{SqlExtern}.
Lemma advances_ret {E A} (a : A) : advances (io_ret (E:=E) a).
Proof. by intros s. Qed.

Lemma advances_fail {E A} (e : E) : advances (io_fail (A:=A) e).
Proof. by intros s. Qed.

Lemma advances_lift {E A} (r : result E A) : advances (io_lift r).
Proof. by intros s. Qed.

Lemma advances_now {E} : advances (now (E:=E)).
Proof. by intros s. Qed.

Lemma advances_kdc {E} c : advances (kdc_call (E:=E) c).
Proof. by intros s. Qed.


Lemma advances_bind {E A B} (m : io Db E A) (k : A -> io Db E B) :
  advances m -> (forall a, advances (k a)) -> advances (io_bind m k).
Proof.
  intros Hm Hk s. unfold io_bind. specialize (Hm s).
  destruct (m s) as [[a|e] s1]; simpl in *; [|done]. specialize (Hk a s1). lia.
Qed.

Lemma advances_map_err {E E' A} (f : E -> E') (m : io Db E A) : advances m -> advances (io_map_err f m).
Proof. intros Hm s. unfold io_map_err. specialize (Hm s). by destruct (m s). Qed.

Lemma advances_try {E E' A} (m : io Db E A) : advances m -> advances (io_try (E':=E') m).
Proof. intros Hm s. unfold io_try. specialize (Hm s). by destruct (m s). Qed.

Lemma advances_exec {A} (f : statement A) : advances (exec f).
Proof. intros s. unfold exec. repeat case_match; simpl; lia. Qed.

Lemma advances_iter {E A} (f : A -> io Db E unit) l : (forall a, advances (f a)) -> advances (io_iter f l).
Proof. intros Hf. induction l; simpl; [by intros s|]. by apply advances_bind. Qed.

Lemma advances_transaction {E E' A} conn (body_err : E -> E') (body : io Db E A) :
  advances body -> advances (transaction conn body_err body).
Proof.
  assert (forall s, db_tick s <= db_tick (snd (query (fun _ => tt) s))) as Hq
    by (intros s; apply advances_exec).
  intros Hb s. unfold transaction. pose proof (Hq s) as H0.
  destruct (query _ s) as [[u|e] s0]; simpl in *; [|lia]. specialize (Hb s0).
  destruct (body s0) as [[b|e] s1]; simpl in *; pose proof (Hq s1) as H2;
    destruct (query _ s1) as [[]]; simpl in *; lia.
Qed.
End Advances.

(** Unfold the operation down to its statements. *)
Ltac head_of t := lazymatch t with ?f _ => head_of f | _ => t end.

Ltac advances_step :=
  match goal with
  | |- advances (io_ret _) => apply advances_ret
  | |- advances (io_fail _) => apply advances_fail
  | |- advances (io_lift _) => apply advances_lift
  | |- advances now => apply advances_now
  | |- advances (kdc_call _) => apply advances_kdc
  | |- advances (io_bind _ _) => apply advances_bind; [|intros ?]
  | |- advances (io_map_err _ _) => apply advances_map_err
  | |- advances (io_try _) => apply advances_try
  | |- advances (exec _) => apply advances_exec
  | |- advances (query _) => apply advances_exec
  | |- advances (io_iter _ _) => apply advances_iter; intros ?
  | |- advances (transaction _ _ _) => apply advances_transaction
  | |- advances (match ?x with _ => _ end) => destruct x
  | |- advances (let _ := _ in _) => cbv zeta
  | |- advances (fun s => (_, s)) => by intros ?
  | |- advances ?m => let h := head_of m in progress unfold h
  end.

Section RunAdvances.
Context `{Extern, LdapExtern, SqlExtern}.
Lemma advances_find_free_number p none_left max fuel :
  (forall z, advances (p z)) -> forall c, advances (find_free_number p none_left max c fuel).
Proof.
  intros Hp. induction fuel; intros c; simpl; [apply advances_fail|].
  destruct (_ <=? _)%Z; [|apply advances_fail].
  apply advances_bind; [done|]. intros []; [done|apply advances_ret].
Qed.

Lemma run_advances op : advances (run op).
Proof.
  destruct op; simpl; repeat first [apply advances_find_free_number; intros ? | advances_step]; auto.
Qed.
End RunAdvances.
