(* ===== verification/AuthService.v ===== *)
(** * The web sessions

    [server/src/auth_service.rs]: JWT creation and checking, refresh, logout, the two
    steps of a password reset, the logins and the OPAQUE registration endpoints;
    [server/src/tcp_server.rs]: the errors, the status codes and the state the handlers
    share; [server/src/graphql_server.rs]: the check in front of GraphQL.

    The handlers run over the SQL backend.  The state is the database, the list of
    revoked hashes the server keeps in memory, and the mails sent.  The crates jwt,
    actix-web, uuid and lettre are the operations of the class [WebExtern]. *)

From S2P Require Import Prelude Strings Types Schema SchemaManager Proto Access Database SqlConfig SqlGroups.
From S2P Require Import SqlUsers SqlOps SqlLists Opaque AuthTokens.

(** [JWTClaims] (crates/auth/src/lib.rs) *)
Record JWTClaims := MkJWTClaims {
  exp : NaiveDateTime;
  iat : NaiveDateTime;
  jti : string;
  claim_user : string;
  claim_groups : gset string
}.

Inductive AlgorithmType : Type := Hs512 | OtherAlgorithm (name : string).

Class WebExtern := {
  (** jwt: [Token::new({algorithm: Hs512, ..}, claims).sign_with_key], and
      [verify_with_key] with the header's algorithm *)
  JwtKey : Type;
  sign_with_key : JwtKey -> JWTClaims -> option string;
  verify_with_key : JwtKey -> string -> option (AlgorithmType * JWTClaims);
  uuid_new_v4 : nat -> string;
  (** actix-web: [HeaderValue::to_str], [HeaderValue::from_str], the token of a bearer
      header *)
  header_to_str : string -> option string;
  header_from_str : string -> option string;
  bearer_token : string -> option string;
  (** [mail::send_password_reset_email] with display name, user id, address and token:
      the error, if any *)
  send_password_reset_email : string -> string -> string -> string -> option string
}.

(** Dates travel as whole seconds ([ts_seconds]). *)
Definition ts_seconds (d : NaiveDateTime) : NaiveDateTime := seconds (d / 1000000000).

Definition transmitted (c : JWTClaims) : JWTClaims :=
  MkJWTClaims (ts_seconds (exp c)) (ts_seconds (iat c)) (jti c) (claim_user c) (claim_groups c).

Class WebLaws `{WebExtern} := {
  verify_signed k c t : sign_with_key k c = Some t -> verify_with_key k t = Some (Hs512, transmitted c)
}.

(** ** Errors and responses (tcp_server.rs) *)

Inductive TcpError : Type :=
| TcpDomainError (e : DomainError)
| BadRequest (msg : string)
| InternalServerError (msg : string)
| NotFoundError (msg : string)
| UnauthorizedError (msg : string).

(** What a handler ends with besides a response: an error, or a panic. *)
Inductive WebError : Type :=
| Failed (e : TcpError)
| Panicked (msg : string).

(** Every cookie is HTTP-only and SameSite=Strict. *)
Record Cookie := MkCookie {
  ck_name : string;
  ck_value : string;
  ck_max_age : Z;
  ck_path : string
}.

Inductive Body : Type :=
| NoBody
| TextBody (msg : string)
| ServerLoginResponse (token : string) (refresh_token : option string)
| ServerPasswordResetResponse (user_id token : string).

Record HttpResponse := MkHttpResponse {
  status : Z;
  cookies : list Cookie;
  body : Body
}.

Definition http_ok (cookies : list Cookie) (b : Body) : HttpResponse := MkHttpResponse 200 cookies b.

Section Errors.
Context `{Extern}.

Definition tcp_error_text (e : TcpError) : string :=
  match e with
  | TcpDomainError de => "`" +:+ display_error de +:+ "`"
  | BadRequest m => "Bad request: `" +:+ m +:+ "`"
  | InternalServerError m => "Internal server error: `" +:+ m +:+ "`"
  | NotFoundError m => "Not found: `" +:+ m +:+ "`"
  | UnauthorizedError m => "Unauthorized: `" +:+ m +:+ "`"
  end.

Definition error_status (e : TcpError) : Z :=
  match e with
  | TcpDomainError de =>
      match de with
      | AuthenticationError _ | AuthenticationProtocolError _ => 401
      | DatabaseError _ | DatabaseTransactionError _ | InternalError _ | UnknownCryptoError => 500
      | Base64DecodeError | BinarySerializationError | EntityNotFound _ => 400
      end
  | BadRequest _ => 400
  | NotFoundError _ => 404
  | InternalServerError _ => 500
  | UnauthorizedError _ => 401
  end.

Definition error_to_http_response (e : TcpError) : HttpResponse :=
  MkHttpResponse (error_status e) [] (TextBody (tcp_error_text e)).
End Errors.

(** ** The state *)

(** [AppState]: the key and the path of the server's URL do not change; the list of
    revoked hashes and the database do. *)
Record AppConfig `{WebExtern} := MkAppConfig { jwt_key : JwtKey; server_path : string }.
Arguments MkAppConfig {_} _ _.
Arguments jwt_key {_} _.
Arguments server_path {_} _.

Record Web := MkWeb {
  w_db : Db;
  jwt_blacklist : gset Z;
  w_mails : list (string * string)
}.

Section Lift.
Context `{SqlExtern}.

(** A call of the backend from a handler, with [?] *)
Definition backend {A} (m : io Db DomainError A) : io Web WebError A := fun w =>
  let '(r, s) := m (w_db w) in
  (map_err (fun e => Failed (TcpDomainError e)) r, MkWeb s (jwt_blacklist w) (w_mails w)).

(** The result of a call as a value *)
Definition try_backend {A} (m : io Db DomainError A) : io Web WebError (Result A) := fun w =>
  let '(r, s) := m (w_db w) in (Ok r, MkWeb s (jwt_blacklist w) (w_mails w)).

Definition failed {A} (e : TcpError) : io Web WebError A := io_fail (Failed e).

Definition web_now : io Web WebError NaiveDateTime := fun w => (Ok (utc_now (db_tick (w_db w))), w).
End Lift.

(** The parts of a request the handlers read. *)
Record HttpRequest := MkHttpRequest {
  cookie_refresh_token : option string;
  header_refresh_token : option string;
  cookie_token : option string;
  header_authorization : option string
}.

Section AuthService.
Context `{Extern, LdapExtern, SqlExtern, OpaqueExtern, TokenExtern, WebExtern}.
Context (opaque_setup : ServerSetup) (config : AppConfig).

Definition create_jwt (user : UserId) (groups : list GroupDetails) : io Web WebError string :=
  let! d := web_now in
  let! n := fun w => (Ok (db_tick (w_db w)), w) in
  let claims := MkJWTClaims (d + days 1)%Z d (uuid_new_v4 n) (user_id_str user)
    (list_to_set (map (fun g => group_name_str (gd_display_name g)) groups)) in
  let expiry := exp claims in
  match sign_with_key (jwt_key config) claims with
  | None => io_fail (Panicked "sign_with_key")
  | Some token =>
      let! registered := try_backend (register_jwt user (default_hash token) expiry) in
      match registered with
      | Ok _ => io_ret token
      | Err _ => io_fail (Panicked "register_jwt")
      end
  end.

Definition parse_refresh_token (token : string) : result TcpError (Z * UserId) :=
  match split_once "+" token with
  | None => Err (TcpDomainError (AuthenticationError "Invalid refresh token"))
  | Some (token, u) => Ok (default_hash token, UserId_new u)
  end.

Definition get_refresh_token (request : HttpRequest) : result WebError (Z * UserId) :=
  match cookie_refresh_token request, header_refresh_token request with
  | Some c, _ => map_err Failed (parse_refresh_token c)
  | _, Some t =>
      match header_to_str t with
      | Some t => map_err Failed (parse_refresh_token t)
      | None => Err (Panicked "to_str")
      end
  | None, None => Err (Failed (TcpDomainError (AuthenticationError "Missing refresh token")))
  end.

Definition base_path : string :=
  if ends_with "/" (server_path config) then server_path config else server_path config +:+ "/".

Definition get_refresh (request : HttpRequest) : io Web WebError HttpResponse :=
  let! hash_user := io_lift (get_refresh_token request) in
  let '(refresh_token_hash, user) := hash_user in
  let! found := backend (check_token refresh_token_hash user) in
  if negb found then failed (TcpDomainError (AuthenticationError "Invalid refresh token"))
  else
    let! groups := backend (sql_get_user_groups user) in
    let! token := create_jwt user groups in
    io_ret (http_ok [MkCookie "token" token (days 1) base_path] (ServerLoginResponse token None)).

Definition get_password_reset_step1 (user_string : string) : io Web WebError HttpResponse :=
  let! user_results := backend (list_users_or_panic
    (Some (UOr [UUserId (UserId_new user_string); UEquality ColEmail user_string])) false) in
  match user_results with
  | [] => io_ret (http_ok [] NoBody)
  | [ug] =>
      let user := uag_user ug in
      let! token := backend (start_password_reset (u_user_id user)) in
      match token with
      | None => io_ret (http_ok [] NoBody)
      | Some token =>
          let! _ := fun w => (Ok tt, MkWeb (w_db w) (jwt_blacklist w)
                      (w_mails w ++ [(email_str (u_email user), token)])) in
          match send_password_reset_email (from_option id (user_id_str (u_user_id user)) (u_display_name user))
                  (user_id_str (u_user_id user)) (email_str (u_email user)) token with
          | Some e => failed (InternalServerError ("Could not send email: " +:+ e))
          | None => io_ret (http_ok [] NoBody)
          end
      end
  | _ => failed (InternalServerError "Ambiguous user id or email")
  end.

Definition get_password_reset_step2 (token : string) : io Web WebError HttpResponse :=
  let! found := try_backend (get_user_id_for_password_reset_token token) in
  match found with
  | Err _ => failed (NotFoundError "Wrong or expired reset token")
  | Ok user_id =>
      let! _ := try_backend (delete_password_reset_token token) in
      let! token := create_jwt user_id [] in
      io_ret (http_ok [MkCookie "token" token (minutes 5) (base_path +:+ "auth")]
        (ServerPasswordResetResponse (user_id_str user_id) token))
  end.

Definition revoke (hashes : gset Z) : io Web WebError unit := fun w =>
  (Ok tt, MkWeb (w_db w) (hashes ∪ jwt_blacklist w) (w_mails w)).

Definition get_logout (request : HttpRequest) : io Web WebError HttpResponse :=
  let! hash_user := io_lift (get_refresh_token request) in
  let '(refresh_token_hash, user) := hash_user in
  let! _ := backend (delete_refresh_token refresh_token_hash) in
  let! new_blacklisted_jwt_hashes := backend (blacklist_jwts user) in
  let! _ := revoke new_blacklisted_jwt_hashes in
  io_ret (http_ok [MkCookie "token" "" 0 base_path; MkCookie "refresh_token" "" 0 (base_path +:+ "auth")]
    NoBody).

Definition get_login_successful_response (name : UserId) : io Web WebError HttpResponse :=
  let! groups := backend (sql_get_user_groups name) in
  let! refresh := backend (create_refresh_token name) in
  let '(refresh_token, max_age) := refresh in
  let! token := create_jwt name groups in
  let refresh_token_plus_name := refresh_token +:+ "+" +:+ user_id_str name in
  io_ret (http_ok
    [MkCookie "token" token (days 1) base_path;
     MkCookie "refresh_token" refresh_token_plus_name max_age (base_path +:+ "auth")]
    (ServerLoginResponse token (Some refresh_token_plus_name))).

Definition opaque_login_start (request : ClientLoginStartRequest)
  : io Web WebError ServerLoginStartResponse :=
  backend (sql_login_start opaque_setup request).

Definition opaque_login_finish (request : ClientLoginFinishRequest) : io Web WebError HttpResponse :=
  let! name := backend (sql_login_finish opaque_setup request) in
  get_login_successful_response name.

Definition simple_login (request : ClientSimpleLoginRequest) : io Web WebError HttpResponse :=
  let! _ := backend (sql_bind opaque_setup (MkBindRequest (sl_username request) (sl_password request))) in
  get_login_successful_response (sl_username request).

(** ** Checking a token *)

Definition check_if_token_is_valid (token_str : string) (w : Web) : result string ValidationResults :=
  match verify_with_key (jwt_key config) token_str with
  | None => Err "Invalid JWT"
  | Some (algorithm, claims) =>
      if (exp claims <? utc_now (db_tick (w_db w)))%Z then Err "Expired JWT"
      else
        match algorithm with
        | OtherAlgorithm a => Err ("Unsupported JWT algorithm: '" +:+ a +:+ "'. Supported ones are: ['HS512']")
        | Hs512 =>
            if bool_decide (default_hash token_str ∈ jwt_blacklist w) then Err "JWT was logged out"
            else Ok (get_permissions_from_groups (UserId_new (claim_user claims))
                       (map MkGroupName (elements (claim_groups claims))))
        end
  end.

(** [BearerAuth::from_request], then the check *)
Definition authenticate (request : HttpRequest) (w : Web) : option ValidationResults :=
  header ← header_authorization request;
  token ← bearer_token header;
  ok_option (check_if_token_is_valid token w).

(** [CookieToHeaderTranslator::call]: the token cookie becomes the authorization header *)
Definition cookie_to_header (request : HttpRequest) : option HttpRequest :=
  match cookie_token request with
  | None => Some request
  | Some t =>
      header ← header_from_str ("Bearer " +:+ t);
      Some (MkHttpRequest (cookie_refresh_token request) (header_refresh_token request)
              (cookie_token request) (Some header))
  end.

Definition opaque_register_start (request : HttpRequest)
    (payload : result string ClientRegistrationStartRequest)
  : io Web WebError ServerRegistrationStartResponse :=
  let not_authorized := UnauthorizedError "Not authorized to change the user's password" in
  let! v := fun w => (ok_or (authenticate request w) (Failed not_authorized), w) in
  let! registration_start_request := io_lift (map_err (fun e => Failed (BadRequest e)) payload) in
  let user_id := rs_username registration_start_request in
  let! groups := backend (sql_get_user_groups user_id) in
  let user_is_admin := in_named "lldap_admin" groups in
  if negb (can_change_password v user_id user_is_admin) then failed not_authorized
  else backend (sql_registration_start opaque_setup registration_start_request).

Definition opaque_register_finish (request : ClientRegistrationFinishRequest)
  : io Web WebError HttpResponse :=
  let! _ := backend (sql_registration_finish opaque_setup request) in
  io_ret (http_ok [] NoBody).

(** [graphql_route]: the identity a GraphQL request runs under *)
Definition graphql_identity (request : HttpRequest) (w : Web) : option ValidationResults :=
  authenticate request w.

(** ** Routes (configure_server) *)

Inductive AuthRequest : Type :=
| OpaqueLoginStart (r : ClientLoginStartRequest)
| OpaqueLoginFinish (r : ClientLoginFinishRequest)
| SimpleLogin (r : ClientSimpleLoginRequest)
| Refresh (r : HttpRequest)
| Logout (r : HttpRequest)
| RegisterStart (r : HttpRequest) (payload : result string ClientRegistrationStartRequest)
| RegisterFinish (r : HttpRequest) (payload : ClientRegistrationFinishRequest)
| ResetStep1 (user_id : string)
| ResetStep2 (token : string).

Inductive Answer : Type :=
| Response (r : HttpResponse)
| LoginStartAnswer (r : ServerLoginStartResponse)
| RegistrationStartAnswer (r : ServerRegistrationStartResponse).

(** The handler of a request; the registration endpoints are wrapped in the cookie
    translator, and the reset endpoints exist only if password reset is enabled. *)
Definition route (enable_password_reset : bool) (r : AuthRequest) : io Web WebError Answer :=
  let response m := let! x := m in io_ret (Response x) in
  let translated (request : HttpRequest) k :=
    match cookie_to_header request with
    | Some request => k request
    | None => io_ret (Response (MkHttpResponse 400 [] (TextBody "Invalid token cookie")))
    end in
  let if_enabled m :=
    if enable_password_reset then response m else io_ret (Response (MkHttpResponse 404 [] NoBody)) in
  match r with
  | OpaqueLoginStart r => let! x := opaque_login_start r in io_ret (LoginStartAnswer x)
  | OpaqueLoginFinish r => response (opaque_login_finish r)
  | SimpleLogin r => response (simple_login r)
  | Refresh r => response (get_refresh r)
  | Logout r => response (get_logout r)
  | RegisterStart request payload =>
      translated request (fun request =>
        let! x := opaque_register_start request payload in io_ret (RegistrationStartAnswer x))
  | RegisterFinish request payload => translated request (fun _ => response (opaque_register_finish payload))
  | ResetStep1 u => if_enabled (get_password_reset_step1 u)
  | ResetStep2 t => if_enabled (get_password_reset_step2 t)
  end.

(** [.unwrap_or_else(error_to_http_response)] around every handler *)
Definition serve (enable_password_reset : bool) (r : AuthRequest) (w : Web) : option Answer * Web :=
  let '(res, w') := route enable_password_reset r w in
  (match res with
   | Ok a => Some a
   | Err (Failed e) => Some (Response (error_to_http_response e))
   | Err (Panicked _) => None
   end, w').
End AuthService.

(** ** The server over time *)

(** A request of the web interface, a write of another front end (LDAP, GraphQL), a
    password set by one, the cleaner, and a restart, which reads the list of revoked
    hashes again ([build_tcp_server]). *)
Inductive Event `{OpaqueExtern} : Type :=
| EvRequest (enable_password_reset : bool) (r : AuthRequest)
| EvWrite (op : SqlOp)
| EvPassword (u : UserId) (password : string)
| EvCleanup
| EvRestart.

Section Steps.
Context `{Extern, LdapExtern, SqlExtern, OpaqueExtern, TokenExtern, WebExtern}.
Context (opaque_setup : ServerSetup) (config : AppConfig).

Definition in_db {E A} (m : io Db E A) (w : Web) : Web :=
  MkWeb (snd (m (w_db w))) (jwt_blacklist w) (w_mails w).

Inductive step : Web -> Event -> Web -> Prop :=
| StepRequest w reset r : step w (EvRequest reset r) (snd (serve opaque_setup config reset r w))
| StepWrite w op : step w (EvWrite op) (in_db (run op) w)
| StepPassword w u pw : step w (EvPassword u pw) (in_db (sql_register_password opaque_setup u pw) w)
| StepCleanup w : step w EvCleanup (in_db cleanup_db w)
| StepRestart w hashes s :
    get_jwt_blacklist (w_db w) = (Ok hashes, s) -> step w EvRestart (MkWeb s hashes []).

Inductive steps : Web -> list Event -> Web -> Prop :=
| StepsNil w : steps w [] w
| StepsCons w e w1 es w2 : step w e w1 -> steps w1 es w2 -> steps w (e :: es) w2.
End Steps.

(** ** What happens to a token's row *)

Definition wkeeps {A} (I : Web -> Prop) (m : io Web WebError A) : Prop := forall w, I w -> I (snd (m w)).

Section WKeeps.
Context `{SqlExtern} (I : Web -> Prop).

Lemma wkeeps_bind {A B} (m : io Web WebError A) (k : A -> io Web WebError B) :
  wkeeps I m -> (forall a, wkeeps I (k a)) -> wkeeps I (io_bind m k).
Proof.
  intros Hm Hk w Hw. unfold io_bind. specialize (Hm w Hw). destruct (m w) as [[a|e] w1]; [|done].
  by apply Hk.
Qed.

Lemma wkeeps_same {A} (m : io Web WebError A) : (forall w, snd (m w) = w) -> wkeeps I m.
Proof. intros Hm w Hw. by rewrite Hm. Qed.
End WKeeps.

Ltac wkeeps_step :=
  match goal with
  | |- wkeeps _ (io_bind _ _) => apply wkeeps_bind; [|intros ?]
  | |- wkeeps _ (io_lift _) => by apply wkeeps_same
  | |- wkeeps _ (io_ret _) => by apply wkeeps_same
  | |- wkeeps _ (io_fail _) => by apply wkeeps_same
  | |- wkeeps _ (failed _) => by apply wkeeps_same
  | |- wkeeps _ web_now => by apply wkeeps_same
  | |- wkeeps _ (fun w => (_, w)) => by apply wkeeps_same
  | |- wkeeps _ (match ?x with _ => _ end) => destruct x
  | |- wkeeps _ (let _ := _ in _) => cbv zeta
  end.

Section TokenRow.
Context `{Extern, LdapExtern, SqlExtern, OpaqueExtern, TokenExtern, WebExtern, !TokenLaws, !ClockLaws}.
Context (tok : string) (u : UserId) (expiry : NaiveDateTime).

Definition token_row (s : Db) : option JwtRow := tt_jwt (t_tokens (db_tables s)) !! as_i64 (default_hash tok).

Definition expired (s : Db) : Prop := (expiry < utc_now (db_tick s))%Z.

(** The row is there, or the token has expired. *)
Definition row_or_expired (b : bool) (s : Db) : Prop :=
  token_row s = Some (MkJwtRow u expiry b) \/ expired s.

Definition stable {E A} (m : io Db E A) : Prop := forall b s, row_or_expired b s -> row_or_expired b (snd (m s)).

Lemma expired_later s s' : db_tick s <= db_tick s' -> expired s -> expired s'.
Proof. intros Ht%utc_now_mono. unfold expired. lia. Qed.

Lemma stable_keeps {E A} (m : io Db E A) :
  advances m ->
  (forall r, keeps (fun t => tt_jwt (t_tokens t) !! as_i64 (default_hash tok) = Some r) m) -> stable m.
Proof.
  intros Ha Hk b s [Hr|He]; [left; by apply Hk|]. right. by eapply expired_later, He.
Qed.

Lemma stable_read {E A} (m : io Db E A) : advances m -> preserves db_tables m -> stable m.
Proof. intros Ha Hp. apply stable_keeps; [done|]. intros r. by apply keeps_read. Qed.

(** The state between requests: while the row is there, a row marked as revoked is in
    the memory of the server; [revoked]: it is marked. *)
Definition token_inv (revoked : bool) (w : Web) : Prop :=
  (exists b, token_row (w_db w) = Some (MkJwtRow u expiry b) /\
     (b = true -> default_hash tok ∈ jwt_blacklist w) /\ (revoked = true -> b = true)) \/
  expired (w_db w).

Lemma stable_inv {E A} (m : io Db E A) rv bl mails mails' s :
  stable m -> token_inv rv (MkWeb s bl mails) -> token_inv rv (MkWeb (snd (m s)) bl mails').
Proof.
  intros Hm [(b & Hr & Hb & Hrv)|He].
  - destruct (Hm b s (or_introl Hr)) as [Hr'|He']; [left; by exists b | by right].
  - destruct (Hm rv s (or_intror He)) as [Hr'|He']; [|by right]. simpl in *.
    destruct (Hm (negb rv) s (or_intror He)) as [Hr2|He']; [|by right]. rewrite Hr' in Hr2.
    by destruct rv.
Qed.

Lemma wkeeps_backend {A} (m : io Db DomainError A) rv : stable m -> wkeeps (token_inv rv) (backend m).
Proof.
  intros Hm [s bl mails] Hw. unfold backend. simpl. pose proof (stable_inv m rv bl mails mails s Hm Hw) as Hs.
  by destruct (m s).
Qed.

Lemma wkeeps_try {A} (m : io Db DomainError A) rv : stable m -> wkeeps (token_inv rv) (try_backend m).
Proof.
  intros Hm [s bl mails] Hw. unfold try_backend. simpl.
  pose proof (stable_inv m rv bl mails mails s Hm Hw) as Hs. by destruct (m s).
Qed.

(** ** The operations on the tokens *)

Ltac stable_by_cases :=
  apply stable_keeps;
  [ repeat advances_step
  | intros ?; repeat keeps_step; intros ? ? ? Ht Hl; cbv beta zeta in Ht; repeat case_match; simplify_eq/=; try done ].

Lemma stable_register_jwt v h e : stable (register_jwt v h e).
Proof.
  unfold register_jwt, insert_jwt. stable_by_cases.
  rewrite lookup_insert_ne; [done|]. congruence.
Qed.

Lemma stable_refresh_ops v h : stable (create_refresh_token v) /\ stable (check_token h v) /\ stable (delete_refresh_token h).
Proof.
  unfold create_refresh_token, check_token, delete_refresh_token, insert_refresh, set_refresh.
  split_and!; stable_by_cases.
Qed.

Lemma stable_reset_ops v tk :
  stable (start_password_reset v) /\ stable (get_user_id_for_password_reset_token tk) /\
  stable (delete_password_reset_token tk).
Proof.
  unfold start_password_reset, get_user_id_for_password_reset_token, delete_password_reset_token,
    insert_reset, set_reset.
  split_and!; stable_by_cases.
Qed.

Lemma stable_reads v f g :
  stable (sql_get_user_groups v) /\ stable (list_users_or_panic f g).
Proof.
  split.
  - apply stable_read; [repeat advances_step | apply preserves_user_groups].
  - unfold list_users_or_panic. destruct (sql_list_users f g) as [m|e] eqn:E.
    + unfold sql_list_users in E. apply result_bind_Ok in E as (c & _ & [= <-]).
      apply stable_read; [repeat advances_step|].
      pose proof @preserves_user_query. unfold list_users_where. solve_preserves.
    + apply stable_read; [repeat advances_step | solve_preserves].
Qed.

Lemma stable_logins setup :
  (forall r, stable (sql_bind setup r)) /\ (forall r, stable (sql_login_start setup r)) /\
  (forall r, stable (sql_login_finish setup r)).
Proof.
  pose proof preserves_is_user_disabled.
  unfold sql_bind, sql_login_start, sql_login_finish, get_password_file_for_user.
  split_and!; intros r; (apply stable_read; [repeat advances_step|]);
    unfold account_disabled, draw; cbv zeta; repeat first [done | preserves_step]; eauto with klldap.
Qed.

Lemma stable_registration setup :
  (forall r, stable (sql_registration_start setup r)) /\
  (forall r, stable (sql_registration_finish setup r)) /\
  (forall v pw, stable (sql_register_password setup v pw)).
Proof.
  assert (forall v h d r, stmt_keeps (fun t => tt_jwt (t_tokens t) !! as_i64 (default_hash tok) = Some r)
    (update_user_row v (set_password h d))) as Hk.
  { intros v h d r t a t' Ht. unfold update_user_row in Ht. crush_match. }
  split_and!.
  - intros req. apply stable_read; [repeat advances_step|]. unfold sql_registration_start, draw.
    repeat first [done | preserves_step].
  - intros req. apply stable_keeps; [repeat advances_step|]. intros r. unfold sql_registration_finish.
    repeat keeps_step. apply Hk.
  - intros v pw. apply stable_keeps; [repeat advances_step|]. intros r.
    unfold sql_register_password, sql_registration_start, draw.
    do 5 (apply keeps_bind; [apply keeps_read; repeat first [done | preserves_step]|intros ?]).
    unfold sql_registration_finish. repeat keeps_step. apply Hk.
Qed.

Lemma stable_run op : op <> DeleteUser u -> stable (run op).
Proof.
  intros Hop b s [Hr|He]; [|right; eapply expired_later, He; apply run_advances].
  left. unfold token_row in *.
  assert ((exists v, op = DeleteUser v) \/ forall v, op <> DeleteUser v) as [[v ->]|Hn]
    by (destruct op; eauto; right; discriminate).
  - apply delete_user_jwt; [done|]. simpl. congruence.
  - by rewrite (run_tokens op _ Hn s eq_refl).
Qed.

Lemma stable_cleanup : stable cleanup_db.
Proof.
  assert (advances cleanup_db) as Ha by repeat advances_step.
  intros b s [Hr|He]; [|right; by eapply expired_later, He].
  unfold cleanup_db, io_bind, now, io_try, dexec, io_map_err, exec, row_or_expired, token_row in *. simpl.
  destruct (fault (db_tick s)); simpl;
    (destruct (fault (S (db_tick s))); simpl;
     [by destruct (fault (S (S (db_tick s)))); left|]);
    destruct (decide (expiry < utc_now (S (db_tick s)))%Z) as [Hlt|Hge].
  all: try (right; unfold expired; pose proof (utc_now_mono (S (db_tick s)) (S (S (S (db_tick s)))));
            destruct (fault (S (S (db_tick s)))); simpl; lia).
  all: left; destruct (fault (S (S (db_tick s)))); simpl; apply map_lookup_filter_Some; split; done.
Qed.

(** ** Logging out *)

Lemma blacklist_jwts_Ok v s hashes s' :
  blacklist_jwts v s = (Ok hashes, s') ->
  db_tick s <= db_tick s' /\
  hashes = jwt_hashes (fun row => user_id_eqb (jr_user_id row) v && negb (jr_blacklisted row)) (db_tables s) /\
  token_row s' = blacklist_row v <$> token_row s.
Proof.
  intros Hs. assert (advances (blacklist_jwts v)) as Ha by repeat advances_step.
  specialize (Ha s). rewrite Hs in Ha. split; [done|].
  unfold blacklist_jwts in Hs. apply io_bind_Ok in Hs as (hs & s1 & [-> H1']%dquery_Ok & Hs).
  apply io_bind_Ok in Hs as ([] & s2 & Hd%dexec_Ok & Hs). apply io_ret_Ok in Hs as [<- <-].
  split; [done|]. unfold token_row. unfold set_jwt in Hd. injection Hd as <-. simpl.
  by rewrite H1', lookup_fmap.
Qed.

Lemma blacklist_jwts_Err v s e s' :
  blacklist_jwts v s = (Err e, s') -> db_tick s <= db_tick s' /\ token_row s' = token_row s.
Proof.
  intros Hs. assert (advances (blacklist_jwts v)) as Ha by repeat advances_step.
  specialize (Ha s). rewrite Hs in Ha. split; [done|].
  assert (atomic (blacklist_jwts v)) as Hat.
  { apply atomic_bind_read; [solve_preserves|]. intros hs. apply (atomic_bind_ret _ (fun _ => hs)), atomic_dexec. }
  unfold token_row. by rewrite (Hat _ _ _ Hs).
Qed.

(** What [blacklist_jwts] and the update of the memory do together. *)
Lemma revoke_all rv v s bl mails hashes s' :
  blacklist_jwts v s = (Ok hashes, s') -> token_inv rv (MkWeb s bl mails) ->
  token_inv (rv || user_id_eqb u v) (MkWeb s' (hashes ∪ bl) mails).
Proof.
  intros (Ha & Hh & Hrow)%blacklist_jwts_Ok [(b & Hr & Hb & Hrv)|He];
    [|right; by eapply expired_later, He].
  left. simpl in *. rewrite Hr in Hrow. simpl in Hrow. unfold blacklist_row in Hrow. simpl in Hrow.
  destruct (user_id_eqb u v) eqn:Eu.
  - exists true. split_and!; [done| |done]. intros _. destruct b; [set_solver|].
    apply elem_of_union_l. rewrite Hh, jwt_hashes_spec. exists (as_i64 (default_hash tok)).
    eexists. split; [exact Hr|]. simpl. by rewrite Eu, as_u64_as_i64 by apply default_hash_u64.
  - exists b. rewrite orb_false_r. split_and!; [done | set_solver | done].
Qed.

Lemma logout_inv config request rv w :
  token_inv rv w -> token_inv rv (snd (get_logout config request w)).
Proof.
  intros Hw. unfold get_logout. destruct (get_refresh_token request) as [[h v]|e]; [|done].
  unfold io_bind at 1. simpl.
  pose proof (wkeeps_backend _ rv (proj2 (proj2 (stable_refresh_ops v h))) w Hw) as H1'.
  unfold io_bind at 1. destruct (backend (delete_refresh_token h) w) as [[[]|e] [s bl mails]]; [|done].
  simpl in H1'. unfold io_bind at 1, backend. simpl.
  destruct (blacklist_jwts v s) as [[hashes|e] s'] eqn:Eb; simpl.
  - pose proof (revoke_all _ _ _ _ _ _ _ Eb H1') as [(b & Hr & Hb & Hrv)|He]; [|by right].
    left. exists b. split_and!; [done..|]. intros ->. by apply Hrv.
  - apply blacklist_jwts_Err in Eb as [Ht Er].
    destruct H1' as [(b & Hr & Hb & Hrv)|He]; [|right; by eapply expired_later, He].
    left. exists b. simpl in *. by rewrite Er.
Qed.

Lemma logout_revokes config request rv w resp w' h :
  get_refresh_token request = Ok (h, u) -> get_logout config request w = (Ok resp, w') ->
  token_inv rv w -> token_inv true w'.
Proof.
  intros Hreq Hl Hw. unfold get_logout in Hl. rewrite Hreq in Hl. unfold io_bind at 1 in Hl. simpl in Hl.
  pose proof (wkeeps_backend _ rv (proj2 (proj2 (stable_refresh_ops u h))) w Hw) as H1'.
  unfold io_bind at 1 in Hl.
  destruct (backend (delete_refresh_token h) w) as [[[]|e] [s bl mails]]; [|done].
  simpl in H1'. unfold io_bind at 1, backend in Hl. simpl in Hl.
  destruct (blacklist_jwts u s) as [[hashes|e] s'] eqn:Eb; simpl in Hl; [|done].
  injection Hl as _ <-. pose proof (revoke_all _ _ _ _ _ _ _ Eb H1') as Hi.
  unfold user_id_eqb in Hi. by rewrite String.eqb_refl, orb_true_r in Hi.
Qed.

(** ** Every step *)

Lemma wkeeps_create_jwt config v gs rv : wkeeps (token_inv rv) (create_jwt config v gs).
Proof.
  unfold create_jwt. repeat wkeeps_step. apply wkeeps_try, stable_register_jwt.
Qed.

Lemma route_inv setup config reset r rv : wkeeps (token_inv rv) (route setup config reset r).
Proof.
  pose proof wkeeps_create_jwt as Hc.
  assert (forall v f g, wkeeps (token_inv rv) (backend (sql_get_user_groups v)) /\
    wkeeps (token_inv rv) (backend (list_users_or_panic f g))) as Hr
    by (intros v f g; destruct (stable_reads v f g); split; by apply wkeeps_backend).
  assert (forall v, wkeeps (token_inv rv) (get_login_successful_response config v)) as Hok.
  { intros v. unfold get_login_successful_response. repeat wkeeps_step.
    - by apply (Hr v None true).
    - apply wkeeps_backend, (stable_refresh_ops v 0).
    - apply Hc. }
  destruct r; simpl; unfold opaque_login_start, opaque_login_finish, simple_login, get_refresh,
    opaque_register_start, opaque_register_finish, get_password_reset_step1, get_password_reset_step2;
    repeat wkeeps_step;
    try (intros w; apply logout_inv); try apply Hok; try apply Hc;
    try (by apply (Hr _ None true)); try (by apply Hr); try apply wkeeps_backend; try apply wkeeps_try;
    try (by apply stable_logins); try (by apply stable_registration);
    try (by eapply stable_refresh_ops); try (by eapply stable_reset_ops); by intros w.
Qed.

Lemma step_inv setup config w e w' rv :
  step setup config w e w' -> e <> EvWrite (DeleteUser u) -> token_inv rv w -> token_inv rv w'.
Proof.
  intros Hs He Hw. destruct Hs as [w reset r|w op|w v pw|w|w hashes s Hq].
  - unfold serve. pose proof (route_inv setup config reset r rv w Hw) as Hi. by destruct (route _ _ _ _ w).
  - destruct w as [s bl mails]. eapply stable_inv, Hw. apply stable_run. congruence.
  - destruct w as [s bl mails]. by eapply stable_inv, Hw; apply stable_registration.
  - destruct w as [s bl mails]. by eapply stable_inv, Hw; apply stable_cleanup.
  - pose proof (advances_exec (fun t => Ok (jwt_hashes jr_blacklisted t, t)) (w_db w)) as Ha.
    change (exec _) with get_jwt_blacklist in Ha. rewrite Hq in Ha. apply query_Ok in Hq as [-> Ht].
    destruct Hw as [(b & Hr & Hb & Hrv)|Hx]; [left|right; by eapply expired_later, Hx].
    exists b. unfold token_row in *. simpl. rewrite Ht. split_and!; [done| |done]. intros ->.
    apply jwt_hashes_spec. eexists _, _. split; [exact Hr|]. split; [done|].
    by rewrite as_u64_as_i64 by apply default_hash_u64.
Qed.

Lemma steps_inv setup config w es w' rv :
  steps setup config w es w' -> EvWrite (DeleteUser u) ∉ es -> token_inv rv w -> token_inv rv w'.
Proof.
  induction 1 as [|w e w1 es w2 Hs Hss IH]; intros He Hw; [done|].
  apply not_elem_of_cons in He as [He1 He2]. apply IH; [done|]. by eapply step_inv.
Qed.

(** A revoked token is refused. *)
Lemma revoked_refused config w :
  (forall a c, verify_with_key (jwt_key config) tok = Some (a, c) -> (exp c <= expiry)%Z) ->
  token_inv true w -> is_ok (check_if_token_is_valid config tok w) = false.
Proof.
  intros Hexp Hw. unfold check_if_token_is_valid.
  destruct (verify_with_key _ tok) as [[a c]|] eqn:Ev; [|done]. specialize (Hexp a c eq_refl).
  destruct (Z.ltb_spec (exp c) (utc_now (db_tick (w_db w)))) as [|Hge]; [done|].
  destruct a; [|done]. destruct Hw as [(b & _ & Hb & Hrv)|Hx]; [|unfold expired in Hx; lia].
  by rewrite bool_decide_eq_true_2 by auto.
Qed.
End TokenRow.

(** ** Issuing *)

Section Issuing.
Context `{Extern, LdapExtern, SqlExtern, OpaqueExtern, TokenExtern, WebExtern, !WebLaws}.
Context (config : AppConfig).

Lemma ts_seconds_le d : (ts_seconds d <= d)%Z.
Proof. unfold ts_seconds, seconds. pose proof (Z.mul_div_le d 1000000000). lia. Qed.

(** A JWT that was issued: what it verifies to, and its row. *)
Lemma create_jwt_Ok u gs w tok w' :
  create_jwt config u gs w = (Ok tok, w') ->
  let expiry := (utc_now (db_tick (w_db w)) + days 1)%Z in
  (exists i j, verify_with_key (jwt_key config) tok = Some (Hs512, MkJWTClaims (ts_seconds expiry) i j
     (user_id_str u) (list_to_set (map (fun g => group_name_str (gd_display_name g)) gs)))) /\
  token_row tok (w_db w') = Some (MkJwtRow u expiry false).
Proof.
  unfold create_jwt. intros Hc. unfold io_bind at 1 2 in Hc. simpl in Hc.
  destruct (sign_with_key _ _) as [t|] eqn:Es; [|done]. apply verify_signed in Es.
  unfold io_bind, try_backend in Hc.
  destruct (register_jwt _ _ _ (w_db w)) as [[[]|e] s] eqn:Er; [|done]. injection Hc as <- <-.
  split; [by eexists _, _|]. apply dexec_Ok in Er. unfold insert_jwt in Er. simpl in Er.
  destruct (tt_jwt _ !! _); [done|]. destruct (t_users _ !! u); [|done]. injection Er as Er. unfold token_row. simpl.
  rewrite <- Er. apply lookup_insert_eq.
Qed.

(** The rights of a set of groups do not depend on their order. *)
Lemma permissions_of_set u (gs gs' : list GroupName) :
  (forall g, g ∈ gs <-> g ∈ gs') -> get_permissions_from_groups u gs = get_permissions_from_groups u gs'.
Proof.
  intros Hg. unfold get_permissions_from_groups.
  assert (forall p, existsb p gs = existsb p gs') as He.
  { intros p. apply Bool.eq_iff_eq_true. rewrite !existsb_elem. by setoid_rewrite Hg. }
  by rewrite !He.
Qed.

Lemma claimed_groups (gs : list GroupDetails) :
  forall g, g ∈ map MkGroupName (elements (list_to_set (C := gset string)
      (map (fun g => group_name_str (gd_display_name g)) gs))) <-> g ∈ map gd_display_name gs.
Proof.
  intros g. rewrite !list_elem_of_fmap. setoid_rewrite elem_of_elements.
  setoid_rewrite elem_of_list_to_set. setoid_rewrite list_elem_of_fmap. split.
  - intros (n & -> & d & -> & Hd). exists d. split; [|done]. by destruct (gd_display_name d).
  - intros (d & -> & Hd). exists (group_name_str (gd_display_name d)). split; [|by exists d].
    by destruct (gd_display_name d).
Qed.
End Issuing.

(** ** A concrete environment, for evaluating the definitions *)

#[export] Instance JWTClaims_eq_dec : EqDecision JWTClaims.
Proof. solve_decision. Defined.

Fixpoint demo_get_strings (fuel : nat) (b : string) : option (list string) :=
  match fuel, b with
  | _, EmptyString => Some []
  | O, _ => None
  | S fuel, b => '(x, rest) ← demo_get_string b; xs ← demo_get_strings fuel rest; Some (x :: xs)
  end.

Definition demo_claims_text (c : JWTClaims) : string :=
  fold_right (fun x acc => demo_put_string x +:+ acc) ""
    (int_to_string (exp c) :: int_to_string (iat c) :: jti c :: claim_user c :: elements (claim_groups c)).

Definition demo_claims_of (b : string) : option JWTClaims :=
  match demo_get_strings (String.length b) b with
  | Some (e :: i :: j :: u :: gs) =>
      e ← parse_i64 e; i ← parse_i64 i; Some (MkJWTClaims e i j u (list_to_set gs))
  | _ => None
  end.

(** Tokens in the clear; claims whose dates do not fit are not signed. *)
Definition demo_web_extern : WebExtern := {|
  JwtKey := unit;
  sign_with_key := fun _ c =>
    let c := transmitted c in
    if bool_decide (demo_claims_of (demo_claims_text c) = Some c) then Some (demo_claims_text c) else None;
  verify_with_key := fun _ t => c ← demo_claims_of t; Some (Hs512, c);
  uuid_new_v4 := fun n => int_to_string (Z.of_nat n);
  header_to_str := Some;
  header_from_str := Some;
  bearer_token := fun h => if starts_with "Bearer " h then Some (drop_bytes 7 h) else None;
  send_password_reset_email := fun _ _ _ _ => None
|}.

#[export] Instance demo_web_laws : @WebLaws demo_web_extern.
Proof.
  constructor. intros k c t. cbn [sign_with_key verify_with_key demo_web_extern].
  case_bool_decide as Hb; [|done]. intros [= <-]. by rewrite Hb.
Qed.

Fixpoint demo_hash (acc : Z) (s : string) : Z :=
  match s with
  | EmptyString => acc
  | String c s' => demo_hash ((acc * 257 + Z.of_nat (nat_of_ascii c)) mod 18446744073709551616) s'
  end.

Definition demo_token_extern : TokenExtern := {|
  default_hash := fun s => (demo_hash 0 s mod 18446744073709551616)%Z;
  sample_alphanumeric := fun n k => ascii_of_nat (97 + (n + k) mod 26)
|}.

#[export] Instance demo_token_laws : @TokenLaws demo_token_extern.
Proof.
  constructor. intros s. unfold in_u64. simpl.
  pose proof (Z.mod_pos_bound (demo_hash 0 s) 18446744073709551616 ltac:(lia)) as Hb.
  rewrite andb_true_iff, Z.leb_le, Z.ltb_lt. lia.
Qed.

#[export] Instance demo_clock : @ClockLaws demo_sql_extern.
Proof. constructor. intros n m Hnm. simpl. lia. Qed.

Definition demo_config : @AppConfig demo_web_extern := @MkAppConfig demo_web_extern tt "/".

Definition demo_web : Web := MkWeb demo_db ∅ [].

Definition demo_create_jwt (u : UserId) (gs : list GroupDetails) : io Web WebError string :=
  @create_jwt demo_sql_extern demo_token_extern demo_web_extern demo_config u gs.

Definition demo_admin_group : GroupDetails :=
  MkGroupDetails 1 (MkGroupName "lldap_admin") 0 "lldap_admin" [] 0.

(** The administrator [bob] with one JWT. *)
Definition demo_issued : result WebError string * Web := demo_create_jwt (MkUserId "bob") [demo_admin_group] demo_web.

Definition demo_token : string := match fst demo_issued with Ok t => t | Err _ => "" end.

Definition demo_check (t : string) (w : Web) : result string ValidationResults :=
  @check_if_token_is_valid lawful_extern demo_sql_extern demo_token_extern demo_web_extern demo_config t w.

Definition demo_header (value : string) : HttpRequest := MkHttpRequest None (Some value) None None.

Definition demo_logout (r : HttpRequest) : io Web WebError HttpResponse :=
  @get_logout demo_sql_extern demo_token_extern demo_web_extern demo_config r.

Lemma demo_issued_eq : demo_issued = (Ok demo_token, snd demo_issued).
Proof. rewrite (surjective_pairing demo_issued) at 1. by f_equal. Qed.

Example demo_token_accepted :
  demo_check demo_token (snd demo_issued) = Ok (MkValidationResults (MkUserId "bob") Admin).
Proof. vm_compute. reflexivity. Qed.

(** ** Theorems *)

(** C11: logging out is final: once a logout for a user succeeds, no JWT issued to that
    user before is ever accepted again, whatever requests, writes of the other front
    ends, cleanups of the database and restarts of the server come between and after,
    as long as the account is not deleted. *)
Theorem logout_is_final
    `{Extern, LdapExtern, SqlExtern, OpaqueExtern, TokenExtern, WebExtern, !TokenLaws, !ClockLaws, !WebLaws}
    setup config u gs w0 tok w1 es1 w2 request h response w3 es2 w4 :
  create_jwt config u gs w0 = (Ok tok, w1) ->
  steps setup config w1 es1 w2 -> EvWrite (DeleteUser u) ∉ es1 ->
  get_refresh_token request = Ok (h, u) -> get_logout config request w2 = (Ok response, w3) ->
  steps setup config w3 es2 w4 -> EvWrite (DeleteUser u) ∉ es2 ->
  is_ok (check_if_token_is_valid config tok w4) = false.
Proof.
  intros Hc Hs1 Hd1 Hreq Hl Hs2 Hd2. apply create_jwt_Ok in Hc as [(i & j & Hv) Hr].
  eapply revoked_refused with (u := u); [|eapply steps_inv; [exact Hs2|exact Hd2|]].
  - intros a c Hv'. rewrite Hv in Hv'. simplify_eq/=. apply ts_seconds_le.
  - eapply logout_revokes; [exact Hreq|exact Hl|]. eapply (steps_inv tok u _ setup config w1 es1 w2 false);
      [exact Hs1|exact Hd1|]. left. exists false. split_and!; [exact Hr|done|done].
Qed.

(** An issued JWT is accepted, with exactly the rights the user's groups gave when it
    was issued, for a day (up to the second in which it ends) and until it is logged
    out, and refused as expired after that. *)
Theorem issued_token_lifetime
    `{Extern, SqlExtern, TokenExtern, WebExtern, !WebLaws} config u gs w0 tok w1 w :
  UserId_new (user_id_str u) = u ->
  create_jwt config u gs w0 = (Ok tok, w1) ->
  let limit := ts_seconds (utc_now (db_tick (w_db w0)) + days 1) in
  let t := utc_now (db_tick (w_db w)) in
  ((t <= limit)%Z -> default_hash tok ∉ jwt_blacklist w ->
   check_if_token_is_valid config tok w = Ok (get_permissions_from_groups u (map gd_display_name gs))) /\
  ((limit < t)%Z -> check_if_token_is_valid config tok w = Err "Expired JWT").
Proof.
  intros Hu Hc limit t. apply create_jwt_Ok in Hc as [(i & j & Hv) _].
  unfold check_if_token_is_valid. rewrite Hv. cbn [exp]. fold limit. split.
  - intros Hle Hbl. rewrite (proj2 (Z.ltb_ge _ _)) by done. rewrite bool_decide_eq_false_2 by done.
    cbn [claim_user claim_groups]. rewrite Hu. f_equal. apply permissions_of_set, claimed_groups.
  - intros Hlt. by rewrite (proj2 (Z.ltb_lt _ _)).
Qed.

(** The hash of a token, a 64-bit unsigned number, is stored in a signed column and
    read back without loss: the list a restarted server starts with has the hash of a
    token exactly when the token's row is marked as revoked. *)
Theorem revoked_hashes_exact `{TokenExtern, !TokenLaws} t tok :
  (forall k r, tt_jwt (t_tokens t) !! k = Some r -> in_i64 k = true) ->
  in_i64 (as_i64 (default_hash tok)) = true /\
  (default_hash tok ∈ jwt_hashes jr_blacklisted t <->
   exists r, tt_jwt (t_tokens t) !! as_i64 (default_hash tok) = Some r /\ jr_blacklisted r = true).
Proof.
  intros Hk. pose proof (default_hash_u64 tok) as Hu. split; [by apply as_i64_in_i64|].
  rewrite jwt_hashes_spec. split.
  - intros (k & r & Hl & Hb & Heq). exists r. rewrite Heq, as_i64_as_u64 by eauto. done.
  - intros (r & Hl & Hb). eexists _, r. split; [exact Hl|]. by rewrite as_u64_as_i64.
Qed.

(** The logout is sent by someone who only knows the name [bob]; then the database is
    cleaned. *)
Lemma logout_is_final_witness :
  let w3 := snd (demo_logout (demo_header "guess+Bob") (snd demo_issued)) in
  is_ok (fst (demo_logout (demo_header "guess+Bob") (snd demo_issued))) = true /\
  is_ok (demo_check demo_token (in_db (@cleanup_db demo_sql_extern) w3)) = false.
Proof.
  intros w3. assert (is_ok (fst (demo_logout (demo_header "guess+Bob") (snd demo_issued))) = true) as Hok
    by (vm_compute; reflexivity). split; [exact Hok|].
  destruct (demo_logout (demo_header "guess+Bob") (snd demo_issued)) as [[resp|e] w] eqn:El; [|discriminate].
  assert (w3 = w) as -> by reflexivity.
  apply (@logout_is_final lawful_extern demo_ldap_extern demo_sql_extern demo_opaque_extern demo_token_extern
    demo_web_extern _ _ _ "key" demo_config (MkUserId "bob") [demo_admin_group] demo_web demo_token
    (snd demo_issued) [] (snd demo_issued) (demo_header "guess+Bob")
    (@default_hash demo_token_extern "guess") resp w [EvCleanup]).
  - exact demo_issued_eq.
  - constructor.
  - apply not_elem_of_nil.
  - reflexivity.
  - exact El.
  - eapply StepsCons; [apply StepCleanup | apply StepsNil].
  - intros He%list_elem_of_singleton. discriminate.
Defined.

Lemma issued_token_lifetime_witness :
  let later := MkWeb (MkDb (db_tables demo_db) 86402 []) ∅ [] in
  demo_check demo_token demo_web = Ok (MkValidationResults (MkUserId "bob") Admin) /\
  demo_check demo_token later = Err "Expired JWT".
Proof.
  intros later. split.
  - transitivity (Ok (E := string) (@get_permissions_from_groups lawful_extern (MkUserId "bob")
      (map gd_display_name [demo_admin_group]))); [|vm_compute; reflexivity].
    refine (proj1 (@issued_token_lifetime lawful_extern demo_sql_extern demo_token_extern demo_web_extern _
      demo_config (MkUserId "bob") [demo_admin_group] demo_web demo_token (snd demo_issued) demo_web
      eq_refl demo_issued_eq) _ _); [vm_compute; discriminate | apply not_elem_of_empty].
  - refine (proj2 (@issued_token_lifetime lawful_extern demo_sql_extern demo_token_extern demo_web_extern _
      demo_config (MkUserId "bob") [demo_admin_group] demo_web demo_token (snd demo_issued) later
      eq_refl demo_issued_eq) _). vm_compute. reflexivity.
Defined.

Lemma revoked_hashes_exact_witness :
  let h := @default_hash demo_token_extern "secret-token" in
  let t := with_tokens empty_tables (MkTokenTables ∅ {[ as_i64 h := MkJwtRow (MkUserId "bob") 0 true ]} ∅) in
  (9223372036854775807 < h)%Z /\ h ∈ jwt_hashes jr_blacklisted t.
Proof.
  intros h t. split; [vm_compute; reflexivity|].
  refine (proj2 (proj2 (@revoked_hashes_exact demo_token_extern _ t "secret-token" _)) _).
  - intros k r Hk.
    change (tt_jwt (t_tokens t)) with ({[ as_i64 h := MkJwtRow (MkUserId "bob") 0 true ]} : gmap Z JwtRow) in Hk.
    rewrite lookup_singleton_Some in Hk. destruct Hk as [<- _]. apply as_i64_in_i64, default_hash_u64.
  - exists (MkJwtRow (MkUserId "bob") 0 true). split; [|reflexivity].
    exact (lookup_singleton_eq (M := gmap Z) (as_i64 h) _).
Defined.

(** ** Password reset *)

Section Reset.
Context `{Extern, SqlExtern, OpaqueExtern, TokenExtern, WebExtern, !WebLaws} (config : AppConfig).

Lemma reset_lookup_Ok token s u s' :
  get_user_id_for_password_reset_token token s = (Ok u, s') ->
  db_tables s' = db_tables s /\
  exists r, tt_reset (t_tokens (db_tables s)) !! token = Some r /\ sr_user_id r = u /\
    (utc_now (db_tick s) < sr_expiry_date r)%Z.
Proof.
  intros Hs. unfold get_user_id_for_password_reset_token in Hs. unfold io_bind at 1 in Hs. simpl in Hs.
  apply io_bind_Ok in Hs as (row & s1 & [-> H1']%dquery_Ok & Hs).
  destruct (tt_reset _ !! token) as [r|] eqn:Er; [|done].
  destruct (Z.ltb_spec (utc_now (db_tick s)) (sr_expiry_date r)); [|done]. io_inv Hs. eauto.
Qed.

Lemma reset_deleted token s :
  (forall n, fault n = None) ->
  tt_reset (t_tokens (db_tables (snd (delete_password_reset_token token s)))) !! token = None.
Proof.
  intros Hnf. unfold delete_password_reset_token, io_bind, dexec, io_map_err, exec. rewrite Hnf.
  destruct (tt_reset (t_tokens (db_tables s)) !! token) eqn:Er; simpl; [|done]. apply lookup_delete_eq.
Qed.

Lemma create_jwt_reset u gs w token :
  tt_reset (t_tokens (db_tables (w_db (snd (create_jwt config u gs w))))) !! token =
  tt_reset (t_tokens (db_tables (w_db w))) !! token.
Proof.
  unfold create_jwt, io_bind at 1 2. simpl. destruct (sign_with_key _ _); [|done].
  unfold io_bind, try_backend, register_jwt, dexec, io_map_err, exec, insert_jwt.
  destruct (fault _); [done|]. simpl. destruct (tt_jwt _ !! _); [done|]. by destruct (t_users _ !! u).
Qed.
End Reset.

(** C22: the second step of a password reset succeeds only with a token that was stored for
    the user and has not expired; the session it opens belongs to that user with no
    special right, whatever groups the user is in; and the token is gone: the second
    step with it fails from then on, until it is generated again. *)
Theorem password_reset_single_use `{Extern, SqlExtern, OpaqueExtern, TokenExtern, WebExtern, !WebLaws}
    config token w response w' :
  (forall n, fault n = None) ->
  get_password_reset_step2 config token w = (Ok response, w') ->
  (exists r jwt, tt_reset (t_tokens (db_tables (w_db w))) !! token = Some r /\
     (utc_now (db_tick (w_db w)) < sr_expiry_date r)%Z /\
     body response = ServerPasswordResetResponse (user_id_str (sr_user_id r)) jwt /\
     forall w2 v, check_if_token_is_valid config jwt w2 = Ok v ->
       v = MkValidationResults (UserId_new (user_id_str (sr_user_id r))) Regular) /\
  tt_reset (t_tokens (db_tables (w_db w'))) !! token = None /\
  forall w2, tt_reset (t_tokens (db_tables (w_db w2))) !! token = None ->
    fst (get_password_reset_step2 config token w2) =
    Err (Failed (NotFoundError "Wrong or expired reset token")).
Proof.
  intros Hnf Hs. unfold get_password_reset_step2 in Hs.
  apply io_bind_Ok in Hs as (found & w1 & Hf & Hs). unfold try_backend in Hf.
  destruct (get_user_id_for_password_reset_token token (w_db w)) as [[u|e] s1] eqn:Er;
    injection Hf as <- <-; [|done].
  apply reset_lookup_Ok in Er as (Ht & r & Hr & <- & Hexp).
  apply io_bind_Ok in Hs as (del & w2 & Hd & Hs). unfold try_backend in Hd. simpl in Hd.
  pose proof (reset_deleted token s1 Hnf) as Hgone.
  destruct (delete_password_reset_token token s1) as [rd s2] eqn:Ed. injection Hd as _ <-. simpl in Hgone.
  apply io_bind_Ok in Hs as (jwt & w3 & Hj & Hs). apply io_ret_Ok in Hs as [<- <-]. split_and!.
  - exists r, jwt. split_and!; [done|done|done|]. intros w4 v Hv.
    apply create_jwt_Ok in Hj as [(i & j & Hv') _]. unfold check_if_token_is_valid in Hv.
    rewrite Hv' in Hv. simpl in Hv. repeat case_match; simplify_eq. done.
  - pose proof (create_jwt_reset config (sr_user_id r) [] (MkWeb s2 (jwt_blacklist w) (w_mails w)) token) as Hc.
    simpl in Hj, Hc. rewrite Hj in Hc. simpl in Hc. by rewrite Hc.
  - intros w4 Hn. unfold get_password_reset_step2, io_bind at 1, try_backend.
    unfold get_user_id_for_password_reset_token, io_bind at 1. simpl. unfold io_bind at 1.
    rewrite (dquery_runs Hnf), Hn. done.
Qed.

Definition demo_reset_db : Db :=
  MkDb (with_tokens (db_tables demo_db)
    (MkTokenTables ∅ ∅ {[ "t0k3n" := MkResetRow (MkUserId "bob") (minutes 10) ]})) 0 [].

Lemma password_reset_single_use_witness :
  let step2 := @get_password_reset_step2 demo_sql_extern demo_token_extern demo_web_extern demo_config "t0k3n" in
  let w' := snd (step2 (MkWeb demo_reset_db ∅ [])) in
  fst (step2 w') = Err (Failed (NotFoundError "Wrong or expired reset token")).
Proof.
  intros step2 w'.
  assert (is_ok (fst (step2 (MkWeb demo_reset_db ∅ []))) = true) as Hok by (vm_compute; reflexivity).
  destruct (step2 (MkWeb demo_reset_db ∅ [])) as [[resp|e] w] eqn:E; [|discriminate].
  destruct (@password_reset_single_use lawful_extern demo_sql_extern demo_opaque_extern demo_token_extern
    demo_web_extern _ demo_config "t0k3n" _ resp w (fun _ => eq_refl) E) as (_ & Hgone & Hagain).
  exact (Hagain w' Hgone).
Defined.

(** ** Where the guarantees end *)

Definition demo_refresh (r : HttpRequest) (w : Web) : result WebError HttpResponse :=
  fst (@get_refresh demo_sql_extern demo_token_extern demo_web_extern demo_config r w).

Definition demo_refresh_db (u : UserId) (tick : nat) : Db :=
  MkDb (with_tokens (db_tables demo_db)
    (MkTokenTables {[ as_i64 (@default_hash demo_token_extern "r") := MkRefreshRow u (days 30) ]} ∅ ∅)) tick [].

(** A refresh token is accepted after its expiry date, as long as the cleaner has not
    removed its row; and a disabled user can go on refreshing. *)
Example refresh_ignores_expiry :
  (days 30 < @utc_now demo_sql_extern 3000000)%Z /\
  is_ok (demo_refresh (demo_header "r+bob") (MkWeb (demo_refresh_db (MkUserId "bob") 3000000) ∅ [])) = true /\
  is_ok (demo_refresh (demo_header "r+eve") (MkWeb (demo_refresh_db (MkUserId "eve") 0) ∅ [])) = true.
Proof. split_and!; vm_compute; reflexivity. Qed.

(** Deleting an account removes its rows and revokes nothing: its JWT stays valid for the
    rest of the day, with the rights of an administrator; and a JWT that was logged out
    is valid again after a restart. *)
Example deleted_user_keeps_session :
  let w1 := snd demo_issued in
  let deleted w := in_db (@run lawful_extern demo_ldap_extern demo_sql_extern (DeleteUser (MkUserId "bob"))) w in
  let restart w := MkWeb (w_db w) (jwt_hashes jr_blacklisted (db_tables (w_db w))) [] in
  let logged_out := snd (demo_logout (demo_header "r+bob") w1) in
  demo_check demo_token (deleted w1) = Ok (MkValidationResults (MkUserId "bob") Admin) /\
  is_ok (demo_check demo_token (deleted logged_out)) = false /\
  demo_check demo_token (restart (deleted logged_out)) = Ok (MkValidationResults (MkUserId "bob") Admin).
Proof. cbv zeta. split_and!; vm_compute; reflexivity. Qed.
