(* ===== verification/Startup.v ===== *)
(** * Starting the server

    [server/src/main.rs]: the built-in groups, the administrator and the private key
    when the server starts; [server/src/configuration.rs] ([compare_private_key_hashes],
    [get_server_setup]) and the private key columns of the table [metadata]
    ([sql_tables.rs]).  Creating and migrating the tables is [Migrations], loading the
    configuration [Config], and the whole command [Boot]; binding the sockets and
    starting the cleaner are left out. *)

From S2P Require Import Prelude Strings Types Schema SchemaManager Proto Access Dn Filters Search.
From S2P Require Import Database SqlConfig SqlGroups SqlUsers SqlOps SqlLists Opaque AuthTokens AuthService.

(** ** The private key *)

Inductive ConfigLocation : Type :=
| ConfigFile (path : string)
| EnvironmentVariable (name : string)
| CommandLine.

Inductive PrivateKeyLocation : Type :=
| KeySeed (l : ConfigLocation)
| KeyFile (l : ConfigLocation) (path : string)
| KeyDefault
| KeyTests.

Record PrivateKeyInfo := MkPrivateKeyInfo {
  private_key_hash : string;
  private_key_location : PrivateKeyLocation
}.

#[export] Instance ConfigLocation_eq_dec : EqDecision ConfigLocation.
Proof. solve_decision. Defined.
#[export] Instance PrivateKeyLocation_eq_dec : EqDecision PrivateKeyLocation.
Proof. solve_decision. Defined.

(** A failure that [set_up_server] reports, or a panic; the texts only tell which. *)
Inductive StartError : Type :=
| Bail (msg : string)
| StartFailed (e : DomainError)
| StartPanic (msg : string).

(** Whether the private key is entirely new. *)
Definition compare_private_key_hashes (previous_info : option PrivateKeyInfo) (info : PrivateKeyInfo)
  : result StartError bool :=
  match previous_info with
  | None => Ok true
  | Some previous =>
      if String.eqb (private_key_hash previous) (private_key_hash info) then Ok false
      else
        match private_key_location previous, private_key_location info with
        | KeyFile _ _, KeySeed _ => Err (Bail "from a file to a seed")
        | KeyDefault, KeySeed _ => Err (Bail "from the default key file to a seed")
        | KeyFile _ old_path, KeyFile _ new_path =>
            if String.eqb old_path new_path then Err (Bail "the key file has changed")
            else Err (Bail "another key file")
        | KeyTests, _ | _, KeyTests => Err (StartPanic "Test keys unexpected")
        | _, _ => Err (Bail "the private key has changed")
        end
  end.

(** What the cryptography and serde_json do: the key of a seed, a random key, and the key
    of the generator started with zeros. *)
Class StartExtern `{OpaqueExtern} := {
  ServerSetup_from_seed : string -> ServerSetup;
  ServerSetup_from_zeros : ServerSetup;
  generate_random_private_key : ServerSetup;
  ServerSetup_serialize : ServerSetup -> string;
  ServerSetup_deserialize : string -> option ServerSetup;
  private_key_sha256 : ServerSetup -> string;
  location_to_json : PrivateKeyLocation -> string;
  location_from_json : string -> option PrivateKeyLocation
}.

Class StartLaws `{StartExtern} := {
  setup_roundtrip s : ServerSetup_deserialize (ServerSetup_serialize s) = Some s;
  location_roundtrip l : location_from_json (location_to_json l) = Some l
}.

(** Where figment found a value: a file, a provider without source (by its name), the
    code, nowhere, or elsewhere. *)
Inductive ConfigSource : Type :=
| SrcFile (path : string)
| SrcName (name : string)
| SrcCode
| SrcAbsent
| SrcOther.

Inductive PrivateKeyLocationOrFigment : Type :=
| ByFigment (find_metadata : string -> ConfigSource)
| ByLocation (l : PrivateKeyLocation).

Definition figment_location (src : ConfigSource) (found : ConfigLocation -> PrivateKeyLocation)
  : result StartError PrivateKeyLocation :=
  match src with
  | SrcFile path => Ok (found (ConfigFile path))
  | SrcName name => Ok (found (EnvironmentVariable name))
  | SrcAbsent | SrcCode => Ok KeyDefault
  | SrcOther => Err (StartPanic "Unexpected config location")
  end.

Definition for_key_seed (l : PrivateKeyLocationOrFigment) : result StartError PrivateKeyLocation :=
  match l with
  | ByFigment config => figment_location (config "key_seed") KeySeed
  | ByLocation (KeyFile _ _) => Err (StartPanic "Unexpected location")
  | ByLocation l => Ok l
  end.

Definition for_key_file (l : PrivateKeyLocationOrFigment) (server_key_file : string)
  : result StartError PrivateKeyLocation :=
  match l with
  | ByFigment config => figment_location (config "key_file") (fun l => KeyFile l server_key_file)
  | ByLocation (KeySeed _) => Err (StartPanic "Unexpected location")
  | ByLocation l => Ok l
  end.

Definition FIGMENT_DUMMY_KEY_SEED : string := "__LLDAP_FIGMENT_DEFAULTS_DUMMY_SEED__".

Record ServerSetupConfig `{OpaqueExtern} := MkServerSetupConfig {
  server_setup : ServerSetup;
  setup_location : PrivateKeyLocation
}.

(** A file system: the files that exist, with their contents if they can be read, and
    whether new ones can be written. *)
Record Files := MkFiles { contents : gmap string (option string); writable : bool }.

Section Keys.
Context `{StartExtern}.

Definition get_server_setup (file_path key_seed : string) (location : PrivateKeyLocationOrFigment)
    (files : Files) : result StartError ServerSetupConfig * Files :=
  if String.eqb key_seed FIGMENT_DUMMY_KEY_SEED then
    (Ok (MkServerSetupConfig _ ServerSetup_from_zeros KeyDefault), files)
  else if negb (String.eqb key_seed "") then
    match contents files !! file_path with
    | Some _ => (Err (Bail "A key_seed was given, but a key file already exists"), files)
    | None => (let? l := for_key_seed location in
               Ok (MkServerSetupConfig _ (ServerSetup_from_seed key_seed) l), files)
    end
  else
    match contents files !! file_path with
    | Some readable =>
        (let? bytes := ok_or readable (Bail "Could not read key file") in
         let? setup := ok_or (ServerSetup_deserialize bytes) (Bail "while parsing the contents") in
         let? l := for_key_file location file_path in
         Ok (MkServerSetupConfig _ setup l), files)
    | None =>
        let setup := generate_random_private_key in
        if writable files then
          (let? l := for_key_file location file_path in Ok (MkServerSetupConfig _ setup l),
           MkFiles (<[file_path := Some (ServerSetup_serialize setup)]> (contents files)) true)
        else (Err (Bail "Could not write the generated server setup to file"), files)
    end.

(** [Configuration::get_private_key_info] *)
Definition get_private_key_info_of (c : ServerSetupConfig) : PrivateKeyInfo :=
  MkPrivateKeyInfo (private_key_sha256 (server_setup c)) (setup_location c).
End Keys.

(** ** The store at start *)

(** The row of [metadata], if there is one: the two columns, which may be null. *)
Record Metadata := MkMetadata { md_hash : option string; md_location : option string }.

Record Store := MkStore { st_db : Db; st_metadata : option Metadata }.

(** [cli::TrueFalseAlways] *)
Inductive TrueFalseAlways : Type := TfaFalse | TfaTrue | TfaAlways.

Definition is_positive (t : TrueFalseAlways) : bool := match t with TfaTrue | TfaAlways => true | TfaFalse => false end.
Definition is_yes (t : TrueFalseAlways) : bool := match t with TfaTrue => true | _ => false end.

(** The part of the configuration that the start looks at. *)
Record Configuration `{OpaqueExtern} := MkConfiguration {
  ldap_user_dn : UserId;
  ldap_user_email : string;
  ldap_user_pass : option string;
  force_ldap_user_pass_reset : TrueFalseAlways;
  force_update_private_key : bool;
  cfg_setup : ServerSetupConfig
}.

Section Start.
Context `{Extern, SqlExtern, OpaqueExtern, !StartExtern}.

Definition on_db {A} (m : io Db DomainError A) : io Store StartError A := fun st =>
  let '(r, s) := m (st_db st) in (map_err StartFailed r, MkStore s (st_metadata st)).

Definition get_private_key_info : io Store StartError (option PrivateKeyInfo) := fun st =>
  let '(r, st) := on_db (dquery (fun _ => tt)) st in
  (let? _ := r in
   match st_metadata st with
   | None => Ok None
   | Some row =>
       match md_hash row with
       | None => Ok None
       | Some hash =>
           let? text := ok_or (md_location row) (Bail "a null location") in
           let? l := ok_or (location_from_json text) (Bail "an unreadable location") in
           Ok (Some (MkPrivateKeyInfo hash l))
       end
   end, st).

(** An UPDATE of every row. *)
Definition set_private_key_info (info : PrivateKeyInfo) : io Store StartError unit := fun st =>
  match on_db (dexec (fun t => Ok (tt, t))) st with
  | (Ok tt, st) =>
      (Ok tt, MkStore (st_db st) ((fun _ => MkMetadata (Some (private_key_hash info))
                 (Some (location_to_json (private_key_location info)))) <$> st_metadata st))
  | (Err e, st) => (Err e, st)
  end.

Definition ensure_group_exists (group_name : string) : io Store StartError unit :=
  let! groups := on_db (sql_list_groups (Some (GDisplayName (MkGroupName group_name)))) in
  match groups with
  | [] => let! _ := on_db (sql_create_group (MkCreateGroupRequest (MkGroupName group_name)
                      [string_attribute "ou" "groups"])) in io_ret tt
  | _ => io_ret tt
  end.

Definition create_admin_user (config : Configuration) : io Store StartError unit :=
  match ldap_user_pass config with
  | None => io_fail (StartPanic "The LDAP admin password must be initialized.")
  | Some pass =>
      if (String.length pass <? 8)%nat then io_fail (StartPanic "Minimum password length is 8 characters")
      else
        let! _ := on_db (sql_create_user (MkCreateUserRequest (ldap_user_dn config)
          (MkEmail (ldap_user_email config)) (Some "Administrator") [string_attribute "ou" "people"])) in
        let! _ := on_db (sql_register_password (server_setup (cfg_setup config)) (ldap_user_dn config) pass) in
        let! groups := on_db (sql_list_groups (Some (GDisplayName (MkGroupName "lldap_admin")))) in
        match groups with
        | [g] => on_db (sql_add_user_to_group (ldap_user_dn config) (g_id g))
        | _ => io_fail (StartPanic "assertion failed: groups.len() == 1")
        end
  end.

(** The recorded key against the configured one. *)
Definition check_private_key (config : Configuration) : io Store StartError unit :=
  let info := get_private_key_info_of (cfg_setup config) in
  let! previous := get_private_key_info in
  match compare_private_key_hashes previous info, force_update_private_key config with
  | Err (StartPanic msg), _ => io_fail (StartPanic msg)
  | Ok false, true => io_fail (Bail ("The private key has not changed, but "
      +:+ "force_update_private_key/LLDAP_FORCE_UPDATE_PRIVATE_KEY is set to true. "
      +:+ "Please set force_update_private_key to false and restart the server."))
  | Ok true, _ | Err _, true => set_private_key_info info
  | Ok false, false => io_ret tt
  | Err e, false => io_fail e
  end.

Definition startup_groups : list string :=
  ["lldap_admin"; "lldap_password_manager"; "lldap_strict_readonly"; "lldap_disabled"; "lldap_sudohost"].

Definition admin_present : io Store StartError bool :=
  let! admins := io_try (on_db (list_users_or_panic (Some (UMemberOf (MkGroupName "lldap_admin"))) false)) in
  io_ret match admins with
         | Ok (_ :: _) => true
         | _ => false
         end.

Definition set_up_admin (config : Configuration) (present : bool) : io Store StartError unit :=
  if negb present then create_admin_user config
  else if is_positive (force_ldap_user_pass_reset config) then
    match ldap_user_pass config with
    | None => io_fail (StartPanic "The LDAP admin password must be initialized.")
    | Some pass => on_db (sql_register_password (server_setup (cfg_setup config)) (ldap_user_dn config) pass)
    end
  else io_ret tt.

Definition set_up_server (config : Configuration) : io Store StartError unit :=
  let! _ := check_private_key config in
  let! _ := io_iter ensure_group_exists startup_groups in
  let! present := admin_present in
  let! _ := set_up_admin config present in
  if force_update_private_key config || is_yes (force_ldap_user_pass_reset config) then
    io_fail (Bail ("Restart the server without --force-update-private-key or "
      +:+ "--force-ldap-user-pass-reset to continue."))
  else io_ret tt.
End Start.

(** ** Groups *)

Section GroupsKept.
Context `{Extern, LdapExtern, SqlExtern, !SqlLaws}.

(** Some group has the name, without case. *)
Definition has_group (name : string) (gt : gmap GroupId GroupRow * gset (UserId * GroupId)) : Prop :=
  exists g r, gt.1 !! g = Some r /\ gr_lowercase_display_name r = str_to_lowercase name.

Lemma touch_has_group name g d :
  stmt_keeps (fun t => has_group name (group_tables t)) (update_group_row g (set_group_modified d)).
Proof.
  intros t a t' Ht (g' & r & Hr & Hn). unfold update_group_row in Ht.
  destruct (t_groups t !! g) as [r0|] eqn:E0; [|by simplify_eq; exists g', r].
  destruct (group_conflict _ _ _); [done|]. injection Ht as _ <-.
  unfold has_group, group_tables in *. simpl in *. destruct (decide (g = g')) as [->|Hne].
  - exists g', (set_group_modified d r0). rewrite lookup_insert_eq. split; [done|]. simpl. by simplify_eq.
  - exists g', r. by rewrite lookup_insert_ne.
Qed.

#[export] Instance has_group_invariant name : GroupInvariant (has_group name).
Proof.
  split; [apply touch_has_group|]. intros row t a t' Ht (g & r & Hr & Hn). unfold insert_group in Ht.
  destruct (group_conflict _ _ _); [done|]. injection Ht as _ <-. exists g, r. split; [|done].
  unfold group_tables in *. simpl in *. rewrite lookup_insert_ne; [done|]. intros Heq.
  apply (fresh_group_id_new (dom (t_groups t))). rewrite Heq. apply elem_of_dom. eauto.
Qed.

Lemma join_has_group name u g : keeps (fun t => has_group name (group_tables t)) (sql_add_user_to_group u g).
Proof.
  unfold sql_add_user_to_group, join_group, touch_group. repeat keeps_step; [|apply touch_has_group].
  intros t b t'. unfold insert_membership. crush_match.
Qed.

Lemma create_group_Ok r s g s' :
  sql_create_group r s = (Ok g, s') -> has_group (group_name_str (cg_display_name r)) (group_tables (db_tables s')).
Proof.
  unfold sql_create_group. intros Hs. apply io_bind_Ok in Hs as (d & s1 & _ & Hs).
  apply io_bind_Ok in Hs as (ous & s2 & _ & Hs). apply transaction_Ok in Hs as (s3 & s4 & _ & Hb & ->).
  unfold create_group_body in Hb. do 4 (apply io_bind_Ok in Hb as (? & ? & _ & Hb)).
  apply io_bind_Ok in Hb as (g' & s5 & Hi%dexec_Ok & Hb). apply io_bind_Ok in Hb as (rows & s6 & Hl & Hb).
  apply io_lift_Ok in Hl as [_ <-]. apply io_bind_Ok in Hb as (w & s7 & Hp & Hb). io_inv Hb.
  assert (has_group (group_name_str (cg_display_name r)) (group_tables (db_tables s5))) as H5'.
  { unfold insert_group in Hi. destruct (group_conflict _ _ _); [done|]. injection Hi as -> Hi.
    rewrite <- Hi. eexists _, _. simpl. by rewrite lookup_insert_eq. }
  unfold unless_empty in Hp. destruct rows; [by io_inv Hp|]. apply dexec_Ok in Hp.
  apply put_group_attributes_frame in Hp. by rewrite Hp.
Qed.
End GroupsKept.

(** ** A start that succeeds *)

Section Started.
Context `{Extern, LdapExtern, SqlExtern, OpaqueExtern, !StartExtern, !SqlLaws}.
Local Abbreviation tables st := (db_tables (st_db st)).

(** Lift what is known of the backend's operations. *)
Definition skeeps {A} (I : Tables -> Prop) (m : io Store StartError A) : Prop :=
  forall st, I (tables st) -> I (tables (snd (m st))).

Lemma skeeps_on_db {A} I (m : io Db DomainError A) : keeps I m -> skeeps I (on_db m).
Proof. intros Hm st Hs. unfold on_db. specialize (Hm (st_db st) Hs). by destruct (m (st_db st)). Qed.

Lemma skeeps_bind {A B} I (m : io Store StartError A) (k : A -> io Store StartError B) :
  skeeps I m -> (forall a, skeeps I (k a)) -> skeeps I (io_bind m k).
Proof.
  intros Hm Hk st Hs. unfold io_bind. specialize (Hm st Hs). destruct (m st) as [[a|e] st']; [|done]. by apply Hk.
Qed.

Lemma skeeps_same {A} I (m : io Store StartError A) : (forall st, tables (snd (m st)) = tables st) -> skeeps I m.
Proof. intros Hm st Hs. by rewrite Hm. Qed.

Lemma on_db_Ok {A} (m : io Db DomainError A) st a st' :
  on_db m st = (Ok a, st') -> m (st_db st) = (Ok a, st_db st') /\ st_metadata st' = st_metadata st.
Proof. unfold on_db. destruct (m (st_db st)) as [[b|e] s]; intros Hm; simplify_eq/=; done. Qed.

Lemma get_key_tables st : tables (snd (get_private_key_info st)) = tables st /\
  st_metadata (snd (get_private_key_info st)) = st_metadata st.
Proof.
  unfold get_private_key_info, on_db. pose proof (preserves_dquery (fun _ => tt) (st_db st)) as Hp.
  destruct (dquery _ _) as [r s]. simpl in *. done.
Qed.

Lemma set_key_tables info st : tables (snd (set_private_key_info info st)) = tables st.
Proof.
  unfold set_private_key_info, on_db.
  pose proof (preserves_dquery (fun _ => tt) (st_db st)) as Hp. unfold dquery, query in Hp.
  unfold dexec. destruct (io_map_err DatabaseError _ _) as [[[]|e] s]; simpl in *; done.
Qed.

Lemma check_key_tables config st : tables (snd (check_private_key config st)) = tables st.
Proof.
  unfold check_private_key, io_bind. cbv zeta. destruct (get_key_tables st) as [Ht _].
  destruct (get_private_key_info st) as [[prev|e] st1]; simpl in *; [|done].
  repeat case_match; simpl; rewrite ?set_key_tables; done.
Qed.

(** After the check, what is recorded is the configured key. *)
Lemma check_key_recorded config st st' row :
  check_private_key config st = (Ok tt, st') -> st_metadata st' = Some row ->
  md_hash row = Some (private_key_sha256 (server_setup (cfg_setup config))).
Proof.
  unfold check_private_key. cbv zeta. set (info := get_private_key_info_of _). intros Hs Hrow.
  assert (forall st, set_private_key_info info st = (Ok tt, st') -> md_hash row = Some (private_key_hash info)) as Hset.
  { intros st0 H0'. unfold set_private_key_info in H0'. destruct (on_db _ st0) as [[[]|e] st1]; [|done].
    injection H0' as <-. simpl in Hrow. destruct (st_metadata st1); [|done]. by injection Hrow as <-. }
  apply io_bind_Ok in Hs as (prev & st1 & Hg & Hs).
  destruct (compare_private_key_hashes prev info) as [[]|[]] eqn:Ec, (force_update_private_key config);
    try done; try (by eapply Hset). io_inv Hs.
  unfold get_private_key_info in Hg. destruct (on_db _ st) as [r st2].
  injection Hg as Hg ->. apply result_bind_Ok in Hg as (_ & _ & Hg). rewrite Hrow in Hg.
  destruct (md_hash row) as [h|]; [|by simplify_eq].
  apply result_bind_Ok in Hg as (text & _ & Hg). apply result_bind_Ok in Hg as (l & _ & [= <-]).
  simpl in Ec. destruct (String.eqb h _) eqn:Eh in Ec; [by apply String.eqb_eq in Eh as ->|].
  destruct l, (setup_location (cfg_setup config)); simpl in Ec; try discriminate Ec; by case_match.
Qed.

Lemma create_group_keeps I r : keeps I (run (CreateGroup r)) -> keeps I (sql_create_group r).
Proof.
  intros Hk s Hs. specialize (Hk s Hs). simpl in Hk. unfold io_bind in Hk.
  by destruct (sql_create_group r s) as [[] ?].
Qed.

Lemma ensure_skeeps I name :
  (forall r, keeps I (run (CreateGroup r))) -> skeeps I (ensure_group_exists name).
Proof.
  intros Hk. unfold ensure_group_exists. apply skeeps_bind.
  - apply skeeps_on_db, keeps_read, preserves_list_groups.
  - intros [|g gs]; [|by intros st]. apply skeeps_bind; [by apply skeeps_on_db, create_group_keeps|by intros _ st].
Qed.

Lemma ensure_group_Ok name st st' :
  ensure_group_exists name st = (Ok tt, st') -> has_group name (group_tables (tables st')).
Proof.
  unfold ensure_group_exists. intros Hs. apply io_bind_Ok in Hs as (gs & st1 & Hl & Hs).
  pose proof (preserves_list_groups (Some (GDisplayName (MkGroupName name))) (st_db st)) as Hp.
  apply on_db_Ok in Hl as [Hl _]. rewrite Hl in Hp. simpl in Hp. destruct gs as [|g gs].
  - apply io_bind_Ok in Hs as (gid & st2 & Hc & Hs). io_inv Hs. apply on_db_Ok in Hc as [Hc _].
    by apply create_group_Ok in Hc.
  - io_inv Hs. apply sql_list_groups_Ok in Hl. inversion Hl as [|? ? (r & Hr & _ & He & _) _]; subst.
    rewrite Hp. exists (g_id g), r. split; [done|]. simpl in He. injection He as He. by apply String.eqb_eq.
Qed.

Lemma ensure_groups_Ok names st st' :
  io_iter ensure_group_exists names st = (Ok tt, st') ->
  forall n, n ∈ names -> has_group n (group_tables (tables st')).
Proof.
  assert (forall m names, skeeps (fun t => has_group m (group_tables t)) (io_iter ensure_group_exists names)) as Hk.
  { intros m ns. induction ns as [|n ns IH]; simpl; [by intros s|]. apply skeeps_bind; [|done].
    apply ensure_skeeps. intros r. by apply other_ops_keep; [apply has_group_invariant|]. }
  revert st. induction names as [|n names IH]; intros st Hs m Hm; [by apply not_elem_of_nil in Hm|].
  simpl in Hs. apply io_bind_Ok in Hs as ([] & st1 & Hn & Hs). apply elem_of_cons in Hm as [->|Hm]; [|by eapply IH].
  apply ensure_group_Ok in Hn. specialize (Hk n names st1 Hn). by rewrite Hs in Hk.
Qed.

(** ** The administrator *)

(** Somebody is in a group named [lldap_admin], whatever the case. *)
Definition has_admin (t : Tables) : Prop :=
  exists u g r, is_member t u g /\ t_groups t !! g = Some r /\
    gr_lowercase_display_name r = str_to_lowercase "lldap_admin".

Lemma admin_present_Ok st b st' :
  admin_present st = (Ok b, st') -> tables st' = tables st /\ (b = true -> has_admin (tables st)).
Proof.
  unfold admin_present, io_bind, io_try, on_db, list_users_or_panic, sql_list_users. simpl.
  set (cond := CInGroupNamed _).
  pose proof (preserves_where cond (st_db st)) as Hp.
  destruct (list_users_where cond (st_db st)) as [[us|e] s] eqn:E; intros [= <- <-]; simpl in *; [|done].
  split; [done|]. destruct us as [|ug us]; [done|]. intros _.
  apply list_users_where_ids in E. simpl in E.
  assert (u_user_id (uag_user ug) ∈ map fst (select_users cond (tables st))) as Hin by (rewrite <- E; left).
  apply (selected_ids (UMemberOf (MkGroupName "lldap_admin"))) in Hin as (r & _ & He); [|done].
  unfold user_atom in He. simpl in He. injection He as He. apply existsb_elem in He as ([g gr] & Hg & Hn).
  apply elem_of_map_to_list, map_lookup_filter_Some in Hg as [Hg Hm]. simpl in *.
  exists (u_user_id (uag_user ug)), g, gr. split_and!; [done..|]. by apply String.eqb_eq in Hn.
Qed.

Lemma list_one_group n s g gs s' :
  sql_list_groups (Some (GDisplayName (MkGroupName n))) s = (Ok (g :: gs), s') ->
  db_tables s' = db_tables s /\
  exists r, t_groups (db_tables s) !! g_id g = Some r /\ gr_lowercase_display_name r = str_to_lowercase n.
Proof.
  intros Hl. pose proof (preserves_list_groups (Some (GDisplayName (MkGroupName n))) s) as Hp.
  rewrite Hl in Hp. split; [done|]. apply sql_list_groups_Ok in Hl.
  inversion Hl as [|? ? (r & Hr & _ & He & _) _]; subst. exists r. split; [done|].
  simpl in He. injection He as He. by apply String.eqb_eq.
Qed.

Lemma join_has_admin u g s s' r :
  t_groups (db_tables s) !! g = Some r -> gr_lowercase_display_name r = str_to_lowercase "lldap_admin" ->
  sql_add_user_to_group u g s = (Ok tt, s') ->
  t_memberships (db_tables s') = {[(u, g)]} ∪ t_memberships (db_tables s) /\
  exists r', t_groups (db_tables s') !! g = Some r' /\ gr_display_name r' = gr_display_name r /\
    gr_lowercase_display_name r' = gr_lowercase_display_name r.
Proof.
  intros Hr Hn Hs. split.
  - unfold sql_add_user_to_group in Hs. apply io_bind_Ok in Hs as ([] & s1 & Hc%check_exclusion_Ok & Hs).
    apply join_group_Ok in Hs. by rewrite (proj1 Hc) in Hs.
  - assert (keeps (fun t => exists r', t_groups t !! g = Some r' /\ gr_display_name r' = gr_display_name r /\
      gr_lowercase_display_name r' = gr_lowercase_display_name r) (sql_add_user_to_group u g)) as Hk.
    { unfold sql_add_user_to_group, join_group, touch_group. repeat keeps_step.
      - intros t b t' Ht Hg. unfold insert_membership in Ht. destruct (bool_decide _); [done|].
        destruct (t_users t !! u), (t_groups t !! g) eqn:Eg; try done. injection Ht as _ <-. simpl. by rewrite Eg.
      - intros t b t' Ht (r' & Hr' & Hd & Hl). unfold update_group_row in Ht. rewrite Hr' in Ht.
        destruct (group_conflict _ _ _); [done|]. injection Ht as _ <-. simpl. rewrite lookup_insert_eq.
        eexists. split; [done|]. done. }
    specialize (Hk s). rewrite Hs in Hk. apply Hk. eauto.
Qed.

Lemma create_admin_Ok config st st' :
  create_admin_user config st = (Ok tt, st') -> has_admin (tables st').
Proof.
  unfold create_admin_user. destruct (ldap_user_pass config) as [pass|]; [|done].
  destruct (_ <? _)%nat; [done|]. intros Hs.
  apply io_bind_Ok in Hs as ([] & st1 & _ & Hs). apply io_bind_Ok in Hs as ([] & st2 & _ & Hs).
  apply io_bind_Ok in Hs as (gs & st3 & Hl & Hs). apply on_db_Ok in Hl as [Hl _].
  destruct gs as [|g [|]]; [done| |done]. apply on_db_Ok in Hs as [Hs _].
  apply list_one_group in Hl as (Ht & r & Hr & Hn). rewrite <- Ht in Hr.
  destruct (join_has_admin _ _ _ _ _ Hr Hn Hs) as (Hm & r' & Hr' & _ & Hl').
  exists (ldap_user_dn config), (g_id g), r'. unfold is_member. rewrite Hm. split_and!; [set_solver|done|congruence].
Qed.

(** What the steps that set up the administrator keep. *)
Record admin_ops_keep (setup : ServerSetup) (I : Tables -> Prop) : Prop := {
  ak_create r : keeps I (sql_create_user r);
  ak_register u pw : keeps I (sql_register_password setup u pw);
  ak_join u g : keeps I (sql_add_user_to_group u g)
}.

Lemma set_up_admin_skeeps config present I :
  admin_ops_keep (server_setup (cfg_setup config)) I -> skeeps I (set_up_admin config present).
Proof.
  intros [Hc Hr Hj]. unfold set_up_admin, create_admin_user.
  repeat (case_match; try (by intros st)); try (by apply skeeps_on_db).
  do 3 (apply skeeps_bind; [apply skeeps_on_db; auto using keeps_read, preserves_list_groups|intros ?]).
  repeat case_match; try (by intros st). by apply skeeps_on_db.
Qed.

Lemma register_keeps_groups setup u pw gt : keeps (fun t => group_tables t = gt) (sql_register_password setup u pw).
Proof.
  unfold sql_register_password, sql_registration_start, draw.
  do 5 (apply keeps_bind; [apply keeps_read; by solve_preserves|intros ?]).
  unfold sql_registration_finish. repeat keeps_step. intros t b t' Ht Hg.
  by rewrite (update_user_row_frame _ _ _ _ _ Ht).
Qed.

Lemma has_group_step setup name : admin_ops_keep setup (fun t => has_group name (group_tables t)).
Proof.
  split.
  - intros r. by apply (other_ops_keep (has_group name) (CreateUser r)).
  - intros u pw s Hs. by rewrite (register_keeps_groups setup u pw (group_tables (db_tables s)) s eq_refl).
  - intros u g. apply join_has_group.
Qed.

Lemma integrity_step setup : admin_ops_keep setup integrity.
Proof.
  split; intros; [apply create_user_integrity|apply register_password_integrity|].
  apply (run_integrity (AddUserToGroup u g)).
Qed.

Lemma ensure_groups_integrity names : skeeps integrity (io_iter ensure_group_exists names).
Proof.
  induction names as [|n names IH]; simpl; [by intros s|]. apply skeeps_bind; [|done].
  apply ensure_skeeps. intros r. apply run_integrity.
Qed.

Lemma on_db_metadata {A} (m : io Db DomainError A) : preserves st_metadata (on_db m).
Proof. intros st. unfold on_db. by destruct (m (st_db st)). Qed.

(** Only the check of the key writes the recorded one. *)
Lemma setup_metadata config :
  (forall names, preserves st_metadata (io_iter ensure_group_exists names)) /\
  preserves st_metadata admin_present /\ (forall present, preserves st_metadata (set_up_admin config present)).
Proof.
  pose proof @on_db_metadata.
  unfold ensure_group_exists, admin_present, set_up_admin, create_admin_user. split_and!; intros; solve_preserves.
Qed.
End Started.

Lemma start_ready `{Extern, LdapExtern, SqlExtern, OpaqueExtern, !StartExtern, !SqlLaws} config st st' :
  integrity (db_tables (st_db st)) -> set_up_server config st = (Ok tt, st') ->
  let t := db_tables (st_db st') in
  (forall n, n ∈ startup_groups -> has_group n (group_tables t)) /\ has_admin t /\ integrity t /\
  forall row, st_metadata st' = Some row ->
    md_hash row = Some (private_key_sha256 (server_setup (cfg_setup config))).
Proof.
  intros Hi Hs. unfold set_up_server in Hs. apply io_bind_Ok in Hs as ([] & st1 & Hkey & Hs).
  apply io_bind_Ok in Hs as ([] & st2 & Hg & Hs). apply io_bind_Ok in Hs as (present & st3 & Ha & Hs).
  apply io_bind_Ok in Hs as ([] & st4 & Hadm & Hs). destruct (_ || _); [done|]. io_inv Hs.
  pose proof (check_key_tables config st) as Ht1. rewrite Hkey in Ht1. simpl in Ht1.
  destruct (setup_metadata config) as (Hm2 & Hm3 & Hm4).
  specialize (Hm2 startup_groups st1). specialize (Hm3 st2). specialize (Hm4 present st3).
  rewrite Hg in Hm2. rewrite Ha in Hm3. rewrite Hadm in Hm4. cbn [snd] in *.
  pose proof (ensure_groups_integrity startup_groups st1) as Hi2. rewrite Hg, Ht1 in Hi2. specialize (Hi2 Hi).
  cbn [snd] in Hi2. apply admin_present_Ok in Ha as [Ht3 Hadmin].
  assert (forall I, admin_ops_keep (server_setup (cfg_setup config)) I -> I (db_tables (st_db st2)) ->
    I (db_tables (st_db st'))) as Hstep.
  { intros I HI H2'. pose proof (set_up_admin_skeeps config present I HI st3) as Hk. rewrite Hadm, Ht3 in Hk. auto. }
  cbv zeta. split_and!.
  - intros n Hn. apply (Hstep (fun t => has_group n (group_tables t))); [apply has_group_step|].
    by eapply ensure_groups_Ok.
  - unfold set_up_admin in Hadm. destruct present; simpl in Hadm; [|by apply create_admin_Ok in Hadm].
    specialize (Hadmin eq_refl). rewrite <- Ht3 in Hadmin.
    repeat case_match; try done; [|by io_inv Hadm]. apply on_db_Ok in Hadm as [Hadm _].
    pose proof (register_keeps_groups (server_setup (cfg_setup config)) (ldap_user_dn config) s _ (st_db st3)
      eq_refl) as Hr.
    rewrite Hadm in Hr. destruct Hadmin as (u & g & r & Hm & Hrow & Hn). exists u, g, r.
    unfold is_member, group_tables in *. simpl in Hr. by injection Hr as -> ->.
  - by apply (Hstep integrity (integrity_step _)).
  - intros row Hrow. eapply check_key_recorded; [exact Hkey|]. congruence.
Qed.

(** When the server starts successfully, the store has the five built-in groups and
    an administrator, its references still resolve, and the key recorded in it, if any
    is, is the one the server uses. *)
Theorem started_server_ready `{Extern, LdapExtern, SqlExtern, OpaqueExtern, !StartExtern, !SqlLaws} config st st' :
  integrity (db_tables (st_db st)) -> set_up_server config st = (Ok tt, st') ->
  let t := db_tables (st_db st') in
  (forall n, n ∈ startup_groups -> has_group n (group_tables t)) /\ has_admin t /\ integrity t /\
  forall row, st_metadata st' = Some row ->
    md_hash row = Some (private_key_sha256 (server_setup (cfg_setup config))).
Proof. apply start_ready. Qed.

(** With a key other than the recorded one, and unless the update of the key is
    forced, the server does not start, and neither the tables nor the recorded key
    change. *)
Theorem changed_key_refused `{Extern, SqlExtern, OpaqueExtern, !StartExtern} config st text h l :
  st_metadata st = Some (MkMetadata (Some h) (Some text)) -> location_from_json text = Some l ->
  h <> private_key_sha256 (server_setup (cfg_setup config)) -> force_update_private_key config = false ->
  exists e st', set_up_server config st = (Err e, st') /\
    db_tables (st_db st') = db_tables (st_db st) /\ st_metadata st' = st_metadata st.
Proof.
  intros Hm Hl Hh Hf. unfold set_up_server.
  enough (exists e st', check_private_key config st = (Err e, st') /\
    db_tables (st_db st') = db_tables (st_db st) /\ st_metadata st' = st_metadata st) as (e & st' & He & Hst).
  { exists e, st'. split; [|done]. unfold io_bind at 1. by rewrite He. }
  unfold check_private_key, io_bind. cbv zeta. destruct (get_key_tables st) as [Ht Hmd].
  unfold get_private_key_info in *. destruct (on_db _ st) as [[u|e] st1] eqn:E; simpl in *; [|eauto].
  rewrite Hmd, Hm. simpl. rewrite Hl. simpl.
  rewrite (proj2 (String.eqb_neq h _) Hh), Hf. rewrite <- Hm.
  destruct l, (setup_location (cfg_setup config)); repeat (simpl; case_match); try done; simpl; eauto.
Qed.

(** ** The first login *)

(** The lowercase column of a group's row is its name in lowercase. *)
Definition lowercase_names `{Extern} (t : Tables) : Prop :=
  forall g r, t_groups t !! g = Some r ->
    gr_lowercase_display_name r = str_to_lowercase (group_name_str (gr_display_name r)).

Section FirstLogin.
Context `{Extern, LdapExtern, SqlExtern, OpaqueExtern, !StartExtern, !SqlLaws, !OpaqueLaws, !UnicodeLaws}.

Lemma create_user_Ok r s s' :
  sql_create_user r s = (Ok tt, s') ->
  t_users (db_tables s) !! cu_user_id r = None /\ group_tables (db_tables s') = group_tables (db_tables s).
Proof.
  intros Hs. split.
  - unfold sql_create_user in Hs. apply io_bind_Ok in Hs as (d & s1 & Hn & Hs). apply now_Ok in Hn as ->.
    pose proof (preserves_allowed_ous s) as Hp. apply io_bind_Ok in Hs as (ous & s2 & Ho & Hs).
    rewrite Ho in Hp. cbn [snd] in Hp. cbv zeta in Hs.
    apply transaction_Ok in Hs as (s3 & s4 & H3' & Hb & _). rewrite <- Hp, <- H3'. clear Ho Hp H3'.
    unfold create_user_body in Hb.
    apply io_bind_Ok in Hb as (schema & t1 & Hq & Hb).
    pose proof (preserves_get_schema s3) as P1. rewrite Hq in P1. clear Hq.
    apply io_bind_Ok in Hb as (p & t2 & Hq & Hb).
    pose proof (preserves_posix_settings t1) as P2. rewrite Hq in P2. clear Hq.
    apply io_bind_Ok in Hb as (v & t3 & Hq & Hb).
    pose proof (preserves_iter db_tables check_new_user_number (push_default true "ou"
      (string_attribute "ou" (hd "people" ous)) (cu_attributes r)) preserves_check_new_user_number t2) as P3.
    rewrite Hq in P3. clear Hq. apply io_bind_Ok in Hb as (attrs & t4 & Hq & Hb).
    pose proof (preserves_assign_uid_number p (push_default true "ou"
      (string_attribute "ou" (hd "people" ous)) (cu_attributes r)) t3) as P4. rewrite Hq in P4. clear Hq.
    cbn [snd] in *. apply io_bind_Ok in Hb as (w & t5 & Hi%dexec_Ok & _).
    rewrite <- P1, <- P2, <- P3, <- P4. unfold insert_user in Hi. by destruct (t_users _ !! _).
  - assert (keeps (fun t => group_tables t = group_tables (db_tables s)) (sql_create_user r)) as Hk.
    { unfold sql_create_user, create_user_body. repeat keeps_step;
        apply (stmt_frame_keeps group_tables (fun x => x = group_tables (db_tables s))); auto with frames. }
    specialize (Hk s eq_refl). by rewrite Hs in Hk.
Qed.

Lemma join_keeps_user u g v row : keeps (fun t => t_users t !! v = Some row) (sql_add_user_to_group u g).
Proof.
  unfold sql_add_user_to_group, join_group, touch_group. repeat keeps_step.
  - intros t b t'. unfold insert_membership. crush_match.
  - intros t b t'. unfold update_group_row. crush_match.
Qed.
End FirstLogin.

(** The administrator that the first start creates can log in with the configured
    password at once. *)
Theorem created_admin_can_log_in
    `{Extern, LdapExtern, SqlExtern, OpaqueExtern, !StartExtern, !SqlLaws, !OpaqueLaws, !UnicodeLaws} config pw
    st st' :
  (forall n, fault n = None) -> integrity (db_tables (st_db st)) -> lowercase_names (db_tables (st_db st)) ->
  UserId_new (user_id_str (ldap_user_dn config)) = ldap_user_dn config -> ldap_user_pass config = Some pw ->
  create_admin_user config st = (Ok tt, st') ->
  fst (sql_bind (server_setup (cfg_setup config)) (MkBindRequest (ldap_user_dn config) pw) (st_db st')) = Ok tt.
Proof.
  intros Hnf Hi Hlow Hu Hpw Hs. unfold create_admin_user in Hs. rewrite Hpw in Hs.
  destruct (_ <? _)%nat; [done|]. set (u := ldap_user_dn config) in *. set (setup := server_setup _) in *.
  apply io_bind_Ok in Hs as ([] & st1 & Hc & Hs). apply on_db_Ok in Hc as [Hc _].
  apply io_bind_Ok in Hs as ([] & st2 & Hr & Hs). apply on_db_Ok in Hr as [Hr _].
  apply io_bind_Ok in Hs as (gs & st3 & Hl & Hs). apply on_db_Ok in Hl as [Hl _].
  destruct gs as [|g [|]]; [done| |done]. apply on_db_Ok in Hs as [Hs _].
  match type of Hc with sql_create_user ?r _ = _ => pose proof (create_user_integrity r (st_db st) Hi) as Hi1 end. rewrite Hc in Hi1.
  pose proof (register_password_integrity setup u pw _ Hi1) as Hi2. cbn [snd] in Hi2. rewrite Hr in Hi2.
  cbn [snd] in Hi2.
  apply create_user_Ok in Hc as [Hnew Hgt1].
  pose proof (register_keeps_groups setup u pw _ (st_db st1) eq_refl) as Hgt2. rewrite Hr, Hgt1 in Hgt2.
  apply register_password_Ok in Hr as (row & upload & c0 & c2 & d & Hx & Hrow & Ht2); [|done].
  apply list_one_group in Hl as (Ht3 & r & Hgr & Hn). cbn [snd] in Hgt2.
  rewrite <- Ht3 in Hgr, Hi2. pose proof (run_integrity (AddUserToGroup u (g_id g)) _ Hi2) as Hi4.
  simpl in Hi4. rewrite Hs in Hi4. cbn [snd] in Hi4.
  set (row' := set_password (ServerRegistration_serialize (get_password_file upload)) d row).
  assert (t_users (db_tables (st_db st')) !! u = Some row') as Hrow4.
  { pose proof (join_keeps_user u (g_id g) u row' (st_db st3)) as Hk. rewrite Hs in Hk. apply Hk.
    rewrite Ht3, Ht2. apply lookup_insert_eq. }
  destruct (join_has_admin _ _ _ _ _ Hgr Hn Hs) as (Hm & r' & Hr' & Hd' & _).
  rewrite <- Ht3 in Hgt2. unfold group_tables in Hgt2. injection Hgt2 as Hg3 Hm3.
  destruct (bind_answer setup u pw (st_db st') row' Hnf Hi4) as [rng ->]; [|done|].
  - intros (g' & Hname & Hmem). unfold is_member in Hmem. rewrite Hm, Hm3 in Hmem.
    apply elem_of_union in Hmem as [Hg'%elem_of_singleton|Hmem].
    + injection Hg' as ->. unfold name_at in Hname. rewrite Hr' in Hname. simpl in Hname.
      injection Hname as Hname. rewrite Hd' in Hname. rewrite Hg3 in Hgr. pose proof (Hlow _ _ Hgr) as Hlr.
      rewrite Hn, Hname in Hlr. simpl in Hlr. rewrite !str_to_lowercase_ascii in Hlr by done. discriminate Hlr.
    + apply (member_user _ Hi) in Hmem as [? Hx']. simpl in Hnew. by rewrite Hnew in Hx'.
  - simpl. unfold get_password_file.
    rewrite passwords_match_exchange, (login_after_registration _ _ _ _ _ _ pw rng Hx).
    by rewrite bool_decide_eq_true_2.
Qed.

(** ** A first start, evaluated *)

Definition demo_location_json (l : PrivateKeyLocation) : string :=
  match l with
  | KeyDefault => "D"
  | KeyTests => "T"
  | KeySeed (ConfigFile p) => "sf" +:+ p
  | KeySeed (EnvironmentVariable n) => "se" +:+ n
  | KeySeed CommandLine => "sc"
  | KeyFile (ConfigFile p) f => "ff" +:+ demo_put_string p +:+ f
  | KeyFile (EnvironmentVariable n) f => "fe" +:+ demo_put_string n +:+ f
  | KeyFile CommandLine f => "fc" +:+ f
  end.

Definition demo_location_of (s : string) : option PrivateKeyLocation :=
  match s with
  | String "D" _ => Some KeyDefault
  | String "T" _ => Some KeyTests
  | String "s" (String "f" p) => Some (KeySeed (ConfigFile p))
  | String "s" (String "e" n) => Some (KeySeed (EnvironmentVariable n))
  | String "s" _ => Some (KeySeed CommandLine)
  | String "f" (String "f" r) => '(p, f) ← demo_get_string r; Some (KeyFile (ConfigFile p) f)
  | String "f" (String "e" r) => '(n, f) ← demo_get_string r; Some (KeyFile (EnvironmentVariable n) f)
  | String "f" (String _ f) => Some (KeyFile CommandLine f)
  | _ => None
  end.

Definition demo_start_extern : @StartExtern demo_opaque_extern :=
  @Build_StartExtern demo_opaque_extern (fun seed => seed) "zeros" "random" (fun s : string => s) Some
    (fun s : string => s) demo_location_json demo_location_of.

#[export] Instance demo_start_laws : @StartLaws demo_opaque_extern demo_start_extern.
Proof.
  split; [done|]. intros [[]|[p|p|] f| |]; try done.
  - change (('(x, y) ← demo_get_string (demo_put_string p +:+ f); Some (KeyFile (ConfigFile x) y))
      = Some (KeyFile (ConfigFile p) f)). by rewrite demo_get_put.
  - change (('(x, y) ← demo_get_string (demo_put_string p +:+ f); Some (KeyFile (EnvironmentVariable x) y))
      = Some (KeyFile (EnvironmentVariable p) f)). by rewrite demo_get_put.
Qed.

Definition demo_configuration (setup : string) : @Configuration demo_opaque_extern :=
  @MkConfiguration demo_opaque_extern (MkUserId "admin") "admin@x.org" (Some "password1") TfaFalse false
    (@MkServerSetupConfig demo_opaque_extern setup KeyDefault).

(** Empty tables, with the schema rows of the hard-coded attributes. *)
Definition fresh_tables : Tables :=
  MkTables ∅ ∅ ∅ ∅ ∅ (seeded_schema (s_user_attributes PublicSchema_get))
    (seeded_schema (s_group_attributes PublicSchema_get)) ∅ ∅ ∅ (MkTokenTables ∅ ∅ ∅).

Definition fresh_store : Store := MkStore (MkDb fresh_tables 0 []) (Some (MkMetadata None None)).

Lemma fresh_integrity : integrity fresh_tables.
Proof. constructor; intros *; simpl; (set_solver || by rewrite lookup_empty). Qed.

Lemma one_group_integrity : integrity (with_groups fresh_tables {[ 1%Z := demo_group "lldap_admin" ]}).
Proof.
  constructor; cbn [t_users t_groups t_memberships t_user_attributes t_group_attributes
    t_user_attribute_schema t_group_attribute_schema t_tokens tt_refresh tt_jwt tt_reset with_groups fresh_tables];
    intros *; try (intros Hm; set_solver); try (intros H1; open_lookups; by eexists);
    intros H1 H2 He; open_lookups; done.
Qed.

Lemma one_group_lowercase :
  @lowercase_names lawful_extern (with_groups fresh_tables {[ 1%Z := demo_group "lldap_admin" ]}).
Proof. intros g r. cbn [t_groups with_groups]. intros [<- <-]%lookup_singleton_Some. reflexivity. Qed.

Definition demo_start (setup : string) : io Store StartError unit :=
  @set_up_server lawful_extern demo_sql_extern demo_opaque_extern demo_start_extern (demo_configuration setup).

Lemma started_server_ready_witness :
  let st' := snd (demo_start "key" fresh_store) in
  @has_admin lawful_extern (db_tables (st_db st')) /\
  st_metadata st' = Some (MkMetadata (Some "key") (Some "D")).
Proof.
  intros st'.
  assert (demo_start "key" fresh_store = (Ok tt, st')) as Hs.
  { rewrite (surjective_pairing (demo_start "key" fresh_store)). by f_equal. }
  split; [|vm_compute; reflexivity]. clearbody st'.
  exact (proj1 (proj2 (@started_server_ready lawful_extern demo_ldap_extern demo_sql_extern demo_opaque_extern
    demo_start_extern _ (demo_configuration "key") fresh_store st' fresh_integrity Hs))).
Defined.

Lemma changed_key_refused_witness :
  let st := snd (demo_start "key" fresh_store) in
  exists e st', demo_start "other" st = (Err e, st') /\ db_tables (st_db st') = db_tables (st_db st) /\
    st_metadata st' = st_metadata st.
Proof.
  intros st. apply (@changed_key_refused lawful_extern demo_sql_extern demo_opaque_extern demo_start_extern
    (demo_configuration "other") st "D" "key" KeyDefault); [vm_compute; reflexivity..|discriminate|reflexivity].
Defined.

Lemma created_admin_can_log_in_witness :
  let create := @create_admin_user lawful_extern demo_sql_extern demo_opaque_extern (demo_configuration "key") in
  let st := MkStore (MkDb (with_groups fresh_tables {[ 1%Z := demo_group "lldap_admin" ]}) 0 []) None in
  demo_bind "admin" "password1" (st_db (snd (create st))) = Ok tt.
Proof.
  intros create st. set (st' := snd (create st)).
  assert (create st = (Ok tt, st')) as Hs.
  { rewrite (surjective_pairing (create st)). by f_equal. }
  clearbody st'. refine (@created_admin_can_log_in lawful_extern demo_ldap_extern demo_sql_extern
    demo_opaque_extern demo_start_extern _ _ _ (demo_configuration "key") "password1" st st' (fun _ => eq_refl) _ _
    eq_refl eq_refl Hs).
  - exact one_group_integrity.
  - exact one_group_lowercase.
Defined.
