(* ===== verification/GraphqlQuery.v ===== *)
(** * GraphQL queries

    [crates/graphql-server/src/query]: the objects a query answers with (attributes,
    users, groups, schema), the request filters, and the resolvers of [Query];
    [crates/graphql-server/src/api.rs]: what a request may use of the backend.

    The resolvers are written against the interface [BackendHandler], like the LDAP
    layer.  The interfaces [SchemaBackendHandler] and [ConfigBackendHandler] are the
    parts of the backend traits that only GraphQL uses. *)

From S2P Require Import Prelude Strings Types Schema SchemaManager Proto Attributes Filters Access.

(** ** Interfaces and errors *)

(** [SchemaBackendHandler] (crates/domain-handlers/src/handler.rs) *)
Class SchemaBackendHandler (S : Type) := {
  add_user_attribute : CreateAttributeRequest -> io S DomainError unit;
  add_group_attribute : CreateAttributeRequest -> io S DomainError unit;
  delete_user_attribute : AttributeName -> io S DomainError unit;
  delete_group_attribute : AttributeName -> io S DomainError unit;
  add_user_object_class : LdapObjectClass -> io S DomainError unit;
  add_group_object_class : LdapObjectClass -> io S DomainError unit;
  delete_user_object_class : LdapObjectClass -> io S DomainError unit;
  delete_group_object_class : LdapObjectClass -> io S DomainError unit
}.

(** [SystemConfigBackendHandler] and [PosixBackendHandler] *)
Class ConfigBackendHandler (S : Type) := {
  set_system_config : string -> string -> io S DomainError unit;
  get_posix_settings : io S DomainError PosixSettings;
  set_posix_settings : PosixSettings -> io S DomainError unit;
  reassign_gid_numbers : io S DomainError unit;
  reassign_user_uid_numbers : io S DomainError unit;
  reassign_user_gid_numbers : io S DomainError unit;
  reassign_user_homedirectories : io S DomainError unit;
  reassign_user_loginshells : io S DomainError unit
}.

(** A [juniper::FieldError] with its message (the texts of other crates' errors and the
    extensions are left out), or a panic. *)
Inductive GqlError : Type :=
| FieldError (msg : string)
| GqlPanic (msg : string).

(** The crates the GraphQL layer uses: chrono's RFC 3339 text, base64, urlencoding,
    [char::is_alphanumeric] on one character, the RSA decryption of crates/kerberos. *)
Class GraphqlExtern := {
  date_to_rfc3339 : NaiveDateTime -> string;
  b64_encode : string -> string;
  url_decode : string -> option string;
  is_alphanumeric : string -> bool;
  decrypt_password : string -> option string
}.

(** [call.await?] *)
Definition gql {S A} `{Extern} (m : io S DomainError A) : io S GqlError A :=
  io_map_err (fun e => FieldError (display_error e)) m.

(** ** Objects *)

Record AttributeObject := MkAttributeObject {
  ao_attribute : Attribute;
  ao_schema : AttributeSchema
}.

Record GroupObject := MkGroupObject {
  go_group_id : Z;
  go_display_name : string;
  go_creation_date : NaiveDateTime;
  go_uuid : string;
  go_attributes : list AttributeObject;
  go_member_count : Z;
  go_schema : PublicSchema
}.

Record UserObject := MkUserObject {
  uo_user : User;
  uo_attributes : list AttributeObject;
  uo_schema : PublicSchema;
  uo_groups : option (list GroupObject)
}.

Section Objects.
Context `{Extern, GraphqlExtern}.

(** [images::avatar_to_graphql_base64] *)
Definition avatar_to_graphql_base64 (jpeg_bytes : string) : string :=
  if String.eqb jpeg_bytes "" then "" else b64_encode jpeg_bytes.

Definition serialize_attribute_to_graphql (attribute_value : AttributeValue) : list string :=
  match attribute_value with
  | VString c => into_vec c
  | VInteger c => map int_to_string (into_vec c)
  | VDateTime c => map date_to_rfc3339 (into_vec c)
  | VAvatar c => map (fun p => avatar_to_graphql_base64 (avatar_bytes p)) (into_vec c)
  end.

Definition string_value (s : string) : AttributeValue := VString (Singleton s).
Definition date_value (d : NaiveDateTime) : AttributeValue := VDateTime (Singleton d).

Definition get_hardcoded_user_value (user : User) (name : string) : option AttributeValue :=
  if str_mem name ["userid"; "user_id"; "uid"] then Some (string_value (user_id_str (u_user_id user)))
  else if str_mem name ["creationdate"; "creation_date"] then Some (date_value (u_creation_date user))
  else if str_mem name ["modifieddate"; "modified_date"] then Some (date_value (u_modified_date user))
  else if str_mem name ["passwordmodifieddate"; "password_modified_date"] then
    Some (date_value (u_password_modified_date user))
  else if String.eqb name "mail" then Some (string_value (email_str (u_email user)))
  else if String.eqb name "uuid" then Some (string_value (u_uuid user))
  else if str_mem name ["displayname"; "display_name"; "cn"] then string_value <$> u_display_name user
  else None.

(** [get_hardcoded_group_value] and [get_hardcoded_group_details_value] have one body. *)
Definition get_hardcoded_group_details_value (group : GroupDetails) (name : string) : option AttributeValue :=
  if String.eqb name "groupid" then Some (VInteger (Singleton (gd_group_id group)))
  else if str_mem name ["creationdate"; "creation_date"] then Some (date_value (gd_creation_date group))
  else if str_mem name ["modifieddate"; "modified_date"] then Some (date_value (gd_modified_date group))
  else if String.eqb name "uuid" then Some (string_value (gd_uuid group))
  else if str_mem name ["displayname"; "display_name"; "cn"] then
    Some (string_value (group_name_str (gd_display_name group)))
  else None.

Definition details_of_group (g : Group) : GroupDetails :=
  MkGroupDetails (g_id g) (g_display_name g) (g_creation_date g) (g_uuid g) (g_attributes g)
    (g_modified_date g).

Definition get_hardcoded_group_value (group : Group) (name : string) : option AttributeValue :=
  get_hardcoded_group_details_value (details_of_group group) name.

(** [AttributeValue::from_schema] *)
Definition from_schema (schema_list : AttributeList) (a : Attribute) : option AttributeObject :=
  MkAttributeObject a <$> get_by_name_or_alias schema_list (attribute_name_str (attr_name a)).

(** The hard-coded attributes that have a value, then the entry's own that the schema
    knows. *)
Definition attributes_from_schema (hardcoded : string -> option AttributeValue) (own : list Attribute)
    (schema_list : AttributeList) : list AttributeObject :=
  omap (fun s => (fun v => MkAttributeObject (MkAttribute (AttributeName_from (as_name s)) v) s)
                   <$> hardcoded (as_name s))
    (List.filter as_is_hardcoded (attributes schema_list))
  ++ omap (from_schema schema_list) own.

Definition user_attributes_from_schema (user : User) (schema : PublicSchema) : list AttributeObject :=
  attributes_from_schema (get_hardcoded_user_value user) (u_attributes user) (s_user_attributes schema).

Definition group_attributes_from_schema (group : Group) (schema : PublicSchema) : list AttributeObject :=
  attributes_from_schema (get_hardcoded_group_value group) (g_attributes group) (s_group_attributes schema).

Definition group_details_attributes_from_schema (group : GroupDetails) (schema : PublicSchema)
  : list AttributeObject :=
  attributes_from_schema (get_hardcoded_group_details_value group) (gd_attributes group)
    (s_group_attributes schema).

(** [n as i32] *)
Definition as_i32 (n : Z) : Z :=
  let r := (n mod 4294967296)%Z in if (r <? 2147483648)%Z then r else (r - 4294967296)%Z.

Definition from_group (group : Group) (schema : PublicSchema) : GroupObject :=
  MkGroupObject (g_id group) (group_name_str (g_display_name group)) (g_creation_date group)
    (g_uuid group) (group_attributes_from_schema group schema)
    (as_i32 (Z.of_nat (length (g_users group)))) schema.

Definition from_group_details (group : GroupDetails) (schema : PublicSchema) : GroupObject :=
  MkGroupObject (gd_group_id group) (group_name_str (gd_display_name group)) (gd_creation_date group)
    (gd_uuid group) (group_details_attributes_from_schema group schema) 0 schema.

(** [std::mem::take(&mut user.attributes)]: the object's user has no attributes left. *)
Definition from_user (user : User) (schema : PublicSchema) : UserObject :=
  MkUserObject (user_with_attributes user []) (user_attributes_from_schema user schema) schema None.

Definition from_user_and_groups (ug : UserAndGroups) (schema : PublicSchema) : UserObject :=
  let user := from_user (uag_user ug) schema in
  MkUserObject (uo_user user) (uo_attributes user) schema
    (map (fun g => from_group_details g schema) <$> uag_groups ug).

(** ** Fields of a user and of a group *)

Definition object_named (name : string) (attrs : list AttributeObject) : option AttributeObject :=
  find (fun a => String.eqb (attribute_name_str (attr_name (ao_attribute a))) name) attrs.

Definition string_field (attrs : list AttributeObject) (canonical : option string) (name default : string)
  : string :=
  from_option id default
    (a ← object_named (from_option id name canonical) attrs; as_str (attr_value (ao_attribute a))).

Definition user_first_name (u : UserObject) : string :=
  string_field (uo_attributes u) (resolve_user_canonical_name (uo_schema u) "first_name") "firstname" "".

Definition user_last_name (u : UserObject) : string :=
  string_field (uo_attributes u) (resolve_user_canonical_name (uo_schema u) "last_name") "lastname" "".

Definition user_ou (u : UserObject) : string :=
  string_field (uo_attributes u) (resolve_user_canonical_name (uo_schema u) "ou") "ou" "people".

Definition group_ou (g : GroupObject) : string :=
  string_field (go_attributes g) (resolve_group_canonical_name (go_schema g) "ou") "ou" "groups".

Definition user_avatar (u : UserObject) : option string :=
  a ← object_named "avatar" (uo_attributes u);
  head (serialize_attribute_to_graphql (attr_value (ao_attribute a))).

Definition user_ssh_public_keys (u : UserObject) : list string :=
  let canonical := from_option id "sshpublickey" (resolve_user_canonical_name (uo_schema u) "sshpublickey") in
  from_option (fun a => serialize_attribute_to_graphql (attr_value (ao_attribute a))) []
    (object_named canonical (uo_attributes u)).

Definition user_is_disabled (u : UserObject) : bool :=
  from_option (existsb (fun g => String.eqb (go_display_name g) "lldap_disabled")) false (uo_groups u).
End Objects.

(** ** Request filters *)

Record EqualityConstraint := MkEqualityConstraint { ec_field : string; ec_value : string }.

Inductive RequestFilter : Type :=
| MkRequestFilter (any : option (list RequestFilter)) (all : option (list RequestFilter))
    (not : option RequestFilter) (eq : option EqualityConstraint) (member_of : option string)
    (member_of_id : option Z).

Section RequestFilters.
Context `{Extern}.

Definition equality_filter (eq : EqualityConstraint) (schema : PublicSchema)
  : result GqlError UserRequestFilter :=
  let canonical_field := from_option id (ec_field eq) (resolve_user_canonical_name schema (ec_field eq)) in
  match map_user_field get_schema_manager (AttributeName_from canonical_field) schema with
  | UfNoMatch => Err (FieldError ("Unknown request filter: " +:+ ec_field eq))
  | UfPrimaryField ColUserId => Ok (UUserId (UserId_new (ec_value eq)))
  | UfPrimaryField column => Ok (UEquality column (ec_value eq))
  | UfAttribute name typ false =>
      let? value := map_err (fun _ => FieldError ("While deserializing attribute " +:+ attribute_name_str name))
                      (deserialize_attribute_value [ec_value eq] typ false) in
      Ok (UAttributeEquality name value)
  | UfAttribute _ _ true => Err (FieldError "Equality not supported for list fields")
  | UfMemberOf => Ok (UMemberOf (MkGroupName (ec_value eq)))
  | UfObjectClass | UfDn | UfEntryDn | UfEntryUuid =>
      Err (FieldError "Ldap fields not supported in request filter")
  end.

Fixpoint try_into_domain_filter (f : RequestFilter) (schema : PublicSchema)
  : result GqlError UserRequestFilter :=
  match f with
  | MkRequestFilter any all not eq member_of member_of_id =>
      match eq, any, all, not, member_of, member_of_id with
      | Some eq, None, None, None, None, None => equality_filter eq schema
      | None, Some any, None, None, None, None =>
          let? fs := collect (map (fun f => try_into_domain_filter f schema) any) in Ok (UOr fs)
      | None, None, Some all, None, None, None =>
          let? fs := collect (map (fun f => try_into_domain_filter f schema) all) in Ok (UAnd fs)
      | None, None, None, Some f, None, None =>
          let? f := try_into_domain_filter f schema in Ok (UNot f)
      | None, None, None, None, Some group, None => Ok (UMemberOf (MkGroupName group))
      | None, None, None, None, None, Some group_id => Ok (UMemberOfId group_id)
      | None, None, None, None, None, None => Err (FieldError "No field specified in request filter")
      | _, _, _, _, _, _ => Err (FieldError "Multiple fields specified in request filter")
      end
  end.
End RequestFilters.

(** ** The resolvers of [Query] *)

Record ObjectClassInfo := MkObjectClassInfo { oc_object_class : string; oc_is_hardcoded : bool }.

Section Queries.
Context `{Extern, GraphqlExtern} {S : Type} (handler : BackendHandler S).
Context (config : ConfigBackendHandler S) (v : ValidationResults).

(** [.ok_or_else(field_error_callback(..))?] on a handler the caller may not get *)
Definition with_admin {A} (msg : string) (m : io S GqlError A) : io S GqlError A :=
  match get_admin_handler handler v with
  | Some _ => m
  | None => io_fail (FieldError msg)
  end.

Definition with_readonly {A} (msg : string) (m : io S GqlError A) : io S GqlError A :=
  match get_readonly_handler handler v with
  | Some _ => m
  | None => io_fail (FieldError msg)
  end.

Definition with_writeable {A} (user_id : UserId) (msg : string) (m : io S GqlError A) : io S GqlError A :=
  match get_writeable_handler handler v user_id with
  | Some _ => m
  | None => io_fail (FieldError msg)
  end.

Definition with_readable {A} (user_id : UserId) (msg : string) (m : io S GqlError A) : io S GqlError A :=
  match get_readable_handler handler v user_id with
  | Some _ => m
  | None => io_fail (FieldError msg)
  end.

Definition query_get_schema : io S GqlError PublicSchema :=
  gql (restricted_get_schema (get_user_restricted_lister_handler handler v)).

Definition query_user (user_id : string) : io S GqlError UserObject :=
  let! user_id := io_lift (ok_or (url_decode user_id) (FieldError "Invalid user parameter")) in
  let user_id := UserId_new user_id in
  with_readable user_id "Unauthorized access to user data"
    (let! schema := query_get_schema in
     let! user := gql (get_user_details user_id) in
     io_ret (from_user user schema)).

Definition query_users (filters : option RequestFilter) : io S GqlError (list UserObject) :=
  with_readonly "Unauthorized access to user list"
    (let! schema := query_get_schema in
     let! filters := io_lift match filters with
                             | Some f => map_ok Some (try_into_domain_filter f schema)
                             | None => Ok None
                             end in
     let! users := gql (list_users filters true) in
     io_ret (map (fun u => from_user_and_groups u schema) users)).

Definition query_groups : io S GqlError (list GroupObject) :=
  with_readonly "Unauthorized access to group list"
    (let! schema := query_get_schema in
     let! groups := gql (list_groups None) in
     io_ret (map (fun g => from_group g schema) groups)).

Definition query_group (group_id : Z) : io S GqlError GroupObject :=
  with_readonly "Unauthorized access to group data"
    (let! schema := query_get_schema in
     let! group_details := gql (get_group_details group_id) in
     io_ret (from_group_details group_details schema)).

Definition query_list_ous : io S GqlError (list string) :=
  with_admin "Unauthorized to read OUs"
    (io_map_err (fun _ => FieldError "Failed to load allowedous") get_allowed_ous).

Definition query_posix_settings : io S GqlError PosixSettings :=
  with_admin "Unauthorized to read POSIX settings"
    (let! p := io_map_err (fun _ => FieldError "Failed to load posix_settings") get_posix_settings in
     io_ret (MkPosixSettings (user_uidnumber_assign p) (as_i32 (user_uidnumber_start p))
       (as_i32 (user_uidnumber_max p)) (user_gidnumber_assign p) (as_i32 (user_gidnumber_start p))
       (user_loginshell_assign p) (user_loginshell_default p) (user_homedirectory_assign p)
       (user_homedirectory_prefix p) (group_gidnumber_assign p) (as_i32 (group_gidnumber_start p))
       (as_i32 (group_gidnumber_max p)))).

(** [User::groups] and [Group::users] *)
Definition group_object_leb (x y : GroupObject) : bool := str_leb (go_display_name x) (go_display_name y).

Fixpoint insert_group_object (g : GroupObject) (l : list GroupObject) : list GroupObject :=
  match l with
  | [] => [g]
  | h :: l' => if group_object_leb g h then g :: l else h :: insert_group_object g l'
  end.

Definition user_groups (u : UserObject) : io S GqlError (list GroupObject) :=
  let id := u_user_id (uo_user u) in
  match get_readable_handler handler v id with
  | None => io_fail (GqlPanic "We shouldn't be able to get there without readable permission")
  | Some _ =>
      let! groups := gql (get_user_groups id) in
      io_ret (fold_right insert_group_object [] (map (fun g => from_group_details g (uo_schema u)) groups))
  end.

Definition group_users (g : GroupObject) : io S GqlError (list UserObject) :=
  with_readonly "Unauthorized access to group data"
    (let! users := gql (list_users (Some (UMemberOfId (go_group_id g))) false) in
     io_ret (map (fun u => from_user_and_groups u (go_schema g)) users)).

(** ** The schema object *)

Definition ldap_object_classes (default_classes extra_classes : list string) : list ObjectClassInfo :=
  map (fun c => MkObjectClassInfo c true) default_classes
  ++ map (fun c => MkObjectClassInfo c false) extra_classes.

Definition user_schema_classes (schema : PublicSchema) : list ObjectClassInfo :=
  ldap_object_classes (get_default_user_object_classes_bytes PublicSchema_get)
    (s_extra_user_object_classes schema).

Definition group_schema_classes (schema : PublicSchema) : list ObjectClassInfo :=
  ldap_object_classes (get_default_group_object_classes_bytes PublicSchema_get)
    (s_extra_group_object_classes schema).

Definition query_schema : io S GqlError PublicSchema := query_get_schema.
End Queries.

(** ** Request filters translate *)

Section RequestFilterInd.
Context (P : RequestFilter -> Prop).
Context (HP : forall any all not eq member_of member_of_id,
  Forall P (from_option id [] any) -> Forall P (from_option id [] all) ->
  (forall f, not = Some f -> P f) -> P (MkRequestFilter any all not eq member_of member_of_id)).

Fixpoint RequestFilter_ind' (f : RequestFilter) : P f :=
  match f with
  | MkRequestFilter any all not eq m mid =>
      let all_of := fix go (l : list RequestFilter) : Forall P l :=
        match l with
        | [] => Forall_nil_2 P
        | x :: l' => Forall_cons_2 P x l' (RequestFilter_ind' x) (go l')
        end in
      HP any all not eq m mid
        (match any with Some l => all_of l | None => Forall_nil_2 P end)
        (match all with Some l => all_of l | None => Forall_nil_2 P end)
        (match not return (forall f, not = Some f -> P f) with
         | Some g => fun f Hf => match Hf in (_ = o) return (match o with Some h => P h | None => True end) with
                                 | eq_refl => RequestFilter_ind' g
                                 end
         | None => fun f Hf => match Hf in (_ = o) return (match o with Some h => P h | None => True end) with
                               | eq_refl => Logic.I
                               end
         end)
  end.
End RequestFilterInd.
