(* ===== verification/GraphqlInput.v ===== *)
(** * GraphQL inputs

    [crates/graphql-server/src/mutation/inputs.rs] (the input objects),
    [crates/graphql-server/src/mutation/helpers.rs] (checking and converting the
    attributes of a request) and [crates/validation/src/attributes.rs]. *)

From S2P Require Import Prelude Strings Types Schema SchemaManager Proto Database SqlConfig Attributes Filters Access.
From S2P Require Import SqlLists GraphqlQuery.

(** ** Inputs *)

(** [inputs::AttributeValue] *)
Record AttributeInput := MkAttributeInput { ai_name : string; ai_value : list string }.

Record CreateUserInput := MkCreateUserInput {
  ci_id : string;
  ci_email : option string;
  ci_display_name : option string;
  ci_first_name : option string;
  ci_last_name : option string;
  ci_avatar : option string;
  ci_attributes : option (list AttributeInput)
}.

Record CreateGroupInput := MkCreateGroupInput {
  cgi_display_name : string;
  cgi_attributes : option (list AttributeInput)
}.

Record UpdateUserInput := MkUpdateUserInput {
  ui_id : string;
  ui_email : option string;
  ui_display_name : option string;
  ui_first_name : option string;
  ui_last_name : option string;
  ui_avatar : option string;
  ui_remove_attributes : option (list string);
  ui_insert_attributes : option (list AttributeInput)
}.

Record UpdateGroupInput := MkUpdateGroupInput {
  gi_id : Z;
  gi_display_name : option string;
  gi_remove_attributes : option (list string);
  gi_insert_attributes : option (list AttributeInput)
}.

(** [validate_attribute_name]: the invalid characters, if any *)
Definition validate_attribute_name `{GraphqlExtern} (attribute_name : string) : result (list string) unit :=
  let invalid_chars := List.filter (fun c => negb (is_alphanumeric c || String.eqb c "-"))
                         (chars attribute_name) in
  match invalid_chars with
  | [] => Ok tt
  | _ => Err invalid_chars
  end.

(** ** SSH keys *)

(** [s.split_whitespace().next()], for a string that does not start with white space *)
Fixpoint first_word (s : string) : string :=
  match s with
  | "" => ""
  | String c s' => if (0 <? ws_len s)%nat then "" else String c (first_word s')
  end.

Definition validate_ssh_public_key (key : string) : result string unit :=
  let trimmed := trim key in
  if String.eqb trimmed "" then Err "SSH public key cannot be empty"
  else if negb (starts_with "ssh-" trimmed || starts_with "ecdsa-" trimmed || starts_with "sk-" trimmed
                || starts_with "ssh-ed25519" trimmed) then
    Err ("Invalid SSH public key format. Expected to start with ssh-, ecdsa-, sk-, or ssh-ed25519. Got: '"
         +:+ first_word trimmed +:+ "'")
  else if negb (contains_char " " trimmed) then
    Err "Invalid SSH public key: missing space after key type"
  else if (4096 <? String.length trimmed)%nat then
    Err "SSH public key is too long (max 4096 characters)"
  else Ok tt.

(** ** Attributes of a request *)

Section Helpers.
Context `{Extern, GraphqlExtern}.

(** [helpers::resolve_canonical_name] *)
Definition resolve_or_same (attribute_list : AttributeList) (name : string) : string :=
  from_option id name (resolve_canonical_name attribute_list name).

Definition denied {A} (name what : string) : result GqlError A :=
  Err (FieldError ("Permission denied: Attribute " +:+ name +:+ what)).

(** The bytes handed to the deserializer of stored values. *)
Definition serialize_input (canonical_name : string) (attr_schema : AttributeSchema) (value : list string)
  : result GqlError string :=
  if eq_ignore_ascii_case canonical_name "avatar" && negb (as_is_list attr_schema) then
    let val := trim (hd "" value) in
    if String.eqb val "" then Ok ""
    else
      let? raw_bytes := ok_or (base64_decode val) (FieldError "Invalid base64 avatar data") in
      ok_or (process_avatar_input raw_bytes) (FieldError "Invalid avatar upload")
  else if as_is_list attr_schema then Ok (json_to_vec value)
  else Ok (hd "" value).

Fixpoint first_invalid_key (keys : list string) : option string :=
  match keys with
  | [] => None
  | k :: keys' => match validate_ssh_public_key k with
                  | Err e => Some e
                  | Ok _ => first_invalid_key keys'
                  end
  end.

Definition deserialize_attribute (attribute_schema : AttributeList) (attribute : AttributeInput)
    (is_admin : bool) : result GqlError Attribute :=
  let canonical_name := resolve_or_same attribute_schema (ai_name attribute) in
  let attribute_name := AttributeName_from canonical_name in
  let? attr_schema := ok_or (get_attribute_schema attribute_schema (attribute_name_str attribute_name))
    (FieldError ("Attribute " +:+ ai_name attribute +:+ " is not defined in the schema")) in
  if as_is_readonly attr_schema then denied (ai_name attribute) " is read-only"
  else if negb is_admin && negb (as_is_editable attr_schema) then
    denied (ai_name attribute) " is not editable by regular users"
  else
    let? _ := match (if eq_ignore_ascii_case canonical_name "sshpublickey" && as_is_list attr_schema
                     then first_invalid_key (ai_value attribute) else None) with
              | Some err_msg => Err (FieldError ("Invalid SSH public key: " +:+ err_msg))
              | None => Ok tt
              end in
    let? serialized := serialize_input canonical_name attr_schema (ai_value attribute) in
    Ok (MkAttribute attribute_name
          (deserialize_stored_value serialized (as_attribute_type attr_schema) (as_is_list attr_schema))).

Record UnpackedAttributes := MkUnpackedAttributes {
  un_email : option Email;
  un_display_name : option string;
  un_attributes : list Attribute
}.

(** [.find(..).map(deserialize_attribute).transpose()?.map(|a| a.value.into_string().unwrap())] *)
Definition unpack_string (user_schema : AttributeList) (attributes : list AttributeInput) (name : string)
    (is_admin : bool) : result GqlError (option string) :=
  match find (fun a => String.eqb (resolve_or_same user_schema (ai_name a)) name) attributes with
  | None => Ok None
  | Some a =>
      let? attr := deserialize_attribute user_schema a is_admin in
      match as_str (attr_value attr) with
      | Some s => Ok (Some s)
      | None => Err (GqlPanic "into_string")
      end
  end.

Definition unpack_attributes (attributes : list AttributeInput) (schema : PublicSchema) (is_admin : bool)
  : result GqlError UnpackedAttributes :=
  let user_schema := s_user_attributes schema in
  let? email := unpack_string user_schema attributes "mail" is_admin in
  let? display_name := unpack_string user_schema attributes "displayname" is_admin in
  let? attributes := collect (map (fun a => deserialize_attribute user_schema a is_admin)
    (List.filter (fun a => negb (str_mem (resolve_or_same user_schema (ai_name a)) ["mail"; "displayname"]))
       attributes)) in
  Ok (MkUnpackedAttributes (MkEmail <$> email) display_name attributes).

(** [BTreeMap<String, _>]: its values in the order of the keys *)
Definition btree_values {A} (m : gmap string A) : list A :=
  map snd (order_by (fun x y : string * A => str_leb (fst x) (fst y)) (map_to_list m)).

Definition attribute_key (user_schema : AttributeList) (name : string) : string :=
  to_ascii_lowercase (resolve_or_same user_schema name).

(** The attributes given, by canonical name; the last of several with one name stays. *)
Definition provided_attributes (user_schema : AttributeList) (attributes : list AttributeInput)
  : gmap string AttributeInput :=
  fold_left (fun m x => <[attribute_key user_schema (ai_name x) :=
      MkAttributeInput (to_ascii_lowercase (ai_name x)) (ai_value x)]> m) attributes ∅.

(** [entry(key).or_insert_with(..)] for one of the deprecated fields *)
Definition merge_field (user_schema : AttributeList) (m : gmap string AttributeInput)
    (field : string * option string) : gmap string AttributeInput :=
  match field with
  | (_, None) => m
  | (name, Some val) =>
      if String.eqb name "avatar" && String.eqb (trim val) "" then m
      else
        let key := attribute_key user_schema name in
        match m !! key with
        | Some _ => m
        | None => <[key := MkAttributeInput name [val]]> m
        end
  end.

Definition consolidate_attributes (attributes : list AttributeInput) (first_name last_name avatar : option string)
    (schema : PublicSchema) : list AttributeInput :=
  let user_schema := s_user_attributes schema in
  btree_values (fold_left (merge_field user_schema)
    [("first_name", first_name); ("last_name", last_name); ("avatar", avatar)]
    (provided_attributes user_schema attributes)).
End Helpers.

(** ** What a request may write *)

Section InputLemmas.
Context `{Extern, GraphqlExtern}.

(** The value fits the attribute the schema has under the name, which the caller may
    change. *)
Definition permitted (l : AttributeList) (is_admin : bool) (a : Attribute) : Prop :=
  exists sch, get_by_name_or_alias l (attribute_name_str (attr_name a)) = Some sch /\
    as_is_readonly sch = false /\ (is_admin = true \/ as_is_editable sch = true) /\
    value_matches (as_attribute_type sch) (as_is_list sch) (attr_value a) = true.

Lemma stored_value_matches bytes typ is_list :
  value_matches typ is_list (deserialize_stored_value bytes typ is_list) = true.
Proof. destruct typ, is_list; simpl; try done. by destruct (json_from_slice bytes). Qed.

Lemma deserialize_attribute_permitted l input adm a :
  deserialize_attribute l input adm = Ok a -> permitted l adm a.
Proof.
  unfold deserialize_attribute. cbv zeta. intros (sch & Hsch%ok_or_Ok & Hd)%result_bind_Ok.
  destruct (as_is_readonly sch) eqn:Er; [done|].
  destruct (negb adm && _) eqn:Ee; [done|].
  apply result_bind_Ok in Hd as (? & _ & Hd). apply result_bind_Ok in Hd as (bytes & _ & [= <-]).
  exists sch. split_and!; [done..| |apply stored_value_matches].
  destruct adm; [by left|]. right. by destruct (as_is_editable sch).
Qed.

Lemma collect_permitted l adm inputs attrs :
  collect (map (fun a => deserialize_attribute l a adm) inputs) = Ok attrs -> Forall (permitted l adm) attrs.
Proof.
  revert attrs. induction inputs as [|i inputs IH]; intros attrs; simpl; [by intros [= <-]|].
  intros (a & Ha & (as' & Has & [= <-])%result_bind_Ok)%result_bind_Ok.
  constructor; [by eapply deserialize_attribute_permitted|by apply IH].
Qed.

Lemma unpack_permitted inputs schema adm un :
  unpack_attributes inputs schema adm = Ok un ->
  Forall (permitted (s_user_attributes schema) adm) (un_attributes un).
Proof.
  unfold unpack_attributes. cbv zeta. intros (e & _ & Hu)%result_bind_Ok.
  apply result_bind_Ok in Hu as (d & _ & Hu). apply result_bind_Ok in Hu as (attrs & Ha & [= <-]).
  by eapply collect_permitted.
Qed.
End InputLemmas.

(** ** Consolidation *)

Section Consolidation.
Context `{Extern, GraphqlExtern} (schema : PublicSchema).
Local Abbreviation key := (attribute_key (s_user_attributes schema)).

Lemma attribute_key_lower name : key (to_ascii_lowercase name) = key name.
Proof.
  unfold attribute_key, resolve_or_same, resolve_canonical_name.
  rewrite (get_by_name_or_alias_case _ (to_ascii_lowercase name) name) by apply lower_idemp.
  destruct (get_by_name_or_alias _ name); simpl; [done|]. apply lower_idemp.
Qed.

Definition lowered (x : AttributeInput) : AttributeInput :=
  MkAttributeInput (to_ascii_lowercase (ai_name x)) (ai_value x).

(** The last attribute given under a key. *)
Definition last_given (attributes : list AttributeInput) (k : string) : option AttributeInput :=
  last (List.filter (fun x => String.eqb (key (ai_name x)) k) attributes).

Lemma provided_lookup attributes k :
  provided_attributes (s_user_attributes schema) attributes !! k = lowered <$> last_given attributes k.
Proof.
  unfold provided_attributes, last_given. induction attributes as [|x l IH] using rev_ind; [done|].
  rewrite fold_left_app. simpl. rewrite List.filter_app. simpl. destruct (String.eqb_spec (key (ai_name x)) k) as [<-|Hk].
  - by rewrite lookup_insert_eq, last_snoc.
  - by rewrite lookup_insert_ne, app_nil_r.
Qed.

Lemma last_given_elem attributes k x : last_given attributes k = Some x -> x ∈ attributes /\ key (ai_name x) = k.
Proof.
  unfold last_given. intros Hx%last_Some_elem_of. apply list_elem_of_In, filter_In in Hx as [Hx Hk].
  rewrite list_elem_of_In. by apply String.eqb_eq in Hk.
Qed.

(** What an entry of the merged map is: given, or a field whose key was not. *)
Definition sourced (attributes : list AttributeInput) (fields : list (string * option string)) (k : string)
    (a : AttributeInput) : Prop :=
  lowered <$> last_given attributes k = Some a \/
  exists name val, (name, Some val) ∈ fields /\ k = key name /\ last_given attributes k = None /\
    a = MkAttributeInput name [val].

Definition skipped (field : string * option string) : Prop :=
  match snd field with
  | None => True
  | Some val => fst field = "avatar" /\ trim val = ""
  end.

Lemma merge_fields_lookup attributes fields (m : gmap string AttributeInput) :
  m = fold_left (merge_field (s_user_attributes schema)) fields
        (provided_attributes (s_user_attributes schema) attributes) ->
  (forall k a, m !! k = Some a -> sourced attributes fields k a) /\
  (forall k x, last_given attributes k = Some x -> m !! k = Some (lowered x)) /\
  (forall f, f ∈ fields -> skipped f \/ is_Some (m !! key (fst f))).
Proof.
  revert m. induction fields as [|[name [val|]] fields IH] using rev_ind; intros m ->; simpl.
  - split_and!; intros; rewrite ?provided_lookup in *; [by left|by simplify_option_eq|set_solver].
  - rewrite fold_left_app. simpl. specialize (IH _ eq_refl) as (IH1 & IH2 & IH3).
    set (m := fold_left _ fields _) in *.
    assert (forall k a, sourced attributes fields k a -> sourced attributes (fields ++ [(name, Some val)]) k a) as Hmono.
    { intros k a [?|(n & v & ? & ?)]; [by left|right]. exists n, v. by rewrite elem_of_app; auto. }
    destruct (_ && _) eqn:Ea; [|destruct (m !! key name) as [b|] eqn:Eb].
    + split_and!; [by eauto|done|]. intros f [Hf|Hf%list_elem_of_singleton]%elem_of_app; [by auto|subst f].
      left. by apply andb_prop in Ea as [?%String.eqb_eq ?%String.eqb_eq].
    + split_and!; [by eauto|done|]. intros f [Hf|Hf%list_elem_of_singleton]%elem_of_app; [by auto|subst f].
      right. simpl. by rewrite Eb.
    + split_and!.
      * intros k a [[<- <-]|[_ Ha]]%lookup_insert_Some; [|by eauto]. right. exists name, val.
        split_and!; [set_solver|done| |done].
        destruct (last_given attributes (key name)) eqn:El; [|done]. by rewrite (IH2 _ _ El) in Eb.
      * intros k x Hx. rewrite lookup_insert_ne; [by auto|]. intros <-. by rewrite (IH2 _ _ Hx) in Eb.
      * intros f [Hf|Hf%list_elem_of_singleton]%elem_of_app; [|subst f; right; simpl; by rewrite lookup_insert_eq].
        destruct (IH3 f Hf) as [?|Hs]; [by left|right]. by apply lookup_insert_is_Some'; auto.
  - rewrite fold_left_app. simpl. specialize (IH _ eq_refl) as (IH1 & IH2 & IH3). split_and!; [|done|].
    + intros k a [?|(n & v & ? & ?)]%IH1; [by left|right]. exists n, v. by rewrite elem_of_app; auto.
    + intros f [Hf|Hf%list_elem_of_singleton]%elem_of_app; [by auto|subst f; by left].
Qed.

Lemma sourced_key attributes fields k a : sourced attributes fields k a -> key (ai_name a) = k.
Proof.
  intros [Ha|(n & v & _ & -> & _ & ->)]; [|done].
  destruct (last_given attributes k) as [x|] eqn:Ex; [|done]. injection Ha as <-. simpl.
  rewrite attribute_key_lower. by apply last_given_elem in Ex as [_ ?].
Qed.

Lemma elem_of_btree_values (m : gmap string AttributeInput) a :
  a ∈ btree_values m <-> exists k, m !! k = Some a.
Proof.
  unfold btree_values. rewrite list_elem_of_fmap. setoid_rewrite order_by_perm. split.
  - intros ([k x] & -> & Hk). exists k. by apply elem_of_map_to_list.
  - intros [k Hk]. exists (k, a). split; [done|]. by apply elem_of_map_to_list.
Qed.

Lemma btree_values_keys (m : gmap string AttributeInput) :
  (forall k a, m !! k = Some a -> key (ai_name a) = k) -> NoDup (map (fun a => key (ai_name a)) (btree_values m)).
Proof.
  intros Hk. unfold btree_values. rewrite map_map. rewrite order_by_perm.
  rewrite (map_ext_in _ fst).
  - apply NoDup_fst_map_to_list.
  - intros [k a] Hin. apply Hk. by apply elem_of_map_to_list, list_elem_of_In.
Qed.
End Consolidation.

(** Consolidating the attributes of a request with the deprecated fields gives at most
    one attribute per canonical name; an attribute of the list keeps its values (the
    last of several with one canonical name counts) and wins over the field of that
    name, under whatever alias and case it was given; every field that is set
    contributes when the list does not have its attribute, except a blank avatar; and
    nothing else appears. *)
Theorem consolidated_attributes_spec `{Extern} attributes first_name last_name avatar schema :
  let key := attribute_key (s_user_attributes schema) in
  let fields := [("first_name", first_name); ("last_name", last_name); ("avatar", avatar)] in
  let r := consolidate_attributes attributes first_name last_name avatar schema in
  NoDup (map (fun a => key (ai_name a)) r) /\
  (forall x, last_given schema attributes (key (ai_name x)) = Some x -> lowered x ∈ r) /\
  (forall a, a ∈ r ->
     (exists x, x ∈ attributes /\ a = lowered x) \/
     exists name val, (name, Some val) ∈ fields /\ last_given schema attributes (key name) = None /\
       a = MkAttributeInput name [val]) /\
  (forall f, f ∈ fields -> skipped f \/ exists a, a ∈ r /\ key (ai_name a) = key (fst f)).
Proof.
  cbv zeta. unfold consolidate_attributes. set (fields := [_; _; _]).
  destruct (merge_fields_lookup schema attributes fields _ eq_refl) as (Hsrc & Hgiven & Hset).
  set (m := fold_left _ fields _) in *. setoid_rewrite elem_of_btree_values. split_and!.
  - apply btree_values_keys. intros k a Ha. by eapply sourced_key, Hsrc.
  - intros x Hx. eauto.
  - intros a [k Ha]. destruct (Hsrc k a Ha) as [Hl|(n & v & Hf & -> & Hn & ->)]; [left|right; eauto].
    destruct (last_given schema attributes k) as [x|] eqn:Ex; [|done]. injection Hl as <-.
    exists x. by apply last_given_elem in Ex as [? _].
  - intros f Hf. destruct (Hset f Hf) as [?|[a Ha]]; [by left|right]. exists a.
    split; [eauto|]. by eapply sourced_key, Hsrc.
Qed.
