(* ===== verification/GraphqlMutation.v ===== *)
(** * GraphQL mutations

    [crates/graphql-server/src/mutation/mod.rs] and [create_group_with_details] of
    [helpers.rs]: one definition per resolver, and [mutate], which runs the mutation of
    a request.  The mutations that only call Keycloak or export a keytab touch no state
    of the server and are left out. *)

From S2P Require Import Prelude Strings Types Schema SchemaManager Proto Database SqlConfig SqlGroups Opaque.
From S2P Require Import Attributes Filters Access GraphqlQuery GraphqlInput.

(** [PosixSettingsInput]: numbers are GraphQL's 32-bit integers. *)
Abbreviation PosixSettingsInput := PosixSettings (only parsing).

Section Pure.
Context `{Extern}.

Definition extract_kerberos_sync (schema : PublicSchema) (attrs : list Attribute) : bool :=
  let kerb_name := from_option as_name "kerberossync"
    (get_by_name_or_alias (s_user_attributes schema) "kerberossync") in
  match find (fun a => String.eqb (attribute_name_str (attr_name a)) kerb_name) attrs with
  | None => false
  | Some a =>
      match attr_value a with
      | VInteger (Singleton i) => Z.eqb i 1
      | VString (Singleton s) => String.eqb s "1" || String.eqb (str_to_lowercase s) "true"
      | _ => false
      end
  end.

(** ** Organizational units *)

Definition is_ou_char (c : ascii) : bool :=
  in_range 48 57 c || in_range 65 90 c || in_range 97 122 c || Ascii.eqb c "-" || Ascii.eqb c "_".

Fixpoint all_chars (p : ascii -> bool) (s : string) : bool :=
  match s with
  | "" => true
  | String c s' => p c && all_chars p s'
  end.

(** 2 to 64 characters of the set, neither '-' nor '_' at an end *)
Definition valid_ou_part (s : string) : bool :=
  negb ((String.length s <? 2)%nat || (64 <? String.length s)%nat || negb (all_chars is_ou_char s)
        || starts_with "-" s || starts_with "_" s || ends_with "-" s || ends_with "_" s).

(** [name.splitn(2, '\\')] *)
Definition split_ou (name : string) : string * option string :=
  match split_once (ascii_of_nat 92) name with
  | None => (name, None)
  | Some (p, s) => (p, Some s)
  end.

Definition invalid_ou_part (what : string) : GqlError :=
  FieldError ("Invalid " +:+ what +:+ " OU name: 2-64 characters, only a-z A-Z 0-9 - _ allowed. "
    +:+ "No spaces or special characters.").

(** The checks of [create_ou] that do not need the list. *)
Definition check_ou_name (name : string) : result GqlError (string * option string) :=
  let name_lower := str_to_lowercase (trim name) in
  if str_mem name_lower [""; "all"; "people"; "groups"] then
    Err (FieldError "Invalid OU name (cannot be empty or built-in)")
  else
    let '(primary, secondary) := split_ou name in
    if negb (valid_ou_part primary) then Err (invalid_ou_part "primary")
    else
      match secondary with
      | Some sec => if String.eqb (trim sec) "" || negb (valid_ou_part sec)
                    then Err (invalid_ou_part "secondary") else Ok (primary, secondary)
      | None => Ok (primary, secondary)
      end.

Definition ou_listed (name : string) (ous : list string) : bool :=
  existsb (fun o => String.eqb (str_to_lowercase o) (str_to_lowercase name)) ous.

(** The list with the new unit, or why not. *)
Definition add_ou (name primary : string) (secondary : option string) (current_ous : list string)
  : result GqlError (list string) :=
  if ou_listed name current_ous then
    Err (FieldError ("Organizational Unit '" +:+ name +:+ "' already exists"))
  else if bool_decide (is_Some secondary) && negb (ou_listed primary current_ous) then
    Err (FieldError ("Primary OU '" +:+ primary +:+ "' does not exist. "
           +:+ "Create it first before adding a secondary."))
  else Ok (order_by str_leb (current_ous ++ [name])).

Definition has_children (name_lower : string) (ous : list string) : bool :=
  existsb (fun ou => match split_ou ou with
                     | (p, Some _) => String.eqb (str_to_lowercase p) name_lower
                     | _ => false
                     end) ous.

Definition retained_ous (name_lower : string) (ous : list string) : list string :=
  List.filter (fun o => negb (String.eqb (str_to_lowercase o) name_lower)) ous.

Definition current_ou (attrs : list Attribute) : string :=
  match find (fun a => String.eqb (attribute_name_str (attr_name a)) "ou") attrs with
  | Some a => match attr_value a with VString (Singleton s) => s | _ => "" end
  | None => ""
  end.

Definition move_user (user_id : UserId) (ou : string) : UpdateUserRequest :=
  MkUpdateUserRequest user_id None None [] [string_attribute "ou" ou].

Definition move_group (group_id : GroupId) (ou : string) : UpdateGroupRequest :=
  MkUpdateGroupRequest group_id None [] [string_attribute "ou" ou].

(** ** POSIX settings *)

Definition check_posix_settings (p : PosixSettings) : result GqlError unit :=
  if user_uidnumber_assign p && negb (in_number_range 3000 60000 (user_uidnumber_start p)
                                      && in_number_range 3000 60000 (user_uidnumber_max p)) then
    Err (FieldError "user_uidnumber must be between 3000 and 60000")
  else if user_gidnumber_assign p && negb (in_number_range 3000 60000 (user_gidnumber_start p)) then
    Err (FieldError "user_gidnumber_start must be between 3000 and 60000")
  else if group_gidnumber_assign p && negb (in_number_range 3000 60000 (group_gidnumber_start p)
                                            && in_number_range 3000 60000 (group_gidnumber_max p)) then
    Err (FieldError "group_gidnumber must be between 3000 and 60000")
  else Ok tt.
End Pure.

Section Mutations.
Context `{Extern, GraphqlExtern, OpaqueExtern} {S : Type} (handler : BackendHandler S).
Context (schema_handler : SchemaBackendHandler S) (config : ConfigBackendHandler S).
Context (opaque : OpaqueHandler S) (rng : nat -> Coins) (v : ValidationResults).

Definition fail_with {A} (msg : string) : io S GqlError A := io_fail (FieldError msg).

Definition context {A E} (msg : string) (m : io S E A) : io S GqlError A :=
  io_map_err (fun _ => FieldError msg) m.

(** ** Users *)

Definition create_user_mutation (user : CreateUserInput) : io S GqlError UserObject :=
  let user_id := UserId_new (ci_id user) in
  with_admin handler v "Unauthorized user creation"
    (let! schema := gql get_schema in
     let consolidated := consolidate_attributes (from_option id [] (ci_attributes user))
       (ci_first_name user) (ci_last_name user) (ci_avatar user) schema in
     let is_ou a := bool_decide (resolve_user_canonical_name schema (ai_name a) = Some "ou") in
     let ou_value := from_option id "people" (a ← find is_ou consolidated; head (ai_value a)) in
     let! un := io_lift (unpack_attributes (List.filter (fun a => negb (is_ou a)) consolidated) schema true) in
     let attributes := un_attributes un ++ [string_attribute "ou" ou_value] in
     let email := match ci_email user with Some e => Some (MkEmail e) | None => un_email un end in
     let! email := io_lift (ok_or email (FieldError "Email is required when creating a new user")) in
     let display_name := match ci_display_name user with Some d => Some d | None => un_display_name un end in
     let! _ := gql (create_user (MkCreateUserRequest user_id email display_name attributes)) in
     let! user_details := gql (get_user_details user_id) in
     io_ret (from_user user_details schema)).

Definition sync_if_enabled (enabled : bool) (user_id password : string) : io S GqlError unit :=
  if enabled then
    let! _ := io_try (sync_kerberos_principal user_id password) in io_ret tt
  else io_ret tt.

(** The registration, with the server on both sides *)
Definition register_exchange (target : UserId) (password : string) : io S GqlError unit :=
  let! start := context "Could not initiate password registration"
    (io_lift (client_start_registration password (rng 0))) in
  let! response := context "Registration start failed"
    (registration_start (MkClientRegistrationStartRequest target (snd start))) in
  let! upload := context "Error during password registration finish"
    (io_lift (client_finish_registration (fst start) password (rr_registration_response response) (rng 1))) in
  context "Registration finish failed"
    (registration_finish (MkClientRegistrationFinishRequest (rr_server_data response) upload)).

Definition set_user_password (user_id password : string) : io S GqlError unit :=
  let target := UserId_new user_id in
  with_writeable handler v target "Unauthorized password set"
    (let! _ := register_exchange target password in
     let! user := context "Failed to fetch user for Kerberos sync check" (get_user_details target) in
     let! schema := gql get_schema in
     let sync_enabled := extract_kerberos_sync schema (u_attributes user) in
     let! _ := sync_if_enabled sync_enabled user_id password in
     let! _ := io_try (ensure_kerberos_principal_consistency target sync_enabled) in
     io_ret tt).

Definition update_user_mutation (user : UpdateUserInput) : io S GqlError unit :=
  let user_id := UserId_new (ui_id user) in
  with_writeable handler v user_id "Unauthorized user update"
    (let! schema := gql get_schema in
     let consolidated := consolidate_attributes (from_option id [] (ui_insert_attributes user))
       (ui_first_name user) (ui_last_name user) (ui_avatar user) schema in
     let delete_attributes := List.filter
       (fun n => negb (bool_decide (resolve_user_canonical_name schema n = Some "ou")))
       (from_option id [] (ui_remove_attributes user)) in
     let! un := io_lift (unpack_attributes
       (List.filter (fun a => negb (str_mem (ai_name a) delete_attributes)) consolidated)
       schema (is_admin v)) in
     gql (update_user (MkUpdateUserRequest user_id
       (match ui_email user with Some e => Some (MkEmail e) | None => un_email un end)
       (match ui_display_name user with Some d => Some d | None => un_display_name un end)
       (map AttributeName_from (List.filter (fun n =>
          negb (String.eqb n "mail") && negb (String.eqb (str_to_lowercase n) "displayname")) delete_attributes))
       (un_attributes un)))).

Definition delete_user_mutation (user_id : string) : io S GqlError unit :=
  let target := UserId_new user_id in
  with_admin handler v "Unauthorized user deletion"
    (if user_id_eqb (vr_user v) target then fail_with "Cannot delete current user"
     else context "User deletion failed" (delete_user target)).

Definition sync_kerberos_password (user_id encrypted_password : string) : io S GqlError bool :=
  let target := UserId_new user_id in
  with_writeable handler v target "Unauthorized Kerberos sync"
    (let! plain_password := io_lift (ok_or (decrypt_password encrypted_password)
       (FieldError "Kerberos password decryption failed")) in
     let! user := context "Failed to fetch user for Kerberos sync check" (get_user_details target) in
     let! schema := gql get_schema in
     let sync_enabled := extract_kerberos_sync schema (u_attributes user) in
     let! _ := if sync_enabled then context "Kerberos sync failed" (sync_kerberos_principal user_id plain_password)
               else io_ret tt in
     let! _ := io_try (ensure_kerberos_principal_consistency target sync_enabled) in
     io_ret true).

(** ** Groups *)

Definition create_group_with_details (request : CreateGroupInput) : io S GqlError GroupObject :=
  with_admin handler v "Unauthorized group creation"
    (let! schema := gql get_schema in
     let raw := from_option id [] (cgi_attributes request) in
     let is_ou a := String.eqb (resolve_or_same (s_group_attributes schema) (ai_name a)) "ou" in
     let ou_value := from_option id "groups" (a ← find is_ou raw; head (ai_value a)) in
     let! attributes := io_lift (collect (map
       (fun a => deserialize_attribute (s_group_attributes schema) a true)
       (List.filter (fun a => negb (is_ou a)) raw))) in
     let! group_id := gql (create_group (MkCreateGroupRequest (MkGroupName (cgi_display_name request))
       (attributes ++ [string_attribute "ou" ou_value]))) in
     let! group_details := gql (get_group_details group_id) in
     io_ret (from_group_details group_details schema)).

(** [attr.value[0]] of the attribute "displayname", when no display name is given *)
Definition new_display_name (group : UpdateGroupInput) : result GqlError (option string) :=
  match gi_display_name group with
  | Some n => Ok (Some n)
  | None =>
      match find (fun a => String.eqb (ai_name a) "displayname")
              (from_option id [] (gi_insert_attributes group)) with
      | None => Ok None
      | Some a => match ai_value a with
                  | n :: _ => Ok (Some n)
                  | [] => Err (GqlPanic "index out of bounds")
                  end
      end
  end.

Definition refuse_builtin (what : string) (group_id : GroupId) : io S GqlError unit :=
  let! details := io_try (get_group_details group_id) in
  match details with
  | Ok d => if is_builtin_group (group_name_str (gd_display_name d)) then
              fail_with ("Cannot " +:+ what +:+ " built-in group '" +:+ group_name_str (gd_display_name d) +:+ "'")
            else io_ret tt
  | Err _ => io_ret tt
  end.

Definition update_group_mutation (group : UpdateGroupInput) : io S GqlError unit :=
  with_admin handler v "Unauthorized group update"
    (let! new_name := io_lift (new_display_name group) in
     let! _ := match new_name with
               | Some _ => refuse_builtin "rename" (gi_id group)
               | None => io_ret tt
               end in
     let! schema := gql get_schema in
     let! insert_attributes := io_lift (collect (map
       (fun a => deserialize_attribute (s_group_attributes schema) a true)
       (List.filter (fun a => negb (String.eqb (ai_name a) "displayname"))
          (from_option id [] (gi_insert_attributes group))))) in
     gql (update_group (MkUpdateGroupRequest (gi_id group) (MkGroupName <$> new_name)
       (map AttributeName_from (List.filter (fun n => negb (String.eqb n "displayname"))
          (from_option id [] (gi_remove_attributes group)))) insert_attributes))).

Definition add_user_to_group_mutation (user_id : string) (group_id : Z) : io S GqlError unit :=
  with_admin handler v "Unauthorized group membership modification"
    (gql (add_user_to_group (UserId_new user_id) group_id)).

Definition remove_user_from_group_mutation (user_id : string) (group_id : Z) : io S GqlError unit :=
  let target := UserId_new user_id in
  with_admin handler v "Unauthorized group membership modification"
    (let! details := io_try (get_group_details group_id) in
     let group_name := match details with Ok d => group_name_str (gd_display_name d) | Err _ => "" end in
     let! _ :=
       if String.eqb group_name "lldap_admin" then
         let! members := io_try (list_users (Some (UMemberOfId group_id)) false) in
         match members with
         | Ok ms => if (length ms <=? 1)%nat then fail_with "Cannot remove the last member of lldap_admin"
                    else if user_id_eqb (vr_user v) target
                    then fail_with "Cannot remove admin rights for current user" else io_ret tt
         | Err _ => if user_id_eqb (vr_user v) target
                    then fail_with "Cannot remove admin rights for current user" else io_ret tt
         end
       else io_ret tt in
     gql (remove_user_from_group target group_id)).

Definition delete_group_mutation (group_id : Z) : io S GqlError unit :=
  with_admin handler v "Unauthorized group deletion"
    (let! _ := refuse_builtin "delete" group_id in
     gql (delete_group group_id)).

(** ** Organizational units *)

Definition save_ous (ous : list string) : io S GqlError unit :=
  context "Failed to save updated OU list" (set_system_config "allowedous" (json_to_vec ous)).

Definition load_ous : io S GqlError (list string) := context "Failed to load allowedous" get_allowed_ous.

Definition create_ou (name : string) : io S GqlError unit :=
  with_admin handler v "Unauthorized OU creation"
    (let! parts := io_lift (check_ou_name name) in
     let! current_ous := load_ous in
     let! ous := io_lift (add_ou name (fst parts) (snd parts) current_ous) in
     save_ous ous).

(** The members are moved one by one; a move that fails is logged. *)
Definition move_users (name_lower : string) : io S GqlError unit :=
  let! users := io_try (list_users None false) in
  match users with
  | Err _ => io_ret tt
  | Ok us => io_iter (fun ug =>
      if String.eqb (str_to_lowercase (current_ou (u_attributes (uag_user ug)))) name_lower then
        let! _ := io_try (update_user (move_user (u_user_id (uag_user ug)) "people")) in io_ret tt
      else io_ret tt) us
  end.

Definition move_groups (name_lower : string) : io S GqlError unit :=
  let! groups := io_try (list_groups None) in
  match groups with
  | Err _ => io_ret tt
  | Ok gs => io_iter (fun g =>
      if String.eqb (str_to_lowercase (current_ou (g_attributes g))) name_lower then
        let! _ := io_try (update_group (move_group (g_id g) "groups")) in io_ret tt
      else io_ret tt) gs
  end.

Definition delete_ou (name : string) : io S GqlError unit :=
  with_admin handler v "Unauthorized OU deletion"
    (let name_lower := str_to_lowercase (trim name) in
     if str_mem name_lower ["people"; "groups"; "all"] then
       fail_with "Cannot delete built-in OU 'people', 'groups', or 'All'"
     else
       let! current_ous := load_ous in
       if has_children name_lower current_ous then
         fail_with ("Cannot delete primary OU '" +:+ name +:+ "' because it still contains secondary OUs. "
           +:+ "Delete the secondary OUs first.")
       else
         let! _ := move_users name_lower in
         let! _ := move_groups name_lower in
         save_ous (retained_ous name_lower current_ous)).

Definition change_user_ou (user_ids : list string) (new_ou : string) : io S GqlError unit :=
  with_admin handler v "Unauthorized OU change"
    (if String.eqb (str_to_lowercase (trim new_ou)) "all" then
       fail_with "Cannot move users to built-in OU 'All'"
     else io_iter (fun u => context ("Failed to change OU for user " +:+ u)
            (update_user (move_user (UserId_new u) new_ou))) user_ids).

Definition change_group_ou (group_ids : list Z) (new_ou : string) : io S GqlError unit :=
  with_admin handler v "Unauthorized OU change"
    (if String.eqb (str_to_lowercase (trim new_ou)) "all" then
       fail_with "Cannot move groups to built-in OU 'All'"
     else io_iter (fun g => context ("Failed to change OU for group " +:+ int_to_string g)
            (update_group (move_group g new_ou))) group_ids).

(** ** Schema *)

(** A name is new to the other list and has only allowed characters. *)
Definition check_new_attribute (other : AttributeList) (which name : string) : result GqlError unit :=
  match get_by_name_or_alias other name with
  | Some _ => Err (FieldError ("Attribute '" +:+ name +:+ "' already exists in the " +:+ which
      +:+ " schema. Duplicate names are not allowed across user and group attributes."))
  | None => map_err (fun invalid => FieldError
      ("Cannot create attribute with invalid name. Valid characters: a-z, A-Z, 0-9, and dash (-). "
       +:+ "Invalid chars found: " +:+ join "" invalid)) (validate_attribute_name name)
  end.

Definition add_user_attribute_mutation (name : string) (t : AttributeType) (is_list is_visible is_editable : bool)
  : io S GqlError unit :=
  with_admin handler v "Unauthorized attribute creation"
    (let! schema := gql get_schema in
     let! _ := io_lift (check_new_attribute (s_group_attributes schema) "group" name) in
     gql (GraphqlQuery.add_user_attribute
       (MkCreateAttributeRequest (AttributeName_from name) t is_list is_visible is_editable))).

Definition add_group_attribute_mutation (name : string) (t : AttributeType) (is_list is_visible is_editable : bool)
  : io S GqlError unit :=
  with_admin handler v "Unauthorized attribute creation"
    (let! schema := gql get_schema in
     let! _ := io_lift (check_new_attribute (s_user_attributes schema) "user" name) in
     gql (GraphqlQuery.add_group_attribute
       (MkCreateAttributeRequest (AttributeName_from name) t is_list is_visible is_editable))).

(** Only an attribute of the schema that is not hard-coded may go. *)
Definition check_deletable (l : AttributeList) (name : AttributeName) : result GqlError unit :=
  match get_attribute_schema l (attribute_name_str name) with
  | None => Err (FieldError ("Attribute " +:+ attribute_name_str name +:+ " is not defined in the schema"))
  | Some a => if as_is_hardcoded a then denied (attribute_name_str name) " cannot be deleted" else Ok tt
  end.

Definition delete_user_attribute_mutation (name : string) : io S GqlError unit :=
  let name := AttributeName_from name in
  with_admin handler v "Unauthorized attribute deletion"
    (let! schema := gql get_schema in
     let! _ := io_lift (check_deletable (s_user_attributes schema) name) in
     gql (GraphqlQuery.delete_user_attribute name)).

Definition delete_group_attribute_mutation (name : string) : io S GqlError unit :=
  let name := AttributeName_from name in
  with_admin handler v "Unauthorized attribute deletion"
    (let! schema := gql get_schema in
     let! _ := io_lift (check_deletable (s_group_attributes schema) name) in
     gql (GraphqlQuery.delete_group_attribute name)).

Definition object_class_mutation (msg : string) (op : LdapObjectClass -> io S DomainError unit) (name : string)
  : io S GqlError unit :=
  with_admin handler v msg (gql (op (MkLdapObjectClass name))).

(** ** Settings *)

(** The numbers are checked before the caller's rights are. *)
Definition set_posix_settings_mutation (input : PosixSettingsInput) : io S GqlError unit :=
  let! _ := io_lift (check_posix_settings input) in
  with_admin handler v "Unauthorized POSIX settings change"
    (context "Failed to save POSIX settings" (GraphqlQuery.set_posix_settings input)).

Definition reassign_mutation (what which : string) (op : io S DomainError unit) : io S GqlError unit :=
  with_admin handler v ("Unauthorized " +:+ what +:+ " reassign")
    (context ("Failed to reassign " +:+ which) op).
End Mutations.

(** ** A request *)

Inductive Mutation : Type :=
| MCreateUser (user : CreateUserInput)
| MSetUserPassword (user_id password : string)
| MCreateGroup (group : CreateGroupInput)
| MUpdateUser (user : UpdateUserInput)
| MUpdateGroup (group : UpdateGroupInput)
| MAddUserToGroup (user_id : string) (group_id : Z)
| MRemoveUserFromGroup (user_id : string) (group_id : Z)
| MDeleteUser (user_id : string)
| MDeleteGroup (group_id : Z)
| MCreateOu (name : string)
| MDeleteOu (name : string)
| MChangeUserOu (user_ids : list string) (new_ou : string)
| MChangeGroupOu (group_ids : list Z) (new_ou : string)
| MAddUserAttribute (name : string) (t : AttributeType) (is_list is_visible is_editable : bool)
| MAddGroupAttribute (name : string) (t : AttributeType) (is_list is_visible is_editable : bool)
| MDeleteUserAttribute (name : string)
| MDeleteGroupAttribute (name : string)
| MAddUserObjectClass (name : string)
| MAddGroupObjectClass (name : string)
| MDeleteUserObjectClass (name : string)
| MDeleteGroupObjectClass (name : string)
| MSyncKerberosPassword (user_id encrypted_password : string)
| MSetPosixSettings (input : PosixSettings)
| MReassignUserUidNumbers
| MReassignUserGidNumbers
| MReassignUserHomedirectories
| MReassignUserLoginshells
| MReassignGidNumbers.

Section Mutate.
Context `{Extern, GraphqlExtern, OpaqueExtern} {S : Type} (handler : BackendHandler S).
Context (schema_handler : SchemaBackendHandler S) (config : ConfigBackendHandler S).
Context (opaque : OpaqueHandler S) (rng : nat -> Coins) (v : ValidationResults).

(** The mutation of a request, its answer left out. *)
Definition mutate (m : Mutation) : io S GqlError unit :=
  let quiet {A} (m : io S GqlError A) := let! _ := m in io_ret tt in
  match m with
  | MCreateUser u => quiet (create_user_mutation handler v u)
  | MSetUserPassword u p => set_user_password handler opaque rng v u p
  | MCreateGroup g => quiet (create_group_with_details handler v g)
  | MUpdateUser u => update_user_mutation handler v u
  | MUpdateGroup g => update_group_mutation handler v g
  | MAddUserToGroup u g => add_user_to_group_mutation handler v u g
  | MRemoveUserFromGroup u g => remove_user_from_group_mutation handler v u g
  | MDeleteUser u => delete_user_mutation handler v u
  | MDeleteGroup g => delete_group_mutation handler v g
  | MCreateOu n => create_ou handler config v n
  | MDeleteOu n => delete_ou handler config v n
  | MChangeUserOu us ou => change_user_ou handler v us ou
  | MChangeGroupOu gs ou => change_group_ou handler v gs ou
  | MAddUserAttribute n t l vis ed => add_user_attribute_mutation handler schema_handler v n t l vis ed
  | MAddGroupAttribute n t l vis ed => add_group_attribute_mutation handler schema_handler v n t l vis ed
  | MDeleteUserAttribute n => delete_user_attribute_mutation handler schema_handler v n
  | MDeleteGroupAttribute n => delete_group_attribute_mutation handler schema_handler v n
  | MAddUserObjectClass n =>
      object_class_mutation handler v "Unauthorized object class addition" GraphqlQuery.add_user_object_class n
  | MAddGroupObjectClass n =>
      object_class_mutation handler v "Unauthorized object class addition" GraphqlQuery.add_group_object_class n
  | MDeleteUserObjectClass n =>
      object_class_mutation handler v "Unauthorized object class deletion" GraphqlQuery.delete_user_object_class n
  | MDeleteGroupObjectClass n =>
      object_class_mutation handler v "Unauthorized object class deletion" GraphqlQuery.delete_group_object_class n
  | MSyncKerberosPassword u p => quiet (sync_kerberos_password handler v u p)
  | MSetPosixSettings p => set_posix_settings_mutation handler config v p
  | MReassignUserUidNumbers => reassign_mutation handler v "uidNumber" "user uidNumbers" GraphqlQuery.reassign_user_uid_numbers
  | MReassignUserGidNumbers => reassign_mutation handler v "gidNumber" "user gidNumbers" GraphqlQuery.reassign_user_gid_numbers
  | MReassignUserHomedirectories =>
      reassign_mutation handler v "homeDirectory" "user homeDirectories" GraphqlQuery.reassign_user_homedirectories
  | MReassignUserLoginshells => reassign_mutation handler v "loginShell" "user loginShells" GraphqlQuery.reassign_user_loginshells
  | MReassignGidNumbers => reassign_mutation handler v "gidNumber" "gidNumbers" GraphqlQuery.reassign_gid_numbers
  end.
End Mutate.
