(* ===== verification/Confinement.v ===== *)
(** * What a user without administration rights can change

    The SQL backend under both front ends: the tables a session of a non-administrator
    can change through LDAP messages and GraphQL mutations.  The LDAP layer's theorem is
    stated against [ReadsPreserve] and [ConfinedWrites]; here the SQL backend discharges
    these interfaces, and the same is proved for the GraphQL mutations. *)

From S2P Require Import Prelude Strings Types Schema SchemaManager Proto Access Dn Filters Search LdapWrite Session.
From S2P Require Import Database SqlConfig SqlGroups SqlUsers SqlOps SqlLists Opaque AuthTokens AuthService.
From S2P Require Import GraphqlQuery GraphqlInput GraphqlMutation.

(** ** The SQL backend's other interfaces *)

Section Instances.
Context `{Extern, SqlExtern}.

Definition sql_schema_handler : SchemaBackendHandler Db := {|
  GraphqlQuery.add_user_attribute := SqlConfig.add_user_attribute;
  GraphqlQuery.add_group_attribute := SqlConfig.add_group_attribute;
  GraphqlQuery.delete_user_attribute := SqlConfig.delete_user_attribute;
  GraphqlQuery.delete_group_attribute := SqlConfig.delete_group_attribute;
  GraphqlQuery.add_user_object_class := SqlConfig.add_user_object_class;
  GraphqlQuery.add_group_object_class := SqlConfig.add_group_object_class;
  GraphqlQuery.delete_user_object_class := SqlConfig.delete_user_object_class;
  GraphqlQuery.delete_group_object_class := SqlConfig.delete_group_object_class
|}.

Definition sql_config_handler : ConfigBackendHandler Db := {|
  GraphqlQuery.set_system_config := SqlConfig.set_system_config;
  GraphqlQuery.get_posix_settings := SqlConfig.get_posix_settings;
  GraphqlQuery.set_posix_settings := SqlConfig.set_posix_settings;
  GraphqlQuery.reassign_gid_numbers := SqlConfig.reassign_gid_numbers;
  GraphqlQuery.reassign_user_uid_numbers := SqlConfig.reassign_user_uid_numbers;
  GraphqlQuery.reassign_user_gid_numbers := SqlConfig.reassign_user_gid_numbers;
  GraphqlQuery.reassign_user_homedirectories := SqlConfig.reassign_user_homedirectories;
  GraphqlQuery.reassign_user_loginshells := SqlConfig.reassign_user_loginshells
|}.
End Instances.

(** A GraphQL mutation on the SQL backend *)
Definition sql_mutate `{Extern, LdapExtern, SqlExtern, OpaqueExtern, GraphqlExtern} (setup : ServerSetup)
    (kdc_answer : KdcCall -> result DomainError unit) (rng : nat -> Coins) (v : ValidationResults)
    (m : Mutation) : io Db GqlError unit :=
  mutate (full_backend setup kdc_answer) sql_schema_handler sql_config_handler
    (sql_opaque_handler setup) rng v m.

(** ** Everything but one's own entry *)

(** A row without what setting a password changes. *)
Definition redact (r : UserRow) : UserRow :=
  MkUserRow (ur_email r) (ur_lowercase_email r) (ur_display_name r) (ur_creation_date r)
    None (ur_totp_secret r) (ur_mfa_type r) (ur_uuid r) 0 0 None.

(** The tables without the entry of [me] and, if [any_password], without the passwords,
    principals and modification dates of the others. *)
Definition others (me : UserId) (any_password : bool) (t : Tables) : Tables :=
  with_user_attributes
    (with_users t (if any_password then redact <$> delete me (t_users t) else delete me (t_users t)))
    (filter (fun kv => (kv.1).1 <> me) (t_user_attributes t)).

Definition others_db (me : UserId) (any_password : bool) (s : Db) : Tables :=
  others me any_password (db_tables s).

Section Observation.
Context `{Extern, SqlExtern} (me : UserId) (any : bool).

Lemma preserves_others {E A} (m : io Db E A) : preserves db_tables m -> preserves (others_db me any) m.
Proof. intros Hm s. unfold others_db. by rewrite Hm. Qed.

Lemma keeps_others {E A} (m : io Db E A) :
  (forall o, keeps (fun t => others me any t = o) m) -> preserves (others_db me any) m.
Proof. intros Hm s. by apply (Hm (others_db me any s) s). Qed.

(** A change of a row that leaves the rest as it is. *)
Lemma others_update u ch :
  u = me \/ any = true /\ (forall r, redact (ch r) = redact r) ->
  stmt_frame (others me any) (update_user_row u ch).
Proof.
  intros Hu t a t' Ht. unfold update_user_row in Ht. destruct (t_users t !! u) as [row|] eqn:Er; [|done].
  destruct (user_conflict _ _ _); [done|]. injection Ht as _ <-. unfold others. simpl.
  f_equal. f_equal. destruct Hu as [->|[-> Hch]].
  - by rewrite delete_insert_eq.
  - apply map_eq. intros k. rewrite !lookup_fmap. destruct (decide (k = me)) as [->|Hk].
    + by rewrite !lookup_delete_eq.
    + rewrite !lookup_delete_ne by done. destruct (decide (k = u)) as [->|Hku].
      * rewrite lookup_insert_eq, Er. simpl. by rewrite Hch.
      * by rewrite lookup_insert_ne.
Qed.

Lemma filter_insert_me (m : gmap (UserId * AttributeName) string) n x :
  filter (fun kv => (kv.1).1 <> me) (<[(me, n) := x]> m) = filter (fun kv => (kv.1).1 <> me) m.
Proof.
  apply map_eq. intros [u k]. destruct (decide (u = me)) as [->|Hu].
  - rewrite !map_lookup_filter_None_2; [done|right; intros y _ Hne; by apply Hne..].
  - rewrite !map_lookup_filter. rewrite lookup_insert_ne by congruence. done.
Qed.

Lemma others_put b rows : stmt_frame (others me any) (put_user_attributes b me rows).
Proof.
  apply put_all_frame. intros n x t a t' Ht. unfold put_user_attribute in Ht.
  repeat case_match; simplify_eq; unfold others; simpl; by rewrite ?filter_insert_me.
Qed.

Lemma others_delete names : stmt_frame (others me any) (delete_user_attributes me names).
Proof.
  intros t a t' Ht. unfold delete_user_attributes in Ht. injection Ht as _ <-. unfold others. simpl.
  f_equal. apply map_eq. intros [u k]. rewrite !map_lookup_filter.
  destruct (t_user_attributes t !! (u, k)); simpl; [|done].
  repeat case_guard; simplify_option_eq; naive_solver.
Qed.
End Observation.

(** Follow the writes of an operation on one's own entry. *)
Ltac own_entry :=
  apply keeps_others; intros o; repeat keeps_step;
  apply (stmt_frame_keeps (others _ _) (fun t => t = o));
  auto using others_put, others_delete, others_update.

Section SqlConfined.
Context `{Extern, LdapExtern, SqlExtern, OpaqueExtern} (setup : ServerSetup).
Context (kdc_answer : KdcCall -> result DomainError unit) (me : UserId) (any : bool).

Lemma own_update r : uu_user_id r = me -> preserves (others_db me any) (sql_update_user r).
Proof.
  intros <-. unfold sql_update_user, update_user_with_transaction. own_entry.
Qed.

Lemma own_ensure u b :
  u = me \/ any = true -> preserves (others_db me any) (sql_ensure_kerberos_principal_consistency u b).
Proof.
  intros Hu. unfold sql_ensure_kerberos_principal_consistency. own_entry.
  apply others_update. destruct Hu; [by left|right; by split].
Qed.

Lemma own_password_write u h d :
  u = me \/ any = true -> stmt_frame (others me any) (update_user_row u (set_password h d)).
Proof. intros Hu. apply others_update. destruct Hu; [by left|right; by split]. Qed.

Lemma preserves_registration_start r : preserves db_tables (sql_registration_start setup r).
Proof. unfold sql_registration_start, draw. repeat first [done | preserves_step]. Qed.

Lemma preserves_user_details u : preserves db_tables (sql_get_user_details u).
Proof. unfold sql_get_user_details. solve_preserves. Qed.

Lemma preserves_sql_bind r : preserves db_tables (sql_bind setup r).
Proof.
  pose proof preserves_is_user_disabled.
  unfold sql_bind, get_password_file_for_user, account_disabled. cbv zeta.
  repeat first [done | preserves_step]; eauto with klldap.
Qed.

#[export] Instance sql_reads_tables : ReadsPreserve (full_backend setup kdc_answer) db_tables.
Proof.
  split; intros; simpl;
    auto using preserves_sql_bind, preserves_list_users, preserves_list_groups, preserves_user_details,
      preserves_user_groups, preserves_allowed_ous.
Qed.

#[export] Instance sql_reads_preserve : ReadsPreserve (full_backend setup kdc_answer) (others_db me any).
Proof. destruct sql_reads_tables. split; intros; by apply preserves_others. Qed.

Lemma preserves_lift_Ok {E A B} (a : A) (k : A -> io Db E B) :
  preserves (others_db me any) (k a) -> preserves (others_db me any) (io_bind (io_lift (Ok a)) k).
Proof. done. Qed.

(** The last step of a registration writes the user the first one sealed. *)
Lemma registration_finish_own `{!OpaqueLaws} u c k data upload :
  UserId_new (user_id_str u) = me \/ any = true ->
  get_orion_secret_key setup = Ok k ->
  seal_data c k (serialize_registration (MkRegistrationServerData u)) = Ok data ->
  preserves (others_db me any) (sql_registration_finish setup (MkClientRegistrationFinishRequest data upload)).
Proof.
  intros Hme Hk Hd. unfold sql_registration_finish. cbn [rf_server_data].
  rewrite (registration_data_read setup u c k data Hk Hd).
  apply preserves_lift_Ok. own_entry. by apply own_password_write.
Qed.

(** After a successful start the data is sealed for the user. *)
Lemma registration_start_data u m s resp s' :
  sql_registration_start setup (MkClientRegistrationStartRequest u m) s = (Ok resp, s') ->
  exists c k, get_orion_secret_key setup = Ok k /\
    seal_data c k (serialize_registration (MkRegistrationServerData u)) = Ok (rr_server_data resp).
Proof. unfold sql_registration_start. intros Hs. io_inv Hs. simpl in *. eauto. Qed.

(** A start followed by steps that end with the finish of its data. *)
Lemma preserves_after_start {E A} u m (start : io Db E ServerRegistrationStartResponse)
    (k : ServerRegistrationStartResponse -> io Db E A) :
  preserves db_tables start ->
  (forall s resp s', start s = (Ok resp, s') ->
     sql_registration_start setup (MkClientRegistrationStartRequest u m) s = (Ok resp, s')) ->
  (forall resp c key, get_orion_secret_key setup = Ok key ->
     seal_data c key (serialize_registration (MkRegistrationServerData u)) = Ok (rr_server_data resp) ->
     preserves (others_db me any) (k resp)) ->
  preserves (others_db me any) (let! resp := start in k resp).
Proof.
  intros Hp Hstart Hk s. unfold io_bind. specialize (Hp s).
  destruct (start s) as [[resp|e] s1] eqn:Es; simpl in *; [|unfold others_db; by rewrite Hp].
  apply Hstart, registration_start_data in Es as (c & key & Hkey & Hd).
  rewrite (Hk resp c key Hkey Hd). unfold others_db. by rewrite Hp.
Qed.

Lemma own_register `{!OpaqueLaws} u pw :
  UserId_new (user_id_str u) = me \/ any = true ->
  preserves (others_db me any) (sql_register_password setup u pw).
Proof.
  intros Hme. unfold sql_register_password, draw.
  do 2 (apply preserves_bind; [done|intros ?]).
  eapply preserves_after_start; [apply preserves_registration_start|eauto|].
  intros resp c key Hkey Hd. do 2 (apply preserves_bind; [done|intros ?]).
  by eapply registration_finish_own.
Qed.

Lemma own_exchange `{!OpaqueLaws} rng u pw :
  UserId_new (user_id_str u) = me \/ any = true ->
  preserves (others_db me any) (register_exchange (sql_opaque_handler setup) rng u pw).
Proof.
  intros Hme. unfold register_exchange, context. simpl.
  apply preserves_bind; [done|intros start].
  eapply preserves_after_start with (m := snd start).
  - apply preserves_map_err, preserves_registration_start.
  - intros s resp s'. apply io_map_err_Ok.
  - intros resp c key Hkey Hd. apply preserves_bind; [done|intros upload].
    apply preserves_map_err. by eapply registration_finish_own.
Qed.

Lemma preserves_kdc c : preserves db_tables (kdc kdc_answer c).
Proof. unfold kdc. solve_preserves. Qed.

(** The interface the LDAP layer's confinement theorem asks for; a user's name is in its
    stored form. *)
Lemma sql_confined_writes `{!OpaqueLaws} :
  UserId_new (user_id_str me) = me ->
  ConfinedWrites (full_backend setup kdc_answer) (others_db me any) me any.
Proof.
  intros Hn. split; simpl; intros.
  - by apply own_update.
  - apply own_register. naive_solver.
  - apply preserves_others, preserves_kdc.
  - by apply own_ensure.
Qed.
End SqlConfined.

(** ** GraphQL mutations *)

Section MutateConfined.
Context `{Extern, LdapExtern, SqlExtern, OpaqueExtern, GraphqlExtern} `{!OpaqueLaws} (setup : ServerSetup).
Context (kdc_answer : KdcCall -> result DomainError unit) (rng : nat -> Coins) (v : ValidationResults).
Context (Hadmin : is_admin v = false) (Hnormal : UserId_new (user_id_str (vr_user v)) = vr_user v).
Context (any : bool).
Local Abbreviation back := (full_backend setup kdc_answer).
Local Abbreviation obs := (others_db (vr_user v) any).

Lemma admin_only {A} msg (m : io Db GqlError A) : preserves obs (with_admin back v msg m).
Proof. unfold with_admin, get_admin_handler. rewrite Hadmin. apply preserves_fail. Qed.

Lemma writeable_self {A} u msg (m : io Db GqlError A) :
  (u = vr_user v -> preserves obs m) -> preserves obs (with_writeable back v u msg m).
Proof.
  intros Hm. unfold with_writeable, get_writeable_handler. destruct (can_write v u) eqn:Ew.
  - apply Hm. by apply can_write_self.
  - apply preserves_fail.
Qed.

Lemma preserves_schema : preserves obs (gql (@get_schema Db back)).
Proof. apply preserves_map_err, preserves_others. simpl. apply preserves_sql_get_schema. Qed.

Lemma preserves_details {A} msg u (k : User -> io Db GqlError A) :
  (forall d, preserves obs (k d)) ->
  preserves obs (let! d := context msg (@get_user_details Db back u) in k d).
Proof.
  intros Hk. apply preserves_bind; [|done]. apply preserves_map_err, preserves_others. apply preserves_user_details.
Qed.

Lemma preserves_ensure u b :
  u = vr_user v ->
  preserves obs (io_try (E' := GqlError) (@ensure_kerberos_principal_consistency Db back u b)).
Proof. intros ->. apply preserves_try. simpl. apply own_ensure. by left. Qed.

Lemma preserves_sync u p : preserves obs (@sync_kerberos_principal Db back u p).
Proof. apply preserves_others, preserves_kdc. Qed.

Lemma set_user_password_own u p :
  preserves obs (set_user_password back (sql_opaque_handler setup) rng v u p).
Proof.
  apply writeable_self. intros Hu. rewrite Hu.
  apply preserves_bind; [|intros _]; [apply (own_exchange setup (vr_user v) any rng); by left|].
  apply preserves_details. intros d. apply preserves_bind; [apply preserves_schema|intros schema]. cbv zeta.
  apply preserves_bind; [|intros _; apply preserves_bind; [by apply preserves_ensure|done]].
  unfold sync_if_enabled. case_match; [|done].
  apply preserves_bind; [|done]. apply preserves_try, preserves_sync.
Qed.

Lemma update_user_own u : preserves obs (update_user_mutation back v u).
Proof.
  apply writeable_self. intros Hu. rewrite Hu.
  apply preserves_bind; [apply preserves_schema|intros schema]. cbv zeta.
  apply preserves_bind; [apply preserves_lift|intros un].
  apply preserves_map_err. simpl. by apply own_update.
Qed.

Lemma sync_kerberos_own u p : preserves obs (sync_kerberos_password back v u p).
Proof.
  apply writeable_self. intros Hu. rewrite Hu.
  apply preserves_bind; [apply preserves_lift|intros plain].
  apply preserves_details. intros d. apply preserves_bind; [apply preserves_schema|intros schema]. cbv zeta.
  apply preserves_bind; [|intros _; apply preserves_bind; [by apply preserves_ensure|done]].
  case_match; [apply preserves_map_err, preserves_sync|done].
Qed.

(** Every mutation leaves the others as they are. *)
Lemma mutate_preserves m : preserves obs (sql_mutate setup kdc_answer rng v m).
Proof.
  unfold sql_mutate, mutate. destruct m; cbv zeta; try apply admin_only;
    try (apply preserves_bind; [|intros; apply preserves_ret]; apply admin_only).
  - apply set_user_password_own.
  - apply update_user_own.
  - apply preserves_bind; [apply sync_kerberos_own|done].
  - unfold set_posix_settings_mutation. apply preserves_bind; [apply preserves_lift|intros _]. apply admin_only.
Qed.
End MutateConfined.

(** ** Both front ends *)

(** What a user does: LDAP messages of its sessions and GraphQL mutations. *)
Inductive Action : Type :=
| ByLdap (op : LdapOp)
| ByGraphql (m : Mutation).

Section BothFrontEnds.
Context `{Extern, LdapExtern, SqlExtern, OpaqueExtern, GraphqlExtern} (setup : ServerSetup).
Context (kdc_answer : KdcCall -> result DomainError unit) (info : LdapInfo) (rng : nat -> Coins).

Definition act (v : ValidationResults) (a : Action) (s : Db) : Db :=
  match a with
  | ByLdap op => snd (handle_ldap_message (full_backend setup kdc_answer) info (Some v) op s)
  | ByGraphql m => snd (sql_mutate setup kdc_answer rng v m s)
  end.

Definition act_all (v : ValidationResults) (actions : list Action) (s : Db) : Db :=
  fold_left (fun s a => act v a s) actions s.

Lemma act_confined `{!OpaqueLaws} v a s :
  is_admin v = false -> UserId_new (user_id_str (vr_user v)) = vr_user v ->
  let obs := others_db (vr_user v) (permission_eqb (vr_permission v) PasswordManager) in
  obs (act v a s) = obs s.
Proof.
  intros Hv Hn obs. destruct a as [op|m]; simpl.
  - pose proof (sql_confined_writes setup kdc_answer (vr_user v)
      (permission_eqb (vr_permission v) PasswordManager) Hn) as Hw.
    exact (message_preserves (full_backend setup kdc_answer) info obs v Hv op s).
  - by apply mutate_preserves.
Qed.
End BothFrontEnds.

(** C2: whatever sequence of LDAP messages and GraphQL mutations a user without
    administration rights sends, and whatever the KDC answers and the database fails at,
    only its own row and attributes can differ afterwards: every group, every membership
    (its own too), the schema, the settings, the sessions, and the row and attributes
    of every other user are what they were.  Only for a password manager may the
    passwords (with their principal and modification dates) of other users differ. *)
Theorem nonadmin_confined_to_own_entry
    `{Extern, LdapExtern, SqlExtern, OpaqueExtern, !OpaqueLaws, GraphqlExtern} setup kdc_answer info rng v
    actions s :
  is_admin v = false -> UserId_new (user_id_str (vr_user v)) = vr_user v ->
  let s' := act_all setup kdc_answer info rng v actions s in
  let password_manager := permission_eqb (vr_permission v) PasswordManager in
  t_memberships (db_tables s') = t_memberships (db_tables s) /\
  others_db (vr_user v) password_manager s' = others_db (vr_user v) password_manager s.
Proof.
  intros Hv Hn. cbv zeta. set (any := permission_eqb _ _).
  assert (others_db (vr_user v) any (act_all setup kdc_answer info rng v actions s)
          = others_db (vr_user v) any s) as Ho.
  { revert s. induction actions as [|a actions IH]; intros s; simpl; [done|].
    etrans; [apply IH|]. by apply act_confined. }
  split; [|done]. apply (f_equal t_memberships) in Ho. exact Ho.
Qed.

Definition demo_graphql_extern : GraphqlExtern := {|
  date_to_rfc3339 := int_to_string;
  b64_encode s := s;
  url_decode := Some;
  is_alphanumeric c := match c with String a "" => is_ou_char a && negb (String.eqb c "_") | _ => false end;
  decrypt_password := Some
|}.

Definition demo_mutate (v : ValidationResults) (m : Mutation) : io Db GqlError unit :=
  @sql_mutate lawful_extern demo_ldap_extern demo_sql_extern demo_opaque_extern demo_graphql_extern "key"
    (fun _ => Ok tt) (fun _ => tt) v m.

(** A regular user sets its password and tries the administrator's and the group of the
    administrators. *)
Lemma nonadmin_confined_to_own_entry_witness :
  let eve := MkValidationResults (MkUserId "eve") Regular in
  let s' := @act_all lawful_extern demo_ldap_extern demo_sql_extern demo_opaque_extern demo_graphql_extern
    "key" (fun _ => Ok tt) demo_info (fun _ => tt) eve
    [ByGraphql (MSetUserPassword "eve" "new"); ByGraphql (MSetUserPassword "bob" "new");
     ByGraphql (MAddUserToGroup "eve" 1)] demo_db in
  fst (demo_mutate eve (MSetUserPassword "eve" "new") demo_db) = Ok tt /\
  t_memberships (db_tables s') = t_memberships (db_tables demo_db) /\
  others_db (MkUserId "eve") false s' = others_db (MkUserId "eve") false demo_db.
Proof.
  intros eve s'. split; [vm_compute; reflexivity|].
  exact (@nonadmin_confined_to_own_entry lawful_extern demo_ldap_extern demo_sql_extern demo_opaque_extern _
    demo_graphql_extern "key" (fun _ => Ok tt) demo_info (fun _ => tt) eve _ demo_db eq_refl eq_refl).
Defined.
