(* ===== verification/GraphqlSql.v ===== *)
(** * GraphQL on the SQL backend

    What the resolvers of [mutation/mod.rs] and [query/mod.rs] do to the tables and
    answer from them when the backend is the SQL one. *)

From S2P Require Import Prelude Strings Types Schema SchemaManager Proto Access Filters Search.
From S2P Require Import Database SqlConfig SqlGroups SqlUsers SqlOps SqlLists Opaque AuthTokens AuthService.
From S2P Require Import GraphqlQuery GraphqlInput GraphqlMutation Confinement.

(** ** What an update of a user writes *)

Section UpdatedAttributes.
Context `{Extern, SqlExtern}.

(** The attribute [n] of [u] in [t'] is the one it had in [t], or is deleted as asked,
    or is one of the rows. *)
Definition attribute_written (u : UserId) (removed : list AttributeName) (rows : list (AttributeName * string))
    (t t' : Tables) : Prop :=
  forall n, let new := t_user_attributes t' !! (u, n) in
    new = t_user_attributes t !! (u, n) \/ (new = None /\ n ∈ removed) \/
    exists x, new = Some x /\ (n, x) ∈ rows.

Lemma put_rows_written u removed rows rows' t0 :
  rows' ⊆ rows -> stmt_keeps (attribute_written u removed rows t0) (put_user_attributes true u rows').
Proof.
  intros Hr. unfold put_user_attributes. induction rows' as [|[k x] rows' IH]; intros t a t' Hp Ht; simpl in Hp.
  - injection Hp as _ <-. done.
  - apply result_bind_Ok in Hp as ([[] t1] & H1 & Hp). eapply IH; [set_solver|exact Hp|].
    unfold put_user_attribute in H1. simpl in H1. repeat case_match; simplify_eq. intros n. simpl.
    destruct (decide (n = k)) as [->|Hn].
    + rewrite lookup_insert_eq. right. right. exists x. split; [done|]. set_solver.
    + rewrite lookup_insert_ne by congruence. apply Ht.
Qed.

Lemma delete_written u removed rows t0 : stmt_keeps (attribute_written u removed rows t0) (delete_user_attributes u removed).
Proof.
  intros t a t' Hd Ht. injection Hd as _ <-. intros n. cbn [t_user_attributes with_user_attributes].
  destruct (decide (n ∈ removed)) as [Hn|Hn].
  - right. left. split; [|done]. apply map_lookup_filter_None_2. right. intros x _ Hx. by apply Hx.
  - specialize (Ht n). rewrite map_lookup_filter. destruct (t_user_attributes t !! (u, n)); simpl; [|done].
    by rewrite option_guard_True by (simpl; naive_solver).
Qed.

Lemma update_row_written u removed rows t0 u' ch :
  stmt_keeps (attribute_written u removed rows t0) (update_user_row u' ch).
Proof. intros t a t' Hu Ht n. specialize (Ht n). unfold update_user_row in Hu. repeat case_match; by simplify_eq. Qed.

Lemma sql_update_user_written r s s' :
  sql_update_user r s = (Ok tt, s') ->
  exists schema rows removed kerb,
    schema_of (db_tables s) = Ok schema /\
    compute_user_attribute_changes (uu_insert_attributes r) (uu_delete_attributes r) schema
      = Ok (rows, removed, kerb) /\
    attribute_written (uu_user_id r) removed rows (db_tables s) (db_tables s').
Proof.
  intros (s0 & s1 & H0' & Hb & ->)%transaction_Ok. unfold update_user_with_transaction in Hb.
  apply io_bind_Ok in Hb as (schema & s2 & Hsch & Hb). apply get_schema_Ok in Hsch as [Hsch H2'].
  apply io_bind_Ok in Hb as (changes & s3 & Hc & Hb). apply io_lift_Ok in Hc as [Hc <-].
  destruct changes as [[rows removed] kerb]. exists schema, rows, removed, kerb.
  rewrite <- H0' in *. split_and!; [done..|].
  revert Hb. match goal with |- ?m s2 = _ -> _ => enough (keeps (attribute_written (uu_user_id r) removed rows
    (db_tables s0)) m) as Hk end.
  { intros Hb. specialize (Hk s2). rewrite Hb in Hk. apply Hk. rewrite H2'. by left. }
  repeat keeps_step; auto using delete_written, update_row_written, put_rows_written.
Qed.
End UpdatedAttributes.

Section UpdateUser.
Context `{Extern, LdapExtern, SqlExtern, OpaqueExtern, GraphqlExtern}.

(** A value of the type the schema declares, stored under the name of an attribute that
    the caller may change. *)
Definition proper_value (schema : PublicSchema) (is_admin : bool) (n : AttributeName) (bytes : string) : Prop :=
  exists sch value, sch ∈ attributes (s_user_attributes schema) /\ n = AttributeName_from (as_name sch) /\
    as_is_readonly sch = false /\ (is_admin = true \/ as_is_editable sch = true) /\
    value_matches (as_attribute_type sch) (as_is_list sch) value = true /\
    bytes = attribute_value_to_db_bytes value.

Lemma permitted_rows schema adm attrs deleted rows removed kerb :
  Forall (permitted (s_user_attributes schema) adm) attrs ->
  compute_user_attribute_changes attrs deleted schema = Ok (rows, removed, kerb) ->
  Forall (fun row => proper_value schema adm (fst row) (snd row)) rows /\
  removed ⊆ map canonical_user_attribute_name deleted.
Proof.
  intros Hp. unfold compute_user_attribute_changes. cbv zeta.
  intros (rows' & Hr%collect_map_Ok & [= <- <- _])%result_bind_Ok. split.
  - revert Hp. induction Hr as [|a row attrs rows Ha Hr IH]; intros Hp; [done|].
    inversion Hp as [|? ? (sch & Hs & Hro & Hed & Hm) Hp']; subst. constructor; [|by apply IH].
    unfold updated_user_row in Ha. case_match; [|done]. injection Ha as <-.
    exists sch, (attr_value a). unfold user_row_of, canonical_name. simpl. rewrite Hs.
    apply get_by_name_or_alias_Some in Hs. naive_solver.
  - intros n. rewrite !list_elem_of_In, filter_In. by intros [Hn _].
Qed.

Lemma gql_Ok {S A} (m : io S DomainError A) s a s' : gql m s = (Ok a, s') -> m s = (Ok a, s').
Proof. apply io_map_err_Ok. Qed.
End UpdateUser.

(** C15: an update of a user through GraphQL leaves every attribute of the user as it was,
    deletes one the request asked to delete, or stores a value of the type and
    cardinality that the schema declares, under the canonical name of an attribute of
    the schema that is not read-only and, unless the caller is an administrator, is
    editable by its owner. *)
Theorem update_user_stores_proper_values `{Extern, LdapExtern, SqlExtern, OpaqueExtern, GraphqlExtern} setup
    kdc_answer rng v input s s' :
  sql_mutate setup kdc_answer rng v (MUpdateUser input) s = (Ok tt, s') ->
  exists schema, schema_of (db_tables s) = Ok schema /\ forall n,
    let u := UserId_new (ui_id input) in
    let old := t_user_attributes (db_tables s) !! (u, n) in
    let new := t_user_attributes (db_tables s') !! (u, n) in
    new = old \/
    (new = None /\ n ∈ map canonical_user_attribute_name
                         (map AttributeName_from (from_option id [] (ui_remove_attributes input)))) \/
    exists bytes, new = Some bytes /\ proper_value schema (is_admin v) n bytes.
Proof.
  unfold sql_mutate, mutate, update_user_mutation, with_writeable. cbv zeta. case_match; [|done].
  intros Hs. apply io_bind_Ok in Hs as (schema & s1 & Hsch%gql_Ok & Hs). simpl in Hsch.
  apply sql_get_schema_Ok in Hsch as [Hsch Ht1].
  apply io_bind_Ok in Hs as (un & s2 & Hun & Hs). apply io_lift_Ok in Hun as [Hun%unpack_permitted <-].
  apply gql_Ok in Hs. simpl in Hs. apply sql_update_user_written in Hs as (schema' & rows & removed & k & Hsch' & Hc & Hw).
  rewrite Ht1, Hsch in Hsch'. injection Hsch' as <-. simpl in Hc, Hw.
  destruct (permitted_rows _ _ _ _ _ _ _ Hun Hc) as [Hrows Hrem]. exists schema. split; [done|].
  intros n. simpl. rewrite Ht1 in Hw. destruct (Hw n) as [Hn|[[Hn Hr]|(x & Hx & Hr)]]; [by left| |].
  - right. left. split; [done|]. apply Hrem in Hr. clear -Hr.
    apply list_elem_of_In, in_map_iff in Hr as (n1 & <- & (n2 & <- & Hn2)%in_map_iff).
    apply filter_In in Hn2 as [[Hn2 _]%filter_In _].
    apply list_elem_of_In, in_map, in_map. done.
  - right. right. exists x. split; [done|]. rewrite Forall_forall in Hrows. by apply (Hrows (n, x)).
Qed.

Definition eve : ValidationResults := MkValidationResults (MkUserId "eve") Regular.

Definition set_attribute (user name value : string) : UpdateUserInput :=
  MkUpdateUserInput user None None None None None None (Some [MkAttributeInput name [value]]).

(** The owner may store a first name but not a user number. *)
Lemma update_user_stores_proper_values_witness :
  let m := MUpdateUser (set_attribute "eve" "givenName" "Eve") in
  let s' := snd (demo_mutate eve m demo_db) in
  let firstname := AttributeName_from "firstname" in
  t_user_attributes (db_tables s') !! (MkUserId "eve", firstname) = Some "Eve" /\
  is_ok (fst (demo_mutate eve (MUpdateUser (set_attribute "eve" "uidNumber" "3500")) demo_db)) = false /\
  exists schema, @schema_of lawful_extern demo_sql_extern (db_tables demo_db) = Ok schema /\
    @proper_value lawful_extern schema false firstname "Eve".
Proof.
  intros m s' firstname.
  assert (t_user_attributes (db_tables s') !! (MkUserId "eve", firstname) = Some "Eve") as Hnew
    by (vm_compute; reflexivity).
  split_and!; [exact Hnew|vm_compute; reflexivity|].
  assert (demo_mutate eve m demo_db = (Ok tt, s')) as Hm.
  { rewrite (surjective_pairing (demo_mutate eve m demo_db)). by f_equal. }
  clearbody s'.
  destruct (@update_user_stores_proper_values lawful_extern demo_ldap_extern demo_sql_extern
    demo_opaque_extern demo_graphql_extern "key" (fun _ => Ok tt) (fun _ => tt) eve _ demo_db s' Hm)
    as (schema & Hs & Hn).
  exists schema. split; [exact Hs|]. destruct (Hn firstname) as [Ho|[[Ho _]|(b & Hb & Hp)]].
  - exfalso. change (UserId_new _) with (MkUserId "eve") in Ho. rewrite Hnew in Ho. vm_compute in Ho. discriminate.
  - exfalso. change (UserId_new _) with (MkUserId "eve") in Ho. rewrite Hnew in Ho. discriminate.
  - change (UserId_new _) with (MkUserId "eve") in Hb. rewrite Hnew in Hb. injection Hb as <-. exact Hp.
Defined.

(** ** Request filters *)

Section FilterLemmas.
Context `{Extern}.

Lemma equality_filter_answerable eq schema d : equality_filter eq schema = Ok d -> answerable d = true.
Proof.
  unfold equality_filter. cbv zeta.
  pose proof (fun n c => map_user_field_columns mapped_columns _ n schema c public_primary_columns) as Hc.
  set (n := AttributeName_from _). specialize (Hc n).
  generalize dependent (map_user_field get_schema_manager n schema). intros [| | | | | |c|m t []] Hc He;
    try (discriminate He); try (by injection He as <-).
  - specialize (Hc c eq_refl). unfold mapped_columns in Hc.
    destruct c; first [by injection He as <- | exfalso; clear -Hc; set_solver].
  - by apply result_bind_Ok in He as (x & _ & [= <-]).
Qed.

Lemma request_filter_answerable f schema : forall d, try_into_domain_filter f schema = Ok d -> answerable d = true.
Proof.
  assert (forall fs ds, Forall (fun f => forall d, try_into_domain_filter f schema = Ok d -> answerable d = true) fs ->
    collect (map (fun f => try_into_domain_filter f schema) fs) = Ok ds -> forallb answerable ds = true) as Hl.
  { intros fs ds Hfs Hc%collect_map_Ok. induction Hc as [|f1 d1 fs ds Hd Hc IH]; [done|].
    inversion Hfs; subst. simpl. apply andb_true_intro. eauto. }
  induction f as [any all not eq m mid Hany Hall Hnot] using RequestFilter_ind'. intros d Hd.
  cbn [try_into_domain_filter] in Hd. destruct eq, any, all, not, m, mid;
    lazymatch type of Hd with
    | Err _ = Ok _ => discriminate Hd
    | Ok _ = Ok _ => by injection Hd as <-
    | equality_filter _ _ = Ok _ => exact (equality_filter_answerable _ _ _ Hd)
    | _ => apply result_bind_Ok in Hd as (x & Hx & [= <-]); simpl in *; eauto
    end.
Qed.
End FilterLemmas.

(** *** What a filter asks of a user

    Stated on the tables, with SQL's three values: a missing value is unknown. *)

Section Meaning.
Context `{Extern, SqlExtern} (t : Tables) (schema : PublicSchema) (uid : UserId) (r : UserRow).

(** The user belongs to a stored group with the property. *)
Definition in_group (p : GroupId * GroupRow -> bool) : bool :=
  existsb (fun g => bool_decide ((uid, fst g) ∈ t_memberships t) && p g) (map_to_list (t_groups t)).

Definition in_group_named (name : string) : bool :=
  in_group (fun g => String.eqb (gr_lowercase_display_name (snd g)) (str_to_lowercase name)).

(** A field is a column of the user's row, an attribute, or the membership in a group. *)
Definition field_says (field value : string) : tri :=
  let canonical := from_option id field (resolve_user_canonical_name schema field) in
  match map_user_field get_schema_manager (AttributeName_from canonical) schema with
  | UfPrimaryField ColUserId => Some (user_id_eqb uid (UserId_new value))
  | UfPrimaryField ColEmail => Some (String.eqb (ur_lowercase_email r) (str_to_lowercase value))
  | UfPrimaryField ColDisplayName => (fun x => String.eqb x value) <$> ur_display_name r
  | UfPrimaryField ColKrbPrincipalName => (fun x => String.eqb x value) <$> ur_krb_principal_name r
  | UfPrimaryField ColCreationDate => Some (String.eqb (date_text (ur_creation_date r)) value)
  | UfPrimaryField ColModifiedDate => Some (String.eqb (date_text (ur_modified_date r)) value)
  | UfPrimaryField ColPasswordModifiedDate => Some (String.eqb (date_text (ur_password_modified_date r)) value)
  | UfAttribute name typ false =>
      match deserialize_attribute_value [value] typ false with
      | Ok v => Some (bool_decide (t_user_attributes t !! (uid, name) = Some (attribute_value_to_db_bytes v)))
      | Err _ => None
      end
  | UfMemberOf => Some (in_group_named value)
  | _ => None
  end.

Fixpoint request_says (f : RequestFilter) : tri :=
  match f with
  | MkRequestFilter (Some fs) None None None None None => any3 (map request_says fs)
  | MkRequestFilter None (Some fs) None None None None => all3 (map request_says fs)
  | MkRequestFilter None None (Some g) None None None => not3 (request_says g)
  | MkRequestFilter None None None (Some eq) None None => field_says (ec_field eq) (ec_value eq)
  | MkRequestFilter None None None None (Some name) None => Some (in_group_named name)
  | MkRequestFilter None None None None None (Some gid) => Some (in_group (fun g => Z.eqb (fst g) gid))
  | _ => None
  end.

Lemma in_group_spec p : existsb p (groups_of_user t uid) = in_group p.
Proof.
  unfold in_group, groups_of_user. apply eq_true_iff_eq. rewrite !existsb_exists. split.
  - intros ([g row] & Hin%list_elem_of_In%elem_of_map_to_list & Hp).
    apply map_lookup_filter_Some in Hin as [Hg Hm]. exists (g, row).
    split; [by apply list_elem_of_In, elem_of_map_to_list|]. simpl in *. by rewrite bool_decide_eq_true_2.
  - intros ([g row] & Hin%list_elem_of_In%elem_of_map_to_list & [Hm%bool_decide_eq_true_1 Hp]%andb_true_iff).
    exists (g, row). split; [|done]. apply list_elem_of_In, elem_of_map_to_list. by apply map_lookup_filter_Some.
Qed.

(** The translation of one field, and what the rows say. *)
Lemma equality_filter_says eq d :
  equality_filter eq schema = Ok d -> eval_user (user_atom t uid r) d = field_says (ec_field eq) (ec_value eq).
Proof.
  unfold equality_filter, field_says. cbv zeta.
  pose proof (fun n c => map_user_field_columns mapped_columns _ n schema c public_primary_columns) as Hc.
  set (n := AttributeName_from _). specialize (Hc n).
  generalize dependent (map_user_field get_schema_manager n schema). intros [| | | | | |c|m ty []] Hc He;
    try (discriminate He).
  - injection He as <-. simpl. unfold user_atom. simpl. by rewrite in_group_spec.
  - specialize (Hc c eq_refl). unfold mapped_columns in Hc.
    destruct c; first [by injection He as <- | exfalso; clear -Hc; set_solver].
  - apply result_bind_Ok in He as (x & Hx & [= <-]). simpl.
    destruct (deserialize_attribute_value _ ty false) as [v|]; [|done]. injection Hx as <-.
    unfold user_atom. simpl. unfold has_attribute_row. simpl.
    destruct (t_user_attributes t !! (uid, m)) as [bytes|]; [|by rewrite bool_decide_eq_false_2].
    f_equal. apply eq_true_iff_eq. rewrite String.eqb_eq, bool_decide_eq_true. naive_solver.
Qed.

Lemma requests_say fs : Forall (fun f => forall d, try_into_domain_filter f schema = Ok d ->
    eval_user (user_atom t uid r) d = request_says f) fs -> forall ds,
  collect (map (fun f => try_into_domain_filter f schema) fs) = Ok ds ->
  map (eval_user (user_atom t uid r)) ds = map request_says fs.
Proof.
  intros Hfs ds Hc%collect_map_Ok. induction Hc as [|f1 d1 fs ds Hd Hc IH]; [done|].
  inversion Hfs; subst. simpl. f_equal; eauto.
Qed.

Lemma request_filter_says f : forall d,
  try_into_domain_filter f schema = Ok d -> eval_user (user_atom t uid r) d = request_says f.
Proof.
  induction f as [any all not eq m mid Hany Hall Hnot] using RequestFilter_ind'. intros d Hd.
  cbn [try_into_domain_filter] in Hd. destruct eq, any, all, not, m, mid;
    lazymatch type of Hd with
    | Err _ = Ok _ => discriminate Hd
    | equality_filter _ _ = Ok _ => exact (equality_filter_says _ _ Hd)
    | Ok _ = Ok _ => injection Hd as <-; simpl; unfold user_atom; simpl; by rewrite in_group_spec
    | _ => apply result_bind_Ok in Hd as (x & Hx & [= <-]); simpl in *; f_equal; eauto using requests_say
    end.
Qed.
End Meaning.

(** C19: the GraphQL query [users] answers a caller who may read everything, and nobody
    else, with exactly the users whose rows satisfy the filter, each once: "any", "all"
    and "not" are SQL's three-valued connectives, and a condition is one on the stored
    identifier, columns, attributes and memberships.  Whatever the filter and the schema,
    a filter that is accepted gives the backend a query and not a panic, and compares no
    password or second-factor column. *)
Theorem graphql_users_query_exact `{Extern, LdapExtern, SqlExtern, OpaqueExtern, GraphqlExtern} setup
    kdc_answer v f s r s' :
  query_users (full_backend setup kdc_answer) v (Some f) s = (r, s') ->
  (forall schema d, try_into_domain_filter f schema = Ok d ->
    answerable d = true /\ is_ok (sql_list_users (Some d) true) = true) /\
  forall objs, r = Ok objs ->
    can_read_all v = true /\
    NoDup (map (fun o => u_user_id (uo_user o)) objs) /\
    exists schema, schema_of (db_tables s) = Ok schema /\
    forall id, id ∈ map (fun o => u_user_id (uo_user o)) objs <->
      exists row, t_users (db_tables s) !! id = Some row /\
        request_says (db_tables s) schema id row f = Some true.
Proof.
  intros Hs. split.
  { intros schema d Hd. pose proof (request_filter_answerable _ _ _ Hd) as Ha. split; [done|].
    destruct (answerable_expr d Ha) as [c Hc]. unfold sql_list_users. simpl. by rewrite Hc. }
  intros objs ->. revert Hs. unfold query_users, with_readonly, get_readonly_handler.
  destruct (can_read_all v) eqn:Ev; [|done].
  intros Hs. split; [done|]. apply io_bind_Ok in Hs as (schema & s1 & Hsch%gql_Ok & Hs).
  unfold restricted_get_schema, get_user_restricted_lister_handler in Hsch. rewrite Ev in Hsch. io_inv Hsch.
  simpl in Hm. apply sql_get_schema_Ok in Hm as [Hsch Ht]. rename a into schema.
  apply io_bind_Ok in Hs as (d & s2 & Hd & Hs). apply io_lift_Ok in Hd as [Hd <-].
  apply map_ok_Ok in Hd as (d' & Hd & <-). apply io_bind_Ok in Hs as (us & s3 & Hus%gql_Ok & Hs).
  simpl in Hus. io_inv Hs. pose proof (request_filter_answerable _ _ _ Hd) as Ha.
  destruct (answerable_expr d' Ha) as [c Hc].
  unfold list_users_or_panic, sql_list_users in Hus. simpl in Hus. rewrite Hc in Hus. simpl in Hus.
  apply list_users_where_ids in Hus. rewrite map_map. simpl. unfold listed_ids in Hus. rewrite Hus, Ht.
  split; [apply (strictly_NoDup _ _ (select_users_keys c (db_tables s)))|].
  exists schema. split; [done|]. intros id. rewrite (selected_ids d' c) by done.
  by setoid_rewrite (request_filter_says (db_tables s) schema id _ f d' Hd).
Qed.

(** The first user of the store by mail, whatever the case, for an administrator. *)
Definition by_mail (mail : string) : RequestFilter :=
  MkRequestFilter None None None (Some (MkEqualityConstraint "mail" mail)) None None.

Definition demo_query_users (v : ValidationResults) (f : RequestFilter) : io Db GqlError (list UserObject) :=
  @query_users lawful_extern Db
    (@full_backend lawful_extern demo_ldap_extern demo_sql_extern demo_opaque_extern "key" (fun _ => Ok tt))
    v (Some f).

(** Bob is found by his address, in any case, and not by its negation. *)
Definition not_by_mail (mail : string) : RequestFilter :=
  MkRequestFilter None None (Some (by_mail mail)) None None None.

Lemma graphql_users_query_exact_witness :
  let admin := MkValidationResults (MkUserId "bob") Admin in
  is_ok (fst (demo_query_users eve (by_mail "bob@x.org") demo_db)) = false /\
  exists schema row, t_users (db_tables demo_db) !! MkUserId "bob" = Some row /\
    @request_says lawful_extern demo_sql_extern (db_tables demo_db) schema (MkUserId "bob") row (by_mail "BOB@x.org")
      = Some true /\
    @request_says lawful_extern demo_sql_extern (db_tables demo_db) schema (MkUserId "bob") row (not_by_mail "BOB@x.org")
      = Some false.
Proof.
  intros admin. split; [vm_compute; reflexivity|].
  pose (ids := fun r : result GqlError (list UserObject) =>
    match r with Ok l => map (fun o => u_user_id (uo_user o)) l | Err _ => [] end).
  assert (ids (fst (demo_query_users admin (by_mail "BOB@x.org") demo_db)) = [MkUserId "bob"]) as Hids
    by (vm_compute; reflexivity).
  destruct (demo_query_users admin (by_mail "BOB@x.org") demo_db) as [r s'] eqn:E.
  destruct (@graphql_users_query_exact lawful_extern demo_ldap_extern demo_sql_extern
    demo_opaque_extern demo_graphql_extern "key" (fun _ => Ok tt) admin (by_mail "BOB@x.org") demo_db r s' E)
    as [_ Hr].
  destruct r as [objs|e]; [|discriminate Hids].
  destruct (Hr objs eq_refl) as (_ & _ & schema & _ & Hin).
  simpl in Hids. destruct (proj1 (Hin (MkUserId "bob"))) as (row & Hrow & He).
  - rewrite Hids. apply list_elem_of_here.
  - exists schema, row. split_and!; [assumption..|]. unfold not_by_mail. cbn [request_says]. rewrite He. reflexivity.
Defined.

(** ** POSIX settings *)

(** serde_json reads back the settings it wrote. *)
Class PosixJsonLaws `{SqlExtern} := {
  posix_roundtrip p : posix_from_json (posix_to_json p) = Ok p
}.

Lemma as_i32_id n : in_i32 n = true -> as_i32 n = n.
Proof.
  unfold in_i32, as_i32, i32_min, i32_max. rewrite andb_true_iff, !Z.leb_le. intros [Hlo Hhi].
  destruct (decide (0 <= n)%Z) as [H0|H0].
  - rewrite (Z.mod_small n) by lia. by rewrite (proj2 (Z.ltb_lt n 2147483648)) by lia.
  - assert (n mod 4294967296 = n + 4294967296)%Z as ->
      by (rewrite <- (Z.mod_small (n + 4294967296) 4294967296) by lia;
          rewrite <- (Z_mod_plus_full n 1 4294967296); f_equal; lia).
    rewrite (proj2 (Z.ltb_ge _ 2147483648)) by lia. lia.
Qed.

(** The numbers of the input, which GraphQL limits to 32 bits. *)
Definition posix_numbers (p : PosixSettings) : list Z :=
  [user_uidnumber_start p; user_uidnumber_max p; user_gidnumber_start p; group_gidnumber_start p;
   group_gidnumber_max p].

Section Posix.
Context `{Extern, LdapExtern, SqlExtern, OpaqueExtern, GraphqlExtern}.

(** A number found is in the range and not in use, whatever the connection does. *)
Lemma find_free_number_Ok (p : Tables -> Z -> bool) none_left max fuel : forall c s n s',
  find_free_number (fun n => dquery (fun t => p t n)) none_left max c fuel s = (Ok n, s') ->
  (c <= n <= max)%Z /\ p (db_tables s) n = false.
Proof.
  induction fuel as [|fuel IH]; intros c s n s' Hs; simpl in Hs; [done|].
  destruct (c <=? max)%Z eqn:Hc; [|done]. apply Z.leb_le in Hc.
  apply io_bind_Ok in Hs as (b & s1 & Hq & Hs). apply dquery_Ok in Hq as [-> Ht].
  destruct (p (db_tables s) c) eqn:Ep.
  - apply IH in Hs. rewrite Ht in Hs. split; [lia|apply Hs].
  - io_inv Hs. split; [lia|done].
Qed.

Lemma assign_uid_number_Ok p attrs s attrs' s' :
  assign_uid_number p attrs s = (Ok attrs', s') ->
  attrs' = attrs \/
  exists n, attrs' = attrs ++ [integer_attribute "uidnumber" n] /\ user_uidnumber_assign p = true /\
    (user_uidnumber_start p <= n <= user_uidnumber_max p)%Z /\
    number_stored uidnumber n (t_user_attributes (db_tables s)) = false.
Proof.
  unfold assign_uid_number. destruct (user_uidnumber_assign p) eqn:Ea; simpl; [|intros Hs; io_inv Hs; by left].
  destruct (has_attribute _ _); simpl; intros Hs; [io_inv Hs; by left|]. right.
  io_inv Hs. unfold next_available_uid_number, next_available_number in Hm. destruct (_ <? _)%Z; [done|].
  apply (find_free_number_Ok (fun t n => number_stored uidnumber n (t_user_attributes t))) in Hm. eauto.
Qed.

Lemma set_posix_Ok setup kdc_answer rng v p s s' :
  sql_mutate setup kdc_answer rng v (MSetPosixSettings p) s = (Ok tt, s') ->
  check_posix_settings p = Ok tt /\
  db_tables s' = with_system_config (db_tables s)
    (<["posix_settings" := posix_to_json p]> (t_system_config (db_tables s))).
Proof.
  unfold sql_mutate, mutate, set_posix_settings_mutation, with_admin. intros Hs.
  apply io_bind_Ok in Hs as ([] & s1 & Hc & Hs). apply io_lift_Ok in Hc as [Hc <-]. split; [done|].
  case_match; [|done]. unfold context in Hs. apply io_map_err_Ok in Hs. simpl in Hs.
  unfold SqlConfig.set_posix_settings, SqlConfig.set_system_config in Hs. apply dexec_Ok in Hs.
  by injection Hs as <-.
Qed.
End Posix.

(** C26: settings saved through GraphQL are what the backend works with and what an
    administrator who queries them gets, no number truncated on the way through 32
    bits; and a user number that a creation under these settings assigns is between
    3000 and 60000 and no user has it. *)
Theorem posix_settings_govern_numbers
    `{Extern, LdapExtern, SqlExtern, !PosixJsonLaws, OpaqueExtern, GraphqlExtern} setup kdc_answer rng v p s s' :
  Forall (fun n => in_i32 n = true) (posix_numbers p) ->
  sql_mutate setup kdc_answer rng v (MSetPosixSettings p) s = (Ok tt, s') ->
  posix_settings_of (db_tables s') = Ok p /\
  (forall r s'', query_posix_settings (full_backend setup kdc_answer) sql_config_handler v s' = (Ok r, s'') -> r = p) /\
  forall attrs s1 attrs' s2, assign_uid_number p attrs s1 = (Ok attrs', s2) ->
    attrs' = attrs \/
    exists n, attrs' = attrs ++ [integer_attribute "uidnumber" n] /\ (3000 <= n <= 60000)%Z /\
      number_stored uidnumber n (t_user_attributes (db_tables s1)) = false.
Proof.
  intros Hn Hs. apply set_posix_Ok in Hs as [Hc Ht].
  assert (posix_settings_of (db_tables s') = Ok p) as Hp.
  { unfold posix_settings_of. rewrite Ht. simpl. rewrite lookup_insert_eq. simpl. by rewrite posix_roundtrip. }
  split_and!; [done| |].
  - intros r s''. unfold query_posix_settings, with_admin. case_match; [|done]. intros Hq.
    apply io_bind_Ok in Hq as (q & s3 & Hm & Hq). apply io_map_err_Ok in Hm. simpl in Hm.
    apply posix_settings_Ok in Hm as [Hm _]. rewrite Hp in Hm. injection Hm as <-. io_inv Hq.
    unfold posix_numbers in Hn. rewrite !Forall_cons in Hn. destruct Hn as (H1' & H2' & H3' & H4' & H5' & _).
    rewrite !as_i32_id by done. by destruct p.
  - intros attrs s1 attrs' s2 [->|(n & -> & Ha & Hr & Hfree)]%assign_uid_number_Ok; [by left|right].
    exists n. split_and!; try done; unfold check_posix_settings in Hc; rewrite Ha in Hc; simpl in Hc;
      unfold in_number_range in Hc; destruct (negb _) eqn:Eb in Hc; try done;
      apply negb_false_iff in Eb; rewrite !andb_true_iff, !Z.leb_le in Eb; lia.
Qed.

(** A codec for the witness: a number that stands for the record, in binary. *)
Fixpoint positive_text (p : positive) : string :=
  match p with
  | xH => ""
  | xO p' => String "0" (positive_text p')
  | xI p' => String "1" (positive_text p')
  end.

Fixpoint text_positive (s : string) : positive :=
  match s with
  | "" => xH
  | String c s' => if Ascii.eqb c "0" then xO (text_positive s') else xI (text_positive s')
  end.

Lemma text_positive_text p : text_positive (positive_text p) = p.
Proof. induction p as [p IH|p IH|]; simpl; [by rewrite IH..|done]. Qed.

Definition posix_tuple (p : PosixSettings) :=
  (user_uidnumber_assign p, user_uidnumber_start p, user_uidnumber_max p, user_gidnumber_assign p,
   user_gidnumber_start p, user_loginshell_assign p, user_loginshell_default p, user_homedirectory_assign p,
   user_homedirectory_prefix p, group_gidnumber_assign p, group_gidnumber_start p, group_gidnumber_max p).

Definition demo_posix_to_json (p : PosixSettings) : string := positive_text (encode (posix_tuple p)).

Definition demo_posix_from_json (s : string) : result string PosixSettings :=
  match decode (A := bool * Z * Z * bool * Z * bool * string * bool * string * bool * Z * Z) (text_positive s) with
  | Some (a, b, c, d, e, f, g, h, i, j, k, l) => Ok (MkPosixSettings a b c d e f g h i j k l)
  | None => Err "expected settings"
  end.

Definition posix_sql_extern : SqlExtern := {|
  fault := @fault demo_sql_extern;
  utc_now := @utc_now demo_sql_extern;
  constraint_error := @constraint_error demo_sql_extern;
  unknown_column_error := @unknown_column_error demo_sql_extern;
  fresh_group_id := @fresh_group_id demo_sql_extern;
  sql_like := @sql_like demo_sql_extern;
  sql_lower := @sql_lower demo_sql_extern;
  date_text := @date_text demo_sql_extern;
  date_gte := @date_gte demo_sql_extern;
  date_lte := @date_lte demo_sql_extern;
  value_gte := @value_gte demo_sql_extern;
  value_lte := @value_lte demo_sql_extern;
  posix_to_json := demo_posix_to_json;
  posix_from_json := demo_posix_from_json;
  env_ldap_base_dn := None
|}.

#[export] Instance demo_posix_laws : @PosixJsonLaws posix_sql_extern.
Proof.
  constructor. intros p. simpl. unfold demo_posix_to_json, demo_posix_from_json.
  rewrite text_positive_text, decode_encode. by destruct p.
Qed.

Definition demo_settings : PosixSettings :=
  MkPosixSettings true 5000 5010 false 0 false "" false "" false 0 0.

Definition posix_mutate (m : Mutation) : io Db GqlError unit :=
  @sql_mutate lawful_extern demo_ldap_extern posix_sql_extern demo_opaque_extern demo_graphql_extern "key"
    (fun _ => Ok tt) (fun _ => tt) (MkValidationResults (MkUserId "bob") Admin) m.

Lemma posix_settings_govern_numbers_witness :
  let s' := snd (posix_mutate (MSetPosixSettings demo_settings) demo_db) in
  @posix_settings_of posix_sql_extern (db_tables s') = Ok demo_settings /\
  is_ok (fst (posix_mutate (MSetPosixSettings (MkPosixSettings true 2999 5010 false 0 false "" false "" false 0 0))
    demo_db)) = false /\
  fst (@assign_uid_number posix_sql_extern demo_settings [] s') = Ok [integer_attribute "uidnumber" 5000].
Proof.
  intros s'.
  assert (posix_mutate (MSetPosixSettings demo_settings) demo_db = (Ok tt, s')) as Hm.
  { rewrite (surjective_pairing (posix_mutate _ demo_db)). by f_equal. }
  split_and!; [|vm_compute; reflexivity|vm_compute; reflexivity].
  clearbody s'. refine (proj1 (@posix_settings_govern_numbers lawful_extern demo_ldap_extern posix_sql_extern _
    demo_opaque_extern demo_graphql_extern "key" (fun _ => Ok tt) (fun _ => tt) _ demo_settings demo_db s' _ Hm)).
  repeat constructor.
Defined.
