(* ===== verification/Accounts.v ===== *)
(** * What happens to the attributes of an account

    On top of the operations of the SQL backend: the POSIX numbers of users stay
    distinct through every operation, and a user that was created is read back with
    the values of the request under their canonical names. *)

From S2P Require Import Prelude Strings Types Schema SchemaManager Proto Database SqlConfig SqlGroups.
From S2P Require Import SqlUsers SqlOps SqlLists GraphqlSql.

(** ** Checks that read, one after another *)

Lemma io_iter_checked {S E A D} (obs : S -> D) (f : A -> io S E unit) l :
  (forall a, preserves obs (f a)) -> forall s s', io_iter f l s = (Ok tt, s') ->
  obs s' = obs s /\ Forall (fun a => exists s1 s2, obs s1 = obs s /\ f a s1 = (Ok tt, s2)) l.
Proof.
  intros Hf. induction l as [|a l IH]; intros s s' Hs; simpl in Hs; [io_inv Hs; by split|].
  apply io_bind_Ok in Hs as ([] & s1 & Ha & Hs). pose proof (Hf a s) as H1. rewrite Ha in H1. simpl in H1.
  destruct (IH _ _ Hs) as [H2 Hl]. rewrite H1 in *. split; [done|]. constructor; [by exists s, s1|].
  eapply Forall_impl; [exact Hl|]. intros b (s2 & s3 & Hs2 & Hb). exists s2, s3. done.
Qed.

(** ** Numbers of users *)

(** The number a user has, as it is stored. *)
Definition number_of (t : Tables) (u : UserId) : option string := t_user_attributes t !! (u, uidnumber).

Definition numbers_unique (t : Tables) : Prop :=
  forall u v x, number_of t u = Some x -> number_of t v = Some x -> u = v.

Section Own.
Context `{Extern, LdapExtern, SqlExtern}.

Definition unused (t : Tables) (x : string) : Prop := forall v, number_of t v <> Some x.

(** The numbers of the others are those of [t0], and that of [u] is the one it had or
    one nobody had. *)
Definition own_number (u : UserId) (t0 t : Tables) : Prop :=
  (forall v, v <> u -> number_of t v = number_of t0 v) /\
  (forall x, number_of t u = Some x -> number_of t0 u = Some x \/ unused t0 x).

Lemma own_number_refl u t : own_number u t t.
Proof. split; auto. Qed.

Lemma own_number_unique u t0 t : own_number u t0 t -> numbers_unique t0 -> numbers_unique t.
Proof.
  intros [Ho Hu] Hn v w x Hv Hw.
  destruct (decide (v = u)) as [->|Hvu], (decide (w = u)) as [->|Hwu]; [done|..].
  - rewrite Ho in Hw by done. destruct (Hu x Hv) as [Hx|Hx]; [by apply (Hn u w x)|by edestruct Hx].
  - rewrite Ho in Hv by done. destruct (Hu x Hw) as [Hx|Hx]; [by apply (Hn v u x)|by edestruct Hx].
  - rewrite Ho in Hv, Hw by done. by apply (Hn v w x).
Qed.

Lemma put_own b u rows t0 :
  Forall (fun row => fst row = uidnumber -> unused t0 (snd row)) rows ->
  stmt_keeps (own_number u t0) (put_user_attributes b u rows).
Proof.
  intros Hr. unfold put_user_attributes. induction Hr as [|[n x] rows Hx Hr IH]; intros t a t' Hp Ht; simpl in Hp.
  - injection Hp as _ <-. done.
  - apply result_bind_Ok in Hp as ([[] t1] & Hput & Hp). eapply IH; [exact Hp|].
    unfold put_user_attribute in Hput. repeat case_match; simplify_eq. destruct Ht as [Ho Hu].
    unfold own_number, number_of in *. cbn [t_user_attributes with_user_attributes snd]. split.
    + intros v Hv. rewrite lookup_insert_ne by congruence. by apply Ho.
    + intros y. rewrite lookup_insert_Some. intros [[[= ->] <-]|[_ Hy]]; [|by apply Hu]. right. by apply Hx.
Qed.

Lemma delete_own u u' names t0 : u' = u -> stmt_keeps (own_number u t0) (delete_user_attributes u' names).
Proof.
  intros -> t a t' Hd [Ho Hu]. injection Hd as _ <-. unfold own_number, number_of in *.
  cbn [t_user_attributes with_user_attributes]. split.
  - intros v Hv. rewrite map_lookup_filter, Ho by done. destruct (t_user_attributes t0 !! (v, uidnumber)); cbn; [|done].
    rewrite option_guard_True; [done|]. simpl. naive_solver.
  - intros x [Hx _]%map_lookup_filter_Some. by apply Hu.
Qed.

Lemma insert_user_own id row u t0 : stmt_keeps (own_number u t0) (insert_user id row).
Proof. intros t a t'. unfold insert_user. crush_match. Qed.

Lemma update_row_own id ch u t0 : stmt_keeps (own_number u t0) (update_user_row id ch).
Proof. intros t a t'. unfold update_user_row. crush_match. Qed.

Lemma number_free t i : number_stored uidnumber i (t_user_attributes t) = false -> unused t (int_to_string i).
Proof.
  unfold number_stored. rewrite map_existsb_false. intros Hn v Hv. specialize (Hn _ _ Hv).
  unfold attribute_name_eqb in Hn. simpl in Hn. by rewrite !String.eqb_refl in Hn.
Qed.
End Own.

(** ** Names of hard-coded attributes in the schema in force *)

Section StaticNames.
Context `{Extern, SqlExtern}.

Lemma merge_dynamic_prefix static dynamic : exists more, merge_dynamic static dynamic = static ++ more.
Proof.
  unfold merge_dynamic. generalize (List.filter (fun a => negb (as_is_hardcoded a)) dynamic) as l.
  intros l. revert static. induction l as [|a l IH]; intros static; simpl; [exists []; by rewrite app_nil_r|].
  case_match; [apply IH|]. destruct (IH (static ++ [a])) as [more ->]. exists (a :: more). by rewrite <- app_assoc.
Qed.

Lemma find_app_Some {A} (p : A -> bool) l l' x : find p l = Some x -> find p (l ++ l') = Some x.
Proof. induction l as [|y l IH]; simpl; [done|]. by destruct (p y). Qed.

(** What is hard-coded is found first. *)
Lemma schema_of_static t sch n a :
  schema_of t = Ok sch -> get_by_name_or_alias (s_user_attributes PublicSchema_get) n = Some a ->
  get_by_name_or_alias (s_user_attributes sch) n = Some a.
Proof.
  unfold schema_of. intros (p & _ & [= <-])%result_bind_Ok Ha.
  set (dynamic := map schema_attribute (btree_iter (t_user_attribute_schema t))).
  destruct (merge_dynamic_prefix (attributes (s_user_attributes PublicSchema_get)) dynamic) as [more Hm].
  unfold get_by_name_or_alias. change (find (fun b => matches_name b n)
    (merge_dynamic (attributes (s_user_attributes PublicSchema_get)) dynamic) = Some a).
  rewrite Hm. by apply find_app_Some.
Qed.

Lemma static_canonical t sch n a :
  schema_of t = Ok sch -> get_by_name_or_alias (s_user_attributes PublicSchema_get) n = Some a ->
  canonical_name (s_user_attributes sch) (AttributeName_from n) = AttributeName_from (as_name a).
Proof.
  intros Hs Ha. unfold canonical_name. erewrite schema_of_static; [done|done|].
  rewrite <- Ha. apply get_by_name_or_alias_case, lower_idemp.
Qed.
End StaticNames.

(** ** Operations *)

Section Numbers.
Context `{Extern, LdapExtern, SqlExtern}.

(** An attribute that goes to the number of the user is given as an integer. *)
Definition as_integer (a : Attribute) : Prop :=
  exists i, attr_value a = VInteger (Singleton i) /\ in_i64 i = true.

Definition goes_to_number (sch : PublicSchema) (a : Attribute) : Prop :=
  canonical_name (s_user_attributes sch) (attr_name a) = uidnumber.

(** What the operation needs to keep numbers distinct: integers, under the canonical name
    when a user is created, and a range that ends within 64 bits. *)
Definition well_numbered (t : Tables) (op : SqlOp) : Prop :=
  match op with
  | CreateUser r => forall sch a, schema_of t = Ok sch -> a ∈ cu_attributes r ->
      goes_to_number sch a -> attr_name a = uidnumber /\ as_integer a
  | UpdateUser r => forall sch a, schema_of t = Ok sch -> a ∈ uu_insert_attributes r ->
      goes_to_number sch a -> as_integer a
  | ReassignUserUidNumbers => forall p, posix_settings_of t = Ok p ->
      (i64_min <= user_uidnumber_start p)%Z /\
      (user_uidnumber_start p + Z.of_nat (size (t_users t)) <= i64_max)%Z
  | _ => True
  end.

Lemma checked_new_number a i s s' :
  attr_name a = uidnumber -> attr_value a = VInteger (Singleton i) ->
  check_new_user_number a s = (Ok tt, s') -> unused (db_tables s) (int_to_string i).
Proof.
  intros Hn Hv. unfold check_new_user_number. rewrite Hn, Hv. cbn [attribute_name_str uidnumber].
  change (is_number_attribute _) with true. change (String.eqb _ _) with true. cbn iota.
  destruct (_ && _); [done|]. intros Hs. apply io_bind_Ok in Hs as (b & s1 & [-> Ht]%dquery_Ok & Hs).
  destruct (number_stored _ _ _) eqn:En; [done|]. by apply number_free.
Qed.

Lemma checked_row i s s' :
  in_i64 i = true -> check_user_row (uidnumber, int_to_string i) s = (Ok tt, s') ->
  unused (db_tables s) (int_to_string i).
Proof.
  intros Hi. unfold check_user_row. cbn [fst snd]. rewrite from_utf8_int, trim_int, parse_print_i64 by done.
  cbn [from_option]. change (is_number_attribute _) with true. change (String.eqb _ _) with true. cbn iota.
  destruct (negb _); [done|]. intros Hs. apply io_bind_Ok in Hs as (b & s1 & [-> Ht]%dquery_Ok & Hs).
  destruct (number_stored _ _ _) eqn:En; [done|]. by apply number_free.
Qed.

Lemma push_default_elem assign name a attrs x : x ∈ push_default assign name a attrs -> x = a \/ x ∈ attrs.
Proof. unfold push_default. case_match; [rewrite elem_of_app, list_elem_of_singleton|]; tauto. Qed.

Lemma posix_defaults_elem p u attrs x : x ∈ push_posix_defaults p u attrs ->
  x ∈ attrs \/ attr_name x ∈ map AttributeName_from ["gidnumber"; "loginshell"; "homedirectory"].
Proof.
  unfold push_posix_defaults.
  intros [->|[->|[->|Hx]%push_default_elem]%push_default_elem]%push_default_elem; [right; set_solver..|by left].
Qed.

(** The values that go to the number were not in use. *)
Definition fresh_numbers (sch : PublicSchema) (t : Tables) (attrs : list Attribute) : Prop :=
  Forall (fun a => goes_to_number sch a -> unused t (attribute_value_to_db_bytes (attr_value a))) attrs.

Lemma fresh_rows sch t attrs :
  fresh_numbers sch t attrs ->
  Forall (fun row => fst row = uidnumber -> unused t (snd row))
    (map (user_row_of sch) (List.filter (fun a => in_user_schema sch (attr_name a)) attrs)).
Proof.
  unfold fresh_numbers. rewrite !Forall_forall. intros Ha row Hrow.
  apply list_elem_of_In, in_map_iff in Hrow as (a & <- & [Hin _]%filter_In).
  by apply Ha, list_elem_of_In.
Qed.

(** The defaults of a creation do not go to the number. *)
Lemma defaults_elsewhere t sch a :
  schema_of t = Ok sch -> attr_name a ∈ map AttributeName_from ["ou"; "gidnumber"; "loginshell"; "homedirectory"] ->
  ~ goes_to_number sch a.
Proof.
  intros Hs Ha. unfold goes_to_number. simpl in Ha.
  repeat (apply elem_of_cons in Ha as [->|Ha]; [erewrite static_canonical by (done || reflexivity); discriminate|]).
  by apply elem_of_nil in Ha.
Qed.

Lemma create_body_own u row attrs s s' :
  (forall sch a, schema_of (db_tables s) = Ok sch -> a ∈ attrs -> goes_to_number sch a ->
    attr_name a = uidnumber /\ as_integer a) ->
  create_user_body u row attrs s = (Ok tt, s') -> own_number u (db_tables s) (db_tables s').
Proof.
  intros Hw Hs. unfold create_user_body in Hs.
  apply io_bind_Ok in Hs as (sch & s1 & [Hsch H1']%get_schema_Ok & Hs).
  apply io_bind_Ok in Hs as (p & s2 & [_ H2']%posix_settings_Ok & Hs).
  apply io_bind_Ok in Hs as ([] & s3 & Hc & Hs).
  apply (io_iter_checked db_tables) in Hc as [H3' Hc]; [|apply preserves_check_new_user_number].
  apply io_bind_Ok in Hs as (attrs' & s4 & Ha & Hs).
  pose proof (preserves_assign_uid_number p attrs s3) as H4'. rewrite Ha in H4'. simpl in H4'.
  rewrite H1' in *. rewrite H2' in *. rewrite H3' in *. apply assign_uid_number_Ok in Ha.
  assert (fresh_numbers sch (db_tables s) (push_posix_defaults p u attrs')) as Hf.
  { apply Forall_forall. intros a [Hin|Hin]%posix_defaults_elem Hg.
    - assert (a ∈ attrs \/ exists n, a = integer_attribute "uidnumber" n /\
        number_stored uidnumber n (t_user_attributes (db_tables s)) = false) as [Hin'|(n & -> & Hfree)].
      { rewrite H3' in Ha. destruct Ha as [->|(n & -> & _ & _ & Hfree)]; [by left|].
        apply elem_of_app in Hin as [Hin| ->%list_elem_of_singleton]; [by left|right; by exists n]. }
      + destruct (Hw _ _ Hsch Hin' Hg) as (Hn & i & Hv & Hi). rewrite Hv.
        rewrite Forall_forall in Hc. destruct (Hc a Hin') as (s5 & s6 & H5' & Hck).
        apply (checked_new_number _ _ _ _ Hn Hv) in Hck. by rewrite H5' in Hck.
      + by apply number_free.
    - exfalso. eapply defaults_elsewhere; [exact Hsch| |exact Hg]. simpl in *. apply elem_of_cons. by right. }
  apply fresh_rows in Hf. revert Hs. match goal with |- ?m s4 = _ -> _ =>
    enough (keeps (own_number u (db_tables s)) m) as Hk end.
  { intros Hs. specialize (Hk s4). rewrite Hs, H4' in Hk. apply Hk, own_number_refl. }
  repeat keeps_step; auto using insert_user_own, put_own.
Qed.

Lemma create_user_own r s s' :
  well_numbered (db_tables s) (CreateUser r) -> sql_create_user r s = (Ok tt, s') ->
  own_number (cu_user_id r) (db_tables s) (db_tables s').
Proof.
  intros Hw Hs. unfold sql_create_user in Hs.
  apply io_bind_Ok in Hs as (d & s1 & ->%now_Ok & Hs). apply io_bind_Ok in Hs as (ous & s2 & Ho & Hs).
  pose proof (preserves_allowed_ous s) as H2'. rewrite Ho in H2'. simpl in H2'.
  apply transaction_Ok in Hs as (s3 & s4 & H3' & Hb & ->). rewrite H2' in H3'. rewrite <- H3' in *.
  eapply create_body_own; [|exact Hb]. intros sch a Hsch [->|Ha]%push_default_elem Hg; [|by eapply Hw].
  exfalso. eapply defaults_elsewhere; [exact Hsch| |exact Hg]. simpl. by left.
Qed.

Lemma updated_rows_fresh t sch r rows removed kerb s :
  well_numbered t (UpdateUser r) -> schema_of t = Ok sch -> db_tables s = t ->
  compute_user_attribute_changes (uu_insert_attributes r) (uu_delete_attributes r) sch = Ok (rows, removed, kerb) ->
  Forall (fun row => exists s1 s2, db_tables s1 = t /\ check_user_row row s1 = (Ok tt, s2)) rows ->
  Forall (fun row => fst row = uidnumber -> unused t (snd row)) rows.
Proof.
  intros Hw Hsch Ht. unfold compute_user_attribute_changes. cbv zeta.
  intros (rows' & Hr%collect_map_Ok & [= <- <- _])%result_bind_Ok Hc.
  rewrite Forall_forall in *. intros row Hrow Hn.
  destruct (Hc row Hrow) as (s1 & s2 & <- & Hck).
  destruct (Forall2_elem_r _ _ _ _ Hr Hrow) as (a & Ha & Hu).
  unfold updated_user_row in Hu. destruct (_ || _); [|done]. injection Hu as <-. simpl in Hn.
  destruct (Hw sch a Hsch Ha Hn) as (i & Hv & Hi). unfold user_row_of in *. rewrite Hn, Hv in *. cbn [snd].
  by apply (checked_row _ _ _ Hi) in Hck.
Qed.

Lemma update_keeps_own r s s' :
  well_numbered (db_tables s) (UpdateUser r) -> sql_update_user r s = (Ok tt, s') ->
  own_number (uu_user_id r) (db_tables s) (db_tables s').
Proof.
  intros Hw (s0 & s1 & H0' & Hb & ->)%transaction_Ok. rewrite <- H0' in *. unfold update_user_with_transaction in Hb.
  apply io_bind_Ok in Hb as (sch & s2 & [Hsch H2']%get_schema_Ok & Hb).
  apply io_bind_Ok in Hb as ([[rows removed] kerb] & s3 & [Hc <-]%io_lift_Ok & Hb).
  apply io_bind_Ok in Hb as (d & s3 & ->%now_Ok & Hb).
  apply io_bind_Ok in Hb as (p & s4 & [_ H4']%posix_settings_Ok & Hb).
  apply io_bind_Ok in Hb as ([] & s5 & Hck & Hb).
  apply (io_iter_checked db_tables) in Hck as [H5' Hck]; [|apply preserves_check_user_row].
  rewrite H2' in *. rewrite H4' in *.
  pose proof (updated_rows_fresh _ _ _ _ _ _ s0 Hw Hsch eq_refl Hc Hck) as Hf.
  revert Hb. match goal with |- ?m s5 = _ -> _ =>
    enough (keeps (own_number (uu_user_id r) (db_tables s0)) m) as Hk end.
  { intros Hb. specialize (Hk s5). rewrite Hb, H5' in Hk. apply Hk, own_number_refl. }
  repeat keeps_step; auto using update_row_own, put_own, delete_own.
Qed.

(** Every other operation gives nobody a number. *)
Definition no_new_number (t0 t : Tables) : Prop :=
  forall u x, number_of t u = Some x -> number_of t0 u = Some x.

Lemma no_new_number_unique t0 t : no_new_number t0 t -> numbers_unique t0 -> numbers_unique t.
Proof. intros Hs Hn u v x Hu Hv. eauto. Qed.

Lemma put_elsewhere t0 u n x : n <> uidnumber -> stmt_keeps (no_new_number t0) (put_user_attributes true u [(n, x)]).
Proof.
  intros Hn t a t' Hp Ht. unfold put_user_attributes in Hp. simpl in Hp.
  apply result_bind_Ok in Hp as ([[] t1] & Hput & [= _ <-]). unfold put_user_attribute in Hput.
  repeat case_match; simplify_eq. intros v y. unfold number_of. cbn [t_user_attributes with_user_attributes snd].
  rewrite lookup_insert_ne by congruence. apply Ht.
Qed.

Lemma assign_elsewhere t0 n uv : n <> uidnumber -> keeps (no_new_number t0) (assign_user_attribute n uv).
Proof.
  intros Hn. unfold assign_user_attribute. repeat keeps_step; [by apply put_elsewhere|].
  intros ? ? ?. unfold update_user_row. crush_match.
Qed.

(** A statement on another table, and one that deletes rows. *)
Lemma other_table_keeps {A} t0 (f : statement A) :
  stmt_frame t_user_attributes f -> stmt_keeps (no_new_number t0) f.
Proof. intros Hf t a t' Hs Ht u x. unfold number_of. rewrite (Hf _ _ _ Hs). apply Ht. Qed.

Lemma deletion_keeps {A} t0 (f : statement A) :
  (forall t a t', f t = Ok (a, t') -> t_user_attributes t' ⊆ t_user_attributes t) ->
  stmt_keeps (no_new_number t0) f.
Proof. intros Hf t a t' Hs%Hf Ht u x Hx. apply Ht. by eapply lookup_weaken. Qed.

Lemma put_group_elsewhere t0 b g rows : stmt_keeps (no_new_number t0) (put_group_attributes b g rows).
Proof.
  apply other_table_keeps, put_all_frame. intros n v t a t'. unfold put_group_attribute. crush_match.
Qed.

Ltac other_statement :=
  first [ by apply put_group_elsewhere
        | by apply assign_elsewhere
        | apply deletion_keeps; intros ? ? ? Hst;
          unfold update_user_row, delete_user_row, update_group_row, insert_group, delete_group_row,
            insert_membership, delete_membership, delete_group_attributes,
            delete_user_attribute_everywhere, delete_group_attribute_everywhere in Hst;
          cbv beta zeta in Hst; repeat case_match; simplify_eq/=;
          solve [done | apply map_filter_subseteq] ].

(** The operations that write numbers. *)
Definition writes_numbers (op : SqlOp) : bool :=
  match op with
  | CreateUser _ | UpdateUser _ | ReassignUserUidNumbers => true
  | _ => false
  end.

Lemma assign_group_elsewhere t0 n gv : keeps (no_new_number t0) (assign_group_attribute n gv).
Proof. unfold assign_group_attribute. repeat keeps_step; other_statement. Qed.

Lemma other_ops_numbers t0 op : writes_numbers op = false -> keeps (no_new_number t0) (run op).
Proof.
  pose proof (assign_group_elsewhere t0) as Hg.
  destruct op; simpl; try done; intros _;
    unfold sql_create_group, create_group_body, sql_update_group, update_group_with_transaction,
      sql_delete_user, sql_delete_group, sql_add_user_to_group, join_group,
      sql_remove_user_from_group, leave_group, touch_group,
      sql_ensure_kerberos_principal_consistency, set_posix_settings,
      set_system_config, reassign_gid_numbers, reassign_user_gid_numbers,
      reassign_user_homedirectories, reassign_user_loginshells, get_posix_settings, add_user_attribute,
      add_group_attribute, delete_user_attribute, delete_group_attribute, add_user_object_class,
      add_group_object_class, delete_user_object_class, delete_group_object_class;
    repeat keeps_step; try done; other_statement.
Qed.

(** Reassigning gives the users, in order, consecutive numbers. *)
Lemma assign_number_Ok u x s s' :
  assign_user_attribute uidnumber (u, x) s = (Ok tt, s') ->
  forall v, number_of (db_tables s') v = if decide (v = u) then Some x else number_of (db_tables s) v.
Proof.
  unfold assign_user_attribute. intros Hs v.
  apply io_bind_Ok in Hs as ([] & s1 & Hp%dexec_Ok & Hs). apply io_bind_Ok in Hs as (d & s2 & ->%now_Ok & Hs).
  apply dexec_Ok in Hs. assert (t_user_attributes (db_tables s') = t_user_attributes (db_tables s1)) as Hf.
  { unfold update_user_row in Hs. repeat case_match; try done. injection Hs as Ht. by rewrite <- Ht. }
  unfold number_of. rewrite Hf. unfold put_user_attributes in Hp. cbn [fst snd put_all] in Hp.
  apply result_bind_Ok in Hp as ([[] t1] & Hput & [= Ht]). rewrite <- Ht in *. unfold put_user_attribute in Hput.
  simpl in Hput. do 2 (case_match; [|done]). injection Hput as Ht1.
  rewrite <- Ht1. cbn [t_user_attributes with_user_attributes]. case_decide as Hv; [subst v|].
  - apply lookup_insert_eq.
  - by rewrite lookup_insert_ne by congruence.
Qed.

Lemma assign_numbers_Ok keys : forall start s s',
  NoDup keys -> io_iter (assign_user_attribute uidnumber) (numbered start keys) s = (Ok tt, s') ->
  (forall i u, keys !! i = Some u -> number_of (db_tables s') u = Some (int_to_string (start + Z.of_nat i))) /\
  (forall v, v ∉ keys -> number_of (db_tables s') v = number_of (db_tables s) v).
Proof.
  induction keys as [|k keys IH]; intros start s s' Hd Hs; simpl in Hs; [io_inv Hs; by split|].
  apply NoDup_cons in Hd as [Hk Hd]. apply io_bind_Ok in Hs as ([] & s1 & Ha & Hs).
  pose proof (assign_number_Ok _ _ _ _ Ha) as Hn. destruct (IH _ _ _ Hd Hs) as [Hin Hout]. split.
  - intros [|i] u Hu; simpl in Hu.
    + injection Hu as <-. rewrite Hout, Hn, decide_True by done. f_equal. f_equal. lia.
    + rewrite (Hin i u Hu). f_equal. f_equal. lia.
  - intros v [Hv1 Hv2]%not_elem_of_cons. by rewrite Hout, Hn, decide_False by done.
Qed.

Lemma users_by_creation_spec t :
  NoDup (users_by_creation t) /\ length (users_by_creation t) = size (t_users t) /\
  forall u, is_Some (t_users t !! u) -> u ∈ users_by_creation t.
Proof.
  unfold users_by_creation. set (leb := fun x y : UserId * UserRow => _).
  pose proof (order_by_perm leb (map_to_list (t_users t))) as Hp. split_and!.
  - rewrite Hp. apply NoDup_fst_map_to_list.
  - by rewrite length_map, Hp, length_map_to_list.
  - intros u [r Hu]. rewrite Hp. apply list_elem_of_In, (in_map fst _ (u, r)), list_elem_of_In.
    by apply elem_of_map_to_list.
Qed.

Lemma reassign_unique s s' :
  integrity (db_tables s) -> well_numbered (db_tables s) ReassignUserUidNumbers ->
  reassign_user_uid_numbers s = (Ok tt, s') -> numbers_unique (db_tables s) -> numbers_unique (db_tables s').
Proof.
  intros Hi Hw Hs Hn. unfold reassign_user_uid_numbers, get_posix_settings in Hs.
  apply io_bind_Ok in Hs as (p & s1 & [Hp H1']%posix_settings_Ok & Hs). simpl in Hw. destruct (Hw p Hp) as [Hlo Hhi].
  apply transaction_Ok in Hs as (s2 & s3 & H2' & Hb & ->). rewrite H1' in H2'.
  destruct (user_uidnumber_assign p).
  - apply io_bind_Ok in Hb as (users & s4 & [-> H4']%dquery_Ok & Hb). rewrite H2' in *.
    destruct (users_by_creation_spec (db_tables s)) as (Hd & Hlen & Hall).
    destruct (assign_numbers_Ok _ _ _ _ Hd Hb) as [Hin Hout]. rewrite H4' in Hout.
    assert (forall u x, number_of (db_tables s3) u = Some x -> exists i,
      users_by_creation (db_tables s) !! i = Some u /\ x = int_to_string (user_uidnumber_start p + Z.of_nat i) /\
      in_i64 (user_uidnumber_start p + Z.of_nat i) = true) as Hnum.
    { intros u x Hx. destruct (decide (u ∈ users_by_creation (db_tables s))) as [Hu|Hu].
      - apply list_elem_of_lookup in Hu as [i Hu]. exists i. rewrite (Hin i u Hu) in Hx. injection Hx as <-.
        split_and!; [done..|]. apply lookup_lt_Some in Hu. unfold in_i64. apply andb_true_intro.
        rewrite !Z.leb_le. lia.
      - rewrite Hout in Hx by done. destruct Hu. by eapply Hall, attribute_user. }
    intros u v x (i & Hu & -> & Hri)%Hnum (j & Hv & He & Hrj)%Hnum.
    apply int_to_string_inj in He; [|done..]. assert (i = j) as -> by lia. congruence.
  - rewrite <- H2' in Hn. eapply no_new_number_unique; [|exact Hn].
    apply dexec_Ok in Hb. eapply deletion_keeps; [|exact Hb|by intros u x].
    intros t [] t'. unfold delete_user_attribute_everywhere. intros [= <-]. apply map_filter_subseteq.
Qed.

(** One operation. *)
Lemma run_numbers op s :
  integrity (db_tables s) -> well_numbered (db_tables s) op -> numbers_unique (db_tables s) ->
  numbers_unique (db_tables (snd (run op s))).
Proof.
  intros Hi Hw Hn. destruct (writes_numbers op) eqn:Eo.
  - destruct (run op s) as [[[]|e] s'] eqn:Er; simpl; [|by rewrite (run_atomic _ _ _ _ Er)].
    destruct op; try done; simpl in Er.
    + eapply own_number_unique; [by eapply create_user_own|done].
    + eapply own_number_unique; [by eapply update_keeps_own|done].
    + by eapply reassign_unique.
  - eapply no_new_number_unique; [|exact Hn]. apply other_ops_numbers; [done|by intros u x].
Qed.

(** A sequence of operations each of which is well numbered when its turn comes. *)
Fixpoint all_well_numbered (s : Db) (ops : list SqlOp) : Prop :=
  match ops with
  | [] => True
  | op :: ops' => well_numbered (db_tables s) op /\ all_well_numbered (snd (run op s)) ops'
  end.
End Numbers.

(** C14: through any sequence of operations of the backend, with faults anywhere, no two
    users have the same stored user number, when creations name it canonically and
    values for it are integers; reassigning included. *)
Theorem user_numbers_stay_unique `{Extern, LdapExtern, SqlExtern} ops s :
  integrity (db_tables s) -> numbers_unique (db_tables s) -> all_well_numbered s ops ->
  numbers_unique (db_tables (run_all ops s)).
Proof.
  unfold run_all. revert s. induction ops as [|op ops IH]; intros s Hi Hn Hw; simpl in *; [done|].
  destruct Hw as [Hw Hws]. apply IH; [by apply run_integrity|by apply run_numbers|done].
Qed.

Definition numbering_run (ops : list SqlOp) : Db -> Db :=
  @run_all lawful_extern demo_ldap_extern posix_sql_extern ops.

Definition new_user (name : string) (attrs : list Attribute) : SqlOp :=
  CreateUser (MkCreateUserRequest (MkUserId name) (MkEmail (name +:+ "@y.org")) None attrs).

(** Numbers are assigned from 5000; carol asks for one, dan gets one, fay asks for carol's
    and is refused, eve is given one, then everybody is renumbered. *)
Definition numbering_ops : list SqlOp :=
  [SetPosixSettings demo_settings;
   new_user "carol" [integer_attribute "uidnumber" 3002];
   new_user "dan" [];
   new_user "fay" [integer_attribute "uidnumber" 3002];
   UpdateUser (MkUpdateUserRequest (MkUserId "eve") None None [] [integer_attribute "uid_number" 3005])].

Lemma user_numbers_stay_unique_witness :
  let s := numbering_run numbering_ops demo_db in
  let s' := numbering_run [ReassignUserUidNumbers] s in
  let numbers t := map (number_of t) [MkUserId "bob"; MkUserId "eve"; MkUserId "carol"; MkUserId "dan"; MkUserId "fay"] in
  numbers (db_tables s) = [Some "3001"; Some "3005"; Some "3002"; Some "5000"; None] /\
  numbers (db_tables s') = [Some "5001"; Some "5000"; Some "5002"; Some "5003"; None] /\
  numbers_unique (db_tables s').
Proof.
  intros s s' numbers. split; [vm_compute; reflexivity|]. split; [vm_compute; reflexivity|].
  assert (@all_well_numbered lawful_extern demo_ldap_extern posix_sql_extern demo_db
    (numbering_ops ++ [ReassignUserUidNumbers])) as Hw.
  { assert (forall n i, in_i64 i = true -> as_integer (integer_attribute n i)) as Hint.
    { intros n i Hi. exists i. split; [reflexivity|exact Hi]. }
    split; [exact I|]. split.
    { intros sch a _ ->%list_elem_of_singleton _. split; [reflexivity|by apply Hint]. }
    split. { intros sch a _ Ha%elem_of_nil _. destruct Ha. }
    split. { intros sch a _ ->%list_elem_of_singleton _. split; [reflexivity|by apply Hint]. }
    split. { intros sch a _ ->%list_elem_of_singleton _. by apply Hint. }
    split; [|exact I]. intros p Hp. vm_compute in Hp. injection Hp as <-. vm_compute. split; discriminate. }
  cut (numbers_unique (db_tables (numbering_run (numbering_ops ++ [ReassignUserUidNumbers]) demo_db))).
  { unfold numbering_run, run_all. rewrite fold_left_app. intros Hu. exact Hu. }
  apply (@user_numbers_stay_unique lawful_extern demo_ldap_extern posix_sql_extern); [exact demo_db_integrity| |exact Hw].
  intros u v x Hu Hv. unfold number_of in Hu, Hv. cbn [db_tables demo_db t_user_attributes] in Hu, Hv.
  apply lookup_singleton_Some in Hu as [Hu _], Hv as [Hv _]. congruence.
Defined.

(** ** Reading a created user back *)

(** The rows of a user are the entries of the table. *)
Lemma user_attribute_rows_elem t u n x :
  (n, x) ∈ user_attribute_rows t u <-> t_user_attributes t !! (u, n) = Some x.
Proof.
  unfold user_attribute_rows, rows_of. rewrite order_by_perm, list_elem_of_omap. split.
  - intros ([[u' n'] x'] & Hin%elem_of_map_to_list & Heq). simpl in Heq. case_bool_decide; by simplify_eq.
  - intros Hx. exists ((u, n), x). rewrite elem_of_map_to_list. split; [done|]. simpl. by rewrite bool_decide_true.
Qed.

Section Created.
Context `{Extern, SqlExtern}.

(** What putting rows does not touch. *)
Lemma put_user_attributes_rest b u rows t a t' :
  put_user_attributes b u rows t = Ok (a, t') -> t' = with_user_attributes t (t_user_attributes t').
Proof.
  unfold put_user_attributes. revert t. induction rows as [|[n x] rows IH]; intros t Hp; simpl in Hp.
  - injection Hp as _ <-. by destruct t.
  - apply result_bind_Ok in Hp as ([[] t1] & Hput & Hp). apply IH in Hp. rewrite Hp.
    unfold put_user_attribute in Hput. repeat case_match; by simplify_eq.
Qed.

(** Rows inserted for a user who has none are those the user has then. *)
Lemma insert_rows_exact u rows : forall t a t',
  put_user_attributes false u rows t = Ok (a, t') -> forall n x,
  t_user_attributes t' !! (u, n) = Some x <-> t_user_attributes t !! (u, n) = Some x \/ (n, x) ∈ rows.
Proof.
  unfold put_user_attributes. induction rows as [|[k v] rows IH]; intros t a t' Hp n x; simpl in Hp.
  - injection Hp as _ <-. rewrite elem_of_nil. tauto.
  - apply result_bind_Ok in Hp as ([[] t1] & Hput & Hp). rewrite (IH _ _ _ Hp n x), elem_of_cons.
    unfold put_user_attribute in Hput. simpl in Hput. destruct (bool_decide (is_Some _)) eqn:Ek; [done|].
    apply bool_decide_eq_false, eq_None_not_Some in Ek. repeat case_match; simplify_eq.
    cbn [t_user_attributes with_user_attributes snd]. rewrite lookup_insert_Some.
    destruct (decide (n = k)) as [->|Hn]; [rewrite Ek|]; naive_solver.
Qed.

(** Tables that differ in users and their attributes describe the same schema. *)
Lemma schema_of_accounts t users attrs : schema_of (with_user_attributes (with_users t users) attrs) = schema_of t.
Proof. done. Qed.

Lemma push_default_keeps assign name a attrs x : x ∈ attrs -> x ∈ push_default assign name a attrs.
Proof. unfold push_default. case_match; [rewrite elem_of_app|]; tauto. Qed.

Lemma posix_defaults_keep p u attrs x : x ∈ attrs -> x ∈ push_posix_defaults p u attrs.
Proof. intros Hx. unfold push_posix_defaults. by repeat apply push_default_keeps. Qed.

Lemma no_rows t u n : integrity t -> t_users t !! u = None -> t_user_attributes t !! (u, n) = None.
Proof.
  intros Hi Hu. apply eq_None_not_Some. intros [x Hx]. apply (attribute_user _ Hi) in Hx.
  rewrite Hu in Hx. by destruct Hx.
Qed.

Lemma insert_rows_of_new u rows s s' :
  (forall n, t_user_attributes (db_tables s) !! (u, n) = None) ->
  unless_empty rows (dexec (put_user_attributes false u rows)) s = (Ok tt, s') ->
  exists m, db_tables s' = with_user_attributes (db_tables s) m /\
    forall n x, m !! (u, n) = Some x <-> (n, x) ∈ rows.
Proof.
  intros Hnone Hs. exists (t_user_attributes (db_tables s')). destruct rows as [|row rows]; simpl in Hs.
  - io_inv Hs. split; [by destruct (db_tables s')|]. intros n x. rewrite Hnone, elem_of_nil. naive_solver.
  - apply dexec_Ok in Hs. split; [by eapply put_user_attributes_rest|]. intros n x.
    rewrite (insert_rows_exact _ _ _ _ _ Hs), Hnone. naive_solver.
Qed.

(** What a successful creation leaves. *)
Lemma created_user_rows r s s' :
  integrity (db_tables s) -> sql_create_user r s = (Ok tt, s') ->
  exists sch row (attrs : list Attribute),
    schema_of (db_tables s') = Ok sch /\
    t_users (db_tables s') !! cu_user_id r = Some row /\
    ur_email row = cu_email r /\ ur_display_name row = to_value (cu_display_name r) None /\
    ur_krb_principal_name row = None /\
    (forall a, a ∈ cu_attributes r -> a ∈ attrs) /\
    (forall a, a ∈ attrs -> a ∈ cu_attributes r \/
       attr_name a ∈ map AttributeName_from ["ou"; "uidnumber"; "gidnumber"; "loginshell"; "homedirectory"]) /\
    forall n x, t_user_attributes (db_tables s') !! (cu_user_id r, n) = Some x <->
      exists a, a ∈ attrs /\ in_user_schema sch (attr_name a) = true /\ user_row_of sch a = (n, x).
Proof.
  intros Hi Hs. unfold sql_create_user in Hs.
  apply io_bind_Ok in Hs as (d & s1 & ->%now_Ok & Hs). apply io_bind_Ok in Hs as (ous & s2 & Ho & Hs).
  pose proof (preserves_allowed_ous s) as H2'. rewrite Ho in H2'. simpl in H2'.
  apply transaction_Ok in Hs as (s3 & s4 & H3' & Hb & H4'). rewrite H2' in H3'. rewrite H4'.
  unfold create_user_body in Hb.
  apply io_bind_Ok in Hb as (sch & s5 & [Hsch H5']%get_schema_Ok & Hb).
  apply io_bind_Ok in Hb as (p & s6 & [_ H6']%posix_settings_Ok & Hb).
  apply io_bind_Ok in Hb as ([] & s7 & Hc & Hb).
  apply (io_iter_checked db_tables) in Hc as [H7' _]; [|apply preserves_check_new_user_number].
  apply io_bind_Ok in Hb as (attrs & s8 & Ha & Hb).
  set (given := push_default _ _ _ _) in Ha.
  pose proof (preserves_assign_uid_number p given s7) as H8'. rewrite Ha in H8'. simpl in H8'.
  apply io_bind_Ok in Hb as ([] & s9 & Hu%dexec_Ok & Hb).
  apply assign_uid_number_Ok in Ha. rewrite H8', H7', H6', H5', H3' in *.
  set (final := push_posix_defaults p (cu_user_id r) attrs) in *.
  set (rows := map (user_row_of sch) _) in *. set (row := MkUserRow _ _ _ _ _ _ _ _ _ _ _) in *.
  assert (t_users (db_tables s) !! cu_user_id r = None /\
    db_tables s9 = with_users (db_tables s) (<[cu_user_id r := row]> (t_users (db_tables s)))) as [Hnew H9'].
  { unfold insert_user in Hu. repeat case_match; by simplify_eq. }
  destruct (insert_rows_of_new _ _ _ _ ltac:(intros n; rewrite H9'; by apply (no_rows _ _ n Hi Hnew)) Hb)
    as (t' & H10 & Hrows).
  exists sch, row, final. rewrite H10, H9'.
  split_and!; try done.
  - cbn [t_users with_user_attributes with_users]. apply lookup_insert_eq.
  - intros a Hin. apply posix_defaults_keep. assert (a ∈ given) as Hg by by apply push_default_keeps.
    destruct Ha as [->|(n & -> & _)]; [done|]. apply elem_of_app. by left.
  - intros a [Hin|Hin]%posix_defaults_elem; [|right; set_solver].
    destruct Ha as [->|(n & -> & _)].
    + apply push_default_elem in Hin as [->|Hin]; [right; set_solver|by left].
    + apply elem_of_app in Hin as [[->|Hin]%push_default_elem| ->%list_elem_of_singleton];
        [right; set_solver|by left|right; set_solver].
  - intros n x. cbn [t_user_attributes with_user_attributes]. rewrite Hrows. unfold rows.
    rewrite list_elem_of_In, in_map_iff. setoid_rewrite filter_In. setoid_rewrite <- list_elem_of_In.
    naive_solver.
Qed.

(** The row of an attribute in the schema can be read. *)
Lemma stored_row_read sch a :
  in_user_schema sch (attr_name a) = true ->
  exists x, read_attribute canonical_user_attribute_name (s_user_attributes sch) (user_row_of sch a) = Ok x.
Proof.
  unfold in_user_schema, get_attribute_type. rewrite bool_decide_eq_true, fmap_is_Some. intros [e He].
  unfold read_attribute, deserialize_attribute, user_row_of, canonical_name. rewrite He. cbn [fst snd].
  unfold get_attribute_type. cbn [attr_name attribute_name_str AttributeName_from]. destruct (get_by_name_or_alias (s_user_attributes sch) (CaseInsensitiveString_new (as_name e))) as [e'|] eqn:Ee; [eexists; reflexivity|].
  exfalso. apply get_by_name_or_alias_Some in He as [Hin%list_elem_of_In _].
  unfold get_by_name_or_alias in Ee. apply (find_none _ _ Ee) in Hin.
  rewrite matches_name_lower in Hin. unfold matches_name, eq_ignore_ascii_case in Hin.
  by rewrite String.eqb_refl in Hin.
Qed.
End Created.

Section ReadBack.
Context `{Extern, SqlExtern, !JsonLaws}.

Lemma details_read s u user s' :
  sql_get_user_details u s = (Ok user, s') ->
  exists row sch, t_users (db_tables s) !! u = Some row /\ schema_of (db_tables s) = Ok sch /\
    read_user sch (u, row) (user_attribute_rows (db_tables s) u) = Ok user.
Proof.
  unfold sql_get_user_details, find_user. intros Hs.
  apply io_bind_Ok in Hs as (o & s1 & [-> H1']%dquery_Ok & Hs).
  destruct (t_users (db_tables s) !! u) as [row|]; [|done].
  apply io_bind_Ok in Hs as (rows & s2 & [-> H2']%dquery_Ok & Hs).
  apply io_bind_Ok in Hs as (sch & s3 & [Hsch _]%sql_get_schema_Ok & Hs).
  apply io_bind_Ok in Hs as (attrs & s4 & [Hc _]%io_lift_Ok & Hs). io_inv Hs.
  rewrite H2', H1' in Hsch. rewrite H1' in Hc. exists row, sch. split_and!; [done..|]. unfold read_user. simpl.
  by rewrite Hc.
Qed.

Lemma read_back_value t sch a e :
  schema_of t = Ok sch ->
  get_by_name_or_alias (s_user_attributes sch) (attribute_name_str (attr_name a)) = Some e ->
  get_by_name_or_alias (s_user_attributes sch) (as_name e) = Some e ->
  value_matches (as_attribute_type e) (as_is_list e) (attr_value a) = true -> storable (attr_value a) ->
  read_attribute canonical_user_attribute_name (s_user_attributes sch) (user_row_of sch a)
    = Ok (MkAttribute (AttributeName_from (as_name e)) (attr_value a)).
Proof.
  intros Hsch He Hself Hm Hst.
  assert (get_by_name_or_alias (s_user_attributes sch) (to_ascii_lowercase (as_name e)) = Some e) as Hlow.
  { rewrite <- Hself. apply get_by_name_or_alias_case, lower_idemp. }
  unfold read_attribute, deserialize_attribute, user_row_of, canonical_name. rewrite He. cbn [fst snd].
  unfold get_attribute_type. cbn [attribute_name_str AttributeName_from]. unfold CaseInsensitiveString_new.
  rewrite Hlow. cbn [fmap option_fmap option_map result_bind attr_name attr_value].
  rewrite stored_value_roundtrip by done. do 2 f_equal.
  unfold canonical_user_attribute_name. cbn [attribute_name_str].
  destruct (get_by_name_or_alias (s_user_attributes PublicSchema_get) _) as [e'|] eqn:Es.
  - apply (schema_of_static _ _ _ _ Hsch) in Es.
    assert (Some e' = Some e) as [= ->] by (rewrite <- Hlow; symmetry; exact Es). done.
  - unfold AttributeName_from, CaseInsensitiveString_new. simpl. by rewrite lower_idemp.
Qed.
End ReadBack.

(** C13: a user that was created is read back, as soon as the reads succeed and for as long
    as the tables are not changed, with the e-mail address, the display name and, under its
    canonical name, every attribute of the request whose value has the declared type and is
    storable; it has no attributes besides those of the request and the defaults. *)
Theorem created_user_read_back `{Extern, SqlExtern, !JsonLaws} r s s' :
  integrity (db_tables s) -> sql_create_user r s = (Ok tt, s') ->
  exists sch, schema_of (db_tables s') = Ok sch /\ forall s2, db_tables s2 = db_tables s' ->
  ((forall n, fault n = None) -> is_ok (fst (sql_get_user_details (cu_user_id r) s2)) = true) /\
  forall u s3, sql_get_user_details (cu_user_id r) s2 = (Ok u, s3) ->
    u_user_id u = cu_user_id r /\ u_email u = cu_email r /\
    u_display_name u = to_value (cu_display_name r) None /\
    (forall a e, a ∈ cu_attributes r ->
       get_by_name_or_alias (s_user_attributes sch) (attribute_name_str (attr_name a)) = Some e ->
       get_by_name_or_alias (s_user_attributes sch) (as_name e) = Some e ->
       value_matches (as_attribute_type e) (as_is_list e) (attr_value a) = true -> storable (attr_value a) ->
       MkAttribute (AttributeName_from (as_name e)) (attr_value a) ∈ u_attributes u) /\
    forall x, x ∈ u_attributes u -> exists a,
      attr_name x = canonical_user_attribute_name (canonical_name (s_user_attributes sch) (attr_name a)) /\
      (a ∈ cu_attributes r \/
       attr_name a ∈ map AttributeName_from ["ou"; "uidnumber"; "gidnumber"; "loginshell"; "homedirectory"]).
Proof.
  intros Hi (sch & row & attrs & Hsch & Hrow & He & Hd & Hk & Hreq & Hdef & Hrows)%created_user_rows; [|done].
  exists sch. split; [done|]. intros s2 Ht. rewrite <- Ht in *. split.
  - intros Hnf. rewrite (get_user_details_runs Hnf _ row s2 sch Hrow Hsch). unfold read_user.
    assert (is_ok (collect (map (read_attribute canonical_user_attribute_name (s_user_attributes sch))
      (user_attribute_rows (db_tables s2) (cu_user_id r)))) = true) as Hc.
    { rewrite collect_is_ok, forallb_Forall, Forall_map. apply Forall_forall.
      intros [n x] (a & _ & Hin & <-)%user_attribute_rows_elem%Hrows.
      destruct (stored_row_read _ _ Hin) as [y Hy]. simpl. by rewrite Hy. }
    by destruct (collect _).
  - intros u s3 (row' & sch' & Hrow' & Hsch' & Hread)%details_read.
    rewrite Hrow in Hrow'. rewrite Hsch in Hsch'. injection Hrow' as <-. injection Hsch' as <-.
    unfold read_user in Hread. apply result_bind_Ok in Hread as (xs & Hc%collect_map_Ok & [= <-]).
    unfold materialize_protected_fields. cbn [u_krb_principal_name user_of_row fst snd]. rewrite Hk.
    split_and!; [done..| |].
    + intros a e Ha Hn Hself Hm Hst.
      assert (user_row_of sch a ∈ user_attribute_rows (db_tables s2) (cu_user_id r)) as Hin.
      { rewrite (surjective_pairing (user_row_of sch a)). apply user_attribute_rows_elem, Hrows.
        exists a. split_and!; [by apply Hreq| |by apply surjective_pairing].
        unfold in_user_schema, get_attribute_type. by rewrite Hn. }
      destruct (Forall2_elem_l _ _ _ _ Hc Hin) as (y & Hy & Hr).
      rewrite (read_back_value _ _ _ _ Hsch Hn Hself Hm Hst) in Hr. by injection Hr as <-.
    + intros x Hx. destruct (Forall2_elem_r _ _ _ _ Hc Hx) as ([n v] & Hin & Hr).
      apply user_attribute_rows_elem, Hrows in Hin as (a & Ha & _ & Hu). exists a. split; [|by apply Hdef].
      unfold user_row_of in Hu. injection Hu as <- <-. unfold read_attribute in Hr.
      apply result_bind_Ok in Hr as (b & Hb & [= <-]). unfold deserialize_attribute in Hb.
      destruct (get_attribute_type _ _) as [[typ l]|]; [|done]. injection Hb as <-. done.
Qed.

Definition carol_request : CreateUserRequest :=
  MkCreateUserRequest (MkUserId "carol") (MkEmail "Carol@y.org") (Some "Carol")
    [string_attribute "givenName" "Carol"; integer_attribute "uidnumber" 3002;
     MkAttribute (AttributeName_from "sshPublicKey") (VString (Unbounded ["ssh-ed25519 AAAA"; "ssh-rsa BBBB"]))].

Lemma created_user_read_back_witness :
  let s' := snd (@sql_create_user lawful_extern posix_sql_extern carol_request demo_db) in
  exists u, fst (@sql_get_user_details lawful_extern posix_sql_extern (MkUserId "carol") s') = Ok u /\
    u_email u = MkEmail "Carol@y.org" /\ u_display_name u = Some "Carol" /\
    MkAttribute (AttributeName_from "firstname") (VString (Singleton "Carol")) ∈ u_attributes u /\
    MkAttribute (AttributeName_from "sshpublickey") (VString (Unbounded ["ssh-ed25519 AAAA"; "ssh-rsa BBBB"]))
      ∈ u_attributes u.
Proof.
  intros s'.
  destruct (@created_user_read_back lawful_extern posix_sql_extern _ carol_request demo_db s' demo_db_integrity)
    as (sch & Hsch & Hread); [vm_compute; reflexivity|].
  destruct (Hread s' eq_refl) as [Hok Hall]. specialize (Hok (fun _ => eq_refl)).
  destruct (sql_get_user_details (cu_user_id carol_request) s') as [[u|e] s3] eqn:Eu; [|discriminate].
  destruct (Hall u s3 eq_refl) as (_ & He & Hd & Hattr & _).
  exists u. split; [exact (f_equal fst Eu)|]. split; [exact He|]. split; [exact Hd|].
  assert (forall a e, a ∈ cu_attributes carol_request ->
    get_by_name_or_alias (s_user_attributes PublicSchema_get) (attribute_name_str (attr_name a)) = Some e ->
    get_by_name_or_alias (s_user_attributes PublicSchema_get) (as_name e) = Some e ->
    value_matches (as_attribute_type e) (as_is_list e) (attr_value a) = true ->
    @storable lawful_extern (attr_value a) ->
    MkAttribute (AttributeName_from (as_name e)) (attr_value a) ∈ u_attributes u) as Hstatic.
  { intros a e Ha Hn Hself. apply Hattr; [exact Ha|..];
      by eapply (@schema_of_static lawful_extern posix_sql_extern). }
  split.
  - apply (Hstatic (string_attribute "givenName" "Carol")
      (MkAttributeSchema "firstname" ["first_name"; "givenName"] TString false true true true false)).
    + unfold carol_request. cbn [cu_attributes]. apply elem_of_cons. left. reflexivity.
    + vm_compute. reflexivity.
    + vm_compute. reflexivity.
    + reflexivity.
    + reflexivity.
  - apply (Hstatic (MkAttribute (AttributeName_from "sshPublicKey")
        (VString (Unbounded ["ssh-ed25519 AAAA"; "ssh-rsa BBBB"])))
      (MkAttributeSchema "sshpublickey" ["sshPublicKey"; "ssHPublicKey"] TString true true true true false)).
    + unfold carol_request. cbn [cu_attributes]. rewrite !elem_of_cons. right. right. left. reflexivity.
    + vm_compute. reflexivity.
    + vm_compute. reflexivity.
    + reflexivity.
    + exact I.
Defined.
