(* ===== verification/System.v ===== *)
(** * Invariants of the whole system

    What holds of the tables however the server is used: through LDAP messages of any
    session, GraphQL mutations of any caller and HTTP requests.  An invariant that every operation of
    the SQL backend keeps is kept by every request of every front end. *)

From S2P Require Import Prelude Strings Types Schema SchemaManager Proto Access Dn Filters Search LdapWrite Session.
From S2P Require Import Database SqlConfig SqlGroups SqlUsers SqlOps SqlLists Opaque AuthTokens AuthService.
From S2P Require Import GraphqlQuery GraphqlInput GraphqlMutation Confinement.

(** ** Invariants of the backend *)

(** Kept by every operation of the backend but direct writes of settings, and by the
    writes of a password. *)
Class BackendInvariant `{Extern, LdapExtern, SqlExtern} (I : Tables -> Prop) := {
  bi_run op : (forall k x, op <> SetSystemConfig k x) -> keeps I (run op);
  bi_password u h d : stmt_keeps I (update_user_row u (set_password h d))
}.

Section Keeping.
Context `{Extern, LdapExtern, SqlExtern, OpaqueExtern, GraphqlExtern} (setup : ServerSetup).
Context (kdc_answer : KdcCall -> result DomainError unit) (I : Tables -> Prop).
Local Abbreviation back := (full_backend setup kdc_answer).

Lemma keeps_try {E E' A} (m : io Db E A) : keeps I m -> keeps I (io_try (E' := E') m).
Proof. intros Hm s Hs. unfold io_try. specialize (Hm s Hs). by destruct (m s) as [[] ?]. Qed.

Lemma keeps_with_admin {A} v msg (m : io Db GqlError A) : keeps I m -> keeps I (with_admin back v msg m).
Proof. intros Hm. unfold with_admin. case_match; [done|]. by intros s. Qed.

Lemma keeps_with_writeable {A} v u msg (m : io Db GqlError A) :
  keeps I m -> keeps I (with_writeable back v u msg m).
Proof. intros Hm. unfold with_writeable. case_match; [done|]. by intros s. Qed.

Context {HI : BackendInvariant I}.

Lemma keeps_backend :
  (forall r, keeps I (@create_user Db back r)) /\ (forall r, keeps I (@update_user Db back r)) /\
  (forall u, keeps I (@delete_user Db back u)) /\ (forall r, keeps I (@create_group Db back r)) /\
  (forall r, keeps I (@update_group Db back r)) /\ (forall g, keeps I (@delete_group Db back g)) /\
  (forall u g, keeps I (@add_user_to_group Db back u g)) /\
  (forall u g, keeps I (@remove_user_from_group Db back u g)) /\
  (forall u b, keeps I (@ensure_kerberos_principal_consistency Db back u b)).
Proof.
  split_and!; intros; simpl.
  - by apply (bi_run (CreateUser r)).
  - by apply (bi_run (UpdateUser r)).
  - by apply (bi_run (DeleteUser u)).
  - intros s Hs. pose proof (bi_run (CreateGroup r) ltac:(done) s Hs) as Hk. simpl in Hk. unfold io_bind in Hk.
    by destruct (sql_create_group r s) as [[] ?].
  - by apply (bi_run (UpdateGroup r)).
  - by apply (bi_run (DeleteGroup g)).
  - by apply (bi_run (AddUserToGroup u g)).
  - by apply (bi_run (RemoveUserFromGroup u g)).
  - by apply (bi_run (EnsureKerberos u b)).
Qed.

Lemma keeps_registration_finish r : keeps I (sql_registration_finish setup r).
Proof. unfold sql_registration_finish. repeat keeps_step. apply bi_password. Qed.

Lemma keeps_draw {E} n : keeps I (draw (E := E) n).
Proof. by intros s Hs. Qed.

Lemma keeps_register_password u pw : keeps I (@register_password Db back u pw).
Proof.
  simpl. unfold sql_register_password.
  repeat first [apply keeps_draw | apply keeps_registration_finish | apply keeps_read, preserves_registration_start | keeps_step].
Qed.

Lemma keeps_exchange rng u pw : keeps I (register_exchange (sql_opaque_handler setup) rng u pw).
Proof.
  unfold register_exchange, context. simpl.
  repeat first [apply keeps_map_err | apply keeps_registration_finish
               | apply keeps_read, preserves_registration_start | keeps_step].
Qed.

Lemma keeps_schema_and_settings :
  (forall r, keeps I (SqlConfig.add_user_attribute r)) /\ (forall r, keeps I (SqlConfig.add_group_attribute r)) /\
  (forall n, keeps I (SqlConfig.delete_user_attribute n)) /\ (forall n, keeps I (SqlConfig.delete_group_attribute n)) /\
  (forall c, keeps I (SqlConfig.add_user_object_class c)) /\ (forall c, keeps I (SqlConfig.add_group_object_class c)) /\
  (forall c, keeps I (SqlConfig.delete_user_object_class c)) /\
  (forall c, keeps I (SqlConfig.delete_group_object_class c)) /\ (forall p, keeps I (SqlConfig.set_posix_settings p)) /\
  keeps I SqlConfig.reassign_gid_numbers /\ keeps I SqlConfig.reassign_user_uid_numbers /\
  keeps I SqlConfig.reassign_user_gid_numbers /\ keeps I SqlConfig.reassign_user_homedirectories /\
  keeps I SqlConfig.reassign_user_loginshells.
Proof.
  split_and!; intros; [by apply (bi_run (AddUserAttribute r))|by apply (bi_run (AddGroupAttribute r))
    |by apply (bi_run (DeleteUserAttribute n))|by apply (bi_run (DeleteGroupAttribute n))
    |by apply (bi_run (AddUserObjectClass c))|by apply (bi_run (AddGroupObjectClass c))
    |by apply (bi_run (DeleteUserObjectClass c))|by apply (bi_run (DeleteGroupObjectClass c))
    |by apply (bi_run (SetPosixSettings p))|by apply (bi_run ReassignGidNumbers)
    |by apply (bi_run ReassignUserUidNumbers)|by apply (bi_run ReassignUserGidNumbers)
    |by apply (bi_run ReassignUserHomedirectories)|by apply (bi_run ReassignUserLoginshells)].
Qed.

Lemma keeps_reads :
  keeps I (@get_schema Db back) /\ (forall u, keeps I (@get_user_details Db back u)) /\
  (forall g, keeps I (@get_group_details Db back g)) /\ (forall f b, keeps I (@list_users Db back f b)) /\
  (forall f, keeps I (@list_groups Db back f)) /\ keeps I (@Access.get_allowed_ous Db back) /\
  (forall u p, keeps I (@sync_kerberos_principal Db back u p)) /\ (forall r, keeps I (@bind Db back r)) /\
  (forall u, keeps I (@get_user_groups Db back u)) /\
  (forall u, keeps I (@delete_kerberos_principal Db back u)).
Proof.
  split_and!; intros; apply keeps_read; simpl; auto using preserves_sql_get_schema, preserves_user_details,
    preserves_group_details, preserves_list_users, preserves_list_groups, preserves_allowed_ous, preserves_kdc,
    preserves_sql_bind, preserves_user_groups.
Qed.
End Keeping.

#[export] Hint Resolve keeps_register_password keeps_exchange : keeping.
#[export] Hint Extern 1 (keeps _ _) => apply keeps_backend : keeping.
#[export] Hint Extern 1 (keeps _ _) => apply keeps_reads : keeping.

(** Follow a request through the layers above the backend. *)
Ltac keeping_step :=
  match goal with
  | |- keeps _ (with_admin _ _ _ _) => apply keeps_with_admin
  | |- keeps _ (with_writeable _ _ _ _ _) => apply keeps_with_writeable
  | |- keeps _ (gql _) => apply keeps_map_err
  | |- keeps _ (context _ _) => apply keeps_map_err
  | |- keeps _ (io_map_err _ _) => apply keeps_map_err
  | |- keeps _ (io_try _) => apply keeps_try
  | |- keeps _ (fail_with _) => apply keeps_read, preserves_fail
  | |- keeps _ _ => solve [eauto with keeping]
  | |- _ => keeps_step
  end.

Section Requests.
Context `{Extern, LdapExtern, SqlExtern, OpaqueExtern, GraphqlExtern} (setup : ServerSetup).
Context (kdc_answer : KdcCall -> result DomainError unit) (rng : nat -> Coins) (info : LdapInfo).
Context (I : Tables -> Prop) {HI : BackendInvariant I}.
Local Abbreviation back := (full_backend setup kdc_answer).

(** A mutation, given that the two that write the list of units keep the invariant. *)
Lemma mutate_keeps v m :
  (forall name, keeps I (create_ou back sql_config_handler v name)) ->
  (forall name, keeps I (delete_ou back sql_config_handler v name)) ->
  keeps I (sql_mutate setup kdc_answer rng v m).
Proof.
  intros Hc Hd. unfold sql_mutate, mutate.
  destruct m; cbv zeta; auto;
    unfold create_user_mutation, set_user_password, sync_if_enabled, create_group_with_details,
      update_user_mutation, update_group_mutation, add_user_to_group_mutation,
      remove_user_from_group_mutation, delete_user_mutation, delete_group_mutation, refuse_builtin, change_user_ou,
      change_group_ou, add_user_attribute_mutation, add_group_attribute_mutation,
      delete_user_attribute_mutation, delete_group_attribute_mutation, object_class_mutation,
      sync_kerberos_password, set_posix_settings_mutation, reassign_mutation; cbv zeta;
    repeat keeping_step; simpl; apply (keeps_schema_and_settings I).
Qed.

Lemma keeps_respond make m : keeps I m -> keeps I (respond make m).
Proof. intros Hm s Hs. unfold respond. specialize (Hm s Hs). by destruct (m s) as [[|[]]]. Qed.

Lemma ldap_modify_keeps v r : keeps I (handle_modify_request back info v r).
Proof.
  unfold handle_modify_request. keeping_step; [|keeping_step]. keeping_step; [|keeping_step].
  apply keeps_iter. intros change.
  unfold modify_one, cannot_modify, get_readable_handler, get_writeable_handler.
  repeat case_match; simplify_eq; try (by apply keeps_read, preserves_fail).
  unfold handle_modify_change, modify_password, modify_profile, cannot_modify_password, change_password,
    sync_kerberos_if_enabled, add_change, delete_change, read_current_user.
  repeat keeping_step.
Qed.

Lemma ldap_password_keeps v r : keeps I (do_password_modification back info v r).
Proof.
  unfold do_password_modification, modify_password_of, cannot_modify_password, change_password,
    kerberos_after_password_change, get_readable_handler.
  repeat case_match; simplify_eq; repeat keeping_step.
Qed.

(** A message of an LDAP session. *)
Lemma message_keeps session op : keeps I (handle_ldap_message back info session op).
Proof.
  unfold handle_ldap_message. destruct op; cbv zeta; repeat keeping_step;
    try apply keeps_respond; try (apply keeps_read; apply (do_bind_preserves back info db_tables)).
  - apply keeps_read. unfold do_search_or_dse. repeat preserves_step. apply session_search_preserves, _.
  - unfold do_modify_request. repeat keeping_step. apply ldap_modify_keeps.
  - unfold session_create, admin_handler, unauthorized_write.
    destruct session as [v|]; simpl; [|keeping_step]. unfold get_admin_handler.
    destruct (is_admin v); simpl; [|keeping_step].
    unfold create_user_or_group, create_user_entry, create_group_entry. repeat keeping_step.
  - unfold session_delete, admin_handler, unauthorized_write.
    destruct session as [v|]; simpl; [|keeping_step]. unfold get_admin_handler.
    destruct (is_admin v); simpl; [|keeping_step].
    unfold delete_user_or_group, delete_user_entry, delete_group_entry. repeat keeping_step.
  - apply keeps_read. unfold do_compare. repeat preserves_step. apply session_search_preserves, _.
  - unfold do_extended_request. repeat case_match;
      lazymatch goal with
      | |- keeps _ (io_ret _) => apply keeps_read, preserves_ret
      | |- keeps _ (do_whoami _ _ _) => apply keeps_read, whoami_preserves, _
      | |- _ => apply ldap_password_keeps
      end.
Qed.
End Requests.

(** ** HTTP requests *)

(** Kept by the statements on the tables of sessions and reset tokens. *)
Class TokenInvariant `{SqlExtern} (I : Tables -> Prop) := {
  ti_insert_refresh h r : stmt_keeps I (insert_refresh h r);
  ti_insert_jwt h r : stmt_keeps I (insert_jwt h r);
  ti_insert_reset k r : stmt_keeps I (insert_reset k r);
  ti_set_refresh f : (forall m, f m ⊆ m) -> stmt_keeps I (set_refresh f);
  ti_set_jwt f :
    (forall m k r, f m !! k = Some r -> exists r', m !! k = Some r' /\ jr_user_id r' = jr_user_id r) ->
    stmt_keeps I (set_jwt f);
  ti_set_reset f : (forall m, f m ⊆ m) -> stmt_keeps I (set_reset f)
}.

(** An invariant of the other tables. *)
Lemma token_independent `{SqlExtern} (I : Tables -> Prop) :
  (forall t tk, I t -> I (with_tokens t tk)) -> TokenInvariant I.
Proof.
  intros HI. split; intros; intros t a t' Ht; unfold insert_refresh, insert_jwt, insert_reset, set_refresh,
    set_jwt, set_reset in Ht; cbv zeta in Ht; repeat case_match; simplify_eq; auto.
Qed.

Section Http.
Context `{Extern, LdapExtern, SqlExtern, OpaqueExtern, TokenExtern, WebExtern} (setup : ServerSetup).
Context (config : AppConfig) (I : Tables -> Prop) {HI : BackendInvariant I} {HT : TokenInvariant I}.

Definition web_inv (w : Web) : Prop := I (db_tables (w_db w)).

Lemma keeps_token_ops :
  (forall u, keeps I (create_refresh_token u)) /\ (forall u h e, keeps I (register_jwt u h e)) /\
  (forall h u, keeps I (check_token h u)) /\ (forall u, keeps I (blacklist_jwts u)) /\
  (forall h, keeps I (delete_refresh_token h)) /\ (forall u, keeps I (start_password_reset u)) /\
  (forall k, keeps I (get_user_id_for_password_reset_token k)) /\
  (forall k, keeps I (delete_password_reset_token k)).
Proof.
  pose proof preserves_gen_random_string.
  unfold create_refresh_token, register_jwt, check_token, blacklist_jwts, delete_refresh_token,
    start_password_reset, get_user_id_for_password_reset_token, delete_password_reset_token.
  split_and!; intros; repeat keeps_step; auto using ti_insert_refresh, ti_insert_jwt, ti_insert_reset.
  - apply ti_set_jwt. intros m k r (r' & <- & Hm)%lookup_fmap_Some. exists r'. by rewrite blacklist_row_user.
  - apply ti_set_refresh. intros m. apply delete_subseteq.
  - intros t b t' Ht. destruct (tt_reset (t_tokens t) !! k); simpl in Ht; [|naive_solver].
    injection Ht as _ <-. eapply (ti_set_reset (delete k)); [|done]. intros m. apply delete_subseteq.
Qed.

Lemma cleanup_keeps : keeps I cleanup_db.
Proof.
  unfold cleanup_db. repeat first [apply keeps_try | keeps_step].
  - apply ti_set_refresh. intros m. apply map_filter_subseteq.
  - apply ti_set_jwt. intros m k r [Hm _]%map_lookup_filter_Some. eauto.
  - apply ti_set_reset. intros m. apply map_filter_subseteq.
Qed.

Lemma web_backend {A} (m : io Db DomainError A) : keeps I m -> wkeeps web_inv (backend m).
Proof. intros Hm w Hw. unfold backend. specialize (Hm _ Hw). by destruct (m (w_db w)). Qed.

Lemma web_try_backend {A} (m : io Db DomainError A) : keeps I m -> wkeeps web_inv (try_backend m).
Proof. intros Hm w Hw. unfold try_backend. specialize (Hm _ Hw). by destruct (m (w_db w)). Qed.

Lemma keeps_logins :
  (forall r, keeps I (sql_bind setup r)) /\ (forall r, keeps I (sql_login_start setup r)) /\
  (forall r, keeps I (sql_login_finish setup r)) /\ (forall r, keeps I (sql_registration_start setup r)) /\
  (forall r, keeps I (sql_registration_finish setup r)) /\ (forall u, keeps I (sql_get_user_groups u)) /\
  (forall f b, keeps I (list_users_or_panic f b)).
Proof.
  split_and!; intros; try apply (keeps_registration_finish setup I); apply keeps_read;
    auto using preserves_sql_bind, preserves_registration_start, preserves_user_groups, preserves_list_users.
  all: pose proof preserves_is_user_disabled; unfold sql_login_start, sql_login_finish,
    get_password_file_for_user, account_disabled, draw; cbv zeta;
    repeat first [done | preserves_step]; eauto with klldap.
Qed.

Lemma route_keeps reset r : wkeeps web_inv (route setup config reset r).
Proof.
  assert (forall u gs, wkeeps web_inv (create_jwt config u gs)) as Hc.
  { intros. unfold create_jwt. repeat wkeeps_step. apply web_try_backend, keeps_token_ops. }
  assert (forall u, wkeeps web_inv (get_login_successful_response config u)) as Hok.
  { intros. unfold get_login_successful_response. repeat wkeeps_step; auto;
      apply web_backend; first [apply keeps_logins | apply keeps_token_ops]. }
  destruct r; simpl; unfold opaque_login_start, opaque_login_finish, simple_login, get_refresh, get_logout,
    opaque_register_start, opaque_register_finish, get_password_reset_step1, get_password_reset_step2;
    repeat wkeeps_step; auto; try apply web_backend; try apply web_try_backend;
    first [apply keeps_logins | apply keeps_token_ops | by intros w].
Qed.

Lemma serve_keeps reset r w : web_inv w -> web_inv (snd (serve setup config reset r w)).
Proof. intros Hw. unfold serve. pose proof (route_keeps reset r w Hw). by destruct (route _ _ _ _ w). Qed.
End Http.

(** ** The list of organizational units *)

Section Units.
Context `{Extern, LdapExtern, SqlExtern}.

(** What [get_allowed_ous] reads. *)
Definition ous_of (t : Tables) : list string :=
  from_option id ["people"; "groups"] (json_from_slice (from_option id "[]" (t_system_config t !! "allowedous"))).

(** No unit twice, whatever the case, and no secondary unit without its primary one. *)
Definition well_formed_ous (ous : list string) : Prop :=
  NoDup (map str_to_lowercase ous) /\
  forall o p sec, o ∈ ous -> split_ou o = (p, Some sec) -> ou_listed p ous = true.

Lemma ou_listed_spec name ous :
  ou_listed name ous = true <-> exists o, o ∈ ous /\ str_to_lowercase o = str_to_lowercase name.
Proof. unfold ou_listed. rewrite existsb_elem. by setoid_rewrite String.eqb_eq. Qed.

Lemma ou_listed_perm name l l' : l ≡ₚ l' -> ou_listed name l = ou_listed name l'.
Proof. intros Hl. apply eq_iff_eq_true. rewrite !ou_listed_spec. by setoid_rewrite Hl. Qed.

Lemma add_ou_well_formed name p sec ous ous' :
  split_ou name = (p, sec) -> add_ou name p sec ous = Ok ous' -> well_formed_ous ous -> well_formed_ous ous'.
Proof.
  intros Hs Ha [Hn Hp]. unfold add_ou in Ha. destruct (ou_listed name ous) eqn:El; [done|].
  destruct (_ && _) eqn:Ep in Ha; [done|]. injection Ha as <-.
  pose proof (order_by_perm str_leb (ous ++ [name])) as Hperm. split.
  - rewrite Hperm, map_app. apply NoDup_app. split_and!; [done| |apply NoDup_singleton].
    intros x (o & -> & Ho)%list_elem_of_fmap Hx%list_elem_of_singleton.
    apply not_true_iff_false in El. apply El, ou_listed_spec. eauto.
  - intros o p' sec' Ho Hs'. rewrite (ou_listed_perm _ _ _ Hperm). rewrite Hperm in Ho.
    apply elem_of_app in Ho as [Ho| ->%list_elem_of_singleton].
    + apply (Hp _ _ _ Ho), ou_listed_spec in Hs' as (q & Hq & Hl). apply ou_listed_spec. exists q.
      rewrite elem_of_app. auto.
    + rewrite Hs in Hs'. injection Hs' as -> ->. rewrite bool_decide_eq_true_2 in Ep by done. simpl in Ep.
      apply negb_false_iff, ou_listed_spec in Ep as (q & Hq & Hl). apply ou_listed_spec. exists q.
      rewrite elem_of_app. auto.
Qed.

Lemma elem_of_retained o n ous : o ∈ retained_ous n ous <-> o ∈ ous /\ str_to_lowercase o <> n.
Proof.
  unfold retained_ous. by rewrite list_elem_of_In, filter_In, <- list_elem_of_In, negb_true_iff, String.eqb_neq.
Qed.

Lemma retained_well_formed n ous :
  has_children n ous = false -> well_formed_ous ous -> well_formed_ous (retained_ous n ous).
Proof.
  intros Hc [Hn Hp]. split.
  - by apply NoDup_map_filter.
  - intros o p sec [Ho Hl]%elem_of_retained Hs.
    apply (Hp _ _ _ Ho) in Hs as Hq. apply ou_listed_spec in Hq as (q & Hq & He). apply ou_listed_spec.
    exists q. split; [|done]. apply elem_of_retained. split; [done|]. intros Hqn.
    apply not_true_iff_false in Hc. apply Hc. unfold has_children. apply existsb_elem. exists o.
    rewrite Hs. rewrite He in Hqn. split; [done|]. by apply String.eqb_eq.
Qed.
End Units.

(** Operations other than a write of the settings leave the list alone. *)
Section ConfigFrames.
Context `{Extern, LdapExtern, SqlExtern}.
Local Abbreviation listed x := (fun t => t_system_config t !! "allowedous" = x).

Lemma config_put_user_attributes b u rows : stmt_frame t_system_config (put_user_attributes b u rows).
Proof. apply put_all_frame. intros n v t a t'. unfold put_user_attribute. crush_match. Qed.

Lemma config_put_group_attributes b g rows : stmt_frame t_system_config (put_group_attributes b g rows).
Proof. apply put_all_frame. intros n v t a t'. unfold put_group_attribute. crush_match. Qed.

Ltac other_table :=
  intros ? ? ? Ht <-;
  first [ by erewrite config_put_user_attributes by done | by erewrite config_put_group_attributes by done
        | unfold insert_user, update_user_row, insert_group, update_group_row, delete_group_row, delete_user_row,
            insert_membership, delete_membership, delete_user_attributes, delete_group_attributes,
            delete_user_attribute_everywhere, delete_group_attribute_everywhere in Ht;
          cbv beta zeta in Ht; repeat case_match; by simplify_eq/= ].

Lemma run_ous op x : (forall k v, op <> SetSystemConfig k v) -> keeps (listed x) (run op).
Proof.
  intros Hop.
  assert (forall n uv, keeps (listed x) (assign_user_attribute n uv)).
  { intros. unfold assign_user_attribute. repeat keeps_step; other_table. }
  assert (forall n gv, keeps (listed x) (assign_group_attribute n gv)).
  { intros. unfold assign_group_attribute. repeat keeps_step; other_table. }
  destruct op; try (by edestruct Hop); simpl;
    unfold sql_create_user, create_user_body, sql_update_user, update_user_with_transaction, sql_delete_user,
      sql_add_user_to_group, join_group, sql_remove_user_from_group, leave_group, touch_group,
      sql_create_group, create_group_body, sql_update_group, update_group_with_transaction,
      sql_delete_group, sql_ensure_kerberos_principal_consistency, SqlConfig.set_posix_settings,
      SqlConfig.set_system_config, SqlConfig.reassign_gid_numbers, SqlConfig.reassign_user_uid_numbers, SqlConfig.reassign_user_gid_numbers,
      SqlConfig.reassign_user_homedirectories, SqlConfig.reassign_user_loginshells, SqlConfig.get_posix_settings, SqlConfig.add_user_attribute,
      SqlConfig.add_group_attribute, SqlConfig.delete_user_attribute, SqlConfig.delete_group_attribute, SqlConfig.add_user_object_class,
      SqlConfig.add_group_object_class, SqlConfig.delete_user_object_class, SqlConfig.delete_group_object_class;
    repeat keeps_step; auto; try other_table.
  intros t a t' Ht. cbv beta in Ht. simplify_eq/=. by rewrite lookup_insert_ne.
Qed.
End ConfigFrames.

(** ** Soundness of the store *)

(** What an administrator relies on: references resolve and unique columns are unique,
    the two built-in groups keep their names, nobody is both an administrator and
    disabled, and the list of units is well formed. *)
Record sound `{Extern} (admins disabled : GroupId) (t : Tables) : Prop := {
  sound_integrity : integrity t;
  sound_admins : name_at t admins = Some (MkGroupName "lldap_admin");
  sound_disabled : name_at t disabled = Some (MkGroupName "lldap_disabled");
  sound_exclusive : forall u, ~ (is_member t u admins /\ is_member t u disabled);
  sound_ous : well_formed_ous (ous_of t)
}.

Section Sound.
Context `{Extern, LdapExtern, SqlExtern, !SqlLaws, !JsonLaws} (admins disabled : GroupId).

(** The operations keep everything but the list of units whatever they are. *)
Lemma run_sound op s :
  sound admins disabled (db_tables s) -> well_formed_ous (ous_of (db_tables (snd (run op s)))) ->
  sound admins disabled (db_tables (snd (run op s))).
Proof.
  intros [Hi Ha Hd Hx Ho] Ho'. split; [by apply run_integrity|by apply run_named..| |done].
  by apply (run_exclusive admins disabled).
Qed.

#[export] Instance sound_backend : BackendInvariant (sound admins disabled).
Proof.
  split.
  - intros op Hop s Hs. apply run_sound; [done|]. unfold ous_of.
    rewrite (run_ous op (t_system_config (db_tables s) !! "allowedous") Hop s eq_refl). apply Hs.
  - intros u h d t a t' Ht [Hi Ha Hd Hx Ho].
    pose proof (update_user_row_integrity _ _ _ _ _ Ht Hi) as Hi'.
    unfold update_user_row in Ht. repeat case_match; simplify_eq. by split.
Qed.

#[export] Instance sound_tokens : TokenInvariant (sound admins disabled).
Proof.
  assert (forall t t', integrity t' -> (exists tk, t' = with_tokens t tk) ->
    sound admins disabled t -> sound admins disabled t') as Hs by (intros t t' Hi [tk ->] []; by split).
  split; intros; intros t a t' Ht Ht0; assert (integrity t) as Hi by (by destruct Ht0);
    (apply (Hs t); [clear Hs | unfold insert_refresh, insert_jwt, insert_reset, set_refresh, set_jwt, set_reset in Ht;
       cbv zeta in Ht; repeat case_match; simplify_eq; eauto | done]); revert Hi; revert Ht.
  - apply insert_refresh_integrity.
  - apply insert_jwt_integrity.
  - apply insert_reset_integrity.
  - by apply set_refresh_integrity.
  - by apply set_jwt_integrity.
  - by apply set_reset_integrity.
Qed.
End Sound.

(** ** The server over time *)

Inductive SystemEvent `{OpaqueExtern} : Type :=
| SysHttp (enable_password_reset : bool) (r : AuthRequest)
| SysLdap (session : option ValidationResults) (op : LdapOp)
| SysGraphql (v : ValidationResults) (m : Mutation)
| SysCleanup
| SysRestart.

Section SystemRun.
Context `{Extern, LdapExtern, SqlExtern, OpaqueExtern, GraphqlExtern, TokenExtern, WebExtern}.
Context (setup : ServerSetup) (config : AppConfig) (info : LdapInfo).
Context (kdc_answer : KdcCall -> result DomainError unit) (rng : nat -> Coins).

(** A restart reads the revoked hashes; when that fails the server does not start. *)
Definition sys_step (e : SystemEvent) (w : Web) : Web :=
  match e with
  | SysHttp reset r => snd (serve setup config reset r w)
  | SysLdap session op => in_db (handle_ldap_message (full_backend setup kdc_answer) info session op) w
  | SysGraphql v m => in_db (sql_mutate setup kdc_answer rng v m) w
  | SysCleanup => in_db cleanup_db w
  | SysRestart => match get_jwt_blacklist (w_db w) with
                  | (Ok hashes, s) => MkWeb s hashes []
                  | (Err _, s) => MkWeb s (jwt_blacklist w) (w_mails w)
                  end
  end.

Definition sys_run (events : list SystemEvent) (w : Web) : Web := fold_left (fun w e => sys_step e w) events w.
End SystemRun.

Section SoundRun.
Context `{Extern, LdapExtern, SqlExtern, OpaqueExtern, GraphqlExtern, TokenExtern, WebExtern}.
Context `{!SqlLaws, !JsonLaws} (setup : ServerSetup) (config : AppConfig) (info : LdapInfo).
Context (kdc_answer : KdcCall -> result DomainError unit) (rng : nat -> Coins) (admins disabled : GroupId).
Local Abbreviation back := (full_backend setup kdc_answer).

Lemma save_sound ous : well_formed_ous ous -> keeps (sound admins disabled) (save_ous sql_config_handler ous).
Proof.
  intros Ho. unfold save_ous, context. apply keeps_map_err. simpl.
  intros s Hs. apply (run_sound admins disabled (SetSystemConfig "allowedous" (json_to_vec ous)) s Hs).
  simpl. unfold SqlConfig.set_system_config.
  pose proof (atomic_dexec (fun t => Ok (tt, with_system_config t
    (<["allowedous" := json_to_vec ous]> (t_system_config t)))) s) as Hat.
  destruct (dexec _ s) as [[[]|e] s'] eqn:E; simpl; [|rewrite (Hat _ _ eq_refl); apply Hs].
  apply dexec_Ok in E. injection E as E. rewrite <- E. unfold ous_of. simpl.
  rewrite lookup_insert_eq. simpl. by rewrite json_roundtrip.
Qed.

(** After loading the list, the rest works on a well-formed one. *)
Lemma load_sound {A} (k : list string -> io Db GqlError A) :
  (forall ous, well_formed_ous ous -> keeps (sound admins disabled) (k ous)) ->
  keeps (sound admins disabled) (let! ous := load_ous back in k ous).
Proof.
  intros Hk s Hs. unfold io_bind.
  pose proof (preserves_map_err db_tables (fun _ => FieldError "Failed to load allowedous") _
    preserves_allowed_ous s) as Hp.
  unfold load_ous, context. simpl.
  destruct (io_map_err _ _ s) as [[ous|e] s1] eqn:E; simpl in *; [|by rewrite Hp].
  apply Hk; [|by rewrite Hp]. apply io_map_err_Ok in E. unfold SqlConfig.get_allowed_ous in E. io_inv E.
  apply dquery_Ok in Hm as [-> _]. apply Hs.
Qed.

Lemma create_ou_sound v name : keeps (sound admins disabled) (create_ou back sql_config_handler v name).
Proof.
  unfold create_ou. apply keeps_with_admin. intros s Hs. unfold io_bind at 1, io_lift at 1.
  destruct (check_ou_name name) as [[p sec]|e] eqn:Ec; [|done]. revert s Hs. apply load_sound. intros ous Ho s Hs.
  unfold io_bind, io_lift. destruct (add_ou _ _ _ ous) as [ous'|e] eqn:Ea; [|done].
  apply save_sound; [|done]. eapply add_ou_well_formed; [|exact Ea|done].
  unfold check_ou_name in Ec. destruct (split_ou name) as [p' sec']. repeat case_match; by simplify_eq.
Qed.

Lemma delete_ou_sound v name : keeps (sound admins disabled) (delete_ou back sql_config_handler v name).
Proof.
  unfold delete_ou. apply keeps_with_admin. cbv zeta. case_match; [by intros s|]. apply load_sound. intros ous Ho.
  destruct (has_children _ ous) eqn:Ec; [by intros s|].
  pose proof (sound_backend admins disabled). unfold move_users, move_groups.
  repeat (first [by apply save_sound, retained_well_formed | keeping_step]).
Qed.

Lemma sys_step_sound e w :
  web_inv (sound admins disabled) w ->
  web_inv (sound admins disabled) (sys_step setup config info kdc_answer rng e w).
Proof.
  pose proof (sound_backend admins disabled) as HB. pose proof (sound_tokens admins disabled) as HT.
  intros Hw. destruct e as [reset r|session op|v m| |]; simpl.
  - exact (serve_keeps setup config _ reset r w Hw).
  - exact (message_keeps setup kdc_answer info _ session op (w_db w) Hw).
  - exact (mutate_keeps setup kdc_answer rng _ v m (create_ou_sound v) (delete_ou_sound v) (w_db w) Hw).
  - exact (cleanup_keeps _ (w_db w) Hw).
  - pose proof (preserves_query (jwt_hashes jr_blacklisted) (w_db w)) as Hp. unfold get_jwt_blacklist.
    unfold web_inv in *. destruct (query _ _) as [[hashes|e] s]; simpl in *; by rewrite Hp.
Qed.
End SoundRun.

(** C1: however the server is used, through HTTP requests, LDAP messages of any session
    and GraphQL mutations of any caller, cleaned up and restarted, and whatever the
    database fails at and the KDC answers, the store stays sound: references between
    the tables resolve and unique columns are unique, the built-in groups keep their
    identifier and name, no user is both an administrator and disabled, and the list
    of organizational units has no duplicate and no secondary unit without its
    primary one. *)
Theorem system_stays_sound
    `{Extern, LdapExtern, SqlExtern, OpaqueExtern, GraphqlExtern, TokenExtern, WebExtern, !SqlLaws, !JsonLaws}
    setup config info kdc_answer rng admins disabled events w :
  sound admins disabled (db_tables (w_db w)) ->
  sound admins disabled (db_tables (w_db (sys_run setup config info kdc_answer rng events w))).
Proof.
  revert w. induction events as [|e events IH]; intros w Hw; simpl; [done|]. apply IH.
  by apply sys_step_sound.
Qed.

Definition bob : ValidationResults := MkValidationResults (MkUserId "bob") Admin.

Lemma demo_web_sound : @sound lawful_extern 1 2 (db_tables (w_db demo_web)).
Proof.
  split; [exact demo_db_integrity|vm_compute; reflexivity..| |].
  - intros u [H1 H2]. unfold is_member in *. simpl in *. set_solver.
  - split; [apply (bool_decide_unpack _); vm_compute; exact I|]. intros o p sec Ho Hs.
    assert (@ous_of lawful_extern (db_tables (w_db demo_web)) = ["people"; "groups"]) as Heq
      by (vm_compute; reflexivity).
    rewrite Heq in Ho. apply elem_of_cons in Ho as [->|Ho%list_elem_of_singleton]; simplify_eq; vm_compute in Hs; done.
Qed.

(** The administrator adds units and tries to disable itself. *)
Lemma system_stays_sound_witness :
  let w := @sys_run lawful_extern demo_ldap_extern demo_sql_extern demo_opaque_extern demo_graphql_extern
    demo_token_extern demo_web_extern "key" demo_config demo_info (fun _ => Ok tt) (fun _ => tt)
    [SysGraphql bob (MCreateOu "staff"); SysGraphql bob (MCreateOu "Staff");
     SysGraphql bob (MAddUserToGroup "bob" 2); SysCleanup; SysRestart] demo_web in
  @ous_of lawful_extern (db_tables (w_db w)) = ["groups"; "people"; "staff"] /\ @sound lawful_extern 1 2 (db_tables (w_db w)).
Proof.
  intros w. split; [vm_compute; reflexivity|].
  exact (@system_stays_sound lawful_extern demo_ldap_extern demo_sql_extern demo_opaque_extern
    demo_graphql_extern demo_token_extern demo_web_extern _ _ "key" demo_config demo_info (fun _ => Ok tt)
    (fun _ => tt) 1 2 _ demo_web demo_web_sound).
Defined.
