(* ===== verification/Relational.v ===== *)
(** * Tables whose columns change

    The operations of the handlers run on the tables in their last form ([Database]).
    Migrations change that form, so here a database is a catalog of named tables with
    column definitions, keys, foreign keys and rows, and the statements are those that
    [crates/sql-backend-handler/src/sql_migrations.rs] builds with sea-query.

    The engine is not part of the repository.  [Database.SqlExtern] gives its faults,
    clock and [LOWER]; [EngineExtern] says in what engines differ where the migrations
    notice: whether an error makes the rest of its transaction fail (PostgreSQL) or only
    the statement (SQLite), whether a blob equals a text literal, whether [?] is a
    placeholder, and whether a statement that defines a table commits the transaction it
    is in (MySQL, MariaDB) or is part of it (SQLite, PostgreSQL).  A statement that fails
    changes nothing. *)

From S2P Require Import Prelude Strings Types Schema SchemaManager Database.

(** ** Rows and tables *)

Inductive Cell : Type :=
| CNull
| CText (s : string)
| CBlob (bytes : string)
| CInt (z : Z)
| CBool (b : bool)
| CDate (d : NaiveDateTime).

#[export] Instance Cell_eq_dec : EqDecision Cell.
Proof. solve_decision. Defined.

Inductive ColumnType : Type :=
| StringLen (n : Z)
| StringCol
| TextCol
| BlobCol
| BinaryCol
| IntegerCol
| AutoIncrement
| SmallInteger
| BigInteger
| BooleanCol
| DateTimeCol.

(** [sea_query::ColumnDef] *)
Record ColumnDef := MkColumnDef {
  cd_name : string;
  cd_type : ColumnType;
  cd_not_null : bool;
  cd_default : option Cell
}.

Definition nullable (name : string) (t : ColumnType) : ColumnDef := MkColumnDef name t false None.
Definition not_null (name : string) (t : ColumnType) : ColumnDef := MkColumnDef name t true None.
Definition defaults (cd : ColumnDef) (c : Cell) : ColumnDef :=
  MkColumnDef (cd_name cd) (cd_type cd) (cd_not_null cd) (Some c).

(** Every foreign key cascades; the migrations delete no row that another refers to. *)
Record ForeignKey := MkForeignKey { fk_from : string; fk_table : string; fk_to : string }.

Abbreviation Row := (gmap string Cell) (only parsing).

(** A key is a primary key or a unique index, by its name. *)
Record Table := MkTable {
  tb_columns : list ColumnDef;
  tb_keys : list (string * list string);
  tb_foreign_keys : list ForeignKey;
  tb_rows : list (gmap string Cell)
}.

Definition with_rows (tb : Table) (rows : list (gmap string Cell)) : Table :=
  MkTable (tb_columns tb) (tb_keys tb) (tb_foreign_keys tb) rows.

#[export] Instance ColumnType_eq_dec : EqDecision ColumnType.
Proof. solve_decision. Defined.
#[export] Instance ColumnDef_eq_dec : EqDecision ColumnDef.
Proof. solve_decision. Defined.
#[export] Instance ForeignKey_eq_dec : EqDecision ForeignKey.
Proof. solve_decision. Defined.
#[export] Instance Table_eq_dec : EqDecision Table.
Proof. solve_decision. Defined.

Abbreviation Catalog := (gmap string Table) (only parsing).

Definition cell (row : gmap string Cell) (c : string) : Cell := default CNull (row !! c).

Definition has_column (tb : Table) (c : string) : bool :=
  existsb (fun cd => String.eqb (cd_name cd) c) (tb_columns tb).

(** ** Constraints *)

Definition is_null (c : Cell) : bool := match c with CNull => true | _ => false end.

Definition key_of (key : list string) (row : gmap string Cell) : list Cell := map (cell row) key.

#[global] Arguments key_of _ _ : simpl never.

(** Rows with a null in the key do not conflict. *)
Definition unique (key : list string) (rows : list (gmap string Cell)) : bool :=
  bool_decide (NoDup (List.filter (fun k => negb (existsb is_null k)) (map (key_of key) rows))).

Definition filled (cd : ColumnDef) (row : gmap string Cell) : bool :=
  negb (cd_not_null cd && is_null (cell row (cd_name cd))).

Definition refers (c : gmap string Table) (fk : ForeignKey) (row : gmap string Cell) : bool :=
  is_null (cell row (fk_from fk)) ||
  match c !! fk_table fk with
  | Some tb => existsb (fun r => bool_decide (cell r (fk_to fk) = cell row (fk_from fk))) (tb_rows tb)
  | None => false
  end.

Definition table_ok (c : gmap string Table) (tb : Table) : bool :=
  forallb (fun cd => forallb (filled cd) (tb_rows tb)) (tb_columns tb)
  && forallb (fun k => unique (snd k) (tb_rows tb)) (tb_keys tb)
  && forallb (fun fk => forallb (refers c fk) (tb_rows tb)) (tb_foreign_keys tb).

Definition catalog_ok (c : gmap string Table) : bool :=
  forallb (fun kv => table_ok c (snd kv)) (map_to_list c).

(** ** Statements *)

Abbreviation Sql A := (gmap string Table -> result DbErr (A * gmap string Table)) (only parsing).

Section Statements.
Context `{SqlExtern}.

Definition checked (c : gmap string Table) : result DbErr (unit * gmap string Table) :=
  if catalog_ok c then Ok (tt, c) else violated "constraint".

Definition on_table (name : string) (f : Table -> result DbErr Table) : Sql unit := fun c =>
  match c !! name with
  | None => Err (unknown_column_error name)
  | Some tb => let? tb' := f tb in checked (<[name := tb']> c)
  end.

(** The columns a statement names exist. *)
Definition require (tb : Table) (cols : list string) : result DbErr unit :=
  match find (fun c => negb (has_column tb c)) cols with
  | None => Ok tt
  | Some c => Err (unknown_column_error c)
  end.

Definition create_table (name : string) (if_not_exists : bool) (columns : list ColumnDef)
    (keys : list (string * list string)) (fks : list ForeignKey) : Sql unit := fun c =>
  match c !! name with
  | Some _ => if if_not_exists then Ok (tt, c) else violated name
  | None => Ok (tt, <[name := MkTable columns keys fks []]> c)
  end.

Definition add_column (name : string) (if_not_exists : bool) (cd : ColumnDef) : Sql unit :=
  on_table name (fun tb =>
    if has_column tb (cd_name cd) then if if_not_exists then Ok tb else violated (cd_name cd)
    else Ok (MkTable (tb_columns tb ++ [cd]) (tb_keys tb) (tb_foreign_keys tb)
               (map (insert (cd_name cd) (default CNull (cd_default cd))) (tb_rows tb)))).

Definition rename (from to c : string) : string := if String.eqb c from then to else c.

Definition rename_cell (from to : string) (row : gmap string Cell) : gmap string Cell :=
  <[to := cell row from]> (delete from row).

(** No foreign key of another table refers to a column that is renamed. *)
Definition rename_column (name from to : string) : Sql unit :=
  on_table name (fun tb =>
    let? _ := require tb [from] in
    if has_column tb to then violated to
    else Ok (MkTable
      (map (fun cd => MkColumnDef (rename from to (cd_name cd)) (cd_type cd) (cd_not_null cd) (cd_default cd))
         (tb_columns tb))
      (map (fun k => (fst k, map (rename from to) (snd k))) (tb_keys tb))
      (map (fun fk => MkForeignKey (rename from to (fk_from fk)) (fk_table fk) (fk_to fk)) (tb_foreign_keys tb))
      (map (rename_cell from to) (tb_rows tb)))).

Definition drop_column (name col : string) : Sql unit :=
  on_table name (fun tb =>
    let? _ := require tb [col] in
    if existsb (fun k => existsb (String.eqb col) (snd k)) (tb_keys tb)
       || existsb (fun fk => String.eqb col (fk_from fk)) (tb_foreign_keys tb) then violated col
    else Ok (MkTable (List.filter (fun cd => negb (String.eqb (cd_name cd) col)) (tb_columns tb))
               (tb_keys tb) (tb_foreign_keys tb) (map (delete col) (tb_rows tb)))).

(** CREATE UNIQUE INDEX IF NOT EXISTS *)
Definition create_unique (index name : string) (cols : list string) : Sql unit :=
  on_table name (fun tb =>
    let? _ := require tb cols in
    if existsb (fun k => String.eqb (fst k) index) (tb_keys tb) then Ok tb
    else Ok (MkTable (tb_columns tb) (tb_keys tb ++ [(index, cols)]) (tb_foreign_keys tb) (tb_rows tb))).

(** UPDATE name SET col = value(row), .. WHERE where(row); [uses] are the columns the
    values and the condition name. *)
Definition update (name : string) (uses : list string) (sets : list (string * (gmap string Cell -> Cell)))
    (where_ : gmap string Cell -> bool) : Sql unit :=
  on_table name (fun tb =>
    let? _ := require tb (map fst sets ++ uses) in
    Ok (with_rows tb (map (fun r => if where_ r
          then fold_right (fun sv r' => <[fst sv := snd sv r]> r') r sets else r) (tb_rows tb)))).

Definition new_row (tb : Table) (given : list (string * Cell)) : gmap string Cell :=
  list_to_map given ∪
  list_to_map (map (fun cd => (cd_name cd, default CNull (cd_default cd))) (tb_columns tb)).

Definition insert_values (name : string) (cols : list string) (values : list (list Cell)) : Sql unit :=
  on_table name (fun tb =>
    let? _ := require tb cols in
    Ok (with_rows tb (tb_rows tb ++ map (fun vs => new_row tb (zip cols vs)) values))).

Definition delete_where (name : string) (uses : list string) (where_ : gmap string Cell -> bool) : Sql unit :=
  on_table name (fun tb =>
    let? _ := require tb uses in
    Ok (with_rows tb (List.filter (fun r => negb (where_ r)) (tb_rows tb)))).

Definition select (name : string) (uses : list string) : Sql (list (gmap string Cell)) := fun c =>
  match c !! name with
  | None => Err (unknown_column_error name)
  | Some tb => let? _ := require tb uses in Ok (tb_rows tb, c)
  end.

Definition col_is (col : string) (c : Cell) (row : gmap string Cell) : bool := bool_decide (cell row col = c).
End Statements.

(** ** Connections *)

Class EngineExtern := {
  errors_abort : bool;
  blob_is_text : bool;
  question_marks : bool;
  ddl_commits : bool
}.

(** The connection's transaction: none, open, failed, or ended by an implicit commit
    while the program goes on in it, each statement being committed at once. *)
Inductive TxState : Type := NoTx | InTx | Aborted | Committed.

Record Conn := MkConn { cn_catalog : gmap string Table; cn_tick : nat; cn_tx : TxState }.

Inductive MigrationError : Type :=
| MigrationDbErr (e : DbErr)
| MigrationBail (msg : string)
| MigrationPanic (msg : string).

Section Connections.
Context `{SqlExtern, EngineExtern}.

Definition after_error (s : Conn) : Conn :=
  MkConn (cn_catalog s) (S (cn_tick s))
    match cn_tx s with InTx => if errors_abort then Aborted else InTx | tx => tx end.

Definition set_tx (tx : TxState) (s : Conn) : Conn := MkConn (cn_catalog s) (cn_tick s) tx.

(** The implicit commit of a statement that defines a table, before it runs. *)
Definition implicit_commit (defines : bool) (s : Conn) : Conn :=
  if defines && ddl_commits then match cn_tx s with InTx => set_tx Committed s | _ => s end else s.

Definition run_statement {A} (defines : bool) (f : Sql A) : io Conn DbErr A := fun s =>
  match cn_tx s, fault (cn_tick s) with
  | Aborted, _ => (Err (DbQuery "current transaction is aborted"), after_error s)
  | _, Some e => (Err e, after_error s)
  | _, None =>
      let s := implicit_commit defines s in
      match f (cn_catalog s) with
      | Ok (a, c) => (Ok a, MkConn c (S (cn_tick s)) (cn_tx s))
      | Err e => (Err e, after_error s)
      end
  end.

(** A statement on rows, and one that defines tables, columns or indexes *)
Definition cexec {A} (f : Sql A) : io Conn DbErr A := run_statement false f.
Definition cexec_ddl (f : Sql unit) : io Conn DbErr unit := run_statement true f.

(** [execute(..).await?] and [let _ = execute(..).await] *)
Definition sql {A} (f : Sql A) : io Conn MigrationError A := io_map_err MigrationDbErr (cexec f).
Definition ddl (f : Sql unit) : io Conn MigrationError unit := io_map_err MigrationDbErr (cexec_ddl f).
Definition ignoring {A} (f : Sql A) : io Conn MigrationError unit :=
  let! _ := io_try (cexec f) in io_ret tt.
Definition ignoring_ddl (f : Sql unit) : io Conn MigrationError unit :=
  let! _ := io_try (cexec_ddl f) in io_ret tt.

Definition cnow {E} : io Conn E NaiveDateTime := fun s => (Ok (utc_now (cn_tick s)), s).

(** [pool.begin()], the body, [commit()]; a transaction that is dropped is rolled back,
    unless an implicit commit has ended it. *)
Definition in_transaction {A} (body : io Conn MigrationError A) : io Conn MigrationError A := fun s =>
  match sql (fun c => Ok (tt, c)) s with
  | (Err e, s0) => (Err e, s0)
  | (Ok _, s0) =>
      match (let! a := body in let! _ := sql (fun c => Ok (tt, c)) in io_ret a) (set_tx InTx s0) with
      | (Ok a, s1) => (Ok a, set_tx NoTx s1)
      | (Err e, s1) =>
          (Err e, MkConn match cn_tx s1 with Committed => cn_catalog s1 | _ => cn_catalog s end
                    (S (cn_tick s1)) NoTx)
      end
  end.
End Connections.
