(* ===== verification/Migrations.v ===== *)
(** * Migrations of the database

    [crates/sql-backend-handler/src/sql_migrations.rs] and [init_table] of
    [sql_tables.rs], and the session tables of [server/src/jwt_sql_tables.rs]: creating
    the tables of version 1 and bringing a database of any version to the last one, one
    transaction per version.  What they guarantee is in [MigratedDb]. *)

From S2P Require Import Prelude Strings Types Schema SchemaManager Database Relational.

Definition LAST_SCHEMA_VERSION : Z := 12.

(** [sea_orm::DeriveActiveEnum] of [AttributeType] *)
Definition attribute_type_text (t : AttributeType) : string :=
  match t with TString => "String" | TInteger => "Integer" | TAvatar => "Avatar" | TDateTime => "DateTime" end.

(** ** Reading cells *)

Definition decode_error {A} : result DbErr A := Err (DbQuery "a column of another type").

Definition get_text (c : Cell) : result DbErr string := match c with CText s => Ok s | _ => decode_error end.
Definition get_int (c : Cell) : result DbErr Z := match c with CInt z => Ok z | _ => decode_error end.
Definition get_date (c : Cell) : result DbErr NaiveDateTime := match c with CDate d => Ok d | _ => decode_error end.
Definition get_bytes (c : Cell) : result DbErr string :=
  match c with CBlob b | CText b => Ok b | _ => decode_error end.
Definition get_option {A} (f : Cell -> result DbErr A) (c : Cell) : result DbErr (option A) :=
  match c with CNull => Ok None | _ => map_ok Some (f c) end.

Section Migrations.
Context `{Extern, SqlExtern, EngineExtern}.

(** [find_by_statement(..).all(..).await?] with the decoding of the rows *)
Definition select_all {A} (name : string) (uses : list string) (decode : gmap string Cell -> result DbErr A)
  : io Conn MigrationError (list A) :=
  let! rows := sql (select name uses) in
  io_lift (map_err MigrationDbErr (collect (map decode rows))).

Definition get_schema_version : io Conn MigrationError (option Z) :=
  let! rows := io_try (cexec (select "metadata" ["version"])) in
  io_ret match rows with
         | Ok (row :: _) => ok_option (get_int (cell row "version"))
         | _ => None
         end.

(** ** Version 1 *)

Definition users_v1 : list ColumnDef :=
  [not_null "user_id" (StringLen 255); not_null "email" (StringLen 255);
   not_null "display_name" (StringLen 255); nullable "first_name" (StringLen 255);
   nullable "last_name" (StringLen 255); nullable "avatar" BinaryCol; not_null "creation_date" DateTimeCol;
   nullable "password_hash" BlobCol; nullable "totp_secret" (StringLen 64); nullable "mfa_type" (StringLen 64);
   not_null "uuid" (StringLen 36)].

Definition groups_v1 : list ColumnDef :=
  [not_null "group_id" AutoIncrement; not_null "display_name" (StringLen 255);
   not_null "creation_date" DateTimeCol; not_null "uuid" (StringLen 36)].

Definition group_uuid (row : gmap string Cell) : result DbErr (Z * string * NaiveDateTime) :=
  let? id := get_int (cell row "group_id") in
  let? name := get_text (cell row "display_name") in
  let? date := get_date (cell row "creation_date") in
  Ok (id, name, date).

(** If the uuid column of [groups] does not exist, add it and compute the values. *)
Definition add_group_uuids : io Conn MigrationError unit :=
  let! added := io_try (cexec_ddl (add_column "groups" false
    (defaults (not_null "uuid" (StringLen 36)) (CText "")))) in
  if is_ok added then
    let! groups := select_all "groups" ["group_id"; "display_name"; "creation_date"] group_uuid in
    io_iter (fun g => sql (update "groups" ["group_id"]
      [("uuid", fun _ => CText (Uuid_from_name_and_date (snd (fst g)) (snd g)))]
      (col_is "group_id" (CInt (fst (fst g)))))) groups
  else io_ret tt.

Definition user_uuid (row : gmap string Cell) : result DbErr (string * NaiveDateTime) :=
  let? id := get_text (cell row "user_id") in
  let? date := get_date (cell row "creation_date") in
  Ok (id, date).

Definition add_user_uuids : io Conn MigrationError unit :=
  let! added := io_try (cexec_ddl (add_column "users" false
    (defaults (not_null "uuid" (StringLen 36)) (CText "")))) in
  if is_ok added then
    let! users := select_all "users" ["user_id"; "creation_date"] user_uuid in
    io_iter (fun u => sql (update "users" ["user_id"]
      [("uuid", fun _ => CText (Uuid_from_name_and_date (fst u) (snd u)))]
      (col_is "user_id" (CText (fst u))))) users
  else io_ret tt.

(** The group lldap_readonly gets its new name; the query only tells that it can run. *)
Definition rename_readonly_group : io Conn MigrationError unit :=
  let! found := io_try (cexec (select "groups" ["display_name"])) in
  if is_ok found then
    sql (update "groups" [] [("display_name", fun _ => CText "lldap_password_manager")]
           (col_is "display_name" (CText "lldap_readonly")))
  else io_ret tt.

Definition memberships_v1 : Sql unit :=
  create_table "memberships" true
    [not_null "user_id" (StringLen 255); not_null "group_id" IntegerCol] []
    [MkForeignKey "user_id" "users" "user_id"; MkForeignKey "group_id" "groups" "group_id"].

Definition start_metadata : io Conn MigrationError unit :=
  let! _ := ddl (create_table "metadata" true [nullable "version" SmallInteger] [] []) in
  let! _ := sql (insert_values "metadata" ["version"] [[CInt 1]]) in
  let! version := get_schema_version in
  match version with
  | Some 1%Z => io_ret tt
  | _ => io_fail (MigrationPanic "assertion failed: the version is not 1")
  end.

Definition upgrade_to_v1 : io Conn MigrationError unit :=
  let! _ := ignoring (fun c => Ok (tt, c)) in
  let! _ := ddl (create_table "users" true users_v1 [("primary", ["user_id"])] []) in
  let! _ := ddl (create_table "groups" true groups_v1
                   [("primary", ["group_id"]); ("display_name", ["display_name"])] []) in
  let! now := cnow in
  let! _ := ignoring_ddl (add_column "groups" false (defaults (not_null "creation_date" DateTimeCol) (CDate now))) in
  let! _ := add_group_uuids in
  let! _ := add_user_uuids in
  let! _ := ddl memberships_v1 in
  let! _ := rename_readonly_group in
  start_metadata.

(** ** Versions 2 to 4 *)

Definition replace_column (name col : string) (new_column : ColumnDef) (update_values : list (Sql unit))
  : io Conn MigrationError unit :=
  let! _ := ddl (rename_column name col "temp_name") in
  let! _ := ddl (add_column name false new_column) in
  let! _ := sql (update name ["temp_name"] [(col, fun row => cell row "temp_name")] (fun _ => true)) in
  let! _ := io_iter sql update_values in
  ddl (drop_column name "temp_name").

(** Empty strings become null. *)
Definition empty_to_null (name col : string) : Sql unit :=
  update name [] [(col, fun _ => CNull)] (col_is col (CText "")).

Definition migrate_to_v2 : io Conn MigrationError unit :=
  replace_column "users" "display_name" (nullable "display_name" (StringLen 255))
    [empty_to_null "users" "display_name"].

Definition migrate_to_v3 : io Conn MigrationError unit :=
  let! _ := replace_column "users" "first_name" (nullable "first_name" (StringLen 255))
              [empty_to_null "users" "first_name"] in
  let! _ := replace_column "users" "last_name" (nullable "last_name" (StringLen 255))
              [empty_to_null "users" "last_name"] in
  replace_column "users" "avatar" (nullable "avatar" BlobCol) [].

(** If e-mail addresses are not unique, the duplicates are looked up and logged. *)
Definition migrate_to_v4 : io Conn MigrationError unit :=
  let! emails := io_try (cexec_ddl (create_unique "unique-user-email" "users" ["email"])) in
  match emails with
  | Err e =>
      let! duplicates := io_try (cexec (select "users" ["email"; "user_id"])) in
      if is_ok duplicates then io_fail (MigrationDbErr e)
      else io_fail (MigrationPanic "Could not check duplicate users")
  | Ok _ =>
      let! _ := ddl (create_unique "unique-user-uuid" "users" ["uuid"]) in
      ddl (create_unique "unique-group-uuid" "groups" ["uuid"])
  end.

(** ** Version 5: attributes *)

(** [of_] is "user" or "group". *)
Definition attribute_schema_v5 (of_ : string) : Sql unit :=
  let p := of_ +:+ "_attribute_schema" in
  create_table p false
    [not_null (p +:+ "_name") (StringLen 64); not_null (p +:+ "_type") (StringLen 64);
     not_null (p +:+ "_is_list") BooleanCol; not_null (p +:+ "_is_" +:+ of_ +:+ "_visible") BooleanCol;
     not_null (p +:+ "_is_" +:+ of_ +:+ "_editable") BooleanCol; not_null (p +:+ "_is_hardcoded") BooleanCol]
    [("primary", [p +:+ "_name"])] [].

Definition attributes_v5 (of_ : string) (id_type : ColumnType) : Sql unit :=
  let p := of_ +:+ "_attribute" in
  create_table (p +:+ "s") false
    [not_null (p +:+ "_" +:+ of_ +:+ "_id") id_type; not_null (p +:+ "_name") (StringLen 64);
     not_null (p +:+ "_value") BlobCol]
    [("primary", [p +:+ "_" +:+ of_ +:+ "_id"; p +:+ "_name"])]
    [MkForeignKey (p +:+ "_" +:+ of_ +:+ "_id") (of_ +:+ "s") (of_ +:+ "_id");
     MkForeignKey (p +:+ "_name") (p +:+ "_schema") (p +:+ "_schema_name")].

Definition hardcoded_v5 (name : string) (t : AttributeType) : list Cell :=
  [CText name; CText (attribute_type_text t); CBool false; CBool true; CBool true; CBool true].

Definition user_attribute_columns : list string :=
  ["user_attribute_user_id"; "user_attribute_name"; "user_attribute_value"].

(** The attributes a user row of version 4 turns into. *)
Definition profile_attributes (row : gmap string Cell) : result DbErr (list (list Cell)) :=
  let? id := get_text (cell row "user_id") in
  let? first_name := get_option get_text (cell row "first_name") in
  let? last_name := get_option get_text (cell row "last_name") in
  let? avatar := get_option get_bytes (cell row "avatar") in
  let attribute name v := match v with Some b => [[CText id; CText name; CBlob b]] | None => [] end in
  Ok (attribute "first_name" first_name ++ attribute "last_name" last_name ++ attribute "avatar" avatar).

Definition copy_profiles : io Conn MigrationError unit :=
  let! values := select_all "users" ["user_id"; "first_name"; "last_name"; "avatar"] profile_attributes in
  match concat values with
  | [] => io_ret tt
  | rows => sql (insert_values "user_attributes" user_attribute_columns rows)
  end.

Definition migrate_to_v5 : io Conn MigrationError unit :=
  let! _ := ddl (attribute_schema_v5 "user") in
  let! _ := ddl (attribute_schema_v5 "group") in
  let! _ := ddl (attributes_v5 "user" (StringLen 255)) in
  let! _ := ddl (attributes_v5 "group" IntegerCol) in
  let! _ := sql (insert_values "user_attribute_schema"
    ["user_attribute_schema_name"; "user_attribute_schema_type"; "user_attribute_schema_is_list";
     "user_attribute_schema_is_user_visible"; "user_attribute_schema_is_user_editable";
     "user_attribute_schema_is_hardcoded"]
    [hardcoded_v5 "first_name" TString; hardcoded_v5 "last_name" TString; hardcoded_v5 "avatar" TAvatar]) in
  let! _ := copy_profiles in
  io_iter (fun col => ddl (drop_column "users" col)) ["first_name"; "last_name"; "avatar"].

(** ** Versions 6 to 11 *)

Definition lower_of (col : string) (row : gmap string Cell) : Cell :=
  match cell row col with CText s => CText (sql_lower s) | c => c end.

Definition migrate_to_v6 : io Conn MigrationError unit :=
  let! _ := ddl (add_column "groups" false
    (defaults (not_null "lowercase_display_name" (StringLen 255)) (CText "UNSET"))) in
  let! _ := ddl (add_column "users" false
    (defaults (not_null "lowercase_email" (StringLen 255)) (CText "UNSET"))) in
  let! _ := sql (update "groups" ["display_name"]
    [("lowercase_display_name", lower_of "display_name")] (fun _ => true)) in
  sql (update "users" ["email"] [("lowercase_email", lower_of "email")] (fun _ => true)).

Definition migrate_to_v7 : io Conn MigrationError unit :=
  let! _ := ddl (add_column "metadata" false (nullable "private_key_hash" BlobCol)) in
  ddl (add_column "metadata" false (nullable "private_key_location" (StringLen 255))).

Definition membership_of (row : gmap string Cell) : result DbErr (string * Z) :=
  let? u := get_text (cell row "user_id") in
  let? g := get_int (cell row "group_id") in
  Ok (u, g).

(** One row for each value of [key] that the rows of interest have. *)
Fixpoint one_of_each {A} `{EqDecision A} (key : gmap string Cell -> A) (of_interest : gmap string Cell -> bool)
    (seen : list A) (rows : list (gmap string Cell)) : list (gmap string Cell) :=
  match rows with
  | [] => []
  | row :: rows' =>
      if of_interest row && negb (bool_decide (key row ∈ seen))
      then row :: one_of_each key of_interest (key row :: seen) rows'
      else one_of_each key of_interest seen rows'
  end.

(** GROUP BY user_id, group_id HAVING COUNT(user_id) > 1 *)
Definition duplicated (rows : list (gmap string Cell)) : list (gmap string Cell) :=
  let pair := key_of ["user_id"; "group_id"] in
  one_of_each pair (fun row => 1 <? length (List.filter (fun r => bool_decide (pair r = pair row)) rows))%nat [] rows.

Definition deduplicate (m : string * Z) : io Conn MigrationError unit :=
  let! _ := sql (delete_where "memberships" ["user_id"; "group_id"] (fun row =>
    col_is "user_id" (CText (fst m)) row && col_is "group_id" (CInt (snd m)) row)) in
  sql (insert_values "memberships" ["user_id"; "group_id"] [[CText (fst m); CInt (snd m)]]).

Definition migrate_to_v8 : io Conn MigrationError unit :=
  let! rows := sql (select "memberships" ["user_id"; "group_id"]) in
  let! pairs := io_lift (map_err MigrationDbErr (collect (map membership_of (duplicated rows)))) in
  let! _ := io_iter deduplicate pairs in
  ddl (create_unique "unique-memberships" "memberships" ["user_id"; "group_id"]).

Definition object_classes_v9 (name : string) : Sql unit :=
  create_table name true
    [not_null "lower_object_class" (StringLen 255); not_null "object_class" (StringLen 255)]
    [("primary", ["lower_object_class"])] [].

Definition migrate_to_v9 : io Conn MigrationError unit :=
  let! _ := ddl (object_classes_v9 "user_object_classes") in
  ddl (object_classes_v9 "group_object_classes").

Definition migrate_to_v10 : io Conn MigrationError unit :=
  let! _ := ddl (create_unique "unique-group-id" "groups" ["lowercase_display_name"]) in
  ddl (create_unique "unique-user-lower-email" "users" ["lowercase_email"]).

Definition add_date (name col : string) : io Conn MigrationError unit :=
  let! now := cnow in
  ddl (add_column name false (defaults (not_null col DateTimeCol) (CDate now))).

Definition migrate_to_v11 : io Conn MigrationError unit :=
  let! _ := add_date "users" "modified_date" in
  let! _ := add_date "users" "password_modified_date" in
  add_date "groups" "modified_date".

(** ** Version 12 *)

(** A statement written with [?] *)
Definition with_placeholders {A} (f : Sql A) : Sql A := fun c =>
  if question_marks then f c else Err (DbQuery "syntax error").

Definition extension_columns (of_ : string) : io Conn MigrationError unit :=
  let p := of_ +:+ "_attribute_schema" in
  let! _ := ignoring_ddl (add_column p true (defaults (nullable "aliases" (StringLen 1024)) (CText "[]"))) in
  ignoring_ddl (add_column p true (defaults (not_null (p +:+ "_is_readonly") BooleanCol) (CBool false))).

Definition system_config_v12 : io Conn MigrationError unit :=
  let! _ := ignoring_ddl (create_table "system_config" true [not_null "key" StringCol; not_null "value" TextCol]
              [("primary", ["key"])] []) in
  ignoring (insert_values "system_config" ["key"; "value"]
              [[CText "allowedous"; CText (json_to_vec ["people"; "groups"])]]).

Definition schema_columns_v12 (of_ : string) : list string :=
  let p := of_ +:+ "_attribute_schema" in
  [p +:+ "_name"; p +:+ "_type"; p +:+ "_is_list"; p +:+ "_is_" +:+ of_ +:+ "_visible";
   p +:+ "_is_" +:+ of_ +:+ "_editable"; p +:+ "_is_hardcoded"; p +:+ "_is_readonly"; "aliases"].

Definition seed_attribute (of_ : string) (a : AttributeSchema) : io Conn MigrationError unit :=
  if as_is_hardcoded a then
    ignoring (insert_values (of_ +:+ "_attribute_schema") (schema_columns_v12 of_)
      [[CText (as_name a); CText (attribute_type_text (as_attribute_type a)); CBool (as_is_list a);
        CBool (as_is_visible a); CBool (as_is_editable a); CBool true; CBool (as_is_readonly a);
        CText (json_to_vec (as_aliases a))]])
  else io_ret tt.

Definition repair_avatar_type : Sql unit :=
  update "user_attribute_schema" ["user_attribute_schema_name"]
    [("user_attribute_schema_type", fun _ => CText (attribute_type_text TAvatar))]
    (fun row => col_is "user_attribute_schema_name" (CText "avatar") row
                && col_is "user_attribute_schema_type" (CText "JpegPhoto") row).

(** INSERT INTO [of_]_attributes SELECT id, name, value FROM [of_]s WHERE NOT EXISTS .. *)
Definition insert_missing (of_ name : string) (value : Cell) : Sql unit := fun c =>
  let p := of_ +:+ "_attribute" in
  let id := of_ +:+ "_id" in
  let p_id := p +:+ "_" +:+ id in
  let? owners := select (of_ +:+ "s") [id] c in
  let? present := select (p +:+ "s") [p_id; p +:+ "_name"] c in
  let absent row := negb (existsb (fun a => bool_decide (cell a p_id = cell row id)
                                            && col_is (p +:+ "_name") (CText name) a) (fst present)) in
  insert_values (p +:+ "s") [p_id; p +:+ "_name"; p +:+ "_value"]
    (map (fun row => [cell row id; CText name; value]) (List.filter absent (fst owners))) c.

(** A column of bytes against a text, as it is and in lower case *)
Definition text_eq (c : Cell) (t : string) : bool :=
  match c with CText s => String.eqb s t | CBlob s => blob_is_text && String.eqb s t | _ => false end.
Definition lower_eq (c : Cell) (t : string) : bool :=
  match c with CText s | CBlob s => String.eqb (sql_lower s) t | _ => false end.

Definition normalize_kerberossync : Sql unit :=
  update "user_attributes" ["user_attribute_name"] [("user_attribute_value", fun _ => CBlob "0")]
    (fun row => let v := cell row "user_attribute_value" in
       col_is "user_attribute_name" (CText "kerberossync") row
       && (text_eq v "0" || text_eq v "1" || lower_eq v "true")).

Definition default_values : io Conn MigrationError unit :=
  let! _ := ignoring (with_placeholders (insert_missing "user" "kerberossync" (CBlob "0"))) in
  let! _ := ignoring (with_placeholders normalize_kerberossync) in
  let! _ := ignoring (update "users" [] [("krb_principal_name", fun _ => CText "")]
                        (col_is "krb_principal_name" CNull)) in
  let! _ := ignoring (insert_missing "user" "ou" (CText "people")) in
  ignoring (insert_missing "group" "ou" (CText "groups")).

(** The rows stored under an alias get the canonical name; those that remain are deleted. *)
Definition normalize_alias (of_ canonical alias : string) : io Conn MigrationError unit :=
  let t := of_ +:+ "_attributes" in
  let name := of_ +:+ "_attribute_name" in
  let! _ := ignoring (with_placeholders (update t [] [(name, fun _ => CText canonical)]
              (col_is name (CText alias)))) in
  ignoring (with_placeholders (delete_where t [name] (col_is name (CText alias)))).

Definition normalize_aliases (of_ : string) (attrs : list AttributeSchema) : io Conn MigrationError unit :=
  io_iter (fun a => io_iter (normalize_alias of_ (as_name a)) (as_aliases a)) attrs.

Definition user_schema_attributes : list AttributeSchema := attributes (s_user_attributes PublicSchema_get).
Definition group_schema_attributes : list AttributeSchema := attributes (s_group_attributes PublicSchema_get).

Definition migrate_to_v12 : io Conn MigrationError unit :=
  let! _ := extension_columns "user" in
  let! _ := extension_columns "group" in
  let! _ := system_config_v12 in
  let! _ := ignoring_ddl (add_column "users" true (nullable "krb_principal_name" (StringLen 255))) in
  let! _ := io_iter (seed_attribute "user") user_schema_attributes in
  let! _ := io_iter (seed_attribute "group") group_schema_attributes in
  let! _ := ignoring repair_avatar_type in
  let! _ := default_values in
  let! _ := normalize_aliases "user" user_schema_attributes in
  normalize_aliases "group" group_schema_attributes.

(** ** All of them *)

Definition migrations : list (io Conn MigrationError unit) :=
  [migrate_to_v2; migrate_to_v3; migrate_to_v4; migrate_to_v5; migrate_to_v6; migrate_to_v7; migrate_to_v8;
   migrate_to_v9; migrate_to_v10; migrate_to_v11; migrate_to_v12].

Definition set_version (version : Z) : Sql unit :=
  update "metadata" [] [("version", fun _ => CInt version)] (fun _ => true).

Definition migrate_to (migration : Z) : io Conn MigrationError unit :=
  in_transaction
    (match migrations !! Z.to_nat (migration - 2) with
     | Some m => let! _ := m in sql (set_version migration)
     | None => io_fail (MigrationPanic "index out of bounds")
     end).

Definition migrate_from_version (version last_version : Z) : io Conn MigrationError unit :=
  if (version =? last_version)%Z then io_ret tt
  else if (last_version <? version)%Z then io_fail (MigrationBail "DB version downgrading is not supported")
  else io_iter (fun migration =>
         if ((version <? migration) && (migration <=? last_version))%Z then migrate_to migration else io_ret tt)
         (seqZ 2 (last_version - 1)).

Definition init_table : io Conn MigrationError unit :=
  let! found := get_schema_version in
  let! version := match found with
                  | Some v => io_ret v
                  | None => let! _ := upgrade_to_v1 in io_ret 1%Z
                  end in
  migrate_from_version version LAST_SCHEMA_VERSION.

(** [jwt_sql_tables::init_table] *)
Definition session_table (name key : string) (key_type : ColumnType) (extra : list ColumnDef) : Sql unit :=
  create_table name true
    ([not_null key key_type; not_null "user_id" (StringLen 255); not_null "expiry_date" DateTimeCol] ++ extra)
    [("primary", [key])] [MkForeignKey "user_id" "users" "user_id"].

Definition jwt_init_table : io Conn MigrationError unit :=
  let! _ := ddl (session_table "jwt_refresh_storage" "refresh_token_hash" BigInteger []) in
  let! _ := ddl (session_table "jwt_storage" "jwt_hash" BigInteger
                   [defaults (not_null "blacklisted" BooleanCol) (CBool false)]) in
  ddl (session_table "password_reset_tokens" "token" (StringLen 255) []).

Definition setup_sql_tables : io Conn MigrationError unit :=
  let! _ := init_table in jwt_init_table.
End Migrations.
