(* ===== verification/MigratedDb.v ===== *)
(** * What the migrations guarantee

    Theorems on [Migrations]: where the definition of a table is part of the transaction,
    an upgrade that is interrupted stops between two versions and resumes there; and
    on every engine accounts and memberships survive.  What a statement leaves
    alone is followed with [view], the cells of some columns row by row. *)

From S2P Require Import Prelude Strings Types Schema SchemaManager Database Relational Migrations.

(** ** Statements *)

Section Laws.
Context `{SqlExtern, EngineExtern}.

Lemma on_table_Ok name f c u c' :
  on_table name f c = Ok (u, c') ->
  exists tb tb', c !! name = Some tb /\ f tb = Ok tb' /\ c' = <[name := tb']> c /\ catalog_ok c' = true.
Proof.
  unfold on_table, checked. intros Hf. case_match; [|done]. apply result_bind_Ok in Hf as (tb' & Hf & Hc).
  case_match eqn:Hok; simplify_eq. eauto 10.
Qed.

(** A property of the catalog that a statement keeps. *)
Definition sql_keeps {A} (P : gmap string Table -> Prop) (f : Sql A) : Prop :=
  forall c a c', P c -> f c = Ok (a, c') -> P c'.

Definition ckeeps {E A} (P : gmap string Table -> Prop) (m : io Conn E A) : Prop :=
  forall s, P (cn_catalog s) -> P (cn_catalog (snd (m s))).

Section Keeps.
Context (P : gmap string Table -> Prop).

Lemma implicit_commit_catalog d s : cn_catalog (implicit_commit d s) = cn_catalog s.
Proof. unfold implicit_commit. by repeat case_match. Qed.

Lemma implicit_commit_tick d s : cn_tick (implicit_commit d s) = cn_tick s.
Proof. unfold implicit_commit. by repeat case_match. Qed.

Lemma statement_cases {A} d (f : Sql A) s :
  (exists a c, f (cn_catalog s) = Ok (a, c) /\ cn_tx s <> Aborted /\
     run_statement d f s = (Ok a, MkConn c (S (cn_tick s)) (cn_tx (implicit_commit d s)))) \/
  exists e s', run_statement d f s = (Err e, after_error s') /\ (s' = s \/ s' = implicit_commit d s).
Proof.
  unfold run_statement. destruct (cn_tx s) eqn:Htx; try (by right; eauto);
    (destruct (fault _); [by right; eauto|]; rewrite implicit_commit_catalog, implicit_commit_tick;
     destruct (f _) as [[a c]|e] eqn:Hf; [left; eauto 10|by right; eauto]).
Qed.

Lemma cexec_cases {A} (f : Sql A) s :
  (exists a c, f (cn_catalog s) = Ok (a, c) /\ cn_tx s <> Aborted /\
     cexec f s = (Ok a, MkConn c (S (cn_tick s)) (cn_tx s))) \/
  exists e, cexec f s = (Err e, after_error s).
Proof. destruct (statement_cases false f s) as [?|(e & s' & He & [->| ->])]; [by left|by right; eauto..]. Qed.

Lemma ckeeps_statement {A} d (f : Sql A) : sql_keeps P f -> ckeeps P (run_statement d f).
Proof.
  intros Hf s Hs. destruct (statement_cases d f s) as [(a & c & Hc & _ & ->)|(e & s' & -> & [->| ->])]; simpl;
    [by eapply Hf|done|by rewrite implicit_commit_catalog].
Qed.

Lemma ckeeps_cexec {A} (f : Sql A) : sql_keeps P f -> ckeeps P (cexec f).
Proof. apply ckeeps_statement. Qed.

Lemma ckeeps_cexec_ddl (f : Sql unit) : sql_keeps P f -> ckeeps P (cexec_ddl f).
Proof. apply ckeeps_statement. Qed.

Lemma ckeeps_map_err {E E' A} (g : E -> E') (m : io Conn E A) : ckeeps P m -> ckeeps P (io_map_err g m).
Proof. intros Hm s Hs. unfold io_map_err. specialize (Hm s Hs). by destruct (m s). Qed.

Lemma ckeeps_try {E E' A} (m : io Conn E A) : ckeeps P m -> ckeeps P (io_try (E' := E') m).
Proof. intros Hm s Hs. unfold io_try. specialize (Hm s Hs). by destruct (m s). Qed.

Lemma ckeeps_bind {E A B} (m : io Conn E A) (k : A -> io Conn E B) :
  ckeeps P m -> (forall a, ckeeps P (k a)) -> ckeeps P (io_bind m k).
Proof.
  intros Hm Hk s Hs. unfold io_bind. specialize (Hm s Hs). destruct (m s) as [[a|e] s1]; simpl in *; [|done].
  by apply Hk.
Qed.

Lemma ckeeps_iter {E A} (f : A -> io Conn E unit) l : (forall a, a ∈ l -> ckeeps P (f a)) -> ckeeps P (io_iter f l).
Proof.
  induction l as [|a l IH]; intros Hf; simpl; [by intros s|].
  apply ckeeps_bind; [apply Hf; left|intros _]. apply IH. intros b Hb. apply Hf. by right.
Qed.

Lemma ckeeps_sql {A} (f : Sql A) : sql_keeps P f -> ckeeps P (sql f).
Proof. intros Hf. by apply ckeeps_map_err, ckeeps_cexec. Qed.

Lemma ckeeps_ddl (f : Sql unit) : sql_keeps P f -> ckeeps P (ddl f).
Proof. intros Hf. by apply ckeeps_map_err, ckeeps_cexec_ddl. Qed.

Lemma ckeeps_ignoring_ddl (f : Sql unit) : sql_keeps P f -> ckeeps P (ignoring_ddl f).
Proof. intros Hf. apply ckeeps_bind; [by apply ckeeps_try, ckeeps_cexec_ddl|by intros _ s]. Qed.

Lemma ckeeps_ignoring {A} (f : Sql A) : sql_keeps P f -> ckeeps P (ignoring f).
Proof. intros Hf. apply ckeeps_bind; [by apply ckeeps_try, ckeeps_cexec|by intros _ s]. Qed.

Lemma sql_skip_catalog s : cn_catalog (snd (sql (fun c => Ok (tt, c)) s)) = cn_catalog s.
Proof.
  unfold sql, io_map_err. destruct (cexec_cases (fun c => Ok (tt, c)) s) as [(a & c & ? & _ & ->)|(e & ->)];
    by simplify_eq/=.
Qed.

Lemma in_transaction_Ok {A} (body : io Conn MigrationError A) s a s' :
  in_transaction body s = (Ok a, s') ->
  exists s0 s1, cn_catalog s0 = cn_catalog s /\ cn_tx s0 = InTx /\ body s0 = (Ok a, s1) /\
    cn_catalog s' = cn_catalog s1.
Proof.
  unfold in_transaction. intros Hb. pose proof (sql_skip_catalog s) as Hc.
  destruct (sql _ s) as [[u|e] s0]; [|done]. simpl in Hc.
  destruct (io_bind _ _ _) as [[b|e] s1] eqn:Hbb; [|done]. simplify_eq. io_inv Hbb.
  exists (set_tx InTx s0). rename s1 into s3. match goal with H : body _ = (Ok _, ?x) |- _ => exists x end.
  split_and!; [done..|]. match goal with H : sql _ ?x = (Ok _, ?y) |- _ => pose proof (sql_skip_catalog x) as Hx; rewrite H in Hx end.
  done.
Qed.

(** A transaction that fails is rolled back, unless an implicit commit ended it: then
    what its statements did, up to the one that failed, stays. *)
Lemma in_transaction_Err {A} (body : io Conn MigrationError A) s e s' :
  in_transaction body s = (Err e, s') ->
  cn_catalog s' = cn_catalog s \/
  exists s0 s1, cn_catalog s0 = cn_catalog s /\ cn_tx s0 = InTx /\ snd (body s0) = s1 /\
    cn_tx s1 = Committed /\ cn_catalog s' = cn_catalog s1.
Proof.
  unfold in_transaction. intros Hb. pose proof (sql_skip_catalog s) as Hc.
  destruct (sql _ s) as [[u|e0] s0]; simpl in Hc; [|simplify_eq; by left].
  unfold io_bind in Hb at 1. destruct (body (set_tx InTx s0)) as [[a|e1] s1] eqn:Hbody.
  - unfold io_bind, sql, io_map_err in Hb.
    destruct (cexec_cases (fun c => Ok (tt, c)) s1) as [(a' & c & _ & _ & E)|(e' & E)]; rewrite E in Hb;
      [done|]. simplify_eq/=. destruct (cn_tx s1) eqn:Htx; [by left|by left; destruct errors_abort|by left|].
    right. exists (set_tx InTx s0), s1. by rewrite Hbody.
  - simplify_eq/=. destruct (cn_tx s1) eqn:Htx; [by left..|]. right. exists (set_tx InTx s0), s1. by rewrite Hbody.
Qed.

Lemma ckeeps_transaction {A} (body : io Conn MigrationError A) : ckeeps P body -> ckeeps P (in_transaction body).
Proof.
  intros Hb s Hs. destruct (in_transaction body s) as [[a|e] s'] eqn:Ht; simpl.
  - apply in_transaction_Ok in Ht as (s0 & s1 & Hc & _ & Hbody & ->). specialize (Hb s0).
    rewrite Hbody in Hb. apply Hb. by rewrite Hc.
  - apply in_transaction_Err in Ht as [->|(s0 & s1 & Hc & _ & <- & _ & ->)]; [done|].
    apply Hb. by rewrite Hc.
Qed.
End Keeps.

(** ** Computations no implicit commit happens in *)

Definition uncommitted {E A} (m : io Conn E A) : Prop :=
  forall s, cn_tx s <> Committed -> cn_tx (snd (m s)) <> Committed.

Lemma uncommitted_statement {A} d (f : Sql A) : d && ddl_commits = false -> uncommitted (run_statement d f).
Proof.
  intros Hd s Hs. assert (implicit_commit d s = s) as Hi by (unfold implicit_commit; by rewrite Hd).
  destruct (statement_cases d f s) as [(a & c & _ & _ & ->)|(e & s' & -> & Hs')]; rewrite Hi in *; simpl; [done|].
  destruct Hs' as [->| ->]; destruct (cn_tx s); try done; by destruct errors_abort.
Qed.

Lemma uncommitted_map_err {E E' A} (g : E -> E') (m : io Conn E A) : uncommitted m -> uncommitted (io_map_err g m).
Proof. intros Hm s Hs. unfold io_map_err. specialize (Hm s Hs). by destruct (m s). Qed.

Lemma uncommitted_try {E E' A} (m : io Conn E A) : uncommitted m -> uncommitted (io_try (E' := E') m).
Proof. intros Hm s Hs. unfold io_try. specialize (Hm s Hs). by destruct (m s). Qed.

Lemma uncommitted_bind {E A B} (m : io Conn E A) (k : A -> io Conn E B) :
  uncommitted m -> (forall a, uncommitted (k a)) -> uncommitted (io_bind m k).
Proof.
  intros Hm Hk s Hs. unfold io_bind. specialize (Hm s Hs). destruct (m s) as [[a|e] s1]; simpl in *; [|done].
  by apply Hk.
Qed.

Lemma uncommitted_iter {E A} (f : A -> io Conn E unit) l : (forall a, uncommitted (f a)) -> uncommitted (io_iter f l).
Proof.
  intros Hf. induction l as [|a l IH]; simpl; [by intros s|]. by apply uncommitted_bind.
Qed.

Lemma uncommitted_sql {A} (f : Sql A) : uncommitted (sql f).
Proof. by apply uncommitted_map_err, uncommitted_statement. Qed.
End Laws.

(** Follow a computation whose statements do not commit. *)
Ltac uncommitted_step :=
  match goal with
  | |- uncommitted (io_bind _ _) => apply uncommitted_bind; [|intros ?]
  | |- uncommitted (sql _) => apply uncommitted_sql
  | |- uncommitted (ddl _) => apply uncommitted_map_err, uncommitted_statement
  | |- uncommitted (cexec _) => apply uncommitted_statement
  | |- uncommitted (cexec_ddl _) => apply uncommitted_statement
  | |- uncommitted (ignoring _) => apply uncommitted_bind; [|intros ?]
  | |- uncommitted (ignoring_ddl _) => apply uncommitted_bind; [|intros ?]
  | |- uncommitted (io_try _) => apply uncommitted_try
  | |- uncommitted (io_iter _ _) => apply uncommitted_iter; intros ?
  | |- uncommitted (match ?x with _ => _ end) => destruct x eqn:?
  | |- uncommitted _ => by intros ? ?
  end.

(** Follow a migration statement by statement. *)
Ltac ckeeps_step :=
  match goal with
  | |- ckeeps _ (io_bind _ _) => apply ckeeps_bind; [|intros ?]
  | |- ckeeps _ (sql _) => apply ckeeps_sql
  | |- ckeeps _ (ddl _) => apply ckeeps_ddl
  | |- ckeeps _ (ignoring _) => apply ckeeps_ignoring
  | |- ckeeps _ (ignoring_ddl _) => apply ckeeps_ignoring_ddl
  | |- ckeeps _ (cexec_ddl _) => apply ckeeps_cexec_ddl
  | |- ckeeps _ (cexec _) => apply ckeeps_cexec
  | |- ckeeps _ (io_try _) => apply ckeeps_try
  | |- ckeeps _ (io_map_err _ _) => apply ckeeps_map_err
  | |- ckeeps _ (io_iter _ (_ :: _)) => simpl io_iter
  | |- ckeeps _ (io_iter _ []) => by intros ? ?
  | |- ckeeps _ (io_iter _ _) => apply ckeeps_iter; intros ? ?
  | |- ckeeps _ (in_transaction _) => apply ckeeps_transaction
  | |- ckeeps _ (io_ret _) => by intros ? ?
  | |- ckeeps _ (io_fail _) => by intros ? ?
  | |- ckeeps _ (io_lift _) => by intros ? ?
  | |- ckeeps _ cnow => by intros ? ?
  | |- ckeeps _ (match ?x with _ => _ end) => destruct x eqn:?
  | |- ckeeps _ (let _ := _ in _) => cbv zeta
  end.

(** ** Columns a statement leaves alone *)

(** The cells of some columns of a table, row by row. *)
Definition view (tbl : string) (cols : list string) (c : gmap string Table) : option (list (list Cell)) :=
  (fun tb => map (key_of cols) (tb_rows tb)) <$> c !! tbl.

Definition untouched (tbl : string) (cols : list string) (name : string) (touched : list string) : bool :=
  negb (String.eqb name tbl) || forallb (fun x => negb (existsb (String.eqb x) cols)) touched.

(** Each row is changed in its place, and only in the columns [touched]. *)
Definition rewrites (touched : list string) (tb tb' : Table) : Prop :=
  exists g, tb_rows tb' = map g (tb_rows tb) /\ forall row x, x ∉ touched -> cell (g row) x = cell row x.

Lemma rewrites_id touched tb tb' : tb_rows tb' = tb_rows tb -> rewrites touched tb tb'.
Proof. intros Hr. exists id. by rewrite Hr, map_id. Qed.

Lemma cell_insert_ne row k v x : x <> k -> cell (<[k := v]> row) x = cell row x.
Proof. intros. unfold cell. by rewrite lookup_insert_ne. Qed.

Lemma cell_insert row k v : cell (<[k := v]> row) k = v.
Proof. unfold cell. by rewrite lookup_insert_eq. Qed.

Lemma cell_delete_ne row k x : x <> k -> cell (delete k row) x = cell row x.
Proof. intros. unfold cell. by rewrite lookup_delete_ne. Qed.

Lemma rewrites_key touched tb tb' cols :
  forallb (fun x => negb (existsb (String.eqb x) cols)) touched = true -> rewrites touched tb tb' ->
  map (key_of cols) (tb_rows tb') = map (key_of cols) (tb_rows tb).
Proof.
  intros Hd (g & -> & Hg). rewrite map_map. apply map_ext. intros row. unfold key_of.
  apply map_ext_in. intros x Hx%list_elem_of_In. apply Hg. intros Ht.
  rewrite forallb_Forall, Forall_forall in Hd. specialize (Hd x Ht). apply negb_true_iff in Hd.
  rewrite existsb_not_elem in Hd. specialize (Hd x Hx). by rewrite String.eqb_refl in Hd.
Qed.

Section Views.
Context `{Extern, SqlExtern, EngineExtern} (tbl : string) (cols : list string) (v : option (list (list Cell))).
Local Abbreviation Viewed := (fun c => view tbl cols c = v).

Lemma view_on_table name touched f :
  untouched tbl cols name touched = true -> (forall tb tb', f tb = Ok tb' -> rewrites touched tb tb') ->
  sql_keeps Viewed (on_table name f).
Proof.
  intros Hu Hf c u c' Hv (tb & tb' & Hl & Ht & -> & _)%on_table_Ok. unfold view in *.
  destruct (decide (name = tbl)) as [<-|Hn]; [|by rewrite lookup_insert_ne].
  rewrite lookup_insert_eq. rewrite Hl in Hv. rewrite <- Hv. simpl. f_equal. apply (rewrites_key touched); [|by apply Hf].
  unfold untouched in Hu. by rewrite String.eqb_refl in Hu.
Qed.

Lemma view_on_other name f : String.eqb name tbl = false -> sql_keeps Viewed (on_table name f).
Proof.
  intros Hn%String.eqb_neq c u c' Hv (tb & tb' & Hl & Ht & -> & _)%on_table_Ok. unfold view in *.
  by rewrite lookup_insert_ne.
Qed.

Lemma view_create_table name ine cs ks fks :
  String.eqb name tbl = false -> sql_keeps Viewed (create_table name ine cs ks fks).
Proof.
  intros Hn%String.eqb_neq c u c' Hv Hc. unfold create_table in Hc. repeat case_match; simplify_eq; try done.
  unfold view in *. by rewrite lookup_insert_ne.
Qed.

Lemma view_add_column name ine cd :
  untouched tbl cols name [cd_name cd] = true -> sql_keeps Viewed (add_column name ine cd).
Proof.
  intros Hu. apply (view_on_table _ [cd_name cd]); [done|]. intros tb tb' Hf. repeat case_match; simplify_eq.
  - by apply rewrites_id.
  - eexists. split; [done|]. intros row x Hx. apply cell_insert_ne. set_solver.
Qed.

Lemma view_rename_column name from to :
  untouched tbl cols name [from; to] = true -> sql_keeps Viewed (rename_column name from to).
Proof.
  intros Hu. apply (view_on_table _ [from; to]); [done|]. intros tb tb' Hf.
  apply result_bind_Ok in Hf as ([] & _ & Hf). case_match; simplify_eq. eexists. split; [done|].
  intros row x Hx. unfold rename_cell. rewrite cell_insert_ne, cell_delete_ne; set_solver.
Qed.

Lemma view_drop_column name col :
  untouched tbl cols name [col] = true -> sql_keeps Viewed (drop_column name col).
Proof.
  intros Hu. apply (view_on_table _ [col]); [done|]. intros tb tb' Hf.
  apply result_bind_Ok in Hf as ([] & _ & Hf). case_match; simplify_eq. eexists. split; [done|].
  intros row x Hx. apply cell_delete_ne. set_solver.
Qed.

Lemma view_create_unique index name key : sql_keeps Viewed (create_unique index name key).
Proof.
  apply (view_on_table _ []); [unfold untouched; by rewrite orb_true_r|]. intros tb tb' Hf.
  apply result_bind_Ok in Hf as ([] & _ & Hf). case_match; simplify_eq; by apply rewrites_id.
Qed.

Lemma cell_sets (sets : list (string * (gmap string Cell -> Cell))) r0 row x :
  x ∉ map fst sets -> cell (fold_right (fun sv r' => <[fst sv := snd sv r0]> r') row sets) x = cell row x.
Proof.
  induction sets as [|[k f] sets IH]; simpl; [done|]. intros Hx. rewrite cell_insert_ne; [apply IH|]; set_solver.
Qed.

Lemma update_rewrites uses (sets : list (string * (gmap string Cell -> Cell))) (wh : gmap string Cell -> bool)
    tb tb' :
  (let? _ := require tb (map fst sets ++ uses) in
   Ok (with_rows tb (map (fun r => if wh r
         then fold_right (fun sv r' => <[fst sv := snd sv r]> r') r sets else r) (tb_rows tb)))) = Ok tb' ->
  rewrites (map fst sets) tb tb'.
Proof.
  intros Hf. apply result_bind_Ok in Hf as ([] & _ & Hf). simplify_eq/=. eexists. split; [done|].
  intros row x Hx. simpl. destruct (wh row); [|done]. by apply cell_sets.
Qed.

Lemma view_update name uses sets wh :
  untouched tbl cols name (map fst sets) = true -> sql_keeps Viewed (update name uses sets wh).
Proof.
  intros Hu. apply (view_on_table _ (map fst sets)); [done|]. intros tb tb' Hf.
  by apply update_rewrites in Hf.
Qed.

Lemma view_insert_values name cs vs : String.eqb name tbl = false -> sql_keeps Viewed (insert_values name cs vs).
Proof. apply view_on_other. Qed.

Lemma view_delete_where name uses wh : String.eqb name tbl = false -> sql_keeps Viewed (delete_where name uses wh).
Proof. apply view_on_other. Qed.

Lemma keeps_select P name uses : sql_keeps P (select name uses).
Proof.
  intros c a c' Hc Hs. unfold select in Hs. case_match; [|done]. apply result_bind_Ok in Hs as ([] & _ & Hs).
  by simplify_eq.
Qed.

Lemma keeps_skip P : sql_keeps P (fun c => Ok (tt, c)).
Proof. intros c a c' Hc Hs. by simplify_eq. Qed.

Lemma keeps_placeholders {A} P (f : Sql A) : sql_keeps P f -> sql_keeps P (with_placeholders f).
Proof. intros Hf c a c' Hc Hs. unfold with_placeholders in Hs. case_match; [|done]. by eapply Hf. Qed.

Lemma keeps_insert_missing P of_ name value :
  (forall vs, sql_keeps P (insert_values ((of_ +:+ "_attribute") +:+ "s")
     [(of_ +:+ "_attribute") +:+ "_" +:+ of_ +:+ "_id"; (of_ +:+ "_attribute") +:+ "_name";
      (of_ +:+ "_attribute") +:+ "_value"] vs)) ->
  sql_keeps P (insert_missing of_ name value).
Proof.
  intros Hf c a c' Hc Hs. unfold insert_missing in Hs.
  apply result_bind_Ok in Hs as (owners & _ & Hs). apply result_bind_Ok in Hs as (present & _ & Hs).
  by eapply Hf.
Qed.
End Views.

(** Close [sql_keeps (fun c => view _ _ c = _) _] for a statement on other columns. *)
Ltac view_stmt :=
  match goal with
  | |- sql_keeps _ (create_table _ _ _ _ _) => apply view_create_table; reflexivity
  | |- sql_keeps _ (add_column _ _ _) => apply view_add_column; reflexivity
  | |- sql_keeps _ (rename_column _ _ _) => apply view_rename_column; reflexivity
  | |- sql_keeps _ (drop_column _ _) => apply view_drop_column; reflexivity
  | |- sql_keeps _ (create_unique _ _ _) => apply view_create_unique
  | |- sql_keeps _ (update _ _ _ _) => apply view_update; reflexivity
  | |- sql_keeps _ (insert_values _ _ _) => apply view_insert_values; reflexivity
  | |- sql_keeps _ (delete_where _ _ _) => apply view_delete_where; reflexivity
  | |- sql_keeps _ (select _ _) => apply keeps_select
  | |- sql_keeps _ (with_placeholders _) => apply keeps_placeholders
  | |- sql_keeps _ (insert_missing _ _ _) => apply keeps_insert_missing; intros ?
  | |- sql_keeps _ (fun c => Ok (tt, c)) => apply keeps_skip
  end.

Ltac unfold_migrations :=
  unfold migrate_to_v2, migrate_to_v3, migrate_to_v4, migrate_to_v5, migrate_to_v6, migrate_to_v7, migrate_to_v8,
    migrate_to_v9, migrate_to_v10, migrate_to_v11, migrate_to_v12, replace_column, empty_to_null, attribute_schema_v5,
    attributes_v5, copy_profiles, select_all, object_classes_v9, add_date, extension_columns, system_config_v12,
    seed_attribute, repair_avatar_type, default_values, normalize_kerberossync, normalize_aliases, normalize_alias,
    set_version, deduplicate in *.

Ltac solve_view := unfold_migrations; repeat first [ckeeps_step | view_stmt].

(** What identifies a user and a group, and lets the user in. *)
Definition user_columns : list string :=
  ["user_id"; "email"; "creation_date"; "password_hash"; "totp_secret"; "mfa_type"; "uuid"].
Definition group_columns : list string := ["group_id"; "display_name"; "creation_date"; "uuid"].

Section Preserved.
Context `{Extern, SqlExtern, EngineExtern}.

Lemma migrations_Forall (P : io Conn MigrationError unit -> Prop) :
  P migrate_to_v2 -> P migrate_to_v3 -> P migrate_to_v4 -> P migrate_to_v5 -> P migrate_to_v6 -> P migrate_to_v7 ->
  P migrate_to_v8 -> P migrate_to_v9 -> P migrate_to_v10 -> P migrate_to_v11 -> P migrate_to_v12 ->
  Forall P migrations.
Proof. intros. by repeat constructor. Qed.

Lemma migrations_keep_metadata v : Forall (ckeeps (fun c => view "metadata" [] c = v)) migrations.
Proof. apply migrations_Forall; solve_view. Qed.

Lemma migrations_keep_users v : Forall (ckeeps (fun c => view "users" user_columns c = v)) migrations.
Proof. apply migrations_Forall; solve_view. Qed.

Lemma migrations_keep_groups v : Forall (ckeeps (fun c => view "groups" group_columns c = v)) migrations.
Proof. apply migrations_Forall; solve_view. Qed.

(** Where the definition of a table is part of the transaction. *)
Lemma migrations_uncommitted : ddl_commits = false -> Forall uncommitted migrations.
Proof.
  intros Hd. assert (true && ddl_commits = false) as Ht by done.
  apply migrations_Forall; unfold_migrations; repeat first [assumption | reflexivity | uncommitted_step].
Qed.

Lemma migrate_to_Err n s e s' :
  ddl_commits = false -> migrate_to n s = (Err e, s') -> cn_catalog s' = cn_catalog s.
Proof.
  intros Hd [?|(s0 & s1 & _ & Htx & <- & Hcom & _)]%in_transaction_Err; [done|]. exfalso. revert Hcom.
  assert (cn_tx s0 <> Committed) as Hs0 by congruence. revert s0 Hs0 Htx. intros s0 Hs0 _.
  change (cn_tx (snd ((fun s => match migrations !! Z.to_nat (n - 2) with
     | Some m => let! _ := m in sql (set_version n)
     | None => io_fail (MigrationPanic "index out of bounds")
     end s) s0)) <> Committed). cbv beta.
  destruct (migrations !! _) as [m|] eqn:Hm; [|done].
  pose proof (migrations_uncommitted Hd) as Hall. rewrite Forall_lookup in Hall.
  apply uncommitted_bind; [by eapply Hall|intros _; apply uncommitted_sql|done].
Qed.
End Preserved.

(** ** An upgrade stops between two versions *)

(** The version the first row of [metadata] records. *)
Definition recorded (c : gmap string Table) : option Z :=
  match tb_rows <$> c !! "metadata" with
  | Some (row :: _) => match cell row "version" with CInt z => Some z | _ => None end
  | _ => None
  end.

Section Upgrade.
Context `{Extern, SqlExtern, EngineExtern}.

(** [upgraded v n c c']: the migrations after [v] up to [n], each committed, make [c']
    of [c]. *)
Inductive upgraded (v : Z) : Z -> gmap string Table -> gmap string Table -> Prop :=
| upgraded_none c : upgraded v v c c
| upgraded_step n c s s' :
    upgraded v n c (cn_catalog s) -> migrate_to (n + 1) s = (Ok tt, s') -> upgraded v (n + 1) c (cn_catalog s').

Lemma sql_Ok {A} (f : Sql A) s a s' :
  sql f s = (Ok a, s') -> f (cn_catalog s) = Ok (a, cn_catalog s') /\ cn_tx s' = cn_tx s.
Proof.
  unfold sql. rewrite io_map_err_Ok. destruct (cexec_cases f s) as [(b & c & Hf & _ & ->)|(e & ->)]; naive_solver.
Qed.

Lemma ddl_Ok (f : Sql unit) s a s' :
  ddl f s = (Ok a, s') ->
  f (cn_catalog s) = Ok (a, cn_catalog s') /\ cn_tx s' = cn_tx (implicit_commit true s).
Proof.
  unfold ddl, cexec_ddl. rewrite io_map_err_Ok.
  destruct (statement_cases true f s) as [(b & c & Hf & _ & ->)|(e & s0 & -> & _)]; naive_solver.
Qed.

Lemma recorded_view c n : recorded c = Some n -> exists l, view "metadata" [] c = Some ([] :: l).
Proof. unfold recorded, view. destruct (c !! "metadata") as [[? ? ? [|row l]]|]; simpl; [done| |done]. eauto. Qed.

Lemma set_version_recorded n c u c' l :
  set_version n c = Ok (u, c') -> view "metadata" [] c = Some ([] :: l) -> recorded c' = Some n.
Proof.
  intros (tb & tb' & Hl & Hf & -> & _)%on_table_Ok Hv. apply result_bind_Ok in Hf as ([] & _ & Hf). simplify_eq.
  unfold view, recorded in *. rewrite lookup_insert_eq. rewrite Hl in Hv. simpl in *.
  destruct (tb_rows tb) as [|row rows]; simplify_eq/=. by rewrite cell_insert.
Qed.

Lemma migrate_to_recorded n s s' m :
  migrate_to n s = (Ok tt, s') -> recorded (cn_catalog s) = Some m -> recorded (cn_catalog s') = Some n.
Proof.
  intros (s0 & s1 & Hc & _ & Hb & ->)%in_transaction_Ok (l & Hl)%recorded_view. case_match eqn:Hm; [|done]. io_inv Hb.
  apply sql_Ok in Hb as [Hb _]. apply (set_version_recorded _ _ _ _ l Hb).
  pose proof (migrations_keep_metadata (Some ([] :: l))) as Hk. rewrite Forall_lookup in Hk. specialize (Hk _ _ Hm s0).
  match goal with H : _ s0 = (Ok _, _) |- _ => rewrite H in Hk end. apply Hk. by rewrite Hc.
Qed.

Lemma io_iter_app {S E A} (f : A -> io S E unit) l1 l2 (s : S) :
  io_iter f (l1 ++ l2) s = (let! _ := io_iter f l1 in io_iter f l2) s.
Proof.
  revert s. induction l1 as [|a l1 IH]; intros s; simpl; [done|]. unfold io_bind in *.
  destruct (f a s) as [[]]; [apply IH|done].
Qed.

Lemma io_iter_skip {S E A} (f : A -> io S E unit) l (s : S) :
  (forall a, a ∈ l -> f a = io_ret tt) -> io_iter f l s = (Ok tt, s).
Proof.
  induction l as [|a l IH]; intros Hf; simpl; [done|]. unfold io_bind. rewrite (Hf a ltac:(left)). simpl.
  apply IH. intros b Hb. apply Hf. by right.
Qed.

Lemma io_iter_ext {S E A} (f g : A -> io S E unit) l (s : S) :
  (forall a, a ∈ l -> f a = g a) -> io_iter f l s = io_iter g l s.
Proof.
  revert s. induction l as [|a l IH]; intros s Hf; simpl; [done|]. unfold io_bind. rewrite (Hf a ltac:(left)).
  destruct (g a s) as [[] s1]; [|done]. apply IH. intros b Hb. apply Hf. by right.
Qed.

(** Only the migrations after the version of the database run. *)
Lemma migrate_from_version_run v last s :
  (1 <= v <= last)%Z -> migrate_from_version v last s = io_iter migrate_to (seqZ (v + 1) (last - v)) s.
Proof.
  intros Hv. unfold migrate_from_version. destruct (Z.eqb_spec v last) as [->|Hne].
  { by rewrite Z.sub_diag. }
  destruct (Z.ltb_spec last v); [lia|]. replace (last - 1)%Z with ((v - 1) + (last - v))%Z by lia.
  rewrite seqZ_app by lia. replace (2 + (v - 1))%Z with (v + 1)%Z by lia. rewrite io_iter_app. unfold io_bind.
  rewrite io_iter_skip.
  - apply io_iter_ext. intros n Hn%elem_of_seqZ. destruct (Z.ltb_spec v n), (Z.leb_spec n last); done || lia.
  - intros n Hn%elem_of_seqZ. destruct (Z.ltb_spec v n); [lia|done].
Qed.

Lemma migrate_run v n (k : nat) c s r s' :
  ddl_commits = false -> upgraded v n c (cn_catalog s) -> recorded (cn_catalog s) = Some n ->
  io_iter migrate_to (seqZ (n + 1) (Z.of_nat k)) s = (r, s') ->
  exists j, (n <= j <= n + Z.of_nat k)%Z /\ upgraded v j c (cn_catalog s') /\
    recorded (cn_catalog s') = Some j /\ (is_ok r = true <-> j = (n + Z.of_nat k)%Z).
Proof.
  intros Hd. revert n s. induction k as [|k IH]; intros n s Hup Hrec Hrun.
  - simpl in Hrun. unfold io_ret in Hrun. simplify_eq. exists n. split_and!; [lia|lia|done..|]. simpl. split; [lia|done].
  - rewrite seqZ_cons in Hrun by lia. simpl in Hrun. unfold io_bind in Hrun.
    destruct (migrate_to (n + 1) s) as [[[]|e] s1] eqn:Hm.
    + replace (Z.succ (n + 1)) with ((n + 1) + 1)%Z in Hrun by lia.
      replace (Z.pred (Z.of_nat (S k))) with (Z.of_nat k) in Hrun by lia.
      apply IH in Hrun as (j & Hj & ? & ? & Hr); [|by eapply upgraded_step|by eapply migrate_to_recorded].
      exists j. split_and!; [lia|lia|done..|]. rewrite Hr. lia.
    + simplify_eq. apply migrate_to_Err in Hm; [|done]. exists n. rewrite Hm. split_and!; [lia|lia|done..|].
      simpl. split; [done|lia].
Qed.

(** C8: on an engine where the definition of a table is part of the transaction (SQLite,
    PostgreSQL), an upgrade stops between two versions, wherever it fails: the database is then
    exactly what the completed migrations made of it, its recorded version says how
    far they got, and the upgrade has succeeded exactly when that is the last version;
    so the next start resumes where this one stopped. *)
Theorem interrupted_upgrade_resumes v last s r s' :
  ddl_commits = false ->
  (1 <= v <= last)%Z -> recorded (cn_catalog s) = Some v -> migrate_from_version v last s = (r, s') ->
  exists n, (v <= n <= last)%Z /\ upgraded v n (cn_catalog s) (cn_catalog s') /\
    recorded (cn_catalog s') = Some n /\ (is_ok r = true <-> n = last).
Proof.
  intros Hd Hv Hrec Hrun. rewrite migrate_from_version_run in Hrun by done.
  rewrite <- (Z2Nat.id (last - v)) in Hrun by lia.
  apply (migrate_run v _ _ (cn_catalog s)) in Hrun as (j & Hj & Hup & Hr & Hok); [|done|constructor|done].
  exists j. rewrite Z2Nat.id in * by lia. split_and!; [lia|lia|done..|]. rewrite Hok. lia.
Qed.
End Upgrade.

(** ** Accounts survive *)

Section Accounts.
Context `{Extern, SqlExtern, EngineExtern}.

Definition pair_columns : list string := ["user_id"; "group_id"].

(** The membership is in the table, once or several times. *)
Definition is_membership (c : gmap string Table) (p : list Cell) : Prop :=
  exists tb, c !! "memberships" = Some tb /\ p ∈ map (key_of pair_columns) (tb_rows tb).

Lemma is_membership_view c p :
  is_membership c p <-> exists l, view "memberships" pair_columns c = Some l /\ p ∈ l.
Proof. unfold is_membership, view. destruct (c !! "memberships"); naive_solver. Qed.

Lemma require_has tb cols x : require tb cols = Ok tt -> x ∈ cols -> has_column tb x = true.
Proof.
  unfold require. case_match eqn:Hf; [done|]. intros _ Hx%list_elem_of_In.
  by apply (find_none _ _ Hf), negb_false_iff in Hx.
Qed.

Lemma cell_new_row tb given x v :
  NoDup (map fst given) -> (x, v) ∈ given -> cell (new_row tb given) x = v.
Proof.
  intros Hn Hx. unfold cell, new_row. rewrite lookup_union.
  rewrite (elem_of_list_to_map_1 given x v) by done. by destruct (list_to_map _ !! x).
Qed.

Lemma new_membership tb u g :
  key_of pair_columns (new_row tb [("user_id", u); ("group_id", g)]) = [u; g].
Proof.
  unfold key_of, pair_columns. cbn [map]. f_equal; [|f_equal];
    (apply cell_new_row; [apply (bool_decide_unpack _); exact I|set_solver]).
Qed.

(** Deleting a pair and inserting it leaves the set of memberships. *)
Lemma deduplicate_memberships m s s' p :
  deduplicate m s = (Ok tt, s') -> is_membership (cn_catalog s) [CText (fst m); CInt (snd m)] ->
  is_membership (cn_catalog s') p <-> is_membership (cn_catalog s) p.
Proof.
  unfold deduplicate. intros Hd Hm. io_inv Hd. destruct a. apply sql_Ok in Hm0 as [Hdel _]. apply sql_Ok in Hd as [Hins _].
  apply on_table_Ok in Hdel as (tb & tb1 & Hl & Hf & Hc1 & _). apply result_bind_Ok in Hf as ([] & _ & Hf).
  apply on_table_Ok in Hins as (tb1' & tb2 & Hl1 & Hf2 & Hc2 & _). apply result_bind_Ok in Hf2 as ([] & _ & Hf2).
  rewrite Hc1, lookup_insert_eq in Hl1. simplify_eq/=.
  assert (forall q, is_membership (cn_catalog s) q <-> q ∈ map (key_of pair_columns) (tb_rows tb)) as Hs.
  { intros q. unfold is_membership. rewrite Hl. naive_solver. }
  rewrite Hs in *. unfold is_membership. rewrite Hc2, lookup_insert_eq. simpl. split.
  - intros (tb' & [= <-] & Hp). simpl in Hp. rewrite map_app, elem_of_app in Hp. destruct Hp as [Hp|Hp].
    + apply list_elem_of_fmap in Hp as (row & -> & Hrow). apply list_elem_of_In, filter_In in Hrow as [Hrow _].
      apply list_elem_of_fmap. exists row. split; [done|]. by apply list_elem_of_In.
    + simpl in Hp. rewrite new_membership in Hp. by apply list_elem_of_singleton in Hp as ->.
  - intros Hp. eexists. split; [done|]. simpl. rewrite map_app, elem_of_app.
    destruct (decide (p = [CText m.1; CInt m.2])) as [->|Hne].
    { right. simpl. rewrite new_membership. by apply list_elem_of_singleton. }
    left. apply list_elem_of_fmap in Hp as (row & -> & Hrow). apply list_elem_of_fmap. exists row. split; [done|].
    apply list_elem_of_In, filter_In. split; [by apply list_elem_of_In|]. apply negb_true_iff, andb_false_iff.
    destruct (col_is "user_id" _ row) eqn:E1; [|by left]. right. apply bool_decide_eq_false. intros E2.
    apply bool_decide_eq_true in E1. apply Hne. unfold key_of, pair_columns. simpl. by rewrite E1, E2.
Qed.

Lemma duplicated_subset rows row : row ∈ duplicated rows -> row ∈ rows.
Proof.
  unfold duplicated. cbv zeta. generalize (@nil (list Cell)) as seen.
  generalize (fun row0 => 1 <? length (List.filter (fun r => bool_decide
    (key_of ["user_id"; "group_id"] r = key_of ["user_id"; "group_id"] row0)) rows))%nat as many.
  intros many. induction rows as [|r rows IH]; intros seen Hr; simpl in Hr; [done|].
  case_match; [apply elem_of_cons in Hr as [->|Hr]; [left|]|]; right; eauto.
Qed.

Lemma deduplicate_all pairs s s' p :
  io_iter deduplicate pairs s = (Ok tt, s') ->
  (forall m, m ∈ pairs -> is_membership (cn_catalog s) [CText (fst m); CInt (snd m)]) ->
  is_membership (cn_catalog s') p <-> is_membership (cn_catalog s) p.
Proof.
  revert s. induction pairs as [|m pairs IH]; intros s Hd Hm; simpl in Hd; [by io_inv Hd|]. io_inv Hd.
  destruct a. rewrite (IH _ Hd).
  - eapply deduplicate_memberships; [done|]. apply Hm. left.
  - intros m' Hm'. eapply deduplicate_memberships; [done|apply Hm; left|]. apply Hm. by right.
Qed.

(** Version 8 deletes and inserts before its only implicit commit. *)
Lemma v8_memberships s r s' p :
  cn_tx s = InTx -> migrate_to_v8 s = (r, s') -> r = Ok tt \/ cn_tx s' = Committed ->
  is_membership (cn_catalog s') p <-> is_membership (cn_catalog s) p.
Proof.
  unfold migrate_to_v8. intros Htx Hm Hend.
  set (prefix := let! rows := sql (select "memberships" ["user_id"; "group_id"]) in
    let! pairs := io_lift (map_err MigrationDbErr (collect (map membership_of (duplicated rows)))) in
    io_iter deduplicate pairs).
  assert (uncommitted prefix) as Hu by (unfold prefix, deduplicate; repeat uncommitted_step).
  specialize (Hu s ltac:(congruence)).
  assert ((let! _ := prefix in ddl (create_unique "unique-memberships" "memberships" pair_columns)) s = (r, s')) as Hm'.
  { rewrite <- Hm. unfold prefix, io_bind. by repeat case_match; simplify_eq. }
  clear Hm. unfold io_bind at 1 in Hm'. destruct (prefix s) as [[[]|e] s2] eqn:Hp; cycle 1.
  { simplify_eq. simpl in Hu. by destruct Hend. }
  pose proof (ckeeps_ddl (fun c => view "memberships" pair_columns c = view "memberships" pair_columns (cn_catalog s2))
    (create_unique "unique-memberships" "memberships" pair_columns)) as Hk.
  specialize (Hk (view_create_unique _ _ _ _ _ _) s2 eq_refl).
  rewrite Hm' in Hk. simpl in Hk. rewrite is_membership_view, Hk, <- is_membership_view. clear -Hp.
  unfold prefix in Hp. io_inv Hp. apply sql_Ok in Hm as [Hsel _].
  match goal with H : select _ _ (cn_catalog s) = Ok (_, cn_catalog ?x) |- _ => assert (cn_catalog x = cn_catalog s) as Hc end.
  { symmetry. by eapply (keeps_select (fun c => cn_catalog s = c)). }
  rewrite <- Hc. eapply deduplicate_all; [done|]. intros m Hin.
  match goal with H : map_err _ _ = Ok _ |- _ => apply map_err_Ok, collect_map_Ok in H as Hdec end.
  apply list_elem_of_lookup in Hin as (i & Hi). destruct (Forall2_lookup_r _ _ _ _ _ Hdec Hi) as (row & Hrow & Hd).
  apply list_elem_of_lookup_2, duplicated_subset in Hrow.
  unfold select in Hsel. case_match eqn:Hl; [|done]. apply result_bind_Ok in Hsel as ([] & _ & Hsel). simplify_eq.
  rewrite Hc. eexists. split; [done|]. apply list_elem_of_fmap. exists row. split; [|done].
  unfold membership_of, get_text, get_int in Hd. unfold key_of, pair_columns. cbn [map].
  destruct (cell row "user_id") eqn:E1; try done. simpl in Hd. destruct (cell row "group_id") eqn:E2; try done.
  by simplify_eq/=.
Qed.

(** Same identities, passwords and memberships. *)
Record same_accounts (c c' : gmap string Table) : Prop := {
  same_users : view "users" user_columns c' = view "users" user_columns c;
  same_groups : view "groups" group_columns c' = view "groups" group_columns c;
  same_memberships p : is_membership c' p <-> is_membership c p
}.

#[export] Instance same_accounts_preorder : PreOrder same_accounts.
Proof.
  split; [by constructor|]. intros c1 c2 c3 [Hu Hg Hm] [Hu' Hg' Hm']. constructor; [congruence..|].
  intros p. by rewrite Hm', Hm.
Qed.

(** What the migration of a transaction did counts if it succeeded or if an implicit
    commit made it permanent. *)
Definition membership_safe (m : io Conn MigrationError unit) : Prop :=
  forall s r s', cn_tx s = InTx -> m s = (r, s') -> r = Ok tt \/ cn_tx s' = Committed ->
  forall p, is_membership (cn_catalog s') p <-> is_membership (cn_catalog s) p.

Lemma keeps_memberships (m : io Conn MigrationError unit) :
  (forall v, ckeeps (fun c => view "memberships" pair_columns c = v) m) -> membership_safe m.
Proof.
  intros Hk s r s' _ Hm _ p. specialize (Hk _ s eq_refl). rewrite Hm in Hk. simpl in Hk.
  by rewrite !is_membership_view, Hk.
Qed.

Lemma migrations_keep_memberships : Forall membership_safe migrations.
Proof.
  apply migrations_Forall; try (apply keeps_memberships; intros v; solve_view; fail).
  intros s r s' Htx Hm Hend p. by eapply v8_memberships.
Qed.

Lemma set_version_view n c u c' tbl cols :
  String.eqb "metadata" tbl = false -> set_version n c = Ok (u, c') -> view tbl cols c' = view tbl cols c.
Proof. intros Hn Hs. by eapply (view_on_other tbl cols _ "metadata"). Qed.

Lemma set_version_accounts n s : same_accounts (cn_catalog s) (cn_catalog (snd (sql (set_version n) s))).
Proof.
  assert (forall tbl cols, String.eqb "metadata" tbl = false ->
    view tbl cols (cn_catalog (snd (sql (set_version n) s))) = view tbl cols (cn_catalog s)) as Hv.
  { intros tbl cols Hn. apply (ckeeps_sql (fun c => view tbl cols c = view tbl cols (cn_catalog s))); [|done].
    intros c u c' <- Hs. by eapply set_version_view. }
  constructor; [by apply Hv..|]. intros p. by rewrite !is_membership_view, Hv.
Qed.

Lemma migration_accounts m s r s' :
  m ∈ migrations -> cn_tx s = InTx -> m s = (r, s') -> r = Ok tt \/ cn_tx s' = Committed ->
  same_accounts (cn_catalog s) (cn_catalog s').
Proof.
  intros Hl Htx Hm Hend. pose proof (migrations_keep_users (view "users" user_columns (cn_catalog s))) as Hu.
  pose proof (migrations_keep_groups (view "groups" group_columns (cn_catalog s))) as Hg.
  rewrite Forall_forall in Hu, Hg. specialize (Hu _ Hl s eq_refl). specialize (Hg _ Hl s eq_refl).
  rewrite Hm in Hu, Hg. constructor; [done..|]. intros p.
  pose proof migrations_keep_memberships as Hk. rewrite Forall_forall in Hk. by eapply Hk.
Qed.

Lemma body_accounts n s r s' :
  cn_tx s = InTx ->
  match migrations !! Z.to_nat (n - 2) with
  | Some m => let! _ := m in sql (set_version n)
  | None => io_fail (MigrationPanic "index out of bounds")
  end s = (r, s') -> r = Ok tt \/ cn_tx s' = Committed -> same_accounts (cn_catalog s) (cn_catalog s').
Proof.
  intros Htx. destruct (migrations !! _) as [m|] eqn:Hl; [|intros [= <- <-] [?|?]; [done|congruence]].
  apply list_elem_of_lookup_2 in Hl. unfold io_bind. destruct (m s) as [[[]|e] s1] eqn:Hm; intros Hr Hend.
  - transitivity (cn_catalog s1); [eapply migration_accounts; eauto|].
    pose proof (set_version_accounts n s1) as Hv. by rewrite Hr in Hv.
  - simplify_eq. eapply migration_accounts; eauto.
Qed.

Lemma migrate_to_accounts n s r s' :
  migrate_to n s = (r, s') -> same_accounts (cn_catalog s) (cn_catalog s').
Proof.
  intros Hm. destruct r as [[]|e].
  - apply in_transaction_Ok in Hm as (s0 & s1 & <- & Htx & Hb & ->). eapply body_accounts; eauto.
  - apply in_transaction_Err in Hm as [->|(s0 & s1 & <- & Htx & Hb & Hc & ->)]; [done|].
    destruct (match migrations !! Z.to_nat (n - 2) with
      | Some m => let! _ := m in sql (set_version n)
      | None => io_fail (MigrationPanic "index out of bounds") end s0) as [r s2] eqn:Hrun.
    simpl in Hb. subst s2. eapply body_accounts; eauto.
Qed.

(** C9: no upgrade, complete or interrupted, loses an account: the users keep their
    identifiers, e-mail addresses, passwords, second factors, creation dates and UUIDs,
    the groups their identifiers, names, dates and UUIDs, and exactly the memberships
    there were remain. *)
Theorem upgrade_keeps_accounts v last s r s' :
  (1 <= v <= last)%Z -> migrate_from_version v last s = (r, s') -> same_accounts (cn_catalog s) (cn_catalog s').
Proof.
  intros Hv. rewrite migrate_from_version_run by done. generalize (seqZ (v + 1) (last - v)) as l.
  intros l. revert s. induction l as [|n l IH]; intros s Hrun; simpl in Hrun.
  { unfold io_ret in Hrun. by simplify_eq. }
  unfold io_bind in Hrun. destruct (migrate_to n s) as [[[]|e] s1] eqn:Hm; apply migrate_to_accounts in Hm.
  - etransitivity; [done|]. by apply IH.
  - by simplify_eq.
Qed.
End Accounts.
