(* ===== verification/MigratedTables.v ===== *)
(** * The tables of a migrated database

    The definitions of the tables are followed through the migrations, and the rows of
    the last version are read as the tables of [Database]: whatever the rows are, their
    integrity holds, from which the theorems on the SQL backend start. *)

From S2P Require Import Prelude Strings Types Schema SchemaManager Database SqlConfig SqlGroups SqlUsers SqlOps SqlLists.
From S2P Require Import Relational Migrations MigratedDb.

(** ** Definitions of tables *)

Definition strip (tb : Table) : Table :=
  MkTable (map (fun cd => MkColumnDef (cd_name cd) (cd_type cd) (cd_not_null cd) None) (tb_columns tb))
    (tb_keys tb) (tb_foreign_keys tb) [].

(** The tables without their rows and default values. *)
Definition shape (c : gmap string Table) : gmap string Table := strip <$> c.

Lemma strip_idem tb : strip (strip tb) = strip tb.
Proof. unfold strip. simpl. by rewrite map_map. Qed.

Lemma shape_idem c : shape (shape c) = shape c.
Proof. unfold shape. rewrite <- map_fmap_compose. apply map_fmap_ext. intros. apply strip_idem. Qed.

Lemma has_column_strip tb x : has_column (strip tb) x = has_column tb x.
Proof. unfold has_column, strip. simpl. induction (tb_columns tb); simpl; [done|]. by f_equal. Qed.

Lemma catalog_ok_empty (c : gmap string Table) :
  (forall k tb, c !! k = Some tb -> tb_rows tb = []) -> catalog_ok c = true.
Proof.
  intros He. apply forallb_Forall, Forall_forall. intros [k tb] Hk%elem_of_map_to_list. simpl.
  unfold table_ok. rewrite (He k tb Hk). simpl.
  by rewrite !(proj2 (forallb_forall _ _)) by (intros; vm_compute; done || (apply bool_decide_eq_true; constructor)).
Qed.

Section Shapes.
Context `{Extern, SqlExtern, EngineExtern}.

Lemma require_strip tb cols : require (strip tb) cols = require tb cols.
Proof.
  unfold require. induction cols as [|x cols IH]; simpl; [done|]. rewrite has_column_strip. by destruct (has_column tb x).
Qed.

(** The definitions after a statement, from those before: the statement runs on the
    empty tables. *)
Definition reshape (f : Sql unit) (sh : gmap string Table) : gmap string Table :=
  match f sh with Ok (_, c) => shape c | Err _ => sh end.

Definition shaped (f : Sql unit) : Prop := forall c u c', f c = Ok (u, c') -> shape c' = reshape f (shape c).
Definition keeps_shape {A} (f : Sql A) : Prop := forall c a c', f c = Ok (a, c') -> shape c' = shape c.

Lemma shaped_on_table name f :
  (forall tb tb', f tb = Ok tb' -> exists tb'', f (strip tb) = Ok tb'' /\ strip tb'' = strip tb' /\ tb_rows tb'' = []) ->
  shaped (on_table name f).
Proof.
  intros Hf c u c' (tb & tb' & Hl & Ht & -> & _)%on_table_Ok. destruct (Hf _ _ Ht) as (tb'' & Ht'' & Hs & Hr).
  unfold reshape, on_table. unfold shape at 2. rewrite lookup_fmap, Hl. simpl. rewrite Ht''. simpl. unfold checked.
  rewrite catalog_ok_empty.
  - unfold shape. by rewrite !fmap_insert, Hs, <- map_fmap_compose, (map_fmap_ext _ strip c (fun _ _ _ => strip_idem _)).
  - intros k t Hk. destruct (decide (k = name)) as [->|Hn]; [by rewrite lookup_insert_eq in Hk; simplify_eq|].
    rewrite lookup_insert_ne in Hk by done. unfold shape in Hk. apply lookup_fmap_Some in Hk as (? & <- & _). done.
Qed.

Lemma keeps_shape_on_table name f :
  (forall tb tb', f tb = Ok tb' -> exists rows, tb' = with_rows tb rows) -> keeps_shape (on_table name f).
Proof.
  intros Hf c u c' (tb & tb' & Hl & Ht & -> & _)%on_table_Ok. destruct (Hf _ _ Ht) as (rows & ->).
  unfold shape. rewrite fmap_insert. apply insert_id. by rewrite lookup_fmap, Hl.
Qed.

Lemma shaped_create_table name ine cs ks fks : shaped (create_table name ine cs ks fks).
Proof.
  intros c u c' Hc. unfold reshape, create_table in *. unfold shape at 2. rewrite lookup_fmap.
  destruct (c !! name); simpl; [destruct ine; simplify_eq; by rewrite shape_idem|]. simplify_eq.
  change (strip <$> c) with (shape c). unfold shape at 1 2. rewrite !fmap_insert. f_equal.
  change (shape c = shape (shape c)). by rewrite shape_idem.
Qed.

Lemma shaped_add_column name ine cd : shaped (add_column name ine cd).
Proof.
  apply shaped_on_table. intros tb tb' Hf. rewrite has_column_strip. case_match; [destruct ine|]; simplify_eq.
  - exists (strip tb'). by rewrite strip_idem.
  - eexists. split; [done|]. split; [|done]. unfold strip. simpl. by rewrite !map_app, map_map.
Qed.

Lemma shaped_rename_column name from to : shaped (rename_column name from to).
Proof.
  apply shaped_on_table. intros tb tb' Hf. rewrite require_strip, has_column_strip.
  apply result_bind_Ok in Hf as ([] & -> & Hf). simpl. case_match; [done|]. simplify_eq.
  eexists. split; [done|]. split; [|done]. unfold strip. simpl. by rewrite !map_map.
Qed.

Lemma shaped_drop_column name col : shaped (drop_column name col).
Proof.
  apply shaped_on_table. intros tb tb' Hf. rewrite require_strip. apply result_bind_Ok in Hf as ([] & -> & Hf). simpl.
  case_match; [done|]. simplify_eq. eexists. split; [done|]. split; [|done]. unfold strip. simpl. f_equal.
  induction (tb_columns tb) as [|cd cs IH]; simpl; [done|]. destruct (String.eqb (cd_name cd) col); simpl; by rewrite ?IH.
Qed.

Lemma shaped_create_unique index name key : shaped (create_unique index name key).
Proof.
  apply shaped_on_table. intros tb tb' Hf. rewrite require_strip. apply result_bind_Ok in Hf as ([] & -> & Hf). simpl.
  case_match; simplify_eq; eexists; (split; [done|]); (split; [|done]); unfold strip; simpl; by rewrite map_map.
Qed.

Lemma keeps_shape_update name uses sets wh : keeps_shape (update name uses sets wh).
Proof. apply keeps_shape_on_table. intros tb tb' Hf. apply result_bind_Ok in Hf as ([] & _ & Hf). simplify_eq. eauto. Qed.

Lemma keeps_shape_insert_values name cs vs : keeps_shape (insert_values name cs vs).
Proof. apply keeps_shape_on_table. intros tb tb' Hf. apply result_bind_Ok in Hf as ([] & _ & Hf). simplify_eq. eauto. Qed.

Lemma keeps_shape_delete_where name uses wh : keeps_shape (delete_where name uses wh).
Proof. apply keeps_shape_on_table. intros tb tb' Hf. apply result_bind_Ok in Hf as ([] & _ & Hf). simplify_eq. eauto. Qed.

Lemma keeps_shape_select name uses : keeps_shape (select name uses).
Proof.
  intros c a c' Hs. unfold select in Hs. case_match; [|done]. apply result_bind_Ok in Hs as ([] & _ & Hs). by simplify_eq.
Qed.
End Shapes.

(** ** Migrations on definitions *)

Section Reach.
Context `{Extern, SqlExtern, EngineExtern}.

(** From tables defined as [sh], [m] makes tables defined as [sh'] if it succeeds. *)
Definition sreach {A} (sh : gmap string Table) (m : io Conn MigrationError A) (sh' : gmap string Table) : Prop :=
  forall s a s', shape (cn_catalog s) = sh -> m s = (Ok a, s') -> shape (cn_catalog s') = sh'.

Lemma sreach_bind {A B} sh sh1 sh2 (m : io Conn MigrationError A) (k : A -> io Conn MigrationError B) :
  sreach sh m sh1 -> (forall a, sreach sh1 (k a) sh2) -> sreach sh (io_bind m k) sh2.
Proof. intros Hm Hk s b s' Hs Hb. io_inv Hb. eapply Hk; [by eapply Hm|done]. Qed.

Lemma sreach_ret {A} sh sh' (a : A) : sh = sh' -> sreach sh (io_ret a) sh'.
Proof. intros <- s b s' Hs Hb. by io_inv Hb. Qed.

Lemma sreach_lift {A} sh (r : result MigrationError A) : sreach sh (io_lift r) sh.
Proof. intros s b s' Hs Hb. by io_inv Hb. Qed.

Lemma sreach_fail {A} sh sh' e : sreach sh (io_fail (A := A) e) sh'.
Proof. by intros s b s' Hs Hb. Qed.

Lemma sreach_ddl sh sh' (f : Sql unit) : shaped f -> reshape f sh = sh' -> sreach sh (ddl f) sh'.
Proof. intros Hf <- s a s' <- [Hs _]%ddl_Ok. by eapply Hf. Qed.

Lemma sreach_dml {A} sh sh' (f : Sql A) : keeps_shape f -> sh = sh' -> sreach sh (sql f) sh'.
Proof. intros Hf <- s a s' <- [Hs _]%sql_Ok. by eapply Hf. Qed.

Lemma sreach_iter {A} sh (f : A -> io Conn MigrationError unit) l :
  (forall a, sreach sh (f a) sh) -> sreach sh (io_iter f l) sh.
Proof. intros Hf. induction l as [|a l IH]; simpl; [by apply sreach_ret|]. eapply sreach_bind; [apply Hf|by intros _]. Qed.

(** [match execute(..).await] *)
Lemma sreach_try {B} sh sh' (f : Sql unit) (k : result DbErr unit -> io Conn MigrationError B) :
  shaped f -> (forall u, sreach (reshape f sh) (k (Ok u)) sh') -> (forall e, sreach sh (k (Err e)) sh') ->
  sreach sh (io_bind (io_try (cexec_ddl f)) k) sh'.
Proof.
  intros Hf Hok Herr s b s' Hs Hb. apply io_bind_Ok in Hb as (r & s1 & Ht & Hb). unfold io_try in Ht.
  unfold cexec_ddl in Ht.
  destruct (statement_cases true f s) as [(u & c & Hc & _ & He)|(e & s2 & He & Hs2)]; rewrite He in Ht; simplify_eq.
  - eapply (Hok u); [|exact Hb]. simpl. by eapply Hf.
  - eapply (Herr _ (after_error s2)); [|exact Hb]. destruct Hs2 as [->| ->]; simpl; by rewrite ?implicit_commit_catalog.
Qed.

Lemma sreach_try_read {A B} sh sh' (f : Sql A) (k : result DbErr A -> io Conn MigrationError B) :
  keeps_shape f -> (forall r, sreach sh (k r) sh') -> sreach sh (io_bind (io_try (cexec f)) k) sh'.
Proof.
  intros Hf Hk s b s' <- Hb. apply io_bind_Ok in Hb as (r & s1 & Ht & Hb). eapply Hk; [|done]. unfold io_try in Ht.
  destruct (cexec_cases f s) as [(u & c & Hc & _ & He)|(e & He)]; rewrite He in Ht; simplify_eq; [|done].
  by eapply Hf.
Qed.

Lemma sreach_transaction {A} sh sh' (body : io Conn MigrationError A) :
  sreach sh body sh' -> sreach sh (in_transaction body) sh'.
Proof. intros Hb s a s' <- (s0 & s1 & Hc & _ & Hr & ->)%in_transaction_Ok. eapply Hb; [|done]. by rewrite Hc. Qed.

Lemma sreach_now {B} sh sh' (k : NaiveDateTime -> io Conn MigrationError B) :
  (forall d, sreach sh (k d) sh') -> sreach sh (io_bind cnow k) sh'.
Proof. intros Hk s b s' Hs Hb. io_inv Hb. unfold cnow in *. simplify_eq. by eapply Hk. Qed.
End Reach.

Ltac shaped_stmt :=
  match goal with
  | |- shaped (create_table _ _ _ _ _) => apply shaped_create_table
  | |- shaped (add_column _ _ _) => apply shaped_add_column
  | |- shaped (rename_column _ _ _) => apply shaped_rename_column
  | |- shaped (drop_column _ _) => apply shaped_drop_column
  | |- shaped (create_unique _ _ _) => apply shaped_create_unique
  | |- keeps_shape (update _ _ _ _) => apply keeps_shape_update
  | |- keeps_shape (insert_values _ _ _) => apply keeps_shape_insert_values
  | |- keeps_shape (delete_where _ _ _) => apply keeps_shape_delete_where
  | |- keeps_shape (select _ _) => apply keeps_shape_select
  end.

Ltac same_shape := lazymatch goal with |- _ = ?r => tryif is_evar r then reflexivity else (apply (bool_decide_unpack _); vm_compute; exact I) end.

Ltac reach_step :=
  lazymatch goal with
  | |- sreach _ (io_bind cnow _) _ => apply sreach_now; intros ?
  | |- sreach _ (io_bind (io_try (cexec (select _ _))) _) _ => apply sreach_try_read; [shaped_stmt|intros ?]
  | |- sreach _ (io_bind (io_try _) _) _ => apply sreach_try; [shaped_stmt|intros ?|intros ?]
  | |- sreach _ (io_bind _ _) _ => eapply sreach_bind; [|intros ?]
  | |- sreach _ (sql (update _ _ _ _)) _ => apply sreach_dml; [shaped_stmt|same_shape]
  | |- sreach _ (sql (insert_values _ _ _)) _ => apply sreach_dml; [shaped_stmt|same_shape]
  | |- sreach _ (sql (delete_where _ _ _)) _ => apply sreach_dml; [shaped_stmt|same_shape]
  | |- sreach _ (sql (select _ _)) _ => apply sreach_dml; [shaped_stmt|same_shape]
  | |- sreach _ (ddl _) _ => apply sreach_ddl; [shaped_stmt|same_shape]
  | |- sreach _ (io_iter _ (_ :: _)) _ => simpl io_iter
  | |- sreach _ (io_iter _ []) _ => apply sreach_ret; same_shape
  | |- sreach _ (io_iter _ _) _ => apply sreach_iter; intros ?
  | |- sreach _ (io_ret _) _ => apply sreach_ret; same_shape
  | |- sreach _ (io_lift _) _ => apply sreach_lift
  | |- sreach _ (io_fail _) _ => apply sreach_fail
  | |- sreach _ (match ?x with _ => _ end) _ => destruct x
  end.

(** A small engine that never fails and whose errors end a statement only. *)
Definition lite_engine : EngineExtern := 
  {| errors_abort := false; blob_is_text := false; question_marks := true; ddl_commits := false |}.

(** The tables that version [n] of the program makes on a new database, with or without
    those of the sessions. *)
Definition new_database (sessions : bool) (n : Z) : Conn :=
  snd ((let! _ := @upgrade_to_v1 lawful_extern demo_sql_extern lite_engine in
        let! _ := @migrate_from_version lawful_extern demo_sql_extern lite_engine 1 n in
        if sessions then @jwt_init_table demo_sql_extern lite_engine else io_ret tt)
       (MkConn ∅ 0 NoTx)).

Definition tables_at (sessions : bool) (n : Z) : gmap string Table := shape (cn_catalog (new_database sessions n)).

Section Reached.
Context `{Extern, SqlExtern, EngineExtern}.

Ltac solve_reach := intros b; destruct b; unfold_migrations; repeat reach_step.

Lemma v2_shape b : sreach (tables_at b 1) migrate_to_v2 (tables_at b 2).
Proof. revert b. solve_reach. Qed.

Lemma v3_shape b : sreach (tables_at b 2) migrate_to_v3 (tables_at b 3).
Proof. revert b. solve_reach. Qed.

Lemma v4_shape b : sreach (tables_at b 3) migrate_to_v4 (tables_at b 4).
Proof. revert b. solve_reach. Qed.

Lemma v5_shape b : sreach (tables_at b 4) migrate_to_v5 (tables_at b 5).
Proof. revert b. solve_reach. Qed.

Lemma v6_shape b : sreach (tables_at b 5) migrate_to_v6 (tables_at b 6).
Proof. revert b. solve_reach. Qed.

Lemma v7_shape b : sreach (tables_at b 6) migrate_to_v7 (tables_at b 7).
Proof. revert b. solve_reach. Qed.

Lemma v8_shape b : sreach (tables_at b 7) migrate_to_v8 (tables_at b 8).
Proof. revert b. solve_reach. Qed.

Lemma v9_shape b : sreach (tables_at b 8) migrate_to_v9 (tables_at b 9).
Proof. revert b. solve_reach. Qed.

Lemma v10_shape b : sreach (tables_at b 9) migrate_to_v10 (tables_at b 10).
Proof. revert b. solve_reach. Qed.

Lemma add_date_shape sh sh' name col :
  (forall d, reshape (add_column name false (defaults (not_null col DateTimeCol) (CDate d))) sh = sh') ->
  sreach sh (add_date name col) sh'.
Proof. intros Hd. apply sreach_now. intros d. apply sreach_ddl; [shaped_stmt|apply Hd]. Qed.

Lemma v11_shape b : sreach (tables_at b 10) migrate_to_v11 (tables_at b 11).
Proof.
  set (sh1 := reshape (add_column "users" false (not_null "modified_date" DateTimeCol)) (tables_at b 10)).
  set (sh2 := reshape (add_column "users" false (not_null "password_modified_date" DateTimeCol)) sh1).
  apply (sreach_bind _ sh1); [|intros _; apply (sreach_bind _ sh2); [|intros _]];
    apply add_date_shape; intros d; destruct b; same_shape.
Qed.
End Reached.

(** ** Constraints *)

Inductive Constraint : Type :=
| Key (tbl : string) (cols : list string)
| Refers (tbl : string) (fk : ForeignKey).

Definition declares (c : gmap string Table) (k : Constraint) : bool :=
  match k with
  | Key tbl cols => match c !! tbl with
                    | Some tb => existsb (fun key => bool_decide (snd key = cols)) (tb_keys tb)
                    | None => false
                    end
  | Refers tbl fk => match c !! tbl with
                     | Some tb => existsb (fun fk' => bool_decide (fk' = fk)) (tb_foreign_keys tb)
                     | None => false
                     end
  end.

(** The constraints the backend relies on. *)
Definition core_constraints : list Constraint :=
  [Key "users" ["lowercase_email"]; Key "groups" ["lowercase_display_name"]; Key "groups" ["display_name"];
   Refers "memberships" (MkForeignKey "user_id" "users" "user_id");
   Refers "memberships" (MkForeignKey "group_id" "groups" "group_id");
   Refers "user_attributes" (MkForeignKey "user_attribute_user_id" "users" "user_id");
   Refers "user_attributes"
     (MkForeignKey "user_attribute_name" "user_attribute_schema" "user_attribute_schema_name");
   Refers "group_attributes" (MkForeignKey "group_attribute_group_id" "groups" "group_id");
   Refers "group_attributes"
     (MkForeignKey "group_attribute_name" "group_attribute_schema" "group_attribute_schema_name")].

Definition session_tables : list string := ["jwt_refresh_storage"; "jwt_storage"; "password_reset_tokens"].
Definition session_constraint (tbl : string) : Constraint := Refers tbl (MkForeignKey "user_id" "users" "user_id").

(** The table of sessions does not exist, or refers to the users. *)
Definition session_ok (c : gmap string Table) (tbl : string) : bool :=
  match c !! tbl with None => true | Some _ => declares c (session_constraint tbl) end.

Lemma declares_shape c k : declares (shape c) k = declares c k.
Proof. destruct k; unfold declares, shape; rewrite lookup_fmap; by destruct (c !! tbl). Qed.

Lemma session_ok_shape c tbl : session_ok (shape c) tbl = session_ok c tbl.
Proof. unfold session_ok. rewrite declares_shape. unfold shape. rewrite lookup_fmap. by destruct (c !! tbl). Qed.

Record constrained (c : gmap string Table) : Prop := {
  con_ok : catalog_ok c = true;
  con_core : forallb (declares c) core_constraints = true;
  con_sessions : forallb (session_ok c) session_tables = true
}.

Section Constrained.
Context `{Extern, SqlExtern, EngineExtern}.

Lemma catalog_ok_create name ine cs ks fks : sql_keeps (fun c => catalog_ok c = true) (create_table name ine cs ks fks).
Proof.
  intros c u c' Hc Hs. unfold create_table in Hs. destruct (c !! name) eqn:Hl; [destruct ine; by simplify_eq|].
  simplify_eq. unfold catalog_ok in *. rewrite forallb_Forall, Forall_forall in *.
  intros [k tb] Hk%elem_of_map_to_list. simpl. destruct (decide (k = name)) as [->|Hn].
  - rewrite lookup_insert_eq in Hk. simplify_eq. unfold table_ok. simpl.
    by rewrite !(proj2 (forallb_forall _ _)) by (intros; vm_compute; done || (apply bool_decide_eq_true; constructor)).
  - rewrite lookup_insert_ne in Hk by done. specialize (Hc (k, tb) (proj2 (elem_of_map_to_list _ _ _) Hk)). simpl in Hc.
    unfold table_ok in *. apply andb_prop in Hc as [Hc Hfk]. rewrite Hc. simpl.
    rewrite forallb_Forall, Forall_forall in *. intros fk Hin. specialize (Hfk fk Hin).
    rewrite forallb_Forall, Forall_forall in *. intros row Hrow. specialize (Hfk row Hrow). unfold refers in *.
    destruct (is_null _); [done|]. simpl in *. destruct (decide (fk_table fk = name)) as [Hf|Hf].
    + by rewrite Hf, Hl in Hfk.
    + by rewrite lookup_insert_ne.
Qed.

Lemma catalog_ok_on_table name f : sql_keeps (fun c => catalog_ok c = true) (on_table name f).
Proof. by intros c u c' _ (? & ? & _ & _ & _ & ?)%on_table_Ok. Qed.

(** Keys and foreign keys stay where the statement leaves those of its table. *)
Lemma declares_on_table k name f :
  (forall tb tb', f tb = Ok tb' -> tb_keys tb' = tb_keys tb /\ tb_foreign_keys tb' = tb_foreign_keys tb) ->
  sql_keeps (fun c => declares c k = true) (on_table name f).
Proof.
  intros Hf c u c' Hc (tb & tb' & Hl & Ht & -> & _)%on_table_Ok. destruct (Hf _ _ Ht) as [Hk Hfk].
  destruct k as [tbl cols|tbl fk]; simpl in *; (destruct (decide (tbl = name)) as [->|Hn];
    [rewrite lookup_insert_eq; rewrite Hl in Hc; by rewrite ?Hk, ?Hfk|by rewrite lookup_insert_ne]).
Qed.

Lemma session_on_table tbl name f :
  (forall tb tb', f tb = Ok tb' -> tb_keys tb' = tb_keys tb /\ tb_foreign_keys tb' = tb_foreign_keys tb) ->
  sql_keeps (fun c => session_ok c tbl = true) (on_table name f).
Proof.
  intros Hf c u c' Hc Hs. unfold session_ok in *. destruct (c !! tbl) eqn:Hl.
  - apply (declares_on_table (session_constraint tbl)) in Hs; [|done..]. rewrite Hs. by case_match.
  - apply on_table_Ok in Hs as (tb & tb' & Hn & _ & -> & _). rewrite lookup_insert_ne by congruence. by rewrite Hl.
Qed.

Lemma declares_create k name ine cs ks fks :
  sql_keeps (fun c => declares c k = true) (create_table name ine cs ks fks).
Proof.
  intros c u c' Hc Hs. unfold create_table in Hs. destruct (c !! name) eqn:Hl; [destruct ine; by simplify_eq|].
  simplify_eq. destruct k as [tbl cols|tbl fk]; simpl in *;
    (destruct (decide (tbl = name)) as [->|Hn]; [by rewrite Hl in Hc|by rewrite lookup_insert_ne]).
Qed.

Lemma session_create tbl name ine cs ks fks :
  String.eqb name tbl = false -> sql_keeps (fun c => session_ok c tbl = true) (create_table name ine cs ks fks).
Proof.
  intros Hn%String.eqb_neq c u c' Hc Hs. unfold session_ok in *. destruct (c !! tbl) eqn:Hl.
  - apply (declares_create (session_constraint tbl)) in Hs; [|done]. rewrite Hs. by case_match.
  - unfold create_table in Hs. destruct (c !! name); [destruct ine; simplify_eq; by rewrite Hl|]. simplify_eq.
    rewrite lookup_insert_ne by done. by rewrite Hl.
Qed.
Lemma constrained_on_table name f :
  (forall tb tb', f tb = Ok tb' -> tb_keys tb' = tb_keys tb /\ tb_foreign_keys tb' = tb_foreign_keys tb) ->
  sql_keeps constrained (on_table name f).
Proof.
  intros Hf c u c' [Hok Hc Hs] Hr. constructor; [by eapply catalog_ok_on_table| |];
    rewrite forallb_Forall, Forall_forall in *; intros x Hx.
  - eapply declares_on_table; [done|by apply Hc|done].
  - eapply session_on_table; [done|by apply Hs|done].
Qed.

Lemma constrained_create name ine cs ks fks :
  existsb (String.eqb name) session_tables = false -> sql_keeps constrained (create_table name ine cs ks fks).
Proof.
  intros Hn c u c' [Hok Hc Hs] Hr. constructor; [by eapply catalog_ok_create| |];
    rewrite forallb_Forall, Forall_forall in *; intros x Hx.
  - eapply declares_create; [by apply Hc|done].
  - eapply session_create; [|by apply Hs|done]. rewrite existsb_not_elem in Hn. by apply Hn.
Qed.

Lemma constrained_add_column name ine cd : sql_keeps constrained (add_column name ine cd).
Proof. apply constrained_on_table. intros tb tb' Hf. repeat case_match; by simplify_eq. Qed.

Lemma constrained_update name uses sets wh : sql_keeps constrained (update name uses sets wh).
Proof. apply constrained_on_table. intros tb tb' Hf. apply result_bind_Ok in Hf as ([] & _ & Hf). by simplify_eq. Qed.

Lemma constrained_insert_values name cs vs : sql_keeps constrained (insert_values name cs vs).
Proof. apply constrained_on_table. intros tb tb' Hf. apply result_bind_Ok in Hf as ([] & _ & Hf). by simplify_eq. Qed.

Lemma constrained_delete_where name uses wh : sql_keeps constrained (delete_where name uses wh).
Proof. apply constrained_on_table. intros tb tb' Hf. apply result_bind_Ok in Hf as ([] & _ & Hf). by simplify_eq. Qed.

Ltac constrained_stmt :=
  lazymatch goal with
  | |- sql_keeps _ (create_table _ _ _ _ _) => apply constrained_create; reflexivity
  | |- sql_keeps _ (add_column _ _ _) => apply constrained_add_column
  | |- sql_keeps _ (update _ _ _ _) => apply constrained_update
  | |- sql_keeps _ (insert_values _ _ _) => apply constrained_insert_values
  | |- sql_keeps _ (delete_where _ _ _) => apply constrained_delete_where
  | |- sql_keeps _ (with_placeholders _) => apply keeps_placeholders
  | |- sql_keeps _ (insert_missing _ _ _) => apply keeps_insert_missing; intros ?
  end.

Lemma v12_constrained : ckeeps constrained migrate_to_v12.
Proof. unfold_migrations. repeat first [ckeeps_step | constrained_stmt]. Qed.

Lemma migrations_catalog_ok : Forall (ckeeps (fun c => catalog_ok c = true)) migrations.
Proof.
  apply migrations_Forall; unfold_migrations;
    repeat first [ckeeps_step | apply keeps_select | apply keeps_placeholders | apply keeps_insert_missing; intros ?
                 | apply catalog_ok_create | apply catalog_ok_on_table].
Qed.

Lemma migrate_to_reach n m sh sh' :
  migrations !! Z.to_nat (n - 2) = Some m -> sreach sh m sh' -> sreach sh (migrate_to n) sh'.
Proof.
  intros Hm Hr. apply sreach_transaction. rewrite Hm. eapply sreach_bind; [done|intros _].
  apply sreach_dml; [apply keeps_shape_update|done].
Qed.

Lemma migrate_to_shape b n :
  (1 <= n <= 10)%Z -> sreach (tables_at b n) (migrate_to (n + 1)) (tables_at b (n + 1)).
Proof.
  intros Hn. assert (n = 1 \/ n = 2 \/ n = 3 \/ n = 4 \/ n = 5 \/ n = 6 \/ n = 7 \/ n = 8 \/ n = 9 \/ n = 10)%Z as Hc by lia.
  destruct Hc as [->|[->|[->|[->|[->|[->|[->|[->|[->| ->]]]]]]]]].
  - exact (migrate_to_reach 2 _ _ _ eq_refl (v2_shape b)).
  - exact (migrate_to_reach 3 _ _ _ eq_refl (v3_shape b)).
  - exact (migrate_to_reach 4 _ _ _ eq_refl (v4_shape b)).
  - exact (migrate_to_reach 5 _ _ _ eq_refl (v5_shape b)).
  - exact (migrate_to_reach 6 _ _ _ eq_refl (v6_shape b)).
  - exact (migrate_to_reach 7 _ _ _ eq_refl (v7_shape b)).
  - exact (migrate_to_reach 8 _ _ _ eq_refl (v8_shape b)).
  - exact (migrate_to_reach 9 _ _ _ eq_refl (v9_shape b)).
  - exact (migrate_to_reach 10 _ _ _ eq_refl (v10_shape b)).
  - exact (migrate_to_reach 11 _ _ _ eq_refl (v11_shape b)).
Qed.

Lemma migrate_to_catalog_ok n s s' :
  migrate_to n s = (Ok tt, s') -> catalog_ok (cn_catalog s) = true -> catalog_ok (cn_catalog s') = true.
Proof.
  intros Hm Hok. assert (ckeeps (fun c => catalog_ok c = true) (migrate_to n)) as Hk.
  { apply ckeeps_transaction. case_match eqn:Hl; [|by intros ? ?]. apply ckeeps_bind.
    - pose proof migrations_catalog_ok as Hf. rewrite Forall_lookup in Hf. by eapply Hf.
    - intros _. apply ckeeps_sql, catalog_ok_on_table. }
  specialize (Hk s Hok). by rewrite Hm in Hk.
Qed.

Lemma upgraded_shape b v n c c' :
  shape c = tables_at b v -> catalog_ok c = true -> (1 <= v)%Z -> upgraded v n c c' -> (n <= 11)%Z ->
  shape c' = tables_at b n /\ catalog_ok c' = true /\ (v <= n)%Z.
Proof.
  intros Hs Hok Hv. induction 1 as [|n c s s' Hup IH Hm]; intros Hn.
  { split_and!; [exact Hs|exact Hok|lia]. }
  destruct (IH Hs Hok ltac:(lia)) as (Hsh & Hok' & Hle).
  split_and!; [|exact (migrate_to_catalog_ok _ _ _ Hm Hok')|lia].
  exact (migrate_to_shape b n ltac:(lia) _ _ _ Hsh Hm).
Qed.

Lemma tables_constrained b c :
  (shape c = tables_at b 11 \/ shape c = tables_at b 12) -> catalog_ok c = true -> constrained c.
Proof.
  intros Hs Hok. constructor; [exact Hok|..]; apply forallb_Forall, Forall_forall; intros x Hx.
  - rewrite <- declares_shape. revert x Hx. apply Forall_forall, forallb_Forall.
    destruct b, Hs as [-> | ->]; vm_compute; reflexivity.
  - rewrite <- session_ok_shape. revert x Hx. apply Forall_forall, forallb_Forall.
    destruct b, Hs as [-> | ->]; vm_compute; reflexivity.
Qed.

Lemma upgraded_constrained b v c c' :
  shape c = tables_at b v -> catalog_ok c = true -> (1 <= v <= 12)%Z -> upgraded v 12 c c' -> constrained c'.
Proof.
  intros Hs Hok Hv Hup. inversion Hup as [|n ? s s' Hup' Hm]; subst.
  - exact (tables_constrained b _ (or_intror Hs) Hok).
  - assert (n = 11)%Z as -> by lia.
    destruct (upgraded_shape b v 11 c (cn_catalog s) Hs Hok ltac:(lia) Hup' ltac:(lia)) as (Hsh & Hok' & _).
    assert (ckeeps constrained (migrate_to 12)) as Hk.
    { apply ckeeps_transaction. simpl. apply ckeeps_bind; [apply v12_constrained|]. intros _.
      apply ckeeps_sql, constrained_update. }
    change (11 + 1)%Z with 12%Z in Hm. specialize (Hk s (tables_constrained b _ (or_introl Hsh) Hok')). rewrite Hm in Hk.
    exact Hk.
Qed.
End Constrained.
