(* ===== verification/MigratedSound.v ===== *)
(** * A migrated database is what the backend expects

    The rows of the last version, read with the entities of
    [crates/domain-model/src/model], are tables in the sense of [Database] whose
    integrity holds; and a new database is set up without an error. *)

From S2P Require Import Prelude Strings Types Schema SchemaManager Database SqlConfig SqlGroups SqlUsers SqlOps SqlLists.
From S2P Require Import Relational Migrations MigratedDb MigratedTables.

(** ** Reading the tables *)

Definition get_bool (c : Cell) : result DbErr bool := match c with CBool b => Ok b | _ => decode_error end.

Definition attribute_type_of_text (s : string) : result DbErr AttributeType :=
  if String.eqb s "String" then Ok TString
  else if String.eqb s "Integer" then Ok TInteger
  else if String.eqb s "Avatar" then Ok TAvatar
  else if String.eqb s "DateTime" then Ok TDateTime
  else decode_error.

Definition read_user_row (row : gmap string Cell) : result DbErr (UserId * UserRow) :=
  let? id := get_text (cell row "user_id") in
  let? email := get_text (cell row "email") in
  let? lowercase_email := get_text (cell row "lowercase_email") in
  let? display_name := get_option get_text (cell row "display_name") in
  let? creation_date := get_date (cell row "creation_date") in
  let? password_hash := get_option get_bytes (cell row "password_hash") in
  let? totp_secret := get_option get_text (cell row "totp_secret") in
  let? mfa_type := get_option get_text (cell row "mfa_type") in
  let? uuid := get_text (cell row "uuid") in
  let? modified := get_date (cell row "modified_date") in
  let? password_modified := get_date (cell row "password_modified_date") in
  let? principal := get_option get_text (cell row "krb_principal_name") in
  Ok (MkUserId id, MkUserRow (MkEmail email) lowercase_email display_name creation_date password_hash totp_secret
        mfa_type uuid modified password_modified principal).

Definition read_group_row (row : gmap string Cell) : result DbErr (GroupId * GroupRow) :=
  let? id := get_int (cell row "group_id") in
  let? name := get_text (cell row "display_name") in
  let? lowercase_name := get_text (cell row "lowercase_display_name") in
  let? creation_date := get_date (cell row "creation_date") in
  let? uuid := get_text (cell row "uuid") in
  let? modified := get_date (cell row "modified_date") in
  Ok (id, MkGroupRow (MkGroupName name) lowercase_name creation_date uuid modified).

Definition membership_of_row (row : gmap string Cell) : result DbErr ((UserId * GroupId) * unit) :=
  let? ug := membership_of row in Ok ((MkUserId (fst ug), snd ug), tt).

Definition user_attribute_of_row (row : gmap string Cell) : result DbErr ((UserId * AttributeName) * string) :=
  let? id := get_text (cell row "user_attribute_user_id") in
  let? name := get_text (cell row "user_attribute_name") in
  let? value := get_bytes (cell row "user_attribute_value") in
  Ok ((MkUserId id, MkAttributeName name), value).

Definition group_attribute_of_row (row : gmap string Cell) : result DbErr ((GroupId * AttributeName) * string) :=
  let? id := get_int (cell row "group_attribute_group_id") in
  let? name := get_text (cell row "group_attribute_name") in
  let? value := get_bytes (cell row "group_attribute_value") in
  Ok ((id, MkAttributeName name), value).

(** [of_] is "user" or "group". *)
Definition schema_of_row (of_ : string) (row : gmap string Cell) : result DbErr (AttributeName * SchemaRow) :=
  let p := of_ +:+ "_attribute_schema" in
  let? name := get_text (cell row (p +:+ "_name")) in
  let? type_text := get_text (cell row (p +:+ "_type")) in
  let? type_ := attribute_type_of_text type_text in
  let? is_list := get_bool (cell row (p +:+ "_is_list")) in
  let? visible := get_bool (cell row (p +:+ "_is_" +:+ of_ +:+ "_visible")) in
  let? editable := get_bool (cell row (p +:+ "_is_" +:+ of_ +:+ "_editable")) in
  let? hardcoded := get_bool (cell row (p +:+ "_is_hardcoded")) in
  let? readonly := get_bool (cell row (p +:+ "_is_readonly")) in
  let? aliases := get_text (cell row "aliases") in
  Ok (MkAttributeName name, MkSchemaRow type_ is_list visible editable hardcoded readonly aliases).

Definition class_of_row (row : gmap string Cell) : result DbErr (string * LdapObjectClass) :=
  let? lower := get_text (cell row "lower_object_class") in
  let? class := get_text (cell row "object_class") in
  Ok (lower, MkLdapObjectClass class).

Definition setting_of_row (row : gmap string Cell) : result DbErr (string * string) :=
  let? key := get_text (cell row "key") in
  let? value := get_text (cell row "value") in
  Ok (key, value).

Definition refresh_of_row (row : gmap string Cell) : result DbErr (Z * RefreshRow) :=
  let? h := get_int (cell row "refresh_token_hash") in
  let? u := get_text (cell row "user_id") in
  let? d := get_date (cell row "expiry_date") in
  Ok (h, MkRefreshRow (MkUserId u) d).

Definition jwt_of_row (row : gmap string Cell) : result DbErr (Z * JwtRow) :=
  let? h := get_int (cell row "jwt_hash") in
  let? u := get_text (cell row "user_id") in
  let? d := get_date (cell row "expiry_date") in
  let? b := get_bool (cell row "blacklisted") in
  Ok (h, MkJwtRow (MkUserId u) d b).

Definition reset_of_row (row : gmap string Cell) : result DbErr (string * ResetRow) :=
  let? k := get_text (cell row "token") in
  let? u := get_text (cell row "user_id") in
  let? d := get_date (cell row "expiry_date") in
  Ok (k, MkResetRow (MkUserId u) d).

Definition load {K V} `{Countable K} (tbl : string) (decode : gmap string Cell -> result DbErr (K * V))
    (c : gmap string Table) : result DbErr (gmap K V) :=
  match c !! tbl with
  | None => Err (DbQuery "no such table")
  | Some tb => map_ok list_to_map (collect (map decode (tb_rows tb)))
  end.

Definition load_tables (c : gmap string Table) : result DbErr Tables :=
  let? users := load "users" read_user_row c in
  let? groups := load "groups" read_group_row c in
  let? memberships := load "memberships" membership_of_row c in
  let? user_attributes := load "user_attributes" user_attribute_of_row c in
  let? group_attributes := load "group_attributes" group_attribute_of_row c in
  let? user_schema := load "user_attribute_schema" (schema_of_row "user") c in
  let? group_schema := load "group_attribute_schema" (schema_of_row "group") c in
  let? user_classes := load "user_object_classes" class_of_row c in
  let? group_classes := load "group_object_classes" class_of_row c in
  let? settings := load "system_config" setting_of_row c in
  let? refresh := load "jwt_refresh_storage" refresh_of_row c in
  let? jwts := load "jwt_storage" jwt_of_row c in
  let? resets := load "password_reset_tokens" reset_of_row c in
  Ok (MkTables users groups (dom memberships) user_attributes group_attributes user_schema group_schema
        user_classes group_classes settings (MkTokenTables refresh jwts resets)).

(** ** Integrity *)

Section Load.
Context {K V} `{Countable K} (tbl : string) (decode : gmap string Cell -> result DbErr (K * V)).
Context (c : gmap string Table) (m : gmap K V) (Hload : load tbl decode c = Ok m).

Lemma load_rows : exists tb l, c !! tbl = Some tb /\ Forall2 (fun row kv => decode row = Ok kv) (tb_rows tb) l /\
  m = list_to_map l.
Proof.
  unfold load in Hload. destruct (c !! tbl) as [tb|]; [|done]. apply map_ok_Ok in Hload as (l & Hl & <-).
  exists tb, l. split_and!; [done| |done]. by apply collect_map_Ok.
Qed.

Lemma load_lookup k v : m !! k = Some v -> exists tb row, c !! tbl = Some tb /\ row ∈ tb_rows tb /\ decode row = Ok (k, v).
Proof.
  destruct load_rows as (tb & l & Htb & Hl & ->). intros Hk%elem_of_list_to_map_2%list_elem_of_lookup.
  destruct Hk as (i & Hi). destruct (Forall2_lookup_r _ _ _ _ _ Hl Hi) as (row & Hrow & Hd).
  exists tb, row. split_and!; [done| |done]. by eapply list_elem_of_lookup_2.
Qed.

Lemma load_present tb row : c !! tbl = Some tb -> row ∈ tb_rows tb -> exists k v, decode row = Ok (k, v) /\ is_Some (m !! k).
Proof.
  destruct load_rows as (tb' & l & Htb & Hl & ->). intros Htb' (i & Hi)%list_elem_of_lookup. simplify_eq.
  destruct (Forall2_lookup_l _ _ _ _ _ Hl Hi) as ([k v] & Hkv & Hd). exists k, v. split; [done|].
  destruct (list_to_map l !! k) eqn:Hn; [done|]. apply not_elem_of_list_to_map in Hn. exfalso. apply Hn.
  apply list_elem_of_fmap. exists (k, v). split; [done|]. by eapply list_elem_of_lookup_2.
Qed.
End Load.

Lemma unique_row key rows row1 row2 :
  unique key rows = true -> row1 ∈ rows -> row2 ∈ rows -> existsb is_null (key_of key row1) = false ->
  key_of key row1 = key_of key row2 -> row1 = row2.
Proof.
  intros Hu%bool_decide_eq_true H1 H2 Hn Heq. induction rows as [|r rows IH]; [by apply not_elem_of_nil in H1|].
  simpl in Hu. apply elem_of_cons in H1, H2.
  assert (forall r', r' ∈ rows -> existsb is_null (key_of key r') = false -> key_of key r' ∈
    List.filter (fun k => negb (existsb is_null k)) (map (key_of key) rows)) as Hin.
  { intros r' Hr' Hr. apply list_elem_of_In, filter_In. split; [apply in_map; by apply list_elem_of_In|]. by rewrite Hr. }
  destruct (existsb is_null (key_of key r)) eqn:Er; simpl in Hu.
  - destruct H1 as [->|H1]; [congruence|]. destruct H2 as [->|H2]; [congruence|]. by apply IH.
  - apply NoDup_cons in Hu as [Hr Hu]. destruct H1 as [->|H1], H2 as [->|H2]; [done| | |by apply IH].
    + exfalso. apply Hr. rewrite Heq. apply Hin; congruence.
    + exfalso. apply Hr. rewrite <- Heq. by apply Hin.
Qed.

Lemma catalog_table_ok c tbl tb : catalog_ok c = true -> c !! tbl = Some tb -> table_ok c tb = true.
Proof.
  unfold catalog_ok. rewrite forallb_Forall, Forall_forall. intros Hok Hl.
  apply (Hok (tbl, tb)). by apply elem_of_map_to_list.
Qed.

(** Two rows of a table with a declared key. *)
Lemma key_rows c tbl key tb row1 row2 :
  catalog_ok c = true -> declares c (Key tbl key) = true -> c !! tbl = Some tb -> row1 ∈ tb_rows tb ->
  row2 ∈ tb_rows tb -> existsb is_null (key_of key row1) = false -> key_of key row1 = key_of key row2 -> row1 = row2.
Proof.
  intros Hok Hd Hl. simpl in Hd. rewrite Hl in Hd. apply existsb_elem in Hd as (k & Hk & Heq%bool_decide_eq_true).
  apply (catalog_table_ok c tbl tb) in Hok; [|done]. unfold table_ok in Hok.
  apply andb_prop in Hok as [Hok _]. apply andb_prop in Hok as [_ Hok].
  rewrite forallb_Forall, Forall_forall in Hok. specialize (Hok k Hk). simpl in Hok. rewrite Heq in Hok.
  by apply unique_row.
Qed.

(** The row a foreign key refers to. *)
Lemma referred_row c tbl fk tb row :
  catalog_ok c = true -> declares c (Refers tbl fk) = true -> c !! tbl = Some tb -> row ∈ tb_rows tb ->
  is_null (cell row (fk_from fk)) = false ->
  exists tb' row', c !! fk_table fk = Some tb' /\ row' ∈ tb_rows tb' /\ cell row' (fk_to fk) = cell row (fk_from fk).
Proof.
  intros Hok Hd Hl Hrow Hn. simpl in Hd. rewrite Hl in Hd. apply existsb_elem in Hd as (k & Hk & Heq%bool_decide_eq_true).
  subst k. apply (catalog_table_ok c tbl tb) in Hok; [|done]. apply andb_prop in Hok as [_ Hok].
  rewrite forallb_Forall, Forall_forall in Hok. specialize (Hok fk Hk). simpl in Hok.
  rewrite forallb_Forall, Forall_forall in Hok. specialize (Hok row Hrow). simpl in Hok. unfold refers in Hok.
  rewrite Hn in Hok. simpl in Hok. destruct (c !! fk_table fk) as [tb'|]; [|done].
  apply existsb_elem in Hok as (row' & Hrow' & Heq%bool_decide_eq_true). eauto.
Qed.

(** The column [col] of a row holds the cell [code] of its key. *)
Definition keyed {K V} (decode : gmap string Cell -> result DbErr (K * V)) (col : string) (code : K -> Cell) : Prop :=
  forall row k v, decode row = Ok (k, v) -> cell row col = code k.

Lemma refers_sound {K V K' V'} `{Countable K, Countable K'} c tbl decode m fk decode' m' (code : K' -> Cell)
    (target : K -> V -> K') k (v : V) :
  catalog_ok c = true -> declares c (Refers tbl fk) = true -> load tbl decode c = Ok m ->
  load (fk_table fk) decode' c = Ok m' -> keyed (V := V') decode' (fk_to fk) code -> Inj (=) (=) code ->
  (forall row k v, decode row = Ok (k, v) -> cell row (fk_from fk) = code (target k v)) ->
  (forall x, is_null (code x) = false) -> m !! k = Some v -> is_Some (m' !! target k v).
Proof.
  intros Hok Hd Hl Hl' Hkey Hinj Hfrom Hnull Hk.
  destruct (load_lookup _ _ _ _ Hl _ _ Hk) as (tb & row & Htb & Hrow & Hdec).
  specialize (Hfrom _ _ _ Hdec). destruct (referred_row c tbl fk tb row) as (tb' & row' & Htb' & Hrow' & Heq);
    [done..|by rewrite Hfrom|].
  destruct (load_present _ _ _ _ Hl' _ _ Htb' Hrow') as (k' & v' & Hdec' & Hsome).
  specialize (Hkey _ _ _ Hdec'). assert (k' = target k v) as -> by (apply (inj code); congruence). done.
Qed.

Lemma get_text_Ok c s : get_text c = Ok s <-> c = CText s.
Proof. destruct c; naive_solver. Qed.
Lemma get_int_Ok c z : get_int c = Ok z <-> c = CInt z.
Proof. destruct c; naive_solver. Qed.

(** Open a hypothesis that a row was decoded. *)
Ltac decode_inv :=
  repeat match goal with
  | H : result_bind _ _ = Ok _ |- _ => apply result_bind_Ok in H; destruct H as (? & ? & ?)
  | H : get_text _ = Ok _ |- _ => apply get_text_Ok in H
  | H : get_int _ = Ok _ |- _ => apply get_int_Ok in H
  end; simplify_eq/=.

Definition user_code (u : UserId) : Cell := CText (user_id_str u).
Definition name_code (n : AttributeName) : Cell := CText (attribute_name_str n).

#[export] Instance user_code_inj : Inj (=) (=) user_code.
Proof. intros [x] [y] Hxy. unfold user_code in Hxy. simpl in Hxy. by simplify_eq. Qed.
#[export] Instance name_code_inj : Inj (=) (=) name_code.
Proof. intros [x] [y] Hxy. unfold name_code in Hxy. simpl in Hxy. by simplify_eq. Qed.
#[export] Instance CInt_inj : Inj (=) (=) CInt.
Proof. intros x y Hxy. by simplify_eq. Qed.

Lemma users_keyed : keyed read_user_row "user_id" user_code.
Proof. intros row k v Hd. unfold read_user_row in Hd. by decode_inv. Qed.
Lemma groups_keyed : keyed read_group_row "group_id" CInt.
Proof. intros row k v Hd. unfold read_group_row in Hd. by decode_inv. Qed.
Lemma user_schema_keyed : keyed (schema_of_row "user") "user_attribute_schema_name" name_code.
Proof. intros row k v Hd. unfold schema_of_row in Hd. by decode_inv. Qed.
Lemma group_schema_keyed : keyed (schema_of_row "group") "group_attribute_schema_name" name_code.
Proof. intros row k v Hd. unfold schema_of_row in Hd. by decode_inv. Qed.

(** Distinct keys of the map have distinct values in a column with a unique index. *)
Lemma unique_sound {K V} `{Countable K} c tbl (decode : gmap string Cell -> result DbErr (K * V)) m col
    (f : V -> string) k1 k2 v1 v2 :
  catalog_ok c = true -> declares c (Key tbl [col]) = true -> load tbl decode c = Ok m ->
  (forall row k v, decode row = Ok (k, v) -> cell row col = CText (f v)) ->
  m !! k1 = Some v1 -> m !! k2 = Some v2 -> f v1 = f v2 -> k1 = k2.
Proof.
  intros Hok Hd Hl Hcol H1 H2 Hf.
  destruct (load_lookup _ _ _ _ Hl _ _ H1) as (tb & row1 & Htb & Hrow1 & Hdec1).
  destruct (load_lookup _ _ _ _ Hl _ _ H2) as (tb2 & row2 & Htb2 & Hrow2 & Hdec2). simplify_eq.
  assert (row1 = row2) as ->; [|congruence].
  eapply (key_rows c tbl [col]); [done..| |]; unfold key_of; simpl;
    by rewrite (Hcol _ _ _ Hdec1), ?(Hcol _ _ _ Hdec2), ?Hf.
Qed.

Lemma constrained_declares c k : constrained c -> k ∈ core_constraints -> declares c k = true.
Proof. intros [_ Hc _] Hk. rewrite forallb_Forall, Forall_forall in Hc. by apply Hc. Qed.

Lemma constrained_session {K V} `{Countable K} c tbl (decode : gmap string Cell -> result DbErr (K * V)) m :
  constrained c -> tbl ∈ session_tables -> load tbl decode c = Ok m -> declares c (session_constraint tbl) = true.
Proof.
  intros [_ _ Hs] Ht Hl. rewrite forallb_Forall, Forall_forall in Hs. specialize (Hs tbl Ht). unfold session_ok in Hs.
  destruct (load_rows _ _ _ _ Hl) as (tb & l & Htb & _). by rewrite Htb in Hs.
Qed.

Ltac declared :=
  first [eapply constrained_declares; [eassumption|apply list_elem_of_In; simpl; tauto]
        |eapply constrained_session; [eassumption|apply list_elem_of_In; simpl; tauto|eassumption]].

(** Read the key of a row off its decoding. *)
Ltac decoded :=
  let Hd := fresh "Hd" in intros ? ? ? Hd;
  unfold read_user_row, read_group_row, membership_of_row, membership_of, user_attribute_of_row, group_attribute_of_row,
    refresh_of_row, jwt_of_row, reset_of_row in Hd; by decode_inv.

(** The entry [Hx] of a map refers to an entry of another through the foreign key. *)
Ltac refer_through fk code target keyed_ Hload Hload' Hx :=
  let H := fresh in
  pose proof (fun Hok Hd Hinj Hfrom Hnull =>
    refers_sound _ _ _ _ fk _ _ code target _ _ Hok Hd Hload Hload' keyed_ Hinj Hfrom Hnull Hx) as H;
  apply H; clear H; [done|declared|apply _|decoded|done].

Lemma loaded_integrity c t : constrained c -> load_tables c = Ok t -> integrity t.
Proof.
  intros Hc Hl. pose proof (con_ok _ Hc) as Hok. unfold load_tables in Hl.
  do 13 (apply result_bind_Ok in Hl; let m := fresh "m" in let Hm := fresh "Hm" in destruct Hl as (m & Hm & Hl)).
  injection Hl as <-.
  constructor; simpl.
  - intros u g (x & Hx)%elem_of_dom.
    refer_through (MkForeignKey "user_id" "users" "user_id") user_code (fun (k : UserId * GroupId) (_ : unit) => fst k) users_keyed Hm1 Hm Hx.
  - intros u g (x & Hx)%elem_of_dom.
    refer_through (MkForeignKey "group_id" "groups" "group_id") CInt
      (fun (k : UserId * GroupId) (_ : unit) => snd k) groups_keyed Hm1 Hm0 Hx.
  - intros u n v Hx. refer_through (MkForeignKey "user_attribute_user_id" "users" "user_id") user_code
      (fun (k : UserId * AttributeName) (_ : string) => fst k) users_keyed Hm2 Hm Hx.
  - intros u n v Hx.
    refer_through (MkForeignKey "user_attribute_name" "user_attribute_schema" "user_attribute_schema_name") name_code
      (fun (k : UserId * AttributeName) (_ : string) => snd k) user_schema_keyed Hm2 Hm4 Hx.
  - intros g n v Hx. refer_through (MkForeignKey "group_attribute_group_id" "groups" "group_id") CInt
      (fun (k : GroupId * AttributeName) (_ : string) => fst k) groups_keyed Hm3 Hm0 Hx.
  - intros g n v Hx.
    refer_through (MkForeignKey "group_attribute_name" "group_attribute_schema" "group_attribute_schema_name")
      name_code (fun (k : GroupId * AttributeName) (_ : string) => snd k) group_schema_keyed Hm3 Hm5 Hx.
  - intros u1 u2 r1 r2 H1 H2 Heq.
    eapply (unique_sound c "users" _ _ "lowercase_email" ur_lowercase_email); [done|declared|done|decoded|done..].
  - intros g1 g2 r1 r2 H1 H2 Heq.
    eapply (unique_sound c "groups" _ _ "lowercase_display_name" gr_lowercase_display_name);
      [done|declared|done|decoded|done..].
  - intros k r Hx. refer_through (MkForeignKey "user_id" "users" "user_id") user_code (fun (_ : Z) r => rr_user_id r) users_keyed Hm9 Hm Hx.
  - intros k r Hx. refer_through (MkForeignKey "user_id" "users" "user_id") user_code (fun (_ : Z) r => jr_user_id r) users_keyed Hm10 Hm Hx.
  - intros k r Hx. refer_through (MkForeignKey "user_id" "users" "user_id") user_code (fun (_ : string) r => sr_user_id r) users_keyed Hm11 Hm Hx.
  - intros g1 g2 r1 r2 H1 H2 Heq.
    eapply (unique_sound c "groups" _ _ "display_name" (fun r => group_name_str (gr_display_name r)));
      [done|declared|done|decoded|done|done|by rewrite Heq].
Qed.

Section Sound.
Context `{Extern, SqlExtern, EngineExtern}.

Lemma session_table_constrained name key kt extra :
  sql_keeps constrained (session_table name key kt extra).
Proof.
  intros c u c' Hc Hs. destruct Hc as [Hok Hd Hse]. constructor; [by eapply catalog_ok_create| |];
    rewrite forallb_Forall, Forall_forall in *; intros x Hx; [by eapply declares_create; [apply Hd|]|].
  destruct (decide (name = x)) as [->|Hn].
  - specialize (Hse x Hx). simpl in Hse. unfold session_table, create_table in Hs. destruct (c !! x) eqn:Hl; simplify_eq; [done|].
    unfold session_ok. simpl. by rewrite lookup_insert_eq.
  - eapply session_create; [by apply String.eqb_neq|by apply Hse|exact Hs].
Qed.

Lemma jwt_tables_constrained : ckeeps constrained jwt_init_table.
Proof. unfold jwt_init_table. repeat first [ckeeps_step | apply session_table_constrained]. Qed.

Lemma migrate_upgraded v n (k : nat) c s s' :
  upgraded v n c (cn_catalog s) -> io_iter migrate_to (seqZ (n + 1) (Z.of_nat k)) s = (Ok tt, s') ->
  upgraded v (n + Z.of_nat k) c (cn_catalog s').
Proof.
  revert n s. induction k as [|k IH]; intros n s Hup Hrun.
  - rewrite Z.add_0_r. simpl in Hrun. io_inv Hrun. exact Hup.
  - rewrite seqZ_cons in Hrun by lia. simpl in Hrun. io_inv Hrun. destruct a.
    replace (n + Z.of_nat (S k))%Z with ((n + 1) + Z.of_nat k)%Z by lia. eapply IH; [by eapply upgraded_step|].
    replace (Z.succ (n + 1)) with ((n + 1) + 1)%Z in Hrun by lia.
    by replace (Z.pred (Z.of_nat (S k))) with (Z.of_nat k) in Hrun by lia.
Qed.

Lemma migrate_from_version_upgraded v last s s' :
  (1 <= v)%Z -> migrate_from_version v last s = (Ok tt, s') ->
  (v <= last)%Z /\ upgraded v last (cn_catalog s) (cn_catalog s').
Proof.
  intros Hv Hrun. destruct (Z_le_gt_dec v last) as [Hle|Hgt].
  - split; [done|]. rewrite migrate_from_version_run in Hrun by lia.
    rewrite <- (Z2Nat.id (last - v)) in Hrun by lia.
    apply (migrate_upgraded v _ _ (cn_catalog s)) in Hrun; [|constructor].
    rewrite Z2Nat.id in Hrun by lia. by replace (v + (last - v))%Z with last in Hrun by lia.
  - unfold migrate_from_version in Hrun. destruct (Z.eqb_spec v last); [lia|]. by destruct (Z.ltb_spec last v); [|lia].
Qed.

Lemma get_schema_version_catalog s : cn_catalog (snd (get_schema_version s)) = cn_catalog s.
Proof.
  assert (ckeeps (fun c => c = cn_catalog s) get_schema_version) as Hk; [|by apply Hk].
  unfold get_schema_version. repeat first [ckeeps_step | apply keeps_select].
Qed.

Lemma migrated_integrity sessions v s s1 s' t :
  (1 <= v)%Z -> shape (cn_catalog s) = tables_at sessions v -> catalog_ok (cn_catalog s) = true ->
  get_schema_version s = (Ok (Some v), s1) -> setup_sql_tables s = (Ok tt, s') ->
  load_tables (cn_catalog s') = Ok t -> integrity t.
Proof.
  intros Hv Hs Hok Hver Hrun Hl. eapply loaded_integrity; [|exact Hl].
  unfold setup_sql_tables, init_table in Hrun. apply io_bind_Ok in Hrun as ([] & s2 & Hinit & Hjwt).
  apply io_bind_Ok in Hinit as (found & s3 & Hf & Hinit). rewrite Hver in Hf. injection Hf as <- <-.
  apply io_bind_Ok in Hinit as (v' & s4 & Hret & Hmig). injection Hret as <- <-.
  apply migrate_from_version_upgraded in Hmig as [Hle Hup]; [|exact Hv].
  pose proof (get_schema_version_catalog s) as Hc. rewrite Hver in Hc. simpl in Hc. rewrite Hc in Hup.
  pose proof (upgraded_constrained sessions v _ _ Hs Hok (conj Hv Hle) Hup) as Hcon.
  pose proof (jwt_tables_constrained s2 Hcon) as Hfin. rewrite Hjwt in Hfin. exact Hfin.
Qed.

(** C7: a server that finds a database of version [v], with the tables that version has
    (those of the sessions or not yet) and whatever rows satisfy their constraints, and
    brings it to the last version, has tables that satisfy the integrity every theorem
    on the backend starts from: memberships, attributes and sessions refer to rows that
    exist, and e-mail addresses and group names are unique without case. *)
Theorem migrated_database_sound sessions v s s1 s' t :
  (1 <= v)%Z -> shape (cn_catalog s) = tables_at sessions v -> catalog_ok (cn_catalog s) = true ->
  get_schema_version s = (Ok (Some v), s1) -> setup_sql_tables s = (Ok tt, s') ->
  load_tables (cn_catalog s') = Ok t -> integrity t.
Proof. apply migrated_integrity. Qed.
End Sound.

(** A database of version 1 with a user in a group that were created before the first
    upgrade. *)
Definition old_rows : list (Sql unit) :=
  [@insert_values demo_sql_extern "users"
     ["user_id"; "email"; "display_name"; "first_name"; "last_name"; "avatar"; "creation_date"; "password_hash"; "uuid"]
     [[CText "alice"; CText "Alice@x.org"; CText ""; CText "Alice"; CNull; CNull; CDate 0; CBlob "h"; CText "a"];
      [CText "bob"; CText "bob@x.org"; CText "Bob"; CText "Bob"; CText ""; CBlob "jpg"; CDate 1; CNull; CText "b"]];
   @insert_values demo_sql_extern "groups" ["group_id"; "display_name"; "creation_date"; "uuid"]
     [[CInt 1; CText "lldap_admin"; CDate 2; CText "g"]];
   @insert_values demo_sql_extern "memberships" ["user_id"; "group_id"]
     [[CText "alice"; CInt 1]; [CText "alice"; CInt 1]; [CText "bob"; CInt 1]]].

Definition old_database : Conn :=
  snd (io_iter (@sql demo_sql_extern lite_engine unit) old_rows (new_database false 1)).

Definition upgraded_database : result MigrationError unit * Conn :=
  @setup_sql_tables lawful_extern demo_sql_extern lite_engine old_database.

Definition upgraded_as_expected (r : result DbErr Tables) : bool :=
  match r with
  | Ok t => bool_decide (t_user_attributes t !! (MkUserId "alice", MkAttributeName "firstname") = Some "Alice")
            && bool_decide (t_memberships t = {[(MkUserId "alice", 1%Z); (MkUserId "bob", 1%Z)]})
  | Err _ => false
  end.

(** The profile of Alice is read as attributes, and both users are members once. *)
Lemma migrated_database_sound_witness :
  upgraded_as_expected (load_tables (cn_catalog (snd upgraded_database))) = true /\
  forall t, load_tables (cn_catalog (snd upgraded_database)) = Ok t -> integrity t.
Proof.
  split; [vm_compute; reflexivity|]. intros t Hl.
  destruct upgraded_database as [r s'] eqn:Hs. unfold upgraded_database in Hs.
  assert (r = Ok tt) as Hr by (change r with (fst (r, s')); rewrite <- Hs; vm_compute; reflexivity). subst r.
  refine (@migrated_database_sound lawful_extern demo_sql_extern lite_engine false 1 old_database
    (snd (@get_schema_version demo_sql_extern lite_engine old_database)) s' t _ _ _ _ Hs Hl).
  - lia.
  - apply (bool_decide_unpack _). vm_compute. exact I.
  - vm_compute. reflexivity.
  - rewrite (surjective_pairing (get_schema_version old_database)). f_equal.
Defined.

(** ** A new database *)

(** The rest of the engine, when no statement fails for reasons of its own. *)
Definition reliable (X : SqlExtern) : SqlExtern := {|
  fault := fun _ => None;
  utc_now := @utc_now X;
  constraint_error := @constraint_error X;
  unknown_column_error := @unknown_column_error X;
  fresh_group_id := @fresh_group_id X;
  sql_like := @sql_like X;
  sql_lower := @sql_lower X;
  date_text := @date_text X;
  date_gte := @date_gte X;
  date_lte := @date_lte X;
  value_gte := @value_gte X;
  value_lte := @value_lte X;
  posix_to_json := @posix_to_json X;
  posix_from_json := @posix_from_json X;
  env_ldap_base_dn := @env_ldap_base_dn X
|}.

Section Fresh.
Context `{Extern}.

Definition seeded_row (a : AttributeSchema) : AttributeName * SchemaRow :=
  (MkAttributeName (as_name a), MkSchemaRow (as_attribute_type a) (as_is_list a) (as_is_visible a) (as_is_editable a)
     true (as_is_readonly a) (json_to_vec (as_aliases a))).

(** The rows of version 5, which version 12 does not replace. *)
Definition legacy_rows : gmap AttributeName SchemaRow :=
  let row t := MkSchemaRow t false true true true false "[]" in
  <[MkAttributeName "first_name" := row TString]> (<[MkAttributeName "last_name" := row TString]>
    {[MkAttributeName "avatar" := row TAvatar]}).

Definition hardcoded (l : list AttributeSchema) : gmap AttributeName SchemaRow :=
  list_to_map (map seeded_row (List.filter as_is_hardcoded l)).

Definition new_tables : Tables :=
  MkTables ∅ ∅ ∅ ∅ ∅ (legacy_rows ∪ hardcoded user_schema_attributes) (hardcoded group_schema_attributes) ∅ ∅
    {["allowedous" := json_to_vec ["people"; "groups"]]} (MkTokenTables ∅ ∅ ∅).

(** What is of interest after creating the tables. *)
Definition outcome (run : result MigrationError unit * Conn) :=
  let c := cn_catalog (snd run) in (fst run, load_tables c, recorded c, catalog_ok c).
End Fresh.

(** On an empty database whose engine goes on after an error inside a transaction,
    the first start creates everything: no statement that matters fails, and the tables
    are those of the last version, with the hard-coded attributes, the two default
    organizational units and nothing else. *)
Theorem new_database_set_up `{Extern} X blob marks commits n :
  let engine := {| errors_abort := false; blob_is_text := blob; question_marks := marks;
    ddl_commits := commits |} in
  exists s, @setup_sql_tables _ (reliable X) engine (MkConn ∅ n NoTx) = (Ok tt, s) /\
    load_tables (cn_catalog s) = Ok new_tables /\ recorded (cn_catalog s) = Some LAST_SCHEMA_VERSION /\
    catalog_ok (cn_catalog s) = true /\ integrity new_tables.
Proof.
  intros engine.
  assert (outcome (@setup_sql_tables _ (reliable X) engine (MkConn ∅ n NoTx)) =
    (Ok tt, Ok new_tables, Some LAST_SCHEMA_VERSION, true)) as Hout
    by (subst engine; destruct marks, commits; vm_compute; reflexivity).
  destruct (@setup_sql_tables _ (reliable X) engine (MkConn ∅ n NoTx)) as [r s]. exists s.
  unfold outcome in Hout. cbn [fst snd] in Hout. injection Hout as Hr Hl Hv Hok. subst r.
  split_and!; [reflexivity|exact Hl|exact Hv|exact Hok|].
  constructor; unfold new_tables; simpl; intros *; try (by rewrite lookup_empty); set_solver.
Qed.
