(* ===== verification/MigratedData.v ===== *)
(** * What the migrations do to attributes

    Version 5 turns the profile columns of the users into attributes, exactly; version 12
    gives the attributes stored under an alias their canonical name, or deletes them; and
    version 12 cannot be reached on an engine that gives up a transaction after an
    error, nor version 5 from a version 4 with some of its tables, which an interrupted
    upgrade leaves where the definition of a table commits. *)

From S2P Require Import Prelude Strings Types Schema SchemaManager Database SqlConfig SqlGroups SqlUsers SqlOps SqlLists.
From S2P Require Import Relational Migrations MigratedDb.
From S2P Require Import MigratedTables MigratedSound.

(** ** Profiles become attributes *)

Section Other.
Context `{Extern, SqlExtern, EngineExtern} (tbl : string) (v : option Table).
Local Abbreviation Same := (fun c : gmap string Table => c !! tbl = v).

Lemma same_on_table name f : String.eqb name tbl = false -> sql_keeps Same (on_table name f).
Proof.
  intros Hn%String.eqb_neq c u c' Hc (tb & tb' & _ & _ & -> & _)%on_table_Ok. by rewrite lookup_insert_ne.
Qed.

Lemma same_create name ine cs ks fks : String.eqb name tbl = false -> sql_keeps Same (create_table name ine cs ks fks).
Proof.
  intros Hn%String.eqb_neq c u c' Hc Hs. unfold create_table in Hs. repeat case_match; simplify_eq; try done.
  by rewrite lookup_insert_ne.
Qed.
End Other.

(** The outcome of a computation that keeps [P]. *)
Lemma ckeeps_Ok {E A} (P : gmap string Table -> Prop) (m : io Conn E A) s a s' :
  ckeeps P m -> m s = (Ok a, s') -> P (cn_catalog s) -> P (cn_catalog s').
Proof. intros Hk Hm Hs. specialize (Hk s Hs). by rewrite Hm in Hk. Qed.

Lemma new_row_key tb cols vs : NoDup cols -> length vs = length cols -> key_of cols (new_row tb (zip cols vs)) = vs.
Proof.
  intros Hn Hl. unfold key_of. apply list_eq. intros i. rewrite list_lookup_fmap.
  destruct (cols !! i) as [c|] eqn:Hc; simpl.
  - destruct (lookup_lt_is_Some_2 vs i) as [v Hv]; [rewrite Hl; by eapply lookup_lt_Some|]. rewrite Hv. f_equal.
    apply cell_new_row; [by rewrite fst_zip by lia|]. apply (list_elem_of_lookup_2 _ i). by rewrite lookup_zip_with, Hc, Hv.
  - symmetry. apply lookup_ge_None. rewrite Hl. by apply lookup_ge_None.
Qed.

Section Profiles.
Context `{Extern, SqlExtern, EngineExtern}.

Lemma insert_view name cols vs c u c' l :
  NoDup cols -> Forall (fun v => length v = length cols) vs -> insert_values name cols vs c = Ok (u, c') ->
  view name cols c = Some l -> view name cols c' = Some (l ++ vs).
Proof.
  intros Hn Hvs (tb & tb' & Hl & Hf & -> & _)%on_table_Ok Hv. apply result_bind_Ok in Hf as ([] & _ & Hf). simplify_eq.
  unfold view in *. rewrite Hl in Hv. rewrite lookup_insert_eq. simpl in *. simplify_eq. f_equal.
  rewrite map_app, map_map. f_equal. clear Hl. induction Hvs as [|v vs Hv _ IH]; simpl; [done|].
  by rewrite new_row_key, IH.
Qed.

Lemma profile_lengths row values :
  profile_attributes row = Ok values -> Forall (fun v => length v = length user_attribute_columns) values.
Proof.
  unfold profile_attributes. intros Hp. repeat (apply result_bind_Ok in Hp as (? & _ & Hp)). simplify_eq.
  rewrite !Forall_app. split_and!; case_match; by repeat constructor.
Qed.

Lemma select_all_Ok {A} name uses (decode : gmap string Cell -> result DbErr A) s l s' :
  select_all name uses decode s = (Ok l, s') ->
  exists tb, cn_catalog s !! name = Some tb /\ collect (map decode (tb_rows tb)) = Ok l /\
    cn_catalog s' = cn_catalog s.
Proof.
  unfold select_all. intros Hs. io_inv Hs. apply sql_Ok in Hm as [Hm _]. unfold select in Hm.
  destruct (cn_catalog s !! name) as [tb|]; [|done]. apply result_bind_Ok in Hm as ([] & _ & Hm).
  exists tb. injection Hm as <- <-. split_and!; [done| |done]. by apply map_err_Ok in Hs.
Qed.

Lemma create_view name cs ks fks c u c' cols :
  create_table name false cs ks fks c = Ok (u, c') -> view name cols c' = Some [].
Proof.
  unfold create_table. intros Hc. case_match; [done|]. simplify_eq. unfold view. by rewrite lookup_insert_eq.
Qed.

Lemma sql_keeps_Ok {A} (P : gmap string Table -> Prop) (f : Sql A) s a s' :
  sql f s = (Ok a, s') -> sql_keeps P f -> P (cn_catalog s) -> P (cn_catalog s').
Proof. intros Hs Hf. eapply ckeeps_Ok; [by apply ckeeps_sql|done]. Qed.

Lemma ddl_keeps_Ok (P : gmap string Table -> Prop) (f : Sql unit) s a s' :
  ddl f s = (Ok a, s') -> sql_keeps P f -> P (cn_catalog s) -> P (cn_catalog s').
Proof. intros Hs Hf. eapply ckeeps_Ok; [by apply ckeeps_ddl|done]. Qed.

Lemma copy_profiles_view s s' :
  copy_profiles s = (Ok tt, s') -> view "user_attributes" user_attribute_columns (cn_catalog s) = Some [] ->
  exists users values, cn_catalog s !! "users" = Some users /\
    collect (map profile_attributes (tb_rows users)) = Ok values /\
    view "user_attributes" user_attribute_columns (cn_catalog s') = Some (concat values).
Proof.
  unfold copy_profiles. intros Hm Hv. apply io_bind_Ok in Hm as (values & s1 & Hs & Hm).
  apply select_all_Ok in Hs as (users & Hu & Hc & Hs). exists users, values. split_and!; [done..|].
  assert (Forall (fun v => length v = length user_attribute_columns) (concat values)) as Hlen.
  { apply collect_map_Ok in Hc. clear -Hc. induction Hc as [|row vs rows vss Hp _ IH]; simpl; [constructor|].
    apply Forall_app. split; [by eapply profile_lengths|done]. }
  destruct (concat values) as [|x rows] eqn:Heq.
  - io_inv Hm. by rewrite Hs.
  - rewrite <- Heq in *. apply sql_Ok in Hm as [Hm _]. rewrite <- Hs in Hv.
    refine (insert_view _ user_attribute_columns _ _ _ _ [] _ Hlen Hm Hv). by apply (bool_decide_unpack _).
Qed.

(** The new tables are empty, and the users as they were, when the profiles are copied. *)
Lemma v5_tables s a1 s1 a2 s2 a3 s3 a4 s4 a5 s5 cs vs :
  ddl (attribute_schema_v5 "user") s = (Ok a1, s1) -> ddl (attribute_schema_v5 "group") s1 = (Ok a2, s2) ->
  ddl (attributes_v5 "user" (StringLen 255)) s2 = (Ok a3, s3) -> ddl (attributes_v5 "group" IntegerCol) s3 = (Ok a4, s4) ->
  sql (insert_values "user_attribute_schema" cs vs) s4 = (Ok a5, s5) ->
  cn_catalog s5 !! "users" = cn_catalog s !! "users" /\
  view "user_attributes" user_attribute_columns (cn_catalog s5) = Some [].
Proof.
  intros Hs1 Hs2 Hs3 Hs4 Hs5. split.
  - set (Same := fun c : gmap string Table => c !! "users" = cn_catalog s !! "users"). change (Same (cn_catalog s5)).
    apply (sql_keeps_Ok _ _ _ _ _ Hs5); [by apply same_on_table|].
    apply (ddl_keeps_Ok _ _ _ _ _ Hs4); [by apply same_create|].
    apply (ddl_keeps_Ok _ _ _ _ _ Hs3); [by apply same_create|].
    apply (ddl_keeps_Ok _ _ _ _ _ Hs2); [by apply same_create|].
    by apply (ddl_keeps_Ok _ _ _ _ _ Hs1); [apply same_create|].
  - set (Empty := fun c => view "user_attributes" user_attribute_columns c = Some []). change (Empty (cn_catalog s5)).
    apply (sql_keeps_Ok _ _ _ _ _ Hs5); [by apply view_insert_values|].
    apply (ddl_keeps_Ok _ _ _ _ _ Hs4); [by apply view_create_table|].
    apply ddl_Ok in Hs3 as [Hs3 _]. by eapply create_view.
Qed.

Lemma elem_of_concat {A} (x : A) ls : x ∈ concat ls <-> exists l, x ∈ l /\ l ∈ ls.
Proof. rewrite list_elem_of_In, in_concat. setoid_rewrite list_elem_of_In. naive_solver. Qed.

(** The value of a profile column that becomes an attribute. *)
Definition profile_value (row : gmap string Cell) (name b : string) : Prop :=
  (name = "first_name" \/ name = "last_name") /\ cell row name = CText b \/
  name = "avatar" /\ (cell row name = CBlob b \/ cell row name = CText b).

Lemma get_option_Ok {A} (f : Cell -> result DbErr A) c v :
  get_option f c = Ok v -> (c = CNull /\ v = None) \/ exists a, f c = Ok a /\ v = Some a.
Proof. unfold get_option. destruct c; intros Hc; [left; by simplify_eq|..]; right; destruct (f _); naive_solver. Qed.

Lemma get_bytes_Ok c b : get_bytes c = Ok b <-> c = CBlob b \/ c = CText b.
Proof. destruct c; simpl; naive_solver. Qed.

Lemma profile_attributes_spec row values r :
  profile_attributes row = Ok values ->
  r ∈ values <-> exists id name b, r = [CText id; CText name; CBlob b] /\ cell row "user_id" = CText id /\
    profile_value row name b.
Proof.
  unfold profile_attributes. intros Hp. apply result_bind_Ok in Hp as (id & Hid%get_text_Ok & Hp).
  apply result_bind_Ok in Hp as (fn & Hfn%get_option_Ok & Hp). apply result_bind_Ok in Hp as (ln & Hln%get_option_Ok & Hp).
  apply result_bind_Ok in Hp as (av & Hav%get_option_Ok & Hp). injection Hp as <-.
  assert (forall name v, r ∈ match v with Some b => [[CText id; CText name; CBlob b]] | None => [] end <->
    exists b, v = Some b /\ r = [CText id; CText name; CBlob b]) as Hcol.
  { intros name [b|]; [rewrite list_elem_of_singleton; naive_solver|]. split; [intros Hr; by apply elem_of_nil in Hr|naive_solver]. }
  rewrite !elem_of_app, !Hcol. unfold profile_value. rewrite Hid. split.
  - intros [(b & -> & ->)|[(b & -> & ->)|(b & -> & ->)]]; eexists _, _, b; (split; [reflexivity|split; [reflexivity|]]).
    + left. destruct Hfn as [[_ Hn]|(x & Hx%get_text_Ok & [= ->])]; [done|]. split; [by left|done].
    + left. destruct Hln as [[_ Hn]|(x & Hx%get_text_Ok & [= ->])]; [done|]. split; [by right|done].
    + right. destruct Hav as [[_ Hn]|(x & Hx%get_bytes_Ok & [= ->])]; done.
  - intros (id' & name & b & -> & [= <-] & [[[-> | ->] Hv]|[-> Hv]]).
    + left. exists b. rewrite Hv in Hfn. destruct Hfn as [[? _]|(x & [= ->] & ->)]; done.
    + right. left. exists b. rewrite Hv in Hln. destruct Hln as [[? _]|(x & [= ->] & ->)]; done.
    + right. right. exists b. destruct Hav as [[Hn _]|(x & Hx%get_bytes_Ok & ->)].
      * by destruct Hv; congruence.
      * split; [|done]. f_equal. destruct Hx, Hv; congruence.
Qed.

(** The upgrade to version 5 turns the profile of every user into attributes and
    nothing else: a first name, a last name and an avatar that were set are stored
    byte for byte under the names first_name, last_name and avatar, and no user gets
    an attribute it had no value for. *)
Theorem profiles_become_attributes s s' :
  migrate_to_v5 s = (Ok tt, s') ->
  exists users rows, cn_catalog s !! "users" = Some users /\
    view "user_attributes" user_attribute_columns (cn_catalog s') = Some rows /\
    forall r, r ∈ rows <-> exists row id name b, row ∈ tb_rows users /\ cell row "user_id" = CText id /\
      profile_value row name b /\ r = [CText id; CText name; CBlob b].
Proof.
  unfold migrate_to_v5. intros Hm. apply io_bind_Ok in Hm as (a1 & s1 & Hs1 & Hm).
  apply io_bind_Ok in Hm as (a2 & s2 & Hs2 & Hm). apply io_bind_Ok in Hm as (a3 & s3 & Hs3 & Hm).
  apply io_bind_Ok in Hm as (a4 & s4 & Hs4 & Hm). apply io_bind_Ok in Hm as (a5 & s5 & Hs5 & Hm).
  apply io_bind_Ok in Hm as ([] & s6 & Hs6 & Hm).
  destruct (v5_tables _ _ _ _ _ _ _ _ _ _ _ _ _ Hs1 Hs2 Hs3 Hs4 Hs5) as [Husers Hv].
  destruct (copy_profiles_view _ _ Hs6 Hv) as (users & values & Hu & Hc & Hv6).
  exists users, (concat values). split_and!; [by rewrite <- Husers| |].
  - eapply (ckeeps_Ok (fun c => view "user_attributes" user_attribute_columns c = Some (concat values))); [|exact Hm|done].
    apply ckeeps_iter. intros col Hcol. by apply ckeeps_ddl, view_drop_column.
  - intros r. apply collect_map_Ok in Hc. rewrite elem_of_concat. split.
    + intros (vs & Hr & (i & Hi)%list_elem_of_lookup). destruct (Forall2_lookup_r _ _ _ _ _ Hc Hi) as (row & Hrow & Hp).
      apply (profile_attributes_spec _ _ r Hp) in Hr as (id & name & b & -> & Hid & Hv').
      exists row, id, name, b. split_and!; [by eapply list_elem_of_lookup_2|done..].
    + intros (row & id & name & b & (i & Hi)%list_elem_of_lookup & Hid & Hv' & ->).
      destruct (Forall2_lookup_l _ _ _ _ _ Hc Hi) as (vs & Hvs & Hp). exists vs.
      split; [|by eapply list_elem_of_lookup_2]. apply (profile_attributes_spec _ _ _ Hp). eauto 10.
Qed.
End Profiles.

(** ** Aliases *)

Lemma filter_true {A} (p : A -> bool) l : (forall x, x ∈ l -> p x = true) -> List.filter p l = l.
Proof.
  induction l as [|x l IH]; intros Hp; simpl; [done|]. rewrite (Hp x ltac:(left)). f_equal. apply IH. intros y Hy.
  apply Hp. by right.
Qed.

Lemma NoDup_map_eq {A B} (f : A -> B) l x y : NoDup (map f l) -> x ∈ l -> y ∈ l -> f x = f y -> x = y.
Proof.
  intros Hn (i & Hi)%list_elem_of_lookup (j & Hj)%list_elem_of_lookup Hf.
  assert (i = j) as ->; [|congruence]. eapply NoDup_lookup; [exact Hn| |]; rewrite list_lookup_fmap.
  - by rewrite Hi.
  - by rewrite Hj, Hf.
Qed.

Lemma with_rows_id tb : with_rows tb (tb_rows tb) = tb.
Proof. by destruct tb. Qed.

(** Rows of a table nothing refers to are replaced: only its own constraints matter. *)
Lemma catalog_ok_replace c name tb rows :
  catalog_ok c = true -> c !! name = Some tb ->
  (forall n t fk, c !! n = Some t -> fk ∈ tb_foreign_keys t -> fk_table fk <> name) ->
  catalog_ok (<[name := with_rows tb rows]> c) = table_ok c (with_rows tb rows).
Proof.
  intros Hok Hl Hun.
  assert (forall n t, c !! n = Some t -> forall rs, table_ok (<[name := with_rows tb rows]> c) (with_rows t rs) =
    table_ok c (with_rows t rs)) as Heq.
  { intros n t Ht rs. unfold table_ok. simpl. f_equal. apply eq_iff_eq_true. rewrite !forallb_Forall, !Forall_forall.
    split; intros Hf fk Hfk; specialize (Hf fk Hfk); rewrite forallb_Forall, Forall_forall in *; intros row Hrow;
      specialize (Hf row Hrow); unfold refers in *; (rewrite lookup_insert_ne in * by (symmetry; by eapply Hun)); done. }
  apply eq_iff_eq_true. unfold catalog_ok. rewrite forallb_Forall, Forall_forall. split.
  - intros Hf. rewrite <- (Heq _ _ Hl). apply (Hf (name, with_rows tb rows)). apply elem_of_map_to_list, lookup_insert_eq.
  - intros Hf [n t] Hn%elem_of_map_to_list. simpl. destruct (decide (n = name)) as [->|Hne].
    + rewrite lookup_insert_eq in Hn. simplify_eq. by rewrite (Heq _ _ Hl).
    + rewrite lookup_insert_ne in Hn by done. pose proof (Heq _ _ Hn (tb_rows t)) as He. rewrite with_rows_id in He. rewrite He.
      by eapply catalog_table_ok.
Qed.

Definition id_column : string := "user_attribute_user_id".
Definition name_column : string := "user_attribute_name".

(** The table [user_attributes] with the constraints of version 5, and [canonical] the
    name of an attribute of the schema. *)
Record attributes_ready (c : gmap string Table) (tb : Table) (canonical : string) : Prop := {
  ar_table : c !! "user_attributes" = Some tb;
  ar_columns : map (fun cd => (cd_name cd, cd_not_null cd)) (tb_columns tb) =
               [(id_column, true); (name_column, true); ("user_attribute_value", true)];
  ar_keys : map snd (tb_keys tb) = [[id_column; name_column]];
  ar_foreign_keys : tb_foreign_keys tb =
    [MkForeignKey id_column "users" "user_id";
     MkForeignKey name_column "user_attribute_schema" "user_attribute_schema_name"];
  ar_unreferenced n t fk : c !! n = Some t -> fk ∈ tb_foreign_keys t -> fk_table fk <> "user_attributes";
  ar_canonical : exists schema row, c !! "user_attribute_schema" = Some schema /\ row ∈ tb_rows schema /\
    cell row "user_attribute_schema_name" = CText canonical
}.

Definition renamed (canonical alias : string) (row : gmap string Cell) : gmap string Cell :=
  if col_is name_column (CText alias) row then <[name_column := CText canonical]> row else row.

(** Some user has the attribute under both names. *)
Definition has_both (canonical alias : string) (rows : list (gmap string Cell)) : bool :=
  existsb (fun r1 => col_is name_column (CText alias) r1 &&
    existsb (fun r2 => col_is name_column (CText canonical) r2 && bool_decide (cell r2 id_column = cell r1 id_column)) rows)
    rows.

Section Renaming.
Context (canonical alias : string) (Hne : canonical <> alias) (c : gmap string Table) (tb : Table).
Context (Hready : attributes_ready c tb canonical) (Hok : table_ok c tb = true).

Lemma ready_filled row x : row ∈ tb_rows tb -> x ∈ [id_column; name_column; "user_attribute_value"] ->
  is_null (cell row x) = false.
Proof.
  intros Hrow Hx. unfold table_ok in Hok. apply andb_prop in Hok as [Hf _]. apply andb_prop in Hf as [Hf _].
  rewrite forallb_Forall, Forall_forall in Hf.
  assert ((x, true) ∈ map (fun cd => (cd_name cd, cd_not_null cd)) (tb_columns tb)) as Hin.
  { rewrite (ar_columns _ _ _ Hready). set_solver. }
  apply list_elem_of_fmap in Hin as (cd & Hcd & Hin). simplify_eq. specialize (Hf cd Hin).
  rewrite forallb_Forall, Forall_forall in Hf. specialize (Hf row Hrow). unfold filled in Hf.
  match goal with H : true = cd_not_null cd |- _ => rewrite <- H in Hf end. by apply negb_true_iff in Hf.
Qed.

Definition full_key (row : gmap string Cell) : list Cell := [cell row id_column; cell row name_column].

Lemma key_full row : key_of [id_column; name_column] row = full_key row.
Proof. done. Qed.

Definition rename_key (k : list Cell) : list Cell :=
  match k with [u; n] => [u; if bool_decide (n = CText alias) then CText canonical else n] | _ => k end.

Lemma renamed_id row : cell (renamed canonical alias row) id_column = cell row id_column.
Proof. unfold renamed. case_match; [|done]. by rewrite cell_insert_ne. Qed.

Lemma renamed_key row : full_key (renamed canonical alias row) = rename_key (full_key row).
Proof.
  unfold full_key. rewrite renamed_id. simpl. f_equal. f_equal. unfold renamed, col_is.
  case_bool_decide; [by rewrite cell_insert|done].
Qed.

Lemma renamed_filled row x :
  row ∈ tb_rows tb -> x ∈ [id_column; name_column; "user_attribute_value"] ->
  is_null (cell (renamed canonical alias row) x) = false.
Proof.
  intros Hrow Hx. unfold renamed. case_match; [|by apply ready_filled].
  destruct (decide (x = name_column)) as [->|Hn]; [by rewrite cell_insert|]. rewrite cell_insert_ne by done.
  by apply ready_filled.
Qed.

(** Without nulls a key is unique when its values are distinct. *)
Lemma unique_full rows :
  (forall row x, row ∈ rows -> x ∈ [id_column; name_column; "user_attribute_value"] -> is_null (cell row x) = false) ->
  unique [id_column; name_column] rows = bool_decide (NoDup (map full_key rows)).
Proof.
  intros Hf. unfold unique. rewrite filter_true; [done|]. intros k (row & -> & Hrow)%list_elem_of_fmap.
  unfold key_of. simpl. by rewrite !Hf by (done || set_solver).
Qed.

Lemma full_keys_distinct : NoDup (map full_key (tb_rows tb)).
Proof.
  apply (bool_decide_eq_true (NoDup _)). rewrite <- unique_full by apply ready_filled.
  unfold table_ok in Hok. apply andb_prop in Hok as [Hf _]. apply andb_prop in Hf as [_ Hk].
  rewrite forallb_Forall, Forall_forall in Hk. pose proof (ar_keys _ _ _ Hready) as Hkeys.
  destruct (tb_keys tb) as [|k keys]; [done|]. simpl in Hkeys. specialize (Hk k ltac:(left)). simpl in Hk.
  injection Hkeys as Hkey _. by rewrite Hkey in Hk.
Qed.

Lemma has_both_spec rows :
  has_both canonical alias rows = true <->
  exists r1 r2, r1 ∈ rows /\ r2 ∈ rows /\ cell r1 name_column = CText alias /\
    cell r2 name_column = CText canonical /\ cell r2 id_column = cell r1 id_column.
Proof.
  unfold has_both. rewrite existsb_elem. split.
  - intros (r1 & H1 & [Ha (r2 & H2 & [Hc Hi]%andb_prop)%existsb_elem]%andb_prop).
    apply bool_decide_eq_true in Ha, Hc, Hi. eauto 10.
  - intros (r1 & r2 & H1 & H2 & Ha & Hc & Hi). exists r1. split; [done|]. apply andb_true_iff.
    split; [by apply bool_decide_eq_true|]. apply existsb_elem. exists r2. split; [done|]. apply andb_true_iff.
    by split; apply bool_decide_eq_true.
Qed.

Lemma renamed_distinct :
  NoDup (map full_key (map (renamed canonical alias) (tb_rows tb))) <-> has_both canonical alias (tb_rows tb) = false.
Proof.
  rewrite map_map, (map_ext _ (fun row => rename_key (full_key row)) renamed_key), <- (map_map full_key rename_key).
  pose proof full_keys_distinct as Hd. split.
  - intros Hn. apply not_true_iff_false. intros (r1 & r2 & H1 & H2 & Ha & Hc & Hi)%has_both_spec.
    assert (full_key r1 = full_key r2) as Heq.
    { apply (NoDup_map_eq rename_key _ _ _ Hn); [by apply list_elem_of_fmap; eexists|by apply list_elem_of_fmap; eexists|].
      simpl. rewrite Ha, Hc, Hi. rewrite bool_decide_eq_true_2 by done. by rewrite bool_decide_eq_false_2 by congruence. }
    unfold full_key in Heq. congruence.
  - intros Hb. apply NoDup_fmap_2_strong; [|done].
    intros x y (r1 & -> & H1)%list_elem_of_fmap (r2 & -> & H2)%list_elem_of_fmap Heq. unfold full_key in *. simpl in Heq.
    assert (forall r1 r2, r1 ∈ tb_rows tb -> r2 ∈ tb_rows tb -> cell r2 id_column = cell r1 id_column ->
      cell r1 name_column = CText alias -> cell r2 name_column = CText canonical -> False) as Hno.
    { intros r r' Hr Hr' Hi Ha Hc. rewrite <- not_true_iff_false in Hb. apply Hb, has_both_spec. eauto 10. }
    injection Heq as Hi Hname. f_equal; [done|]. f_equal. repeat case_bool_decide; try congruence.
    + exfalso. by apply (Hno r1 r2).
    + exfalso. by apply (Hno r2 r1).
Qed.

(** The new name is accepted exactly when no user has both names. *)
Lemma renamed_ok :
  table_ok c (with_rows tb (map (renamed canonical alias) (tb_rows tb))) = negb (has_both canonical alias (tb_rows tb)).
Proof.
  assert (forall row x, row ∈ map (renamed canonical alias) (tb_rows tb) ->
    x ∈ [id_column; name_column; "user_attribute_value"] -> is_null (cell row x) = false) as Hfill.
  { intros row x (r & -> & Hr)%list_elem_of_fmap Hx. by apply renamed_filled. }
  unfold table_ok. simpl. rewrite (proj2 (forallb_forall _ _)).
  2:{ intros cd Hcd%list_elem_of_In. apply forallb_Forall, Forall_forall. intros row Hrow. unfold filled.
      assert ((cd_name cd, cd_not_null cd) ∈ map (fun cd => (cd_name cd, cd_not_null cd)) (tb_columns tb)) as Hin
        by (apply list_elem_of_fmap; eauto).
      rewrite (ar_columns _ _ _ Hready) in Hin. rewrite Hfill; [by rewrite andb_false_r|done|set_solver]. }
  rewrite (ar_foreign_keys _ _ _ Hready).
  rewrite (proj2 (forallb_forall _ [_; _])).
  2:{ intros fk Hfk%list_elem_of_In. apply forallb_Forall, Forall_forall. intros row (r & -> & Hr)%list_elem_of_fmap.
      unfold table_ok in Hok. apply andb_prop in Hok as [_ Hf]. rewrite (ar_foreign_keys _ _ _ Hready) in Hf.
      rewrite forallb_Forall, Forall_forall in Hf. specialize (Hf fk Hfk).
      rewrite forallb_Forall, Forall_forall in Hf. specialize (Hf r Hr). unfold refers in *.
      apply elem_of_cons in Hfk as [->|Hfk%list_elem_of_singleton]; [by rewrite renamed_id|]. subst fk. simpl in *.
      unfold renamed. destruct (col_is name_column (CText alias) r); [|exact Hf]. rewrite cell_insert. simpl.
      destruct (ar_canonical _ _ _ Hready) as (schema & sr & -> & Hsr & Hname). apply existsb_elem. exists sr.
      split; [done|]. by apply bool_decide_eq_true. }
  rewrite andb_true_r. simpl. pose proof (ar_keys _ _ _ Hready) as Hkeys.
  destruct (tb_keys tb) as [|k [|]]; try done. simpl in *. injection Hkeys as Hkey. rewrite andb_true_r, Hkey, (unique_full _ Hfill).
  destruct (has_both canonical alias (tb_rows tb)) eqn:Hb; simpl.
  - apply bool_decide_eq_false. intros Hn%renamed_distinct. congruence.
  - by apply bool_decide_eq_true, renamed_distinct.
Qed.
End Renaming.

(** Deleting rows breaks no constraint of their own table. *)
Lemma table_ok_filter c tb (p : gmap string Cell -> bool) :
  table_ok c tb = true -> table_ok c (with_rows tb (List.filter p (tb_rows tb))) = true.
Proof.
  assert (forall f : gmap string Cell -> bool, forallb f (tb_rows tb) = true ->
    forallb f (List.filter p (tb_rows tb)) = true) as Hall.
  { intros f. rewrite !forallb_forall. intros Hf row [Hrow _]%filter_In. by apply Hf. }
  assert (forall key, unique key (tb_rows tb) = true -> unique key (List.filter p (tb_rows tb)) = true) as Huniq.
  { intros key. unfold unique. rewrite !bool_decide_eq_true. intros Hn. eapply sublist_NoDup; [exact Hn|].
    clear. induction (tb_rows tb) as [|row rows IH]; simpl; [constructor|].
    destruct (p row); simpl; (destruct (negb _); [by constructor|done]). }
  unfold table_ok. simpl. rewrite !andb_true_iff, !forallb_forall. intros [[Hf Hk] Hr]. split_and!.
  - intros cd Hcd. by apply Hall, Hf.
  - intros k Hkey. by apply Huniq, Hk.
  - intros fk Hfk. by apply Hall, Hr.
Qed.

Section Normalizing.
Context `{Extern, SqlExtern, EngineExtern}.

(** The engine fails at the statement of the number. *)
Definition fails (n : nat) : bool := bool_decide (fault n <> None).

(** [let _ = execute(..).await] when an error does not end the transaction *)
Lemma ignoring_run {A} (f : Sql A) s :
  errors_abort = false -> cn_tx s <> Aborted ->
  exists s', ignoring f s = (Ok tt, s') /\ cn_tx s' = cn_tx s /\ cn_tick s' = S (cn_tick s) /\
    cn_catalog s' = if fails (cn_tick s) then cn_catalog s
                    else match f (cn_catalog s) with Ok (_, c) => c | Err _ => cn_catalog s end.
Proof.
  intros Ha Htx. unfold ignoring, io_bind, io_try, cexec, run_statement, implicit_commit, fails. simpl.
  destruct (cn_tx s) eqn:Ht; [| |done|]; destruct (fault (cn_tick s)); simpl;
    [|destruct (f (cn_catalog s)) as [[a c]|e]| |destruct (f (cn_catalog s)) as [[a c]|e]|
     |destruct (f (cn_catalog s)) as [[a c]|e]]; eexists; (split; [done|]); by simpl; rewrite ?Ht, ?Ha.
Qed.

Section Alias.
Context (canonical alias : string) (s : Conn) (tb : Table).
Context (Hmarks : question_marks = true) (Habort : errors_abort = false) (Htx : cn_tx s <> Aborted).
Context (Hok : catalog_ok (cn_catalog s) = true).
Context (Hready : attributes_ready (cn_catalog s) tb canonical) (Hne : canonical <> alias).

Lemma attributes_require cols :
  (forall x, x ∈ cols -> x ∈ [id_column; name_column; "user_attribute_value"]) -> forall rows,
  require (with_rows tb rows) cols = Ok tt.
Proof.
  intros Hin rows. unfold require. destruct (find _ cols) as [x|] eqn:Hfind; [|done].
  apply find_some in Hfind as [Hx%list_elem_of_In Hno]. specialize (Hin _ Hx). apply negb_true_iff in Hno.
  unfold has_column in Hno. simpl in Hno. rewrite existsb_not_elem in Hno.
  assert (x ∈ map cd_name (tb_columns tb)) as (cd & -> & Hcd)%list_elem_of_fmap.
  { assert (map cd_name (tb_columns tb) = map fst (map (fun cd => (cd_name cd, cd_not_null cd)) (tb_columns tb))) as ->
      by (by rewrite map_map).
    rewrite (ar_columns _ _ _ Hready). done. }
  specialize (Hno cd Hcd). by rewrite String.eqb_refl in Hno.
Qed.

Lemma attributes_checked rows :
  checked (<["user_attributes" := with_rows tb rows]> (cn_catalog s)) =
  if table_ok (cn_catalog s) (with_rows tb rows)
  then Ok (tt, <["user_attributes" := with_rows tb rows]> (cn_catalog s)) else violated "constraint".
Proof.
  unfold checked.
  by rewrite (catalog_ok_replace _ _ _ _ Hok (ar_table _ _ _ Hready) (ar_unreferenced _ _ _ Hready)).
Qed.

Lemma rename_alias :
  update "user_attributes" [] [(name_column, fun _ => CText canonical)] (col_is name_column (CText alias)) (cn_catalog s) =
  if has_both canonical alias (tb_rows tb) then violated "constraint"
  else Ok (tt, <["user_attributes" := with_rows tb (map (renamed canonical alias) (tb_rows tb))]> (cn_catalog s)).
Proof.
  unfold update, on_table. rewrite (ar_table _ _ _ Hready).
  assert (require tb [name_column] = Ok tt) as Hreq.
  { rewrite <- (with_rows_id tb). apply attributes_require. set_solver. }
  simpl. rewrite Hreq. simpl.
  change (map _ (tb_rows tb)) with (map (renamed canonical alias) (tb_rows tb)).
  rewrite attributes_checked, (renamed_ok canonical alias Hne); [by destruct (has_both _ _ _)|done..|].
  by eapply catalog_table_ok, ar_table.
Qed.

Definition not_alias (row : gmap string Cell) : bool := negb (col_is name_column (CText alias) row).

Lemma delete_alias rows :
  table_ok (cn_catalog s) (with_rows tb rows) = true ->
  delete_where "user_attributes" [name_column] (col_is name_column (CText alias))
    (<["user_attributes" := with_rows tb rows]> (cn_catalog s)) =
  Ok (tt, <["user_attributes" := with_rows tb (List.filter not_alias rows)]> (cn_catalog s)).
Proof.
  intros Hrows. unfold delete_where, on_table. rewrite lookup_insert_eq.
  rewrite attributes_require by set_solver. simpl. rewrite insert_insert_eq.
  change (with_rows (with_rows tb rows) ?l) with (with_rows tb l). rewrite attributes_checked.
  pose proof (table_ok_filter _ _ not_alias Hrows) as Hf.
  change (with_rows (with_rows tb rows) ?l) with (with_rows tb l) in Hf.
  change (tb_rows (with_rows tb rows)) with rows in Hf. unfold not_alias in *. by rewrite Hf.
Qed.

Lemma renamed_not_alias rows :
  List.filter not_alias (map (renamed canonical alias) rows) = map (renamed canonical alias) rows.
Proof.
  apply filter_true. intros row (r & -> & _)%list_elem_of_fmap. unfold not_alias, renamed.
  destruct (col_is name_column (CText alias) r) eqn:Ha; [|by rewrite Ha]. unfold col_is. rewrite cell_insert.
  apply negb_true_iff, bool_decide_eq_false. congruence.
Qed.

(** The rows left when nothing was renamed, and when all were. *)
Lemma unrenamed_deleted :
  delete_where "user_attributes" [name_column] (col_is name_column (CText alias)) (cn_catalog s) =
  Ok (tt, <["user_attributes" := with_rows tb (List.filter not_alias (tb_rows tb))]> (cn_catalog s)).
Proof.
  rewrite <- (insert_id (cn_catalog s) "user_attributes" (with_rows tb (tb_rows tb))) at 1
    by (rewrite with_rows_id; apply Hready).
  rewrite delete_alias; [done|]. rewrite with_rows_id. by eapply catalog_table_ok, ar_table.
Qed.

Lemma renamed_deleted :
  has_both canonical alias (tb_rows tb) = false ->
  let c := <["user_attributes" := with_rows tb (map (renamed canonical alias) (tb_rows tb))]> (cn_catalog s) in
  delete_where "user_attributes" [name_column] (col_is name_column (CText alias)) c = Ok (tt, c).
Proof.
  intros Hb c. unfold c. rewrite delete_alias, renamed_not_alias; [done|].
  rewrite (renamed_ok canonical alias Hne); [by rewrite Hb|done|]. by eapply catalog_table_ok, ar_table.
Qed.

(** C24: on an engine that knows the marks of the statements and whose errors do not end the
    transaction, such as SQLite, the call of version 12 that normalizes one alias of one
    attribute of the users, on a catalog whose constraints hold, gives the attributes stored under
    the alias their canonical name and keeps every value, provided no user has the
    attribute under both names and the renaming does not fail.  As soon as one user has both,
    or the engine fails at that statement, the error is ignored and the attributes of all
    users under the alias are deleted, unless the engine fails there as well. *)
Theorem alias_normalized :
  exists s', normalize_alias "user" canonical alias s = (Ok tt, s') /\
    cn_catalog s' = <["user_attributes" := with_rows tb
      (if has_both canonical alias (tb_rows tb) || fails (cn_tick s)
       then if fails (S (cn_tick s)) then tb_rows tb else List.filter not_alias (tb_rows tb)
       else map (renamed canonical alias) (tb_rows tb))]> (cn_catalog s).
Proof.
  set (upd := update "user_attributes" [] [(name_column, fun _ => CText canonical)] (col_is name_column (CText alias))).
  set (del := delete_where "user_attributes" [name_column] (col_is name_column (CText alias))).
  assert (normalize_alias "user" canonical alias s = (let! _ := ignoring upd in ignoring del) s) as ->
    by (unfold normalize_alias, with_placeholders; rewrite Hmarks; reflexivity).
  destruct (ignoring_run upd s Habort Htx) as (s1 & Hs1 & Htx1 & Hn1 & Hc1).
  destruct (ignoring_run del s1 Habort) as (s2 & Hs2 & _ & _ & Hc2); [congruence|].
  exists s2. split; [unfold io_bind at 1; by rewrite Hs1|]. rewrite Hc2, Hn1, Hc1. unfold upd, del. rewrite rename_alias.
  assert (cn_catalog s = <["user_attributes" := with_rows tb (tb_rows tb)]> (cn_catalog s)) as Hsame
    by (rewrite with_rows_id, insert_id; [done|apply Hready]).
  destruct (has_both _ _ _) eqn:Hb, (fails (cn_tick s)), (fails (S (cn_tick s))); simpl; try exact Hsame;
    by rewrite ?unrenamed_deleted, ?(renamed_deleted Hb).
Qed.
End Alias.
End Normalizing.

(** ** An engine that gives up a transaction after an error *)

Section Aborting.
Context `{Extern, SqlExtern, EngineExtern}.

Definition schema_table : string := "user_attribute_schema".
Definition schema_name : string := "user_attribute_schema_name".

(** The attribute avatar is in the schema of the users, whose names are distinct. *)
Definition avatar_in_schema (c : gmap string Table) : Prop :=
  exists tb row index, c !! schema_table = Some tb /\ row ∈ tb_rows tb /\ cell row schema_name = CText "avatar" /\
    (index, [schema_name]) ∈ tb_keys tb.

(** What holds when a computation succeeds. *)
Definition triple {A} (P : Conn -> Prop) (m : io Conn MigrationError A) (Q : Conn -> Prop) : Prop :=
  forall s a s', P s -> m s = (Ok a, s') -> Q s'.

Definition aborted (s : Conn) : Prop := cn_tx s = Aborted.
Definition doomed (s : Conn) : Prop := aborted s \/ cn_tx s = InTx /\ avatar_in_schema (cn_catalog s).

Lemma triple_bind {A B} P Q R (m : io Conn MigrationError A) (k : A -> io Conn MigrationError B) :
  triple P m Q -> (forall a, triple Q (k a) R) -> triple P (io_bind m k) R.
Proof. intros Hm Hk s b s' Hs (a & s1 & Hr1 & Hr2)%io_bind_Ok. eapply Hk; [|exact Hr2]. by eapply Hm. Qed.

Lemma triple_ret {A} P (a : A) : triple P (io_ret a) P.
Proof. intros s b s' Hs Hr. unfold io_ret in Hr. by simplify_eq. Qed.

Lemma triple_iter {A} P (f : A -> io Conn MigrationError unit) l :
  (forall a, a ∈ l -> triple P (f a) P) -> triple P (io_iter f l) P.
Proof.
  induction l as [|a l IH]; intros Hf; simpl; [apply triple_ret|].
  eapply triple_bind; [apply Hf; left|intros _]. apply IH. intros b Hb. apply Hf. by right.
Qed.

Lemma triple_iter_reaches {A} P Q (f : A -> io Conn MigrationError unit) l x :
  x ∈ l -> triple P (f x) Q -> (forall a, a ∈ l -> triple P (f a) P) -> (forall a, a ∈ l -> triple Q (f a) Q) ->
  triple P (io_iter f l) Q.
Proof.
  induction l as [|a l IH]; intros Hx Hfx HP HQ; [by apply elem_of_nil in Hx|]. simpl.
  apply elem_of_cons in Hx as [->|Hx].
  - eapply triple_bind; [exact Hfx|intros _]. apply triple_iter. intros b Hb. apply HQ. by right.
  - eapply triple_bind; [apply HP; left|intros _]. apply IH; [done..| |]; intros b Hb; [apply HP|apply HQ]; by right.
Qed.

Lemma ignoring_cases {A} (f : Sql A) s a s' :
  ignoring f s = (Ok a, s') ->
  (exists b c, f (cn_catalog s) = Ok (b, c) /\ cn_tx s <> Aborted /\ cn_catalog s' = c /\ cn_tx s' = cn_tx s) \/
  s' = after_error s.
Proof.
  unfold ignoring, io_bind, io_try. destruct (cexec_cases f s) as [(b & c & Hf & Ht & ->)|(e & ->)]; intros Hi;
    unfold io_ret in Hi; simplify_eq; [left; eauto 10|by right].
Qed.

Lemma ignoring_aborted {A} (f : Sql A) : triple aborted (ignoring f) aborted.
Proof.
  intros s a s' Hs [(b & c & _ & Ht & _)| ->]%ignoring_cases; [done|]. unfold aborted, after_error in *. simpl.
  by rewrite Hs.
Qed.

Context (Habort : errors_abort = true) (Hddl : ddl_commits = false).

Lemma ignoring_ddl_same (f : Sql unit) s : ignoring_ddl f s = ignoring f s.
Proof.
  unfold ignoring_ddl, ignoring, cexec_ddl, cexec, io_bind, io_try, run_statement, implicit_commit.
  by rewrite Hddl.
Qed.

Lemma after_error_doomed s : doomed s -> aborted (after_error s).
Proof. intros [Hs|[Hs _]]; unfold aborted, after_error in *; simpl; by rewrite Hs, ?Habort. Qed.

Lemma ignoring_doomed {A} (f : Sql A) : sql_keeps avatar_in_schema f -> triple doomed (ignoring f) doomed.
Proof.
  intros Hf s a s' Hs [(b & c & Hb & Ht & Hc & Htx)| ->]%ignoring_cases; [|left; by apply after_error_doomed].
  destruct Hs as [Hs|[Hs Ha]]; [done|]. right. rewrite Htx, Hc. split; [done|]. by eapply Hf.
Qed.

Lemma ignoring_ddl_doomed (f : Sql unit) : sql_keeps avatar_in_schema f -> triple doomed (ignoring_ddl f) doomed.
Proof. intros Hf s a s' Hs. rewrite ignoring_ddl_same. by apply ignoring_doomed. Qed.

(** A statement that must fail aborts the transaction. *)
Lemma ignoring_fails {A} (f : Sql A) :
  (forall c, avatar_in_schema c -> is_ok (f c) = false) -> triple doomed (ignoring f) aborted.
Proof.
  intros Hf s a s' Hs [(b & c & Hb & Ht & _)| ->]%ignoring_cases; [|by apply after_error_doomed].
  destruct Hs as [Hs|[_ Ha]]; [done|]. specialize (Hf _ Ha). by rewrite Hb in Hf.
Qed.

Lemma avatar_on_other name f : String.eqb name schema_table = false -> sql_keeps avatar_in_schema (on_table name f).
Proof.
  intros Hn%String.eqb_neq c u c' Hc (tb & tb' & _ & _ & -> & _)%on_table_Ok. unfold avatar_in_schema in *.
  by rewrite lookup_insert_ne.
Qed.

Lemma avatar_create name ine cs ks fks : sql_keeps avatar_in_schema (create_table name ine cs ks fks).
Proof.
  intros c u c' Hc Hs. unfold create_table in Hs. repeat case_match; simplify_eq; try done.
  destruct Hc as (tb & row & i & Hl & Hrow). unfold avatar_in_schema.
  rewrite lookup_insert_ne by congruence. eauto 10.
Qed.

Lemma avatar_add_column ine cd :
  cd_name cd <> schema_name -> sql_keeps avatar_in_schema (add_column schema_table ine cd).
Proof.
  intros Hn c u c' (tb & row & i & Hl & Hrow & Hcell & Hk) (tb0 & tb' & Hl' & Hf & -> & _)%on_table_Ok. simplify_eq.
  unfold avatar_in_schema. rewrite lookup_insert_eq. repeat case_match; simplify_eq; [by exists tb', row, i|].
  eexists _, (<[cd_name cd := default CNull (cd_default cd)]> row), i. split; [done|]. simpl.
  split; [apply list_elem_of_fmap; eauto|]. by rewrite cell_insert_ne.
Qed.

Lemma avatar_insert cols vs : sql_keeps avatar_in_schema (insert_values schema_table cols vs).
Proof.
  intros c u c' (tb & row & i & Hl & Hrow & Hcell & Hk) (tb0 & tb' & Hl' & Hf & -> & _)%on_table_Ok. simplify_eq.
  apply result_bind_Ok in Hf as ([] & _ & Hf). simplify_eq. unfold avatar_in_schema. rewrite lookup_insert_eq.
  eexists _, row, i. split_and!; [done| |done..]. simpl. apply elem_of_app. by left.
Qed.

Lemma unique_twice (key : string) (x : Cell) rows row r :
  row ∈ rows -> is_null x = false -> cell row key = x -> cell r key = x -> unique [key] (rows ++ [r]) = false.
Proof.
  intros Hrow Hx Hk Hr. apply bool_decide_eq_false. rewrite map_app, List.filter_app. intros (_ & Hn & _)%NoDup_app.
  apply (Hn [x]).
  - apply list_elem_of_In, filter_In. split; [|by simpl; rewrite Hx]. apply list_elem_of_In, list_elem_of_fmap.
    exists row. unfold key_of. simpl. by rewrite Hk.
  - unfold key_of. simpl. rewrite Hr, Hx. by left.
Qed.

Lemma first_cell tb col cols v vs :
  NoDup (col :: cols) -> length vs = length cols -> cell (new_row tb (zip (col :: cols) (v :: vs))) col = v.
Proof.
  intros Hn Hl. pose proof (new_row_key tb (col :: cols) (v :: vs) Hn) as Hkey. unfold key_of in Hkey. simpl map in Hkey.
  assert (length (v :: vs) = length (col :: cols)) as Hlen by (simpl; lia). by injection (Hkey Hlen).
Qed.

(** A second row for avatar is refused. *)
Lemma second_avatar vs c :
  length vs = length (schema_columns_v12 "user") -> vs !! 0 = Some (CText "avatar") -> avatar_in_schema c ->
  is_ok (insert_values schema_table (schema_columns_v12 "user") [vs] c) = false.
Proof.
  intros Hlen Hvs (tb & row & i & Hl & Hrow & Hcell & Hk). apply not_true_iff_false. intros Hok.
  destruct (insert_values _ _ _ _) as [[u c']|] eqn:Hi; [|done].
  apply on_table_Ok in Hi as (tb0 & tb' & Hl' & Hf & -> & Hcat). simplify_eq.
  apply result_bind_Ok in Hf as ([] & _ & Hf).
  assert (cell (new_row tb (zip (schema_columns_v12 "user") vs)) schema_name = CText "avatar") as Hr.
  { destruct vs as [|v vs]; [done|]. injection Hvs as ->. apply first_cell; [|by injection Hlen].
    apply (bool_decide_unpack _). exact I. }
  change (Ok (E := DbErr) (with_rows tb (tb_rows tb ++ [new_row tb (zip (schema_columns_v12 "user") vs)])) = Ok tb') in Hf.
  revert Hf Hr. generalize (new_row tb (zip (schema_columns_v12 "user") vs)) as r. intros r [= <-] Hr.
  pose proof (catalog_table_ok _ _ _ Hcat (lookup_insert_eq _ _ _)) as Ht. unfold table_ok in Ht. simpl in Ht.
  apply andb_prop in Ht as [Ht _]. apply andb_prop in Ht as [_ Ht].
  rewrite forallb_Forall, Forall_forall in Ht. specialize (Ht _ Hk). simpl in Ht.
  by rewrite (unique_twice _ (CText "avatar") _ row) in Ht.
Qed.

Lemma extension_columns_doomed of_ : of_ = "user" \/ of_ = "group" -> triple doomed (extension_columns of_) doomed.
Proof.
  intros [-> | ->]; (eapply triple_bind; [apply ignoring_ddl_doomed|intros _; apply ignoring_ddl_doomed]);
    solve [by apply avatar_on_other|by apply avatar_add_column].
Qed.

Lemma seed_user_doomed a : triple doomed (seed_attribute "user" a) doomed.
Proof. unfold seed_attribute. case_match; [apply ignoring_doomed, avatar_insert|apply triple_ret]. Qed.

Lemma seed_aborted of_ a : triple aborted (seed_attribute of_ a) aborted.
Proof. unfold seed_attribute. case_match; [apply ignoring_aborted|apply triple_ret]. Qed.

Lemma seed_avatar_fails a :
  as_is_hardcoded a = true -> as_name a = "avatar" -> triple doomed (seed_attribute "user" a) aborted.
Proof.
  intros Hh Hn. unfold seed_attribute. rewrite Hh. apply ignoring_fails. intros c Hc. apply second_avatar; [done| |done].
  simpl. by rewrite Hn.
Qed.

Lemma avatar_is_seeded :
  exists a, a ∈ user_schema_attributes /\ as_is_hardcoded a = true /\ as_name a = "avatar".
Proof.
  assert (existsb (fun a => as_is_hardcoded a && String.eqb (as_name a) "avatar") user_schema_attributes = true)
    as (a & Ha & [Hh Hn%String.eqb_eq]%andb_prop)%existsb_elem by (vm_compute; reflexivity).
  eauto.
Qed.

Lemma default_values_aborted : triple aborted default_values aborted.
Proof. unfold default_values. do 4 (eapply triple_bind; [apply ignoring_aborted|intros _]). apply ignoring_aborted. Qed.

Lemma normalize_aliases_aborted of_ attrs : triple aborted (normalize_aliases of_ attrs) aborted.
Proof.
  apply triple_iter. intros a _. apply triple_iter. intros alias _.
  eapply triple_bind; [apply ignoring_aborted|intros _; apply ignoring_aborted].
Qed.

Lemma v12_aborts : triple doomed migrate_to_v12 aborted.
Proof.
  destruct avatar_is_seeded as (a & Ha & Hh & Hn). unfold migrate_to_v12.
  eapply triple_bind; [apply extension_columns_doomed; by left|intros _].
  eapply triple_bind; [apply extension_columns_doomed; by right|intros _].
  eapply (triple_bind _ doomed); [|intros _].
  { eapply triple_bind; [apply ignoring_ddl_doomed, avatar_create|intros _].
    by apply ignoring_doomed, avatar_on_other. }
  eapply triple_bind; [by apply ignoring_ddl_doomed, avatar_on_other|intros _].
  eapply (triple_bind _ aborted); [|intros _].
  { apply (triple_iter_reaches _ _ _ _ a Ha); [by apply seed_avatar_fails|..]; intros b _;
      [apply seed_user_doomed|apply seed_aborted]. }
  eapply triple_bind; [apply triple_iter; intros b _; apply seed_aborted|intros _].
  eapply triple_bind; [apply ignoring_aborted|intros _].
  eapply triple_bind; [apply default_values_aborted|intros _].
  eapply triple_bind; [apply normalize_aliases_aborted|intros _]. apply normalize_aliases_aborted.
Qed.

Lemma sql_aborted {A} (f : Sql A) s : aborted s -> is_ok (fst (sql f s)) = false.
Proof. intros Hs. unfold sql, io_map_err, cexec, run_statement. by rewrite Hs. Qed.

Lemma migrate_to_12_fails s s' : avatar_in_schema (cn_catalog s) -> migrate_to 12 s <> (Ok tt, s').
Proof.
  intros Ha (s0 & s1 & Hc & Htx & Hb & _)%in_transaction_Ok. apply io_bind_Ok in Hb as ([] & s2 & Hm & Hv).
  apply v12_aborts in Hm; [|right; by rewrite Hc]. pose proof (sql_aborted (set_version 12) s2 Hm) as Hf.
  by rewrite Hv in Hf.
Qed.

(** Versions 6 to 11 leave the schema of the users alone. *)
Lemma migrations_keep_schema n m v :
  (6 <= n <= 11)%Z -> migrations !! Z.to_nat (n - 2) = Some m -> ckeeps (fun c => c !! schema_table = v) m.
Proof.
  intros Hn Hm.
  assert (n = 6 \/ n = 7 \/ n = 8 \/ n = 9 \/ n = 10 \/ n = 11)%Z as Hcases by lia.
  destruct_or! Hcases; subst n; injection Hm as <-; unfold_migrations;
    repeat first [ckeeps_step|apply keeps_select|by apply same_on_table|by apply same_create].
Qed.

Lemma migrate_to_keeps_avatar n s s' :
  (6 <= n <= 11)%Z -> migrate_to n s = (Ok tt, s') -> avatar_in_schema (cn_catalog s) -> avatar_in_schema (cn_catalog s').
Proof.
  intros Hn (s0 & s1 & Hc & _ & Hb & ->)%in_transaction_Ok Ha. case_match eqn:Hm; [|done].
  apply io_bind_Ok in Hb as ([] & s2 & Hrun & Hv). pose proof (migrations_keep_schema _ _ (cn_catalog s !! schema_table) Hn Hm) as Hk.
  specialize (Hk s0). rewrite Hrun, Hc in Hk. specialize (Hk eq_refl). simpl in Hk.
  apply sql_Ok in Hv as [Hv _]. eapply (avatar_on_other "metadata"); [done| |exact Hv].
  unfold avatar_in_schema in *. by rewrite Hk.
Qed.

Lemma schema_created s u s' :
  ddl (attribute_schema_v5 "user") s = (Ok u, s') ->
  exists tb index, cn_catalog s' !! schema_table = Some tb /\ (index, [schema_name]) ∈ tb_keys tb.
Proof.
  intros [Hs _]%ddl_Ok. unfold attribute_schema_v5, create_table in Hs. simpl in Hs. case_match; [done|].
  injection Hs as _ <-. eexists _, "primary". split; [apply lookup_insert_eq|]. by left.
Qed.

Lemma schema_filled c c' u tb index vs :
  c !! schema_table = Some tb -> (index, [schema_name]) ∈ tb_keys tb ->
  insert_values schema_table
    ["user_attribute_schema_name"; "user_attribute_schema_type"; "user_attribute_schema_is_list";
     "user_attribute_schema_is_user_visible"; "user_attribute_schema_is_user_editable";
     "user_attribute_schema_is_hardcoded"] (vs ++ [hardcoded_v5 "avatar" TAvatar]) c = Ok (u, c') ->
  avatar_in_schema c'.
Proof.
  intros Hl Hk (tb0 & tb' & Hl' & Hf & -> & _)%on_table_Ok. simplify_eq.
  apply result_bind_Ok in Hf as ([] & _ & Hf). simplify_eq. eexists _, _, index.
  split; [apply lookup_insert_eq|]. cbn [with_rows tb_rows tb_keys]. rewrite map_app. split_and!; [| |exact Hk].
  - apply elem_of_app. right. apply elem_of_app. right. by left.
  - apply cell_new_row; [apply (bool_decide_unpack _); exact I|by left].
Qed.

Lemma v5_avatar s s' : migrate_to 5 s = (Ok tt, s') -> avatar_in_schema (cn_catalog s').
Proof.
  intros (s0 & s1 & Hc & _ & Hb & ->)%in_transaction_Ok.
  apply io_bind_Ok in Hb as ([] & s2 & Hrun & Hv). apply sql_Ok in Hv as [Hv _].
  eapply (avatar_on_other "metadata"); [done| |exact Hv]. clear Hv. change (migrate_to_v5 s0 = (Ok tt, s2)) in Hrun.
  unfold migrate_to_v5 in Hrun.
  apply io_bind_Ok in Hrun as ([] & s3 & Hs3 & Hrun). apply io_bind_Ok in Hrun as ([] & s4 & Hs4 & Hrun).
  apply io_bind_Ok in Hrun as ([] & s5 & Hs5 & Hrun). apply io_bind_Ok in Hrun as ([] & s6 & Hs6 & Hrun).
  apply io_bind_Ok in Hrun as ([] & s7 & Hs7 & Hrun). apply io_bind_Ok in Hrun as ([] & s8 & Hs8 & Hrun).
  destruct (schema_created _ _ _ Hs3) as (tb & index & Htb & Hkey).
  set (Same := fun c : gmap string Table => c !! schema_table = Some tb).
  assert (Same (cn_catalog s6)) as Hs.
  { apply (ddl_keeps_Ok _ _ _ _ _ Hs6); [by apply same_create|]. apply (ddl_keeps_Ok _ _ _ _ _ Hs5); [by apply same_create|].
    by apply (ddl_keeps_Ok _ _ _ _ _ Hs4); [apply same_create|]. }
  apply sql_Ok in Hs7 as [Hs7 _].
  apply (schema_filled _ _ _ _ _ [hardcoded_v5 "first_name" TString; hardcoded_v5 "last_name" TString] Hs Hkey) in Hs7.
  eapply (ckeeps_Ok avatar_in_schema); [|exact Hrun|].
  { apply ckeeps_iter. intros col _. by apply ckeeps_ddl, avatar_on_other. }
  eapply (ckeeps_Ok avatar_in_schema); [|exact Hs8|done]. unfold copy_profiles, select_all.
  repeat first [ckeeps_step|apply keeps_select|by apply avatar_on_other].
Qed.

Lemma upgraded_avatar v n c c' :
  upgraded v n c c' -> (v < 12)%Z -> ((5 <= v)%Z -> avatar_in_schema c) -> (1 <= v)%Z ->
  (v <= n < 12)%Z /\ ((5 <= n)%Z -> avatar_in_schema c').
Proof.
  intros Hup Hv Hc Hv1. induction Hup as [c|n c s s' Hup IH Hm]; [split; [lia|done]|]. destruct (IH Hc) as [Hn Ha].
  assert (n <> 11)%Z as Hn11.
  { intros ->. by apply (migrate_to_12_fails s s'); [apply Ha; lia|]. }
  split; [lia|]. intros H5. destruct (decide (n = 4)%Z) as [->|]; [by eapply v5_avatar|].
  eapply migrate_to_keeps_avatar; [|exact Hm|apply Ha]; lia.
Qed.

(** On an engine where an error makes the rest of its transaction fail, as in
    PostgreSQL, no database that an earlier version of the program made can be upgraded:
    version 12 inserts the attribute avatar, which version 5 inserted already, and
    ignores the error, but the transaction is lost; every start ends with an error and
    leaves the database at version 11 or less. *)
Theorem v12_fails_where_errors_abort v s r s' :
  (1 <= v < LAST_SCHEMA_VERSION)%Z -> recorded (cn_catalog s) = Some v ->
  ((5 <= v)%Z -> avatar_in_schema (cn_catalog s)) ->
  migrate_from_version v LAST_SCHEMA_VERSION s = (r, s') ->
  is_ok r = false /\ exists n, (v <= n < LAST_SCHEMA_VERSION)%Z /\ recorded (cn_catalog s') = Some n.
Proof.
  unfold LAST_SCHEMA_VERSION. intros Hv Hrec Ha Hrun. rewrite migrate_from_version_run in Hrun by lia.
  rewrite <- (Z2Nat.id (12 - v)) in Hrun by lia.
  apply (migrate_run v _ _ (cn_catalog s)) in Hrun as (n & Hn & Hup & Hr & Hok); [|done|constructor|done].
  rewrite Z2Nat.id in * by lia. pose proof (upgraded_avatar _ _ _ _ Hup (proj2 Hv) Ha (proj1 Hv)) as [Hlt _].
  split; [|exists n; split; [lia|done]]. apply not_true_is_false. intros Hr1%Hok. lia.
Qed.
End Aborting.

(** ** An upgrade that cannot be resumed *)

Section Stuck.
Context `{Extern, SqlExtern, EngineExtern}.

(** Version 5 creates its first table without IF NOT EXISTS. *)
Lemma v5_needs_no_table s s' :
  is_Some (cn_catalog s !! schema_table) -> migrate_to 5 s <> (Ok tt, s').
Proof.
  intros [tb Ht] (s0 & s1 & Hc & _ & Hb & _)%in_transaction_Ok.
  apply io_bind_Ok in Hb as ([] & s2 & Hrun & _). change (migrate_to_v5 s0 = (Ok tt, s2)) in Hrun.
  apply io_bind_Ok in Hrun as ([] & s3 & [Hs _]%ddl_Ok & _).
  unfold attribute_schema_v5, create_table in Hs. simpl in Hs. rewrite Hc in Hs.
  change ("user" +:+ "_attribute_schema") with schema_table in Hs. by rewrite Ht in Hs.
Qed.

(** A database of version 4 that has that table is never upgraded, whatever the
    connection does. *)
Theorem half_upgrade_is_stuck s r s' :
  is_Some (cn_catalog s !! schema_table) ->
  migrate_from_version 4 LAST_SCHEMA_VERSION s = (r, s') -> is_ok r = false.
Proof.
  intros Ht Hrun. rewrite migrate_from_version_run in Hrun by (unfold LAST_SCHEMA_VERSION; lia).
  change (seqZ (4 + 1) (LAST_SCHEMA_VERSION - 4)) with [5; 6; 7; 8; 9; 10; 11; 12]%Z in Hrun.
  simpl io_iter in Hrun. unfold io_bind at 1 in Hrun. destruct (migrate_to 5 s) as [[[]|e] s1] eqn:Hm.
  - by destruct (v5_needs_no_table s s1 Ht).
  - by simplify_eq.
Qed.
End Stuck.

(** ** Concrete databases *)

Definition postgres_engine : EngineExtern := {| errors_abort := true; blob_is_text := false; question_marks := false;
  ddl_commits := false |}.

Definition mysql_engine : EngineExtern := {| errors_abort := false; blob_is_text := true; question_marks := true;
  ddl_commits := true |}.

(** An engine like MySQL whose connection is lost at one statement. *)
Definition lost_at (k : nat) : SqlExtern := {|
  fault := fun n => if Nat.eqb n k then Some (DbQuery "connection lost") else None;
  utc_now := @utc_now demo_sql_extern;
  constraint_error := @constraint_error demo_sql_extern;
  unknown_column_error := @unknown_column_error demo_sql_extern;
  fresh_group_id := @fresh_group_id demo_sql_extern;
  sql_like := @sql_like demo_sql_extern;
  sql_lower := @sql_lower demo_sql_extern;
  date_text := @date_text demo_sql_extern;
  date_gte := @date_gte demo_sql_extern;
  date_lte := @date_lte demo_sql_extern;
  value_gte := @value_gte demo_sql_extern;
  value_lte := @value_lte demo_sql_extern;
  posix_to_json := @posix_to_json demo_sql_extern;
  posix_from_json := @posix_from_json demo_sql_extern;
  env_ldap_base_dn := @env_ldap_base_dn demo_sql_extern
|}.

(** The database of [old_database] upgraded by the program up to version [n]. *)
Definition old_at (n : Z) : Conn :=
  snd (@migrate_from_version lawful_extern demo_sql_extern lite_engine 1 n old_database).

(** Both users have a profile; one has a last name that is empty. *)
Lemma profiles_become_attributes_witness :
  let s' := snd (@migrate_to_v5 demo_sql_extern lite_engine (old_at 4)) in
  view "user_attributes" user_attribute_columns (cn_catalog s') =
    Some [[CText "alice"; CText "first_name"; CBlob "Alice"]; [CText "bob"; CText "first_name"; CBlob "Bob"];
          [CText "bob"; CText "avatar"; CBlob "jpg"]] /\
  exists users rows, cn_catalog (old_at 4) !! "users" = Some users /\
    view "user_attributes" user_attribute_columns (cn_catalog s') = Some rows /\
    forall r, r ∈ rows <-> exists row id name b, row ∈ tb_rows users /\ cell row "user_id" = CText id /\
      profile_value row name b /\ r = [CText id; CText name; CBlob b].
Proof.
  intros s'. split; [vm_compute; reflexivity|].
  apply (@profiles_become_attributes demo_sql_extern lite_engine (old_at 4) s').
  rewrite (surjective_pairing (@migrate_to_v5 demo_sql_extern lite_engine (old_at 4))). f_equal.
Defined.

(** An upgrade on an engine that gives up transactions stops at version 11. *)
Lemma interrupted_upgrade_resumes_witness :
  let run := @migrate_from_version lawful_extern demo_sql_extern postgres_engine 1 12 old_database in
  recorded (cn_catalog (snd run)) = Some 11%Z /\
  exists n, (1 <= n <= 12)%Z /\
    @upgraded lawful_extern demo_sql_extern postgres_engine 1 n (cn_catalog old_database) (cn_catalog (snd run)) /\
    recorded (cn_catalog (snd run)) = Some n /\ (is_ok (fst run) = true <-> n = 12%Z).
Proof.
  intros run. split; [vm_compute; reflexivity|].
  apply (@interrupted_upgrade_resumes lawful_extern demo_sql_extern postgres_engine 1 12 old_database);
    [reflexivity|lia|vm_compute; reflexivity|apply surjective_pairing].
Defined.

(** The connection is lost after the first statement of version 5.  Where the definition
    of a table is part of the transaction nothing of it remains; where it commits, the
    table stays, and the next upgrade fails although its connection never does. *)
Definition lost_upgrade (engine : EngineExtern) : Conn :=
  snd (@migrate_to lawful_extern (lost_at (cn_tick (old_at 4) + 2)) engine 5 (old_at 4)).

Example rolled_back : cn_catalog (lost_upgrade lite_engine) = cn_catalog (old_at 4).
Proof. vm_compute. reflexivity. Qed.

Lemma half_upgrade_is_stuck_witness :
  recorded (cn_catalog (lost_upgrade mysql_engine)) = Some 4%Z /\
  is_ok (fst (@migrate_from_version lawful_extern demo_sql_extern mysql_engine 4 12 (lost_upgrade mysql_engine))) = false.
Proof.
  split; [vm_compute; reflexivity|].
  apply (@half_upgrade_is_stuck lawful_extern demo_sql_extern mysql_engine (lost_upgrade mysql_engine)
    (fst (@migrate_from_version lawful_extern demo_sql_extern mysql_engine 4 12 (lost_upgrade mysql_engine)))
    (snd (@migrate_from_version lawful_extern demo_sql_extern mysql_engine 4 12 (lost_upgrade mysql_engine))));
    [|apply surjective_pairing].
  exists (default (MkTable [] [] [] []) (cn_catalog (lost_upgrade mysql_engine) !! schema_table)). vm_compute. reflexivity.
Defined.

Lemma upgrade_keeps_accounts_witness :
  view "users" ["user_id"; "password_hash"] (cn_catalog (old_at 12)) =
    Some [[CText "alice"; CBlob "h"]; [CText "bob"; CNull]] /\
  same_accounts (cn_catalog old_database) (cn_catalog (old_at 12)).
Proof.
  split; [vm_compute; reflexivity|].
  apply (@upgrade_keeps_accounts lawful_extern demo_sql_extern lite_engine 1 12 old_database
    (fst (@migrate_from_version lawful_extern demo_sql_extern lite_engine 1 12 old_database)));
    [lia|apply surjective_pairing].
Defined.

Lemma v12_fails_where_errors_abort_witness :
  let run := @migrate_from_version lawful_extern demo_sql_extern postgres_engine 1 LAST_SCHEMA_VERSION old_database in
  is_ok (fst run) = false /\ exists n, (1 <= n < LAST_SCHEMA_VERSION)%Z /\ recorded (cn_catalog (snd run)) = Some n.
Proof.
  intros run. apply (@v12_fails_where_errors_abort lawful_extern demo_sql_extern postgres_engine eq_refl eq_refl 1 old_database);
    [unfold LAST_SCHEMA_VERSION; lia|vm_compute; reflexivity|lia|apply surjective_pairing].
Defined.

(** In the midst of version 12, when the new names are in the schema. *)
Definition seeded : Conn :=
  snd ((let! _ := @extension_columns demo_sql_extern lite_engine "user" in
        io_iter (@seed_attribute lawful_extern demo_sql_extern lite_engine "user") user_schema_attributes) (old_at 11)).

Definition seeded_attributes : Table := default (MkTable [] [] [] []) (cn_catalog seeded !! "user_attributes").

Lemma in_schema (c : gmap string Table) name :
  match c !! "user_attribute_schema" with
  | Some schema => existsb (col_is "user_attribute_schema_name" (CText name)) (tb_rows schema)
  | None => false
  end = true ->
  exists schema row, c !! "user_attribute_schema" = Some schema /\ row ∈ tb_rows schema /\
    cell row "user_attribute_schema_name" = CText name.
Proof.
  destruct (c !! "user_attribute_schema") as [schema|]; [|done].
  intros (row & Hrow & Hname%bool_decide_eq_true)%existsb_elem. eauto.
Qed.

Lemma alias_normalized_witness :
  exists s', @normalize_alias demo_sql_extern lite_engine "user" "firstname" "first_name" seeded = (Ok tt, s') /\
    view "user_attributes" user_attribute_columns (cn_catalog s') =
      Some [[CText "alice"; CText "firstname"; CBlob "Alice"]; [CText "bob"; CText "firstname"; CBlob "Bob"];
            [CText "bob"; CText "avatar"; CBlob "jpg"]].
Proof.
  destruct (@alias_normalized demo_sql_extern lite_engine "firstname" "first_name" seeded seeded_attributes)
    as (s' & Hs & Hc); [reflexivity|reflexivity|vm_compute; discriminate|vm_compute; reflexivity| |discriminate|].
  - split.
    + apply (bool_decide_unpack _). vm_compute. exact I.
    + vm_compute. reflexivity.
    + vm_compute. reflexivity.
    + apply (bool_decide_unpack _). vm_compute. exact I.
    + intros n t fk Hn Hfk.
      assert (map_Forall (fun _ t => Forall (fun fk => fk_table fk <> "user_attributes") (tb_foreign_keys t))
        (cn_catalog seeded)) as Hall by (apply (bool_decide_unpack _); vm_compute; exact I).
      specialize (Hall n t Hn). rewrite Forall_forall in Hall. by apply Hall.
    + apply in_schema. vm_compute. reflexivity.
  - exists s'. split; [exact Hs|]. rewrite Hc. vm_compute. reflexivity.
Defined.
