(* ===== verification/LdapServer.v ===== *)
(** * Connections of the LDAP server

    [server/src/ldap_server.rs]: the loop that serves a connection, from the messages
    the codec of ldap3_proto decodes to the messages handed to it, around the session of
    [crates/ldap] ([Session]); and [server/src/healthcheck.rs], a client of it.

    The codec and the sockets are not part of the repository.  What arrives is a list of
    decoded messages or errors, which ends when the peer closes; a message that is sent
    or flushed may fail, at any point of the connection. *)

From S2P Require Import Prelude Strings Types Schema Access Proto Dn SchemaManager Filters Attributes.
From S2P Require Import Search Subschema LdapWrite Session.

(** ** Messages *)

Inductive LdapControl : Type :=
| SimplePagedResults (size : Z) (cookie : string)
| UnknownControl (oid : string)
| OtherControl (name : string).

Record LdapMsg := MkLdapMsg { msgid : Z; msg_op : LdapOp; msg_ctrl : list LdapControl }.

(** Why serving a connection ends early. *)
Inductive ServeError : Type :=
| Receiving (e : string)
| Sending (e : string)
| Flushing (e : string)
| HandlerPanic (msg : string).

(** The store of the backend, the identity of the session, what was sent, and how often
    the socket was written to. *)
Record Link (S : Type) := MkLink {
  l_store : S;
  l_session : option ValidationResults;
  l_sent : list LdapMsg;
  l_writes : nat
}.
Arguments MkLink {S} _ _ _ _.
Arguments l_store {S} _.
Arguments l_session {S} _.
Arguments l_sent {S} _.
Arguments l_writes {S} _.

(** ** Serving a connection *)

Section Serve.
Context `{Extern, LdapExtern} {S : Type} (handler : BackendHandler S) (ldap_info : LdapInfo).
Context (socket_error : nat -> option string).

(** [resp.send(msg).await]: what was sent before an error has been sent. *)
Definition send (msg : LdapMsg) : io (Link S) ServeError unit := fun l =>
  match socket_error (l_writes l) with
  | Some e => (Err (Sending e), MkLink (l_store l) (l_session l) (l_sent l) (Datatypes.S (l_writes l)))
  | None => (Ok tt, MkLink (l_store l) (l_session l) (l_sent l ++ [msg]) (Datatypes.S (l_writes l)))
  end.

Definition flush : io (Link S) ServeError unit := fun l =>
  (match socket_error (l_writes l) with Some e => Err (Flushing e) | None => Ok tt end,
   MkLink (l_store l) (l_session l) (l_sent l) (Datatypes.S (l_writes l))).

(** [session.handle_ldap_message(op).await] *)
Definition session_step (op : LdapOp) : io (Link S) ServeError (option (list LdapOp)) := fun l =>
  match Session.handle_ldap_message handler ldap_info (l_session l) op (l_store l) with
  | (Ok (ui, answer), s) => (Ok answer, MkLink s ui (l_sent l) (l_writes l))
  | (Err msg, s) => (Err (HandlerPanic msg), MkLink s (l_session l) (l_sent l) (l_writes l))
  end.

(** The end of a search tells the number of entries. *)
Definition controls_for (results : Z) (response : LdapOp) : list LdapControl :=
  match response with
  | OpSearchResultDone _ => [SimplePagedResults (results - 1) ""]
  | _ => []
  end.

Definition reply (id : Z) (result : list LdapOp) : list LdapMsg :=
  map (fun response => MkLdapMsg id response (controls_for (Z.of_nat (length result)) response)) result.

(** The result tells whether the connection goes on. *)
Definition serve_message (msg : result string LdapMsg) : io (Link S) ServeError bool :=
  let! msg := io_lift (map_err Receiving msg) in
  let! answer := session_step (msg_op msg) in
  match answer with
  | None => io_ret false
  | Some result =>
      let! _ := io_iter send (reply (msgid msg) result) in
      let! _ := flush in
      io_ret true
  end.

Fixpoint serve_messages (requests : list (result string LdapMsg)) : io (Link S) ServeError unit :=
  match requests with
  | [] => io_ret tt
  | msg :: requests' =>
      let! go_on := serve_message msg in
      if (go_on : bool) then serve_messages requests' else io_ret tt
  end.

(** A new connection. *)
Definition connected (s : S) : Link S := MkLink s None [] 0.

Definition handle_ldap_stream (requests : list (result string LdapMsg)) (s : S) : result ServeError unit * Link S :=
  serve_messages requests (connected s).
End Serve.

(** ** The health check *)

(** A connection as its client sees it: whether sending and closing succeed, and what
    arrives until the peer closes. *)
Record Conversation := MkConversation {
  c_send : result string unit;
  c_flush : result string unit;
  c_answers : list (result string LdapMsg);
  c_close : result string unit
}.

Definition healthcheck_request : LdapMsg :=
  MkLdapMsg 0 (OpSearchRequest (MkSearchRequest "" ScopeBase (LPresent "objectClass") ["supportedExtension"])) [].

Definition no_answer : string := "No answer from LDAP server".
Definition invalid_answer : string := "Invalid answer from LDAP server".

(** [requests.next().await.ok_or_else(no_answer)?..?] *)
Definition next_answer (answers : list (result string LdapMsg)) (wrap : string -> string)
  : result string (LdapMsg * list (result string LdapMsg)) :=
  match answers with
  | [] => Err no_answer
  | a :: rest => let? msg := map_err wrap a in Ok (msg, rest)
  end.

Definition is_root_dse (op : LdapOp) : bool :=
  match op with
  | OpSearchResultEntry e =>
      String.eqb (e_dn e) "" &&
      existsb (fun a => String.eqb (atype a) "objectClass" && bool_decide (vals a = ["top"])) (e_attributes e)
  | _ => false
  end.

Definition is_search_done (op : LdapOp) : bool := match op with OpSearchResultDone _ => true | _ => false end.

Definition check_ldap_endpoint (c : Conversation) : result string unit :=
  let? _ := c_send c in
  let? _ := c_flush c in
  let? first := next_answer (c_answers c) (fun _ => invalid_answer) in
  let? _ := if is_root_dse (msg_op (fst first)) then Ok tt else Err invalid_answer in
  let? second := next_answer (snd first) id in
  let? _ := if is_search_done (msg_op (fst second)) then Ok tt else Err invalid_answer in
  c_close c.

Definition check_ldap (connect : result string Conversation) : result string unit :=
  let? c := connect in check_ldap_endpoint c.

(** The name of the host is checked, and the connection made, only if LDAPS is enabled. *)
Definition check_ldaps (enabled : bool) (tls_connector host_name : result string unit)
    (connect : result string Conversation) : result string unit :=
  if negb enabled then Ok tt
  else
    let? _ := tls_connector in
    let? _ := host_name in
    check_ldap connect.

(** [reqwest::get(..).await?.error_for_status()?]: the status, if there is an answer *)
Definition check_api (response : result string Z) : result string unit :=
  let? status := response in
  if ((400 <=? status) && (status <? 600))%Z then Err "HTTP status error" else Ok tt.

(** [run_healthcheck] of [main.rs]: the three checks under a timeout, [None] where the
    time was up.  [flat_map] keeps the results of those that were in time. *)
Definition healthcheck_fails (checks : list (option (result string unit))) : bool :=
  existsb (fun r => negb (is_ok r)) (omap id checks).

Definition run_healthcheck (ldap ldaps api : option (result string unit)) : result string unit :=
  if healthcheck_fails [ldap; ldaps; api] then Err "Healthcheck failed" else Ok tt.

(** ** Answers *)

(** What may end the answer to a request.  A modification nobody is bound for is
    answered with an extended response, and a comparison that fails with the end of a
    search. *)
Definition final_response (bound : bool) (op response : LdapOp) : bool :=
  match op, response with
  | OpBindRequest _, OpBindResponse _ | OpSearchRequest _, OpSearchResultDone _
  | OpModifyRequest _, OpModifyResponse _ | OpAddRequest _, OpAddResponse _ | OpDelRequest _, OpDelResponse _
  | OpCompareRequest _, OpCompareResult _ | OpExtendedRequest _, OpExtendedResponse _ => true
  | OpModifyRequest _, OpExtendedResponse _ => negb bound
  | OpCompareRequest _, OpSearchResultDone _ => true
  | (OpBindResponse _ | OpSearchResultEntry _ | OpSearchResultDone _ | OpModifyResponse _ | OpAddResponse _
     | OpDelResponse _ | OpCompareResult _ | OpExtendedResponse _ | OpOther _), OpExtendedResponse _ => true
  | _, _ => false
  end.

Definition is_search (op : LdapOp) : bool := match op with OpSearchRequest _ => true | _ => false end.

Section Answers.
Context `{Extern, LdapExtern} {S : Type} (h : BackendHandler S) (info : LdapInfo).

(** Entries, for a search only, and one final response. *)
Definition answer_to (ui : option ValidationResults) (op : LdapOp) (answer : list LdapOp) : Prop :=
  exists entries final, answer = map OpSearchResultEntry entries ++ [final] /\
    final_response (bool_decide (is_Some ui)) op final = true /\ (is_search op = false -> entries = []).

Lemma answer_single ui op r : final_response (bool_decide (is_Some ui)) op r = true -> answer_to ui op [r].
Proof. intros Hr. by exists [], r. Qed.

Lemma respond_answer ui op make (m : io S failure (list LdapOp)) s ops s' :
  respond make m s = (Ok ops, s') ->
  (forall c msg, final_response (bool_decide (is_Some ui)) op (make c msg) = true) ->
  (forall l s1, m s = (Ok l, s1) -> answer_to ui op l) -> answer_to ui op ops.
Proof.
  unfold respond. intros Hr Hmake Hm. destruct (m s) as [[l|[e|msg]] s1]; simplify_eq; [by eapply Hm|].
  by apply answer_single.
Qed.

Lemma dse_answer ui r s ops s' :
  do_search_or_dse h info ui r s = (Ok ops, s') -> answer_to ui (OpSearchRequest r) ops.
Proof.
  unfold do_search_or_dse. intros Hs. case_match; [|case_match].
  - io_inv Hs. eexists [_], _. by split.
  - io_inv Hs. eexists [_], _. by split.
  - unfold session_search in Hs. case_match; [|done]. apply io_bind_Ok in Hs as (ous & s1 & _ & Hs).
    apply search_answer_shape in Hs as (entries & ->). by exists entries, make_search_success.
Qed.

Lemma keep_answer ui op make (m : io S failure (list LdapOp)) s ui' ops s' :
  (let! ops := respond make m in io_ret (ui, Some ops)) s = (Ok (ui', Some ops), s') ->
  (forall c msg, final_response (bool_decide (is_Some ui)) op (make c msg) = true) ->
  (forall l s1, m s = (Ok l, s1) -> answer_to ui op l) -> answer_to ui op ops.
Proof.
  intros Hs Hmake Hm. apply io_bind_Ok in Hs as (l & s1 & Hr & Hs). io_inv Hs. by eapply respond_answer.
Qed.

Lemma modify_answer ui r s ops s' :
  do_modify_request h info ui r s = (Ok ops, s') -> answer_to ui (OpModifyRequest r) ops.
Proof.
  unfold do_modify_request, handle_modify_request. intros Hs. destruct ui as [v|].
  - apply io_map_err_Ok in Hs. case_match; [|done]. io_inv Hs. by apply answer_single.
  - io_inv Hs. by apply answer_single.
Qed.

Lemma create_answer ui r s ops s' : session_create h info ui r s = (Ok ops, s') -> answer_to ui (OpAddRequest r) ops.
Proof.
  unfold session_create, create_user_or_group. intros Hs. case_match; [|done]. apply io_map_err_Ok in Hs.
  io_inv Hs. destruct (get_user_or_group_id_from_distinguished_name _ _); try done;
    unfold create_user_entry, create_group_entry in Hs.
  - io_inv Hs. destruct a1 as [req sync]. io_inv Hs. by apply answer_single.
  - io_inv Hs. by apply answer_single.
Qed.

Lemma delete_answer ui r s ops s' : session_delete h info ui r s = (Ok ops, s') -> answer_to ui (OpDelRequest r) ops.
Proof.
  unfold session_delete, delete_user_or_group. intros Hs. case_match; [|done]. apply io_map_err_Ok in Hs.
  destruct (get_user_or_group_id_from_distinguished_name _ _); try done;
    unfold delete_user_entry, delete_group_entry in Hs.
  - io_inv Hs. by apply answer_single.
  - io_inv Hs. case_match; [|done]. io_inv Hs. by apply answer_single.
Qed.

Lemma extended_answer ui r s ops s' :
  do_extended_request h info ui r s = (Ok ops, s') -> answer_to ui (OpExtendedRequest r) ops.
Proof.
  unfold do_extended_request. intros Hs. repeat case_match; try (io_inv Hs; by apply answer_single).
  - unfold do_password_modification, modify_password_of in Hs. repeat case_match; try done.
    apply io_map_err_Ok in Hs. io_inv Hs. case_match; [done|]. io_inv Hs. by apply answer_single.
  - unfold do_whoami in Hs. cbv zeta in Hs. apply io_bind_Ok in Hs as (us & s1 & _ & Hs). io_inv Hs.
    by apply answer_single.
Qed.

Lemma compare_answer ui r s ops s' : do_compare h info ui r s = (Ok ops, s') -> answer_to ui (OpCompareRequest r) ops.
Proof.
  unfold do_compare. cbv zeta. intros Hs. apply io_bind_Ok in Hs as (l & s1 & _ & Hs). io_inv Hs.
  unfold compare. cbv zeta. case_match; by apply answer_single.
Qed.

Lemma do_bind_answer ui r s ui' ops s' :
  do_bind h info ui r s = (Ok (ui', ops), s') -> exists c msg, ops = make_bind_response c msg.
Proof.
  unfold do_bind, io_try, io_bind.
  destruct (authenticate h info r s) as [[u|e] s1]; [|unfold io_ret; intros Hs; simplify_eq; eauto].
  destruct (get_user_details u s1) as [[user|e] s2]; [|unfold io_ret; intros Hs; simplify_eq; eauto].
  case_match; [|unfold io_ret; intros Hs; simplify_eq; eauto].
  destruct (get_permissions_for_user h u s2) as [p s3]. unfold io_ret. intros Hs. simplify_eq. eauto.
Qed.

Lemma message_answer ui op s ui' ops s' :
  Session.handle_ldap_message h info ui op s = (Ok (ui', Some ops), s') -> answer_to ui op ops.
Proof.
  unfold Session.handle_ldap_message. intros Hs.
  destruct op; cbv zeta in Hs; try (io_inv Hs; by apply answer_single);
    try (eapply (keep_answer _ _ _ _ _ _ _ _ Hs); [done|]; intros l s1 Hl).
  - apply io_bind_Ok in Hs as ([ui1 ops1] & s1 & Hb & Hs). io_inv Hs. simpl in *. subst.
    apply do_bind_answer in Hb as (c & msg & ->). by apply answer_single.
  - by eapply dse_answer.
  - by eapply modify_answer.
  - by eapply create_answer.
  - by eapply delete_answer.
  - by eapply compare_answer.
  - by eapply extended_answer.
Qed.
End Answers.

(** ** Connections over time *)

Section Connections.
Context `{Extern, LdapExtern} {S : Type} (h : BackendHandler S) (info : LdapInfo).
Context (socket_error : nat -> option string).

(** The messages of a connection that were served so far, each with the identity it was
    served for; between two of them other connections may change the store in any way. *)
Inductive served : list (option ValidationResults * LdapMsg) -> Link S -> Prop :=
| served_start s : served [] (connected s)
| served_message hist l m l' :
    served hist l -> serve_message h info socket_error (Ok m) l = (Ok true, l') ->
    served (hist ++ [(l_session l, m)]) l'
| served_others hist l s :
    served hist l -> served hist (MkLink s (l_session l) (l_sent l) (l_writes l)).

(** What is sent for a request of a caller: under its id, the entries and one final
    response, which tells the number of entries if it ends a search. *)
Definition answers (request : option ValidationResults * LdapMsg) (sent : list LdapMsg) : Prop :=
  let '(ui, m) := request in
  exists entries final,
    sent = map (fun e => MkLdapMsg (msgid m) (OpSearchResultEntry e) []) entries ++
      [MkLdapMsg (msgid m) final
        (if is_search_done final then [SimplePagedResults (Z.of_nat (length entries)) ""] else [])] /\
    final_response (bool_decide (is_Some ui)) (msg_op m) final = true /\
    (is_search (msg_op m) = false -> entries = []).

Lemma reply_answers ui m ops : answer_to ui (msg_op m) ops -> answers (ui, m) (reply (msgid m) ops).
Proof.
  intros (entries & final & -> & Hf & He). exists entries, final. split; [|done].
  unfold reply. rewrite map_app, map_map. f_equal. simpl. f_equal. unfold controls_for.
  rewrite length_app, length_map. simpl. destruct final; simpl; try done. repeat f_equal. lia.
Qed.

Lemma send_Ok m l u l' :
  send (S := S) socket_error m l = (Ok u, l') ->
  l_store l' = l_store l /\ l_session l' = l_session l /\ l_sent l' = l_sent l ++ [m].
Proof. unfold send. case_match; intros Hs; by simplify_eq/=. Qed.

Lemma send_all_Ok ms l u l' :
  io_iter (send (S := S) socket_error) ms l = (Ok u, l') ->
  l_store l' = l_store l /\ l_session l' = l_session l /\ l_sent l' = l_sent l ++ ms.
Proof.
  revert l. induction ms as [|m ms IH]; intros l Hs; simpl in Hs; [io_inv Hs; by rewrite app_nil_r|].
  apply io_bind_Ok in Hs as (u1 & l1 & Hm & Hs). apply send_Ok in Hm as (E1 & E2 & E3).
  apply IH in Hs as (E1' & E2' & E3'). rewrite E1', E2', E3', E1, E2, E3, <- app_assoc. done.
Qed.

Lemma serve_Ok m l b l' :
  serve_message h info socket_error (Ok m) l = (Ok b, l') ->
  exists answer, Session.handle_ldap_message h info (l_session l) (msg_op m) (l_store l) =
    (Ok (l_session l', answer), l_store l') /\ b = bool_decide (is_Some answer) /\
    l_sent l' = l_sent l ++ from_option (reply (msgid m)) [] answer.
Proof.
  unfold serve_message. intros Hs. apply io_bind_Ok in Hs as (m' & l1 & Hm & Hs). io_inv Hm. simplify_eq/=.
  apply io_bind_Ok in Hs as (answer & l2 & Ha & Hs). exists answer. unfold session_step in Ha.
  destruct (Session.handle_ldap_message _ _ _ _ _) as [[[ui ans]|] s] eqn:Hh; simplify_eq/=.
  destruct answer as [ops|].
  - apply io_bind_Ok in Hs as (u & l3 & Hsend & Hs). apply send_all_Ok in Hsend as (E1 & E2 & E3).
    apply io_bind_Ok in Hs as (u' & l4 & Hflush & Hs). io_inv Hs. unfold flush in Hflush.
    destruct (socket_error _); [done|]. injection Hflush as <- <-. simpl in *. by rewrite E1, E2, E3.
  - io_inv Hs. simpl. by rewrite app_nil_r.
Qed.

Lemma served_spec hist l :
  served hist l -> exists sent, l_sent l = concat sent /\ Forall2 answers hist sent /\
    session_trace h info (map (fun r => msg_op (snd r)) hist) (l_session l) (l_store l).
Proof.
  induction 1 as [s|hist l m l' _ (sent & Hs & Ha & Ht) Hm|hist l s _ (sent & Hs & Ha & Ht)].
  - exists []. split_and!; [done|constructor|constructor].
  - apply serve_Ok in Hm as (answer & Hh & Hb & Hsent).
    destruct answer as [ops|]; [|done]. exists (sent ++ [reply (msgid m) ops]).
    rewrite concat_app. simpl. rewrite app_nil_r, Hsent, Hs. split_and!; [done| |].
    + apply Forall2_app; [done|]. constructor; [|constructor]. eapply reply_answers. by eapply message_answer.
    + rewrite map_app. by eapply trace_message.
  - exists sent. split_and!; [done..|]. by eapply trace_others.
Qed.
End Connections.

Section Streams.
Context `{Extern, LdapExtern} {S : Type} (h : BackendHandler S) (info : LdapInfo).
Context (socket_error : nat -> option string).

(** Where serving stopped: at the end of the stream, or at a message without answer. *)
Lemma serve_messages_served hist requests l l' :
  served h info socket_error hist l -> serve_messages h info socket_error requests l = (Ok tt, l') ->
  exists handled rest l1, requests = map (fun r => Ok (snd r)) handled ++ rest /\
    served h info socket_error (hist ++ handled) l1 /\
    (rest = [] /\ l' = l1 \/
     exists m rest', rest = Ok m :: rest' /\ serve_message h info socket_error (Ok m) l1 = (Ok false, l')).
Proof.
  revert hist l. induction requests as [|r requests IH]; intros hist l Hserved Hs; simpl in Hs.
  - io_inv Hs. exists [], [], l'. rewrite (app_nil_r hist). auto 10.
  - apply io_bind_Ok in Hs as (go_on & l1 & Hm & Hs). destruct r as [m|e]; [|by io_inv Hm]. destruct go_on.
    + destruct (IH _ _ (served_message _ _ _ _ _ _ _ Hserved Hm) Hs) as (handled & rest & l2 & -> & Hl2 & Hend).
      exists ((l_session l, m) :: handled), rest, l2. rewrite <- app_assoc in Hl2. auto 10.
    + io_inv Hs. exists [], (Ok m :: requests), l. rewrite (app_nil_r hist). split_and!; [done..|]. right. eauto.
Qed.

(** A message without answer unbinds. *)
Lemma serve_stops m l l' :
  serve_message h info socket_error (Ok m) l = (Ok false, l') ->
  msg_op m = OpUnbindRequest /\ l' = MkLink (l_store l) None (l_sent l) (l_writes l).
Proof.
  intros Hs. pose proof Hs as Hserve. apply serve_Ok in Hs as (answer & Hh & Hb & _).
  destruct answer as [ops|]; [by rewrite bool_decide_eq_true_2 in Hb|]. unfold Session.handle_ldap_message in Hh.
  destruct (msg_op m) eqn:Hop; cbv zeta in Hh; try (by io_inv Hh). split; [done|].
  unfold serve_message, session_step, Session.handle_ldap_message, io_bind, io_lift, io_ret in Hserve.
  simpl in Hserve. rewrite Hop in Hserve. by injection Hserve as <-.
Qed.
End Streams.

(** ** Properties *)

(** C6: on a connection, whatever other connections do meanwhile, every request served
    is answered under its own message id and in the order of the requests, by entries
    (for a search only) and then exactly one final response, which states the number of
    entries if it is the end of a search.  The final response is of the kind the request
    asks for, but that a modification is answered with an extended response when nobody
    is bound, and a comparison possibly with the end of a search (when it fails).  The
    session behind the connection is a session of [Session], so its identity was
    authenticated. *)
Theorem connection_protocol `{Extern, LdapExtern} {S} (h : BackendHandler S) info socket_error hist l :
  served h info socket_error hist l ->
  exists sent, l_sent l = concat sent /\ Forall2 answers hist sent /\
    session_trace h info (map (fun r => msg_op (snd r)) hist) (l_session l) (l_store l).
Proof. apply served_spec. Qed.

(** A connection that ends without an error has served every message up to the end
    of the stream or the first unbind, and sends nothing for an unbind. *)
Theorem stream_served `{Extern, LdapExtern} {S} (h : BackendHandler S) info socket_error requests s l :
  handle_ldap_stream h info socket_error requests s = (Ok tt, l) ->
  exists handled rest l1, requests = map (fun r => Ok (snd r)) handled ++ rest /\
    served h info socket_error handled l1 /\
    l_sent l = l_sent l1 /\ l_store l = l_store l1 /\
    (rest = [] \/ exists m rest', rest = Ok m :: rest' /\ msg_op m = OpUnbindRequest).
Proof.
  intros Hs. destruct (serve_messages_served h info socket_error [] requests (connected s) l) as
    (handled & rest & l1 & Hr & Hl1 & Hend); [constructor|done|].
  exists handled, rest, l1. destruct Hend as [[-> ->]|(m & rest' & -> & Hm)]; [by auto 10|].
  apply serve_stops in Hm as [Hop ->]. split_and!; eauto.
Qed.

(** The server passes its own health check: whatever the store holds and whoever the
    backend is, the check's request is answered without a bind and without touching the
    store, by messages the check accepts. *)
Theorem healthcheck_accepts_server `{Extern, LdapExtern} {S} (h : BackendHandler S) info s :
  exists l, handle_ldap_stream h info (fun _ => None) [Ok healthcheck_request] s = (Ok tt, l) /\ l_store l = s /\
    check_ldap (Ok (MkConversation (Ok tt) (Ok tt) (map Ok (l_sent l)) (Ok tt))) = Ok tt.
Proof.
  eexists. split; [reflexivity|]. split; [reflexivity|]. simpl. reflexivity.
Qed.

(** The health check reports a failure exactly when one of the checks that were in
    time failed; a check that ran into the timeout does not count, and when all three
    do, the server is reported healthy. *)
Theorem timeouts_are_healthy ldap ldaps api :
  (run_healthcheck ldap ldaps api = Ok tt <->
   forall check r, check ∈ [ldap; ldaps; api] -> check = Some r -> r = Ok tt) /\
  run_healthcheck None None None = Ok tt.
Proof.
  split; [|done]. unfold run_healthcheck. destruct (healthcheck_fails _) eqn:Hf; unfold healthcheck_fails in Hf.
  - split; [done|]. intros Hall. apply existsb_elem in Hf as (r & Hr & Hn).
    apply list_elem_of_omap in Hr as (check & Hin & Hr). by rewrite (Hall check r Hin Hr) in Hn.
  - split; [|done]. intros _ check r Hin ->. rewrite existsb_not_elem in Hf.
    specialize (Hf r ltac:(apply list_elem_of_omap; eauto)). apply negb_false_iff in Hf. by destruct r as [[]|].
Qed.

(** ** A connection, evaluated *)

Definition demo_frames : list (result string LdapMsg) :=
  [Ok healthcheck_request; Ok (MkLdapMsg 7 (OpBindRequest (demo_bind "secret")) []);
   Ok (MkLdapMsg 8 OpUnbindRequest []); Ok (MkLdapMsg 9 (OpDelRequest "x") [])].

Definition demo_run : result ServeError unit * Link unit :=
  @handle_ldap_stream demo_extern demo_ldap_extern unit login_backend demo_info (fun _ => None) demo_frames tt.

Lemma stream_served_witness :
  map msgid (l_sent (snd demo_run)) = [0; 0; 7]%Z /\
  exists handled rest l1, demo_frames = map (fun r => Ok (snd r)) handled ++ rest /\
    @served demo_extern demo_ldap_extern unit login_backend demo_info (fun _ => None) handled l1 /\
    l_sent (snd demo_run) = l_sent l1 /\ l_store (snd demo_run) = l_store l1 /\
    (rest = [] \/ exists m rest', rest = Ok m :: rest' /\ msg_op m = OpUnbindRequest).
Proof.
  split; [vm_compute; reflexivity|].
  apply (@stream_served demo_extern demo_ldap_extern unit login_backend demo_info (fun _ => None) demo_frames tt).
  vm_compute. reflexivity.
Defined.

Lemma connection_protocol_witness :
  exists (l : Link unit) sent, l_session l = Some bob_regular /\ l_sent l = concat sent /\
    Forall2 answers [(None, MkLdapMsg 7 (OpBindRequest (demo_bind "secret")) [])] sent.
Proof.
  set (m := MkLdapMsg 7 (OpBindRequest (demo_bind "secret")) []).
  set (l := snd (@serve_message demo_extern demo_ldap_extern unit login_backend demo_info (fun _ => None) (Ok m)
                   (connected tt))).
  destruct (@connection_protocol demo_extern demo_ldap_extern unit login_backend demo_info (fun _ => None) [(None, m)] l)
    as (sent & Hs & Ha & _).
  - refine (served_message _ _ _ [] (connected tt) m l (served_start _ _ _ tt) _). vm_compute. reflexivity.
  - exists l, sent. split_and!; [vm_compute; reflexivity|exact Hs|exact Ha].
Defined.
