(* ===== verification/Config.v ===== *)
(** * The configuration of the server

    [server/src/configuration.rs] and [server/src/cli.rs]: the options of the command
    line, how they override the configuration read by figment, the environment variables
    that are reported as unknown, and [init], which ends with the server key of
    [Startup.get_server_setup].

    figment, clap, url and lettre are not part of the repository: what figment read is an
    argument, options that clap parsed are fields, and URLs and mailboxes are texts. *)

From S2P Require Import Prelude Strings Types Schema SchemaManager Proto Access Dn Filters Search.
From S2P Require Import Database SqlConfig SqlGroups SqlUsers SqlOps SqlLists Opaque AuthTokens AuthService Startup.

(** ** The configuration *)

Inductive SmtpEncryption : Type := SmtpNone | SmtpTls | SmtpStartTls.

Record MailOptions := MkMailOptions {
  mo_enable_password_reset : bool;
  mo_from : option string;
  mo_reply_to : option string;
  mo_server : string;
  mo_port : Z;
  mo_user : string;
  mo_password : string;
  mo_smtp_encryption : SmtpEncryption;
  mo_tls_required : option bool
}.

Definition MailOptions_default : MailOptions :=
  MkMailOptions false None None "localhost" 587 "" "" SmtpTls None.

Record LdapsOptions := MkLdapsOptions {
  lo_enabled : bool;
  lo_port : Z;
  lo_cert_file : string;
  lo_key_file : string
}.

Definition LdapsOptions_default : LdapsOptions := MkLdapsOptions false 6360 "cert.pem" "key.pem".

Record KeycloakOptions := MkKeycloakOptions {
  ko_url : string;
  ko_realm : string;
  ko_admin_user : string;
  ko_admin_pass : string
}.

Definition KeycloakOptions_default : KeycloakOptions :=
  MkKeycloakOptions "http://keycloak:8080" "master" "admin" "".

Record HealthcheckOptions := MkHealthcheckOptions { ho_http_host : string; ho_ldap_host : string }.

Definition HealthcheckOptions_default : HealthcheckOptions := MkHealthcheckOptions "localhost" "localhost".

(** [configuration::Configuration]; [Startup.Configuration] is the part the start reads. *)
Record FullConfiguration `{OpaqueExtern} := MkFullConfiguration {
  cf_ldap_host : string;
  cf_ldap_port : Z;
  cf_http_host : string;
  cf_http_port : Z;
  cf_jwt_secret : option string;
  cf_ldap_base_dn : string;
  cf_ldap_user_dn : UserId;
  cf_ldap_user_email : string;
  cf_ldap_user_pass : option string;
  cf_force_ldap_user_pass_reset : TrueFalseAlways;
  cf_force_update_private_key : bool;
  cf_database_url : string;
  cf_ignored_user_attributes : list AttributeName;
  cf_ignored_group_attributes : list AttributeName;
  cf_verbose : bool;
  cf_key_file : string;
  cf_key_seed : option string;
  cf_assets_path : string;
  cf_smtp_options : MailOptions;
  cf_ldaps_options : LdapsOptions;
  cf_keycloak_options : KeycloakOptions;
  cf_http_url : string;
  cf_server_setup : option ServerSetupConfig;
  cf_healthcheck_options : HealthcheckOptions
}.

(** ** The command line *)

Record GeneralConfigOpts := MkGeneralConfigOpts { config_file : string; verbose : bool }.

Record SmtpOpts := MkSmtpOpts {
  smtp_enable_password_reset : option bool;
  smtp_from : option string;
  smtp_reply_to : option string;
  smtp_server : option string;
  smtp_port : option Z;
  smtp_user : option string;
  smtp_password : option string;
  smtp_tls_required : option bool;
  smtp_encryption : option SmtpEncryption
}.

Record LdapsOpts := MkLdapsOpts {
  ldaps_enabled : option bool;
  ldaps_port : option Z;
  ldaps_cert_file : option string;
  ldaps_key_file : option string
}.

Record HealthcheckOpts := MkHealthcheckOpts {
  healthcheck_http_host : option string;
  healthcheck_ldap_host : option string
}.

Record RunOpts := MkRunOpts {
  ro_general_config : GeneralConfigOpts;
  ro_server_key_file : option string;
  ro_server_key_seed : option string;
  ro_ldap_host : option string;
  ro_ldap_port : option Z;
  ro_http_host : option string;
  ro_http_port : option Z;
  ro_http_url : option string;
  ro_database_url : option string;
  ro_force_ldap_user_pass_reset : option TrueFalseAlways;
  ro_force_update_private_key : option bool;
  ro_smtp_opts : SmtpOpts;
  ro_ldaps_opts : LdapsOpts;
  ro_healthcheck_opts : HealthcheckOpts
}.

Record TestEmailOpts := MkTestEmailOpts {
  te_general_config : GeneralConfigOpts;
  te_to : string;
  te_smtp_opts : SmtpOpts
}.

(** [TrueFalseAlways::from_str] (strum, without ASCII case) and the visitor of its
    [Deserialize] *)
Definition TrueFalseAlways_from_str (s : string) : option TrueFalseAlways :=
  if eq_ignore_ascii_case s "False" then Some TfaFalse
  else if eq_ignore_ascii_case s "True" then Some TfaTrue
  else if eq_ignore_ascii_case s "Always" then Some TfaAlways
  else None.

Definition visit_bool (value : bool) : TrueFalseAlways := if value then TfaTrue else TfaFalse.

Definition visit_str (value : string) : result string TrueFalseAlways :=
  ok_or (TrueFalseAlways_from_str value) ("unknown variant `" +:+ value +:+ "`").

(** ** Overriding *)

(** [option.inspect(|v| field = v)] *)
Definition overridden {A} (field : A) (option : option A) : A := default field option.

Definition override_mail (o : SmtpOpts) (c : MailOptions) : MailOptions :=
  MkMailOptions
    (overridden (mo_enable_password_reset c) (smtp_enable_password_reset o))
    (overridden (mo_from c) (Some <$> smtp_from o))
    (overridden (mo_reply_to c) (Some <$> smtp_reply_to o))
    (overridden (mo_server c) (smtp_server o))
    (overridden (mo_port c) (smtp_port o))
    (overridden (mo_user c) (smtp_user o))
    (overridden (mo_password c) (smtp_password o))
    (overridden (mo_smtp_encryption c) (smtp_encryption o))
    (overridden (mo_tls_required c) (Some <$> smtp_tls_required o)).

Definition override_ldaps (o : LdapsOpts) (c : LdapsOptions) : LdapsOptions :=
  MkLdapsOptions
    (overridden (lo_enabled c) (ldaps_enabled o))
    (overridden (lo_port c) (ldaps_port o))
    (overridden (lo_cert_file c) (ldaps_cert_file o))
    (overridden (lo_key_file c) (ldaps_key_file o)).

Definition override_healthcheck (o : HealthcheckOpts) (c : HealthcheckOptions) : HealthcheckOptions :=
  MkHealthcheckOptions
    (overridden (ho_http_host c) (healthcheck_http_host o))
    (overridden (ho_ldap_host c) (healthcheck_ldap_host o)).

Section Override.
Context `{OpaqueExtern}.

Definition Configuration_default (setup : option ServerSetupConfig) : FullConfiguration :=
  MkFullConfiguration _ "0.0.0.0" 3890 "0.0.0.0" 17170 None "dc=example,dc=com" (MkUserId "admin") "" None TfaFalse
    false "sqlite://users.db?mode=rwc" [] [] false "server_key" None "./app" MailOptions_default
    LdapsOptions_default KeycloakOptions_default "http://localhost" setup HealthcheckOptions_default.

(** [<RunOpts as ConfigOverrider>::override_config] *)
Definition override_config (o : RunOpts) (c : FullConfiguration) : FullConfiguration :=
  MkFullConfiguration _
    (cf_ldap_host c)
    (overridden (cf_ldap_port c) (ro_ldap_port o))
    (cf_http_host c)
    (overridden (cf_http_port c) (ro_http_port o))
    (cf_jwt_secret c) (cf_ldap_base_dn c) (cf_ldap_user_dn c) (cf_ldap_user_email c) (cf_ldap_user_pass c)
    (overridden (cf_force_ldap_user_pass_reset c) (ro_force_ldap_user_pass_reset o))
    (overridden (cf_force_update_private_key c) (ro_force_update_private_key o))
    (overridden (cf_database_url c) (ro_database_url o))
    (cf_ignored_user_attributes c) (cf_ignored_group_attributes c)
    (verbose (ro_general_config o) || cf_verbose c)
    (overridden (cf_key_file c) (ro_server_key_file o))
    (overridden (cf_key_seed c) (Some <$> ro_server_key_seed o))
    (cf_assets_path c)
    (override_mail (ro_smtp_opts o) (cf_smtp_options c))
    (override_ldaps (ro_ldaps_opts o) (cf_ldaps_options c))
    (cf_keycloak_options c)
    (overridden (cf_http_url c) (ro_http_url o))
    (cf_server_setup c) (cf_healthcheck_options c).

Definition with_mail (c : FullConfiguration) (v : bool) (m : MailOptions) : FullConfiguration :=
  MkFullConfiguration _ (cf_ldap_host c) (cf_ldap_port c) (cf_http_host c) (cf_http_port c) (cf_jwt_secret c)
    (cf_ldap_base_dn c) (cf_ldap_user_dn c) (cf_ldap_user_email c) (cf_ldap_user_pass c)
    (cf_force_ldap_user_pass_reset c) (cf_force_update_private_key c) (cf_database_url c)
    (cf_ignored_user_attributes c) (cf_ignored_group_attributes c) v (cf_key_file c) (cf_key_seed c)
    (cf_assets_path c) m (cf_ldaps_options c) (cf_keycloak_options c) (cf_http_url c) (cf_server_setup c)
    (cf_healthcheck_options c).

(** [<TestEmailOpts as ConfigOverrider>::override_config] *)
Definition override_test_email (o : TestEmailOpts) (c : FullConfiguration) : FullConfiguration :=
  with_mail c (verbose (te_general_config o) || cf_verbose c) (override_mail (te_smtp_opts o) (cf_smtp_options c)).

Definition with_server_setup (c : FullConfiguration) (setup : ServerSetupConfig) : FullConfiguration :=
  MkFullConfiguration _ (cf_ldap_host c) (cf_ldap_port c) (cf_http_host c) (cf_http_port c) (cf_jwt_secret c)
    (cf_ldap_base_dn c) (cf_ldap_user_dn c) (cf_ldap_user_email c) (cf_ldap_user_pass c)
    (cf_force_ldap_user_pass_reset c) (cf_force_update_private_key c) (cf_database_url c)
    (cf_ignored_user_attributes c) (cf_ignored_group_attributes c) (cf_verbose c) (cf_key_file c) (cf_key_seed c)
    (cf_assets_path c) (cf_smtp_options c) (cf_ldaps_options c) (cf_keycloak_options c) (cf_http_url c) (Some setup)
    (cf_healthcheck_options c).

(** The part of the configuration that the start looks at. *)
Definition start_configuration (c : FullConfiguration) : option Configuration :=
  (fun setup => MkConfiguration _ (cf_ldap_user_dn c) (cf_ldap_user_email c) (cf_ldap_user_pass c)
     (cf_force_ldap_user_pass_reset c) (cf_force_update_private_key c) setup) <$> cf_server_setup c.
End Override.

(** ** Unknown environment variables *)

(** [figment::value::Value], as far as its keys matter; a dictionary is a [BTreeMap] *)
Inductive Value : Type :=
| VDict (entries : list (string * Value))
| VLeaf.

Definition ascii_upper (c : ascii) : ascii :=
  let n := N_of_ascii c in if ((97 <=? n) && (n <=? 122))%N then ascii_of_N (n - 32) else c.

Fixpoint to_ascii_uppercase (s : string) : string :=
  match s with
  | EmptyString => EmptyString
  | String c s' => String (ascii_upper c) (to_ascii_uppercase s')
  end.

(** [process_value] for one entry, under the joined path *)
Fixpoint entry_keys (path key : string) (value : Value) : list string :=
  match value with
  | VDict entries =>
      flat_map (fun kv => entry_keys (path +:+ to_ascii_uppercase key +:+ "__") (fst kv) (snd kv)) entries
  | VLeaf => ["LLDAP_" +:+ path +:+ to_ascii_uppercase key]
  end.

Definition extract_keys (dict : list (string * Value)) : gset string :=
  list_to_set (flat_map (fun kv => entry_keys "" (fst kv) (snd kv)) dict).

Definition command_line_keys : list string :=
  ["LLDAP_CONFIG_FILE"; "LLDAP_TEST_EMAIL_TO"; "LLDAP_KEYCLOAK_ADMIN_PASS"; "LLDAP_SERVER_KEY_FILE";
   "LLDAP_SERVER_KEY_SEED"; "LLDAP_SMTP_OPTIONS__TO"; "LLDAP_SMTP_OPTIONS__TLS_REQUIRED"].

Definition expected_keys (dict : list (string * Value)) : gset string :=
  extract_keys dict ∪ list_to_set command_line_keys.

(** The variables that are reported. *)
Definition check_for_unexpected_env_variables (defaults env : list (string * Value)) : gset string :=
  extract_keys env ∖ expected_keys defaults.

(** ** Loading the configuration *)

Section Init.
Context `{StartExtern}.

(** [extracted] is what figment read from the defaults, the file and the environment, and
    [find_metadata] where it found a value. *)
Definition init (overrides : FullConfiguration -> FullConfiguration) (extracted : result StartError FullConfiguration)
    (find_metadata : string -> ConfigSource) (files : Files) : result StartError FullConfiguration * Files :=
  match extracted with
  | Err e => (Err e, files)
  | Ok read =>
      let config := overrides read in
      let '(setup, files') :=
        get_server_setup (cf_key_file config) (default "" (cf_key_seed config)) (ByFigment find_metadata) files in
      (let? setup := setup in
       let config := with_server_setup config setup in
       let? _ := ok_or (cf_jwt_secret config) (Bail "The JWT secret must be initialized to a random string") in
       Ok config, files')
  end.
End Init.

(** ** What the command line does *)

Section CommandLine.
Context `{OpaqueExtern}.

(** The options of [RunOpts] that [override_config] does not look at. *)
Definition with_hosts (o : RunOpts) (ldap_host http_host : option string) (checks : HealthcheckOpts) : RunOpts :=
  MkRunOpts (ro_general_config o) (ro_server_key_file o) (ro_server_key_seed o) ldap_host (ro_ldap_port o) http_host
    (ro_http_port o) (ro_http_url o) (ro_database_url o) (ro_force_ldap_user_pass_reset o)
    (ro_force_update_private_key o) (ro_smtp_opts o) (ro_ldaps_opts o) checks.

(** --ldap-host, --http-host and the hosts of the health check have no effect. *)
Theorem host_options_ignored o ldap_host http_host checks c :
  override_config (with_hosts o ldap_host http_host checks) c = override_config o c.
Proof. done. Qed.

(** The identity and the secrets of the administrator and of the JWTs cannot come from
    the command line. *)
Theorem command_line_keeps_secrets o c :
  let c' := override_config o c in
  cf_jwt_secret c' = cf_jwt_secret c /\ cf_ldap_user_dn c' = cf_ldap_user_dn c /\
  cf_ldap_user_pass c' = cf_ldap_user_pass c /\ cf_ldap_base_dn c' = cf_ldap_base_dn c.
Proof. done. Qed.
End CommandLine.

(** ** Names of variables *)

(** A leaf of a dictionary, by the keys that lead to it. *)
Inductive leaf : list string -> list (string * Value) -> Prop :=
| leaf_here d k : (k, VLeaf) ∈ d -> leaf [k] d
| leaf_below d k d' p : (k, VDict d') ∈ d -> leaf p d' -> leaf (k :: p) d.

Definition variable_of (path : list string) : string := "LLDAP_" +:+ join "__" (map to_ascii_uppercase path).

(** Induction through the nested dictionaries. *)
Section ValueInd.
Context (P : Value -> Prop).
Context (HDict : forall d, Forall (fun kv => P (snd kv)) d -> P (VDict d)) (HLeaf : P VLeaf).

Fixpoint Value_ind' (v : Value) : P v :=
  match v with
  | VDict d =>
      HDict d ((fix go d := match d return Forall (fun kv => P (snd kv)) d with
                            | [] => Forall_nil_2 _
                            | kv :: d' => Forall_cons_2 _ kv d' (Value_ind' (snd kv)) (go d')
                            end) d)
  | VLeaf => HLeaf
  end.
End ValueInd.

(** A leaf below one entry. *)
Definition leaf_of (key : string) (value : Value) (p : list string) : Prop :=
  match value with VLeaf => p = [key] | VDict d => exists p', p = key :: p' /\ leaf p' d end.

Lemma leaf_entry p d : leaf p d <-> exists k v, (k, v) ∈ d /\ leaf_of k v p.
Proof.
  split.
  - intros [d' k Hk|d' k d'' p' Hk Hp]; [by exists k, VLeaf|exists k, (VDict d''); split; [done|]; simpl; eauto].
  - intros (k & [d'|] & Hk & Hp); simpl in Hp; [destruct Hp as (p' & -> & Hp); by eapply leaf_below|].
    subst. by apply leaf_here.
Qed.

Lemma path_step path key k v p :
  leaf_of k v p ->
  "LLDAP_" +:+ path +:+ join "__" (map to_ascii_uppercase (key :: p)) =
  "LLDAP_" +:+ (path +:+ to_ascii_uppercase key +:+ "__") +:+ join "__" (map to_ascii_uppercase p).
Proof.
  intros Hp. rewrite map_cons, join_cons, !app_assoc_str; [done|].
  destruct v; simpl in Hp; [destruct Hp as (p' & -> & _)|subst]; done.
Qed.

Lemma entry_keys_spec value : forall path key k,
  k ∈ entry_keys path key value <->
  exists p, leaf_of key value p /\ k = "LLDAP_" +:+ path +:+ join "__" (map to_ascii_uppercase p).
Proof.
  induction value as [d IH|] using Value_ind'; intros path key k; simpl.
  - rewrite list_elem_of_In, in_flat_map. rewrite Forall_forall in IH. split.
    + intros ([k' v] & Hin%list_elem_of_In & Hk%list_elem_of_In). simpl in Hk.
      apply (IH _ Hin) in Hk as (p & Hp & ->). exists (key :: p). split.
      * exists p. split; [done|]. apply leaf_entry. eauto.
      * symmetry. by eapply path_step.
    + intros (p & (p' & -> & Hp) & ->). apply leaf_entry in Hp as (k' & v & Hin & Hp).
      exists (k', v). split; [by apply list_elem_of_In|]. apply list_elem_of_In, (IH _ Hin). exists p'.
      split; [done|]. by eapply path_step.
  - rewrite list_elem_of_singleton. split; [intros ->; by exists [key]|by intros (p & -> & ->)].
Qed.

(** The variables a dictionary stands for: one for each leaf, LLDAP_ and the keys that
    lead to it, in uppercase and joined by two underscores. *)
Lemma extract_keys_spec d k : k ∈ extract_keys d <-> exists p, leaf p d /\ k = variable_of p.
Proof.
  unfold extract_keys. rewrite elem_of_list_to_set, list_elem_of_In, in_flat_map. split.
  - intros ([k' v] & Hin%list_elem_of_In & (p & Hp & ->)%list_elem_of_In%entry_keys_spec). exists p.
    split; [|done]. apply leaf_entry. eauto.
  - intros (p & (k' & v & Hin & Hp)%leaf_entry & ->). exists (k', v). split; [by apply list_elem_of_In|].
    apply list_elem_of_In, entry_keys_spec. by exists p.
Qed.

(** A variable is reported exactly if it is set, no option has its name, and it is not one
    of those that only the command line reads. *)
Theorem unknown_variables defaults env k :
  k ∈ check_for_unexpected_env_variables defaults env <->
  (exists p, leaf p env /\ k = variable_of p) /\ (forall p, leaf p defaults -> k <> variable_of p) /\
  k ∉ command_line_keys.
Proof.
  unfold check_for_unexpected_env_variables, expected_keys. rewrite elem_of_difference, elem_of_union, !extract_keys_spec,
    elem_of_list_to_set. split.
  - intros [Hk Hn]. split; [done|]. split; [|by auto]. intros p Hp ->. apply Hn. left. eauto.
  - intros (Hk & Hd & Hc). split; [done|]. intros [(p & Hp & ->)|Hin]; [by apply (Hd p)|done].
Qed.

(** ** Starting again *)

Section Again.
Context `{StartExtern, !StartLaws}.

(** What [get_server_setup] leaves on the disk gives the same key again. *)
Lemma server_setup_again path seed location files setup files' :
  get_server_setup path seed location files = (Ok setup, files') ->
  get_server_setup path seed location files' = (Ok setup, files').
Proof.
  unfold get_server_setup. destruct (String.eqb seed FIGMENT_DUMMY_KEY_SEED); [by intros [= -> ->]|].
  destruct (negb (String.eqb seed "")).
  - destruct (contents files !! path) eqn:Hf; [done|]. intros [= Hs ->]. rewrite Hf. by rewrite Hs.
  - destruct (contents files !! path) as [readable|] eqn:Hf; [intros [= Hs ->]; rewrite Hf; by rewrite Hs|].
    destruct (writable files); [|done]. intros [= Hs <-]. simpl. rewrite lookup_insert_eq. simpl.
    rewrite setup_roundtrip. simpl. by rewrite Hs.
Qed.
End Again.

(** The key of the server survives a restart: when loading the configuration has
    succeeded, whether the key came from a seed, from a file, or was generated and
    written to one, then loading it again with the same options and environment gives
    the same configuration, with the same key found in the same place, and writes
    nothing. *)
Theorem restart_keeps_key `{StartExtern, !StartLaws} overrides extracted find_metadata files config files' :
  init overrides extracted find_metadata files = (Ok config, files') ->
  init overrides extracted find_metadata files' = (Ok config, files').
Proof.
  unfold init. destruct extracted as [read|]; [|done]. cbv zeta.
  destruct (get_server_setup _ _ _ files) as [[setup|e] files1] eqn:Hs; intros Hi; [|done].
  injection Hi as Hi ->. rewrite (server_setup_again _ _ _ _ _ _ Hs).
  exact (f_equal (fun r => (r, files')) Hi).
Qed.

Definition demo_extracted : @FullConfiguration demo_opaque_extern :=
  let c := @Configuration_default demo_opaque_extern None in
  MkFullConfiguration demo_opaque_extern (cf_ldap_host c) (cf_ldap_port c) (cf_http_host c) (cf_http_port c)
    (Some "jwt") (cf_ldap_base_dn c) (cf_ldap_user_dn c) (cf_ldap_user_email c) (Some "password1")
    (cf_force_ldap_user_pass_reset c) (cf_force_update_private_key c) (cf_database_url c) [] [] false
    (cf_key_file c) None (cf_assets_path c) (cf_smtp_options c) (cf_ldaps_options c) (cf_keycloak_options c)
    (cf_http_url c) None (cf_healthcheck_options c).

(** The key is generated on the first start and read on the second. *)
Lemma restart_keeps_key_witness :
  let run := @init demo_opaque_extern demo_start_extern id (Ok demo_extracted) (fun _ => SrcCode) in
  let first := run (MkFiles ∅ true) in
  contents (snd first) !! "server_key" = Some (Some "random") /\ run (snd first) = first.
Proof.
  intros run first. split; [vm_compute; reflexivity|].
  destruct first as [[c|e] files'] eqn:Hf; [|exfalso; vm_compute in Hf; discriminate Hf].
  apply (@restart_keeps_key demo_opaque_extern demo_start_extern demo_start_laws id (Ok demo_extracted)
    (fun _ => SrcCode) (MkFiles ∅ true) c files'). exact Hf.
Defined.
