(* ===== verification/Boot.v ===== *)
(** * From the database to a running server

    [run_server_command] of [server/src/main.rs]: the tables are created or brought to the
    last version ([Migrations]), then the server is set up on them ([Startup]).  The rows
    of the migrated tables, read with the entities, are the tables the backend works on
    ([MigratedSound.load_tables]). *)

From S2P Require Import Prelude Strings Types Schema SchemaManager Proto Access Dn Filters Search.
From S2P Require Import Database SqlConfig SqlGroups SqlUsers SqlOps SqlLists Opaque AuthTokens AuthService Startup.
From S2P Require Import Relational Migrations MigratedDb MigratedTables MigratedSound Config.

Inductive RunError : Type :=
| NoConfiguration (e : StartError)
| TablesFailed (e : MigrationError)
| RowUnreadable (e : DbErr)
| SetUpFailed (e : StartError).

(** The columns of the row of [metadata] that [set_up_server] reads. *)
Definition metadata_of_row (row : gmap string Cell) : result DbErr Metadata :=
  let? hash := get_option get_bytes (cell row "private_key_hash") in
  let? location := get_option get_text (cell row "private_key_location") in
  Ok (MkMetadata hash location).

Definition load_metadata (c : gmap string Table) : result DbErr (option Metadata) :=
  match tb_rows <$> c !! "metadata" with
  | Some (row :: _) => map_ok Some (metadata_of_row row)
  | Some [] => Ok None
  | None => Err (DbQuery "no such table")
  end.

(** The store of the server on a migrated database. *)
Definition open_store (s : Conn) : result DbErr Store :=
  let? t := load_tables (cn_catalog s) in
  let? md := load_metadata (cn_catalog s) in
  Ok (MkStore (MkDb t (cn_tick s) []) md).

Section Run.
Context `{Extern, SqlExtern, EngineExtern, OpaqueExtern, !StartExtern}.

Definition run_server_command (config : FullConfiguration) (s : Conn) : result RunError Store :=
  let? config := ok_or (start_configuration config) (NoConfiguration (StartPanic "called `Option::unwrap()` on a `None` value")) in
  let '(r, s') := setup_sql_tables s in
  let? _ := map_err TablesFailed r in
  let? st := map_err RowUnreadable (open_store s') in
  let '(r, st') := set_up_server config st in
  let? _ := map_err SetUpFailed r in
  Ok st'.

(** [create_schema_command] *)
Definition create_schema_command (s : Conn) : result MigrationError unit * Conn := setup_sql_tables s.
End Run.

(** C23: the server of a database that an earlier version made: when it starts
    successfully, whatever rows the database had, the tables it serves have the five
    built-in groups and an administrator, every reference in them resolves and every
    unique column is unique, and the key recorded in them is the one the server uses. *)
Theorem upgraded_server_ready
    `{Extern, LdapExtern, SqlExtern, EngineExtern, OpaqueExtern, !StartExtern, !SqlLaws} sessions v config s s1 st' :
  (1 <= v)%Z -> shape (cn_catalog s) = tables_at sessions v -> catalog_ok (cn_catalog s) = true ->
  get_schema_version s = (Ok (Some v), s1) -> run_server_command config s = Ok st' ->
  let t := db_tables (st_db st') in
  (forall n, n ∈ startup_groups -> has_group n (group_tables t)) /\ has_admin t /\ integrity t /\
  forall setup row, cf_server_setup config = Some setup -> st_metadata st' = Some row ->
    md_hash row = Some (private_key_sha256 (server_setup setup)).
Proof.
  intros Hv Hs Hok Hver Hrun. unfold run_server_command, start_configuration in Hrun.
  destruct (cf_server_setup config) as [setup|]; [|discriminate Hrun]. simpl in Hrun.
  destruct (setup_sql_tables s) as [[[]|e] s2] eqn:Hsetup; [|discriminate Hrun]. simpl in Hrun.
  apply result_bind_Ok in Hrun as (st & Hopen%map_err_Ok & Hrun). unfold open_store in Hopen.
  apply result_bind_Ok in Hopen as (t & Ht & Hopen). apply result_bind_Ok in Hopen as (md & _ & Hopen).
  injection Hopen as <-.
  destruct (set_up_server _ _) as [[[]|e] st1] eqn:Hup; [|discriminate Hrun]. injection Hrun as <-.
  apply start_ready in Hup as (Hg & Ha & Hi & Hk); [|by eapply migrated_integrity].
  split_and!; [exact Hg|exact Ha|exact Hi|]. intros setup' row [= <-] Hrow. by apply Hk.
Qed.

(** A first run on an empty database, and the first run of this version on an old one. *)
Definition demo_boot (s : Conn) : result RunError Store :=
  @run_server_command lawful_extern demo_sql_extern lite_engine demo_opaque_extern demo_start_extern
    (@with_server_setup demo_opaque_extern demo_extracted (@MkServerSetupConfig demo_opaque_extern "key" KeyDefault)) s.

Definition logs_in (user password : string) (r : result RunError Store) : bool :=
  match r with Ok st => is_ok (demo_bind user password (st_db st)) | Err _ => false end.

(** Nobody but the new administrator is there. *)
Example first_run : logs_in "admin" "password1" (demo_boot (MkConn ∅ 0 NoTx)) = true.
Proof. vm_compute. reflexivity. Qed.

Lemma upgraded_server_ready_witness :
  is_ok (demo_boot old_database) = true /\
  forall st', demo_boot old_database = Ok st' ->
    @has_admin lawful_extern (db_tables (st_db st')) /\ integrity (db_tables (st_db st')).
Proof.
  split; [vm_compute; reflexivity|]. intros st' Hst.
  destruct (@upgraded_server_ready lawful_extern demo_ldap_extern demo_sql_extern lite_engine demo_opaque_extern
    demo_start_extern _ false 1
    (@with_server_setup demo_opaque_extern demo_extracted (@MkServerSetupConfig demo_opaque_extern "key" KeyDefault)) old_database
    (snd (@get_schema_version demo_sql_extern lite_engine old_database)) st') as (_ & Ha & Hi & _).
  - lia.
  - apply (bool_decide_unpack _). vm_compute. exact I.
  - vm_compute. reflexivity.
  - rewrite (surjective_pairing (get_schema_version old_database)). f_equal.
  - exact Hst.
  - split; [exact Ha|exact Hi].
Defined.
