(* ===== verification/Kerberos.v ===== *)
(** * The Kerberos administration calls

    [crates/kerberos/src/ffi.rs] (the calls of libkrb5 and libkadm5 and the C objects
    they give out and take back) and the functions of [crates/kerberos/src/lib.rs] on
    top of it.

    What the C libraries answer is an operation of the class [KadmExtern], which sees
    all calls made before.  What they own is written out as the comments of [ffi.rs]
    state it: which call gives out an object, which takes it back, and which need it
    alive.  The state [Kadm] has the objects that are out, and remembers whether one
    was used or given back that was not. *)

From S2P Require Import Prelude Strings Types Schema SchemaManager Proto Database SqlConfig SqlGroups SqlUsers.

(** ** C objects *)

(** Contexts, handles and principals by the number under which they were given out; the
    text of an error; an array of keys; the bytes of a key; a string handed over with
    [into_raw]. *)
Inductive CObject : Type :=
| OContext (n : nat)
| OHandle (n : nat)
| OPrincipal (n : nat)
| OMessage (n : nat)
| OKeyblocks (n : nat)
| OKeyContents (n : nat)
| ORawString (n : nat).

#[export] Instance CObject_eq_dec : EqDecision CObject.
Proof. solve_decision. Defined.

(** The calls that do something, and the two things [export_keytab_for_keycloak] does
    besides. *)
Inductive CCall : Type :=
| krb5_init_context
| kadm5_init_with_skey (client keytab realm : string)
| krb5_parse_name (name : string)
| kadm5_create_principal (name : string) (mask : Z) (password : option string)
| kadm5_chpass_principal (name password : string)
| kadm5_delete_principal (name : string)
| kadm5_randkey_principal (name : string)
| remove_file (path : string)
| kadmin_local (query : string).

Record Kadm := MkKadm {
  k_live : list CObject;
  k_next : nat;
  k_misused : bool;
  k_calls : list CCall
}.

Class KadmExtern := {
  (** The code a call returns; the text of a code, if the library has one; the keys
      [kadm5_randkey_principal] gives out: no array, or for each key whether it has
      contents. *)
  c_code : list CCall -> CCall -> Z;
  c_message : list CCall -> Z -> option string;
  c_keyblocks : list CCall -> option (list bool);
  KADM5_UNK_PRINC : Z;
  (** [Command::output]: whether it succeeded and its standard error, or that it could
      not be run. *)
  command_output : list CCall -> result string (bool * string);
  (** The message of [std::ffi::NulError]. *)
  nul_error : string -> string
}.

Definition KADM5_PRINCIPAL : Z := 1.
Definition KADM5_KEY : Z := 32.

Section Ffi.
Context `{KadmExtern}.

Notation kadm A := (io Kadm string A).

Definition c_call (c : CCall) : kadm Z := fun s =>
  (Ok (c_code (k_calls s) c), MkKadm (k_live s) (k_next s) (k_misused s) (k_calls s ++ [c])).

(** The library, or [into_raw], gives out an object. *)
Definition give (mk : nat -> CObject) : kadm nat := fun s =>
  (Ok (k_next s), MkKadm (mk (k_next s) :: k_live s) (S (k_next s)) (k_misused s) (k_calls s)).

(** An object is passed to a call. *)
Definition use (o : CObject) : kadm unit := fun s =>
  (Ok tt, MkKadm (k_live s) (k_next s) (k_misused s || negb (bool_decide (o ∈ k_live s))) (k_calls s)).

Fixpoint remove_object (o : CObject) (l : list CObject) : list CObject :=
  match l with
  | [] => []
  | x :: l' => if bool_decide (x = o) then l' else x :: remove_object o l'
  end.

(** An object is given back. *)
Definition take (o : CObject) : kadm unit := fun s =>
  (Ok tt, MkKadm (remove_object o (k_live s)) (k_next s)
    (k_misused s || negb (bool_decide (o ∈ k_live s))) (k_calls s)).

(** [CString::new(text)] *)
Definition cstring (text err : string) : kadm unit :=
  if contains_char zero text then io_fail err else io_ret tt.

(** The text of an error code, taken from the library and given back. *)
Definition error_text (context : nat) (code : Z) : kadm string :=
  let! _ := use (OContext context) in
  let! message := fun s => (Ok (c_message (k_calls s) code), s) in
  match message with
  | None => io_ret ("code " +:+ int_to_string code)
  | Some text =>
      let! m := give OMessage in
      let! _ := take (OMessage m) in
      io_ret text
  end.

Record Kadm5Handle := MkKadm5Handle { h_handle : nat; h_context : nat }.

Definition init_with_keytab (keytab_path admin_principal realm : string) : kadm Kadm5Handle :=
  let! ret := c_call krb5_init_context in
  if negb (Z.eqb ret 0) then io_fail ("krb5_init_context failed with code " +:+ int_to_string ret)
  else
    let! context := give OContext in
    let! _ := cstring admin_principal "Invalid admin principal" in
    let! _ := cstring keytab_path "Invalid keytab path" in
    let! _ := cstring realm "Invalid realm" in
    let! raw_realm := give ORawString in
    let! _ := use (OContext context) in
    let! ret := c_call (kadm5_init_with_skey admin_principal keytab_path realm) in
    let! _ := take (ORawString raw_realm) in
    if negb (Z.eqb ret 0) then
      let! err_msg := error_text context ret in
      let! _ := take (OContext context) in
      io_fail ("kadm5_init_with_skey failed: " +:+ err_msg)
    else
      let! handle := give OHandle in
      io_ret (MkKadm5Handle handle context).

(** [krb5_parse_name]: a principal to be given back, when the code is 0. *)
Definition parse_name (h : Kadm5Handle) (name : string) (err : Z -> string) : kadm nat :=
  let! _ := use (OContext (h_context h)) in
  let! ret := c_call (krb5_parse_name name) in
  if negb (Z.eqb ret 0) then io_fail (err ret) else give OPrincipal.

Definition parse_name_failed (ret : Z) : string := "krb5_parse_name failed with code " +:+ int_to_string ret.

(** A call on the handle and a principal. *)
Definition on_principal (h : Kadm5Handle) (princ : nat) (c : CCall) : kadm Z :=
  let! _ := use (OHandle (h_handle h)) in
  let! _ := use (OPrincipal princ) in
  c_call c.

Definition free_principal (h : Kadm5Handle) (princ : nat) : kadm unit :=
  let! _ := use (OContext (h_context h)) in
  take (OPrincipal princ).

Definition create_principal (h : Kadm5Handle) (username password realm : string) : kadm unit :=
  let principal_name := username +:+ "@" +:+ realm in
  let! _ := cstring principal_name (nul_error principal_name) in
  let! princ := parse_name h principal_name parse_name_failed in
  let! _ := cstring password (nul_error password) in
  let! ret := on_principal h princ (kadm5_create_principal principal_name KADM5_PRINCIPAL (Some password)) in
  let! _ := free_principal h princ in
  if negb (Z.eqb ret 0) then
    let! err_msg := error_text (h_context h) ret in
    io_fail ("kadm5_create_principal failed: " +:+ err_msg)
  else io_ret tt.

Definition chpass_principal (h : Kadm5Handle) (username password realm : string) : kadm unit :=
  let principal_name := username +:+ "@" +:+ realm in
  let! _ := cstring principal_name (nul_error principal_name) in
  let! princ := parse_name h principal_name parse_name_failed in
  let! _ := cstring password (nul_error password) in
  let! ret := on_principal h princ (kadm5_chpass_principal principal_name password) in
  let! _ := free_principal h princ in
  if negb (Z.eqb ret 0) then
    let! err_msg := error_text (h_context h) ret in
    io_fail ("kadm5_chpass_principal failed: " +:+ err_msg)
  else io_ret tt.

Definition delete_principal (h : Kadm5Handle) (principal_str : string) : kadm unit :=
  let! _ := cstring principal_str "Invalid principal string for CString" in
  let! principal := parse_name h principal_str (fun ret => "Failed to parse principal " +:+ principal_str
    +:+ ": krb5_parse_name ret " +:+ int_to_string ret) in
  let! ret := on_principal h principal (kadm5_delete_principal principal_str) in
  let! _ := free_principal h principal in
  if Z.eqb ret 0 then io_ret tt
  else if Z.eqb ret KADM5_UNK_PRINC then io_ret tt
  else io_fail ("FFI delete principal failed (code " +:+ int_to_string ret +:+ ")").

(** The array [kadm5_randkey_principal] allocates, if any, and the contents of the keys in
    it.  The contents are given back one by one; nothing gives the array back. *)
Fixpoint give_keys (blocks : list bool) : kadm (list nat) :=
  match blocks with
  | [] => io_ret []
  | true :: blocks' =>
      let! k := give OKeyContents in
      let! ks := give_keys blocks' in
      io_ret (k :: ks)
  | false :: blocks' => give_keys blocks'
  end.

Definition give_keyblocks (blocks : option (list bool)) : kadm (option (nat * list nat)) :=
  match blocks with
  | None => io_ret None
  | Some blocks =>
      let! array := give OKeyblocks in
      let! ks := give_keys blocks in
      io_ret (Some (array, ks))
  end.

Definition free_key (context array k : nat) : kadm unit :=
  let! _ := use (OKeyblocks array) in
  let! _ := use (OContext context) in
  take (OKeyContents k).

Definition free_keyblocks (context : nat) (keyblocks : option (nat * list nat)) : kadm unit :=
  match keyblocks with
  | None => io_ret tt
  | Some (array, ks) => io_iter (free_key context array) ks
  end.

Definition set_random_key_for_service (h : Kadm5Handle) (principal_name : string) : kadm unit :=
  let! _ := cstring principal_name "Invalid principal name" in
  let! princ := parse_name h principal_name parse_name_failed in
  let! ret := on_principal h princ (kadm5_randkey_principal principal_name) in
  let! keyblocks :=
    if negb (Z.eqb ret 0) then
      let! err_msg := error_text (h_context h) ret in
      let principal_not_found := Z.eqb ret KADM5_UNK_PRINC
        || contains_str "Principal does not exist" err_msg || contains_str "No such principal" err_msg in
      if principal_not_found then
        let! ret := on_principal h princ
          (kadm5_create_principal principal_name (Z.lor KADM5_PRINCIPAL KADM5_KEY) None) in
        if negb (Z.eqb ret 0) then
          let! _ := free_principal h princ in
          io_fail ("Failed to create service principal " +:+ principal_name +:+ ": code " +:+ int_to_string ret)
        else io_ret None
      else
        let! _ := free_principal h princ in
        io_fail ("kadm5_randkey_principal failed: " +:+ err_msg)
    else
      let! blocks := fun s => (Ok (c_keyblocks (k_calls s)), s) in
      give_keyblocks blocks in
  let! _ := free_keyblocks (h_context h) keyblocks in
  free_principal h princ.

(** [Drop for Kadm5Handle] *)
Definition drop_handle (h : Kadm5Handle) : kadm unit :=
  let! _ := take (OHandle (h_handle h)) in
  take (OContext (h_context h)).

(** The handle is dropped when the function that holds it returns, whatever it returns. *)
Definition with_handle {A} (h : Kadm5Handle) (body : kadm A) : kadm A :=
  let! r := io_try (E' := string) body in
  let! _ := drop_handle h in
  io_lift r.

(** [.context(msg)]: what [to_string] shows of the error afterwards. *)
Definition context {A} (msg : string) (m : kadm A) : kadm A := io_map_err (fun _ => msg) m.
End Ffi.

(** ** The functions of the crate *)

Section Lib.
Context `{Extern, LdapExtern, SqlExtern, KadmExtern}.

Notation kadm A := (io Kadm string A).

Definition derive_domain_from_base_dn : string :=
  let base_dn := from_option id "dc=example,dc=com" env_ldap_base_dn in
  str_to_lowercase
    (join "." (omap (fun part => if starts_with "dc=" part then Some (drop_bytes 3 part) else None)
      (split_on "," base_dn))).

Definition admin_keytab : string := "/data/kadm5.keytab".

(** A handle for the administrator of the realm. *)
Definition admin_handle_of (realm : string) : kadm Kadm5Handle :=
  init_with_keytab admin_keytab ("admin/admin@" +:+ realm) realm.

Definition delete_kerberos_principal (username : string) : kadm unit :=
  let realm_upper := derive_realm_from_base_dn in
  let full_principal := username +:+ "@" +:+ realm_upper in
  let! handle := io_try (E' := string) (admin_handle_of realm_upper) in
  match handle with
  | Ok h => with_handle h (delete_principal h full_principal)
  | Err _ => io_ret tt
  end.

Definition sync_kerberos_principal (username plain_password : string) : kadm unit :=
  let realm_upper := derive_realm_from_base_dn in
  let! h := context "Failed to initialize Kerberos admin handle with keytab (check keytab exists/permissions)"
              (admin_handle_of realm_upper) in
  with_handle h
    (let! changed := io_try (E' := string) (chpass_principal h username plain_password realm_upper) in
     match changed with
     | Ok _ => io_ret tt
     | Err _ => context "Failed to create new Kerberos principal"
                  (create_principal h username plain_password realm_upper)
     end).

(** The host name the keytab is for. *)
Definition keytab_hostname (hostname_input : string) : string :=
  let input := trim hostname_input in
  if String.eqb input "" || String.eqb input "keycloak" then "keycloak." +:+ derive_domain_from_base_dn
  else input.

Definition keytab_path : string := "/data/keytab/keycloak-http.keytab".

Definition ktadd_query (principal : string) : string :=
  "ktadd -k " +:+ keytab_path +:+ " -e aes256-cts-hmac-sha1-96:normal,aes128-cts-hmac-sha1-96:normal "
    +:+ principal.

Definition run_command (query : string) : kadm (bool * string) :=
  let! result := fun s => (Ok (command_output (k_calls s ++ [kadmin_local query])), s) in
  let! _ := c_call (kadmin_local query) in
  io_lift result.

Definition export_keytab_for_keycloak (hostname_input : string) : kadm string :=
  let realm := derive_realm_from_base_dn in
  let principal := "HTTP/" +:+ keytab_hostname hostname_input +:+ "@" +:+ realm in
  let! h := context "Failed to initialize Kerberos admin handle" (admin_handle_of realm) in
  with_handle h
    (let! _ := c_call (remove_file keytab_path) in
     let! _ := set_random_key_for_service h principal in
     let! output := context "Failed to execute kadmin.local" (run_command (ktadd_query principal)) in
     if negb (fst output) then io_fail ("kadmin.local ktadd failed: " +:+ snd output)
     else io_ret keytab_path).
End Lib.

(** ** Which objects a function leaves out *)

Section Leaks.
Context `{KadmExtern}.

Notation kadm A := (io Kadm string A).

(** Run on a state without misuse, the computation misuses nothing, and the objects that
    are out afterwards are those the post-condition allows for its result. *)
Definition handles {A} (m : kadm A) (live : list CObject)
    (post : result string A -> list CObject -> Prop) : Prop :=
  forall s, k_live s = live -> k_misused s = false ->
  let '(r, s') := m s in k_misused s' = false /\ post r (k_live s').

Lemma handles_bind {A B} (m : kadm A) (k : A -> kadm B) live (mid : result string A -> list CObject -> Prop) post :
  handles m live mid ->
  (forall a live', mid (Ok a) live' -> handles (k a) live' post) ->
  (forall e live', mid (Err e) live' -> post (Err e) live') ->
  handles (io_bind m k) live post.
Proof.
  intros Hm Hk He s Hl Hs. unfold io_bind. specialize (Hm s Hl Hs).
  destruct (m s) as [[a|e] s1], Hm as [H1 H2]; [by apply (Hk a (k_live s1) H2)|by split; [|apply He]].
Qed.

Lemma handles_ret {A} (a : A) live (post : result string A -> list CObject -> Prop) :
  post (Ok a) live -> handles (io_ret a) live post.
Proof. intros Hp s <- Hs. done. Qed.

Lemma handles_fail {A} e live (post : result string A -> list CObject -> Prop) :
  post (Err e) live -> handles (io_fail e) live post.
Proof. intros Hp s <- Hs. done. Qed.

Lemma handles_conseq {A} (m : kadm A) live (post post' : result string A -> list CObject -> Prop) :
  handles m live post -> (forall r l, post r l -> post' r l) -> handles m live post'.
Proof. intros Hm Hp s Hl Hs. specialize (Hm s Hl Hs). destruct (m s) as [r s']. naive_solver. Qed.

Lemma handles_call c live : handles (c_call c) live (fun r l => is_ok r = true /\ l = live).
Proof. intros s <- Hs. done. Qed.

Lemma handles_read {A} (f : Kadm -> A) live : handles (fun s => (Ok (f s), s)) live (fun r l => is_ok r = true /\ l = live).
Proof. intros s <- Hs. done. Qed.

Lemma handles_give mk live :
  handles (give mk) live (fun r l => exists n, r = Ok n /\ l = mk n :: live).
Proof. intros s <- Hs. simpl. split; [done|]. by eexists. Qed.

Lemma handles_use o live : o ∈ live -> handles (use o) live (fun r l => r = Ok tt /\ l = live).
Proof. intros Ho s <- Hs. simpl. rewrite bool_decide_true, Hs by done. done. Qed.

Lemma handles_take o live :
  o ∈ live -> handles (take o) live (fun r l => r = Ok tt /\ l = remove_object o live).
Proof. intros Ho s <- Hs. simpl. rewrite bool_decide_true, Hs by done. done. Qed.

(** The two forms most calls have: one that succeeds, one that leaves the objects alone. *)
Lemma handles_seq {A B} (m : kadm A) (k : A -> kadm B) live live' (post : result string B -> list CObject -> Prop) :
  handles m live (fun r l => is_ok r = true /\ l = live') ->
  (forall a, handles (k a) live' post) -> handles (io_bind m k) live post.
Proof.
  intros Hm Hk. eapply handles_bind; [exact Hm| |].
  - intros a l [_ ->]. apply Hk.
  - intros e l [? _]. done.
Qed.

Lemma handles_quiet {A B} (m : kadm A) (k : A -> kadm B) live (post : result string B -> list CObject -> Prop) :
  handles m live (fun _ l => l = live) ->
  (forall a, handles (k a) live post) -> (forall e, post (Err e) live) -> handles (io_bind m k) live post.
Proof.
  intros Hm Hk He. eapply handles_bind; [exact Hm| |].
  - intros a l ->. apply Hk.
  - intros e l ->. apply He.
Qed.

Lemma handles_given {B} mk (k : nat -> kadm B) live (post : result string B -> list CObject -> Prop) :
  (forall n, handles (k n) (mk n :: live) post) -> handles (io_bind (give mk) k) live post.
Proof.
  intros Hk. eapply handles_bind; [apply handles_give| |].
  - intros a l (n & [= ->] & ->). apply Hk.
  - intros e l (n & ? & _). done.
Qed.

Lemma handles_used {B} o (k : unit -> kadm B) live (post : result string B -> list CObject -> Prop) :
  o ∈ live -> handles (k tt) live post -> handles (io_bind (use o) k) live post.
Proof. intros Ho Hk s Hl Hs. simpl. apply Hk; [done|]. simpl. by rewrite bool_decide_true, Hs by (by rewrite Hl). Qed.

Lemma handles_taken {B} o (k : unit -> kadm B) live (post : result string B -> list CObject -> Prop) :
  handles (k tt) live post -> handles (io_bind (take o) k) (o :: live) post.
Proof.
  intros Hk s Hl Hs. simpl. apply Hk; simpl; rewrite Hl; simpl; rewrite bool_decide_true by set_solver; [done|].
  by rewrite Hs.
Qed.

Lemma handles_called {B} c (k : Z -> kadm B) live (post : result string B -> list CObject -> Prop) :
  (forall z, handles (k z) live post) -> handles (io_bind (c_call c) k) live post.
Proof. apply handles_seq. intros s <- Hs. done. Qed.

Lemma handles_cstring {B} text err (k : unit -> kadm B) live (post : result string B -> list CObject -> Prop) :
  (contains_char zero text = true -> post (Err err) live) ->
  (contains_char zero text = false -> handles (k tt) live post) -> handles (io_bind (cstring text err) k) live post.
Proof. intros He Hk. unfold cstring. destruct (contains_char zero text); [by intros s <- Hs; split; [|apply He]|by apply Hk]. Qed.

Lemma handles_assoc {A B C} (m : kadm A) (k : A -> kadm B) (k' : B -> kadm C) live post :
  handles (io_bind m (fun a => io_bind (k a) k')) live post -> handles (io_bind (io_bind m k) k') live post.
Proof. intros Hm s Hl Hs. specialize (Hm s Hl Hs). revert Hm. unfold io_bind. by destruct (m s) as [[a|e] s1]. Qed.
End Leaks.

(** Follow a function from one object to the next. *)
Ltac kadm_step :=
  match goal with
  | |- handles (io_ret _) _ _ => apply handles_ret
  | |- handles (io_fail _) _ _ => apply handles_fail
  | |- handles (io_bind (give _) _) _ _ => apply handles_given; intros ?
  | |- handles (io_bind (use _) _) _ _ => apply handles_used; [set_solver|]
  | |- handles (io_bind (take _) _) (_ :: _) _ => apply handles_taken
  | |- handles (io_bind (c_call _) _) _ _ => apply handles_called; intros ?
  | |- handles (io_bind (cstring _ _) _) _ _ => apply handles_cstring; intros ?
  | |- handles (io_bind (io_bind _ _) _) _ _ => apply handles_assoc
  | |- handles (if ?b then _ else _) _ _ => destruct b
  | |- handles (match ?x with _ => _ end) _ _ => destruct x
  end.

Section Balance.
Context `{KadmExtern}.

Notation kadm A := (io Kadm string A).

Lemma error_text_handles c code live :
  OContext c ∈ live -> handles (error_text c code) live (fun r l => is_ok r = true /\ l = live).
Proof.
  intros Hc. unfold error_text. kadm_step. eapply handles_seq; [apply handles_read|]. intros [text|].
  - repeat kadm_step. done.
  - by kadm_step.
Qed.

(** What an error may leave: nothing, or, when the text has a NUL byte, one object. *)
Definition at_most_leaks (nul : bool) (o : nat -> CObject) (live l : list CObject) : Prop :=
  l = live \/ (nul = true /\ exists n, l = o n :: live).

Lemma init_handles keytab admin realm live :
  handles (init_with_keytab keytab admin realm) live (fun r l =>
    match r with
    | Ok h => l = OHandle (h_handle h) :: OContext (h_context h) :: live
    | Err _ => at_most_leaks (contains_char zero admin || contains_char zero keytab || contains_char zero realm)
                 OContext live l
    end).
Proof.
  unfold init_with_keytab, at_most_leaks. do 2 kadm_step; [by kadm_step; left|].
  kadm_step. do 3 (kadm_step; [right; split; [rewrite !orb_true_iff; tauto|by eexists]|]).
  repeat kadm_step.
  - eapply handles_seq; [apply error_text_handles; set_solver|]. intros m. repeat kadm_step. by left.
  - done.
Qed.

Lemma handles_parsed {B} h name err (k : nat -> kadm B) live (post : result string B -> list CObject -> Prop) :
  OContext (h_context h) ∈ live ->
  (forall e, post (Err e) live) -> (forall n, handles (k n) (OPrincipal n :: live) post) ->
  handles (io_bind (parse_name h name err) k) live post.
Proof.
  intros Hc He Hk. unfold parse_name. apply handles_assoc. kadm_step. apply handles_assoc. kadm_step.
  destruct (negb _); [intros s <- Hs; by split; [|apply He]|]. by kadm_step.
Qed.

Lemma handles_on_principal {B} h n c (k : Z -> kadm B) live (post : result string B -> list CObject -> Prop) :
  OHandle (h_handle h) ∈ live -> (forall z, handles (k z) (OPrincipal n :: live) post) ->
  handles (io_bind (on_principal h n c) k) (OPrincipal n :: live) post.
Proof. intros Hh Hk. unfold on_principal. do 2 (apply handles_assoc; kadm_step). by kadm_step. Qed.

Lemma handles_freed {B} h n (k : unit -> kadm B) live (post : result string B -> list CObject -> Prop) :
  OContext (h_context h) ∈ live -> handles (k tt) live post ->
  handles (io_bind (free_principal h n) k) (OPrincipal n :: live) post.
Proof. intros Hc Hk. unfold free_principal. apply handles_assoc. kadm_step. by kadm_step. Qed.

(** The objects of a handle that is in use. *)
Definition held (h : Kadm5Handle) (live : list CObject) : list CObject :=
  OHandle (h_handle h) :: OContext (h_context h) :: live.

Ltac held_step :=
  match goal with
  | |- handles (io_bind (parse_name _ _ _) _) _ _ => apply handles_parsed; [set_solver|intros ?|intros ?]
  | |- handles (io_bind (on_principal _ _ _) _) _ _ => apply handles_on_principal; [set_solver|intros ?]
  | |- handles (io_bind (free_principal _ _) _) _ _ => apply handles_freed; [set_solver|]
  | |- handles (io_bind (error_text _ _) _) _ _ =>
      eapply handles_seq; [apply error_text_handles; set_solver|intros ?]
  | |- _ => kadm_step
  end.

Lemma create_principal_handles h u p realm live :
  OHandle (h_handle h) ∈ live -> OContext (h_context h) ∈ live ->
  handles (create_principal h u p realm) live
    (fun _ l => at_most_leaks (contains_char zero p) OPrincipal live l).
Proof.
  intros Hh Hc. unfold create_principal, at_most_leaks. repeat held_step; eauto.
Qed.

Lemma chpass_principal_handles h u p realm live :
  OHandle (h_handle h) ∈ live -> OContext (h_context h) ∈ live ->
  handles (chpass_principal h u p realm) live
    (fun _ l => at_most_leaks (contains_char zero p) OPrincipal live l).
Proof. intros Hh Hc. unfold chpass_principal, at_most_leaks. repeat held_step; eauto. Qed.

Lemma delete_principal_handles h name live :
  handles (delete_principal h name) (held h live) (fun _ l => l = held h live).
Proof. unfold delete_principal, held. repeat held_step; done. Qed.

(** The contents of the keys. *)
Lemma give_keys_handles blocks : forall live,
  handles (give_keys blocks) live (fun r l => exists ks, r = Ok ks /\ l = rev (map OKeyContents ks) ++ live).
Proof.
  induction blocks as [|[] blocks IH]; intros live; simpl; [kadm_step; by exists []| |apply IH].
  kadm_step. eapply handles_bind; [apply IH| |].
  - intros a l (ks & [= ->] & ->). kadm_step. eexists. split; [done|]. simpl. by rewrite <- app_assoc.
  - intros e l (ks & ? & _). done.
Qed.

Lemma remove_object_front o front live :
  o ∈ front -> remove_object o (front ++ live) = remove_object o front ++ live.
Proof.
  induction front as [|x front IH]; [by intros ?%elem_of_nil|]. intros Ho. simpl.
  case_bool_decide as Hx; [done|]. simpl. rewrite IH; [done|]. set_solver.
Qed.

Lemma remove_object_perm o front : o ∈ front -> o :: remove_object o front ≡ₚ front.
Proof.
  induction front as [|x front IH]; [by intros ?%elem_of_nil|]. intros Ho. simpl.
  case_bool_decide as Hx; [by subst|]. rewrite Permutation_swap. f_equiv. apply IH. set_solver.
Qed.

Lemma free_keys_handles {B} c array ks (k : unit -> kadm B) live (post : result string B -> list CObject -> Prop) :
  OContext c ∈ live -> OKeyblocks array ∈ live -> handles (k tt) live post -> forall front,
  front ≡ₚ map OKeyContents ks -> handles (io_bind (io_iter (free_key c array) ks) k) (front ++ live) post.
Proof.
  intros Hc Harr Hk. induction ks as [|key ks IH]; intros front Hf; simpl.
  - apply Permutation_nil_r in Hf as ->. intros s. apply Hk.
  - apply handles_assoc. unfold free_key at 1. apply handles_assoc. kadm_step. apply handles_assoc. kadm_step.
    assert (OKeyContents key ∈ front) as Hin by (rewrite Hf; set_solver).
    eapply handles_bind; [apply handles_take; set_solver| |].
    + intros a l [_ ->]. rewrite remove_object_front by done. apply IH.
      apply (Permutation_cons_inv (a := OKeyContents key)). by rewrite remove_object_perm.
    + by intros e l [? _].
Qed.

(** The array stays, if the library made one. *)
Lemma set_random_key_handles h name live :
  handles (set_random_key_for_service h name) (held h live)
    (fun _ l => l = held h live \/ exists array, l = OKeyblocks array :: held h live).
Proof.
  unfold set_random_key_for_service, held. held_step; [by left|]. held_step; [by left|]. held_step.
  eapply (handles_bind _ _ _ (fun r l => match r with
    | Ok None => l = OPrincipal n :: held h live
    | Ok (Some (array, ks)) => l = rev (map OKeyContents ks) ++ OKeyblocks array :: OPrincipal n :: held h live
    | Err _ => l = held h live
    end)).
  - destruct (negb _).
    + held_step. destruct (_ || _).
      * held_step. destruct (negb _); [|by held_step]. held_step. by held_step.
      * held_step. by held_step.
    + eapply handles_seq; [apply handles_read|]. intros [blocks|]; simpl; [|by held_step]. held_step.
      eapply handles_bind; [apply give_keys_handles| |].
      * intros ks l (ks' & [= ->] & ->). by held_step.
      * by intros e l (ks' & ? & _).
  - intros [[array ks]|] l ->; simpl.
    + apply free_keys_handles; [set_solver..| |symmetry; apply Permutation_rev].
      unfold free_principal. kadm_step.
      eapply handles_conseq; [apply handles_take; set_solver|]. intros r l [_ ->]. right. exists array. simpl.
      by repeat case_bool_decide.
    + eapply handles_seq; [by apply handles_ret|]. intros _. unfold free_principal. kadm_step.
      eapply handles_conseq; [apply handles_take; set_solver|]. intros r l [_ ->]. left. simpl. by rewrite bool_decide_true.
  - by left.
Qed.
End Balance.

(** ** The functions of the crate give everything back *)

Section Functions.
Context `{Extern, LdapExtern, SqlExtern, KadmExtern}.

Notation kadm A := (io Kadm string A).

(** Principals and arrays of keys that were not given back, at most as many as the bounds
    say. *)
Definition leftover (leaked : list CObject) (principals arrays : list nat) : Prop :=
  leaked ≡ₚ map OPrincipal principals ++ map OKeyblocks arrays.

Definition leaks (bound arrays_bound : nat) (live l : list CObject) : Prop :=
  exists leaked principals arrays, l = leaked ++ live /\ leftover leaked principals arrays /\
    (length principals <= bound)%nat /\ (length arrays <= arrays_bound)%nat.

Lemma leaks_none b a live : leaks b a live live.
Proof. exists [], [], []. split_and!; [done|by apply Permutation_refl|simpl; lia..]. Qed.

Lemma leaks_array array live : leaks 0 1 live (OKeyblocks array :: live).
Proof. exists [OKeyblocks array], [], [array]. split_and!; [done|by apply Permutation_refl|simpl; lia..]. Qed.

Lemma leaks_trans b1 a1 b2 a2 live l1 l2 :
  leaks b1 a1 live l1 -> leaks b2 a2 l1 l2 -> leaks (b1 + b2) (a1 + a2) live l2.
Proof.
  intros (k1 & p1 & r1 & -> & Hk1 & Hp1 & Hr1) (k2 & p2 & r2 & -> & Hk2 & Hp2 & Hr2).
  exists (k2 ++ k1), (p2 ++ p1), (r2 ++ r1). rewrite !length_app.
  split_and!; [by rewrite app_assoc| |lia..]. unfold leftover in *. rewrite Hk1, Hk2, !map_app. solve_Permutation.
Qed.

Lemma leaks_weaken b a b' a' live l : (b <= b')%nat -> (a <= a')%nat -> leaks b a live l -> leaks b' a' live l.
Proof. intros Hb Ha (k & p & r & Hl & Hk & Hp & Hr). exists k, p, r. split_and!; [done..|lia|lia]. Qed.

Lemma remove_object_behind o front rest :
  o ∉ front -> remove_object o (front ++ rest) = front ++ remove_object o rest.
Proof.
  induction front as [|x front IH]; [done|]. intros [Hx Ho]%not_elem_of_cons. simpl.
  rewrite bool_decide_false by done. by rewrite IH.
Qed.

Lemma not_leaked o leaked principals arrays :
  leftover leaked principals arrays -> (forall n, o <> OPrincipal n) -> (forall n, o <> OKeyblocks n) -> o ∉ leaked.
Proof.
  intros Hl Hp Ha. unfold leftover in Hl. rewrite Hl, elem_of_app.
  intros [(n & -> & _)%list_elem_of_fmap|(n & -> & _)%list_elem_of_fmap]; [by destruct (Hp n)|by destruct (Ha n)].
Qed.

Lemma drop_handle_handles h leaked principals arrays live :
  leftover leaked principals arrays ->
  handles (drop_handle h) (leaked ++ held h live)
    (fun r l => is_ok r = true /\ l = leaked ++ live).
Proof.
  intros Hlo. unfold drop_handle, held. eapply handles_bind; [apply handles_take; set_solver| |by intros e l [? _]].
  intros a l [_ ->]. rewrite remove_object_behind by by eapply not_leaked. simpl.
  rewrite bool_decide_true by done. eapply handles_conseq; [apply handles_take; set_solver|].
  intros r l [-> ->]. rewrite remove_object_behind by by eapply not_leaked. simpl.
  by rewrite bool_decide_true.
Qed.

Lemma handles_try {A} (m : kadm A) live (post : result string A -> list CObject -> Prop) :
  handles m live post ->
  handles (io_try (E' := string) m) live (fun r l => exists r0, r = Ok r0 /\ post r0 l).
Proof.
  intros Hm s Hl Hs. specialize (Hm s Hl Hs). unfold io_try. destruct (m s) as [r s']. naive_solver.
Qed.

Lemma handles_context {A} msg (m : kadm A) live (post : result string A -> list CObject -> Prop) :
  handles m live post ->
  (forall e l, post (Err e) l -> post (Err msg) l) -> handles (context msg m) live post.
Proof.
  intros Hm Hp s Hl Hs. specialize (Hm s Hl Hs). unfold context, io_map_err.
  destruct (m s) as [[a|e] s']; simpl; naive_solver.
Qed.

Lemma with_handle_leaks {A} h (body : kadm A) b a live :
  handles body (held h live) (fun _ l => leaks b a (held h live) l) ->
  handles (with_handle h body) (held h live) (fun _ l => leaks b a live l).
Proof.
  intros Hb. unfold with_handle. eapply handles_bind; [by apply handles_try| |].
  - intros r l (r0 & _ & leaked & ps & arrays & -> & Hlo & Hq). eapply handles_seq; [by eapply drop_handle_handles|].
    intros _ s Hl Hs. simpl. split; [done|]. rewrite Hl. by exists leaked, ps, arrays.
  - intros e l (r0 & ? & _). done.
Qed.

Lemma leaks_one nul live l :
  at_most_leaks nul OPrincipal live l -> leaks (if nul : bool then 1 else 0) 0 live l.
Proof.
  intros [->|[-> [n ->]]]; [apply leaks_none|]. exists [OPrincipal n], [n], [].
  split_and!; [done|by apply Permutation_refl|simpl; lia..].
Qed.

(** The realm comes from the environment, whose variables hold no NUL byte. *)
Context (realm_text : contains_char zero derive_realm_from_base_dn = false).

Lemma admin_handle_handles live :
  handles (admin_handle_of derive_realm_from_base_dn) live (fun r l =>
    match r with
    | Ok h => l = held h live
    | Err _ => l = live
    end).
Proof.
  unfold admin_handle_of. eapply handles_conseq; [apply init_handles|]. intros [h|e] l; [done|].
  rewrite contains_app, realm_text. by intros [?|[? _]].
Qed.

(** A function that opens a handle, whatever it does when that fails. *)
Lemma open_handle_leaks {A B} (f : kadm Kadm5Handle -> kadm B) (k : B -> kadm A) b a live :
  handles (f (admin_handle_of derive_realm_from_base_dn)) live (fun r l =>
    match r with Ok x => handles (k x) l (fun _ l => leaks b a live l) | Err _ => l = live end) ->
  handles (io_bind (f (admin_handle_of derive_realm_from_base_dn)) k) live (fun _ l => leaks b a live l).
Proof.
  intros Hf. eapply handles_bind; [exact Hf| |].
  - intros x l Hk. exact Hk.
  - intros e l ->. apply leaks_none.
Qed.

Lemma delete_leaks username live :
  handles (delete_kerberos_principal username) live (fun _ l => leaks 0 0 live l).
Proof.
  unfold delete_kerberos_principal. apply open_handle_leaks.
  eapply handles_conseq; [apply handles_try, admin_handle_handles|].
  intros r l (r0 & -> & Hr0). destruct r0 as [h|e]; subst l.
  - apply with_handle_leaks. eapply handles_conseq; [apply delete_principal_handles|].
    intros r l ->. apply leaks_none.
  - apply handles_ret, leaks_none.
Qed.

Lemma sync_leaks username password live :
  handles (sync_kerberos_principal username password) live
    (fun _ l => leaks (if contains_char zero password then 2 else 0) 0 live l).
Proof.
  unfold sync_kerberos_principal. apply open_handle_leaks.
  eapply handles_conseq; [apply handles_context; [apply admin_handle_handles|done]|].
  intros [h|e] l; [intros ->|done]. apply with_handle_leaks.
  eapply handles_bind; [apply handles_try, chpass_principal_handles; unfold held; set_solver| |by intros e l (r0 & ? & _)].
  intros r l (r0 & [= ->] & Hl). apply leaks_one in Hl. destruct r0 as [[]|e].
  - apply handles_ret. eapply leaks_weaken; [| |exact Hl]; [destruct (contains_char zero password); lia|lia].
  - eapply handles_conseq; [apply handles_context; [apply create_principal_handles|]|].
    + destruct Hl as (k & p & r & -> & _). unfold held. set_solver.
    + destruct Hl as (k & p & r & -> & _). unfold held. set_solver.
    + intros e0 l'. exact id.
    + intros r l' Hl'%leaks_one. pose proof (leaks_trans _ _ _ _ _ _ _ Hl Hl') as Ht.
      eapply leaks_weaken; [| |exact Ht]; [destruct (contains_char zero password); lia|lia].
Qed.

Lemma export_leaks hostname live :
  handles (export_keytab_for_keycloak hostname) live (fun _ l => leaks 0 1 live l).
Proof.
  unfold export_keytab_for_keycloak. apply open_handle_leaks.
  eapply handles_conseq; [apply handles_context; [apply admin_handle_handles|done]|].
  intros [h|e] l; [intros ->|done]. apply with_handle_leaks.
  kadm_step. eapply handles_bind; [apply set_random_key_handles| |].
  - intros [] l Hl.
    assert (leaks 0 1 (held h live) l) as Hleak.
    { destruct Hl as [->|[array ->]]; [apply leaks_none|]. by apply leaks_array. }
    eapply (handles_quiet _ _ _ _); [| |done].
    + apply (handles_context _ _ _ (fun _ l' => l' = l)); [|done]. unfold run_command.
      eapply handles_seq; [apply handles_read|]. intros result. kadm_step. by intros s <- Hs.
    + intros output. by kadm_step; kadm_step.
  - intros e l [->|[array ->]]; [apply leaks_none|]. by apply leaks_array.
Qed.
End Functions.

(** ** Calls in any sequence *)

(** The functions the server calls. *)
Inductive KerberosCall : Type :=
| Sync (username password : string)
| DeletePrincipal (username : string)
| ExportKeytab (hostname : string).

Section Calls.
Context `{Extern, LdapExtern, SqlExtern, KadmExtern}.

Definition kerberos_call (c : KerberosCall) (s : Kadm) : Kadm :=
  match c with
  | Sync u p => snd (sync_kerberos_principal u p s)
  | DeletePrincipal u => snd (delete_kerberos_principal u s)
  | ExportKeytab h => snd (export_keytab_for_keycloak h s)
  end.

Definition kerberos_calls (cs : list KerberosCall) (s : Kadm) : Kadm := fold_left (fun s c => kerberos_call c s) cs s.

(** How many principals and arrays a call may leave. *)
Definition leak_bound (c : KerberosCall) : nat :=
  match c with
  | Sync _ p => if contains_char zero p then 2 else 0
  | _ => 0
  end.

Definition array_bound (c : KerberosCall) : nat := match c with ExportKeytab _ => 1 | _ => 0 end.

Lemma kerberos_call_leaks c s :
  contains_char zero derive_realm_from_base_dn = false -> k_misused s = false ->
  k_misused (kerberos_call c s) = false /\
  leaks (leak_bound c) (array_bound c) (k_live s) (k_live (kerberos_call c s)).
Proof.
  intros Hr Hs. destruct c as [u p|u|h]; simpl.
  - pose proof (sync_leaks Hr u p (k_live s) s eq_refl Hs) as Hh. by destruct (sync_kerberos_principal u p s).
  - pose proof (delete_leaks Hr u (k_live s) s eq_refl Hs) as Hh. by destruct (delete_kerberos_principal u s).
  - pose proof (export_leaks Hr h (k_live s) s eq_refl Hs) as Hh. by destruct (export_keytab_for_keycloak h s).
Qed.

Lemma kerberos_calls_leaks cs s :
  contains_char zero derive_realm_from_base_dn = false -> k_misused s = false ->
  k_misused (kerberos_calls cs s) = false /\
  leaks (sum_list (map leak_bound cs)) (sum_list (map array_bound cs)) (k_live s) (k_live (kerberos_calls cs s)).
Proof.
  intros Hr. unfold kerberos_calls. revert s. induction cs as [|c cs IH]; intros s Hs; simpl.
  - split; [done|]. apply leaks_none.
  - destruct (kerberos_call_leaks c s Hr Hs) as [Hm Hl]. destruct (IH _ Hm) as [Hm' Hl'].
    split; [done|]. by eapply leaks_trans.
Qed.
End Calls.

Definition has_nul_password (c : KerberosCall) : bool :=
  match c with Sync _ p => contains_char zero p | _ => false end.

Definition exports_keytab (c : KerberosCall) : bool := match c with ExportKeytab _ => true | _ => false end.

(** C29: whatever the C libraries answer, in any sequence of synchronisations, deletions and
    keytab exports no C object is used that is not alive and none is given back twice; and
    in the end every object has been given back, except one or two principals for each
    password with a NUL byte and at most one array of keys, the one
    [kadm5_randkey_principal] allocates, for each keytab export. *)
Theorem c_objects_given_back `{Extern, LdapExtern, SqlExtern, KadmExtern} cs s :
  contains_char zero derive_realm_from_base_dn = false -> k_misused s = false ->
  let s' := kerberos_calls cs s in
  k_misused s' = false /\
  exists principals arrays,
    k_live s' ≡ₚ map OPrincipal principals ++ map OKeyblocks arrays ++ k_live s /\
    (length principals <= 2 * length (List.filter has_nul_password cs))%nat /\
    (length arrays <= length (List.filter exports_keytab cs))%nat.
Proof.
  intros Hr Hs s'. destruct (kerberos_calls_leaks cs s Hr Hs) as [Hm (leaked & ps & arrays & Hl & Hlo & Hn & Ha)].
  split; [done|]. exists ps, arrays. split_and!.
  - subst s'. rewrite Hl. unfold leftover in Hlo. by rewrite Hlo, <- app_assoc.
  - etrans; [exact Hn|]. clear. induction cs as [|[u p|u|h] cs IH]; simpl; [lia| |exact IH..].
    destruct (contains_char zero p); simpl in *; lia.
  - etrans; [exact Ha|]. clear. induction cs as [|[u p|u|h] cs IH]; simpl; lia.
Qed.

(** A server that does not know bob, and whose [kadmin.local] works. *)
Definition demo_kadm_extern : KadmExtern := {|
  c_code := fun _ c =>
    match c with
    | kadm5_chpass_principal name _ => if String.eqb name "bob@EXAMPLE.COM" then 5%Z else 0%Z
    | _ => 0%Z
    end;
  c_message := fun _ _ => Some "Principal does not exist";
  c_keyblocks := fun _ => Some [true; false; true];
  KADM5_UNK_PRINC := 5;
  command_output := fun _ => Ok (true, "");
  nul_error := fun _ => "nul byte found"
|}.

Definition upper_extern : LdapExtern := {|
  debug_filter := @debug_filter demo_ldap_extern;
  debug_op := @debug_op demo_ldap_extern;
  debug_attribute_name := attribute_name_str;
  uuid_error := @uuid_error demo_ldap_extern;
  utf8_error := @utf8_error demo_ldap_extern;
  str_to_uppercase := fun _ => "EXAMPLE.COM";
  utc_now_generalized := "20260101000000Z";
  cargo_pkg_version := "0.0.0";
  env_kerb_realm_name := None
|}.

Definition no_calls : Kadm := MkKadm [] 0 false [].

Definition demo_kerberos (cs : list KerberosCall) : Kadm :=
  @kerberos_calls lawful_extern upper_extern demo_sql_extern demo_kadm_extern cs no_calls.

Definition nul_password : string := "pass" +:+ String zero "word".

Lemma c_objects_given_back_witness :
  let s' := demo_kerberos [Sync "bob" "secret"; ExportKeytab "keycloak"; Sync "eve" nul_password; DeletePrincipal "bob"] in
  k_misused s' = false /\ length (k_live s') = 3%nat /\ length (k_calls s') = 20%nat /\
  exists principals arrays, k_live s' ≡ₚ map OPrincipal principals ++ map OKeyblocks arrays ++ [] /\
    (length principals <= 2)%nat /\ (length arrays <= 1)%nat.
Proof.
  intros s'.
  destruct (@c_objects_given_back lawful_extern upper_extern demo_sql_extern demo_kadm_extern
    [Sync "bob" "secret"; ExportKeytab "keycloak"; Sync "eve" nul_password; DeletePrincipal "bob"] no_calls
    eq_refl eq_refl) as [Hm Hl].
  split; [exact Hm|]. split; [vm_compute; reflexivity|]. split; [vm_compute; reflexivity|]. exact Hl.
Defined.

(** The host name goes into the query of [kadmin.local] as it is: one with a space adds
    principals, whose keys are replaced and written to the keytab. *)
Example keytab_query_injection :
  @split_on " " (@ktadd_query ("HTTP/" +:+ @keytab_hostname lawful_extern demo_sql_extern "a admin/admin@R b" +:+ "@R")) =
  ["ktadd"; "-k"; "/data/keytab/keycloak-http.keytab"; "-e";
   "aes256-cts-hmac-sha1-96:normal,aes128-cts-hmac-sha1-96:normal"; "HTTP/a"; "admin/admin@R"; "b@R"].
Proof. vm_compute. reflexivity. Qed.

(** ** What a synchronisation achieves *)

Section SyncSuccess.
Context `{Extern, LdapExtern, SqlExtern, KadmExtern}.

Notation kadm A := (io Kadm string A).

(** The last call that answered: it was made after [calls], and returned 0. *)
Definition succeeded (s' : Kadm) (c : CCall) : Prop :=
  exists calls, k_calls s' = calls ++ [c] /\ c_code calls c = 0%Z.

Lemma zero_code ret : negb (Z.eqb ret 0) = false -> ret = 0%Z.
Proof. by intros ?%negb_false_iff%Z.eqb_eq. Qed.

Lemma on_principal_Ok h n c s ret s' :
  on_principal h n c s = (Ok ret, s') ->
  k_calls s' = k_calls s ++ [c] /\ ret = c_code (k_calls s) c.
Proof. unfold on_principal, io_bind, use, c_call. simpl. by intros [= <- <-]. Qed.

Lemma free_principal_Ok h n s r s' : free_principal h n s = (r, s') -> r = Ok tt /\ k_calls s' = k_calls s.
Proof. unfold free_principal, io_bind, use, take. simpl. by intros [= <- <-]. Qed.

(** What follows the preparation of a call. *)
Lemma last_call_Ok h n c err s s' :
  (let! ret := on_principal h n c in
   let! _ := free_principal h n in
   if negb (Z.eqb ret 0) then let! e := error_text (h_context h) ret in io_fail (err +:+ e) else io_ret tt) s
  = (Ok tt, s') -> succeeded s' c.
Proof.
  intros Hs. apply io_bind_Ok in Hs as (ret & s2 & [Hc ->]%on_principal_Ok & Hs).
  apply io_bind_Ok in Hs as (u & s3 & [_ Hf]%free_principal_Ok & Hs).
  destruct (negb _) eqn:Ez in Hs; [apply io_bind_Ok in Hs as (? & ? & _ & ?); done|].
  io_inv Hs. exists (k_calls s). split; [by rewrite Hf|by apply zero_code].
Qed.

Lemma chpass_principal_Ok h u p realm s s' :
  chpass_principal h u p realm s = (Ok tt, s') -> succeeded s' (kadm5_chpass_principal (u +:+ "@" +:+ realm) p).
Proof.
  unfold chpass_principal. intros Hs. do 3 apply io_bind_Ok in Hs as (? & ? & _ & Hs). by apply last_call_Ok in Hs.
Qed.

Lemma create_principal_Ok h u p realm s s' :
  create_principal h u p realm s = (Ok tt, s') ->
  succeeded s' (kadm5_create_principal (u +:+ "@" +:+ realm) KADM5_PRINCIPAL (Some p)).
Proof.
  unfold create_principal. intros Hs. do 3 apply io_bind_Ok in Hs as (? & ? & _ & Hs). by apply last_call_Ok in Hs.
Qed.

Lemma with_handle_Ok {A} h (body : kadm A) s a s' :
  with_handle h body s = (Ok a, s') -> exists s1, body s = (Ok a, s1) /\ k_calls s' = k_calls s1.
Proof.
  unfold with_handle, io_bind, io_try, drop_handle, take. destruct (body s) as [r s1]. simpl.
  intros [= -> <-]. by exists s1.
Qed.
End SyncSuccess.

(** When a synchronisation reports success, its last call set the password of the
    principal [username@REALM], by changing it or by creating the principal with it, and
    the library answered that call with 0. *)
Theorem sync_sets_password `{Extern, LdapExtern, SqlExtern, KadmExtern} username password s s' :
  sync_kerberos_principal username password s = (Ok tt, s') ->
  let principal := username +:+ "@" +:+ derive_realm_from_base_dn in
  succeeded s' (kadm5_chpass_principal principal password) \/
  succeeded s' (kadm5_create_principal principal KADM5_PRINCIPAL (Some password)).
Proof.
  unfold sync_kerberos_principal. intros Hs. apply io_bind_Ok in Hs as (h & s1 & _ & Hs).
  apply with_handle_Ok in Hs as (s2 & Hs & Hc). unfold succeeded. rewrite Hc.
  apply io_bind_Ok in Hs as (r & s3 & Ht & Hs). unfold io_try in Ht.
  destruct (chpass_principal _ _ _ _ s1) as [r0 s4] eqn:Ech. injection Ht as <- <-.
  destruct r0 as [[]|e].
  - io_inv Hs. left. by apply chpass_principal_Ok in Ech.
  - right. unfold context in Hs. apply io_map_err_Ok in Hs. by apply create_principal_Ok in Hs.
Qed.

Lemma sync_sets_password_witness :
  let s' := demo_kerberos [Sync "bob" "secret"] in
  @succeeded demo_kadm_extern s' (kadm5_create_principal "bob@EXAMPLE.COM" KADM5_PRINCIPAL (Some "secret")).
Proof.
  intros s'.
  destruct (@sync_sets_password lawful_extern upper_extern demo_sql_extern demo_kadm_extern "bob" "secret" no_calls s'
    ltac:(vm_compute; reflexivity)) as [(calls & Hc & Hz)|Hs]; [|exact Hs].
  exfalso. apply (f_equal (@rev CCall)) in Hc. rewrite rev_app_distr in Hc. vm_compute in Hc. discriminate Hc.
Defined.
