(* ===== verification/KerberosManager.v ===== *)
(** * The Kerberos manager

    [crates/kerberos/src/bin/kerberos_manager.rs], the program that writes the
    configuration of the KDC, creates its database on the first run and keeps its
    daemons running.

    The file system is the map from paths to contents in the state [Machine], with the
    events that happened; which file operations and commands fail, and what commands
    print, are operations of the class [MachineExtern], which see the events before
    them.  minijinja and the TOML parser are operations of the class too. *)

From S2P Require Import Prelude Strings Types Schema SchemaManager Proto Database SqlConfig SqlGroups SqlUsers Kerberos.

(** ** Text *)

(** [str::lines]: the pieces between newlines, without a last empty one, and without a
    carriage return before a newline. *)
Definition newline : ascii := ascii_of_nat 10.
Definition carriage_return : ascii := ascii_of_nat 13.

Definition strip_cr (s : string) : string :=
  if ends_with (String carriage_return "") s
  then String.rev (drop_bytes 1 (String.rev s)) else s.

Fixpoint lines_of (pieces : list string) : list string :=
  match pieces with
  | [] => []
  | [last] => if String.eqb last "" then [] else [last]
  | piece :: pieces' => strip_cr piece :: lines_of pieces'
  end.

Definition lines (s : string) : list string := lines_of (split_on newline s).

(** [str::split_whitespace]: the words between white space.  The characters of white space
    start with bytes that continue no character, so a word is looked for byte by byte. *)
Fixpoint take_word (s : string) : string * string :=
  match s with
  | "" => ("", "")
  | String c s' =>
      if (ws_len s =? 0)%nat then let '(w, rest) := take_word s' in (String c w, rest) else ("", s)
  end.

Fixpoint words_loop (fuel : nat) (s : string) : list string :=
  match fuel with
  | O => []
  | S fuel' =>
      let s := trim_start s in
      if String.eqb s "" then []
      else let '(w, rest) := take_word s in w :: words_loop fuel' rest
  end.

(** Every word has a byte, so the length is fuel enough. *)
Definition split_whitespace (s : string) : list string := words_loop (String.length s) s.

(** ** The access list of kadmind *)

Definition is_comment (trimmed : string) : bool :=
  starts_with "#" trimmed || starts_with ";" trimmed.

(** A line that is neither blank nor a comment. *)
Definition is_data (trimmed : string) : bool :=
  negb (String.eqb trimmed "") && negb (is_comment trimmed).

Definition has_sufficient_admin_entry (content admin_princ : string) : bool :=
  existsb (fun line =>
    let trimmed := trim line in
    is_data trimmed && bool_decide (head (split_whitespace trimmed) = Some admin_princ)
      && contains_char "*" trimmed) (lines content).

Definition looks_like_entry (trimmed : string) : bool :=
  match split_whitespace trimmed with
  | principal :: _ :: _ => contains_char "@" principal || contains_char "/" principal
  | _ => false
  end.

Definition acl_structure_looks_valid (content : string) : bool :=
  let data := List.filter is_data (map trim (lines content)) in
  match data with
  | [] => false
  | _ => existsb looks_like_entry data
  end.

(** What the repair knows when it has read some lines. *)
Record Repair := MkRepair {
  output_lines : list string;
  saw_admin_with_star : bool;
  bad_data_lines : nat;
  total_data_lines : nat
}.

Definition repair_line (admin_princ required_line : string) (r : Repair) (line : string) : Repair :=
  let trimmed := trim line in
  if String.eqb trimmed "" then
    MkRepair (output_lines r ++ [""]) (saw_admin_with_star r) (bad_data_lines r) (total_data_lines r)
  else if is_comment trimmed then
    MkRepair (output_lines r ++ [trimmed]) (saw_admin_with_star r) (bad_data_lines r) (total_data_lines r)
  else
    match split_whitespace trimmed with
    | principal :: _ :: _ =>
        if String.eqb principal admin_princ then
          MkRepair (output_lines r ++ [required_line]) true (bad_data_lines r) (S (total_data_lines r))
        else
          MkRepair (output_lines r ++ [trimmed]) (saw_admin_with_star r) (bad_data_lines r)
            (S (total_data_lines r))
    | _ => MkRepair (output_lines r) (saw_admin_with_star r) (S (bad_data_lines r)) (S (total_data_lines r))
    end.

(** The quotient [bad / total > 0.5] is only looked at for two bad lines or less, where
    single precision decides it exactly. *)
Definition too_garbled (r : Repair) : bool :=
  (0 <? total_data_lines r)%nat &&
  ((2 <? bad_data_lines r)%nat || (total_data_lines r <? 2 * bad_data_lines r)%nat).

Definition best_effort_repair_or_standardize (content admin_princ required_line : string) : option string :=
  let r := fold_left (repair_line admin_princ required_line) (lines content) (MkRepair [] false 0 0) in
  let out := if saw_admin_with_star r then output_lines r else output_lines r ++ [required_line] in
  if too_garbled r then None
  else
    let result := join (String newline "") out in
    Some (if ends_with (String newline "") result then result else result +:+ String newline "").

Example repair_keeps_the_rest :
  best_effort_repair_or_standardize
    ("# rules" +:+ (String newline "other/x@R l" +:+ (String newline "  adm@R  l " +:+ String newline "word")))
    "adm@R" "adm@R    *" =
  Some ("# rules" +:+ (String newline "other/x@R l" +:+ (String newline "adm@R    *" +:+ String newline ""))).
Proof. vm_compute. reflexivity. Qed.

(** ** The machine *)

Inductive Event : Type :=
| CopyFile (from to : string)
| ReadFile (path : string)
| WriteFile (path content : string)
| CreateDir (path : string)
| SetMode (path : string)
| RunCommand (program : string) (arguments : list string) (input : string)
| Spawn (program : string)
| ConnectKdc
| SleepSecond
| WaitFor (program : string).

Record Machine := MkMachine { m_files : gmap string string; m_events : list Event }.

(** [KerberosConfig] *)
Record KerberosConfig := MkKerberosConfig {
  kc_realm_name : string;
  kc_base_dn : string;
  kc_ticket_lifetime : string;
  kc_renew_lifetime : string;
  kc_forwardable : bool;
  kc_rdns : bool
}.

(** What a command leaves: its status and its two outputs. *)
Record Output := MkOutput { o_success : bool; o_stdout : string; o_stderr : string }.

Class MachineExtern := {
  (** Whether the operating system refuses an operation, after the events so far. *)
  os_refuses : list Event -> Event -> bool;
  (** What a command does: to the files, and its output. *)
  command_effect : list Event -> Event -> gmap string string -> gmap string string;
  command_result : list Event -> Event -> Output;
  (** The mode of a file, if its metadata can be read. *)
  file_mode : list Event -> string -> option Z;
  (** toml: the tables of a document; the fields of [[kerberos]]. *)
  toml_from_str : string -> option (gmap string string);
  kerberos_from_value : string -> option KerberosConfig;
  (** minijinja: the template with the values, or the message of its error. *)
  render_text : string -> list (string * string) -> result string string
}.

Section Machine.
Context `{MachineExtern}.

Notation machine A := (io Machine string A).

(** An operation on files, [None] when it fails of itself. *)
Definition file_op {A} (e : Event) (err : string)
    (f : gmap string string -> option (A * gmap string string)) : machine A := fun s =>
  let log := m_events s ++ [e] in
  match (if os_refuses (m_events s) e then None else f (m_files s)) with
  | Some (a, files) => (Ok a, MkMachine files log)
  | None => (Err err, MkMachine (m_files s) log)
  end.

Definition path_exists (path : string) : machine bool := fun s =>
  (Ok (bool_decide (is_Some (m_files s !! path))), s).

Definition copy_file (from to err : string) : machine unit :=
  file_op (CopyFile from to) err (fun files => (fun c => (tt, <[to := c]> files)) <$> files !! from).

Definition read_to_string (path err : string) : machine string :=
  file_op (ReadFile path) err (fun files => (fun c => (c, files)) <$> files !! path).

Definition write_file (path content err : string) : machine unit :=
  file_op (WriteFile path content) err (fun files => Some (tt, <[path := content]> files)).

Definition create_dir_all (path err : string) : machine unit :=
  file_op (CreateDir path) err (fun files => Some (tt, files)).

Definition set_mode_644 (path err : string) : machine unit :=
  file_op (SetMode path) err (fun files => Some (tt, files)).

(** [Command::new(..).output()] or [.status()], with what is written to its standard input *)
Definition run_command (program : string) (arguments : list string) (input err : string) : machine Output := fun s =>
  let e := RunCommand program arguments input in
  let log := m_events s ++ [e] in
  if os_refuses (m_events s) e then (Err err, MkMachine (m_files s) log)
  else (Ok (command_result (m_events s) e), MkMachine (command_effect (m_events s) e (m_files s)) log).

Definition run_kadmin_local (query : string) : machine Output :=
  run_command "sudo" ["/usr/sbin/kadmin.local"; "-q"; query] "" "Failed to spawn sudo kadmin.local".

Definition chown_lldap (arguments : list string) (err : string) : machine unit :=
  let! _ := run_command "sudo" ("chown" :: arguments) "" err in io_ret tt.

(** The result of a call that is thrown away: [let _ = ..]. *)
Definition ignore_result {A} (m : machine A) : machine unit := let! _ := io_try (E' := string) m in io_ret tt.

Definition bool_text (b : bool) : string := if b then "true" else "false".

Definition template_values (config : KerberosConfig) (domain : string) : list (string * string) :=
  [("TICKET_LIFETIME", kc_ticket_lifetime config); ("RENEW_LIFETIME", kc_renew_lifetime config);
   ("FORWARDABLE", bool_text (kc_forwardable config)); ("RDNS", bool_text (kc_rdns config));
   ("REALM_NAME", kc_realm_name config); ("DOMAIN", domain)].

Definition render_template (template_path output_path : string) (config : KerberosConfig) (domain : string)
  : machine unit :=
  let! template_str := read_to_string template_path ("Failed to read template: " +:+ template_path) in
  let! rendered := io_lift (render_text template_str (template_values config domain)) in
  write_file output_path rendered ("Failed to write " +:+ output_path).

Definition apply_permissions (path : string) : machine unit :=
  let! _ := set_mode_644 path "Failed to set 0644 permissions on kadm5.acl" in
  ignore_result (run_command "sudo" ["chown"; "lldap:lldap"; path] "" "").

Definition apply_permissions_if_needed (path : string) : machine unit :=
  let! mode := fun s => (Ok (file_mode (m_events s) path), s) in
  match mode with
  | None => apply_permissions path
  | Some mode => if negb (Z.eqb (Z.land mode 420) 420) then apply_permissions path else io_ret tt
  end.
End Machine.

(** ** [ensure_kadm5_acl] *)

Section Acl.
Context `{LdapExtern, MachineExtern}.

Notation machine A := (io Machine string A).

Definition admin_principal (config : KerberosConfig) : string :=
  "admin/admin@" +:+ str_to_uppercase (kc_realm_name config).

(** Reading the file, with the repair of its permissions when that fails. *)
Definition read_acl (acl_path : string) : machine string :=
  let! read := io_try (E' := string) (read_to_string acl_path "") in
  match read with
  | Ok c => io_ret c
  | Err _ =>
      let! _ := ignore_result (apply_permissions acl_path) in
      read_to_string acl_path "kadm5.acl still unreadable after permission repair"
  end.

Definition ensure_kadm5_acl (acl_path template_path : string) (config : KerberosConfig) (domain : string)
  : machine unit :=
  let admin_princ := admin_principal config in
  let required_line := admin_princ +:+ "    *" in
  let! present := path_exists acl_path in
  if negb present then
    let! _ := render_template template_path acl_path config domain in
    ignore_result (apply_permissions acl_path)
  else
    let! original_content := read_acl acl_path in
    let! _ := ignore_result (apply_permissions_if_needed acl_path) in
    if has_sufficient_admin_entry original_content admin_princ && acl_structure_looks_valid original_content
    then io_ret tt
    else
      let! _ :=
        match best_effort_repair_or_standardize original_content admin_princ required_line with
        | Some repaired =>
            if negb (String.eqb (trim repaired) (trim original_content)) then
              write_file acl_path repaired "Failed to write repaired kadm5.acl"
            else io_ret tt
        | None => render_template template_path acl_path config domain
        end in
      ignore_result (apply_permissions_if_needed acl_path).
End Acl.

(** ** [main] *)

Section Main.
Context `{Extern, LdapExtern, SqlExtern, MachineExtern}.

Notation machine A := (io Machine string A).

Definition config_path : string := "/data/kerberos_config.toml".
Definition kdc_database : string := "/var/kerberos/krb5kdc/principal".
Definition acl_file : string := "/var/kerberos/krb5kdc/kadm5.acl".
Definition acl_template : string := "/app/kadm5.template.acl".
Definition keycloak_config_path : string := "/data/keycloak_config.toml".

Definition load_kerberos_config : machine KerberosConfig :=
  let! present := path_exists config_path in
  let! _ := if negb present
            then copy_file "/app/kerberos_config.template.toml" config_path "Failed to copy config template"
            else io_ret tt in
  let! toml_str := read_to_string config_path "Failed to read kerberos_config.toml" in
  let! full_config := io_lift (ok_or (toml_from_str toml_str) "Failed to parse TOML") in
  let! value := io_lift (ok_or (full_config !! "kerberos") "Missing [kerberos] table") in
  io_lift (ok_or (kerberos_from_value value) "Failed to deserialize [kerberos]").

(** The configuration with the realm and the base DN of the environment, and the domain. *)
Definition effective_config (config : KerberosConfig) : KerberosConfig * string :=
  let base_dn := from_option id (kc_base_dn config) env_ldap_base_dn in
  (MkKerberosConfig derive_realm_from_base_dn base_dn (kc_ticket_lifetime config)
     (kc_renew_lifetime config) (kc_forwardable config) (kc_rdns config),
   str_to_lowercase (join "." (omap (fun part => if starts_with "dc=" part then Some (drop_bytes 3 part) else None)
     (split_on "," base_dn)))).

Definition write_templates (config : KerberosConfig) (domain : string) : machine unit :=
  let! _ := create_dir_all "/var/kerberos/krb5kdc" "Failed to create krb5kdc dir" in
  let! _ := render_template "/app/krb5.template.conf" "/etc/krb5.conf" config domain in
  let! _ := render_template "/app/kdc.template.conf" "/var/kerberos/krb5kdc/kdc.conf" config domain in
  ensure_kadm5_acl acl_file acl_template config domain.

Definition ensure_keycloak_config : machine unit :=
  let! present := path_exists keycloak_config_path in
  if negb present then
    let! _ := copy_file "/app/keycloak_config.template.toml" keycloak_config_path
                "Failed to copy keycloak_config.template.toml" in
    chown_lldap ["lldap:lldap"; keycloak_config_path] "Failed to chown keycloak_config.toml"
  else io_ret tt.

(** The first run: the database of the KDC, the administrator and its keytab. *)
Definition bootstrap (config : KerberosConfig) : machine unit :=
  let! master := run_command "openssl" ["rand"; "-hex"; "32"] "" "Failed to generate random master password" in
  let master_pass := trim (o_stdout master) in
  let! output := run_command "sudo" ["kdb5_util"; "create"; "-s"]
    (master_pass +:+ String newline (master_pass +:+ String newline "")) "Failed to spawn sudo kdb5_util" in
  let! _ := if negb (o_success output) then
              io_fail ("kdb5_util failed!" +:+ String newline ("stdout: " +:+ trim (o_stdout output) +:+
                String newline ("stderr: " +:+ trim (o_stderr output))))
            else io_ret tt in
  let admin_princ := admin_principal config in
  let! add_output := run_kadmin_local ("addprinc -randkey " +:+ admin_princ) in
  let! _ := if negb (o_success add_output) then io_fail "addprinc failed" else io_ret tt in
  let! ktadd_output := run_kadmin_local ("ktadd -k " +:+ admin_keytab +:+ " " +:+ admin_princ) in
  let! _ := if negb (o_success ktadd_output) then io_fail "ktadd failed" else io_ret tt in
  let! _ := chown_lldap ["lldap:lldap"; admin_keytab] "Failed to chown keytab" in
  chown_lldap ["-R"; "lldap:lldap"; "/var/kerberos/krb5kdc"] "Failed to chown DB dir".

Definition spawn (program err : string) : machine unit :=
  file_op (Spawn program) err (fun files => Some (tt, files)).

(** The wait for the KDC: sixty attempts, and on with or without it. *)
Fixpoint wait_for_kdc (attempts : nat) : machine unit :=
  match attempts with
  | O => io_ret tt
  | S n =>
      let! connected := io_try (E' := string) (file_op ConnectKdc "" (fun files => Some (tt, files))) in
      match connected with
      | Ok _ => io_ret tt
      | Err _ =>
          let! _ := ignore_result (file_op SleepSecond "" (fun files => Some (tt, files))) in
          wait_for_kdc n
      end
  end.

Definition populate_ccache (config : KerberosConfig) : machine unit :=
  let! present := path_exists admin_keytab in
  if present then
    let! output := run_command "/usr/bin/kinit" ["-k"; "-t"; admin_keytab; admin_principal config] "" "Failed kinit" in
    if negb (o_success output) then io_fail "kinit failed" else io_ret tt
  else io_ret tt.

(** [child.wait()]: whether the daemon ended well. *)
Definition wait_for (program err : string) : machine bool := fun s =>
  let e := WaitFor program in
  let log := m_events s ++ [e] in
  if os_refuses (m_events s) e then (Err err, MkMachine (m_files s) log)
  else (Ok (o_success (command_result (m_events s) e)), MkMachine (m_files s) log).

Definition manager_main : machine unit :=
  let! loaded := load_kerberos_config in
  let '(config, domain) := effective_config loaded in
  let! _ := write_templates config domain in
  let! _ := ensure_keycloak_config in
  let! present := path_exists kdc_database in
  let! _ := if negb present then bootstrap config else io_ret tt in
  let! _ := spawn "/usr/sbin/krb5kdc" "Failed to start krb5kdc" in
  let! _ := spawn "/usr/sbin/kadmind" "Failed to start kadmind" in
  let! _ := wait_for_kdc 60 in
  let! _ := populate_ccache config in
  let! kdc_status := wait_for "/usr/sbin/krb5kdc" "krb5kdc exited unexpectedly" in
  let! kadmind_status := wait_for "/usr/sbin/kadmind" "kadmind exited unexpectedly" in
  if negb kdc_status || negb kadmind_status then io_fail "Kerberos service failed" else io_ret tt.
End Main.

(** ** What the repair does *)

(** A text that [lines] gives back as it is. *)
Definition plain_line (l : string) : Prop := contains_char newline l = false /\ strip_cr l = l.

Lemma strip_cr_trim s : strip_cr (trim s) = trim s.
Proof.
  unfold strip_cr. destruct (ends_with _ _) eqn:E; [|done]. exfalso.
  apply ends_with_iff in E as [t Ht]. pose proof (trim_last s) as Hl. rewrite Ht, rev_app_distr_str in Hl. done.
Qed.

Lemma strip_cr_no_newline s : contains_char newline s = false -> contains_char newline (strip_cr s) = false.
Proof.
  unfold strip_cr. destruct (ends_with _ _) eqn:E; [|done]. apply ends_with_iff in E as [t ->].
  rewrite rev_app_distr_str. change (drop_bytes 1 _) with (String.rev t).
  rewrite rev_involutive_str, contains_app. by intros [? _]%orb_false_iff.
Qed.

Lemma lines_no_newline s : Forall (fun l => contains_char newline l = false) (lines s).
Proof.
  unfold lines. pose proof (split_on_pieces newline s) as Hp. revert Hp. generalize (split_on newline s) as ps.
  induction ps as [|p [|q ps] IH]; intros Hp; inversion Hp as [|? ? Hp1 Hp2]; subst; [constructor| |].
  - simpl. case_match; by repeat constructor.
  - constructor; [by apply strip_cr_no_newline|by apply IH].
Qed.

Definition nonblank (ls : list string) : list string := List.filter (fun l => negb (String.eqb l "")) ls.

Lemma nonblank_app a b : nonblank (a ++ b) = nonblank a ++ nonblank b.
Proof. apply List.filter_app. Qed.

Lemma elem_of_nonblank ls l : l ∈ nonblank ls <-> l ∈ ls /\ l <> "".
Proof.
  unfold nonblank. rewrite list_elem_of_In, filter_In, <- list_elem_of_In, negb_true_iff, String.eqb_neq. done.
Qed.

Lemma lines_of_plain ps : Forall plain_line ps -> nonblank (lines_of ps) = nonblank ps.
Proof.
  induction ps as [|p [|q ps] IH]; intros Hp; inversion Hp as [|? ? [_ Hp1] Hp2]; subst; [done|..].
  - cbn [lines_of]. destruct (String.eqb_spec p ""); [by subst|done].
  - change (lines_of (p :: q :: ps)) with (strip_cr p :: lines_of (q :: ps)). rewrite Hp1.
    change (nonblank ([p] ++ lines_of (q :: ps)) = nonblank ([p] ++ (q :: ps))). by rewrite !nonblank_app, IH.
Qed.

Lemma join_snoc sep l x : l <> [] -> join sep (l ++ [x]) = join sep l +:+ (sep +:+ x).
Proof.
  induction l as [|y [|z l] IH]; [done|done|]. intros _. specialize (IH ltac:(done)).
  change (join sep ((y :: z :: l) ++ [x])) with (y +:+ (sep +:+ join sep ((z :: l) ++ [x]))).
  change (join sep (y :: z :: l)) with (y +:+ (sep +:+ join sep (z :: l))).
  rewrite IH. by rewrite !app_assoc_str.
Qed.

(** The lines of the text the repair puts together. *)
Lemma lines_of_result out :
  Forall plain_line out -> out <> [] ->
  let result := join (String newline "") out in
  nonblank (lines (if ends_with (String newline "") result then result else result +:+ String newline "")) = nonblank out.
Proof.
  intros Hp Hn result. assert (Forall (fun w => contains_char newline w = false) out) as Hc.
  { eapply Forall_impl; [exact Hp|]. by intros w [Hw _]. }
  unfold lines. destruct (ends_with _ _).
  - unfold result. rewrite split_join by done. by apply lines_of_plain.
  - replace (result +:+ String newline "") with (join (String newline "") (out ++ [""])).
    + rewrite split_join; [|by destruct out|by apply Forall_app; split; [|repeat constructor]].
      rewrite lines_of_plain by (by apply Forall_app; split; [|repeat constructor]).
      rewrite nonblank_app. apply app_nil_r.
    + rewrite join_snoc by done. unfold result. f_equal.
Qed.

Section Repaired.
Context (admin_princ required_line : string).

(** What becomes of a line. *)
Definition repaired_line (line : string) : option string :=
  let trimmed := trim line in
  if is_data trimmed then
    match split_whitespace trimmed with
    | principal :: _ :: _ => Some (if String.eqb principal admin_princ then required_line else trimmed)
    | _ => None
    end
  else Some trimmed.

Definition is_admin_line (line : string) : bool :=
  is_data (trim line) && match split_whitespace (trim line) with
  | principal :: _ :: _ => String.eqb principal admin_princ
  | _ => false
  end.

Lemma repair_line_step r line :
  output_lines (repair_line admin_princ required_line r line)
    = output_lines r ++ from_option (fun l => [l]) [] (repaired_line line) /\
  saw_admin_with_star (repair_line admin_princ required_line r line)
    = saw_admin_with_star r || is_admin_line line.
Proof.
  unfold repair_line, repaired_line, is_admin_line, is_data. destruct (String.eqb_spec (trim line) "") as [->|].
  - simpl. by rewrite orb_false_r.
  - destruct (is_comment (trim line)); simpl; [by rewrite orb_false_r|].
    destruct (split_whitespace (trim line)) as [|w [|w' ws]]; simpl; rewrite ?app_nil_r, ?orb_false_r; [done..|].
    destruct (String.eqb w admin_princ); simpl; [by rewrite orb_true_r|by rewrite orb_false_r].
Qed.

Lemma repair_lines ls : forall r,
  output_lines (fold_left (repair_line admin_princ required_line) ls r) = output_lines r ++ omap repaired_line ls /\
  saw_admin_with_star (fold_left (repair_line admin_princ required_line) ls r)
    = saw_admin_with_star r || existsb is_admin_line ls.
Proof.
  induction ls as [|l ls IH]; intros r; [by rewrite app_nil_r, orb_false_r|].
  cbn [fold_left existsb]. destruct (IH (repair_line admin_princ required_line r l)) as [-> ->].
  destruct (repair_line_step r l) as [-> ->]. rewrite <- app_assoc, <- orb_assoc. split; [|done].
  f_equal. simpl. by destruct (repaired_line l).
Qed.

(** The lines of the result: those of the text, with the administrator's. *)
Definition repaired_lines (content : string) : list string :=
  omap repaired_line (lines content) ++
    if existsb is_admin_line (lines content) then [] else [required_line].

Lemma repair_result content result :
  best_effort_repair_or_standardize content admin_princ required_line = Some result ->
  result = let text := join (String newline "") (repaired_lines content) in
           if ends_with (String newline "") text then text else text +:+ String newline "".
Proof.
  unfold best_effort_repair_or_standardize, repaired_lines.
  destruct (repair_lines (lines content) (MkRepair [] false 0 0)) as [Ho Hs]. rewrite Ho, Hs. cbn [output_lines saw_admin_with_star].
  destruct (too_garbled _); [done|]. intros [= <-]. cbn [app orb].
  destruct (existsb is_admin_line (lines content)); [by rewrite app_nil_r|done].
Qed.

Lemma required_in_repaired content : required_line ∈ repaired_lines content.
Proof.
  unfold repaired_lines. apply elem_of_app. destruct (existsb is_admin_line (lines content)) eqn:E; [left|right; by left].
  apply existsb_elem in E as (l & Hl & Ha). apply list_elem_of_omap. exists l. split; [done|].
  unfold is_admin_line in Ha. apply andb_prop in Ha as [Hd Hw]. unfold repaired_line. rewrite Hd.
  destruct (split_whitespace (trim l)) as [|w [|w' ws]]; [done..|]. by rewrite Hw.
Qed.

Context (required_plain : plain_line required_line).

Lemma repaired_plain content : Forall plain_line (repaired_lines content).
Proof.
  apply Forall_app. split; [|case_match; [constructor|by apply Forall_singleton]].
  apply Forall_forall. intros l (x & Hx & Hl)%list_elem_of_omap.
  pose proof (lines_no_newline content) as Hc. rewrite Forall_forall in Hc.
  assert (plain_line (trim x)) as Ht by (split; [by apply contains_trim, Hc|apply strip_cr_trim]).
  unfold repaired_line in Hl. repeat case_match; by simplify_eq.
Qed.

Lemma repaired_not_nil content : repaired_lines content <> [].
Proof. intros Hn. pose proof (required_in_repaired content) as Hr. rewrite Hn in Hr. by apply elem_of_nil in Hr. Qed.

Lemma lines_of_repaired content result :
  best_effort_repair_or_standardize content admin_princ required_line = Some result ->
  nonblank (lines result) = nonblank (repaired_lines content).
Proof. intros ->%repair_result. apply lines_of_result; [apply repaired_plain|apply repaired_not_nil]. Qed.
End Repaired.

(** ** The line of the administrator *)

Lemma take_word_visible w rest :
  visible w = true -> take_word (w +:+ String " " rest) = (w, String " " rest).
Proof.
  induction w as [|c w IH]; [done|]. intros Hv. cbn [visible] in Hv. apply andb_prop in Hv as [Hc Hw].
  change (String c w +:+ String " " rest) with (String c (w +:+ String " " rest)). cbn [take_word].
  rewrite (proj1 (ws_len_visible c _ Hc)). simpl. by rewrite IH.
Qed.

Section AdminLine.
Context (admin : string) (admin_text : visible admin = true) (admin_some : admin <> "").
Context (admin_at : contains_char "@" admin = true) (no_comment : is_comment admin = false).

Lemma required_trim : trim (admin +:+ "    *") = admin +:+ "    *".
Proof.
  apply trim_edges.
  - destruct admin as [|c w]; [done|]. cbn [visible] in admin_text. apply andb_prop in admin_text as [Hc _].
    by apply (ws_len_visible c).
  - rewrite rev_app_distr_str. by apply (ws_len_visible "*").
Qed.

Lemma visible_no_char c s : visible s = true -> (nat_of_ascii c <? 33)%nat = true -> contains_char c s = false.
Proof.
  intros Hs Hc%Nat.ltb_lt. induction s as [|d s IH]; [done|]. cbn [visible contains_char] in *.
  apply andb_prop in Hs as [[Hd%Nat.leb_le _]%andb_prop Hs]. rewrite IH by done.
  destruct (Ascii.eqb_spec c d) as [->|]; [lia|done].
Qed.

Lemma required_is_plain : plain_line (admin +:+ "    *").
Proof.
  split; [|rewrite <- required_trim; apply strip_cr_trim]. rewrite contains_app.
  by rewrite visible_no_char.
Qed.

Lemma required_words : exists ws, split_whitespace (admin +:+ "    *") = admin :: "*" :: ws.
Proof.
  unfold split_whitespace. assert (exists n, String.length (admin +:+ "    *") = S (S n)) as [n ->].
  { destruct admin as [|c [|d w]]; [done|by eexists..]. }
  exists (words_loop n ""). cbn [words_loop].
  assert (trim_start (admin +:+ "    *") = admin +:+ "    *") as ->.
  { unfold trim_start. apply trim_loop_id. rewrite <- required_trim. apply trim_head. }
  assert (String.eqb (admin +:+ "    *") "" = false) as -> by by destruct admin.
  by rewrite (take_word_visible admin "   *" admin_text).
Qed.

Lemma required_is_data : is_data (admin +:+ "    *") = true.
Proof.
  unfold is_data, is_comment in *. destruct admin as [|c w]; [done|]. exact (f_equal negb no_comment).
Qed.

(** A text with the line of the administrator is fine. *)
Lemma required_suffices content :
  admin +:+ "    *" ∈ lines content ->
  has_sufficient_admin_entry content admin = true /\ acl_structure_looks_valid content = true.
Proof.
  intros Hl. destruct required_words as [ws Hw]. split.
  - apply existsb_elem. exists (admin +:+ "    *"). split; [done|]. cbv zeta. rewrite required_trim, required_is_data, Hw.
    cbn [head andb]. rewrite bool_decide_true by done. rewrite contains_app. by rewrite orb_true_r.
  - unfold acl_structure_looks_valid.
    assert (admin +:+ "    *" ∈ List.filter is_data (map trim (lines content))) as Hf.
    { apply list_elem_of_In, filter_In. split; [|apply required_is_data]. apply list_elem_of_In.
      rewrite <- required_trim. by apply list_elem_of_fmap_2. }
    assert (existsb looks_like_entry (List.filter is_data (map trim (lines content))) = true) as He.
    { apply existsb_elem. exists (admin +:+ "    *"). split; [done|]. unfold looks_like_entry. by rewrite Hw, admin_at. }
    by destruct (List.filter _ _).
Qed.

Lemma repair_suffices content result :
  best_effort_repair_or_standardize content admin (admin +:+ "    *") = Some result ->
  has_sufficient_admin_entry result admin = true /\ acl_structure_looks_valid result = true.
Proof.
  intros Hr. apply required_suffices.
  assert (admin +:+ "    *" ∈ nonblank (lines result)) as [Hl _]%elem_of_nonblank; [|done].
  rewrite (lines_of_repaired _ _ required_is_plain _ _ Hr), elem_of_nonblank.
  split; [apply required_in_repaired|by destruct admin].
Qed.
End AdminLine.

(** A repaired access list gives the administrator all rights and passes the check of its
    structure; apart from blank lines its lines are, in their order, the comments and
    entries of the original, with the administrator's line for an entry of the
    administrator, or at the end, and without the lines that were no entries. *)
Theorem acl_repair_sound content admin result :
  visible admin = true -> admin <> "" -> contains_char "@" admin = true -> is_comment admin = false ->
  best_effort_repair_or_standardize content admin (admin +:+ "    *") = Some result ->
  has_sufficient_admin_entry result admin = true /\ acl_structure_looks_valid result = true /\
  nonblank (lines result) = nonblank (repaired_lines admin (admin +:+ "    *") content).
Proof.
  intros Hv Hs Ha Hc Hr. destruct (repair_suffices admin Hv Hs Ha Hc _ _ Hr) as [H1 H2].
  split_and!; [done..|]. apply lines_of_repaired; [by apply required_is_plain|done].
Qed.

Lemma acl_repair_sound_witness :
  let content := "# rules" +:+ String newline ("other/x@R l" +:+ String newline ("admin/admin@R  l" +:+ String newline "word")) in
  exists result, best_effort_repair_or_standardize content "admin/admin@R" ("admin/admin@R" +:+ "    *") = Some result /\
    has_sufficient_admin_entry result "admin/admin@R" = true /\
    nonblank (lines result) = ["# rules"; "other/x@R l"; "admin/admin@R    *"].
Proof.
  intros content.
  destruct (best_effort_repair_or_standardize content "admin/admin@R" ("admin/admin@R" +:+ "    *")) as [result|] eqn:Er;
    [|vm_compute in Er; discriminate Er].
  destruct (acl_repair_sound content "admin/admin@R" result eq_refl ltac:(discriminate) eq_refl eq_refl Er)
    as (H1 & _ & H3).
  exists result. split; [reflexivity|]. split; [exact H1|]. rewrite H3. vm_compute. reflexivity.
Defined.

(** Any [*] on the line counts, also one of the column of targets: the line below gives the
    administrator the right to list, and is left alone. *)
Example star_in_target_counts :
  has_sufficient_admin_entry "admin/admin@R  l  *@R" "admin/admin@R" = true /\
  acl_structure_looks_valid "admin/admin@R  l  *@R" = true.
Proof. split; vm_compute; reflexivity. Qed.

(** ** A restart keeps the database of the KDC *)

(** What may happen on a machine that has a database: nothing that creates one, or adds or
    exports principals, or writes over it. *)
Definition harmless (e : Event) : Prop :=
  match e with
  | RunCommand program arguments _ =>
      (program = "sudo" /\ head arguments = Some "chown") \/ program = "/usr/bin/kinit"
  | CopyFile _ path | WriteFile path _ => path <> kdc_database
  | _ => True
  end.

Section Kept.
Context `{Extern, LdapExtern, SqlExtern, MachineExtern}.
Context (harmless_commands : forall log e files, harmless e ->
  command_effect log e files !! kdc_database = files !! kdc_database).
Context (database : string).

Notation machine A := (io Machine string A).

Definition kept {A} (m : machine A) : Prop := forall s,
  m_files s !! kdc_database = Some database ->
  let s' := snd (m s) in
  m_files s' !! kdc_database = Some database /\
  exists new, m_events s' = m_events s ++ new /\ Forall harmless new.

Lemma kept_pure {A} (m : machine A) : (forall s, snd (m s) = s) -> kept m.
Proof. intros Hm s Hs. simpl. rewrite Hm. split; [done|]. exists []. by rewrite app_nil_r. Qed.

Lemma kept_bind {A B} (m : machine A) (k : A -> machine B) :
  kept m -> (forall a, kept (k a)) -> kept (io_bind m k).
Proof.
  intros Hm Hk s Hs. specialize (Hm s Hs). unfold io_bind. destruct (m s) as [[a|e] s1]; [|done].
  destruct Hm as (Hd & new & He & Hn). destruct (Hk a s1 Hd) as (Hd' & new' & He' & Hn'). split; [done|].
  exists (new ++ new'). simpl in *. rewrite He', He, app_assoc. split; [done|]. by apply Forall_app.
Qed.

Lemma kept_try {A} (m : machine A) : kept m -> kept (io_try (E' := string) m).
Proof. intros Hm s Hs. specialize (Hm s Hs). unfold io_try. by destruct (m s). Qed.

Lemma kept_ignored {A} (m : machine A) : kept m -> kept (ignore_result m).
Proof. intros Hm. apply kept_bind; [by apply kept_try|]. intros r. by apply kept_pure. Qed.

Lemma kept_exists {A} (k : bool -> machine A) : kept (k true) -> kept (io_bind (path_exists kdc_database) k).
Proof.
  intros Hk s Hs. rewrite (io_bind_step _ _ s true s); [by apply Hk|].
  unfold path_exists. by rewrite bool_decide_true by by eexists.
Qed.

Lemma kept_file {A} e err (f : gmap string string -> option (A * gmap string string)) :
  harmless e -> (forall files a files', f files = Some (a, files') -> files' !! kdc_database = files !! kdc_database) ->
  kept (file_op e err f).
Proof.
  intros He Hf s Hs. unfold file_op. destruct (if os_refuses _ _ then None else f (m_files s)) as [[a files]|] eqn:E; simpl.
  - split; [|exists [e]; split; [done|by constructor]]. destruct (os_refuses _ _); [done|].
    by rewrite (Hf _ _ _ E).
  - split; [done|]. exists [e]. split; [done|by constructor].
Qed.

Lemma kept_command program arguments input err :
  harmless (RunCommand program arguments input) -> kept (run_command program arguments input err).
Proof.
  intros He s Hs. unfold run_command. destruct (os_refuses _ _); simpl.
  - split; [done|]. eexists. split; [done|by constructor].
  - split; [by rewrite harmless_commands|]. eexists. split; [done|by constructor].
Qed.

Lemma kept_wait program err : kept (wait_for program err).
Proof.
  intros s Hs. unfold wait_for. destruct (os_refuses _ _); simpl; (split; [done|]; eexists; split; [done|by constructor]).
Qed.
End Kept.

(** Follow the program down to its operations on the machine. *)
Ltac kept_step :=
  match goal with
  | |- kept _ (io_bind _ _) => apply kept_bind; [|intros ?]
  | |- kept _ (io_try _) => apply kept_try
  | |- kept _ (ignore_result _) => apply kept_ignored
  | |- kept _ (run_command _ _ _ _) => apply kept_command; [assumption|simpl; tauto]
  | |- kept _ (wait_for _ _) => apply kept_wait
  | |- kept _ (file_op _ _ _) => apply kept_file; [simpl; try done|intros; simplify_eq/=; try done]
  | |- kept _ (match ?x with _ => _ end) => destruct x
  | |- kept _ _ => solve [apply kept_pure; done]
  end.

Section KeptMain.
Context `{Extern, LdapExtern, SqlExtern, MachineExtern}.
Context (harmless_commands : forall log e files, harmless e ->
  command_effect log e files !! kdc_database = files !! kdc_database).
Context (database : string).

Lemma kept_copy from to err : to <> kdc_database -> kept database (copy_file from to err).
Proof.
  intros Ht. apply kept_file; [done|]. intros files a files' (c & _ & [= _ ->])%fmap_Some.
  by apply lookup_insert_ne.
Qed.

Lemma kept_read path err : kept database (read_to_string path err).
Proof. apply kept_file; [done|]. by intros files a files' (c & _ & [= _ ->])%fmap_Some. Qed.

Lemma kept_write path content err : path <> kdc_database -> kept database (write_file path content err).
Proof. intros Hp. apply kept_file; [done|]. intros files a files' [= _ <-]. by apply lookup_insert_ne. Qed.

Lemma kept_same {A} e err (x : A) : harmless e -> kept database (file_op e err (fun files => Some (x, files))).
Proof. intros He. apply kept_file; [done|]. by intros files a files' [= _ <-]. Qed.

Hint Resolve kept_copy kept_read kept_write kept_same : kept.

Lemma kept_render template path config domain :
  path <> kdc_database -> kept database (render_template template path config domain).
Proof. intros Hp. unfold render_template. repeat kept_step; auto with kept. Qed.

Lemma kept_permissions path : kept database (apply_permissions path).
Proof. unfold apply_permissions, set_mode_644. repeat kept_step. Qed.

Lemma kept_permissions_if_needed path : kept database (apply_permissions_if_needed path).
Proof. unfold apply_permissions_if_needed. repeat kept_step; apply kept_permissions. Qed.

Hint Resolve kept_render kept_permissions kept_permissions_if_needed : kept.

Lemma kept_acl config domain : kept database (ensure_kadm5_acl acl_file acl_template config domain).
Proof.
  assert (acl_file <> kdc_database) by discriminate.
  unfold ensure_kadm5_acl, read_acl. cbv zeta. repeat kept_step; auto with kept.
Qed.

Lemma kept_wait_for_kdc n : kept database (wait_for_kdc n).
Proof. induction n as [|n IH]; simpl; repeat kept_step; auto with kept. Qed.
End KeptMain.

(** Started on a machine that has a KDC database, the manager, however far it gets and
    whatever fails, leaves that database as it is: it neither creates one nor adds or
    exports principals, so the keys of the realm and the keytab survive a restart. *)
Theorem restart_keeps_kdc_database `{Extern, LdapExtern, SqlExtern, MachineExtern} s database :
  (forall log e files, harmless e ->
     command_effect log e files !! kdc_database = files !! kdc_database) ->
  m_files s !! kdc_database = Some database ->
  let s' := snd (manager_main s) in
  m_files s' !! kdc_database = Some database /\
  exists new, m_events s' = m_events s ++ new /\ Forall harmless new.
Proof.
  intros Hc. enough (kept database manager_main) as Hk by exact (Hk s).
  assert (config_path <> kdc_database) by discriminate. assert (keycloak_config_path <> kdc_database) by discriminate.
  unfold manager_main, load_kerberos_config. apply kept_bind; [repeat kept_step; auto using kept_copy, kept_read|].
  intros loaded. destruct (effective_config loaded) as [config domain].
  apply kept_bind; [unfold write_templates, create_dir_all; repeat kept_step;
    auto using kept_same, kept_render, kept_acl; by apply kept_render|]. intros _.
  apply kept_bind; [unfold ensure_keycloak_config, chown_lldap; repeat kept_step; auto using kept_copy|]. intros _.
  apply kept_exists. cbn [negb]. unfold spawn, populate_ccache. repeat kept_step; auto using kept_same, kept_wait_for_kdc.
Qed.

(** A machine that was set up before. *)
Definition demo_machine_extern : MachineExtern := {|
  os_refuses := fun _ _ => false;
  command_effect := fun _ _ files => files;
  command_result := fun _ _ => MkOutput true "" "";
  file_mode := fun _ _ => Some 420%Z;
  toml_from_str := fun s => Some {[ "kerberos" := s ]};
  kerberos_from_value := fun s => Some (MkKerberosConfig s "dc=example,dc=com" "24h" "7d" true false);
  render_text := fun t values => Ok (t +:+ from_option snd "" (find (fun v => String.eqb (fst v) "REALM_NAME") values))
|}.

Definition demo_machine : Machine := MkMachine
  (list_to_map [(config_path, "R"); ("/app/krb5.template.conf", "krb5 "); ("/app/kdc.template.conf", "kdc ");
     (acl_template, "admin/admin@EXAMPLE.COM  * "); (acl_file, "admin/admin@OLD  *"); (keycloak_config_path, "url"); (admin_keytab, "keys");
     (kdc_database, "principals")]) [].

Definition demo_main (s : Machine) : result string unit * Machine :=
  @manager_main lawful_extern upper_extern demo_sql_extern demo_machine_extern s.

Lemma restart_keeps_kdc_database_witness :
  let s' := snd (demo_main demo_machine) in
  fst (demo_main demo_machine) = Ok tt /\
  m_files s' !! kdc_database = Some "principals" /\
  (m_files s' !! acl_file) = Some ("admin/admin@OLD  *" +:+ String newline ("admin/admin@EXAMPLE.COM    *" +:+ String newline "")) /\
  exists new, m_events s' = [] ++ new /\ Forall harmless new.
Proof.
  intros s'.
  destruct (@restart_keeps_kdc_database lawful_extern upper_extern demo_sql_extern demo_machine_extern demo_machine
    "principals" (fun _ _ _ _ => eq_refl) ltac:(vm_compute; reflexivity)) as [Hf He].
  split; [vm_compute; reflexivity|]. split; [exact Hf|]. split; [vm_compute; reflexivity|]. exact He.
Defined.

(** ** What [ensure_kadm5_acl] ensures *)

Section Ensured.
Context `{LdapExtern, MachineExtern}.
Context (acl template : string) (config : KerberosConfig) (domain : string).
Context (chown_keeps : forall log files,
  command_effect log (RunCommand "sudo" ["chown"; "lldap:lldap"; acl] "") files = files).
Context (realm_text : visible (str_to_uppercase (kc_realm_name config)) = true).

Notation machine A := (io Machine string A).

Lemma preserves_same {A} e err (x : A) : preserves m_files (file_op e err (fun files => Some (x, files))).
Proof. intros s. unfold file_op. by destruct (os_refuses _ _). Qed.

Lemma preserves_read path err : preserves m_files (read_to_string path err).
Proof.
  intros s. unfold read_to_string, file_op. destruct (os_refuses _ _); [done|]. by destruct (m_files s !! path).
Qed.

Lemma preserves_ignored {A} (m : machine A) : preserves m_files m -> preserves m_files (ignore_result m).
Proof. intros Hm. unfold ignore_result. apply preserves_bind; [by apply preserves_try|done]. Qed.

Lemma preserves_permissions : preserves m_files (apply_permissions acl).
Proof.
  apply preserves_bind; [apply preserves_same|]. intros _. apply preserves_ignored. intros s. unfold run_command.
  destruct (os_refuses _ _); simpl; [done|apply chown_keeps].
Qed.

Lemma preserves_permissions_if_needed : preserves m_files (apply_permissions_if_needed acl).
Proof.
  apply preserves_bind; [done|]. intros [mode|]; [|apply preserves_permissions].
  case_match; [apply preserves_permissions|done].
Qed.

Lemma read_to_string_Ok path err s c s' :
  read_to_string path err s = (Ok c, s') -> m_files s !! path = Some c /\ m_files s' = m_files s.
Proof.
  unfold read_to_string, file_op. destruct (os_refuses _ _); [done|].
  destruct (m_files s !! path); simpl; [|done]. by intros [= -> <-].
Qed.

Lemma write_file_Ok path content err s s' :
  write_file path content err s = (Ok tt, s') -> m_files s' = <[path := content]> (m_files s).
Proof. unfold write_file, file_op. destruct (os_refuses _ _); [done|]. by intros [= <-]. Qed.

Lemma render_template_Ok path s s' :
  render_template template path config domain s = (Ok tt, s') ->
  exists t text, m_files s !! template = Some t /\ render_text t (template_values config domain) = Ok text /\
    m_files s' = <[path := text]> (m_files s).
Proof.
  unfold render_template. intros Hs. apply io_bind_Ok in Hs as (t & s1 & [Ht Hf]%read_to_string_Ok & Hs).
  apply io_bind_Ok in Hs as (text & s2 & [Hr <-]%io_lift_Ok & Hs). apply write_file_Ok in Hs.
  exists t, text. by rewrite Hs, Hf.
Qed.

Notation admin := (admin_principal config).

Lemma admin_facts : visible admin = true /\ admin <> "" /\ contains_char "@" admin = true /\ is_comment admin = false.
Proof.
  unfold admin_principal. split_and!; [by rewrite visible_app, realm_text|done|by rewrite contains_app|done].
Qed.

(** The content needs nothing, or the repair would only change white space around it. *)
Definition settled (c : string) : Prop :=
  has_sufficient_admin_entry c admin && acl_structure_looks_valid c = true \/
  exists r, best_effort_repair_or_standardize c admin (admin +:+ "    *") = Some r /\ trim r = trim c.

Lemma read_acl_spec s :
  m_files (snd (read_acl acl s)) = m_files s /\
  forall c, fst (read_acl acl s) = Ok c -> m_files s !! acl = Some c.
Proof.
  unfold read_acl, io_bind, io_try. pose proof (preserves_read acl "" s) as Hp.
  destruct (read_to_string acl "" s) as [[c|e] s1] eqn:Er; simpl in *.
  - apply read_to_string_Ok in Er as [Hr _]. split; [done|]. by intros c' [= <-].
  - pose proof (preserves_ignored _ preserves_permissions s1) as Hi.
    destruct (ignore_result _ s1) as [[[]|e'] s2]; simpl in *; [|split; [congruence|done]].
    pose proof (preserves_read acl "kadm5.acl still unreadable after permission repair" s2) as Hp2.
    destruct (read_to_string _ _ s2) as [[c|e2] s3] eqn:Er2; simpl in *; (split; [congruence|]); [|done].
    intros c' [= <-]. apply read_to_string_Ok in Er2 as [Hr _]. congruence.
Qed.

Lemma settled_kept s c :
  m_files s !! acl = Some c -> settled c ->
  m_files (snd (ensure_kadm5_acl acl template config domain s)) = m_files s.
Proof.
  intros Hc Hset. unfold ensure_kadm5_acl. cbv zeta.
  rewrite (io_bind_step _ _ s true s) by (unfold path_exists; by rewrite bool_decide_true by by eexists).
  cbn [negb]. destruct (read_acl_spec s) as [Hf Hr]. unfold io_bind at 1.
  destruct (read_acl acl s) as [[c'|e] s1]; [|done]. simpl in Hf. specialize (Hr c' eq_refl).
  assert (c' = c) as -> by congruence. clear Hr. rewrite <- Hf.
  unfold io_bind at 1. pose proof (preserves_ignored _ preserves_permissions_if_needed s1) as Hp.
  destruct (ignore_result _ s1) as [[u|e] s2]; [|done]. simpl in Hp. rewrite <- Hp.
  destruct (_ && _) eqn:Eok; [done|]. destruct Hset as [Hset|(r & Hrep & Htrim)]; [congruence|].
  rewrite Hrep, Htrim, String.eqb_refl. cbn [negb]. apply preserves_bind; [done|]. intros _.
  apply preserves_ignored, preserves_permissions_if_needed.
Qed.

Definition passes_check (c : string) : bool :=
  has_sufficient_admin_entry c admin && acl_structure_looks_valid c.

(** How a successful run leaves the file: as it was, repaired, or made from the template. *)
Definition acl_left (s s' : Machine) : Prop :=
  exists text, m_files s' !! acl = Some text /\
  ((m_files s !! acl = Some text /\ passes_check text = true) \/
   (exists old good, m_files s !! acl = Some old /\ passes_check old = false /\
      best_effort_repair_or_standardize old admin (admin +:+ "    *") = Some good /\
      trim text = trim good /\ (text = old \/ text = good)) \/
   (exists t, m_files s !! template = Some t /\ render_text t (template_values config domain) = Ok text /\
      forall old, m_files s !! acl = Some old -> passes_check old = false /\
        best_effort_repair_or_standardize old admin (admin +:+ "    *") = None)).

Lemma ensured s s' :
  ensure_kadm5_acl acl template config domain s = (Ok tt, s') ->
  acl_left s s' /\ forall path, path <> acl -> m_files s' !! path = m_files s !! path.
Proof.
  unfold ensure_kadm5_acl. cbv zeta. intros Hs.
  apply io_bind_Ok in Hs as (present & s0 & Hex & Hs). unfold path_exists in Hex. injection Hex as <- <-.
  destruct (bool_decide _) eqn:Ep; cbn [negb] in Hs.
  - apply io_bind_Ok in Hs as (c & s1 & Hr & Hs). destruct (read_acl_spec s) as [Hf Hc]. rewrite Hr in Hf, Hc.
    simpl in Hf. specialize (Hc c eq_refl).
    apply io_bind_Ok in Hs as (u & s2 & Hi & Hs).
    pose proof (preserves_ignored _ preserves_permissions_if_needed s1) as Hp. rewrite Hi in Hp. simpl in Hp.
    destruct (_ && _) eqn:Eok.
    { io_inv Hs. rewrite Hp, Hf. split; [|done]. exists c. rewrite Hp, Hf. by auto. }
    apply io_bind_Ok in Hs as ([] & s3 & Hw & Hs).
    pose proof (preserves_ignored _ preserves_permissions_if_needed s3) as Hp3. rewrite Hs in Hp3. simpl in Hp3.
    destruct (best_effort_repair_or_standardize _ _ _) as [r|] eqn:Er.
    + destruct (String.eqb_spec (trim r) (trim c)) as [Ht|Ht]; cbn [negb] in Hw.
      * io_inv Hw. rewrite Hp3, Hp, Hf. split; [|done]. exists c. rewrite Hp3, Hp, Hf. split; [done|].
        right. left. exists c, r. by auto 10.
      * apply write_file_Ok in Hw. rewrite Hp3, Hw, Hp, Hf. split; [|intros; by rewrite lookup_insert_ne].
        exists r. rewrite Hp3, Hw, lookup_insert_eq. split; [done|]. right. left. exists c, r. by auto 10.
    + apply render_template_Ok in Hw as (t & text & Htm & Hrt & Hw). rewrite Hp3, Hw, Hp, Hf.
      split; [|intros; by rewrite lookup_insert_ne]. exists text. rewrite Hp3, Hw, lookup_insert_eq. split; [done|].
      right. right. exists t. rewrite <- Hf, <- Hp. split_and!; [done..|]. intros old. rewrite Hp, Hf, Hc.
      by intros [= <-].
  - apply io_bind_Ok in Hs as ([] & s1 & (t & text & Htm & Hrt & Hw)%render_template_Ok & Hs).
    pose proof (preserves_ignored _ preserves_permissions s1) as Hp. rewrite Hs in Hp. simpl in Hp.
    rewrite Hp, Hw. split; [|intros; by rewrite lookup_insert_ne]. exists text. rewrite Hp, Hw, lookup_insert_eq.
    split; [done|]. right. right. exists t. split_and!; [done..|]. intros old Ho. by rewrite Ho in Ep.
Qed.

(** What it leaves, it leaves alone the next time. *)
Lemma left_settled s s' :
  acl_left s s' ->
  (forall t text, m_files s !! template = Some t -> render_text t (template_values config domain) = Ok text ->
     passes_check text = true) ->
  exists c, m_files s' !! acl = Some c /\ settled c.
Proof.
  intros (c & Hc & Hleft) Ht. destruct admin_facts as (Hv1 & Hv2 & Hv3 & Hv4). exists c. split; [done|].
  destruct Hleft as [[_ Hok]|[(old & good & _ & _ & Hr & Htr & [-> | ->])|(t & Hm & Hren & _)]].
  - by left.
  - right. by exists good.
  - left. apply repair_suffices in Hr as [H1 H2]; [|done..]. by rewrite H1, H2.
  - left. by eapply Ht.
Qed.

(** The line a repair puts in is a line of what it returns. *)
Lemma repair_has_line old good :
  best_effort_repair_or_standardize old admin (admin +:+ "    *") = Some good ->
  admin +:+ "    *" ∈ lines good /\
  nonblank (lines good) = nonblank (repaired_lines admin (admin +:+ "    *") old).
Proof.
  intros Hr. destruct admin_facts as (Hv1 & Hv2 & Hv3 & Hv4).
  pose proof (lines_of_repaired _ _ (required_is_plain admin Hv1 Hv2 Hv3 Hv4) _ _ Hr) as Hl. split; [|done].
  assert (admin +:+ "    *" ∈ nonblank (lines good)) as [? _]%elem_of_nonblank; [|done].
  rewrite Hl, elem_of_nonblank. split; [apply required_in_repaired|by destruct admin].
Qed.
End Ensured.

(** C30: a successful [ensure_kadm5_acl] leaves one of three access lists.  A file that passes
    the manager's own check stays as it is.  A file that does not is replaced, unless that
    would change only white space around it, by a list that has the line with all rights for
    the administrator and, apart from blank lines and lines that are no entries, the comments
    and the entries of others in their order.  A file that is missing, or too garbled to
    repair, is made from the template.  No other file changes; and if the rendered template
    passes the check, a second run, on the machine as the first left it, changes no file. *)
Theorem acl_ensured `{LdapExtern, MachineExtern} acl template config domain s s' :
  (forall log files, command_effect log (RunCommand "sudo" ["chown"; "lldap:lldap"; acl] "") files = files) ->
  visible (str_to_uppercase (kc_realm_name config)) = true ->
  ensure_kadm5_acl acl template config domain s = (Ok tt, s') ->
  let admin := admin_principal config in
  let required_line := admin +:+ "    *" in
  (exists text, m_files s' !! acl = Some text /\
    ((m_files s !! acl = Some text /\ passes_check config text = true) \/
     (exists old good, m_files s !! acl = Some old /\ passes_check config old = false /\
        trim text = trim good /\ (text = old \/ text = good) /\ required_line ∈ lines good /\
        nonblank (lines good) = nonblank (repaired_lines admin required_line old)) \/
     (exists t, m_files s !! template = Some t /\ render_text t (template_values config domain) = Ok text /\
        forall old, m_files s !! acl = Some old -> passes_check config old = false /\
          best_effort_repair_or_standardize old admin required_line = None))) /\
  (forall path, path <> acl -> m_files s' !! path = m_files s !! path) /\
  ((forall t text, m_files s !! template = Some t -> render_text t (template_values config domain) = Ok text ->
      passes_check config text = true) ->
   forall s2, m_files s2 = m_files s' ->
     m_files (snd (ensure_kadm5_acl acl template config domain s2)) = m_files s2).
Proof.
  intros Hch Hv Hs admin required. apply ensured in Hs as [Hleft Hrest]; [|done]. split_and!; [|done|].
  - destruct Hleft as (text & Hc & Hcases). exists text. split; [done|].
    destruct Hcases as [?|[(old & good & Ho & Hbad & Hr & Htr & Hor)|?]]; [by left| |by auto].
    right. left. apply repair_has_line in Hr as [? ?]; [|done]. exists old, good. by auto 10.
  - intros Ht s2 Hs2. destruct (left_settled _ _ _ _ Hv _ _ Hleft Ht) as (c & Hc & Hset).
    eapply settled_kept; [done|by rewrite Hs2|done].
Qed.

Definition acl_config : KerberosConfig := MkKerberosConfig "R" "dc=example,dc=com" "24h" "7d" true false.

Lemma acl_ensured_witness :
  let s' := snd (@ensure_kadm5_acl upper_extern demo_machine_extern acl_file acl_template acl_config "" demo_machine) in
  m_files s' !! acl_file = Some ("admin/admin@OLD  *" +:+ String newline ("admin/admin@EXAMPLE.COM    *" +:+ String newline "")) /\
  m_files (snd (@ensure_kadm5_acl upper_extern demo_machine_extern acl_file acl_template acl_config "" s')) = m_files s'.
Proof.
  intros s'. split; [vm_compute; reflexivity|].
  destruct (@acl_ensured upper_extern demo_machine_extern acl_file acl_template acl_config "" demo_machine s') as (_ & _ & H3);
    [reflexivity|reflexivity|vm_compute; reflexivity|apply H3; [|reflexivity]].
  intros t text Ht Hr. vm_compute in Ht. injection Ht as <-. vm_compute in Hr. injection Hr as <-.
  vm_compute. reflexivity.
Defined.
