(* ===== verification/Keycloak.v ===== *)
(** * Keycloak

    [crates/kerberos/src/keycloak_config.rs] and [keycloak_client.rs], and the queries
    and mutations of [crates/graphql-server/src] that use them and the keytab tool.

    The state [Net] has the requests sent and the file of the settings.  What a request
    is answered is an operation of the class [KeycloakExtern], which sees the requests
    sent before; serde_json, toml and the environment are operations of it too. *)

From S2P Require Import Prelude Strings Types Schema SchemaManager Proto Database SqlConfig SqlGroups SqlUsers.
From S2P Require Import Access Opaque GraphqlQuery Kerberos.

(** ** JSON (serde_json's [Value]) *)

Inductive Json : Type :=
| JNull
| JBool (b : bool)
| JNumber (n : Z)
| JString (s : string)
| JArray (l : list Json)
| JObject (fields : list (string * Json)).

Definition json_get (key : string) (j : Json) : option Json :=
  match j with
  | JObject fields => snd <$> find (fun kv => String.eqb (fst kv) key) fields
  | _ => None
  end.

Definition json_as_str (j : Json) : option string :=
  match j with JString s => Some s | _ => None end.

(** [v.get(key).and_then(|x| x.json_as_str())] *)
Definition get_str (key : string) (j : Json) : option string := mbind json_as_str (json_get key j).

(** A configuration value of a Keycloak component: a list with one text. *)
Definition one (s : string) : Json := JArray [JString s].

(** [s.replace(c, by)] *)
Definition replace_char (c : ascii) (by_ s : string) : string := join by_ (split_on c s).

(** ** HTTP (reqwest) *)

Inductive Method : Type := GET | POST | DELETE.

Inductive RequestBody : Type :=
| NoBody
| Form (fields : list (string * string))
| JsonBody (j : Json).

Record Request := MkRequest {
  rq_method : Method;
  rq_url : string;
  rq_bearer : option string;
  rq_body : RequestBody
}.

(** The status, and the body if it can be read. *)
Record Response := MkResponse { rs_status : Z; rs_body : option string }.

Definition is_success (status : Z) : bool := (200 <=? status)%Z && (status <=? 299)%Z.

(** ** Settings *)

Record KeycloakConfig := MkKeycloakConfig { kc_url : string; kc_realm : string; kc_admin_user : string }.

Record KeycloakSuggestedConfig := MkKeycloakSuggestedConfig {
  ks_url : string;
  ks_realm : string;
  ks_admin_username : string;
  ks_keycloak_hostname : string
}.

Record KeycloakRealmGenerationOptions := MkRealmOptions {
  ro_realm : string;
  ro_use_ldaps : bool;
  ro_external_keycloak : bool;
  ro_external_keycloak_url : string;
  ro_keycloak_hostname : string;
  ro_enable_hsts : bool;
  ro_enable_brute_force : bool
}.

Record Net := MkNet { n_requests : list Request; n_config_file : option string }.

Class KeycloakExtern := {
  respond : list Request -> Request -> result string Response;
  parse_json : string -> option Json;
  json_to_string_pretty : Json -> option string;
  status_text : Z -> string;
  toml_to_keycloak : string -> option KeycloakConfig;
  keycloak_to_toml : KeycloakConfig -> option string;
  (** Whether the file of the settings cannot be read, or written. *)
  config_unreadable : bool;
  config_unwritable : bool;
  env_keycloak_admin_pass : option string;
  (** The public key, if there is one in DER, in base64. *)
  public_key_der_base64 : option string
}.

Section Config.
Context `{Extern, LdapExtern, SqlExtern, KeycloakExtern}.

Notation net A := (io Net string A).

Definition keycloak_at_domain : string := "keycloak." +:+ derive_domain_from_base_dn.

Definition get_keycloak_suggested_config : KeycloakSuggestedConfig :=
  MkKeycloakSuggestedConfig ("http://" +:+ keycloak_at_domain) (str_to_lowercase derive_realm_from_base_dn)
    "admin" "keycloak".

Definition load_keycloak_config : net KeycloakConfig := fun s =>
  (match n_config_file s with
   | Some text =>
       if config_unreadable then Err "Failed to read keycloak_config.toml"
       else ok_or (toml_to_keycloak text) "Failed to parse keycloak_config.toml"
   | None =>
       Ok (MkKeycloakConfig ("http://" +:+ keycloak_at_domain) (str_to_lowercase derive_realm_from_base_dn) "admin")
   end, s).

Definition nl : string := String (ascii_of_nat 10) "".

Definition config_header : string :=
  "    # LLDAP + Kerberos + Keycloak federation settings" +:+ (nl +:+
  ("    # Generated / updated via " +:+ (quoted "Save Settings" +:+ (" button in the UI" +:+ (nl +:+
  ("    # Password not saved here, set via env var LLDAP_KEYCLOAK_ADMIN_PASS" +:+ (nl +:+
  ("    # Edit via " +:+ (quoted "Federation" +:+ (" settings in UI." +:+ (nl +:+ (nl +:+ "    ")))))))))))).

Definition save_keycloak_config (config : KeycloakConfig) : net unit :=
  let! toml_str := io_lift (ok_or (keycloak_to_toml config) "Failed to serialize keycloak config") in
  fun s =>
    if config_unwritable then (Err "Failed to write keycloak_config.toml", s)
    else (Ok tt, MkNet (n_requests s) (Some (config_header +:+ toml_str))).

Definition get_keycloak_admin_password : string := from_option id "admin" env_keycloak_admin_pass.

Definition load_full_keycloak_config : net (KeycloakConfig * string) :=
  let! config := load_keycloak_config in
  io_ret (config, get_keycloak_admin_password).

(** The components both ways to set a realm up write. *)
Definition lldap_web_client : Json :=
  JObject [("clientId", JString "lldap-web"); ("name", JString "LLDAP Web Apps"); ("enabled", JBool true);
    ("protocol", JString "openid-connect"); ("publicClient", JBool true); ("standardFlowEnabled", JBool true);
    ("implicitFlowEnabled", JBool true); ("directAccessGrantsEnabled", JBool true);
    ("redirectUris", one "*"); ("webOrigins", one "+")].

(** The settings of the LDAP provider after the groups' DN and before Kerberos' realm. *)
Definition provider_defaults : list (string * Json) :=
  [("userObjectClasses", one "top, person, inetOrgPerson, posixAccount, ldapPublicKey");
   ("rdnLDAPAttribute", one "uid"); ("uuidLDAPAttribute", one "entryUUID"); ("usernameLDAPAttribute", one "uid");
   ("customUserSearchFilter", one "(&(!(objectClass=organizationalUnit))(kerberossync=1))");
   ("searchScope", one "2"); ("validatePasswordPolicy", one "false"); ("trustEmail", one "true");
   ("syncRegistrations", one "true"); ("fullSyncPeriod", one "86400"); ("changedSyncPeriod", one "300");
   ("editMode", one "READ_ONLY"); ("importEnabled", one "true"); ("pagination", one "true");
   ("allowKerberosAuthentication", one "true")].

Definition provider_rest : list (string * Json) :=
  [("keyTab", one "/keytab/keycloak-http.keytab"); ("krbPrincipalAttribute", one "krbPrincipalName");
   ("useKerberosForPasswordAuthentication", one "false"); ("useTruststoreSpi", one "always");
   ("connectionPooling", one "true"); ("cachePolicy", one "DEFAULT"); ("usePasswordModifyExtendedOp", one "false");
   ("connectionTrace", one "false")].

Definition provider_config (connection_url bind_dn credential users_dn groups_dn realm principal : string) : Json :=
  JObject ([("vendor", one "other"); ("connectionUrl", one connection_url); ("bindDn", one bind_dn);
    ("bindCredential", one credential); ("usersDn", one users_dn); ("groupsDn", one groups_dn)] ++
    provider_defaults ++ [("kerberosRealm", one realm); ("serverPrincipal", one principal)] ++ provider_rest).

Definition hsts_header (enable : bool) : string := if enable then "max-age=31536000; includeSubDomains" else "".

Definition keycloak_hostname_of (options : KeycloakRealmGenerationOptions) : string :=
  let hostname := trim (ro_keycloak_hostname options) in
  if ro_external_keycloak options && negb (String.eqb (trim (ro_external_keycloak_url options)) "")
  then ro_external_keycloak_url options
  else if String.eqb hostname "" || String.eqb hostname "keycloak" then keycloak_at_domain
  else ro_keycloak_hostname options.

Definition realm_json (options : KeycloakRealmGenerationOptions) : Json :=
  let realm_upper := derive_realm_from_base_dn in
  let base := replace_char "." ",dc=" (str_to_lowercase realm_upper) in
  JObject [("realm", JString (str_to_lowercase (ro_realm options))); ("enabled", JBool true);
    ("sslRequired", JString (if ro_use_ldaps options then "external" else "none"));
    ("registrationAllowed", JBool false); ("resetPasswordAllowed", JBool false); ("rememberMe", JBool true);
    ("editUsernameAllowed", JBool false); ("verifyEmail", JBool false); ("loginWithEmailAllowed", JBool false);
    ("duplicateEmailsAllowed", JBool false); ("registrationEmailAsUsername", JBool false);
    ("ssoSessionMaxLifespan", JNumber 43200); ("accessTokenLifespan", JNumber 900);
    ("clients", JArray [lldap_web_client]);
    ("components", JObject [("org.keycloak.storage.UserStorageProvider", JArray [JObject
      [("name", JString "lldap-with-kerberos"); ("providerId", JString "ldap");
       ("providerType", JString "org.keycloak.storage.UserStorageProvider");
       ("config", provider_config (if ro_use_ldaps options then "ldaps://lldap:636" else "ldap://lldap:389")
          ("uid=keycloak,ou=people," +:+ base) "<ENTER YOUR KEYCLOAK BIND PASSWORD HERE AFTER IMPORT>"
          ("ou=people," +:+ base) ("ou=groups," +:+ base) realm_upper
          ("HTTP/" +:+ keycloak_hostname_of options +:+ "@" +:+ realm_upper))]])]);
    ("browserSecurityHeaders", JObject
      [("strictTransportSecurity", JString (hsts_header (ro_enable_hsts options)));
       ("xFrameOptions", JString "SAMEORIGIN");
       ("contentSecurityPolicy", JString "frame-src 'self'; frame-ancestors 'self'; object-src 'none';");
       ("contentSecurityPolicyReportOnly", JString ""); ("xContentTypeOptions", JString "nosniff");
       ("xRobotsTag", JString "none"); ("referrerPolicy", JString "no-referrer")]);
    ("bruteForceProtected", JBool (ro_enable_brute_force options));
    ("_comment", JString "Generated by LLDAP+Kerberos Federation page. Import with --import-realm. Set Bind Credential after import.")].

Definition generate_keycloak_realm_json (options : KeycloakRealmGenerationOptions) : result string string :=
  ok_or (json_to_string_pretty (realm_json options)) "Failed to serialize realm JSON".
End Config.

(** ** The client *)

Record KeycloakClient := MkKeycloakClient { kl_config : KeycloakConfig; kl_admin_pass : string }.

Section Client.
Context `{Extern, LdapExtern, SqlExtern, KeycloakExtern}.

Notation net A := (io Net string A).

(** [.send().await] *)
Definition http_send (r : Request) : net Response := fun s =>
  (respond (n_requests s) r, MkNet (n_requests s ++ [r]) (n_config_file s)).

(** [.context(msg)] on a result *)
Definition net_context {A} (msg : string) (m : net A) : net A := io_map_err (fun _ => msg) m.

(** [.json().await.context(msg)] *)
Definition response_json (resp : Response) (msg : string) : net Json :=
  io_lift (ok_or (mbind parse_json (rs_body resp)) msg).

(** [Vec<Value>] *)
Definition response_list (resp : Response) (msg : string) : net (list Json) :=
  let! j := response_json resp msg in
  match j with JArray l => io_ret l | _ => io_fail msg end.

(** [resp.text().await.unwrap_or_default()] *)
Definition response_text (resp : Response) : string := from_option id "" (rs_body resp).

Definition created (status : Z) : bool := is_success status || Z.eqb status 409.

Definition from_test_input (url realm admin_user admin_pass : string) : KeycloakClient :=
  MkKeycloakClient (MkKeycloakConfig url realm admin_user)
    (if String.eqb (trim admin_pass) "" then get_keycloak_admin_password else admin_pass).

Context (client : KeycloakClient).

Notation url := (kc_url (kl_config client)).
Notation realm := (kc_realm (kl_config client)).

Definition realm_url : string := url +:+ "/admin/realms/" +:+ realm.
Definition components_url : string := realm_url +:+ "/components".

Definition token_request : Request :=
  MkRequest POST (url +:+ "/realms/master/protocol/openid-connect/token") None
    (Form [("client_id", "admin-cli"); ("username", kc_admin_user (kl_config client));
           ("password", kl_admin_pass client); ("grant_type", "password")]).

Definition acquire_token : net string :=
  let! resp := net_context "Failed to connect to Keycloak" (http_send token_request) in
  let! json := response_json resp "Invalid token response" in
  io_lift (ok_or (get_str "access_token" json) "No access_token in response (wrong admin password?)").

Definition realm_request (token : string) : Request := MkRequest GET realm_url (Some token) NoBody.

Definition realm_exists (token : string) : net bool :=
  let! resp := net_context "Failed to check realm existence" (http_send (realm_request token)) in
  io_ret (is_success (rs_status resp)).

(** A request that creates something, which may exist already. *)
Definition create (what : string) (r : Request) : net unit :=
  let! resp := http_send r in
  if created (rs_status resp) then io_ret tt
  else io_fail (what +:+ " creation failed: " +:+ status_text (rs_status resp) +:+ " - " +:+ response_text resp).

Definition create_realm_request (token : string) (enable_hsts enable_brute_force : bool) : Request :=
  MkRequest POST (url +:+ "/admin/realms") (Some token) (JsonBody (JObject
    [("realm", JString realm); ("enabled", JBool true); ("sslRequired", JString "none");
     ("registrationAllowed", JBool false); ("resetPasswordAllowed", JBool false); ("rememberMe", JBool true);
     ("editUsernameAllowed", JBool false); ("verifyEmail", JBool false); ("loginWithEmailAllowed", JBool false);
     ("duplicateEmailsAllowed", JBool false); ("ssoSessionMaxLifespan", JNumber 43200);
     ("accessTokenLifespan", JNumber 900);
     ("browserSecurityHeaders", JObject
       [("strictTransportSecurity", JString (hsts_header enable_hsts));
        ("xFrameOptions", JString "SAMEORIGIN");
        ("contentSecurityPolicy", JString "frame-src 'self'; frame-ancestors 'self'; object-src 'none';");
        ("xContentTypeOptions", JString "nosniff"); ("referrerPolicy", JString "no-referrer")]);
     ("bruteForceProtected", JBool enable_brute_force)])).

Definition create_realm (token : string) (enable_hsts enable_brute_force : bool) : net unit :=
  create "Realm" (create_realm_request token enable_hsts enable_brute_force).

Definition component_request (token lldap_url sync_username sync_password : string) : Request :=
  let base_dn := "dc=" +:+ replace_char "." ",dc=" realm in
  let upper := str_to_uppercase realm in
  MkRequest POST components_url (Some token) (JsonBody (JObject
    [("name", JString "lldap-with-kerberos"); ("providerId", JString "ldap");
     ("providerType", JString "org.keycloak.storage.UserStorageProvider");
     ("config", provider_config lldap_url ("uid=" +:+ sync_username +:+ ",ou=people," +:+ base_dn) sync_password
        ("ou=people," +:+ base_dn) ("ou=groups," +:+ base_dn) upper
        ("HTTP/keycloak." +:+ realm +:+ "@" +:+ upper))])).

Definition component_list_request (token : string) : Request :=
  MkRequest GET (components_url +:+ "?providerId=ldap&name=lldap-with-kerberos") (Some token) NoBody.

(** The component of the list with the name of the provider, and its identifier. *)
Definition provider_id_of (components : list Json) : option string :=
  mbind (get_str "id")
    (find (fun c => bool_decide (get_str "name" c = Some "lldap-with-kerberos")) components).

Definition create_ldap_kerberos_component (token lldap_url sync_username sync_password : string) : net string :=
  let! _ := create "Component" (component_request token lldap_url sync_username sync_password) in
  let! resp := net_context "Failed to query created LDAP component" (http_send (component_list_request token)) in
  let! components := response_list resp "Invalid component list JSON" in
  io_lift (ok_or (provider_id_of components)
    "Could not locate ID of newly created 'lldap-with-kerberos' component").

Definition mapper_list_request (token provider_id : string) : Request :=
  MkRequest GET (components_url +:+ "?parent=" +:+ provider_id
    +:+ "&type=org.keycloak.storage.ldap.mappers.LDAPStorageMapper") (Some token) NoBody.

Definition delete_request (token id : string) : Request :=
  MkRequest DELETE (components_url +:+ "/" +:+ id) (Some token) NoBody.

(** The answer to a deletion is only logged. *)
Definition delete_mapper (token : string) (mapper : Json) : net unit :=
  match get_str "id" mapper with
  | Some id => let! _ := io_try (E' := string) (http_send (delete_request token id)) in io_ret tt
  | None => io_ret tt
  end.

Definition clear_default_mappers (token provider_id : string) : net unit :=
  let! resp := net_context "Failed to list default mappers" (http_send (mapper_list_request token provider_id)) in
  let! mappers := response_list resp "Invalid mappers list JSON" in
  io_iter (delete_mapper token) mappers.

(** A mapper: its name, the attribute of LDAP and of the user, whether every user has it,
    and what else is configured. *)
Definition mapper (provider_id name ldap_attribute user_attribute mandatory : string) (more : list (string * Json))
  : Json :=
  JObject [("name", JString name); ("providerId", JString "user-attribute-ldap-mapper");
    ("providerType", JString "org.keycloak.storage.ldap.mappers.LDAPStorageMapper");
    ("parentId", JString provider_id);
    ("config", JObject ([("ldap.attribute", one ldap_attribute); ("user.model.attribute", one user_attribute);
       ("read.only", one "true"); ("always.read.value.from.ldap", one "true");
       ("is.mandatory.in.ldap", one mandatory)] ++ more))].

Definition custom_mappers (provider_id : string) : list Json :=
  [mapper provider_id "first name" "givenName" "firstName" "false" [];
   mapper provider_id "last name" "sn" "lastName" "false" [];
   mapper provider_id "email" "mail" "email" "false" [];
   mapper provider_id "username" "uid" "username" "true" [];
   mapper provider_id "display name" "cn" "displayName" "false" [];
   mapper provider_id "uid number" "uidNumber" "uidNumber" "false" [];
   mapper provider_id "gid number" "gidNumber" "gidNumber" "false" [];
   mapper provider_id "home directory" "homeDirectory" "homeDirectory" "false" [];
   mapper provider_id "login shell" "loginShell" "loginShell" "false" [];
   mapper provider_id "krb principal name" "krbPrincipalName" "krbPrincipalName" "false" [];
   mapper provider_id "ssh public key" "sshPublicKey" "sshPublicKey" "false" [("multivalued", one "true")];
   mapper provider_id "ou" "ou" "ou" "false" [];
   mapper provider_id "kerberos sync" "kerberossync" "kerberosSync" "false" []].

Definition mapper_request (token : string) (m : Json) : Request :=
  MkRequest POST components_url (Some token) (JsonBody m).

(** The status of the answer is only logged. *)
Definition create_mapper (token : string) (m : Json) : net unit :=
  let! _ := http_send (mapper_request token m) in io_ret tt.

Definition create_custom_mappers (token provider_id : string) : net unit :=
  io_iter (create_mapper token) (custom_mappers provider_id).

Definition web_client_request (token : string) : Request :=
  MkRequest POST (realm_url +:+ "/clients") (Some token) (JsonBody lldap_web_client).

Definition add_lldap_web_client (token : string) : net unit := create "Client" (web_client_request token).

Definition setup_realm (lldap_url sync_username sync_password : string) (enable_hsts enable_brute_force : bool)
  : net string :=
  let! token := acquire_token in
  let! exists_ := realm_exists token in
  let! _ := if (exists_ : bool) then
      io_fail ("Realm '" +:+ realm +:+
        "' already exists. Delete the realm manually in Keycloak admin console to proceed.")
    else io_ret tt in
  let! _ := create_realm token enable_hsts enable_brute_force in
  let! provider_id := create_ldap_kerberos_component token lldap_url sync_username sync_password in
  let! _ := clear_default_mappers token provider_id in
  let! _ := create_custom_mappers token provider_id in
  let! _ := add_lldap_web_client token in
  io_ret ("✅ Realm '" +:+ realm +:+
    "' set up with LLDAP + Kerberos! Custom attribute mappers applied. SSO ready!").

Definition test_connection : net string :=
  let! token := acquire_token in
  let! resp := http_send (realm_request token) in
  if is_success (rs_status resp) then
    io_ret ("✅ Connected to Keycloak at " +:+ url +:+ " — realm '" +:+ realm +:+ "' is ready")
  else io_fail ("Test failed: HTTP " +:+ status_text (rs_status resp)).
End Client.

(** ** The queries and mutations *)

Record PushRealmToKeycloakInput := MkPushRealmInput {
  pi_url : string;
  pi_realm : string;
  pi_admin_user : string;
  pi_admin_pass : string;
  pi_lldap_url : string;
  pi_sync_username : string;
  pi_sync_password : string;
  pi_enable_hsts : bool;
  pi_enable_brute_force : bool
}.

Record TestKeycloakConnectionInput := MkTestKeycloakInput {
  ti_url : string;
  ti_realm : string;
  ti_admin_user : string;
  ti_admin_pass : string
}.

(** [{ ok, message }]; for the keytab [ok], the path and the error. *)
Record KeycloakResponse := MkKeycloakResponse { kr_ok : bool; kr_message : string }.

Record ExportKeytabResponse := MkExportKeytabResponse { er_ok : bool; er_path : string; er_error_msg : string }.

Section Graphql.
Context `{Extern, LdapExtern, SqlExtern, KeycloakExtern, KadmExtern}.

(** [get_public_key_der_base64], which [kerberos_info] answers *)
Definition kerberos_info : option string := Some (from_option id "" public_key_der_base64).

Definition keycloak_suggested_config : KeycloakSuggestedConfig := get_keycloak_suggested_config.

Definition keycloak_config_query : io Net GqlError KeycloakConfig :=
  let! r := io_try load_keycloak_config in
  io_ret (unwrap_or r (MkKeycloakConfig "http://keycloak:8080" "master" "admin")).

Definition export_keytab_mutation (_ : ValidationResults) (hostname : string) : io Kadm GqlError ExportKeytabResponse :=
  let! r := io_try (Kerberos.export_keytab_for_keycloak hostname) in
  io_ret match r with
         | Ok path => MkExportKeytabResponse true path ""
         | Err e => MkExportKeytabResponse false "" e
         end.

(** The answer of a call that reports its errors in the message. *)
Definition answered (bad : string) (r : result string string) : KeycloakResponse :=
  match r with
  | Ok message => MkKeycloakResponse true message
  | Err e => MkKeycloakResponse false (bad +:+ e)
  end.

Definition test_keycloak_connection (_ : ValidationResults) (input : TestKeycloakConnectionInput)
  : io Net GqlError KeycloakResponse :=
  let client := from_test_input (ti_url input) (ti_realm input) (ti_admin_user input) (ti_admin_pass input) in
  let! r := io_try (test_connection client) in
  io_ret (answered "❌ " r).

Definition save_keycloak_config_mutation (_ : ValidationResults) (config : KeycloakConfig)
  : io Net GqlError KeycloakResponse :=
  let! r := io_try (save_keycloak_config config) in
  io_ret (answered "❌ Failed to save config: " (map_ok (fun _ =>
    "✅ Keycloak settings saved to /data/keycloak_config.toml (password remains in-memory/env only)") r)).

Definition push_realm_to_keycloak (_ : ValidationResults) (input : PushRealmToKeycloakInput)
  : io Net GqlError KeycloakResponse :=
  let client := from_test_input (pi_url input) (pi_realm input) (pi_admin_user input) (pi_admin_pass input) in
  let! message := io_map_err FieldError (setup_realm client (pi_lldap_url input) (pi_sync_username input)
    (pi_sync_password input) (pi_enable_hsts input) (pi_enable_brute_force input)) in
  io_ret (MkKeycloakResponse true message).
End Graphql.

(** ** What is sent *)

(** [rs] are the requests sent between [s] and [s']. *)
Definition asked (s : Net) (rs : list Request) (s' : Net) : Prop :=
  n_requests s' = n_requests s ++ rs /\ n_config_file s' = n_config_file s.

Section Sent.
Context `{Extern, LdapExtern, SqlExtern, KeycloakExtern}.

Notation net A := (io Net string A).

Lemma asked_nil s : asked s [] s.
Proof. split; [by rewrite app_nil_r|done]. Qed.

Lemma asked_app s rs s1 rs' s' : asked s rs s1 -> asked s1 rs' s' -> asked s (rs ++ rs') s'.
Proof. intros [Ha Hc] [Ha' Hc']. split; [by rewrite Ha', Ha, app_assoc|by rewrite Hc']. Qed.

Lemma http_send_asked r s res s' : http_send r s = (res, s') -> asked s [r] s' /\ res = respond (n_requests s) r.
Proof. by intros [= <- <-]. Qed.

(** The answer to a request, and where it was made. *)
Lemma http_send_Ok {A} (msg : string) r (k : Response -> net A) s a s' :
  io_bind (net_context msg (http_send r)) k s = (Ok a, s') ->
  exists resp s1, respond (n_requests s) r = Ok resp /\ asked s [r] s1 /\ k resp s1 = (Ok a, s').
Proof.
  intros (resp & s1 & Hs%io_map_err_Ok & Hk)%io_bind_Ok. apply http_send_asked in Hs as [? ?]. eauto.
Qed.

(** A loop whose every round sends some requests. *)
Lemma io_iter_asked {A} (f : A -> net unit) (reqs : A -> list Request) l s u s' :
  (forall a s u s', f a s = (Ok u, s') -> asked s (reqs a) s') ->
  io_iter f l s = (Ok u, s') -> asked s (concat (map reqs l)) s'.
Proof.
  intros Hf. revert s. induction l as [|a l IH]; intros s Hs; simpl in *.
  - apply io_ret_Ok in Hs as [_ <-]. apply asked_nil.
  - apply io_bind_Ok in Hs as ([] & s1 & Ha & Hb). eapply asked_app; eauto.
Qed.

Lemma response_json_Ok resp msg s j s' :
  response_json resp msg s = (Ok j, s') -> mbind parse_json (rs_body resp) = Some j /\ s = s'.
Proof.
  unfold response_json. intros [Hj ->]%io_lift_Ok. split; [|done].
  by destruct (mbind parse_json (rs_body resp)); simplify_eq/=.
Qed.

Lemma response_list_Ok resp msg s l s' :
  response_list resp msg s = (Ok l, s') -> mbind parse_json (rs_body resp) = Some (JArray l) /\ s = s'.
Proof.
  unfold response_list. intros (j & s1 & [Hj <-]%response_json_Ok & Hs)%io_bind_Ok.
  destruct j; try discriminate Hs. by apply io_ret_Ok in Hs as [-> ->].
Qed.

Context (client : KeycloakClient).

(** The answer to the request of a token holds one. *)
Definition token_of (sent : list Request) (token : string) : Prop :=
  exists resp, respond sent (token_request client) = Ok resp /\
    mbind (get_str "access_token") (mbind parse_json (rs_body resp)) = Some token.

Lemma acquire_token_Ok s token s' :
  acquire_token client s = (Ok token, s') ->
  asked s [token_request client] s' /\ token_of (n_requests s) token.
Proof.
  intros (resp & s1 & Hr & Ha & Hs)%http_send_Ok.
  apply io_bind_Ok in Hs as (j & s2 & [Hj <-]%response_json_Ok & Hs). apply io_lift_Ok in Hs as [Ht ->].
  split; [done|]. exists resp. rewrite Hj. split; [done|]. simpl.
  by destruct (get_str "access_token" j); simplify_eq/=.
Qed.

Lemma acquire_token_asked s r s' : acquire_token client s = (r, s') -> asked s [token_request client] s'.
Proof.
  unfold acquire_token, io_bind, net_context, io_map_err, http_send, response_json, io_lift.
  destruct (respond _ _) as [resp|]; simpl; [|by intros [= <- <-]].
  destruct (ok_or (mbind parse_json (rs_body resp)) _); by intros [= <- <-].
Qed.

Lemma create_Ok what r s u s' :
  create what r s = (Ok u, s') ->
  asked s [r] s' /\ exists resp, respond (n_requests s) r = Ok resp /\ created (rs_status resp) = true.
Proof.
  intros (resp & s1 & [Ha Hr]%http_send_asked & Hs)%io_bind_Ok.
  destruct (created (rs_status resp)) eqn:Hc; [|discriminate Hs].
  apply io_ret_Ok in Hs as [_ <-]. eauto.
Qed.

Lemma delete_mapper_Ok token m s u s' :
  delete_mapper client token m s = (Ok u, s') ->
  asked s (option_list (delete_request client token <$> get_str "id" m)) s'.
Proof.
  unfold delete_mapper. destruct (get_str "id" m) as [id|]; simpl.
  - by intros [= _ <-].
  - intros [_ <-]%io_ret_Ok. apply asked_nil.
Qed.

(** The deletions of a list of mappers: of those with an identifier. *)
Definition deletions (token : string) (mappers : list Json) : list Request :=
  delete_request client token <$> omap (get_str "id") mappers.

Lemma deletions_flat token mappers :
  concat (map (fun m => option_list (delete_request client token <$> get_str "id" m)) mappers) = deletions token mappers.
Proof.
  induction mappers as [|m mappers IH]; [done|]. unfold deletions in *. simpl. rewrite IH.
  by destruct (get_str "id" m).
Qed.

Lemma clear_default_mappers_Ok token pid s u s' :
  clear_default_mappers client token pid s = (Ok u, s') ->
  exists mappers resp, respond (n_requests s) (mapper_list_request client token pid) = Ok resp /\
    mbind parse_json (rs_body resp) = Some (JArray mappers) /\
    asked s (mapper_list_request client token pid :: deletions token mappers) s'.
Proof.
  intros (resp & s1 & Hr & Ha & Hs)%http_send_Ok.
  apply io_bind_Ok in Hs as (mappers & s2 & [Hm <-]%response_list_Ok & Hs).
  exists mappers, resp. split_and!; [done..|]. rewrite <- deletions_flat.
  apply (asked_app _ _ _ _ _ Ha). eapply io_iter_asked, Hs. intros; by eapply delete_mapper_Ok.
Qed.

Lemma create_custom_mappers_Ok token pid s u s' :
  create_custom_mappers client token pid s = (Ok u, s') ->
  asked s (map (mapper_request client token) (custom_mappers pid)) s'.
Proof.
  intros Hs. apply (io_iter_asked _ (fun m => [mapper_request client token m])) in Hs; [exact Hs|].
  clear. intros m s [] s' (resp & s1 & [Ha _]%http_send_asked & [_ <-]%io_ret_Ok)%io_bind_Ok. done.
Qed.

Lemma create_component_Ok token lldap_url user password s pid s' :
  create_ldap_kerberos_component client token lldap_url user password s = (Ok pid, s') ->
  asked s [component_request client token lldap_url user password; component_list_request client token] s' /\
  exists resp components,
    respond (n_requests s ++ [component_request client token lldap_url user password])
      (component_list_request client token) = Ok resp /\
    mbind parse_json (rs_body resp) = Some (JArray components) /\ provider_id_of components = Some pid.
Proof.
  intros ([] & s1 & [Ha1 _]%create_Ok & (resp & s2 & Hr & Ha2 & Hs)%http_send_Ok)%io_bind_Ok.
  apply io_bind_Ok in Hs as (components & s3 & [Hc <-]%response_list_Ok & Hs). apply io_lift_Ok in Hs as [Hp ->].
  destruct (provider_id_of components) eqn:Ep; simplify_eq/=.
  split; [apply (asked_app _ _ _ _ _ Ha1 Ha2)|]. exists resp, components. destruct Ha1 as [<- _]. done.
Qed.

Lemma realm_exists_Ok token s b s' :
  realm_exists client token s = (Ok b, s') ->
  asked s [realm_request client token] s' /\
  exists resp, respond (n_requests s) (realm_request client token) = Ok resp /\ b = is_success (rs_status resp).
Proof.
  intros (resp & s1 & Hr & Ha & Hs)%http_send_Ok. apply io_ret_Ok in Hs as [<- <-]. eauto.
Qed.
End Sent.

(** ** Setting a realm up *)

Section Setup.
Context `{Extern, LdapExtern, SqlExtern, KeycloakExtern}.

(** The client a push of a realm makes. *)
Definition push_client (input : PushRealmToKeycloakInput) : KeycloakClient :=
  from_test_input (pi_url input) (pi_realm input) (pi_admin_user input) (pi_admin_pass input).

(** Everything a push sends, once Keycloak has given it a token, the provider's identifier
    and the mappers that exist. *)
Definition pushed (input : PushRealmToKeycloakInput) (token provider_id : string) (mappers : list Json) : list Request :=
  let client := push_client input in
  [token_request client; realm_request client token;
   create_realm_request client token (pi_enable_hsts input) (pi_enable_brute_force input);
   component_request client token (pi_lldap_url input) (pi_sync_username input) (pi_sync_password input);
   component_list_request client token; mapper_list_request client token provider_id] ++
  deletions client token mappers ++ map (mapper_request client token) (custom_mappers provider_id) ++
  [web_client_request client token].

(** What Keycloak answered to [r], sent after [sent], is the JSON [j]. *)
Definition replied (sent : list Request) (r : Request) (j : Json) : Prop :=
  exists resp, respond sent r = Ok resp /\ mbind parse_json (rs_body resp) = Some j.

Lemma setup_realm_Ok input s message s' :
  setup_realm (push_client input) (pi_lldap_url input) (pi_sync_username input) (pi_sync_password input)
    (pi_enable_hsts input) (pi_enable_brute_force input) s = (Ok message, s') ->
  exists token provider_id mappers,
    asked s (pushed input token provider_id mappers) s' /\
    token_of (push_client input) (n_requests s) token /\
    (exists resp, respond (n_requests s ++ firstn 1 (pushed input token provider_id mappers))
        (realm_request (push_client input) token) = Ok resp /\ is_success (rs_status resp) = false) /\
    (exists components, replied (n_requests s ++ firstn 4 (pushed input token provider_id mappers))
        (component_list_request (push_client input) token) (JArray components) /\
      provider_id_of components = Some provider_id) /\
    replied (n_requests s ++ firstn 5 (pushed input token provider_id mappers))
      (mapper_list_request (push_client input) token provider_id) (JArray mappers).
Proof.
  intros (token & s1 & [A1 Ht]%acquire_token_Ok & Hs)%io_bind_Ok.
  apply io_bind_Ok in Hs as (b & s2 & [A2 (resp & Hr & ->)]%realm_exists_Ok & Hs).
  destruct (is_success (rs_status resp)) eqn:Hb; [discriminate Hs|].
  apply io_bind_Ok in Hs as ([] & s2' & [_ <-]%io_ret_Ok & Hs).
  apply io_bind_Ok in Hs as ([] & s3 & [A3 _]%create_Ok & Hs).
  apply io_bind_Ok in Hs as (pid & s4 & [A4 (resp4 & components & Hr4 & Hc & Hp)]%create_component_Ok & Hs).
  apply io_bind_Ok in Hs as ([] & s5 & (mappers & resp5 & Hr5 & Hm & A5)%clear_default_mappers_Ok & Hs).
  apply io_bind_Ok in Hs as ([] & s6 & A6%create_custom_mappers_Ok & Hs).
  apply io_bind_Ok in Hs as ([] & s7 & [A7 _]%create_Ok & [_ <-]%io_ret_Ok).
  pose proof (asked_app _ _ _ _ _ A1 A2) as B2. pose proof (asked_app _ _ _ _ _ B2 A3) as B3.
  pose proof (asked_app _ _ _ _ _ B3 A4) as B4. pose proof (asked_app _ _ _ _ _ B4 A5) as B5.
  pose proof (asked_app _ _ _ _ _ B5 A6) as B6. pose proof (asked_app _ _ _ _ _ B6 A7) as B7.
  exists token, pid, mappers. split_and!.
  - revert B7. unfold pushed. by rewrite <- !app_assoc.
  - exact Ht.
  - exists resp. split; [|done]. rewrite <- Hr. f_equal. by destruct A1 as [-> _].
  - exists components. split; [|done]. exists resp4. split; [|done]. rewrite <- Hr4. f_equal.
    destruct B3 as [-> _]. by rewrite <- app_assoc.
  - exists resp5. split; [|done]. rewrite <- Hr5. f_equal. by destruct B4 as [-> _].
Qed.
End Setup.

(** C31: a push of a realm that succeeds has asked for a token, checked that the realm is not
    there, and then sent exactly: the realm, the LDAP provider, the question for its
    identifier and for its mappers, the deletion of each of those that has an identifier,
    the thirteen mappers of the schema under the provider, and the web client; all with the
    token Keycloak gave.  It leaves the file of the settings. *)
Theorem push_sends `{LdapExtern, KeycloakExtern} data input s answer s' :
  push_realm_to_keycloak data input s = (Ok answer, s') ->
  n_config_file s' = n_config_file s /\
  exists token provider_id mappers,
    n_requests s' = n_requests s ++ pushed input token provider_id mappers /\
    token_of (push_client input) (n_requests s) token /\
    (exists resp, respond (n_requests s ++ firstn 1 (pushed input token provider_id mappers))
        (realm_request (push_client input) token) = Ok resp /\ is_success (rs_status resp) = false) /\
    (exists components, replied (n_requests s ++ firstn 4 (pushed input token provider_id mappers))
        (component_list_request (push_client input) token) (JArray components) /\
      provider_id_of components = Some provider_id) /\
    replied (n_requests s ++ firstn 5 (pushed input token provider_id mappers))
      (mapper_list_request (push_client input) token provider_id) (JArray mappers).
Proof.
  intros (message & s1 & Hs%io_map_err_Ok & [_ <-]%io_ret_Ok)%io_bind_Ok.
  apply setup_realm_Ok in Hs as (token & pid & mappers & [Hn Hf] & Hrest).
  split; [done|]. exists token, pid, mappers. done.
Qed.

(** C32: a push to a realm whose existence check is answered with a success fails, and has
    sent nothing after the check: Keycloak is as it was. *)
Theorem existing_realm_untouched `{LdapExtern, KeycloakExtern} data input s :
  let client := push_client input in
  (forall token resp, respond (n_requests s ++ [token_request client]) (realm_request client token) = Ok resp ->
    is_success (rs_status resp) = true) ->
  exists e s' sent, push_realm_to_keycloak data input s = (Err e, s') /\ n_requests s' = n_requests s ++ sent /\
    (sent = [token_request client] \/ exists token, sent = [token_request client; realm_request client token]).
Proof.
  intros client Hex. unfold push_realm_to_keycloak, setup_realm. fold (push_client input). fold client.
  destruct (acquire_token client s) as [[token|e] s1] eqn:Et;
    pose proof (acquire_token_asked client _ _ _ Et) as [Hn _];
    unfold io_bind, io_map_err at 1; rewrite Et; [|eauto 7].
  unfold realm_exists, io_bind, net_context, io_map_err, http_send. rewrite Hn.
  destruct (respond _ (realm_request client token)) as [resp|] eqn:Er; simpl.
  - rewrite (Hex _ _ Er). simpl. do 3 eexists. split; [done|]. simpl. split; [|eauto].
    by rewrite <- app_assoc.
  - do 3 eexists. split; [done|]. simpl. split; [|eauto]. by rewrite <- app_assoc.
Qed.

(** A user of any kind who tests a connection with an empty password makes the server
    send its own Keycloak password, with the POST to the address the user gives. *)
Theorem admin_password_sent_to_given_url `{KeycloakExtern} data input s :
  trim (ti_admin_pass input) = "" ->
  exists more, n_requests (snd (test_keycloak_connection data input s)) =
    n_requests s ++ MkRequest POST (ti_url input +:+ "/realms/master/protocol/openid-connect/token") None
      (Form [("client_id", "admin-cli"); ("username", ti_admin_user input);
             ("password", get_keycloak_admin_password); ("grant_type", "password")]) :: more.
Proof.
  intros Hp. unfold test_keycloak_connection, from_test_input. rewrite Hp. simpl (String.eqb _ _). cbv iota.
  set (client := MkKeycloakClient _ _). unfold test_connection, io_bind at 1, io_try, io_bind at 1.
  destruct (acquire_token client s) as [[token|e] s1] eqn:Et;
    pose proof (acquire_token_asked client _ _ _ Et) as [Hn _]; [|exists []; exact Hn].
  unfold io_bind, http_send. exists [realm_request client token].
  destruct (respond _ _) as [resp|]; [simpl; destruct (is_success _)|]; simpl; rewrite Hn, <- app_assoc; reflexivity.
Qed.

(** ** A Keycloak *)

(** One that answers the check of the realm and every creation with given statuses, and
    lists two mappers, the second without an identifier. *)
Definition demo_keycloak (check creation : Z) : KeycloakExtern := {|
  respond := fun _ r =>
    match rq_method r, rq_body r with
    | POST, Form _ => Ok (MkResponse 200 (Some "token"))
    | POST, _ => Ok (MkResponse creation (Some ""))
    | DELETE, _ => Ok (MkResponse 204 None)
    | GET, _ =>
        if String.eqb (rq_url r) "http://kc/admin/realms/example.com" then Ok (MkResponse check None)
        else if String.eqb (rq_url r)
          "http://kc/admin/realms/example.com/components?providerId=ldap&name=lldap-with-kerberos"
        then Ok (MkResponse 200 (Some "components"))
        else Ok (MkResponse 200 (Some "mappers"))
    end;
  parse_json := fun text =>
    if String.eqb text "token" then Some (JObject [("access_token", JString "abc")])
    else if String.eqb text "components" then
      Some (JArray [JObject [("name", JString "other"); ("id", JString "1")];
                    JObject [("name", JString "lldap-with-kerberos"); ("id", JString "2")]])
    else if String.eqb text "mappers" then
      Some (JArray [JObject [("name", JString "first name"); ("id", JString "7")]; JObject [("name", JString "x")]])
    else None;
  json_to_string_pretty := fun _ => Some "";
  status_text := fun _ => "";
  toml_to_keycloak := fun _ => None;
  keycloak_to_toml := fun _ => Some "";
  config_unreadable := false;
  config_unwritable := false;
  env_keycloak_admin_pass := Some "hunter2";
  public_key_der_base64 := None
|}.

Definition demo_push : PushRealmToKeycloakInput :=
  MkPushRealmInput "http://kc" "example.com" "admin" "" "ldap://lldap:389" "keycloak" "secret" true true.

Definition demo_user : ValidationResults := MkValidationResults (MkUserId "bob") Regular.

Definition no_requests : Net := MkNet [] None.

Definition demo_push_result (check creation : Z) : result GqlError KeycloakResponse * Net :=
  @push_realm_to_keycloak upper_extern (demo_keycloak check creation)
    demo_user demo_push no_requests.

Lemma push_sends_witness :
  exists answer s', demo_push_result 404 201 = (Ok answer, s') /\ n_config_file s' = None /\
    exists token pid mappers, n_requests s' = @pushed upper_extern (demo_keycloak 404 201) demo_push token pid mappers.
Proof.
  unfold demo_push_result.
  destruct (@push_realm_to_keycloak upper_extern (demo_keycloak 404 201) demo_user demo_push no_requests)
    as [[answer|e] s'] eqn:Ed; [|vm_compute in Ed; discriminate Ed].
  destruct (push_sends demo_user demo_push no_requests answer s' Ed) as (Hf & token & pid & mappers & Hn & _).
  exists answer, s'. split; [reflexivity|]. split; [exact Hf|]. exists token, pid, mappers. exact Hn.
Defined.

(** It sends 21 requests, the seventh of which deletes the mapper that has an identifier. *)
Example push_requests :
  let sent := n_requests (snd (demo_push_result 404 201)) in
  length sent = 21%nat /\
  nth_error (map (fun r => (rq_method r, rq_url r, rq_bearer r)) sent) 6 =
    Some (DELETE, "http://kc/admin/realms/example.com/components/7", Some "abc").
Proof. vm_compute. auto. Qed.

Lemma existing_realm_untouched_witness :
  exists e s' sent, demo_push_result 200 201 = (Err e, s') /\ n_requests s' = sent /\ (length sent <= 2)%nat.
Proof.
  destruct (@existing_realm_untouched upper_extern (demo_keycloak 200 201)
    demo_user demo_push no_requests) as (e & s' & sent & Hr & Hn & Hs).
  - intros token resp Hr. by injection Hr as <-.
  - exists e, s', sent. split; [exact Hr|]. split; [exact Hn|].
    destruct Hs as [->|[token ->]]; simpl; lia.
Defined.

(** The check is only refused by a success: when it is answered 503 and the realm and all
    else is there already, a push reports success, and has deleted the mappers of that
    realm. *)
Example unanswered_check_overwrites :
  exists message s', demo_push_result 503 409 = (Ok (MkKeycloakResponse true message), s') /\
    map (fun r => (rq_method r, rq_url r)) (List.filter (fun r => match rq_method r with DELETE => true | _ => false end)
      (n_requests s')) = [(DELETE, "http://kc/admin/realms/example.com/components/7")].
Proof. vm_compute. eauto. Qed.

Lemma admin_password_witness :
  let input := MkTestKeycloakInput "http://evil" "r" "admin" " " in
  let s' := snd (@test_keycloak_connection (demo_keycloak 200 201)
    demo_user input no_requests) in
  exists more, n_requests s' = MkRequest POST "http://evil/realms/master/protocol/openid-connect/token" None
    (Form [("client_id", "admin-cli"); ("username", "admin"); ("password", "hunter2"); ("grant_type", "password")])
    :: more.
Proof.
  intros input s'.
  destruct (@admin_password_sent_to_given_url (demo_keycloak 200 201)
    demo_user input no_requests eq_refl) as [more Hm].
  exists more. exact Hm.
Defined.

(** The realm of a file has the DNs of its provider without the first [dc=]. *)
Example realm_json_users_dn :
  let options := MkRealmOptions "example.com" false false "" "" false false in
  let config := mbind (json_get "org.keycloak.storage.UserStorageProvider") (json_get "components"
    (@realm_json lawful_extern upper_extern demo_sql_extern options)) in
  match config with
  | Some (JArray [component]) => mbind (json_get "usersDn") (json_get "config" component) = Some (one "ou=people,example,dc=com")
  | _ => False
  end.
Proof. vm_compute. reflexivity. Qed.
