(* ===== verification/Wire.v ===== *)
(** * What the command-line tools and the server exchange

    The tools [set-password/] and [migration-tool/] are HTTP clients of the server.  Here
    are their requests and the answers they read, with the messages of
    [crates/auth/src/lib.rs], and the authentication service behind its URLs
    ([configure_server] of [server/src/auth_service.rs]).

    A body is the value it serialises.  The messages have different fields, and serde
    refuses an object without the fields of the type, so a body of one message is never
    read as another. *)

From S2P Require Import Prelude Strings Types Proto Database Opaque AuthTokens AuthService.

(** ** Requests and answers *)

(** [CreateUserInput] of the GraphQL schema, as the clients fill it in. *)
Record NewUser := MkNewUser {
  nu_id : string;
  nu_email : option string;
  nu_display_name : option string;
  nu_first_name : option string;
  nu_last_name : option string;
  nu_avatar : option string
}.

(** A group of the query [groups]: identifier, name and the identifiers of its users. *)
Record LldapGroup := MkLldapGroup { lg_id : Z; lg_display_name : string; lg_users : list string }.

(** The queries of [migration-tool/queries]. *)
Inductive GqlQuery : Type :=
| CreateUser (user : NewUser)
| CreateGroup (name : string)
| ListUsers
| ListGroups
| AddUserToGroup (user : string) (group : Z).

(** [QueryType::ResponseData] *)
Definition ResponseData (q : GqlQuery) : Type :=
  match q with
  | CreateUser _ => string
  | CreateGroup _ => Z
  | ListUsers => list string
  | ListGroups => list LldapGroup
  | AddUserToGroup _ _ => bool
  end.

Inductive WireBody `{OpaqueExtern} : Type :=
| WLoginStart (r : ClientLoginStartRequest)
| WLoginFinish (r : ClientLoginFinishRequest)
| WSimpleLogin (r : ClientSimpleLoginRequest)
| WRegisterStart (r : ClientRegistrationStartRequest)
| WRegisterFinish (r : ClientRegistrationFinishRequest)
| WGraphql (q : GqlQuery)
| WEmpty.

Record WireCall `{OpaqueExtern} := MkWireCall { wc_url : string; wc_bearer : option string; wc_body : WireBody }.
Arguments MkWireCall {_} _ _ _.
Arguments wc_url {_} _.
Arguments wc_bearer {_} _.
Arguments wc_body {_} _.

Inductive WireReply `{OpaqueExtern} : Type :=
| RLoginStart (r : ServerLoginStartResponse)
| RLogin (token : string) (refresh_token : option string)
| RRegisterStart (r : ServerRegistrationStartResponse)
| RText (text : string).

Record WireAnswer `{OpaqueExtern} := MkWireAnswer { wa_status : Z; wa_reply : WireReply }.
Arguments MkWireAnswer {_} _ _.
Arguments wa_status {_} _.
Arguments wa_reply {_} _.

(** What a tool ends with besides a result: an error, or a panic. *)
Inductive ToolError : Type :=
| ToolFailed (msg : string)
| ToolPanicked (msg : string).

(** [.context(msg)]: a panic passes. *)
Definition tool_context {S A} (msg : string) (m : io S ToolError A) : io S ToolError A :=
  io_map_err (fun e => match e with ToolFailed _ => ToolFailed msg | ToolPanicked p => ToolPanicked p end) m.

(** [.or_else(|_| ..)] *)
Definition tool_or_else {A} (r other : result ToolError A) : result ToolError A :=
  match r with
  | Err (ToolFailed _) => other
  | _ => r
  end.

(** ** The authentication service at its URLs *)

Section Server.
Context `{Extern, LdapExtern, SqlExtern, OpaqueExtern, TokenExtern, WebExtern}.
Context (opaque_setup : ServerSetup) (config : AppConfig) (enable_password_reset : bool).

Definition bearer_request (c : WireCall) : HttpRequest :=
  MkHttpRequest None None None ((fun t => "Bearer " +:+ t) <$> wc_bearer c).

(** The request behind a call, or the status of the refusal: 404 for a path that is none
    of these, 400 for a body that is not the message of the path. *)
Definition auth_request (path : string) (c : WireCall) : result Z AuthRequest :=
  if String.eqb path "/auth/opaque/login/start" then
    match wc_body c with WLoginStart r => Ok (OpaqueLoginStart r) | _ => Err 400%Z end
  else if String.eqb path "/auth/opaque/login/finish" then
    match wc_body c with WLoginFinish r => Ok (OpaqueLoginFinish r) | _ => Err 400%Z end
  else if String.eqb path "/auth/simple/login" then
    match wc_body c with WSimpleLogin r => Ok (SimpleLogin r) | _ => Err 400%Z end
  else if String.eqb path "/auth/opaque/register/start" then
    Ok (RegisterStart (bearer_request c)
      match wc_body c with WRegisterStart r => Ok r | _ => Err "Json deserialize error" end)
  else if String.eqb path "/auth/opaque/register/finish" then
    match wc_body c with WRegisterFinish r => Ok (RegisterFinish (bearer_request c) r) | _ => Err 400%Z end
  else Err 404%Z.

Definition wire_answer (a : Answer) : WireAnswer :=
  match a with
  | LoginStartAnswer r => MkWireAnswer 200 (RLoginStart r)
  | RegistrationStartAnswer r => MkWireAnswer 200 (RRegisterStart r)
  | Response r => MkWireAnswer (status r)
      match body r with
      | ServerLoginResponse token refresh => RLogin token refresh
      | TextBody text => RText text
      | _ => RText ""
      end
  end.

(** What follows [base] in [url]. *)
Definition path_under (base url : string) : option string :=
  if starts_with base url then Some (drop_bytes (String.length base) url) else None.

(** The server at [base]; a handler that panics closes the connection. *)
Definition auth_server (base : string) (c : WireCall) : io Web string WireAnswer := fun w =>
  match path_under base (wc_url c) with
  | None => (Err "dns error", w)
  | Some path =>
      match auth_request path c with
      | Err status => (Ok (MkWireAnswer status (RText "")), w)
      | Ok request =>
          let '(answer, w') := serve opaque_setup config enable_password_reset request w in
          (ok_or (wire_answer <$> answer) "connection closed", w')
      end
  end.
End Server.
