(* ===== verification/SetPassword.v ===== *)
(** * The tool that sets a password

    [set-password/src/main.rs], over any server ([http]), and what it achieves against the
    authentication service of [Wire.auth_server].

    The url crate is the class [UrlExtern]; clap's result is the record [CliOpts]; the
    randomness of the client is [coins]. *)

From S2P Require Import Prelude Strings Types Schema Proto Database Access SqlConfig SqlGroups.
From S2P Require Import SqlUsers SqlOps Opaque AuthTokens AuthService System Wire.

Class UrlExtern := {
  Url : Type;
  url_text : Url -> string;
  scheme : Url -> string;
  (** [path_segments_mut().extend(..)]; a URL that is no base has no segments. *)
  extend_segments : Url -> list string -> option Url
}.

Record CliOpts `{UrlExtern} := MkCliOpts {
  base_url : Url;
  admin_username : string;
  admin_password : option string;
  co_token : option string;
  co_username : string;
  co_password : option string;
  bypass_password_policy : bool
}.
Arguments MkCliOpts {_} _ _ _ _ _ _ _.
Arguments base_url {_} _.
Arguments admin_username {_} _.
Arguments admin_password {_} _.
Arguments co_token {_} _.
Arguments co_username {_} _.
Arguments co_password {_} _.
Arguments bypass_password_policy {_} _.

Section Tool.
Context `{Extern, OpaqueExtern, UrlExtern} {World : Type}.
Context (http : WireCall -> io World string WireAnswer) (env_user_password : option string) (coins : nat -> Coins).

Notation tool A := (io World ToolError A).

Definition append_to_url (base : Url) (path : string) : tool Url :=
  io_lift (ok_or (extend_segments base (split_on "/" path)) (ToolPanicked "path_segments_mut")).

(** [.send()?.error_for_status()?], and the body *)
Definition post_ok (url : Url) (token : option string) (body : WireBody) : tool WireReply :=
  let! answer := io_map_err ToolFailed (http (MkWireCall (url_text url) token body)) in
  if (400 <=? wa_status answer)%Z && (wa_status answer <=? 599)%Z then io_fail (ToolFailed "HTTP status error")
  else io_ret (wa_reply answer).

Definition get_token (base : Url) (username password : string) : tool string :=
  let! url := append_to_url base "auth/simple/login" in
  let! reply := post_ok url None (WSimpleLogin (MkClientSimpleLoginRequest (UserId_new username) password)) in
  match reply with
  | RLogin token _ => io_ret token
  | _ => io_fail (ToolFailed "invalid JSON")
  end.

Definition call_server (url : Url) (token : string) (body : WireBody) : tool WireReply := post_ok url (Some token) body.

Definition register_start (base : Url) (token : string) (request : ClientRegistrationStartRequest)
  : tool ServerRegistrationStartResponse :=
  let! url := append_to_url base "auth/opaque/register/start" in
  let! data := call_server url token (WRegisterStart request) in
  match data with
  | RRegisterStart r => io_ret r
  | _ => io_fail (ToolFailed "Could not parse response")
  end.

Definition register_finish (base : Url) (token : string) (request : ClientRegistrationFinishRequest) : tool unit :=
  let! url := append_to_url base "auth/opaque/register/finish" in
  let! _ := call_server url token (WRegisterFinish request) in io_ret tt.

Definition ensure (b : bool) (msg : string) : tool unit := if b then io_ret tt else io_fail (ToolFailed msg).

Definition new_password (opts : CliOpts) : string :=
  match co_password opts with
  | Some v => v
  | None => from_option id "" env_user_password
  end.

Definition admin_token (opts : CliOpts) : tool string :=
  match co_token opts, admin_password opts with
  | Some token, _ => io_ret token
  | None, Some password => tool_context "While logging in" (get_token (base_url opts) (admin_username opts) password)
  | None, None => io_fail (ToolFailed "Either the token or the admin password is required")
  end.

(** The two steps of the registration, with [token]. *)
Definition register_new_password (opts : CliOpts) (token password : string) : tool unit :=
  let! start := io_lift (map_err (fun _ => ToolFailed "Could not initiate password change")
    (client_start_registration password (coins 0))) in
  let! res := register_start (base_url opts) token
    (MkClientRegistrationStartRequest (UserId_new (co_username opts)) (snd start)) in
  let! registration_finish := io_lift (map_err (fun _ => ToolFailed "Error during password change")
    (client_finish_registration (fst start) password (rr_registration_response res) (coins 1))) in
  register_finish (base_url opts) token (MkClientRegistrationFinishRequest (rr_server_data res) registration_finish).

Definition set_password_main (opts : CliOpts) : tool unit :=
  let password := new_password opts in
  let! _ := ensure (bypass_password_policy opts || (8 <=? String.length password)%nat)
    "New password is too short, expected at least 8 characters" in
  let! _ := ensure (String.eqb (scheme (base_url opts)) "http" || String.eqb (scheme (base_url opts)) "https")
    "Base URL should start with `http://` or `https://`" in
  let! token := admin_token opts in
  register_new_password opts token password.
End Tool.

(** ** Against the authentication service *)

Section Served.
Context `{Extern, LdapExtern, SqlExtern, OpaqueExtern, TokenExtern, WebExtern}.
Context (setup : ServerSetup) (config : AppConfig) (reset : bool) (base : string).

Notation server := (auth_server setup config reset base).

Lemma path_under_app path : path_under base (base +:+ path) = Some path.
Proof. unfold path_under. rewrite (proj2 (starts_with_iff _ _)) by (by exists path). by rewrite drop_bytes_app. Qed.

Lemma backend_Ok {A} (m : io Db DomainError A) w a w' :
  backend m w = (Ok a, w') -> m (w_db w) = (Ok a, w_db w').
Proof. unfold backend. destruct (m (w_db w)) as [[x|e] s]; by intros [= <- <-]. Qed.

(** The first step of a registration, answered with the data of the second. *)
Lemma register_start_served token r st x w w' :
  server (MkWireCall (base +:+ "/auth/opaque/register/start") token (WRegisterStart r)) w =
    (Ok (MkWireAnswer st (RRegisterStart x)), w') ->
  exists v is_admin s, authenticate config (bearer_request (MkWireCall "" token (WRegisterStart r))) w = Some v /\
    can_change_password v (rs_username r) is_admin = true /\ db_tables s = db_tables (w_db w) /\
    sql_registration_start setup r s = (Ok x, w_db w').
Proof.
  unfold auth_server. cbn [wc_url]. rewrite path_under_app.
  change (auth_request _ _) with (@Ok Z _ (RegisterStart (bearer_request (MkWireCall "" token (WRegisterStart r))) (Ok r))).
  set (request := bearer_request _). cbv beta iota.
  unfold serve, route, cookie_to_header. cbn [cookie_token request bearer_request].
  destruct (io_bind _ _ w) as [res w1] eqn:Er. intros [= Ha <-].
  destruct res as [a|[e|p]]; simpl in Ha; [|by destruct e|done]. injection Ha as Ha.
  apply io_bind_Ok in Er as (x' & w2 & Hs & [<- <-]%io_ret_Ok). injection Ha as _ ->.
  unfold opaque_register_start in Hs.
  apply io_bind_Ok in Hs as (v & w3 & Hv & Hs). injection Hv as Hv <-. apply ok_or_Ok in Hv.
  apply io_bind_Ok in Hs as (r' & w4 & [[= <-] <-]%io_lift_Ok & Hs).
  apply io_bind_Ok in Hs as (groups & w5 & Hg%backend_Ok & Hs).
  destruct (can_change_password v _ _) eqn:Ec; [|done]. simpl in Hs. apply backend_Ok in Hs.
  exists v, (in_named "lldap_admin" groups), (w_db w5). split_and!; [done|done| |done].
  pose proof (preserves_user_groups (rs_username r) (w_db w)) as Hp. by rewrite Hg in Hp.
Qed.

Lemma error_status_refused e : ((400 <=? error_status e) && (error_status e <=? 599))%Z = true.
Proof. by destruct e as [[]| | | |]. Qed.

Lemma register_finish_served token r answer w w' :
  server (MkWireCall (base +:+ "/auth/opaque/register/finish") token (WRegisterFinish r)) w = (Ok answer, w') ->
  ((400 <=? wa_status answer) && (wa_status answer <=? 599))%Z = false ->
  sql_registration_finish setup r (w_db w) = (Ok tt, w_db w').
Proof.
  unfold auth_server. cbn [wc_url]. rewrite path_under_app.
  change (auth_request _ _) with (@Ok Z _ (RegisterFinish (bearer_request (MkWireCall "" token (WRegisterFinish r))) r)).
  set (request := bearer_request _). cbv beta iota.
  unfold serve, route, cookie_to_header. cbn [cookie_token request bearer_request].
  destruct (io_bind _ _ w) as [res w1] eqn:Er. intros [= Ha <-] Hst.
  destruct res as [a|[e|p]]; simpl in Ha; [|injection Ha as <-; simpl in Hst; by rewrite error_status_refused in Hst|done].
  apply io_bind_Ok in Er as (x & w2 & Hs & [<- <-]%io_ret_Ok).
  unfold opaque_register_finish in Hs. apply io_bind_Ok in Hs as ([] & w3 & Hb%backend_Ok & [_ <-]%io_ret_Ok). done.
Qed.
End Served.

(** The addresses of [opts] are those of the server at [base]. *)
Definition addressed `{UrlExtern} (opts : CliOpts) (base : string) : Prop :=
  forall segments url, extend_segments (base_url opts) segments = Some url ->
    url_text url = base +:+ "/" +:+ join "/" segments.

Section Changed.
Context `{Extern, LdapExtern, SqlExtern, OpaqueExtern, TokenExtern, WebExtern, UrlExtern, !OpaqueLaws}.
Context (setup : ServerSetup) (config : AppConfig) (reset : bool) (base : string).
Context (env : option string) (coins : nat -> Coins) (opts : CliOpts).

Notation server := (auth_server setup config reset base).

Lemma post_ok_Ok {World} (http : WireCall -> io World string WireAnswer) url token body w reply w' :
  post_ok http url token body w = (Ok reply, w') ->
  exists answer, http (MkWireCall (url_text url) token body) w = (Ok answer, w') /\ wa_reply answer = reply /\
    ((400 <=? wa_status answer) && (wa_status answer <=? 599))%Z = false.
Proof.
  intros (answer & w1 & Hh%io_map_err_Ok & Hs)%io_bind_Ok.
  destruct (_ && _) eqn:Es; [discriminate Hs|]. apply io_ret_Ok in Hs as [<- <-]. eauto.
Qed.

Lemma address (Ha : addressed opts base) path (w : Web) url w1 :
  append_to_url (base_url opts) path w = (Ok url, w1) ->
  w1 = w /\ url_text url = base +:+ "/" +:+ join "/" (split_on "/" path).
Proof.
  intros [Hu ->]%io_lift_Ok. split; [done|]. destruct (extend_segments _ _) as [u|] eqn:Eu; [|done].
  injection Hu as <-. by apply Ha.
Qed.

(** A token, however it was obtained, is what the change of the password is sent with. *)
Lemma new_password_served (Ha : addressed opts base) token password w w' :
  let u := UserId_new (co_username opts) in
  UserId_new (user_id_str u) = u ->
  register_new_password server coins opts token password w = (Ok tt, w') ->
  (exists v is_admin, authenticate config (MkHttpRequest None None None (Some ("Bearer " +:+ token))) w = Some v /\
     can_change_password v u is_admin = true) /\
  exists row upload d, registration_exchange setup (user_id_str u) password (coins 0) (coins 1) = Ok upload /\
    t_users (db_tables (w_db w)) !! u = Some row /\
    db_tables (w_db w') = with_password (db_tables (w_db w)) u row
      (ServerRegistration_serialize (get_password_file upload)) d /\
    (integrity (db_tables (w_db w)) -> integrity (db_tables (w_db w'))).
Proof.
  intros u Hu. unfold register_new_password. fold u. clearbody u. intros (start & w1 & [Hst ->]%io_lift_Ok & Hs)%io_bind_Ok. apply map_err_Ok, map_err_Ok in Hst.
  apply io_bind_Ok in Hs as (res & w2 & Hres & Hs).
  apply io_bind_Ok in Hs as (upload & w3 & [Hup ->]%io_lift_Ok & Hs). apply map_err_Ok, map_err_Ok in Hup.
  unfold register_start in Hres. apply io_bind_Ok in Hres as (url & w4 & [-> Hurl]%(address Ha) & Hres).
  apply io_bind_Ok in Hres as (reply & w5 & Hp & Hres). destruct reply; try discriminate Hres.
  apply io_ret_Ok in Hres as [-> <-].
  apply post_ok_Ok in Hp as ([st rep] & Hp & Hrep & _). simpl in Hrep. subst rep. rewrite Hurl in Hp.
  apply register_start_served in Hp as (v & b & s & Hv & Hcan & Ht & Hp). split; [by eauto|].
  unfold register_finish in Hs. apply io_bind_Ok in Hs as (url' & w6 & [-> Hurl']%(address Ha) & Hs).
  apply io_bind_Ok in Hs as (reply' & w7 & Hf & [_ <-]%io_ret_Ok).
  apply post_ok_Ok in Hf as (answer & Hf & _ & Hok). rewrite Hurl' in Hf.
  apply register_finish_served in Hf; [|done].
  pose proof (registration_finish_integrity setup (MkClientRegistrationFinishRequest (rr_server_data res) upload)
    (w_db w5)) as Hint. rewrite Hf in Hint. simpl in Hint.
  unfold sql_registration_start in Hp. io_inv Hp. apply from_auth_Ok in Hm. injection Hm1 as <- Hw. simpl in *.
  match goal with Hd : seal_data _ _ _ = Ok _ |- _ => eapply registration_data_read in Hd as Ho; [|done..] end.
  rewrite Hu in Ho. eapply registration_finish_Ok in Hf as (row & d & Hrow & Hfin); [|exact Ho].
  exists row, upload, d. rewrite <- Ht, Hw in *. split_and!; [|done|done|done].
  unfold registration_exchange. rewrite Hst. simpl. rewrite Hm. exact Hup.
Qed.
#[export] Instance integrity_backend : BackendInvariant integrity.
Proof. split; intros; [apply run_integrity|apply update_user_row_integrity]. Qed.

#[export] Instance integrity_tokens : TokenInvariant integrity.
Proof.
  split; [apply insert_refresh_integrity|apply insert_jwt_integrity|apply insert_reset_integrity
    |apply set_refresh_integrity|apply set_jwt_integrity|apply set_reset_integrity].
Qed.

Lemma auth_server_integrity c w :
  integrity (db_tables (w_db w)) -> integrity (db_tables (w_db (snd (server c w)))).
Proof.
  intros Hw. unfold auth_server. destruct (path_under _ _); [|done]. destruct (auth_request _ _) as [r|]; [|done].
  pose proof (serve_keeps setup config integrity reset r w Hw) as Hk. by destruct (serve _ _ _ _ _).
Qed.

Lemma admin_token_integrity w token w' :
  integrity (db_tables (w_db w)) -> admin_token server opts w = (Ok token, w') -> integrity (db_tables (w_db w')).
Proof.
  intros Hw. unfold admin_token. destruct (co_token opts); [by intros [_ <-]%io_ret_Ok|].
  destruct (admin_password opts) as [pw|]; [|done]. intros (url & w1 & [_ ->]%io_lift_Ok & Hs)%io_map_err_Ok%io_bind_Ok.
  apply io_bind_Ok in Hs as (reply & w2 & (answer & Hh & _)%post_ok_Ok & Hs).
  destruct reply; try discriminate Hs. apply io_ret_Ok in Hs as [_ <-].
  apply (f_equal (fun p => integrity (db_tables (w_db (snd p))))) in Hh. simpl in Hh. rewrite <- Hh.
  by apply auth_server_integrity.
Qed.
End Changed.

(** C33: when the tool reports success against the authentication service, the password is
    at least eight bytes long or the check was bypassed, the token it used was valid for
    somebody who may change that user's password, and from then on a bind of the user
    accepts that password and no other, as long as the account is not disabled. *)
Theorem set_password_binds `{Extern, LdapExtern, SqlExtern, OpaqueExtern, TokenExtern, WebExtern, UrlExtern, !OpaqueLaws}
    setup config reset base env coins opts w w' :
  let u := UserId_new (co_username opts) in
  let password := new_password env opts in
  (forall n, fault n = None) -> integrity (db_tables (w_db w)) -> UserId_new (user_id_str u) = u ->
  addressed opts base ->
  set_password_main (auth_server setup config reset base) env coins opts w = (Ok tt, w') ->
  (bypass_password_policy opts = true \/ (8 <= String.length password)%nat) /\
  (exists token w1 v is_admin,
     authenticate config (MkHttpRequest None None None (Some ("Bearer " +:+ token))) w1 = Some v /\
     can_change_password v u is_admin = true) /\
  (~ disabled (db_tables (w_db w')) u -> forall pw', fst (sql_bind setup (MkBindRequest u pw') (w_db w')) =
     if bool_decide (pw' = password) then Ok tt
     else Err (AuthenticationError ("for user " +:+ quoted (user_id_str u)))).
Proof.
  intros u password Hnf Hi Hu Ha ([] & w1 & Hlen & Hs)%io_bind_Ok. fold password in Hlen.
  unfold ensure in Hlen. destruct (_ || _) eqn:El; [|done]. apply io_ret_Ok in Hlen as [_ <-].
  apply io_bind_Ok in Hs as ([] & w2 & He & Hs). unfold ensure in He.
  destruct (_ || _) in He; [|done]. apply io_ret_Ok in He as [_ <-].
  apply io_bind_Ok in Hs as (token & w3 & Htok & Hs).
  pose proof (admin_token_integrity _ _ _ _ _ _ _ _ Hi Htok) as Hi3.
  apply (new_password_served setup config reset base coins opts Ha) in Hs
    as [(v & b & Hv & Hc) (row & upload & d & Hx & Hrow & Ht & Hi')]; [|exact Hu].
  split_and!.
  - apply orb_true_iff in El as [El|El]; [by left|right]. by apply Nat.leb_le.
  - by exists token, w3, v, b.
  - intros Hd pw'.
    destruct (bind_answer setup u pw' (w_db w') (set_password
      (ServerRegistration_serialize (get_password_file upload)) d row) Hnf (Hi' Hi3) Hd) as [rng ->].
    + rewrite Ht. by apply lookup_insert_eq.
    + cbn [ur_password_hash set_password from_option]. unfold get_password_file. fold u in Hx.
      by rewrite passwords_match_exchange, (login_after_registration _ _ _ _ _ _ pw' rng Hx).
Qed.

(** ** A run *)

Definition demo_url : UrlExtern := {|
  Url := string;
  url_text := id;
  scheme := fun _ => "http";
  extend_segments := fun base segments => Some (base +:+ "/" +:+ join "/" segments)
|}.

Definition demo_opts (password : string) : @CliOpts demo_url :=
  @MkCliOpts demo_url "http://lldap" "admin" None (Some demo_token) "bob" (Some password) false.

Definition demo_set_password (password : string) : result ToolError unit * Web :=
  @set_password_main demo_opaque_extern demo_url Web
    (@auth_server lawful_extern demo_sql_extern demo_opaque_extern demo_token_extern demo_web_extern
       "key" demo_config false "http://lldap") None (fun _ => tt) (demo_opts password) demo_web.

Lemma demo_bob_enabled t :
  t_memberships t = t_memberships (db_tables demo_db) -> t_groups t = t_groups (db_tables demo_db) ->
  ~ disabled t (MkUserId "bob").
Proof.
  intros Hms Hgs (g & Hn & Hm). unfold is_member in Hm. unfold name_at in Hn. rewrite Hms in Hm. rewrite Hgs in Hn.
  clear Hms Hgs. simpl in Hm. assert (g = 1%Z) as -> by set_solver. vm_compute in Hn. discriminate.
Qed.

Lemma set_password_binds_witness :
  fst (demo_set_password "s3cret-pw") = Ok tt /\
  demo_bind "bob" "s3cret-pw" (w_db (snd (demo_set_password "s3cret-pw"))) = Ok tt /\
  demo_bind "bob" "other" (w_db (snd (demo_set_password "s3cret-pw"))) <> Ok tt.
Proof.
  split; [vm_compute; reflexivity|].
  destruct (demo_set_password "s3cret-pw") as [r w'] eqn:Er.
  assert (r = Ok tt) as -> by (transitivity (fst (demo_set_password "s3cret-pw")); [rewrite Er|vm_compute]; reflexivity).
  assert (~ disabled (db_tables (w_db w')) (MkUserId "bob")) as Hd.
  { pose proof (f_equal (fun p => (t_memberships (db_tables (w_db (snd p))), t_groups (db_tables (w_db (snd p))))) Er) as Ht.
    cbn [snd] in Ht. apply pair_equal_spec in Ht as [Hms Hgs].
    assert (t_memberships (db_tables (w_db w')) = t_memberships (db_tables demo_db)) as Hms'
      by (rewrite <- Hms; vm_compute; reflexivity).
    assert (t_groups (db_tables (w_db w')) = t_groups (db_tables demo_db)) as Hgs'
      by (rewrite <- Hgs; vm_compute; reflexivity).
    by apply demo_bob_enabled. }
  unfold demo_set_password in Er.
  destruct (@set_password_binds lawful_extern demo_ldap_extern demo_sql_extern demo_opaque_extern demo_token_extern
    demo_web_extern demo_url _ "key" demo_config false "http://lldap" None (fun _ => tt) (demo_opts "s3cret-pw") demo_web w'
    (fun _ => eq_refl) demo_db_integrity eq_refl) as (_ & _ & Hb); [|exact Er|].
  - intros segments url Hu. injection Hu as <-. reflexivity.
  - specialize (Hb Hd). unfold demo_bind. split; [exact (Hb "s3cret-pw")|].
    pose proof (Hb "other") as Hb2. intros Ho. simpl snd in Ho. change (MkUserId "bob") with (UserId_new (co_username (demo_opts "s3cret-pw"))) in Ho. rewrite Hb2 in Ho. discriminate Ho.
Defined.

(** A password that is too short is not sent anywhere. *)
Example short_password_not_sent :
  demo_set_password "short" = (Err (ToolFailed "New password is too short, expected at least 8 characters"), demo_web).
Proof. vm_compute. reflexivity. Qed.
