(* ===== verification/MigrationTool.v ===== *)
(** * The migration tool

    [migration-tool/src]: users, groups and memberships are read from an LDAP server
    ([ldap.rs]) and sent to the GraphQL API ([lldap.rs]), with questions to the operator
    ([main.rs]).

    The state has the answers the operator is going to give, the requests sent to the
    LDAP server and to the HTTP server, and the world of the HTTP server, which is any.
    requestty's prompts take the next answer; a text that does not validate is asked for
    again, and without answers left a prompt fails.  ldap3, DNS, graphql_client and the
    header type are the class [MigrationExtern]. *)

From S2P Require Import Prelude Strings Types Proto Database SqlConfig Opaque AuthTokens AuthService Wire.

(** An entry, as [SearchEntry::construct] gives it. *)
Record LdapEntry := MkLdapEntry {
  le_dn : string;
  le_attrs : gmap string (list string);
  le_bin_attrs : gmap string (list string)
}.

Inductive NetCall : Type :=
| Resolve (host : string)
| LdapConnect (url : string)
| LdapBind (dn password : string)
| LdapSearch (base filter : string) (attributes : list string).

Inductive PromptAnswer : Type :=
| PText (s : string)
| PDefault
| PConfirm (b : bool)
| PChoice (text : string).

Class MigrationExtern := {
  (** What the network answers, after the calls before. *)
  net_answer : list NetCall -> NetCall -> result string (list LdapEntry);
  (** [json::<graphql_client::Response<..>>]: the data and the errors *)
  decode_response : forall q, string -> option (option (ResponseData q) * list string);
  (** [HeaderValue::from_str] *)
  header_value : string -> option string
}.

Record Tool `{OpaqueExtern} (World : Type) := MkTool {
  t_answers : list PromptAnswer;
  t_net : list NetCall;
  t_http : list WireCall;
  t_world : World
}.
Arguments MkTool {_ _} _ _ _ _.
Arguments t_answers {_ _} _.
Arguments t_net {_ _} _.
Arguments t_http {_ _} _.
Arguments t_world {_ _} _.

(** ** Text *)

(** [s.trim_start_matches(p)]: as often as it is there. *)
Fixpoint trim_matches_loop (fuel : nat) (p s : string) : string :=
  match fuel with
  | O => s
  | S fuel =>
      if negb (String.eqb p "") && starts_with p s then trim_matches_loop fuel p (drop_bytes (String.length p) s) else s
  end.

Definition trim_start_matches (p s : string) : string := trim_matches_loop (String.length s) p s.

(** The rest of [s] from the first [p] on ([s.find(p)]). *)
Fixpoint from_first (p s : string) : option string :=
  if starts_with p s then Some s
  else match s with
       | EmptyString => None
       | String _ s' => from_first p s'
       end.

(** ** Users and groups of an LDAP server (ldap.rs) *)

(** [User]; the field [attributes] of its input is always [None]. *)
Record ToolUser := MkToolUser { tu_input : NewUser; tu_password : option string; tu_dn : string }.

Record LdapGroup := MkLdapGroup { lgr_name : string; lgr_members : list string }.

Section Entries.
Context `{OpaqueExtern}.

Definition required_user_attribute (e : LdapEntry) (attr : string) : result ToolError string :=
  match le_attrs e !! attr with
  | None => Err (ToolFailed ("Missing " +:+ attr +:+ " for user"))
  | Some [] => Err (ToolFailed ("Too many " +:+ attr +:+ "s"))
  | Some (v :: _) => Ok v
  end.

Definition optional_attribute (e : LdapEntry) (attr : string) : option string :=
  match le_attrs e !! attr with
  | Some (v :: _) => if String.eqb v "" then None else Some v
  | _ => None
  end.

(** [a.or_else(|| b)] *)
Definition or_else {A} (a b : option A) : option A :=
  match a with Some _ => a | None => b end.

Definition user_of_entry (e : LdapEntry) : result ToolError ToolUser :=
  let? id := tool_or_else (required_user_attribute e "uid")
    (tool_or_else (required_user_attribute e "sAMAccountName") (required_user_attribute e "userPrincipalName")) in
  let? email := map_err (fun _ => ToolFailed ("for user '" +:+ id +:+ "'"))
    (tool_or_else (required_user_attribute e "mail") (required_user_attribute e "rfc822mailbox")) in
  let last_name := or_else (optional_attribute e "sn") (optional_attribute e "surname") in
  let display_name := or_else (optional_attribute e "cn") (or_else (optional_attribute e "commonName")
    (or_else (optional_attribute e "name") (optional_attribute e "displayName"))) in
  let first_name := optional_attribute e "givenName" in
  let avatar := match or_else (le_attrs e !! "jpegPhoto") (le_bin_attrs e !! "jpegPhoto") with
                | Some (s :: _) => if String.eqb s "" then None else Some s
                | _ => None
                end in
  let password := or_else (optional_attribute e "userPassword") (optional_attribute e "password") in
  Ok (MkToolUser (MkNewUser id (Some email) display_name first_name last_name (base64_encode <$> avatar))
        password (le_dn e)).

(** The first value is unwrapped: an attribute without values panics. *)
Definition required_group_attribute (e : LdapEntry) (attr : string) : result ToolError string :=
  match le_attrs e !! attr with
  | None => Err (ToolFailed ("Missing " +:+ attr +:+ " for user"))
  | Some (_ :: _ :: _) => Err (ToolFailed ("Too many " +:+ attr +:+ "s"))
  | Some [v] => Ok v
  | Some [] => Err (ToolPanicked "unwrap on None")
  end.

Definition group_of_entry (e : LdapEntry) : result ToolError LdapGroup :=
  let? name := tool_or_else (required_group_attribute e "cn") (tool_or_else (required_group_attribute e "commonName")
    (tool_or_else (required_group_attribute e "displayName") (required_group_attribute e "name"))) in
  let members := from_option id [] (or_else (le_attrs e !! "member") (le_attrs e !! "uniqueMember")) in
  Ok (MkLdapGroup name members).
End Entries.

Inductive OuType : Type := OuUser | OuGroup.

Definition ou_matches (t : OuType) (dn : string) : bool :=
  match t with
  | OuUser => contains_str "user" dn || contains_str "people" dn || contains_str "person" dn
  | OuGroup => contains_str "group" dn
  end.

(** The last unit that looks like one of users, or of groups. *)
Definition detected_ou (t : OuType) (dns : list string) : option string :=
  fold_left (fun detected dn => if ou_matches t dn then Some dn else detected) dns None.

(** The unit asked for, completed with the domain. *)
Definition complete_ou (answer domain : string) : string :=
  if ends_with domain answer then answer
  else (if String.eqb answer "" then "" else answer +:+ ",") +:+ domain.

(** ** The operations of the tool *)

Section Operations.
Context `{OpaqueExtern, MigrationExtern} {World : Type}.
Context (http : WireCall -> io World string WireAnswer).

Notation tool A := (io (Tool World) ToolError A).

Definition failed {A} (msg : string) : tool A := io_fail (ToolFailed msg).
Definition panicked {A} (msg : string) : tool A := io_fail (ToolPanicked msg).

(** *** Questions *)

Definition take_answer : tool PromptAnswer := fun t =>
  match t_answers t with
  | [] => (Err (ToolFailed "prompt"), t)
  | a :: rest => (Ok a, MkTool rest (t_net t) (t_http t) (t_world t))
  end.

(** [prompt_one] of an input with a validation; the default, if there is one, is taken as
    it is. *)
Fixpoint ask_text_loop (fuel : nat) (default : option string) (validate : string -> tool (result string unit))
  : tool string :=
  match fuel with
  | O => failed "prompt"
  | S fuel =>
      let! a := take_answer in
      let typed s := let! v := validate s in
        if is_ok v then io_ret s else ask_text_loop fuel default validate in
      match a, default with
      | PText s, _ => typed s
      | PDefault, Some d => io_ret d
      | PDefault, None => typed ""
      | _, _ => failed "prompt"
      end
  end.

Definition ask_text (default : option string) (validate : string -> tool (result string unit)) : tool string :=
  fun t => ask_text_loop (S (length (t_answers t))) default validate t.

(** A question whose default is yes. *)
Definition ask_generic_confirmation : tool bool :=
  let! a := take_answer in
  match a with
  | PConfirm b => io_ret b
  | PDefault => io_ret true
  | _ => failed "prompt"
  end.

Definition ask_choice : tool string :=
  let! a := take_answer in
  match a with
  | PChoice text => io_ret text
  | _ => failed "prompt"
  end.

(** *** The network *)

Definition net (c : NetCall) : tool (result string (list LdapEntry)) := fun t =>
  (Ok (net_answer (t_net t) c), MkTool (t_answers t) (t_net t ++ [c]) (t_http t) (t_world t)).

Definition net_ok (c : NetCall) : tool (list LdapEntry) :=
  let! r := net c in io_lift (map_err ToolFailed r).

Definition to_socket_addrs (host : string) : tool bool := let! r := net (Resolve host) in io_ret (is_ok r).

Definition post (c : WireCall) : tool WireAnswer := fun t =>
  let '(r, w) := http c (t_world t) in
  (map_err ToolFailed r, MkTool (t_answers t) (t_net t) (t_http t ++ [c]) w).

(** *** LDAP (ldap.rs) *)

Fixpoint check_host_exists (url : string) (protocol_and_port : list (string * Z)) : tool (result string (option string)) :=
  match protocol_and_port with
  | [] => io_ret (Ok None)
  | (protocol, port) :: rest =>
      if starts_with protocol url then
        let trimmed_url := trim_start_matches protocol url in
        let! found := to_socket_addrs trimmed_url in
        if (found : bool) then io_ret (Ok (Some url))
        else
          let new_url := trimmed_url +:+ ":" +:+ int_to_string port in
          let! found := to_socket_addrs new_url in
          if (found : bool) then io_ret (Ok (Some (protocol +:+ new_url)))
          else io_ret (Err ("Could not resolve host: '" +:+ trimmed_url +:+ "'"))
      else check_host_exists url rest
  end.

Definition ldap_protocols : list (string * Z) := [("ldap://", 389%Z); ("ldaps://", 636%Z)].

Definition validate_ldap_url (url : string) : tool (result string unit) :=
  let! r := check_host_exists url ldap_protocols in
  match r with
  | Err e => io_ret (Err e)
  | Ok None => io_ret (Err "LDAP URL should start with 'ldap://' or 'ldaps://'")
  | Ok (Some url) =>
      let! connected := net (LdapConnect url) in
      io_ret (map_err (fun e => "Could not connect to LDAP server: " +:+ e) (map_ok (fun _ => tt) connected))
  end.

(** [check_host_exists(..).unwrap().unwrap()] *)
Definition existing_host (url : string) (protocols : list (string * Z)) : tool string :=
  let! r := check_host_exists url protocols in
  match r with
  | Ok (Some url) => io_ret url
  | _ => panicked "unwrap"
  end.

Definition get_ldap_url : tool string :=
  let! answer := ask_text None validate_ldap_url in
  existing_host answer ldap_protocols.

Definition validate_bind_dn (dn : string) : tool (result string unit) :=
  io_ret (if contains_char "," dn && contains_char "=" dn then Ok tt
          else Err "Invalid bind DN, expected something like 'cn=admin,dc=example,dc=com'").

Definition validate_not_empty (password : string) : tool (result string unit) :=
  io_ret (if String.eqb password "" then Err "Empty password" else Ok tt).

(** It asks again as long as the bind is refused. *)
Fixpoint bind_ldap_loop (fuel : nat) : tool string :=
  match fuel with
  | O => failed "prompt"
  | S fuel =>
      let! binddn := ask_text None validate_bind_dn in
      let! password := ask_text None validate_not_empty in
      let! bound := net (LdapBind binddn password) in
      if is_ok bound then io_ret binddn else bind_ldap_loop fuel
  end.

Definition bind_ldap : tool string := fun t => bind_ldap_loop (S (length (t_answers t))) t.

(** The domain: what follows the comma before the first [dc=]. *)
Definition domain_of_bind_dn (bind_dn : string) : result ToolError string :=
  match from_first ",dc=" bind_dn with
  | None => Err (ToolPanicked "Could not find domain?!")
  | Some rest => Ok (drop_bytes 1 rest)
  end.

(** The connection, as the domain the searches are under. *)
Definition get_ldap_connection : tool string :=
  let! url := get_ldap_url in
  let! _ := net_ok (LdapConnect url) in
  let! bind_dn := bind_ldap in
  io_lift (domain_of_bind_dn bind_dn).

Definition detect_ou (domain : string) (for_type : OuType) : tool (option string) :=
  let! ous := net_ok (LdapSearch domain "(objectClass=organizationalUnit)" ["dn"]) in
  io_ret (detected_ou for_type (map le_dn ous)).

Definition validate_ou (domain : string) (for_type : OuType) (dn : string) : tool (result string unit) :=
  let example := match for_type with OuUser => "ou=people," | OuGroup => "ou=groups," end in
  io_ret (if contains_char "=" dn then Ok tt
          else Err ("Invalid bind DN, expected something like '" +:+ example +:+ domain +:+ "'")).

(** Where the entries are, asked for with the detected unit as the default. *)
Definition ask_ou (domain : string) (for_type : OuType) : tool string :=
  let! maybe_ou := detect_ou domain for_type in
  let! answer := ask_text (Some (from_option id "" maybe_ou)) (validate_ou domain for_type) in
  io_ret (complete_ou answer domain).

Definition user_filter : string :=
  "(|(objectClass=inetOrgPerson)(objectClass=person)(objectClass=mailAccount)(objectClass=posixAccount)(objectClass=user)(objectClass=organizationalPerson))".

Definition user_search_attributes : list string :=
  ["uid"; "sAMAccountName"; "userPrincipalName"; "mail"; "rfc822mailbox"; "givenName"; "sn"; "surname"; "cn";
   "commonName"; "displayName"; "name"; "userPassword"].

Definition get_users (domain : string) : tool (list ToolUser) :=
  let! user_ou := ask_ou domain OuUser in
  let! users := net_ok (LdapSearch user_ou user_filter user_search_attributes) in
  io_lift (collect (map user_of_entry users)).

Definition group_filter : string :=
  "(|(objectClass=group)(objectClass=groupOfNames)(objectClass=groupOfUniqueNames))".

Definition group_search_attributes : list string :=
  ["cn"; "commonName"; "displayName"; "name"; "member"; "uniqueMember"].

Definition get_groups (domain : string) : tool (list LdapGroup) :=
  let! group_ou := ask_ou domain OuGroup in
  let! groups := net_ok (LdapSearch group_ou group_filter group_search_attributes) in
  io_lift (collect (map group_of_entry groups)).
End Operations.

(** ** The GraphQL API (lldap.rs) *)

Record GraphQLClient := MkGraphQLClient { gc_url : string; gc_token : string }.

(** The names the maps of the tool find: the last entry of a name counts. *)
Definition map_of {A} (l : list (string * A)) : gmap string A :=
  fold_left (fun m kv => <[fst kv := snd kv]> m) l ∅.

Section Lldap.
Context `{Extern, OpaqueExtern, MigrationExtern} {World : Type}.
Context (http : WireCall -> io World string WireAnswer) (coins : nat -> Coins).

Notation tool A := (io (Tool World) ToolError A).

Definition GraphQLClient_new (url auth_token : string) : result ToolError GraphQLClient :=
  let? _ := ok_or (header_value ("Bearer " +:+ auth_token)) (ToolFailed "invalid header value") in
  Ok (MkGraphQLClient (url +:+ "/api/graphql") auth_token).

Definition graphql_post (client : GraphQLClient) (q : GqlQuery) : tool (ResponseData q) :=
  let! answer := tool_context "while sending a request to the LLDAP server"
    (post http (MkWireCall (gc_url client) (Some (gc_token client)) (WGraphql q))) in
  if (400 <=? wa_status answer)%Z && (wa_status answer <=? 599)%Z then failed "error from an LLDAP response"
  else
    let data := match wa_reply answer with
                | RText text => mbind (M := option) fst (decode_response q text)
                | _ => None
                end in
    io_lift (ok_or data (ToolFailed "GraphQL error from an LLDAP response")).

(** The second request of the login carries the message of the first. *)
Definition try_login (lldap_server username password : string) : tool string :=
  let! start := io_lift (map_err (fun _ => ToolFailed "Could not initialize login")
    (client_start_login password (coins 0))) in
  let req := MkClientLoginStartRequest (UserId_new username) (snd start) in
  let! response := tool_context "while trying to login to LLDAP"
    (post http (MkWireCall (lldap_server +:+ "/auth/opaque/login/start") None (WLoginStart req))) in
  if negb (200 <=? wa_status response)%Z || negb (wa_status response <=? 299)%Z then
    failed ("Failed to start logging in to LLDAP: " +:+ int_to_string (wa_status response))
  else
    let! login_start_response := match wa_reply response with
                                 | RLoginStart r => io_ret r
                                 | _ => failed "invalid JSON"
                                 end in
    let! _login_finish := io_lift (map_err (fun '(ProtocolError e) => ToolFailed e)
      (client_finish_login (fst start) password (lr_credential_response login_start_response) (coins 1))) in
    let! response := post http (MkWireCall (lldap_server +:+ "/auth/opaque/login/finish") None (WLoginStart req)) in
    if negb (200 <=? wa_status response)%Z || negb (wa_status response <=? 299)%Z then
      failed ("Failed to finish logging in to LLDAP: " +:+ int_to_string (wa_status response))
    else
      match wa_reply response with
      | RLogin token _ => io_ret token
      | _ => failed "Could not parse response"
      end.

(** It asks again as long as the login fails. *)
Fixpoint login_loop (fuel : nat) (lldap_server : string) : tool string :=
  match fuel with
  | O => failed "prompt"
  | S fuel =>
      let! username := ask_text (Some "admin") (fun _ => io_ret (Ok tt)) in
      let! password := ask_text None validate_not_empty in
      let! r := io_try (E' := ToolError) (try_login lldap_server username password) in
      match r with
      | Ok token => io_ret token
      | Err (ToolPanicked p) => panicked p
      | Err (ToolFailed _) => login_loop fuel lldap_server
      end
  end.

Definition get_lldap_user_and_password (lldap_server : string) : tool string := fun t =>
  login_loop (S (length (t_answers t))) lldap_server t.

Definition http_protocols : list (string * Z) := [("http://", 17170%Z); ("https://", 17170%Z)].

Definition validate_lldap_url (url : string) : tool (result string unit) :=
  let! r := check_host_exists url http_protocols in
  match r with
  | Err e => io_ret (Err e)
  | Ok None => io_ret (Err "Could not resolve host (make sure it starts with 'http://' or 'https://')")
  | Ok (Some url) =>
      let! response := io_try (E' := ToolError) (post http (MkWireCall (url +:+ "/api/graphql") None WEmpty)) in
      match response with
      | Ok response =>
          io_ret (if Z.eqb (wa_status response) 401 then Ok tt
                  else Err "Host doesn't seem to be an LLDAP server")
      | Err _ => io_ret (Err "Host did not answer")
      end
  end.

Definition get_lldap_server : tool string :=
  let! answer := ask_text None validate_lldap_url in
  existing_host answer http_protocols.

Definition get_lldap_client : tool GraphQLClient :=
  let! lldap_server := get_lldap_server in
  let! token := get_lldap_user_and_password lldap_server in
  io_lift (GraphQLClient_new lldap_server token).

Definition get_lldap_users (client : GraphQLClient) : tool (list string) := graphql_post client ListUsers.

Definition get_lldap_groups (client : GraphQLClient) : tool (list LldapGroup) := graphql_post client ListGroups.

(** The loop around one insertion: what it answered, or [None] if it is skipped, and
    whether every later error is skipped. *)
Fixpoint insert_loop {A} (fuel : nat) (insert : tool A) (skip_all : bool) : tool (option A * bool) :=
  match fuel with
  | O => failed "prompt"
  | S fuel =>
      let! r := io_try (E' := ToolError) insert in
      match r with
      | Ok a => io_ret (Some a, skip_all)
      | Err e =>
          if skip_all then io_ret (None, skip_all)
          else
            let! choice := ask_choice in
            if String.eqb choice "Skip" then io_ret (None, skip_all)
            else if String.eqb choice "Retry" then insert_loop fuel insert skip_all
            else if String.eqb choice "Skip all" then io_ret (None, true)
            else if String.eqb choice "Abort" then io_fail e
            else panicked "unreachable"
      end
  end.

Definition insert_one {A} (insert : tool A) (skip_all : bool) : tool (option A * bool) := fun t =>
  insert_loop (S (length (t_answers t))) insert skip_all t.

Definition create_user (client : GraphQLClient) (u : ToolUser) : tool string :=
  tool_context ("while creating user '" +:+ nu_id (tu_input u) +:+ "'") (graphql_post client (CreateUser (tu_input u))).

(** The users the server has afterwards. *)
Fixpoint insert_users (users : list ToolUser) (existing_users : list string) (client : GraphQLClient) (skip_all : bool)
  : tool (list string) :=
  match users with
  | [] => io_ret existing_users
  | u :: users =>
      let! r := insert_one (create_user client u) skip_all in
      insert_users users (existing_users ++ option_list (fst r)) client (snd r)
  end.

Definition insert_users_into_lldap (users : list ToolUser) (existing_users : list string) (client : GraphQLClient)
  : tool (list string) := insert_users users existing_users client false.

Definition create_group (client : GraphQLClient) (name : string) : tool Z :=
  tool_context ("while creating group '" +:+ name +:+ "'") (graphql_post client (CreateGroup name)).

Fixpoint insert_groups (groups : list LdapGroup) (lldap_groups : list LldapGroup) (client : GraphQLClient)
    (skip_all : bool) : tool (list LldapGroup) :=
  match groups with
  | [] => io_ret lldap_groups
  | g :: groups =>
      let! r := insert_one (create_group client (lgr_name g)) skip_all in
      insert_groups groups (lldap_groups ++ option_list ((fun id => MkLldapGroup id (lgr_name g) []) <$> fst r))
        client (snd r)
  end.

(** The groups whose name is new. *)
Definition new_groups (groups : list LdapGroup) (lldap_groups : list LldapGroup) : list LdapGroup :=
  List.filter (fun g => negb (existsb (String.eqb (lgr_name g)) (map lg_display_name lldap_groups))) groups.

Definition insert_groups_into_lldap (groups : list LdapGroup) (lldap_groups : list LldapGroup) (client : GraphQLClient)
  : tool (list LldapGroup) := insert_groups (new_groups groups lldap_groups) lldap_groups client false.
End Lldap.

(** ** Memberships *)

Section Memberships.
Context `{Extern, OpaqueExtern, MigrationExtern} {World : Type}.
Context (http : WireCall -> io World string WireAnswer) (coins : nat -> Coins) (client : GraphQLClient).

Notation tool A := (io (Tool World) ToolError A).

(** Which errors are skipped: those of this group, or all. *)
Record Skips := MkSkips { skip_group : bool; skip_all : bool }.

Definition add_to_group (user : string) (group : LldapGroup) (group_name : string) : tool bool :=
  tool_context ("while adding user '" +:+ user +:+ "' to group '" +:+ group_name +:+ "'")
    (graphql_post http client (AddUserToGroup user (lg_id group))).

Fixpoint membership_loop (fuel : nat) (add : tool bool) (sk : Skips) : tool Skips :=
  match fuel with
  | O => failed "prompt"
  | S fuel =>
      let! r := io_try (E' := ToolError) add in
      match r with
      | Ok _ => io_ret sk
      | Err e =>
          if skip_all sk || skip_group sk then io_ret sk
          else
            let! choice := ask_choice in
            if String.eqb choice "Skip" then io_ret sk
            else if String.eqb choice "Retry" then membership_loop fuel add sk
            else if String.eqb choice "Skip group" then io_ret (MkSkips true (skip_all sk))
            else if String.eqb choice "Skip all" then io_ret (MkSkips (skip_group sk) true)
            else if String.eqb choice "Abort" then io_fail e
            else panicked "unreachable"
      end
  end.

Definition membership_insertion (add : tool bool) (sk : Skips) : tool Skips := fun t =>
  membership_loop (S (length (t_answers t))) add sk t.

(** The identifier a member is added under: the LDAP user with that DN, who is in the
    directory and not yet in the group. *)
Definition member_to_add (dn_resolver : gmap string string) (existing_users : list string) (group : LldapGroup)
    (member : string) : option string :=
  match dn_resolver !! member with
  | None => None
  | Some user =>
      if existsb (String.eqb user) (lg_users group) || negb (existsb (String.eqb user) existing_users)
      then None else Some user
  end.

Fixpoint insert_members (dn_resolver : gmap string string) (existing_users : list string) (group : LldapGroup)
    (group_name : string) (members : list string) (sk : Skips) : tool Skips :=
  match members with
  | [] => io_ret sk
  | m :: members =>
      let! sk := match member_to_add dn_resolver existing_users group m with
                 | None => io_ret sk
                 | Some user => membership_insertion (add_to_group user group group_name) sk
                 end in
      insert_members dn_resolver existing_users group group_name members sk
  end.

Fixpoint insert_all_members (dn_resolver : gmap string string) (existing_users : list string)
    (existing_groups : gmap string LldapGroup) (groups : list LdapGroup) (skip : bool) : tool unit :=
  match groups with
  | [] => io_ret tt
  | g :: groups =>
      match existing_groups !! lgr_name g with
      | None => insert_all_members dn_resolver existing_users existing_groups groups skip
      | Some group =>
          let! sk := insert_members dn_resolver existing_users group (lgr_name g) (lgr_members g) (MkSkips false skip) in
          insert_all_members dn_resolver existing_users existing_groups groups (skip_all sk)
      end
  end.

Definition dn_resolver_of (ldap_users : list ToolUser) : gmap string string :=
  map_of (map (fun u => (tu_dn u, nu_id (tu_input u))) ldap_users).

Definition groups_by_name (groups : list LldapGroup) : gmap string LldapGroup :=
  map_of (map (fun g => (lg_display_name g, g)) groups).

Definition insert_group_memberships_into_lldap (ldap_users : list ToolUser) (ldap_groups : list LdapGroup)
    (existing_users : list string) (existing_groups : list LldapGroup) : tool unit :=
  insert_all_members (dn_resolver_of ldap_users) existing_users (groups_by_name existing_groups) ldap_groups false.

(** ** The program (main.rs) *)

(** The users to add, if there are some and the operator wants to. *)
Definition get_users_to_add (users : list ToolUser) (existing_users : list string) : tool (option (list ToolUser)) :=
  let input_users := List.filter (fun u => negb (existsb (String.eqb (nu_id (tu_input u))) existing_users)) users in
  match input_users with
  | [] => io_ret None
  | _ => let! proceed := ask_generic_confirmation in io_ret (if (proceed : bool) then Some input_users else None)
  end.

Definition should_insert_groups (input_groups : list LdapGroup) (existing_groups : list LldapGroup) : tool bool :=
  match new_groups input_groups existing_groups with
  | [] => io_ret false
  | _ => ask_generic_confirmation
  end.

(** The LDAP users and those of the directory, if they were imported. *)
Definition migrate_users (domain : string) : tool (option (list ToolUser * list string)) :=
  let! import := ask_generic_confirmation in
  if (import : bool) then
    let! existing_users := get_lldap_users http client in
    let! users := get_users domain in
    let! to_add := get_users_to_add users existing_users in
    let! existing_users := match to_add with
                           | Some users => insert_users_into_lldap http users existing_users client
                           | None => io_ret existing_users
                           end in
    io_ret (Some (users, existing_users))
  else io_ret None.

Definition migrate_groups (domain : string) : tool (option (list LdapGroup * list LldapGroup)) :=
  let! import := ask_generic_confirmation in
  if (import : bool) then
    let! existing_groups := get_lldap_groups http client in
    let! ldap_groups := get_groups domain in
    let! insert := should_insert_groups ldap_groups existing_groups in
    let! existing_groups := if (insert : bool) then insert_groups_into_lldap http ldap_groups existing_groups client
                            else io_ret existing_groups in
    io_ret (Some (ldap_groups, existing_groups))
  else io_ret None.

(** A list that was not read before is read now. *)
Definition given_or {A} (given : option A) (read : tool A) : tool A :=
  match given with Some a => io_ret a | None => read end.

Definition migrate_memberships (user_list : option (list ToolUser * list string))
    (group_list : option (list LdapGroup * list LldapGroup)) (domain : string) : tool unit :=
  let! ldap_users := given_or (fst <$> user_list) (get_users domain) in
  let! ldap_groups := given_or (fst <$> group_list) (get_groups domain) in
  let! existing_groups := given_or (snd <$> group_list) (get_lldap_groups http client) in
  let! existing_users := given_or (snd <$> user_list) (get_lldap_users http client) in
  insert_group_memberships_into_lldap ldap_users ldap_groups existing_users existing_groups.
End Memberships.

Section Program.
Context `{Extern, OpaqueExtern, MigrationExtern} {World : Type}.
Context (http : WireCall -> io World string WireAnswer) (coins : nat -> Coins).

Definition migration_main : io (Tool World) ToolError unit :=
  let! ready := ask_generic_confirmation in
  if negb ready then io_ret tt
  else
    let! domain := get_ldap_connection in
    let! client := get_lldap_client http coins in
    let! user_list := migrate_users http client domain in
    let! group_list := migrate_groups http client domain in
    let! memberships := ask_generic_confirmation in
    if (memberships : bool) then migrate_memberships http client user_list group_list domain else io_ret tt.
End Program.

(** ** The fuel is enough *)

Lemma io_bind_ext {S E A B} (m : io S E A) (k k' : A -> io S E B) s :
  (forall a s1, m s = (Ok a, s1) -> k a s1 = k' a s1) -> io_bind m k s = io_bind m k' s.
Proof. intros Hk. unfold io_bind. destruct (m s) as [[a|e] s1]; [by apply Hk|done]. Qed.

(** Every round of a loop takes an answer, or is the last. *)
Section Fuel.
Context `{OpaqueExtern} {World : Type}.

Notation tool A := (io (Tool World) ToolError A).

(** What takes no answer. *)
Definition asks_nothing {A} (m : tool A) : Prop := preserves t_answers m.

Lemma take_answer_taken (t t' : Tool World) a :
  take_answer t = (Ok a, t') -> length (t_answers t) = S (length (t_answers t')).
Proof. unfold take_answer. destruct (t_answers t) eqn:E; intros [= <- <-]. done. Qed.

Lemma choice_taken (t t' : Tool World) a :
  ask_choice t = (Ok a, t') -> length (t_answers t) = S (length (t_answers t')).
Proof.
  intros (x & t1 & Hx%take_answer_taken & Hs)%io_bind_Ok. destruct x; try done. by apply io_ret_Ok in Hs as [_ <-].
Qed.

Lemma tried {A} (m : tool A) t r t1 :
  asks_nothing m -> io_try (E' := ToolError) m t = (Ok r, t1) -> t_answers t1 = t_answers t.
Proof. intros Hm. unfold io_try. specialize (Hm t). destruct (m t). by intros [= _ <-]. Qed.

Lemma ask_text_fuel default (validate : string -> tool (result string unit)) :
  (forall s, asks_nothing (validate s)) -> forall n n' t,
  (length (t_answers t) < n)%nat -> (length (t_answers t) < n')%nat ->
  ask_text_loop n default validate t = ask_text_loop n' default validate t.
Proof.
  intros Hv. induction n as [|n IH]; intros n' t Hn Hn'; [lia|]. destruct n' as [|n']; [lia|]. simpl.
  apply io_bind_ext. intros a t1 Ea%take_answer_taken.
  assert (forall s, (let! v := validate s in if is_ok v then io_ret s else ask_text_loop n default validate) t1 =
    (let! v := validate s in if is_ok v then io_ret s else ask_text_loop n' default validate) t1) as Ht.
  { intros s. apply io_bind_ext. intros v t2 Es. pose proof (Hv s t1) as Hs. rewrite Es in Hs. simpl in Hs.
    destruct (is_ok v); [done|]. apply IH; rewrite Hs; lia. }
  destruct a, default; try done; apply Ht.
Qed.

Lemma insert_loop_fuel {A} (insert : tool A) b :
  asks_nothing insert -> forall n n' t, (length (t_answers t) < n)%nat -> (length (t_answers t) < n')%nat ->
  insert_loop n insert b t = insert_loop n' insert b t.
Proof.
  intros Hi. induction n as [|n IH]; intros n' t Hn Hn'; [lia|]. destruct n' as [|n']; [lia|]. simpl.
  apply io_bind_ext. intros r t1 Ht%tried; [|done]. destruct r as [a|e]; [done|]. destruct b; [done|].
  apply io_bind_ext. intros c t2 Ec%choice_taken.
  destruct (String.eqb c "Skip"); [done|]. destruct (String.eqb c "Retry"); [|done].
  apply IH; rewrite <- Ht in *; lia.
Qed.

Lemma membership_loop_fuel (add : tool bool) sk :
  asks_nothing add -> forall n n' t, (length (t_answers t) < n)%nat -> (length (t_answers t) < n')%nat ->
  membership_loop n add sk t = membership_loop n' add sk t.
Proof.
  intros Hi. induction n as [|n IH]; intros n' t Hn Hn'; [lia|]. destruct n' as [|n']; [lia|]. simpl.
  apply io_bind_ext. intros r t1 Ht%tried; [|done]. destruct r as [a|e]; [done|]. destruct (_ || _); [done|].
  apply io_bind_ext. intros c t2 Ec%choice_taken.
  destruct (String.eqb c "Skip"); [done|]. destruct (String.eqb c "Retry"); [|done].
  apply IH; rewrite <- Ht in *; lia.
Qed.

Lemma ask_text_taken default (validate : string -> tool (result string unit)) t s t' :
  (forall s, asks_nothing (validate s)) ->
  ask_text default validate t = (Ok s, t') -> (length (t_answers t') < length (t_answers t))%nat.
Proof.
  intros Hv. unfold ask_text. generalize (S (length (t_answers t))) as n. intros n. revert t s t'.
  induction n as [|n IH]; intros t s t' Hs; simpl in Hs; [done|].
  apply io_bind_Ok in Hs as (a & t1 & Ea%take_answer_taken & Hs).
  assert (forall x, (let! v := validate x in if is_ok v then io_ret x else ask_text_loop n default validate) t1 =
    (Ok s, t') -> (length (t_answers t') <= length (t_answers t1))%nat) as Ht.
  { intros x (v & t2 & Hx & Hk)%io_bind_Ok. pose proof (Hv x t1) as Hp. rewrite Hx in Hp. simpl in Hp.
    destruct (is_ok v); [apply io_ret_Ok in Hk as [_ <-]; by rewrite Hp|]. apply IH in Hk. rewrite Hp in Hk. lia. }
  destruct a, default; try done; try (apply Ht in Hs; lia). apply io_ret_Ok in Hs as [_ <-]. lia.
Qed.
End Fuel.

Ltac asks_nothing_step :=
  match goal with
  | |- asks_nothing _ => unfold asks_nothing
  | |- preserves t_answers (net _) => by intros ?
  | |- preserves t_answers (failed _) => by intros ?
  | |- preserves t_answers (panicked _) => by intros ?
  | |- preserves t_answers (tool_context _ _) => apply preserves_map_err
  | |- preserves t_answers (match ?x with _ => _ end) => destruct x
  | |- preserves _ _ => preserves_step
  end.

Section Loops.
Context `{Extern, OpaqueExtern, MigrationExtern} {World : Type}.
Context (http : WireCall -> io World string WireAnswer) (coins : nat -> Coins).

Notation tool A := (io (Tool World) ToolError A).

Lemma asks_nothing_post c : asks_nothing (post http c).
Proof. intros t. unfold post. by destruct (http c (t_world t)). Qed.

Lemma asks_nothing_graphql client q : asks_nothing (graphql_post http client q).
Proof. unfold graphql_post. repeat asks_nothing_step; apply asks_nothing_post. Qed.

Lemma asks_nothing_login server username password : asks_nothing (try_login http coins server username password).
Proof. unfold try_login. cbv zeta. repeat asks_nothing_step; apply asks_nothing_post. Qed.

Lemma asks_nothing_check url protocols : asks_nothing (World := World) (check_host_exists url protocols).
Proof.
  induction protocols as [|[protocol port] rest IH]; simpl; unfold to_socket_addrs; repeat asks_nothing_step. exact IH.
Qed.

Lemma asks_nothing_valid :
  (forall s, asks_nothing (World := World) (validate_ldap_url s)) /\
  (forall s, asks_nothing (World := World) (validate_bind_dn s)) /\
  (forall s, asks_nothing (World := World) (validate_not_empty s)) /\
  (forall d o s, asks_nothing (World := World) (validate_ou d o s)) /\
  (forall s, asks_nothing (validate_lldap_url http s)).
Proof.
  unfold validate_ldap_url, validate_bind_dn, validate_not_empty, validate_ou, validate_lldap_url.
  split_and!; intros; cbv zeta; repeat asks_nothing_step;
    first [apply asks_nothing_check | apply asks_nothing_post].
Qed.

Lemma bind_ldap_fuel n n' (t : Tool World) :
  (length (t_answers t) < n)%nat -> (length (t_answers t) < n')%nat -> bind_ldap_loop n t = bind_ldap_loop n' t.
Proof.
  destruct asks_nothing_valid as (_ & Hd & He & _).
  revert n' t. induction n as [|n IH]; intros n' t Hn Hn'; [lia|]. destruct n' as [|n']; [lia|]. simpl.
  apply io_bind_ext. intros dn t1 L1%ask_text_taken; [|done].
  apply io_bind_ext. intros pw t2 L2%ask_text_taken; [|done].
  apply io_bind_ext. intros bound t3 L3. injection L3 as _ <-. destruct (is_ok bound); [done|].
  apply IH; simpl; lia.
Qed.

Lemma login_fuel n n' server t :
  (length (t_answers t) < n)%nat -> (length (t_answers t) < n')%nat ->
  login_loop http coins n server t = login_loop http coins n' server t.
Proof.
  destruct asks_nothing_valid as (_ & _ & He & _).
  revert n' t. induction n as [|n IH]; intros n' t Hn Hn'; [lia|]. destruct n' as [|n']; [lia|]. simpl.
  apply io_bind_ext. intros username t1 L1%ask_text_taken; [|by intros ? ?].
  apply io_bind_ext. intros pw t2 L2%ask_text_taken; [|done].
  apply io_bind_ext. intros r t3 Ht%tried; [|apply asks_nothing_login].
  destruct r as [|[]]; [done| |done]. apply IH; rewrite Ht; lia.
Qed.
End Loops.

(** ** The login *)

(** A call that neither finishes a login nor reaches the GraphQL API. *)
Definition idle_call `{OpaqueExtern} (c : WireCall) : Prop :=
  match wc_body c with
  | WLoginFinish _ | WGraphql _ => False
  | _ => True
  end.

(** A server that does not let in who sends the first message of a login as the second. *)
Definition unfinished_refused `{OpaqueExtern} {World} (http : WireCall -> io World string WireAnswer) : Prop :=
  forall server bearer r w answer w',
    http (MkWireCall (server +:+ "/auth/opaque/login/finish") bearer (WLoginStart r)) w = (Ok answer, w') ->
    (200 <=? wa_status answer)%Z && (wa_status answer <=? 299)%Z = false.

Section Login.
Context `{Extern, OpaqueExtern, MigrationExtern} {World : Type}.
Context (http : WireCall -> io World string WireAnswer) (coins : nat -> Coins).

Notation tool A := (io (Tool World) ToolError A).

(** The HTTP calls of [m] are idle ones. *)
Definition idle {A} (m : tool A) : Prop :=
  forall t, exists new, t_http (snd (m t)) = t_http t ++ new /\ Forall idle_call new.

Lemma idle_same {A} (m : tool A) : preserves t_http m -> idle m.
Proof. intros Hm t. exists []. by rewrite (Hm t), app_nil_r. Qed.

Lemma idle_bind {A B} (m : tool A) (k : A -> tool B) : idle m -> (forall a, idle (k a)) -> idle (io_bind m k).
Proof.
  intros Hm Hk t. unfold io_bind. destruct (Hm t) as (new & Hn & Hi). destruct (m t) as [[a|e] t1]; [|by exists new].
  destruct (Hk a t1) as (new' & Hn' & Hi'). exists (new ++ new'). simpl in Hn.
  rewrite Hn', Hn, app_assoc. split; [done|]. by apply Forall_app.
Qed.

Lemma idle_tried {A} (m : tool A) : idle m -> idle (io_try (E' := ToolError) m).
Proof. intros Hm t. unfold io_try. specialize (Hm t). by destruct (m t). Qed.

Lemma idle_map_err {A} f (m : tool A) : idle m -> idle (io_map_err f m).
Proof. intros Hm t. unfold io_map_err. specialize (Hm t). by destruct (m t). Qed.

Lemma idle_post c : idle_call c -> idle (post http c).
Proof. intros Hc t. unfold post. exists [c]. destruct (http c (t_world t)). simpl. by rewrite Forall_singleton. Qed.

Lemma idle_ask default (validate : string -> tool (result string unit)) :
  (forall s, idle (validate s)) -> idle (ask_text default validate).
Proof.
  intros Hv t. unfold ask_text. generalize (S (length (t_answers t))) as n. intros n. revert t.
  induction n as [|n IH]; [by apply (idle_same (failed "prompt"))|].
  simpl. change (idle (let! a := take_answer in
    match a, default with
    | PText s, _ => let! v := validate s in if is_ok v then io_ret s else ask_text_loop n default validate
    | PDefault, Some d => io_ret d
    | PDefault, None => let! v := validate "" in if is_ok v then io_ret "" else ask_text_loop n default validate
    | _, _ => failed "prompt"
    end)).
  apply idle_bind.
  - apply idle_same. intros t. unfold take_answer. by destruct (t_answers t).
  - assert (forall s, idle (let! v := validate s in if is_ok v then io_ret s else ask_text_loop n default validate)) as Ht.
    { intros s. apply idle_bind; [done|]. intros v. destruct (is_ok v); [by apply idle_same|exact IH]. }
    intros a. destruct a, default; try apply Ht; by apply idle_same.
Qed.

Lemma idle_login server username password : idle (try_login http coins server username password).
Proof.
  unfold try_login. cbv zeta. apply idle_bind; [by apply idle_same|]. intros start.
  apply idle_bind; [by apply idle_map_err, idle_post|]. intros response.
  destruct (_ || _); [by apply idle_same|]. apply idle_bind; [by destruct (wa_reply response); apply idle_same|].
  intros r. apply idle_bind; [by apply idle_same|]. intros _. apply idle_bind; [by apply idle_post|].
  intros response'. destruct (_ || _); [by apply idle_same|]. by destruct (wa_reply response'); apply idle_same.
Qed.

(** The login needs the second message. *)
Lemma try_login_fails server username password t token t' :
  unfinished_refused http -> try_login http coins server username password t <> (Ok token, t').
Proof.
  intros Hr Hs. unfold try_login in Hs. apply io_bind_Ok in Hs as (start & t1 & _ & Hs). cbv zeta in Hs.
  apply io_bind_Ok in Hs as (response & t2 & _ & Hs). destruct (_ || _) in Hs; [done|].
  apply io_bind_Ok in Hs as (r & t3 & _ & Hs). apply io_bind_Ok in Hs as (f & t4 & _ & Hs).
  apply io_bind_Ok in Hs as (answer & t5 & Hp & Hs). unfold post in Hp.
  destruct (http _ (t_world t4)) as [[a|e] w] eqn:Eh; [|done]. injection Hp as <- _.
  apply Hr in Eh. rewrite <- negb_andb, Eh in Hs. done.
Qed.

Lemma login_loop_fails n server t token t' :
  unfinished_refused http -> login_loop http coins n server t <> (Ok token, t').
Proof.
  intros Hr. revert t. induction n as [|n IH]; intros t Hs; simpl in Hs; [done|].
  apply io_bind_Ok in Hs as (u & t1 & _ & Hs). apply io_bind_Ok in Hs as (p & t2 & _ & Hs).
  apply io_bind_Ok in Hs as (r & t3 & Ht & Hs). unfold io_try in Ht.
  destruct (try_login http coins server u p t2) as [r' t4] eqn:Etry. injection Ht as <- <-.
  destruct r' as [tok|[e|e]]; [by eapply try_login_fails|by eapply IH|done].
Qed.

Ltac idle_step :=
  match goal with
  | |- idle (io_bind _ _) => apply idle_bind; [|intros ?]
  | |- idle (io_try _) => apply idle_tried
  | |- idle (tool_context _ _) => apply idle_map_err
  | |- idle (ask_text _ _) => apply idle_ask; intros ?
  | |- idle (net _) => by apply idle_same
  | |- idle (net_ok _) => unfold net_ok
  | |- idle (io_ret _) => by apply idle_same
  | |- idle (io_lift _) => by apply idle_same
  | |- idle (failed _) => by apply idle_same
  | |- idle (panicked _) => by apply idle_same
  | |- idle (io_fail _) => by apply idle_same
  | |- idle (match ?x with _ => _ end) => destruct x
  | |- idle (let _ := _ in _) => cbv zeta
  end.

Lemma idle_check url protocols : idle (check_host_exists url protocols).
Proof.
  induction protocols as [|[protocol port] rest IH]; simpl; unfold to_socket_addrs; repeat idle_step. exact IH.
Qed.

Lemma idle_existing url protocols : idle (existing_host url protocols).
Proof. unfold existing_host. repeat idle_step. apply idle_check. Qed.

Lemma idle_bind_ldap : idle bind_ldap.
Proof.
  intros t. unfold bind_ldap. generalize (S (length (t_answers t))) as n. intros n. revert t.
  induction n as [|n IH]; [by apply (idle_same (failed "prompt"))|].
  change (idle (bind_ldap_loop (S n))). simpl.
  unfold validate_bind_dn, validate_not_empty. repeat idle_step. exact IH.
Qed.

Lemma idle_connection : idle get_ldap_connection.
Proof.
  unfold get_ldap_connection, get_ldap_url, validate_ldap_url. repeat idle_step;
    auto using idle_check, idle_existing, idle_bind_ldap.
Qed.

Lemma idle_login_loop server : idle (get_lldap_user_and_password http coins server).
Proof.
  intros t. unfold get_lldap_user_and_password. generalize (S (length (t_answers t))) as n. intros n. revert t.
  induction n as [|n IH]; [by apply (idle_same (failed "prompt"))|].
  change (idle (login_loop http coins (S n) server)). simpl. unfold validate_not_empty.
  repeat idle_step; [apply idle_login|exact IH].
Qed.

Lemma idle_client : idle (get_lldap_client http coins).
Proof.
  unfold get_lldap_client, get_lldap_server, validate_lldap_url.
  repeat idle_step; auto using idle_check, idle_existing, idle_login_loop. by apply idle_post.
Qed.

Lemma no_client t client t' : unfinished_refused http -> get_lldap_client http coins t <> (Ok client, t').
Proof.
  intros Hr (server & t1 & _ & Hs)%io_bind_Ok. apply io_bind_Ok in Hs as (token & t2 & Hl & _).
  by eapply login_loop_fails.
Qed.
End Login.

(** C39: the tool sends the first message of the login also as the second.  Against a server
    that does not take it, whatever the operator answers and the networks do, no call
    finishes a login or reaches the GraphQL API, and the run only ends without an error
    when the operator is not ready to start: nothing is ever migrated. *)
Theorem migration_never_logs_in `{OpaqueExtern, MigrationExtern} {World : Type}
    (http : WireCall -> io World string WireAnswer) coins t :
  unfinished_refused http ->
  let '(r, t') := migration_main http coins t in
  (exists new, t_http t' = t_http t ++ new /\ Forall idle_call new) /\
  (r = Ok tt -> head (t_answers t) = Some (PConfirm false)).
Proof.
  intros Hr. destruct (migration_main http coins t) as [r t'] eqn:Em. unfold migration_main in Em.
  unfold io_bind at 1 in Em. destruct (ask_generic_confirmation t) as [[ready|e] t1] eqn:Ea.
  - assert (t_http t1 = t_http t /\ (ready = false -> head (t_answers t) = Some (PConfirm false))) as [Hh Hn].
    { unfold ask_generic_confirmation, io_bind, take_answer in Ea. destruct (t_answers t) as [|a l]; [done|].
      destruct a; try discriminate Ea; injection Ea as <- <-; (split; [done|]); [done|by intros ->]. }
    destruct ready; simpl in Em.
    + unfold io_bind at 1 in Em. destruct (idle_connection t1) as (new1 & Hc1 & Hi1).
      destruct (get_ldap_connection t1) as [[domain|e] t2]; simpl in Hc1; [|simplify_eq; split; [exists new1; by rewrite Hc1, Hh|done]].
      unfold io_bind at 1 in Em. destruct (idle_client http coins t2) as (new2 & Hc2 & Hi2).
      destruct (get_lldap_client http coins t2) as [[client|e] t3] eqn:Ec; [by apply no_client in Ec|].
      simplify_eq. simpl in Hc2. split; [|done]. exists (new1 ++ new2).
      rewrite Hc2, Hc1, Hh, app_assoc. split; [done|]. by apply Forall_app.
    + injection Em as <- <-. split; [|by intros _; apply Hn]. exists []. rewrite app_nil_r.
      split; [exact Hh|done].
  - simplify_eq. split; [|done]. exists []. rewrite app_nil_r. split; [|done].
    unfold ask_generic_confirmation, io_bind, take_answer in Ea. destruct (t_answers t) as [|a l]; [simpl in Ea; by simplify_eq|].
    destruct a; try discriminate Ea; by injection Ea as _ <-.
Qed.

(** The authentication service is such a server. *)
Section Refusal.
Context `{Extern, LdapExtern, SqlExtern, OpaqueExtern, TokenExtern, WebExtern}.

Lemma last_char_app (s : string) (a : ascii) (t : string) :
  last (String.list_ascii_of_string (s +:+ String a t)) = last (String.list_ascii_of_string (String a t)).
Proof.
  induction s as [|c s IH]; [done|]. change (String c s +:+ String a t) with (String c (s +:+ String a t)).
  cbn [String.list_ascii_of_string]. cbn [String.list_ascii_of_string] in IH. rewrite <- IH.
  by destruct s.
Qed.

Lemma auth_server_refuses setup config reset base : unfinished_refused (auth_server setup config reset base).
Proof.
  intros server bearer r w answer w' Hs. unfold auth_server, path_under in Hs. cbn [wc_url] in Hs.
  destruct (starts_with base _) eqn:Eb; [|done]. apply starts_with_iff in Eb as [path Hp].
  rewrite Hp, drop_bytes_app in Hs.
  assert (forall a p, path = String a p ->
    last (String.list_ascii_of_string (String a p)) = Some "h"%char) as Hlast.
  { intros a p ->. rewrite <- (last_char_app base a p), <- Hp. apply (last_char_app server "/" "auth/opaque/login/finish"). }
  destruct (auth_request path _) as [req|st] eqn:Er.
  - exfalso. unfold auth_request in Er. cbn [wc_body] in Er.
    repeat (case_match; try done);
      match goal with Hq : String.eqb _ _ = true |- _ => apply String.eqb_eq in Hq; specialize (Hlast _ _ Hq); done end.
  - simplify_eq. unfold auth_request in Er. cbn [wc_body] in Er. simpl.
    repeat (case_match; try done); by simplify_eq.
Qed.
End Refusal.

(** ** What is sent *)

(** [Resent xs sent answers]: each of [xs], in order, was sent once and then once for each
    time the operator chose to retry; [answers] are the choices made, for each of [xs] some
    retries and at most one other choice. *)
Inductive Resent {A} : list A -> list A -> list PromptAnswer -> Prop :=
| resent_nil : Resent [] [] []
| resent_cons x n decision xs sent answers :
    (length decision <= 1)%nat -> PChoice "Retry" ∉ decision -> Resent xs sent answers ->
    Resent (x :: xs) (repeat x (S n) ++ sent) (repeat (PChoice "Retry") n ++ decision ++ answers).

Lemma resent_app {A} (xs xs' sent sent' : list A) answers answers' :
  Resent xs sent answers -> Resent xs' sent' answers' -> Resent (xs ++ xs') (sent ++ sent') (answers ++ answers').
Proof.
  induction 1 as [|x n d xs sent answers Hd Hr _ IH]; [done|]. intros Hr'. rewrite <- !app_assoc.
  constructor; [done..|]. by apply IH.
Qed.

Section Sent.
Context `{Extern, OpaqueExtern, MigrationExtern} {World : Type}.
Context (http : WireCall -> io World string WireAnswer) (client : GraphQLClient).

Notation tool A := (io (Tool World) ToolError A).

Definition graphql_call (q : GqlQuery) : WireCall := MkWireCall (gc_url client) (Some (gc_token client)) (WGraphql q).

(** From [t] to [t'] each of [qs] was sent, in order, and again only on the operator's
    choices, which are the answers used up. *)
Definition sent_all (t t' : Tool World) (qs : list GqlQuery) : Prop :=
  exists sent used, Resent qs sent used /\ t_http t' = t_http t ++ map graphql_call sent /\
    t_answers t = used ++ t_answers t'.

Lemma sent_none (t : Tool World) : sent_all t t [].
Proof. exists [], []. split_and!; [constructor|by rewrite app_nil_r|done]. Qed.

Lemma sent_app t t1 t2 qs qs' : sent_all t t1 qs -> sent_all t1 t2 qs' -> sent_all t t2 (qs ++ qs').
Proof.
  intros (s1 & u1 & Hr1 & Hh1 & Ha1) (s2 & u2 & Hr2 & Hh2 & Ha2). exists (s1 ++ s2), (u1 ++ u2).
  split_and!; [by apply resent_app|by rewrite Hh2, Hh1, map_app, app_assoc|by rewrite Ha1, Ha2, app_assoc].
Qed.

(** One call was sent, and nothing answered. *)
Definition one_call (q : GqlQuery) (t t' : Tool World) : Prop :=
  t_http t' = t_http t ++ [graphql_call q] /\ t_answers t' = t_answers t.

Lemma graphql_post_sent q t r t' : graphql_post http client q t = (r, t') -> one_call q t t'.
Proof.
  unfold graphql_post, io_bind, tool_context, io_map_err, post, one_call.
  destruct (http _ (t_world t)) as [[a|e] w]; simpl; [|by intros [= _ <-]].
  destruct (_ && _); by intros [= _ <-].
Qed.

Lemma context_sent {A} msg (m : tool A) t r t' :
  tool_context msg m t = (r, t') -> exists r0, m t = (r0, t').
Proof. unfold tool_context, io_map_err. destruct (m t) as [r0 t1]. intros [= _ <-]. by exists r0. Qed.

Lemma choice_uses_one (t t' : Tool World) a :
  ask_choice t = (Ok a, t') -> t_http t' = t_http t /\ t_answers t = PChoice a :: t_answers t'.
Proof.
  intros (x & t1 & Hx & Hs)%io_bind_Ok. unfold take_answer in Hx. destruct (t_answers t) eqn:Ha; [done|].
  injection Hx as -> <-. destruct x; try done. by apply io_ret_Ok in Hs as [-> <-].
Qed.

Lemma sent_once q t t' : one_call q t t' -> sent_all t t' [q].
Proof.
  intros [Hh Ha]. exists [q], []. split_and!; [|done|done].
  apply (resent_cons q 0 [] [] [] []); [simpl; lia|set_solver|constructor].
Qed.

(** An insertion given up on another choice than to retry. *)
Lemma sent_decided q t t1 t2 c :
  one_call q t t1 -> t_http t2 = t_http t1 -> t_answers t1 = PChoice c :: t_answers t2 -> c <> "Retry" ->
  sent_all t t2 [q].
Proof.
  intros [Hh Ha] Hh2 Ha2 Hc. exists [q], [PChoice c]. split_and!; [|by rewrite Hh2|by rewrite <- Ha].
  apply (resent_cons q 0 [PChoice c] [] [] []); [simpl; lia| |constructor].
  rewrite list_elem_of_singleton. by intros [= <-].
Qed.

(** A retried insertion sends its call again. *)
Lemma once_more q t t1 t2 t3 :
  one_call q t t1 -> t_http t2 = t_http t1 -> t_answers t1 = PChoice "Retry" :: t_answers t2 ->
  sent_all t2 t3 [q] -> sent_all t t3 [q].
Proof.
  intros [Hh Ha] Hh2 Ha2 (sent & used & Hr & Hs & Hu).
  inversion Hr as [|x n d xs s0 a0 Hd Hnr Hn]; subst. inversion Hn; subst.
  exists (repeat q (S (S n)) ++ []), (repeat (PChoice "Retry") (S n) ++ d ++ []). split_and!.
  - constructor; [done..|constructor].
  - rewrite Hs, Hh2, Hh, <- app_assoc. done.
  - rewrite <- Ha, Ha2, Hu. done.
Qed.

(** The choices of the two loops. *)
Ltac choices Eadd Hch Hca Hs IH :=
  match type of Hs with
  | (if String.eqb ?c ?text then _ else _) _ = _ =>
      destruct (String.eqb_spec c text) as [->|?];
      [first [apply io_ret_Ok in Hs as [_ <-]; eapply sent_decided; eauto; discriminate
        | eapply once_more; eauto; by eapply IH | done]|choices Eadd Hch Hca Hs IH]
  | _ => done
  end.

Lemma membership_loop_sent q (add : tool bool) n sk t sk' t' :
  (forall t r t', add t = (r, t') -> one_call q t t') ->
  membership_loop n add sk t = (Ok sk', t') -> sent_all t t' [q].
Proof.
  intros Ha. revert t. induction n as [|n IH]; intros t Hs; simpl in Hs; [done|].
  apply io_bind_Ok in Hs as (r & t1 & Ht & Hs). unfold io_try in Ht.
  destruct (add t) as [r0 t2] eqn:Eadd. injection Ht as <- <-. apply Ha in Eadd.
  destruct r0 as [b|e]; [apply io_ret_Ok in Hs as [_ <-]; by apply sent_once|].
  destruct (_ || _); [apply io_ret_Ok in Hs as [_ <-]; by apply sent_once|].
  apply io_bind_Ok in Hs as (c & t3 & [Hch Hca]%choice_uses_one & Hs). choices Eadd Hch Hca Hs IH.
Qed.

Lemma insert_loop_sent {A} q (insert : tool A) n b t r t' :
  (forall t r t', insert t = (r, t') -> one_call q t t') ->
  insert_loop n insert b t = (Ok r, t') -> sent_all t t' [q].
Proof.
  intros Ha. revert t. induction n as [|n IH]; intros t Hs; simpl in Hs; [done|].
  apply io_bind_Ok in Hs as (r1 & t1 & Ht & Hs). unfold io_try in Ht.
  destruct (insert t) as [r0 t2] eqn:Eadd. injection Ht as <- <-. apply Ha in Eadd.
  destruct r0 as [a|e]; [apply io_ret_Ok in Hs as [_ <-]; by apply sent_once|].
  destruct b; [apply io_ret_Ok in Hs as [_ <-]; by apply sent_once|].
  apply io_bind_Ok in Hs as (c & t3 & [Hch Hca]%choice_uses_one & Hs). choices Eadd Hch Hca Hs IH.
Qed.

(** The users, in their order, each once and again only when retried; the list of the
    directory's users only grows. *)
Lemma insert_users_sent users existing b t existing' t' :
  insert_users http users existing client b t = (Ok existing', t') ->
  sent_all t t' (map (fun u => CreateUser (tu_input u)) users) /\ exists ids, existing' = existing ++ ids.
Proof.
  revert existing b t. induction users as [|u users IH]; intros existing b t Hs; simpl in Hs.
  - apply io_ret_Ok in Hs as [<- <-]. split; [apply sent_none|]. exists []. by rewrite app_nil_r.
  - apply io_bind_Ok in Hs as (r & t1 & Hi & Hs). apply IH in Hs as [Hs [ids ->]]. split.
    + apply (sent_app _ t1 _ [_]); [|done]. eapply insert_loop_sent, Hi.
      intros t2 r2 t3 (r0 & Hp)%context_sent. by eapply graphql_post_sent.
    + exists (option_list (fst r) ++ ids). by rewrite app_assoc.
Qed.

(** *** Memberships *)

Definition member_queries (dn_resolver : gmap string string) (existing_users : list string) (group : LldapGroup)
    (members : list string) : list GqlQuery :=
  (fun user => AddUserToGroup user (lg_id group)) <$>
    filter (fun user => user ∉ lg_users group /\ user ∈ existing_users) (omap (dn_resolver !!.) members).

Lemma existsb_elem_of (x : string) l : existsb (String.eqb x) l = bool_decide (x ∈ l).
Proof. apply eq_true_iff_eq. rewrite bool_decide_eq_true, existsb_exists. setoid_rewrite String.eqb_eq.
  rewrite list_elem_of_In. naive_solver. Qed.

Lemma member_queries_cons resolver users group m members :
  member_queries resolver users group (m :: members) =
  match member_to_add resolver users group m with
  | None => []
  | Some user => [AddUserToGroup user (lg_id group)]
  end ++ member_queries resolver users group members.
Proof.
  unfold member_queries, member_to_add. simpl. destruct (resolver !! m) as [user|]; [|done].
  rewrite !existsb_elem_of, filter_cons. repeat case_bool_decide; case_decide; simpl; naive_solver.
Qed.

(** The memberships to add: of the groups that are in the directory by name, the members
    that are found there and are not in the group yet. *)
Definition membership_queries (ldap_users : list ToolUser) (ldap_groups : list LdapGroup) (existing_users : list string)
    (existing_groups : list LldapGroup) : list GqlQuery :=
  concat (map (fun g => match groups_by_name existing_groups !! lgr_name g with
                        | None => []
                        | Some group => member_queries (dn_resolver_of ldap_users) existing_users group (lgr_members g)
                        end) ldap_groups).

Lemma insert_members_sent resolver users group name members sk t sk' t' :
  insert_members http client resolver users group name members sk t = (Ok sk', t') ->
  sent_all t t' (member_queries resolver users group members).
Proof.
  revert sk t. induction members as [|m members IH]; intros sk t Hs; simpl in Hs.
  - apply io_ret_Ok in Hs as [_ <-]. apply sent_none.
  - apply io_bind_Ok in Hs as (sk1 & t1 & Hm & Hs). apply IH in Hs. rewrite member_queries_cons.
    destruct (member_to_add resolver users group m) as [user|].
    + apply (sent_app _ t1 _ [_]); [|done]. eapply membership_loop_sent, Hm.
      intros t2 r t3 (r0 & Hp)%context_sent. by eapply graphql_post_sent.
    + apply io_ret_Ok in Hm as [_ <-]. done.
Qed.
End Sent.

(** C34: when the memberships were inserted, the tool has asked the server for exactly these,
    in the order of the groups and their members: for each LDAP group that the directory
    has under the same name, and each member whose DN is that of an LDAP user the directory
    has and the group has not, the addition of that user; each once, and once more for each
    time the operator answered "Retry" for it, the answers it used up being those retries
    and at most one other choice for each addition. *)
Theorem memberships_sent_exactly `{OpaqueExtern, MigrationExtern} {World : Type}
    (http : WireCall -> io World string WireAnswer) client ldap_users ldap_groups existing_users existing_groups t t' :
  insert_group_memberships_into_lldap http client ldap_users ldap_groups existing_users existing_groups t = (Ok tt, t') ->
  exists sent used,
    Resent (membership_queries ldap_users ldap_groups existing_users existing_groups) sent used /\
    t_http t' = t_http t ++ map (graphql_call client) sent /\ t_answers t = used ++ t_answers t'.
Proof.
  unfold insert_group_memberships_into_lldap, membership_queries. generalize false as skip.
  fold (sent_all client t t' (concat (map (fun g => match groups_by_name existing_groups !! lgr_name g with
    | None => [] | Some group => member_queries (dn_resolver_of ldap_users) existing_users group (lgr_members g)
    end) ldap_groups))).
  revert t. induction ldap_groups as [|g groups IH]; intros t skip Hs; simpl in *.
  - apply io_ret_Ok in Hs as [_ <-]. apply sent_none.
  - destruct (groups_by_name existing_groups !! lgr_name g) as [group|]; [|by eapply IH].
    apply io_bind_Ok in Hs as (sk & t1 & Hm%insert_members_sent & Hs). eapply sent_app; [exact Hm|by eapply IH].
Qed.

(** ** Runs *)

(** A network where every host is there, the bind is accepted and the searches find
    nothing. *)
Definition demo_migration : MigrationExtern := {|
  net_answer := fun _ _ => Ok [];
  decode_response := fun q _ =>
    match q return option (option (ResponseData q) * list string) with
    | CreateUser u => Some (Some (to_ascii_lowercase (nu_id u)), [])
    | CreateGroup _ => Some (Some 9%Z, [])
    | ListUsers => Some (Some ["bob"], [])
    | ListGroups => Some (Some [MkLldapGroup 3 "staff" ["bob"]], [])
    | AddUserToGroup _ _ => Some (Some true, [])
    end;
  header_value := Some
|}.

(** The server: its GraphQL endpoint refuses who has no token; the rest is the
    authentication service. *)
Definition demo_http : @WireCall demo_opaque_extern -> io Web string (@WireAnswer demo_opaque_extern) := fun c w =>
  match wc_body c with
  | WEmpty => (Ok (MkWireAnswer 401 (RText "")), w)
  | _ => @auth_server lawful_extern demo_sql_extern demo_opaque_extern demo_token_extern demo_web_extern
           "key" demo_config false "http://lldap" c w
  end.

Lemma demo_http_refuses : unfinished_refused demo_http.
Proof.
  intros server bearer r w answer w' Hs. unfold demo_http in Hs. cbn [wc_body] in Hs.
  exact (@auth_server_refuses lawful_extern demo_sql_extern demo_opaque_extern demo_token_extern
    demo_web_extern "key" demo_config false "http://lldap" server bearer r w answer w' Hs).
Qed.

Definition demo_tool (answers : list PromptAnswer) : @Tool demo_opaque_extern Web := MkTool answers [] [] demo_web.

(** The operator gives the right password twice. *)
Definition demo_operator : list PromptAnswer :=
  [PConfirm true; PText "ldap://old"; PText "cn=admin,dc=old"; PText "secret"; PText "http://lldap";
   PText "bob"; PText "bob-password"; PText "bob"; PText "bob-password"].

Definition demo_migrate (answers : list PromptAnswer) : result ToolError unit * @Tool demo_opaque_extern Web :=
  @migration_main demo_opaque_extern demo_migration Web demo_http (fun _ => tt) (demo_tool answers).

Lemma migration_never_logs_in_witness :
  (length (t_http (snd (demo_migrate demo_operator))) = 5)%nat /\
  Forall idle_call (t_http (snd (demo_migrate demo_operator))) /\ fst (demo_migrate demo_operator) <> Ok tt.
Proof.
  split; [vm_compute; reflexivity|].
  pose proof (@migration_never_logs_in demo_opaque_extern demo_migration Web demo_http (fun _ => tt)
    (demo_tool demo_operator) demo_http_refuses) as Hm.
  unfold demo_migrate. destruct (migration_main _ _ _) as [r t'].
  destruct Hm as [(new & Hn & Hi) Hr]. simpl in Hn. simpl. rewrite Hn. split; [exact Hi|].
  intros Hok. specialize (Hr Hok). discriminate Hr.
Defined.

Definition demo_client : GraphQLClient := MkGraphQLClient "http://lldap/api/graphql" "t".

(** A GraphQL endpoint that does what it is asked. *)
Definition obliging : @WireCall demo_opaque_extern -> io unit string (@WireAnswer demo_opaque_extern) := fun _ w =>
  (Ok (MkWireAnswer 200 (RText "")), w).

Definition demo_ldap_user (id dn : string) : ToolUser := MkToolUser (MkNewUser id (Some "m@x") None None None None) None dn.

Definition demo_ldap_users : list ToolUser := [demo_ldap_user "bob" "uid=bob"; demo_ldap_user "Eve" "uid=Eve"].

(** An endpoint that fails once. *)
Definition fails_once : @WireCall demo_opaque_extern -> io bool string (@WireAnswer demo_opaque_extern) := fun _ failed =>
  (if failed : bool then Ok (MkWireAnswer 200 (RText "")) else Err "no answer", true).

Definition retried_memberships : result ToolError unit * @Tool demo_opaque_extern bool :=
  @insert_group_memberships_into_lldap demo_opaque_extern demo_migration bool fails_once demo_client demo_ldap_users
    [MkLdapGroup "staff" ["uid=bob"; "uid=Eve"]; MkLdapGroup "other" ["uid=bob"]] ["bob"; "Eve"]
    [MkLldapGroup 3 "staff" ["bob"]; MkLldapGroup 4 "other" []] (MkTool [PChoice "Retry"] [] [] false).

Lemma memberships_sent_exactly_witness :
  map wc_body (t_http (snd retried_memberships)) =
    map WGraphql [AddUserToGroup "Eve" 3; AddUserToGroup "Eve" 3; AddUserToGroup "bob" 4] /\
  exists sent used, Resent [AddUserToGroup "Eve" 3; AddUserToGroup "bob" 4] sent used /\
    t_http (snd retried_memberships) = map (graphql_call demo_client) sent /\ [PChoice "Retry"] = used ++ t_answers (snd retried_memberships).
Proof.
  split; [vm_compute; reflexivity|].
  destruct retried_memberships as [r t'] eqn:Ed.
  assert (r = Ok tt) as -> by (transitivity (fst retried_memberships); [rewrite Ed|vm_compute]; reflexivity).
  exact (@memberships_sent_exactly demo_opaque_extern demo_migration bool fails_once demo_client demo_ldap_users
    [MkLdapGroup "staff" ["uid=bob"; "uid=Eve"]; MkLdapGroup "other" ["uid=bob"]] ["bob"; "Eve"]
    [MkLldapGroup 3 "staff" ["bob"]; MkLldapGroup 4 "other" []] (MkTool [PChoice "Retry"] [] [] false) t' Ed).
Defined.

(** The server answers a creation with the identifier in lower case, and identifiers are
    compared as they are: the memberships of a user with a capital letter in its LDAP
    identifier are not asked for, without a message. *)
Example capital_letters_lose_memberships :
  let created := @insert_users_into_lldap demo_opaque_extern demo_migration unit obliging
    [demo_ldap_user "Eve" "uid=Eve"] ["bob"] demo_client (MkTool [] [] [] tt) in
  fst created = Ok ["bob"; "eve"] /\
  membership_queries demo_ldap_users [MkLdapGroup "staff" ["uid=bob"; "uid=Eve"]] ["bob"; "eve"]
    [MkLldapGroup 3 "staff" ["bob"]] = [].
Proof. vm_compute. auto. Qed.

(** A bind DN that is accepted, but has its domain in capital letters, ends the tool. *)
Example capital_domain_panics : domain_of_bind_dn "cn=admin,DC=example,DC=com" = Err (ToolPanicked "Could not find domain?!").
Proof. reflexivity. Qed.
