(* ===== verification/WebApp.v ===== *)
(** * The web front end: browser, requests and components

    [app/src/infra]: the calls of the server ([api.rs]), the cookies the script reads and
    writes ([cookies.rs]), the encryption for the KDC ([encrypt.rs]), and what all
    components that use the server share ([common_component.rs]).

    A component is a state machine.  Its state is [Cx]: its own fields, the error it
    shows, the counter of running tasks, the futures in flight, and the browser.  A
    message is handled by [CommonComponentParts::update]; a call of the server becomes a
    task, with the cookies of that moment, since the request leaves when the future is
    first polled, before any other event.  The machine ([step]) takes the messages that
    the page last rendered offers, edits of the form, and the answers in any order.

    Yew renders a component again when [update] returns true, or when its parent is
    rendered; only then buttons appear, vanish or are disabled.  The browser and the
    libraries in it are the class [BrowserExtern]. *)

From S2P Require Import Prelude Strings Types Proto Database Opaque AuthTokens AuthService.

Class BrowserExtern := {
  (** The cookies of the browser for this site *)
  Jar : Type;
  (** the value of the cookie of a name that goes with a request to a path *)
  cookie_sent : Jar -> string -> string -> option string;
  (** the Set-Cookie headers of a response *)
  receive_cookies : list Cookie -> Jar -> Jar;
  (** [document.cookie], which HTTP-only cookies are not in; [None]: an exception *)
  document_cookie : Jar -> option string;
  set_document_cookie : string -> Jar -> option Jar;
  (** [yew_router::utils::base_url] *)
  router_base_url : option string;
  (** [url_escape::encode_query] *)
  encode_query : string -> string;
  (** jwt: [Token::parse_unverified], the claims *)
  parse_unverified : string -> option JWTClaims;
  (** chrono *)
  to_rfc2822 : NaiveDateTime -> string;
  (** rsa: a public key of PKCS#1, and OAEP with SHA-256; the random numbers are the
      first argument *)
  RsaPublicKey : Type;
  from_pkcs1_der : string -> option RsaPublicKey;
  rsa_encrypt_oaep : nat -> RsaPublicKey -> string -> option string;
  (** validator *)
  validate_email : string -> bool
}.

(** What a handler ends with besides its result: an error, shown to the user, or a panic. *)
Inductive AppError : Type :=
| AppFailed (msg : string)
| AppPanicked (msg : string).

(** [.context(msg)] *)
Definition app_context {S A} (msg : string) (m : io S AppError A) : io S AppError A :=
  io_map_err (fun e => match e with AppFailed _ => AppFailed msg | AppPanicked p => AppPanicked p end) m.

Definition bail {S A} (msg : string) : io S AppError A := io_fail (AppFailed msg).

(** ** The requests of [HostService] *)

Record GraphQLAttributeValue := MkGraphQLAttributeValue { gav_name : string; gav_value : list string }.

(** [create_user::CreateUserInput] *)
Record WebUserInput := MkWebUserInput {
  wu_id : string;
  wu_email : option string;
  wu_display_name : option string;
  wu_first_name : option string;
  wu_last_name : option string;
  wu_avatar : option string;
  wu_attributes : option (list GraphQLAttributeValue)
}.

(** The fields of an attribute that forms look at. *)
Record FormAttribute := MkFormAttribute {
  fa_name : string;
  fa_is_list : bool;
  fa_is_readonly : bool;
  fa_is_editable : bool
}.

(** The switches of [posixSettings] *)
Record PosixSwitches := MkPosixSwitches {
  user_uidnumber_assign : bool;
  user_gidnumber_assign : bool;
  user_loginshell_assign : bool;
  user_homedirectory_assign : bool;
  group_gidnumber_assign : bool
}.

(** The queries of [app/queries] that the modelled components send. *)
Inductive WebQuery : Type :=
| GetKerberosInfo
| SyncKerberosPassword (user_id encrypted_password : string)
| QCreateUser (user : WebUserInput)
| GetUserAttributesSchema
| GetPosixConfig
| ListOusQuery.

Definition query_data (q : WebQuery) : Type :=
  match q with
  | GetKerberosInfo => option string
  | SyncKerberosPassword _ _ => bool
  | QCreateUser _ => string
  | GetUserAttributesSchema => list FormAttribute
  | GetPosixConfig => PosixSwitches
  | ListOusQuery => list string
  end.

Inductive HostCall `{OpaqueExtern} : Type :=
| HGraphql (q : WebQuery) (error_message : string)
| HLoginStart (r : ClientLoginStartRequest)
| HLoginFinish (r : ClientLoginFinishRequest)
| HGetSettings
| HRegisterStart (r : ClientRegistrationStartRequest)
| HRegisterFinish (r : ClientRegistrationFinishRequest)
| HRefresh
| HLogout
| HResetStep1 (username : string)
| HResetStep2 (token : string).

(** What the text of the response is parsed as; nothing for the calls without content. *)
Definition Parsed `{OpaqueExtern} (c : HostCall) : Type :=
  match c with
  | HGraphql q _ => option (query_data q) * option (list string)
  | HLoginStart _ => ServerLoginStartResponse
  | HLoginFinish _ | HRefresh => string
  | HGetSettings => bool
  | HRegisterStart _ => ServerRegistrationStartResponse
  | HResetStep2 _ => string
  | HRegisterFinish _ | HLogout | HResetStep1 _ => unit
  end%type.

(** What the method of [HostService] returns. *)
Definition HostReply `{OpaqueExtern} (c : HostCall) : Type :=
  match c with
  | HGraphql q _ => query_data q
  | HLoginFinish _ | HRefresh => string * bool
  | _ => Parsed c
  end%type.

Record HostAnswer (A : Type) := MkHostAnswer {
  ha_status : Z;
  ha_status_text : string;
  ha_text : string;
  (** the text read as JSON *)
  ha_json : option A
}.
Arguments MkHostAnswer {A} _ _ _ _.
Arguments ha_status {A} _.
Arguments ha_status_text {A} _.
Arguments ha_text {A} _.
Arguments ha_json {A} _.

Section Host.
Context `{OpaqueExtern, BrowserExtern}.

Definition app_base_url : string := from_option id "" router_base_url.

Definition host_url (c : HostCall) : string :=
  match c with
  | HGraphql _ _ => app_base_url +:+ "/api/graphql"
  | HLoginStart _ => app_base_url +:+ "/auth/opaque/login/start"
  | HLoginFinish _ => app_base_url +:+ "/auth/opaque/login/finish"
  | HGetSettings => app_base_url +:+ "/settings"
  | HRegisterStart _ => app_base_url +:+ "/auth/opaque/register/start"
  | HRegisterFinish _ => app_base_url +:+ "/auth/opaque/register/finish"
  | HRefresh => app_base_url +:+ "/auth/refresh"
  | HLogout => app_base_url +:+ "/auth/logout"
  | HResetStep1 username => app_base_url +:+ "/auth/reset/step1/" +:+ encode_query username
  | HResetStep2 token => app_base_url +:+ "/auth/reset/step2/" +:+ token
  end.

Definition host_error_message (c : HostCall) : string :=
  match c with
  | HGraphql _ msg => msg
  | HLoginStart _ | HRefresh => "Could not start authentication: "
  | HLoginFinish _ => "Could not finish authentication"
  | HGetSettings => "Could not fetch settings: "
  | HRegisterStart _ => "Could not start registration: "
  | HRegisterFinish _ => "Could not finish registration"
  | HLogout => "Could not logout"
  | HResetStep1 _ => "Could not initiate password reset"
  | HResetStep2 _ => "Could not validate token"
  end.

(** The cookies that go with a call; the browser sends no other credentials. *)
Definition host_request (jar : Jar) (c : HostCall) : HttpRequest :=
  MkHttpRequest (cookie_sent jar (host_url c) "refresh_token") None (cookie_sent jar (host_url c) "token") None.

(** ** Cookies of the script *)

Definition cookie_io (A : Type) : Type := io Jar AppError A.

Definition cookie_string (cookie_name value : string) (expiration : NaiveDateTime) : string :=
  cookie_name +:+ "=" +:+ value +:+ "; expires=" +:+ to_rfc2822 expiration +:+ "; sameSite=Strict; path="
    +:+ app_base_url +:+ "/".

Definition set_cookie (cookie_name value : string) (expiration : NaiveDateTime) : cookie_io unit := fun jar =>
  match set_document_cookie (cookie_string cookie_name value expiration) jar with
  | Some jar' => (Ok tt, jar')
  | None => (Err (AppFailed "Could not set cookie"), jar)
  end.

(** The first cookie of the name whose value is not empty. *)
Definition find_cookie (cookie_name cookies : string) : option string :=
  head (omap (fun c => match split_once "=" c with
                       | Some (name, value) =>
                           if String.eqb (trim name) cookie_name
                           then if String.eqb value "" then None else Some value
                           else None
                       | None => None
                       end) (split_on ";" cookies)).

Definition get_cookie (cookie_name : string) : cookie_io (option string) := fun jar =>
  match document_cookie jar with
  | Some cookies => (Ok (find_cookie cookie_name cookies), jar)
  | None => (Err (AppFailed "Could not access cookies"), jar)
  end.

Definition delete_cookie (cookie_name : string) : cookie_io unit :=
  let! found := get_cookie cookie_name in
  match found with
  | Some _ => set_cookie cookie_name "" (seconds 0)
  | None => io_ret tt
  end.

(** The result of setting the second cookie is dropped. *)
Definition set_cookies_from_jwt (token : string) : cookie_io (string * bool) :=
  match parse_unverified token with
  | None => bail "Could not parse JWT"
  | Some jwt_claims =>
      let is_admin := bool_decide ("lldap_admin" ∈ claim_groups jwt_claims) in
      let! _ := app_context "Error setting cookie" (set_cookie "user_id" (claim_user jwt_claims) (exp jwt_claims)) in
      let! _ := io_try (E' := AppError) (set_cookie "is_admin" (if is_admin then "true" else "false") (exp jwt_claims)) in
      io_ret (claim_user jwt_claims, is_admin)
  end.

(** ** Calls *)

Context {World : Type}.
Context (http : forall c : HostCall, HttpRequest -> io World string (HostAnswer (Parsed c) * list Cookie)).

Notation host A := (io (World * Jar) AppError A).

Definition on_jar {A} (m : cookie_io A) : host A := fun '(w, jar) =>
  let '(r, jar') := m jar in (r, (w, jar')).

Definition send_request (c : HostCall) (sent_with : Jar) : host (HostAnswer (Parsed c)) := fun '(w, jar) =>
  match http c (host_request sent_with c) w with
  | (Ok (answer, set), w') => (Ok answer, (w', receive_cookies set jar))
  | (Err e, w') => (Err (AppFailed e), (w', jar))
  end.

(** [response.ok()] *)
Definition call_server (c : HostCall) (sent_with : Jar) : host (HostAnswer (Parsed c)) :=
  let! response := send_request c sent_with in
  if (200 <=? ha_status response)%Z && (ha_status response <=? 299)%Z then io_ret response
  else bail (host_error_message c +:+ "[" +:+ int_to_string (ha_status response) +:+ " "
         +:+ ha_status_text response +:+ "]: " +:+ ha_text response).

(** What a request leaves behind: the world after it, and its cookies received. *)
Lemma call_server_jar c sent_with w jar r w' jar' :
  call_server c sent_with (w, jar) = (r, (w', jar')) ->
  exists res, http c (host_request sent_with c) w = (res, w') /\
    jar' = match res with Ok (_, cs) => receive_cookies cs jar | Err _ => jar end.
Proof.
  unfold call_server, io_bind, send_request. destruct (http c _ w) as [[[a cs]|e] w1].
  - destruct (_ && _); intros [= <- <- <-]; by eexists.
  - intros [= <- <- <-]. by eexists.
Qed.

Definition call_server_json_with_error_message (c : HostCall) (sent_with : Jar) : host (Parsed c) :=
  let! response := call_server c sent_with in
  io_lift (ok_or (ha_json response) (AppFailed "Could not parse response")).

Lemma call_server_json_jar c sent_with w jar r w' jar' :
  call_server_json_with_error_message c sent_with (w, jar) = (r, (w', jar')) ->
  exists res, http c (host_request sent_with c) w = (res, w') /\
    jar' = match res with Ok (_, cs) => receive_cookies cs jar | Err _ => jar end.
Proof.
  unfold call_server_json_with_error_message, io_bind. intros Hc.
  destruct (call_server c sent_with (w, jar)) as [[a|e] [w1 jar1]] eqn:Ec; apply call_server_jar in Ec;
    [unfold io_lift in Hc|]; by injection Hc as _ <- <-.
Qed.

Lemma call_server_json_Ok c sent_with w jar x s' :
  call_server_json_with_error_message c sent_with (w, jar) = (Ok x, s') ->
  exists answer cs w', http c (host_request sent_with c) w = (Ok (answer, cs), w') /\ ha_json answer = Some x.
Proof.
  intros (answer & s1 & Hc & [Hj _]%io_lift_Ok)%io_bind_Ok. apply ok_or_Ok in Hj. unfold call_server in Hc.
  apply io_bind_Ok in Hc as (a & s2 & Hs & Hc). unfold send_request in Hs.
  destruct (http c _ w) as [[[a' cs]|e] w1] eqn:Eh; [|done]. injection Hs as -> <-.
  destruct (_ && _) in Hc; [|done]. apply io_ret_Ok in Hc as [-> _]. by eexists _, _, _.
Qed.

(** What a call without content gives is [()]. *)
Definition call_server_empty_response_with_error_message (c : HostCall) (sent_with : Jar) : host unit :=
  let! _ := call_server c sent_with in io_ret tt.

Definition unwrap_graphql_response {A} (r : option A * option (list string)) : host A :=
  match fst r with
  | Some data => io_ret data
  | None => bail ("Errors: [" +:+ join ", " (from_option id [] (snd r)) +:+ "]")
  end.

Definition host_service (c : HostCall) : Jar -> host (HostReply c) :=
  match c return Jar -> host (HostReply c) with
  | HGraphql q m => fun jar =>
      let! r := call_server_json_with_error_message (HGraphql q m) jar in unwrap_graphql_response r
  | HLoginStart r => call_server_json_with_error_message (HLoginStart r)
  | HLoginFinish r => fun jar =>
      let! token := call_server_json_with_error_message (HLoginFinish r) jar in on_jar (set_cookies_from_jwt token)
  | HGetSettings => call_server_json_with_error_message HGetSettings
  | HRegisterStart r => call_server_json_with_error_message (HRegisterStart r)
  | HRegisterFinish r => call_server_empty_response_with_error_message (HRegisterFinish r)
  | HRefresh => fun jar =>
      let! token := call_server_json_with_error_message HRefresh jar in on_jar (set_cookies_from_jwt token)
  | HLogout => call_server_empty_response_with_error_message HLogout
  | HResetStep1 u => call_server_empty_response_with_error_message (HResetStep1 u)
  | HResetStep2 t => call_server_json_with_error_message (HResetStep2 t)
  end.
End Host.

(** ** Encryption for the KDC (encrypt.rs) *)

Section Encrypt.
Context `{Extern, OpaqueExtern, BrowserExtern}.

Definition encrypt_password (rng : nat) (pub_key_der_base64 plain : string) : result string string :=
  let? der_bytes := ok_or (base64_decode pub_key_der_base64) "Base64 decode of public key failed" in
  let? pub_key := ok_or (from_pkcs1_der der_bytes) "Failed to load public key from DER" in
  let? encrypted_data := ok_or (rsa_encrypt_oaep rng pub_key plain) "Encryption failed" in
  Ok (base64_encode encrypted_data).
End Encrypt.

(** ** Pages (router.rs) *)

Inductive AppRoute : Type :=
| RLoginPage
| StartResetPassword
| FinishResetPassword (token : string)
| CreateUserPage
| ListUsersPage
| ChangePasswordPage (user_id : string)
| UserDetailsPage (user_id : string)
| CreateGroupPage
| ListGroupsPage
| GroupDetailsPage (group_id : Z)
| ListUserSchema
| CreateUserAttributePage
| ListGroupSchema
| CreateGroupAttributePage
| Federation
| Index.

(** ** Components (common_component.rs) *)

(** A future in flight: the call, the cookies it was sent with, and the message its
    result becomes. *)
Record Task `{OpaqueExtern, BrowserExtern} (M : Type) := MkTask {
  tk_call : HostCall;
  tk_cookies : Jar;
  tk_callback : result string (HostReply tk_call) -> M
}.
Arguments MkTask {_ _ M} _ _ _.
Arguments tk_call {_ _ M} _.
Arguments tk_cookies {_ _ M} _.
Arguments tk_callback {_ _ M} _ _.

(** What a component did that others see: a request sent, an answer received (and whether
    it was a success), a page opened, a callback of its properties. *)
Inductive Happening `{OpaqueExtern} : Type :=
| Sent (c : HostCall)
| Answered (c : HostCall) (success : bool)
| Opened (route : AppRoute)
| LoggedIn (user : string) (is_admin : bool)
| LoggedOut.

Record Cx `{OpaqueExtern, BrowserExtern} (S M : Type) := MkCx {
  cx_self : S;
  cx_error : option string;
  cx_running : Z;
  cx_tasks : list (Task M);
  cx_jar : Jar;
  cx_draws : nat;
  cx_log : list Happening
}.
Arguments MkCx {_ _ S M} _ _ _ _ _ _ _.
Arguments cx_self {_ _ S M} _.
Arguments cx_error {_ _ S M} _.
Arguments cx_running {_ _ S M} _.
Arguments cx_tasks {_ _ S M} _.
Arguments cx_jar {_ _ S M} _.
Arguments cx_draws {_ _ S M} _.
Arguments cx_log {_ _ S M} _.

Section Common.
Context `{OpaqueExtern, BrowserExtern} {S M : Type}.

Notation handler A := (io (Cx S M) AppError A).

(** [CommonComponentParts::create] around the fields of a new component. *)
Definition common_create (self : S) (jar : Jar) : Cx S M := MkCx self None 0 [] jar 0 [].

Definition get_self : handler S := fun cx => (Ok (cx_self cx), cx).

Definition modify (f : S -> S) : handler unit := fun cx =>
  (Ok tt, MkCx (f (cx_self cx)) (cx_error cx) (cx_running cx) (cx_tasks cx) (cx_jar cx) (cx_draws cx) (cx_log cx)).

Definition set_error (e : option string) : handler unit := fun cx =>
  (Ok tt, MkCx (cx_self cx) e (cx_running cx) (cx_tasks cx) (cx_jar cx) (cx_draws cx) (cx_log cx)).

(** A fresh draw of the random number generator *)
Definition draw_app : handler nat := fun cx =>
  (Ok (cx_draws cx),
   MkCx (cx_self cx) (cx_error cx) (cx_running cx) (cx_tasks cx) (cx_jar cx) (cx_draws cx + 1) (cx_log cx)).

Definition happen (h : Happening) : handler unit := fun cx =>
  (Ok tt, MkCx (cx_self cx) (cx_error cx) (cx_running cx) (cx_tasks cx) (cx_jar cx) (cx_draws cx) (cx_log cx ++ [h])).

(** [self.is_task_running: u32] *)
Definition is_task_running (cx : Cx S M) : bool := (0 <? cx_running cx)%Z.

Definition wrap32 (z : Z) : Z := (z mod 4294967296)%Z.

Definition call_backend (c : HostCall) (callback : result string (HostReply c) -> M) : handler unit := fun cx =>
  (Ok tt, MkCx (cx_self cx) (cx_error cx) (wrap32 (cx_running cx + 1)) (cx_tasks cx ++ [MkTask c (cx_jar cx) callback])
            (cx_jar cx) (cx_draws cx) (cx_log cx ++ [Sent c])).

Definition call_graphql (q : WebQuery) (callback : result string (query_data q) -> M) (error_message : string)
  : handler unit := call_backend (HGraphql q error_message) callback.

(** [CommonComponentParts::update]: whether to render; only a panic is left as an error. *)
Definition common_update (handle_msg : M -> handler bool) (msg : M) : io (Cx S M) string bool := fun cx =>
  match handle_msg msg (snd (set_error None cx)) with
  | (Ok b, cx') => (Ok b, cx')
  | (Err (AppFailed e), cx') => (Ok true, snd (set_error (Some e) cx'))
  | (Err (AppPanicked p), cx') => (Err p, cx')
  end.

(** [update_and_report_error]: the error is taken out and handed to the callback. *)
Definition common_update_and_report (handle_msg : M -> handler bool) (msg : M)
  : io (Cx S M) string (bool * option string) := fun cx =>
  match common_update handle_msg msg cx with
  | (Ok should_render, cx') =>
      match cx_error cx' with
      | Some e => (Ok (true, Some e), snd (set_error None cx'))
      | None => (Ok (should_render, None), cx')
      end
  | (Err p, cx') => (Err p, cx')
  end.

(** The end of a future: its call is made with the cookies it was sent with, and it no
    longer counts as running; then its message is handled. *)
Definition finish_task {World}
    (http : forall c : HostCall, HttpRequest -> io World string (HostAnswer (Parsed c) * list Cookie))
    (i : nat) (t : Task M) (w : World) (cx : Cx S M) : M * World * Cx S M :=
  let '(r, (w', jar')) := host_service http (tk_call t) (tk_cookies t) (w, cx_jar cx) in
  let res := map_err (fun e => match e with AppFailed m => m | AppPanicked m => m end) r in
  (tk_callback t res, w',
   MkCx (cx_self cx) (cx_error cx) (wrap32 (cx_running cx - 1)) (delete i (cx_tasks cx)) jar' (cx_draws cx)
     (cx_log cx ++ [Answered (tk_call t) (is_ok res)])).
End Common.

(** ** Running components *)

(** A kind of component: how it handles messages, which messages the page offers when it
    is rendered with given fields and given task counter, and what the user types in. *)
Record Kind `{OpaqueExtern, BrowserExtern} := MkKind {
  kd_self : Type;
  kd_msg : Type;
  kd_input : Type;
  kd_handle : kd_msg -> io (Cx kd_self kd_msg) AppError bool;
  kd_offers : Cx kd_self kd_msg -> kd_msg -> bool;
  kd_type_in : kd_input -> kd_self -> kd_self
}.

Section Run.
Context `{OpaqueExtern, BrowserExtern} (kind : Kind) {World : Type}.
Context (http : forall c : HostCall, HttpRequest -> io World string (HostAnswer (Parsed c) * list Cookie)).

(** The world, the component, and the page as it was last rendered *)
Record Live := MkLive {
  lv_world : World;
  lv_cx : Cx (kd_self kind) (kd_msg kind);
  lv_page : Cx (kd_self kind) (kd_msg kind)
}.

Definition rendered (render : bool) (cx page : Cx (kd_self kind) (kd_msg kind)) : Cx (kd_self kind) (kd_msg kind) :=
  if render then cx else page.

Definition update_live (msg : kd_msg kind) (w : World) (cx page : Cx (kd_self kind) (kd_msg kind))
  : result string Live :=
  match common_update (kd_handle kind) msg cx with
  | (Ok render, cx') => Ok (MkLive w cx' (rendered render cx' page))
  | (Err p, _) => Err p
  end.

(** What can happen next, and what comes of it: a panic is an error. *)
Inductive happens (l : Live) : result string Live -> Prop :=
| user_message msg :
    kd_offers kind (lv_page l) msg = true -> happens l (update_live msg (lv_world l) (lv_cx l) (lv_page l))
| user_types input :
    happens l (Ok (MkLive (lv_world l) (snd (modify (kd_type_in kind input) (lv_cx l))) (lv_page l)))
| parent_renders : happens l (Ok (MkLive (lv_world l) (lv_cx l) (lv_cx l)))
| task_ends i t :
    cx_tasks (lv_cx l) !! i = Some t ->
    happens l (let '(msg, w', cx') := finish_task http i t (lv_world l) (lv_cx l) in update_live msg w' cx' (lv_page l))
| others_act w' : happens l (Ok (MkLive w' (lv_cx l) (lv_page l))).

Inductive reachable (start : Live) : Live -> Prop :=
| reach_start : reachable start start
| reach_step l l' : reachable start l -> happens l (Ok l') -> reachable start l'.

(** A run, with the states it went through before the last, oldest first. *)
Inductive history (start : Live) : list Live -> Live -> Prop :=
| history_start : history start [] start
| history_step past l l' : history start past l -> happens l (Ok l') -> history start (past ++ [l]) l'.

(** The same as a function, for runs: what the user, the parent or an answer does. *)
Inductive Move : Type :=
| Click (msg : kd_msg kind)
| Type_in (input : kd_input kind)
| Render
| Ends (i : nat).

Definition perform (m : Move) (l : Live) : result string Live :=
  match m with
  | Click msg =>
      if kd_offers kind (lv_page l) msg then update_live msg (lv_world l) (lv_cx l) (lv_page l) else Err "not offered"
  | Type_in input => Ok (MkLive (lv_world l) (snd (modify (kd_type_in kind input) (lv_cx l))) (lv_page l))
  | Render => Ok (MkLive (lv_world l) (lv_cx l) (lv_cx l))
  | Ends i =>
      match cx_tasks (lv_cx l) !! i with
      | Some t => let '(msg, w', cx') := finish_task http i t (lv_world l) (lv_cx l) in update_live msg w' cx' (lv_page l)
      | None => Err "no such task"
      end
  end.

Fixpoint perform_all (ms : list Move) (l : Live) : result string Live :=
  match ms with
  | [] => Ok l
  | m :: ms => let? l' := perform m l in perform_all ms l'
  end.

Lemma perform_happens m l l' : perform m l = Ok l' -> happens l (Ok l').
Proof.
  intros Hp. destruct m as [msg|input| |i]; simpl in Hp.
  - destruct (kd_offers _ _ _) eqn:Eo; [|done]. rewrite <- Hp. by apply user_message.
  - rewrite <- Hp. apply user_types.
  - rewrite <- Hp. apply parent_renders.
  - destruct (cx_tasks _ !! i) as [t|] eqn:Et; [|done]. rewrite <- Hp. by apply (task_ends l i t).
Qed.

Lemma perform_all_reachable ms start l l' :
  reachable start l -> perform_all ms l = Ok l' -> reachable start l'.
Proof.
  revert l. induction ms as [|m ms IH]; intros l Hr Hp; simpl in Hp; [by injection Hp as <-|].
  destruct (perform m l) as [l1|] eqn:Em; [|done]. apply (IH l1); [|done].
  eapply reach_step; [exact Hr|by eapply perform_happens].
Qed.

Lemma perform_all_history ms start past l l' :
  history start past l -> perform_all ms l = Ok l' -> exists past', history start past' l'.
Proof.
  revert past l. induction ms as [|m ms IH]; intros past l Hr Hp; simpl in Hp; [injection Hp as <-; by exists past|].
  destruct (perform m l) as [l1|] eqn:Em; [|done]. apply (IH (past ++ [l]) l1); [|done].
  eapply history_step; [exact Hr|by eapply perform_happens].
Qed.

(** A component that was just rendered for the first time *)
Definition opened (w : World) (cx : Cx (kd_self kind) (kd_msg kind)) : Live := MkLive w cx cx.

Lemma invariant_holds (start : Live) (Inv : Live -> Prop) :
  Inv start -> (forall l l', reachable start l -> Inv l -> happens l (Ok l') -> Inv l') ->
  forall l, reachable start l -> Inv l.
Proof. intros Hi Hs l Hr. induction Hr; eauto. Qed.
End Run.
Arguments Click {_ _ kind} _.
Arguments Type_in {_ _ kind} _.
Arguments Render {_ _ kind}.
Arguments Ends {_ _ kind} _.
Arguments MkLive {_ _ kind World} _ _ _.
Arguments lv_world {_ _ kind World} _.
Arguments lv_cx {_ _ kind World} _.
Arguments lv_page {_ _ kind World} _.

(** ** The counter of running tasks *)

Section Counter.
Context `{OpaqueExtern, BrowserExtern} {S M : Type}.

Notation handler A := (io (Cx S M) AppError A).

(** The counter is the number of futures in flight. *)
Definition counted (cx : Cx S M) : Prop := cx_running cx = wrap32 (Z.of_nat (length (cx_tasks cx))).

Definition keeps_count {A} (m : handler A) : Prop := forall cx, counted cx -> counted (snd (m cx)).

Lemma count_ret {A} (a : A) : keeps_count (io_ret a).
Proof. by intros cx. Qed.

Lemma count_fail {A} e : keeps_count (A := A) (io_fail e).
Proof. by intros cx. Qed.

Lemma count_lift {A} (r : result AppError A) : keeps_count (io_lift r).
Proof. by intros cx. Qed.

Lemma count_self : keeps_count get_self.
Proof. by intros cx. Qed.

Lemma count_modify f : keeps_count (modify f).
Proof. by intros cx. Qed.

Lemma count_set_error e : keeps_count (set_error e).
Proof. by intros cx. Qed.

Lemma count_draw : keeps_count draw_app.
Proof. by intros cx. Qed.

Lemma count_happen h : keeps_count (happen h).
Proof. by intros cx. Qed.

Lemma count_bind {A B} (m : handler A) (k : A -> handler B) :
  keeps_count m -> (forall a, keeps_count (k a)) -> keeps_count (io_bind m k).
Proof.
  intros Hm Hk cx Hc. unfold io_bind. specialize (Hm cx Hc). destruct (m cx) as [[a|e] cx']; simpl in *; [|done].
  by apply Hk.
Qed.

Lemma count_context {A} msg (m : handler A) : keeps_count m -> keeps_count (app_context msg m).
Proof. intros Hm cx Hc. specialize (Hm cx Hc). unfold app_context, io_map_err. by destruct (m cx). Qed.

Lemma count_call c k : keeps_count (call_backend c k).
Proof.
  intros cx Hc. unfold counted in *. simpl. rewrite Hc, length_app, Nat2Z.inj_add. unfold wrap32.
  by rewrite Zplus_mod_idemp_l.
Qed.

Lemma update_keeps_count handle msg cx :
  keeps_count (handle msg) -> counted cx -> counted (snd (common_update handle msg cx)).
Proof.
  intros Hh Hc. unfold common_update. specialize (Hh (snd (set_error None cx)) Hc).
  destruct (handle msg _) as [[b|[e|p]] cx']; exact Hh.
Qed.

Lemma finish_keeps_count {World} (http : forall c : HostCall, HttpRequest -> io World string (HostAnswer (Parsed c) * list Cookie))
    i t w (cx : Cx S M) :
  cx_tasks cx !! i = Some t -> counted cx -> counted (snd (finish_task http i t w cx)).
Proof.
  intros Ht Hc. unfold finish_task. destruct (host_service _ _ _ _) as [r [w' jar']]. unfold counted in *. simpl.
  rewrite Hc. pose proof (lookup_lt_Some _ _ _ Ht). rewrite length_delete by (by rewrite Ht).
  unfold wrap32. rewrite Zminus_mod_idemp_l. f_equal. lia.
Qed.
End Counter.

Ltac count_step :=
  first
    [ apply count_ret | apply count_fail | apply count_lift | apply count_self | apply count_modify
    | apply count_set_error | apply count_draw | apply count_happen | apply count_call | apply count_context
    | apply count_bind; [|intro] ].

(** Along every run the counter of a component whose handler only uses the operations
    above is the number of its futures in flight. *)
Lemma counter_exact `{OpaqueExtern, BrowserExtern} (kind : Kind) {World : Type}
    (http : forall c : HostCall, HttpRequest -> io World string (HostAnswer (Parsed c) * list Cookie))
    (start l : Live kind) :
  (forall msg, keeps_count (kd_handle kind msg)) -> counted (lv_cx start) ->
  reachable kind http start l -> counted (lv_cx l).
Proof.
  intros Hk Hs. apply (invariant_holds _ _ _ (fun l => counted (lv_cx l))); [done|].
  intros l0 l' _ Hc Hh. inversion Hh as [msg Ho Hl|input Hl|Hl|i t Ht Hl|w' Hl].
  - unfold update_live in Hl. pose proof (update_keeps_count _ msg _ (Hk msg) Hc) as Hu.
    destruct (common_update _ _ _) as [[b|p] cx']; by simplify_eq.
  - by apply (count_modify (kd_type_in kind input)).
  - done.
  - pose proof (finish_keeps_count http i t (lv_world l0) _ Ht Hc) as Hf.
    destruct (finish_task _ _ _ _ _) as [[msg w'] cx'] eqn:Ef. unfold update_live in Hl. simpl in Hf.
    pose proof (update_keeps_count _ msg _ (Hk msg) Hf) as Hu.
    destruct (common_update _ _ _) as [[b|p] cx'']; by simplify_eq.
  - done.
Qed.

(** ** A concrete browser *)

(** HTTP-only cookies, the newest first, and the cookies of the script. *)
Record DemoJar := MkDemoJar { dj_http : list Cookie; dj_script : list (string * string) }.

(** A cookie of one path goes with requests to another (RFC 6265, 5.1.4). *)
Definition path_matches (cookie_path request_path : string) : bool :=
  String.eqb cookie_path request_path ||
  (starts_with cookie_path request_path &&
     (ends_with "/" cookie_path || starts_with "/" (drop_bytes (String.length cookie_path) request_path))).

Definition demo_sent (jar : DemoJar) (path name : string) : option string :=
  ck_value <$> find (fun c => String.eqb (ck_name c) name && path_matches (ck_path c) path) (dj_http jar).

Definition demo_browser_of (parse : string -> option JWTClaims) : BrowserExtern := {|
  Jar := DemoJar;
  cookie_sent := demo_sent;
  receive_cookies := fun cs jar => MkDemoJar (cs ++ dj_http jar) (dj_script jar);
  document_cookie := fun jar => Some (join "; " (map (fun '(n, v) => n +:+ "=" +:+ v) (dj_script jar)));
  set_document_cookie := fun s jar =>
    match split_once "=" s with
    | Some (name, rest) => Some (MkDemoJar (dj_http jar) ((name, hd "" (split_on ";" rest)) :: dj_script jar))
    | None => None
    end;
  router_base_url := None;
  encode_query := id;
  parse_unverified := parse;
  to_rfc2822 := int_to_string;
  RsaPublicKey := string;
  from_pkcs1_der := fun der => if String.eqb der "" then None else Some der;
  rsa_encrypt_oaep := fun _ key text => Some (key +:+ ":" +:+ text);
  validate_email := contains_char "@"
|}.

Definition empty_jar : DemoJar := MkDemoJar [] [].
