(* ===== verification/WebForms.v ===== *)
(** * The forms of the web front end

    [app/src/components]: logging in ([login.rs]) and out ([logout.rs]), changing a
    password ([change_password.rs]), the two steps of a reset by mail
    ([reset_password_step1.rs], [reset_password_step2.rs]), creating a user
    ([create_user.rs], [infra/form_utils.rs]) and the application around them
    ([app.rs]).

    Each form is a [Kind] of [WebApp]: its fields, its messages, [handle_msg], and what
    [view] offers.  A form is created by [create], and by [rendered] after the first
    rendering.  What the user typed is a field; typing also offers the update messages.
    Layout and console output are left out. *)

From S2P Require Import Prelude Strings Types Proto Database Opaque AuthTokens AuthService WebApp.

(** The checks of validator: a length counts characters. *)
Definition length_min (min : nat) (s : string) : bool := (min <=? length (chars s))%nat.

(** [?] on an error of the protocol *)
Definition protocol_failed (e : AuthenticationFailure) : AppError :=
  match e with ProtocolError m => AppFailed ("Protocol error: `" +:+ m +:+ "`") end.

Section Forms.
Context `{Extern, OpaqueExtern, BrowserExtern} (coins : nat -> Coins).

(** ** Logging in *)

Record LoginForm := MkLoginForm { lo_username : string; lo_password : string; lo_refreshing : bool }.

Inductive LoginMsg : Type :=
| LoUpdate
| LoSubmit
| LoRefreshResponse (r : result string (string * bool))
| LoStartResponse (login_start : ClientLogin) (r : result string ServerLoginStartResponse)
| LoFinishResponse (r : result string (string * bool)).

Definition login_validate (f : LoginForm) : bool := length_min 1 (lo_username f) && length_min 1 (lo_password f).

Definition login_handle_msg (msg : LoginMsg) : io (Cx LoginForm LoginMsg) AppError bool :=
  match msg with
  | LoUpdate => io_ret true
  | LoSubmit =>
      let! form := get_self in
      if negb (login_validate form) then bail "Check the form for errors"
      else
        let! rng := draw_app in
        let! start := io_lift (map_err (fun _ => AppFailed "Could not initialize login")
          (client_start_login (lo_password form) (coins rng))) in
        let! _ := call_backend (HLoginStart (MkClientLoginStartRequest (UserId_new (lo_username form)) (snd start)))
          (LoStartResponse (fst start)) in
        io_ret true
  | LoStartResponse login_start res =>
      match res with
      | Err e => let! _ := set_error (Some e) in io_ret true
      | Ok res =>
          let! form := get_self in
          let! rng := draw_app in
          match client_finish_login login_start (lo_password form) (lr_credential_response res) (coins rng) with
          | Err _ => let! _ := set_error (Some "Invalid username or password") in io_ret true
          | Ok login_finish =>
              let! _ := call_backend (HLoginFinish (MkClientLoginFinishRequest (lr_server_data res) login_finish))
                LoFinishResponse in
              io_ret false
          end
      end
  | LoFinishResponse user_info =>
      let! user := io_lift (map_err (fun _ => AppFailed "Could not log in") user_info) in
      let! _ := happen (LoggedIn (fst user) (snd user)) in
      io_ret true
  | LoRefreshResponse user_info =>
      let! _ := modify (fun f => MkLoginForm (lo_username f) (lo_password f) false) in
      match user_info with
      | Ok user => let! _ := happen (LoggedIn (fst user) (snd user)) in io_ret true
      | Err _ => io_ret true
      end
  end.

Definition login_offers (cx : Cx LoginForm LoginMsg) (msg : LoginMsg) : bool :=
  negb (lo_refreshing (cx_self cx)) &&
  match msg with
  | LoUpdate => true
  | LoSubmit => negb (is_task_running cx)
  | _ => false
  end.

Definition login_kind : Kind := {|
  kd_self := LoginForm;
  kd_msg := LoginMsg;
  kd_input := string * string;
  kd_handle := login_handle_msg;
  kd_offers := login_offers;
  kd_type_in := fun input f => MkLoginForm (fst input) (snd input) (lo_refreshing f)
|}.

Definition login_create (jar : Jar) : Cx LoginForm LoginMsg :=
  snd (call_backend HRefresh LoRefreshResponse (common_create (MkLoginForm "" "" true) jar)).

(** ** Logging out *)

Inductive LogoutMsg : Type :=
| LogoutRequested
| LogoutCompleted (r : result string unit).

Definition cookies_of_page {S M A} (m : cookie_io A) : io (Cx S M) AppError A := fun cx =>
  let '(r, jar') := m (cx_jar cx) in
  (r, MkCx (cx_self cx) (cx_error cx) (cx_running cx) (cx_tasks cx) jar' (cx_draws cx) (cx_log cx)).

Definition logout_handle_msg (msg : LogoutMsg) : io (Cx unit LogoutMsg) AppError bool :=
  match msg with
  | LogoutRequested => let! _ := call_backend HLogout LogoutCompleted in io_ret false
  | LogoutCompleted res =>
      let! _ := io_lift (map_err AppFailed res) in
      let! _ := cookies_of_page (delete_cookie "user_id") in
      let! _ := happen LoggedOut in
      io_ret false
  end.

Definition logout_kind : Kind := {|
  kd_self := unit;
  kd_msg := LogoutMsg;
  kd_input := Empty_set;
  kd_handle := logout_handle_msg;
  kd_offers := fun _ msg => match msg with LogoutRequested => true | _ => false end;
  kd_type_in := fun _ f => f
|}.

(** ** Asking for a reset mail *)

Record ResetStep1Form := MkResetStep1Form { r1_username : string; r1_just_succeeded : bool }.

Inductive ResetStep1Msg : Type :=
| R1Update
| R1Submit
| PasswordResetResponse (r : result string unit).

(** [handle_msg], after [update] has reset [just_succeeded] *)
Definition reset_step1_handle_msg (msg : ResetStep1Msg) : io (Cx ResetStep1Form ResetStep1Msg) AppError bool :=
  let! _ := modify (fun f => MkResetStep1Form (r1_username f) false) in
  match msg with
  | R1Update => io_ret true
  | R1Submit =>
      let! form := get_self in
      if negb (length_min 1 (r1_username form)) then bail "Check the form for errors"
      else
        let! _ := call_backend (HResetStep1 (r1_username form)) PasswordResetResponse in
        io_ret true
  | PasswordResetResponse response =>
      let! _ := io_lift (map_err AppFailed response) in
      let! _ := modify (fun f => MkResetStep1Form (r1_username f) true) in
      io_ret true
  end.

Definition reset_step1_offers (cx : Cx ResetStep1Form ResetStep1Msg) (msg : ResetStep1Msg) : bool :=
  match msg with
  | R1Update => true
  | R1Submit => negb (r1_just_succeeded (cx_self cx)) && negb (is_task_running cx)
  | _ => false
  end.

Definition reset_step1_kind : Kind := {|
  kd_self := ResetStep1Form;
  kd_msg := ResetStep1Msg;
  kd_input := string;
  kd_handle := reset_step1_handle_msg;
  kd_offers := reset_step1_offers;
  kd_type_in := fun input f => MkResetStep1Form input (r1_just_succeeded f)
|}.

(** ** Encryption of the new password, as three forms do it *)

(** The encrypted password, or the error; without information on Kerberos there is none. *)
Definition encrypted_for_kdc {S M} (kerberos_info : option (option string)) (new_password : string)
  : io (Cx S M) AppError (option string) :=
  match kerberos_info with
  | None => io_ret None
  | Some None => bail "Kerberos enabled but no public key available—check backend startup/logs"
  | Some (Some pub_key_der_base64) =>
      let! rng := draw_app in
      match encrypt_password rng pub_key_der_base64 new_password with
      | Ok encrypted => io_ret (Some encrypted)
      | Err e => bail ("Failed to encrypt password for Kerberos sync: " +:+ e)
      end
  end.

(** ** Changing a password *)

Inductive OpaqueData : Type :=
| ODNone
| ODLogin (state : ClientLogin)
| ODRegistration (state : ClientRegistration).

Record ChangePasswordForm := MkChangePasswordForm {
  cp_old_password : string;
  cp_password : string;
  cp_confirm_password : string;
  cp_opaque_data : OpaqueData;
  cp_kerberos_info : option (option string);
  cp_encrypted_password : option string
}.

Inductive ChangePasswordMsg : Type :=
| CpFormUpdate
| CpSubmit
| CpLoginStartResponse (r : result string ServerLoginStartResponse)
| CpLoginFinishResponse (r : result string (string * bool))
| CpRegistrationStartResponse (r : result string ServerRegistrationStartResponse)
| CpRegistrationFinishResponse (r : result string unit)
| CpKerberosInfoResponse (r : result string (option string))
| CpSyncKerberosResponse (r : result string bool)
| CpSubmitNewPassword.

Definition cp_set_opaque_data (d : OpaqueData) (f : ChangePasswordForm) : ChangePasswordForm :=
  MkChangePasswordForm (cp_old_password f) (cp_password f) (cp_confirm_password f) d (cp_kerberos_info f)
    (cp_encrypted_password f).

Definition cp_set_kerberos_info (i : option (option string)) (f : ChangePasswordForm) : ChangePasswordForm :=
  MkChangePasswordForm (cp_old_password f) (cp_password f) (cp_confirm_password f) (cp_opaque_data f) i
    (cp_encrypted_password f).

Definition cp_set_encrypted_password (e : option string) (f : ChangePasswordForm) : ChangePasswordForm :=
  MkChangePasswordForm (cp_old_password f) (cp_password f) (cp_confirm_password f) (cp_opaque_data f)
    (cp_kerberos_info f) e.

(** Here the length is that of the bytes. *)
Definition empty_or_long (value : string) : bool := String.eqb value "" || (8 <=? String.length value)%nat.

Definition change_password_validate (f : ChangePasswordForm) : bool :=
  empty_or_long (cp_old_password f) && length_min 8 (cp_password f)
    && String.eqb (cp_confirm_password f) (cp_password f).

(** [ctx.props()] *)
Section ChangePassword.
Context (username : string) (is_admin : bool).

Notation cp_handler A := (io (Cx ChangePasswordForm ChangePasswordMsg) AppError A).

(** [Msg::SubmitNewPassword] *)
Definition submit_new_password : cp_handler bool :=
  let! form := get_self in
  let new_password := cp_password form in
  let! _ := modify (cp_set_encrypted_password None) in
  let! encrypted := encrypted_for_kdc (cp_kerberos_info form) new_password in
  let! _ := modify (cp_set_encrypted_password encrypted) in
  match encrypted with
  | None => bail "Kerberos password encryption failed"
  | Some _ =>
      let! rng := draw_app in
      let! start := io_lift (map_err protocol_failed (client_start_registration new_password (coins rng))) in
      let! _ := modify (cp_set_opaque_data (ODRegistration (fst start))) in
      let! _ := call_backend (HRegisterStart (MkClientRegistrationStartRequest (UserId_new username) (snd start)))
        CpRegistrationStartResponse in
      io_ret false
  end.

(** [self.opaque_data.take()] *)
Definition cp_take_opaque_data : cp_handler OpaqueData :=
  let! form := get_self in
  let! _ := modify (cp_set_opaque_data ODNone) in
  io_ret (cp_opaque_data form).

Definition navigate_to_user_details : cp_handler unit := happen (Opened (UserDetailsPage username)).

Definition change_password_handle_msg (msg : ChangePasswordMsg) : cp_handler bool :=
  match msg with
  | CpFormUpdate => io_ret true
  | CpKerberosInfoResponse res =>
      let! info := io_lift (map_err AppFailed res) in
      let! _ := modify (cp_set_kerberos_info (Some info)) in
      io_ret true
  | CpSubmit =>
      let! form := get_self in
      if negb (change_password_validate form) then bail "Check the form for errors"
      else if is_admin then submit_new_password
      else if String.eqb (cp_old_password form) "" then bail "Current password is required for non-admin users"
      else
        let! rng := draw_app in
        let! start := io_lift (map_err protocol_failed (client_start_login (cp_old_password form) (coins rng))) in
        let! _ := modify (cp_set_opaque_data (ODLogin (fst start))) in
        let! _ := call_backend (HLoginStart (MkClientLoginStartRequest (UserId_new username) (snd start)))
          CpLoginStartResponse in
        io_ret false
  | CpLoginStartResponse res =>
      let! res := io_lift (map_err (fun _ => AppFailed "Old password verification failed") res) in
      let! data := cp_take_opaque_data in
      match data with
      | ODLogin login_state =>
          let! form := get_self in
          let! rng := draw_app in
          let! login_finish := io_lift (map_err protocol_failed
            (client_finish_login login_state (cp_old_password form) (lr_credential_response res) (coins rng))) in
          let! _ := call_backend (HLoginFinish (MkClientLoginFinishRequest (lr_server_data res) login_finish))
            CpLoginFinishResponse in
          io_ret false
      | _ => bail "Invalid state"
      end
  | CpLoginFinishResponse res =>
      let! _ := io_lift (map_err (fun _ => AppFailed "Old password incorrect") res) in
      submit_new_password
  | CpSubmitNewPassword => submit_new_password
  | CpRegistrationStartResponse res =>
      let! res := io_lift (map_err (fun _ => AppFailed "Could not initiate registration") res) in
      let! data := cp_take_opaque_data in
      match data with
      | ODRegistration registration =>
          let! form := get_self in
          let! rng := draw_app in
          let! registration_finish := io_lift (map_err protocol_failed
            (client_finish_registration registration (cp_password form) (rr_registration_response res) (coins rng))) in
          let! _ := call_backend (HRegisterFinish (MkClientRegistrationFinishRequest (rr_server_data res) registration_finish))
            CpRegistrationFinishResponse in
          io_ret false
      | _ => bail "Invalid state"
      end
  | CpRegistrationFinishResponse response =>
      let! _ := io_lift (map_err (fun _ => AppFailed "Failed to set new password") response) in
      let! form := get_self in
      match cp_encrypted_password form with
      | Some enc_pw =>
          let! _ := call_graphql (SyncKerberosPassword username enc_pw) CpSyncKerberosResponse
            "Error syncing Kerberos password" in
          io_ret false
      | None => let! _ := navigate_to_user_details in io_ret true
      end
  | CpSyncKerberosResponse response =>
      let! _ := io_lift (map_err AppFailed response) in
      let! _ := navigate_to_user_details in
      io_ret true
  end.

Definition change_password_offers (cx : Cx ChangePasswordForm ChangePasswordMsg) (msg : ChangePasswordMsg) : bool :=
  bool_decide (is_Some (cp_kerberos_info (cx_self cx))) &&
  match msg with
  | CpFormUpdate => true
  | CpSubmit => negb (is_task_running cx)
  | _ => false
  end.

Definition change_password_kind : Kind := {|
  kd_self := ChangePasswordForm;
  kd_msg := ChangePasswordMsg;
  kd_input := string * string * string;
  kd_handle := change_password_handle_msg;
  kd_offers := change_password_offers;
  kd_type_in := fun input f => MkChangePasswordForm input.1.1 input.1.2 input.2 (cp_opaque_data f)
    (cp_kerberos_info f) (cp_encrypted_password f)
|}.

Definition change_password_create (jar : Jar) : Cx ChangePasswordForm ChangePasswordMsg :=
  snd (call_graphql GetKerberosInfo CpKerberosInfoResponse "Failed to load Kerberos info"
    (common_create (MkChangePasswordForm "" "" "" ODNone None None) jar)).
End ChangePassword.

(** ** Setting a new password with the token of a reset mail *)

Record ResetStep2Form := MkResetStep2Form {
  r2_password : string;
  r2_confirm_password : string;
  r2_username : option string;
  r2_opaque_data : option ClientRegistration;
  r2_kerberos_info : option (option string);
  r2_encrypted_password : option string
}.

Inductive ResetStep2Msg : Type :=
| ValidateTokenResponse (r : result string string)
| R2KerberosInfoResponse (r : result string (option string))
| R2FormUpdate
| R2Submit
| R2RegistrationStartResponse (r : result string ServerRegistrationStartResponse)
| R2RegistrationFinishResponse (r : result string unit)
| R2SyncKerberosResponse (r : result string bool).

Definition r2_set_username (u : option string) (f : ResetStep2Form) : ResetStep2Form :=
  MkResetStep2Form (r2_password f) (r2_confirm_password f) u (r2_opaque_data f) (r2_kerberos_info f) (r2_encrypted_password f).

Definition r2_set_opaque_data (d : option ClientRegistration) (f : ResetStep2Form) : ResetStep2Form :=
  MkResetStep2Form (r2_password f) (r2_confirm_password f) (r2_username f) d (r2_kerberos_info f) (r2_encrypted_password f).

Definition r2_set_kerberos_info (i : option (option string)) (f : ResetStep2Form) : ResetStep2Form :=
  MkResetStep2Form (r2_password f) (r2_confirm_password f) (r2_username f) (r2_opaque_data f) i (r2_encrypted_password f).

Definition r2_set_encrypted_password (e : option string) (f : ResetStep2Form) : ResetStep2Form :=
  MkResetStep2Form (r2_password f) (r2_confirm_password f) (r2_username f) (r2_opaque_data f) (r2_kerberos_info f) e.

Notation r2_handler A := (io (Cx ResetStep2Form ResetStep2Msg) AppError A).

Definition reset_step2_validate (f : ResetStep2Form) : bool :=
  length_min 8 (r2_password f) && String.eqb (r2_confirm_password f) (r2_password f).

(** [Msg::Submit]: the Kerberos encryption, then the registration *)
Definition reset_step2_submit : r2_handler bool :=
  let! form := get_self in
  if negb (reset_step2_validate form) then bail "Check the form for errors"
  else match r2_username form with
  | None => bail "Username not available"
  | Some username =>
      let new_password := r2_password form in
      let! _ := modify (r2_set_encrypted_password None) in
      let! encrypted := encrypted_for_kdc (r2_kerberos_info form) new_password in
      let! _ := modify (r2_set_encrypted_password encrypted) in
      match encrypted with
      | None => bail "Kerberos password encryption failed"
      | Some _ =>
          let! rng := draw_app in
          let! start := io_lift (map_err protocol_failed
            (client_start_registration new_password (coins rng))) in
          let! _ := modify (r2_set_opaque_data (Some (fst start))) in
          let! _ := call_backend (HRegisterStart (MkClientRegistrationStartRequest (UserId_new username) (snd start)))
            R2RegistrationStartResponse in
          io_ret false
      end
  end.

Definition reset_step2_handle_msg (msg : ResetStep2Msg) : r2_handler bool :=
  match msg with
  | ValidateTokenResponse response =>
      let! user_id := io_lift (map_err AppFailed response) in
      let! _ := modify (r2_set_username (Some user_id)) in
      io_ret true
  | R2KerberosInfoResponse res =>
      let! info := io_lift (map_err AppFailed res) in
      let! _ := modify (r2_set_kerberos_info (Some info)) in
      io_ret true
  | R2FormUpdate => io_ret true
  | R2Submit => reset_step2_submit
  | R2RegistrationStartResponse res =>
      let! res := io_lift (map_err (fun _ => AppFailed "Could not initiate registration") res) in
      let! form := get_self in
      let! _ := modify (r2_set_opaque_data None) in
      match r2_opaque_data form with
      | None => bail "Invalid state"
      | Some registration =>
          let! rng := draw_app in
          let! registration_finish := io_lift (map_err protocol_failed
            (client_finish_registration registration (r2_password form) (rr_registration_response res) (coins rng))) in
          let! _ := call_backend (HRegisterFinish (MkClientRegistrationFinishRequest (rr_server_data res) registration_finish))
            R2RegistrationFinishResponse in
          io_ret false
      end
  | R2RegistrationFinishResponse response =>
      let! _ := io_lift (map_err (fun _ => AppFailed "Failed to set new password") response) in
      let! form := get_self in
      match r2_encrypted_password form with
      | Some enc_pw =>
          let! username := io_lift (ok_or (r2_username form) (AppPanicked "unwrap")) in
          let! _ := call_graphql (SyncKerberosPassword username enc_pw) R2SyncKerberosResponse
            "Error syncing Kerberos password" in
          io_ret false
      | None => let! _ := happen (Opened RLoginPage) in io_ret true
      end
  | R2SyncKerberosResponse response =>
      let! _ := io_lift (map_err AppFailed response) in
      let! _ := happen (Opened RLoginPage) in
      io_ret true
  end.

(** Without a user name the page shows the error or that the token is being checked,
    without information on Kerberos that it is being loaded. *)
Definition reset_step2_offers (cx : Cx ResetStep2Form ResetStep2Msg) (msg : ResetStep2Msg) : bool :=
  match r2_username (cx_self cx), r2_kerberos_info (cx_self cx) with
  | Some _, Some _ =>
      match msg with
      | R2FormUpdate => true
      | R2Submit => negb (is_task_running cx)
      | _ => false
      end
  | _, _ => false
  end.

Definition reset_step2_kind : Kind := {|
  kd_self := ResetStep2Form;
  kd_msg := ResetStep2Msg;
  kd_input := string * string;
  kd_handle := reset_step2_handle_msg;
  kd_offers := reset_step2_offers;
  kd_type_in := fun input f => MkResetStep2Form (fst input) (snd input) (r2_username f) (r2_opaque_data f)
    (r2_kerberos_info f) (r2_encrypted_password f)
|}.

Definition reset_step2_create (token : string) (jar : Jar) : Cx ResetStep2Form ResetStep2Msg :=
  snd (io_bind (call_backend (HResetStep2 token) ValidateTokenResponse)
    (fun _ => call_graphql GetKerberosInfo R2KerberosInfoResponse "Error fetching Kerberos info")
    (common_create (MkResetStep2Form "" "" None None None None) jar)).

(** ** The attributes of a form (form_utils.rs) *)

Record FormValue := MkFormValue { fv_name : string; fv_values : list string }.

Definition validate_email_attributes (all_values : list FormValue) : result string unit :=
  match find (fun a => String.eqb (fv_name a) "mail") all_values with
  | None => Err "Email is required"
  | Some a =>
      match fv_values a with
      | [] => Err "Email is required"
      | [email] => if validate_email email then Ok tt else Err "Email is not valid"
      | _ => Err "Multiple emails are not supported"
      end
  end.

(** The values the page has in the fields of a name; an empty one, and the mark of a
    value that is assigned by the server, are none. *)
Definition read_form_attribute (form_data : gmap string (list string)) (attr : FormAttribute)
  : result string FormValue :=
  let val := filter (fun v => v <> "" /\ v <> "Auto-assign") (from_option id [] (form_data !! fa_name attr)) in
  if (length val <=? 1)%nat || fa_is_list attr then Ok (MkFormValue (fa_name attr) val)
  else Err ("Multiple values supplied for non-list attribute " +:+ fa_name attr).

Definition read_all_form_attributes (schema : list FormAttribute) (form_data : gmap string (list string))
    (is_admin email_is_required : bool) : result string (list FormValue) :=
  let? all_values := collect (map (read_form_attribute form_data)
    (List.filter (fun attr => negb (fa_is_readonly attr) && (is_admin || fa_is_editable attr)) schema)) in
  let? _ := if email_is_required then validate_email_attributes all_values else Ok tt in
  Ok all_values.

(** ** Creating a user *)

Record CreateUserForm := MkCreateUserForm {
  cu_username : string;
  cu_password : string;
  cu_confirm_password : string;
  cu_form_data : gmap string (list string);
  cu_attributes_schema : option (list FormAttribute);
  cu_encrypted_password : option string;
  cu_user_id : option string;
  cu_opaque_data : option ClientRegistration;
  cu_kerberos_info : option (option string);
  cu_kerberossync_enabled : bool;
  cu_selected_ou : string;
  cu_ous : list string;
  cu_posix_config : option PosixSwitches
}.

Inductive CreateUserMsg : Type :=
| CuUpdate
| ListAttributesResponse (r : result string (list FormAttribute))
| ListUserOusResponse (r : result string (list string))
| CuKerberosInfoResponse (r : result string (option string))
| PosixConfigResponse (r : result string PosixSwitches)
| SubmitForm
| CreateUserResponse (r : result string string)
| SuccessfulCreation
| CuRegistrationStartResponse (r : result string ServerRegistrationStartResponse)
| CuRegistrationFinishResponse (r : result string unit)
| CuSyncKerberosResponse (r : result string bool)
| ToggleKerberosSync (enabled : bool)
| OuChanged (ou : string).

(** The flags of the settings that are not loaded yet, or could not be. *)
Definition no_auto_assign : PosixSwitches := MkPosixSwitches false false false false false.

Definition cu_with (f : CreateUserForm) (schema : option (list FormAttribute)) (enc user_id : option string)
    (data : option ClientRegistration) (info : option (option string)) (sync : bool) (ou : string) (ous : list string)
    (posix : option PosixSwitches) : CreateUserForm :=
  MkCreateUserForm (cu_username f) (cu_password f) (cu_confirm_password f) (cu_form_data f) schema enc user_id data info
    sync ou ous posix.

Definition cu_set_schema x f := cu_with f x (cu_encrypted_password f) (cu_user_id f) (cu_opaque_data f)
  (cu_kerberos_info f) (cu_kerberossync_enabled f) (cu_selected_ou f) (cu_ous f) (cu_posix_config f).
Definition cu_set_encrypted_password x f := cu_with f (cu_attributes_schema f) x (cu_user_id f) (cu_opaque_data f)
  (cu_kerberos_info f) (cu_kerberossync_enabled f) (cu_selected_ou f) (cu_ous f) (cu_posix_config f).
Definition cu_set_user_id x f := cu_with f (cu_attributes_schema f) (cu_encrypted_password f) x (cu_opaque_data f)
  (cu_kerberos_info f) (cu_kerberossync_enabled f) (cu_selected_ou f) (cu_ous f) (cu_posix_config f).
Definition cu_set_opaque_data x f := cu_with f (cu_attributes_schema f) (cu_encrypted_password f) (cu_user_id f) x
  (cu_kerberos_info f) (cu_kerberossync_enabled f) (cu_selected_ou f) (cu_ous f) (cu_posix_config f).
Definition cu_set_kerberos_info x f := cu_with f (cu_attributes_schema f) (cu_encrypted_password f) (cu_user_id f)
  (cu_opaque_data f) x (cu_kerberossync_enabled f) (cu_selected_ou f) (cu_ous f) (cu_posix_config f).
Definition cu_set_kerberossync_enabled x f := cu_with f (cu_attributes_schema f) (cu_encrypted_password f) (cu_user_id f)
  (cu_opaque_data f) (cu_kerberos_info f) x (cu_selected_ou f) (cu_ous f) (cu_posix_config f).
Definition cu_set_selected_ou x f := cu_with f (cu_attributes_schema f) (cu_encrypted_password f) (cu_user_id f)
  (cu_opaque_data f) (cu_kerberos_info f) (cu_kerberossync_enabled f) x (cu_ous f) (cu_posix_config f).
Definition cu_set_ous x f := cu_with f (cu_attributes_schema f) (cu_encrypted_password f) (cu_user_id f)
  (cu_opaque_data f) (cu_kerberos_info f) (cu_kerberossync_enabled f) (cu_selected_ou f) x (cu_posix_config f).
Definition cu_set_posix_config x f := cu_with f (cu_attributes_schema f) (cu_encrypted_password f) (cu_user_id f)
  (cu_opaque_data f) (cu_kerberos_info f) (cu_kerberossync_enabled f) (cu_selected_ou f) (cu_ous f) x.

Definition create_user_validate (f : CreateUserForm) : bool :=
  length_min 1 (cu_username f) && length_min 8 (cu_password f) && String.eqb (cu_confirm_password f) (cu_password f).

(** The values of a name go into the field of their own: the last one that has a value. *)
Definition field_value (name : string) (all_values : list FormValue) : option string :=
  last (omap (fun a => if String.eqb (fv_name a) name then head (fv_values a) else None) all_values).

Definition own_field (name : string) : bool :=
  existsb (String.eqb name) ["mail"; "displayname"; "firstname"; "lastname"; "avatar"].

(** The others, but for the switch, which is appended with the organizational unit. *)
Definition form_attributes (all_values : list FormValue) (selected_ou : string) (kerberossync_enabled : bool)
  : list GraphQLAttributeValue :=
  map (fun a => MkGraphQLAttributeValue (fv_name a) (fv_values a))
    (List.filter (fun a => negb (own_field (fv_name a)) && negb (bool_decide (fv_values a = []))
       && negb (String.eqb (fv_name a) "kerberossync")) all_values)
  ++ [MkGraphQLAttributeValue "ou" [selected_ou];
      MkGraphQLAttributeValue "kerberossync" [if kerberossync_enabled then "1" else "0"]].

Definition user_of_form (f : CreateUserForm) (all_values : list FormValue) : WebUserInput := {|
  wu_id := cu_username f;
  wu_email := field_value "mail" all_values;
  wu_display_name := field_value "displayname" all_values;
  wu_first_name := field_value "firstname" all_values;
  wu_last_name := field_value "lastname" all_values;
  wu_avatar := field_value "avatar" all_values;
  wu_attributes := Some (form_attributes all_values (cu_selected_ou f) (cu_kerberossync_enabled f))
|}.

Notation cu_handler A := (io (Cx CreateUserForm CreateUserMsg) AppError A).

(** [str::is_char_boundary]: the byte there does not continue a character. *)
Definition is_char_boundary (i : nat) (s : string) : bool :=
  if Nat.eqb i 0 then true
  else match String.get i s with
  | Some c => negb ((128 <=? nat_of_ascii c)%nat && (nat_of_ascii c <? 192)%nat)
  | None => Nat.eqb i (String.length s)
  end.

(** A prefix of a long picture is logged, with the index of a slice. *)
Definition log_avatar (all_values : list FormValue) : cu_handler unit :=
  match find (fun a => String.eqb (fv_name a) "avatar") all_values with
  | Some avatar_attr =>
      let avatar_val := from_option id "" (head (fv_values avatar_attr)) in
      if (100 <? String.length avatar_val)%nat && negb (is_char_boundary 100 avatar_val) then
        io_lift (Err (AppPanicked "byte index 100 is not a char boundary"))
      else io_ret tt
  | None => io_ret tt
  end.

Definition create_user_submit : cu_handler bool :=
  let! form := get_self in
  if negb (create_user_validate form) then bail "Check the form for errors"
  else
    let! _ := modify (cu_set_encrypted_password None) in
    let! encrypted := encrypted_for_kdc (cu_kerberos_info form) (cu_password form) in
    let! _ := modify (cu_set_encrypted_password encrypted) in
    let! all_values := io_lift (map_err AppFailed
      (read_all_form_attributes (from_option id [] (cu_attributes_schema form)) (cu_form_data form) true true)) in
    let! _ := log_avatar all_values in
    let! _ := call_graphql (QCreateUser (user_of_form form all_values)) CreateUserResponse "Error trying to create user" in
    io_ret true.

(** [Msg::SuccessfulCreation] *)
Definition successful_creation : cu_handler bool :=
  let! _ := happen (Opened ListUsersPage) in io_ret true.

Definition create_user_handle_msg (msg : CreateUserMsg) : cu_handler bool :=
  match msg with
  | CuUpdate => io_ret true
  | ListAttributesResponse schema =>
      let! attributes := io_lift (map_err AppFailed schema) in
      let! _ := modify (cu_set_schema (Some attributes)) in
      let! _ := call_graphql GetKerberosInfo CuKerberosInfoResponse "Error trying to fetch Kerberos info" in
      let! _ := call_graphql GetPosixConfig PosixConfigResponse "Error trying to fetch POSIX config" in
      io_ret true
  | ListUserOusResponse ous =>
      let! ous := io_lift (map_err AppFailed ous) in
      let! _ := modify (cu_set_ous ous) in
      io_ret true
  | CuKerberosInfoResponse res =>
      let! info := io_lift (map_err AppFailed res) in
      let! _ := modify (cu_set_kerberos_info (Some info)) in
      io_ret true
  | PosixConfigResponse r =>
      let! _ := modify (fun f => cu_set_posix_config
        (Some (unwrap_or r (from_option id no_auto_assign (cu_posix_config f)))) f) in
      io_ret true
  | ToggleKerberosSync enabled => let! _ := modify (cu_set_kerberossync_enabled enabled) in io_ret true
  | OuChanged ou => let! _ := modify (cu_set_selected_ou ou) in io_ret true
  | SubmitForm => create_user_submit
  | CreateUserResponse res =>
      let! user_id := io_lift (map_err AppFailed res) in
      let! _ := modify (cu_set_user_id (Some user_id)) in
      let! form := get_self in
      let! rng := draw_app in
      let! start := io_lift (map_err (fun _ => AppFailed "Could not initiate registration")
        (client_start_registration (cu_password form) (coins rng))) in
      let! _ := modify (cu_set_opaque_data (Some (fst start))) in
      let! _ := call_backend (HRegisterStart (MkClientRegistrationStartRequest (UserId_new user_id) (snd start)))
        CuRegistrationStartResponse in
      io_ret false
  | CuRegistrationStartResponse res =>
      let! res := io_lift (map_err (fun _ => AppFailed "Could not initiate registration") res) in
      let! form := get_self in
      let! _ := modify (cu_set_opaque_data None) in
      let! registration := io_lift (ok_or (cu_opaque_data form) (AppPanicked "Missing registration data")) in
      let! rng := draw_app in
      let! registration_finish := io_lift (map_err (fun _ => AppFailed "Error during registration")
        (client_finish_registration registration (cu_password form) (rr_registration_response res) (coins rng))) in
      let! _ := call_backend (HRegisterFinish (MkClientRegistrationFinishRequest (rr_server_data res) registration_finish))
        CuRegistrationFinishResponse in
      io_ret false
  | CuRegistrationFinishResponse response =>
      let! _ := io_lift (map_err AppFailed response) in
      let! form := get_self in
      match cu_kerberossync_enabled form, cu_encrypted_password form with
      | true, Some enc_pw =>
          let! user_id := io_lift (ok_or (cu_user_id form) (AppPanicked "unwrap")) in
          let! _ := call_graphql (SyncKerberosPassword user_id enc_pw) CuSyncKerberosResponse
            "Error syncing Kerberos password" in
          io_ret false
      | _, _ => successful_creation
      end
  | CuSyncKerberosResponse response =>
      let! _ := io_lift (map_err AppFailed response) in
      successful_creation
  | SuccessfulCreation => successful_creation
  end.

Definition create_user_offers (cx : Cx CreateUserForm CreateUserMsg) (msg : CreateUserMsg) : bool :=
  let f := cx_self cx in
  match cu_attributes_schema f, cu_kerberos_info f, cu_posix_config f with
  | Some _, Some _, Some _ =>
      match msg with
      | CuUpdate | ToggleKerberosSync _ | OuChanged _ => true
      | SubmitForm => negb (is_task_running cx)
      | _ => false
      end
  | _, _, _ => false
  end.

(** The user types in the fields of the form and in those of the attributes. *)
Definition create_user_kind : Kind := {|
  kd_self := CreateUserForm;
  kd_msg := CreateUserMsg;
  kd_input := string * string * string * gmap string (list string);
  kd_handle := create_user_handle_msg;
  kd_offers := create_user_offers;
  kd_type_in := fun input f => MkCreateUserForm input.1.1.1 input.1.1.2 input.1.2 input.2 (cu_attributes_schema f)
    (cu_encrypted_password f) (cu_user_id f) (cu_opaque_data f) (cu_kerberos_info f) (cu_kerberossync_enabled f)
    (cu_selected_ou f) (cu_ous f) (cu_posix_config f)
|}.

Definition create_user_create (jar : Jar) : Cx CreateUserForm CreateUserMsg :=
  snd (io_bind (call_graphql GetUserAttributesSchema ListAttributesResponse "Error trying to fetch user schema")
    (fun _ => call_graphql ListOusQuery ListUserOusResponse "Error trying to fetch OUs")
    (common_create (MkCreateUserForm "" "" "" ∅ None None None None None true "people" ["people"] None) jar)).
End Forms.

(** ** The application (app.rs) *)

Record AppState := MkAppState {
  user_info : option (string * bool);
  redirect_to : option AppRoute;
  password_reset_enabled : option bool
}.

(** The page to open after logging in, if the address was one that needs it. *)
Definition get_redirect_route (route : option AppRoute) : option AppRoute :=
  match route with
  | Some (Index | RLoginPage | StartResetPassword | FinishResetPassword _) => None
  | _ => route
  end.

(** Who was logged in, by the cookies; an exception counts as nobody. *)
Definition remembered_user `{BrowserExtern} (jar : Jar) : option (string * bool) :=
  match fst (get_cookie "user_id" jar) with
  | Ok (Some u) =>
      match fst (get_cookie "is_admin" jar) with
      | Ok (Some s) => Some (u, String.eqb s "true")
      | _ => None
      end
  | _ => None
  end.

Definition home_page (user_name : string) (is_admin : bool) : AppRoute :=
  if is_admin then ListUsersPage else UserDetailsPage user_name.

(** The redirection at the start, if any. *)
Definition apply_initial_redirections (app : AppState) (route : option AppRoute) : option AppRoute :=
  match route, user_info app, redirect_to app with
  | Some (StartResetPassword | FinishResetPassword _), _, _ =>
      if bool_decide (password_reset_enabled app = Some false) then Some RLoginPage else None
  | None, _, _ | _, None, _ => Some RLoginPage
  | _, Some _, Some _ => None
  | _, Some (user_name, is_admin), None => Some (home_page user_name is_admin)
  end.

Definition app_create `{BrowserExtern} (jar : Jar) (route : option AppRoute) : AppState :=
  MkAppState (remembered_user jar) (get_redirect_route route) None.

Inductive AppMsg : Type :=
| AppLogin (user_name : string) (is_admin : bool)
| AppLogout
| SettingsReceived (r : result string bool).

(** The new state, and the page to open. *)
Definition app_update (app : AppState) (msg : AppMsg) : AppState * option AppRoute :=
  match msg with
  | AppLogin user_name is_admin =>
      (MkAppState (Some (user_name, is_admin)) None (password_reset_enabled app),
       Some (from_option id (home_page user_name is_admin) (redirect_to app)))
  | AppLogout => (MkAppState None None (password_reset_enabled app), Some RLoginPage)
  | SettingsReceived (Ok enabled) => (MkAppState (user_info app) (redirect_to app) (Some enabled), None)
  | SettingsReceived (Err _) => (app, None)
  end.

(** What a page is shown as: the component of the page, a redirection, or nothing while
    the settings are loaded. *)
Inductive Screen : Type :=
| ShowPage (route : AppRoute)
| RedirectTo (route : AppRoute)
| ShowNothing.

Definition dispatch_route (switch : AppRoute) (password_reset_enabled : option bool) : Screen :=
  match switch with
  | StartResetPassword | FinishResetPassword _ =>
      match password_reset_enabled with
      | Some true => ShowPage switch
      | Some false => RedirectTo RLoginPage
      | None => ShowNothing
      end
  | Index => ShowPage ListUsersPage
  | _ => ShowPage switch
  end.

(** ** The counter of the forms *)

Section Counters.
Context `{Extern, OpaqueExtern, BrowserExtern} (coins : nat -> Coins).

Ltac counts := repeat (count_step || case_match).

Lemma encrypted_counts {S M} info pw : keeps_count (S := S) (M := M) (encrypted_for_kdc info pw).
Proof. unfold encrypted_for_kdc. counts. Qed.

Lemma submit_new_counts username : keeps_count (submit_new_password coins username).
Proof. unfold submit_new_password. repeat (apply encrypted_counts || count_step || case_match). Qed.

Lemma reset_submit_counts : keeps_count (reset_step2_submit coins).
Proof. unfold reset_step2_submit. repeat (apply encrypted_counts || count_step || case_match). Qed.

Lemma create_submit_counts : keeps_count create_user_submit.
Proof. unfold create_user_submit, log_avatar, call_graphql. repeat (apply encrypted_counts || count_step || case_match). Qed.

(** In no form the counter of running tasks goes wrong, errors included: with
    [counter_exact], a form is never left with its button disabled for nothing. *)
Lemma forms_count_tasks username is_admin :
  (forall msg, keeps_count (login_handle_msg coins msg)) /\
  (forall msg, keeps_count (reset_step1_handle_msg msg)) /\
  (forall msg, keeps_count (change_password_handle_msg coins username is_admin msg)) /\
  (forall msg, keeps_count (reset_step2_handle_msg coins msg)) /\
  (forall msg, keeps_count (create_user_handle_msg coins msg)).
Proof.
  split_and!; intros []; simpl; unfold successful_creation, navigate_to_user_details, cp_take_opaque_data, call_graphql;
    repeat (apply submit_new_counts || apply reset_submit_counts || apply create_submit_counts || count_step || case_match).
Qed.
End Counters.

(** ** The application *)

(** Who is not remembered gets to the login page, unless the address is one of a reset;
    after logging in the page that was asked for is opened, once. *)
Lemma login_page_first app route :
  user_info app = None -> route <> Some StartResetPassword -> (forall t, route <> Some (FinishResetPassword t)) ->
  apply_initial_redirections app route = Some RLoginPage.
Proof. intros Hu H1 H2. unfold apply_initial_redirections. rewrite Hu. destruct route as [[]|]; naive_solver. Qed.

Lemma asked_page_after_login app u is_admin route :
  redirect_to app = Some route ->
  snd (app_update app (AppLogin u is_admin)) = Some route /\ redirect_to (fst (app_update app (AppLogin u is_admin))) = None.
Proof. intros Hr. simpl. by rewrite Hr. Qed.
