(* ===== verification/WebSite.v ===== *)
(** * The web front end and the server together

    [web_site] is the server the components of [WebForms] talk to: the routes of
    [AuthService], with the cookies the browser sends, the settings, and GraphQL behind
    its check of the token ([graphql_server.rs]); what a GraphQL request answers once it
    is let through is any function.

    The browser is assumed to send a cookie only to the paths it was set for
    (RFC 6265), and the claims read from a JWT without checking it are those a check
    gives.

    Theorems: the page a reset mail leads to never sets a password; the login form
    reports an identity only after the server answered a request of it with that
    identity; a user who is no administrator changes a password only after the server
    accepted the old one. *)

From S2P Require Import Prelude Strings Types Proto Database Access SqlConfig SqlUsers SqlOps Opaque AuthTokens AuthService.
From S2P Require Import WebApp WebForms.

Class CookieLaws `{BrowserExtern} := {
  cookie_received cs jar path name v :
    cookie_sent (receive_cookies cs jar) path name = Some v ->
    cookie_sent jar path name = Some v \/
    exists c, c ∈ cs /\ ck_name c = name /\ ck_value c = v /\ path_matches (ck_path c) path = true
}.

Class JwtParseLaws `{WebExtern, BrowserExtern} := {
  parse_verified k t a c : verify_with_key k t = Some (a, c) -> parse_unverified t = Some c
}.

Section Site.
Context `{Extern, LdapExtern, SqlExtern, OpaqueExtern, TokenExtern, WebExtern, BrowserExtern}.
Context (opaque_setup : ServerSetup) (config : AppConfig) (enable_password_reset : bool).
Context (reason : Z -> string).
Context (graphql : ValidationResults -> forall q : WebQuery,
           io Web string (HostAnswer (option (query_data q) * option (list string)))).

(** The request behind a call; actix decodes the path that [encode_query] encoded. *)
Definition host_auth (c : HostCall) (req : HttpRequest) : option AuthRequest :=
  match c with
  | HLoginStart r => Some (OpaqueLoginStart r)
  | HLoginFinish r => Some (OpaqueLoginFinish r)
  | HRegisterStart r => Some (RegisterStart req (Ok r))
  | HRegisterFinish r => Some (RegisterFinish req r)
  | HRefresh => Some (Refresh req)
  | HLogout => Some (Logout req)
  | HResetStep1 u => Some (ResetStep1 u)
  | HResetStep2 t => Some (ResetStep2 t)
  | HGraphql _ _ | HGetSettings => None
  end.

(** The answer, read as what the call expects. *)
Definition answer_json (c : HostCall) (a : Answer) : option (Parsed c) :=
  match c, a with
  | HLoginStart _, LoginStartAnswer r => Some r
  | HRegisterStart _, RegistrationStartAnswer r => Some r
  | (HLoginFinish _ | HRefresh), Response r =>
      match body r with ServerLoginResponse token _ => Some token | _ => None end
  | HResetStep2 _, Response r =>
      match body r with ServerPasswordResetResponse user_id _ => Some user_id | _ => None end
  | _, _ => None
  end.

Definition answer_status (a : Answer) : Z := match a with Response r => status r | _ => 200 end.
Definition answer_cookies (a : Answer) : list Cookie := match a with Response r => cookies r | _ => [] end.
Definition answer_text (a : Answer) : string :=
  match a with Response r => match body r with TextBody t => t | _ => "" end | _ => "" end.

Definition plain_answer {A} (status : Z) : HostAnswer A := MkHostAnswer status (reason status) "" None.

(** [graphql_route], behind [CookieToHeaderTranslatorFactory] *)
Definition graphql_site (q : WebQuery) (req : HttpRequest)
  : io Web string (HostAnswer (option (query_data q) * option (list string))) := fun w =>
  match cookie_to_header req with
  | None => (Ok (plain_answer 400), w)
  | Some req =>
      match graphql_identity config req w with
      | None => (Ok (plain_answer 401), w)
      | Some v => graphql v q w
      end
  end.

Definition auth_site (c : HostCall) (r : AuthRequest) : io Web string (HostAnswer (Parsed c) * list Cookie) := fun w =>
  let '(answer, w') := serve opaque_setup config enable_password_reset r w in
  (ok_or ((fun a => (MkHostAnswer (answer_status a) (reason (answer_status a)) (answer_text a) (answer_json c a),
                     answer_cookies a)) <$> answer) "connection closed", w').

Definition web_site (c : HostCall) (req : HttpRequest) : io Web string (HostAnswer (Parsed c) * list Cookie) :=
  match host_auth c req with
  | Some r => auth_site c r
  | None =>
      match c return io Web string (HostAnswer (Parsed c) * list Cookie) with
      | HGraphql q _ => let! a := graphql_site q req in io_ret (a, [])
      | HGetSettings => io_ret (MkHostAnswer 200 (reason 200) "" (Some enable_password_reset), [])
      | _ => io_fail "no such path"
      end
  end.

(** ** The page of a reset mail *)

Section Reset.
Context `{!CookieLaws} (coins : nat -> Coins) (token : string).

(** The front end is where the server thinks it is. *)
Context (Hpath : base_path config = app_base_url +:+ "/").

Notation api := (app_base_url +:+ "/api/graphql").

Definition no_session (jar : Jar) : Prop := cookie_sent jar api "token" = None.

Lemma reset_cookie_not_for_api : path_matches (base_path config +:+ "auth") api = false.
Proof.
  rewrite Hpath. unfold path_matches. apply orb_false_iff. split.
  - apply String.eqb_neq. intros He%(f_equal (drop_bytes (String.length app_base_url))).
    rewrite app_assoc_str, !drop_bytes_app in He. done.
  - apply andb_false_iff. left. apply not_true_is_false. intros [t Ht]%starts_with_iff.
    rewrite !app_assoc_str in Ht. apply (f_equal (drop_bytes (String.length app_base_url))) in Ht.
    rewrite !drop_bytes_app in Ht. done.
Qed.

(** What the token request sets is sent to the authentication service only. *)
Lemma reset_step2_cookies w resp w' :
  get_password_reset_step2 config token w = (Ok resp, w') ->
  forall c, c ∈ cookies resp -> ck_path c = base_path config +:+ "auth".
Proof.
  intros (found & w1 & _ & Hs)%io_bind_Ok c Hc. destruct found as [user_id|]; [|done].
  apply io_bind_Ok in Hs as (x & w2 & _ & Hs). apply io_bind_Ok in Hs as (jwt & w3 & _ & Hs).
  apply io_ret_Ok in Hs as [<- _]. by apply list_elem_of_singleton in Hc as ->.
Qed.

Lemma reset_site_cookies req w a cs w' :
  web_site (HResetStep2 token) req w = (Ok (a, cs), w') ->
  forall c, c ∈ cs -> path_matches (ck_path c) api = false.
Proof.
  unfold web_site, auth_site, serve. cbn [host_auth route]. intros Hs c Hc.
  destruct enable_password_reset.
  - destruct (io_bind _ _ w) as [[ans|[e|p]] w1] eqn:Es; simpl in Hs; [| |done]; injection Hs as <- <- <-.
    + apply io_bind_Ok in Es as (resp & w2 & Hr & [<- _]%io_ret_Ok).
      rewrite (reset_step2_cookies _ _ _ Hr c Hc). apply reset_cookie_not_for_api.
    + by apply elem_of_nil in Hc.
  - injection Hs as <- <- <-. by apply elem_of_nil in Hc.
Qed.

Lemma no_session_kept cs jar :
  no_session jar -> (forall c, c ∈ cs -> path_matches (ck_path c) api = false) -> no_session (receive_cookies cs jar).
Proof.
  intros Hj Hc. unfold no_session. destruct (cookie_sent _ _ _) as [v|] eqn:Es; [|done].
  apply cookie_received in Es as [Es|(c & Hin & _ & _ & Hm)]; [by rewrite Hj in Es|]. by rewrite (Hc c Hin) in Hm.
Qed.

(** The two futures of the page *)
Definition token_task (jar : Jar) : Task ResetStep2Msg := MkTask (HResetStep2 token) jar ValidateTokenResponse.
Definition kerberos_task (jar : Jar) : Task ResetStep2Msg :=
  MkTask (HGraphql GetKerberosInfo "Error fetching Kerberos info") jar R2KerberosInfoResponse.

Definition only_loads (c : HostCall) : Prop :=
  c = HResetStep2 token \/ c = HGraphql GetKerberosInfo "Error fetching Kerberos info".

(** What stays true of the page *)
Record waiting (l : Live (World := Web) (reset_step2_kind coins)) : Prop := {
  wt_self : r2_kerberos_info (cx_self (lv_cx l)) = None;
  wt_page : r2_kerberos_info (cx_self (lv_page l)) = None;
  wt_jar : no_session (cx_jar (lv_cx l));
  wt_tasks : forall t, t ∈ cx_tasks (lv_cx l) ->
    exists jar, no_session jar /\ (t = token_task jar \/ t = kerberos_task jar);
  wt_log : forall c, Sent c ∈ cx_log (lv_cx l) -> only_loads c
}.

Lemma kerberos_refused jar w jar0 :
  no_session jar ->
  exists e, host_service web_site (HGraphql GetKerberosInfo "Error fetching Kerberos info") jar (w, jar0)
    = (Err (AppFailed e), (w, receive_cookies [] jar0)).
Proof.
  intros Hj. unfold host_service, call_server_json_with_error_message, call_server, send_request, io_bind.
  unfold web_site, graphql_site, host_request, cookie_to_header, graphql_identity, authenticate. simpl.
  unfold no_session in Hj. unfold host_url. rewrite Hj. simpl. by eexists.
Qed.
Notation page_live := (Live (World := Web) (reset_step2_kind coins)).

Lemma waiting_start jar w :
  no_session jar -> waiting (opened (reset_step2_kind coins) w (reset_step2_create token jar)).
Proof.
  intros Hj. constructor; simpl; try done.
  - intros t [->|[->|[]%elem_of_nil]%elem_of_cons]%elem_of_cons; exists jar; unfold token_task, kerberos_task; auto.
  - intros c [Hc|[Hc|[]%elem_of_nil]%elem_of_cons]%elem_of_cons; injection Hc as ->; unfold only_loads; auto.
Qed.

(** The end of either future leaves the page waiting. *)
Lemma waiting_task (l : page_live) i t l' :
  waiting l -> cx_tasks (lv_cx l) !! i = Some t ->
  (let '(msg, w', cx') := finish_task web_site i t (lv_world l) (lv_cx l) in
   update_live (reset_step2_kind coins) msg w' cx' (lv_page l)) = Ok l' -> waiting l'.
Proof.
  intros [Hs Hp Hj Ht Hl] Hi Hu.
  destruct (Ht t (list_elem_of_lookup_2 _ _ _ Hi)) as (jar & Hjar & [->| ->]); unfold finish_task in Hu; cbn [tk_call tk_cookies tk_callback token_task kerberos_task] in Hu.
  - destruct (host_service web_site (HResetStep2 token) jar _) as [r [w' jar']] eqn:Eh.
    assert (no_session jar') as Hj'.
    { apply (call_server_json_jar web_site (HResetStep2 token)) in Eh as (res & Hres & ->). destruct res as [[a cs]|e]; [|done].
      apply no_session_kept; [done|]. by eapply reset_site_cookies. }
    unfold update_live, common_update in Hu. cbn [kd_handle reset_step2_kind reset_step2_handle_msg] in Hu.
    destruct r as [u|[e|e]]; simpl in Hu; injection Hu as <-; constructor; simpl; try done;
      try (intros t' Ht'%list_elem_of_delete_inv; by apply Ht);
      intros c [Hc|[[=]|[]%elem_of_nil]%elem_of_cons]%elem_of_app; by apply Hl.
  - destruct (kerberos_refused jar (lv_world l) (cx_jar (lv_cx l)) Hjar) as [e He].
    unfold kerberos_task in Hu. cbn [tk_call tk_cookies tk_callback] in Hu. rewrite He in Hu.
    unfold update_live, common_update in Hu. simpl in Hu. injection Hu as <-. constructor; simpl; try done.
    + apply no_session_kept; [done|]. by intros c []%elem_of_nil.
    + intros t' Ht'%list_elem_of_delete_inv. by apply Ht.
    + intros c [Hc|[[=]|[]%elem_of_nil]%elem_of_cons]%elem_of_app. by apply Hl.
Qed.

Lemma waiting_offers_nothing (l : page_live) msg : waiting l -> kd_offers (reset_step2_kind coins) (lv_page l) msg = false.
Proof.
  intros [_ Hp _ _ _]. simpl in *. unfold reset_step2_offers. rewrite Hp. by destruct (r2_username _).
Qed.

Lemma waiting_step (l l' : page_live) : waiting l -> happens _ web_site l (Ok l') -> waiting l'.
Proof.
  intros Hw Hh. inversion Hh as [msg Ho Hl|input Hl|Hl|i t Ht Hl|w' Hl]; [| | |by eapply waiting_task|];
    try (destruct Hw; by constructor).
  by rewrite (waiting_offers_nothing l msg Hw) in Ho.
Qed.

(** C38: the page a reset mail leads to, opened by somebody who is not logged in, asks for
    information on Kerberos at a path its cookie is not sent to, is refused, and keeps
    showing that it loads: whatever happens, it offers nothing to do and sends nothing but
    these two requests, so a password is never reset. *)
Theorem mailed_reset_never_ends jar w (l : page_live) :
  no_session jar ->
  reachable _ web_site (opened (reset_step2_kind coins) w (reset_step2_create token jar)) l ->
  (forall msg, kd_offers (reset_step2_kind coins) (lv_page l) msg = false) /\
  (forall c, Sent c ∈ cx_log (lv_cx l) -> only_loads c).
Proof.
  intros Hj Hr.
  assert (waiting l) as Hw by (eapply invariant_holds; [by apply waiting_start|intros l0 l1 _; apply waiting_step|exact Hr]).
  split; [intros msg; by apply waiting_offers_nothing|apply Hw].
Qed.
End Reset.

(** ** The login form *)

Section Login.
Context `{!WebLaws, !JwtParseLaws} (coins : nat -> Coins).

Definition login_request (r : AuthRequest) : Prop :=
  match r with OpaqueLoginFinish _ | Refresh _ => True | _ => False end.

(** In this state the server answers the request, to log in or to renew a session, with a
    JWT that holds the name and, exactly for an administrator, the group. *)
Definition identity_answered (r : AuthRequest) (w : Web) (user : string) (is_admin : bool) : Prop :=
  exists resp w' token refresh claims,
    login_request r /\ serve opaque_setup config enable_password_reset r w = (Some (Response resp), w') /\
    body resp = ServerLoginResponse token refresh /\
    verify_with_key (jwt_key config) token = Some (Hs512, claims) /\
    user = claim_user claims /\ is_admin = bool_decide ("lldap_admin" ∈ claim_groups claims).

(** The same of the request a future of the page makes. *)
Definition task_answered {M} (t : Task M) (w : Web) (user : string) (is_admin : bool) : Prop :=
  exists r, host_auth (tk_call t) (host_request (tk_cookies t) (tk_call t)) = Some r /\
    identity_answered r w user is_admin.

(** The token verifies. *)
Definition token_of_server (token : string) : Prop :=
  exists claims, verify_with_key (jwt_key config) token = Some (Hs512, claims).

Lemma created_token u gs w token w' : create_jwt config u gs w = (Ok token, w') -> token_of_server token.
Proof. intros [(i & j & Hv) _]%create_jwt_Ok. by eexists. Qed.

Lemma login_successful_token name w resp w' token refresh :
  get_login_successful_response config name w = (Ok resp, w') ->
  body resp = ServerLoginResponse token refresh -> token_of_server token.
Proof.
  intros (groups & w1 & _ & Hs)%io_bind_Ok Hb. apply io_bind_Ok in Hs as ((rt & age) & w2 & _ & Hs).
  apply io_bind_Ok in Hs as (t & w3 & Hj & Hs). apply io_ret_Ok in Hs as [<- _]. injection Hb as <- _.
  by eapply created_token.
Qed.

Lemma refresh_token req w resp w' token refresh :
  get_refresh config req w = (Ok resp, w') -> body resp = ServerLoginResponse token refresh -> token_of_server token.
Proof.
  intros ([h u] & w1 & _ & Hs)%io_bind_Ok Hb. apply io_bind_Ok in Hs as (found & w2 & _ & Hs).
  destruct found; [|done]. apply io_bind_Ok in Hs as (groups & w3 & _ & Hs).
  apply io_bind_Ok in Hs as (t & w4 & Hj & Hs). apply io_ret_Ok in Hs as [<- _]. injection Hb as <- _.
  by eapply created_token.
Qed.

(** A token the server answers with verifies. *)
Lemma served_token r w resp w' token refresh :
  login_request r -> serve opaque_setup config enable_password_reset r w = (Some (Response resp), w') ->
  body resp = ServerLoginResponse token refresh -> token_of_server token.
Proof.
  intros Hr Hs Hb. unfold serve in Hs. destruct r; try done; cbn [route] in Hs;
    (destruct (io_bind _ _ w) as [[ans|[e|p]] w1] eqn:Es; [| |done]; injection Hs as Ha _; [subst ans|by subst resp]);
    apply io_bind_Ok in Es as (resp1 & w2 & Hr1 & [[= <-] _]%io_ret_Ok).
  - apply io_bind_Ok in Hr1 as (name & w3 & _ & Hr1). by eapply login_successful_token.
  - by eapply refresh_token.
Qed.

(** What the script reads from a token is the identity in it. *)
Lemma claims_identity r w resp w' token refresh user is_admin jar jar' :
  login_request r -> serve opaque_setup config enable_password_reset r w = (Some (Response resp), w') ->
  body resp = ServerLoginResponse token refresh ->
  set_cookies_from_jwt token jar = (Ok (user, is_admin), jar') -> identity_answered r w user is_admin.
Proof.
  intros Hr Hw Hb Hs. destruct (served_token _ _ _ _ _ _ Hr Hw Hb) as [claims Hv].
  pose proof (parse_verified _ _ _ _ Hv) as Hp. unfold set_cookies_from_jwt in Hs. rewrite Hp in Hs.
  apply io_bind_Ok in Hs as ([] & j1 & _ & Hs). apply io_bind_Ok in Hs as (x & j2 & _ & Hs).
  apply io_ret_Ok in Hs as [[= <- <-] _]. by exists resp, w', token, refresh, claims.
Qed.

Lemma on_jar_Ok {A} (m : cookie_io A) (s : Web * Jar) a s' : on_jar m s = (Ok a, s') -> exists jar jar', m jar = (Ok a, jar').
Proof. destruct s as [w jar]. unfold on_jar. destruct (m jar) as [r jar'] eqn:Em. intros [= -> _]. by exists jar, jar'. Qed.

(** The answer to a call is one of [serve]. *)
Lemma auth_site_Ok c r w answer cs w' :
  auth_site c r w = (Ok (answer, cs), w') ->
  exists a, serve opaque_setup config enable_password_reset r w = (Some a, w') /\ ha_json answer = answer_json c a.
Proof.
  unfold auth_site. destruct (serve _ _ _ _ _) as [[a|] w1]; intros [= <- _ <-]. by exists a.
Qed.

Lemma refresh_identity sent_with w jar user s' :
  host_service web_site HRefresh sent_with (w, jar) = (Ok user, s') ->
  identity_answered (Refresh (host_request sent_with HRefresh)) w (fst user) (snd user).
Proof.
  intros (token & s1 & Hc & (j1 & j2 & Hs)%on_jar_Ok)%io_bind_Ok.
  apply (call_server_json_Ok web_site HRefresh) in Hc as (answer & cs & w1 & Hc & Ht).
  apply auth_site_Ok in Hc as (a & Ha & Hj).
  rewrite Ht in Hj. destruct a as [resp| |]; simpl in Hj; try done. destruct (body resp) eqn:Eb; try done.
  injection Hj as <-. destruct user as [u ad]. simpl. by eapply claims_identity; [|exact Ha|exact Eb|exact Hs].
Qed.

Lemma finish_identity r sent_with w jar user s' :
  host_service web_site (HLoginFinish r) sent_with (w, jar) = (Ok user, s') ->
  identity_answered (OpaqueLoginFinish r) w (fst user) (snd user).
Proof.
  intros (token & s1 & Hc & (j1 & j2 & Hs)%on_jar_Ok)%io_bind_Ok.
  apply (call_server_json_Ok web_site (HLoginFinish r)) in Hc as (answer & cs & w1 & Hc & Ht).
  apply auth_site_Ok in Hc as (a & Ha & Hj).
  rewrite Ht in Hj. destruct a as [resp| |]; simpl in Hj; try done. destruct (body resp) eqn:Eb; try done.
  injection Hj as <-. destruct user as [u ad]. simpl. by eapply claims_identity; [|exact Ha|exact Eb|exact Hs].
Qed.

(** *** Messages and what they add to the log *)

(** The identity a message carries *)
Definition carries (msg : LoginMsg) : option (string * bool) :=
  match msg with
  | LoRefreshResponse (Ok user) | LoFinishResponse (Ok user) => Some user
  | _ => None
  end.

(** The futures of the form are the three requests, and they were sent. *)
Definition login_task (t : Task LoginMsg) : Prop :=
  (exists jar, t = MkTask HRefresh jar LoRefreshResponse) \/
  (exists r jar st, t = MkTask (HLoginStart r) jar (LoStartResponse st)) \/
  (exists r jar, t = MkTask (HLoginFinish r) jar LoFinishResponse).

Definition login_tasks (cx : Cx LoginForm LoginMsg) : Prop :=
  forall t, t ∈ cx_tasks cx -> login_task t /\ Sent (tk_call t) ∈ cx_log cx.

Definition adds (msg : LoginMsg) (log log' : list Happening) : Prop :=
  exists added, log' = log ++ added /\
  match carries msg with
  | Some (user, is_admin) => added = [LoggedIn user is_admin]
  | None => forall user is_admin, LoggedIn user is_admin ∉ added
  end.

Lemma adds_nothing msg log : carries msg = None -> adds msg log log.
Proof. intros Hc. exists []. rewrite app_nil_r, Hc. split; [done|]. by intros u a []%elem_of_nil. Qed.

Lemma tasks_kept cx cx' added :
  login_tasks cx -> cx_tasks cx' = cx_tasks cx -> cx_log cx' = cx_log cx ++ added -> login_tasks cx'.
Proof. intros Ht Et El t Hin. rewrite Et in Hin. apply Ht in Hin as [? ?]. rewrite El. set_solver. Qed.

Lemma sends cx c k msg :
  login_tasks cx -> (forall jar, login_task (MkTask c jar k)) -> carries msg = None ->
  login_tasks (snd (call_backend c k cx)) /\ adds msg (cx_log cx) (cx_log (snd (call_backend c k cx))).
Proof.
  intros Ht Hc Hm. split.
  - intros t. simpl. intros [[? ?]%Ht|[->|[]%elem_of_nil]%elem_of_cons]%elem_of_app; simpl; split; auto; set_solver.
  - exists [Sent c]. rewrite Hm. split; [done|]. by intros u a [[=]|[]%elem_of_nil]%elem_of_cons.
Qed.

(** What handling a message does to the futures and to the log *)
Lemma login_handles cx msg :
  login_tasks cx ->
  login_tasks (snd (login_handle_msg coins msg cx)) /\
  adds msg (cx_log cx) (cx_log (snd (login_handle_msg coins msg cx))).
Proof.
  intros Hc. destruct msg as [| |r|st r|r]; simpl.
  - split; [done|]. by apply adds_nothing.
  - unfold io_bind, get_self. destruct (negb _); [split; [done|by apply adds_nothing]|]. simpl. unfold io_lift.
    destruct (map_err _ _) as [start|]; [|split; [done|by apply adds_nothing]]. simpl.
    apply (sends (snd (draw_app cx))); [done| |done]. intros jar. right. left. by eexists _, _, _.
  - destruct r as [[u a]|e]; simpl.
    + split; [|by exists [LoggedIn u a]]. by eapply tasks_kept.
    + split; [done|]. by apply adds_nothing.
  - destruct r as [r|e]; [|split; [done|by apply adds_nothing]]. unfold io_bind, get_self, draw_app. simpl.
    destruct (client_finish_login _ _ _ _) as [f|]; [|split; [done|by apply adds_nothing]].
    apply (sends (snd (draw_app cx))); [done| |done]. intros jar. right. right. by eexists _, _.
  - destruct r as [[u a]|e]; simpl.
    + split; [|by exists [LoggedIn u a]]. by eapply tasks_kept.
    + split; [done|]. by apply adds_nothing.
Qed.

Lemma login_updates cx msg render cx' :
  login_tasks cx -> common_update (login_handle_msg coins) msg cx = (Ok render, cx') ->
  login_tasks cx' /\ adds msg (cx_log cx) (cx_log cx').
Proof.
  intros Hc Hu. unfold common_update in Hu.
  destruct (login_handles (snd (set_error None cx)) msg Hc) as [Ht Ha].
  destruct (login_handle_msg _ _ _) as [[b|[e|p]] cx1]; simplify_eq; by split.
Qed.

(** The end of a future *)
Lemma finish_login i t w cx msg w' cx' :
  login_tasks cx -> cx_tasks cx !! i = Some t -> finish_task web_site i t w cx = (msg, w', cx') ->
  login_tasks cx' /\
  exists ok, cx_log cx' = cx_log cx ++ [Answered (tk_call t) ok] /\
    forall user is_admin, carries msg = Some (user, is_admin) -> ok = true /\ task_answered t w user is_admin.
Proof.
  intros Ht Hi Hf. unfold finish_task in Hf.
  destruct (host_service _ _ _ _) as [r [w1 jar]] eqn:Eh. injection Hf as <- <- <-. split.
  - intros t'. simpl. intros [? ?]%list_elem_of_delete_inv%Ht. split; [done|]. set_solver.
  - eexists. split; [done|]. intros user is_admin Hc.
    destruct (Ht t (list_elem_of_lookup_2 _ _ _ Hi)) as [[[j ->]|[(q & j & st & ->)|(q & j & ->)]] _];
      cbn [tk_call tk_cookies tk_callback] in *.
    + destruct r as [[u a]|e]; simpl in Hc; simplify_eq. split; [done|]. apply refresh_identity in Eh.
      by eexists.
    + by destruct r.
    + destruct r as [[u a]|e]; simpl in Hc; simplify_eq. split; [done|]. apply finish_identity in Eh.
      by eexists.
Qed.

(** *** Runs of the form *)

Notation login_live := (Live (World := Web) (login_kind coins)).

(** In the run, at some point, the answer to a request that was in flight carried the
    identity, and the form reported it at once. *)
Definition reported (run : list login_live) (user : string) (is_admin : bool) : Prop :=
  exists before l1 l2 after i t,
    run = before ++ l1 :: l2 :: after /\
    cx_tasks (lv_cx l1) !! i = Some t /\ Sent (tk_call t) ∈ cx_log (lv_cx l1) /\
    task_answered t (lv_world l1) user is_admin /\
    cx_log (lv_cx l2) = cx_log (lv_cx l1) ++ [Answered (tk_call t) true; LoggedIn user is_admin].

Lemma reported_longer run l user is_admin : reported run user is_admin -> reported (run ++ [l]) user is_admin.
Proof.
  intros (before & l1 & l2 & after & i & t & -> & Hrest). exists before, l1, l2, (after ++ [l]), i, t.
  split; [|done]. by rewrite <- app_assoc.
Qed.

(** One step adds no report, or one of the answer that came. *)
Lemma login_step past (l l' : login_live) :
  login_tasks (lv_cx l) -> happens _ web_site l (Ok l') ->
  login_tasks (lv_cx l') /\
  forall user is_admin, LoggedIn user is_admin ∈ cx_log (lv_cx l') ->
    LoggedIn user is_admin ∈ cx_log (lv_cx l) \/ reported (past ++ [l; l']) user is_admin.
Proof.
  intros Ht Hh. inversion Hh as [msg Ho Hl|input Hl|Hl|i t Hi Hl|w' Hl]; try (split; [exact Ht|auto]; fail).
  - unfold update_live in Hl. destruct (common_update _ _ _) as [[b|p] cx'] eqn:Eu; [|done]. injection Hl as <-.
    apply login_updates in Eu as [Ht' (added & Ha & Hm)]; [|done]. split; [done|]. intros u a.
    simpl. rewrite Ha. intros [?|Hin]%elem_of_app; [by left|]. exfalso.
    assert (carries msg = None) as Hc; [|rewrite Hc in Hm; by eapply Hm].
    simpl in Ho. unfold login_offers in Ho. destruct msg as [| |[]| |[]]; try done; by destruct (lo_refreshing _).
  - destruct (finish_task _ _ _ _ _) as [[msg w'] cx'] eqn:Ef.
    apply finish_login in Ef as (Ht1 & ok & Hlog & Hc); [|done..].
    unfold update_live in Hl. destruct (common_update _ _ _) as [[b|p] cx''] eqn:Eu; [|done]. injection Hl as <-.
    apply login_updates in Eu as [Ht' (added & Ha & Hm)]; [|done]. split; [done|]. intros u a. simpl.
    rewrite Ha, Hlog. intros [[?|[[=]|[]%elem_of_nil]%elem_of_cons]%elem_of_app|Hin]%elem_of_app; [by left|].
    destruct (carries msg) as [[u' a']|] eqn:Ec; [|by destruct (Hm _ _ Hin)]. subst added.
    apply list_elem_of_singleton in Hin as [= -> ->]. destruct (Hc _ _ eq_refl) as [-> Hans]. right.
    exists past, l. eexists _, [], i, t. split; [done|]. split_and!; [done| |done|].
    + by eapply Ht, list_elem_of_lookup_2.
    + simpl. by rewrite Ha, Hlog, <- app_assoc.
Qed.

(** C35: whatever the user does in the login form and in whichever order the answers arrive,
    each identity it reports as logged in was reported at a point of this very run where
    the answer to a request the form had sent, to log in or to renew a session, arrived:
    the server answered that request, in its state at that moment, with a JWT that holds
    that name and, exactly for an administrator, the group. *)
Theorem login_reports_server_identity jar w past (l : login_live) user is_admin :
  history _ web_site (opened (login_kind coins) w (login_create jar)) past l ->
  LoggedIn user is_admin ∈ cx_log (lv_cx l) -> reported (past ++ [l]) user is_admin.
Proof.
  intros Hr. enough (login_tasks (lv_cx l) /\ forall u a, LoggedIn u a ∈ cx_log (lv_cx l) -> reported (past ++ [l]) u a)
    as [_ Hs] by apply Hs.
  induction Hr as [|past l l' _ [Ht IH] Hh].
  - split; simpl.
    + intros t [->|[]%elem_of_nil]%elem_of_cons. split; [left; by eexists|by left].
    + by intros u a [[=]|[]%elem_of_nil]%elem_of_cons.
  - destruct (login_step past l l' Ht Hh) as [Ht' Hstep]. split; [done|]. intros u a Hin.
    destruct (Hstep u a Hin) as [Hold|Hnew].
    + by apply reported_longer, IH.
    + by rewrite <- app_assoc.
Qed.
End Login.
End Site.

(** ** Changing the own password *)

Section OldPassword.
Context `{Extern, OpaqueExtern, BrowserExtern} (coins : nat -> Coins) (username : string).

Notation cp_cx := (Cx ChangePasswordForm ChangePasswordMsg).

(** A login of the user was started with success, and one was finished with success. *)
Definition login_started (log : list Happening) : Prop :=
  exists r, ls_username r = UserId_new username /\ Answered (HLoginStart r) true ∈ log.
Definition login_finished (log : list Happening) : Prop := exists r, Answered (HLoginFinish r) true ∈ log.

Definition password_checked (log : list Happening) : Prop := login_started log /\ login_finished log.

Definition checked_before (log : list Happening) : Prop :=
  forall before r after, log = before ++ Sent (HRegisterStart r) :: after ->
    rs_username r = UserId_new username /\ password_checked before.

Definition cp_callback (log : list Happening) (c : HostCall) : (result string (HostReply c) -> ChangePasswordMsg) -> Prop :=
  match c return (result string (HostReply c) -> ChangePasswordMsg) -> Prop with
  | HLoginStart r => fun k => ls_username r = UserId_new username /\ k = CpLoginStartResponse
  | HLoginFinish r => fun k => login_started log /\ k = CpLoginFinishResponse
  | HRegisterStart r => fun k => k = CpRegistrationStartResponse
  | HRegisterFinish r => fun k => k = CpRegistrationFinishResponse
  | HGraphql q m => fun k => forall r, (exists i, k r = CpKerberosInfoResponse i) \/ (exists i, k r = CpSyncKerberosResponse i)
  | _ => fun _ => False
  end.

Definition cp_task (log : list Happening) (t : Task ChangePasswordMsg) : Prop := cp_callback log (tk_call t) (tk_callback t).

Definition cp_sound (cx : cp_cx) : Prop :=
  (forall t, t ∈ cx_tasks cx -> cp_task (cx_log cx) t) /\ checked_before (cx_log cx).

Definition cp_message (log : list Happening) (msg : ChangePasswordMsg) : Prop :=
  match msg with
  | CpLoginStartResponse (Ok _) => login_started log
  | CpLoginFinishResponse (Ok _) => password_checked log
  | CpSubmitNewPassword => False
  | _ => True
  end.

Lemma started_grows log log' : login_started log -> login_started (log ++ log').
Proof. intros (r & Hr & Hin). exists r. split; [done|]. apply elem_of_app. by left. Qed.

Lemma cp_task_grows log log' t : cp_task log t -> cp_task (log ++ log') t.
Proof.
  unfold cp_task. destruct t as [c j k]. simpl. destruct c; simpl; try done. intros [Hl ->]. split; [|done].
  by apply started_grows.
Qed.

Lemma checked_snoc log h :
  checked_before log ->
  (forall r, h = Sent (HRegisterStart r) -> rs_username r = UserId_new username /\ password_checked log) ->
  checked_before (log ++ [h]).
Proof.
  intros Hl Hh before r after He. destruct after as [|x after _] using rev_ind.
  - apply app_inj_tail in He as [-> ->]. by apply Hh.
  - rewrite app_comm_cons, app_assoc in He. apply app_inj_tail in He as [-> _]. by eapply Hl.
Qed.

(** What neither sends nor reports anything leaves all of this alone. *)
Definition quiet_part (cx : cp_cx) : list (Task ChangePasswordMsg) * list Happening := (cx_tasks cx, cx_log cx).

Lemma sound_quiet cx cx' : quiet_part cx' = quiet_part cx -> cp_sound cx -> cp_sound cx'.
Proof. unfold quiet_part, cp_sound. by intros [= -> ->]. Qed.

Lemma sound_bind_quiet {A B} (m : io cp_cx AppError A) (k : A -> io cp_cx AppError B) cx :
  preserves quiet_part m -> cp_sound cx ->
  (forall a cx1, cx_log cx1 = cx_log cx -> cp_sound cx1 -> cp_sound (snd (k a cx1))) ->
  cp_sound (snd (io_bind m k cx)).
Proof.
  intros Hq Hs Hk. unfold io_bind. specialize (Hq cx). destruct (m cx) as [[a|e] cx1]; simpl in *.
  - apply Hk; [by injection Hq|by eapply sound_quiet].
  - by eapply sound_quiet.
Qed.

Lemma sound_call_cp cx c k :
  cp_sound cx -> (forall j, cp_task (cx_log cx) (MkTask c j k)) ->
  (forall r, c = HRegisterStart r -> rs_username r = UserId_new username /\ password_checked (cx_log cx)) ->
  cp_sound (snd (call_backend c k cx)).
Proof.
  intros [Ht Hl] Hc Hr. split; simpl.
  - intros t [Hin|[->|[]%elem_of_nil]%elem_of_cons]%elem_of_app; apply cp_task_grows; auto.
  - apply checked_snoc; [done|]. intros r [= Hq]. by apply Hr.
Qed.

Lemma quiet_self : preserves quiet_part get_self.
Proof. by intros cx. Qed.
Lemma quiet_modify f : preserves quiet_part (modify f).
Proof. by intros cx. Qed.
Lemma quiet_draw : preserves quiet_part draw_app.
Proof. by intros cx. Qed.
Lemma quiet_happen r : cp_sound r -> forall route, cp_sound (snd (happen (Opened route) r)).
Proof.
  intros [Ht Hl] route. split; simpl; [|by apply checked_snoc].
  intros t Hin. by apply cp_task_grows, Ht.
Qed.

Lemma quiet_encrypted info pw : preserves quiet_part (encrypted_for_kdc (S := ChangePasswordForm) info pw).
Proof.
  intros cx. unfold encrypted_for_kdc. destruct info as [[key|]|]; [|done|done].
  unfold io_bind. simpl. by destruct (encrypt_password _ _ _).
Qed.

Lemma quiet_take : preserves quiet_part cp_take_opaque_data.
Proof. by intros cx. Qed.

Hint Resolve quiet_self quiet_modify quiet_draw quiet_encrypted quiet_take preserves_lift : quiet.

Ltac quiet_bind := apply sound_bind_quiet; [solve [eauto with quiet]|assumption|intros ? ? ?Hq ?Hs].

(** The last step of a handler is a call. *)
Lemma sound_last_call cx c k (b : bool) :
  cp_sound (snd (call_backend c k cx)) -> cp_sound (snd (io_bind (call_backend c k) (fun _ => io_ret b) cx)).
Proof. done. Qed.

Lemma submit_sound cx :
  cp_sound cx -> password_checked (cx_log cx) -> cp_sound (snd (submit_new_password coins username cx)).
Proof.
  intros Hs Hc. unfold submit_new_password. repeat quiet_bind.
  match goal with |- context [match ?e with Some _ => _ | None => _ end] => destruct e as [enc|]; [|done] end.
  repeat quiet_bind. apply sound_last_call, sound_call_cp; [done|done|].
  intros r [= <-]. split; [done|]. match goal with |- password_checked (cx_log ?c) => by assert (cx_log c = cx_log cx) as -> by congruence end.
Qed.

Lemma cp_handles cx msg :
  cp_sound cx -> cp_message (cx_log cx) msg -> cp_sound (snd (change_password_handle_msg coins username false msg cx)).
Proof.
  intros Hs Hm. destruct msg as [| |r|r|r|r|r|r|]; cbn [change_password_handle_msg].
  - done.
  - repeat quiet_bind. destruct (negb _); [done|]. destruct (String.eqb _ _); [done|]. repeat quiet_bind.
    by apply sound_last_call, sound_call_cp.
  - destruct r as [r|e]; [|done]. repeat quiet_bind. destruct a0; try done. repeat quiet_bind.
    apply sound_last_call, sound_call_cp; [done| |done]. intros j. split; [|done].
    match goal with |- login_started (cx_log ?c) => by assert (cx_log c = cx_log cx) as -> by congruence end.
  - destruct r as [u|e]; [|done]. quiet_bind. apply submit_sound; [done|].
    match goal with Hl : cx_log _ = _ |- _ => by rewrite Hl end.
  - destruct r as [r|e]; [|done]. repeat quiet_bind. destruct a0; try done. repeat quiet_bind.
    by apply sound_last_call, sound_call_cp.
  - repeat quiet_bind. destruct (cp_encrypted_password _) as [enc|].
    + apply sound_last_call, sound_call_cp; [done| |done]. intros j r1. right. by eexists.
    + by apply quiet_happen.
  - repeat quiet_bind. done.
  - repeat quiet_bind. by apply quiet_happen.
  - done.
Qed.

Notation cp_kind := (change_password_kind coins username false).

Lemma cp_updates msg cx render cx' :
  cp_sound cx -> cp_message (cx_log cx) msg ->
  common_update (change_password_handle_msg coins username false) msg cx = (Ok render, cx') -> cp_sound cx'.
Proof.
  intros Hs Hm Hu. unfold common_update in Hu. pose proof (cp_handles (snd (set_error None cx)) msg Hs Hm) as Hh.
  destruct (change_password_handle_msg _ _ _ _ _) as [[b|[e|p]] cx1]; simplify_eq; exact Hh.
Qed.

Context {World : Type}.
Context (http : forall c : HostCall, HttpRequest -> io World string (HostAnswer (Parsed c) * list Cookie)).

Lemma cp_finish i t w cx msg w' cx' :
  cp_sound cx -> cx_tasks cx !! i = Some t -> finish_task http i t w cx = (msg, w', cx') ->
  cp_message (cx_log cx') msg /\ cp_sound cx'.
Proof.
  intros [Ht Hl] Hi Hf. unfold finish_task in Hf.
  destruct (host_service _ _ _ _) as [r [w1 jar]] eqn:Eh. injection Hf as <- <- <-. split; [|split]; cbn [cx_log cx_tasks].
  - specialize (Ht t (list_elem_of_lookup_2 _ _ _ Hi)). destruct t as [c j k]. unfold cp_task in Ht. cbn [tk_call tk_callback tk_cookies] in *.
    destruct c; try done.
    + by destruct (Ht (map_err (fun e => match e with AppFailed m => m | AppPanicked m => m end) r)) as [[x ->]|[x ->]].
    + destruct Ht as [Hu ->]. destruct r as [r'|e]; [|done]. exists r0. split; [done|]. apply elem_of_app. right. by left.
    + destruct Ht as [Hu ->]. destruct r as [r'|e]; [|done]. split; [by apply started_grows|].
      exists r0. apply elem_of_app. right. by left.
    + cbn [cp_callback] in Ht. by subst k.
    + cbn [cp_callback] in Ht. by subst k.
  - intros t' Ht'%list_elem_of_delete_inv. by apply cp_task_grows, Ht.
  - by apply checked_snoc.
Qed.

Lemma cp_step (l l' : Live (World := World) cp_kind) :
  cp_sound (lv_cx l) -> happens _ http l (Ok l') -> cp_sound (lv_cx l').
Proof.
  intros Hs Hh. inversion Hh as [msg Ho Hl|input Hl|Hl|i t Ht Hl|w' Hl]; try exact Hs.
  - unfold update_live in Hl. destruct (common_update _ _ _) as [[b|p] cx'] eqn:Eu; [|done]. injection Hl as <-.
    eapply cp_updates; [exact Hs| |exact Eu]. simpl in Ho. unfold change_password_offers in Ho.
    by destruct msg; try done; rewrite andb_false_r in Ho.
  - destruct (finish_task _ _ _ _ _) as [[msg w'] cx'] eqn:Ef. apply cp_finish in Ef as [Hm Hs']; [|done|done].
    unfold update_live in Hl. destruct (common_update _ _ _) as [[b|p] cx''] eqn:Eu; [|done]. injection Hl as <-.
    by eapply cp_updates.
Qed.

(** C36: whatever the user of a form to change the password does, whatever the server answers
    and in whichever order: when the user is no administrator, a request to register a
    new password is for that user, and a login of that user was started and one was
    finished with success before. *)
Theorem own_password_change_needs_old_one jar w (l : Live cp_kind) before r after :
  reachable _ http (opened cp_kind w (change_password_create jar)) l ->
  cx_log (lv_cx l) = before ++ Sent (HRegisterStart r) :: after ->
  rs_username r = UserId_new username /\
  (exists s, ls_username s = UserId_new username /\ Answered (HLoginStart s) true ∈ before) /\
  (exists f, Answered (HLoginFinish f) true ∈ before).
Proof.
  intros Hr He. assert (cp_sound (lv_cx l)) as [_ Hs]; [|by apply (Hs before r after)].
  eapply (invariant_holds _ _ _ (fun l : Live cp_kind => cp_sound (lv_cx l))); [|intros l1 l2 _; apply cp_step|exact Hr].
  split; simpl.
  - intros t [->|[]%elem_of_nil]%elem_of_cons. intros i. left. by eexists.
  - intros b r0 a He0. destruct b as [|x [|y b]]; discriminate He0.
Qed.
End OldPassword.

(** ** Runs *)

Definition demo_browser : BrowserExtern :=
  demo_browser_of (fun t => snd <$> @verify_with_key demo_web_extern tt t).

Lemma find_app_first {A} (p : A -> bool) l l' x :
  find p (l ++ l') = Some x -> (x ∈ l /\ p x = true) \/ find p l' = Some x.
Proof.
  induction l as [|y l IH]; simpl; [by right|]. destruct (p y) eqn:Ey.
  - intros [= <-]. left. split; [by left|done].
  - intros [[Hin Hp]|Hf]%IH; [left; split; [by right|done]|by right].
Qed.

#[export] Instance demo_cookie_laws : @CookieLaws demo_browser.
Proof.
  constructor. intros cs jar path name v Hs. simpl in *. unfold demo_sent in *. simpl in Hs.
  destruct (find _ (cs ++ _)) as [c|] eqn:Ef; [|done]. injection Hs as <-.
  apply find_app_first in Ef as [[Hin [Hn%String.eqb_eq Hm]%andb_true_iff]|Hf]; [right; by exists c|left; by rewrite Hf].
Qed.

#[export] Instance demo_parse_laws : @JwtParseLaws demo_web_extern demo_browser.
Proof. constructor. intros [] t a c Hv. change (snd <$> @verify_with_key demo_web_extern tt t = Some c). by rewrite Hv. Qed.

(** A server whose GraphQL requests are never reached. *)
Definition demo_site (reset : bool) : forall c : @HostCall demo_opaque_extern, HttpRequest ->
    io Web string (HostAnswer (@Parsed demo_opaque_extern c) * list Cookie) :=
  @web_site lawful_extern demo_sql_extern demo_opaque_extern demo_token_extern demo_web_extern
    "key" demo_config reset (fun _ => "") (fun _ _ => io_fail "not reached").

Notation demo_reset_kind := (@reset_step2_kind lawful_extern demo_opaque_extern demo_browser (fun _ => tt)).

Definition demo_reset_page : @Live demo_opaque_extern demo_browser demo_reset_kind Web :=
  @opened _ _ demo_reset_kind Web (MkWeb demo_reset_db ∅ [])
    (@reset_step2_create demo_opaque_extern demo_browser "t0k3n" empty_jar).

(** Both answers arrive. *)
Definition demo_reset_run : result string (@Live demo_opaque_extern demo_browser demo_reset_kind Web) :=
  @perform_all demo_opaque_extern demo_browser demo_reset_kind Web (demo_site true) [Ends 0; Render; Ends 0; Render] demo_reset_page.

Lemma mailed_reset_never_ends_witness :
  match demo_reset_run with
  | Ok l => kd_offers demo_reset_kind (lv_page l) R2Submit = false /\
      (r2_username (cx_self (lv_cx l)), length (cx_log (lv_cx l))) = (Some "bob", 4)
  | Err _ => False
  end.
Proof.
  assert (match demo_reset_run with
          | Ok l => Some (r2_username (cx_self (lv_cx l)), length (cx_log (lv_cx l)))
          | Err _ => None end = Some (Some "bob", 4)) as Hl by (vm_compute; reflexivity).
  destruct demo_reset_run as [l|e] eqn:Er; [|discriminate Hl].
  destruct (@mailed_reset_never_ends lawful_extern demo_sql_extern demo_opaque_extern demo_token_extern
    demo_web_extern demo_browser "key" demo_config true (fun _ => "") (fun _ _ => io_fail "not reached") _
    (fun _ => tt) "t0k3n" eq_refl empty_jar (MkWeb demo_reset_db ∅ []) l eq_refl) as [Ho _].
  - eapply perform_all_reachable; [apply reach_start|exact Er].
  - split; [exact (Ho R2Submit)|congruence].
Defined.

(** *** A site with a key for the KDC, where [bob] has a password and a session *)

Definition demo_graphql (v : ValidationResults) (q : WebQuery)
  : io Web string (HostAnswer (option (query_data q) * option (list string))) :=
  io_ret (MkHostAnswer 200 "" "" (Some (Some
    match q return query_data q with
    | GetKerberosInfo => Some "pub"
    | SyncKerberosPassword _ _ => true
    | QCreateUser user => wu_id user
    | GetUserAttributesSchema => [MkFormAttribute "mail" false false true]
    | GetPosixConfig => no_auto_assign
    | ListOusQuery => ["people"]
    end, None))).

Definition demo_full_site : forall c : @HostCall demo_opaque_extern, HttpRequest ->
    io Web string (HostAnswer (@Parsed demo_opaque_extern c) * list Cookie) :=
  @web_site lawful_extern demo_sql_extern demo_opaque_extern demo_token_extern demo_web_extern
    "key" demo_config true (fun _ => "") demo_graphql.

Definition demo_bob_web : Web := MkWeb (snd (demo_register "bob" "old-secret" (w_db (snd demo_issued)))) ∅ [].

Definition demo_bob_jar : DemoJar := MkDemoJar [MkCookie "token" demo_token 3600 "/"] [].

Notation demo_login_kind := (@login_kind demo_opaque_extern demo_browser (fun _ => tt)).

Definition demo_login_run (moves : list (@Move demo_opaque_extern demo_browser demo_login_kind))
  : result string (@Live demo_opaque_extern demo_browser demo_login_kind Web) :=
  @perform_all demo_opaque_extern demo_browser demo_login_kind Web demo_full_site moves
    (@opened _ _ demo_login_kind Web demo_bob_web (@login_create demo_opaque_extern demo_browser empty_jar)).

Definition lo_types (user password : string) : @Move demo_opaque_extern demo_browser demo_login_kind :=
  @Type_in demo_opaque_extern demo_browser demo_login_kind (user, password).
Definition lo_click : @Move demo_opaque_extern demo_browser demo_login_kind :=
  @Click demo_opaque_extern demo_browser demo_login_kind (@LoSubmit demo_opaque_extern).
Definition lo_ends : @Move demo_opaque_extern demo_browser demo_login_kind := Ends 0.

(** Nobody was logged in before; the user logs in. *)
Definition demo_login : result string (@Live demo_opaque_extern demo_browser demo_login_kind Web) :=
  demo_login_run [lo_ends; lo_types "bob" "old-secret"; lo_click; lo_ends; lo_ends].

Lemma demo_login_history l :
  demo_login = Ok l ->
  exists past, @history demo_opaque_extern demo_browser demo_login_kind Web demo_full_site
    (@opened _ _ demo_login_kind Web demo_bob_web (@login_create demo_opaque_extern demo_browser empty_jar)) past l.
Proof. unfold demo_login, demo_login_run. intros Er. eapply perform_all_history; [apply history_start|exact Er]. Qed.

Lemma login_reports_server_identity_witness :
  match demo_login with
  | Ok l => exists run, @reported lawful_extern demo_sql_extern demo_opaque_extern demo_token_extern
      demo_web_extern demo_browser "key" demo_config true (fun _ => tt) (run ++ [l]) "bob" true
  | Err _ => False
  end.
Proof.
  assert (match demo_login with Ok l => last (cx_log (lv_cx l)) | Err _ => None end = Some (LoggedIn "bob" true)) as Hl
    by (vm_compute; reflexivity).
  destruct demo_login as [l|e] eqn:Er; [|discriminate Hl].
  destruct (demo_login_history l Er) as [past Hpast].
  exists past. apply (@login_reports_server_identity lawful_extern demo_sql_extern demo_opaque_extern demo_token_extern
    demo_web_extern demo_browser "key" demo_config true (fun _ => "") demo_graphql _ _ (fun _ => tt) empty_jar
    demo_bob_web past l "bob" true Hpast).
  apply last_Some in Hl as [log ->]. apply elem_of_app. right. by left.
Defined.

(** The password is read again when the first answer arrives: one that was edited
    meanwhile is refused, although the submitted one was right. *)
Example edited_password_refused :
  match demo_login_run [lo_ends; lo_types "bob" "old-secret"; lo_click; lo_types "bob" "old-secret "; lo_ends] with
  | Ok l => cx_error (lv_cx l)
  | Err _ => None
  end = Some "Invalid username or password".
Proof. vm_compute. reflexivity. Qed.

Notation demo_cp_kind := (@change_password_kind lawful_extern demo_opaque_extern demo_browser (fun _ => tt) "bob" false).

Definition demo_cp_run (moves : list (@Move demo_opaque_extern demo_browser demo_cp_kind))
  : result string (@Live demo_opaque_extern demo_browser demo_cp_kind Web) :=
  @perform_all demo_opaque_extern demo_browser demo_cp_kind Web demo_full_site moves
    (@opened _ _ demo_cp_kind Web demo_bob_web (@change_password_create demo_opaque_extern demo_browser demo_bob_jar)).

Definition cp_types (old new confirm : string) : @Move demo_opaque_extern demo_browser demo_cp_kind :=
  @Type_in demo_opaque_extern demo_browser demo_cp_kind (old, new, confirm).
Definition cp_click : @Move demo_opaque_extern demo_browser demo_cp_kind :=
  @Click demo_opaque_extern demo_browser demo_cp_kind CpSubmit.
Definition cp_ends : @Move demo_opaque_extern demo_browser demo_cp_kind := Ends 0.

(** Submitting does not render the form again, so the button is still there: with a
    second click two logins are in flight, and the answer to the first meets the data of
    the second. *)
Example second_click_possible :
  match demo_cp_run [cp_ends; cp_types "old-secret" "new-secret" "new-secret"; cp_click; cp_click] with
  | Ok l => length (cx_tasks (lv_cx l))
  | Err _ => 0
  end = 2.
Proof. vm_compute. reflexivity. Qed.

(** The whole change: the old password is checked, the new one registered and sent to the
    KDC, and the user's page is opened. *)
Definition demo_change : result string (@Live demo_opaque_extern demo_browser demo_cp_kind Web) :=
  demo_cp_run [cp_ends; cp_types "old-secret" "new-secret" "new-secret"; cp_click;
    cp_ends; cp_ends; cp_ends; cp_ends; cp_ends].

Example changed_password_binds :
  match demo_change with
  | Ok l => last (cx_log (lv_cx l)) = Some (Opened (UserDetailsPage "bob")) /\
      demo_bind "bob" "new-secret" (w_db (lv_world l)) = Ok tt /\
      is_ok (demo_bind "bob" "old-secret" (w_db (lv_world l))) = false
  | Err _ => False
  end.
Proof. vm_compute. auto. Qed.

(** The first request to register a password, with what was before and after it. *)
Fixpoint split_at_register `{OpaqueExtern} (log : list Happening)
  : option (list Happening * ClientRegistrationStartRequest * list Happening) :=
  match log with
  | [] => None
  | Sent (HRegisterStart r) :: after => Some ([], r, after)
  | h :: log => '(before, r, after) ← split_at_register log; Some (h :: before, r, after)
  end.

Lemma split_at_register_eq `{OpaqueExtern} log before r after :
  split_at_register log = Some (before, r, after) -> log = before ++ Sent (HRegisterStart r) :: after.
Proof.
  revert before. induction log as [|h log IH]; intros before Hs; [done|].
  assert (split_at_register (h :: log) = Some ([], r, after) /\ h = Sent (HRegisterStart r) /\ after = log /\ before = [] \/
    exists b, split_at_register log = Some (b, r, after) /\ before = h :: b) as [(_ & -> & -> & ->)|(b & Hb & ->)].
  { simpl in Hs. destruct h as [[]| | | |];
      first [destruct (split_at_register log) as [[[b r1] a]|]; [|done]; injection Hs as <- <- <-; right; by exists b
        | injection Hs as <- <- <-; by left]. }
  - done.
  - simpl. f_equal. by apply IH.
Qed.

Lemma demo_change_reachable l :
  demo_change = Ok l ->
  @reachable demo_opaque_extern demo_browser demo_cp_kind Web demo_full_site
    (@opened _ _ demo_cp_kind Web demo_bob_web (@change_password_create demo_opaque_extern demo_browser demo_bob_jar)) l.
Proof. unfold demo_change, demo_cp_run. intros Er. eapply perform_all_reachable; [apply reach_start|exact Er]. Qed.

Lemma own_password_change_needs_old_one_witness :
  match demo_change with
  | Ok l =>
      match split_at_register (cx_log (lv_cx l)) with
      | Some (before, r, _) => rs_username r = UserId_new "bob" /\
          (exists s, ls_username s = UserId_new "bob" /\ Answered (HLoginStart s) true ∈ before)
      | None => False
      end
  | Err _ => False
  end.
Proof.
  assert (match demo_change with
          | Ok l => bool_decide (is_Some (split_at_register (cx_log (lv_cx l)))) | Err _ => false end = true) as Hl
    by (vm_compute; reflexivity).
  destruct demo_change as [l|e] eqn:Er; [|discriminate Hl].
  destruct (split_at_register _) as [[[before r] after]|] eqn:Es; [|discriminate Hl].
  destruct (@own_password_change_needs_old_one lawful_extern demo_opaque_extern demo_browser (fun _ => tt) "bob" Web
    demo_full_site demo_bob_jar demo_bob_web l before r after (demo_change_reachable l Er)
    (split_at_register_eq _ _ _ _ Es)) as (Hr & Hs & _).
  by split.
Defined.
