(* ===== verification/WebCreate.v ===== *)
(** * Where the form that creates users panics

    [create_user.rs] takes the registration data with [expect] when the first answer to a
    registration arrives, and the identifier of the new user with [unwrap].  Here is why
    both are there: at most one of the requests of a submission is in flight, because the
    page that was rendered last offers the button only when none is.  What is left is the
    log of a picture, which cuts a text at its hundredth byte. *)

From S2P Require Import Prelude Strings Types Proto Database SqlConfig Opaque AuthTokens AuthService WebApp WebForms WebSite.

Section CreateUser.
Context `{Extern, OpaqueExtern, BrowserExtern} (coins : nat -> Coins).

Notation cu_cx := (Cx CreateUserForm CreateUserMsg).
Notation cu_kind := (create_user_kind coins).

(** The requests that load the form; the first one is followed by two. *)
Definition load_weight (c : HostCall) : nat :=
  match c with
  | HGraphql GetUserAttributesSchema _ => 2
  | HGraphql (ListOusQuery | GetKerberosInfo | GetPosixConfig) _ => 1
  | _ => 0
  end.

(** The others belong to a submission. *)
Definition submission (t : Task CreateUserMsg) : bool := Nat.eqb (load_weight (tk_call t)) 0.

Definition submissions (ts : list (Task CreateUserMsg)) : nat := length (List.filter submission ts).
Definition loads (ts : list (Task CreateUserMsg)) : nat := sum_list_with (fun t => load_weight (tk_call t)) ts.

Definition cu_query_callback (q : WebQuery) : (result string (query_data q) -> CreateUserMsg) -> Prop :=
  match q with
  | GetUserAttributesSchema => fun k => k = ListAttributesResponse
  | ListOusQuery => fun k => k = ListUserOusResponse
  | GetKerberosInfo => fun k => k = CuKerberosInfoResponse
  | GetPosixConfig => fun k => k = PosixConfigResponse
  | QCreateUser _ => fun k => k = CreateUserResponse
  | SyncKerberosPassword _ _ => fun k => k = CuSyncKerberosResponse
  end.

Definition cu_callback (c : HostCall) : (result string (HostReply c) -> CreateUserMsg) -> Prop :=
  match c return (result string (HostReply c) -> CreateUserMsg) -> Prop with
  | HGraphql q _ => cu_query_callback q
  | HRegisterStart _ => fun k => k = CuRegistrationStartResponse
  | HRegisterFinish _ => fun k => k = CuRegistrationFinishResponse
  | _ => fun _ => False
  end.

(** What the answer to a request of a submission needs to be there. *)
Definition prepared (f : CreateUserForm) (t : Task CreateUserMsg) : Prop :=
  match tk_call t with
  | HRegisterStart _ => is_Some (cu_opaque_data f) /\ is_Some (cu_user_id f)
  | HRegisterFinish _ => is_Some (cu_user_id f)
  | _ => True
  end.

Record cu_sound (cx : cu_cx) : Prop := {
  cs_counted : counted cx;
  cs_one : submissions (cx_tasks cx) <= 1;
  cs_loads : loads (cx_tasks cx) <= 3;
  cs_callbacks : forall t, t ∈ cx_tasks cx -> cu_callback (tk_call t) (tk_callback t);
  cs_prepared : forall t, t ∈ cx_tasks cx -> prepared (cx_self cx) t
}.

Definition no_submission (cx : cu_cx) : Prop := submissions (cx_tasks cx) = 0.

(** When a message can be handled: with what it needs there, and no other request of the
    submission in flight. *)
Definition cu_message (cx : cu_cx) (msg : CreateUserMsg) : Prop :=
  match msg with
  | SubmitForm | CreateUserResponse _ => no_submission cx
  | CuRegistrationStartResponse _ =>
      no_submission cx /\ is_Some (cu_opaque_data (cx_self cx)) /\ is_Some (cu_user_id (cx_self cx))
  | CuRegistrationFinishResponse _ => no_submission cx /\ is_Some (cu_user_id (cx_self cx))
  | ListAttributesResponse _ => loads (cx_tasks cx) <= 1
  | _ => True
  end.

(** Messages whose handler may leave the page as it is *)
Definition cu_answer (msg : CreateUserMsg) : Prop :=
  match msg with
  | CreateUserResponse _ | CuRegistrationStartResponse _ | CuRegistrationFinishResponse _ => True
  | _ => False
  end.

(** *** Counting requests *)

Lemma submissions_app ts ts' : submissions (ts ++ ts') = submissions ts + submissions ts'.
Proof. unfold submissions. by rewrite List.filter_app, length_app. Qed.

Lemma loads_app ts ts' : loads (ts ++ ts') = loads ts + loads ts'.
Proof. apply sum_list_with_app. Qed.

Lemma delete_split (ts : list (Task CreateUserMsg)) i t :
  ts !! i = Some t ->
  submissions ts = submissions [t] + submissions (delete i ts) /\ loads ts = loads [t] + loads (delete i ts).
Proof.
  intros (l1 & l2 & -> & ->)%list_elem_of_split_length. rewrite delete_middle.
  replace (l1 ++ t :: l2) with (l1 ++ [t] ++ l2) by done. rewrite !submissions_app, !loads_app. lia.
Qed.

Lemma length_bound ts : length ts <= submissions ts + loads ts.
Proof.
  induction ts as [|t ts IH]; [done|]. unfold submissions, loads, submission in *. simpl.
  destruct (load_weight (tk_call t)); simpl; lia.
Qed.

(** Then the counter is positive exactly if something is in flight. *)
Lemma running_if_submission cx : cu_sound cx -> submissions (cx_tasks cx) <> 0 -> is_task_running cx = true.
Proof.
  intros [Hc Hone Hl _ _] Hs. unfold is_task_running. rewrite Hc. unfold wrap32.
  pose proof (length_bound (cx_tasks cx)).
  assert (length (cx_tasks cx) <> 0) by (intros E; destruct (cx_tasks cx); done).
  rewrite Z.mod_small by lia. apply Z.ltb_lt. lia.
Qed.

Lemma prepared_without_submission f (ts : list (Task CreateUserMsg)) t :
  submissions ts = 0 -> t ∈ ts -> prepared f t.
Proof.
  unfold submissions, prepared. intros Hs Hin. apply length_zero_iff_nil in Hs.
  destruct (submission t) eqn:Et.
  - assert (t ∈ List.filter submission ts) as Hf by (apply list_elem_of_In, filter_In; by rewrite <- list_elem_of_In).
    rewrite Hs in Hf. by apply elem_of_nil in Hf.
  - unfold submission in Et. by destruct (tk_call t).
Qed.

(** *** Handlers *)

(** How a handler may end: in a panic only if [P], and with an error the page is rendered. *)
Definition ends_or (P : Prop) (Q : bool -> cu_cx -> Prop) (r : result AppError bool * cu_cx) : Prop :=
  match r with
  | (Ok b, cx) => Q b cx
  | (Err (AppFailed _), cx) => Q true cx
  | (Err (AppPanicked _), _) => P
  end.

Notation ends_in := (ends_or False).

Lemma ends_weaken (P P' : Prop) Q r : (P -> P') -> ends_or P Q r -> ends_or P' Q r.
Proof. intros Hp. destruct r as [[b|[e|e]] cx]; simpl; auto. Qed.

(** The text in the field of the picture is longer than what is logged of it, and cut
    inside a character. *)
Definition avatar_cut (f : CreateUserForm) : Prop :=
  exists v, v ∈ from_option id [] (cu_form_data f !! "avatar") /\ (100 < String.length v)%nat /\ is_char_boundary 100 v = false.

(** Steps that change no more than fields that are not of the submission *)
Definition core (cx : cu_cx) : list (Task CreateUserMsg) * Z * option ClientRegistration * option string :=
  (cx_tasks cx, cx_running cx, cu_opaque_data (cx_self cx), cu_user_id (cx_self cx)).

Definition calm {A} (m : io cu_cx AppError A) : Prop :=
  forall cx, core (snd (m cx)) = core cx /\ forall p, fst (m cx) <> Err (AppPanicked p).

Lemma sound_core cx cx' : core cx' = core cx -> cu_sound cx -> cu_sound cx'.
Proof.
  unfold core. intros [= Ht Hr Ho Hu] [Hc Hone Hl Hcb Hp]. constructor; unfold counted in *; rewrite ?Ht, ?Hr; try done.
  intros t Hin. specialize (Hp t Hin). unfold prepared in *. by rewrite Ho, Hu.
Qed.

Lemma ends_bind {A} P (m : io cu_cx AppError A) (k : A -> io cu_cx AppError bool) Q cx :
  calm m -> (forall cx', core cx' = core cx -> Q true cx') ->
  (forall a cx', core cx' = core cx -> ends_or P Q (k a cx')) -> ends_or P Q (io_bind m k cx).
Proof.
  intros Hm He Hk. destruct (Hm cx) as [Hc Hp]. unfold io_bind. destruct (m cx) as [[a|[e|p]] cx']; simpl in *.
  - by apply Hk.
  - by apply He.
  - by destruct (Hp p).
Qed.

Lemma calm_self : calm get_self.
Proof. by intros cx. Qed.
Lemma calm_draw : calm draw_app.
Proof. by intros cx. Qed.
Lemma calm_lift_ok {A E} (f : E -> string) (r : result E A) : calm (io_lift (map_err (fun e => AppFailed (f e)) r)).
Proof. intros cx. split; [done|]. by destruct r. Qed.
Lemma calm_some {A} (a : A) e : calm (io_lift (ok_or (Some a) e)).
Proof. by intros cx. Qed.
Lemma calm_encrypted info pw : calm (encrypted_for_kdc info pw).
Proof.
  intros cx. unfold encrypted_for_kdc. destruct info as [[key|]|]; [|done|done].
  unfold io_bind. simpl. by destruct (encrypt_password _ _ _).
Qed.
Lemma calm_modify f :
  (forall s, cu_opaque_data (f s) = cu_opaque_data s /\ cu_user_id (f s) = cu_user_id s) -> calm (modify f).
Proof. intros Hf cx. split; [|done]. unfold core. simpl. by destruct (Hf (cx_self cx)) as [-> ->]. Qed.

Lemma submissions_one c j k : submissions [MkTask c j k] = if Nat.eqb (load_weight c) 0 then 1 else 0.
Proof. unfold submissions, submission. simpl. by destruct (Nat.eqb _ _). Qed.

(** A request is sent: for the submission if none is in flight, or to load, within the
    bound. *)
Lemma sound_call_cu cx c k :
  cu_sound cx -> cu_callback c k -> prepared (cx_self cx) (MkTask c (cx_jar cx) k) ->
  (load_weight c = 0 -> no_submission cx) -> load_weight c + loads (cx_tasks cx) <= 3 ->
  cu_sound (snd (call_backend c k cx)).
Proof.
  intros Hs Hk Hp Hn Hw. destruct Hs as [Hc Hone Hl Hcb Hpr]. constructor.
  - by apply count_call.
  - simpl. rewrite submissions_app, submissions_one. unfold no_submission in Hn.
    destruct (Nat.eqb_spec (load_weight c) 0); [rewrite Hn by done|]; lia.
  - simpl. rewrite loads_app. unfold loads at 2. simpl. lia.
  - simpl. intros t [Hin|[->|[]%elem_of_nil]%elem_of_cons]%elem_of_app; auto.
  - simpl. intros t [Hin|[->|[]%elem_of_nil]%elem_of_cons]%elem_of_app; auto.
Qed.

(** Fields of the submission may change while no request of it is in flight. *)
Lemma sound_modify f cx : cu_sound cx -> no_submission cx -> cu_sound (snd (modify f cx)).
Proof.
  intros [Hc Hone Hl Hcb Hp] Hn. constructor; try done. simpl. intros t Hin. by eapply prepared_without_submission.
Qed.

(** How a handler leaves things: sound, and rendering unless it handled an answer. *)
Definition cu_done (msg : CreateUserMsg) (b : bool) (cx : cu_cx) : Prop :=
  cu_sound cx /\ (b = true \/ cu_answer msg).

Hint Resolve calm_self calm_draw calm_some calm_encrypted : calm.
Hint Extern 1 (calm (io_lift (map_err _ _))) => apply calm_lift_ok : calm.
Hint Extern 1 (calm (modify _)) => apply calm_modify; intros s; by destruct s : calm.

Ltac calm_bind Hs := apply ends_bind;
  [solve [eauto with calm] | intros ? ?; split; [by eapply sound_core|by left] | intros ? ? ?Hcore].

Lemma core_tasks cx cx' : core cx' = core cx -> cx_tasks cx' = cx_tasks cx.
Proof. unfold core. congruence. Qed.

(** The picture found among the values is one of the texts in its field. *)
Lemma avatar_of_form schema data adm mail all_values a :
  read_all_form_attributes schema data adm mail = Ok all_values ->
  find (fun a => String.eqb (fv_name a) "avatar") all_values = Some a ->
  forall v, v ∈ fv_values a -> v ∈ from_option id [] (data !! "avatar").
Proof.
  unfold read_all_form_attributes. destruct (collect _) as [vs|] eqn:Ec; [|done]. simpl.
  intros Hr. assert (vs = all_values) as -> by (destruct mail; [destruct (validate_email_attributes vs)|]; by simplify_eq/=).
  intros [Hin Hname%String.eqb_eq]%find_some v Hv.
  apply list_elem_of_In, list_elem_of_lookup in Hin as [i Hi].
  apply collect_map_Ok in Ec. destruct (Forall2_lookup_r _ _ _ _ _ Ec Hi) as (attr & _ & Hin).
  unfold read_form_attribute in Hin. destruct (_ || _); [|done]. injection Hin as <-. simpl in *.
  rewrite Hname in Hv. apply list_elem_of_filter in Hv. apply Hv.
Qed.

(** The log panics only on a picture cut inside a character, and changes nothing. *)
Lemma log_avatar_ends cx f all_values (k : unit -> io cu_cx AppError bool) Q :
  (forall a, find (fun a => String.eqb (fv_name a) "avatar") all_values = Some a ->
    forall v, v ∈ fv_values a -> v ∈ from_option id [] (cu_form_data f !! "avatar")) ->
  ends_or (avatar_cut f) Q (k tt cx) -> ends_or (avatar_cut f) Q (io_bind (log_avatar all_values) k cx).
Proof.
  intros Hf Hk. unfold log_avatar. destruct (find _ all_values) as [a|]; [|done].
  specialize (Hf a eq_refl). destruct (_ && _) eqn:Ec; [|done].
  apply andb_true_iff in Ec as [Hl Hb%negb_true_iff]. apply Nat.ltb_lt in Hl.
  simpl. destruct (fv_values a) as [|v vs]; simpl in *; [lia|].
  exists v. split; [apply Hf; by left|done].
Qed.

Lemma ends_self P k Q cx : ends_or P Q (k (cx_self cx) cx) -> ends_or P Q (io_bind get_self k cx).
Proof. done. Qed.

Lemma submit_done cx :
  cu_sound cx -> no_submission cx -> ends_or (avatar_cut (cx_self cx)) (cu_done SubmitForm) (create_user_submit cx).
Proof.
  intros Hs Hn. unfold create_user_submit. apply ends_self. destruct (negb _); [by split; [|left]|].
  do 3 (apply ends_bind; [solve [eauto with calm]|intros ? ?; split; [eapply sound_core; [|exact Hs]; congruence|by left]|intros ? ? ?]).
  destruct (read_all_form_attributes _ _ _ _) as [all_values|e] eqn:Ev; simpl.
  2: { split; [eapply sound_core; [|exact Hs]; congruence|by left]. }
  apply (log_avatar_ends _ (cx_self cx)); [intros a' Ha; by eapply avatar_of_form|].
  split; [|by left]. apply sound_call_cu; [eapply sound_core; [|exact Hs]; congruence|done..| |].
  - intros _. unfold no_submission. by rewrite (core_tasks cx cx'1) by congruence.
  - simpl. rewrite (core_tasks cx cx'1) by congruence. apply Hs.
Qed.

(** Chains of calm steps, from a sound state *)
Ltac still_sound Hs := first [done | eapply sound_core; [|exact Hs]; congruence].
Ltac calm_steps Hs :=
  repeat lazymatch goal with
  | |- ends_in _ (io_bind get_self _ _) => apply ends_self; cbv beta
  | |- _ => apply ends_bind; [solve [eauto with calm]|intros ? ?; split; [still_sound Hs|by left]|intros ? ? ?]
  end.

Lemma opened_sound cx r : cu_sound cx -> cu_sound (snd (happen (Opened r) cx)).
Proof. by intros [Hc Hone Hl Hcb Hp]. Qed.

Lemma creation_done msg cx : cu_sound cx -> ends_in (cu_done msg) (successful_creation cx).
Proof. intros Hs. split; [by apply opened_sound|by left]. Qed.

(** The answers that load the form *)
Lemma load_done cx msg :
  cu_sound cx -> cu_message cx msg ->
  match msg with
  | ListAttributesResponse _ | ListUserOusResponse _ | CuKerberosInfoResponse _ | PosixConfigResponse _ => True
  | _ => False
  end -> ends_in (cu_done msg) (create_user_handle_msg coins msg cx).
Proof.
  intros Hs Hm. destruct msg as [|r|r|r|r| | | | | | | |]; try done; intros _; cbn [create_user_handle_msg].
  - calm_steps Hs. simpl in Hm.
    assert (cu_sound cx'0) as Hs0 by still_sound Hs.
    assert (cx_tasks cx'0 = cx_tasks cx) as Ht by (apply core_tasks; congruence).
    assert (cu_sound (snd (call_graphql GetKerberosInfo CuKerberosInfoResponse "Error trying to fetch Kerberos info" cx'0))) as Hs1.
    { apply sound_call_cu; [done..|simpl; rewrite Ht; lia]. }
    split; [|by left]. apply sound_call_cu; [exact Hs1|done..|]. simpl. rewrite loads_app, Ht. unfold loads at 2. simpl. lia.
  - calm_steps Hs. split; [still_sound Hs|by left].
  - calm_steps Hs. split; [still_sound Hs|by left].
  - calm_steps Hs. split; [still_sound Hs|by left].
Qed.

(** A field of the submission is set. *)
Lemma ends_modify P f k Q cx : ends_or P Q (k tt (snd (modify f cx))) -> ends_or P Q (io_bind (modify f) k cx).
Proof. done. Qed.

Lemma core_fields cx cx' :
  core cx' = core cx -> cu_opaque_data (cx_self cx') = cu_opaque_data (cx_self cx) /\ cu_user_id (cx_self cx') = cu_user_id (cx_self cx).
Proof. unfold core. intros [= _ _ -> ->]. done. Qed.

Lemma no_submission_core cx cx' : core cx' = core cx -> no_submission cx -> no_submission cx'.
Proof. intros Hc. unfold no_submission. by rewrite (core_tasks cx cx'). Qed.

Lemma no_submission_modify f cx cx' : core cx' = core cx -> no_submission cx -> no_submission (snd (modify f cx')).
Proof. apply no_submission_core. Qed.

(** The next request of the submission takes the place of the one that ended. *)
Lemma next_request msg cx c k :
  cu_sound cx -> no_submission cx -> cu_answer msg -> cu_callback c k -> load_weight c = 0 ->
  prepared (cx_self cx) (MkTask c (cx_jar cx) k) ->
  ends_in (cu_done msg) (io_bind (call_backend c k) (fun _ => io_ret false) cx).
Proof.
  intros Hs Hn Ha Hk Hw Hp. split; [|by right]. apply sound_call_cu; try done.
  rewrite Hw. apply Hs.
Qed.

Lemma created_done cx r :
  cu_sound cx -> no_submission cx -> ends_in (cu_done (CreateUserResponse r)) (create_user_handle_msg coins (CreateUserResponse r) cx).
Proof.
  intros Hs Hn. cbn [create_user_handle_msg]. calm_steps Hs. apply ends_modify.
  assert (cu_sound (snd (modify (cu_set_user_id (Some a)) cx'))) as Hs1
    by (apply sound_modify; [still_sound Hs|eauto using no_submission_core, no_submission_modify]).
  assert (no_submission (snd (modify (cu_set_user_id (Some a)) cx'))) as Hn1 by (eauto using no_submission_modify).
  calm_steps Hs1. apply ends_modify.
  match goal with Hx : core ?c = core ?c0 |- ends_in _ (_ (snd (modify _ ?c))) =>
    assert (core c = core (snd (modify (cu_set_user_id (Some a)) cx'))) as Hc by congruence end.
  apply next_request; [|exact (no_submission_modify _ _ _ Hc Hn1)|done..|].
  - apply sound_modify; [still_sound Hs1|eauto using no_submission_core, no_submission_modify].
  - destruct (core_fields _ _ Hc) as [_ Hu]. unfold prepared. simpl in *. rewrite Hu. by split.
Qed.

Lemma started_done cx r :
  cu_sound cx -> cu_message cx (CuRegistrationStartResponse r) ->
  ends_in (cu_done (CuRegistrationStartResponse r)) (create_user_handle_msg coins (CuRegistrationStartResponse r) cx).
Proof.
  intros Hs (Hn & [d Hd] & [u Hu]). cbn [create_user_handle_msg]. calm_steps Hs. apply ends_modify.
  assert (core cx' = core cx) as Hc by congruence. destruct (core_fields _ _ Hc) as [Ho Hu'].
  assert (cu_sound (snd (modify (cu_set_opaque_data None) cx'))) as Hs1
    by (apply sound_modify; [still_sound Hs|eauto using no_submission_core, no_submission_modify]).
  assert (no_submission (snd (modify (cu_set_opaque_data None) cx'))) as Hn1 by (eauto using no_submission_modify).
  rewrite Ho, Hd. calm_steps Hs1.
  match goal with |- ends_in _ (_ ?c) => assert (core c = core (snd (modify (cu_set_opaque_data None) cx'))) as Hc1 by congruence end.
  apply next_request; [still_sound Hs1|eauto using no_submission_core, no_submission_modify|done..|].
  destruct (core_fields _ _ Hc1) as [_ Hu1]. unfold prepared. simpl in *. by rewrite Hu1, Hu', Hu.
Qed.

Lemma finished_done cx r :
  cu_sound cx -> cu_message cx (CuRegistrationFinishResponse r) ->
  ends_in (cu_done (CuRegistrationFinishResponse r)) (create_user_handle_msg coins (CuRegistrationFinishResponse r) cx).
Proof.
  intros Hs (Hn & [u Hu]). cbn [create_user_handle_msg]. calm_steps Hs.
  match goal with Hc : core ?c = core cx |- _ => destruct (core_fields _ _ Hc) as [_ Hu'] end.
  destruct (cu_kerberossync_enabled _); [|apply creation_done; still_sound Hs].
  destruct (cu_encrypted_password _) as [enc|]; [|apply creation_done; still_sound Hs].
  rewrite Hu', Hu. calm_steps Hs. apply next_request; [still_sound Hs| |done..].
  eapply no_submission_core; [|exact Hn]. congruence.
Qed.

Lemma cu_handles cx msg :
  cu_sound cx -> cu_message cx msg ->
  ends_or (msg = SubmitForm /\ avatar_cut (cx_self cx)) (cu_done msg) (create_user_handle_msg coins msg cx).
Proof.
  intros Hs Hm. assert (msg = SubmitForm \/ ends_in (cu_done msg) (create_user_handle_msg coins msg cx)) as [->|He];
    [|eapply ends_weaken; [|by apply submit_done]; done|by eapply ends_weaken; [|exact He]].
  destruct msg as [|r|r|r|r| |r| |r|r|r|b|ou]; (by left) || right; try (by apply load_done).
  - split; [done|by left].
  - by apply created_done.
  - by apply creation_done.
  - by apply started_done.
  - by apply finished_done.
  - cbn [create_user_handle_msg]. calm_steps Hs. apply creation_done. still_sound Hs.
  - cbn [create_user_handle_msg]. calm_steps Hs. split; [still_sound Hs|by left].
  - cbn [create_user_handle_msg]. calm_steps Hs. split; [still_sound Hs|by left].
Qed.

(** *** Runs *)

Context {World : Type}.
Context (http : forall c : HostCall, HttpRequest -> io World string (HostAnswer (Parsed c) * list Cookie)).

Notation cu_live := (Live (World := World) cu_kind).

(** The page that was rendered last offers the button only without a request of a
    submission in flight. *)
Record cu_inv (l : cu_live) : Prop := {
  ci_sound : cu_sound (lv_cx l);
  ci_page : create_user_offers (lv_page l) SubmitForm = true -> no_submission (lv_cx l)
}.

Lemma fresh_page (cx : cu_cx) : cu_sound cx -> create_user_offers cx SubmitForm = true -> no_submission cx.
Proof.
  intros Hs Ho. unfold no_submission. destruct (submissions (cx_tasks cx)) eqn:E; [done|].
  rewrite <- E. assert (is_task_running cx = true) as Hr by (apply running_if_submission; [done|by rewrite E]).
  unfold create_user_offers in Ho. repeat (case_match; try done). by rewrite Hr in Ho.
Qed.

(** No panic, but at a submission with a picture that is cut. *)
Definition cu_goes_on (msg : CreateUserMsg) (f : CreateUserForm) (r : result string cu_live) : Prop :=
  (exists l', r = Ok l' /\ cu_inv l') \/
  ((exists e, r = Err e) /\ msg = SubmitForm /\ avatar_cut f).

(** After a message a sound page: a new one, or one that did not offer the button. *)
Lemma cu_updates msg w cx page :
  cu_sound cx -> cu_message cx msg ->
  (cu_answer msg -> create_user_offers page SubmitForm = false) ->
  cu_goes_on msg (cx_self cx) (update_live cu_kind msg w cx page).
Proof.
  intros Hs Hm Hp. unfold update_live, common_update.
  assert (cu_sound (snd (set_error None cx))) as Hs0 by (by eapply sound_core; [|exact Hs]).
  pose proof (cu_handles (snd (set_error None cx)) msg Hs0 Hm) as He. cbn [kd_handle create_user_kind].
  destruct (create_user_handle_msg _ _ _) as [[b|[e|p]] cx']; [left|left|right; split; [by eexists|apply He]].
  - destruct He as [Hs' Hb]. eexists. split; [done|]. split; [done|]. simpl. destruct b; simpl; [by apply fresh_page|].
    destruct Hb as [|Ha]; [done|]. by rewrite Hp.
  - destruct He as [Hs' _]. eexists. split; [done|].
    assert (cu_sound (snd (set_error (Some e) cx'))) as Hs1 by (by eapply sound_core; [|exact Hs']).
    split; [done|]. by apply fresh_page.
Qed.

(** The end of a future: what its message needs is there. *)
Lemma cu_finish i t w cx msg w' cx' :
  cu_sound cx -> cx_tasks cx !! i = Some t -> finish_task http i t w cx = (msg, w', cx') ->
  cu_sound cx' /\ cu_message cx' msg /\ msg <> SubmitForm /\ (cu_answer msg -> submission t = true).
Proof.
  intros Hs Hi Hf. pose proof (finish_keeps_count http i t w cx Hi) as Hcount.
  rewrite Hf in Hcount. unfold finish_task in Hf. destruct (host_service _ _ _ _) as [r [w1 jar]] eqn:Eh.
  injection Hf as <- <- <-. destruct Hs as [Hc Hone Hl Hcb Hp].
  destruct (delete_split _ _ _ Hi) as [Hds Hdl].
  assert (t ∈ cx_tasks cx) as Hin by by eapply list_elem_of_lookup_2.
  specialize (Hcb t Hin) as Hk. specialize (Hp t Hin) as Hpr. split.
  - constructor; simpl; [by apply Hcount|lia|lia|..]; intros t' Ht'%list_elem_of_delete_inv; auto.
  - destruct t as [c j k]. rewrite submissions_one in Hds. unfold loads at 2 in Hdl. unfold prepared in Hpr.
    unfold no_submission. simpl in *.
    destruct c as [[]| | | | | | | | |]; simpl in *; try done; subst k; simpl; (split; [|done]); try split; unfold no_submission; simpl; try done; lia.
Qed.

(** A step panics only if it is the submission of a picture that is cut. *)
Definition cu_panics_at (l : cu_live) (r : result string cu_live) : Prop :=
  (exists e, r = Err e) /\ r = update_live cu_kind SubmitForm (lv_world l) (lv_cx l) (lv_page l) /\
  avatar_cut (cx_self (lv_cx l)).

Lemma panic_has_picture l r : cu_panics_at l r -> exists v, v ∈ from_option id [] (cu_form_data (cx_self (lv_cx l)) !! "avatar").
Proof. intros (_ & _ & v & Hv & _). by exists v. Qed.

Lemma cu_step (l : cu_live) r :
  cu_inv l -> happens _ http l r -> (exists l', r = Ok l' /\ cu_inv l') \/ cu_panics_at l r.
Proof.
  intros [Hs Hp] Hh. inversion Hh as [msg Ho Hl|input Hl|Hl|i t Ht Hl|w' Hl]; simpl in *.
  - destruct (cu_updates msg (lv_world l) (lv_cx l) (lv_page l)) as [Hok|(He & -> & Hcut)]; [done|..|by left|by right].
    + destruct msg; try exact I;
        first [by apply Hp | exfalso; unfold create_user_offers in Ho; repeat (case_match; try done)].
    + destruct msg; try done; simpl in Ho; unfold create_user_offers in Ho; repeat (case_match; try done).
  - left. eexists. split; [done|]. split; [|done]. by eapply sound_core; [|exact Hs].
  - left. eexists. split; [done|]. split; [done|]. by apply fresh_page.
  - left. destruct (finish_task _ _ _ _ _) as [[msg w'] cx'] eqn:Ef.
    destruct (cu_finish _ _ _ _ _ _ _ Hs Ht Ef) as (Hs' & Hm & Hne & Ha).
    destruct (cu_updates msg w' cx' (lv_page l)) as [Hok|(_ & ? & _)]; [done|done|..|done|done].
    intros Hm'%Ha. apply not_true_is_false. intros Hoff%Hp.
    unfold no_submission in Hoff. destruct (delete_split _ _ _ Ht) as [Hds _]. unfold submissions at 2 in Hds. simpl in Hds.
    rewrite Hm' in Hds. simpl in Hds. lia.
  - left. eexists. split; [done|]. by split.
Qed.

(** C37: whatever the user does, whatever the server answers and in whichever order, the form
    that creates users panics at one place only: when it is submitted and the text in the
    field of the picture is longer than 100 bytes and cut by the log inside a character.
    When the answer to the start of a registration arrives, the registration data is
    there, and at most one request of a submission is in flight. *)
Theorem create_user_panics_only_at_avatar jar w (l : cu_live) r :
  reachable _ http (opened cu_kind w (create_user_create jar)) l -> happens _ http l r ->
  ((exists l', r = Ok l') \/ cu_panics_at l r) /\ submissions (cx_tasks (lv_cx l)) <= 1.
Proof.
  intros Hr Hh. assert (cu_inv l) as Hi.
  { eapply (invariant_holds _ _ _ cu_inv); [| |exact Hr].
    - split; [|done]. constructor; simpl; [done|unfold submissions; simpl; lia|unfold loads; simpl; lia|..];
        by intros t [->|[->|[]%elem_of_nil]%elem_of_cons]%elem_of_cons.
    - intros l1 l2 _ Hl1 Hl2. destruct (cu_step _ _ Hl1 Hl2) as [(l' & [= ->] & Hi)|([e He] & _)]; done. }
  split; [|apply Hi]. destruct (cu_step _ _ Hi Hh) as [(l' & -> & _)|Hc]; [left; by exists l'|by right].
Qed.
End CreateUser.

(** ** A run *)

Notation demo_cu_kind := (@create_user_kind lawful_extern demo_opaque_extern demo_browser (fun _ => tt)).

Definition cu_types : @Move demo_opaque_extern demo_browser demo_cu_kind :=
  @Type_in demo_opaque_extern demo_browser demo_cu_kind
    ("Carol", "carols-pw", "carols-pw", {[ "mail" := ["carol@x"] ]} : gmap string (list string)).
Definition cu_click : @Move demo_opaque_extern demo_browser demo_cu_kind :=
  @Click demo_opaque_extern demo_browser demo_cu_kind SubmitForm.
Definition cu_ends (i : nat) : @Move demo_opaque_extern demo_browser demo_cu_kind := Ends i.

(** The form is loaded, the list of units last, and submitted; the account is created. *)
Definition demo_creation : result string (@Live demo_opaque_extern demo_browser demo_cu_kind Web) :=
  @perform_all demo_opaque_extern demo_browser demo_cu_kind Web demo_full_site
    [cu_ends 0; cu_ends 2; cu_ends 1; cu_types; cu_ends 0; cu_click; cu_ends 0]
    (@opened _ _ demo_cu_kind Web demo_bob_web (@create_user_create demo_opaque_extern demo_browser demo_bob_jar)).

Lemma demo_creation_reachable l :
  demo_creation = Ok l ->
  @reachable demo_opaque_extern demo_browser demo_cu_kind Web demo_full_site
    (@opened _ _ demo_cu_kind Web demo_bob_web (@create_user_create demo_opaque_extern demo_browser demo_bob_jar)) l.
Proof. unfold demo_creation. intros Er. eapply perform_all_reachable; [apply reach_start|exact Er]. Qed.

Definition no_picture (f : CreateUserForm) : bool :=
  bool_decide (from_option id [] (@cu_form_data demo_opaque_extern f !! "avatar") = []).

(** The answer to the start of the registration is handled. *)
Lemma create_user_panics_only_at_avatar_witness :
  match demo_creation with
  | Ok l => exists l', @perform demo_opaque_extern demo_browser demo_cu_kind Web demo_full_site (cu_ends 0) l = Ok l'
  | Err _ => False
  end.
Proof.
  assert (match demo_creation with
          | Ok l => match cx_tasks (lv_cx l) with [t] => match tk_call t with HRegisterStart _ => true | _ => false end | _ => false end
              && no_picture (cx_self (lv_cx l))
          | Err _ => false end = true) as Hl by (vm_compute; reflexivity).
  destruct demo_creation as [l|e] eqn:Er; [|discriminate Hl]. apply andb_true_iff in Hl as [Hl Hn].
  destruct (cx_tasks (lv_cx l) !! 0) as [t|] eqn:Et; [|by destruct (cx_tasks (lv_cx l))].
  destruct (@create_user_panics_only_at_avatar lawful_extern demo_opaque_extern demo_browser (fun _ => tt) Web demo_full_site
    demo_bob_jar demo_bob_web l _ (demo_creation_reachable l Er)
    (@task_ends demo_opaque_extern demo_browser demo_cu_kind Web demo_full_site l 0 t Et)) as [Hgo _].
  destruct Hgo as [[l' Hl']|Hc].
  - exists l'. unfold perform, cu_ends. rewrite Et. exact Hl'.
  - destruct (panic_has_picture _ _ _ Hc) as [v Hv]. apply bool_decide_eq_true_1 in Hn. rewrite Hn in Hv.
    exact (match not_elem_of_nil v Hv with end).
Defined.

(** A text in the field of the picture whose hundredth byte begins a character of two. *)
Definition long_accent : string := String.concat "" (repeat "a" 99) +:+ "é" +:+ "a".

(** It is cut inside that character, and the submission panics.  The field's own widget
    leaves base 64 there, whose characters are of one byte. *)
Example accented_picture_panics :
  match @perform_all demo_opaque_extern demo_browser demo_cu_kind Web
      (@web_site lawful_extern demo_sql_extern demo_opaque_extern demo_token_extern demo_web_extern "key" demo_config true
        (fun _ => "") (fun v q => match q return io Web string (HostAnswer (option (query_data q) * option (list string))) with
          | GetUserAttributesSchema => io_ret (MkHostAnswer 200 "" "" (Some (Some
              [MkFormAttribute "mail" false false true; MkFormAttribute "avatar" false false true], None)))
          | q => demo_graphql v q
          end))
      [cu_ends 0; cu_ends 2; cu_ends 1; @Type_in demo_opaque_extern demo_browser demo_cu_kind
        ("Carol", "carols-pw", "carols-pw", {[ "mail" := ["carol@x"]; "avatar" := [long_accent] ]} : gmap string (list string));
       cu_ends 0; cu_click]
      (@opened _ _ demo_cu_kind Web demo_bob_web (@create_user_create demo_opaque_extern demo_browser demo_bob_jar)) with
  | Ok _ => None
  | Err e => Some e
  end = Some "byte index 100 is not a char boundary".
Proof. vm_compute. reflexivity. Qed.
